(* ===== verification/_CoqProject ===== *)
-Q . S2P
Prelude.v
GoStrings.v
Errors.v
StateMachine.v
Effects.v
Calm.v
Transactions.v
Retry.v
Schema.v
TxStore.v
Limiter.v
Handlers.v
TxQueue.v
ChannelAccounts.v
Worker.v
WorkerProofs.v
WorkerSafety.v
Tables.v
SdpDb.v
PaymentStore.v
Platform.v
ReceiverStore.v
Messages.v
ReceiverWalletStore.v
DisbursementStore.v
Instructions.v
InstructionsSafety.v
Validators.v
Registration.v
RegistrationSafety.v
DisbursementMgmt.v
DisbursementHandler.v
DisbursementSafety.v
HandlerSafety.v
Tenant.v
Tenants.v
TenantHandlers.v
TenantSafety.v
EmbeddedStore.v
PaymentPipeline.v
PipelineSafety.v
SyncSafety.v
CircleClient.v
CircleStore.v
CircleDispatch.v
CirclePlatform.v
CircleSafety.v
CirclePayoutSafety.v
CircleLimits.v
CircleOutcome.v
Passwords.v
Authenticator.v
AuthManager.v
AuthHandlers.v
AuthWorld.v
AuthSafety.v
AuthInvariants.v
NetIP.v
ApiKeys.v
Access.v
Routes.v
KeyWorld.v
RouteSafety.v
ApiKeySafety.v
AccessSafety.v
Revocation.v
DirectPayments.v
PaymentsHandler.v
DirectPaymentSafety.v
EmbeddedService.v
EmbeddedSafety.v
Links.v
Invitations.v
InvitationSafety.v
SepTokens.v
Sep10.v
SepSafety.v
