(* ===== verification/Prelude.v ===== *)
(** A verification of the core of the Stellar Disbursement Platform.

    The platform pays many receivers for many organizations, its tenants.  The staff of
    a tenant drafts a disbursement, uploads its instructions, has it reviewed and
    starts it; its payments become ready as their receivers register a wallet; a job
    hands the ready payments to the transaction submission service (TSS), which signs
    and submits them to the Stellar network, or to Circle, for the tenants that pay
    from an account there; other jobs bring the outcomes back, and complete the
    disbursement.  Tenants are kept in the administrator's database; the data of a
    tenant, its staff and its keys in a database of the tenant; the queue of the TSS in
    one of its own.

    * The parts and the files

    Foundations:
    - Prelude.v (this file): results, lists, ordering, [LIMIT], updates by key,
      automation shared by all files;
    - GoStrings.v, Errors.v: the string functions, the hash and the error values of Go the
      code uses; the Horizon and RPC error wrappers of [transactionsubmission/utils/errors.go]
      with every predicate, and the simulation errors of [stellar/rpc.go];
    - StateMachine.v: [data/statemachine.go] and its four instances, [step] and
      [reachable] as relations;
    - Effects.v: programs that fail, read the clock, call third parties and talk to
      databases ([db/db.go]); [Env] is the adversary: faults of any call, what others
      write in between, time; [wp] and [respects] reason about every run;
    - Transactions.v: what runs inside an open transaction ([opens], [steps]) and what
      every program keeps of a database ([keeps]); Calm.v: traces, and programs while the
      others write nothing, which read what they were given ([read_only], [within],
      [outside]);
    - Retry.v: [retry.Do]; Schema.v: memos, account types, accounts of [pkg/schema];
      NetIP.v: addresses and networks of Go's [net].

    The submission service ([internal/transactionsubmission]):
    - TxStore.v: the queue, [store/transactions.go] over its table with constraints;
      TxQueue.v: what it guarantees its users;
    - ChannelAccounts.v: channel accounts and the bundles of jobs ([LoadAndLockTuples]);
    - Limiter.v: the processing limiter and the ledger number tracker;
    - Handlers.v: the inner transaction of a payment, of a wallet creation, of a
      sponsored call;
    - Worker.v: [transaction_worker.go], from [runJob] to the unlock, and the loading of
      the manager; WorkerProofs.v, WorkerSafety.v: its invariants, its trace, and its
      refinement of the abstract worker [Phases].

    The data of a tenant ([internal/data]):
    - Tables.v, SdpDb.v: the rows, and the constraints every statement
      is checked against; PaymentStore.v, ReceiverStore.v, ReceiverWalletStore.v,
      DisbursementStore.v, CircleStore.v: the operations of their models;
    - Instructions.v, InstructionsSafety.v: the upload of instructions, which creates or
      finds receivers, wallets and verifications and replaces the draft payments;
    - EmbeddedStore.v: embedded wallets and sponsored transactions, and the services that
      hand them to the TSS and bring their outcomes back;
    - Messages.v: messages to receivers, over the channels of the organization;
    - Platform.v: a concrete platform, at which the theorems are applied.

    The services and requests ([internal/services], [internal/serve]):
    - Validators.v: what is asked of what clients send, with the CSV of instructions;
    - DisbursementMgmt.v, DisbursementHandler.v: start, submit, pause, approve, reject,
      cancel, the check of the balance, and the requests about disbursements;
      DisbursementSafety.v, HandlerSafety.v: what they guarantee;
    - DirectPayments.v, PaymentsHandler.v: payments made without a disbursement, and the
      requests about payments; DirectPaymentSafety.v: what they guarantee;
    - Registration.v, RegistrationSafety.v: one-time passwords, and the verification that
      registers a receiver's wallet;
    - PaymentPipeline.v: [payment_to_submitter_service.go], the Stellar dispatcher and
      [payment_from_submitter_service.go], on both databases; PipelineSafety.v,
      SyncSafety.v: what the two directions guarantee;
    - EmbeddedService.v: invitations to embedded wallets, the wallets and the sponsored
      transactions that are asked for, with their requests; EmbeddedSafety.v: what they
      and their pipelines guarantee;
    - Links.v: signed registration links; Invitations.v: short links, the job that
      invites receivers, and the requests about their wallets; InvitationSafety.v: what
      the job guarantees.

    Wallets as clients ([internal/sepauth], [internal/services]):
    - SepTokens.v: the tokens of SEP-10, SEP-45 and SEP-24 with the middlewares that ask
      for one, and the requests of SEP-24; Sep10.v: the nonces, the challenges of SEP-10
      and their requests; SepSafety.v: what a token of SEP-10 proves.

    Circle ([internal/circle], [internal/services]):
    - CircleClient.v: the API and the client with its retries and limits;
      CircleDispatch.v: the two dispatchers, and the reconciliation of outcomes;
    - CircleSafety.v, CirclePayoutSafety.v, CircleLimits.v, CircleOutcome.v: what they
      guarantee; CirclePlatform.v: a small Circle for the witnesses.

    Tenants ([stellar-multitenant], [pkg/schema]):
    - Tenant.v: the tenant of a request, its distribution account and memo;
    - Tenants.v, TenantHandlers.v: the table of tenants, and the requests of the
      administrators on it; TenantSafety.v: what they guarantee.

    The staff and access ([stellar-auth], [internal/serve/middleware]):
    - Passwords.v, Authenticator.v, AuthManager.v: passwords, users with their reset
      tokens, second factors, roles, the tokens of logins; AuthHandlers.v: the requests of
      the staff about themselves and users;
      AuthSafety.v, AuthInvariants.v: what they guarantee; AuthWorld.v: a small staff;
    - ApiKeys.v: the keys of programs; Access.v: the middlewares that find the tenant,
      the user or the key of a request; Routes.v: the routes of both servers as data,
      with what guards them; RouteSafety.v, ApiKeySafety.v, AccessSafety.v, Revocation.v:
      what they guarantee; KeyWorld.v: two organizations on one server.

    Definitions have the names of the code; where two methods share a name the model's
    prefix tells them apart ([Payment_Update], [RW_Update], [Tx_Lock], [Keys_Update]), or
    the file does ([Registration.validate], [Access.validate]), as does the prefix of a
    record's fields ([Pay_ID], [Dis_ID], [RW_ID], [AU_ID]).

    * What the theorems show

    Worker: an envelope leaves only after its hash is saved; a run moves the status by
    the state machine, to SUCCESS only on Horizon's word; a hash is dropped only when
    the network does not know it; other rows are untouched; jobs are unlocked; bundles
    are exclusive; inner transactions expire with the lock and pay what is recorded.
    Queue: each update is lawful under faults and interference; batches are the oldest
    unsynchronised rows; marking is exact; locks exclude; one live row per payment.
    Payments: the checked updates follow the lifecycle under faults and interference,
    from the status SQL compares or the one the caller read; dispatch takes all that is
    ready, as far as a batch holds it, and queues each sendable payment once, as recorded;
    synchronisation takes all that has finished, settles each payment once, and completes
    a disbursement it changed when all of it is paid.  Circle: a request is
    recorded before it leaves, whatever becomes of the transaction around it; a payout
    goes to a recipient that is current; the requests sent are bounded, and the
    dispatch ends; payments follow the status Circle has.
    Disbursements: an upload replaces the drafts with what the file says and never
    overwrites a verified receiver; started only when approved where that is asked for and
    the balance passes the check, which is exact to a cent; reviewed along
    the workflow, deleted only before they start; a direct payment is funded and goes to
    a wallet that is ready for it.  Registration: who is registered was
    verified; guesses are counted.  Invitations go to whom they are due, as recorded; the
    link of one verifies and says what it should.  Embedded wallets and sponsored
    transactions are queued once and settled by their outcome; an invitation to a wallet
    is redeemed once.  Wallets: a token of SEP-10 proves a signed, unexpired challenge
    of this server whose nonce is then used up; it opens the routes of that account; a
    challenge that is made can be read back.  Tenants: the table stays well formed; deactivated and
    deleted only as guarded.  Staff: a login is that of an active user with the second
    factor; codes and reset tokens are used once; the tables stay well formed.
    Access: a handler is reached only with a key or a token of that very tenant that
    is good for the route; duties are apart; lists of addresses are networks as prefixes;
    a key opens what it was made for, use after use, until it is deleted and forgotten.
    Foundations: the state machines, transactions all or nothing, memos, error classes.
    Each kind of statement is there: safety and invariants under an arbitrary [Env],
    functional behaviour while the others write nothing ([Calm.v]), termination and
    bounds of the retries, round trips of keys and memos, a refinement of the worker.
    Theorems that show behaviour other than what the code means or documents are among
    them: a lost commit between two databases wedges a payment; a paused disbursement is
    stuck where approvals are required; rounding starts a disbursement from an empty
    account; requests Circle never settles block its queue; an expired code remembers a
    device; a token of an inactive tenant opens routes of another; roles open other
    routes than their comments say; a lost commit registers one wallet with two keys;
    the fragment of a deep link hides its signature; a message that is too long is sent
    again and again; an account with thresholds of zero earns a token without signing.

    * How the code is modelled

    Programs are functions [World -> result * World], so every operation returns; loops
    over lists are structural.  The fuel of the library, each at least the number of
    rounds of the loop: [GoStrings.trim_front] (the length of the string), the
    functions on runes [rune_count], [split_runes], [drop_alnum] (the bytes that are
    left), [GoStrings.blocks] (the number of words), [NetIP.ipv6_groups] (the groups an
    address can have), the attempts at a short code ([Invitations.code_attempts], five as in the
    code), the retries (their number).
    Code that is not of the repository is a class, with the laws the theorems use beside
    it and a toy instance in the files of the witnesses: the Stellar SDK ([StellarSdk],
    and the signer and network of Handlers.v and Worker.v); the decimal texts of the
    driver and of [shopspring/decimal] ([Numerics]); UUIDs ([UuidGen], [PgUuid],
    [GoogleUuid]); URLs ([RequestURLs], [TokenLinks]); CSV ([gocsv]); phone numbers
    and HTML ([PhoneNumbers], [HtmlText]); templates ([Templates], [EmbeddedTemplates]);
    the order of texts ([Collation]) and of the ranges of a map ([MapRange]); bcrypt,
    random numbers ([CryptoRand], [CryptoBytes]), the library of the tokens
    ([JwtLibrary], [KeyPair], [StableTokens]) and of the claims; reCAPTCHA; messengers;
    the cache of validated keys ([KeyCache]); Horizon's accounts and the status of its
    errors ([HorizonAccounts], [HorizonErrors]); the HTTP client and JSON of Circle
    ([CircleHttp], [CircleJson], [Jsonb]) and its floating point amounts ([ParseFloat]);
    contract addresses and calls ([ContractIds], [OperationXdr]); the URLs and key pairs
    of signed links ([GoUrls], [StellarKeypairs]); the order of [SELECT DISTINCT]
    ([DistinctOrder]), and of rows an [ORDER BY] ties ([TieOrder]); the tokens of wallets ([WalletJwt]); what SEP-10 needs of the SDK
    and of Horizon ([ChallengeSdk]).
    Amounts of NUMERIC(19,7) columns are integers of 10^-7, decimals are rationals;
    ledger numbers are kept at 32 bits; times are integers.

    A statement sees the tables at one instant; others write between statements, but
    wait while a transaction of the program is open, the isolation its row locks give
    it; [FOR UPDATE SKIP LOCKED] skips the rows [Env] says are held.  A transaction
    that fails restores the tables; its commit may be lost before or after it took
    effect.  What the code does on the connection pool during a transaction is on the
    committed tables ([on_pool]), and survives the rollback; [beside_idle] is a
    transaction whose body never uses it.  So requests that race on rows neither locks
    are covered between transactions, not within one.  The tables of the staff and of
    the keys are databases of their own here, as no transaction writes to two of them;
    so is the memory of the server that holds the validated keys, which has no
    transactions.  The answer of a panic is an error, which nothing the code recovers
    from catches but the outermost handler.  A handler answers with what it renders or
    with an [HTTPError]; the extra fields of an error and the order in which users are
    listed are left out.  Logging, metrics and crash reports are left out, but for the
    events of the worker's trace.

    * What is not modelled

    - The challenges of SEP-45, which are simulations of a contract over RPC, and passkeys,
      whose ceremonies are of the WebAuthn library;
    - the provisioning of tenants, which creates schemas, runs migrations and funds
      accounts, and the service of channel accounts and the vault: they build transactions
      by the SDK and encrypt keys;
    - signing, which calls the SDK with a key of the vault: the worker takes the signer as
      a parameter;
    - the statistics, listings and exports of the user interface: aggregate queries and the
      text of SQL;
    - the bridge, CAPTCHA, mail and message clients: third-party services behind HTTP;
    - timers, metrics, crash reports, the wiring of the servers, flags and configuration;
    - the contracts and the front end, which are in other languages. *)

From stdpp Require Export base tactics list option strings gmap sorting pretty.
From Stdlib Require Export ZArith Lia.

#[global] Set Default Goal Selector "!".

Declare Scope go_scope.
Delimit Scope go_scope with go.
Global Open Scope go_scope.

(** The hint databases of the development: [go] resolves the side goals that
    recur in every component, [effects] the stability of effectful programs. *)
Create HintDb go discriminated.
Create HintDb effects discriminated.
#[export] Hint Constants Opaque : effects.

(** ** Strings *)

Notation "s =? t" := (String.eqb s t) (at level 70, no associativity) : go_scope.
Notation "s <>? t" := (negb (String.eqb s t)) (at level 70, no associativity) : go_scope.

Lemma eqb_true s t : (s =? t) = true <-> s = t.
Proof. apply String.eqb_eq. Qed.

Lemma eqb_false s t : (s =? t) = false <-> s <> t.
Proof. apply String.eqb_neq. Qed.

Lemma eqb_same s : (s =? s) = true.
Proof. apply String.eqb_refl. Qed.
Create Rewrite HintDb go_rewrite.
#[export] Hint Rewrite eqb_same : go_rewrite.

(** [slices.Contains] on the string-based types of the code. *)
Definition slices_Contains (l : list string) (x : string) : bool :=
  existsb (String.eqb x) l.

Lemma slices_Contains_spec l x : slices_Contains l x = true <-> x ∈ l.
Proof.
  unfold slices_Contains. rewrite existsb_exists. split.
  - intros (y & Hin & Heq). apply String.eqb_eq in Heq as ->.
    by apply list_elem_of_In.
  - intros Hin. exists x. split; [by apply list_elem_of_In | apply String.eqb_refl].
Qed.

Lemma slices_Contains_false l x : slices_Contains l x = false <-> x ∉ l.
Proof. rewrite <- slices_Contains_spec. by destruct (slices_Contains l x); split. Qed.

(** ** Nullable integers *)

(** [a <= b] on a nullable right-hand side, the way [sql.NullInt32] is used:
    false when the value is not valid. *)
Definition null_ge (b : option Z) (a : Z) : bool :=
  match b with Some v => (a <=? v)%Z | None => false end.

(** The conversions [int32(x)] and [uint32(x)] of Go: two's complement wrap-around. *)
Definition int32 (x : Z) : Z := ((x + 2 ^ 31) mod 2 ^ 32 - 2 ^ 31)%Z.
Definition uint32 (x : Z) : Z := (x mod 2 ^ 32)%Z.

Lemma int32_range x : (- 2 ^ 31 <= int32 x < 2 ^ 31)%Z.
Proof. unfold int32. pose proof (Z.mod_pos_bound (x + 2 ^ 31) (2 ^ 32)). lia. Qed.

Lemma int32_id x : (- 2 ^ 31 <= x < 2 ^ 31)%Z -> int32 x = x.
Proof. intros H. unfold int32. rewrite Z.mod_small; lia. Qed.

Lemma uint32_id x : (0 <= x < 2 ^ 32)%Z -> uint32 x = x.
Proof. intros H. unfold uint32. by rewrite Z.mod_small. Qed.

(** ** Results: a Go pair [(value, error)] where one of the two is meaningful *)

Inductive result (E A : Type) : Type :=
  | Ok (a : A)
  | Err (e : E).
Arguments Ok {E A} a.
Arguments Err {E A} e.

Definition is_ok {E A} (r : result E A) : bool :=
  match r with Ok _ => true | Err _ => false end.

Definition res_bind {E A B} (r : result E A) (k : A -> result E B) : result E B :=
  match r with Ok a => k a | Err e => Err e end.

Definition res_map_err {E A} (f : E -> E) (r : result E A) : result E A :=
  match r with Ok a => Ok a | Err e => Err (f e) end.

(** [if cond { return err }]. *)
Definition guard_err {E} (cond : bool) (e : E) : result E unit :=
  if cond then Err e else Ok tt.

Notation "'let?' x ':=' r 'in' k" := (res_bind r (fun x => k))
  (at level 10, x pattern, r at level 100, k at level 200) : go_scope.

Lemma res_bind_ok {E A B} (r : result E A) (k : A -> result E B) b :
  res_bind r k = Ok b <-> exists a, r = Ok a /\ k a = Ok b.
Proof.
  destruct r as [a|e]; cbn; split; [by eauto|by intros (? & [= <-] & ?)|done|].
  by intros (? & ? & ?).
Qed.

Lemma guard_err_ok {E} c (e : E) u : guard_err c e = Ok u <-> c = false.
Proof. destruct c, u; cbn; naive_solver. Qed.

(** The loop [for _, x := range l { if err := f(x); err != nil { return err } }]. *)
Fixpoint res_forM {E A} (f : A -> result E unit) (l : list A) : result E unit :=
  match l with
  | [] => Ok tt
  | x :: l' => let? _ := f x in res_forM f l'
  end.

Lemma res_forM_ok {E A} (f : A -> result E unit) l u :
  res_forM f l = Ok u <-> Forall (fun x => f x = Ok tt) l.
Proof.
  destruct u. induction l as [|x l IH]; cbn; [by rewrite Forall_nil|].
  rewrite res_bind_ok, Forall_cons, <- IH. split.
  - by intros ([] & ? & ?).
  - intros [? ?]. by exists tt.
Qed.

(** ** Field updates of records *)

(** [Eta R] holds the identity of a record type written with all its
    projections; [set_field p] is obtained from it by abstracting [p]. *)
Class Eta (R : Type) := eta_expand : R -> R.
Class Setter {R T : Type} (p : R -> T) := set_field : (T -> T) -> R -> R.
Arguments set_field {R T} p {_} _ _ /.

Ltac derive_setter p :=
  lazymatch type of p with
  | ?R -> _ =>
    let inst := constr:(ltac:(typeclasses eauto) : Eta R) in
    let body := lazymatch inst with ?i => eval red in i end in
    lazymatch eval pattern p in body with
    | ?g _ => exact (fun f r => g (fun r' => f (p r')) r)
    end
  end.

#[export] Hint Extern 0 (@Setter _ _ ?p) => derive_setter p : typeclass_instances.

Notation "r <| p := v |>" := (set_field p (fun _ => v) r)
  (at level 1, left associativity, p at level 10, v at level 200,
   format "r <| p  :=  v |>") : go_scope.

(** ** Lists *)

(** A key that no two elements share tells them apart. *)
Lemma omap_unique {A B} (f : A -> option B) (l : list A) x y b :
  NoDup (omap f l) -> x ∈ l -> y ∈ l -> f x = Some b -> f y = Some b -> x = y.
Proof.
  induction l as [|a l IH]; intros Hnd Hx Hy Hfx Hfy; [by apply elem_of_nil in Hx|]. cbn in Hnd.
  assert (Hin : forall z, z ∈ l -> f z = Some b -> b ∈ omap f l) by (intros z Hz Hf; apply list_elem_of_omap; eauto).
  assert (Htail : NoDup (omap f l)) by (destruct (f a); [by apply NoDup_cons in Hnd as [_ ?]|done]).
  apply elem_of_cons in Hx as [->|Hx], Hy as [->|Hy]; [done| | |by apply IH].
  - rewrite Hfx in Hnd. apply NoDup_cons in Hnd as [Hnd _]. destruct Hnd. by apply (Hin y).
  - rewrite Hfy in Hnd. apply NoDup_cons in Hnd as [Hnd _]. destruct Hnd. by apply (Hin x).
Qed.

Lemma map_unique {A B} (f : A -> B) (l : list A) x y : NoDup (map f l) -> x ∈ l -> y ∈ l -> f x = f y -> x = y.
Proof.
  intros Hnd Hx Hy He. apply (omap_unique (fun z => Some (f z)) l x y (f x)); [|done|done|done|by rewrite He].
  replace (omap (fun z => Some (f z)) l) with (map f l); [done|].
  clear. induction l as [|a l IH]; [done|]. cbn. by rewrite IH.
Qed.

(** Replace every element that satisfies [p] by its image under [f]. *)
Definition update_where {A} (p : A -> bool) (f : A -> A) (l : list A) : list A :=
  map (fun x => if p x then f x else x) l.

Section update_where.
Context {A : Type} (p : A -> bool) (f : A -> A).

Lemma update_where_length l : length (update_where p f l) = length l.
Proof. apply length_map. Qed.

Lemma update_where_none l : (forall x, x ∈ l -> p x = false) -> update_where p f l = l.
Proof.
  intros H. unfold update_where. rewrite <- (map_id l) at 2. apply map_ext_in.
  intros x Hin. rewrite H; [done | by apply list_elem_of_In].
Qed.

Lemma elem_of_update_where l y :
  y ∈ update_where p f l <-> exists x, x ∈ l /\ y = (if p x then f x else x).
Proof.
  unfold update_where. rewrite list_elem_of_fmap. split; intros (x & ? & ?); eauto.
Qed.

(** A projection that [f] keeps is kept for the whole list. *)
Lemma update_where_proj {B} (q : A -> B) l :
  (forall x, p x = true -> q (f x) = q x) -> map q (update_where p f l) = map q l.
Proof.
  intros H. unfold update_where. rewrite map_map. apply map_ext.
  intros x. destruct (p x) eqn:E; auto.
Qed.

Lemma update_where_app l1 l2 :
  update_where p f (l1 ++ l2) = update_where p f l1 ++ update_where p f l2.
Proof. apply map_app. Qed.
End update_where.

(** [first_such p l]: the row [GetContext] scans, the first of the result set. *)
Definition first_such {A} (p : A -> bool) (l : list A) : option A := List.find p l.

Lemma first_such_some {A} (p : A -> bool) l x :
  first_such p l = Some x -> x ∈ l /\ p x = true.
Proof. intros H. apply List.find_some in H as [? ?]. by split; [apply list_elem_of_In|]. Qed.

Lemma first_such_none {A} (p : A -> bool) l :
  first_such p l = None <-> forall x, x ∈ l -> p x = false.
Proof.
  split.
  - intros H x Hin. apply (List.find_none _ _ H). by apply list_elem_of_In.
  - intros H. induction l as [|a l IH]; [done|]. cbn.
    rewrite H by (by apply list_elem_of_here). apply IH. intros x Hx.
    apply H. by apply list_elem_of_further.
Qed.

(** An update that keeps the key of the search updates the row that is found. *)
Lemma first_such_update {A} (k p : A -> bool) (f : A -> A) l :
  (forall x, k (f x) = k x) ->
  first_such k (update_where p f l) = (fun x => if p x then f x else x) <$> first_such k l.
Proof.
  intros Hk. induction l as [|a l IH]; [done|]. cbn.
  assert (Ha : k (if p a then f a else a) = k a) by (destruct (p a); [apply Hk|done]).
  rewrite Ha. destruct (k a); [done|]. apply IH.
Qed.

Lemma first_such_ext {A} (p q : A -> bool) l :
  (forall x, p x = q x) -> first_such p l = first_such q l.
Proof. intros H. induction l as [|a l IH]; [done|]. cbn. rewrite H. by destruct (q a). Qed.

Lemma first_such_filter {A} (p q : A -> bool) l :
  first_such p (filter (fun x => q x = true) l) = first_such (fun x => q x && p x) l.
Proof.
  induction l as [|a l IH]; [done|]. rewrite filter_cons. cbn [first_such List.find].
  destruct (q a); [rewrite decide_True by done|by rewrite decide_False by done].
  cbn. by destruct (p a).
Qed.

Lemma hd_filter {A} (p : A -> bool) l :
  hd_error (filter (fun x => p x = true) l) = first_such p l.
Proof.
  induction l as [|a l IH]; [done|]. rewrite filter_cons. cbn.
  destruct (decide (p a = true)) as [E|E]; [by rewrite E|].
  apply not_true_is_false in E. by rewrite E.
Qed.

(** With a unique key, the search for the key and a condition finds the row of
    the key when it meets the condition, and nothing otherwise. *)
Lemma first_such_key {A} (key : A -> string) (k : string) (q : A -> bool) l :
  NoDup (map key l) ->
  first_such (fun x => (key x =? k) && q x) l =
    match first_such (fun x => key x =? k) l with
    | Some x => if q x then Some x else None
    | None => None
    end.
Proof.
  induction l as [|a l IH]; [done|]. cbn. rewrite NoDup_cons. intros [Hnin Hnd].
  destruct (String.eqb_spec (key a) k) as [<-|Hk]; cbn; [|by apply IH].
  destruct (q a); [done|].
  change (first_such (fun x => (key x =? key a) && q x) l = None). rewrite IH by done.
  assert (Hnone : first_such (fun x => key x =? key a) l = None).
  { apply first_such_none. intros x Hx. apply eqb_false. intros Heq. apply Hnin.
    rewrite <- Heq. apply list_elem_of_fmap. eauto. }
  by rewrite Hnone.
Qed.

Lemma first_such_unique {A} (key : A -> string) k l x :
  NoDup (map key l) -> x ∈ l -> key x = k -> first_such (fun y => key y =? k) l = Some x.
Proof.
  intros Hnd Hin <-. induction l as [|a l IH]; [by apply elem_of_nil in Hin|].
  cbn in *. apply NoDup_cons in Hnd as [Ha Hnd].
  apply elem_of_cons in Hin as [<-|Hin]; [by rewrite eqb_same|].
  destruct (String.eqb_spec (key a) (key x)) as [Heq|_]; [|by apply IH].
  destruct Ha. rewrite Heq. apply list_elem_of_fmap. eauto.
Qed.

Lemma first_such_app {A} (p : A -> bool) l1 l2 :
  first_such p (l1 ++ l2) =
    match first_such p l1 with Some x => Some x | None => first_such p l2 end.
Proof. induction l1 as [|a l1 IH]; [done|]. cbn. by destruct (p a). Qed.

(** A Go map filled in the order of a list: [for _, x := range l { m[key(x)] = x }]. *)
Definition map_by {A} (key : A -> string) (l : list A) : gmap string A :=
  foldl (fun m x => <[key x := x]> m) ∅ l.

Lemma map_by_elem {A} (key : A -> string) l k x : map_by key l !! k = Some x -> x ∈ l /\ key x = k.
Proof.
  unfold map_by. assert (Hgen : forall m : gmap string A, (forall k x, m !! k = Some x -> key x = k) ->
    foldl (fun m x => <[key x := x]> m) m l !! k = Some x -> (x ∈ l \/ m !! k = Some x) /\ key x = k).
  { induction l as [|a l IH]; intros m Hm; cbn; [naive_solver|]. intros H.
    apply IH in H as [[H|H] Hk].
    - split; [left; by apply list_elem_of_further|done].
    - apply lookup_insert_Some in H as [[<- <-]|[_ H]]; [split; [left; apply list_elem_of_here|done]|].
      by split; [right|].
    - intros k' x' Hl. apply lookup_insert_Some in Hl as [[<- <-]|[_ Hl]]; [done|by apply Hm]. }
  intros H. apply Hgen in H as [[H|H] ?]; [done| |]; [by rewrite lookup_empty in H|].
  intros k' x' Hl. by rewrite lookup_empty in Hl.
Qed.

Lemma map_by_lookup {A} (key : A -> string) l k :
  NoDup (map key l) -> map_by key l !! k = first_such (fun x => key x =? k) l.
Proof.
  unfold map_by. intros Hnd. assert (Hgen : forall m : gmap string A, foldl (fun m x => <[key x := x]> m) m l !! k =
    match first_such (fun x => key x =? k) l with Some x => Some x | None => m !! k end).
  { induction l as [|a l IH]; intros m; cbn; [done|]. cbn in Hnd. apply NoDup_cons in Hnd as [Ha Hnd].
    rewrite IH by done. destruct (String.eqb_spec (key a) k) as [<-|Hk].
    - assert (Hn : first_such (fun x => key x =? key a) l = None).
      { apply first_such_none. intros x Hx. apply eqb_false. intros Heq. apply Ha.
        rewrite <- Heq. apply list_elem_of_fmap. eauto. }
      rewrite Hn. by rewrite lookup_insert_eq.
    - change (List.find (fun x => key x =? k) l) with (first_such (fun x => key x =? k) l).
      destruct (first_such _ l); [done|]. by rewrite lookup_insert_ne. }
  rewrite Hgen, lookup_empty. by destruct (first_such _ l).
Qed.

(** [ORDER BY key ASC]: NULL last, rows with equal keys in physical order. *)
Definition key_le (a b : option Z) : bool :=
  match a, b with
  | _, None => true
  | None, Some _ => false
  | Some x, Some y => (x <=? y)%Z
  end.

Section sort_by.
Context {A : Type} (key : A -> option Z).

Fixpoint insert_by (x : A) (sorted : list A) : list A :=
  match sorted with
  | y :: rest => if key_le (key x) (key y) then x :: sorted else y :: insert_by x rest
  | [] => [x]
  end.

Fixpoint sort_by (l : list A) : list A :=
  match l with
  | [] => []
  | x :: l' => insert_by x (sort_by l')
  end.

Lemma insert_by_perm x l : insert_by x l ≡ₚ x :: l.
Proof.
  induction l as [|y l IH]; cbn; [done|]. destruct (key_le _ _); [done|].
  rewrite IH. apply Permutation_swap.
Qed.

Lemma sort_by_perm l : sort_by l ≡ₚ l.
Proof. induction l as [|x l IH]; cbn; [done|]. by rewrite insert_by_perm, IH. Qed.

Lemma key_le_total a b : key_le a b = false -> key_le b a = true.
Proof. destruct a, b; cbn; try done. intros ?. lia. Qed.

Lemma sort_by_sorted l : Sorted (fun x y => key_le (key x) (key y) = true) (sort_by l).
Proof.
  induction l as [|x l IH]; cbn; [constructor|].
  induction IH as [|y l' Hl IH Hhd]; cbn; [by repeat constructor|].
  destruct (key_le (key x) (key y)) eqn:E; [by repeat constructor|].
  constructor; [done|]. apply key_le_total in E.
  destruct l' as [|z l'']; cbn; [by constructor|].
  destruct (key_le (key x) (key z)); [by constructor|]. inversion Hhd; by constructor.
Qed.
End sort_by.

(** A stable sort by any comparison. *)
Fixpoint insert_with {A} (le : A -> A -> bool) (x : A) (l : list A) : list A :=
  match l with
  | [] => [x]
  | y :: l' => if le x y then x :: l else y :: insert_with le x l'
  end.

Definition sort_with {A} (le : A -> A -> bool) (l : list A) : list A := foldr (insert_with le) [] l.

Lemma insert_with_perm {A} (le : A -> A -> bool) x l : insert_with le x l ≡ₚ x :: l.
Proof.
  induction l as [|y l IH]; cbn; [done|]. destruct (le x y); [done|].
  rewrite IH. apply Permutation_swap.
Qed.

Lemma sort_with_perm {A} (le : A -> A -> bool) l : sort_with le l ≡ₚ l.
Proof. induction l as [|x l IH]; cbn; [done|]. by rewrite insert_with_perm, IH. Qed.

Section sort_with.
Context {A : Type} (le : A -> A -> bool).
Context (le_trans : forall a b c, le a b = true -> le b c = true -> le a c = true).
Context (le_total : forall a b, le a b = false -> le b a = true).

Lemma sort_with_sorted l : StronglySorted (fun x y => le x y = true) (sort_with le l).
Proof using le_trans le_total.
  induction l as [|x l IH]; [constructor|].
  change (sort_with le (x :: l)) with (insert_with le x (sort_with le l)).
  induction IH as [|y l' Hl IH Hall]; cbn; [by repeat constructor|].
  destruct (le x y) eqn:Hxy.
  - constructor; [by constructor|]. constructor; [done|].
    eapply Forall_impl; [exact Hall|]. intros z Hz. by apply (le_trans x y).
  - constructor; [done|]. rewrite Forall_forall in Hall |- *. intros z Hz.
    rewrite insert_with_perm, elem_of_cons in Hz. destruct Hz as [->|Hz]; [by apply le_total|by apply Hall].
Qed.

(** What is among the first [n] has fewer than [n] strictly before it. *)
Lemma take_sorted_rank n l x :
  x ∈ take n (sort_with le l) -> length (filter (fun y => le x y = false) l) < n.
Proof using le_trans le_total.
  intros Hx. rewrite <- (sort_with_perm le l). pose proof (sort_with_sorted l) as Hs.
  revert n Hx. induction Hs as [|y s Hs IH Hall]; intros n Hx.
  { rewrite take_nil in Hx. by apply elem_of_nil in Hx. }
  destruct n as [|n]; [by apply elem_of_nil in Hx|]. cbn in Hx. apply elem_of_cons in Hx as [->|Hx].
  - assert (Hyy : le y y = true) by (destruct (le y y) eqn:Hy; [done|by rewrite (le_total y y Hy) in Hy]).
    rewrite filter_cons_False by (by rewrite Hyy). clear - Hall.
    induction Hall as [|z s Hz _ IH]; [cbn; lia|]. by rewrite filter_cons_False by (by rewrite Hz).
  - rewrite filter_cons. specialize (IH n Hx). destruct (decide _); cbn; lia.
Qed.
End sort_with.

(** [LIMIT n] after [ORDER BY]: what is left out comes later than what is taken,
    and nothing is left out unless [n] rows are taken. *)
Lemma key_le_trans a b c : key_le a b = true -> key_le b c = true -> key_le a c = true.
Proof. destruct a, b, c; cbn; try done. intros ? ?. lia. Qed.

Lemma limit_takes_least {A} (key : A -> option Z) n l x :
  x ∈ l -> x ∉ take n (sort_by key l) ->
  length (take n (sort_by key l)) = n /\
  Forall (fun y => key_le (key y) (key x) = true) (take n (sort_by key l)).
Proof.
  intros Hin Hout. rewrite <- (sort_by_perm key l) in Hin.
  assert (Hs : StronglySorted (fun x y => key_le (key x) (key y) = true) (sort_by key l)).
  { apply Sorted_StronglySorted; [intros ? ? ?; apply key_le_trans|apply sort_by_sorted]. }
  revert n Hin Hout. induction Hs as [|y l' Hs IH Hall]; intros n Hin Hout;
    [by apply elem_of_nil in Hin|].
  destruct n as [|n]; [by split; [|constructor]|]. cbn in *.
  apply not_elem_of_cons in Hout as [Hne Hout]. apply elem_of_cons in Hin as [->|Hin]; [done|].
  destruct (IH n Hin Hout) as [Hlen Hf]. split; [by rewrite Hlen|]. constructor; [|done].
  rewrite Forall_forall in Hall. by apply Hall.
Qed.

Lemma Sorted_take {A} (R : A -> A -> Prop) n l : Sorted R l -> Sorted R (take n l).
Proof.
  intros H. revert n. induction H as [|x l Hl IH Hhd]; intros [|n]; try by constructor.
  cbn. constructor; [done|]. destruct n, Hhd; by constructor.
Qed.

(** What [WHERE ... ORDER BY ... LIMIT] selects is part of the table. *)
Lemma select_submseteq {A} (key : A -> option Z) (p : A -> bool) n l :
  take n (sort_by key (filter (fun x => p x = true) l)) ⊆+ l.
Proof.
  etransitivity; [apply submseteq_take|].
  etransitivity; [apply Permutation_submseteq, sort_by_perm|].
  apply sublist_submseteq, sublist_filter.
Qed.

Lemma NoDup_key_select {A B} (key : A -> B) l' l :
  l' ⊆+ l -> NoDup (map key l) -> NoDup (map key l').
Proof.
  intros Hs Hnd. apply submseteq_Permutation in Hs as [k Hk].
  rewrite (Permutation_map key Hk), map_app in Hnd. by apply NoDup_app in Hnd as [? _].
Qed.

(** A projection that determines another, on a list, is as injective. *)
Lemma NoDup_map_through {A B C} (f : A -> B) (g : A -> C) l :
  (forall x y, x ∈ l -> y ∈ l -> f x = f y -> g x = g y) -> NoDup (map g l) -> NoDup (map f l).
Proof.
  induction l as [|a l IH]; intros Hfg; cbn; [constructor|]. rewrite !NoDup_cons. intros [Ha Hnd].
  split.
  - intros Hin. apply list_elem_of_fmap in Hin as (b & Hb & Hin). apply Ha.
    rewrite (Hfg a b); [by apply list_elem_of_fmap_2|apply list_elem_of_here| |done].
    by apply list_elem_of_further.
  - apply IH; [|done]. intros x y Hx Hy. apply Hfg; by apply list_elem_of_further.
Qed.

(** When an update of the rows with the listed keys that meet [q] hits as many
    rows as there are keys, it hit exactly those. *)
Lemma exact_hits {A} (key : A -> string) (keys : list string) (q : A -> bool) l :
  NoDup (map key l) ->
  length (filter (fun x => slices_Contains keys (key x) && q x = true) l) = length keys ->
  NoDup keys /\ forall k, k ∈ keys -> exists x, x ∈ l /\ key x = k /\ q x = true.
Proof.
  intros Hnd Hlen. set (hit := filter _ l) in *.
  assert (Hin : forall x, x ∈ hit -> x ∈ l /\ key x ∈ keys /\ q x = true).
  { intros x Hx. apply list_elem_of_filter in Hx as [Hx ?]. apply andb_true_iff in Hx as [Hk ?].
    by apply slices_Contains_spec in Hk. }
  assert (Hsub : NoDup (map key hit))
    by (eapply NoDup_key_select; [apply sublist_submseteq, sublist_filter|exact Hnd]).
  assert (Hperm : map key hit ≡ₚ keys).
  { apply submseteq_length_Permutation; [|by rewrite length_map, Hlen].
    apply NoDup_submseteq; [done|]. intros k Hk. apply list_elem_of_fmap in Hk as (x & -> & Hx).
    by apply Hin. }
  split; [by rewrite <- Hperm|]. intros k Hk. rewrite <- Hperm in Hk.
  apply list_elem_of_fmap in Hk as (x & -> & Hx). exists x. destruct (Hin x Hx) as (? & _ & ?). done.
Qed.

(** ** Tactics *)

(** Split conjunctions, equalities of constructors and booleans in the context. *)
Ltac go_simp :=
  repeat first
    [ progress simplify_eq/=
    | match goal with
      | H : negb ?b = _ |- _ => apply (f_equal negb) in H; rewrite negb_involutive in H; cbn in H
      | H : (_ =? _)%string = _ |- _ => first [apply String.eqb_eq in H | apply String.eqb_neq in H]
      | H : orb _ _ = false |- _ => apply orb_false_iff in H as [? ?]
      | H : ∃ _, _ |- _ => destruct H
      | H : andb _ _ = true |- _ => apply andb_true_iff in H as [? ?]
      | H : _ ∧ _ |- _ => destruct H
      end ].

(** Prove a closed decidable proposition by running its decision procedure. *)
Ltac by_computation := refine (bool_decide_unpack _ _); vm_compute; exact I.

(** Case analysis on every [match] and [if] of the goal. *)
Ltac go_cases := repeat (case_match; go_simp; try done).
