(* ===== verification/GoStrings.v ===== *)
(** The functions of Go's [strings], [strconv], [encoding/hex] and [crypto/sha256]
    packages the code calls, on byte strings.

    A Go string is a sequence of bytes, here a Rocq [string].  [ToUpper] and
    [ToLower] are exact on ASCII and on the only runes outside ASCII whose
    image is ASCII (U+017F, U+0131, U+212A and U+0130); every other rune has a
    non-ASCII image and is left as it is, so comparisons with the ASCII
    constants of the code have the same result.  [TrimSpace] removes the bytes
    of every rune of [unicode.IsSpace].  [Sum256] is SHA-256 by FIPS 180-4, on words
    of 32 bits. *)

From S2P Require Import Prelude.
From Stdlib Require Import Ascii String.

Local Open Scope string_scope.

(** ** Characters *)

Definition code (c : ascii) : nat := nat_of_ascii c.
Definition byte_of (n : nat) : ascii := ascii_of_nat n.

Definition is_lower (c : ascii) : bool := (97 <=? code c)%nat && (code c <=? 122)%nat.
Definition is_upper (c : ascii) : bool := (65 <=? code c)%nat && (code c <=? 90)%nat.
Definition is_digit (c : ascii) : bool := (48 <=? code c)%nat && (code c <=? 57)%nat.

Definition upper_char (c : ascii) : ascii :=
  if is_lower c then byte_of (code c - 32) else c.
Definition lower_char (c : ascii) : ascii :=
  if is_upper c then byte_of (code c + 32) else c.

(** ** Case mapping *)

Fixpoint ToUpper (s : string) : string :=
  match s with
  | String "197" (String "191" s') => String "S" (ToUpper s')   (* U+017F *)
  | String "196" (String "177" s') => String "I" (ToUpper s')   (* U+0131 *)
  | String c s' => String (upper_char c) (ToUpper s')
  | EmptyString => EmptyString
  end.

Fixpoint ToLower (s : string) : string :=
  match s with
  | String "226" (String "132" (String "170" s')) => String "k" (ToLower s')   (* U+212A *)
  | String "196" (String "176" s') => String "i" (ToLower s')                  (* U+0130 *)
  | String c s' => String (lower_char c) (ToLower s')
  | EmptyString => EmptyString
  end.

Definition is_ascii (s : string) : bool :=
  forallb (fun c => (code c <? 128)%nat) (list_ascii_of_string s).

(** ** White space *)

(** The bytes of the spaces of [unicode.IsSpace], longest first. *)
Definition space_runes : list (list nat) :=
  [[9]; [10]; [11]; [12]; [13]; [32]; [194; 133]; [194; 160]; [225; 154; 128]]
  ++ map (fun i => [226; 128; i]) [128; 129; 130; 131; 132; 133; 134; 135; 136; 137; 138; 168; 169; 175]
  ++ [[226; 129; 159]; [227; 128; 128]].

Fixpoint strip_prefix (p : list nat) (l : list ascii) : option (list ascii) :=
  match p, l with
  | [], _ => Some l
  | n :: p', c :: l' => if Nat.eqb (code c) n then strip_prefix p' l' else None
  | _, _ => None
  end.

Fixpoint strip_any (ps : list (list nat)) (l : list ascii) : option (list ascii) :=
  match ps with
  | [] => None
  | p :: ps' => match strip_prefix p l with Some l' => Some l' | None => strip_any ps' l end
  end.

(** The fuel is the length of the list: every step removes a byte at least. *)
Fixpoint trim_front (fuel : nat) (ps : list (list nat)) (l : list ascii) : list ascii :=
  match fuel with
  | O => l
  | S fuel' => match strip_any ps l with Some l' => trim_front fuel' ps l' | None => l end
  end.

Definition TrimSpace (s : string) : string :=
  let l := list_ascii_of_string s in
  let l := trim_front (List.length l) space_runes l in
  let l := trim_front (List.length l) (map (@List.rev nat) space_runes) (List.rev l) in
  string_of_list_ascii (List.rev l).

(** ** Substrings *)

Fixpoint Contains (s substr : string) : bool :=
  prefix substr s ||
  match s with
  | EmptyString => false
  | String _ s' => Contains s' substr
  end.

Fixpoint Join (sep : string) (l : list string) : string :=
  match l with
  | [] => ""
  | [x] => x
  | x :: l' => x ++ sep ++ Join sep l'
  end.

(** [strings.HasSuffix] and [strings.TrimSuffix]. *)
Definition HasSuffix (s suffix : string) : bool :=
  (String.length suffix <=? String.length s)%nat
  && (substring (String.length s - String.length suffix) (String.length suffix) s =? suffix).

Definition TrimSuffix (s suffix : string) : string :=
  if HasSuffix s suffix then substring 0 (String.length s - String.length suffix) s else s.

(** [utils.TruncateString] and [utils.TrimAndLower]. *)
Definition TruncateString (str : string) (borderSizeToKeep : nat) : string :=
  if (String.length str <=? 2 * borderSizeToKeep)%nat then str
  else substring 0 borderSizeToKeep str ++ "..."
       ++ substring (String.length str - borderSizeToKeep) borderSizeToKeep str.

Definition TrimAndLower (str : string) : string := ToLower (TrimSpace str).

(** ** Numbers *)

(** [strconv.ParseUint(s, 10, 64)], with the text of the error it returns. *)
Definition num_error (s why : string) : string :=
  "strconv.ParseUint: parsing " ++ String "034" (s ++ String "034" "") ++ ": " ++ why.

Fixpoint parse_digits (acc : Z) (s : string) : result string Z :=
  match s with
  | EmptyString => Ok acc
  | String c s' =>
    if is_digit c then
      let acc' := (acc * 10 + Z.of_nat (code c - 48))%Z in
      if (2 ^ 64 <=? acc')%Z then Err "value out of range" else parse_digits acc' s'
    else Err "invalid syntax"
  end.

Definition ParseUint64 (s : string) : result string Z :=
  match (if s =? "" then Err "invalid syntax" else parse_digits 0 s) with
  | Ok n => Ok n
  | Err why => Err (num_error s why)
  end.

(** [hex.DecodeString]: the bytes, [None] for an odd length or an invalid digit. *)
Definition hex_digit (c : ascii) : option Z :=
  let n := Z.of_nat (code c) in
  if is_digit c then Some (n - 48)%Z
  else if (97 <=? n)%Z && (n <=? 102)%Z then Some (n - 87)%Z
  else if (65 <=? n)%Z && (n <=? 70)%Z then Some (n - 55)%Z
  else None.

Fixpoint hex_DecodeString (s : string) : option (list Z) :=
  match s with
  | EmptyString => Some []
  | String a (String b s') =>
    h ← hex_digit a; l ← hex_digit b; r ← hex_DecodeString s'; Some ((h * 16 + l)%Z :: r)
  | String _ EmptyString => None
  end.

Definition itoa (z : Z) : string := pretty z.
Definition quote (s : string) : string := String "034" (s ++ String "034" "").

Example upper_draft : ToUpper "dRaft" = "DRAFT". Proof. reflexivity. Qed.
Example trim_both : TrimSpace "  a b	 " = "a b". Proof. reflexivity. Qed.
Example contains_mid : Contains "a rate limit hit" "rate limit" = true. Proof. reflexivity. Qed.
Example itoa_neg : itoa (-42) = "-42". Proof. reflexivity. Qed.

(** ** Lemmas *)

Lemma prefix_empty s : prefix "" s = true.
Proof. by destruct s. Qed.

Lemma Contains_empty s : Contains s "" = true.
Proof. destruct s; cbn; by rewrite ?prefix_empty. Qed.

Lemma Contains_app_r s t u : Contains t u = true -> Contains (s ++ t) u = true.
Proof.
  intros H. induction s as [|c s IH]; [done|].
  change (String c s ++ t) with (String c (s ++ t)). unfold Contains; fold Contains.
  rewrite IH. by rewrite orb_true_r.
Qed.

Lemma parse_digits_bound s acc n :
  (0 <= acc < 2 ^ 64)%Z -> parse_digits acc s = Ok n -> (0 <= n < 2 ^ 64)%Z.
Proof.
  revert acc. induction s as [|c s IH]; intros acc Hacc; cbn; [by intros [= <-]|].
  destruct (is_digit c); [|done].
  destruct (Z.leb_spec (2 ^ 64) (acc * 10 + Z.of_nat (code c - 48))); [done|].
  apply IH. lia.
Qed.

Lemma ParseUint64_bound s n : ParseUint64 s = Ok n -> (0 <= n < 2 ^ 64)%Z.
Proof.
  unfold ParseUint64. destruct (s =? ""); [done|].
  destruct (parse_digits 0 s) eqn:E; [|done]. intros [= <-]. by apply (parse_digits_bound s 0).
Qed.

Lemma hex_DecodeString_length s l :
  hex_DecodeString s = Some l -> String.length s = 2 * List.length l.
Proof.
  revert s. induction l as [|x l IH]; intros s H.
  - destruct s as [|a [|b s]]; cbn in H; [done|done|].
    destruct (hex_digit a), (hex_digit b), (hex_DecodeString s); done.
  - destruct s as [|a [|b s]]; cbn in H; [done|done|].
    destruct (hex_digit a), (hex_digit b); try done. cbn in H.
    destruct (hex_DecodeString s) as [r|] eqn:E; cbn in H; [|done].
    injection H as _ ->. cbn. rewrite (IH s E). lia.
Qed.

Lemma list_ascii_app s t : list_ascii_of_string (s ++ t) = (list_ascii_of_string s ++ list_ascii_of_string t)%list.
Proof.
  induction s as [|c s IH]; [done|].
  change (c :: list_ascii_of_string (s ++ t) = c :: (list_ascii_of_string s ++ list_ascii_of_string t))%list.
  by rewrite IH.
Qed.

Lemma substring_all s : substring 0 (String.length s) s = s.
Proof. induction s as [|c s IH]; cbn; [done|by rewrite IH]. Qed.

Lemma substring_split s n m :
  n + m = String.length s -> substring 0 n s ++ substring n m s = s.
Proof.
  revert n. induction s as [|c s IH]; intros [|n] H; cbn in *.
  - by destruct m.
  - done.
  - subst m. apply (substring_all (String c s)).
  - change (String c (substring 0 n s ++ substring n m s) = String c s). rewrite IH by lia. done.
Qed.

Lemma TrimSuffix_spec s suffix : HasSuffix s suffix = true -> TrimSuffix s suffix ++ suffix = s.
Proof.
  unfold TrimSuffix. intros H. rewrite H. unfold HasSuffix in H.
  apply andb_true_iff in H as [Hl H]. apply Nat.leb_le in Hl. apply String.eqb_eq in H.
  rewrite <- H at 2. apply substring_split. lia.
Qed.

Lemma TrimSuffix_none s suffix : HasSuffix s suffix = false -> TrimSuffix s suffix = s.
Proof. unfold TrimSuffix. by intros ->. Qed.


(** ** Trimming twice *)

Section trim.
Local Open Scope list_scope.

Lemma strip_prefix_app p l l' m : strip_prefix p l = Some l' -> strip_prefix p (l ++ m) = Some (l' ++ m).
Proof.
  revert l. induction p as [|n p IH]; intros l; cbn; [by intros [= ->]|].
  destruct l as [|c l]; [done|]. cbn. destruct (Nat.eqb _ _); [apply IH|done].
Qed.

Lemma strip_any_app ps l m : strip_any ps (l ++ m) = None -> strip_any ps l = None.
Proof.
  induction ps as [|p ps IH]; cbn; [done|]. destruct (strip_prefix p l) as [l'|] eqn:Ep.
  - by rewrite (strip_prefix_app _ _ _ m Ep).
  - destruct (strip_prefix p (l ++ m)); [done|apply IH].
Qed.

Lemma strip_prefix_suffix p l l' : strip_prefix p l = Some l' -> exists m, l = m ++ l' /\ List.length m = List.length p.
Proof.
  revert l. induction p as [|n p IH]; intros l; cbn; [intros [= ->]; by exists []|].
  destruct l as [|c l]; [done|]. destruct (Nat.eqb _ _); [|done]. intros (m & -> & Hm)%IH. exists (c :: m). cbn. by rewrite Hm.
Qed.

Lemma strip_any_suffix ps l l' :
  Forall (fun p => p <> []) ps -> strip_any ps l = Some l' -> exists m, l = m ++ l' /\ m <> [].
Proof.
  induction 1 as [|p ps Hp _ IH]; cbn; [done|]. destruct (strip_prefix p l) as [l1|] eqn:Ep; [|apply IH].
  intros [= ->]. apply strip_prefix_suffix in Ep as (m & -> & Hm). exists m. split; [done|]. by destruct m, p.
Qed.

(** With enough fuel nothing is left to trim, and what is left is a suffix. *)
Lemma trim_front_spec ps fuel l :
  Forall (fun p => p <> []) ps -> List.length l <= fuel ->
  strip_any ps (trim_front fuel ps l) = None /\ exists m, l = m ++ trim_front fuel ps l.
Proof.
  intros Hps. revert l. induction fuel as [|fuel IH]; intros l Hl.
  - destruct l; [|cbn in Hl; lia]. split; [|by exists []]. cbn. induction Hps as [|p ps Hp _ IH]; [done|].
    cbn. by destruct p.
  - cbn. destruct (strip_any ps l) as [l'|] eqn:El; [|split; [done|by exists []]].
    destruct (strip_any_suffix _ _ _ Hps El) as (m & -> & Hm).
    destruct (IH l') as [H1 [m' H2]]; [rewrite length_app in Hl; destruct m; [done|cbn in Hl; lia]|].
    split; [done|]. exists (m ++ m'). by rewrite <- app_assoc, <- H2.
Qed.

Lemma trim_front_none ps fuel l : strip_any ps l = None -> trim_front fuel ps l = l.
Proof. destruct fuel; cbn; [done|]. by intros ->. Qed.

Lemma TrimSpace_idem s : TrimSpace (TrimSpace s) = TrimSpace s.
Proof.
  unfold TrimSpace. rewrite list_ascii_of_string_of_list_ascii.
  set (l := trim_front _ space_runes (list_ascii_of_string s)).
  set (back := map (@List.rev nat) space_runes). set (r := trim_front _ back (List.rev l)).
  assert (Hf : strip_any space_runes l = None).
  { apply trim_front_spec; [|done]. by repeat constructor. }
  assert (Hb : strip_any back r = None /\ exists m, List.rev l = m ++ r).
  { apply trim_front_spec; [|by rewrite length_rev]. by repeat constructor. }
  destruct Hb as [Hb [m Hm]].
  assert (Hl : l = List.rev r ++ List.rev m) by (by rewrite <- rev_app_distr, <- Hm, rev_involutive).
  rewrite (trim_front_none space_runes); [|rewrite Hl in Hf; by apply strip_any_app in Hf].
  by rewrite rev_involutive, (trim_front_none back).
Qed.
End trim.

(** ** SHA-256: [sha256.Sum256] *)

Local Open Scope Z_scope.

Definition rotr (n x : Z) : Z := Z.lor (Z.shiftr x n) (uint32 (Z.shiftl x (32 - n))).

(** The first 32 bits of the fractional part of the [k]-th root of [n], a number
    below 2^9: the greatest [r] of forty bits with [r ^ k <= n * 2 ^ (32 * k)],
    bit by bit from [bit]. *)
Fixpoint root_bits (bit : nat) (k n acc : Z) : Z :=
  let acc' := if (acc + 2 ^ Z.of_nat bit) ^ k <=? n * 2 ^ (32 * k)
              then acc + 2 ^ Z.of_nat bit else acc in
  match bit with
  | O => acc'
  | S bit => root_bits bit k n acc'
  end.

Definition fractional_root (k n : Z) : Z := uint32 (root_bits 40 k n 0).

(** The first primes, by trial division. *)
Definition is_prime (n : Z) : bool :=
  forallb (fun d => negb (n mod Z.of_nat d =? 0)) (seq 2 (Z.to_nat (Z.sqrt n) - 1)).
Definition primes : list Z := List.filter is_prime (map Z.of_nat (seq 2 310)).

Definition initial_hash : list Z := Eval vm_compute in map (fractional_root 2) (take 8 primes).
Definition round_constants : list Z := Eval vm_compute in map (fractional_root 3) primes.

(** ** Padding: a one bit, zeros, the List.length in bits, to blocks of 16 words *)

Fixpoint string_bytes (s : string) : list Z :=
  match s with
  | EmptyString => []
  | String c s => Z.of_nat (code c) :: string_bytes s
  end.

Definition be_bytes (n : nat) (x : Z) : list Z :=
  map (fun i => Z.shiftr x (8 * Z.of_nat (n - 1 - i)) mod 256) (seq 0 n).

Definition padding (len : Z) : list Z :=
  128 :: replicate (Z.to_nat ((55 - len) mod 64)) 0 ++ be_bytes 8 (8 * len).

Fixpoint words_of_bytes (l : list Z) : list Z :=
  match l with
  | a :: b :: c :: d :: l => (((a * 256 + b) * 256 + c) * 256 + d) :: words_of_bytes l
  | _ => []
  end.

(** ** The compression of a block *)

Definition small_sigma0 (x : Z) : Z := Z.lxor (Z.lxor (rotr 7 x) (rotr 18 x)) (Z.shiftr x 3).
Definition small_sigma1 (x : Z) : Z := Z.lxor (Z.lxor (rotr 17 x) (rotr 19 x)) (Z.shiftr x 10).
Definition big_sigma0 (x : Z) : Z := Z.lxor (Z.lxor (rotr 2 x) (rotr 13 x)) (rotr 22 x).
Definition big_sigma1 (x : Z) : Z := Z.lxor (Z.lxor (rotr 6 x) (rotr 11 x)) (rotr 25 x).
Definition choose (x y z : Z) : Z := Z.lxor (Z.land x y) (Z.land (4294967295 - x) z).
Definition majority (x y z : Z) : Z :=
  Z.lxor (Z.lxor (Z.land x y) (Z.land x z)) (Z.land y z).

(** The rounds that are left, by their constants; [window] holds the next sixteen
    words of the message schedule. *)
Fixpoint rounds (ks window state : list Z) : list Z :=
  match ks, window, state with
  | k :: ks, w0 :: rest, [a; b; c; d; e; f; g; h] =>
    let t1 := h + big_sigma1 e + choose e f g + k + w0 in
    let t2 := big_sigma0 a + majority a b c in
    let next := uint32 (small_sigma1 (nth 13 rest 0) + nth 8 rest 0
                        + small_sigma0 (nth 0 rest 0) + w0) in
    rounds ks (rest ++ [next]) [uint32 (t1 + t2); a; b; c; uint32 (d + t1); e; f; g]
  | _, _, _ => state
  end.

Definition compress (state block : list Z) : list Z :=
  zip_with (fun x y => uint32 (x + y)) state (rounds round_constants block state).

(** As many blocks as there are words to fill them: [fuel] is the number of words. *)
Fixpoint blocks (fuel : nat) (words : list Z) : list (list Z) :=
  match fuel, words with
  | S fuel, _ :: _ => take 16 words :: blocks fuel (drop 16 words)
  | _, _ => []
  end.

Definition Sum256 (s : string) : list Z :=
  let bytes := string_bytes s in
  let words := words_of_bytes (bytes ++ padding (Z.of_nat (List.length bytes))) in
  foldl compress initial_hash (blocks (List.length words) words) ≫= be_bytes 4.

(** [hex.EncodeToString]. *)
Definition hex_char (n : Z) : Ascii.ascii := byte_of (Z.to_nat (if n <? 10 then n + 48 else n + 87)).
Definition hex_EncodeToString (bytes : list Z) : string :=
  foldr (fun b s => String (hex_char (b / 16)) (String (hex_char (b mod 16)) s)) "" bytes.

Example sha256_abc : hex_EncodeToString (Sum256 "abc") =
  "ba7816bf8f01cfea414140de5dae2223b00361a396177a9cb410ff61f20015ad".
Proof. vm_compute. reflexivity. Qed.

Example sha256_two_blocks :
  hex_EncodeToString (Sum256 "abcdbcdecdefdefgefghfghighijhijkijkljklmklmnlmnomnopnopq") =
  "248d6a61d20638b8e5c026930c3e6039a33ce45964ff2167f6ecedd419db06c1".
Proof. vm_compute. reflexivity. Qed.
