(* ===== verification/Errors.v ===== *)
(** Go [error] values, and the error wrappers of the transaction submission
    service: [internal/transactionsubmission/utils/errors.go] and the
    simulation errors of [internal/stellar/rpc.go].

    [err] is the closed world of the error values the modelled code builds: a
    sentinel ([errors.New] at package level, compared by identity), a fresh
    message, a message wrapped with [%w], two errors of one format ([EJoin]), an
    error of third-party code, and the error types of the repository, among them
    the one of Circle's interface ([EAPI], of which only the codes are looked at
    and the list of details is left out).  [Unwrap] chains are followed by
    [errors_Is] and the functions [As_...]. *)

From S2P Require Import Prelude GoStrings.

Local Open Scope string_scope.
Local Open Scope list_scope.

(** ** Data *)

(** [problem.P] and [horizon.TransactionResultCodes], the two structs of the
    Horizon SDK the wrappers hold; [P_Extras] is [None] for a nil map. *)
Record Problem := mkProblem {
  P_Type : string;
  P_Title : string;
  P_Status : Z;
  P_Detail : string;
  P_Extras : option (list (string * string)) }.

Record TransactionResultCodes := mkResultCodes {
  TransactionCode : string;
  InnerTransactionCode : string;
  OperationCodes : list string }.

Inductive SimulationErrorType :=
  | SimulationErrorTypeNetwork
  | SimulationErrorTypeTransactionInvalid
  | SimulationErrorTypeAuth
  | SimulationErrorTypeContractExecution
  | SimulationErrorTypeResource
  | SimulationErrorTypeUnknown.

#[export] Instance SimulationErrorType_eq_dec : EqDecision SimulationErrorType.
Proof. solve_decision. Defined.

Definition SimulationErrorType_string (t : SimulationErrorType) : string :=
  match t with
  | SimulationErrorTypeNetwork => "network"
  | SimulationErrorTypeTransactionInvalid => "transaction_invalid"
  | SimulationErrorTypeAuth => "auth"
  | SimulationErrorTypeContractExecution => "contract_execution"
  | SimulationErrorTypeResource => "resource"
  | SimulationErrorTypeUnknown => "unknown"
  end.

Inductive err : Set :=
  | ESentinel (msg : string)
  | ENew (msg : string)
  | EWrap (prefix : string) (e : err)
  | EExternal (msg : string)
  | EHorizon (StatusCode : Z) (P : Problem) (e : err) (codes : option TransactionResultCodes)
  | ESimulation (s : SimulationError)
  | ERPC (s : option SimulationError) (e : err)
  | ETransactionStatusUpdate (Status TxID : string) (ForRetry : bool) (e : err)
  | EHTTP (StatusCode : Z) (Message ErrorCode : string) (e : option err)
  | EOpaque (type : string) (cause : err)
  | EAPI (Code StatusCode : Z) (Message : string)
  | EJoin (e1 : err) (separator : string) (e2 : err)
with SimulationError : Set :=
  | mkSimulationError (Type_ : SimulationErrorType) (Err_ : option err) (Response : option string).

Definition res (A : Type) : Type := result err A.

Definition Sim_Type (s : SimulationError) : SimulationErrorType :=
  match s with mkSimulationError t _ _ => t end.
Definition Sim_Err (s : SimulationError) : option err :=
  match s with mkSimulationError _ e _ => e end.

Record HorizonErrorWrapper := mkHorizonErrorWrapper {
  H_StatusCode : Z;
  H_Problem : Problem;
  H_Err : err;
  H_ResultCodes : option TransactionResultCodes }.

Record RPCErrorWrapper := mkRPCErrorWrapper {
  R_SimulationError : option SimulationError;
  R_Err : err }.

(** The wrappers as [error] values. *)
Definition horizon_err (w : HorizonErrorWrapper) : err :=
  EHorizon (H_StatusCode w) (H_Problem w) (H_Err w) (H_ResultCodes w).
Definition rpc_err (w : RPCErrorWrapper) : err := ERPC (R_SimulationError w) (R_Err w).

(** [fmt.Errorf(prefix + ": %w", err)] applied to the error of a call. *)
Definition wrap {A} (prefix : string) (r : res A) : res A := res_map_err (EWrap prefix) r.

(** ** Unwrapping *)

Fixpoint errors_Is (e : err) (sentinel : string) : bool :=
  match e with
  | ESentinel m => m =? sentinel
  | ENew _ | EExternal _ | EAPI _ _ _ => false
  | EJoin e1 _ e2 => errors_Is e1 sentinel || errors_Is e2 sentinel
  | EWrap _ e' | EHorizon _ _ e' _ | ERPC _ e' | ETransactionStatusUpdate _ _ _ e' =>
    errors_Is e' sentinel
  | ESimulation (mkSimulationError _ (Some e') _) | EHTTP _ _ _ (Some e') => errors_Is e' sentinel
  | ESimulation (mkSimulationError _ None _) | EHTTP _ _ _ None | EOpaque _ _ => false
  end.

(** [errors.As] goes through the errors of an [EJoin] in their order. *)
Definition first_of {A} (a b : option A) : option A :=
  match a with Some _ => a | None => b end.

(** [errors.Is(err, target)] for a sentinel of the code. *)
Definition errors_Is_err (e target : err) : bool :=
  match target with ESentinel s => errors_Is e s | _ => false end.

Fixpoint As_Horizon (e : err) : option HorizonErrorWrapper :=
  match e with
  | EHorizon sc p e' codes => Some (mkHorizonErrorWrapper sc p e' codes)
  | ESentinel _ | ENew _ | EExternal _ => None
  | EWrap _ e' | ERPC _ e' | ETransactionStatusUpdate _ _ _ e' => As_Horizon e'
  | ESimulation (mkSimulationError _ (Some e') _) | EHTTP _ _ _ (Some e') => As_Horizon e'
  | ESimulation (mkSimulationError _ None _) | EHTTP _ _ _ None | EOpaque _ _ => None
  | EAPI _ _ _ => None
  | EJoin e1 _ e2 => first_of (As_Horizon e1) (As_Horizon e2)
  end.

Fixpoint As_RPC (e : err) : option RPCErrorWrapper :=
  match e with
  | ERPC s e' => Some (mkRPCErrorWrapper s e')
  | ESentinel _ | ENew _ | EExternal _ => None
  | EWrap _ e' | EHorizon _ _ e' _ | ETransactionStatusUpdate _ _ _ e' => As_RPC e'
  | ESimulation (mkSimulationError _ (Some e') _) | EHTTP _ _ _ (Some e') => As_RPC e'
  | ESimulation (mkSimulationError _ None _) | EHTTP _ _ _ None | EOpaque _ _ => None
  | EAPI _ _ _ => None
  | EJoin e1 _ e2 => first_of (As_RPC e1) (As_RPC e2)
  end.

Fixpoint As_Simulation (e : err) : option SimulationError :=
  match e with
  | ESimulation s => Some s
  | ESentinel _ | ENew _ | EExternal _ | EHTTP _ _ _ None | EOpaque _ _ => None
  | EWrap _ e' | EHorizon _ _ e' _ | ERPC _ e' | ETransactionStatusUpdate _ _ _ e'
  | EHTTP _ _ _ (Some e') => As_Simulation e'
  | EAPI _ _ _ => None
  | EJoin e1 _ e2 => first_of (As_Simulation e1) (As_Simulation e2)
  end.

(** [HTTPError] of [internal/serve/httperror], and the error types of the handlers
    that do not unwrap to their cause, by their name. *)
Record HTTPError := mkHTTPError {
  HE_StatusCode : Z;
  HE_Message : string;
  HE_ErrorCode : string;
  HE_Err : option err }.

Fixpoint As_HTTP (e : err) : option HTTPError :=
  match e with
  | EHTTP sc msg code e' => Some (mkHTTPError sc msg code e')
  | ESentinel _ | ENew _ | EExternal _ | EOpaque _ _ => None
  | EWrap _ e' | EHorizon _ _ e' _ | ERPC _ e' | ETransactionStatusUpdate _ _ _ e' => As_HTTP e'
  | ESimulation (mkSimulationError _ (Some e') _) => As_HTTP e'
  | ESimulation (mkSimulationError _ None _) => None
  | EAPI _ _ _ => None
  | EJoin e1 _ e2 => first_of (As_HTTP e1) (As_HTTP e2)
  end.

Fixpoint As_Opaque (type : string) (e : err) : option err :=
  match e with
  | EOpaque type' cause => if type' =? type then Some cause else None
  | ESentinel _ | ENew _ | EExternal _ | EHTTP _ _ _ None => None
  | EWrap _ e' | EHorizon _ _ e' _ | ERPC _ e' | ETransactionStatusUpdate _ _ _ e'
  | EHTTP _ _ _ (Some e') => As_Opaque type e'
  | ESimulation (mkSimulationError _ (Some e') _) => As_Opaque type e'
  | ESimulation (mkSimulationError _ None _) => None
  | EAPI _ _ _ => None
  | EJoin e1 _ e2 => first_of (As_Opaque type e1) (As_Opaque type e2)
  end.

(** [*circle.APIError]: its code and the status of the response. *)
Fixpoint As_API (e : err) : option (Z * Z) :=
  match e with
  | EAPI code status _ => Some (code, status)
  | ESentinel _ | ENew _ | EExternal _ | EHTTP _ _ _ None | EOpaque _ _ => None
  | EWrap _ e' | EHorizon _ _ e' _ | ERPC _ e' | ETransactionStatusUpdate _ _ _ e'
  | EHTTP _ _ _ (Some e') => As_API e'
  | ESimulation (mkSimulationError _ (Some e') _) => As_API e'
  | ESimulation (mkSimulationError _ None _) => None
  | EJoin e1 _ e2 => first_of (As_API e1) (As_API e2)
  end.

(** [NewHTTPError] without extras: an HTTP error of the same status is not wrapped
    again when there is no message. *)
Definition NewHTTPError (statusCode : Z) (msg : string) (originalErr : option err) : err :=
  let fresh := EHTTP statusCode msg "" originalErr in
  match originalErr with
  | Some e =>
    if msg =? "" then
      match As_HTTP e with
      | Some h => if (HE_StatusCode h =? statusCode)%Z
                  then EHTTP (HE_StatusCode h) (HE_Message h) (HE_ErrorCode h) (HE_Err h) else fresh
      | None => fresh
      end
    else fresh
  | None => fresh
  end.

Definition BadRequest (msg : string) (originalErr : option err) : err :=
  NewHTTPError 400 (if msg =? "" then "The request was invalid in some way." else msg) originalErr.
Definition NotFound (msg : string) (originalErr : option err) : err :=
  NewHTTPError 404 (if msg =? "" then "Resource not found." else msg) originalErr.
Definition Conflict (msg : string) (originalErr : option err) : err :=
  NewHTTPError 409 (if msg =? "" then "The resource already exists." else msg) originalErr.
Definition Unauthorized (msg : string) (originalErr : option err) : err :=
  NewHTTPError 401 (if msg =? "" then "Not authorized." else msg) originalErr.
Definition Forbidden (msg : string) (originalErr : option err) : err :=
  NewHTTPError 403
    (if msg =? "" then "You don't have permission to perform this action." else msg) originalErr.
Definition InternalError (msg : string) (originalErr : option err) : err :=
  NewHTTPError 500
    (if msg =? "" then "An internal error occurred while processing this request." else msg) originalErr.

Definition WithErrorCode (code : string) (e : err) : err :=
  match e with EHTTP sc msg _ e' => EHTTP sc msg code e' | _ => e end.

(** ** [HorizonErrorWrapper] *)

Definition Problem_zero : Problem := mkProblem "" "" 0 "" None.

(** [sdpUtils.IsEmpty] of a [problem.P]: [reflect.DeepEqual] with the zero value. *)
Definition Problem_IsEmpty (p : Problem) : bool :=
  (P_Type p =? "") && (P_Title p =? "") && (P_Status p =? 0)%Z && (P_Detail p =? "")
  && match P_Extras p with None => true | Some _ => false end.

Section HorizonErrorWrapper.
Variable e : HorizonErrorWrapper.

Definition IsHorizonError : bool := negb (Problem_IsEmpty (H_Problem e)).
Definition IsNotFound : bool := IsHorizonError && (H_StatusCode e =? 404)%Z.
Definition IsRateLimit : bool := IsHorizonError && (H_StatusCode e =? 429)%Z.
Definition IsGatewayTimeout : bool := IsHorizonError && (H_StatusCode e =? 504)%Z.

Definition HasResultCodes : bool :=
  IsHorizonError && match H_ResultCodes e with Some _ => true | None => false end.

(** The guard [if !e.HasResultCodes() { return false }] the tests start with. *)
Definition with_codes (test : TransactionResultCodes -> bool) : bool :=
  if negb HasResultCodes then false
  else match H_ResultCodes e with Some rc => test rc | None => false end.

Definition has_op (code : string) (rc : TransactionResultCodes) : bool :=
  slices_Contains (OperationCodes rc) code.

Definition IsNotEnoughLumens : bool :=
  with_codes (fun rc => (TransactionCode rc =? "tx_insufficient_balance")
    || (InnerTransactionCode rc =? "tx_insufficient_balance") || has_op "op_underfunded" rc).
Definition IsNoSourceAccount : bool :=
  with_codes (fun rc => (TransactionCode rc =? "tx_no_source_account")
    || (InnerTransactionCode rc =? "tx_no_source_account") || has_op "op_no_source_account" rc).
Definition IsNoIssuer : bool := with_codes (has_op "op_no_issuer").
Definition IsSourceAccountNotAuthorized : bool := with_codes (has_op "op_src_not_authorized").
Definition IsSourceNoTrustline : bool := with_codes (has_op "op_src_no_trust").
Definition IsDestinationAccountNotAuthorized : bool := with_codes (has_op "op_not_authorized").
Definition IsDestinationNoTrustline : bool := with_codes (has_op "op_no_trust").
Definition IsLineFull : bool := with_codes (has_op "op_line_full").
Definition IsNoDestinationAccount : bool := with_codes (has_op "op_no_destination").
Definition IsBadAuthentication : bool :=
  with_codes (fun rc =>
    slices_Contains ["tx_bad_auth"; "tx_bad_auth_extra"] (TransactionCode rc)
    || slices_Contains ["tx_bad_auth"; "tx_bad_auth_extra"] (InnerTransactionCode rc)
    || has_op "op_bad_auth" rc).
Definition IsTxInsufficientFee : bool :=
  with_codes (fun rc => (TransactionCode rc =? "tx_insufficient_fee")
    || (InnerTransactionCode rc =? "tx_insufficient_fee")).
Definition IsBadSequence : bool :=
  with_codes (fun rc => (TransactionCode rc =? "tx_bad_seq")
    || (InnerTransactionCode rc =? "tx_bad_seq")).
Definition IsSourceAccountNotReady : bool :=
  IsNotEnoughLumens || IsNoSourceAccount || IsSourceAccountNotAuthorized || IsSourceNoTrustline.
Definition IsDestinationAccountNotReady : bool :=
  IsDestinationAccountNotAuthorized || IsDestinationNoTrustline || IsNoDestinationAccount
  || IsLineFull.
Definition IsEntryArchived : bool := with_codes (has_op "entry_archived").

Definition failedTxErrCodes : list string :=
  ["tx_bad_auth"; "tx_bad_auth_extra"; "tx_insufficient_balance"].
Definition failedOpCodes : list string :=
  ["op_bad_auth"; "op_underfunded"; "op_src_not_authorized"; "op_no_destination"; "op_no_trust";
   "op_line_full"; "op_not_authorized"; "op_no_issuer"; "function_trapped"].

Definition H_ShouldMarkAsError : bool :=
  match H_ResultCodes e with
  | None => false
  | Some rc =>
    if slices_Contains failedTxErrCodes (TransactionCode rc)
       || slices_Contains failedTxErrCodes (InnerTransactionCode rc)
    then true
    else existsb (slices_Contains failedOpCodes) (OperationCodes rc)
  end.

Definition H_IsRetryable : bool := negb IsHorizonError || negb H_ShouldMarkAsError.
Definition H_ShouldReportToCrashTracker : bool :=
  H_ShouldMarkAsError && negb IsDestinationAccountNotReady.

Definition handleExtrasResultCodes : string :=
  if negb HasResultCodes then ""
  else match H_ResultCodes e with
  | None => ""
  | Some rc =>
    let extras :=
      (if TransactionCode rc <>? "" then ["transaction: " +:+ TransactionCode rc] else [])
      ++ (if InnerTransactionCode rc <>? ""
          then ["inner transaction: " +:+ InnerTransactionCode rc] else [])
      ++ (match OperationCodes rc with
          | [] => []
          | ops => ["operation codes: [ " +:+ Join ", " ops +:+ " ]"]
          end) in
    match extras with
    | [] => ""
    | _ => ", Extras=" +:+ Join " - " extras
    end
  end.
End HorizonErrorWrapper.

(** ** [SimulationError]: [internal/stellar/rpc.go] *)

(** [utils.ContainsAny] of [internal/utils/string.go]. *)
Definition ContainsAny (message : string) (substrings : list string) : bool :=
  if (message =? "") || match substrings with [] => true | _ => false end then false
  else existsb (fun substr => (substr <>? "") && Contains message substr) substrings.

Definition isTransactionInvalidError (m : string) : bool :=
  ContainsAny m ["unmarshal"; "parse"; "decode"; "invalid transaction"].
Definition isAuthError (m : string) : bool :=
  ContainsAny m ["authorization"; "signature"; "unauthorized"].
Definition isContractExecutionError (m : string) : bool :=
  ContainsAny m ["contract execution failed"; "contract error"; "contract panic";
    "hosterror: error(storage,"; "contract already exists"; "wasm does not exist";
    "existingvalue)"; "missingvalue)"].
Definition isResourceError (m : string) : bool :=
  ContainsAny m ["resource"; "cpu limit"; "memory limit"; "instructions limit"; "limit exceeded"].

Definition categorizeSimulationError (msg : string) : SimulationErrorType :=
  if msg =? "" then SimulationErrorTypeUnknown
  else
    let msgLower := ToLower msg in
    if isContractExecutionError msgLower then SimulationErrorTypeContractExecution
    else if isResourceError msgLower then SimulationErrorTypeResource
    else if isTransactionInvalidError msgLower then SimulationErrorTypeTransactionInvalid
    else if isAuthError msgLower then SimulationErrorTypeAuth
    else SimulationErrorTypeUnknown.

(** [response] is the [Error] field of the response, [None] for a nil response. *)
Definition NewSimulationError (e : option err) (response : option string) : SimulationError :=
  let errorType :=
    match e with
    | Some _ =>
      match response with
      | Some r => if r <>? "" then categorizeSimulationError r else SimulationErrorTypeNetwork
      | None => SimulationErrorTypeNetwork
      end
    | None => SimulationErrorTypeUnknown
    end in
  mkSimulationError errorType e response.

Definition Sim_IsRetryable (s : option SimulationError) : bool :=
  match s with
  | None => false
  | Some s => bool_decide (Sim_Type s = SimulationErrorTypeNetwork)
              || bool_decide (Sim_Type s = SimulationErrorTypeResource)
  end.

(** ** The text of an error *)

Definition horizon_prefix (w : HorizonErrorWrapper) : string :=
  "horizon response error: StatusCode=" +:+ itoa (H_StatusCode w)
  +:+ (if P_Type (H_Problem w) <>? "" then ", Type=" +:+ P_Type (H_Problem w) else "")
  +:+ (if P_Title (H_Problem w) <>? "" then ", Title=" +:+ P_Title (H_Problem w) else "")
  +:+ (if P_Detail (H_Problem w) <>? "" then ", Detail=" +:+ P_Detail (H_Problem w) else "")
  +:+ (if HasResultCodes w then handleExtrasResultCodes w else "").

Fixpoint Error (e : err) : string :=
  match e with
  | ESentinel m | ENew m | EExternal m => m
  | EWrap p e' => p +:+ ": " +:+ Error e'
  | EHorizon sc p e' codes =>
    let w := mkHorizonErrorWrapper sc p e' codes in
    if negb (IsHorizonError w) then "horizon response error: " +:+ Error e'
    else horizon_prefix w
  | ESimulation s => Sim_Error s
  | ERPC (Some s) _ => "rpc simulation error: " +:+ Sim_Error s
  | ERPC None e' => "rpc error: " +:+ Error e'
  | ETransactionStatusUpdate st id retry e' =>
    "updating transaction(ID=" +:+ quote id +:+ ") status to " +:+ st
    +:+ (if retry then " (for retry)" else "") +:+ ": " +:+ Error e'
  | EHTTP _ msg _ _ => msg
  | EOpaque _ cause => Error cause
  | EAPI code status msg =>
    "APIError: Code=" +:+ itoa code +:+ ", Message=" +:+ msg +:+ ", Errors=[], StatusCode=" +:+ itoa status
  | EJoin e1 separator e2 => Error e1 +:+ separator +:+ Error e2
  end
with Sim_Error (s : SimulationError) : string :=
  match s with
  | mkSimulationError t (Some e) _ =>
    "simulation " +:+ SimulationErrorType_string t +:+ " error: " +:+ Error e
  | mkSimulationError t None _ => "simulation " +:+ SimulationErrorType_string t +:+ " error"
  end.

(** ** [RPCErrorWrapper] *)

Section RPCErrorWrapper.
Variable e : RPCErrorWrapper.

Definition IsRPCError : bool :=
  match R_SimulationError e with Some _ => true | None => false end.

Definition R_IsRateLimit : bool :=
  match R_SimulationError e with
  | None => false
  | Some s =>
    if bool_decide (Sim_Type s = SimulationErrorTypeNetwork)
    then ContainsAny (ToLower (Sim_Error s)) ["rate limit"; "too many requests"; "throttle"; "429"]
    else false
  end.

Definition R_IsGatewayTimeout : bool :=
  match R_SimulationError e with
  | None => false
  | Some s => bool_decide (Sim_Type s = SimulationErrorTypeNetwork)
  end.

Definition R_ShouldMarkAsError : bool :=
  match R_SimulationError e with
  | None => false
  | Some s =>
    match Sim_Type s with
    | SimulationErrorTypeTransactionInvalid | SimulationErrorTypeAuth
    | SimulationErrorTypeContractExecution => true
    | _ => false
    end
  end.

Definition R_IsRetryable : bool := negb R_ShouldMarkAsError.
Definition R_ShouldReportToCrashTracker : bool := R_ShouldMarkAsError.
End RPCErrorWrapper.

Definition NewRPCErrorWrapper (e : option err) : option RPCErrorWrapper :=
  match e with
  | None => None
  | Some e =>
    match As_RPC e with
    | Some w => Some w
    | None =>
      match As_Simulation e with
      | Some s => Some (mkRPCErrorWrapper (Some s) e)
      | None => Some (mkRPCErrorWrapper None e)
      end
    end
  end.

(** ** Building a [HorizonErrorWrapper] *)

(** [horizonclient.GetError] is third-party: [None] when the error is not a
    Horizon error, otherwise its problem and what [ResultCodes()] returns
    ([None] for an error or a nil result). *)
Class HorizonClient := {
  horizonclient_GetError : err -> option (Problem * option TransactionResultCodes) }.

Section NewHorizonErrorWrapper.
Context {HC : HorizonClient}.

Definition NewHorizonErrorWrapper (e : option err) : option HorizonErrorWrapper :=
  match e with
  | None => None
  | Some e =>
    match As_Horizon e with
    | Some w => Some w
    | None =>
      match horizonclient_GetError e with
      | None => Some (mkHorizonErrorWrapper 0 Problem_zero e None)
      | Some (p, codes) => Some (mkHorizonErrorWrapper (P_Status p) p e codes)
      end
    end
  end.
End NewHorizonErrorWrapper.

(** ** The interface [TransactionError] *)

(** The dynamic type of a [utils.TransactionError] is one of the two wrappers. *)
Inductive TransactionError :=
  | TEHorizon (w : HorizonErrorWrapper)
  | TERPC (w : RPCErrorWrapper).

Definition te_err (t : TransactionError) : err :=
  match t with TEHorizon w => horizon_err w | TERPC w => rpc_err w end.
Definition IsRetryable (t : TransactionError) : bool :=
  match t with TEHorizon w => H_IsRetryable w | TERPC w => R_IsRetryable w end.
Definition ShouldMarkAsError (t : TransactionError) : bool :=
  match t with TEHorizon w => H_ShouldMarkAsError w | TERPC w => R_ShouldMarkAsError w end.
Definition ShouldReportToCrashTracker (t : TransactionError) : bool :=
  match t with
  | TEHorizon w => H_ShouldReportToCrashTracker w
  | TERPC w => R_ShouldReportToCrashTracker w
  end.
Definition GetErrorType (t : TransactionError) : string :=
  match t with TEHorizon _ => "Horizon" | TERPC _ => "RPC" end.

(** ** Lemmas *)

(** Induction along the [Unwrap] chain of an error. *)
Lemma err_chain_ind (P : err -> Prop)
    (Hsent : forall m, P (ESentinel m)) (Hnew : forall m, P (ENew m))
    (Hext : forall m, P (EExternal m)) (Hwrap : forall p e, P e -> P (EWrap p e))
    (Hhor : forall sc p e codes, P e -> P (EHorizon sc p e codes))
    (Hsim : forall t e r, P e -> P (ESimulation (mkSimulationError t (Some e) r)))
    (Hsim0 : forall t r, P (ESimulation (mkSimulationError t None r)))
    (Hrpc : forall s e, P e -> P (ERPC s e))
    (Hst : forall st id b e, P e -> P (ETransactionStatusUpdate st id b e))
    (Hhttp : forall sc m c e, P e -> P (EHTTP sc m c (Some e)))
    (Hhttp0 : forall sc m c, P (EHTTP sc m c None)) (Hop : forall n e, P e -> P (EOpaque n e))
    (Hapi : forall c s m, P (EAPI c s m)) (Hjoin : forall e1 s e2, P e1 -> P e2 -> P (EJoin e1 s e2)) :
  forall e, P e.
Proof.
  fix IH 1. intros [m|m|p e|m|sc p e codes|[t [e|] r]|s e|st id b e|sc m c [e|]|n e|c s m|e1 s e2].
  - apply Hsent.
  - apply Hnew.
  - apply Hwrap, IH.
  - apply Hext.
  - apply Hhor, IH.
  - apply Hsim, IH.
  - apply Hsim0.
  - apply Hrpc, IH.
  - apply Hst, IH.
  - apply Hhttp, IH.
  - apply Hhttp0.
  - apply Hop, IH.
  - apply Hapi.
  - apply Hjoin; apply IH.
Qed.

(** No format of the chain wraps two errors. *)
Fixpoint linear (e : err) : bool :=
  match e with
  | EJoin _ _ _ => false
  | ESentinel _ | ENew _ | EExternal _ | EAPI _ _ _ | EHTTP _ _ _ None | EOpaque _ _ => true
  | EWrap _ e' | EHorizon _ _ e' _ | ERPC _ e' | ETransactionStatusUpdate _ _ _ e'
  | EHTTP _ _ _ (Some e') => linear e'
  | ESimulation (mkSimulationError _ (Some e') _) => linear e'
  | ESimulation (mkSimulationError _ None _) => true
  end.

Lemma Error_wrap p e : Error (EWrap p e) = p +:+ ": " +:+ Error e.
Proof. done. Qed.

Lemma errors_Is_wrap p e s : errors_Is (EWrap p e) s = errors_Is e s.
Proof. done. Qed.

Lemma wrap_ok {A} p (r : res A) a : wrap p r = Ok a <-> r = Ok a.
Proof. by destruct r; cbn. Qed.

(** [with_codes] as a proposition. *)
Lemma with_codes_spec w test :
  with_codes w test = true <->
  IsHorizonError w = true /\ exists rc, H_ResultCodes w = Some rc /\ test rc = true.
Proof.
  unfold with_codes, HasResultCodes.
  destruct (IsHorizonError w), (H_ResultCodes w) as [rc|]; cbn;
    split; try (by intros H; split; eauto); try (by intros [_ (? & [=] & _)]); try done;
    try (by intros [[=] _]).
  by intros [_ (? & [= <-] & ?)].
Qed.

Lemma existsb_swap (codes l : list string) :
  existsb (slices_Contains codes) l = existsb (fun c => slices_Contains l c) codes.
Proof.
  apply eq_true_iff_eq. rewrite !existsb_exists. setoid_rewrite slices_Contains_spec.
  setoid_rewrite list_elem_of_In. split; intros (x & ? & ?); eauto.
Qed.

(** The wrappers [NewHorizonErrorWrapper] builds hold result codes only with a
    non-empty problem. *)
Definition horizon_wf (w : HorizonErrorWrapper) : Prop :=
  H_ResultCodes w <> None -> IsHorizonError w = true.
Definition te_wf (t : TransactionError) : Prop :=
  match t with TEHorizon w => horizon_wf w | TERPC _ => True end.

(** Every horizon wrapper of an error chain is well formed. *)
Fixpoint err_wf (e : err) : Prop :=
  match e with
  | ESentinel _ | ENew _ | EExternal _ | EAPI _ _ _ => True
  | EJoin e1 _ e2 => err_wf e1 /\ err_wf e2
  | EWrap _ e' | ERPC _ e' | ETransactionStatusUpdate _ _ _ e' => err_wf e'
  | EHorizon sc p e' codes => horizon_wf (mkHorizonErrorWrapper sc p e' codes) /\ err_wf e'
  | ESimulation (mkSimulationError _ (Some e') _) | EHTTP _ _ _ (Some e') | EOpaque _ e' => err_wf e'
  | ESimulation (mkSimulationError _ None _) | EHTTP _ _ _ None => True
  end.

Lemma As_Horizon_wf e w : err_wf e -> As_Horizon e = Some w -> horizon_wf w.
Proof.
  induction e using err_chain_ind; cbn; intros Hwf H; try done; try (by apply IHe).
  - injection H as <-. by destruct Hwf.
  - destruct Hwf as [H1 H2]. unfold first_of in H. destruct (As_Horizon e1); [|by apply IHe2].
    injection H as <-. by apply IHe1.
Qed.

(** [errors.As] finds the same wrapper through any number of [%w]. *)
Lemma As_Horizon_wrap prefixes e : As_Horizon (foldr EWrap e prefixes) = As_Horizon e.
Proof. induction prefixes; done. Qed.

Lemma As_Horizon_horizon_err w : As_Horizon (horizon_err w) = Some w.
Proof. by destruct w. Qed.

Lemma As_RPC_rpc_err w : As_RPC (rpc_err w) = Some w.
Proof. by destruct w. Qed.

Lemma mark_needs_codes w : horizon_wf w -> H_ShouldMarkAsError w = true -> IsHorizonError w = true.
Proof.
  unfold horizon_wf, H_ShouldMarkAsError. intros Hwf. destruct (H_ResultCodes w); [|done].
  intros _. by apply Hwf.
Qed.

Lemma retry_or_mark t : te_wf t -> IsRetryable t = negb (ShouldMarkAsError t).
Proof.
  intros Hwf. destruct t as [w|w]; [|done]. cbn in *. unfold H_IsRetryable.
  destruct (H_ShouldMarkAsError w) eqn:E; [|by rewrite orb_true_r].
  by rewrite (mark_needs_codes w Hwf E).
Qed.

Lemma mark_causes w (Hwf : horizon_wf w) :
  H_ShouldMarkAsError w =
    (IsBadAuthentication w || IsNotEnoughLumens w || IsSourceAccountNotAuthorized w
     || IsDestinationAccountNotReady w || IsNoIssuer w
     || with_codes w (has_op "function_trapped")).
Proof.
  unfold IsDestinationAccountNotReady, IsBadAuthentication, IsNotEnoughLumens,
    IsSourceAccountNotAuthorized, IsDestinationAccountNotAuthorized, IsDestinationNoTrustline,
    IsNoDestinationAccount, IsLineFull, IsNoIssuer, with_codes, HasResultCodes,
    H_ShouldMarkAsError, horizon_wf in *.
  destruct (H_ResultCodes w) as [rc|]; [|by rewrite andb_false_r].
  rewrite Hwf by done. cbn [andb negb]. rewrite existsb_swap.
  unfold has_op. set (ops := slices_Contains (OperationCodes rc)).
  unfold failedOpCodes, failedTxErrCodes, slices_Contains. cbn [existsb].
  match goal with |- context [if ?a then true else ?b] =>
    replace (if a then true else b) with (a || b) by reflexivity end.
  repeat match goal with
    | |- context [ops ?c] => destruct (ops c); [by rewrite ?orb_true_r|]
    | |- context [?a =? ?c] => destruct (a =? c); [by rewrite ?orb_true_r|]
    end.
  reflexivity.
Qed.

(** ** Properties *)

(** Every transaction error the wrappers build is either terminal
    ([ShouldMarkAsError]) or retryable, never both and never neither; and it is
    terminal exactly for the causes the code has predicates for: bad
    authentication, missing lumens, an unauthorized source, a destination that
    is not ready, a missing issuer, or a trapped contract call. *)
Theorem transaction_error_classes (t : TransactionError) (Hwf : te_wf t) :
  IsRetryable t = negb (ShouldMarkAsError t) /\
  match t with
  | TEHorizon w =>
    ShouldMarkAsError t =
      (IsBadAuthentication w || IsNotEnoughLumens w || IsSourceAccountNotAuthorized w
       || IsDestinationAccountNotReady w || IsNoIssuer w
       || with_codes w (has_op "function_trapped"))
  | TERPC w =>
    ShouldMarkAsError t = true <->
    exists ty e r, R_SimulationError w = Some (mkSimulationError ty e r)
      /\ ty ∈ [SimulationErrorTypeTransactionInvalid; SimulationErrorTypeAuth;
                SimulationErrorTypeContractExecution]
  end.
Proof.
  split; [by apply retry_or_mark|]. destruct t as [w|w]; [by apply mark_causes|].
  destruct w as [[[ty e r]|] e']; cbn; [|by split; [|intros (? & ? & ? & [=] & _)]].
  split.
  - intros H. exists ty, e, r. split; [done|]. destruct ty; try done; set_solver.
  - intros (ty' & ? & ? & [= <- <- <-] & H). by destruct ty; cbn; set_solver.
Qed.

Lemma transaction_error_classes_witness :
  IsRetryable (TERPC (mkRPCErrorWrapper
    (Some (mkSimulationError SimulationErrorTypeAuth None None)) (EExternal "x"))) = false.
Proof. rewrite (proj1 (transaction_error_classes (TERPC _) I)). reflexivity. Defined.

(** A destination that cannot receive the payment fails the transaction
    without a crash report. *)
Theorem destination_not_ready_is_quiet (w : HorizonErrorWrapper) (Hwf : horizon_wf w)
    (H : IsDestinationAccountNotReady w = true) :
  H_ShouldMarkAsError w = true /\ H_IsRetryable w = false /\ H_ShouldReportToCrashTracker w = false.
Proof.
  assert (Hm : H_ShouldMarkAsError w = true).
  { rewrite (mark_causes w Hwf), H. by rewrite orb_true_r. }
  pose proof (retry_or_mark (TEHorizon w) Hwf) as Hr. cbn in Hr. rewrite Hm in Hr.
  unfold H_ShouldReportToCrashTracker. by rewrite Hm, H.
Qed.

Lemma destination_not_ready_is_quiet_witness :
  H_ShouldReportToCrashTracker
    (mkHorizonErrorWrapper 400 (mkProblem "t" "" 400 "" None) (EExternal "x")
       (Some (mkResultCodes "tx_failed" "" ["op_no_trust"]))) = false.
Proof.
  refine (proj2 (proj2 (destination_not_ready_is_quiet _ _ _))); [|reflexivity].
  intros _. reflexivity.
Defined.

(** What the code relies on in [horizonclient]: result codes are read from the
    extras of the problem, so a problem with codes is not empty. *)
Class HorizonClientLaws (HC : HorizonClient) := {
  codes_from_extras : forall e p rc,
    horizonclient_GetError e = Some (p, Some rc) -> Problem_IsEmpty p = false }.

Section stable.
Context {HC : HorizonClient} {HL : HorizonClientLaws HC}.

Lemma NewHorizonErrorWrapper_wf e w :
  err_wf e -> NewHorizonErrorWrapper (Some e) = Some w -> horizon_wf w.
Proof.
  intros Hwf. cbn. destruct (As_Horizon e) as [w'|] eqn:E.
  - intros [= <-]. by apply (As_Horizon_wf e).
  - destruct (horizonclient_GetError e) as [[p [rc|]]|] eqn:G; intros [= <-] H; try done.
    unfold IsHorizonError. cbn. by rewrite (codes_from_extras _ _ _ G).
Qed.

(** Wrapping an error twice changes nothing: however many times the wrapper of
    an error is itself wrapped with [%w], [NewHorizonErrorWrapper] finds it
    back, and it stays well formed. *)
Theorem horizon_wrapper_stable (e : err) (w : HorizonErrorWrapper) (prefixes : list string)
    (Hwf : err_wf e) (Hnew : NewHorizonErrorWrapper (Some e) = Some w) :
  horizon_wf w /\
  NewHorizonErrorWrapper (Some (foldr EWrap (horizon_err w) prefixes)) = Some w.
Proof.
  split; [by apply (NewHorizonErrorWrapper_wf e)|].
  cbn. by rewrite As_Horizon_wrap, As_Horizon_horizon_err.
Qed.
End stable.

Definition sample_horizon_client : HorizonClient :=
  {| horizonclient_GetError e :=
       match e with
       | EExternal _ => Some (mkProblem "timeout" "Timeout" 504 "" None, None)
       | _ => None
       end |}.

Lemma sample_horizon_client_laws : HorizonClientLaws sample_horizon_client.
Proof. constructor. by intros [] p rc [=]. Qed.

Lemma horizon_wrapper_stable_witness :
  exists w, NewHorizonErrorWrapper (HC := sample_horizon_client) (Some (EExternal "x")) = Some w
  /\ NewHorizonErrorWrapper (HC := sample_horizon_client)
       (Some (EWrap "a" (EWrap "b" (horizon_err w)))) = Some w.
Proof.
  eexists. split; [reflexivity|].
  exact (proj2 (horizon_wrapper_stable (HL := sample_horizon_client_laws)
           (EExternal "x") _ ["a"; "b"] I eq_refl)).
Defined.
