(* ===== verification/StateMachine.v ===== *)
(** The state machine of [internal/data/statemachine.go] and its four
    instances: payments, disbursements, receiver wallets and the transactions
    of the submission service.

    The statuses are the string constants of the code: the functions of this
    file accept any string, as they do in Go. *)

From S2P Require Import Prelude GoStrings Errors.

Local Open Scope string_scope.
Local Open Scope list_scope.

(** ** The machine *)

Abbreviation State := string.

Record StateTransition := mkTransition { From : State; To : State }.

Record StateMachine := mkStateMachine {
  CurrentState : State;
  Transitions : gmap State (gmap State bool) }.
#[export] Instance eta_StateMachine : Eta StateMachine :=
  fun r => mkStateMachine (CurrentState r) (Transitions r).

(** One iteration of the loop of [NewStateMachine]: a nil inner map is made first. *)
Definition add_transition (m : gmap State (gmap State bool)) (t : StateTransition) :
    gmap State (gmap State bool) :=
  <[From t := <[To t := true]> (default ∅ (m !! From t))]> m.

Definition NewStateMachine (initialState : State) (transitions : list StateTransition) :
    StateMachine :=
  mkStateMachine initialState (foldl add_transition ∅ transitions).

(** Reading a missing key of a Go map gives the zero value. *)
Definition CanTransitionTo (sm : StateMachine) (targetState : State) : bool :=
  match Transitions sm !! CurrentState sm with
  | None => false
  | Some row => default false (row !! targetState)
  end.

(** The error, and the machine after the call. *)
Definition TransitionTo (sm : StateMachine) (targetState : State) : res unit * StateMachine :=
  if CanTransitionTo sm targetState then (Ok tt, sm <| CurrentState := targetState |>)
  else (Err (ENew ("cannot transition from " +:+ CurrentState sm +:+ " to " +:+ targetState)), sm).

(** ** Payments: [payments_state_machine.go] *)

Module Payment.
Definition DraftPaymentStatus := "DRAFT".
Definition ReadyPaymentStatus := "READY".
Definition PendingPaymentStatus := "PENDING".
Definition PausedPaymentStatus := "PAUSED".
Definition SuccessPaymentStatus := "SUCCESS".
Definition FailedPaymentStatus := "FAILED".
Definition CanceledPaymentStatus := "CANCELED".

Definition PaymentStatuses : list string :=
  [DraftPaymentStatus; ReadyPaymentStatus; PendingPaymentStatus; PausedPaymentStatus;
   SuccessPaymentStatus; FailedPaymentStatus; CanceledPaymentStatus].
Definition PaymentInProgressStatuses : list string :=
  [ReadyPaymentStatus; PendingPaymentStatus; PausedPaymentStatus].
Definition PaymentCompletedStatuses : list string :=
  [SuccessPaymentStatus; CanceledPaymentStatus].
Definition PaymentActiveStatuses : list string := [ReadyPaymentStatus; PendingPaymentStatus].

Definition payment_transitions : list StateTransition :=
  [mkTransition DraftPaymentStatus ReadyPaymentStatus;
   mkTransition ReadyPaymentStatus PendingPaymentStatus;
   mkTransition ReadyPaymentStatus PausedPaymentStatus;
   mkTransition ReadyPaymentStatus CanceledPaymentStatus;
   mkTransition ReadyPaymentStatus FailedPaymentStatus;
   mkTransition PausedPaymentStatus ReadyPaymentStatus;
   mkTransition PendingPaymentStatus FailedPaymentStatus;
   mkTransition FailedPaymentStatus PendingPaymentStatus;
   mkTransition PendingPaymentStatus SuccessPaymentStatus].

Definition PaymentStateMachineWithInitialState (initialState : string) : StateMachine :=
  NewStateMachine initialState payment_transitions.

Definition PaymentStatus_TransitionTo (status targetState : string) : res unit :=
  fst (TransitionTo (PaymentStateMachineWithInitialState status) targetState).

Definition PaymentStatus_Validate (status : string) : res unit :=
  let uppercaseStatus := TrimSpace (ToUpper status) in
  if slices_Contains PaymentStatuses uppercaseStatus then Ok tt
  else Err (ENew ("invalid payment status: " +:+ status)).

Definition PaymentStatus_SourceStatuses (status : string) : list string :=
  let stateMachine := PaymentStateMachineWithInitialState DraftPaymentStatus in
  filter (fun fromState =>
    default false (default ∅ (Transitions stateMachine !! fromState) !! status) = true)
    PaymentStatuses.

Definition ToPaymentStatus (s : string) : res string :=
  let? _ := PaymentStatus_Validate s in Ok (ToUpper s).
End Payment.
Export Payment.

(** ** Disbursements: [dibursements_state_machine.go] *)

Module Disbursement.
Definition DraftDisbursementStatus := "DRAFT".
Definition ReadyDisbursementStatus := "READY".
Definition ApprovedDisbursementStatus := "APPROVED".
Definition StartedDisbursementStatus := "STARTED".
Definition PausedDisbursementStatus := "PAUSED".
Definition CompletedDisbursementStatus := "COMPLETED".

Definition NotStartedDisbursementStatuses : list string :=
  [DraftDisbursementStatus; ReadyDisbursementStatus; ApprovedDisbursementStatus].
Definition DisbursementStatuses : list string :=
  [DraftDisbursementStatus; ReadyDisbursementStatus; ApprovedDisbursementStatus;
   StartedDisbursementStatus; PausedDisbursementStatus; CompletedDisbursementStatus].

Definition disbursement_transitions : list StateTransition :=
  [mkTransition DraftDisbursementStatus ReadyDisbursementStatus;
   mkTransition ReadyDisbursementStatus ReadyDisbursementStatus;
   mkTransition ReadyDisbursementStatus ApprovedDisbursementStatus;
   mkTransition ReadyDisbursementStatus StartedDisbursementStatus;
   mkTransition ReadyDisbursementStatus DraftDisbursementStatus;
   mkTransition ApprovedDisbursementStatus ReadyDisbursementStatus;
   mkTransition ApprovedDisbursementStatus StartedDisbursementStatus;
   mkTransition StartedDisbursementStatus PausedDisbursementStatus;
   mkTransition PausedDisbursementStatus StartedDisbursementStatus;
   mkTransition StartedDisbursementStatus CompletedDisbursementStatus].

Definition DisbursementStateMachineWithInitialState (initialState : string) : StateMachine :=
  NewStateMachine initialState disbursement_transitions.

Definition DisbursementStatus_TransitionTo (status targetState : string) : res unit :=
  fst (TransitionTo (DisbursementStateMachineWithInitialState status) targetState).

Definition DisbursementStatus_SourceStatuses (status : string) : list string :=
  let stateMachine := DisbursementStateMachineWithInitialState DraftDisbursementStatus in
  filter (fun fromState =>
    default false (default ∅ (Transitions stateMachine !! fromState) !! status) = true)
    DisbursementStatuses.

Definition DisbursementStatus_Validate (status : string) : res unit :=
  if slices_Contains DisbursementStatuses (ToUpper status) then Ok tt
  else Err (ENew ("invalid disbursement status: " +:+ status)).

Definition ToDisbursementStatus (s : string) : res string :=
  let? _ := DisbursementStatus_Validate s in Ok (ToUpper s).
End Disbursement.
Export Disbursement.

(** ** Receiver wallets: [receiver_wallets_state_machine.go] *)

Module ReceiversWallet.
Definition DraftReceiversWalletStatus := "DRAFT".
Definition ReadyReceiversWalletStatus := "READY".
Definition RegisteredReceiversWalletStatus := "REGISTERED".
Definition FlaggedReceiversWalletStatus := "FLAGGED".

Definition ReceiversWalletStatuses : list string :=
  [DraftReceiversWalletStatus; ReadyReceiversWalletStatus; RegisteredReceiversWalletStatus;
   FlaggedReceiversWalletStatus].

Definition receivers_wallet_transitions : list StateTransition :=
  [mkTransition DraftReceiversWalletStatus ReadyReceiversWalletStatus;
   mkTransition ReadyReceiversWalletStatus RegisteredReceiversWalletStatus;
   mkTransition ReadyReceiversWalletStatus FlaggedReceiversWalletStatus;
   mkTransition FlaggedReceiversWalletStatus ReadyReceiversWalletStatus;
   mkTransition RegisteredReceiversWalletStatus FlaggedReceiversWalletStatus;
   mkTransition FlaggedReceiversWalletStatus RegisteredReceiversWalletStatus].

Definition ReceiversWalletStateMachineWithInitialState (initialState : string) : StateMachine :=
  NewStateMachine initialState receivers_wallet_transitions.

Definition ReceiversWalletStatus_TransitionTo (status targetState : string) : res unit :=
  fst (TransitionTo (ReceiversWalletStateMachineWithInitialState status) targetState).

Definition ReceiversWalletStatus_Validate (status : string) : res unit :=
  if slices_Contains ReceiversWalletStatuses (ToUpper status) then Ok tt
  else Err (ENew ("invalid receiver wallet status " +:+ quote status)).

Definition ToReceiversWalletStatus (s : string) : res string :=
  let? _ := wrap "invalid status" (ReceiversWalletStatus_Validate s) in Ok (ToUpper s).
End ReceiversWallet.
Export ReceiversWallet.

(** ** Submitter transactions: [transaction_state_machine.go] *)

Module Tss.
Definition TransactionStatusPending := "PENDING".
Definition TransactionStatusProcessing := "PROCESSING".
Definition TransactionStatusSuccess := "SUCCESS".
Definition TransactionStatusError := "ERROR".

Definition TransactionStatus_All : list string :=
  [TransactionStatusPending; TransactionStatusProcessing; TransactionStatusSuccess;
   TransactionStatusError].

Definition TransactionStatus_Validate (status : string) : res unit :=
  if slices_Contains TransactionStatus_All status then Ok tt
  else Err (ENew ("invalid disbursement status: " +:+ status)).

Definition tss_transitions : list StateTransition :=
  [mkTransition TransactionStatusPending TransactionStatusProcessing;
   mkTransition TransactionStatusProcessing TransactionStatusSuccess;
   mkTransition TransactionStatusProcessing TransactionStatusError].

Definition tssTransactionStateMachineWithInitialState (initialState : string) : StateMachine :=
  NewStateMachine initialState tss_transitions.

Definition TransactionStatus_CanTransitionTo (status targetState : string) : res unit :=
  fst (TransitionTo (tssTransactionStateMachineWithInitialState status) targetState).
End Tss.
Export Tss.

(** ** The transition relation *)

(** The specification of a machine: the listed transitions, and their closure. *)
Inductive step (ts : list StateTransition) : State -> State -> Prop :=
  | step_listed f t : mkTransition f t ∈ ts -> step ts f t.

Definition reachable (ts : list StateTransition) : State -> State -> Prop := rtc (step ts).

#[export] Instance StateTransition_eq_dec : EqDecision StateTransition.
Proof. solve_decision. Defined.

#[export] Instance step_dec ts s t : Decision (step ts s t).
Proof.
  destruct (decide (mkTransition s t ∈ ts)) as [H|H]; [left; by constructor|right].
  intros Hs. by destruct Hs.
Defined.

Lemma step_iff ts s t : step ts s t <-> mkTransition s t ∈ ts.
Proof. split; [by destruct 1|by constructor]. Qed.

(** What the map of maps holds after the loop of [NewStateMachine]. *)
Definition allowed (m : gmap State (gmap State bool)) (f t : State) : bool :=
  default false (default ∅ (m !! f) !! t).

Lemma allowed_add m tr f t :
  allowed (add_transition m tr) f t = true <-> tr = mkTransition f t \/ allowed m f t = true.
Proof.
  destruct tr as [f' t']. unfold allowed, add_transition. cbn.
  destruct (decide (f' = f)) as [->|Hf].
  - rewrite lookup_insert_eq. cbn. destruct (decide (t' = t)) as [->|Ht].
    + rewrite lookup_insert_eq. cbn. by split; [left|].
    + rewrite lookup_insert_ne by done. split; [by right|]. by intros [[= ->]|?].
  - rewrite lookup_insert_ne by done. split; [by right|]. by intros [[= -> ->]|?].
Qed.

Lemma allowed_foldl ts m f t :
  allowed (foldl add_transition m ts) f t = true <->
  mkTransition f t ∈ ts \/ allowed m f t = true.
Proof.
  revert m. induction ts as [|tr ts IH]; intros m; cbn [foldl].
  - rewrite elem_of_nil. naive_solver.
  - rewrite IH, allowed_add, elem_of_cons. intuition congruence.
Qed.

Lemma CanTransitionTo_allowed sm t :
  CanTransitionTo sm t = allowed (Transitions sm) (CurrentState sm) t.
Proof. unfold CanTransitionTo, allowed. by destruct (Transitions sm !! CurrentState sm). Qed.

Lemma CanTransitionTo_spec s ts t :
  CanTransitionTo (NewStateMachine s ts) t = true <-> step ts s t.
Proof.
  rewrite CanTransitionTo_allowed, step_iff. cbn. rewrite allowed_foldl.
  split; [intros [?|[=]]; done|by left].
Qed.

Lemma TransitionTo_ok s ts t :
  fst (TransitionTo (NewStateMachine s ts) t) = Ok tt <-> step ts s t.
Proof.
  rewrite <- CanTransitionTo_spec. unfold TransitionTo. by destruct CanTransitionTo.
Qed.

(** A state has no way out when no listed transition starts from it. *)
Lemma no_exit ts s : (forall t, ~ step ts s t) <-> Forall (fun tr => From tr <> s) ts.
Proof.
  rewrite Forall_forall. setoid_rewrite step_iff. split.
  - intros H [f t] Hin <-. by apply (H t).
  - intros H t Hin. by apply (H _ Hin).
Qed.

(** A set of states that no transition leaves holds everything reachable from it. *)
Lemma closed_reachable ts (S : list State) s t :
  Forall (fun tr => From tr ∈ S -> To tr ∈ S) ts -> s ∈ S -> reachable ts s t -> t ∈ S.
Proof.
  intros Hcl Hs Hr. induction Hr as [|s u t Hsu _ IH]; [done|]. apply IH.
  apply step_iff in Hsu. rewrite Forall_forall in Hcl. by apply (Hcl _ Hsu).
Qed.

Lemma PaymentStatus_TransitionTo_spec s t :
  PaymentStatus_TransitionTo s t = Ok tt <-> step payment_transitions s t.
Proof. apply TransitionTo_ok. Qed.

Lemma DisbursementStatus_TransitionTo_spec s t :
  DisbursementStatus_TransitionTo s t = Ok tt <-> step disbursement_transitions s t.
Proof. apply TransitionTo_ok. Qed.

Lemma ReceiversWalletStatus_TransitionTo_spec s t :
  ReceiversWalletStatus_TransitionTo s t = Ok tt <-> step receivers_wallet_transitions s t.
Proof. apply TransitionTo_ok. Qed.

Lemma TransactionStatus_CanTransitionTo_spec s t :
  TransactionStatus_CanTransitionTo s t = Ok tt <-> step tss_transitions s t.
Proof. apply TransitionTo_ok. Qed.

(** Case analysis on a transition of a concrete machine. *)
Ltac invert_step :=
  repeat match goal with
  | H : step _ _ _ |- _ => apply step_iff in H
  | H : mkTransition _ _ ∈ _ :: _ |- _ => apply elem_of_cons in H as [[= ? ?]|H]; subst
  | H : mkTransition _ _ ∈ [] |- _ => by apply not_elem_of_nil in H
  end.

Lemma payment_sources_spec s t :
  s ∈ PaymentStatus_SourceStatuses t <-> step payment_transitions s t.
Proof.
  unfold PaymentStatus_SourceStatuses. rewrite list_elem_of_filter.
  change (default false (default ∅ (Transitions ?m !! s) !! t)) with (allowed (Transitions m) s t).
  cbn [Transitions PaymentStateMachineWithInitialState NewStateMachine].
  rewrite allowed_foldl, step_iff. split; [by intros [[?|[=]] _]|].
  intros H. split; [by left|]. unfold payment_transitions in H.
  invert_step; cbn; set_solver.
Qed.

Lemma disbursement_sources_spec s t :
  s ∈ DisbursementStatus_SourceStatuses t <-> step disbursement_transitions s t.
Proof.
  unfold DisbursementStatus_SourceStatuses. rewrite list_elem_of_filter.
  change (default false (default ∅ (Transitions ?m !! s) !! t)) with (allowed (Transitions m) s t).
  cbn [Transitions DisbursementStateMachineWithInitialState NewStateMachine].
  rewrite allowed_foldl, step_iff. split; [by intros [[?|[=]] _]|].
  intros H. split; [by left|]. unfold disbursement_transitions in H.
  invert_step; cbn; set_solver.
Qed.

(** ** Properties *)

(** For every list of transitions and every pair of states, the machine that
    [NewStateMachine] builds accepts exactly the listed transitions; an
    accepted one moves the machine and a refused one leaves it unchanged. *)
Theorem state_machine_correct (s t : State) (ts : list StateTransition) :
  let '(e, sm') := TransitionTo (NewStateMachine s ts) t in
  (e = Ok tt <-> step ts s t) /\
  CurrentState sm' = (if decide (step ts s t) then t else s) /\
  Transitions sm' = Transitions (NewStateMachine s ts).
Proof.
  pose proof (CanTransitionTo_spec s ts t) as H. unfold TransitionTo.
  destruct CanTransitionTo; case_decide; naive_solver.
Qed.

(** The bulk updates select their rows with [SourceStatuses], the updates of a
    single row ask [TransitionTo]: the two agree on every pair of strings, for
    payments and for disbursements. *)
Theorem source_statuses_agree (s t : string) :
  (s ∈ PaymentStatus_SourceStatuses t <-> PaymentStatus_TransitionTo s t = Ok tt) /\
  (s ∈ DisbursementStatus_SourceStatuses t <-> DisbursementStatus_TransitionTo s t = Ok tt).
Proof.
  by rewrite payment_sources_spec, disbursement_sources_spec, PaymentStatus_TransitionTo_spec,
    DisbursementStatus_TransitionTo_spec.
Qed.

Lemma payment_reachable_known s :
  reachable payment_transitions DraftPaymentStatus s -> s ∈ PaymentStatuses.
Proof.
  apply closed_reachable; [|unfold PaymentStatuses; set_solver].
  unfold payment_transitions. repeat constructor; cbn; unfold PaymentStatuses; set_solver.
Qed.

(** The life of a payment: a status reached from DRAFT is one of the seven, it
    has no way out exactly when [PaymentCompletedStatuses] lists it, and money
    only moves through READY and PENDING: SUCCESS is entered from PENDING, and
    PENDING from READY or, on a retry, from FAILED. *)
Theorem payment_lifecycle (s : State)
    (Hs : reachable payment_transitions DraftPaymentStatus s) :
  s ∈ PaymentStatuses /\
  ((forall t, PaymentStatus_TransitionTo s t <> Ok tt) <-> s ∈ PaymentCompletedStatuses) /\
  (PaymentStatus_TransitionTo s SuccessPaymentStatus = Ok tt <-> s = PendingPaymentStatus) /\
  (PaymentStatus_TransitionTo s PendingPaymentStatus = Ok tt <->
    s = ReadyPaymentStatus \/ s = FailedPaymentStatus).
Proof.
  apply payment_reachable_known in Hs. split; [done|].
  setoid_rewrite PaymentStatus_TransitionTo_spec. rewrite no_exit. revert s Hs.
  apply Forall_forall. by_computation.
Qed.

Lemma payment_lifecycle_witness :
  PaymentStatus_TransitionTo SuccessPaymentStatus PendingPaymentStatus <> Ok tt.
Proof.
  assert (Hr : reachable payment_transitions DraftPaymentStatus SuccessPaymentStatus).
  { apply rtc_l with ReadyPaymentStatus; [by_computation|].
    apply rtc_l with PendingPaymentStatus; [by_computation|]. apply rtc_once. by_computation. }
  apply (proj2 (proj1 (proj2 (payment_lifecycle _ Hr)))). by_computation.
Defined.

(** [ToPaymentStatus] accepts a string exactly when its trimmed upper case is a
    status, but returns the upper case without trimming it: a padded input is
    accepted and the result is not one of the statuses. *)
Theorem ToPaymentStatus_not_trimmed :
  (forall s r, ToPaymentStatus s = Ok r <->
     r = ToUpper s /\ TrimSpace (ToUpper s) ∈ PaymentStatuses) /\
  (exists s r, ToPaymentStatus s = Ok r /\ r ∉ PaymentStatuses).
Proof.
  split.
  - intros s r. unfold ToPaymentStatus, PaymentStatus_Validate.
    destruct (slices_Contains _ _) eqn:E; cbn.
    + apply slices_Contains_spec in E. naive_solver.
    + apply slices_Contains_false in E. naive_solver.
  - exists " draft", " DRAFT". split; [reflexivity|by_computation].
Qed.

(** The two other parsers return a status whenever they accept. *)
Theorem status_parsers_sound (s r : string) :
  (ToDisbursementStatus s = Ok r <-> r = ToUpper s /\ r ∈ DisbursementStatuses) /\
  (ToReceiversWalletStatus s = Ok r <-> r = ToUpper s /\ r ∈ ReceiversWalletStatuses).
Proof.
  unfold ToDisbursementStatus, DisbursementStatus_Validate, ToReceiversWalletStatus,
    ReceiversWalletStatus_Validate.
  split; destruct (slices_Contains _ _) eqn:E; cbn;
    first [apply slices_Contains_spec in E | apply slices_Contains_false in E]; naive_solver.
Qed.

(** The point of no return of a disbursement: before it is started it can be
    deleted, reviewed and sent back; once it is started it can only pause,
    resume and complete, so it is never deletable again, and COMPLETED is final. *)
Theorem disbursement_point_of_no_return (s : State)
    (Hs : reachable disbursement_transitions StartedDisbursementStatus s) :
  s ∉ NotStartedDisbursementStatuses /\ s ∈ DisbursementStatuses /\
  reachable disbursement_transitions s CompletedDisbursementStatus /\
  ((forall t, DisbursementStatus_TransitionTo s t <> Ok tt) <-> s = CompletedDisbursementStatus).
Proof.
  setoid_rewrite DisbursementStatus_TransitionTo_spec. rewrite no_exit.
  assert (Hin : s ∈ [StartedDisbursementStatus; PausedDisbursementStatus;
                     CompletedDisbursementStatus]).
  { revert Hs. apply closed_reachable; by_computation. }
  assert (Hsc : step disbursement_transitions StartedDisbursementStatus CompletedDisbursementStatus)
    by by_computation.
  clear Hs. rewrite !elem_of_cons, elem_of_nil in Hin.
  destruct_or!; try done; subst s; (split; [by_computation|]); (split; [by_computation|]);
    (split; [|by_computation]).
  - by apply rtc_once.
  - apply rtc_l with StartedDisbursementStatus; [by_computation|by apply rtc_once].
  - apply rtc_refl.
Qed.

Lemma disbursement_point_of_no_return_witness :
  PausedDisbursementStatus ∉ NotStartedDisbursementStatuses.
Proof.
  refine (proj1 (disbursement_point_of_no_return _ _)). apply rtc_once. by_computation.
Defined.
