(* ===== verification/Effects.v ===== *)
(** The effects of the code: a database reached through [db.DBConnectionPool]
    ([db/db.go]), local mutable state, calls to the outside world and a trace
    of what the program did.

    A program is a function from a [World] to a result and a [World].  The
    environment [Env] decides, at each instant of the logical clock, whether a
    database call fails (before or after the server applied it), what the
    other processes wrote to the database in the meantime, and what [NOW()]
    returns.  The others interleave between statements; while a transaction of
    this program is open they are taken to wait, the isolation the row locks
    of the code give it for the rows it reads. *)

From S2P Require Import Prelude GoStrings Errors.

Local Open Scope string_scope.
Local Open Scope list_scope.

(** ** The world *)

(** An open transaction: whether a statement of it has failed, its [NOW()], and
    the databases without its writes, to which a rollback returns. *)
Record TxState (D : Type) := mkTx { tx_aborted : bool; tx_now : Z; tx_saved : D }.
Arguments mkTx {D} _ _ _.
Arguments tx_aborted {D} _.
Arguments tx_now {D} _.
Arguments tx_saved {D} _.

Record World (D L Ev : Type) := mkWorld {
  w_db : D;
  w_clock : nat;
  w_tx : gmap nat (TxState D);   (* the open database transactions, by connection *)
  w_loc : L;
  w_trace : list Ev }.
Arguments mkWorld {D L Ev} _ _ _ _ _.
Arguments w_db {D L Ev} _.
Arguments w_clock {D L Ev} _.
Arguments w_tx {D L Ev} _.
Arguments w_loc {D L Ev} _.
Arguments w_trace {D L Ev} _.

#[export] Instance eta_World D L Ev : Eta (World D L Ev) :=
  fun w => mkWorld (w_db w) (w_clock w) (w_tx w) (w_loc w) (w_trace w).

Inductive Fault :=
  | NoFault
  | FaultBefore (e : err)   (* the call fails, nothing was done *)
  | FaultAfter (e : err).   (* the server applied it, the answer was lost *)

Class Env (D : Type) := {
  env_fault : nat -> Fault;
  env_interfere : nat -> D -> D;
  env_now : nat -> Z;
  env_locked : nat -> string -> bool }.   (* rows other transactions hold, by key *)

(** A connection pool gives access to the part [X] of the databases. *)
Class Conn (D X : Type) := {
  conn_id : nat;
  conn_get : D -> X;
  conn_set : X -> D -> D }.
Arguments conn_id {D} X {_}.

Class ConnLaws (D X : Type) {C : Conn D X} := {
  conn_get_set : forall x d, conn_get (conn_set x d) = x;
  conn_set_get : forall d : D, conn_set (conn_get d) d = d;
  conn_set_set : forall x y d, conn_set x (conn_set y d) = conn_set x d }.

(** Two connections to different databases. *)
Class ConnIndep (D X Y : Type) {CX : Conn D X} {CY : Conn D Y} := {
  conn_id_ne : conn_id X <> conn_id Y;
  conn_get_set_r : forall (y : Y) (d : D), conn_get (X := X) (conn_set y d) = conn_get d;
  conn_get_set_l : forall (x : X) (d : D), conn_get (X := Y) (conn_set x d) = conn_get d }.

(** A panic of the Go runtime, which no code of the services recovers. *)
Definition nil_dereference : err :=
  EExternal "runtime error: invalid memory address or nil pointer dereference".

Fixpoint is_panic (e : err) : bool :=
  match e with
  | EExternal m => m =? Error nil_dereference
  | EWrap _ e' => is_panic e'
  | _ => false
  end.

(** The order in which the runtime goes over a map. *)
Class MapRange := {
  range_order : forall {A}, nat -> list A -> list A;
  range_order_perm : forall {A} t (l : list A), range_order t l ≡ₚ l }.

(** ** Programs *)

Definition M (D L Ev A : Type) : Type := World D L Ev -> res A * World D L Ev.

Section programs.
Context {D L Ev : Type} {E : Env D}.
Implicit Types w : World D L Ev.

Definition mret_ {A} (a : A) : M D L Ev A := fun w => (Ok a, w).
Definition throw {A} (e : err) : M D L Ev A := fun w => (Err e, w).
Definition lift {A} (r : res A) : M D L Ev A := fun w => (r, w).

(** [x, err := m; if err != nil { return err }; k(x)]. *)
Definition mbind_ {A B} (m : M D L Ev A) (k : A -> M D L Ev B) : M D L Ev B := fun w =>
  match m w with
  | (Ok a, w') => k a w'
  | (Err e, w') => (Err e, w')
  end.

(** [x, err := m], with the error left to the code that follows. *)
Definition try_ {A} (m : M D L Ev A) : M D L Ev (res A) := fun w =>
  let '(r, w') := m w in (Ok r, w').

(** The same where the call may panic: that is not left to the code. *)
Definition catch_ {A} (m : M D L Ev A) : M D L Ev (res A) := fun w =>
  match m w with
  | (Ok a, w') => (Ok (Ok a), w')
  | (Err e, w') => (if is_panic e then Err e else Ok (Err e), w')
  end.

Definition map_errM {A} (f : err -> err) (m : M D L Ev A) : M D L Ev A := fun w =>
  let '(r, w') := m w in (res_map_err f r, w').

(** [if err != nil { return fmt.Errorf(p + ": %w", err) }]. *)
Definition wrapM {A} (p : string) (m : M D L Ev A) : M D L Ev A := map_errM (EWrap p) m.

Definition get_loc : M D L Ev L := fun w => (Ok (w_loc w), w).
Definition put_loc (l : L) : M D L Ev unit := fun w => (Ok tt, w <| w_loc := l |>).
Definition emit (ev : World D L Ev -> Ev) : M D L Ev unit := fun w =>
  (Ok tt, w <| w_trace := w_trace w ++ [ev w] |>).

(** Time passes: the clock advances, and outside a transaction of this program
    the other processes write to the database. *)
Definition settle w : World D L Ev :=
  let w1 := w <| w_clock := S (w_clock w) |> in
  if bool_decide (w_tx w = ∅) then w1 <| w_db := env_interfere (w_clock w) (w_db w) |> else w1.

(** A call to third-party code, whose answer may depend on when it is made. *)
Definition ask {A} (f : nat -> A) : M D L Ev A := fun w => (Ok (f (w_clock w)), settle w).
Definition ask_res {A} (f : nat -> res A) : M D L Ev A := fun w => (f (w_clock w), settle w).

(** A statement: from what the server knows (the value of [NOW()], the rows
    [SKIP LOCKED] skips) and the tables, to a result and the new tables, or an
    error and no change. *)
Record StmtCtx := mkCtx { NOW : Z; row_locked : string -> bool }.
Definition Stmt (X A : Type) : Type := StmtCtx -> X -> res (A * X).

Definition tx_aborted_err : err :=
  EExternal "pq: current transaction is aborted, commands ignored until end of transaction block".

Section statements.
Context {X : Type} {C : Conn D X}.

Definition put_part (x : X) w : World D L Ev := w <| w_db := conn_set x (w_db w) |>.

Definition set_tx (t : option (TxState D)) w : World D L Ev :=
  w <| w_tx := partial_alter (fun _ => t) (conn_id X) (w_tx w) |>.

Definition db_stmt {A} (q : Stmt X A) : M D L Ev A := fun w =>
  let t := w_clock w in
  let w1 := settle w in
  let x := conn_get (w_db w1) in
  match w_tx w !! conn_id X with
  | None =>
    match env_fault t with
    | FaultBefore e => (Err e, w1)
    | f =>
      match q (mkCtx (env_now t) (env_locked t)) x with
      | Err e => (Err e, w1)
      | Ok (a, x') =>
        (match f with FaultAfter e => Err e | _ => Ok a end, put_part x' w1)
      end
    end
  | Some (mkTx true _ _) => (Err tx_aborted_err, w1)
  | Some (mkTx false now saved) =>
    let failed := set_tx (Some (mkTx true now saved)) w1 in
    match env_fault t with
    | FaultBefore e | FaultAfter e => (Err e, failed)
    | NoFault =>
      match q (mkCtx now (env_locked t)) x with
      | Err e => (Err e, failed)
      | Ok (a, x') => (Ok a, put_part x' w1)
      end
    end
  end.

(** A read through the connection pool, outside the transaction that may be
    open: of tables that transaction has not written. *)
Definition pool_query {A} (q : StmtCtx -> X -> res A) : M D L Ev A := fun w =>
  let t := w_clock w in
  let w1 := settle w in
  match env_fault t with
  | NoFault => (q (mkCtx (env_now t) (env_locked t)) (conn_get (w_db w1)), w1)
  | FaultBefore e | FaultAfter e => (Err e, w1)
  end.

(** [GetContext]: the row of the answer, or [sql.ErrNoRows]. *)
Definition sql_ErrNoRows := "sql: no rows in result set".

Definition GetContext {A} (q : Stmt X (option A)) : M D L Ev A :=
  mbind_ (db_stmt q) (fun o =>
    match o with Some a => mret_ a | None => throw (ESentinel sql_ErrNoRows) end).

Definition is_aborted w : bool :=
  match w_tx w !! conn_id X with Some t => tx_aborted t | None => false end.

(** The tables without what the open transaction wrote. *)
Definition snapshot w : D :=
  match w_tx w !! conn_id X with Some t => tx_saved t | None => w_db w end.

(** Work done on the connection pool while a transaction of the same database is
    open: on the committed tables, where it stays when the transaction is rolled
    back.  The transaction, which has not written the rows in question, sees
    what was committed: that is the second run.  The others keep waiting. *)
Definition on_pool {A} (m : M D L Ev A) : M D L Ev A := fun w =>
  match w_tx w !! conn_id X with
  | None => m w
  | Some t =>
    let beside := <[fresh (dom (w_tx w)) := t]> (delete (conn_id X) (w_tx w)) in
    let '(r, committed) := m (put_part (conn_get (tx_saved t)) (w <| w_tx := beside |>)) in
    let seen := snd (m (w <| w_tx := beside |>)) in
    (r, committed <| w_db := w_db seen |>
          <| w_tx := <[conn_id X := mkTx (tx_aborted t) (tx_now t) (w_db committed)]> (w_tx w) |>)
  end.

(** The same while the transaction has run no statement: it holds no lock, so the
    others do not wait for it, and it has nothing to roll back. *)
Definition beside_idle {A} (m : M D L Ev A) : M D L Ev A := fun w =>
  match w_tx w !! conn_id X with
  | None => m w
  | Some t =>
    let '(r, w') := m (set_tx None w) in
    (r, set_tx (Some (mkTx (tx_aborted t) (tx_now t) (w_db w'))) w')
  end.

(** [db.RunInTransactionWithResult]: begin, run, commit; rolled back on error. *)
Definition RunInTransactionWithResult {A} (atomicFunction : M D L Ev A) : M D L Ev A := fun w =>
  let t := w_clock w in
  let w1 := settle w in
  match env_fault t with
  | FaultBefore e | FaultAfter e =>
    (Err (EWrap "creating db transaction for RunInTransactionWithResult" e), w1)
  | NoFault =>
    let '(r, w2) := atomicFunction (set_tx (Some (mkTx false (env_now t) (w_db w1))) w1) in
    let saved := conn_get (snapshot w2) in
    match r with
    | Err e => (Err (EWrap "transaction execution error" e), put_part saved (set_tx None w2))
    | Ok a =>
      let committing e := Err (EWrap "committing transaction in RunInTransactionWithResult" e) in
      let w3 := set_tx None w2 <| w_clock := S (w_clock w2) |> in
      if is_aborted w2 then (committing tx_aborted_err, put_part saved w3)
      else
        match env_fault (w_clock w2) with
        | NoFault => (Ok a, w3)
        | FaultBefore e => (committing e, put_part saved w3)
        | FaultAfter e => (committing e, w3)
        end
    end
  end.

Definition RunInTransaction (atomicFunction : M D L Ev unit) : M D L Ev unit :=
  RunInTransactionWithResult atomicFunction.
End statements.

(** [if errors.Is(err, sql.ErrNoRows) { return nf } else { return fmt.Errorf(p + ": %w", err) }]. *)
Definition no_rows_as {A} (nf : err) (p : string) (m : M D L Ev A) : M D L Ev A :=
  map_errM (fun e => if errors_Is e sql_ErrNoRows then nf else EWrap p e) m.

(** The entries of a Go map in the order of one [range] over it, which the
    language leaves open, and its keys ([maps.Keys]) and values ([maps.Values]). *)
Definition range_map {R : MapRange} {V} (m : gmap string V) : M D L Ev (list (string * V)) :=
  ask (fun t => range_order t (map_to_list m)).

(** [for _, x := range l { if err := f(x); err != nil { return err } }]. *)
Fixpoint mforM {A} (f : A -> M D L Ev unit) (l : list A) : M D L Ev unit :=
  match l with
  | [] => mret_ tt
  | x :: l' => mbind_ (f x) (fun _ => mforM f l')
  end.

(** The same loop over a variable of the caller. *)
Fixpoint mfoldM {A S} (f : S -> A -> M D L Ev S) (s : S) (l : list A) : M D L Ev S :=
  match l with
  | [] => mret_ s
  | x :: l' => mbind_ (f s x) (fun s' => mfoldM f s' l')
  end.

(** The same loop collecting one result per element. *)
Fixpoint mmapM {A B} (f : A -> M D L Ev B) (l : list A) : M D L Ev (list B) :=
  match l with
  | [] => mret_ []
  | x :: l' => mbind_ (f x) (fun y => mbind_ (mmapM f l') (fun ys => mret_ (y :: ys)))
  end.
End programs.

Notation "'let!' x ':=' m 'in' k" := (mbind_ m (fun x => k))
  (at level 10, x pattern, m at level 100, k at level 200) : go_scope.
Notation "m ';;!' k" := (mbind_ m (fun _ => k))
  (at level 100, k at level 200, right associativity) : go_scope.

(** ** Reasoning

    [wp m Q w]: running [m] from [w] ends in a result and a world that satisfy
    [Q]; since programs are functions, they always return.  [respects R m]:
    every run of [m] relates the first world to the last by [R]. *)

Section reasoning.
Context {D L Ev : Type} {E : Env D}.
Implicit Types w : World D L Ev.

Definition wp {A} (m : M D L Ev A) (Q : res A -> World D L Ev -> Prop) w : Prop :=
  Q (fst (m w)) (snd (m w)).

Definition respects {A} (R : World D L Ev -> World D L Ev -> Prop) (m : M D L Ev A) : Prop :=
  forall w, R w (snd (m w)).

Lemma wp_ret {A} (a : A) (Q : res A -> World D L Ev -> Prop) w :
  wp (mret_ a) Q w <-> Q (Ok a) w.
Proof. done. Qed.

Lemma wp_throw {A} e (Q : res A -> World D L Ev -> Prop) w :
  wp (throw e) Q w <-> Q (Err e) w.
Proof. done. Qed.

Lemma wp_lift {A} (r : res A) (Q : res A -> World D L Ev -> Prop) w :
  wp (lift r) Q w <-> Q r w.
Proof. done. Qed.

Lemma wp_bind {A B} (m : M D L Ev A) (k : A -> M D L Ev B) Q w :
  wp (mbind_ m k) Q w <->
  wp m (fun r w' => match r with Ok a => wp (k a) Q w' | Err e => Q (Err e) w' end) w.
Proof. unfold wp, mbind_. by destruct (m w) as [[a|e] w']. Qed.

Lemma wp_try {A} (m : M D L Ev A) Q w :
  wp (try_ m) Q w <-> wp m (fun r w' => Q (Ok r) w') w.
Proof. unfold wp, try_. by destruct (m w). Qed.

Lemma wp_map_err {A} f (m : M D L Ev A) Q w :
  wp (map_errM f m) Q w <-> wp m (fun r w' => Q (res_map_err f r) w') w.
Proof. unfold wp, map_errM. by destruct (m w). Qed.

Lemma wp_wrap {A} p (m : M D L Ev A) Q w :
  wp (wrapM p m) Q w <-> wp m (fun r w' => Q (wrap p r) w') w.
Proof. apply wp_map_err. Qed.

Lemma wp_mono {A} (m : M D L Ev A) (P Q : res A -> World D L Ev -> Prop) w :
  wp m P w -> (forall r w', P r w' -> Q r w') -> wp m Q w.
Proof. unfold wp. auto. Qed.

Lemma wp_and {A} (m : M D L Ev A) (P Q : res A -> World D L Ev -> Prop) w :
  wp m P w -> wp m Q w -> wp m (fun r w' => P r w' /\ Q r w') w.
Proof. by split. Qed.

(** The same by inversion, for a run that answered. *)
Lemma catch_ok {A} (m : M D L Ev A) w a w' : catch_ m w = (Ok (Ok a), w') -> m w = (Ok a, w').
Proof. unfold catch_. destruct (m w) as [[b|e] w1]; [by intros [= <- <-]|by destruct (is_panic e)]. Qed.

Lemma map_errM_ok {A} f (m : M D L Ev A) w a w' : map_errM f m w = (Ok a, w') <-> m w = (Ok a, w').
Proof. unfold map_errM. destruct (m w) as [[b|e] w1]; cbn; naive_solver. Qed.

Lemma mbind_ok {A B} (m : M D L Ev A) (k : A -> M D L Ev B) w b w' :
  mbind_ m k w = (Ok b, w') <-> exists a w1, m w = (Ok a, w1) /\ k a w1 = (Ok b, w').
Proof. unfold mbind_. destruct (m w) as [[a|e] w1]; naive_solver. Qed.

Lemma mbind_run {A B} (m : M D L Ev A) (k : A -> M D L Ev B) w r w' :
  mbind_ m k w = (r, w') ->
  (exists a w1, m w = (Ok a, w1) /\ k a w1 = (r, w')) \/ (exists e, m w = (Err e, w') /\ r = Err e).
Proof. unfold mbind_. destruct (m w) as [[a|e] w1]; naive_solver. Qed.

Lemma lift_ok {A} (r : res A) w a w' : lift r w = (Ok a, w') <-> r = Ok a /\ w' = w.
Proof. unfold lift. naive_solver. Qed.

(** Loops that answered: an invariant of the worlds, a relation of what each
    element gave. *)
Lemma mmapM_ok {A B} (I : World D L Ev -> Prop) (P : A -> B -> Prop) (f : A -> M D L Ev B) l w ys w' :
  (forall x w y w', I w -> f x w = (Ok y, w') -> I w' /\ P x y) ->
  I w -> mmapM f l w = (Ok ys, w') -> I w' /\ Forall2 P l ys.
Proof.
  intros Hf. revert w ys. induction l as [|x l IH]; intros w ys Hi H; cbn in H.
  - injection H as <- <-. by split; [|constructor].
  - apply mbind_ok in H as (y & w1 & H1 & H). apply mbind_ok in H as (ys' & w2 & H2 & H).
    injection H as <- <-. destruct (Hf x w y w1 Hi H1) as [Hi1 Hp].
    destruct (IH w1 ys' Hi1 H2) as [Hi2 Hall]. split; [done|by constructor].
Qed.

(** A loop that answered, by an invariant of what is left to do. *)
Lemma mfoldM_ok {A S} (I : S -> World D L Ev -> list A -> Prop) (f : S -> A -> M D L Ev S) s l w s' w' :
  (forall s x l w s' w', I s w (x :: l) -> f s x w = (Ok s', w') -> I s' w' l) ->
  I s w l -> mfoldM f s l w = (Ok s', w') -> I s' w' [].
Proof.
  intros Hf. revert s w. induction l as [|x l IH]; intros s w Hi H; cbn in H.
  - by injection H as <- <-.
  - apply mbind_ok in H as (s1 & w1 & H1 & H). eapply (IH s1 w1); [by eapply Hf|exact H].
Qed.

(** One relation per iteration, composed. *)
Inductive chain {A S} (R : A -> S -> S -> Prop) : list A -> S -> S -> Prop :=
  | chain_nil s : chain R [] s s
  | chain_cons x l s1 s2 s3 : R x s1 s2 -> chain R l s2 s3 -> chain R (x :: l) s1 s3.

Lemma mforM_ok {A S} (I : World D L Ev -> Prop) (view : World D L Ev -> S) (R : A -> S -> S -> Prop)
    (f : A -> M D L Ev unit) l w u w' :
  (forall x w w', I w -> f x w = (Ok tt, w') -> I w' /\ R x (view w) (view w')) ->
  I w -> mforM f l w = (Ok u, w') -> I w' /\ chain R l (view w) (view w').
Proof.
  intros Hf. revert w. induction l as [|x l IH]; intros w Hi H; cbn in H.
  - injection H as _ <-. by split; [|constructor].
  - apply mbind_ok in H as ([] & w1 & H1 & H). destruct (Hf x w w1 Hi H1) as [Hi1 Hr].
    destruct (IH w1 Hi1 H) as [Hi2 Hc]. split; [done|by econstructor].
Qed.

Section respects.
Context (R : World D L Ev -> World D L Ev -> Prop) {HR : PreOrder R}.

Lemma respects_ret {A} (a : A) : respects R (mret_ a).
Proof. intros w. reflexivity. Qed.

Lemma respects_throw {A} e : respects R (@throw D L Ev A e).
Proof. intros w. reflexivity. Qed.

Lemma respects_lift {A} (r : res A) : respects R (lift r).
Proof. intros w. reflexivity. Qed.

Lemma respects_get_loc : respects R get_loc.
Proof. intros w. reflexivity. Qed.

Lemma respects_bind {A B} (m : M D L Ev A) (k : A -> M D L Ev B) :
  respects R m -> (forall a, respects R (k a)) -> respects R (mbind_ m k).
Proof.
  intros Hm Hk w. unfold mbind_. specialize (Hm w). destruct (m w) as [[a|e] w']; [|done].
  etransitivity; [exact Hm|]. apply Hk.
Qed.

Lemma respects_try {A} (m : M D L Ev A) : respects R m -> respects R (try_ m).
Proof. intros Hm w. specialize (Hm w). unfold try_. by destruct (m w). Qed.

Lemma respects_catch {A} (m : M D L Ev A) : respects R m -> respects R (catch_ m).
Proof. intros Hm w. specialize (Hm w). unfold catch_. by destruct (m w) as [[]]. Qed.

Lemma respects_map_err {A} f (m : M D L Ev A) : respects R m -> respects R (map_errM f m).
Proof. intros Hm w. specialize (Hm w). unfold map_errM. by destruct (m w). Qed.

Lemma respects_wrap {A} p (m : M D L Ev A) : respects R m -> respects R (wrapM p m).
Proof. apply respects_map_err. Qed.

Lemma respects_forM {A} (f : A -> M D L Ev unit) l :
  (forall x, respects R (f x)) -> respects R (mforM f l).
Proof.
  intros Hf. induction l as [|x l IH]; cbn; [apply respects_ret|by apply respects_bind].
Qed.

Lemma respects_mapM {A B} (f : A -> M D L Ev B) l :
  (forall x, respects R (f x)) -> respects R (mmapM f l).
Proof.
  intros Hf. induction l as [|x l IH]; cbn; [apply respects_ret|].
  repeat (apply respects_bind; [done|intros ?]). apply respects_ret.
Qed.
End respects.

(** A statement as seen from outside: it fails without a change of the tables,
    or it runs; in the second case its answer may be lost. *)
Section statements.
Context {X : Type} {C : Conn D X}.

Lemma wp_stmt_auto {A} (q : Stmt X A) (Q : res A -> World D L Ev -> Prop) w :
  w_tx w = ∅ ->
  (forall e, Q (Err e) (settle w)) ->
  (forall ctx a x' r, q ctx (conn_get (w_db (settle w))) = Ok (a, x') ->
     (r = Ok a \/ exists e, r = Err e) -> Q r (put_part x' (settle w))) ->
  wp (db_stmt q) Q w.
Proof.
  intros Htx Hfail Hok. unfold wp, db_stmt. rewrite Htx, lookup_empty.
  destruct (env_fault _) as [|e|e] eqn:EF; [|apply Hfail|];
    destruct (q _ _) as [[a x']|e'] eqn:Eq; cbn; try apply Hfail; eapply Hok; eauto.
Qed.

(** A statement without faults, outside a transaction. *)
Lemma db_stmt_run {A} (q : Stmt X A) w :
  w_tx w = ∅ -> env_fault (w_clock w) = NoFault ->
  db_stmt q w =
    match q (mkCtx (env_now (w_clock w)) (env_locked (w_clock w))) (conn_get (w_db (settle w))) with
    | Ok (a, x') => (Ok a, put_part x' (settle w))
    | Err e => (Err e, settle w)
    end.
Proof.
  intros Htx Hf. unfold db_stmt. rewrite Htx, lookup_empty, Hf. by destruct (q _ _) as [[]|].
Qed.

(** A statement that answered, in or out of a transaction. *)
Lemma db_stmt_ok {A} (q : Stmt X A) w a w' :
  db_stmt q w = (Ok a, w') ->
  exists ctx x', q ctx (conn_get (w_db (settle w))) = Ok (a, x') /\ w' = put_part x' (settle w).
Proof.
  unfold db_stmt. destruct (w_tx w !! conn_id X) as [[[] now saved]|]; [done| |].
  - destruct (env_fault _); try done. destruct (q _ _) as [[b x']|] eqn:Eq; [|done].
    intros [= <- <-]. eauto.
  - destruct (env_fault _); try done; destruct (q _ _) as [[b x']|] eqn:Eq; try done.
    intros [= <- <-]. eauto.
Qed.

(** Whatever comes back, a statement has changed the tables by its own effect
    or not at all. *)
Lemma db_stmt_effect {A} (q : Stmt X A) w :
  w_db (snd (db_stmt q w)) = w_db (settle w) \/
  exists ctx a x', q ctx (conn_get (w_db (settle w))) = Ok (a, x') /\
    w_db (snd (db_stmt q w)) = conn_set x' (w_db (settle w)).
Proof.
  unfold db_stmt. destruct (w_tx w !! conn_id X) as [[[] now saved]|]; [by left| |].
  - destruct (env_fault _); try by left. destruct (q _ _) as [[b x']|] eqn:Eq; [|by left].
    right. eauto.
  - destruct (env_fault _); try (by left); (destruct (q (mkCtx _ _) _) as [[b x']|] eqn:Eq;
      [right; eauto|by left]).
Qed.

(** Inside a transaction the other processes wait: a statement that succeeds
    ran on the tables as this program left them. *)
Definition in_tx w : Prop := exists now saved, w_tx w !! conn_id X = Some (mkTx false now saved).

Lemma in_tx_settle w : in_tx w -> w_db (settle w) = w_db w /\ w_tx (settle w) = w_tx w.
Proof.
  intros (now & saved & Hn). unfold settle. case_bool_decide as He; [|done].
  rewrite He, lookup_empty in Hn. done.
Qed.

Lemma db_stmt_in_tx {A} (q : Stmt X A) w a w' :
  in_tx w -> db_stmt q w = (Ok a, w') ->
  exists ctx x', q ctx (conn_get (w_db w)) = Ok (a, x') /\ w' = put_part x' (settle w) /\ in_tx w'.
Proof.
  intros Htx. pose proof Htx as (now & saved & Hn). destruct (in_tx_settle w Htx) as [Hdb Hwtx].
  unfold db_stmt. rewrite Hn, Hdb. destruct (env_fault (w_clock w)); try done.
  destruct (q _ _) as [[b x']|e] eqn:Eq; [|done]. intros [= <- <-].
  eexists _, x'. split; [exact Eq|]. split; [done|]. exists now, saved. cbn. by rewrite Hwtx.
Qed.

Lemma GetContext_in_tx {A} (q : Stmt X (option A)) w a w' :
  in_tx w -> GetContext q w = (Ok a, w') ->
  exists ctx x', q ctx (conn_get (w_db w)) = Ok (Some a, x') /\ w' = put_part x' (settle w) /\
    in_tx w'.
Proof.
  intros Htx. unfold GetContext, mbind_. destruct (db_stmt q w) as [[[b|]|e] w1] eqn:Es; try done.
  intros [= <- <-]. by apply db_stmt_in_tx.
Qed.

(** While any transaction of the program is open, whichever its connection. *)
Lemma settle_open w : w_tx w <> ∅ -> w_db (settle w) = w_db w /\ w_tx (settle w) = w_tx w.
Proof. intros H. unfold settle. by rewrite bool_decide_eq_false_2. Qed.

(** The rows a statement is kept from are those others hold at its instant. *)
Lemma db_stmt_held {A} (q : Stmt X A) w a w' :
  db_stmt q w = (Ok a, w') ->
  exists now x', q (mkCtx now (env_locked (w_clock w))) (conn_get (w_db (settle w))) = Ok (a, x') /\
    w' = put_part x' (settle w).
Proof.
  unfold db_stmt. destruct (w_tx w !! conn_id X) as [[[] now saved]|]; [done|..];
    destruct (env_fault _); try done; destruct (q _ _) as [[b x']|] eqn:Eq; try done; intros [= <- <-]; eauto.
Qed.

Lemma db_stmt_open_held {A} (q : Stmt X A) w a w' :
  w_tx w <> ∅ -> db_stmt q w = (Ok a, w') ->
  exists now x', q (mkCtx now (env_locked (w_clock w))) (conn_get (w_db w)) = Ok (a, x') /\
    w_db w' = conn_set x' (w_db w) /\ w_tx w' = w_tx w.
Proof.
  intros Htx H. apply db_stmt_held in H as (now & x' & Hq & ->).
  destruct (settle_open w Htx) as [Hdb Ht]. rewrite Hdb in Hq. exists now, x'.
  split; [done|]. cbn. by rewrite Hdb, Ht.
Qed.

Lemma db_stmt_open {A} (q : Stmt X A) w a w' :
  w_tx w <> ∅ -> db_stmt q w = (Ok a, w') ->
  exists ctx x', q ctx (conn_get (w_db w)) = Ok (a, x') /\
    w_db w' = conn_set x' (w_db w) /\ w_tx w' = w_tx w.
Proof. intros Htx H. apply db_stmt_open_held in H as (now & H); eauto. Qed.

Lemma pool_query_open {A} (q : StmtCtx -> X -> res A) w a w' :
  w_tx w <> ∅ -> pool_query q w = (Ok a, w') ->
  exists ctx, q ctx (conn_get (w_db w)) = Ok a /\ w_db w' = w_db w /\ w_tx w' = w_tx w.
Proof.
  intros Htx H. destruct (settle_open w Htx) as [Hdb Ht]. unfold pool_query in H. rewrite Hdb in H.
  destruct (env_fault _); try done. injection H as Hq <-. eauto.
Qed.

(** A transaction, possibly inside one of another connection. *)
Lemma RunInTransaction_open {A} (f : M D L Ev A) w a w' :
  w_tx w !! conn_id X = None -> RunInTransactionWithResult f w = (Ok a, w') ->
  exists w1 w2, f w1 = (Ok a, w2) /\ w_tx w1 <> ∅ /\ w_db w1 = w_db (settle w) /\
    w_db w' = w_db w2 /\ (w_tx w2 = w_tx w1 -> w_tx w' = w_tx w) /\
    forall i, i <> conn_id X -> w_tx w1 !! i = w_tx w !! i.
Proof.
  unfold RunInTransactionWithResult. intros Hnone. destruct (env_fault (w_clock w)); try done.
  set (w1 := set_tx _ _). destruct (f w1) as [[b|e] w2] eqn:Ef; [|done].
  destruct (is_aborted w2); [done|]. destruct (env_fault (w_clock w2)); [|done|done].
  intros [= <- <-]. exists w1, w2. split; [done|].
  assert (Hs : w_tx (settle w) = w_tx w) by (unfold settle; by case_bool_decide).
  split; [|split; [done|split; [done|]]].
  - intros He. assert (Hl : w_tx w1 !! conn_id X = None) by (by rewrite He, lookup_empty).
    unfold w1 in Hl. cbn in Hl. by rewrite lookup_partial_alter_eq in Hl.
  - split; [|by intros i Hi; unfold w1; cbn; rewrite lookup_partial_alter_ne, Hs].
    intros Ht. cbn. rewrite Ht. unfold w1. cbn. rewrite Hs.
    apply map_eq. intros i. destruct (decide (i = conn_id X)) as [->|Hi].
    + by rewrite lookup_partial_alter_eq.
    + by rewrite !lookup_partial_alter_ne.
Qed.

(** A transaction that answers is committed: its body ran from the tables the
    others left, and what it wrote is there. *)
Lemma RunInTransaction_ok {A} (f : M D L Ev A) w a w' :
  RunInTransactionWithResult f w = (Ok a, w') ->
  exists w1 w2, f w1 = (Ok a, w2) /\ in_tx w1 /\ w_db w1 = w_db (settle w) /\ w_db w' = w_db w2.
Proof.
  unfold RunInTransactionWithResult. destruct (env_fault (w_clock w)); try done.
  set (w1 := set_tx _ _). destruct (f w1) as [[b|e] w2] eqn:Ef; [|done].
  destruct (is_aborted w2); [done|]. destruct (env_fault (w_clock w2)); [|done|done].
  intros [= <- <-]. exists w1, w2. split; [done|]. split; [|by split].
  eexists _, _. unfold w1. cbn. by rewrite lookup_partial_alter_eq.
Qed.

(** A body that writes only through its transaction leaves the snapshot. *)
Definition same_snapshot w w' : Prop := tx_saved <$> w_tx w' !! conn_id X = tx_saved <$> w_tx w !! conn_id X.

#[export] Instance same_snapshot_preorder : PreOrder same_snapshot.
Proof. split; [done|]. unfold same_snapshot. intros ? ? ? H1 H2. by rewrite H2. Qed.

Lemma settle_tx w : w_tx (settle w) = w_tx w.
Proof. unfold settle. by case_bool_decide. Qed.

Lemma settle_trace w : w_trace (settle w) = w_trace w.
Proof. unfold settle. by case_bool_decide. Qed.

Lemma db_stmt_same_snapshot {A} (q : Stmt X A) : respects same_snapshot (db_stmt q).
Proof.
  intros w. unfold same_snapshot, db_stmt. rewrite <- (settle_tx w).
  destruct (w_tx (settle w) !! conn_id X) as [[[] now saved]|] eqn:Et; cbn.
  - by rewrite Et.
  - destruct (env_fault _); cbn; rewrite ?lookup_partial_alter_eq; try done.
    destruct (q _ _) as [[]|]; cbn; rewrite ?lookup_partial_alter_eq, ?Et; done.
  - destruct (env_fault _); cbn; rewrite ?Et; try done;
      destruct (q _ _) as [[]|]; cbn; by rewrite ?Et.
Qed.

(** A transaction is all or nothing: when it answers, it is committed with what
    its body wrote; when it fails, the tables are as its body committed them on
    the pool, and as the others left them before it began when the body wrote
    only through the transaction; unless the server had committed and the
    answer was lost. *)
Theorem run_in_transaction_atomic {CL : ConnLaws D X} {A} (f : M D L Ev A) w r w'
    (Hrun : RunInTransactionWithResult f w = (r, w')) :
  match r with
  | Ok a => exists w1 w2, f w1 = (Ok a, w2) /\ in_tx w1 /\ w_db w1 = w_db (settle w) /\
              w_db w' = w_db w2
  | Err _ =>
    (exists w1, in_tx w1 /\ w_db w1 = w_db (settle w) /\
       (conn_get (w_db w') = conn_get (w_db (settle w)) \/
        conn_get (w_db w') = conn_get (snapshot (snd (f w1))))) /\
    (respects same_snapshot f -> conn_get (w_db w') = conn_get (w_db (settle w))) \/
    exists a w1 w2 e, f w1 = (Ok a, w2) /\ env_fault (w_clock w2) = FaultAfter e /\
      w_db w' = w_db w2
  end.
Proof.
  destruct r as [a|e0]; [by apply RunInTransaction_ok|]. revert Hrun.
  unfold RunInTransactionWithResult.
  set (w1 := set_tx (Some (mkTx false (env_now (w_clock w)) (w_db (settle w)))) (settle w)).
  assert (Htx1 : w_tx w1 !! conn_id X = Some (mkTx false (env_now (w_clock w)) (w_db (settle w)))).
  { unfold w1. cbn. by rewrite lookup_partial_alter_eq. }
  assert (Hin : in_tx w1) by (by eexists _, _).
  assert (Hsnap : respects same_snapshot f -> snapshot (snd (f w1)) = w_db (settle w)).
  { intros Hown. specialize (Hown w1). unfold same_snapshot in Hown. unfold snapshot.
    rewrite Htx1 in Hown. cbn in Hown. destruct (w_tx (snd (f w1)) !! conn_id X) as [t|]; [|done].
    cbn in Hown. congruence. }
  destruct (env_fault (w_clock w));
    [|intros [= _ <-]; left; (split; [exists w1; split_and!; [done|done|by left]|done])..].
  destruct (f w1) as [[b|e] w2] eqn:Ef; cbn in Hsnap.
  - destruct (is_aborted w2).
    { intros [= _ <-]. left. cbn. rewrite conn_get_set. split; [|by intros Hown; rewrite Hsnap].
      exists w1. rewrite Ef. split_and!; [done|done|by right]. }
    destruct (env_fault (w_clock w2)) as [|e|e] eqn:Ec; [done| |]; intros [= _ <-].
    + left. cbn. rewrite conn_get_set. split; [|by intros Hown; rewrite Hsnap].
      exists w1. rewrite Ef. split_and!; [done|done|by right].
    + right. by exists b, w1, w2, e.
  - intros [= _ <-]. left. cbn. rewrite conn_get_set. split; [|by intros Hown; rewrite Hsnap].
    exists w1. rewrite Ef. split_and!; [done|done|by right].
Qed.
End statements.
End reasoning.

(** A counter that a failing body increments: rolled back. *)
Module Counter.
#[export] Instance conn : Conn Z Z := {| conn_id := 0; conn_get := fun d => d; conn_set := fun x _ => x |}.
#[export] Instance laws : ConnLaws Z Z.
Proof. by constructor. Qed.
#[export] Instance env : Env Z :=
  {| env_fault _ := NoFault; env_interfere _ d := d; env_now _ := 0%Z; env_locked _ _ := false |}.
Definition body : M Z unit unit unit :=
  db_stmt (fun _ n => Ok (tt, (n + 1)%Z)) ;;! throw (ENew "no").
Definition start : World Z unit unit := mkWorld 5%Z 0 ∅ tt [].
End Counter.

Lemma run_in_transaction_atomic_witness :
  w_db (snd (RunInTransactionWithResult (E := Counter.env) (C := Counter.conn) Counter.body Counter.start)) = 5%Z.
Proof.
  destruct (run_in_transaction_atomic (E := Counter.env) (C := Counter.conn) (CL := Counter.laws)
    Counter.body Counter.start _ _ eq_refl)
    as [[_ H]|(a & w1 & w2 & e & H & _)].
  - apply H. apply respects_bind; [apply same_snapshot_preorder|apply db_stmt_same_snapshot|].
    intros []. apply respects_throw, same_snapshot_preorder.
  - exfalso. revert H. unfold Counter.body, mbind_. by destruct (db_stmt _ w1) as [[|]].
Defined.
