(* ===== verification/Calm.v ===== *)
(** What a program leaves behind: nothing, or events of a kind, in the trace; and in the
    databases, while the others write nothing, what it was given where it only reads. *)

From S2P Require Import Prelude GoStrings Errors Effects.

Local Open Scope list_scope.

Section traces.
Context {D L Ev : Type} {E : Env D}.
Implicit Types w : World D L Ev.
Abbreviation M := (M D L Ev).

(** ** No event *)

Definition same_trace w w' : Prop := w_trace w' = w_trace w.
#[export] Instance same_trace_preorder : PreOrder same_trace.
Proof. split; [done|]. unfold same_trace. congruence. Qed.

Lemma db_stmt_trace {X} {C : Conn D X} {A} (q : Stmt X A) w : w_trace (snd (db_stmt q w)) = w_trace w.
Proof.
  rewrite <- (settle_trace w). unfold db_stmt. destruct (w_tx w !! _) as [[[] now saved]|]; [done|..];
    destruct (env_fault _); try done; by destruct (q _ _) as [[]|].
Qed.

Lemma quiet_stmt {X} {C : Conn D X} {A} (q : Stmt X A) : respects same_trace (db_stmt q : M A).
Proof. intros w. apply db_stmt_trace. Qed.

Lemma quiet_pool_query {X} {C : Conn D X} {A} (q : StmtCtx -> X -> res A) : respects same_trace (pool_query q : M A).
Proof. intros w. unfold pool_query. destruct (env_fault _); apply settle_trace. Qed.

Lemma quiet_on_pool {X} {C : Conn D X} {A} (m : M A) : respects same_trace m -> respects same_trace (on_pool (X := X) m).
Proof.
  intros Hm w. unfold on_pool. destruct (w_tx w !! conn_id X) as [t|]; [|apply Hm].
  match goal with |- context [m ?w0] => specialize (Hm w0); destruct (m w0) as [r w1] end. exact Hm.
Qed.

Lemma quiet_ask {A} (f : nat -> A) : respects same_trace (ask f : M A).
Proof. intros w. apply settle_trace. Qed.

Lemma quiet_ask_res {A} (f : nat -> res A) : respects same_trace (ask_res f : M A).
Proof. intros w. apply settle_trace. Qed.

Lemma tx_trace {X} {C : Conn D X} {A} (f : M A) :
  respects same_trace f -> respects same_trace (RunInTransactionWithResult (X := X) f).
Proof.
  intros Hf w. unfold same_trace. rewrite <- (settle_trace w). unfold RunInTransactionWithResult.
  destruct (env_fault _); [|done..]. set (w1 := set_tx _ _). specialize (Hf w1). unfold same_trace in Hf.
  change (w_trace w1) with (w_trace (settle w)) in Hf.
  destruct (f w1) as [[a|e] w2]; cbn in Hf |- *; [|exact Hf]. destruct (is_aborted w2); [exact Hf|].
  by destruct (env_fault (w_clock w2)).
Qed.

(** ** Events of a kind *)

Section kind.
Context (P : Ev -> Prop).

Definition leaves_only w w' : Prop := exists evs, w_trace w' = w_trace w ++ evs /\ Forall P evs.

#[export] Instance leaves_only_preorder : PreOrder leaves_only.
Proof.
  split; [intros w; exists []; by rewrite app_nil_r|].
  intros w1 w2 w3 (e1 & H1 & F1) (e2 & H2 & F2). exists (e1 ++ e2). rewrite H2, H1, app_assoc. split; [done|].
  by apply Forall_app.
Qed.

Lemma leaves_quiet {A} (m : M A) : respects same_trace m -> respects leaves_only m.
Proof. intros Hm w. exists []. rewrite app_nil_r. split; [apply Hm|constructor]. Qed.
End kind.

(** What follows a question to a third party depends on an answer of some instant. *)
Lemma respects_ask_bind (R : World D L Ev -> World D L Ev -> Prop) `{!PreOrder R} {A B} (f : nat -> A) (k : A -> M B) :
  respects R (ask f) -> (forall t, respects R (k (f t))) -> respects R (mbind_ (ask f) k).
Proof.
  intros Ha Hk w. unfold mbind_, ask. etransitivity; [exact (Ha w)|]. apply Hk.
Qed.

(** The second step of a run, with what the first has answered. *)
Lemma run_bind (R : World D L Ev -> World D L Ev -> Prop) `{!PreOrder R} {A B} (m : M A) (k : A -> M B) w :
  R w (snd (m w)) -> (forall a w1, m w = (Ok a, w1) -> R w1 (snd (k a w1))) -> R w (snd (mbind_ m k w)).
Proof.
  intros Hm Hk. unfold mbind_. destruct (m w) as [[a|e] w1] eqn:Em; [|done]. etransitivity; [exact Hm|]. by apply Hk.
Qed.

Lemma respects_mapM_in (R : World D L Ev -> World D L Ev -> Prop) `{!PreOrder R} {A B} (f : A -> M B) l :
  (forall x, x ∈ l -> respects R (f x)) -> respects R (mmapM f l).
Proof.
  induction l as [|x l IH]; intros Hf; cbn; [apply respects_ret, _|].
  apply respects_bind; [apply _|apply Hf; by left|]. intros y.
  apply respects_bind; [apply _|apply IH; intros z Hz; apply Hf; by right|]. intros ys. apply respects_ret, _.
Qed.

Lemma respects_assoc (R : World D L Ev -> World D L Ev -> Prop) {A B B'} (m : M A) (k : A -> M B) (k' : B -> M B') :
  respects R (mbind_ m (fun a => mbind_ (k a) k')) -> respects R (mbind_ (mbind_ m k) k').
Proof. intros H w. specialize (H w). unfold mbind_ in *. by destruct (m w) as [[a|e] w1]. Qed.
End traces.

Ltac quiet :=
  repeat first
    [ apply respects_bind; [apply _| |intros ?]
    | apply respects_map_err | apply respects_wrap | apply respects_catch | apply respects_try
    | apply (respects_ret _) | apply (respects_throw _) | apply (respects_lift _)
    | apply quiet_stmt | apply quiet_pool_query | apply quiet_ask | apply quiet_ask_res
    | apply quiet_on_pool | apply tx_trace
    | match goal with |- respects _ (if ?b then _ else _) => destruct b end
    | match goal with |- respects _ (match ?x with _ => _ end) => destruct x end ].

Local Open Scope string_scope.
Local Open Scope list_scope.
Local Open Scope go_scope.

(** ** Programs that only read

    While the others write nothing, a program that writes nothing leaves the databases,
    and time goes on. *)

Section reading.
Context {D L Ev : Type} {E : Env D}.
Implicit Types w : World D L Ev.
Context (Hcalm : forall t (d : D), env_interfere t d = d).

Definition read_only w w' : Prop := w_db w' = w_db w /\ w_clock w <= w_clock w'.

#[export] Instance read_only_preorder : PreOrder read_only.
Proof.
  split; [by intros w|]. intros w1 w2 w3 [E1 L1] [E2 L2]. split; [congruence|lia].
Qed.

Lemma settle_clock w : w_clock (settle w) = S (w_clock w).
Proof. unfold settle. by case_bool_decide. Qed.

Lemma read_only_settle w : read_only w (settle w).
Proof using Hcalm.
  split; [|rewrite settle_clock; lia]. unfold settle. case_bool_decide; [|done]. cbn. apply Hcalm.
Qed.

Lemma calm_settle w : w_db (settle w) = w_db w.
Proof using Hcalm. apply read_only_settle. Qed.

Lemma reads_ask {A} (f : nat -> A) : respects read_only (ask f : M D L Ev A).
Proof using Hcalm. intros w. apply read_only_settle. Qed.

Lemma reads_ask_res {A} (f : nat -> res A) : respects read_only (ask_res f : M D L Ev A).
Proof using Hcalm. intros w. apply read_only_settle. Qed.

Lemma reads_emit (ev : World D L Ev -> Ev) : respects read_only (emit ev : M D L Ev unit).
Proof. by intros w. Qed.

Lemma reads_pool {X} {C : Conn D X} {A} (q : StmtCtx -> X -> res A) :
  respects read_only (pool_query q : M D L Ev A).
Proof using Hcalm. intros w. unfold pool_query. destruct (env_fault _); apply read_only_settle. Qed.

Section statements.
Context {X : Type} {C : Conn D X} {CL : ConnLaws D X}.

Lemma stmt_clock {A} (q : Stmt X A) w : w_clock (snd (db_stmt q w)) = S (w_clock w).
Proof.
  rewrite <- settle_clock. unfold db_stmt. destruct (w_tx w !! conn_id X) as [[[] now saved]|]; [done|..];
    destruct (env_fault _); try done; by destruct (q _ _) as [[]|].
Qed.

(** A statement of the form [SELECT]. *)
Lemma reads_stmt {A} (f : StmtCtx -> X -> A) :
  respects read_only (db_stmt (fun cx x => Ok (f cx x, x)) : M D L Ev A).
Proof using Hcalm CL.
  intros w. split; [|rewrite stmt_clock; lia]. rewrite <- (calm_settle w).
  destruct (db_stmt_effect (fun cx x => Ok (f cx x, x)) w) as [->|(cx & a & x' & [= _ <-] & ->)]; [done|].
  apply conn_set_get.
Qed.

Lemma reads_Get {A} (f : StmtCtx -> X -> option A) :
  respects read_only (GetContext (fun cx x => Ok (f cx x, x)) : M D L Ev A).
Proof using Hcalm CL.
  apply respects_bind; [apply _|apply reads_stmt|]. intros [a|]; [apply respects_ret|apply respects_throw]; apply _.
Qed.

(** The row such a query gives. *)
Lemma Get_ok {A} (f : StmtCtx -> X -> option A) w a w' :
  GetContext (fun cx x => Ok (f cx x, x)) w = (Ok a, w') ->
  read_only w w' /\ exists cx, f cx (conn_get (w_db w)) = Some a.
Proof using Hcalm CL.
  intros H. split; [pose proof (reads_Get f w) as Hr; by rewrite H in Hr|].
  unfold GetContext in H. apply mbind_ok in H as ([b|] & w1 & H & Hret); [|done]. injection Hret as -> _.
  apply db_stmt_ok in H as (cx & x' & [= Hf _] & _). rewrite calm_settle in Hf. eauto.
Qed.

(** The same without faults, outside a transaction of this database. *)
Lemma Get_run {A} (f : StmtCtx -> X -> option A) w :
  w_tx w !! conn_id X = None -> env_fault (w_clock w) = NoFault ->
  exists w', read_only w w' /\ w_tx w' = w_tx w /\
    GetContext (fun cx x => Ok (f cx x, x)) w =
      (match f (mkCtx (env_now (w_clock w)) (env_locked (w_clock w))) (conn_get (w_db w)) with
       | Some a => Ok a
       | None => Err (ESentinel sql_ErrNoRows)
       end, w').
Proof using Hcalm CL.
  intros Ht Hf. exists (put_part (conn_get (w_db w)) (settle w)). split; [split|split].
  - cbn. rewrite calm_settle. apply conn_set_get.
  - cbn. rewrite settle_clock. lia.
  - apply settle_tx.
  - unfold GetContext, mbind_, db_stmt. rewrite Ht, Hf, calm_settle. cbn. by destruct (f _ _).
Qed.

(** A statement that answered: what it did to its database. *)
Lemma stmt_ok {A} (q : Stmt X A) w a w' :
  db_stmt q w = (Ok a, w') ->
  w_clock w' = S (w_clock w) /\
  exists cx, q cx (conn_get (w_db w)) = Ok (a, conn_get (w_db w')) /\ w_db w' = conn_set (conn_get (w_db w')) (w_db w).
Proof using Hcalm CL.
  intros H. split; [pose proof (stmt_clock q w) as Hc; by rewrite H in Hc|].
  apply db_stmt_ok in H as (cx & x' & Hq & ->). rewrite calm_settle in Hq. exists cx. cbn.
  by rewrite conn_get_set, calm_settle.
Qed.
End statements.

(** A transaction that answered, with the time it began. *)
Lemma tx_ok {X} {C : Conn D X} {A} (f : M D L Ev A) w a w' :
  RunInTransactionWithResult (X := X) f w = (Ok a, w') ->
  exists w1 w2, f w1 = (Ok a, w2) /\ in_tx (X := X) w1 /\ read_only w w1 /\ w_db w' = w_db w2 /\
    w_clock w2 <= w_clock w'.
Proof using Hcalm.
  unfold RunInTransactionWithResult. destruct (env_fault (w_clock w)); try done.
  set (w1 := set_tx _ _). destruct (f w1) as [[b|e] w2] eqn:Ef; [|done].
  destruct (is_aborted w2); [done|]. destruct (env_fault (w_clock w2)); [|done|done].
  intros [= <- <-]. exists w1, w2. split_and!; [done| |apply (read_only_settle w)|done|cbn; lia].
  eexists _, _. unfold w1. cbn. by rewrite lookup_partial_alter_eq.
Qed.

Lemma beside_idle_ok {X} {C : Conn D X} {A} (m : M D L Ev A) w r w' :
  beside_idle (X := X) m w = (r, w') ->
  exists w1 w2, m w1 = (r, w2) /\ w_db w1 = w_db w /\ w_clock w1 = w_clock w /\
    w_db w' = w_db w2 /\ w_clock w' = w_clock w2.
Proof.
  unfold beside_idle. destruct (w_tx w !! conn_id X); [|intros H; by exists w, w'].
  destruct (m (set_tx None w)) as [r' w2] eqn:Em. intros [= <- <-]. by exists (set_tx None w), w2.
Qed.

(** What only reads on the pool leaves the databases, committed or rolled back. *)
Lemma reads_idle_tx {X} {C : Conn D X} {CL : ConnLaws D X} {A} (m : M D L Ev A) :
  respects read_only m -> respects read_only (RunInTransactionWithResult (X := X) (beside_idle (X := X) m)).
Proof using Hcalm.
  intros Hm w. unfold RunInTransactionWithResult.
  destruct (env_fault (w_clock w)); [|apply read_only_settle..].
  set (w1 := set_tx (Some (mkTx false (env_now (w_clock w)) (w_db (settle w)))) (settle w)).
  assert (Hw1 : w_tx w1 !! conn_id X = Some (mkTx false (env_now (w_clock w)) (w_db (settle w)))).
  { unfold w1. cbn. by rewrite lookup_partial_alter_eq. }
  unfold beside_idle at 1. rewrite Hw1. specialize (Hm (set_tx (X := X) None w1)).
  destruct (m (set_tx None w1)) as [r w3]. destruct Hm as [Hdb Hclock]. cbn [snd] in *.
  assert (Hsame : w_db w3 = w_db w) by (rewrite Hdb; apply (calm_settle w)).
  assert (Hle : w_clock w <= w_clock w3).
  { pose proof (settle_clock w). change (w_clock (set_tx None w1)) with (w_clock (settle w)) in Hclock. lia. }
  assert (Hsnap : snapshot (X := X) (set_tx (Some (mkTx false (env_now (w_clock w)) (w_db w3))) w3) = w_db w3).
  { unfold snapshot. cbn. by rewrite lookup_partial_alter_eq. }
  cbn [tx_aborted tx_now]. destruct r as [a|e]; cbn zeta; [destruct (is_aborted _); [|destruct (env_fault _)]|];
    split; cbn; rewrite ?Hsnap, ?conn_set_get; cbn in *; (done || lia).
Qed.

(** Without faults a transaction runs its body and commits. *)
Lemma tx_run {X} {C : Conn D X} {A} (f : M D L Ev A) w a w2 :
  (forall t, env_fault t = NoFault) ->
  f (set_tx (X := X) (Some (mkTx false (env_now (w_clock w)) (w_db (settle w)))) (settle w)) = (Ok a, w2) ->
  in_tx (X := X) w2 ->
  exists w', RunInTransactionWithResult (X := X) f w = (Ok a, w') /\ w_db w' = w_db w2.
Proof.
  intros Hf Hrun (now & saved & Htx). unfold RunInTransactionWithResult. rewrite Hf, Hrun.
  assert (Hab : is_aborted (X := X) w2 = false) by (unfold is_aborted; by rewrite Htx).
  rewrite Hab, Hf. by eexists.
Qed.

(** A statement of it. *)
Lemma Get_in_tx_run {X} {C : Conn D X} {A} (q : Stmt X (option A)) w f :
  (forall t, env_fault t = NoFault) -> in_tx (X := X) w ->
  (forall cx, exists a x', q cx (conn_get (w_db w)) = Ok (Some a, x') /\ f a x') ->
  exists a x', f a x' /\ GetContext q w = (Ok a, put_part x' (settle w)) /\ in_tx (X := X) (put_part x' (settle w)).
Proof.
  intros Hf (now & saved & Htx) Hq. pose proof (in_tx_settle (X := X) w ltac:(eexists _, _; exact Htx)) as [Hdb Ht].
  destruct (Hq (mkCtx now (env_locked (w_clock w)))) as (a & x' & Hqa & Hfa). exists a, x'. split; [done|].
  unfold GetContext, mbind_, db_stmt. rewrite Htx, Hf, Hdb, Hqa. split; [done|].
  exists now, saved. cbn. by rewrite Ht.
Qed.

(** The answer of a program that reads, with the world it leaves. *)
Lemma reads_ok {A} (m : M D L Ev A) w a w' : respects read_only m -> m w = (Ok a, w') -> read_only w w'.
Proof. intros Hr H. specialize (Hr w). by rewrite H in Hr. Qed.

Lemma ask_ok {A} (f : nat -> A) w a w' : ask f w = (Ok a, w') -> a = f (w_clock w) /\ read_only w w'.
Proof using Hcalm. intros [= <- <-]. split; [done|apply read_only_settle]. Qed.
End reading.

Ltac reads :=
  repeat first
    [ apply respects_bind; [apply _| |intros ?]
    | apply respects_map_err | apply respects_wrap | apply respects_try | apply respects_catch
    | apply (respects_ret _) | apply (respects_throw _) | apply (respects_lift _)
    | by apply reads_Get | by apply reads_stmt | by apply reads_ask | by apply reads_ask_res
    | apply reads_emit | by apply reads_pool
    | match goal with |- respects _ (if ?b then _ else _) => destruct b end
    | match goal with |- respects _ (match ?x with _ => _ end) => destruct x end ].

(** ** Programs of one database

    What writes to one database only leaves the others, and changes it as its
    statements do; a transaction is such a program where its body is. *)

Section within.
Context {D L Ev : Type} {E : Env D} {X : Type} {C : Conn D X} {CL : ConnLaws D X}.
Context (Hcalm : forall t (d : D), env_interfere t d = d) (P : X -> X -> Prop) `{!PreOrder P}.
Implicit Types w : World D L Ev.

Definition within w w' : Prop :=
  same_snapshot (X := X) w w' /\ w_clock w <= w_clock w' /\
  exists y, w_db w' = conn_set y (w_db w) /\ P (conn_get (w_db w)) y.

#[export] Instance within_preorder : PreOrder within.
Proof using CL PreOrder0.
  split; [intros w; split_and!; [done..|]; exists (conn_get (w_db w)); by rewrite conn_set_get|].
  intros w1 w2 w3 (S1 & L1 & y1 & E1 & P1) (S2 & L2 & y2 & E2 & P2). split_and!; [by etransitivity|lia|].
  exists y2. rewrite E2, E1, conn_set_set. split; [done|]. rewrite E1, conn_get_set in P2. by etransitivity.
Qed.

Lemma within_same w w' : w_db w' = w_db w -> w_tx w' = w_tx w -> w_clock w <= w_clock w' -> within w w'.
Proof using CL PreOrder0.
  intros Hd Ht Hc. split_and!; [by unfold same_snapshot; rewrite Ht|done|].
  exists (conn_get (w_db w)). by rewrite Hd, conn_set_get.
Qed.

Lemma within_settle w : within w (settle w).
Proof using Hcalm CL PreOrder0.
  apply within_same; [apply (calm_settle Hcalm)|apply settle_tx|rewrite settle_clock; lia].
Qed.

Lemma within_stmt {A} (q : Stmt X A) :
  (forall cx x a x', q cx x = Ok (a, x') -> P x x') -> respects within (db_stmt q : M D L Ev A).
Proof using Hcalm CL PreOrder0.
  intros Hq w. split_and!; [apply db_stmt_same_snapshot|rewrite stmt_clock; lia|].
  destruct (db_stmt_effect q w) as [->|(cx & a & x' & Hx & ->)]; rewrite ?(calm_settle Hcalm) in *.
  - exists (conn_get (w_db w)). by rewrite conn_set_get.
  - exists x'. split; [done|]. by eapply Hq.
Qed.

Lemma within_Get {A} (q : Stmt X (option A)) :
  (forall cx x a x', q cx x = Ok (a, x') -> P x x') -> respects within (GetContext q : M D L Ev A).
Proof using Hcalm CL PreOrder0.
  intros Hq. apply respects_bind; [apply _|by apply within_stmt|].
  intros [a|]; [apply respects_ret|apply respects_throw]; apply _.
Qed.

Lemma within_ask {A} (f : nat -> A) : respects within (ask f : M D L Ev A).
Proof using Hcalm CL PreOrder0. intros w. apply within_settle. Qed.

Lemma within_tx {A} (f : M D L Ev A) :
  respects within f -> forall w, w_clock w <= w_clock (snd (RunInTransactionWithResult (X := X) f w)) /\
    exists y, w_db (snd (RunInTransactionWithResult (X := X) f w)) = conn_set y (w_db w) /\ P (conn_get (w_db w)) y.
Proof using Hcalm CL PreOrder0.
  intros Hf w. pose proof (calm_settle Hcalm w) as Hs. pose proof (settle_clock w) as Hc.
  assert (Hkept : exists y, w_db w = conn_set y (w_db w) /\ P (conn_get (w_db w)) y).
  { exists (conn_get (w_db w)). by rewrite conn_set_get. }
  unfold RunInTransactionWithResult. destruct (env_fault (w_clock w)); [|split; [cbn; lia|by cbn; rewrite Hs]..].
  set (w1 := set_tx (Some (mkTx false (env_now (w_clock w)) (w_db (settle w)))) (settle w)).
  specialize (Hf w1). destruct (f w1) as [r w2]. destruct Hf as (Hsnap & Hc1 & y & Hy & HP). cbn [snd] in *.
  change (w_db w1) with (w_db (settle w)) in *. rewrite Hs in Hy, HP.
  change (w_clock w1) with (w_clock (settle w)) in Hc1.
  assert (Hsaved : snapshot (X := X) w2 = w_db w).
  { unfold same_snapshot, w1 in Hsnap. cbn in Hsnap. rewrite lookup_partial_alter_eq in Hsnap. unfold snapshot.
    destruct (w_tx w2 !! conn_id X) as [t|]; [|done]. cbn in Hsnap. injection Hsnap as Ht. by rewrite Ht, Hs. }
  assert (Hback : conn_set (conn_get (snapshot (X := X) w2)) (w_db w2) = conn_set (conn_get (w_db w)) (w_db w) /\
    P (conn_get (w_db w)) (conn_get (w_db w))).
  { by rewrite Hsaved, Hy, conn_set_set. }
  destruct r as [a|e]; cbn zeta; [destruct (is_aborted _); [|destruct (env_fault _)]|];
    (split; [cbn in *; lia|]); (exists (conn_get (w_db w)); exact Hback) || (exists y; exact (conj Hy HP)).
Qed.
End within.


(** ** Programs outside a transaction

    Between the transactions of a database, a program changes it as its statements and the
    transactions it runs do. *)

Section outside.
Context {D L Ev : Type} {E : Env D} {X : Type} {C : Conn D X} {CL : ConnLaws D X}.
Context (Hcalm : forall t (d : D), env_interfere t d = d) (P : X -> X -> Prop) `{!PreOrder P}.
Implicit Types w : World D L Ev.

Definition idle w : Prop := w_tx w !! conn_id X = None.

Definition outside w w' : Prop := idle w -> idle w' /\ P (conn_get (w_db w)) (conn_get (w_db w')).

#[export] Instance outside_preorder : PreOrder outside.
Proof using PreOrder0.
  split; [by intros w|]. intros w1 w2 w3 H1 H2 Hi. destruct (H1 Hi) as [Hi2 HP1]. destruct (H2 Hi2) as [Hi3 HP2].
  split; [done|]. by etransitivity.
Qed.

Lemma outside_within {A} (m : M D L Ev A) : respects (within (X := X) P) m -> respects outside m.
Proof using CL.
  intros Hm w Hi. destruct (Hm w) as (Hs & _ & y & Hy & HP). rewrite Hy, conn_get_set. split; [|done].
  unfold same_snapshot, idle in *. rewrite Hi in Hs. cbn in Hs. by destruct (w_tx (snd (m w)) !! conn_id X).
Qed.

Lemma outside_ask {A} (f : nat -> A) : respects outside (ask f : M D L Ev A).
Proof using Hcalm CL PreOrder0. by apply outside_within, within_ask. Qed.

Lemma outside_pool {A} (q : StmtCtx -> X -> res A) : respects outside (pool_query q : M D L Ev A).
Proof using Hcalm CL PreOrder0.
  apply outside_within. intros w. unfold pool_query. destruct (env_fault _); by apply within_settle.
Qed.

Lemma outside_stmt {A} (q : Stmt X A) :
  (forall cx x a x', q cx x = Ok (a, x') -> P x x') -> respects outside (db_stmt q : M D L Ev A).
Proof using Hcalm CL PreOrder0. intros Hq. by apply outside_within, within_stmt. Qed.

Lemma outside_tx {A} (f : M D L Ev A) :
  respects (within (X := X) P) f -> respects outside (RunInTransactionWithResult (X := X) f).
Proof using Hcalm CL PreOrder0.
  intros Hf w Hi. destruct (within_tx Hcalm P f Hf w) as (_ & y & Hy & HP). rewrite Hy, conn_get_set. split; [|done].
  unfold idle in *. rewrite <- (settle_tx w) in Hi. unfold RunInTransactionWithResult.
  destruct (env_fault (w_clock w)); [|exact Hi..]. destruct (f _) as [[a|e] w2]; [|cbn; by rewrite lookup_partial_alter_eq].
  destruct (is_aborted w2); [cbn; by rewrite lookup_partial_alter_eq|].
  destruct (env_fault (w_clock w2)); cbn; by rewrite lookup_partial_alter_eq.
Qed.
End outside.
