(* ===== verification/Transactions.v ===== *)
(** Programs inside an open transaction.

    [opens m Q]: every run of [m] that answers, started while a transaction of the
    program is open and left without a failed statement, leaves the transactions
    as they are and relates its answer to the tables before and after by [Q].
    The others wait, so the tables are the program's own: its steps compose.  A
    run whose transaction has failed cannot be committed. *)

From S2P Require Import Prelude Errors Effects.

Local Open Scope list_scope.

Section opens.
Context {D L Ev : Type} {E : Env D} {X : Type} {C : Conn D X} {CL : ConnLaws D X}.
Implicit Types w : World D L Ev.
Abbreviation M := (M D L Ev).

Definition is_open w : Prop := w_tx w !! conn_id X <> None.
Definition live w : Prop := is_aborted (X := X) w = false.

Definition opens {A} (m : M A) (Q : A -> X -> X -> Prop) : Prop :=
  forall w a w', is_open w -> m w = (Ok a, w') ->
    is_open w' /\ (live w' -> live w /\ w_tx w' = w_tx w /\ Q a (conn_get (w_db w)) (conn_get (w_db w'))).

Lemma opens_mono {A} (m : M A) (P Q : A -> X -> X -> Prop) :
  opens m P -> (forall a x x', P a x x' -> Q a x x') -> opens m Q.
Proof.
  intros Hm HPQ w a w' Htx H. destruct (Hm w a w' Htx H) as [Ho HP]. split; [done|].
  intros Hl. destruct (HP Hl) as (? & ? & ?). auto.
Qed.

Lemma opens_and {A} (m : M A) (P Q : A -> X -> X -> Prop) :
  opens m P -> opens m Q -> opens m (fun a x x' => P a x x' /\ Q a x x').
Proof.
  intros HP HQ w a w' Htx H. destruct (HP w a w' Htx H) as [? H1], (HQ w a w' Htx H) as [_ H2].
  split; [done|]. intros Hl. destruct (H1 Hl) as (? & ? & ?), (H2 Hl) as (_ & _ & ?). auto.
Qed.

(** A property of every table, among them the ones the program starts from. *)
Lemma opens_all {A} (m : M A) (Q : X -> A -> X -> X -> Prop) :
  (forall z, opens m (Q z)) -> opens m (fun a x x' => forall z, Q z a x x').
Proof.
  intros Hm w a w' Ho H. destruct (Hm (conn_get (w_db w)) w a w' Ho H) as [Ho' H0].
  split; [done|]. intros Hl. destruct (H0 Hl) as (? & ? & _). split; [done|]. split; [done|].
  intros z. destruct (Hm z w a w' Ho H) as [_ Hz]. by apply Hz.
Qed.

Lemma opens_ret {A} (a : A) : opens (mret_ a) (fun b x x' => b = a /\ x' = x).
Proof. intros w b w' Ho [= <- <-]. done. Qed.

Lemma opens_throw {A} e (Q : A -> X -> X -> Prop) : opens (throw e) Q.
Proof. by intros w a w' _ H. Qed.

Lemma opens_lift {A} (r : res A) : opens (lift r) (fun a x x' => r = Ok a /\ x' = x).
Proof. intros w a w' Ho H. by apply lift_ok in H as [-> ->]. Qed.

Lemma opens_map_err {A} f (m : M A) Q : opens m Q -> opens (map_errM f m) Q.
Proof. intros Hm w a w' Htx H. apply map_errM_ok in H. by apply Hm. Qed.

Lemma opens_wrap {A} p (m : M A) Q : opens m Q -> opens (wrapM p m) Q.
Proof. apply opens_map_err. Qed.

Lemma opens_bind {A B} (m : M A) (k : A -> M B) P (Q : A -> B -> X -> X -> Prop) :
  opens m P -> (forall a, opens (k a) (Q a)) ->
  opens (mbind_ m k) (fun b x x' => exists a y, P a x y /\ Q a b y x').
Proof.
  intros Hm Hk w b w' Ho H. apply mbind_ok in H as (a & w1 & H1 & H).
  destruct (Hm w a w1 Ho H1) as [Ho1 HP]. destruct (Hk a w1 b w' Ho1 H) as [Ho2 HQ].
  split; [done|]. intros Hl. destruct (HQ Hl) as (Hl1 & Ht2 & ?). destruct (HP Hl1) as (? & Ht1 & ?).
  split; [done|]. split; [congruence|eauto].
Qed.

(** The same, step by step: what the first step did is known at the end. *)
Lemma opens_bind_with {A B} (m : M A) (k : A -> M B) (P : A -> X -> X -> Prop)
    (Q : B -> X -> X -> Prop) :
  opens m P -> (forall a, opens (k a) (fun b y x' => forall x, P a x y -> Q b x x')) ->
  opens (mbind_ m k) Q.
Proof.
  intros Hm Hk. eapply opens_mono; [eapply opens_bind; [exact Hm|exact Hk]|].
    intros b x x' (a & y & HP & HQ). auto.
Qed.

(** A statement inside the transaction: it answers and its effect is there, or
    the transaction has failed. *)
Lemma db_stmt_live {A} (q : Stmt X A) w r w' :
  is_open w -> db_stmt q w = (r, w') ->
  is_open w' /\ (live w' -> live w /\ w_tx w' = w_tx w /\
    exists ctx a, r = Ok a /\ q ctx (conn_get (w_db w)) = Ok (a, conn_get (w_db w'))).
Proof.
  unfold is_open, live. intros Ho.
  destruct (settle_open w) as [Hdb Ht]; [by intros He; rewrite He, lookup_empty in Ho|].
  unfold db_stmt. destruct (w_tx w !! conn_id X) as [[[] now saved]|] eqn:El; [| |done].
  { intros [= _ <-]. unfold is_aborted. by rewrite Ht, El. }
  set (failed := set_tx (Some (mkTx true now saved)) (settle w)).
  assert (Hf : w_tx failed !! conn_id X <> None /\ is_aborted failed = true).
  { unfold failed, is_aborted. cbn. by rewrite lookup_partial_alter_eq. }
  rewrite Hdb. destruct (env_fault (w_clock w)); [|intros [= _ <-]; split; [apply Hf|];
    intros Hl; by rewrite (proj2 Hf) in Hl..].
  destruct (q _ _) as [[a x']|e] eqn:Eq; intros [= <- <-].
  - split; [cbn; by rewrite Ht, El|]. intros _. unfold is_aborted. rewrite El. split; [done|].
    split; [cbn; by rewrite Ht|]. eexists _, a. split; [done|]. cbn. rewrite conn_get_set. exact Eq.
  - split; [apply Hf|]. intros Hl. by rewrite (proj2 Hf) in Hl.
Qed.

Lemma opens_stmt {A} (q : Stmt X A) :
  opens (db_stmt q) (fun a x x' => exists ctx, q ctx x = Ok (a, x')).
Proof.
  intros w a w' Ho H. apply db_stmt_live in H as [Ho' H]; [|done]. split; [done|].
  intros Hl. destruct (H Hl) as (? & ? & ctx & b & [= <-] & Hq). eauto.
Qed.

Lemma opens_read {A} (f : StmtCtx -> X -> A) :
  opens (db_stmt (fun ctx x => Ok (f ctx x, x))) (fun a x x' => (exists ctx, a = f ctx x) /\ x' = x).
Proof. eapply opens_mono; [apply opens_stmt|]. intros a x x' [ctx [= <- <-]]. eauto. Qed.

Lemma opens_GetContext {A} (q : Stmt X (option A)) :
  opens (GetContext q) (fun a x x' => exists ctx, q ctx x = Ok (Some a, x')).
Proof.
  unfold GetContext. eapply opens_bind_with; [apply opens_stmt|]. intros [a|]; [|apply opens_throw].
  eapply opens_mono; [apply opens_ret|]. intros b y x' [-> ->] x [ctx H]. eauto.
Qed.

(** A statement whose failure the program goes on from: when the transaction is
    still live, the statement itself has not failed. *)
Lemma opens_try_stmt {A B} (q : Stmt X A) (k : A -> res B) f :
  opens (try_ (map_errM f (mbind_ (db_stmt q) (fun a => lift (k a))))) (fun r x x' =>
    exists ctx a, q ctx x = Ok (a, x') /\ r = res_map_err f (k a)).
Proof.
  intros w r w' Ho H. unfold try_, map_errM, mbind_, lift in H.
  destruct (db_stmt q w) as [[a|e] w1] eqn:Es; cbn in H; injection H as <- <-;
    apply db_stmt_live in Es as [Ho' Hl]; try done; (split; [done|]);
    intros Hlive; destruct (Hl Hlive) as (? & ? & ctx & b & Hr & Hq); [|done].
  injection Hr as <-. eauto 8.
Qed.

Lemma opens_try_GetContext {A} (q : Stmt X (option A)) f :
  opens (try_ (map_errM f (GetContext q))) (fun r x x' =>
    exists ctx o, q ctx x = Ok (o, x') /\
      r = match o with Some a => Ok a | None => Err (f (ESentinel sql_ErrNoRows)) end).
Proof.
  intros w r w' Ho H. unfold try_, map_errM, GetContext, mbind_ in H.
  destruct (db_stmt q w) as [[o|e] w1] eqn:Es; cbn in H; apply db_stmt_live in Es as [Ho' Hl]; [|done|..|done].
  - destruct o as [a|]; injection H as <- <-; (split; [done|]); intros Hlive;
      destruct (Hl Hlive) as (? & ? & ctx & b & [= <-] & Hq); split_and!; eauto.
  - injection H as <- <-. split; [done|]. intros Hlive. by destruct (Hl Hlive) as (? & ? & ctx & b & ? & Hq).
Qed.

Lemma open_settle w :
  is_open w -> w_db (settle w) = w_db w /\ w_tx (settle w) = w_tx w.
Proof. intros Ho. apply settle_open. intros He. unfold is_open in Ho. by rewrite He, lookup_empty in Ho. Qed.

Lemma opens_ask_res {A} (f : nat -> res A) :
  opens (ask_res f) (fun a x x' => (exists t, f t = Ok a) /\ x' = x).
Proof.
  intros w a w' Ho H. destruct (open_settle w Ho) as [Hdb Ht].
  unfold ask_res in H. injection H as Hf <-. unfold is_open, live, is_aborted in *.
  rewrite Hdb, Ht. eauto 6.
Qed.

Lemma opens_ask {A} (f : nat -> A) : opens (ask f) (fun a x x' => (exists t, a = f t) /\ x' = x).
Proof.
  intros w a w' Ho H. apply (opens_ask_res (fun t => Ok (f t))) in H as [Ho' H]; [|done].
  split; [done|]. intros Hl. destruct (H Hl) as (? & ? & [t [= Ht]] & ?). eauto 6.
Qed.

(** The entries of a map, each once. *)
Lemma opens_range {R : MapRange} {V} (m : gmap string V) :
  opens (range_map m) (fun l x x' => l ≡ₚ map_to_list m /\ x' = x).
Proof.
  eapply opens_mono; [apply opens_ask|]. intros l x x' [[t ->] ->].
  split; [apply range_order_perm|done].
Qed.

(** Loops: by an invariant of what is left to do, or by a relation of each step. *)
Lemma opens_fold {A S} (I : S -> list A -> X -> Prop) (f : S -> A -> M S) s l :
  (forall s a l, opens (f s a) (fun s' x x' => I s (a :: l) x -> I s' l x')) ->
  opens (mfoldM f s l) (fun s' x x' => I s l x -> I s' [] x').
Proof.
  intros Hf. revert s. induction l as [|a l IH]; intros s; cbn.
  - eapply opens_mono; [apply opens_ret|]. by intros s' x x' [-> ->].
  - eapply opens_mono; [apply opens_bind; [apply Hf|apply IH]|].
    intros s' x x' (s1 & y & H1 & H2) HI. auto.
Qed.

Lemma opens_for {A} (I : list A -> X -> Prop) (f : A -> M unit) l :
  (forall a l, opens (f a) (fun _ x x' => I (a :: l) x -> I l x')) ->
  opens (mforM f l) (fun _ x x' => I l x -> I [] x').
Proof.
  intros Hf. induction l as [|a l IH]; cbn.
  - eapply opens_mono; [apply opens_ret|]. intros s' x x' [Hs Hx]; by subst.
  - eapply opens_mono; [apply opens_bind; [apply Hf|intros ?; apply IH]|].
    intros s' x x' (s1 & y & H1 & H2) HI. auto.
Qed.

Lemma opens_for_rel {A} (R : X -> X -> Prop) `{!PreOrder R} (f : A -> M unit) l :
  (forall a, opens (f a) (fun _ x x' => R x x')) -> opens (mforM f l) (fun _ x x' => R x x').
Proof.
  intros Hf. induction l as [|a l IH]; cbn.
  - eapply opens_mono; [apply opens_ret|]. intros s' x x' [Hs Hx]; by subst.
  - eapply opens_mono; [apply opens_bind; [apply Hf|intros ?; apply IH]|].
    intros s' x x' (s1 & y & H1 & H2). by etransitivity.
Qed.

Lemma opens_map_read {A B} (P : A -> B -> X -> Prop) (f : A -> M B) l :
  (forall a, opens (f a) (fun b x x' => x' = x /\ P a b x)) ->
  opens (mmapM f l) (fun bs x x' => x' = x /\ Forall2 (fun a b => P a b x) l bs).
Proof.
  intros Hf. induction l as [|a l IH]; cbn.
  - eapply opens_mono; [apply opens_ret|]. intros bs x x' [-> ->]. by split; [|constructor].
  - eapply opens_mono; [apply opens_bind; [apply Hf|intros b; apply opens_bind; [apply IH|intros bs]]|].
    { apply opens_ret. }
    intros bs x x' (b & y & [-> Hp] & bs' & y' & [-> Hall] & -> & ->). split; [done|by constructor].
Qed.

(** A transaction that is committed. *)
Lemma RunInTransaction_opens {A} (f : M A) (Q : A -> X -> X -> Prop) w a w' :
  opens f Q -> RunInTransactionWithResult f w = (Ok a, w') ->
  Q a (conn_get (w_db (settle w))) (conn_get (w_db w')).
Proof.
  intros Hf. unfold RunInTransactionWithResult. destruct (env_fault (w_clock w)); try done.
  set (w1 := set_tx _ _). destruct (f w1) as [[b|e] w2] eqn:Ef; [|done].
  destruct (is_aborted w2) eqn:Ha; [done|]. destruct (env_fault (w_clock w2)); [|done|done].
  intros [= <- <-]. apply Hf in Ef as [_ H]; [by apply H|].
  unfold is_open, w1. cbn. by rewrite lookup_partial_alter_eq.
Qed.

(** The same for a transaction that may fail, where its body writes to nothing else:
    the tables are as before, unless the answer of the commit was lost. *)
Lemma RunInTransaction_outcome {A} (f : M A) (Q : A -> X -> X -> Prop) w r w' :
  opens f Q -> respects (same_snapshot (X := X)) f -> RunInTransactionWithResult f w = (r, w') ->
  let x := conn_get (w_db (settle w)) in
  match r with
  | Ok a => Q a x (conn_get (w_db w'))
  | Err _ => conn_get (w_db w') = x \/ exists a, Q a x (conn_get (w_db w'))
  end.
Proof.
  intros Hf Hown H. cbn zeta. destruct r as [a|e]; [by eapply RunInTransaction_opens|]. revert H.
  unfold RunInTransactionWithResult. destruct (env_fault (w_clock w)); [|intros [= _ <-]; by left..].
  set (w1 := set_tx (Some (mkTx false (env_now (w_clock w)) (w_db (settle w)))) (settle w)).
  assert (Hsnap : snapshot (X := X) (snd (f w1)) = w_db (settle w)).
  { specialize (Hown w1). unfold same_snapshot, w1 in Hown. cbn in Hown. rewrite lookup_partial_alter_eq in Hown.
    unfold snapshot. fold w1 in Hown. destruct (w_tx (snd (f w1)) !! conn_id X) as [t|]; [|done].
    cbn in Hown. congruence. }
  destruct (f w1) as [[b|e0] w2] eqn:Ef; cbn in Hsnap; rewrite Hsnap.
  2: { intros [= _ <-]. left. cbn. by rewrite conn_get_set. }
  destruct (is_aborted w2) eqn:Ha; [intros [= _ <-]; left; cbn; by rewrite conn_get_set|].
  destruct (env_fault (w_clock w2)); [done|intros [= _ <-]; left; cbn; by rewrite conn_get_set|].
  intros [= _ <-]. right. exists b. apply Hf in Ef as [_ HQ]; [by apply HQ|].
  unfold is_open, w1. cbn. by rewrite lookup_partial_alter_eq.
Qed.
End opens.

(** ** Runs that may fail

    [steps m Q F]: every run of [m] inside a transaction none of whose statements
    has failed either answers, leaves the committed tables alone and relates its
    answer to the tables before and after by [Q], or fails, and then [F] relates
    the error, the committed and the current tables before, and the committed
    tables after.  The whole of a program whose every failure is returned. *)
Section steps.
Context {D L Ev : Type} {E : Env D} {X : Type} {C : Conn D X} {CL : ConnLaws D X}.
Implicit Types w : World D L Ev.
Abbreviation M := (M D L Ev).

Definition committed w : X := conn_get (snapshot (X := X) w).

Definition steps {A} (m : M A) (Q : A -> X -> X -> Prop) (F : err -> X -> X -> X -> Prop) : Prop :=
  forall w, in_tx (X := X) w ->
    match m w with
    | (Ok a, w') => in_tx (X := X) w' /\ committed w' = committed w /\ Q a (conn_get (w_db w)) (conn_get (w_db w'))
    | (Err e, w') => F e (committed w) (conn_get (w_db w)) (committed w')
    end.

Lemma steps_mono {A} (m : M A) (P Q : A -> X -> X -> Prop) (F G : err -> X -> X -> X -> Prop) :
  steps m P F -> (forall a x x', P a x x' -> Q a x x') -> (forall e s x s', F e s x s' -> G e s x s') ->
  steps m Q G.
Proof.
  intros Hm HPQ HFG w Hin. specialize (Hm w Hin). destruct (m w) as [[a|e] w']; [|auto].
  destruct Hm as (? & ? & ?). auto.
Qed.

Lemma steps_ret {A} (a : A) (Q : A -> X -> X -> Prop) F : (forall x, Q a x x) -> steps (mret_ a) Q F.
Proof. intros HQ w Hin. by split. Qed.

Lemma steps_throw {A} e (Q : A -> X -> X -> Prop) (F : err -> X -> X -> X -> Prop) :
  (forall s x, F e s x s) -> steps (throw e) Q F.
Proof. intros HF w Hin. apply HF. Qed.

Lemma steps_lift {A} (r : res A) (F : err -> X -> X -> X -> Prop) :
  (forall e s x, r = Err e -> F e s x s) -> steps (lift r) (fun a x x' => r = Ok a /\ x' = x) F.
Proof. intros HF w Hin. unfold lift. destruct r; [by split|by apply HF]. Qed.

Lemma steps_map_err {A} f (m : M A) Q (F : err -> X -> X -> X -> Prop) :
  steps m Q (fun e => F (f e)) -> steps (map_errM f m) Q F.
Proof. intros Hm w Hin. specialize (Hm w Hin). unfold map_errM. by destruct (m w) as [[a|e] w']. Qed.

Lemma steps_wrap {A} p (m : M A) Q (F : err -> X -> X -> X -> Prop) :
  steps m Q (fun e => F (EWrap p e)) -> steps (wrapM p m) Q F.
Proof. apply steps_map_err. Qed.

Lemma steps_bind {A B} (m : M A) (k : A -> M B) (P : A -> X -> X -> Prop) (Q : B -> X -> X -> Prop)
    (F : err -> X -> X -> X -> Prop) :
  steps m P F ->
  (forall a, steps (k a) (fun b y x' => forall x, P a x y -> Q b x x')
                         (fun e s y s' => forall x, P a x y -> F e s x s')) ->
  steps (mbind_ m k) Q F.
Proof.
  intros Hm Hk w Hin. specialize (Hm w Hin). unfold mbind_. destruct (m w) as [[a|e] w1]; [|done].
  destruct Hm as (Hin1 & Hc & HP). specialize (Hk a w1 Hin1). destruct (k a w1) as [[b|e] w2].
  - destruct Hk as (? & ? & HQ). split; [done|]. split; [congruence|auto].
  - rewrite <- Hc. auto.
Qed.

Lemma steps_stmt {A} (q : Stmt X A) (F : err -> X -> X -> X -> Prop) :
  (forall e s x, F e s x s) -> steps (db_stmt q) (fun a x x' => exists ctx, q ctx x = Ok (a, x')) F.
Proof.
  intros HF w Hin. destruct (db_stmt q w) as [[a|e] w'] eqn:Eq.
  - apply db_stmt_in_tx in Eq as (ctx & x' & Hq & -> & Hin'); [|done]. split; [done|]. split.
    + unfold committed, snapshot. destruct Hin as (now & saved & Hin). cbn. by rewrite settle_tx, Hin.
    + cbn. rewrite conn_get_set. by exists ctx.
  - assert (Hc : committed w' = committed w); [|rewrite Hc; apply HF]. unfold committed.
    pose proof (db_stmt_same_snapshot q w) as Hs. rewrite Eq in Hs.
    unfold same_snapshot in Hs. cbn in Hs. destruct Hin as (now & saved & Hin). unfold snapshot.
    rewrite Hin in Hs |- *. cbn in Hs. destruct (w_tx w' !! conn_id X) as [t|]; [|done].
    cbn in Hs. by injection Hs as ->.
Qed.

Lemma steps_read {A} (f : StmtCtx -> X -> A) (F : err -> X -> X -> X -> Prop) :
  (forall e s x, F e s x s) ->
  steps (db_stmt (fun ctx x => Ok (f ctx x, x))) (fun a x x' => (exists ctx, a = f ctx x) /\ x' = x) F.
Proof. intros HF. eapply steps_mono; [by apply steps_stmt| |done]. intros a x x' [ctx [= <- <-]]. eauto. Qed.

Lemma steps_GetContext {A} (q : Stmt X (option A)) (F : err -> X -> X -> X -> Prop) :
  (forall e s x, F e s x s) ->
  steps (GetContext q) (fun a x x' => exists ctx, q ctx x = Ok (Some a, x')) F.
Proof.
  intros HF. eapply steps_bind; [by apply steps_stmt|]. intros [a|].
  - apply steps_ret. intros x y [ctx H]. eauto.
  - by apply steps_throw.
Qed.

(** What asks third parties only. *)
Definition quiet {A} (m : M A) (Q : res A -> Prop) : Prop :=
  forall w, in_tx (X := X) w -> w_db (snd (m w)) = w_db w /\ w_tx (snd (m w)) = w_tx w /\ Q (fst (m w)).

Lemma quiet_open w w' : w_tx w' = w_tx w -> w_db w' = w_db w -> in_tx (X := X) w -> in_tx (X := X) w' /\ committed w' = committed w.
Proof. intros Ht Hd Hin. unfold in_tx, committed, snapshot. by rewrite Ht, Hd. Qed.

Lemma steps_try_quiet {A} (m : M A) Q F : quiet m Q -> steps (try_ m) (fun r x x' => Q r /\ x' = x) F.
Proof.
  intros Hm w Hin. destruct (Hm w Hin) as (Hd & Ht & HQ). unfold try_. destruct (m w) as [r w']. cbn in *.
  destruct (quiet_open w w' Ht Hd Hin). rewrite Hd. auto.
Qed.

Lemma steps_ask {A} (f : nat -> A) F : steps (ask f) (fun a x x' => (exists t, a = f t) /\ x' = x) F.
Proof.
  intros w Hin. destruct (in_tx_settle w Hin) as [Hd Ht]. destruct (quiet_open w (settle w) Ht Hd Hin).
  unfold ask. rewrite Hd. eauto.
Qed.

(** A transaction: committed, or its failure has left what its body committed on
    the pool, or the answer of the commit was lost. *)
Lemma RunInTransaction_steps {A} (f : M A) (Q : A -> X -> X -> Prop) F w r w' :
  steps f Q F -> RunInTransactionWithResult f w = (r, w') ->
  let x := conn_get (w_db (settle w)) in
  match r with
  | Ok a => Q a x (conn_get (w_db w'))
  | Err e => conn_get (w_db w') = x \/ (exists a, Q a x (conn_get (w_db w'))) \/
             exists e', e = EWrap "transaction execution error" e' /\ F e' x x (conn_get (w_db w'))
  end.
Proof.
  intros Hf. unfold RunInTransactionWithResult. cbn zeta.
  destruct (env_fault (w_clock w)); [|intros [= <- <-]; by left..].
  set (w1 := set_tx (Some (mkTx false (env_now (w_clock w)) (w_db (settle w)))) (settle w)).
  assert (Hin : in_tx (X := X) w1) by (eexists _, _; unfold w1; cbn; by rewrite lookup_partial_alter_eq).
  assert (Hc : committed w1 = conn_get (w_db (settle w))).
  { unfold committed, snapshot, w1. cbn. by rewrite lookup_partial_alter_eq. }
  specialize (Hf w1 Hin). change (conn_get (w_db w1)) with (conn_get (w_db (settle w)) : X) in Hf.
  destruct (f w1) as [[a|e] w2].
  - destruct Hf as ((now & saved & Hin2) & Hc2 & HQ).
    assert (Ha : is_aborted (X := X) w2 = false) by (unfold is_aborted; by rewrite Hin2). rewrite Ha.
    destruct (env_fault (w_clock w2)); intros [= <- <-]; [exact HQ| |right; left; by exists a].
    left. cbn. rewrite conn_get_set. change (committed w2 = conn_get (w_db (settle w))). congruence.
  - intros [= <- <-]. right; right. exists e. split; [done|]. cbn. rewrite conn_get_set.
    change (F e (conn_get (w_db (settle w))) (conn_get (w_db (settle w))) (committed w2)).
    by rewrite <- Hc at 1.
Qed.
End steps.

(** ** Work on the pool beside an open transaction *)
Section pool.
Context {D L Ev : Type} {E : Env D} {X : Type} {C : Conn D X} {CL : ConnLaws D X}.
Implicit Types w : World D L Ev.

(** It runs on the committed tables, and what it leaves is committed. *)
Lemma on_pool_run {A} (m : M D L Ev A) w r w' :
  is_open (X := X) w -> on_pool (X := X) m w = (r, w') ->
  exists wa w1, m wa = (r, w1) /\ conn_get (w_db wa) = committed (X := X) w /\
    w_tx wa !! conn_id X = None /\ w_tx wa <> ∅ /\ w_trace wa = w_trace w /\
    committed w' = conn_get (X := X) (w_db w1) /\ is_open (X := X) w' /\ w_trace w' = w_trace w1.
Proof.
  unfold is_open, on_pool. intros Ho. destruct (w_tx w !! conn_id X) as [t|] eqn:Et; [|done].
  set (beside := <[_ := _]> _). set (wa := put_part _ _).
  destruct (m wa) as [r0 w1] eqn:Em. intros [= <- <-]. exists wa, w1. split; [done|].
  assert (Hne : fresh (dom (w_tx w)) <> conn_id X).
  { intros Heq. apply (is_fresh (dom (w_tx w))). rewrite Heq. apply elem_of_dom. by eexists. }
  split_and!.
  - unfold committed, snapshot. rewrite Et. cbn. by rewrite conn_get_set.
  - unfold wa, beside. cbn. by rewrite lookup_insert_ne, lookup_delete_eq.
  - apply insert_non_empty.
  - done.
  - unfold committed, snapshot. cbn. by rewrite lookup_insert_eq.
  - cbn. by rewrite lookup_insert_eq.
  - done.
Qed.
End pool.

(** ** Invariants of a database

    [keeps I m]: when [I] holds of the tables, and of the tables a rollback returns
    to, it holds of them after [m], whatever [m] answers. *)
Section keeps.
Context {D L Ev : Type} {E : Env D} {X : Type} {C : Conn D X} {CL : ConnLaws D X}.
Context (I : X -> Prop).
Context (Hothers : forall t d, I (conn_get d) -> I (conn_get (env_interfere t d))).
Implicit Types w : World D L Ev.
Abbreviation M := (M D L Ev).

Definition holds w : Prop :=
  I (conn_get (w_db w)) /\ forall t, w_tx w !! conn_id X = Some t -> I (conn_get (tx_saved t)).

Definition carries w w' : Prop := holds w -> holds w'.
#[export] Instance carries_preorder : PreOrder carries.
Proof. split; [by intros w H|]. intros w1 w2 w3 H1 H2 H. apply H2, H1, H. Qed.

Definition keeps {A} (m : M A) : Prop := respects carries m.

Lemma settle_carries w : carries w (settle w).
Proof using Hothers.
  intros [Hi Hs]. split; [|by rewrite settle_tx]. unfold settle. case_bool_decide; [by apply Hothers|done].
Qed.

Lemma keeps_bind {A B} (m : M A) (k : A -> M B) : keeps m -> (forall a, keeps (k a)) -> keeps (mbind_ m k).
Proof. intros Hm Hk. by apply respects_bind; [apply carries_preorder|..]. Qed.

Lemma keeps_map_err {A} f (m : M A) : keeps m -> keeps (map_errM f m).
Proof. apply respects_map_err. Qed.

Lemma keeps_try {A} (m : M A) : keeps m -> keeps (try_ m).
Proof. apply respects_try. Qed.

Lemma keeps_still {A} (r : World D L Ev -> res A) : keeps (fun w => (r w, w)).
Proof. by intros w H. Qed.

Lemma keeps_stmt {A} (q : Stmt X A) :
  (forall ctx x a x', I x -> q ctx x = Ok (a, x') -> I x') -> keeps (db_stmt q).
Proof using All.
  intros Hq w Hw. destruct (settle_carries w Hw) as [Hi Hs]. pose proof (db_stmt_same_snapshot q w) as Hsame.
  split.
  - destruct (db_stmt_effect q w) as [->|(ctx & a & x' & Hx & ->)]; [done|].
    rewrite conn_get_set. by eapply Hq.
  - intros t Ht. unfold same_snapshot in Hsame. rewrite Ht in Hsame. cbn in Hsame.
    rewrite settle_tx in Hs. destruct (w_tx w !! conn_id X) as [t'|]; [|done].
    injection Hsame as ->. by apply Hs.
Qed.

Lemma keeps_GetContext {A} (q : Stmt X (option A)) :
  (forall ctx x a x', I x -> q ctx x = Ok (a, x') -> I x') -> keeps (GetContext q).
Proof using All. intros Hq. apply keeps_bind; [by apply keeps_stmt|]. intros [a|]; apply keeps_still. Qed.

Lemma keeps_read {A} (f : StmtCtx -> X -> res A) :
  keeps (db_stmt (fun ctx x => let? a := f ctx x in Ok (a, x))).
Proof using All. apply keeps_stmt. intros ctx x a x' Hi H. destruct (f ctx x); [|done]. by injection H as _ <-. Qed.

Lemma keeps_ask {A} (f : nat -> A) : keeps (ask f).
Proof using Hothers. intros w. apply settle_carries. Qed.

Lemma keeps_ask_res {A} (f : nat -> res A) : keeps (ask_res f).
Proof using Hothers. intros w. apply settle_carries. Qed.

Lemma keeps_tx {A} (f : M A) : keeps f -> keeps (RunInTransactionWithResult f).
Proof using All.
  intros Hf w Hw. destruct (settle_carries w Hw) as [Hi Hs]. unfold RunInTransactionWithResult.
  destruct (env_fault (w_clock w)); [|done..].
  set (w1 := set_tx (Some (mkTx false (env_now (w_clock w)) (w_db (settle w)))) (settle w)).
  assert (Hw1 : holds w1).
  { split; [done|]. intros t. unfold w1. cbn. rewrite lookup_partial_alter_eq. by intros [= <-]. }
  specialize (Hf w1 Hw1). destruct (f w1) as [r w2]. destruct Hf as [Hi2 Hs2]; cbn in Hi2, Hs2.
  assert (Hsaved : I (conn_get (snapshot w2))).
  { unfold snapshot. destruct (w_tx w2 !! conn_id X) as [t|] eqn:Et; [by apply Hs2|done]. }
  assert (Hnone : forall x w', I x -> w_tx w' = w_tx (set_tx (X := X) None w2) ->
    holds (put_part x w')).
  { intros x w' Hx Ht. split; [cbn; by rewrite conn_get_set|]. cbn. rewrite Ht. cbn.
    by rewrite lookup_partial_alter_eq. }
  destruct r as [a|e]; [|by apply Hnone].
  destruct (is_aborted w2); [by apply Hnone|].
  assert (Hkept : holds (set_tx (X := X) None w2 <| w_clock := S (w_clock w2) |>)).
  { split; [done|]. cbn. by rewrite lookup_partial_alter_eq. }
  destruct (env_fault (w_clock w2)); [done|by apply Hnone|done].
Qed.

(** Where something is known of the answer. *)
Lemma keeps_bind_where {A B} (Q : A -> Prop) (m : M A) (k : A -> M B) :
  keeps m -> (forall w a w', m w = (Ok a, w') -> Q a) -> (forall a, Q a -> keeps (k a)) -> keeps (mbind_ m k).
Proof.
  intros Hm HQ Hk w Hw. specialize (Hm w Hw). specialize (HQ w). unfold mbind_. destruct (m w) as [[a|e] w1]; [|done].
  apply Hk; [by eapply HQ|done].
Qed.

Lemma keeps_idle {A} (m : M A) : keeps m -> keeps (beside_idle (X := X) m).
Proof.
  intros Hm w Hw0. unfold beside_idle. destruct (w_tx w !! conn_id X) as [t|] eqn:Et; [|exact (Hm w Hw0)].
  destruct Hw0 as [Hi Hs].
  assert (Hw : holds (set_tx (X := X) None w)).
  { split; [done|]. cbn. rewrite lookup_partial_alter_eq. by intros t'. }
  specialize (Hm _ Hw). destruct (m (set_tx None w)) as [r w1]. destruct Hm as [Hi1 _]. split; [done|].
  cbn. rewrite lookup_partial_alter_eq. by intros t' [= <-].
Qed.

(** Statements on another database. *)
Section other.
Context {Y : Type} {CY : Conn D Y} {CI : ConnIndep D X Y}.

Lemma keeps_stmt_other {A} (q : Stmt Y A) : keeps (db_stmt q).
Proof using Hothers CI.
  intros w Hw. destruct (settle_carries w Hw) as [Hi Hs]. split.
  - destruct (db_stmt_effect q w) as [->|(ctx & a & x' & _ & ->)]; [done|]. by rewrite conn_get_set_r.
  - assert (Ht : w_tx (snd (db_stmt q w)) !! conn_id X = w_tx (settle w) !! conn_id X).
    { unfold db_stmt. pose proof (conn_id_ne (X := X) (Y := Y)) as Hne.
      destruct (w_tx w !! conn_id Y) as [[[] now saved]|]; [done|..];
        destruct (env_fault _); cbn; rewrite ?lookup_partial_alter_ne by done; try done;
        destruct (q _ _) as [[]|]; cbn; by rewrite ?lookup_partial_alter_ne by done. }
    by rewrite Ht.
Qed.

Lemma keeps_pool_other {A} (q : StmtCtx -> Y -> res A) : keeps (pool_query q).
Proof using Hothers CI. intros w Hw. unfold pool_query. destruct (env_fault _); by apply settle_carries. Qed.
End other.
End keeps.
