(* ===== verification/Retry.v ===== *)
(** [retry.Do] of retry-go, which the Circle client and the payout dispatcher use:
    what its documentation says of it, and an implementation that does it. *)

From S2P Require Import Prelude GoStrings Errors Effects.

Local Open Scope string_scope.
Local Open Scope list_scope.

Section tries.
Context {D L Ev A : Type}.
Implicit Types w : World D L Ev.

(** [tries n again m w r w']: at most [n] runs of [m], each after one that failed with
    an error worth another, in the order of [w] and [w']; an answer is that of the
    last run.  A failure may come at any time, since the context may be cancelled
    while it waits, and the text of its error is the package's; a panic is not an
    error. *)
Inductive tries (again : err -> bool) (m : M D L Ev A) : nat -> World D L Ev -> res A -> World D L Ev -> Prop :=
  | tries_give_up n w e : tries again m n w (Err e) w
  | tries_answer n w a w' : m w = (Ok a, w') -> tries again m (S n) w (Ok a) w'
  | tries_failure n w e e' w' :
      m w = (Err e, w') -> (is_panic e = true -> e' = e) -> tries again m (S n) w (Err e') w'
  | tries_again n w e w1 r w' :
      m w = (Err e, w1) -> again e = true -> is_panic e = false -> tries again m n w1 r w' -> tries again m (S n) w r w'.
End tries.

(** A first run that answers is the answer. *)
Class Retry (D L Ev : Type) := {
  retry_Do : forall {A}, nat -> (err -> bool) -> M D L Ev A -> M D L Ev A;
  retry_Do_tries : forall {A} n again (m : M D L Ev A) w,
    tries again m n w (fst (retry_Do n again m w)) (snd (retry_Do n again m w));
  retry_Do_first : forall {A} n again (m : M D L Ev A) w a w',
    m w = (Ok a, w') -> retry_Do (S n) again m w = (Ok a, w') }.

(** [retry.Unrecoverable] and the default of [RetryIf]. *)
Definition Unrecoverable (e : err) : err := EOpaque "unrecoverableError" e.
Definition IsRecoverable (e : err) : bool := 
  match As_Opaque "unrecoverableError" e with Some _ => false | None => true end.

(** ** Reasoning *)

Section reasoning.
Context {D L Ev : Type} {RT : Retry D L Ev}.

Lemma respects_retry {A} (R : World D L Ev -> World D L Ev -> Prop) {HR : PreOrder R} n again (m : M D L Ev A) :
  respects R m -> respects R (retry_Do n again m).
Proof.
  intros Hm w. induction (retry_Do_tries n again m w) as [n w e|n w a w' H|n w e e' w' H _|n w e w1 r w' H _ _ _ IH];
    [done|..]; specialize (Hm w); rewrite H in Hm; [exact Hm..|]. etransitivity; [exact Hm|exact IH].
Qed.

(** What an answer satisfies, by an invariant of the failed runs. *)
Lemma retry_ok {A} (I : World D L Ev -> Prop) (P : A -> World D L Ev -> Prop) n again (m : M D L Ev A) w a w' :
  (forall w r w1, I w -> m w = (r, w1) -> match r with Ok a => P a w1 | Err _ => I w1 end) ->
  I w -> retry_Do n again m w = (Ok a, w') -> P a w'.
Proof.
  intros Hm HI H. pose proof (retry_Do_tries n again m w) as Ht. rewrite H in Ht. cbn in Ht. clear H.
  remember (Ok a) as r eqn:Er.
  induction Ht as [n w e|n w b w' Hb|n w e e' w' Hb _|n w e w1 r w' Hb _ _ _ IH]; [done| |done|].
  - injection Er as ->. exact (Hm _ _ _ HI Hb).
  - apply IH; [exact (Hm _ _ _ HI Hb)|done].
Qed.
End reasoning.

(** ** An implementation *)

Section plain.
Context {D L Ev : Type}.

Fixpoint plain_Do {A} (n : nat) (again : err -> bool) (m : M D L Ev A) : M D L Ev A := fun w =>
  match n with
  | O => (Err (ENew "All attempts fail"), w)
  | S n' =>
    match m w with
    | (Ok a, w') => (Ok a, w')
    | (Err e, w') => if again e && negb (is_panic e) && negb (Nat.eqb n' 0) then plain_Do n' again m w' else (Err e, w')
    end
  end.

#[export] Instance plain_retry : Retry D L Ev.
Proof.
  refine {| retry_Do := @plain_Do |}.
  - intros A n again m. induction n as [|n IH]; intros w; cbn; [constructor|].
    destruct (m w) as [[a|e] w'] eqn:Em; [by constructor|].
    destruct (again e && negb (is_panic e) && _) eqn:Eb; [|by eapply tries_failure].
    apply andb_true_iff in Eb as [Ha _]. apply andb_true_iff in Ha as [Ha Hp]. apply negb_true_iff in Hp.
    by eapply tries_again.
  - intros A n again m w a w' H. cbn. by rewrite H.
Defined.
End plain.
