(* ===== verification/Schema.v ===== *)
(** The types of [pkg/schema]: memos ([memo.go]), account types
    ([account_type.go]) and transaction accounts ([transaction_account.go]). *)

From S2P Require Import Prelude GoStrings Errors.

Local Open Scope string_scope.
Local Open Scope list_scope.

(** ** Memos: [memo.go] *)

(** The [txnbuild.Memo] values the code builds; [None] is the nil memo. *)
Inductive Memo :=
  | MemoID (id : Z)
  | MemoText (text : string)
  | MemoHash (bytes : list Z)
  | MemoReturn (bytes : list Z).

#[export] Instance Memo_eq_dec : EqDecision Memo.
Proof. solve_decision. Defined.

Definition MemoTypeText := "text".
Definition MemoTypeID := "id".
Definition MemoTypeHash := "hash".
Definition MemoTypeReturn := "return".

Definition hexStringToBytes (hexStr : string) : res (list Z) :=
  match hex_DecodeString hexStr with
  | Some bytes => Ok bytes
  | None => Err (EWrap ("decoding hex string " +:+ hexStr) (EExternal "encoding/hex: invalid string"))
  end.

Definition NewMemo (memoType memoValue : string) : res (option Memo) :=
  if memoType =? "" then Ok None
  else if memoType =? MemoTypeID then
    match ParseUint64 memoValue with
    | Ok id => Ok (Some (MemoID id))
    | Err m => Err (EWrap "invalid Memo ID value, must be a uint64" (EExternal m))
    end
  else if memoType =? MemoTypeText then
    if (28 <? String.length memoValue)%nat then Err (ENew "text memo must be 28 bytes or less")
    else Ok (Some (MemoText memoValue))
  else if memoType =? MemoTypeHash then
    if negb (Nat.eqb (String.length memoValue) 64)
    then Err (ENew "hash memo must be 64 hex characters (32 bytes)")
    else let? hashBytes := wrap "invalid hash format" (hexStringToBytes memoValue) in
         Ok (Some (MemoHash hashBytes))
  else if memoType =? MemoTypeReturn then
    if negb (Nat.eqb (String.length memoValue) 64)
    then Err (ENew "return memo must be 64 hex characters (32 bytes)")
    else let? hashBytes := wrap "invalid return hash format" (hexStringToBytes memoValue) in
         Ok (Some (MemoReturn hashBytes))
  else Err (ENew ("unknown memo type: " +:+ memoType)).

(** The loop of [ParseMemo] over the memo types it tries. *)
Fixpoint first_memo (types : list string) (memoValue : string) : option (option Memo * string) :=
  match types with
  | [] => None
  | t :: types' =>
    match NewMemo t memoValue with
    | Ok memo => Some (memo, t)
    | Err _ => first_memo types' memoValue
    end
  end.

Definition ParseMemo (memoValue : string) : res (option Memo * string) :=
  if memoValue =? "" then Ok (None, "")
  else
    match first_memo [MemoTypeID; MemoTypeText; MemoTypeHash] memoValue with
    | Some r => Ok r
    | None => Err (ENew ("could not parse value " +:+ quote memoValue +:+ " as any valid memo type"))
    end.

(** ** Account types: [account_type.go] *)

Definition HostStellarEnv := "HOST.STELLAR.ENV".
Definition ChannelAccountStellarDB := "CHANNEL_ACCOUNT.STELLAR.DB".
Definition DistributionAccountStellarEnv := "DISTRIBUTION_ACCOUNT.STELLAR.ENV".
Definition DistributionAccountStellarDBVault := "DISTRIBUTION_ACCOUNT.STELLAR.DB_VAULT".
Definition DistributionAccountCircleDBVault := "DISTRIBUTION_ACCOUNT.CIRCLE.DB_VAULT".

Definition AllAccountTypes : list string :=
  [HostStellarEnv; ChannelAccountStellarDB; DistributionAccountStellarEnv;
   DistributionAccountStellarDBVault; DistributionAccountCircleDBVault].

Definition HostRole := "HOST".
Definition ChannelAccountRole := "CHANNEL_ACCOUNT".
Definition DistributionAccountRole := "DISTRIBUTION_ACCOUNT".
Definition StellarPlatform := "STELLAR".
Definition CirclePlatform := "CIRCLE".
Definition EnvStorageMethod := "ENV".
Definition DBStorageMethod := "DB".
Definition DBVaultStorageMethod := "DB_VAULT".

Definition accRoleMap : gmap string string := list_to_map
  [(HostStellarEnv, HostRole); (ChannelAccountStellarDB, ChannelAccountRole);
   (DistributionAccountStellarEnv, DistributionAccountRole);
   (DistributionAccountStellarDBVault, DistributionAccountRole);
   (DistributionAccountCircleDBVault, DistributionAccountRole)].
Definition accPlatformMap : gmap string string := list_to_map
  [(HostStellarEnv, StellarPlatform); (ChannelAccountStellarDB, StellarPlatform);
   (DistributionAccountStellarEnv, StellarPlatform);
   (DistributionAccountStellarDBVault, StellarPlatform);
   (DistributionAccountCircleDBVault, CirclePlatform)].
Definition accStorageMethodMap : gmap string string := list_to_map
  [(HostStellarEnv, EnvStorageMethod); (ChannelAccountStellarDB, DBStorageMethod);
   (DistributionAccountStellarEnv, EnvStorageMethod);
   (DistributionAccountStellarDBVault, DBVaultStorageMethod);
   (DistributionAccountCircleDBVault, DBVaultStorageMethod)].

(** A missing key of a Go map gives the zero value, here the empty string. *)
Definition Role (t : string) : string := default "" (accRoleMap !! t).
Definition Platform (t : string) : string := default "" (accPlatformMap !! t).
Definition StorageMethod (t : string) : string := default "" (accStorageMethodMap !! t).

Definition AccountType_IsStellar (t : string) : bool := Platform t =? StellarPlatform.
Definition AccountType_IsCircle (t : string) : bool := Platform t =? CirclePlatform.

Definition DistributionAccountTypes : list string :=
  filter (fun accType => Role accType = DistributionAccountRole) AllAccountTypes.

(** ** Transaction accounts: [transaction_account.go] *)

Definition AccountStatusActive := "ACTIVE".
Definition AccountStatusPendingUserActivation := "PENDING_USER_ACTIVATION".

Record TransactionAccount := mkTransactionAccount {
  Address : string;
  CircleWalletID : string;
  TA_Type : string;
  TA_Status : string }.

(** [None] for the panic of an unsupported type. *)
Definition TA_ID (da : TransactionAccount) : option string :=
  let platform := Platform (TA_Type da) in
  if platform =? StellarPlatform then Some (ToLower platform +:+ ":" +:+ Address da)
  else if platform =? CirclePlatform then Some (ToLower platform +:+ ":" +:+ CircleWalletID da)
  else None.

Definition IsStellar (da : TransactionAccount) : bool := AccountType_IsStellar (TA_Type da).
Definition IsCircle (da : TransactionAccount) : bool := AccountType_IsCircle (TA_Type da).
Definition IsActive (da : TransactionAccount) : bool := TA_Status da =? AccountStatusActive.
Definition IsPendingUserActivation (da : TransactionAccount) : bool :=
  TA_Status da =? AccountStatusPendingUserActivation.

Definition NewDefaultStellarTransactionAccount (a : string) : TransactionAccount :=
  mkTransactionAccount a "" DistributionAccountStellarDBVault AccountStatusActive.
Definition NewStellarEnvTransactionAccount (a : string) : TransactionAccount :=
  mkTransactionAccount a "" DistributionAccountStellarEnv AccountStatusActive.
Definition NewDefaultChannelAccount (a : string) : TransactionAccount :=
  mkTransactionAccount a "" ChannelAccountStellarDB AccountStatusActive.
Definition NewDefaultHostAccount (a : string) : TransactionAccount :=
  mkTransactionAccount a "" HostStellarEnv AccountStatusActive.

(** ** Lemmas *)

Lemma hexStringToBytes_length s l : hexStringToBytes s = Ok l -> String.length s = 2 * length l.
Proof.
  unfold hexStringToBytes. destruct (hex_DecodeString s) eqn:E; [|done].
  intros [= <-]. by apply hex_DecodeString_length.
Qed.

(** What the Stellar protocol allows in a memo. *)
Definition memo_wf (m : Memo) : Prop :=
  match m with
  | MemoID id => (0 <= id < 2 ^ 64)%Z
  | MemoText text => String.length text <= 28
  | MemoHash bytes | MemoReturn bytes => length bytes = 32
  end.

Lemma NewMemo_wf t v m : NewMemo t v = Ok (Some m) -> memo_wf m.
Proof.
  unfold NewMemo. destruct (t =? ""); [done|]. destruct (t =? MemoTypeID).
  { destruct (ParseUint64 v) eqn:E; [|done]. intros [= <-]. by apply (ParseUint64_bound v). }
  destruct (t =? MemoTypeText).
  { destruct (Nat.ltb_spec 28 (String.length v)); [done|]. by intros [= <-]. }
  assert (Hhash : forall l, String.length v = 64 -> hexStringToBytes v = Ok l -> length l = 32).
  { intros l Hv Hl. apply hexStringToBytes_length in Hl. lia. }
  destruct (t =? MemoTypeHash); [|destruct (t =? MemoTypeReturn); [|done]];
    destruct (Nat.eqb_spec (String.length v) 64); try done; cbn;
    destruct (hexStringToBytes v) eqn:E; try done; intros [= <-]; by apply Hhash.
Qed.

Lemma NewMemo_text v :
  String.length v <= 28 -> NewMemo MemoTypeText v = Ok (Some (MemoText v)).
Proof.
  intros Hv. unfold NewMemo. destruct (Nat.ltb_spec 28 (String.length v)); [lia|done].
Qed.

Lemma first_memo_spec types v m t :
  first_memo types v = Some (m, t) ->
  t ∈ types /\ NewMemo t v = Ok m.
Proof.
  induction types as [|t' types IH]; cbn; [done|].
  destruct (NewMemo t' v) eqn:E; [intros [= <- <-]; split; [by left|done]|].
  intros H. destruct (IH H). split; [by right|done].
Qed.

(** ** Properties *)

(** [ParseMemo] finds a memo of a type [NewMemo] accepts for the same value,
    within the bounds of the protocol; the empty string, and nothing else, has
    no memo; a decimal uint64 is always an id and a short string that is not
    one is always a text. *)
Theorem ParseMemo_sound (s : string) :
  (forall m t, ParseMemo s = Ok (m, t) ->
     NewMemo t s = Ok m /\ (m = None <-> s = "") /\
     match m with Some m => memo_wf m | None => t = "" end) /\
  (forall id, s <> "" -> ParseUint64 s = Ok id -> ParseMemo s = Ok (Some (MemoID id), MemoTypeID)) /\
  (forall e, s <> "" -> ParseUint64 s = Err e -> String.length s <= 28 ->
     ParseMemo s = Ok (Some (MemoText s), MemoTypeText)).
Proof.
  unfold ParseMemo. destruct (String.eqb_spec s "") as [->|E].
  { split; [|by split]. intros m t [= <- <-]. by split. }
  split; [|split].
  - intros m t. destruct (first_memo [MemoTypeID; MemoTypeText; MemoTypeHash] s)
      as [[m' t']|] eqn:F; [|done].
    intros [= -> ->].
    apply first_memo_spec in F as [Ht Hm]. destruct m as [m|].
    + split; [done|]. split; [by split|]. by apply (NewMemo_wf t s).
    + exfalso. unfold NewMemo in Hm. rewrite !elem_of_cons, elem_of_nil in Ht.
      destruct_or! Ht; subst; cbn in Hm; try done; repeat case_match; try done.
      by destruct (hexStringToBytes s).
  - intros id _ H. cbn. by rewrite H.
  - intros e _ H Hlen. cbn [first_memo]. rewrite (NewMemo_text s Hlen).
    assert (Hid : exists e', NewMemo MemoTypeID s = Err e') by (cbn; rewrite H; eauto).
    by destruct Hid as [e' ->].
Qed.

Lemma ParseMemo_sound_witness :
  ParseMemo "12345" = Ok (Some (MemoID 12345), MemoTypeID).
Proof. apply (proj1 (proj2 (ParseMemo_sound "12345"))); [done|reflexivity]. Defined.

(** Every account type belongs to exactly one platform, has a role and a
    storage method, and its name is the three of them joined by dots; an
    unknown type is on no platform, and has no [ID]. *)
Theorem account_types_coherent (t : string) :
  (t ∈ AllAccountTypes -> t = Join "." [Role t; Platform t; StorageMethod t]) /\
  (AccountType_IsStellar t = true <-> t ∈ AllAccountTypes /\ t <> DistributionAccountCircleDBVault) /\
  (AccountType_IsCircle t = true <-> t = DistributionAccountCircleDBVault) /\
  (t ∈ DistributionAccountTypes <-> Role t = DistributionAccountRole) /\
  (forall a w s, TA_ID (mkTransactionAccount a w t s) = None <-> t ∉ AllAccountTypes).
Proof.
  destruct (decide (t ∈ AllAccountTypes)) as [Hin|Hin].
  - assert (Hall : Forall (fun t =>
      t = Join "." [Role t; Platform t; StorageMethod t] /\
      (AccountType_IsStellar t = true <-> t <> DistributionAccountCircleDBVault) /\
      (AccountType_IsCircle t = true <-> t = DistributionAccountCircleDBVault) /\
      (t ∈ DistributionAccountTypes <-> Role t = DistributionAccountRole) /\
      Platform t ∈ [StellarPlatform; CirclePlatform]) AllAccountTypes) by by_computation.
    rewrite Forall_forall in Hall. destruct (Hall t Hin) as (H1 & H2 & H3 & H4 & H5).
    split; [by intros _|]. split; [rewrite H2; by split; [|intros [_ ?]]|].
    split; [done|]. split; [done|]. intros a w s. split; [|done].
    unfold TA_ID. cbn [TA_Type]. rewrite !elem_of_cons, elem_of_nil in H5.
    destruct H5 as [-> | [-> | []]]; cbn; discriminate.
  - assert (Hnone : forall m : gmap string string, dom m = list_to_set AllAccountTypes ->
      m !! t = None).
    { intros m Hm. apply not_elem_of_dom. rewrite Hm. by rewrite elem_of_list_to_set. }
    assert (HR : Role t = "") by (unfold Role; rewrite Hnone; [done|by_computation]).
    assert (HP : Platform t = "") by (unfold Platform; rewrite Hnone; [done|by_computation]).
    unfold AccountType_IsStellar, AccountType_IsCircle, TA_ID. cbn [TA_Type].
    rewrite HP, HR.
    split; [done|]. split; [split; [done|by intros [? _]]|]. split.
    { split; [done|]. intros ->. by destruct Hin; by_computation. }
    split; [|done]. unfold DistributionAccountTypes. split; [|done].
    intros Hd. by apply list_elem_of_filter in Hd as [_ ?].
Qed.

Lemma account_types_coherent_witness :
  DistributionAccountCircleDBVault =
    Join "." [Role DistributionAccountCircleDBVault; Platform DistributionAccountCircleDBVault;
              StorageMethod DistributionAccountCircleDBVault].
Proof. apply (proj1 (account_types_coherent _)). by_computation. Defined.
