(* ===== verification/TxStore.v ===== *)
(** The transactions table of the submission service:
    [internal/transactionsubmission/store/transactions.go], over the tables of
    [db/migrations/tss-migrations]. *)

From S2P Require Import Prelude GoStrings Errors StateMachine Effects Schema.

Local Open Scope string_scope.
Local Open Scope list_scope.

(** ** Third-party code *)

(** The checks of [strkey] and [xdr] the store calls: parameters of the model. *)
Class StellarSdk := {
  IsValidEd25519PublicKey : string -> bool;
  IsValidContractAddress : string -> bool;
  Unmarshal_TransactionEnvelope : string -> res unit;
  Unmarshal_TransactionResult : string -> res unit;
  Unmarshal_InvokeHostFunctionOp : string -> res unit }.

(** [uuid_generate_v4()], the default of the key column. *)
Class UuidGen := { uuid_generate : StmtCtx -> nat -> string }.

(** ** Data *)

Definition ErrRecordNotFound : err := ESentinel "record not found".

Definition TransactionTypePayment := "PAYMENT".
Definition TransactionTypeWalletCreation := "WALLET_CREATION".
Definition TransactionTypeSponsored := "SPONSORED".

Record TransactionStatusHistoryEntry := mkHistory {
  H_Timestamp : Z;
  H_Status : string;
  H_StatusMessage : option string;
  H_Hash : option string;
  H_XDRSent : option string;
  H_XDRReceived : option string }.

(** Times are instants ([None] for NULL); amounts are counted in units of
    10^-7, the scale of the NUMERIC(19,7) column; the strings of the columns
    read with COALESCE are [""] for NULL. *)
Record Transaction := mkTransaction {
  ID : string;
  ExternalID : string;
  Status : string;
  StatusMessage : option string;
  StatusHistory : list TransactionStatusHistoryEntry;
  TransactionType : string;
  AssetCode : string;
  AssetIssuer : string;
  Amount : Z;
  Destination : string;
  T_Memo : string;
  MemoType : string;
  PublicKey : string;
  WasmHash : string;
  SponsoredAccount : string;
  SponsoredOperationXDR : string;
  TenantID : string;
  DistributionAccount : option string;
  CreatedAt : Z;
  UpdatedAt : Z;
  StartedAt : option Z;
  SentAt : option Z;
  CompletedAt : option Z;
  SyncedAt : option Z;
  AttemptsCount : Z;
  StellarTransactionHash : option string;
  XDRSent : option string;
  XDRReceived : option string;
  LockedAt : option Z;
  LockedUntilLedgerNumber : option Z }.
#[export] Instance eta_Transaction : Eta Transaction := fun r =>
  mkTransaction (ID r) (ExternalID r) (Status r) (StatusMessage r) (StatusHistory r)
    (TransactionType r) (AssetCode r) (AssetIssuer r) (Amount r) (Destination r) (T_Memo r)
    (MemoType r) (PublicKey r) (WasmHash r) (SponsoredAccount r) (SponsoredOperationXDR r)
    (TenantID r) (DistributionAccount r) (CreatedAt r) (UpdatedAt r) (StartedAt r) (SentAt r)
    (CompletedAt r) (SyncedAt r) (AttemptsCount r) (StellarTransactionHash r) (XDRSent r)
    (XDRReceived r) (LockedAt r) (LockedUntilLedgerNumber r).

(** The channel accounts table, whose operations are in ChannelAccounts.v. *)
Record ChannelAccount := mkChannelAccount {
  CA_PublicKey : string;
  CA_PrivateKey : string;
  CA_UpdatedAt : Z;
  CA_CreatedAt : Z;
  CA_LockedAt : option Z;
  CA_LockedUntilLedgerNumber : option Z }.
#[export] Instance eta_ChannelAccount : Eta ChannelAccount := fun r =>
  mkChannelAccount (CA_PublicKey r) (CA_PrivateKey r) (CA_UpdatedAt r) (CA_CreatedAt r)
    (CA_LockedAt r) (CA_LockedUntilLedgerNumber r).

(** The database of the submission service, rows in physical order. *)
Record TssDb := mkTssDb {
  submitter_transactions : list Transaction;
  channel_accounts : list ChannelAccount }.
#[export] Instance eta_TssDb : Eta TssDb :=
  fun r => mkTssDb (submitter_transactions r) (channel_accounts r).

Definition BuildMemo (tx : Transaction) : res (option Memo) :=
  if TransactionType tx <>? TransactionTypePayment
  then Err (ENew ("transaction type " +:+ quote (TransactionType tx) +:+ " does not support memo"))
  else wrap "building memo" (NewMemo (MemoType tx) (T_Memo tx)).

Definition IsLocked (tx : Transaction) (currentLedgerNumber : Z) : bool :=
  null_ge (LockedUntilLedgerNumber tx) currentLedgerNumber.

(** ** Validation before insertion *)

Section validate.
Context {SDK : StellarSdk}.

Definition require_hex (name value : string) : res unit :=
  if value =? "" then Err (ENew (name +:+ " is required"))
  else match hex_DecodeString value with
  | Some _ => Ok tt
  | None => Err (EWrap (name +:+ " " +:+ quote value +:+ " is not a valid hex string")
                   (EExternal "encoding/hex: invalid string"))
  end.

Definition WalletCreation_validate (wc : Transaction) : res unit :=
  let? _ := require_hex "public key" (PublicKey wc) in
  require_hex "wasm hash" (WasmHash wc).

Definition Payment_validate (p : Transaction) : res unit :=
  let len := String.length (AssetCode p) in
  if (len <? 1)%nat || (12 <? len)%nat
  then Err (ENew "asset code must have between 1 and 12 characters")
  else
    let? _ :=
      if ToLower (AssetCode p) <>? "xlm" then
        if AssetIssuer p =? "" then Err (ENew "asset issuer is required")
        else guard_err (negb (IsValidEd25519PublicKey (AssetIssuer p)))
          (ENew ("asset issuer " +:+ quote (AssetIssuer p) +:+ " is not a valid ed25519 public key"))
      else Ok tt in
    if (Amount p <=? 0)%Z then Err (ENew "amount must be positive")
    else guard_err (negb (IsValidEd25519PublicKey (Destination p))
                    && negb (IsValidContractAddress (Destination p)))
      (ENew ("destination " +:+ quote (Destination p)
             +:+ " is not a valid ed25519 public key or contract address")).

Definition Sponsored_validate (s : Transaction) : res unit :=
  if SponsoredAccount s =? "" then Err (ENew "sponsored account is required")
  else if negb (IsValidContractAddress (SponsoredAccount s))
  then Err (ENew ("sponsored account " +:+ quote (SponsoredAccount s)
                  +:+ " is not a valid contract address"))
  else if SponsoredOperationXDR s =? "" then Err (ENew "sponsored operation XDR is required")
  else wrap ("invalid sponsored operation XDR " +:+ quote (SponsoredOperationXDR s))
         (Unmarshal_InvokeHostFunctionOp (SponsoredOperationXDR s)).

Definition Transaction_validate (tx : Transaction) : res unit :=
  if ExternalID tx =? "" then Err (ENew "external ID is required")
  else if TenantID tx =? "" then Err (ENew "tenant ID is required")
  else if TransactionType tx =? TransactionTypePayment
  then wrap "validating payment transaction" (Payment_validate tx)
  else if TransactionType tx =? TransactionTypeWalletCreation
  then wrap "validating wallet creation transaction" (WalletCreation_validate tx)
  else if TransactionType tx =? TransactionTypeSponsored
  then wrap "validating sponsored transaction" (Sponsored_validate tx)
  else Err (ENew ("invalid transaction type " +:+ quote (TransactionType tx))).
End validate.

(** ** The constraints of the table *)

(** The CHECK constraints, column types and lengths of the migrations; NULL
    passes a CHECK. *)
Definition row_ok (tx : Transaction) : bool :=
  let len s := String.length s in
  let null s := s =? "" in
  slices_Contains TransactionStatus_All (Status tx)
  && slices_Contains [TransactionTypePayment; TransactionTypeWalletCreation;
                      TransactionTypeSponsored] (TransactionType tx)
  && (null (MemoType tx) || slices_Contains ["text"; "id"; "hash"; "return"] (MemoType tx))
  && (len (ExternalID tx) <=? 64)%nat && (len (AssetCode tx) <=? 12)%nat
  && (len (AssetIssuer tx) <=? 56)%nat && (len (Destination tx) <=? 56)%nat
  && (len (TenantID tx) <=? 36)%nat && (len (PublicKey tx) <=? 256)%nat
  && (len (WasmHash tx) <=? 64)%nat && (len (SponsoredAccount tx) <=? 56)%nat
  && (len (default "" (DistributionAccount tx)) <=? 56)%nat
  && (len (default "" (StellarTransactionHash tx)) <=? 64)%nat
  && (Z.abs (Amount tx) <? 10 ^ 19)%Z && (0 <=? AttemptsCount tx)%Z
  && (null (AssetIssuer tx) || Nat.eqb (len (AssetIssuer tx)) 56)
  && ((TransactionType tx <>? TransactionTypePayment)
      || (negb (null (AssetCode tx)) && (negb (null (AssetIssuer tx)) || (AssetCode tx =? "XLM"))
          && negb (Amount tx =? 0)%Z && negb (null (Destination tx))))
  && ((TransactionType tx <>? TransactionTypeWalletCreation)
      || (negb (null (PublicKey tx)) && negb (null (WasmHash tx))))
  && ((TransactionType tx <>? TransactionTypeSponsored)
      || (negb (null (SponsoredAccount tx)) && negb (null (SponsoredOperationXDR tx)))).

(** The primary key and the unique indexes; [external_id] is unique among the
    rows that are not in ERROR. *)
Definition live (tx : Transaction) : bool := Status tx <>? TransactionStatusError.

Definition table_unique (rows : list Transaction) : Prop :=
  NoDup (map ID rows) /\
  NoDup (map ExternalID (filter (fun tx => live tx = true) rows)) /\
  NoDup (omap StellarTransactionHash rows) /\
  NoDup (omap XDRSent rows) /\
  NoDup (omap XDRReceived rows).

#[export] Instance table_unique_dec rows : Decision (table_unique rows).
Proof. unfold table_unique. apply _. Defined.

(** What every committed table satisfies. *)
Definition table_ok (rows : list Transaction) : Prop :=
  Forall (fun tx => row_ok tx = true) rows /\ table_unique rows.

#[export] Instance table_ok_dec rows : Decision (table_ok rows).
Proof. unfold table_ok. apply _. Defined.

Definition check_rows {A} (a : A) (db : TssDb) : res (A * TssDb) :=
  if decide (table_ok (submitter_transactions db)) then Ok (a, db)
  else Err (EExternal "pq: a constraint of submitter_transactions is violated").

(** [UPDATE submitter_transactions SET f WHERE p RETURNING ...]: the trigger
    refreshes [updated_at]; the first of the updated rows is scanned. *)
Definition refresh_tx (ctx : StmtCtx) (tx : Transaction) : Transaction :=
  tx <| UpdatedAt := NOW ctx |>.

Definition UpdateTx (p : Transaction -> bool) (f : StmtCtx -> Transaction -> Transaction) :
    Stmt TssDb (list Transaction) := fun ctx db =>
  let set tx := refresh_tx ctx (f ctx tx) in
  check_rows (map set (filter (fun tx => p tx = true) (submitter_transactions db)))
    (db <| submitter_transactions := update_where p set (submitter_transactions db) |>).

Definition UpdateTxReturning (p : Transaction -> bool) (f : StmtCtx -> Transaction -> Transaction) :
    Stmt TssDb (option Transaction) := fun ctx db =>
  match UpdateTx p f ctx db with
  | Ok (rows, db') => Ok (hd_error rows, db')
  | Err e => Err e
  end.

Definition SelectTx (p : StmtCtx -> Transaction -> bool) : Stmt TssDb (list Transaction) :=
  fun ctx db => Ok (filter (fun tx => p ctx tx = true) (submitter_transactions db), db).

(** [status_history = array_append(status_history, create_...(...))]. *)
Definition append_history (e : TransactionStatusHistoryEntry) (tx : Transaction) : Transaction :=
  tx <| StatusHistory := StatusHistory tx ++ [e] |>.

(** ** Operations *)

Definition allowedTxStatuses : list string := [TransactionStatusPending; TransactionStatusProcessing].

(** The filter for unlocked rows of [queryFilterForLockedState]; comparing
    with NULL is not true. *)
Definition queryFilterForLockedState (locked : bool) (ledgerNumber : Z) (lockedUntil : option Z) : bool :=
  if locked then null_ge lockedUntil ledgerNumber
  else match lockedUntil with None => true | Some v => (v <? ledgerNumber)%Z end.

Definition has_id (txID : string) (tx : Transaction) : bool := ID tx =? txID.

Section TransactionModel.
Context {D L Ev : Type} {E : Env D} {C : Conn D TssDb}.
Abbreviation M := (M D L Ev).

Definition Tx_Get (txID : string) : M Transaction :=
  no_rows_as ErrRecordNotFound ("error querying transaction ID " +:+ txID)
    (GetContext (fun ctx db => Ok (first_such (has_id txID) (submitter_transactions db), db))).

Definition GetAllByExternalIDs (externalIDs : list string) : M (list Transaction) :=
  wrapM "error querying transactions"
    (db_stmt (SelectTx (fun _ tx => slices_Contains externalIDs (ExternalID tx)))).

Definition set_success (ctx : StmtCtx) (tx : Transaction) : Transaction :=
  append_history (mkHistory (NOW ctx) TransactionStatusSuccess None (StellarTransactionHash tx)
                    (XDRSent tx) (XDRReceived tx)) tx
    <| Status := TransactionStatusSuccess |> <| CompletedAt := Some (NOW ctx) |>.

Definition UpdateStatusToSuccess (tx : Transaction) : M Transaction :=
  wrapM "attempting to transition transaction status to TransactionStatusSuccess"
    (lift (TransactionStatus_CanTransitionTo (Status tx) TransactionStatusSuccess)) ;;!
  wrapM "updating transaction status to TransactionStatusSuccess"
    (GetContext (UpdateTxReturning (has_id (ID tx)) set_success)).

Definition set_error (message : string) (ctx : StmtCtx) (tx : Transaction) : Transaction :=
  append_history (mkHistory (NOW ctx) TransactionStatusError (Some message)
                    (StellarTransactionHash tx) (XDRSent tx) (XDRReceived tx)) tx
    <| Status := TransactionStatusError |> <| CompletedAt := Some (NOW ctx) |>
    <| StatusMessage := Some message |>.

Definition UpdateStatusToError (tx : Transaction) (message : string) : M Transaction :=
  wrapM "attempting to transition transaction status to TransactionStatusError"
    (lift (TransactionStatus_CanTransitionTo (Status tx) TransactionStatusError)) ;;!
  wrapM "updating transaction status to TransactionStatusError"
    (GetContext (UpdateTxReturning (has_id (ID tx)) (set_error message))).

Definition set_sent (txHash txXDRSent distributionAccount : string) (ctx : StmtCtx)
    (tx : Transaction) : Transaction :=
  append_history (mkHistory (NOW ctx) (Status tx)
      (Some "Updating Stellar Transaction Hash, XDR Sent and Distribution Account")
      (Some txHash) (Some txXDRSent) (XDRReceived tx)) tx
    <| StellarTransactionHash := Some txHash |> <| XDRSent := Some txXDRSent |>
    <| DistributionAccount := Some distributionAccount |> <| SentAt := Some (NOW ctx) |>
    <| AttemptsCount := (AttemptsCount tx + 1)%Z |>.

Definition set_received (xdrReceived : string) (ctx : StmtCtx) (tx : Transaction) : Transaction :=
  append_history (mkHistory (NOW ctx) (Status tx) (Some "Updating XDR Received")
      (StellarTransactionHash tx) (XDRSent tx) (Some xdrReceived)) tx
    <| XDRReceived := Some xdrReceived |>.

Section sdk.
Context {SDK : StellarSdk}.

Definition UpdateStellarTransactionHashXDRSentAndDistributionAccount
    (txID txHash txXDRSent distributionAccount : string) : M Transaction :=
  if negb (Nat.eqb (String.length txHash) 64)
  then throw (ENew ("invalid transaction hash " +:+ quote txHash))
  else if negb (IsValidEd25519PublicKey distributionAccount)
  then throw (ENew ("distribution account " +:+ quote distributionAccount
                    +:+ " is not a valid ed25519 public key"))
  else
    wrapM "invalid XDR envelope" (lift (Unmarshal_TransactionEnvelope txXDRSent)) ;;!
    no_rows_as ErrRecordNotFound "error updating transaction hash"
      (GetContext (UpdateTxReturning (has_id txID) (set_sent txHash txXDRSent distributionAccount))).

Definition UpdateStellarTransactionXDRReceived (txID xdrReceived : string) : M Transaction :=
  wrapM "invalid XDR result" (lift (Unmarshal_TransactionResult xdrReceived)) ;;!
  no_rows_as ErrRecordNotFound "error updating transaction hash"
    (GetContext (UpdateTxReturning (has_id txID) (set_received xdrReceived))).
End sdk.

(** The rows of a finished transaction that the other service has not read. *)
Definition unsynced (transactionType : string) (tx : Transaction) : bool :=
  slices_Contains ["SUCCESS"; "ERROR"] (Status tx)
  && bool_decide (SyncedAt tx = None) && (TransactionType tx =? transactionType).

Definition GetTransactionBatchForUpdate (batchSize : Z) (tenantID transactionType : string) :
    M (list Transaction) :=
  if (batchSize <=? 0)%Z then throw (ENew "batch size must be greater than 0")
  else if tenantID =? "" then throw (ENew "tenant ID is required")
  else wrapM "getting transactions" (db_stmt (fun ctx db =>
    Ok (take (Z.to_nat batchSize)
          (sort_by CompletedAt (filter (fun tx =>
             unsynced transactionType tx && (TenantID tx =? tenantID)
             && negb (row_locked ctx (ID tx)) = true) (submitter_transactions db))), db))).

Definition GetTransactionPendingUpdateByID (txID expectedTransactionType : string) : M Transaction :=
  no_rows_as ErrRecordNotFound ("getting transaction ID " +:+ txID)
    (GetContext (fun ctx db =>
      Ok (first_such (fun tx => has_id txID tx && unsynced expectedTransactionType tx
                                && negb (row_locked ctx (ID tx))) (submitter_transactions db), db))).

Definition UpdateSyncedTransactions (txIDs : list string) : M unit :=
  match txIDs with
  | [] => throw (ENew "no transaction IDs provided")
  | _ =>
    let! rows := wrapM "updating transactions" (db_stmt (UpdateTx
        (fun tx => slices_Contains txIDs (ID tx)
           && slices_Contains [TransactionStatusSuccess; TransactionStatusError] (Status tx))
        (fun ctx tx => tx <| SyncedAt := Some (NOW ctx) |>))) in
    lift (guard_err (negb (Nat.eqb (length rows) (length txIDs)))
      (ENew ("expected " +:+ itoa (Z.of_nat (length txIDs)) +:+ " rows to be affected, got "
             +:+ itoa (Z.of_nat (length rows)))))
  end.

(** A transaction can be locked: not locked now, not synced, still in the queue. *)
Definition lockable (currentLedger : Z) (tx : Transaction) : bool :=
  queryFilterForLockedState false currentLedger (LockedUntilLedgerNumber tx)
  && bool_decide (SyncedAt tx = None) && slices_Contains allowedTxStatuses (Status tx).

Definition set_locked (nextLedgerLock : Z) (ctx : StmtCtx) (tx : Transaction) : Transaction :=
  tx <| LockedAt := Some (NOW ctx) |> <| LockedUntilLedgerNumber := Some nextLedgerLock |>
     <| Status := TransactionStatusProcessing |>.

Definition Tx_Lock (transactionID : string) (currentLedger nextLedgerLock : Z) : M Transaction :=
  no_rows_as ErrRecordNotFound ("locking transaction " +:+ quote transactionID)
    (GetContext (UpdateTxReturning
      (fun tx => has_id transactionID tx && lockable currentLedger tx) (set_locked nextLedgerLock))).

Definition set_unlocked (ctx : StmtCtx) (tx : Transaction) : Transaction :=
  tx <| LockedAt := None |> <| LockedUntilLedgerNumber := None |>.

Definition Tx_Unlock (publicKey : string) : M Transaction :=
  no_rows_as ErrRecordNotFound ("unlocking transaction " +:+ quote publicKey)
    (GetContext (UpdateTxReturning (has_id publicKey) set_unlocked)).

Definition set_requeued (ctx : StmtCtx) (tx : Transaction) : Transaction :=
  (set_unlocked ctx tx) <| StellarTransactionHash := None |> <| XDRSent := None |>
    <| XDRReceived := None |>.

Definition PrepareTransactionForReprocessing (transactionID : string) : M Transaction :=
  no_rows_as ErrRecordNotFound ("pushing transaction back to queue " +:+ quote transactionID)
    (GetContext (UpdateTxReturning
      (fun tx => has_id transactionID tx && bool_decide (SyncedAt tx = None)
                 && slices_Contains allowedTxStatuses (Status tx)) set_requeued)).

Section insert.
Context {SDK : StellarSdk} {U : UuidGen}.

(** The row the database makes of the inserted columns. *)
Definition new_row (ctx : StmtCtx) (i : nat) (tx : Transaction) : Transaction :=
  mkTransaction (uuid_generate ctx i) (ExternalID tx) TransactionStatusPending None
    [mkHistory (NOW ctx) TransactionStatusPending None None None None]
    (TransactionType tx) (AssetCode tx) (AssetIssuer tx) (Amount tx) (Destination tx) (T_Memo tx)
    (MemoType tx) (PublicKey tx) (WasmHash tx) (SponsoredAccount tx) (SponsoredOperationXDR tx)
    (TenantID tx) None (NOW ctx) (NOW ctx) None None None None 0 None None None None None.

Definition BulkInsert (transactions : list Transaction) : M (list Transaction) :=
  match transactions with
  | [] => mret_ []
  | _ =>
    lift (res_forM (fun tx => wrap "validating transaction for insertion" (Transaction_validate tx))
            transactions) ;;!
    wrapM "inserting transactions" (db_stmt (fun ctx db =>
      let rows := imap (new_row ctx) transactions in
      check_rows rows (db <| submitter_transactions := submitter_transactions db ++ rows |>)))
  end.

(** [&transactions[0]]: [BulkInsert] of one transaction returns one row. *)
Definition Tx_Insert (tx : Transaction) : M Transaction :=
  let! transactions := wrapM "inserting single transaction" (BulkInsert [tx]) in
  match transactions with
  | row :: _ => mret_ row
  | [] => throw (EExternal "runtime error: index out of range [0] with length 0")
  end.
End insert.
End TransactionModel.

(** ** Lemmas *)

(** The row of an id. *)
Definition lookup_tx (txID : string) (db : TssDb) : option Transaction :=
  first_such (has_id txID) (submitter_transactions db).

Lemma lookup_tx_id txID db tx : lookup_tx txID db = Some tx -> ID tx = txID.
Proof. intros H. apply first_such_some in H as [_ H]. by apply String.eqb_eq in H. Qed.

Lemma check_rows_ok {A} (a : A) db b db' :
  check_rows a db = Ok (b, db') <-> b = a /\ db' = db /\ table_ok (submitter_transactions db).
Proof. unfold check_rows. destruct (decide _); naive_solver. Qed.

Lemma update_returning_none p f ctx db db' :
  UpdateTxReturning p f ctx db = Ok (None, db') ->
  first_such p (submitter_transactions db) = None.
Proof.
  unfold UpdateTxReturning, UpdateTx. destruct (check_rows _ _) as [[rows db1]|] eqn:Ec; [|done].
  apply check_rows_ok in Ec as (-> & -> & _). intros [= H _].
  rewrite <- hd_filter. by destruct (filter _ _).
Qed.

(** An update of the row of one id, under a condition [q]. *)
Lemma update_returning_ok txID (p q : Transaction -> bool) f ctx db o db' :
  (forall tx, p tx = has_id txID tx && q tx) ->
  (forall tx, ID (f ctx tx) = ID tx) ->
  UpdateTxReturning p f ctx db = Ok (o, db') ->
  let set tx := refresh_tx ctx (f ctx tx) in
  channel_accounts db' = channel_accounts db /\
  submitter_transactions db' =
    update_where (has_id txID) (fun tx => if q tx then set tx else tx) (submitter_transactions db) /\
  table_ok (submitter_transactions db') /\
  match lookup_tx txID db with
  | Some tx => lookup_tx txID db' = Some (if q tx then set tx else tx) /\
               o = (if q tx then Some (set tx) else None)
  | None => o = None /\ lookup_tx txID db' = None
  end.
Proof.
  intros Hp Hid H set. unfold UpdateTxReturning, UpdateTx in H.
  destruct (check_rows _ _) as [[rows db1]|] eqn:Ec; [|done].
  apply check_rows_ok in Ec as (-> & -> & Hok). injection H as <- <-.
  cbn [set_field channel_accounts submitter_transactions] in *.
  assert (Hset : forall tx, has_id txID (set tx) = has_id txID tx).
  { intros tx. unfold has_id, set. change (ID (refresh_tx ctx (f ctx tx))) with (ID (f ctx tx)).
    by rewrite Hid. }
  assert (Hnd : NoDup (map ID (submitter_transactions db))).
  { destruct Hok as [_ [Hnd _]]. rewrite update_where_proj in Hnd; [done|].
    intros x _. apply Hid. }
  assert (Hhd : forall l, hd_error (map set l) = set <$> hd_error l) by (by intros []).
  rewrite Hhd, hd_filter. split; [done|]. split.
  { unfold update_where. apply map_ext. intros tx. rewrite Hp.
    by destruct (has_id txID tx), (q tx). }
  split; [done|]. unfold lookup_tx. cbn [submitter_transactions].
  rewrite (first_such_ext p _ _ Hp).
  rewrite (first_such_update (has_id txID)) by done.
  pose proof (first_such_key ID txID q _ Hnd) as Hk. fold (has_id txID) in Hk.
  change (fun x => (ID x =? txID) && q x) with (fun x => has_id txID x && q x) in Hk.
  change (fun x : Transaction => ID x =? txID) with (has_id txID) in Hk. rewrite Hk.
  destruct (first_such (has_id txID) (submitter_transactions db)) as [tx|] eqn:F; cbn; [|done].
  apply first_such_some in F as [_ F]. rewrite Hp, F. cbn. by destruct (q tx).
Qed.

(** ** The calls that update one row

    [tx_call txID q set m]: outside a transaction, [m] either fails with the
    table as the others left it, or applies [set] to the row of [txID], which
    met [q]; its answer is then the new row, unless it is lost. *)

(** What a step changes at most: one row, whose key it keeps. *)
Definition own_tx_step (txID : string) (db db' : TssDb) : Prop :=
  channel_accounts db' = channel_accounts db /\
  exists g, (forall tx, ID (g tx) = ID tx) /\
    submitter_transactions db' = update_where (has_id txID) g (submitter_transactions db).

Lemma own_tx_step_other txID other db db' :
  own_tx_step txID db db' -> other <> txID -> lookup_tx other db' = lookup_tx other db.
Proof.
  intros [_ (g & Hg & Hr)] Hne. unfold lookup_tx. rewrite Hr.
  rewrite first_such_update by (intros tx; unfold has_id; by rewrite Hg).
  destruct (first_such _ _) as [tx|] eqn:F; cbn; [|done].
  apply first_such_some in F as [_ F]. unfold has_id in *. go_simp.
  destruct (String.eqb_spec (ID tx) txID); [by subst|done].
Qed.

Lemma update_where_unmatched {A} (k q : A -> bool) (f : A -> A) l :
  first_such (fun x => k x && q x) l = None ->
  update_where k (fun x => if q x then f x else x) l = l.
Proof.
  intros H. unfold update_where. rewrite <- (map_id l) at 2. apply map_ext_in.
  intros x Hin. apply first_such_none with (x := x) in H; [|by apply list_elem_of_In].
  destruct (k x); [|done]. cbn in H. by rewrite H.
Qed.

Section calls.
Context {D L Ev : Type} {E : Env D} {C : Conn D TssDb} {CL : ConnLaws D TssDb}.
Abbreviation M := (M D L Ev).
Implicit Types w : World D L Ev.

Definition tss w : TssDb := conn_get (w_db w).

Definition tx_call (txID : string) (q : Transaction -> Prop)
    (set : StmtCtx -> Transaction -> Transaction) (m : M Transaction) : Prop :=
  forall w (Q : res Transaction -> World D L Ev -> Prop),
    w_tx w = ∅ ->
    (forall e, Q (Err e) w) ->
    (forall e, Q (Err e) (settle w)) ->
    (forall ctx db' tx r,
       own_tx_step txID (tss (settle w)) db' -> table_ok (submitter_transactions db') ->
       lookup_tx txID (tss (settle w)) = Some tx -> q tx ->
       lookup_tx txID db' = Some (refresh_tx ctx (set ctx tx)) ->
       (r = Ok (refresh_tx ctx (set ctx tx)) \/ exists e, r = Err e) ->
       Q r (put_part db' (settle w))) ->
    wp m Q w.

Lemma tss_put db' w : tss (put_part db' w) = db'.
Proof. apply conn_get_set. Qed.

Lemma put_same w : put_part (tss w) w = w.
Proof. destruct w. unfold put_part, tss. cbn. by rewrite conn_set_get. Qed.

Lemma tx_call_update txID (p q : Transaction -> bool) f :
  (forall tx, p tx = has_id txID tx && q tx) ->
  (forall ctx tx, ID (f ctx tx) = ID tx) ->
  tx_call txID (fun tx => q tx = true) f (GetContext (UpdateTxReturning p f)).
Proof.
  intros Hp Hid w Q Htx _ Hfail Hok. unfold GetContext. rewrite wp_bind.
  apply wp_stmt_auto; [done|exact Hfail|]. intros ctx o db' r Hq Hr.
  fold (tss (settle w)) in Hq.
  destruct (update_returning_ok txID p q f _ _ _ _ Hp (Hid _) Hq) as (Hch & Hrows & Htok & Hl).
  destruct o as [tx'|].
  - destruct (lookup_tx txID (tss (settle w))) as [tx|] eqn:El; [|by destruct Hl].
    destruct Hl as [Hl' Ho]. destruct (q tx) eqn:Eq; [|done]. injection Ho as ->.
    assert (Hown : own_tx_step txID (tss (settle w)) db').
    { split; [done|]. exists (fun tx => if q tx then refresh_tx ctx (f ctx tx) else tx).
      split; [|done]. intros t. destruct (q t); [apply Hid|done]. }
    destruct Hr as [-> | [e ->]]; [rewrite wp_ret|];
      (eapply Hok; [done|done|done|done|done|eauto]).
  - assert (Hsame : db' = tss (settle w)).
    { assert (Hn : first_such (fun tx => has_id txID tx && q tx)
                     (submitter_transactions (tss (settle w))) = None).
      { rewrite <- (first_such_ext p _ _ Hp). by apply (update_returning_none p f ctx _ db'). }
      rewrite (update_where_unmatched _ _ _ _ Hn) in Hrows.
      destruct db', (tss (settle w)). cbn in *. by subst. }
    subst db'. rewrite put_same. destruct Hr as [-> | [e ->]]; [rewrite wp_throw|]; apply Hfail.
Qed.

(** Guards before the call and other error texts keep the shape of a call. *)
Lemma tx_call_map_err txID q f g m : tx_call txID q f m -> tx_call txID q f (map_errM g m).
Proof.
  intros Hm w Q Htx He1 He2 Hok. rewrite wp_map_err. apply Hm; [done|by intros e; apply He1|
    by intros e; apply He2|].
  intros ctx db' tx r Ho Ht Hl Hq Hl' Hr. eapply Hok; eauto. destruct Hr as [-> | [e ->]];
    cbn; eauto.
Qed.

Lemma tx_call_guard txID q q0 f (r0 : res unit) m :
  (r0 = Ok tt -> forall tx, q tx -> q0 tx) ->
  tx_call txID q f m -> forall m0 : M unit, (forall w, m0 w = (r0, w)) -> tx_call txID q0 f (m0 ;;! m).
Proof.
  intros H0 Hm m0 Hm0 w Q Htx He1 He2 Hok. rewrite wp_bind. unfold wp at 1. rewrite Hm0. cbn.
  destruct r0 as [[]|e]; [|apply He1]. apply Hm; [done|done|done|].
  intros ctx db' tx r Ho Ht Hl Hq. eapply Hok; eauto.
Qed.

Lemma tx_call_throw txID q f e : tx_call txID q f (throw e).
Proof. intros w Q Htx He1 He2 Hok. apply He1. Qed.

Lemma tx_call_weaken txID q q0 f m :
  (forall tx, q tx -> q0 tx) -> tx_call txID q f m -> tx_call txID q0 f m.
Proof. intros H Hm w Q Htx He1 He2 Hok. apply Hm; eauto. Qed.


(** The operations of the store as calls on one row. *)
Lemma tx_call_no_rows txID q f nf p m : tx_call txID q f m -> tx_call txID q f (no_rows_as nf p m).
Proof. apply tx_call_map_err. Qed.

Lemma tx_call_by_id txID f :
  (forall ctx tx, ID (f ctx tx) = ID tx) ->
  tx_call txID (fun _ => True) f (GetContext (UpdateTxReturning (has_id txID) f)).
Proof.
  intros Hf. apply (tx_call_weaken _ (fun tx => true = true)); [done|].
  apply (tx_call_update _ _ (fun _ => true)); [|done]. intros tx. by rewrite andb_true_r.
Qed.

Lemma Tx_Unlock_call txID : tx_call txID (fun _ => True) set_unlocked (Tx_Unlock txID).
Proof. by apply tx_call_no_rows, tx_call_by_id. Qed.

(** A row that is still in the queue. *)
Definition in_queue (tx : Transaction) : bool :=
  bool_decide (SyncedAt tx = None) && slices_Contains allowedTxStatuses (Status tx).

Lemma Prepare_call txID :
  tx_call txID (fun tx => in_queue tx = true) set_requeued (PrepareTransactionForReprocessing txID).
Proof.
  apply tx_call_no_rows. apply (tx_call_update _ _ in_queue); [|done].
  intros tx. unfold in_queue. by destruct (has_id txID tx).
Qed.

Lemma Tx_Lock_call txID current next :
  tx_call txID (fun tx => lockable current tx = true) (set_locked next) (Tx_Lock txID current next).
Proof. apply tx_call_no_rows. by apply (tx_call_update _ _ (lockable current)). Qed.

Lemma UpdateStatusToSuccess_call job :
  tx_call (ID job) (fun _ => step tss_transitions (Status job) TransactionStatusSuccess) set_success
    (UpdateStatusToSuccess job).
Proof.
  eapply (tx_call_guard _ (fun _ => True)); [|by apply tx_call_map_err, tx_call_by_id|done].
  intros Hs _ _. apply wrap_ok in Hs. by apply TransactionStatus_CanTransitionTo_spec.
Qed.

Lemma UpdateStatusToError_call job message :
  tx_call (ID job) (fun _ => step tss_transitions (Status job) TransactionStatusError)
    (set_error message) (UpdateStatusToError job message).
Proof.
  eapply (tx_call_guard _ (fun _ => True)); [|by apply tx_call_map_err, tx_call_by_id|done].
  intros Hs _ _. apply wrap_ok in Hs. by apply TransactionStatus_CanTransitionTo_spec.
Qed.

Context {SDK : StellarSdk}.

Lemma UpdateHash_call txID txHash xdr account :
  tx_call txID (fun _ => String.length txHash = 64) (set_sent txHash xdr account)
    (UpdateStellarTransactionHashXDRSentAndDistributionAccount txID txHash xdr account).
Proof.
  unfold UpdateStellarTransactionHashXDRSentAndDistributionAccount.
  destruct (Nat.eqb_spec (String.length txHash) 64) as [Hlen|Hlen]; cbn; [|apply tx_call_throw].
  destruct (IsValidEd25519PublicKey account); cbn; [|apply tx_call_throw].
  by eapply (tx_call_guard _ (fun _ => True)); [|apply tx_call_no_rows, tx_call_by_id|].
Qed.

Lemma UpdateReceived_call txID xdr :
  tx_call txID (fun _ => True) (set_received xdr) (UpdateStellarTransactionXDRReceived txID xdr).
Proof.
  by eapply (tx_call_guard _ (fun _ => True)); [|apply tx_call_no_rows, tx_call_by_id|].
Qed.
End calls.

(** A service without faults or other writers, for the witnesses. *)
Module Calm.
#[export] Instance tss_conn : Conn TssDb TssDb :=
  {| conn_id := 0; conn_get := fun d => d; conn_set := fun x _ => x |}.
#[export] Instance tss_conn_laws : ConnLaws TssDb TssDb.
Proof. by constructor. Qed.

#[export] Instance env : Env TssDb :=
  {| env_fault _ := NoFault; env_interfere _ d := d; env_now t := Z.of_nat t;
     env_locked _ _ := false |}.

(** Addresses are told by their first letter. *)
#[export] Instance sdk : StellarSdk :=
  {| IsValidEd25519PublicKey s := String.prefix "G" s; IsValidContractAddress s := String.prefix "C" s;
     Unmarshal_TransactionEnvelope _ := Ok tt; Unmarshal_TransactionResult _ := Ok tt;
     Unmarshal_InvokeHostFunctionOp _ := Ok tt |}.

(** A payment of 5 XLM. *)
Definition payment (id status : string) (hash : option string) (created : Z) (lock : option Z) :
    Transaction :=
  mkTransaction id ("p" +:+ id) status None [] TransactionTypePayment "XLM" "" 50000000
    "GDEST" "" "" "" "" "" "" "tenant" None created created None None None None 0 hash None None
    None lock.
Definition channel (k : string) (lock : option Z) : ChannelAccount :=
  mkChannelAccount k "secret" 0 0 None lock.
End Calm.
