(* ===== verification/Limiter.v ===== *)
(** The transaction processing limiter
    ([internal/transactionsubmission/engine/tx_processing_limiter.go]) and the
    ledger number tracker
    ([internal/transactionsubmission/engine/preconditions/ledger_number_tracker.go]).

    Both keep their state behind a mutex, so each call is one atomic step.
    Instants and durations are in nanoseconds. *)

From S2P Require Import Prelude GoStrings Errors.

Local Open Scope string_scope.
Local Open Scope list_scope.

Definition Second : Z := 1000000000.
Definition Minute : Z := 60 * Second.

(** ** The limiter *)

Definition DefaultBundlesSelectionLimit : Z := 8.
Definition IndeterminateResponsesToleranceLimit : Z := 10.
Definition MinutesInWindow : Z := 3.

Record Limiter := mkLimiter {
  CurrNumChannelAccounts : Z;
  IndeterminateResponsesCounter : Z;
  CounterLastUpdated : Z;
  limitValue : Z }.
#[export] Instance eta_Limiter : Eta Limiter := fun r =>
  mkLimiter (CurrNumChannelAccounts r) (IndeterminateResponsesCounter r) (CounterLastUpdated r)
    (limitValue r).

Definition NewTransactionProcessingLimiter (limit now : Z) : Limiter :=
  let limit := if (limit <? 0)%Z then DefaultBundlesSelectionLimit else limit in
  mkLimiter limit 0 now limit.

Definition shouldAdjustLimitForHorizonError (hErr : HorizonErrorWrapper) : bool :=
  IsRateLimit hErr || IsGatewayTimeout hErr || IsTxInsufficientFee hErr.

Definition shouldAdjustLimitForRPCError (rpcErr : RPCErrorWrapper) : bool := R_IsRetryable rpcErr.

Definition adjustLimitIfNeeded (now : Z) (tpl : Limiter) : Limiter :=
  let tpl := tpl <| IndeterminateResponsesCounter := (IndeterminateResponsesCounter tpl + 1)%Z |> in
  if (IndeterminateResponsesToleranceLimit <=? IndeterminateResponsesCounter tpl)%Z
  then tpl <| limitValue := DefaultBundlesSelectionLimit |> <| CounterLastUpdated := now |>
  else tpl.

Definition AdjustLimitIfNeeded (now : Z) (err : TransactionError) (tpl : Limiter) : Limiter :=
  match As_Horizon (te_err err) with
  | Some horizonErr =>
    if IsHorizonError horizonErr then
      if shouldAdjustLimitForHorizonError horizonErr then adjustLimitIfNeeded now tpl else tpl
    else tpl
  | None =>
    match As_RPC (te_err err) with
    | Some rpcErr =>
      if IsRPCError rpcErr then
        if shouldAdjustLimitForRPCError rpcErr then adjustLimitIfNeeded now tpl else tpl
      else tpl
    | None => tpl
    end
  end.

(** The value returned, and the limiter after the call. *)
Definition LimitValue (now : Z) (tpl : Limiter) : Z * Limiter :=
  let tpl :=
    if (CounterLastUpdated tpl + MinutesInWindow * Minute <? now)%Z
    then tpl <| IndeterminateResponsesCounter := 0%Z |> <| CounterLastUpdated := now |>
             <| limitValue := CurrNumChannelAccounts tpl |>
    else tpl in
  (limitValue tpl, tpl).

(** ** The ledger number tracker *)

Definition MaxLedgerAge : Z := 10 * Second.
Definition IncrementForMaxLedgerBounds : Z := 10.

Record LedgerNumberTracker := mkTracker {
  maxLedgerAge : Z;
  ledgerNumber : Z;
  lastUpdatedAt : Z }.
#[export] Instance eta_LedgerNumberTracker : Eta LedgerNumberTracker := fun r =>
  mkTracker (maxLedgerAge r) (ledgerNumber r) (lastUpdatedAt r).

(** [time.Time{}], the zero instant: the year 1, before any clock reading. *)
Definition time_zero : Z := -62135596800 * Second.

Definition NewLedgerNumberTracker : LedgerNumberTracker := mkTracker MaxLedgerAge 0 time_zero.

Section tracker.
Context {HC : HorizonClient}.

(** [root] is the answer of [hClient.Root()]: the sequence of the last ledger. *)
Definition getLedgerNumberFromHorizon (root : res Z) : res Z :=
  match root with
  | Ok sequence => Ok sequence
  | Err e =>
    match NewHorizonErrorWrapper (Some e) with
    | Some w => Err (horizon_err w)
    | None => Err e
    end
  end.

(** [now] is read twice, before and after the call; [root] is asked only when
    the cached number is too old. *)
Definition GetLedgerNumber (now : Z) (root : res Z) (now' : Z) (se : LedgerNumberTracker) :
    res Z * LedgerNumberTracker :=
  if (maxLedgerAge se <? now - lastUpdatedAt se)%Z then
    match wrap "getting ledger number from horizon" (getLedgerNumberFromHorizon root) with
    | Err e => (Err e, se)
    | Ok n => (Ok n, se <| ledgerNumber := n |> <| lastUpdatedAt := now' |>)
    end
  else (Ok (ledgerNumber se), se).

(** [GetLedgerBounds]: the [MaxLedger] of the bounds. *)
Definition GetLedgerBounds (now : Z) (root : res Z) (now' : Z) (se : LedgerNumberTracker) :
    res Z * LedgerNumberTracker :=
  let '(r, se') := GetLedgerNumber now root now' se in
  (let? n := wrap "getting ledger number" r in Ok (uint32 (n + IncrementForMaxLedgerBounds)), se').
End tracker.

(** ** Runs of the limiter *)

Inductive LimiterCall :=
  | CallAdjust (now : Z) (e : TransactionError)
  | CallRead (now : Z).

Definition limiter_step (tpl : Limiter) (c : LimiterCall) : Limiter :=
  match c with
  | CallAdjust now e => AdjustLimitIfNeeded now e tpl
  | CallRead now => snd (LimitValue now tpl)
  end.

(** The state between calls: the limit is the configured one while fewer than
    ten indeterminate responses were counted, and eight from the tenth on. *)
Definition limiter_inv (tpl : Limiter) : Prop :=
  (0 <= IndeterminateResponsesCounter tpl)%Z /\
  limitValue tpl =
    (if (IndeterminateResponsesToleranceLimit <=? IndeterminateResponsesCounter tpl)%Z
     then DefaultBundlesSelectionLimit else CurrNumChannelAccounts tpl).

Lemma adjust_cases now e tpl :
  AdjustLimitIfNeeded now e tpl = tpl \/
  AdjustLimitIfNeeded now e tpl = adjustLimitIfNeeded now tpl.
Proof. unfold AdjustLimitIfNeeded. repeat case_match; auto. Qed.

Lemma limiter_step_inv tpl c :
  limiter_inv tpl ->
  limiter_inv (limiter_step tpl c) /\
  CurrNumChannelAccounts (limiter_step tpl c) = CurrNumChannelAccounts tpl.
Proof.
  intros [Hc Hl]. destruct c as [now e|now]; cbn [limiter_step].
  - destruct (adjust_cases now e tpl) as [-> | ->]; [done|].
    destruct tpl as [curr n last l]. unfold limiter_inv, adjustLimitIfNeeded in *. cbn in *.
    destruct (Z.leb_spec IndeterminateResponsesToleranceLimit (n + 1)); cbn.
    + destruct (Z.leb_spec IndeterminateResponsesToleranceLimit (n + 1)); [|lia].
      repeat split. lia.
    + destruct (Z.leb_spec IndeterminateResponsesToleranceLimit (n + 1)); [lia|].
      destruct (Z.leb_spec IndeterminateResponsesToleranceLimit n); [lia|].
      repeat split; [lia|done].
  - destruct tpl as [curr n last l]. unfold limiter_inv, LimitValue in *. cbn in *.
    destruct (last + MinutesInWindow * Minute <? now)%Z; cbn; repeat split; done.
Qed.

Lemma limiter_run_inv calls tpl :
  limiter_inv tpl ->
  limiter_inv (foldl limiter_step tpl calls) /\
  CurrNumChannelAccounts (foldl limiter_step tpl calls) = CurrNumChannelAccounts tpl.
Proof.
  revert tpl. induction calls as [|c calls IH]; intros tpl Hi; cbn; [done|].
  destruct (limiter_step_inv tpl c Hi) as [Hi' Hc]. rewrite <- Hc. by apply IH.
Qed.

(** ** Properties *)

(** Whatever calls the workers make, the limit the manager reads is the
    configured number of channel accounts or the default of eight; it is the
    configured one when the window of three minutes has elapsed since the
    counter was last reset or last hit the tolerance, and also as long as fewer
    than ten indeterminate responses were counted. *)
Theorem limiter_bounds (limit t0 now : Z) (calls : list LimiterCall) (Hlimit : (0 <= limit)%Z) :
  let tpl := foldl limiter_step (NewTransactionProcessingLimiter limit t0) calls in
  let v := fst (LimitValue now tpl) in
  (v = limit \/ v = DefaultBundlesSelectionLimit) /\
  (v <> limit -> (IndeterminateResponsesToleranceLimit <= IndeterminateResponsesCounter tpl)%Z /\
                 (now <= CounterLastUpdated tpl + MinutesInWindow * Minute)%Z).
Proof.
  intros tpl v.
  destruct (limiter_run_inv calls (NewTransactionProcessingLimiter limit t0)) as [[Hc Hl] Hcur].
  { unfold NewTransactionProcessingLimiter. by destruct (limit <? 0)%Z. }
  fold tpl in Hc, Hl, Hcur.
  assert (HL : CurrNumChannelAccounts tpl = limit).
  { rewrite Hcur. unfold NewTransactionProcessingLimiter. destruct (Z.ltb_spec limit 0); [lia|done]. }
  subst v. unfold LimitValue.
  destruct (Z.ltb_spec (CounterLastUpdated tpl + MinutesInWindow * Minute) now); cbn.
  { rewrite HL. split; [by left|done]. }
  rewrite Hl, HL.
  destruct (Z.leb_spec IndeterminateResponsesToleranceLimit (IndeterminateResponsesCounter tpl)).
  - split; [by right|]. split; lia.
  - split; [by left|done].
Qed.

Definition sample_timeout : TransactionError :=
  TEHorizon (mkHorizonErrorWrapper 504 (mkProblem "timeout" "Timeout" 504 "" None)
    (EExternal "timeout") None).

Lemma limiter_bounds_witness :
  fst (LimitValue 5 (foldl limiter_step (NewTransactionProcessingLimiter 20 0)
        (repeat (CallAdjust 1 sample_timeout) 10))) = 8%Z.
Proof.
  destruct (proj1 (limiter_bounds 20 0 5 (repeat (CallAdjust 1 sample_timeout) 10) ltac:(lia)))
    as [H|H]; [vm_compute in H; discriminate H|exact H].
Defined.

(** The limit is only ever lowered when more than eight channel accounts are
    configured: with fewer, ten indeterminate responses raise it to eight. *)
Theorem limiter_raises_small_limit (limit t0 : Z) (H : (0 <= limit < 8)%Z) :
  let tpl := foldl limiter_step (NewTransactionProcessingLimiter limit t0)
               (repeat (CallAdjust t0 sample_timeout) 10) in
  fst (LimitValue t0 tpl) = 8%Z /\ (limit < fst (LimitValue t0 tpl))%Z.
Proof.
  intros tpl.
  assert (Htpl : tpl = mkLimiter limit 10 t0 8).
  { unfold tpl, NewTransactionProcessingLimiter. destruct (Z.ltb_spec limit 0); [lia|].
    reflexivity. }
  rewrite Htpl. unfold LimitValue. cbn [CounterLastUpdated].
  destruct (Z.ltb_spec (t0 + MinutesInWindow * Minute) t0); cbn; [|lia].
  unfold MinutesInWindow, Minute, Second in *. lia.
Qed.

Lemma limiter_raises_small_limit_witness :
  fst (LimitValue 0 (foldl limiter_step (NewTransactionProcessingLimiter 2 0)
    (repeat (CallAdjust 0 sample_timeout) 10))) = 8%Z.
Proof. exact (proj1 (limiter_raises_small_limit 2 0 ltac:(lia))). Defined.

(** The tracker never answers with a ledger number older than [maxLedgerAge]:
    an answer is the cached number, fetched at most that long ago, or the one
    Horizon just gave; an error of Horizon changes nothing and is reported
    through the wrapper; the first call always asks. *)
Theorem ledger_number_fresh {HC : HorizonClient} (now now' : Z) (root : res Z)
    (se : LedgerNumberTracker) (Hnow : (now <= now')%Z) :
  let '(r, se') := GetLedgerNumber now root now' se in
  match r with
  | Ok n => n = ledgerNumber se' /\
      ((se' = se /\ (now <= lastUpdatedAt se + maxLedgerAge se)%Z) \/
       (root = Ok n /\ lastUpdatedAt se' = now'))
  | Err e => se' = se /\ (lastUpdatedAt se + maxLedgerAge se < now)%Z /\
      exists e0 w, root = Err e0 /\ NewHorizonErrorWrapper (Some e0) = Some w /\ As_Horizon e = Some w
  end /\
  (se = NewLedgerNumberTracker -> (0 <= now)%Z -> is_ok r = is_ok root).
Proof.
  unfold GetLedgerNumber, getLedgerNumberFromHorizon.
  destruct (Z.ltb_spec (maxLedgerAge se) (now - lastUpdatedAt se)) as [Ha|Ha].
  - destruct root as [n|e0]; cbn [wrap res_map_err].
    + split; [|done]. split; [done|]. by right.
    + destruct (NewHorizonErrorWrapper (Some e0)) as [w|] eqn:Hw.
      * split; [|done]. split; [done|]. split; [lia|]. exists e0, w.
        split; [done|]. split; [done|]. apply As_Horizon_horizon_err.
      * exfalso. cbn in Hw. destruct (As_Horizon e0); [done|].
        by destruct (horizonclient_GetError e0) as [[]|].
  - split.
    + split; [done|]. left. split; [done|]. lia.
    + intros -> Hpos. unfold NewLedgerNumberTracker, MaxLedgerAge, time_zero, Second in Ha.
      cbn in Ha. lia.
Qed.

Lemma ledger_number_fresh_witness :
  fst (GetLedgerNumber (HC := sample_horizon_client) 5 (Ok 77%Z) 6 NewLedgerNumberTracker) = Ok 77%Z.
Proof.
  pose proof (ledger_number_fresh (HC := sample_horizon_client) 5 6 (Ok 77%Z)
    NewLedgerNumberTracker ltac:(lia)) as H.
  vm_compute in H. destruct H as [_ H]. vm_compute. reflexivity.
Defined.
