(* ===== verification/Handlers.v ===== *)
(** The transaction handlers of the submission service: how the inner
    transaction of a job is built, by transaction type
    ([payment_transaction_handler.go], [wallet_creation_transaction_handler.go],
    [sponsored_transaction_handler.go] and [transaction_handler_factory.go] of
    [internal/transactionsubmission]). *)

From S2P Require Import Prelude GoStrings Errors StateMachine Effects Schema TxStore.

Local Open Scope string_scope.
Local Open Scope list_scope.

(** ** Jobs: [store/channel_transaction_bundle.go] *)

Record TxJob := mkTxJob {
  job_ChannelAccount : ChannelAccount;
  job_Transaction : Transaction;
  job_LockedUntilLedgerNumber : Z }.
#[export] Instance eta_TxJob : Eta TxJob := fun r =>
  mkTxJob (job_ChannelAccount r) (job_Transaction r) (job_LockedUntilLedgerNumber r).

(** ** What is handed to [txnbuild] and to the RPC client *)

Inductive Asset :=
  | NativeAsset
  | CreditAsset (Code Issuer : string).

(** The addresses an authorization entry of a Soroban operation names. *)
Inductive ScAddress :=
  | ScAccount (AccountId : option string)
  | ScMuxed (Ed25519 : option string)
  | ScContract
  | ScClaimableBalance
  | ScLiquidityPool.

Inductive AuthCredentials :=
  | CredSourceAccount
  | CredAddress (address : option ScAddress).

(** The host functions the handlers build or read; [xdr_blob] stands for the
    XDR structures they pass on without looking inside. *)
Inductive HostFunction (blob : Type) :=
  | InvokeContract (args : option blob)
  | CreateContractV2 (deployer : string) (publicKey wasmHash : list Z)
  | OtherHostFunction (type : string).
Arguments InvokeContract {blob} _.
Arguments CreateContractV2 {blob} _ _ _.
Arguments OtherHostFunction {blob} _.

(** Third-party code of [txnbuild], [xdr] and the RPC server. *)
Class TxnBuild := {
  xdr_blob : Type;
  InnerTx : Type;
  FeeBumpTransaction : Type;
  ContractOp : Type;
  RestoreOp : Type;
  xdr_DecodeOperation : string -> res (HostFunction xdr_blob * list (AuthCredentials * xdr_blob));
  base64_DecodeString : string -> res string;
  xdr_AuthorizationEntry : string -> res (AuthCredentials * xdr_blob);
  xdr_SorobanTransactionData : string -> res xdr_blob;
  ed25519_of : string -> string;
  NewPaymentToContract : string -> string -> string -> Asset -> string -> res ContractOp;
  NewAssetBalanceRestoration : string -> string -> Asset -> string -> res RestoreOp;
  StringFixed7 : Z -> string }.

Section operations.
Context {TB : TxnBuild}.

Inductive Operation :=
  | OpPayment (SourceAccount amount Dest : string) (asset : Asset)
  | OpContractPayment (op : ContractOp)
  | OpRestoreFootprint (op : RestoreOp)
  | OpInvokeHostFunction (SourceAccount : string) (f : HostFunction xdr_blob)
      (Auth : list (AuthCredentials * xdr_blob)) (SorobanData : option xdr_blob).

(** [txnbuild.TransactionParams]; time bounds in seconds from now. *)
Record TransactionParams := mkParams {
  P_SourceAccount : string;
  P_Sequence : Z;
  P_Operations : list Operation;
  P_Memo : option Memo;
  P_BaseFee : Z;
  P_Timeout : Z;
  P_MaxLedger : option Z;
  P_IncrementSequenceNum : bool }.

(** What the handlers read of a simulation response. *)
Record SimulateTransactionResponse := mkSimulation {
  TransactionDataXDR : string;
  SimulationResults : list (option (list string)) }.
End operations.

(** [txnbuild.NewTransaction] and [Transaction.Base64], and the simulation of
    [stellar.RPCClient]: their answers may depend on when they are called. *)
Class TxnBuildOps {TB : TxnBuild} := {
  NewTransaction : TransactionParams -> res InnerTx;
  InnerTx_Base64 : InnerTx -> res string;
  SimulateTransaction : nat -> string -> result SimulationError SimulateTransactionResponse }.

(** ** The engine's configuration *)

Record EngineConfig := mkEngineConfig {
  MaxBaseFee : Z;
  NetworkPassphrase : string;
  has_rpcClient : bool }.

Definition XLMAssetCode := "XLM".
Definition XLMAssetCodeAlias := "NATIVE".

Definition is_native (code : string) : bool := (code =? XLMAssetCode) || (code =? XLMAssetCodeAlias).

Definition expectedPublicKeyLength : nat := 65.
Definition expectedWasmHashLength : nat := 32.
Definition SponsoredTransactionTimeoutSeconds : Z := 300.

Section handlers.
Context {D L Ev : Type} {E : Env D} {SDK : StellarSdk} {TB : TxnBuild} {TO : TxnBuildOps}
  (cfg : EngineConfig).
Abbreviation M := (M D L Ev).

(** ** Payments *)

Definition payment_asset (tx : Transaction) : res Asset :=
  if AssetCode tx =? "" then Err (ENew "asset code cannot be empty")
  else if is_native (AssetCode tx) then Ok NativeAsset
  else if negb (IsValidEd25519PublicKey (AssetIssuer tx))
  then Err (ENew ("invalid asset issuer: " +:+ AssetIssuer tx))
  else Ok (CreditAsset (AssetCode tx) (AssetIssuer tx)).

(** The operation and the memo, by kind of destination. *)
Definition payment_operation (tx : Transaction) (asset : Asset) (distributionAccount : string) :
    res (Operation * option Memo) :=
  let amount := StringFixed7 (Amount tx) in
  if IsValidEd25519PublicKey (Destination tx) then
    let? memo := wrap "building memo" (BuildMemo tx) in
    Ok (OpPayment distributionAccount amount (Destination tx) asset, memo)
  else if IsValidContractAddress (Destination tx) then
    if T_Memo tx <>? ""
    then Err (ENew ("memo is not supported for contract destination (" +:+ Destination tx +:+ ")"))
    else
      let? op := wrap "building payment to contract operation"
        (NewPaymentToContract (NetworkPassphrase cfg) (Destination tx) amount asset
           distributionAccount) in
      Ok (OpContractPayment op, None)
  else Err (ENew ("invalid destination account (" +:+ Destination tx +:+ ")")).

Definition payment_params (job : TxJob) (sequence : Z) (op : Operation) (memo : option Memo) :
    TransactionParams :=
  mkParams (CA_PublicKey (job_ChannelAccount job)) sequence [op] memo (MaxBaseFee cfg) 300
    (Some (uint32 (job_LockedUntilLedgerNumber job))) true.

Definition Payment_BuildInnerTransaction (job : TxJob) (channelAccountSequenceNum : Z)
    (distributionAccount : string) : M InnerTx :=
  let tx := job_Transaction job in
  lift (
    let? asset := payment_asset tx in
    let? (operation, txMemo) := payment_operation tx asset distributionAccount in
    wrap "building payment transaction"
      (NewTransaction (payment_params job channelAccountSequenceNum operation txMemo))).

(** ** Soroban transactions: build, simulate, complete, build again *)

Definition soroban_params (job : TxJob) (sequence timeout : Z) (op : Operation) : TransactionParams :=
  mkParams (CA_PublicKey (job_ChannelAccount job)) (sequence + 1) [op] None (MaxBaseFee cfg) timeout
    (Some (uint32 (job_LockedUntilLedgerNumber job))) false.

Definition simulate (params : TransactionParams) : M SimulateTransactionResponse :=
  let! initialTx := wrapM "building initial transaction" (lift (NewTransaction params)) in
  let! txEnvelope := wrapM "encoding transaction envelope" (lift (InnerTx_Base64 initialTx)) in
  ask_res (fun t =>
    match SimulateTransaction t txEnvelope with
    | Ok response => Ok response
    | Err s =>
      match NewRPCErrorWrapper (Some (ESimulation s)) with
      | Some w => Err (rpc_err w)
      | None => Err (ESimulation s)
      end
    end).

(** The new [Ext] of the operation: unchanged when the response has no data. *)
Definition applyTransactionData (response : SimulateTransactionResponse)
    (ext : option xdr_blob) : res (option xdr_blob) :=
  if TransactionDataXDR response =? "" then Ok ext
  else let? d := wrap "unmarshaling transaction data"
         (xdr_SorobanTransactionData (TransactionDataXDR response)) in Ok (Some d).

(** Only the first result's entries are read. *)
Fixpoint decode_entries (l : list string) : res (list (AuthCredentials * xdr_blob)) :=
  match l with
  | [] => Ok []
  | b64 :: l' =>
    let? a := wrap "unmarshalling authorization entry" (xdr_AuthorizationEntry b64) in
    let? rest := decode_entries l' in
    Ok (a :: rest)
  end.

Definition extractAuthEntries (response : SimulateTransactionResponse) :
    res (list (AuthCredentials * xdr_blob)) :=
  match SimulationResults response with
  | Some entries :: _ => decode_entries entries
  | _ => Ok []
  end.

Definition decode_bytes (name : string) (n : nat) (value : string) : res (list Z) :=
  match hex_DecodeString value with
  | None => Err (EWrap ("decoding " +:+ name) (EExternal "encoding/hex: invalid string"))
  | Some bytes =>
    if negb (Nat.eqb (length bytes) n)
    then Err (ENew (name +:+ " must be " +:+ itoa (Z.of_nat n) +:+ " bytes, got "
                    +:+ itoa (Z.of_nat (length bytes))))
    else Ok bytes
  end.

Definition WalletCreation_BuildInnerTransaction (job : TxJob) (channelAccountSequenceNum : Z)
    (distributionAccount : string) : M InnerTx :=
  let tx := job_Transaction job in
  lift (guard_err (PublicKey tx =? "") (ENew "public key cannot be empty")) ;;!
  lift (guard_err (WasmHash tx =? "") (ENew "wasm hash cannot be empty")) ;;!
  let! publicKeyBytes := lift (decode_bytes "public key" expectedPublicKeyLength (PublicKey tx)) in
  let! wasmHashBytes := lift (decode_bytes "wasm hash" expectedWasmHashLength (WasmHash tx)) in
  let hostFunction := CreateContractV2 distributionAccount publicKeyBytes wasmHashBytes in
  let params auth ext := soroban_params job channelAccountSequenceNum 300
    (OpInvokeHostFunction distributionAccount hostFunction auth ext) in
  let! response := simulate (params [] None) in
  let! auth := wrapM "extracting auth entries" (lift (extractAuthEntries response)) in
  let! ext := wrapM "applying transaction data" (lift (applyTransactionData response None)) in
  wrapM "building final transaction" (lift (NewTransaction (params auth ext))).

(** The check that the operation needs no signature of the accounts the
    service signs for: by account id, or by the key under a muxed account. *)
Definition check_auth (channelAccount distributionAccount : string) (c : AuthCredentials) : res unit :=
  let not_from who := ENew ("sponsored operation cannot require authorization from " +:+ who) in
  match c with
  | CredSourceAccount => Err (ENew "invalid auth credentials type")
  | CredAddress None => Err (ENew "auth credentials address cannot be nil")
  | CredAddress (Some (ScAccount None)) => Err (ENew "auth credentials account ID cannot be nil")
  | CredAddress (Some (ScAccount (Some a))) =>
    if a =? channelAccount then Err (not_from "channel account")
    else guard_err (a =? distributionAccount) (not_from "distribution account")
  | CredAddress (Some (ScMuxed None)) => Err (ENew "auth credentials muxed account cannot be nil")
  | CredAddress (Some (ScMuxed (Some key))) =>
    if key =? ed25519_of channelAccount then Err (not_from "channel account")
    else guard_err (key =? ed25519_of distributionAccount) (not_from "distribution account")
  | CredAddress (Some (ScContract | ScClaimableBalance | ScLiquidityPool)) => Ok tt
  end.

Definition check_host_function (f : HostFunction xdr_blob) : res unit :=
  match f with
  | InvokeContract (Some _) => Ok tt
  | InvokeContract None => Err (ENew "invoke contract operation is missing contract details")
  | CreateContractV2 _ _ _ =>
    Err (ENew "unsupported host function type: HostFunctionTypeHostFunctionTypeCreateContractV2")
  | OtherHostFunction type => Err (ENew ("unsupported host function type: " +:+ type))
  end.

Definition Sponsored_BuildInnerTransaction (job : TxJob) (channelAccountSequenceNum : Z)
    (distributionAccount : string) : M InnerTx :=
  let tx := job_Transaction job in
  lift (guard_err (SponsoredAccount tx =? "") (ENew "sponsored account cannot be empty")) ;;!
  lift (guard_err (SponsoredOperationXDR tx =? "")
    (ENew "sponsored operation XDR cannot be empty")) ;;!
  lift (guard_err (negb (IsValidContractAddress (SponsoredAccount tx)))
    (ENew "sponsored account is not a valid contract address")) ;;!
  let! xdrBytes := wrapM "sponsored operation XDR is not valid base64"
    (lift (base64_DecodeString (SponsoredOperationXDR tx))) in
  let! (hostFunction, auth) := wrapM "sponsored operation XDR is not valid"
    (lift (xdr_DecodeOperation xdrBytes)) in
  lift (check_host_function hostFunction) ;;!
  lift (res_forM (fun a => check_auth (CA_PublicKey (job_ChannelAccount job)) distributionAccount
                             (fst a)) auth) ;;!
  let params ext := soroban_params job channelAccountSequenceNum SponsoredTransactionTimeoutSeconds
    (OpInvokeHostFunction distributionAccount hostFunction auth ext) in
  let! response := simulate (params None) in
  let! ext := wrapM "applying transaction data" (lift (applyTransactionData response None)) in
  wrapM "building final transaction" (lift (NewTransaction (params ext))).
End handlers.

(** ** The handler of a transaction *)

Inductive TransactionHandler :=
  | PaymentTransactionHandler
  | WalletCreationTransactionHandler
  | SponsoredTransactionHandler.

Definition RequiresRebuildOnRetry (h : TransactionHandler) : bool :=
  match h with WalletCreationTransactionHandler => true | _ => false end.

Definition GetTransactionHandler (cfg : EngineConfig) (tx : Transaction) : res TransactionHandler :=
  if TransactionType tx =? TransactionTypePayment then Ok PaymentTransactionHandler
  else if TransactionType tx =? TransactionTypeWalletCreation then
    if has_rpcClient cfg then Ok WalletCreationTransactionHandler
    else Err (ENew "rpc client is required for wallet creation transaction handler")
  else if TransactionType tx =? TransactionTypeSponsored then
    if has_rpcClient cfg then Ok SponsoredTransactionHandler
    else Err (ENew "rpc client is required for sponsored transaction handler")
  else Err (ENew ("unsupported transaction type: " +:+ TransactionType tx)).

Definition BuildInnerTransaction {D L Ev} {E : Env D} {SDK : StellarSdk} {TB : TxnBuild}
    {TO : TxnBuildOps} (cfg : EngineConfig) (h : TransactionHandler) :
    TxJob -> Z -> string -> M D L Ev InnerTx :=
  match h with
  | PaymentTransactionHandler => Payment_BuildInnerTransaction cfg
  | WalletCreationTransactionHandler => WalletCreation_BuildInnerTransaction cfg
  | SponsoredTransactionHandler => Sponsored_BuildInnerTransaction cfg
  end.

(** ** What the built transactions are *)

(** Inversion of a run of a handler that answered. *)
Ltac built :=
  repeat match goal with
  | H : mbind_ _ _ _ = (Ok _, _) |- _ => apply mbind_ok in H as (? & ? & ? & H)
  | H : wrapM _ _ _ = (Ok _, _) |- _ => apply map_errM_ok in H
  | H : lift _ _ = (Ok _, _) |- _ => apply lift_ok in H as [? ->]
  | H : res_bind _ _ = Ok _ |- _ => apply res_bind_ok in H as (? & ? & H)
  | H : wrap _ _ = Ok _ |- _ => apply wrap_ok in H
  | H : guard_err _ _ = Ok _ |- _ => apply guard_err_ok in H
  | p : (_ * _)%type |- _ => destruct p
  end.

Section facts.
Context {D L Ev : Type} {E : Env D} {SDK : StellarSdk} {TB : TxnBuild} {TO : TxnBuildOps}
  (cfg : EngineConfig).
Implicit Types w : World D L Ev.

(** The sequence number of the transaction [NewTransaction] makes. *)
Definition used_sequence (p : TransactionParams) : Z :=
  if P_IncrementSequenceNum p then (P_Sequence p + 1)%Z else P_Sequence p.

(** Whatever the handler, the inner transaction has one operation, the channel
    account of the job as its source, the next sequence number of that account,
    and cannot be accepted after the ledger up to which the job is locked. *)
Theorem inner_transaction_expires_with_lock (h : TransactionHandler) (job : TxJob)
    (sequence : Z) (distributionAccount : string) w inner w'
    (Hrun : BuildInnerTransaction cfg h job sequence distributionAccount w = (Ok inner, w')) :
  exists op p, NewTransaction p = Ok inner /\ P_Operations p = [op] /\
    P_SourceAccount p = CA_PublicKey (job_ChannelAccount job) /\
    used_sequence p = (sequence + 1)%Z /\
    P_MaxLedger p = Some (uint32 (job_LockedUntilLedgerNumber job)) /\
    P_BaseFee p = MaxBaseFee cfg /\ (0 < P_Timeout p)%Z.
Proof.
  destruct h; cbv beta iota delta [BuildInnerTransaction] in Hrun.
  - unfold Payment_BuildInnerTransaction in Hrun. built.
    eexists _, _. split; [eassumption|done].
  - unfold WalletCreation_BuildInnerTransaction in Hrun. built. eexists _, _. split; [eassumption|done].
  - unfold Sponsored_BuildInnerTransaction in Hrun. built.
    eexists _, _. split; [eassumption|done].
Qed.

(** The asset a code and an issuer stand for. *)
Definition names_asset (tx : Transaction) (a : Asset) : Prop :=
  match a with
  | NativeAsset => is_native (AssetCode tx) = true
  | CreditAsset code issuer =>
    code = AssetCode tx /\ issuer = AssetIssuer tx /\ is_native code = false /\
    IsValidEd25519PublicKey issuer = true
  end.

(** A payment's inner transaction pays the recorded amount of the recorded
    asset to the recorded destination, from the distribution account, with the
    recorded memo; to a contract, by the operation of the SDK for the same
    parameters and without memo. *)
Theorem payment_pays_as_recorded (job : TxJob) (sequence : Z) (distributionAccount : string) w inner w'
    (Hrun : BuildInnerTransaction cfg PaymentTransactionHandler job sequence distributionAccount w
            = (Ok inner, w')) :
  let tx := job_Transaction job in
  w' = w /\ exists p asset, NewTransaction p = Ok inner /\ names_asset tx asset /\
    ((IsValidEd25519PublicKey (Destination tx) = true /\
      P_Operations p = [OpPayment distributionAccount (StringFixed7 (Amount tx)) (Destination tx) asset] /\
      NewMemo (MemoType tx) (T_Memo tx) = Ok (P_Memo p))
     \/
     (IsValidContractAddress (Destination tx) = true /\ T_Memo tx = "" /\ P_Memo p = None /\
      exists op, P_Operations p = [OpContractPayment op] /\
        NewPaymentToContract (NetworkPassphrase cfg) (Destination tx) (StringFixed7 (Amount tx)) asset
          distributionAccount = Ok op)).
Proof.
  cbv beta iota zeta delta [BuildInnerTransaction Payment_BuildInnerTransaction] in Hrun. built.
  intros tx. fold tx in H, H0, H1. split; [done|].
  eexists _, x. split; [eassumption|]. split.
  - unfold payment_asset in H0. destruct (AssetCode tx =? ""); [done|].
    destruct (is_native (AssetCode tx)) eqn:En; [by injection H0 as <-|].
    destruct (IsValidEd25519PublicKey (AssetIssuer tx)) eqn:Eiss; [by injection H0 as <-|done].
  - unfold payment_operation in H1.
    destruct (IsValidEd25519PublicKey (Destination tx)); [left|
      destruct (IsValidContractAddress (Destination tx)); [right|done]].
    + built. injection H1 as <- <-. split; [done|]. split; [done|].
      unfold BuildMemo in *. destruct (TransactionType tx <>? TransactionTypePayment); [done|].
      by built.
    + destruct (String.eqb_spec (T_Memo tx) ""); cbn in H1; [|done]. built.
      injection H1 as <- <-. by eauto 10.
Qed.

(** What a sponsored operation asks the service to authorize. *)
Definition signs_for (account : string) (c : AuthCredentials) : Prop :=
  match c with
  | CredSourceAccount => True
  | CredAddress (Some (ScAccount (Some a))) => a = account
  | CredAddress (Some (ScMuxed (Some key))) => key = ed25519_of account
  | _ => False
  end.

(** A sponsored transaction invokes a contract, as the stored operation says,
    and none of its authorization entries asks the channel account, the
    distribution account or the source account to authorize anything. *)
Theorem sponsored_never_authorizes (job : TxJob) (sequence : Z) (distributionAccount : string) w inner w'
    (Hrun : BuildInnerTransaction cfg SponsoredTransactionHandler job sequence distributionAccount w
            = (Ok inner, w')) :
  exists p xdr call auth ext, NewTransaction p = Ok inner /\
    base64_DecodeString (SponsoredOperationXDR (job_Transaction job)) = Ok xdr /\
    xdr_DecodeOperation xdr = Ok (InvokeContract (Some call), auth) /\
    P_Operations p = [OpInvokeHostFunction distributionAccount (InvokeContract (Some call)) auth ext] /\
    Forall (fun a => ~ signs_for (CA_PublicKey (job_ChannelAccount job)) (fst a) /\
                     ~ signs_for distributionAccount (fst a)) auth.
Proof.
  cbv beta iota zeta delta [BuildInnerTransaction Sponsored_BuildInnerTransaction] in Hrun. built.
  match goal with H : res_forM _ _ = _ |- _ => rename H into Ha end.
  match goal with H : check_host_function ?f = _ |- _ => destruct f as [[call|]| |]; try done end.
  eexists _, _, call, _, _.
  split; [eassumption|]. split; [eassumption|]. split; [eassumption|]. split; [done|].
  apply res_forM_ok in Ha. eapply Forall_impl; [exact Ha|]. intros [c x'] Hc. cbn in *.
  destruct c as [|[[[a|]|[k|]| | |]|]]; cbn in *; try done; try (split; by intros []).
  - destruct (String.eqb_spec a (CA_PublicKey (job_ChannelAccount job))); [done|].
    by destruct (String.eqb_spec a distributionAccount).
  - destruct (String.eqb_spec k (ed25519_of (CA_PublicKey (job_ChannelAccount job)))); [done|].
    by destruct (String.eqb_spec k (ed25519_of distributionAccount)).
Qed.
End facts.

(** A service with toy third-party code: the XDR of an operation names the
    account whose signature it asks for. *)
Module Toy.
Export Calm.

#[export] Instance txnbuild : TxnBuild :=
  {| xdr_blob := string; InnerTx := string; FeeBumpTransaction := string; ContractOp := string;
     RestoreOp := string;
     xdr_DecodeOperation x := Ok (InvokeContract (Some x), [(CredAddress (Some (ScAccount (Some x))), x)]);
     base64_DecodeString := Ok; xdr_AuthorizationEntry _ := Err (EExternal "xdr");
     xdr_SorobanTransactionData := Ok; ed25519_of a := a; NewPaymentToContract _ d _ _ _ := Ok d;
     NewAssetBalanceRestoration _ d _ _ := Ok d; StringFixed7 := itoa |}.
#[export] Instance ops : TxnBuildOps :=
  {| NewTransaction p := Ok (P_SourceAccount p +:+ "/" +:+ itoa (P_Sequence p));
     InnerTx_Base64 := Ok; SimulateTransaction _ _ := Ok (mkSimulation "" []) |}.
#[export] Instance env : Env unit :=
  {| env_fault _ := NoFault; env_interfere _ d := d; env_now t := Z.of_nat t;
     env_locked _ _ := false |}.
Definition cfg : EngineConfig := mkEngineConfig 100 "test" true.
Definition world : World unit unit unit := mkWorld tt 0 ∅ tt [].
Definition job (type destination operation : string) : TxJob :=
  mkTxJob (mkChannelAccount "GCHAN" "S" 0 0 (Some 0%Z) (Some 110%Z))
    (mkTransaction "t1" "p1" TransactionStatusProcessing None [] type "XLM" "" 50000000 destination
       "" "" "" "" "CWALLET" operation "tenant" None 0 0 None None None None 0 None None None
       (Some 0%Z) (Some 110%Z)) 110.
Definition inner (n : string) : @InnerTx txnbuild := "GCHAN/" +:+ n.
End Toy.

Section witnesses.
Import Toy.

Lemma inner_transaction_expires_with_lock_witness :
  exists op p, NewTransaction p = Ok (inner "7") /\ P_Operations p = [op] /\ P_MaxLedger p = Some 110%Z.
Proof.
  destruct (inner_transaction_expires_with_lock (E := env) (SDK := sdk) (TO := ops) Toy.cfg PaymentTransactionHandler
    (job TransactionTypePayment "GDEST" "") 7 "GDIST" world (inner "7") world ltac:(vm_compute; reflexivity))
    as (op & p & H1 & H2 & _ & _ & H3 & _).
  exists op, p. split; [exact H1|]. split; [exact H2|]. rewrite H3. reflexivity.
Defined.

Lemma payment_pays_as_recorded_witness :
  exists p, NewTransaction p = Ok (inner "7") /\
    P_Operations p = [OpPayment "GDIST" "50000000" "GDEST" NativeAsset].
Proof.
  destruct (payment_pays_as_recorded (E := env) (SDK := sdk) (TO := ops) Toy.cfg (job TransactionTypePayment "GDEST" "") 7 "GDIST" world
    (inner "7") world ltac:(vm_compute; reflexivity)) as (_ & p & a & H1 & Ha & [(_ & H2 & _)|(H2 & _)]); [|discriminate H2].
  exists p. split; [exact H1|]. destruct a; [exact H2|]. destruct Ha as (-> & _ & Ha & _).
  discriminate Ha.
Defined.

Lemma sponsored_never_authorizes_witness :
  exists p auth ext, NewTransaction p = Ok (inner "8") /\
    P_Operations p = [OpInvokeHostFunction "GDIST" (InvokeContract (Some "GWALLET")) auth ext] /\
    Forall (fun a => ~ signs_for "GDIST" (fst a)) auth.
Proof.
  destruct (sponsored_never_authorizes (E := env) (SDK := sdk) (TO := ops) Toy.cfg (job TransactionTypeSponsored "" "GWALLET") 7 "GDIST"
    world (inner "8") (settle (E := env) world) ltac:(vm_compute; reflexivity)) as (p & xdr & call & auth & ext & H1 & H2 & H3 & H4 & H5).
  injection H2 as <-. injection H3 as <- <-. eexists p, _, ext. split; [exact H1|].
  split; [exact H4|]. eapply Forall_impl; [exact H5|]. intros a [_ Ha]. exact Ha.
Defined.
End witnesses.
