(* ===== verification/TxQueue.v ===== *)
(** What the transaction store guarantees to the services on either side of the
    queue: the rows of [submitter_transactions] as the submission service
    updates them, the batches the synchronisation reads and marks, the locks. *)

From S2P Require Import Prelude GoStrings Errors StateMachine Effects Schema TxStore.

Local Open Scope string_scope.
Local Open Scope list_scope.

(** ** The updates of one row *)

(** The calls of [TransactionModel] that update a row. *)
Inductive StoreOp :=
  | OpSuccess (job : Transaction)
  | OpError (job : Transaction) (message : string)
  | OpSent (txID txHash xdrSent distributionAccount : string)
  | OpReceived (txID xdrReceived : string)
  | OpLock (txID : string) (currentLedger nextLedgerLock : Z)
  | OpUnlock (txID : string)
  | OpRequeue (txID : string).

Definition op_row (op : StoreOp) : string :=
  match op with
  | OpSuccess job | OpError job _ => ID job
  | OpSent txID _ _ _ | OpReceived txID _ | OpLock txID _ _ | OpUnlock txID | OpRequeue txID => txID
  end.

(** The columns the queue was given: what is paid, to whom, for which payment. *)
Definition request (tx : Transaction) :=
  (ID tx, ExternalID tx, TransactionType tx, (AssetCode tx, AssetIssuer tx, Amount tx, Destination tx),
   (T_Memo tx, MemoType tx), (PublicKey tx, WasmHash tx, SponsoredAccount tx, SponsoredOperationXDR tx),
   TenantID tx, CreatedAt tx).

Section store.
Context {D L Ev : Type} {E : Env D} {C : Conn D TssDb} {CL : ConnLaws D TssDb} {SDK : StellarSdk}.
Abbreviation M := (M D L Ev).
Implicit Types w : World D L Ev.

Definition run_op (op : StoreOp) : M Transaction :=
  match op with
  | OpSuccess job => UpdateStatusToSuccess job
  | OpError job message => UpdateStatusToError job message
  | OpSent txID h x a => UpdateStellarTransactionHashXDRSentAndDistributionAccount txID h x a
  | OpReceived txID x => UpdateStellarTransactionXDRReceived txID x
  | OpLock txID current next => Tx_Lock txID current next
  | OpUnlock txID => Tx_Unlock txID
  | OpRequeue txID => PrepareTransactionForReprocessing txID
  end.

(** The conditions under which an update reaches the row. *)
Definition op_applies (op : StoreOp) (tx : Transaction) : Prop :=
  match op with
  | OpSuccess job => step tss_transitions (Status job) TransactionStatusSuccess
  | OpError job _ => step tss_transitions (Status job) TransactionStatusError
  | OpSent _ h _ _ => String.length h = 64
  | OpReceived _ _ | OpUnlock _ => True
  | OpLock _ current _ => lockable current tx = true
  | OpRequeue _ => in_queue tx = true
  end.

Definition op_set (op : StoreOp) : StmtCtx -> Transaction -> Transaction :=
  match op with
  | OpSuccess _ => set_success
  | OpError _ message => set_error message
  | OpSent _ h x a => set_sent h x a
  | OpReceived _ x => set_received x
  | OpLock _ _ next => set_locked next
  | OpUnlock _ => set_unlocked
  | OpRequeue _ => set_requeued
  end.

Lemma run_op_call op : tx_call (op_row op) (op_applies op) (op_set op) (run_op op).
Proof.
  destruct op; cbn.
  - apply UpdateStatusToSuccess_call.
  - apply UpdateStatusToError_call.
  - apply UpdateHash_call.
  - apply UpdateReceived_call.
  - apply Tx_Lock_call.
  - apply Tx_Unlock_call.
  - apply Prepare_call.
Qed.

Lemma op_set_request op ctx tx : request (refresh_tx ctx (op_set op ctx tx)) = request tx.
Proof. by destruct op. Qed.

Lemma op_set_history op ctx tx :
  exists es, StatusHistory (refresh_tx ctx (op_set op ctx tx)) = StatusHistory tx ++ es /\ length es <= 1.
Proof.
  destruct op; (try by exists []; rewrite app_nil_r; cbn; auto); by eexists [_]; cbn; auto.
Qed.

(** The caller read the status of the row it moves. *)
Definition op_fresh (op : StoreOp) (tx : Transaction) : Prop :=
  match op with
  | OpSuccess job | OpError job _ => Status job = Status tx
  | _ => True
  end.

Lemma op_set_status op ctx tx :
  op_applies op tx -> op_fresh op tx ->
  Status (op_set op ctx tx) = Status tx \/
  step tss_transitions (Status tx) (Status (op_set op ctx tx)).
Proof.
  destruct op; cbn; intros Ha Hf; auto; try (right; congruence).
  apply andb_true_iff in Ha as [_ Ha]. apply slices_Contains_spec in Ha.
  apply elem_of_cons in Ha as [-> | Ha].
  - right. by apply TransactionStatus_CanTransitionTo_spec.
  - left. apply elem_of_cons in Ha as [-> | Ha]; [done|]. by apply elem_of_nil in Ha.
Qed.

(** Whatever happens to the call, the table is as the others left it, or one
    row, the one addressed, has moved: its request is untouched, its history has
    at most one entry more, and its status is the old one or the next one in
    the lifecycle of transactions. *)
Theorem store_updates_are_lawful (op : StoreOp) w (Htx : w_tx w = ∅) :
  let '(r, w') := run_op op w in
  (is_ok r = false /\ (tss w' = tss w \/ tss w' = tss (settle w))) \/
  exists tx tx', lookup_tx (op_row op) (tss (settle w)) = Some tx /\ op_applies op tx /\
    lookup_tx (op_row op) (tss w') = Some tx' /\
    (forall other, other <> op_row op ->
       lookup_tx other (tss w') = lookup_tx other (tss (settle w))) /\
    request tx' = request tx /\
    (exists es, StatusHistory tx' = StatusHistory tx ++ es /\ length es <= 1) /\
    (op_fresh op tx -> Status tx' = Status tx \/ step tss_transitions (Status tx) (Status tx')) /\
    (forall a, r = Ok a -> a = tx').
Proof.
  destruct (run_op op w) as [r w'] eqn:Erun.
  pose proof (run_op_call op w (fun r w' =>
    (is_ok r = false /\ (tss w' = tss w \/ tss w' = tss (settle w))) \/
    exists tx ctx, lookup_tx (op_row op) (tss (settle w)) = Some tx /\ op_applies op tx /\
      lookup_tx (op_row op) (tss w') = Some (refresh_tx ctx (op_set op ctx tx)) /\
      own_tx_step (op_row op) (tss (settle w)) (tss w') /\
      (forall a, r = Ok a -> a = refresh_tx ctx (op_set op ctx tx))) Htx) as H.
  unfold wp in H. rewrite Erun in H. cbn [fst snd] in H.
  destruct H as [H|(tx & ctx & H1 & H2 & H3 & H4 & H5)].
  - by left; auto.
  - by left; auto.
  - intros ctx db' tx r0 Ho _ Hl Hq Hl' Hr. right. exists tx, ctx. rewrite tss_put.
    split; [done|]. split; [done|]. split; [done|]. split; [done|].
    intros a ->. destruct Hr as [[= <-]|[e [=]]]. done.
  - by left.
  - right. exists tx, (refresh_tx ctx (op_set op ctx tx)).
    split; [done|]. split; [done|]. split; [done|].
    split; [intros o Ho; by apply (own_tx_step_other (op_row op))|].
    split; [apply op_set_request|]. split; [apply op_set_history|]. split; [|done].
    intros Hf. by apply (op_set_status op ctx).
Qed.

(** ** Marking transactions as synchronised *)

Definition finished (tx : Transaction) : Prop :=
  Status tx = TransactionStatusSuccess \/ Status tx = TransactionStatusError.

Lemma UpdateTx_ok p f ctx db rows db' :
  (forall tx, ID (f ctx tx) = ID tx) ->
  UpdateTx p f ctx db = Ok (rows, db') ->
  let set tx := refresh_tx ctx (f ctx tx) in
  rows = map set (filter (fun tx => p tx = true) (submitter_transactions db)) /\
  NoDup (map ID (submitter_transactions db)) /\
  forall id, lookup_tx id db' = (fun tx => if p tx then set tx else tx) <$> lookup_tx id db.
Proof.
  intros Hid H set. unfold UpdateTx in H. fold set in H. apply check_rows_ok in H as (-> & -> & Hok).
  cbn [set_field submitter_transactions] in Hok. split; [done|]. split.
  - destruct Hok as [_ [Hnd _]]. rewrite update_where_proj in Hnd; [done|]. intros x _. apply Hid.
  - intros id. unfold lookup_tx. cbn [set_field submitter_transactions].
    apply first_such_update. intros x. unfold has_id, set.
    change (ID (refresh_tx ctx (f ctx x))) with (ID (f ctx x)). by rewrite Hid.
Qed.

Lemma NoDup_exact (l k : list string) :
  NoDup l -> (forall x, x ∈ l -> x ∈ k) -> length l = length k -> l ≡ₚ k.
Proof.
  intros Hnd Hsub Hlen. apply submseteq_length_Permutation; [by apply NoDup_submseteq|lia].
Qed.

(** [marked ids db db']: exactly these rows were finished and are stamped. *)
Definition marked (txIDs : list string) (db db' : TssDb) : Prop :=
  NoDup txIDs /\
  (forall id, id ∈ txIDs -> exists tx now, lookup_tx id db = Some tx /\ finished tx /\
     lookup_tx id db' = Some (tx <| SyncedAt := Some now |> <| UpdatedAt := now |>)) /\
  (forall id, id ∉ txIDs -> lookup_tx id db' = lookup_tx id db).

Lemma UpdateSynced_ok txIDs w w' :
  UpdateSyncedTransactions txIDs w = (Ok tt, w') ->
  exists db', w' = put_part db' (settle w) /\ marked txIDs (tss (settle w)) db'.
Proof.
  intros Hrun. destruct txIDs as [|i ids]; [done|]. unfold UpdateSyncedTransactions in Hrun.
  set (txIDs := i :: ids) in *.
  apply mbind_ok in Hrun as (rows & w3 & H & Hg). apply map_errM_ok in H.
  apply lift_ok in Hg as [Hg ->].
  apply db_stmt_ok in H as (ctx & db' & Hq & ->). fold (tss (settle w)) in Hq.
  exists db'. split; [done|].
  set (p := fun tx => slices_Contains txIDs (ID tx) &&
    slices_Contains [TransactionStatusSuccess; TransactionStatusError] (Status tx)) in Hq.
  assert (Hp : forall tx, p tx = true <-> ID tx ∈ txIDs /\ finished tx).
  { intros tx. unfold p, finished. rewrite andb_true_iff, !slices_Contains_spec, !elem_of_cons, elem_of_nil.
    tauto. }
  clearbody p. apply UpdateTx_ok in Hq as (Hrows & Hnd & Hl); [|done].
  assert (Hlen : length rows = length txIDs).
  { apply guard_err_ok, negb_false_iff, Nat.eqb_eq in Hg. done. }
  set (hit := filter (fun tx => p tx = true) (submitter_transactions (tss (settle w)))) in *.
  assert (Hhit : NoDup (map ID hit)).
  { eapply NoDup_key_select; [|exact Hnd]. apply sublist_submseteq, sublist_filter. }
  assert (Hperm : map ID hit ≡ₚ txIDs).
  { apply NoDup_exact; [done| |by rewrite <- Hlen, Hrows, !length_map].
    intros id Hin. apply list_elem_of_fmap in Hin as (tx & -> & Hin).
    apply list_elem_of_filter in Hin as [Hin _]. by apply Hp. }
  split; [by rewrite <- Hperm|]. split.
  - intros id Hin. rewrite <- Hperm in Hin. apply list_elem_of_fmap in Hin as (tx & -> & Hin).
    apply list_elem_of_filter in Hin as [Hpt Hin].
    assert (Hltx : lookup_tx (ID tx) (tss (settle w)) = Some tx) by by apply (first_such_unique ID).
    exists tx, (NOW ctx). split; [done|]. split; [by apply Hp|].
    by rewrite Hl, Hltx; cbn; rewrite Hpt.
  - intros id Hin. rewrite Hl. destruct (lookup_tx id (tss (settle w))) as [tx|] eqn:El; cbn; [|done].
    destruct (p tx) eqn:Ep; [|done]. apply Hp in Ep as [Ep _].
    rewrite (lookup_tx_id _ _ _ El) in Ep. done.
Qed.

(** A committed [UpdateSyncedTransactions] marked exactly the listed
    transactions: each exists, is finished and is stamped, no other row has
    changed, and the list had no duplicates. *)
Theorem sync_marks_exactly (txIDs : list string) w w'
    (Hrun : RunInTransaction (UpdateSyncedTransactions txIDs) w = (Ok tt, w')) :
  NoDup txIDs /\
  (forall id, id ∈ txIDs -> exists tx now, lookup_tx id (tss (settle w)) = Some tx /\
     finished tx /\ lookup_tx id (tss w') = Some (tx <| SyncedAt := Some now |> <| UpdatedAt := now |>)) /\
  (forall id, id ∉ txIDs -> lookup_tx id (tss w') = lookup_tx id (tss (settle w))).
Proof.
  apply RunInTransaction_ok in Hrun as (w1 & w2 & Hrun & Htx & Hdb1 & Hdb2).
  replace (tss (settle w)) with (tss w1) by (unfold tss; by rewrite Hdb1).
  replace (tss w') with (tss w2) by (unfold tss; by rewrite Hdb2).
  apply UpdateSynced_ok in Hrun as (db' & -> & H). rewrite tss_put.
  destruct (in_tx_settle w1 Htx) as [Hdb _]. unfold tss in H. by rewrite Hdb in H.
Qed.

(** ** The batches of the synchronisation *)

Lemma unsynced_spec transactionType tx :
  unsynced transactionType tx = true <->
  finished tx /\ SyncedAt tx = None /\ TransactionType tx = transactionType.
Proof.
  unfold unsynced, finished. rewrite !andb_true_iff, bool_decide_eq_true, eqb_true, slices_Contains_spec,
    !elem_of_cons, elem_of_nil. unfold TransactionStatusSuccess, TransactionStatusError. tauto.
Qed.

(** A row the synchronisation can take, when [held] are the rows others hold. *)
Definition qualifies (db : TssDb) (tenantID transactionType : string) (held : string -> bool)
    (tx : Transaction) : Prop :=
  tx ∈ submitter_transactions db /\ finished tx /\ SyncedAt tx = None /\
  TransactionType tx = transactionType /\ TenantID tx = tenantID /\ held (ID tx) = false.

(** A batch holds finished transactions of the tenant that are not synchronised
    and that no other batch holds, each once, the oldest first; a row that
    qualifies and is left out completed no earlier than all of them, and was
    left out because the batch is full. *)
Theorem batch_is_oldest_unsynced (batchSize : Z) (tenantID transactionType : string) w rows w'
    (Hnd : NoDup (map ID (submitter_transactions (tss (settle w)))))
    (Hrun : GetTransactionBatchForUpdate batchSize tenantID transactionType w = (Ok rows, w')) :
  exists held : string -> bool,
    let takes := qualifies (tss (settle w)) tenantID transactionType held in
    (0 < batchSize)%Z /\ tenantID <> "" /\ tss w' = tss (settle w) /\
    length rows <= Z.to_nat batchSize /\ NoDup (map ID rows) /\ Forall takes rows /\
    Sorted (fun a b => key_le (CompletedAt a) (CompletedAt b) = true) rows /\
    forall tx, takes tx -> tx ∉ rows ->
      length rows = Z.to_nat batchSize /\
      Forall (fun row => key_le (CompletedAt row) (CompletedAt tx) = true) rows.
Proof.
  unfold GetTransactionBatchForUpdate in Hrun. destruct (Z.leb_spec batchSize 0); [done|].
  destruct (String.eqb_spec tenantID "") as [|Htenant]; [done|]. apply map_errM_ok in Hrun.
  apply db_stmt_ok in Hrun as (ctx & x' & [= Hrows <-] & ->). fold (tss (settle w)) in Hrows.
  exists (row_locked ctx). intros takes. set (n := Z.to_nat batchSize) in *.
  set (sel := fun tx => unsynced transactionType tx && (TenantID tx =? tenantID) &&
     negb (row_locked ctx (ID tx))).
  change (take n (sort_by CompletedAt (filter (fun tx => sel tx = true)
    (submitter_transactions (tss (settle w))))) = rows) in Hrows.
  assert (Hsel : forall tx, tx ∈ filter (fun tx => sel tx = true)
      (submitter_transactions (tss (settle w))) <-> takes tx).
  { intros tx. rewrite list_elem_of_filter. unfold sel, takes, qualifies.
    rewrite !andb_true_iff, negb_true_iff, eqb_true, unsynced_spec. tauto. }
  assert (Hsub : rows ⊆+ submitter_transactions (tss (settle w)))
    by (rewrite <- Hrows; apply select_submseteq).
  split; [done|]. split; [done|]. split; [by apply tss_put|].
  split; [rewrite <- Hrows, length_take; apply Nat.le_min_l|].
  split; [by eapply NoDup_key_select|]. split; [|split].
  - apply Forall_forall. intros tx Hin. apply Hsel. rewrite <- Hrows in Hin.
    rewrite <- (sort_by_perm CompletedAt). by apply (subseteq_take n).
  - rewrite <- Hrows. apply Sorted_take, sort_by_sorted.
  - intros tx Hq Hout. rewrite <- Hrows in Hout |- *.
    apply Hsel in Hq. by apply limit_takes_least.
Qed.

(** ** Locks *)

Definition refused {A} w (o : res A * World D L Ev) : Prop :=
  is_ok (fst o) = false /\ (tss (snd o) = tss w \/ tss (snd o) = tss (settle w)).

(** A row that is locked up to a ledger the network has not passed cannot be
    locked again, whoever asks and whatever happens to the call: the table stays
    as it is. What the code calls locked is what the filter of the queries
    selects, and what the filter for unlocked rows leaves out. *)
Theorem locks_exclude (txID : string) (current next : Z) (tx : Transaction) w (Htx : w_tx w = ∅)
    (Hrow : lookup_tx txID (tss (settle w)) = Some tx) (Hlocked : IsLocked tx current = true) :
  queryFilterForLockedState true current (LockedUntilLedgerNumber tx) = true /\
  queryFilterForLockedState false current (LockedUntilLedgerNumber tx) = false /\
  refused w (Tx_Lock txID current next w).
Proof.
  assert (Hf : queryFilterForLockedState false current (LockedUntilLedgerNumber tx) = false).
  { unfold IsLocked, null_ge in Hlocked. cbn. destruct (LockedUntilLedgerNumber tx); [|done]. lia. }
  split; [exact Hlocked|]. split; [exact Hf|].
  apply (Tx_Lock_call txID current next w (fun r w' => refused w (r, w')) Htx);
    [by split; auto|by split; auto|].
  intros ctx db' tx0 r0 _ _ Hl Hq. rewrite Hrow in Hl. injection Hl as <-.
  unfold lockable in Hq. by rewrite Hf in Hq.
Qed.

(** ** Insertion *)

Section insert.
Context {U : UuidGen}.

(** What an insertion that answered did. *)
Lemma BulkInsert_ok transactions w rows w' :
  BulkInsert transactions w = (Ok rows, w') -> transactions <> [] ->
  Forall (fun tx => Transaction_validate tx = Ok tt) transactions /\
  exists ctx db', rows = imap (new_row ctx) transactions /\ w' = put_part db' (settle w) /\
    db' = (tss (settle w)) <| submitter_transactions := submitter_transactions (tss (settle w)) ++ rows |> /\
    table_ok (submitter_transactions db').
Proof.
  intros Hrun Hne. destruct transactions as [|tx0 txs]; [done|]. unfold BulkInsert in Hrun.
  set (transactions := tx0 :: txs) in *.
  apply mbind_ok in Hrun as ([] & w1 & H & Hrun). apply lift_ok in H as [Hv ->].
  apply map_errM_ok in Hrun. apply db_stmt_ok in Hrun as (ctx & x' & Hq & ->).
  fold (tss (settle w)) in Hq. apply check_rows_ok in Hq as (-> & -> & Hok). split.
  - apply res_forM_ok in Hv. eapply Forall_impl; [exact Hv|]. cbn. intros tx H. by apply wrap_ok in H.
  - by exists ctx, ((tss (settle w)) <| submitter_transactions :=
      submitter_transactions (tss (settle w)) ++ imap (new_row ctx) transactions |>).
Qed.

(** What is queued is what was validated: [BulkInsert] appends one PENDING,
    unlocked row without hash for each transaction, with its request, and only
    if every transaction is valid; afterwards no two rows that are not in ERROR
    serve the same payment. *)
Theorem bulk_insert_queues (transactions : list Transaction) w rows w'
    (Hrun : BulkInsert transactions w = (Ok rows, w')) (Hne : transactions <> []) :
  Forall (fun tx => Transaction_validate tx = Ok tt) transactions /\
  submitter_transactions (tss w') = submitter_transactions (tss (settle w)) ++ rows /\
  Forall2 (fun tx row =>
    Status row = TransactionStatusPending /\ LockedUntilLedgerNumber row = None /\
    StellarTransactionHash row = None /\ SyncedAt row = None /\
    exists id at_, request row = request (tx <| ID := id |> <| CreatedAt := at_ |>))
    transactions rows /\
  NoDup (map ExternalID (filter (fun tx => live tx = true) (submitter_transactions (tss w')))).
Proof.
  apply BulkInsert_ok in Hrun as (Hv & ctx & db' & Hrows & -> & Hdb & Hok); [|done].
  rewrite tss_put. split; [done|]. split; [by rewrite Hdb|]. split; [|apply Hok].
  rewrite Hrows. apply Forall2_lookup. intros i.
  rewrite list_lookup_imap. destruct (transactions !! i); cbn; constructor.
  repeat split. by eexists _, _.
Qed.
End insert.
End store.

(** ** Witnesses: a queue with a pending, a locked and two finished payments *)

Module Queue.
Export Calm.

Definition done_at (c : Z) (tx : Transaction) : Transaction := tx <| CompletedAt := Some c |>.
Definition t_pending := payment "t1" TransactionStatusPending None 1 None.
Definition t_locked := payment "t2" TransactionStatusProcessing None 2 (Some 120%Z).
Definition t_paid := done_at 20 (payment "t3" TransactionStatusSuccess None 3 None).
Definition t_failed := done_at 10 (payment "t4" TransactionStatusError None 4 None).
Definition db : TssDb := mkTssDb [t_pending; t_locked; t_paid; t_failed] [].
Definition world : World TssDb unit unit := mkWorld db 7 ∅ tt [].
#[export] Instance uuids : UuidGen := {| uuid_generate ctx i := "u" +:+ itoa (Z.of_nat i) |}.
End Queue.

Section witnesses.
Import Queue.

Lemma store_updates_are_lawful_witness :
  exists tx', lookup_tx "t1" (tss (snd (run_op (SDK := sdk) (OpLock "t1" 100 110) world))) = Some tx' /\
    step tss_transitions TransactionStatusPending (Status tx').
Proof.
  pose proof (store_updates_are_lawful (SDK := sdk) (OpLock "t1" 100 110) world eq_refl) as H.
  destruct (run_op (SDK := sdk) (OpLock "t1" 100 110) world) as [r w'] eqn:Er.
  vm_compute in Er. destruct H as [[H _]|(tx & tx' & H1 & _ & H2 & _ & _ & _ & Hs & _)].
  - injection Er as <- _. discriminate H.
  - exists tx'. split; [exact H2|]. injection H1 as <-. destruct (Hs I) as [H|H]; [|exact H].
    exfalso. injection Er as _ <-. vm_compute in H2. injection H2 as <-. discriminate H.
Defined.

Lemma sync_marks_exactly_witness :
  exists tx, lookup_tx "t3" (tss (snd (RunInTransaction (UpdateSyncedTransactions ["t4"; "t3"]) world)))
             = Some tx /\ SyncedAt tx <> None.
Proof.
  destruct (sync_marks_exactly ["t4"; "t3"] world
    (snd (RunInTransaction (UpdateSyncedTransactions ["t4"; "t3"]) world))) as (_ & H & _);
    [vm_compute; reflexivity|].
  destruct (H "t3") as (tx & now & _ & _ & Hl); [by_computation|].
  eexists. split; [exact Hl|]. discriminate.
Defined.

Lemma batch_is_oldest_unsynced_witness :
  exists rows w', GetTransactionBatchForUpdate 1 "tenant" TransactionTypePayment world = (Ok rows, w') /\
    rows = [t_failed] /\ length rows = 1.
Proof.
  eexists _, _. split; [vm_compute; reflexivity|]. split; [reflexivity|].
  destruct (batch_is_oldest_unsynced 1 "tenant" TransactionTypePayment world [t_failed] (settle world))
    as (held & _ & _ & _ & H & _).
  - by_computation.
  - vm_compute. reflexivity.
  - reflexivity.
Defined.

Lemma locks_exclude_witness : is_ok (fst (Tx_Lock "t2" 100 110 world)) = false.
Proof.
  pose proof (locks_exclude "t2" 100 110 t_locked world eq_refl eq_refl eq_refl) as (_ & _ & H).
  exact (proj1 H).
Defined.

Lemma bulk_insert_queues_witness :
  exists rows w', BulkInsert (SDK := sdk) [payment "" "" None 0 None] world = (Ok rows, w') /\
    NoDup (map ExternalID (filter (fun tx => live tx = true) (submitter_transactions (tss w')))).
Proof.
  eexists _, _. split; [vm_compute; reflexivity|].
  refine (proj2 (proj2 (proj2 (bulk_insert_queues (SDK := sdk) [payment "" "" None 0 None] world _ _ _ _))));
    [vm_compute; reflexivity|discriminate].
Defined.
End witnesses.
