(* ===== verification/ChannelAccounts.v ===== *)
(** The channel accounts of the submission service and the bundles of a
    transaction and a channel account the manager loads:
    [store/channel_account.go] and [store/channel_transaction_bundle.go] of
    [internal/transactionsubmission]. *)

From S2P Require Import Prelude GoStrings Errors StateMachine Effects Schema TxStore Handlers.

Local Open Scope string_scope.
Local Open Scope list_scope.

Definition CA_IsLocked (ca : ChannelAccount) (currentLedgerNumber : Z) : bool :=
  null_ge (CA_LockedUntilLedgerNumber ca) currentLedgerNumber.

(** ** Statements on the table *)

Definition has_key (publicKey : string) (ca : ChannelAccount) : bool := CA_PublicKey ca =? publicKey.

Definition ca_row_ok (ca : ChannelAccount) : bool :=
  (String.length (CA_PublicKey ca) <=? 64)%nat && (String.length (CA_PrivateKey ca) <=? 256)%nat.

Definition channels_ok (rows : list ChannelAccount) : Prop :=
  Forall (fun ca => ca_row_ok ca = true) rows /\ NoDup (map CA_PublicKey rows).

#[export] Instance channels_ok_dec rows : Decision (channels_ok rows).
Proof. unfold channels_ok. apply _. Defined.

Definition check_channels {A} (a : A) (db : TssDb) : res (A * TssDb) :=
  if decide (channels_ok (channel_accounts db)) then Ok (a, db)
  else Err (EExternal "pq: a constraint of channel_accounts is violated").

Definition refresh_ca (ctx : StmtCtx) (ca : ChannelAccount) : ChannelAccount :=
  ca <| CA_UpdatedAt := NOW ctx |>.

(** [UPDATE channel_accounts SET f WHERE p RETURNING *], by the primary key. *)
Definition UpdateCaReturning (p : ChannelAccount -> bool)
    (f : StmtCtx -> ChannelAccount -> ChannelAccount) : Stmt TssDb (option ChannelAccount) :=
  fun ctx db =>
    let set ca := refresh_ca ctx (f ctx ca) in
    check_channels (set <$> first_such p (channel_accounts db))
      (db <| channel_accounts := update_where p set (channel_accounts db) |>).

(** ** Operations *)

Section ChannelAccountModel.
Context {D L Ev : Type} {E : Env D} {C : Conn D TssDb}.
Abbreviation M := (M D L Ev).

Definition BatchInsert_check (ca : string * string) : res unit :=
  if fst ca =? "" then Err (ENew "public key cannot be empty")
  else guard_err (snd ca =? "") (ENew "private key cannot be empty").

(** Rows of (public key, private key). *)
Definition CA_BatchInsert (channelAccounts : list (string * string)) : M unit :=
  match channelAccounts with
  | [] => mret_ tt
  | _ =>
    lift (res_forM BatchInsert_check channelAccounts) ;;!
    wrapM "inserting channel accounts" (db_stmt (fun ctx db =>
      let rows := map (fun '(pk, sk) => mkChannelAccount pk sk (NOW ctx) (NOW ctx) None None)
                    channelAccounts in
      check_channels tt (db <| channel_accounts := channel_accounts db ++ rows |>)))
  end.

Definition CA_Insert (publicKey privateKey : string) : M unit :=
  wrapM ("inserting channel account " +:+ quote publicKey) (CA_BatchInsert [(publicKey, privateKey)]).

Definition ca_unlocked (currentLedger : Z) (ca : ChannelAccount) : bool :=
  queryFilterForLockedState false currentLedger (CA_LockedUntilLedgerNumber ca).

Definition set_ca_locked (nextLedgerLock : Z) (ctx : StmtCtx) (ca : ChannelAccount) : ChannelAccount :=
  ca <| CA_LockedAt := Some (NOW ctx) |> <| CA_LockedUntilLedgerNumber := Some nextLedgerLock |>.

Definition CA_Lock (publicKey : string) (currentLedger nextLedgerLock : Z) : M ChannelAccount :=
  no_rows_as ErrRecordNotFound ("locking channel account " +:+ quote publicKey)
    (GetContext (UpdateCaReturning (fun ca => has_key publicKey ca && ca_unlocked currentLedger ca)
      (set_ca_locked nextLedgerLock))).

Definition set_ca_unlocked (ctx : StmtCtx) (ca : ChannelAccount) : ChannelAccount :=
  ca <| CA_LockedAt := None |> <| CA_LockedUntilLedgerNumber := None |>.

Definition CA_Unlock (publicKey : string) : M ChannelAccount :=
  no_rows_as ErrRecordNotFound ("unlocking channel account " +:+ quote publicKey)
    (GetContext (UpdateCaReturning (has_key publicKey) set_ca_unlocked)).

Definition CA_InsertAndLock (publicKey privateKey : string) (currentLedger nextLedgerLock : Z) :
    M unit :=
  RunInTransaction (X := TssDb) (
    wrapM ("cannot insert account " +:+ publicKey) (CA_Insert publicKey privateKey) ;;!
    wrapM ("cannot lock account " +:+ publicKey)
      (CA_Lock publicKey (int32 currentLedger) (int32 nextLedgerLock)) ;;!
    mret_ tt).

Definition CA_BatchInsertAndLock (channelAccounts : list (string * string))
    (currentLedger nextLedgerLock : Z) : M unit :=
  RunInTransaction (X := TssDb) (
    wrapM ("cannot insert batch insert " +:+ itoa (Z.of_nat (length channelAccounts)) +:+ " accounts")
      (CA_BatchInsert channelAccounts) ;;!
    mforM (fun account =>
      wrapM ("cannot lock account " +:+ fst account)
        (CA_Lock (fst account) (int32 currentLedger) (int32 nextLedgerLock)) ;;! mret_ tt)
      channelAccounts).

(** [currentLedgerNumber] 0 bypasses the filter on locks. *)
Definition lock_filter (currentLedgerNumber : Z) (ca : ChannelAccount) : bool :=
  if (0 <? currentLedgerNumber)%Z then ca_unlocked (int32 currentLedgerNumber) ca else true.

Definition invalid_ledger (currentLedgerNumber : Z) : err :=
  ENew ("invalid ledger number " +:+ itoa currentLedgerNumber).

Definition CA_Get (publicKey : string) (currentLedgerNumber : Z) : M ChannelAccount :=
  if (currentLedgerNumber <? 0)%Z then throw (invalid_ledger currentLedgerNumber)
  else
    no_rows_as (EWrap ("could not find channel account " +:+ quote publicKey) ErrRecordNotFound)
      ("querying for channel account " +:+ quote publicKey)
      (GetContext (fun ctx db =>
        Ok (first_such (fun ca => has_key publicKey ca && lock_filter currentLedgerNumber ca
                                  && negb (row_locked ctx (CA_PublicKey ca))) (channel_accounts db), db))).

Definition CA_GetAndLock (publicKey : string) (currentLedger nextLedgerLock : Z) : M ChannelAccount :=
  let! channelAccount := wrapM ("cannot retrieve account " +:+ publicKey)
    (CA_Get publicKey currentLedger) in
  wrapM ("cannot lock account " +:+ CA_PublicKey channelAccount)
    (CA_Lock (CA_PublicKey channelAccount) (int32 currentLedger) (int32 nextLedgerLock)).

Definition CA_Count : M Z :=
  wrapM "counting channel accounts"
    (db_stmt (fun _ db => Ok (Z.of_nat (length (channel_accounts db)), db))).

(** Limit 0 retrieves all of them. *)
Definition CA_GetAll (currentLedgerNumber limit : Z) : M (list ChannelAccount) :=
  if (currentLedgerNumber <? 0)%Z then throw (invalid_ledger currentLedgerNumber)
  else
    wrapM "loading channel accounts from database" (db_stmt (fun ctx db =>
      let rows := filter (fun ca => lock_filter currentLedgerNumber ca
                                    && negb (row_locked ctx (CA_PublicKey ca)) = true)
                    (channel_accounts db) in
      Ok (if (0 <? limit)%Z then take (Z.to_nat limit) rows else rows, db))).

Definition CA_GetAndLockAll (currentLedger nextLedgerLock limit : Z) : M (list ChannelAccount) :=
  let! channelAccounts := wrapM "cannot retrieve accounts for locking" (CA_GetAll currentLedger limit) in
  match channelAccounts with
  | [] => throw (ENew "no channel accounts available to retrieve")
  | _ =>
    mmapM (fun ca => wrapM ("cannot lock account " +:+ CA_PublicKey ca)
      (CA_Lock (CA_PublicKey ca) (int32 currentLedger) (int32 nextLedgerLock))) channelAccounts
  end.

Definition CA_Delete (publicKey : string) : M unit :=
  let! numRowsAffected := wrapM ("deleting channel account " +:+ quote publicKey)
    (db_stmt (fun _ db =>
      Ok (length (filter (fun ca => has_key publicKey ca = true) (channel_accounts db)),
          db <| channel_accounts := filter (fun ca => has_key publicKey ca = false)
                                      (channel_accounts db) |>))) in
  if Nat.eqb numRowsAffected 0
  then throw (EWrap ("could not find nor delete account " +:+ quote publicKey) ErrRecordNotFound)
  else lift (guard_err (negb (Nat.eqb numRowsAffected 1))
    (ENew ("unexpected number of rows affected: " +:+ itoa (Z.of_nat numRowsAffected)
           +:+ " when deleting channel account " +:+ publicKey))).

Definition CA_DeleteIfLockedUntil (publicKey : string) (lockedUntilLedgerNumber : Z) : M unit :=
  RunInTransaction (X := TssDb) (
    let! account := wrapM ("cannot retrieve account " +:+ publicKey) (CA_Get publicKey 0) in
    if match CA_LockedUntilLedgerNumber account with
       | None => true
       | Some v => negb (v =? int32 lockedUntilLedgerNumber)%Z
       end
    then throw (ENew "cannot delete account due to locked until ledger number mismatch or field being null")
    else
      wrapM ("cannot unlock account for deletion " +:+ CA_PublicKey account)
        (CA_Unlock (CA_PublicKey account)) ;;!
      wrapM ("cannot delete account " +:+ CA_PublicKey account) (CA_Delete (CA_PublicKey account))).

(** ** Bundles *)

Definition ErrInsuficientChannelAccounts : err :=
  ESentinel "there are no channel accounts available to process transactions".

(** STEP 1: the transactions that can be processed, the least recently updated first. *)
Definition select_transactions (currentLedger : Z) (limit : Z) : Stmt TssDb (list Transaction) :=
  fun ctx db =>
    Ok (take (Z.to_nat limit)
          (sort_by (fun tx => Some (UpdatedAt tx))
            (filter (fun tx => lockable currentLedger tx && negb (row_locked ctx (ID tx)) = true)
               (submitter_transactions db))), db).

(** STEP 2: as many unlocked channel accounts, the least recently updated first. *)
Definition select_channels (currentLedger : Z) (n : nat) : Stmt TssDb (list ChannelAccount) :=
  fun ctx db =>
    Ok (take n
          (sort_by (fun ca => Some (CA_UpdatedAt ca))
            (filter (fun ca => ca_unlocked currentLedger ca
                               && negb (row_locked ctx (CA_PublicKey ca)) = true)
               (channel_accounts db))), db).

(** STEP 3, one iteration. *)
Definition lock_pair (currentLedgerNumber lockToLedgerNumber : Z)
    (pair : ChannelAccount * Transaction) : M TxJob :=
  let '(chAcc, tx) := pair in
  let! lockedChAcc := wrapM ("locking channel account " +:+ quote (CA_PublicKey chAcc))
    (CA_Lock (CA_PublicKey chAcc) (int32 currentLedgerNumber) (int32 lockToLedgerNumber)) in
  let! lockedTx := wrapM ("locking transaction " +:+ quote (ID tx))
    (Tx_Lock (ID tx) (int32 currentLedgerNumber) (int32 lockToLedgerNumber)) in
  mret_ (mkTxJob lockedChAcc lockedTx lockToLedgerNumber).

Definition LoadAndLockTuples (currentLedgerNumber lockToLedgerNumber limit : Z) : M (list TxJob) :=
  if (limit <? 1)%Z then throw (ENew "limit must be greater than 0")
  else if (lockToLedgerNumber <=? currentLedgerNumber)%Z
  then throw (ENew "lockToLedgerNumber must be greater than currentLedgerNumber")
  else
    RunInTransactionWithResult (X := TssDb) (
      let! unlockedTransactions := wrapM "fetching unlocked transactions"
        (db_stmt (select_transactions (int32 currentLedgerNumber) limit)) in
      match unlockedTransactions with
      | [] => mret_ []
      | _ =>
        let! unlockedChannelAccounts := wrapM "calculating amount ov available channel accounts"
          (db_stmt (select_channels (int32 currentLedgerNumber) (length unlockedTransactions))) in
        match unlockedChannelAccounts with
        | [] => throw ErrInsuficientChannelAccounts
        | _ => mmapM (lock_pair currentLedgerNumber lockToLedgerNumber)
                 (zip unlockedChannelAccounts unlockedTransactions)
        end
      end).
End ChannelAccountModel.

(** ** Lemmas *)

Definition lookup_ca (publicKey : string) (db : TssDb) : option ChannelAccount :=
  first_such (has_key publicKey) (channel_accounts db).

Lemma lookup_ca_key k db ca : lookup_ca k db = Some ca -> CA_PublicKey ca = k.
Proof. intros H. apply first_such_some in H as [_ H]. by apply String.eqb_eq in H. Qed.

Lemma check_channels_ok {A} (a : A) db b db' :
  check_channels a db = Ok (b, db') <-> b = a /\ db' = db /\ channels_ok (channel_accounts db).
Proof. unfold check_channels. destruct (decide _); naive_solver. Qed.

Lemma update_ca_ok k (p q : ChannelAccount -> bool) f ctx db o db' :
  (forall ca, p ca = has_key k ca && q ca) ->
  (forall ca, CA_PublicKey (f ctx ca) = CA_PublicKey ca) ->
  UpdateCaReturning p f ctx db = Ok (o, db') ->
  let set ca := refresh_ca ctx (f ctx ca) in
  submitter_transactions db' = submitter_transactions db /\
  channel_accounts db' =
    update_where (has_key k) (fun ca => if q ca then set ca else ca) (channel_accounts db) /\
  channels_ok (channel_accounts db') /\
  match lookup_ca k db with
  | Some ca => lookup_ca k db' = Some (if q ca then set ca else ca) /\
               o = (if q ca then Some (set ca) else None)
  | None => o = None /\ lookup_ca k db' = None
  end.
Proof.
  intros Hp Hkey H set. unfold UpdateCaReturning in H.
  apply check_channels_ok in H as (-> & -> & Hok).
  cbn [set_field channel_accounts submitter_transactions] in *.
  assert (Hset : forall ca, has_key k (set ca) = has_key k ca).
  { intros ca. unfold has_key, set.
    change (CA_PublicKey (refresh_ca ctx (f ctx ca))) with (CA_PublicKey (f ctx ca)).
    by rewrite Hkey. }
  assert (Hnd : NoDup (map CA_PublicKey (channel_accounts db))).
  { destruct Hok as [_ Hnd]. rewrite update_where_proj in Hnd; [done|]. intros x _. apply Hkey. }
  split; [done|]. split.
  { unfold update_where. apply map_ext. intros ca. rewrite Hp. by destruct (has_key k ca), (q ca). }
  split; [done|]. unfold lookup_ca. cbn [channel_accounts].
  rewrite (first_such_ext p _ _ Hp), (first_such_update (has_key k)) by done.
  pose proof (first_such_key CA_PublicKey k q _ Hnd) as Hk.
  change (fun x => (CA_PublicKey x =? k) && q x) with (fun x => has_key k x && q x) in Hk.
  change (fun x : ChannelAccount => CA_PublicKey x =? k) with (has_key k) in Hk. rewrite Hk.
  destruct (first_such (has_key k) (channel_accounts db)) as [ca|] eqn:F; cbn; [|done].
  apply first_such_some in F as [_ F]. rewrite Hp, F. cbn. by destruct (q ca).
Qed.

Definition own_ca_step (k : string) (db db' : TssDb) : Prop :=
  submitter_transactions db' = submitter_transactions db /\
  exists g, (forall ca, CA_PublicKey (g ca) = CA_PublicKey ca) /\
    channel_accounts db' = update_where (has_key k) g (channel_accounts db).

Section calls.
Context {D L Ev : Type} {E : Env D} {C : Conn D TssDb} {CL : ConnLaws D TssDb}.
Abbreviation M := (M D L Ev).
Implicit Types w : World D L Ev.

(** The counterpart of [tx_call] for channel accounts. *)
Definition ca_call (k : string) (q : ChannelAccount -> Prop)
    (set : StmtCtx -> ChannelAccount -> ChannelAccount) (m : M ChannelAccount) : Prop :=
  forall w (Q : res ChannelAccount -> World D L Ev -> Prop),
    w_tx w = ∅ ->
    (forall e, Q (Err e) (settle w)) ->
    (forall ctx db' ca r,
       own_ca_step k (tss (settle w)) db' ->
       lookup_ca k (tss (settle w)) = Some ca -> q ca ->
       lookup_ca k db' = Some (refresh_ca ctx (set ctx ca)) ->
       (r = Ok (refresh_ca ctx (set ctx ca)) \/ exists e, r = Err e) ->
       Q r (put_part db' (settle w))) ->
    wp m Q w.

Lemma ca_call_update k (p q : ChannelAccount -> bool) f nf msg :
  (forall ca, p ca = has_key k ca && q ca) ->
  (forall ctx ca, CA_PublicKey (f ctx ca) = CA_PublicKey ca) ->
  ca_call k (fun ca => q ca = true) f (no_rows_as nf msg (GetContext (UpdateCaReturning p f))).
Proof.
  intros Hp Hkey w Q Htx Hfail Hok. unfold no_rows_as, GetContext. rewrite wp_map_err, wp_bind.
  apply wp_stmt_auto; [done|intros e; apply Hfail|]. intros ctx o db' r Hq Hr.
  fold (tss (settle w)) in Hq.
  destruct (update_ca_ok k p q f _ _ _ _ Hp (Hkey _) Hq) as (Htxs & Hrows & Hcok & Hl).
  destruct o as [ca'|].
  - destruct (lookup_ca k (tss (settle w))) as [ca|] eqn:El; [|by destruct Hl].
    destruct Hl as [Hl' Ho]. destruct (q ca) eqn:Eq; [|done]. injection Ho as ->.
    assert (Hown : own_ca_step k (tss (settle w)) db').
    { split; [done|]. exists (fun ca => if q ca then refresh_ca ctx (f ctx ca) else ca).
      split; [|done]. intros c. destruct (q c); [apply Hkey|done]. }
    destruct Hr as [-> | [e ->]]; [rewrite wp_ret|]; (eapply Hok; [done|done|done|done|cbn; eauto]).
  - assert (Hsame : db' = tss (settle w)).
    { assert (Hn : first_such (fun ca => has_key k ca && q ca)
                     (channel_accounts (tss (settle w))) = None).
      { rewrite <- (first_such_ext p _ _ Hp). unfold UpdateCaReturning in Hq.
        apply check_channels_ok in Hq as (Hn & _). by destruct (first_such p _). }
      rewrite (update_where_unmatched _ _ _ _ Hn) in Hrows.
      destruct db', (tss (settle w)). cbn in *. by subst. }
    subst db'. rewrite put_same. destruct Hr as [-> | [e ->]]; [rewrite wp_throw|]; apply Hfail.
Qed.

Lemma CA_Unlock_call k : ca_call k (fun _ => true = true) set_ca_unlocked (CA_Unlock k).
Proof. apply (ca_call_update k _ (fun _ => true)); [|done]. intros ca. by rewrite andb_true_r. Qed.

Lemma CA_Lock_call k current next :
  ca_call k (fun ca => ca_unlocked current ca = true) (set_ca_locked next) (CA_Lock k current next).
Proof. by apply (ca_call_update k _ (ca_unlocked current)). Qed.

Lemma own_tx_step_ca txID db db' k :
  own_tx_step txID db db' -> lookup_ca k db' = lookup_ca k db.
Proof. intros [H _]. unfold lookup_ca. by rewrite H. Qed.

Lemma own_ca_step_tx k db db' txID :
  own_ca_step k db db' -> lookup_tx txID db' = lookup_tx txID db.
Proof. intros [H _]. unfold lookup_tx. by rewrite H. Qed.
End calls.

(** ** Locking inside a transaction *)

Section bundles.
Context {D L Ev : Type} {E : Env D} {C : Conn D TssDb} {CL : ConnLaws D TssDb}.
Abbreviation M := (M D L Ev).
Implicit Types w : World D L Ev.

(** What locking one transaction row did. *)
Lemma Tx_Lock_in_tx txID current next w tx' w' :
  in_tx (X := TssDb) w -> Tx_Lock txID current next w = (Ok tx', w') ->
  in_tx (X := TssDb) w' /\ exists ctx tx,
    lookup_tx txID (tss w) = Some tx /\ lockable current tx = true /\
    tx' = refresh_tx ctx (set_locked next ctx tx) /\
    own_tx_step txID (tss w) (tss w') /\ lookup_tx txID (tss w') = Some tx' /\
    NoDup (map ID (submitter_transactions (tss w))).
Proof.
  intros Htx H. unfold Tx_Lock, no_rows_as in H. apply map_errM_ok in H.
  apply GetContext_in_tx in H as (ctx & x' & Hq & -> & Htx'); [|done]. split; [done|].
  fold (tss w) in Hq.
  destruct (update_returning_ok txID _ (lockable current) (set_locked next) ctx (tss w) _ x'
    (fun _ => eq_refl) (fun _ => eq_refl) Hq) as (Hch & Hrows & Htok & Hl).
  destruct (lookup_tx txID (tss w)) as [tx|] eqn:El; [|by destruct Hl].
  destruct Hl as [Hl' Ho]. destruct (lockable current tx) eqn:Eq; [|done]. injection Ho as ->.
  exists ctx, tx. rewrite tss_put. split; [done|]. split; [done|]. split; [done|].
  split; [|split; [done|]].
  - split; [done|].
    exists (fun tx => if lockable current tx then refresh_tx ctx (set_locked next ctx tx) else tx).
    split; [|exact Hrows]. intros t. by destruct (lockable current t).
  - destruct Htok as [_ [Hnd _]]. rewrite Hrows, update_where_proj in Hnd; [done|].
    intros t _. by destruct (lockable current t).
Qed.

Lemma CA_Lock_in_tx k current next w ca' w' :
  in_tx (X := TssDb) w -> CA_Lock k current next w = (Ok ca', w') ->
  in_tx (X := TssDb) w' /\ exists ctx ca,
    lookup_ca k (tss w) = Some ca /\ ca_unlocked current ca = true /\
    ca' = refresh_ca ctx (set_ca_locked next ctx ca) /\
    own_ca_step k (tss w) (tss w') /\ lookup_ca k (tss w') = Some ca' /\
    NoDup (map CA_PublicKey (channel_accounts (tss w))).
Proof.
  intros Htx H. unfold CA_Lock, no_rows_as in H. apply map_errM_ok in H.
  apply GetContext_in_tx in H as (ctx & x' & Hq & -> & Htx'); [|done]. split; [done|].
  fold (tss w) in Hq.
  destruct (update_ca_ok k _ (ca_unlocked current) (set_ca_locked next) ctx (tss w) _ x'
    (fun _ => eq_refl) (fun _ => eq_refl) Hq) as (Hch & Hrows & Htok & Hl).
  destruct (lookup_ca k (tss w)) as [ca|] eqn:El; [|by destruct Hl].
  destruct Hl as [Hl' Ho]. destruct (ca_unlocked current ca) eqn:Eq; [|done]. injection Ho as ->.
  exists ctx, ca. rewrite tss_put. split; [done|]. split; [done|]. split; [done|].
  split; [|split; [done|]].
  - split; [done|].
    exists (fun ca => if ca_unlocked current ca then refresh_ca ctx (set_ca_locked next ctx ca) else ca).
    split; [|exact Hrows]. intros t. by destruct (ca_unlocked current t).
  - destruct Htok as [_ Hnd]. rewrite Hrows, update_where_proj in Hnd; [done|].
    intros t _. by destruct (ca_unlocked current t).
Qed.

Lemma own_ca_step_other k other db db' :
  own_ca_step k db db' -> other <> k -> lookup_ca other db' = lookup_ca other db.
Proof.
  intros [_ (g & Hg & Hr)] Hne. unfold lookup_ca. rewrite Hr.
  rewrite first_such_update by (intros ca; unfold has_key; by rewrite Hg).
  destruct (first_such _ _) as [ca|] eqn:F; cbn; [|done].
  apply first_such_some in F as [_ F]. unfold has_key in *. go_simp.
  destruct (String.eqb_spec (CA_PublicKey ca) k); [by subst|done].
Qed.

(** The rows a locked bundle holds, as they are in the database. *)
Definition bundle_locked (lockTo : Z) (db : TssDb) (job : TxJob) : Prop :=
  lookup_tx (ID (job_Transaction job)) db = Some (job_Transaction job) /\
  lookup_ca (CA_PublicKey (job_ChannelAccount job)) db = Some (job_ChannelAccount job) /\
  LockedUntilLedgerNumber (job_Transaction job) = Some (int32 lockTo) /\
  CA_LockedUntilLedgerNumber (job_ChannelAccount job) = Some (int32 lockTo) /\
  Status (job_Transaction job) = TransactionStatusProcessing /\
  job_LockedUntilLedgerNumber job = lockTo.

(** The rows it took could be locked. *)
Definition bundle_was_free (current : Z) (db : TssDb) (job : TxJob) : Prop :=
  (exists tx, lookup_tx (ID (job_Transaction job)) db = Some tx /\ lockable (int32 current) tx = true) /\
  (exists ca, lookup_ca (CA_PublicKey (job_ChannelAccount job)) db = Some ca /\
              ca_unlocked (int32 current) ca = true).

Definition pair_ids (pairs : list (ChannelAccount * Transaction)) : list string :=
  map (fun p => ID (snd p)) pairs.
Definition pair_keys (pairs : list (ChannelAccount * Transaction)) : list string :=
  map (fun p => CA_PublicKey (fst p)) pairs.

Lemma lock_pair_in_tx current lockTo ca0 tx0 w job w' :
  in_tx (X := TssDb) w -> lock_pair current lockTo (ca0, tx0) w = (Ok job, w') ->
  in_tx (X := TssDb) w' /\
  ID (job_Transaction job) = ID tx0 /\ CA_PublicKey (job_ChannelAccount job) = CA_PublicKey ca0 /\
  bundle_locked lockTo (tss w') job /\ bundle_was_free current (tss w) job /\
  (forall j, j <> ID tx0 -> lookup_tx j (tss w') = lookup_tx j (tss w)) /\
  (forall k, k <> CA_PublicKey ca0 -> lookup_ca k (tss w') = lookup_ca k (tss w)) /\
  NoDup (map ID (submitter_transactions (tss w))) /\
  NoDup (map CA_PublicKey (channel_accounts (tss w))).
Proof.
  intros Htx H. unfold lock_pair in H. apply mbind_ok in H as (lca & w1 & Hca & H).
  apply map_errM_ok in Hca.
  apply CA_Lock_in_tx in Hca as (Htx1 & ctx1 & ca & Hl1 & Hu1 & -> & Hs1 & Hl1' & Hnd1); [|done].
  apply mbind_ok in H as (ltx & w2 & Ht & H). apply map_errM_ok in Ht.
  apply Tx_Lock_in_tx in Ht as (Htx2 & ctx2 & tx & Hl2 & Hu2 & -> & Hs2 & Hl2' & Hnd2); [|done].
  injection H as <- <-. pose proof (lookup_ca_key _ _ _ Hl1) as Hk. pose proof (lookup_tx_id _ _ _ Hl2) as Hi.
  rewrite (own_ca_step_tx _ _ _ _ Hs1) in Hl2. cbn. split; [done|]. split; [done|]. split; [done|].
  refine (conj _ (conj _ (conj _ (conj _ (conj _ _))))).
  - split; [by cbn; rewrite Hi|]. split; [|done]. cbn. rewrite Hk.
    by rewrite (own_tx_step_ca _ _ _ _ Hs2).
  - split; [exists tx; cbn; by rewrite Hi|exists ca; cbn; by rewrite Hk].
  - intros j Hj. rewrite (own_tx_step_other _ _ _ _ Hs2 Hj). apply (own_ca_step_tx _ _ _ _ Hs1).
  - intros k Hk'. rewrite (own_tx_step_ca _ _ _ _ Hs2). by apply (own_ca_step_other _ _ _ _ Hs1).
  - destruct Hs1 as [<- _]. done.
  - done.
Qed.

Lemma lock_pairs_in_tx current lockTo pairs w jobs w' :
  in_tx (X := TssDb) w -> NoDup (pair_ids pairs) -> NoDup (pair_keys pairs) ->
  mmapM (lock_pair current lockTo) pairs w = (Ok jobs, w') ->
  map (fun j => ID (job_Transaction j)) jobs = pair_ids pairs /\
  map (fun j => CA_PublicKey (job_ChannelAccount j)) jobs = pair_keys pairs /\
  Forall (bundle_locked lockTo (tss w')) jobs /\ Forall (bundle_was_free current (tss w)) jobs /\
  (forall j, j ∉ pair_ids pairs -> lookup_tx j (tss w') = lookup_tx j (tss w)) /\
  (forall k, k ∉ pair_keys pairs -> lookup_ca k (tss w') = lookup_ca k (tss w)).
Proof.
  revert w jobs. induction pairs as [|[ca0 tx0] pairs IH]; intros w jobs Htx Hni Hnk H; cbn in H.
  { injection H as <- <-. by repeat split. }
  apply NoDup_cons in Hni as [Hi Hni], Hnk as [Hk Hnk].
  change (ID tx0 ∉ pair_ids pairs) in Hi. change (CA_PublicKey ca0 ∉ pair_keys pairs) in Hk.
  apply mbind_ok in H as (job & w1 & H1 & H). apply mbind_ok in H as (js & w2 & H2 & H).
  injection H as <- <-.
  apply lock_pair_in_tx in H1 as (Htx1 & Hid & Hkey & Hl & Hf & Ho1 & Ho2 & _); [|done].
  apply IH in H2 as (Hids & Hkeys & Hls & Hfs & Hos1 & Hos2); [|done..].
  cbn. rewrite Hid, Hkey, Hids, Hkeys. split; [done|]. split; [done|].
  split; [|split; [|split]].
  - constructor; [|done]. destruct Hl as (L1 & L2 & L3). split; [|split; [|done]].
    + rewrite Hos1; [done|]. by rewrite Hid.
    + rewrite Hos2; [done|]. by rewrite Hkey.
  - constructor; [done|]. rewrite Forall_forall in Hfs |- *. intros j Hj.
    destruct (Hfs j Hj) as [(tx & Ht & ?) (ca & Hc & ?)]. split.
    + exists tx. split; [|done]. rewrite <- Ht. symmetry. apply Ho1. intros Heq. apply Hi.
      rewrite <- Heq, <- Hids. by apply (list_elem_of_fmap_2 (fun j => ID (job_Transaction j))).
    + exists ca. split; [|done]. rewrite <- Hc. symmetry. apply Ho2. intros Heq. apply Hk.
      rewrite <- Heq, <- Hkeys.
      by apply (list_elem_of_fmap_2 (fun j => CA_PublicKey (job_ChannelAccount j))).
  - intros j Hj. apply not_elem_of_cons in Hj as [? ?]. by rewrite Hos1, Ho1.
  - intros k Hk'. apply not_elem_of_cons in Hk' as [? ?]. by rewrite Hos2, Ho2.
Qed.

(** The statements of the transaction, up to the locks. *)
Lemma select_in_tx {A} (q : Stmt TssDb A) p w a w' :
  (forall ctx db a db', q ctx db = Ok (a, db') -> db' = db) ->
  in_tx (X := TssDb) w -> wrapM p (db_stmt q) w = (Ok a, w') ->
  in_tx (X := TssDb) w' /\ tss w' = tss w /\ exists ctx, q ctx (tss w) = Ok (a, tss w).
Proof.
  intros Hq Htx H. apply map_errM_ok in H.
  apply db_stmt_in_tx in H as (ctx & x' & Hx & -> & Htx'); [|done]. fold (tss w) in Hx.
  pose proof (Hq _ _ _ _ Hx) as ->. rewrite tss_put. split; [done|]. split; [done|]. by exists ctx.
Qed.

Lemma pair_ids_zip cas txs :
  length cas <= length txs ->
  pair_ids (zip cas txs) = map ID (take (length cas) txs) /\
  pair_keys (zip cas txs) = map CA_PublicKey cas.
Proof.
  revert txs. induction cas as [|ca cas IH]; intros [|tx txs] Hl; cbn in *; try done; try lia.
  destruct (IH txs) as [H1 H2]; [lia|]. unfold pair_ids, pair_keys in *. by rewrite H1, H2.
Qed.

(** C40: [LoadAndLockTuples] hands out disjoint work: its bundles are at most
    [limit] pairs of a distinct transaction and a distinct channel account;
    each of them was free, is now locked up to the given ledger and PROCESSING
    in the committed database exactly as the bundle holds it, and no other row
    has changed. *)
Theorem bundles_are_exclusive (current lockTo limit : Z) (w w' : World D L Ev) (jobs : list TxJob)
    (Hrun : LoadAndLockTuples current lockTo limit w = (Ok jobs, w')) :
  let ids := map (fun j => ID (job_Transaction j)) jobs in
  let keys := map (fun j => CA_PublicKey (job_ChannelAccount j)) jobs in
  (current < lockTo)%Z /\ length jobs <= Z.to_nat limit /\ NoDup ids /\ NoDup keys /\
  Forall (bundle_was_free current (tss (settle w))) jobs /\
  Forall (bundle_locked lockTo (tss w')) jobs /\
  (forall j, j ∉ ids -> lookup_tx j (tss w') = lookup_tx j (tss (settle w))) /\
  (forall k, k ∉ keys -> lookup_ca k (tss w') = lookup_ca k (tss (settle w))).
Proof.
  unfold LoadAndLockTuples in Hrun. destruct (Z.ltb_spec limit 1); [done|].
  destruct (Z.leb_spec lockTo current); [done|].
  apply RunInTransaction_ok in Hrun as (w1 & w2 & Hrun & Htx & Hdb1 & Hdb2).
  replace (tss (settle w)) with (tss w1) by (unfold tss; by rewrite Hdb1).
  replace (tss w') with (tss w2) by (unfold tss; by rewrite Hdb2).
  apply mbind_ok in Hrun as (txs & w3 & H1 & Hrun).
  apply select_in_tx in H1 as (Htx3 & Hs3 & ctx1 & H1); [|by intros ? ? ? ? [= _ <-]|done].
  injection H1 as Htxs. intros ids keys. split; [done|].
  destruct txs as [|tx txs0].
  { injection Hrun as <- <-. subst ids keys. rewrite Hs3. cbn. split; [lia|].
    split; [constructor|]. split; [constructor|]. by split; [|split]. }
  apply mbind_ok in Hrun as (cas & w4 & H2 & Hrun).
  apply select_in_tx in H2 as (Htx4 & Hs4 & ctx2 & H2); [|by intros ? ? ? ? [= _ <-]|done].
  injection H2 as Hcas. rewrite Hs3 in Hcas, Hs4.
  destruct cas as [|ca cas0]; [done|].
  set (txs := tx :: txs0) in *. set (cas := ca :: cas0) in *.
  assert (Hsub1 : txs ⊆+ submitter_transactions (tss w1)) by (rewrite <- Htxs; apply select_submseteq).
  assert (Hsub2 : cas ⊆+ channel_accounts (tss w1)) by (rewrite <- Hcas; apply select_submseteq).
  assert (Hlen : length cas <= length txs) by (rewrite <- Hcas, length_take; apply Nat.le_min_l).
  assert (Hlim : length txs <= Z.to_nat limit) by (rewrite <- Htxs, length_take; apply Nat.le_min_l).
  destruct (pair_ids_zip cas txs Hlen) as [Hids Hkeys].
  assert (Hnd : NoDup (map ID (submitter_transactions (tss w1))) /\
                NoDup (map CA_PublicKey (channel_accounts (tss w1)))).
  { change (zip cas txs) with ((ca, tx) :: zip cas0 txs0) in Hrun. cbn [mmapM] in Hrun.
    apply mbind_ok in Hrun as (job & w5 & Hp & _).
    apply lock_pair_in_tx in Hp as (_ & _ & _ & _ & _ & _ & _ & ? & ?); [|done].
    by rewrite Hs4 in *. }
  apply lock_pairs_in_tx in Hrun as (Hi & Hk & Hl & Hf & Ho1 & Ho2); [|done| |].
  - subst ids keys. rewrite Hi, Hk, Hs4 in *.
    assert (Hlj : length jobs = length (pair_ids (zip cas txs))) by (by rewrite <- Hi, length_map).
    split; [rewrite Hlj, Hids, length_map, length_take; lia|].
    split; [rewrite Hids; eapply NoDup_key_select; [|apply Hnd]; etransitivity; [apply submseteq_take|done]|].
    split; [rewrite Hkeys; eapply NoDup_key_select; [|apply Hnd]; done|]. done.
  - rewrite Hids. eapply NoDup_key_select; [|apply Hnd]. etransitivity; [apply submseteq_take|done].
  - rewrite Hkeys. eapply NoDup_key_select; [|apply Hnd]. done.
Qed.
End bundles.

(** Two pending transactions, one already claimed by another process, and two
    channel accounts, one already claimed: one bundle. *)
Module Queue.
Export Calm.

Definition world : World TssDb unit unit :=
  mkWorld (mkTssDb [payment "t1" TransactionStatusPending None 1 (Some 120%Z);
                    payment "t2" TransactionStatusPending None 2 (Some 90%Z)]
                   [channel "GC1" (Some 120%Z); channel "GC2" None]) 0 ∅ tt [].
End Queue.

Lemma bundles_are_exclusive_witness :
  exists jobs w', LoadAndLockTuples (C := Calm.tss_conn) (E := Calm.env) 100 110 5 Queue.world = (Ok jobs, w') /\
    length jobs = 1 /\ Forall (bundle_locked 110 (tss (C := Calm.tss_conn) w')) jobs.
Proof.
  eexists _, _. split; [vm_compute; reflexivity|]. split; [reflexivity|].
  refine (proj1 (proj2 (proj2 (proj2 (proj2 (proj2 (bundles_are_exclusive
    (E := Calm.env) (C := Calm.tss_conn) (CL := Calm.tss_conn_laws) 100 110 5 Queue.world _ _ _))))))).
  vm_compute. reflexivity.
Defined.
