(* ===== verification/Worker.v ===== *)
(** The transaction worker
    ([internal/transactionsubmission/transaction_worker.go]) and the loading
    of its jobs by the manager ([internal/transactionsubmission/manager.go]).

    A run of a worker is a program over the submission service's database; its
    local state is the [TxJob] the code passes by pointer and the limiter all
    workers share.  The trace records what leaves the process: submissions to
    Horizon (with the database at that instant), crash reports and monitoring
    events. *)

From S2P Require Import Prelude GoStrings Errors StateMachine Effects Schema TxStore.
From S2P Require Import Limiter Handlers ChannelAccounts.

Local Open Scope string_scope.
Local Open Scope list_scope.

Definition ErrTransactionHandled : err := ESentinel "transaction error was handled".
Definition maxRestoreAttempts : Z := 3.

(** What the code reads of a [horizon.Transaction]; [None] is the zero value. *)
Record HorizonTx := mkHorizonTx { Successful : bool; ResultXdr : string }.

Definition is_successful (r : option HorizonTx) : bool :=
  match r with Some t => Successful t | None => false end.

(** The engine: Horizon, the signers, the distribution account resolver and the
    fee-bump transactions of [txnbuild].  Answers depend on the instant. *)
Class Engine {TB : TxnBuild} := {
  LedgerNumber : nat -> res Z;
  ResolveDistributionAccount : nat -> string -> res TransactionAccount;
  AccountDetail : nat -> string -> res Z;
  TransactionDetail : nat -> string -> res (option HorizonTx);
  SubmitFeeBump : nat -> FeeBumpTransaction -> result err HorizonTx * option HorizonTx;
  SignStellarTransaction : nat -> InnerTx -> list TransactionAccount -> res InnerTx;
  SignFeeBumpStellarTransaction : nat -> FeeBumpTransaction -> TransactionAccount ->
    res FeeBumpTransaction;
  NewFeeBumpTransaction : InnerTx -> string -> Z -> res FeeBumpTransaction;
  HashHex : FeeBumpTransaction -> string -> res string;
  FeeBump_Base64 : FeeBumpTransaction -> res string;
  FeeAccount : FeeBumpTransaction -> string }.

(** What leaves the process. *)
Inductive ReconcileSuccessType := ReconcileSuccess | ReconcileReprocessing.

Inductive WorkerEvent {TB : TxnBuild} :=
  | EvSubmit (fb : FeeBumpTransaction) (db : TssDb)
  | EvSubmitRestore (fb : FeeBumpTransaction)
  | EvCrash (e : err) (msg : string)
  | EvProcessingStarted (txID : string)
  | EvProcessingSuccess (txID : string) (attempts : Z)
  | EvProcessingFailed (txID : string) (isRetryable : bool) (errStack : string)
  | EvReconciliationSuccess (txID : string) (t : ReconcileSuccessType)
  | EvReconciliationFailure (txID : string) (isHorizonErr : bool) (errStack : string).

Record WorkerLocal := mkLocal { l_job : TxJob; l_limiter : Limiter }.
#[export] Instance eta_WorkerLocal : Eta WorkerLocal := fun r => mkLocal (l_job r) (l_limiter r).

Definition TxJob_String (job : TxJob) : string :=
  "TxJob{ChannelAccount: " +:+ quote (CA_PublicKey (job_ChannelAccount job))
  +:+ ", Transaction: " +:+ quote (ID (job_Transaction job))
  +:+ ", Tenant: " +:+ quote (TenantID (job_Transaction job))
  +:+ ", LockedUntilLedgerNumber: " +:+ quote (itoa (job_LockedUntilLedgerNumber job)) +:+ "}".

Section worker.
Context {D : Type} {E : Env D} {C : Conn D TssDb} {SDK : StellarSdk} {TB : TxnBuild}
  {TO : TxnBuildOps} {EN : Engine} {HC : HorizonClient} (cfg : EngineConfig)
  (txHandler : TransactionHandler).
Abbreviation M := (M D WorkerLocal WorkerEvent).

(** ** Local state and events *)

Definition get_job : M TxJob := fun w => (Ok (l_job (w_loc w)), w).

(** [txJob.Transaction = *updatedTx]. *)
Definition set_job_tx (tx : Transaction) : M unit := fun w =>
  (Ok tt, w <| w_loc :=
    (w_loc w) <| l_job := (l_job (w_loc w)) <| job_Transaction := tx |> |> |>).

Definition emit_ (ev : WorkerEvent) : M unit := emit (fun _ => ev).

Definition LogAndReportErrors (e : err) (msg : string) : M unit := emit_ (EvCrash e msg).

Definition limiter_adjust (e : TransactionError) : M unit := fun w =>
  (Ok tt, w <| w_loc := (w_loc w)
    <| l_limiter := AdjustLimitIfNeeded (env_now (w_clock w)) e (l_limiter (w_loc w)) |> |>).

(** ** The store calls of a job *)

Definition markTransactionAsError (errorMsg : string) : M unit :=
  let! job := get_job in
  let! updatedTx := wrapM "updating transaction status to error"
    (UpdateStatusToError (job_Transaction job) errorMsg) in
  set_job_tx updatedTx.

Definition unlockJob : M unit :=
  let! job := get_job in
  wrapM "unlocking channel account" (CA_Unlock (CA_PublicKey (job_ChannelAccount job))) ;;!
  wrapM "unlocking transaction" (Tx_Unlock (ID (job_Transaction job))) ;;!
  mret_ tt.

Definition prepareForReprocessing : M unit :=
  let! job := get_job in
  PrepareTransactionForReprocessing (ID (job_Transaction job)) ;;! mret_ tt.

Definition saveResponseXDRIfPresent (resp : option HorizonTx) : M unit :=
  match resp with
  | None => mret_ tt
  | Some t =>
    let! job := get_job in
    let! updatedTx := wrapM ("updating XDRReceived(" +:+ ResultXdr t +:+ ") for job " +:+ TxJob_String job)
      (UpdateStellarTransactionXDRReceived (ID (job_Transaction job)) (ResultXdr t)) in
    set_job_tx updatedTx
  end.

(** ** [validateJob] *)

Definition validateJob : M unit :=
  let! job := get_job in
  lift (guard_err (negb (slices_Contains [TransactionStatusPending; TransactionStatusProcessing]
                           (Status (job_Transaction job))))
    (ENew ("invalid transaction status: " +:+ Status (job_Transaction job)))) ;;!
  let! currentLedgerNumber := wrapM "getting current ledger number" (ask_res LedgerNumber) in
  lift (guard_err (negb (IsLocked (job_Transaction job) (int32 currentLedgerNumber)))
    (ENew "transaction should be locked")) ;;!
  lift (guard_err (negb (CA_IsLocked (job_ChannelAccount job) (int32 currentLedgerNumber)))
    (ENew "channel account should be locked")).

(** ** Restoring archived entries *)

Definition chAccount_of (job : TxJob) : TransactionAccount :=
  mkTransactionAccount (CA_PublicKey (job_ChannelAccount job)) "" ChannelAccountStellarDB "".

Definition submit_call (record : FeeBumpTransaction -> World D WorkerLocal WorkerEvent -> WorkerEvent)
    (fb : FeeBumpTransaction) : M (result err HorizonTx * option HorizonTx) :=
  ask (fun _ => tt) ;;!
  emit (record fb) ;;!
  ask (fun t => SubmitFeeBump t fb).

Definition restoreArchivedEntries : M unit :=
  let! job := get_job in
  let tx := job_Transaction job in
  let! distributionAccount := wrapM "resolving distribution account"
    (ask_res (fun t => ResolveDistributionAccount t (TenantID tx))) in
  let asset := if is_native (AssetCode tx) then NativeAsset
               else CreditAsset (AssetCode tx) (AssetIssuer tx) in
  let! restoreOp := wrapM "building restore footprint operation"
    (lift (NewAssetBalanceRestoration (NetworkPassphrase cfg) (Destination tx) asset
             (Address distributionAccount))) in
  let! sequence := wrapM "getting channel account detail"
    (ask_res (fun t => AccountDetail t (CA_PublicKey (job_ChannelAccount job)))) in
  let! restoreTx := wrapM "building restore transaction" (lift (NewTransaction
    (mkParams (CA_PublicKey (job_ChannelAccount job)) sequence [OpRestoreFootprint restoreOp] None
       (MaxBaseFee cfg) 300 None true))) in
  let! restoreTx := wrapM "signing restore transaction"
    (ask_res (fun t => SignStellarTransaction t restoreTx [chAccount_of job; distributionAccount])) in
  let! feeBumpTx := wrapM "building restore fee bump transaction"
    (lift (NewFeeBumpTransaction restoreTx (Address distributionAccount) (MaxBaseFee cfg))) in
  let! feeBumpTx := wrapM "signing restore fee bump transaction"
    (ask_res (fun t => SignFeeBumpStellarTransaction t feeBumpTx distributionAccount)) in
  let! resp := submit_call (fun fb _ => EvSubmitRestore fb) feeBumpTx in
  match fst resp with
  | Ok _ => mret_ tt
  | Err e => throw (EWrap "submitting restore transaction" e)
  end.

(** ** Failed transactions *)

(** [return retryable, tw.unlockJob(ctx, txJob)]. *)
Definition unlock_and_return (retryable : bool) : M (bool * res unit) :=
  let! r := try_ unlockJob in mret_ (retryable, r).

(** Mark as error, report and unlock: the two terminal cases. *)
Definition fail_archived (errMsg : string) (report : err) (msg : string) : M (bool * res unit) :=
  let! r := try_ (markTransactionAsError errMsg) in
  match r with
  | Err e => mret_ (false, Err e)
  | Ok _ => LogAndReportErrors report msg ;;! unlock_and_return false
  end.

(** Whether the transaction will be retried, and the error. *)
Definition handleEntryArchived (txErr : TransactionError) : M (bool * res unit) :=
  let! job := get_job in
  let tx := job_Transaction job in
  if negb (IsValidContractAddress (Destination tx)) then
    fail_archived
      ("entry_archived is only recoverable for contract destinations, got " +:+ Destination tx)
      (te_err txErr) "entry_archived: non-contract destination"
  else if (maxRestoreAttempts <? AttemptsCount tx)%Z then
    fail_archived
      ("entry_archived: max restoration attempts (" +:+ itoa maxRestoreAttempts +:+ ") exceeded")
      (EWrap ("entry_archived: max restoration attempts exceeded for " +:+ ID tx) (te_err txErr))
      "entry_archived: max restoration attempts exceeded"
  else
    try_ restoreArchivedEntries ;;!
    let! r := try_ prepareForReprocessing in
    match r with
    | Err e => mret_ (true, Err (EWrap "preparing transaction for reprocessing after restore" e))
    | Ok _ => unlock_and_return true
    end.

(** The part of [handleFailedTransaction] after the entry-archived case. *)
Definition settle_failure (txErr : TransactionError) : M unit :=
  (if ShouldMarkAsError txErr then
     markTransactionAsError (Error (te_err txErr)) ;;!
     if ShouldReportToCrashTracker txErr
     then LogAndReportErrors (te_err txErr)
            (ToLower (GetErrorType txErr) +:+ " transaction error - cannot be retried")
     else mret_ tt
   else
     (if IsRetryable txErr && RequiresRebuildOnRetry txHandler
      then wrapM "preparing transaction for reprocessing" prepareForReprocessing
      else mret_ tt) ;;!
     match As_Horizon (te_err txErr) with
     | Some horizonErr =>
       if IsBadSequence horizonErr then LogAndReportErrors (te_err txErr) "tx_bad_seq detected!"
       else mret_ tt
     | None => mret_ tt
     end) ;;!
  wrapM "unlocking job" unlockJob.

Definition entry_archived (txErr : TransactionError) : bool :=
  match As_Horizon (te_err txErr) with Some hErr => IsEntryArchived hErr | None => false end.

(** The body, and the value of [isRetryable] when the deferred call runs. *)
Definition handleFailed_body (hTxResp : option HorizonTx) (txErr : TransactionError) :
    M (bool * res unit) :=
  let! saved := try_ (wrapM "saving response XDR" (saveResponseXDRIfPresent hTxResp)) in
  match saved with
  | Err e => mret_ (IsRetryable txErr, Err e)
  | Ok _ =>
    limiter_adjust txErr ;;!
    if entry_archived txErr then handleEntryArchived txErr
    else let! r := try_ (settle_failure txErr) in mret_ (IsRetryable txErr, r)
  end.

Definition handleFailedTransaction (hTxResp : option HorizonTx) (txErr : TransactionError) : M unit :=
  let! (isRetryable, r) := handleFailed_body hTxResp txErr in
  let! job := get_job in
  emit_ (EvProcessingFailed (ID (job_Transaction job)) isRetryable (Error (te_err txErr))) ;;!
  lift r.

(** ** Successful transactions *)

(** [updatedTx, err := tw.txModel.UpdateStatusToSuccess(...)] and the assignment. *)
Definition saveSuccess : M unit :=
  let! job := get_job in
  let! updatedTx := map_errM (ETransactionStatusUpdate "SUCCESS" (ID (job_Transaction job)) false)
    (UpdateStatusToSuccess (job_Transaction job)) in
  set_job_tx updatedTx.

Definition handleSuccessfulTransaction (hTxResp : option HorizonTx) : M unit :=
  wrapM "saving response XDR" (saveResponseXDRIfPresent hTxResp) ;;!
  if negb (is_successful hTxResp)
  then throw (ENew "transaction was not successful for some reason")
  else
    saveSuccess ;;!
    wrapM "unlocking job" unlockJob ;;!
    let! job := get_job in
    emit_ (EvProcessingSuccess (ID (job_Transaction job)) (AttemptsCount (job_Transaction job))).

(** ** Reconciliation *)

Definition horizon_wrapper (e : err) : HorizonErrorWrapper :=
  match NewHorizonErrorWrapper (Some e) with
  | Some w => w
  | None => mkHorizonErrorWrapper 0 Problem_zero e None
  end.

(** What follows the validation, for the job at that point. *)
Definition reconcile_detail (job : TxJob) : M unit :=
  let txID := ID (job_Transaction job) in
  let txHash := default "" (StellarTransactionHash (job_Transaction job)) in
  let! txDetail := try_ (ask_res (fun t => TransactionDetail t txHash)) in
  let reprocess :=
    wrapM "pushing back transaction to queue" prepareForReprocessing ;;!
    wrapM "unlocking job" unlockJob ;;!
    emit_ (EvReconciliationSuccess txID ReconcileReprocessing) in
  match txDetail with
  | Ok detail =>
    if is_successful detail then
      let! r := try_ (handleSuccessfulTransaction detail) in
      match r with
      | Err e =>
        emit_ (EvReconciliationFailure txID false (Error e)) ;;!
        throw (EWrap "handling successful transaction" e)
      | Ok _ => emit_ (EvReconciliationSuccess txID ReconcileSuccess)
      end
    else reprocess
  | Err e =>
    let hWrapperErr := horizon_wrapper e in
    if negb (IsNotFound hWrapperErr) then
      emit_ (EvReconciliationFailure txID true (Error (horizon_err hWrapperErr))) ;;!
      throw (EWrap "unexpected error" (horizon_err hWrapperErr))
    else reprocess
  end.

Definition reconcileSubmittedTransaction : M unit :=
  wrapM "validating bundle" validateJob ;;!
  let! job := get_job in
  reconcile_detail job.

(** ** Submission *)

(** The error the caller sees; [ErrTransactionHandled] when it was handled. *)
Definition handlePreparationError {A} (e : err) : M A :=
  let handle p te :=
    let! r := try_ (handleFailedTransaction None te) in
    match r with Err e' => throw (EWrap p e') | Ok _ => throw ErrTransactionHandled end in
  let not_horizon :=
    match As_RPC e with
    | Some rpcErr => if IsRPCError rpcErr then handle "handling rpc error" (TERPC rpcErr) else throw e
    | None => throw e
    end in
  match As_Horizon e with
  | Some hErr =>
    if IsHorizonError hErr then handle "handling horizon error" (TEHorizon hErr) else not_horizon
  | None => not_horizon
  end.

Definition or_prepare_error {A} (m : M A) : M A :=
  let! r := try_ m in
  match r with Ok a => mret_ a | Err e => handlePreparationError e end.

Definition buildAndSignTransaction : M FeeBumpTransaction :=
  let! job := get_job in
  let tx := job_Transaction job in
  let! distributionAccount := wrapM ("resolving distribution account for tenantID=" +:+ TenantID tx)
    (ask_res (fun t => ResolveDistributionAccount t (TenantID tx))) in
  lift (guard_err (negb (IsStellar distributionAccount))
    (ENew ("expected distribution account to be a STELLAR account but got "
           +:+ quote (TA_Type distributionAccount)))) ;;!
  let! sequence := or_prepare_error
    (ask_res (fun t => AccountDetail t (CA_PublicKey (job_ChannelAccount job)))) in
  let! innerTx := or_prepare_error
    (BuildInnerTransaction cfg txHandler job sequence (Address distributionAccount)) in
  let! innerTx := wrapM ("signing transaction in job=" +:+ TxJob_String job)
    (ask_res (fun t => SignStellarTransaction t innerTx [chAccount_of job; distributionAccount])) in
  let! feeBumpTx := wrapM ("building fee-bump transaction for job " +:+ TxJob_String job)
    (lift (NewFeeBumpTransaction innerTx (Address distributionAccount) (MaxBaseFee cfg))) in
  wrapM ("signing fee-bump transaction for job " +:+ TxJob_String job)
    (ask_res (fun t => SignFeeBumpStellarTransaction t feeBumpTx distributionAccount)).

(** Important: the hash is saved before the transaction is submitted. *)
Definition saveSent (feeBumpTxHash sentXDR distributionAccountAddr : string) : M unit :=
  let! job := get_job in
  let! updatedTx := wrapM ("saving transaction metadata for job " +:+ TxJob_String job)
    (UpdateStellarTransactionHashXDRSentAndDistributionAccount (ID (job_Transaction job))
       feeBumpTxHash sentXDR distributionAccountAddr) in
  set_job_tx updatedTx.

Definition prepareForSubmission : M FeeBumpTransaction :=
  let! feeBumpTx := buildAndSignTransaction in
  let! job := get_job in
  let! feeBumpTxHash := wrapM ("hashing transaction for job " +:+ TxJob_String job)
    (lift (HashHex feeBumpTx (NetworkPassphrase cfg))) in
  let! sentXDR := wrapM ("getting envelopeXDR for job " +:+ TxJob_String job)
    (lift (FeeBump_Base64 feeBumpTx)) in
  saveSent feeBumpTxHash sentXDR (FeeAccount feeBumpTx) ;;!
  mret_ feeBumpTx.

Definition submit (feeBumpTx : FeeBumpTransaction) : M unit :=
  let! (answer, resp) := submit_call (fun fb w => EvSubmit fb (conn_get (w_db w))) feeBumpTx in
  match answer with
  | Err e =>
    wrapM "handling failed transaction"
      (handleFailedTransaction resp (TEHorizon (horizon_wrapper e)))
  | Ok t => wrapM "handling successful transaction" (handleSuccessfulTransaction (Some t))
  end.

Definition processTransactionSubmission : M unit :=
  let! job := get_job in
  emit_ (EvProcessingStarted (ID (job_Transaction job))) ;;!
  wrapM "validating bundle" validateJob ;;!
  let! prepared := try_ prepareForSubmission in
  match prepared with
  | Err e =>
    if errors_Is e "transaction error was handled" then mret_ tt
    else throw (EWrap "preparing bundle for processing" e)
  | Ok feeBumpTx => wrapM "processing bundle" (submit feeBumpTx)
  end.

(** ** A run *)

Definition runJob : M unit :=
  wrapM "validating job" validateJob ;;!
  let! job := get_job in
  match StellarTransactionHash (job_Transaction job) with
  | Some _ => reconcileSubmittedTransaction
  | None => processTransactionSubmission
  end.

Definition Run : M unit :=
  let! r := try_ runJob in
  match r with
  | Err e => LogAndReportErrors e "unexpected TSS error"
  | Ok _ => mret_ tt
  end.

End worker.

(** ** Loading the jobs: [manager.go] *)

Section manager.
Context {D L Ev : Type} {E : Env D} {C : Conn D TssDb} {TB : TxnBuild} {EN : Engine}.

(** [limit] is the value the limiter answers. *)
Definition loadReadyForProcessingBundles (limit : Z) : M D L Ev (list TxJob) :=
  let! currentLedgerNumber := wrapM "getting current ledger number" (ask_res LedgerNumber) in
  wrapM "loading channel transaction bundles"
    (LoadAndLockTuples currentLedgerNumber (currentLedgerNumber + IncrementForMaxLedgerBounds) limit).
End manager.
