(* ===== verification/WorkerProofs.v ===== *)
(** What a run of the transaction worker guarantees, whatever the database,
    Horizon, the signers and the other processes do. *)

From S2P Require Import Prelude GoStrings Errors StateMachine Effects Schema TxStore.
From S2P Require Import Limiter Handlers ChannelAccounts Worker.

Local Open Scope string_scope.
Local Open Scope list_scope.

(** ** The walk

    [respects R] of every operation of the worker, for a preorder [R] that the
    store calls of a job, the passing of time and the events respect: each
    theorem below instantiates it with its own [R]. *)

Section walk.
Context {D : Type} {E : Env D} {C : Conn D TssDb} {SDK : StellarSdk} {TB : TxnBuild}
  {TO : TxnBuildOps} {EN : Engine} {HC : HorizonClient} (cfg : EngineConfig)
  (txHandler : TransactionHandler).
Abbreviation W := (World D WorkerLocal WorkerEvent).
Context (R : W -> W -> Prop) {HR : PreOrder R}.

Definition is_submission (ev : WorkerEvent) : bool :=
  match ev with EvSubmit _ _ | EvSubmitRestore _ => true | _ => false end.

Context (R_settle : forall w : W, R w (settle w))
  (R_event : forall (w : W) ev, is_submission ev = false -> R w (w <| w_trace := w_trace w ++ [ev] |>))
  (R_limiter : forall e, respects R (limiter_adjust e))
  (R_unlock : respects R unlockJob).

Lemma respects_ask {A} (f : nat -> A) : respects R (ask f).
Proof. intros w. apply R_settle. Qed.

Lemma respects_ask_res {A} (f : nat -> res A) : respects R (ask_res f).
Proof. intros w. apply R_settle. Qed.

Lemma respects_emit_ ev : is_submission ev = false -> respects R (emit_ ev).
Proof. intros Hev w. by apply R_event. Qed.

Lemma respects_report e msg : respects R (LogAndReportErrors e msg).
Proof. by apply respects_emit_. Qed.

Lemma respects_get_job : respects R get_job.
Proof. intros w. reflexivity. Qed.

(** One step of the walk through the syntax of a program. *)
Ltac walk1 :=
  first
    [ assumption
    | solve [auto]
    | apply respects_get_job
    | apply respects_ret, HR
    | apply respects_throw, HR
    | apply respects_lift, HR
    | apply respects_report
    | apply respects_ask
    | apply respects_ask_res
    | apply respects_emit_; reflexivity
    | apply respects_wrap
    | apply respects_map_err
    | apply respects_try
    | apply respects_bind; [| |intros ?]; [exact HR| |]
    | progress case_match ].
Ltac walk := repeat walk1.

Lemma respects_validateJob : respects R validateJob.
Proof. unfold validateJob. walk. Qed.

Lemma respects_simulate params : respects R (simulate params).
Proof. unfold simulate. walk. Qed.

Lemma respects_build h job seq account : respects R (BuildInnerTransaction cfg h job seq account).
Proof.
  pose proof respects_simulate.
  destruct h; cbn; unfold Payment_BuildInnerTransaction, WalletCreation_BuildInnerTransaction,
    Sponsored_BuildInnerTransaction; walk.
Qed.

Lemma respects_handleSuccessful resp :
  respects R (saveResponseXDRIfPresent resp) ->
  (is_successful resp = true -> respects R saveSuccess) ->
  respects R (handleSuccessfulTransaction resp).
Proof.
  intros Hr Hs. unfold handleSuccessfulTransaction. destruct (is_successful resp); cbn; walk.
Qed.

Lemma respects_try_ask_bind {A B} (f : nat -> res A) (k : res A -> M D WorkerLocal WorkerEvent B) :
  (forall t, respects R (k (f t))) -> respects R (mbind_ (try_ (ask_res f)) k).
Proof. intros Hk w. cbn. etransitivity; [apply R_settle|apply Hk]. Qed.

(** What Horizon answered about a hash: the transaction is in a ledger, or it is
    not (it is unknown, or it failed). *)
Definition reported_success (h : string) : Prop :=
  exists t d, TransactionDetail t h = Ok d /\ is_successful d = true.
Definition reported_missing (h : string) : Prop :=
  exists t, (exists d, TransactionDetail t h = Ok d /\ is_successful d = false) \/
            (exists e, TransactionDetail t h = Err e /\ IsNotFound (horizon_wrapper e) = true).

Lemma respects_reconcile_detail job :
  let h := default "" (StellarTransactionHash (job_Transaction job)) in
  (reported_success h -> forall resp, respects R (saveResponseXDRIfPresent resp)) ->
  (reported_success h -> respects R saveSuccess) ->
  (reported_missing h -> respects R prepareForReprocessing) ->
  respects R (reconcile_detail job).
Proof.
  intros h Hr Hs Hp. unfold reconcile_detail. apply respects_try_ask_bind. intros t.
  fold h. destruct (TransactionDetail t h) as [d|e] eqn:Ed.
  - destruct (is_successful d) eqn:Es.
    + assert (respects R (handleSuccessfulTransaction d)).
      { apply respects_handleSuccessful; unfold reported_success in *; eauto. }
      walk.
    + assert (respects R prepareForReprocessing) by (apply Hp; unfold reported_missing; eauto).
      walk.
  - destruct (IsNotFound (horizon_wrapper e)) eqn:Ee; cbn; [|walk].
    assert (respects R prepareForReprocessing) by (apply Hp; unfold reported_missing; eauto).
    walk.
Qed.

(** A failure is handled by marking the row, by requeueing it after a restore
    (an archived entry) or for a rebuild, or by keeping it for a reconciliation. *)
Definition may_mark (te : TransactionError) : bool := entry_archived te || ShouldMarkAsError te.
Definition may_requeue (te : TransactionError) : bool :=
  entry_archived te || (negb (ShouldMarkAsError te) && RequiresRebuildOnRetry txHandler).

Definition R_restore_event : Prop :=
  forall (w : W) fb, R w (w <| w_trace := w_trace w ++ [EvSubmitRestore fb] |>).

Lemma respects_restore : R_restore_event -> respects R (restoreArchivedEntries cfg).
Proof.
  intros Hev. unfold restoreArchivedEntries, submit_call. walk. intros w. apply Hev.
Qed.

Lemma respects_handleEntryArchived te :
  R_restore_event -> (forall msg, respects R (markTransactionAsError msg)) -> respects R prepareForReprocessing ->
  respects R (handleEntryArchived cfg te).
Proof.
  intros Hev Hm Hp. pose proof (respects_restore Hev).
  unfold handleEntryArchived, fail_archived, unlock_and_return. walk.
Qed.

Lemma respects_settle_failure te :
  (ShouldMarkAsError te = true -> forall msg, respects R (markTransactionAsError msg)) ->
  (ShouldMarkAsError te = false -> RequiresRebuildOnRetry txHandler = true ->
     respects R prepareForReprocessing) ->
  respects R (settle_failure txHandler te).
Proof.
  intros Hm Hp. unfold settle_failure. destruct (ShouldMarkAsError te); [walk|].
  destruct (RequiresRebuildOnRetry txHandler); [walk|]. rewrite andb_false_r. walk.
Qed.

Lemma respects_handleFailed resp te :
  respects R (saveResponseXDRIfPresent resp) ->
  (may_mark te = true -> forall msg, respects R (markTransactionAsError msg)) ->
  (may_requeue te = true -> respects R prepareForReprocessing) ->
  (entry_archived te = true -> R_restore_event) ->
  respects R (handleFailedTransaction cfg txHandler resp te).
Proof.
  intros Hr Hm Hp Hev. unfold handleFailedTransaction, handleFailed_body, may_mark, may_requeue in *.
  destruct (entry_archived te); cbn in *.
  - assert (respects R (handleEntryArchived cfg te)).
    { apply respects_handleEntryArchived; [by apply Hev|by apply Hm|by apply Hp]. }
    walk.
  - assert (respects R (settle_failure txHandler te)).
    { apply respects_settle_failure; [done|]. intros H1 H2. apply Hp. by rewrite H1, H2. }
    walk.
Qed.

Context (R_prepare : respects R prepareForReprocessing)
  (R_mark : forall msg, respects R (markTransactionAsError msg)) (R_restore : R_restore_event).

Lemma respects_or_prepare_error {A} (m : M D WorkerLocal WorkerEvent A) :
  respects R m -> respects R (or_prepare_error cfg txHandler m).
Proof.
  intros Hm.
  assert (forall te, respects R (handleFailedTransaction cfg txHandler None te)).
  { intros te. by apply respects_handleFailed; [apply respects_ret, HR|..]. }
  unfold or_prepare_error, handlePreparationError. walk.
Qed.

Lemma respects_buildAndSign : respects R (buildAndSignTransaction cfg txHandler).
Proof.
  pose proof @respects_or_prepare_error. pose proof respects_build.
  unfold buildAndSignTransaction. walk. all: apply respects_or_prepare_error; walk.
Qed.

Context (R_sent : forall h x a, respects R (saveSent h x a)).

Lemma respects_prepareForSubmission : respects R (prepareForSubmission cfg txHandler).
Proof. pose proof respects_buildAndSign. unfold prepareForSubmission. walk. Qed.
End walk.

(** ** The abstract worker

    A job owns one transaction row and one channel account.  [prim K] is the
    step relation a run refines: time passes, an allowed operation of the store
    is applied to the row, the channel account is unlocked, the job is read
    back from the row, or something leaves the process.  [K] says which
    operations are allowed, [S] which envelopes may be submitted. *)

Inductive TxOp :=
  | OpSent (txHash xdr account : string)
  | OpReceived (xdr : string)
  | OpSuccess
  | OpError (message : string)
  | OpRequeue
  | OpUnlock.

Definition set_of (k : TxOp) : StmtCtx -> Transaction -> Transaction :=
  match k with
  | OpSent h x a => set_sent h x a
  | OpReceived x => set_received x
  | OpSuccess => set_success
  | OpError m => set_error m
  | OpRequeue => set_requeued
  | OpUnlock => set_unlocked
  end.

(** What the code checks first: the status it holds in memory, or the row's. *)
Definition guard_of (k : TxOp) (job : TxJob) (tx : Transaction) : Prop :=
  match k with
  | OpSent h _ _ => String.length h = 64
  | OpSuccess => step tss_transitions (Status (job_Transaction job)) TransactionStatusSuccess
  | OpError _ => step tss_transitions (Status (job_Transaction job)) TransactionStatusError
  | OpRequeue => in_queue tx = true
  | OpReceived _ | OpUnlock => True
  end.

(** What leaves a mark: an operation on the row, or a submission. *)
Inductive Action {TB : TxnBuild} :=
  | ARow (k : TxOp)
  | ASubmit (fb : FeeBumpTransaction)
  | ARestore (fb : FeeBumpTransaction).

Section refinement.
Context {D : Type} {E : Env D} {C : Conn D TssDb} {CL : ConnLaws D TssDb} {SDK : StellarSdk}
  {TB : TxnBuild} {TO : TxnBuildOps} {EN : Engine} {HC : HorizonClient} (cfg : EngineConfig)
  (txHandler : TransactionHandler) (txID caKey : string).
Abbreviation W := (World D WorkerLocal WorkerEvent).

Definition the_job (w : W) : TxJob := l_job (w_loc w).
Definition the_row (w : W) : option Transaction := lookup_tx txID (tss w).
Definition the_channel (w : W) : option ChannelAccount := lookup_ca caKey (tss w).

Definition with_job (tx : Transaction) (w : W) : W := snd (set_job_tx tx w).
Definition with_event (ev : WorkerEvent) (w : W) : W := w <| w_trace := w_trace w ++ [ev] |>.

(** The job of the world is the one that owns the row and the channel account,
    and no database transaction is open. *)
Definition owns (w : W) : Prop :=
  w_tx w = ∅ /\ ID (job_Transaction (the_job w)) = txID /\
  CA_PublicKey (job_ChannelAccount (the_job w)) = caKey.

(** The envelope was saved in the row: its hash and its XDR. *)
Definition saved (fb : FeeBumpTransaction) (row : option Transaction) : Prop :=
  exists tx h x, row = Some tx /\ HashHex fb (NetworkPassphrase cfg) = Ok h /\
    FeeBump_Base64 fb = Ok x /\ StellarTransactionHash tx = Some h /\ XDRSent tx = Some x.

Inductive prim (K : Action -> Prop) : W -> W -> Prop :=
  | prim_settle w : prim K w (settle w)
  | prim_tx w k ctx db' tx :
    K (ARow k) -> own_tx_step txID (tss w) db' -> the_row w = Some tx -> guard_of k (the_job w) tx ->
    lookup_tx txID db' = Some (refresh_tx ctx (set_of k ctx tx)) ->
    prim K w (put_part db' w)
  | prim_ca w ctx db' ca :
    own_ca_step caKey (tss w) db' -> the_channel w = Some ca ->
    lookup_ca caKey db' = Some (refresh_ca ctx (set_ca_unlocked ctx ca)) ->
    prim K w (put_part db' w)
  | prim_job w tx : the_row w = Some tx -> prim K w (with_job tx w)
  | prim_limiter w e : prim K w (snd (limiter_adjust e w))
  | prim_event w ev : is_submission ev = false -> prim K w (with_event ev w)
  | prim_submit w fb :
    K (ASubmit fb) -> saved fb (the_row w) -> prim K w (with_event (EvSubmit fb (tss w)) w)
  | prim_restore w fb : K (ARestore fb) -> prim K w (with_event (EvSubmitRestore fb) w).

Definition steps K : W -> W -> Prop := rtc (prim K).
Definition run_of K : W -> W -> Prop := fun w w' => owns w -> owns w' /\ steps K w w'.

#[export] Instance run_of_preorder K : PreOrder (run_of K).
Proof.
  split; [by intros w Hw; split; [|apply rtc_refl]|]. intros w1 w2 w3 H12 H23 H1.
  destruct (H12 H1) as [H2 ?]. destruct (H23 H2) as [H3 ?]. split; [done|].
  by etransitivity.
Qed.

Lemma settle_loc (w : W) : w_loc (settle w) = w_loc w.
Proof. unfold settle. by case_bool_decide. Qed.

Lemma owns_settle w : owns w -> owns (settle w).
Proof. unfold owns, the_job. by rewrite settle_tx, settle_loc. Qed.

Lemma prim_owns K w w' : prim K w w' -> owns w -> owns w'.
Proof.
  intros Hp Ho. destruct Hp as [w|w k ctx db' tx HK Ho' Hr Hg Hl|w ctx db' ca Ho' Hc Hl|w tx Hr|w e|
    w ev Hev|w fb HS Hs|w fb HK]; try done.
  - by apply owns_settle.
  - destruct Ho as (Htx & Hid & Hca). split; [done|]. split; [|done].
    cbn. by apply lookup_tx_id in Hr.
Qed.

Lemma run_of_prim K w w' : (owns w -> prim K w w') -> run_of K w w'.
Proof.
  intros Hp Ho. split; [by eapply prim_owns; [apply Hp|]|]. by apply rtc_once, Hp.
Qed.

(** One row operation of the store as steps. *)
Lemma run_of_tx K w k ctx db' tx :
  K (ARow k) -> own_tx_step txID (tss (settle w)) db' -> lookup_tx txID (tss (settle w)) = Some tx ->
  guard_of k (the_job w) tx -> lookup_tx txID db' = Some (refresh_tx ctx (set_of k ctx tx)) ->
  run_of K w (put_part db' (settle w)).
Proof.
  intros HK Ho Hl Hg Hl'. transitivity (settle w); apply run_of_prim; intros _.
  - apply prim_settle.
  - eapply prim_tx; [exact HK|done|exact Hl| |exact Hl'].
    unfold the_job in *. by rewrite settle_loc.
Qed.

Section leaves.
Context (K : Action -> Prop).

Lemma leaf_settle w : run_of K w (settle w).
Proof. apply run_of_prim. intros _. apply prim_settle. Qed.

Lemma leaf_event w ev : is_submission ev = false -> run_of K w (with_event ev w).
Proof. intros Hev. apply run_of_prim. intros _. by apply prim_event. Qed.

Lemma leaf_limiter e : respects (run_of K) (limiter_adjust e).
Proof. intros w. apply run_of_prim. intros _. apply prim_limiter. Qed.

(** A call on the row followed by reading the job back from its answer. *)
Definition call_post k (w : W) (r : res unit) (w' : W) : Prop :=
  owns w' /\ steps K w w' /\
  (r = Ok tt -> exists ctx tx, the_row w' = Some (refresh_tx ctx (set_of k ctx tx))).

Lemma job_call_post k f (m : TxJob -> M D WorkerLocal WorkerEvent Transaction) w :
  K (ARow k) ->
  (forall job, tx_call (ID (job_Transaction job)) (guard_of k job) (set_of k) (m job)) ->
  owns w ->
  wp (let! job := get_job in let! u := map_errM (f job) (m job) in set_job_tx u)
    (call_post k w) w.
Proof.
  intros HK Hm Ho. pose proof Ho as (Htx & Hid & Hca).
  change (wp (let! u := map_errM (f (the_job w)) (m (the_job w)) in set_job_tx u)
            (call_post k w) w).
  generalize (tx_call_map_err _ _ _ (f (the_job w)) _ (Hm (the_job w))). intros Hcall.
  rewrite Hid in Hcall. rewrite wp_bind.
  apply Hcall; [done|by intros e; split; [|split; [apply rtc_refl|]]| |].
  { intros e. destruct (leaf_settle w Ho). by split; [|split]. }
  intros ctx db' tx r Ho' _ Hl Hg Hl' Hr.
  destruct (run_of_tx K w k ctx db' tx HK Ho' Hl Hg Hl' Ho) as [Ho2 Hs].
  destruct Hr as [-> | [e ->]]; [|by split; [|split]].
  set (tx' := refresh_tx ctx (set_of k ctx tx)) in *.
  assert (Hrow : the_row (put_part db' (settle w)) = Some tx').
  { unfold the_row. by rewrite tss_put. }
  assert (Hp : prim K (put_part db' (settle w)) (with_job tx' (put_part db' (settle w)))).
  { by apply prim_job. }
  split; [by eapply prim_owns|]. split; [eapply rtc_r; [exact Hs|exact Hp]|].
  intros _. by exists ctx, tx.
Qed.

Lemma leaf_job_call k f (m : TxJob -> M D WorkerLocal WorkerEvent Transaction) :
  K (ARow k) ->
  (forall job, tx_call (ID (job_Transaction job)) (guard_of k job) (set_of k) (m job)) ->
  respects (run_of K)
    (let! job := get_job in let! u := map_errM (f job) (m job) in set_job_tx u).
Proof.
  intros HK Hm w Ho. by destruct (job_call_post k f m w HK Hm Ho) as (? & ? & _).
Qed.

(** A call on the row whose answer is dropped. *)
Lemma leaf_row_call k (m : TxJob -> M D WorkerLocal WorkerEvent Transaction) :
  K (ARow k) ->
  (forall job, tx_call (ID (job_Transaction job)) (guard_of k job) (set_of k) (m job)) ->
  respects (run_of K) (let! job := get_job in m job ;;! mret_ tt).
Proof.
  intros HK Hm w Ho. pose proof Ho as (Htx & Hid & Hca).
  specialize (Hm (the_job w)). rewrite Hid in Hm.
  enough (wp (m (the_job w) ;;! mret_ tt) (fun _ w' => owns w' /\ steps K w w') w) by done.
  rewrite wp_bind. apply Hm; [done|by intros e; split; [|apply rtc_refl]| |].
  { intros e. by apply leaf_settle. }
  intros ctx db' tx r Ho' _ Hl Hg Hl' Hr.
  pose proof (run_of_tx K w k ctx db' tx HK Ho' Hl Hg Hl' Ho) as H.
  by destruct Hr as [-> | [e ->]].
Qed.

Lemma leaf_mark msg : K (ARow (OpError msg)) -> respects (run_of K) (markTransactionAsError msg).
Proof.
  intros HK. apply (leaf_job_call (OpError msg) (fun _ => EWrap _)
    (fun job => UpdateStatusToError (job_Transaction job) msg)); [done|].
  intros job. apply UpdateStatusToError_call.
Qed.

Lemma leaf_success : K (ARow OpSuccess) -> respects (run_of K) saveSuccess.
Proof.
  intros HK. apply (leaf_job_call OpSuccess
    (fun job => ETransactionStatusUpdate "SUCCESS" (ID (job_Transaction job)) false)
    (fun job => UpdateStatusToSuccess (job_Transaction job))); [done|].
  intros job. apply UpdateStatusToSuccess_call.
Qed.

Lemma leaf_received resp :
  (forall x, K (ARow (OpReceived x))) -> respects (run_of K) (saveResponseXDRIfPresent resp).
Proof.
  intros HK. destruct resp as [t|]; [|intros w; reflexivity].
  apply (leaf_job_call (OpReceived (ResultXdr t)) (fun job => EWrap _)
    (fun job => UpdateStellarTransactionXDRReceived (ID (job_Transaction job)) (ResultXdr t)));
    [done|]. intros job. apply UpdateReceived_call.
Qed.

Lemma leaf_sent h x a : K (ARow (OpSent h x a)) -> respects (run_of K) (saveSent h x a).
Proof.
  intros HK. apply (leaf_job_call (OpSent h x a) (fun job => EWrap _)
    (fun job => UpdateStellarTransactionHashXDRSentAndDistributionAccount
                  (ID (job_Transaction job)) h x a)); [done|].
  intros job. apply UpdateHash_call.
Qed.

Lemma leaf_prepare : K (ARow OpRequeue) -> respects (run_of K) prepareForReprocessing.
Proof.
  intros HK. apply (leaf_row_call OpRequeue
    (fun job => PrepareTransactionForReprocessing (ID (job_Transaction job)))); [done|].
  intros job. apply Prepare_call.
Qed.

Lemma leaf_unlock : K (ARow OpUnlock) -> respects (run_of K) unlockJob.
Proof.
  intros HK w Ho. pose proof Ho as (Htx & Hid & Hca).
  change (wp (wrapM "unlocking channel account"
                (CA_Unlock (CA_PublicKey (job_ChannelAccount (the_job w)))) ;;!
              wrapM "unlocking transaction" (Tx_Unlock (ID (job_Transaction (the_job w)))) ;;!
              mret_ tt) (fun _ w' => owns w' /\ steps K w w') w).
  rewrite Hca, Hid.
  rewrite wp_bind, wp_wrap. apply CA_Unlock_call; [done| |].
  { intros e. by apply leaf_settle. }
  intros ctx db' ca r Hown Hl _ Hl' Hr.
  assert (H1 : run_of K w (put_part db' (settle w))).
  { transitivity (settle w); [apply leaf_settle|]. apply run_of_prim. intros _.
    by apply (prim_ca _ _ ctx db' ca). }
  destruct Hr as [-> | [e ->]]; cbn; [|by apply H1].
  destruct (H1 Ho) as [Ho1 Hs1]. set (w1 := put_part db' (settle w)) in *.
  rewrite wp_bind, wp_wrap. pose proof Ho1 as (Htx1 & _ & _).
  apply Tx_Unlock_call; [done|done| |].
  { intros e. cbn. destruct (leaf_settle w1 Ho1). split; [done|]. by etransitivity. }
  intros ctx2 db2 tx r Hown2 _ Hl2 _ Hl2' Hr.
  destruct (run_of_tx K w1 OpUnlock ctx2 db2 tx HK Hown2 Hl2 I Hl2' Ho1).
  destruct Hr as [-> | [e ->]]; cbn; (split; [done|]; by etransitivity).
Qed.
End leaves.

(** ** The phases of a run *)

(** A job whose row has a hash is only reconciled: nothing is submitted, and
    what is done to the row depends on what Horizon says about that hash. *)
Definition reconciling (h : string) (a : Action) : Prop :=
  match a with
  | ARow OpSuccess | ARow (OpReceived _) => reported_success h
  | ARow OpRequeue => reported_missing h
  | ARow OpUnlock => True
  | _ => False
  end.

(** Before the submission: the envelope is built and saved; a simulation or an
    account lookup that fails is handled as a failed transaction. *)
Definition preparing (a : Action) : Prop :=
  match a with
  | ARow OpSuccess | ARow (OpReceived _) | ASubmit _ => False
  | _ => True
  end.

(** The part of it that leads to a submission. *)
Definition building (a : Action) : Prop :=
  match a with ARow (OpSent _ _ _) => True | _ => False end.

(** Handling a failure. *)
Definition failing (te : TransactionError) (a : Action) : Prop :=
  match a with
  | ARow (OpError _) => may_mark te = true
  | ARow OpRequeue => may_requeue txHandler te = true
  | ARow (OpReceived _) | ARow OpUnlock => True
  | ARestore _ => entry_archived te = true
  | _ => False
  end.

(** After the submission, by the answer of Horizon. *)
Definition finishing (answer : result err HorizonTx) (a : Action) : Prop :=
  match answer with
  | Ok r =>
    match a with
    | ARow OpSuccess => Successful r = true
    | ARow (OpReceived _) | ARow OpUnlock => True
    | _ => False
    end
  | Err e => failing (TEHorizon (horizon_wrapper e)) a
  end.

Lemma phase_steps_mono (K1 K2 : Action -> Prop) w w' :
  (forall a, K1 a -> K2 a) -> steps K1 w w' -> steps K2 w w'.
Proof.
  intros HK Hs. induction Hs as [|w1 w2 w3 Hp _ IH]; [apply rtc_refl|]. eapply rtc_l; [|exact IH].
  destruct Hp; [apply prim_settle|eapply prim_tx|eapply prim_ca|eapply prim_job|apply prim_limiter|
    by apply prim_event|apply prim_submit|apply prim_restore]; eauto.
Qed.

Lemma run_of_mono (K1 K2 : Action -> Prop) w w' :
  (forall a, K1 a -> K2 a) -> run_of K1 w w' -> run_of K2 w w'.
Proof.
  intros HK Hr Ho. destruct (Hr Ho) as [Ho' Hs]. split; [done|]. by apply (phase_steps_mono K1).
Qed.

Lemma phase_validate K : respects (run_of K) validateJob.
Proof. apply respects_validateJob; [apply _|apply leaf_settle]. Qed.

Lemma phase_reconcile job :
  respects (run_of (reconciling (default "" (StellarTransactionHash (job_Transaction job)))))
    (reconcile_detail job).
Proof.
  apply respects_reconcile_detail; [apply _|apply leaf_settle|intros; by apply leaf_event| | | |].
  - by apply leaf_unlock.
  - intros H resp. by apply leaf_received.
  - intros H. by apply leaf_success.
  - intros H. by apply leaf_prepare.
Qed.

Lemma phase_failing resp te :
  respects (run_of (fun a => failing te a /\ (resp = None -> preparing a)))
    (handleFailedTransaction cfg txHandler resp te).
Proof.
  apply respects_handleFailed; [apply _|apply leaf_settle|intros; by apply leaf_event|
    apply leaf_limiter|by apply leaf_unlock| | | |].
  - destruct resp; [by apply leaf_received|]. intros w. reflexivity.
  - intros H msg. by apply leaf_mark.
  - intros H. by apply leaf_prepare.
  - intros H w fb. apply run_of_prim. intros _. by apply prim_restore.
Qed.

(** Outcomes along a program that stays in a phase. *)
Lemma wp_run_of {A} K (m : M D WorkerLocal WorkerEvent A) Q w :
  respects (run_of K) m -> owns w ->
  (forall r w', owns w' -> steps K w w' -> Q r w') -> wp m Q w.
Proof. intros Hm Ho HQ. destruct (Hm w Ho). by apply HQ. Qed.

(** A program that only builds when it succeeds; when it fails, it may have
    handled the failure of the transaction. *)
Definition builds {A} (m : M D WorkerLocal WorkerEvent A) : Prop :=
  forall w, owns w ->
    wp m (fun r w' => owns w' /\
            match r with Ok _ => steps building w w' | Err _ => steps preparing w w' end) w.

Lemma building_preparing w w' : steps building w w' -> steps preparing w w'.
Proof. apply phase_steps_mono. by intros [[]| |]. Qed.

Lemma builds_run {A} (m : M D WorkerLocal WorkerEvent A) : respects (run_of building) m -> builds m.
Proof.
  intros Hm w Ho. apply (wp_run_of building); [done|done|]. intros [a|e] w' Ho' Hs; [done|].
  split; [done|by apply building_preparing].
Qed.

Lemma builds_bind {A B} (m : M D WorkerLocal WorkerEvent A) (k : A -> M D WorkerLocal WorkerEvent B) :
  builds m -> (forall a, builds (k a)) -> builds (mbind_ m k).
Proof.
  intros Hm Hk w Ho. rewrite wp_bind. eapply wp_mono; [by apply Hm|].
  intros [a|e] w1 [Ho1 Hs1]; [|done]. eapply wp_mono; [by apply Hk|].
  intros [b|e] w2 [Ho2 Hs2]; (split; [done|]); [by etransitivity|].
  apply building_preparing in Hs1. by etransitivity.
Qed.

Lemma builds_or_prepare {A} (m : M D WorkerLocal WorkerEvent A) :
  respects (run_of building) m -> builds (or_prepare_error cfg txHandler m).
Proof.
  intros Hm w Ho. unfold or_prepare_error. rewrite wp_bind, wp_try.
  apply (wp_run_of building); [done|done|]. intros [a|e] w1 Ho1 Hs1; [by rewrite wp_ret|].
  apply building_preparing in Hs1.
  assert (Hf : forall te, owns (snd (handleFailedTransaction cfg txHandler None te w1)) /\
                          steps preparing w (snd (handleFailedTransaction cfg txHandler None te w1))).
  { intros te. destruct (phase_failing None te w1 Ho1) as [Ho2 Hs2]. split; [done|].
    etransitivity; [exact Hs1|]. revert Hs2. apply phase_steps_mono. intros a [_ Ha]. by apply Ha. }
  unfold handlePreparationError. repeat case_match; try (by rewrite wp_throw);
    rewrite wp_bind, wp_try;
    match goal with |- wp (handleFailedTransaction _ _ _ ?te) _ _ => specialize (Hf te) end;
    unfold wp; by case_match; rewrite ?wp_throw.
Qed.

Lemma builds_ask {A} (f : nat -> res A) p : builds (wrapM p (ask_res f)).
Proof. apply builds_run, respects_wrap. intros w. apply leaf_settle. Qed.

Lemma builds_lift {A} (r : res A) : builds (lift r).
Proof. apply builds_run. intros w. reflexivity. Qed.

Lemma builds_buildAndSign : builds (buildAndSignTransaction cfg txHandler).
Proof.
  unfold buildAndSignTransaction.
  apply builds_bind; [apply builds_run; intros w; reflexivity|intros job].
  apply builds_bind; [apply builds_ask|intros account].
  apply builds_bind; [apply builds_lift|intros _].
  apply builds_bind; [apply builds_or_prepare; intros w; apply leaf_settle|intros sequence].
  apply builds_bind; [apply builds_or_prepare, respects_build; [apply _|apply leaf_settle]|intros innerTx].
  apply builds_bind; [apply builds_ask|intros innerTx'].
  apply builds_bind; [apply builds_run, respects_wrap; intros w; reflexivity|intros fb].
  apply builds_ask.
Qed.

Lemma prepare_post w :
  owns w ->
  wp (prepareForSubmission cfg txHandler)
    (fun r w' => owns w' /\
       match r with
       | Ok fb => steps building w w' /\ saved fb (the_row w')
       | Err _ => steps preparing w w'
       end) w.
Proof.
  intros Ho. unfold prepareForSubmission. rewrite wp_bind.
  eapply wp_mono; [by apply builds_buildAndSign|]. intros [fb|e] w1 [Ho1 Hs1]; [|done].
  pose proof (building_preparing _ _ Hs1) as Hs1'.
  rewrite wp_bind. change (wp get_job ?Q w1) with (Q (Ok (the_job w1)) w1). cbn beta iota.
  rewrite wp_bind, wp_wrap, wp_lift.
  destruct (HashHex fb (NetworkPassphrase cfg)) as [h|e] eqn:Eh; cbn; [|done].
  rewrite wp_bind, wp_wrap, wp_lift. destruct (FeeBump_Base64 fb) as [x|e] eqn:Ex; cbn; [|done].
  rewrite wp_bind.
  eapply wp_mono; [apply (job_call_post building (OpSent h x (FeeAccount fb)) (fun job => EWrap _)
    (fun job => UpdateStellarTransactionHashXDRSentAndDistributionAccount
                  (ID (job_Transaction job)) h x (FeeAccount fb)) w1); [done| |done]|].
  { intros job. apply UpdateHash_call. }
  intros [[]|e] w2 (Ho2 & Hs2 & Hp).
  - rewrite wp_ret. split; [done|]. split; [by etransitivity|].
    destruct (Hp eq_refl) as (ctx & tx & Hrow).
    by exists (refresh_tx ctx (set_sent h x (FeeAccount fb) ctx tx)), h, x.
  - split; [done|]. apply building_preparing in Hs2. by etransitivity.
Qed.

(** The other processes leave the row of a locked job alone. *)
Context (rely : forall t d,
  lookup_tx txID (conn_get (env_interfere t d)) = lookup_tx txID (conn_get d)).

Lemma row_settle w : the_row (settle w) = the_row w.
Proof. unfold the_row, tss, settle. case_bool_decide; [apply rely|done]. Qed.

(** The submission step of a run: the envelope, already saved, leaves. *)
Definition submits fb (w1 w2 : W) : Prop :=
  saved fb (the_row w1) /\ w2 = with_event (EvSubmit fb (tss w1)) w1.

Definition submission_run (w w' : W) : Prop :=
  steps preparing w w' \/
  exists fb t w1 w2, steps building w w1 /\ submits fb w1 w2 /\
    steps (finishing (fst (SubmitFeeBump t fb))) w2 w'.

Lemma submit_post fb w0 w :
  owns w -> steps building w0 w -> saved fb (the_row w) ->
  wp (submit cfg txHandler fb) (fun _ w' => owns w' /\ submission_run w0 w') w.
Proof.
  intros Ho Hs0 Hs. unfold submit, submit_call. rewrite wp_bind, wp_bind.
  set (w1 := settle w).
  assert (Ho1 : owns w1) by by apply owns_settle.
  change (wp (ask ?f) ?Q w) with (Q (Ok tt) w1). cbn beta iota. rewrite wp_bind.
  set (w2 := with_event (EvSubmit fb (tss w1)) w1).
  change (wp (emit ?f) ?Q w1) with (Q (Ok tt) w2). cbn beta iota.
  assert (Hsub : submits fb w1 w2) by (split; [by unfold w1; rewrite row_settle|done]).
  assert (Hs1 : steps building w0 w1) by (eapply rtc_r; [exact Hs0|apply prim_settle]).
  change (wp (ask ?f) ?Q w2) with (Q (Ok (SubmitFeeBump (w_clock w2) fb)) (settle w2)).
  cbn beta iota.
  assert (Ho2 : owns (settle w2)) by by apply owns_settle.
  assert (Hdone : forall w', run_of (finishing (fst (SubmitFeeBump (w_clock w2) fb))) (settle w2) w' ->
     owns w' /\ submission_run w0 w').
  { intros w' Hr. destruct (Hr Ho2) as [Ho' Hs']. split; [done|]. right.
    exists fb, (w_clock w2), w1, w2. split; [done|]. split; [done|].
    eapply rtc_l; [apply prim_settle|done]. }
  destruct (SubmitFeeBump (w_clock w2) fb) as [[t|e] o] eqn:Ea.
  - apply Hdone. apply respects_wrap. apply respects_handleSuccessful; [apply _|
      intros; by apply leaf_event|apply leaf_unlock|apply leaf_received|].
    + done.
    + done.
    + intros Hsuc. by apply leaf_success.
  - apply Hdone. apply respects_wrap. intros w'. eapply run_of_mono; [|apply phase_failing].
    by intros a [Ha _].
Qed.

Lemma submission_run_early w w1 w' :
  steps building w w1 -> submission_run w1 w' -> submission_run w w'.
Proof.
  intros Hs [H|(fb & t & w2 & w3 & H1 & H2 & H3)].
  - left. apply building_preparing in Hs. by etransitivity.
  - right. exists fb, t, w2, w3. split; [by etransitivity|done].
Qed.

Lemma process_post w :
  owns w ->
  wp (processTransactionSubmission cfg txHandler) (fun _ w' => owns w' /\ submission_run w w') w.
Proof.
  intros Ho. unfold processTransactionSubmission. rewrite wp_bind.
  change (wp get_job ?Q w) with (Q (Ok (the_job w)) w). cbn beta iota. rewrite wp_bind.
  apply (wp_run_of building); [by apply respects_emit_; [apply leaf_event|]|done|].
  intros [[]|e] w1 Ho1 Hs1; [|split; [done|left; by apply building_preparing]]. rewrite wp_bind, wp_wrap.
  apply (wp_run_of building); [apply phase_validate|done|].
  intros r w2 Ho2 Hs2. assert (Hs : steps building w w2) by by etransitivity.
  destruct r as [[]|e]; cbn; [|split; [done|left; by apply building_preparing]].
  rewrite wp_bind, wp_try. eapply wp_mono; [by apply prepare_post|]. intros [fb|e] w3 [Ho3 H3].
  - destruct H3 as [Hs3 Hsaved]. rewrite wp_wrap.
    eapply wp_mono; [apply (submit_post fb w w3); [done|by etransitivity|done]|done].
  - assert (Hs' : submission_run w w3).
    { apply (submission_run_early _ _ _ Hs). by left. }
    by destruct (errors_Is e _); [rewrite wp_ret|rewrite wp_throw].
Qed.

Lemma submission_run_event w w' ev :
  is_submission ev = false -> submission_run w w' -> submission_run w (with_event ev w').
Proof.
  intros Hev [H|(fb & t & w1 & w2 & H1 & H2 & H3)]; [left|right; exists fb, t, w1, w2; split; [done|];
    split; [done|]]; (eapply rtc_r; [eassumption|by apply prim_event]).
Qed.

Lemma validate_loc w : w_loc (snd (validateJob w)) = w_loc w.
Proof.
  assert (HR : PreOrder (fun w1 w2 : W => w_loc w2 = w_loc w1)).
  { split; [done|]. by intros w1 w2 w3 -> ->. }
  exact (respects_validateJob (fun w1 w2 : W => w_loc w2 = w_loc w1) settle_loc w).
Qed.

(** What a run does, as an abstract worker. *)
Definition worker_spec (w w' : W) : Prop :=
  match StellarTransactionHash (job_Transaction (the_job w)) with
  | Some h => steps (reconciling h) w w'
  | None => submission_run w w'
  end.

Lemma runJob_post w :
  owns w -> wp (runJob cfg txHandler) (fun _ w' => owns w' /\ worker_spec w w') w.
Proof.
  intros Ho. unfold runJob. rewrite wp_bind, wp_wrap.
  assert (Hv : forall K, run_of K w (snd (validateJob w))) by (intros K; apply phase_validate).
  pose proof (validate_loc w) as Hloc. unfold wp at 1.
  destruct (validateJob w) as [[[]|e] w1]; cbn [fst snd wrap res_map_err] in *; unfold worker_spec.
  2: { case_match; [|unfold submission_run]; (edestruct Hv as [Ho1 Hs1]; [done|]; split; [done|]).
       - exact Hs1.
       - left. exact Hs1. }
  rewrite wp_bind. change (wp get_job ?Q w1) with (Q (Ok (the_job w1)) w1). cbn beta iota.
  assert (Hj : the_job w1 = the_job w) by (unfold the_job; by rewrite Hloc).
  rewrite Hj. destruct (StellarTransactionHash (job_Transaction (the_job w))) as [h|] eqn:Eh.
  - destruct (Hv (reconciling h) Ho) as [Ho1 Hs1].
    unfold reconcileSubmittedTransaction. rewrite wp_bind, wp_wrap.
    pose proof (validate_loc w1) as Hloc2. pose proof (phase_validate (reconciling h) w1 Ho1) as [Ho2 Hs2].
    unfold wp at 1. destruct (validateJob w1) as [[[]|e] w2]; cbn [fst snd wrap res_map_err] in *;
      [|split; [done|by etransitivity]].
    rewrite wp_bind. change (wp get_job ?Q w2) with (Q (Ok (the_job w2)) w2). cbn beta iota.
    assert (Hj2 : the_job w2 = the_job w) by (unfold the_job in *; by rewrite Hloc2).
    pose proof (phase_reconcile (the_job w2) w2 Ho2) as [Ho3 Hs3].
    rewrite Hj2 in *. rewrite Eh in Hs3. cbn in Hs3. split; [done|].
    etransitivity; [exact Hs1|]. by etransitivity.
  - destruct (Hv building Ho) as [Ho1 Hs1].
    eapply wp_mono; [by apply process_post|]. intros r w' [Ho' Hs']. split; [done|].
    by apply (submission_run_early _ w1).
Qed.

Lemma run_post w : owns w -> owns (snd (Run cfg txHandler w)) /\ worker_spec w (snd (Run cfg txHandler w)).
Proof.
  intros Ho. change (wp (Run cfg txHandler) (fun _ w' => owns w' /\ worker_spec w w') w).
  unfold Run. rewrite wp_bind, wp_try. eapply wp_mono; [by apply runJob_post|].
  intros [[]|e] w' [Ho' Hs']; [by rewrite wp_ret|].
  change (owns w' /\ worker_spec w (with_event (EvCrash e "unexpected TSS error") w')).
  split; [done|]. unfold worker_spec in *. case_match; [|by apply submission_run_event].
  eapply rtc_r; [exact Hs'|by apply prim_event].
Qed.
End refinement.
