(* ===== verification/WorkerSafety.v ===== *)
(** The safety properties of the transaction worker, from the refinement of
    WorkerProofs.v: no envelope leaves before it is saved, no transaction is
    submitted twice in the dark, statuses follow the state machine and say what
    Horizon said, and nothing else in the database is touched. *)

From S2P Require Import Prelude GoStrings Errors StateMachine Effects Schema TxStore.
From S2P Require Import Limiter Handlers ChannelAccounts Worker WorkerProofs.

Local Open Scope string_scope.
Local Open Scope list_scope.

(** ** Consequences of the steps *)

Section consequences.
Context {D : Type} {E : Env D} {C : Conn D TssDb} {CL : ConnLaws D TssDb} {SDK : StellarSdk}
  {TB : TxnBuild} {TO : TxnBuildOps} {EN : Engine} {HC : HorizonClient} (cfg : EngineConfig)
  (txHandler : TransactionHandler) (txID caKey : string).
Abbreviation W := (World D WorkerLocal WorkerEvent).
Abbreviation steps := (steps cfg txID caKey).
Abbreviation prim := (prim cfg txID caKey).
Abbreviation row := (the_row txID).

(** The events a phase can leave in the trace. *)
Definition event_ok (K : Action -> Prop) (ev : WorkerEvent) : Prop :=
  match ev with
  | EvSubmit fb db => K (ASubmit fb) /\ saved cfg fb (lookup_tx txID db)
  | EvSubmitRestore fb => K (ARestore fb)
  | _ => True
  end.

Lemma prim_trace K w w' :
  prim K w w' -> exists new, w_trace w' = w_trace w ++ new /\ Forall (event_ok K) new.
Proof.
  intros Hp. destruct Hp as [w|w k ctx db' tx HK Ho Hr Hg Hl|w ctx db' ca Ho Hc Hl|w tx Hr|w e|
    w ev Hev|w fb HS Hs|w fb HK]; try (exists []; rewrite app_nil_r; by split; [|constructor]).
  - exists []. by rewrite settle_trace, app_nil_r.
  - exists [ev]. split; [done|]. constructor; [by destruct ev|constructor].
  - exists [EvSubmit fb (tss w)]. split; [done|]. by repeat constructor.
  - exists [EvSubmitRestore fb]. split; [done|]. by repeat constructor.
Qed.

Lemma steps_trace K w w' :
  steps K w w' -> exists new, w_trace w' = w_trace w ++ new /\ Forall (event_ok K) new.
Proof.
  intros Hs. induction Hs as [w|w1 w2 w3 Hp _ (n2 & -> & H2)].
  - exists []. by rewrite app_nil_r.
  - apply prim_trace in Hp as (n1 & -> & H1). exists (n1 ++ n2).
    rewrite app_assoc. split; [done|]. by apply Forall_app.
Qed.

Context (rely : forall t d,
  lookup_tx txID (conn_get (env_interfere t d)) = lookup_tx txID (conn_get d)).

(** What holds of the row and of the job, when the operations keep it. *)
Lemma steps_row K (P : Transaction -> Prop) w w' :
  (forall k ctx tx, K (ARow k) -> P tx -> P (refresh_tx ctx (set_of k ctx tx))) ->
  steps K w w' -> (exists tx, row w = Some tx /\ P tx) -> exists tx, row w' = Some tx /\ P tx.
Proof.
  intros HP Hs. induction Hs as [w|w1 w2 w3 Hp _ IH]; [done|]. intros (tx & Hrow & Htx). apply IH.
  clear IH. destruct Hp as [w|w k ctx db' tx' HK Ho Hr Hg Hl|w ctx db' ca Ho Hc Hl|w tx' Hr|w e|
    w ev Hev|w fb HS Hs|w fb HK]; try (by exists tx).
  - exists tx. by rewrite row_settle.
  - assert (tx' = tx) as -> by congruence.
    eexists. unfold the_row. rewrite tss_put. split; [exact Hl|]. by apply HP.
  - exists tx. unfold the_row. rewrite tss_put. split; [|done]. by rewrite (own_ca_step_tx _ _ _ _ Ho).
Qed.

(** The status an operation gives. *)
Definition marks (k : TxOp) : option string :=
  match k with
  | OpSuccess => Some TransactionStatusSuccess
  | OpError _ => Some TransactionStatusError
  | _ => None
  end.

Lemma set_of_status k ctx tx :
  Status (refresh_tx ctx (set_of k ctx tx)) = default (Status tx) (marks k).
Proof. by destruct k. Qed.

Lemma guard_marks k s job tx :
  marks k = Some s -> guard_of k job tx -> step tss_transitions (Status (job_Transaction job)) s.
Proof. by destruct k; intros [= <-]. Qed.

(** In a phase that marks with one status only, the row and the job stay at
    their status or take that one, as the state machine allows and for the
    reason [P] the phase has. *)
Definition status_in (s0 s1 : string) (P : Prop) (s : string) : Prop :=
  s = s0 \/ (s = s1 /\ step tss_transitions s0 s1 /\ P).

Definition status_inv (s0 s1 : string) (P : Prop) (w : W) : Prop :=
  (exists tx, row w = Some tx /\ status_in s0 s1 P (Status tx)) /\
  status_in s0 s1 P (Status (job_Transaction (the_job w))).

Lemma steps_status K s0 s1 P w w' :
  (forall k s, K (ARow k) -> marks k = Some s -> s = s1 /\ P) ->
  steps K w w' -> status_inv s0 s1 P w -> status_inv s0 s1 P w'.
Proof.
  intros HK Hs. induction Hs as [w|w1 w2 w3 Hp _ IH]; [done|].
  intros [(tx & Hrow & Htx) Hj]. apply IH. clear IH.
  destruct Hp as [w|w k ctx db' tx' HKk Ho Hr Hg Hl|w ctx db' ca Ho Hc Hl|w tx' Hr|w e|
    w ev Hev|w fb HS Hs|w fb HKf]; try (by split; [exists tx|]).
  - split; [exists tx; by rewrite row_settle|]. unfold the_job. by rewrite settle_loc.
  - split; [|done]. eexists. unfold the_row. rewrite tss_put. split; [exact Hl|].
    rewrite set_of_status. assert (tx' = tx) as -> by congruence.
    destruct (marks k) as [s|] eqn:Em; [|done]. cbn.
    pose proof (guard_marks k s _ _ Em Hg) as Hstep. destruct (HK k s HKk Em) as [-> HP].
    right. split; [done|]. destruct Hj as [Hj|(_ & Hj & _)]; [by rewrite <- Hj|done].
  - split; [|done]. exists tx. unfold the_row. rewrite tss_put. split; [|done].
    by rewrite (own_ca_step_tx _ _ _ _ Ho).
  - assert (tx' = tx) as -> by congruence. split; [by exists tx|done].
Qed.

(** ** The rest of the database *)

(** A relation on databases that holds of what the others write and of any
    change of the job's own row and channel account holds of the whole run. *)
Lemma steps_frame (I : D -> D -> Prop) {HI : PreOrder I} K w w' :
  (forall t d, I d (env_interfere t d)) ->
  (forall d db', own_tx_step txID (conn_get d) db' \/ own_ca_step caKey (conn_get d) db' ->
     I d (conn_set db' d)) ->
  steps K w w' -> I (w_db w) (w_db w').
Proof.
  intros Hi Ho Hs. induction Hs as [w|w1 w2 w3 Hp _ IH]; [done|].
  transitivity (w_db w2); [|done]. clear IH.
  destruct Hp as [w|w k ctx db' tx HK Hown Hr Hg Hl|w ctx db' ca Hown Hc Hl|w tx Hr|w e|
    w ev Hev|w fb HS Hs|w fb HK]; cbn; try done.
  - unfold settle. case_bool_decide; cbn; [apply Hi|done].
  - apply Ho. by left.
  - apply Ho. by right.
Qed.
End consequences.

(** ** Unlocking *)

Section unlocking.
Context {D : Type} {E : Env D} {C : Conn D TssDb} {CL : ConnLaws D TssDb} {SDK : StellarSdk}
  {TB : TxnBuild} {TO : TxnBuildOps} {EN : Engine} {HC : HorizonClient} (cfg : EngineConfig)
  (txHandler : TransactionHandler) (txID caKey : string).
Abbreviation W := (World D WorkerLocal WorkerEvent).
Context (rely_tx : forall t d,
    lookup_tx txID (conn_get (env_interfere t d)) = lookup_tx txID (conn_get d))
  (rely_ca : forall t d,
    lookup_ca caKey (conn_get (env_interfere t d)) = lookup_ca caKey (conn_get d)).

(** The row and the channel account are free for the next poll. *)
Definition unlocked (w : W) : Prop :=
  (exists tx, the_row txID w = Some tx /\ LockedAt tx = None /\ LockedUntilLedgerNumber tx = None) /\
  (exists ca, the_channel caKey w = Some ca /\ CA_LockedAt ca = None /\
              CA_LockedUntilLedgerNumber ca = None).

Lemma channel_settle (w : W) : the_channel caKey (settle w) = the_channel caKey w.
Proof. unfold the_channel, tss, settle. case_bool_decide; [apply rely_ca|done]. Qed.

Lemma unlockJob_post (w : W) :
  owns txID caKey w -> wp unlockJob (fun r w' => r = Ok tt -> unlocked w') w.
Proof.
  intros Ho. pose proof Ho as (Htx & Hid & Hca).
  change (wp (wrapM "unlocking channel account"
                (CA_Unlock (CA_PublicKey (job_ChannelAccount (the_job w)))) ;;!
              wrapM "unlocking transaction" (Tx_Unlock (ID (job_Transaction (the_job w)))) ;;!
              mret_ tt) (fun r w' => r = Ok tt -> unlocked w') w).
  rewrite Hca, Hid. rewrite wp_bind, wp_wrap. apply CA_Unlock_call; [done|done|].
  intros ctx db' ca r Hown Hl _ Hl' Hr. destruct Hr as [-> | [e ->]]; cbn; [|done].
  set (w1 := put_part db' (settle w)). rewrite wp_bind, wp_wrap.
  apply Tx_Unlock_call; [by unfold w1; cbn; rewrite settle_tx|done|done|].
  intros ctx2 db2 tx r Hown2 _ Hl2 _ Hl2' Hr. destruct Hr as [-> | [e ->]]; [|done].
  cbn [wrap res_map_err].
  rewrite wp_ret. intros _. split.
  - eexists. unfold the_row. rewrite tss_put. split; [exact Hl2'|done].
  - eexists. unfold the_channel. rewrite tss_put, (own_tx_step_ca _ _ _ _ Hown2).
    change (lookup_ca caKey (tss (settle w1))) with (the_channel caKey (settle w1)).
    rewrite channel_settle. unfold the_channel, w1. rewrite tss_put. split; [exact Hl'|done].
Qed.

(** A program that returns [nil] has unlocked. *)
Definition unlocks (m : M D WorkerLocal WorkerEvent unit) : Prop :=
  forall w, owns txID caKey w -> wp m (fun r w' => r = Ok tt -> unlocked w') w.

Lemma unlockJob_unlocks : unlocks unlockJob.
Proof. exact unlockJob_post. Qed.

Definition anything (a : Action) : Prop := True.

Lemma unlocks_after {A} (m : M D WorkerLocal WorkerEvent A) k :
  respects (run_of cfg txID caKey anything) m -> (forall a, unlocks (k a)) -> unlocks (mbind_ m k).
Proof.
  intros Hm Hk w Ho. rewrite wp_bind. destruct (Hm w Ho) as [Ho' _]. unfold wp at 1.
  destruct (m w) as [[a|e] w']; cbn in *; [by apply Hk|done].
Qed.

Lemma unlocks_event m ev : unlocks m -> unlocks (m ;;! emit_ ev).
Proof.
  intros Hm w Ho. rewrite wp_bind. eapply wp_mono; [by apply Hm|].
  intros [[]|e] w' H; [|done]. intros _. by apply H.
Qed.

Lemma unlocks_wrap p m : unlocks m -> unlocks (wrapM p m).
Proof.
  intros Hm w Ho. rewrite wp_wrap. eapply wp_mono; [by apply Hm|]. by intros [[]|e] w' H.
Qed.

Lemma unlocks_throw e : unlocks (throw e).
Proof. by intros w _. Qed.

Lemma unlock_and_return_post b w :
  owns txID caKey w -> wp (unlock_and_return b) (fun r w' => forall b', r = Ok (b', Ok tt) -> unlocked w') w.
Proof.
  intros Ho. unfold unlock_and_return. rewrite wp_bind, wp_try.
  eapply wp_mono; [by apply unlockJob_post|]. intros [[]|e] w' H; rewrite wp_ret; [|done].
  intros b' _. by apply H.
Qed.

Ltac any := first [intros; by apply leaf_event | apply leaf_settle | apply leaf_limiter
  | by apply leaf_unlock | by apply leaf_prepare | intros; by apply leaf_mark
  | apply leaf_success | apply leaf_received | done | apply _
  | intros ? ?; apply run_of_prim; intros _; by apply prim_restore ].

Lemma handleEntryArchived_post te w :
  owns txID caKey w ->
  wp (handleEntryArchived cfg te) (fun r w' => forall b, r = Ok (b, Ok tt) -> unlocked w') w.
Proof.
  intros Ho. unfold handleEntryArchived. rewrite wp_bind.
  change (wp get_job ?Q w) with (Q (Ok (the_job w)) w). cbn beta iota.
  assert (Hfail : forall msg e m, wp (fail_archived msg e m)
            (fun r w' => forall b, r = Ok (b, Ok tt) -> unlocked w') w).
  { intros msg e m. unfold fail_archived. rewrite wp_bind, wp_try.
    apply (wp_run_of cfg txID caKey anything); [by apply leaf_mark|done|].
    intros [[]|e'] w1 Ho1 _; [|by rewrite wp_ret]. rewrite wp_bind.
    apply (wp_run_of cfg txID caKey anything); [by apply respects_report; any|done|].
    intros [[]|e'] w2 Ho2 _; [|done]. by apply unlock_and_return_post. }
  destruct (negb _); [apply Hfail|]. destruct (_ <? _)%Z; [apply Hfail|].
  rewrite wp_bind. apply (wp_run_of cfg txID caKey anything);
    [apply respects_try, respects_restore; any|done|].
  intros [r|e] w1 Ho1 _; [|done]. rewrite wp_bind, wp_try.
  apply (wp_run_of cfg txID caKey anything); [by apply leaf_prepare|done|].
  intros [[]|e] w2 Ho2 _; [by apply unlock_and_return_post|by rewrite wp_ret].
Qed.

Lemma settle_failure_unlocks te : unlocks (settle_failure txHandler te).
Proof.
  unfold settle_failure. apply unlocks_after; [|intros []; apply unlocks_wrap, unlockJob_unlocks].
  destruct (ShouldMarkAsError te).
  - apply respects_bind; [apply _|by apply leaf_mark|intros _].
    case_match; [apply respects_report; any|intros w; reflexivity].
  - apply respects_bind; [apply _| |intros _].
    + case_match; [apply respects_wrap; by apply leaf_prepare|intros w; reflexivity].
    + repeat case_match; try (intros w; reflexivity); apply respects_report; any.
Qed.

Lemma handleFailed_unlocks resp te : unlocks (handleFailedTransaction cfg txHandler resp te).
Proof.
  intros w Ho. unfold handleFailedTransaction. rewrite wp_bind.
  assert (Hb : wp (handleFailed_body cfg txHandler resp te)
            (fun r w' => forall b, r = Ok (b, Ok tt) -> unlocked w') w).
  { unfold handleFailed_body. rewrite wp_bind, wp_try.
    apply (wp_run_of cfg txID caKey anything); [by apply respects_wrap, leaf_received|done|].
    intros [[]|e] w1 Ho1 _; [|by rewrite wp_ret]. rewrite wp_bind.
    apply (wp_run_of cfg txID caKey anything); [any|done|]. intros [[]|e] w2 Ho2 _; [|done].
    destruct (entry_archived te); [by apply handleEntryArchived_post|].
    rewrite wp_bind, wp_try. eapply wp_mono; [by apply settle_failure_unlocks|].
    intros [[]|e] w3 H; rewrite wp_ret; [|done]. intros b _. by apply H. }
  eapply wp_mono; [exact Hb|]. intros [[b r]|e] w' H; [|done].
  intros Hr. cbn in Hr. subst r. by apply (H b).
Qed.

Lemma handleSuccessful_unlocks resp : unlocks (handleSuccessfulTransaction resp).
Proof.
  unfold handleSuccessfulTransaction.
  apply unlocks_after; [by apply respects_wrap, leaf_received|intros []].
  destruct (negb _); [apply unlocks_throw|].
  apply unlocks_after; [by apply leaf_success|intros []].
  intros w Ho. rewrite wp_bind, wp_wrap. eapply wp_mono; [by apply unlockJob_post|].
  intros [[]|e] w' H; [|done]. intros _. by apply H.
Qed.

Lemma reconcile_unlocks job : unlocks (reconcile_detail job).
Proof.
  unfold reconcile_detail. apply unlocks_after; [apply respects_try; intros w; apply leaf_settle|].
  assert (Hre : unlocks (wrapM "pushing back transaction to queue" prepareForReprocessing ;;!
    wrapM "unlocking job" unlockJob ;;!
    emit_ (EvReconciliationSuccess (ID (job_Transaction job)) ReconcileReprocessing))).
  { apply unlocks_after; [by apply respects_wrap, leaf_prepare|intros []].
    by apply unlocks_event, unlocks_wrap, unlockJob_unlocks. }
  intros [d|e].
  - destruct (is_successful d); [|done]. intros w Ho. rewrite wp_bind, wp_try.
    eapply wp_mono; [by apply handleSuccessful_unlocks|]. intros [[]|e] w' H.
    + intros _. by apply H.
    + by rewrite wp_bind.
  - destruct (negb _); [|done]. intros w Ho. by rewrite wp_bind.
Qed.
End unlocking.

(** ** A concrete service, for the witnesses

    Strings play the envelopes, the server never fails and the other processes
    are idle; Horizon's answers are given by [answer] and [detail]. *)

Module Sample.
Export Toy.

#[export] Instance horizon : HorizonClient := sample_horizon_client.

Definition hash_of (fb : string) : string :=
  String.substring 0 64 (fb +:+ "0000000000000000000000000000000000000000000000000000000000000000").

Definition engine (answer : string -> result err HorizonTx) (detail : string -> res (option HorizonTx)) :
    Engine :=
  {| LedgerNumber _ := Ok 100%Z;
     ResolveDistributionAccount _ _ := Ok (NewDefaultStellarTransactionAccount "GDIST");
     AccountDetail _ _ := Ok 7%Z; TransactionDetail _ h := detail h;
     SubmitFeeBump _ fb := (answer fb, None);
     SignStellarTransaction _ tx _ := Ok tx; SignFeeBumpStellarTransaction _ fb _ := Ok fb;
     NewFeeBumpTransaction tx _ _ := Ok ("fb:" +:+ tx); HashHex fb _ := Ok (hash_of fb);
     FeeBump_Base64 fb := Ok ("xdr:" +:+ fb); FeeAccount _ := "GDIST" |}.

Definition transaction (status : string) (hash : option string) : Transaction :=
  mkTransaction "t1" "p1" status None [] TransactionTypePayment "XLM" "" 50000000 "GDEST" "" ""
    "" "" "" "" "tenant" None 0 0 None None None None 0 hash None None (Some 0%Z) (Some 110%Z).
Definition channel : ChannelAccount := mkChannelAccount "GCHAN" "S" 0 0 (Some 0%Z) (Some 110%Z).

Definition world (status : string) (hash : option string) :
    World TssDb WorkerLocal WorkerEvent :=
  mkWorld (mkTssDb [transaction status hash] [channel]) 0 ∅
    (mkLocal (mkTxJob channel (transaction status hash) 110)
       (NewTransactionProcessingLimiter 10 0)) [].

Definition accepted (fb : string) : result err HorizonTx := Ok (mkHorizonTx true ("ok:" +:+ fb)).
Definition timed_out (fb : string) : result err HorizonTx := Err (EExternal "timeout").
Definition found (h : string) : res (option HorizonTx) := Ok (Some (mkHorizonTx true "ok")).

Lemma world_owns status hash : owns "t1" "GCHAN" (world status hash).
Proof. done. Qed.
End Sample.

(** ** The theorems *)

Section theorems.
Context {D : Type} {E : Env D} {C : Conn D TssDb} {CL : ConnLaws D TssDb} {SDK : StellarSdk}
  {TB : TxnBuild} {TO : TxnBuildOps} {EN : Engine} {HC : HorizonClient} (cfg : EngineConfig)
  (txHandler : TransactionHandler) (txID caKey : string).
Abbreviation W := (World D WorkerLocal WorkerEvent).

(** The other processes respect the locks of the job. *)
Record respect_locks : Prop := {
  rely_tx : forall t d,
    lookup_tx txID (conn_get (env_interfere t d)) = lookup_tx txID (conn_get d);
  rely_ca : forall t d,
    lookup_ca caKey (conn_get (env_interfere t d)) = lookup_ca caKey (conn_get d) }.

Definition is_payment_submission (ev : WorkerEvent) : bool :=
  match ev with EvSubmit _ _ => true | _ => false end.

Lemma no_submission K new :
  (forall fb, ~ K (ASubmit fb)) -> Forall (event_ok cfg txID K) new ->
  filter (fun ev => is_payment_submission ev = true) new = [].
Proof.
  intros HK H. induction H as [|ev new Hev _ IH]; [done|]. rewrite filter_cons.
  destruct ev; cbn; try done. by destruct Hev as [Hk _], (HK fb Hk).
Qed.

Lemma worker_trace (w : W) :
  respect_locks -> owns txID caKey w ->
  exists new, w_trace (snd (Run cfg txHandler w)) = w_trace w ++ new /\
    Forall (event_ok cfg txID anything) new /\
    match StellarTransactionHash (job_Transaction (the_job w)) with
    | Some _ => Forall (fun ev => is_submission ev = false) new
    | None => length (filter (fun ev => is_payment_submission ev = true) new) <= 1
    end.
Proof.
  intros [Htx Hca] Ho. destruct (run_post cfg txHandler txID caKey Htx w Ho) as [_ Hs].
  unfold worker_spec in Hs.
  assert (Hany : forall K new, Forall (event_ok cfg txID K) new ->
    Forall (event_ok cfg txID anything) new).
  { intros K new Hf. eapply Forall_impl; [exact Hf|]. intros []; cbn; try done. by intros [_ ?]. }
  destruct (StellarTransactionHash (job_Transaction (the_job w))) as [h|].
  - apply steps_trace in Hs as (new & Hnew & Hok). exists new.
    split; [done|]. split; [by eapply Hany|]. eapply Forall_impl; [exact Hok|].
    intros []; cbn; try done; by intros [].
  - destruct Hs as [Hs|(fb & t & w1 & w2 & H1 & [Hsaved ->] & H3)].
    + apply steps_trace in Hs as (new & Hnew & Hok). exists new.
      split; [done|]. split; [by eapply Hany|]. erewrite no_submission; [cbn; lia| |exact Hok]. 
      by intros fb [].
    + apply steps_trace in H1 as (n1 & E1 & Hok1). apply steps_trace in H3 as (n3 & E3 & Hok3).
      exists (n1 ++ EvSubmit fb (tss w1) :: n3). rewrite E3. cbn. rewrite E1, <- !app_assoc.
      split; [done|]. split.
      * apply Forall_app. split; [by eapply Hany|]. constructor; [done|by eapply Hany].
      * rewrite filter_app, (no_submission building n1), filter_cons_True,
          (no_submission (finishing txHandler (SubmitFeeBump t fb).1) n3);
          [cbn; lia| |exact Hok3|done|by intros fb' []|done].
        intros fb'. destruct (fst (SubmitFeeBump t fb)); cbn; tauto.
Qed.

(** C3: The worker refines its phases.  A job with a hash is reconciled: its row
    becomes SUCCESS or goes back to the queue only if Horizon said so.  A job
    without is prepared, and either stops there, or submits the envelope it has
    saved and finishes by the answer: SUCCESS if it was accepted, ERROR or back
    to the queue only when the failure allows it. *)
Theorem worker_refines_phases (w : W) (Hlocks : respect_locks) (Ho : owns txID caKey w) :
  let w' := snd (Run cfg txHandler w) in
  owns txID caKey w' /\
  match StellarTransactionHash (job_Transaction (the_job w)) with
  | Some h => steps cfg txID caKey (reconciling h) w w'
  | None =>
    steps cfg txID caKey preparing w w' \/
    exists fb t w1 w2, steps cfg txID caKey building w w1 /\
      saved cfg fb (lookup_tx txID (tss w1)) /\ w2 = with_event (EvSubmit fb (tss w1)) w1 /\
      steps cfg txID caKey (finishing txHandler (fst (SubmitFeeBump t fb))) w2 w'
  end.
Proof.
  destruct Hlocks as [Htx Hca]. destruct (run_post cfg txHandler txID caKey Htx w Ho) as [Ho' Hs].
  split; [exact Ho'|]. unfold worker_spec in Hs. case_match; [exact Hs|].
  destruct Hs as [Hs|(fb & t & w1 & w2 & H1 & [Hsaved ->] & H3)]; [by left|].
  right. by exists fb, t, w1, (with_event (EvSubmit fb (tss w1)) w1).
Qed.

(** C1: Whatever fails, an envelope that leaves for Horizon has its hash and its
    XDR saved in the transaction's row at that instant; a run submits at most
    one envelope of the transaction; and a job that already has a hash submits
    nothing at all, it is reconciled. *)
Theorem worker_saves_before_submitting (w : W) (Hlocks : respect_locks) (Ho : owns txID caKey w) :
  exists new, w_trace (snd (Run cfg txHandler w)) = w_trace w ++ new /\
    (forall fb db, EvSubmit fb db ∈ new -> saved cfg fb (lookup_tx txID db)) /\
    match StellarTransactionHash (job_Transaction (the_job w)) with
    | Some _ => Forall (fun ev => is_submission ev = false) new
    | None => length (filter (fun ev => is_payment_submission ev = true) new) <= 1
    end.
Proof.
  destruct (worker_trace w Hlocks Ho) as (new & Hnew & Hok & Hcount).
  exists new. split; [done|]. split; [|done]. intros fb db Hin.
  rewrite Forall_forall in Hok. by apply (Hok (EvSubmit fb db)).
Qed.

(** ** Statuses *)

(** What Horizon said for a transaction to be SUCCESS: the saved hash is in a
    ledger, or the envelope of this run was accepted. *)
Definition horizon_confirmed (w w' : W) : Prop :=
  match StellarTransactionHash (job_Transaction (the_job w)) with
  | Some h => reported_success h
  | None => exists new fb db t r o, w_trace w' = w_trace w ++ new /\ EvSubmit fb db ∈ new /\
              SubmitFeeBump t fb = (Ok r, o) /\ Successful r = true
  end.

Lemma status_inv_start s0 s1 P (w : W) tx :
  the_row txID w = Some tx -> Status tx = s0 -> Status (job_Transaction (the_job w)) = s0 ->
  status_inv txID s0 s1 P w.
Proof. intros Hr H1 H2. split; [exists tx; split; [done|by left]|by left]. Qed.

Lemma worker_status (w : W) tx :
  respect_locks -> owns txID caKey w -> the_row txID w = Some tx ->
  Status (job_Transaction (the_job w)) = Status tx ->
  let w' := snd (Run cfg txHandler w) in
  status_inv txID (Status tx) TransactionStatusError True w' \/
  status_inv txID (Status tx) TransactionStatusSuccess (horizon_confirmed w w') w'.
Proof.
  intros Hl Ho Hrow Hj w'. pose proof Hl as [Htx _].
  destruct (run_post cfg txHandler txID caKey Htx w Ho) as [_ Hs]. fold w' in Hs.
  assert (H0 : forall s1 P, status_inv txID (Status tx) s1 P w).
  { intros s1 P. by apply (status_inv_start _ s1 P w tx). }
  unfold worker_spec in Hs. unfold horizon_confirmed.
  destruct (StellarTransactionHash (job_Transaction (the_job w))) as [h|].
  - right. eapply (steps_status cfg txID caKey Htx); [|exact Hs|apply H0].
    intros [] s Hk Hm; try done; by injection Hm.
  - destruct Hs as [Hs|(fb & t & w1 & w2 & H1 & [Hsaved ->] & H3)].
    + left. eapply (steps_status cfg txID caKey Htx); [|exact Hs|apply H0].
      intros [] s Hk Hm; try done; by injection Hm.
    + assert (H2 : forall s1 P,
        status_inv txID (Status tx) s1 P (with_event (EvSubmit fb (tss w1)) w1)).
      { intros s1 P. eapply (steps_status cfg txID caKey Htx building _ _ P w w1); [|done|apply H0].
        intros [] s Hk Hm; done. }
      pose proof H3 as Htrace.
      destruct (SubmitFeeBump t fb) as [[r|e] o] eqn:Ea; cbn in H3, Htrace.
      * right. eapply (steps_status cfg txID caKey Htx); [|exact H3|apply H2].
        intros [] s Hk Hm; try done; injection Hm as <-. split; [done|].
        apply steps_trace in H1 as (n1 & E1 & _). apply steps_trace in H3 as (n3 & E3 & _).
        exists (n1 ++ EvSubmit fb (tss w1) :: n3), fb, (tss w1), t, r, o.
        rewrite E3. cbn. rewrite E1, <- !app_assoc. split; [done|]. split; [set_solver|done].
      * left. eapply (steps_status cfg txID caKey Htx); [|exact H3|apply H2].
        intros [] s Hk Hm; try done; by injection Hm.
Qed.

(** C2: A run moves the transaction's status by the state machine at most once, and
    to SUCCESS only when Horizon reported the saved hash, or the envelope this
    run submitted, as successful. *)
Theorem worker_status_sound (w : W) (tx : Transaction) (Hlocks : respect_locks)
    (Ho : owns txID caKey w) (Hrow : the_row txID w = Some tx)
    (Hmirror : Status (job_Transaction (the_job w)) = Status tx) :
  let w' := snd (Run cfg txHandler w) in
  exists tx', the_row txID w' = Some tx' /\
    (Status tx' = Status tx \/ step tss_transitions (Status tx) (Status tx')) /\
    (Status tx <> TransactionStatusSuccess -> Status tx' = TransactionStatusSuccess ->
       horizon_confirmed w w').
Proof.
  intros w'. destruct (worker_status w tx Hlocks Ho Hrow Hmirror) as [[Hi _]|[Hi _]];
    destruct Hi as (tx' & Hrow' & Hst); exists tx'; (split; [done|]);
    (split; [destruct Hst as [?|(-> & ? & _)]; by auto|]);
    intros H1 H2; destruct Hst as [Hst|(Hst & _ & Hc)]; try done; rewrite H2 in Hst;
    first [discriminate|by symmetry in Hst].
Qed.

(** ** The saved hash *)

Definition row_hash (h : string) (w : W) : Prop :=
  exists tx, the_row txID w = Some tx /\ StellarTransactionHash tx = Some h.

Lemma steps_hash K h w w' :
  respect_locks -> ~ K (ARow OpRequeue) -> (forall h x a, ~ K (ARow (OpSent h x a))) ->
  steps cfg txID caKey K w w' -> row_hash h w -> row_hash h w'.
Proof.
  intros [Htx _] Hq Hs. apply (steps_row cfg txID caKey Htx). 
  intros k ctx tx Hk Ht. destruct k; try done. by destruct (Hs _ _ _ Hk).
Qed.

(** The hash of an envelope that left stays in the row until its fate is known:
    a reconciled job loses it only when Horizon does not know the transaction
    or reports it unsuccessful, and a submission that fails leaves it, unless
    the failure says the transaction must be rebuilt (or its archived entries
    restored); so a submission with an indeterminate outcome is reconciled by
    the next run, not sent again. *)
Theorem worker_keeps_hash (w : W) (tx : Transaction) (Hlocks : respect_locks)
    (Ho : owns txID caKey w) (Hrow : the_row txID w = Some tx)
    (Hmirror : StellarTransactionHash (job_Transaction (the_job w)) = StellarTransactionHash tx) :
  let w' := snd (Run cfg txHandler w) in
  match StellarTransactionHash tx with
  | Some h => ~ reported_missing h -> row_hash h w'
  | None =>
    exists new, w_trace w' = w_trace w ++ new /\
      ((forall fb db, EvSubmit fb db ∉ new) \/
       exists fb db t h, EvSubmit fb db ∈ new /\ HashHex fb (NetworkPassphrase cfg) = Ok h /\
         (match fst (SubmitFeeBump t fb) with
          | Ok _ => True
          | Err e => may_requeue txHandler (TEHorizon (horizon_wrapper e)) = false
          end -> row_hash h w'))
  end.
Proof.
  intros w'. pose proof Hlocks as [Htx _].
  destruct (run_post cfg txHandler txID caKey Htx w Ho) as [_ Hs]. fold w' in Hs.
  unfold worker_spec in Hs. rewrite Hmirror in Hs.
  destruct (StellarTransactionHash tx) as [h|] eqn:Eh.
  { intros Hm. eapply (steps_hash (reconciling h)); [done|exact Hm|by intros ? ? ? []|exact Hs|by exists tx]. }
  destruct Hs as [Hs|(fb & t & w1 & w2 & H1 & [Hsaved ->] & H3)].
  - apply steps_trace in Hs as (new & Hnew & Hok). exists new. split; [done|]. left.
    intros fb db Hin. rewrite Forall_forall in Hok. by destruct (Hok _ Hin) as [[] _].
  - pose proof H1 as Ht1. pose proof H3 as Ht3.
    apply steps_trace in Ht1 as (n1 & E1 & _). apply steps_trace in Ht3 as (n3 & E3 & _).
    exists (n1 ++ EvSubmit fb (tss w1) :: n3). rewrite E3. cbn. rewrite E1, <- !app_assoc.
    split; [done|]. right. destruct Hsaved as (tx1 & h & x & Hr1 & Hh & Hx & Ehash & _).
    exists fb, (tss w1), t, h. split; [set_solver|]. split; [done|]. intros Hans.
    eapply (steps_hash (finishing txHandler (fst (SubmitFeeBump t fb)))); [done| | |exact H3|].
    + destruct (fst (SubmitFeeBump t fb)); cbn; [by intros []|congruence].
    + intros h' x' a'. destruct (fst (SubmitFeeBump t fb)); cbn; by intros [].
    + by exists tx1.
Qed.

(** A run that returned without an error from handling a result has freed both
    the transaction and the channel account for the next poll. *)
Theorem handled_jobs_are_unlocked (w : W) (Hlocks : respect_locks) (Ho : owns txID caKey w) :
  (forall resp te w', handleFailedTransaction cfg txHandler resp te w = (Ok tt, w') ->
     unlocked txID caKey w') /\
  (forall resp w', handleSuccessfulTransaction resp w = (Ok tt, w') -> unlocked txID caKey w') /\
  (forall job w', reconcile_detail job w = (Ok tt, w') -> unlocked txID caKey w').
Proof.
  destruct Hlocks as [Htx Hca].
  assert (H : forall m w', unlocks txID caKey m -> m w = (Ok tt, w') -> unlocked txID caKey w').
  { intros m w' Hm E0. specialize (Hm w Ho). unfold wp in Hm. rewrite E0 in Hm. by apply Hm. }
  split; [|split].
  - intros resp te w'. apply H. by apply handleFailed_unlocks.
  - intros resp w'. apply H. by apply (handleSuccessful_unlocks cfg).
  - intros job w'. apply H. by apply (reconcile_unlocks cfg).
Qed.

(** A run touches nothing but the row of its transaction and its channel
    account: any preorder on databases that holds of what the other processes
    write, and of changes of these two rows, relates the databases before and
    after; in particular every other row is as the others left it. *)
Theorem worker_frame (I : D -> D -> Prop) (w : W) (HI : PreOrder I) (Hlocks : respect_locks)
    (Ho : owns txID caKey w) (Henv : forall t d, I d (env_interfere t d))
    (Hown : forall d db', own_tx_step txID (conn_get d) db' \/ own_ca_step caKey (conn_get d) db' ->
       I d (conn_set db' d)) :
  I (w_db w) (w_db (snd (Run cfg txHandler w))).
Proof.
  destruct Hlocks as [Htx _]. destruct (run_post cfg txHandler txID caKey Htx w Ho) as [_ Hs].
  unfold worker_spec in Hs. case_match.
  - by apply (steps_frame cfg txID caKey I _ _ _ Henv Hown Hs).
  - destruct Hs as [Hs|(fb & t & w1 & w2 & H1 & [_ ->] & H3)].
    + by apply (steps_frame cfg txID caKey I _ _ _ Henv Hown Hs).
    + transitivity (w_db w1); [by apply (steps_frame cfg txID caKey I _ _ _ Henv Hown H1)|].
      by apply (steps_frame cfg txID caKey I _ _ _ Henv Hown H3).
Qed.
End theorems.

(** ** Witnesses *)

Section witnesses.
Import Sample.

Lemma sample_locks : respect_locks "t1" "GCHAN".
Proof. by constructor. Qed.

(** A payment that Horizon accepts: saved, submitted once, SUCCESS, unlocked. *)
Definition paid : World TssDb WorkerLocal WorkerEvent :=
  snd (Run (EN := engine accepted found) Toy.cfg PaymentTransactionHandler
         (world TransactionStatusProcessing None)).

Example paid_trace : length (w_trace paid) = 3. Proof. vm_compute. reflexivity. Qed.
Example paid_status : Status <$> the_row "t1" paid = Some TransactionStatusSuccess.
Proof. vm_compute. reflexivity. Qed.

Lemma worker_refines_phases_witness :
  let w := world TransactionStatusProcessing (Some "abc") in
  steps (EN := engine accepted found) Toy.cfg "t1" "GCHAN" (reconciling (EN := engine accepted found) "abc") w
    (snd (Run (EN := engine accepted found) Toy.cfg PaymentTransactionHandler w)).
Proof.
  exact (proj2 (worker_refines_phases (EN := engine accepted found) Toy.cfg
    PaymentTransactionHandler "t1" "GCHAN" (world TransactionStatusProcessing (Some "abc"))
    sample_locks (world_owns _ _))).
Defined.

Lemma worker_saves_before_submitting_witness :
  exists new, w_trace paid = new /\ EvSubmit "fb:GCHAN/7" (w_db (world "PROCESSING" None)) ∉ new /\
    length (filter (fun ev => is_payment_submission ev = true) new) <= 1.
Proof.
  destruct (worker_saves_before_submitting (EN := engine accepted found) Toy.cfg
    PaymentTransactionHandler "t1" "GCHAN" (world TransactionStatusProcessing None) sample_locks
    (world_owns _ _)) as (new & Hnew & Hsaved & Hcount).
  exists new. split; [exact Hnew|]. split; [|exact Hcount].
  intros Hin. apply Hsaved in Hin as (tx & h & x & Hr & _ & _ & Hh & _).
  vm_compute in Hr. injection Hr as <-. discriminate Hh.
Defined.

Lemma worker_status_sound_witness :
  horizon_confirmed (EN := engine accepted found) (world TransactionStatusProcessing None) paid.
Proof.
  destruct (worker_status_sound (EN := engine accepted found) Toy.cfg
    PaymentTransactionHandler "t1" "GCHAN" (world TransactionStatusProcessing None)
    (transaction TransactionStatusProcessing None) sample_locks (world_owns _ _) eq_refl eq_refl)
    as (tx' & Hrow & _ & Hc).
  apply Hc; [discriminate|]. vm_compute in Hrow. injection Hrow as <-. reflexivity.
Defined.

Definition unreachable (h : string) : res (option HorizonTx) := Err (EExternal "timeout").

Lemma worker_keeps_hash_witness :
  row_hash "t1" "abc" (snd (Run (EN := engine accepted unreachable) Toy.cfg
    PaymentTransactionHandler (world TransactionStatusProcessing (Some "abc")))).
Proof.
  refine (worker_keeps_hash (EN := engine accepted unreachable) Toy.cfg
    PaymentTransactionHandler "t1" "GCHAN" (world TransactionStatusProcessing (Some "abc"))
    (transaction TransactionStatusProcessing (Some "abc")) sample_locks (world_owns _ _)
    eq_refl eq_refl _).
  intros [t [(d & [=] & _)|(e & [= <-] & He)]]. discriminate He.
Defined.

Lemma handled_jobs_are_unlocked_witness :
  unlocked "t1" "GCHAN" (snd (handleFailedTransaction (EN := engine timed_out found) Toy.cfg
    PaymentTransactionHandler None sample_timeout (world TransactionStatusProcessing (Some "abc")))).
Proof.
  refine (proj1 (handled_jobs_are_unlocked (EN := engine timed_out found) Toy.cfg
    PaymentTransactionHandler "t1" "GCHAN" (world TransactionStatusProcessing (Some "abc"))
    sample_locks (world_owns _ _)) None sample_timeout _ _).
  vm_compute. reflexivity.
Defined.

Lemma worker_frame_witness :
  lookup_tx "t2" (w_db paid) = lookup_tx "t2" (w_db (world TransactionStatusProcessing None)).
Proof.
  apply (worker_frame (EN := engine accepted found) Toy.cfg PaymentTransactionHandler "t1" "GCHAN"
    (fun d d' => lookup_tx "t2" d' = lookup_tx "t2" d)); [|exact sample_locks|by apply world_owns|done|].
  - split; [done|]. intros d1 d2 d3 H1 H2. by rewrite H2.
  - intros d db' [H|H]; cbn in *.
    + by apply (own_tx_step_other "t1" "t2").
    + by apply (own_ca_step_tx "GCHAN").
Defined.
End witnesses.
