(* ===== verification/Tables.v ===== *)
(** Tables of a tenant beside those of SdpDb.v: the rows of [receivers.go],
    [receiver_verification.go], [registration_contact_type.go] and
    [verification_type.go]; of [circle_transfer_requests.go] and [circle_recipient.go]; of
    [embedded_wallet.go], [sponsored_transaction.go], [messages.go] and
    [url_shortener.go], all in [internal/data], with the constraints of their tables. *)

From S2P Require Import Prelude GoStrings Errors.

Local Open Scope string_scope.
Local Open Scope list_scope.

(** ** Contact types *)

Definition ReceiverContactTypeEmail := "EMAIL".
Definition ReceiverContactTypeSMS := "PHONE_NUMBER".

Definition GetAllReceiverContactTypes : list string :=
  [ReceiverContactTypeEmail; ReceiverContactTypeSMS].

Record RegistrationContactType := mkRegistrationContactType {
  ReceiverContactType : string;
  IncludesWalletAddress : bool }.

Definition RegistrationContactTypeEmail := mkRegistrationContactType ReceiverContactTypeEmail false.
Definition RegistrationContactTypePhone := mkRegistrationContactType ReceiverContactTypeSMS false.
Definition RegistrationContactTypeEmailAndWalletAddress :=
  mkRegistrationContactType ReceiverContactTypeEmail true.
Definition RegistrationContactTypePhoneAndWalletAddress :=
  mkRegistrationContactType ReceiverContactTypeSMS true.

Definition AllRegistrationContactTypes : list RegistrationContactType :=
  [RegistrationContactTypeEmail; RegistrationContactTypePhone;
   RegistrationContactTypeEmailAndWalletAddress; RegistrationContactTypePhoneAndWalletAddress].

Definition wallet_address_suffix := "_AND_WALLET_ADDRESS".

(** The method [String]. *)
Definition RCT_String (rct : RegistrationContactType) : string :=
  if IncludesWalletAddress rct then ReceiverContactType rct +:+ wallet_address_suffix
  else ReceiverContactType rct.

Definition ParseFromString (input : string) : res RegistrationContactType :=
  let input := ToUpper (TrimSpace input) in
  let rct := mkRegistrationContactType (TrimSuffix input wallet_address_suffix)
               (HasSuffix input wallet_address_suffix) in
  let? _ := guard_err (negb (slices_Contains GetAllReceiverContactTypes (ReceiverContactType rct)))
              (ENew ("unknown ReceiverContactType " +:+ quote (ReceiverContactType rct))) in
  Ok rct.

(** [UnmarshalJSON] and [Scan] of a string: the empty one leaves the value. *)
Definition RCT_Scan (current : RegistrationContactType) (value : string) : res RegistrationContactType :=
  if value =? "" then Ok current else ParseFromString value.

#[export] Instance RegistrationContactType_eq : EqDecision RegistrationContactType.
Proof. solve_decision. Defined.

Definition VerificationTypeDateOfBirth := "DATE_OF_BIRTH".
Definition VerificationTypeYearMonth := "YEAR_MONTH".
Definition VerificationTypePin := "PIN".
Definition VerificationTypeNationalID := "NATIONAL_ID_NUMBER".

Definition GetAllVerificationTypes : list string :=
  [VerificationTypeDateOfBirth; VerificationTypeYearMonth; VerificationTypePin;
   VerificationTypeNationalID].

Definition MessageChannelEmail := "EMAIL".
Definition MessageChannelSMS := "SMS".

(** ** Rows *)

(** The columns that may be NULL; the code reads an absent text as the empty one. *)
Record Receiver := mkReceiver {
  Rec_ID : string;
  Rec_Email : option string;
  Rec_PhoneNumber : option string;
  Rec_ExternalID : option string;
  Rec_RecipientName : option string;
  Rec_CurrencyType : option string;
  Rec_CreatedAt : Z;
  Rec_UpdatedAt : Z }.
#[export] Instance eta_Receiver : Eta Receiver := fun r =>
  mkReceiver (Rec_ID r) (Rec_Email r) (Rec_PhoneNumber r) (Rec_ExternalID r) (Rec_RecipientName r)
    (Rec_CurrencyType r) (Rec_CreatedAt r) (Rec_UpdatedAt r).

Definition Email (r : Receiver) : string := default "" (Rec_Email r).
Definition PhoneNumber (r : Receiver) : string := default "" (Rec_PhoneNumber r).

Definition ContactByType (r : Receiver) (contactType : string) : string :=
  if contactType =? ReceiverContactTypeEmail then Email r
  else if contactType =? ReceiverContactTypeSMS then PhoneNumber r
  else "".

Definition ConfirmedByTypeReceiver := "RECEIVER".
Definition ConfirmedByTypeUser := "USER".

Record ReceiverVerification := mkReceiverVerification {
  RV_ReceiverID : string;
  RV_VerificationField : string;
  RV_HashedValue : string;
  RV_Attempts : Z;
  RV_ConfirmedByType : option string;
  RV_ConfirmedByID : option string;
  RV_ConfirmedAt : option Z;
  RV_FailedAt : option Z;
  RV_VerificationChannel : option string;
  RV_CreatedAt : Z;
  RV_UpdatedAt : Z }.
#[export] Instance eta_ReceiverVerification : Eta ReceiverVerification := fun r =>
  mkReceiverVerification (RV_ReceiverID r) (RV_VerificationField r) (RV_HashedValue r)
    (RV_Attempts r) (RV_ConfirmedByType r) (RV_ConfirmedByID r) (RV_ConfirmedAt r) (RV_FailedAt r)
    (RV_VerificationChannel r) (RV_CreatedAt r) (RV_UpdatedAt r).

(** A log of the requests for a registration that found no receiver. *)
Record ReceiverRegistrationAttempt := mkRegistrationAttempt {
  RA_PhoneNumber : string;
  RA_Email : string;
  AttemptTS : Z;
  RA_ClientDomain : string;
  RA_TransactionID : string;
  RA_WalletAddress : string;
  RA_WalletMemo : string }.

(** ** Constraints *)

(** The unique indexes are on [LOWER(email)] and [LOWER(phone_number)], of the
    rows that have one. *)
Definition lower_keys (key : Receiver -> option string) (rows : list Receiver) : list string :=
  omap (fun r => ToLower <$> key r) rows.

(** [receiver_contact_check], the column sizes, [external_id NOT NULL]. *)
Definition receiver_row_ok (r : Receiver) : bool :=
  negb (bool_decide (Rec_Email r = None) && bool_decide (Rec_PhoneNumber r = None))
  && match Rec_ExternalID r with Some i => (String.length i <=? 64)%nat | None => false end
  && (String.length (PhoneNumber r) <=? 32)%nat.

Definition receivers_ok (rows : list Receiver) : Prop :=
  Forall (fun r => receiver_row_ok r = true) rows /\ NoDup (map Rec_ID rows).

#[export] Instance receivers_ok_dec rows : Decision (receivers_ok rows).
Proof. unfold receivers_ok. apply _. Defined.

(** [attempts] is a SMALLINT. *)
Definition verification_row_ok (v : ReceiverVerification) : bool :=
  slices_Contains GetAllVerificationTypes (RV_VerificationField v)
  && (- 2 ^ 15 <=? RV_Attempts v)%Z && (RV_Attempts v <? 2 ^ 15)%Z
  && slices_Contains [ConfirmedByTypeReceiver; ConfirmedByTypeUser]
       (default ConfirmedByTypeReceiver (RV_ConfirmedByType v))
  && slices_Contains [MessageChannelEmail; MessageChannelSMS]
       (default MessageChannelSMS (RV_VerificationChannel v)).

Definition verification_key (v : ReceiverVerification) : string * string :=
  (RV_ReceiverID v, RV_VerificationField v).

Definition verifications_ok (rows : list ReceiverVerification) : Prop :=
  Forall (fun v => verification_row_ok v = true) rows /\ NoDup (map verification_key rows).

#[export] Instance verifications_ok_dec rows : Decision (verifications_ok rows).
Proof. unfold verifications_ok. apply _. Defined.

(** ** The contact types round trip *)

Lemma AllRegistrationContactTypes_complete rct :
  rct ∈ AllRegistrationContactTypes <-> ReceiverContactType rct ∈ GetAllReceiverContactTypes.
Proof.
  unfold AllRegistrationContactTypes, GetAllReceiverContactTypes. destruct rct as [t b]; cbn.
  rewrite !elem_of_cons, !elem_of_nil. split.
  { intros H. destruct_or! H; inversion H; auto. }
  intros H. destruct_or! H; try done; subst; destruct b; auto 6.
Qed.

(** The texts of the contact types are the texts that parse, up to case and
    surrounding space. *)
Theorem contact_type_roundtrip (rct : RegistrationContactType) :
  (rct ∈ AllRegistrationContactTypes <-> ParseFromString (RCT_String rct) = Ok rct) /\
  forall s, ParseFromString s = Ok rct -> RCT_String rct = ToUpper (TrimSpace s).
Proof.
  assert (Hparse : forall s, ParseFromString s = Ok rct ->
    ReceiverContactType rct ∈ GetAllReceiverContactTypes /\ RCT_String rct = ToUpper (TrimSpace s)).
  { intros s H. unfold ParseFromString in H. set (u := ToUpper (TrimSpace s)) in *.
    apply res_bind_ok in H as ([] & Hg & [= <-]). apply guard_err_ok, negb_false_iff in Hg.
    apply slices_Contains_spec in Hg. split; [exact Hg|]. unfold RCT_String. cbn.
    destruct (HasSuffix u wallet_address_suffix) eqn:Hs; [by apply TrimSuffix_spec|].
    by apply TrimSuffix_none. }
  split; [split|by intros s H; apply Hparse].
  - unfold AllRegistrationContactTypes. rewrite !elem_of_cons, elem_of_nil.
    intros H. by destruct_or! H; subst.
  - intros H. apply AllRegistrationContactTypes_complete. by eapply Hparse.
Qed.

Local Open Scope string_scope.
Local Open Scope list_scope.

(** ** Transfer requests *)

Definition CircleTransferStatusPending := "pending".
Definition CircleTransferStatusSuccess := "complete".
Definition CircleTransferStatusFailed := "failed".

Definition CompletedCircleStatuses : list string :=
  [CircleTransferStatusSuccess; CircleTransferStatusFailed].

Definition CircleTransferStatus_IsCompleted (s : string) : bool :=
  slices_Contains CompletedCircleStatuses s.

Record CircleTransferRequest := mkCircleTransferRequest {
  CTR_IdempotencyKey : string;
  CTR_PaymentID : string;
  CTR_CircleTransferID : option string;
  CTR_CirclePayoutID : option string;
  CTR_Status : option string;
  CTR_ResponseBody : option string;
  CTR_SourceWalletID : option string;
  CTR_CreatedAt : Z;
  CTR_UpdatedAt : Z;
  CTR_CompletedAt : option Z;
  CTR_LastSyncAttemptAt : option Z;
  CTR_SyncAttempts : Z }.
#[export] Instance eta_CircleTransferRequest : Eta CircleTransferRequest := fun r =>
  mkCircleTransferRequest (CTR_IdempotencyKey r) (CTR_PaymentID r) (CTR_CircleTransferID r)
    (CTR_CirclePayoutID r) (CTR_Status r) (CTR_ResponseBody r) (CTR_SourceWalletID r)
    (CTR_CreatedAt r) (CTR_UpdatedAt r) (CTR_CompletedAt r) (CTR_LastSyncAttemptAt r)
    (CTR_SyncAttempts r).

(** [circle_transfer_or_payout], the enum, the column sizes, INT. *)
Definition transfer_request_row_ok (c : CircleTransferRequest) : bool :=
  negb (negb (bool_decide (CTR_CircleTransferID c = None))
        && negb (bool_decide (CTR_CirclePayoutID c = None)))
  && slices_Contains [CircleTransferStatusPending; CircleTransferStatusSuccess;
       CircleTransferStatusFailed] (default CircleTransferStatusPending (CTR_Status c))
  && (String.length (default "" (CTR_CircleTransferID c)) <=? 36)%nat
  && (String.length (default "" (CTR_CirclePayoutID c)) <=? 36)%nat
  && (String.length (default "" (CTR_SourceWalletID c)) <=? 64)%nat
  && (CTR_SyncAttempts c <? 2 ^ 31)%Z.

(** [idx_unique_payment_id]: one request per payment that has not failed. *)
Definition live_request (c : CircleTransferRequest) : bool :=
  negb (bool_decide (CTR_Status c = Some CircleTransferStatusFailed)).

Definition live_payments (rows : list CircleTransferRequest) : list string :=
  map CTR_PaymentID (filter (fun c => live_request c = true) rows).

Definition transfer_requests_ok (rows : list CircleTransferRequest) : Prop :=
  Forall (fun c => transfer_request_row_ok c = true) rows /\
  NoDup (map CTR_IdempotencyKey rows) /\ NoDup (live_payments rows).

#[export] Instance transfer_requests_ok_dec rows : Decision (transfer_requests_ok rows).
Proof. unfold transfer_requests_ok. apply _. Defined.

(** ** Recipients *)

Definition CircleRecipientStatusPending := "pending".
Definition CircleRecipientStatusActive := "active".
Definition CircleRecipientStatusInactive := "inactive".
Definition CircleRecipientStatusDenied := "denied".
Definition CircleRecipientStatusFailed := "failed".

Definition CompletedCircleRecipientStatuses : list string :=
  [CircleRecipientStatusActive; CircleRecipientStatusDenied; CircleRecipientStatusFailed;
   CircleRecipientStatusInactive].

Definition CircleRecipientStatus_IsCompleted (s : string) : bool :=
  slices_Contains CompletedCircleRecipientStatuses s.

Definition ParseRecipientStatus (statusStr : string) : res string :=
  let statusStr := TrimSpace (ToLower statusStr) in
  if slices_Contains [CircleRecipientStatusPending; CircleRecipientStatusActive;
       CircleRecipientStatusInactive; CircleRecipientStatusDenied; CircleRecipientStatusFailed] statusStr
  then Ok statusStr
  else Err (ENew ("unknown recipient status " +:+ quote statusStr)).

(** As the code reads it: NULL texts are empty; a status that is not set is the
    empty one. *)
Record CircleRecipient := mkCircleRecipient {
  CR_ReceiverWalletID : string;
  CR_IdempotencyKey : string;
  CR_CircleRecipientID : option string;
  CR_StellarAddress : option string;
  CR_StellarMemo : option string;
  CR_Status : option string;
  CR_CreatedAt : Z;
  CR_UpdatedAt : Z;
  CR_SyncAttempts : Z;
  CR_LastSyncAttemptAt : option Z;
  CR_ResponseBody : option string }.
#[export] Instance eta_CircleRecipient : Eta CircleRecipient := fun r =>
  mkCircleRecipient (CR_ReceiverWalletID r) (CR_IdempotencyKey r) (CR_CircleRecipientID r)
    (CR_StellarAddress r) (CR_StellarMemo r) (CR_Status r) (CR_CreatedAt r) (CR_UpdatedAt r)
    (CR_SyncAttempts r) (CR_LastSyncAttemptAt r) (CR_ResponseBody r).

Definition recipient_row_ok (c : CircleRecipient) : bool :=
  slices_Contains (CircleRecipientStatusPending :: CompletedCircleRecipientStatuses)
    (default CircleRecipientStatusPending (CR_Status c))
  && (String.length (CR_IdempotencyKey c) <=? 36)%nat
  && (String.length (default "" (CR_CircleRecipientID c)) <=? 36)%nat
  && (CR_SyncAttempts c <? 2 ^ 31)%Z.

Definition recipients_ok (rows : list CircleRecipient) : Prop :=
  Forall (fun c => recipient_row_ok c = true) rows /\
  NoDup (map CR_ReceiverWalletID rows) /\ NoDup (map CR_IdempotencyKey rows) /\
  NoDup (omap CR_CircleRecipientID rows).

#[export] Instance recipients_ok_dec rows : Decision (recipients_ok rows).
Proof. unfold recipients_ok. apply _. Defined.

Local Open Scope string_scope.
Local Open Scope list_scope.

(** ** Embedded wallets *)

Definition PendingWalletStatus := "PENDING".
Definition ProcessingWalletStatus := "PROCESSING".
Definition SuccessWalletStatus := "SUCCESS".
Definition FailedWalletStatus := "FAILED".

Definition EmbeddedWalletStatuses : list string :=
  [PendingWalletStatus; SuccessWalletStatus; ProcessingWalletStatus; FailedWalletStatus].

(** Any case passes here; the enum of the column knows capitals only. *)
Definition EmbeddedWalletStatus_Validate (status : string) : res unit :=
  guard_err (negb (slices_Contains EmbeddedWalletStatuses (ToUpper status)))
    (ENew ("invalid embedded wallet status " +:+ quote status)).

Record EmbeddedWallet := mkEmbeddedWallet {
  EW_Token : string;
  EW_WasmHash : string;
  EW_ContractAddress : option string;
  EW_CredentialID : option string;
  EW_PublicKey : option string;
  EW_ReceiverWalletID : option string;
  EW_RequiresVerification : bool;
  EW_WalletStatus : string;
  EW_CreatedAt : Z;
  EW_UpdatedAt : Z }.
#[export] Instance eta_EmbeddedWallet : Eta EmbeddedWallet := fun r =>
  mkEmbeddedWallet (EW_Token r) (EW_WasmHash r) (EW_ContractAddress r) (EW_CredentialID r) (EW_PublicKey r)
    (EW_ReceiverWalletID r) (EW_RequiresVerification r) (EW_WalletStatus r) (EW_CreatedAt r) (EW_UpdatedAt r).

(** The enum and the sizes of the columns. *)
Definition embedded_wallet_row_ok (w : EmbeddedWallet) : bool :=
  slices_Contains EmbeddedWalletStatuses (EW_WalletStatus w)
  && (String.length (EW_Token w) <=? 36)%nat && (String.length (EW_WasmHash w) <=? 64)%nat
  && (String.length (default "" (EW_ContractAddress w)) <=? 56)%nat
  && (String.length (default "" (EW_PublicKey w)) <=? 130)%nat
  && (String.length (default "" (EW_CredentialID w)) <=? 2048)%nat.

(** The primary key and the two partial unique indices. *)
Definition embedded_wallets_ok (rows : list EmbeddedWallet) : Prop :=
  Forall (fun w => embedded_wallet_row_ok w = true) rows /\ NoDup (map EW_Token rows) /\
  NoDup (omap EW_ContractAddress rows).

Definition credentials_ok (rows : list EmbeddedWallet) : Prop := NoDup (omap EW_CredentialID rows).

#[export] Instance embedded_wallets_ok_dec rows : Decision (embedded_wallets_ok rows).
Proof. unfold embedded_wallets_ok. apply _. Defined.
#[export] Instance credentials_ok_dec rows : Decision (credentials_ok rows).
Proof. unfold credentials_ok. apply _. Defined.

(** ** Sponsored transactions *)

Definition PendingSponsoredTransactionStatus := "PENDING".
Definition ProcessingSponsoredTransactionStatus := "PROCESSING".
Definition SuccessSponsoredTransactionStatus := "SUCCESS".
Definition FailedSponsoredTransactionStatus := "FAILED".

Definition SponsoredTransactionStatuses : list string :=
  [PendingSponsoredTransactionStatus; SuccessSponsoredTransactionStatus; ProcessingSponsoredTransactionStatus;
   FailedSponsoredTransactionStatus].

Definition SponsoredTransactionStatus_Validate (status : string) : res unit :=
  guard_err (negb (slices_Contains SponsoredTransactionStatuses (ToUpper status)))
    (ENew ("invalid sponsored transaction status " +:+ quote status)).

Record SponsoredTransaction := mkSponsoredTransaction {
  ST_ID : string;
  ST_Account : string;
  ST_OperationXDR : string;
  ST_Status : string;
  ST_TransactionHash : option string;
  ST_CreatedAt : Z;
  ST_UpdatedAt : Z }.
#[export] Instance eta_SponsoredTransaction : Eta SponsoredTransaction := fun r =>
  mkSponsoredTransaction (ST_ID r) (ST_Account r) (ST_OperationXDR r) (ST_Status r) (ST_TransactionHash r)
    (ST_CreatedAt r) (ST_UpdatedAt r).

Definition sponsored_row_ok (s : SponsoredTransaction) : bool :=
  slices_Contains SponsoredTransactionStatuses (ST_Status s)
  && (String.length (ST_ID s) <=? 36)%nat && (String.length (ST_Account s) <=? 56)%nat
  && (String.length (default "" (ST_TransactionHash s)) <=? 255)%nat.

Definition sponsored_ok (rows : list SponsoredTransaction) : Prop :=
  Forall (fun s => sponsored_row_ok s = true) rows /\ NoDup (map ST_ID rows).

#[export] Instance sponsored_ok_dec rows : Decision (sponsored_ok rows).
Proof. unfold sponsored_ok. apply _. Defined.

(** ** Messages *)

Definition PendingMessageStatus := "PENDING".
Definition SuccessMessageStatus := "SUCCESS".
Definition FailureMessageStatus := "FAILURE".

Definition MessageStatuses : list string := [PendingMessageStatus; SuccessMessageStatus; FailureMessageStatus].

(** [message_type], an enum that knows what the code calls a messenger type. *)
Definition message_types : list string :=
  ["TWILIO_SMS"; "AWS_SMS"; "AWS_EMAIL"; "DRY_RUN"; "TWILIO_EMAIL"; "TWILIO_WHATSAPP"].

Record MessageStatusHistoryEntry := mkMessageHistory {
  MH_Status : string;
  MH_Timestamp : Z }.

Record MessageRow := mkMessageRow {
  M_ID : string;
  M_Type : string;
  M_AssetID : option string;
  M_ReceiverID : string;
  M_WalletID : string;
  M_ReceiverWalletID : option string;
  M_TextEncrypted : string;
  M_TitleEncrypted : option string;
  M_Status : string;
  M_StatusHistory : list MessageStatusHistoryEntry;
  M_CreatedAt : Z;
  M_UpdatedAt : Z }.
#[export] Instance eta_MessageRow : Eta MessageRow := fun r =>
  mkMessageRow (M_ID r) (M_Type r) (M_AssetID r) (M_ReceiverID r) (M_WalletID r) (M_ReceiverWalletID r)
    (M_TextEncrypted r) (M_TitleEncrypted r) (M_Status r) (M_StatusHistory r) (M_CreatedAt r) (M_UpdatedAt r).

(** The length of a text in characters, whose encoding is UTF-8. *)
Definition char_length (s : string) : nat :=
  List.length (List.filter (fun c => negb ((128 <=? code c)%nat && (code c <? 192)%nat)) (String.list_ascii_of_string s)).

(** The enums and the sizes of the columns, in characters. *)
Definition message_row_ok (m : MessageRow) : bool :=
  slices_Contains message_types (M_Type m) && slices_Contains MessageStatuses (M_Status m)
  && (char_length (M_TextEncrypted m) <=? 1024)%nat
  && (char_length (default "" (M_TitleEncrypted m)) <=? 128)%nat.

Definition messages_ok (rows : list MessageRow) : Prop :=
  Forall (fun m => message_row_ok m = true) rows /\ NoDup (map M_ID rows).

#[export] Instance messages_ok_dec rows : Decision (messages_ok rows).
Proof. unfold messages_ok. apply _. Defined.

(** ** Short links *)

Record ShortURL := mkShortURL {
  SU_ID : string;
  OriginalURL : string;
  SU_CreatedAt : Z }.

Definition short_urls_unique (rows : list ShortURL) : Prop :=
  NoDup (map SU_ID rows) /\ NoDup (map OriginalURL rows).

#[export] Instance short_urls_unique_dec rows : Decision (short_urls_unique rows).
Proof. unfold short_urls_unique. apply _. Defined.
