(* ===== verification/SdpDb.v ===== *)
(** The tables of a tenant of the platform that its core services share, as the
    structs of [internal/data] and the migrations of [db/migrations/sdp-migrations]
    declare them: payments, disbursements, receiver wallets, wallets, assets,
    the organization, with those of Tables.v; and the
    constraints every statement is checked against. *)

From S2P Require Import Prelude GoStrings Errors StateMachine Effects Schema Tables.
From Stdlib Require Import QArith.

Local Open Scope string_scope.
Local Open Scope list_scope.

(** ** Amounts

    A column of type NUMERIC(19,7) is an integer number of units of 10^-7.
    [shopspring/decimal] values are rational numbers: the operations the code
    uses ([Add], [Sub], [LessThan], [Equal]) are exact. *)

Class Numerics := {
  numeric_text : Z -> string;                    (* a column as the driver reads it *)
  numeric2_text : Z -> string;                   (* of two decimals, from a number of cents *)
  numeric_in : string -> option Z;               (* a parameter as the server reads it *)
  amount_ParseInt64 : string -> result string Z; (* of the Stellar SDK; the text of the error *)
  decimal_NewFromString : string -> res Q;
  decimal_StringFixed2 : Q -> string;
  decimal_StringFixed6 : Q -> string }.

Definition units : positive := 10000000.

(** What the services rely on: reading back what a column holds. *)
Class NumericLaws {N : Numerics} := {
  decimal_of_column z : exists q, decimal_NewFromString (numeric_text z) = Ok q /\ Qeq q (z # units);
  decimal_of_cents z : exists q, decimal_NewFromString (numeric2_text z) = Ok q /\ Qeq q (z # 100);
  text_of_cents z : numeric2_text z <> "" }.

Definition Truncate7 (q : Q) : Q :=
  Z.quot (Qnum q * Z.pos units) (Z.pos (Qden q)) # units.

(** [utils.ValidateAmount]. *)
Definition ValidateAmount {N : Numerics} (s : string) : res unit :=
  if s =? "" then Err (ENew "amount cannot be empty")
  else match amount_ParseInt64 s with
  | Err e =>
    if Contains e "more than 7 significant digits"
    then Err (ENew "the provided amount exceeds the maximum supported precision of 7 decimal places")
    else if Contains e "outside bounds of int64"
    then Err (ENew "the provided amount exceeds the maximum supported value")
    else Err (ENew "the provided amount is not a valid number")
  | Ok parsed => guard_err (parsed <=? 0)%Z (ENew "the provided amount must be greater than zero")
  end.

(** ** Rows *)

Definition PaymentTypeDisbursement := "DISBURSEMENT".
Definition PaymentTypeDirect := "DIRECT".

Definition PaymentType_Validate (pt : string) : res unit :=
  if slices_Contains [PaymentTypeDisbursement; PaymentTypeDirect] pt then Ok tt
  else Err (ENew ("invalid payment type: " +:+ pt)).

(** The order of texts in a database, which is its collation's. *)
Class Collation := { text_le : string -> string -> bool }.

Record PaymentStatusHistoryEntry := mkPaymentHistory {
  PH_Status : string;
  PH_StatusMessage : option string;
  PH_Timestamp : Z }.

Record Payment := mkPayment {
  Pay_ID : string;
  Pay_Amount : Z;
  Pay_StellarTransactionID : option string;
  Pay_Status : string;
  Pay_StatusHistory : list PaymentStatusHistoryEntry;
  Pay_Type : string;
  Pay_DisbursementID : option string;
  Pay_AssetID : string;
  Pay_ReceiverID : string;
  Pay_ReceiverWalletID : string;
  Pay_ExternalPaymentID : option string;
  Pay_SenderAddress : option string;
  Pay_CreatedAt : Z;
  Pay_UpdatedAt : Z }.
#[export] Instance eta_Payment : Eta Payment := fun r =>
  mkPayment (Pay_ID r) (Pay_Amount r) (Pay_StellarTransactionID r) (Pay_Status r)
    (Pay_StatusHistory r) (Pay_Type r) (Pay_DisbursementID r) (Pay_AssetID r) (Pay_ReceiverID r)
    (Pay_ReceiverWalletID r) (Pay_ExternalPaymentID r) (Pay_SenderAddress r) (Pay_CreatedAt r)
    (Pay_UpdatedAt r).

Record DisbursementStatusHistoryEntry := mkDisbursementHistory {
  DH_UserID : string;
  DH_Status : string;
  DH_Timestamp : Z;
  DH_Reason : string }.

Record Disbursement := mkDisbursement {
  Dis_ID : string;
  Dis_Name : string;
  Dis_WalletID : string;
  Dis_AssetID : string;
  Dis_Status : string;
  Dis_VerificationField : option string;
  Dis_StatusHistory : list DisbursementStatusHistoryEntry;
  Dis_ReceiverRegistrationMessageTemplate : string;
  Dis_FileName : option string;
  Dis_FileContent : string;
  Dis_RegistrationContactType : RegistrationContactType;
  Dis_CreatedAt : Z;
  Dis_UpdatedAt : Z }.
#[export] Instance eta_Disbursement : Eta Disbursement := fun r =>
  mkDisbursement (Dis_ID r) (Dis_Name r) (Dis_WalletID r) (Dis_AssetID r) (Dis_Status r)
    (Dis_VerificationField r) (Dis_StatusHistory r) (Dis_ReceiverRegistrationMessageTemplate r)
    (Dis_FileName r) (Dis_FileContent r) (Dis_RegistrationContactType r) (Dis_CreatedAt r)
    (Dis_UpdatedAt r).

Record ReceiversWalletStatusHistoryEntry := mkReceiverWalletHistory {
  RH_Status : string;
  RH_StatusMessage : string;
  RH_Timestamp : Z }.

Record ReceiverWallet := mkReceiverWallet {
  RW_ID : string;
  RW_ReceiverID : string;
  RW_WalletID : string;
  RW_StellarAddress : option string;
  RW_StellarMemo : option string;
  RW_StellarMemoType : option string;
  RW_Status : string;
  RW_StatusHistory : list ReceiversWalletStatusHistoryEntry;
  RW_OTP : option string;
  RW_OTPAttempts : Z;
  RW_OTPCreatedAt : option Z;
  RW_OTPConfirmedAt : option Z;
  RW_OTPConfirmedWith : option string;
  RW_SEP24TransactionID : option string;
  RW_InvitationSentAt : option Z;
  RW_CreatedAt : Z;
  RW_UpdatedAt : Z }.
#[export] Instance eta_ReceiverWallet : Eta ReceiverWallet := fun r =>
  mkReceiverWallet (RW_ID r) (RW_ReceiverID r) (RW_WalletID r) (RW_StellarAddress r)
    (RW_StellarMemo r) (RW_StellarMemoType r) (RW_Status r) (RW_StatusHistory r) (RW_OTP r)
    (RW_OTPAttempts r) (RW_OTPCreatedAt r) (RW_OTPConfirmedAt r) (RW_OTPConfirmedWith r)
    (RW_SEP24TransactionID r) (RW_InvitationSentAt r) (RW_CreatedAt r) (RW_UpdatedAt r).

Record Wallet := mkWallet {
  Wal_ID : string;
  Wal_SEP10ClientDomain : string;
  Wal_Enabled : bool;
  Wal_UserManaged : bool;
  Wal_Embedded : bool;
  Wal_Name : string;
  Wal_DeletedAt : option Z;
  Wal_Homepage : string;
  Wal_DeepLinkSchema : string }.
#[export] Instance eta_Wallet : Eta Wallet := fun r =>
  mkWallet (Wal_ID r) (Wal_SEP10ClientDomain r) (Wal_Enabled r) (Wal_UserManaged r) (Wal_Embedded r) (Wal_Name r)
    (Wal_DeletedAt r) (Wal_Homepage r) (Wal_DeepLinkSchema r).

Record Asset := mkAsset { Asset_ID : string; Code : string; Issuer : string; Asset_DeletedAt : option Z }.
#[export] Instance eta_Asset : Eta Asset := fun r =>
  mkAsset (Asset_ID r) (Code r) (Issuer r) (Asset_DeletedAt r).

(** [IsNative] and [Equals]; [strings.EqualFold] on the ASCII issuers. *)
Definition Asset_IsNative (a : Asset) : bool :=
  (TrimSpace (Issuer a) =? "") && ((Code a =? "XLM") || (Code a =? "NATIVE")).

Definition Asset_Equals (a other : Asset) : bool :=
  if Asset_IsNative a && Asset_IsNative other then true
  else (Code a =? Code other) && (ToLower (Issuer a) =? ToLower (Issuer other)).

Record Organization := mkOrganization {
  Org_Name : string;
  IsApprovalRequired : bool;
  IsMemoTracingEnabled : bool;
  PaymentCancellationPeriodDays : option Z;
  Org_CAPTCHADisabled : option bool;
  Org_MFADisabled : option bool;
  OTPMessageTemplate : string;
  MessageChannelPriority : list string;
  ReceiverInvitationsDisabled : option bool;
  ReceiverInvitationResendIntervalDays : option Z;
  ReceiverRegistrationMessageTemplate : string;
  IsLinkShortenerEnabled : bool;
  Org_TimezoneUTCOffset : string;
  Org_PrivacyPolicyLink : option string }.
#[export] Instance eta_Organization : Eta Organization := fun r =>
  mkOrganization (Org_Name r) (IsApprovalRequired r) (IsMemoTracingEnabled r) (PaymentCancellationPeriodDays r)
    (Org_CAPTCHADisabled r) (Org_MFADisabled r) (OTPMessageTemplate r) (MessageChannelPriority r)
    (ReceiverInvitationsDisabled r) (ReceiverInvitationResendIntervalDays r) (ReceiverRegistrationMessageTemplate r)
    (IsLinkShortenerEnabled r) (Org_TimezoneUTCOffset r) (Org_PrivacyPolicyLink r).

(** The configuration of the tenant's Circle client: [circle/client_config.go]. *)
Record ClientConfig := mkClientConfig {
  EncryptedAPIKey : option string;
  WalletID : option string;
  EncrypterPublicKey : option string }.

Record SdpDb := mkSdpDb {
  payments : list Payment;
  disbursements : list Disbursement;
  receiver_wallets : list ReceiverWallet;
  wallets : list Wallet;
  assets : list Asset;
  organizations : list Organization;
  circle_client_config : list ClientConfig;
  receivers : list Receiver;
  receiver_verifications : list ReceiverVerification;
  circle_transfer_requests : list CircleTransferRequest;
  circle_recipients : list CircleRecipient;
  receiver_registration_attempts : list ReceiverRegistrationAttempt;
  wallets_assets : list (string * string);         (* the wallet and the asset *)
  embedded_wallets : list EmbeddedWallet;
  sponsored_transactions : list SponsoredTransaction;
  messages : list MessageRow;
  short_urls : list ShortURL }.
#[export] Instance eta_SdpDb : Eta SdpDb := fun r =>
  mkSdpDb (payments r) (disbursements r) (receiver_wallets r) (wallets r) (assets r)
    (organizations r) (circle_client_config r) (receivers r) (receiver_verifications r)
    (circle_transfer_requests r) (circle_recipients r) (receiver_registration_attempts r)
    (wallets_assets r) (embedded_wallets r) (sponsored_transactions r) (messages r) (short_urls r).

(** ** Constraints *)

(** [check_payment_type_disbursement], the column sizes, the enums. *)
Definition payment_row_ok (p : Payment) : bool :=
  (if Pay_Type p =? PaymentTypeDisbursement then negb (bool_decide (Pay_DisbursementID p = None))
   else (Pay_Type p =? PaymentTypeDirect) && bool_decide (Pay_DisbursementID p = None))
  && slices_Contains PaymentStatuses (Pay_Status p)
  && (String.length (default "" (Pay_StellarTransactionID p)) <=? 64)%nat
  && (String.length (default "" (Pay_SenderAddress p)) <=? 69)%nat
  && (String.length (default "" (Pay_ExternalPaymentID p)) <=? 64)%nat
  && (Z.abs (Pay_Amount p) <? 10 ^ 19)%Z.

Definition payments_ok (rows : list Payment) : Prop :=
  Forall (fun p => payment_row_ok p = true) rows /\ NoDup (map Pay_ID rows).

Definition disbursement_row_ok (d : Disbursement) : bool :=
  slices_Contains DisbursementStatuses (Dis_Status d)
  && (String.length (Dis_Name d) <=? 128)%nat.

Definition disbursements_unique (rows : list Disbursement) : Prop :=
  NoDup (map Dis_ID rows) /\ NoDup (map Dis_Name rows).

(** One wallet per receiver and wallet, and an address belongs to one receiver
    (the trigger [validate_stellar_address_per_receiver]). *)
Definition address_conflict (a b : ReceiverWallet) : bool :=
  match RW_StellarAddress a with
  | Some x => (TrimSpace x <>? "") && bool_decide (RW_StellarAddress b = Some x)
              && (RW_ReceiverID a <>? RW_ReceiverID b)
  | None => false
  end.

Definition receiver_wallets_ok (rows : list ReceiverWallet) : Prop :=
  Forall (fun rw => slices_Contains ReceiversWalletStatuses (RW_Status rw) = true) rows /\
  NoDup (map RW_ID rows) /\ NoDup (map (fun rw => (RW_ReceiverID rw, RW_WalletID rw)) rows).

Definition addresses_ok (rows : list ReceiverWallet) : Prop :=
  Forall (fun a => Forall (fun b => address_conflict a b = false) rows) rows.

#[export] Instance payments_ok_dec rows : Decision (payments_ok rows).
Proof. unfold payments_ok. apply _. Defined.
#[export] Instance disbursements_unique_dec rows : Decision (disbursements_unique rows).
Proof. unfold disbursements_unique. apply _. Defined.
#[export] Instance receiver_wallets_ok_dec rows : Decision (receiver_wallets_ok rows).
Proof. unfold receiver_wallets_ok. apply _. Defined.
#[export] Instance addresses_ok_dec rows : Decision (addresses_ok rows).
Proof. unfold addresses_ok. apply _. Defined.

Definition check_payments {A} (a : A) (db : SdpDb) : res (A * SdpDb) :=
  if decide (payments_ok (payments db)) then Ok (a, db)
  else Err (EExternal "pq: a constraint of payments is violated").

Definition check_disbursements {A} (a : A) (db : SdpDb) : res (A * SdpDb) :=
  if negb (forallb disbursement_row_ok (disbursements db))
  then Err (EExternal "pq: a constraint of disbursements is violated")
  else if decide (disbursements_unique (disbursements db)) then Ok (a, db)
  else Err (EExternal "pq: duplicate key value violates a unique constraint of disbursements").

Definition duplicate_address : err :=
  EExternal "pq: P0001 the stellar address already belongs to another receiver".

Definition check_receiver_wallets {A} (a : A) (db : SdpDb) : res (A * SdpDb) :=
  if decide (addresses_ok (receiver_wallets db)) then
    if decide (receiver_wallets_ok (receiver_wallets db)) then Ok (a, db)
    else Err (EExternal "pq: a constraint of receiver_wallets is violated")
  else Err duplicate_address.

(** A credential that is used already has an error of its own. *)
Definition duplicate_credential : err :=
  EExternal "pq: 23505 embedded_wallets_credential_id_key".
Definition duplicate_key : err := EExternal "pq: 23505 duplicate key value violates a unique constraint".

Definition check_embedded_wallets {A} (a : A) (db : SdpDb) : res (A * SdpDb) :=
  if decide (credentials_ok (embedded_wallets db)) then
    if decide (embedded_wallets_ok (embedded_wallets db)) then Ok (a, db)
    else Err (EExternal "pq: a constraint of embedded_wallets is violated")
  else Err duplicate_credential.

Definition check_sponsored {A} (a : A) (db : SdpDb) : res (A * SdpDb) :=
  if decide (sponsored_ok (sponsored_transactions db)) then Ok (a, db)
  else Err (EExternal "pq: a constraint of sponsored_transactions is violated").

Definition check_messages {A} (a : A) (db : SdpDb) : res (A * SdpDb) :=
  if decide (messages_ok (messages db)) then Ok (a, db)
  else Err (EExternal "pq: value too long for type character varying, or another constraint of messages").

Definition check_short_urls {A} (a : A) (db : SdpDb) : res (A * SdpDb) :=
  if negb (forallb (fun u => (char_length (SU_ID u) <=? 10)%nat) (short_urls db))
  then Err (EExternal "pq: value too long for type character varying(10)")
  else if decide (short_urls_unique (short_urls db)) then Ok (a, db) else Err duplicate_key.

(** ** Updates

    [UPDATE ... SET f WHERE p]: the rows before the update that met [p], after
    [f] and the trigger that refreshes [updated_at]. *)

Definition refresh_payment (ctx : StmtCtx) (p : Payment) : Payment := p <| Pay_UpdatedAt := NOW ctx |>.
Definition refresh_disbursement (ctx : StmtCtx) (d : Disbursement) : Disbursement :=
  d <| Dis_UpdatedAt := NOW ctx |>.
Definition refresh_receiver_wallet (ctx : StmtCtx) (rw : ReceiverWallet) : ReceiverWallet :=
  rw <| RW_UpdatedAt := NOW ctx |>.

Definition UpdatePayments (p : SdpDb -> Payment -> bool) (f : StmtCtx -> Payment -> Payment) :
    Stmt SdpDb (list Payment) := fun ctx db =>
  let set x := refresh_payment ctx (f ctx x) in
  check_payments (map set (filter (fun x => p db x = true) (payments db)))
    (db <| payments := update_where (p db) set (payments db) |>).

Definition UpdateDisbursements (p : SdpDb -> Disbursement -> bool)
    (f : StmtCtx -> Disbursement -> Disbursement) : Stmt SdpDb (list Disbursement) := fun ctx db =>
  let set x := refresh_disbursement ctx (f ctx x) in
  check_disbursements (map set (filter (fun x => p db x = true) (disbursements db)))
    (db <| disbursements := update_where (p db) set (disbursements db) |>).

Definition UpdateReceiverWallets (p : SdpDb -> ReceiverWallet -> bool)
    (f : StmtCtx -> ReceiverWallet -> ReceiverWallet) : Stmt SdpDb (list ReceiverWallet) :=
  fun ctx db =>
  let set x := refresh_receiver_wallet ctx (f ctx x) in
  check_receiver_wallets (map set (filter (fun x => p db x = true) (receiver_wallets db)))
    (db <| receiver_wallets := update_where (p db) set (receiver_wallets db) |>).

Definition refresh_embedded_wallet (ctx : StmtCtx) (w : EmbeddedWallet) : EmbeddedWallet :=
  w <| EW_UpdatedAt := NOW ctx |>.
Definition refresh_sponsored (ctx : StmtCtx) (s : SponsoredTransaction) : SponsoredTransaction :=
  s <| ST_UpdatedAt := NOW ctx |>.

Definition UpdateEmbeddedWallets (p : EmbeddedWallet -> bool) (f : StmtCtx -> EmbeddedWallet -> EmbeddedWallet) :
    Stmt SdpDb (list EmbeddedWallet) := fun ctx db =>
  let set x := refresh_embedded_wallet ctx (f ctx x) in
  check_embedded_wallets (map set (filter (fun x => p x = true) (embedded_wallets db)))
    (db <| embedded_wallets := update_where p set (embedded_wallets db) |>).

Definition UpdateSponsored (p : SponsoredTransaction -> bool)
    (f : StmtCtx -> SponsoredTransaction -> SponsoredTransaction) : Stmt SdpDb (list SponsoredTransaction) :=
  fun ctx db =>
  let set x := refresh_sponsored ctx (f ctx x) in
  check_sponsored (map set (filter (fun x => p x = true) (sponsored_transactions db)))
    (db <| sponsored_transactions := update_where p set (sponsored_transactions db) |>).

(** ** Lookups by primary key *)

Definition lookup_payment (id : string) (db : SdpDb) : option Payment :=
  first_such (fun p => Pay_ID p =? id) (payments db).
Definition lookup_disbursement (id : string) (db : SdpDb) : option Disbursement :=
  first_such (fun d => Dis_ID d =? id) (disbursements db).
Definition lookup_receiver_wallet (id : string) (db : SdpDb) : option ReceiverWallet :=
  first_such (fun rw => RW_ID rw =? id) (receiver_wallets db).
Definition lookup_wallet (id : string) (db : SdpDb) : option Wallet :=
  first_such (fun w => Wal_ID w =? id) (wallets db).
Definition lookup_embedded_wallet (token : string) (db : SdpDb) : option EmbeddedWallet :=
  first_such (fun w => EW_Token w =? token) (embedded_wallets db).
Definition lookup_sponsored (id : string) (db : SdpDb) : option SponsoredTransaction :=
  first_such (fun s => ST_ID s =? id) (sponsored_transactions db).
Definition lookup_asset (id : string) (db : SdpDb) : option Asset :=
  first_such (fun a => Asset_ID a =? id) (assets db).

(** ** Lemmas *)

Lemma lookup_payment_id id db p : lookup_payment id db = Some p -> Pay_ID p = id.
Proof. intros H. apply first_such_some in H as [_ H]. by apply String.eqb_eq in H. Qed.

Lemma check_payments_ok {A} (a : A) db b db' :
  check_payments a db = Ok (b, db') <-> b = a /\ db' = db /\ payments_ok (payments db).
Proof. unfold check_payments. destruct (decide _); naive_solver. Qed.

Lemma check_disbursements_ok {A} (a : A) db b db' :
  check_disbursements a db = Ok (b, db') -> b = a /\ db' = db /\ disbursements_unique (disbursements db).
Proof.
  unfold check_disbursements. destruct (forallb _ _); cbn; [|done]. destruct (decide _); naive_solver.
Qed.

Lemma check_receiver_wallets_ok {A} (a : A) db b db' :
  check_receiver_wallets a db = Ok (b, db') ->
  b = a /\ db' = db /\ receiver_wallets_ok (receiver_wallets db) /\ addresses_ok (receiver_wallets db).
Proof.
  unfold check_receiver_wallets. destruct (decide _); [|done]. destruct (decide _); naive_solver.
Qed.

(** What an update did, by key. *)
Lemma UpdatePayments_ok p f ctx db rows db' :
  (forall x, Pay_ID (f ctx x) = Pay_ID x) ->
  UpdatePayments p f ctx db = Ok (rows, db') ->
  let set x := refresh_payment ctx (f ctx x) in
  rows = map set (filter (fun x => p db x = true) (payments db)) /\
  db' = db <| payments := update_where (p db) set (payments db) |> /\
  NoDup (map Pay_ID (payments db)) /\
  forall id, lookup_payment id db' = (fun x => if p db x then set x else x) <$> lookup_payment id db.
Proof.
  intros Hid H set. unfold UpdatePayments in H. apply check_payments_ok in H as (-> & -> & [_ Hnd]).
  split; [done|]. split; [done|]. split.
  - cbn in Hnd. rewrite update_where_proj in Hnd; [done|]. intros x _. apply Hid.
  - intros id. apply first_such_update. intros x.
    change (Pay_ID (refresh_payment ctx (f ctx x))) with (Pay_ID (f ctx x)). by rewrite Hid.
Qed.

Lemma UpdateDisbursements_ok p f ctx db rows db' :
  (forall x, Dis_ID (f ctx x) = Dis_ID x) ->
  UpdateDisbursements p f ctx db = Ok (rows, db') ->
  let set x := refresh_disbursement ctx (f ctx x) in
  rows = map set (filter (fun x => p db x = true) (disbursements db)) /\
  db' = db <| disbursements := update_where (p db) set (disbursements db) |> /\
  NoDup (map Dis_ID (disbursements db)) /\
  forall id, lookup_disbursement id db' =
    (fun x => if p db x then set x else x) <$> lookup_disbursement id db.
Proof.
  intros Hid H set. unfold UpdateDisbursements in H.
  apply check_disbursements_ok in H as (-> & -> & [Hnd _]).
  split; [done|]. split; [done|]. split.
  - cbn in Hnd. rewrite update_where_proj in Hnd; [done|]. intros x _. apply Hid.
  - intros id. apply first_such_update. intros x.
    change (Dis_ID (refresh_disbursement ctx (f ctx x))) with (Dis_ID (f ctx x)). by rewrite Hid.
Qed.

Lemma UpdateReceiverWallets_ok p f ctx db rows db' :
  (forall x, RW_ID (f ctx x) = RW_ID x) ->
  UpdateReceiverWallets p f ctx db = Ok (rows, db') ->
  let set x := refresh_receiver_wallet ctx (f ctx x) in
  rows = map set (filter (fun x => p db x = true) (receiver_wallets db)) /\
  db' = db <| receiver_wallets := update_where (p db) set (receiver_wallets db) |> /\
  addresses_ok (receiver_wallets db') /\
  forall id, lookup_receiver_wallet id db' =
    (fun x => if p db x then set x else x) <$> lookup_receiver_wallet id db.
Proof.
  intros Hid H set. unfold UpdateReceiverWallets in H.
  apply check_receiver_wallets_ok in H as (-> & -> & _ & Ha).
  split; [done|]. split; [done|]. split; [done|].
  intros id. apply first_such_update. intros x.
  change (RW_ID (refresh_receiver_wallet ctx (f ctx x))) with (RW_ID (f ctx x)). by rewrite Hid.
Qed.

(** With the key in the condition, at most one row is updated. *)
Lemma filter_key_length {A} (key : A -> string) (k : string) (q : A -> bool) l :
  NoDup (map key l) ->
  length (filter (fun x => (key x =? k) && q x = true) l) =
    match first_such (fun x => key x =? k) l with Some x => if q x then 1%nat else 0%nat | None => 0%nat end.
Proof.
  induction l as [|a l IH]; [done|]. cbn [map]. rewrite NoDup_cons. intros [Hnin Hnd].
  specialize (IH Hnd). rewrite filter_cons. cbn [first_such List.find].
  destruct (String.eqb_spec (key a) k) as [<-|Hk]; cbn [andb].
  - assert (Hz : length (filter (fun x => (key x =? key a) && q x = true) l) = 0%nat).
    { rewrite IH. assert (Hn : first_such (fun x => key x =? key a) l = None).
      { apply first_such_none. intros x Hx. apply eqb_false. intros Heq. apply Hnin.
        rewrite <- Heq. apply list_elem_of_fmap. eauto. }
      by rewrite Hn. }
    destruct (q a); [rewrite decide_True by done; cbn [length]; by rewrite Hz|].
    rewrite decide_False by done. exact Hz.
  - by rewrite decide_False by done.
Qed.
