(* ===== verification/PaymentStore.v ===== *)
(** The payments of the platform: the operations of [PaymentModel] in
    [internal/data/payments.go] on the tables of SdpDb.v. *)

From S2P Require Import Prelude GoStrings Errors StateMachine Effects Schema TxStore Limiter SdpDb.

Local Open Scope string_scope.
Local Open Scope list_scope.

Module Sentinels.
Definition ErrRecordNotFound : err := ESentinel "record not found".
Definition ErrRecordAlreadyExists : err := ESentinel "record already exists".
Definition ErrMismatchNumRowsAffected : err := ESentinel "mismatch number of rows affected".
Definition ErrMissingInput : err := ESentinel "missing input".
End Sentinels.
Export Sentinels.

(** ** Payments as they are read: [basePaymentQuery]

    The joins keep a payment when its asset, receiver wallet and wallet exist;
    the disbursement is absent from a direct payment. *)

Record PaymentView := mkPaymentView {
  pv_row : Payment;
  pv_Disbursement : option Disbursement;
  pv_Asset : Asset;
  pv_ReceiverWallet : ReceiverWallet;
  pv_Wallet : Wallet }.

Definition join_payment (db : SdpDb) (p : Payment) : option PaymentView :=
  match lookup_asset (Pay_AssetID p) db, lookup_receiver_wallet (Pay_ReceiverWalletID p) db with
  | Some a, Some rw =>
    match lookup_wallet (RW_WalletID rw) db with
    | Some wal =>
      Some (mkPaymentView p
        (match Pay_DisbursementID p with Some d => lookup_disbursement d db | None => None end) a rw wal)
    | None => None
    end
  | _, _ => None
  end.

Definition basePaymentQuery (db : SdpDb) : list PaymentView := omap (join_payment db) (payments db).

Definition removeEmptyDisbursementForDirect (v : PaymentView) : PaymentView :=
  if Pay_Type (pv_row v) =? PaymentTypeDirect
  then mkPaymentView (pv_row v) None (pv_Asset v) (pv_ReceiverWallet v) (pv_Wallet v) else v.

Definition select_payments (q : PaymentView -> bool) (db : SdpDb) : list PaymentView :=
  filter (fun v => q v = true) (basePaymentQuery db).

Definition has_status (status : string) (v : PaymentView) : bool := Pay_Status (pv_row v) =? status.
Definition wallet_registered (v : PaymentView) : bool :=
  RW_Status (pv_ReceiverWallet v) =? RegisteredReceiversWalletStatus.
Definition disbursement_started (v : PaymentView) : bool :=
  match pv_Disbursement v with Some d => Dis_Status d =? StartedDisbursementStatus | None => false end.
Definition has_type (pt : string) (v : PaymentView) : bool := Pay_Type (pv_row v) =? pt.

(** The conditions of the [GetReadyBy...] queries. *)
Definition ready_to_pay (v : PaymentView) : bool :=
  has_status ReadyPaymentStatus v && wallet_registered v
  && ((has_type PaymentTypeDisbursement v && disbursement_started v) || has_type PaymentTypeDirect v).

(** ** Inserts and updates of the caller *)

Record PaymentInsert := mkPaymentInsert {
  PI_ReceiverID : string;
  PI_DisbursementID : option string;
  PI_PaymentType : string;
  PI_Amount : string;
  PI_AssetID : string;
  PI_ReceiverWalletID : string;
  PI_ExternalPaymentID : option string }.

Record PaymentUpdate := mkPaymentUpdate {
  PU_Status : string;
  PU_StatusMessage : string;
  PU_StellarTransactionID : string;
  PU_SenderAddress : string }.

Definition PaymentInsert_Validate {N : Numerics} (p : PaymentInsert) : res unit :=
  if TrimSpace (PI_ReceiverID p) =? "" then Err (ENew "receiver_id is required")
  else
    let? _ := wrap "type is invalid" (PaymentType_Validate (PI_PaymentType p)) in
    if (PI_PaymentType p =? PaymentTypeDisbursement)
       && (default "" (PI_DisbursementID p) =? "")
    then Err (ENew "disbursement_id is required for disbursement payments")
    else if (PI_PaymentType p =? PaymentTypeDirect) && negb (bool_decide (PI_DisbursementID p = None))
    then Err (ENew "disbursement_id must be null for direct payments")
    else
      let? _ := wrap "amount is invalid" (ValidateAmount (PI_Amount p)) in
      if TrimSpace (PI_AssetID p) =? "" then Err (ENew "asset_id is required")
      else guard_err (TrimSpace (PI_ReceiverWalletID p) =? "") (ENew "receiver_wallet_id is required").

Definition PaymentUpdate_Validate (p : PaymentUpdate) : res unit :=
  let? _ := wrap "status is invalid" (PaymentStatus_Validate (PU_Status p)) in
  guard_err (TrimSpace (PU_StellarTransactionID p) =? "") (ENew "stellar transaction id is required").

(** [status_history = array_append(status_history, create_payment_status_history(NOW(), ...))]. *)
Definition set_payment_status (status : string) (message : option string) (ctx : StmtCtx)
    (p : Payment) : Payment :=
  p <| Pay_Status := status |>
    <| Pay_StatusHistory := Pay_StatusHistory p ++ [mkPaymentHistory status message (NOW ctx)] |>.

Definition null_if_empty (s : string) : option string := if s =? "" then None else Some s.

(** ** Operations *)

Section PaymentModel.
Context {D L Ev : Type} {E : Env D} {C : Conn D SdpDb} {N : Numerics}.
Abbreviation M := (M D L Ev).

(** [GetAll] with the ids as the filter, the oldest update first. *)
Definition GetByIDs (paymentIDs : list string) : M (list PaymentView) :=
  wrapM "getting payments by IDs" (wrapM "selecting payments" (db_stmt (fun _ db =>
    Ok (map removeEmptyDisbursementForDirect
          (sort_by (fun v => Some (Pay_UpdatedAt (pv_row v)))
             (select_payments (fun v => slices_Contains paymentIDs (Pay_ID (pv_row v))) db)), db)))).

Definition Payment_Get (id : string) : M PaymentView :=
  let! payments := wrapM ("getting payment by ID " +:+ id)
    (wrapM "selecting payments" (db_stmt (fun _ db =>
      Ok (map removeEmptyDisbursementForDirect
            (select_payments (fun v => Pay_ID (pv_row v) =? id) db), db)))) in
  match payments with
  | [] => throw ErrRecordNotFound
  | v :: _ => mret_ v
  end.

(** [GetAll] with the statuses as the filter. *)
Definition GetAllByStatus (statuses : list string) : M (list PaymentView) :=
  wrapM "selecting payments" (db_stmt (fun _ db =>
    Ok (map removeEmptyDisbursementForDirect
          (select_payments (fun v => slices_Contains statuses (Pay_Status (pv_row v))) db), db))).

(** [Count] with the statuses as the filter. *)
Definition CountByStatus (statuses : list string) : M Z :=
  wrapM "error counting payments" (db_stmt (fun _ db =>
    Ok (Z.of_nat (length (select_payments (fun v => slices_Contains statuses (Pay_Status (pv_row v))) db)), db))).

(** [ORDER BY p.disbursement_id ASC, p.updated_at ASC]. *)
Definition by_disbursement (a b : PaymentView) : bool :=
  let x := default "" (Pay_DisbursementID (pv_row a)) in
  let y := default "" (Pay_DisbursementID (pv_row b)) in
  if x =? y then (Pay_UpdatedAt (pv_row a) <=? Pay_UpdatedAt (pv_row b))%Z else String.leb x y.

(** [FOR UPDATE SKIP LOCKED] skips a result when another transaction holds a
    row it joins, [FOR UPDATE OF p, rw] only for those two tables. *)
Definition skips_payment (ctx : StmtCtx) (v : PaymentView) : bool :=
  row_locked ctx (Pay_ID (pv_row v)) || row_locked ctx (RW_ID (pv_ReceiverWallet v)).
Definition skips_all (ctx : StmtCtx) (v : PaymentView) : bool :=
  skips_payment ctx v || row_locked ctx (Asset_ID (pv_Asset v)) || row_locked ctx (Wal_ID (pv_Wallet v))
  || match pv_Disbursement v with Some d => row_locked ctx (Dis_ID d) | None => false end.

Definition batch_disbursement (v : PaymentView) : bool :=
  has_status ReadyPaymentStatus v && wallet_registered v && disbursement_started v
  && has_type PaymentTypeDisbursement v.
Definition batch_direct (v : PaymentView) : bool :=
  has_status ReadyPaymentStatus v && wallet_registered v && has_type PaymentTypeDirect v.

Definition GetBatchForUpdate (batchSize : Z) : M (list PaymentView) :=
  if (batchSize <=? 0)%Z then throw (ENew "batch size must be greater than 0")
  else
    let! disbursementPayments := wrapM "getting disbursement payments" (db_stmt (fun ctx db =>
      Ok (sort_with by_disbursement (select_payments (fun v =>
            batch_disbursement v && negb (skips_all ctx v)) db), db))) in
    let! directPayments := wrapM "getting direct payments" (db_stmt (fun ctx db =>
      Ok (sort_by (fun v => Some (Pay_UpdatedAt (pv_row v))) (select_payments (fun v =>
            batch_direct v && negb (skips_payment ctx v)) db), db))) in
    let allPayments := disbursementPayments ++ directPayments in
    mret_ (map removeEmptyDisbursementForDirect
             (if (Z.of_nat (length allPayments) >? batchSize)%Z
              then take (Z.to_nat batchSize) allPayments else allPayments)).

Definition get_ready (error : string) (q : PaymentView -> bool) : M (list PaymentView) :=
  wrapM error (db_stmt (fun _ db =>
    Ok (map removeEmptyDisbursementForDirect (select_payments q db), db))).

Definition GetReadyByDisbursementID (disbursementID : string) : M (list PaymentView) :=
  get_ready ("getting ready payments for disbursement ID " +:+ disbursementID) (fun v =>
    has_status ReadyPaymentStatus v && wallet_registered v && disbursement_started v
    && bool_decide (Pay_DisbursementID (pv_row v) = Some disbursementID)).

Definition GetReadyByID (paymentIDs : list string) : M (list PaymentView) :=
  wrapM "getting ready payments by IDs" (db_stmt (fun _ db =>
    Ok (map removeEmptyDisbursementForDirect
          (sort_by (fun v => Some (Pay_UpdatedAt (pv_row v)))
             (select_payments (fun v =>
                slices_Contains paymentIDs (Pay_ID (pv_row v)) && ready_to_pay v) db)), db))).

Definition GetReadyByReceiverWalletID (receiverWalletID : string) : M (list PaymentView) :=
  get_ready ("getting ready payments by receiver wallet ID " +:+ receiverWalletID) (fun v =>
    (RW_ID (pv_ReceiverWallet v) =? receiverWalletID) && ready_to_pay v).

Definition of_disbursement (disbursementID : string) (p : Payment) : bool :=
  bool_decide (Pay_DisbursementID p = Some disbursementID).

Definition DeleteAllDraftForDisbursement (disbursementID : string) : M unit :=
  wrapM "error deleting payments for disbursement" (db_stmt (fun _ db =>
    Ok (tt, db <| payments := filter (fun p =>
      negb (of_disbursement disbursementID p && (Pay_Status p =? DraftPaymentStatus)) = true)
      (payments db) |>))).

Definition UpdateStatusByDisbursementID (disbursementID targetStatus : string) : M unit :=
  let sourceStatuses := PaymentStatus_SourceStatuses targetStatus in
  wrapM ("error updating payment statuses for disbursement " +:+ disbursementID)
    (db_stmt (UpdatePayments (fun _ p => of_disbursement disbursementID p
        && slices_Contains sourceStatuses (Pay_Status p)) (set_payment_status targetStatus None))) ;;!
  mret_ tt.

(** The number of rows affected. *)
Definition UpdateStatuses (pays : list PaymentView) (toStatus : string) : M Z :=
  match pays with
  | [] => mret_ 0%Z
  | _ =>
    lift (res_forM (fun v =>
      let p := pv_row v in
      wrap ("cannot transition from " +:+ Pay_Status p +:+ " to " +:+ toStatus
            +:+ " for payment " +:+ Pay_ID p)
        (PaymentStatus_TransitionTo (Pay_Status p) toStatus)) pays) ;;!
    let paymentIDs := map (fun v => Pay_ID (pv_row v)) pays in
    let! rows := wrapM "error updating payment statuses" (db_stmt (UpdatePayments
      (fun _ p => slices_Contains paymentIDs (Pay_ID p)) (set_payment_status toStatus None))) in
    mret_ (Z.of_nat (length rows))
  end.

(** [COALESCE($3, ...)] of a string that is never NULL. *)
Definition set_payment_update (update : PaymentUpdate) (ctx : StmtCtx) (p : Payment) : Payment :=
  set_payment_status (PU_Status update) (Some (PU_StatusMessage update)) ctx p
    <| Pay_StellarTransactionID := Some (PU_StellarTransactionID update) |>
    <| Pay_SenderAddress :=
         match null_if_empty (PU_SenderAddress update) with
         | Some a => Some a
         | None => Pay_SenderAddress p
         end |>.

Definition Payment_Update (payment : Payment) (update : PaymentUpdate) : M unit :=
  wrapM "error validating payment update" (lift (PaymentUpdate_Validate update)) ;;!
  wrapM ("cannot transition from " +:+ Pay_Status payment +:+ " to " +:+ PU_Status update
         +:+ " for payment " +:+ Pay_ID payment)
    (lift (PaymentStatus_TransitionTo (Pay_Status payment) (PU_Status update))) ;;!
  let! rows := wrapM ("error updating payment with id " +:+ Pay_ID payment) (db_stmt (UpdatePayments
    (fun _ p => Pay_ID p =? Pay_ID payment) (set_payment_update update))) in
  match rows with
  | [] => throw (ENew ("payment " +:+ Pay_ID payment +:+ " status was not updated from "
                       +:+ Pay_Status payment +:+ " to " +:+ PU_Status update))
  | [_] => mret_ tt
  | _ => throw (ENew ("unexpected number of rows affected: " +:+ itoa (Z.of_nat (length rows))
                      +:+ " when updating payment " +:+ Pay_ID payment +:+ " status from "
                      +:+ Pay_Status payment +:+ " to " +:+ PU_Status update))
  end.

(** [FROM previous_payments_stellar_transaction_ids pp WHERE payments.id = pp.id]. *)
Definition set_retried (statusMessage : string) (ctx : StmtCtx) (p : Payment) : Payment :=
  set_payment_status ReadyPaymentStatus
    (Some (statusMessage +:+ default "" (Pay_StellarTransactionID p))) ctx p
    <| Pay_StellarTransactionID := Some "" |>.

Definition RetryFailedPayments (email : string) (paymentIDs : list string) : M unit :=
  match paymentIDs with
  | [] => throw (EWrap "payment ids is required" ErrMissingInput)
  | _ =>
    if email =? "" then throw (EWrap "user email is required" ErrMissingInput)
    else
      let statusMessage := "User " +:+ email
        +:+ " has requested to retry the payment - Previous Stellar Transaction ID: " in
      let! rows := wrapM "error retrying failed payments" (db_stmt (UpdatePayments
        (fun _ p => slices_Contains paymentIDs (Pay_ID p) && (Pay_Status p =? FailedPaymentStatus))
        (set_retried statusMessage))) in
      lift (guard_err (negb (Nat.eqb (length rows) (length paymentIDs))) ErrMismatchNumRowsAffected)
  end.

(** The time of the last READY entry of the history; NULL when there is none. *)
Definition last_ready (p : Payment) : option Z :=
  foldl (fun acc h =>
    if PH_Status h =? ReadyPaymentStatus then
      match acc with
      | Some t => Some (Z.max t (PH_Timestamp h))
      | None => Some (PH_Timestamp h)
      end
    else acc) None (Pay_StatusHistory p).

Definition Day : Z := 24 * 60 * Minute.

(** [time.Now().AddDate(0, 0, -int(periodInDays))], in UTC. *)
Definition CancelPaymentsWithinPeriodDays (periodInDays : Z) : M unit :=
  let! now := ask env_now in
  wrapM "error canceling payments" (db_stmt (UpdatePayments
    (fun _ p => (Pay_Status p =? ReadyPaymentStatus)
       && match last_ready p with Some t => (t <=? now - periodInDays * Day)%Z | None => false end)
    (set_payment_status CanceledPaymentStatus None))) ;;!
  mret_ tt.

Definition UpdateStatus (paymentID status : string) (statusMsg : option string)
    (stellarTransactionHash : string) : M unit :=
  if paymentID =? "" then throw (ENew "paymentID is required")
  else
    wrapM "status is invalid" (lift (PaymentStatus_Validate status)) ;;!
    let! rows := wrapM ("marking payment as " +:+ status) (db_stmt (UpdatePayments
      (fun _ p => Pay_ID p =? paymentID)
      (fun ctx p =>
         let p' := set_payment_status status statusMsg ctx p in
         match null_if_empty stellarTransactionHash with
         | Some h => p' <| Pay_StellarTransactionID := Some h |>
         | None => p'
         end))) in
    lift (guard_err (Nat.eqb (length rows) 0)
      (EWrap ("payment with ID " +:+ paymentID +:+ " was not found") ErrRecordNotFound)).

Section insert.
Context {U : UuidGen}.

(** The row of an insert: the columns that are not given have their defaults. *)
Definition insert_payment (insert : PaymentInsert) (status : string) (message : option string) :
    Stmt SdpDb string := fun ctx db =>
  match numeric_in (PI_Amount insert) with
  | None => Err (EExternal "pq: invalid input syntax for type numeric")
  | Some amount =>
    let id := uuid_generate ctx (length (payments db)) in
    check_payments id (db <| payments := payments db ++
      [mkPayment id amount None status [mkPaymentHistory status message (NOW ctx)]
         (PI_PaymentType insert) (PI_DisbursementID insert) (PI_AssetID insert) (PI_ReceiverID insert)
         (PI_ReceiverWalletID insert) (PI_ExternalPaymentID insert) None (NOW ctx) (NOW ctx)] |>)
  end.

Definition InsertAll (inserts : list PaymentInsert) : M unit :=
  lift (res_forM (fun p => wrap "error validating payment" (PaymentInsert_Validate p)) inserts) ;;!
  mforM (fun p => wrapM "error inserting payment"
                    (db_stmt (insert_payment p DraftPaymentStatus None)) ;;! mret_ tt) inserts.

(** The columns of the statement do not include [disbursement_id]. *)
Definition CreateDirectPayment (insert : PaymentInsert) (userID : string) : M string :=
  wrapM "validating payment" (lift (PaymentInsert_Validate insert)) ;;!
  wrapM "inserting direct payment" (db_stmt (insert_payment
    (mkPaymentInsert (PI_ReceiverID insert) None (PI_PaymentType insert) (PI_Amount insert)
       (PI_AssetID insert) (PI_ReceiverWalletID insert) (PI_ExternalPaymentID insert))
    ReadyPaymentStatus (Some ("Payment submitted by user_id " +:+ userID)))).
End insert.
End PaymentModel.

(** ** The life of a payment *)

(** What no operation changes: what is paid, to whom, for what. *)
Definition payment_core (p : Payment) :=
  (Pay_ID p, Pay_Amount p, Pay_Type p, Pay_DisbursementID p, Pay_AssetID p, Pay_ReceiverID p,
   Pay_ReceiverWalletID p, Pay_ExternalPaymentID p, Pay_CreatedAt p).

Section lifecycle.
Context {D L Ev : Type} {E : Env D} {C : Conn D SdpDb} {CL : ConnLaws D SdpDb} {N : Numerics}.
Abbreviation M := (M D L Ev).
Implicit Types w : World D L Ev.

Definition sdp w : SdpDb := conn_get (w_db w).

(** An update as part of a program: whatever comes back, its effect or none. *)
Lemma wp_update q f (Q : res (list Payment) -> World D L Ev -> Prop) w :
  (forall r w', sdp w' = sdp (settle w) \/
     (exists ctx rows, UpdatePayments q f ctx (sdp (settle w)) = Ok (rows, sdp w')) -> Q r w') ->
  wp (db_stmt (UpdatePayments q f)) Q w.
Proof.
  intros H. apply H. unfold sdp.
  destruct (db_stmt_effect (UpdatePayments q f) w) as [He|(ctx & rows & x' & Hq & He)]; rewrite He;
    [by left|]. right. exists ctx, rows. by rewrite conn_get_set.
Qed.

(** The updates of payments that check the state machine. *)
Inductive PaymentOp :=
  | OpByDisbursement (disbursementID targetStatus : string)
  | OpStatuses (pays : list PaymentView) (toStatus : string)
  | OpUpdate (payment : Payment) (update : PaymentUpdate)
  | OpCancelOld (periodInDays : Z).

Definition run_payment_op (op : PaymentOp) : M unit :=
  match op with
  | OpByDisbursement d s => UpdateStatusByDisbursementID d s
  | OpStatuses pays s => UpdateStatuses pays s ;;! mret_ tt
  | OpUpdate p u => Payment_Update p u
  | OpCancelOld n => CancelPaymentsWithinPeriodDays n
  end.

(** The tables the statement of an operation meets: the cancellation asks for the
    time first. *)
Definition met (op : PaymentOp) w : SdpDb :=
  match op with OpCancelOld _ => sdp (settle (settle w)) | _ => sdp (settle w) end.

(** The status from which the operation takes a payment to be moving: the one of
    the row, which SQL compares, or the one of the payment the caller holds. *)
Definition taken_from (op : PaymentOp) (p : Payment) (s : string) : Prop :=
  match op with
  | OpStatuses pays _ => exists v, v ∈ pays /\ Pay_ID (pv_row v) = Pay_ID p /\ Pay_Status (pv_row v) = s
  | OpUpdate payment _ => Pay_ID payment = Pay_ID p /\ Pay_Status payment = s
  | _ => Pay_Status p = s
  end.

(** A payment that is moved has one more entry of history, for its new status. *)
Definition moved_on (from : Payment -> string -> Prop) (p p' : Payment) : Prop :=
  payment_core p' = payment_core p /\
  (exists m t, Pay_StatusHistory p' = Pay_StatusHistory p ++ [mkPaymentHistory (Pay_Status p') m t]) /\
  exists s, from p s /\ step payment_transitions s (Pay_Status p').

Definition all_moved_on (from : Payment -> string -> Prop) (db db' : SdpDb) : Prop :=
  db' = db <| payments := payments db' |> /\ map Pay_ID (payments db') = map Pay_ID (payments db) /\
  forall id p, lookup_payment id db = Some p ->
    exists p', lookup_payment id db' = Some p' /\ (p' = p \/ moved_on from p p').

Lemma UpdatePayments_moved_on from q f ctx db rows db' :
  (forall x, Pay_ID (f ctx x) = Pay_ID x) ->
  (forall x, q db x = true -> moved_on from x (refresh_payment ctx (f ctx x))) ->
  UpdatePayments q f ctx db = Ok (rows, db') -> all_moved_on from db db'.
Proof.
  intros Hid Hev H. apply UpdatePayments_ok in H as (_ & Hdb' & _ & Hl'); [|done].
  split; [by rewrite Hdb'|]. split.
  - rewrite Hdb'. apply update_where_proj. intros x _. apply (Hid x).
  - intros id p Hl. rewrite Hl', Hl. cbn. eexists. split; [done|].
    destruct (q db p) eqn:Eq; [right; by apply Hev|by left].
Qed.

Lemma wp_update_moved_on from q f w (Q : res (list Payment) -> World D L Ev -> Prop) :
  (forall ctx x, Pay_ID (f ctx x) = Pay_ID x) ->
  (forall ctx x, q (sdp (settle w)) x = true -> moved_on from x (refresh_payment ctx (f ctx x))) ->
  (forall r w', sdp w' = sdp (settle w) \/ all_moved_on from (sdp (settle w)) (sdp w') -> Q r w') ->
  wp (db_stmt (UpdatePayments q f)) Q w.
Proof.
  intros Hid Hev HQ. apply wp_update. intros r w' H. apply HQ.
  destruct H as [->|(ctx & rows & H)]; [by left|right].
  exact (UpdatePayments_moved_on from q f ctx _ rows _ (Hid ctx) (Hev ctx) H).
Qed.

Lemma set_status_moved_on (from : Payment -> string -> Prop) s status message ctx p :
  from p s -> step payment_transitions s status ->
  moved_on from p (refresh_payment ctx (set_payment_status status message ctx p)).
Proof. intros Hf Hs. split; [done|]. split; [by do 2 eexists|]. by exists s. Qed.

(** C36: The updates of payments keep to the lifecycle, whatever fails and whatever
    else runs: the tables are those they were given, or those their statement met
    with some payments moved.  A payment that is moved keeps what it pays and its
    history, which gains one entry, and no row is lost or made.  The move is one of
    the state machine's: from the status of the row by disbursement and in the
    cancellation, which compare it in SQL; in [UpdateStatuses] and [Update] from the
    status the caller read, which they compare, and which no statement ties to the
    row. *)
Theorem payments_follow_lifecycle (op : PaymentOp) w :
  let w' := snd (run_payment_op op w) in
  sdp w' = sdp w \/ sdp w' = met op w \/ all_moved_on (taken_from op) (met op w) (sdp w').
Proof.
  cbv zeta. change (wp (run_payment_op op)
    (fun _ w' => sdp w' = sdp w \/ sdp w' = met op w \/ all_moved_on (taken_from op) (met op w) (sdp w')) w).
  destruct op; cbn [run_payment_op met] in *.
  - unfold UpdateStatusByDisbursementID. rewrite wp_bind, wp_wrap.
    apply (wp_update_moved_on (taken_from (OpByDisbursement disbursementID targetStatus))); [done| |intros [] w' H; by right].
    intros ctx x Hq. apply andb_true_iff in Hq as [_ Hq]. apply slices_Contains_spec in Hq.
    apply (set_status_moved_on _ (Pay_Status x)); [done|]. by apply payment_sources_spec.
  - unfold UpdateStatuses. destruct pays as [|v0 pays0]; [by left|].
    set (pays := v0 :: pays0) in *. rewrite !wp_bind, wp_lift.
    destruct (res_forM _ pays) as [[]|e] eqn:Hg; [|by left]. rewrite wp_bind, wp_wrap.
    apply (wp_update_moved_on (taken_from (OpStatuses pays toStatus))); [done| |intros [] w' H; by right].
    intros ctx x Hq. apply slices_Contains_spec, list_elem_of_fmap in Hq as (v & Hid & Hv).
    apply res_forM_ok in Hg. rewrite Forall_forall in Hg. specialize (Hg v Hv). cbn in Hg. apply wrap_ok in Hg.
    apply (set_status_moved_on _ (Pay_Status (pv_row v))); [by exists v|].
    by apply PaymentStatus_TransitionTo_spec.
  - unfold Payment_Update. rewrite wp_bind, wp_wrap, wp_lift.
    destruct (wrap _ _) as [[]|e]; [|by left]. rewrite wp_bind, wp_wrap, wp_lift.
    destruct (wrap _ (PaymentStatus_TransitionTo _ _)) as [[]|e] eqn:Hg; [|by left].
    rewrite wp_bind, wp_wrap. apply (wp_update_moved_on (taken_from (OpUpdate payment update))); [done| |].
    + intros ctx x Hq. apply String.eqb_eq in Hq. apply wrap_ok, PaymentStatus_TransitionTo_spec in Hg.
      split; [done|]. split; [by do 2 eexists|]. by exists (Pay_Status payment).
    + intros [rows|e] w' H; [|by right]. destruct rows as [|? [|? ?]]; by right.
  - unfold CancelPaymentsWithinPeriodDays. rewrite wp_bind.
    change (wp (ask env_now) ?Q w) with (Q (Ok (env_now (w_clock w))) (settle w)). cbn beta iota.
    rewrite wp_bind, wp_wrap.
    apply (wp_update_moved_on (taken_from (OpCancelOld periodInDays))); [done| |intros [r|e] w' H; by right].
    intros ctx x Hq. apply andb_true_iff in Hq as [Hq _]. apply String.eqb_eq in Hq.
    apply (set_status_moved_on _ (Pay_Status x)); [done|]. rewrite Hq. by apply PaymentStatus_TransitionTo_spec.
Qed.
End lifecycle.

Section facts.
Context {D L Ev : Type} {E : Env D} {C : Conn D SdpDb} {CL : ConnLaws D SdpDb} {N : Numerics}.
Implicit Types w : World D L Ev.

(** A retry that succeeds put back exactly the listed payments, each of which
    had failed: READY, without its transaction id, which the history keeps with
    the user's address.  This edge is not one of the state machine's, which
    knows a retry only as FAILED to PENDING: nothing leads it from FAILED back
    to READY. *)
Theorem retry_restarts_failed (email : string) (paymentIDs : list string) w w'
    (Hrun : RetryFailedPayments email paymentIDs w = (Ok tt, w')) :
  NoDup paymentIDs /\
  (forall id, id ∈ paymentIDs -> exists p p' t, lookup_payment id (sdp (settle w)) = Some p /\
     lookup_payment id (sdp w') = Some p' /\
     Pay_Status p = FailedPaymentStatus /\ Pay_Status p' = ReadyPaymentStatus /\
     Pay_StellarTransactionID p' = Some "" /\ payment_core p' = payment_core p /\
     Pay_StatusHistory p' = Pay_StatusHistory p ++ [mkPaymentHistory ReadyPaymentStatus
       (Some (("User " +:+ email
        +:+ " has requested to retry the payment - Previous Stellar Transaction ID: ")
        +:+ default "" (Pay_StellarTransactionID p))) t]) /\
  (forall id, id ∉ paymentIDs -> lookup_payment id (sdp w') = lookup_payment id (sdp (settle w))) /\
  ~ reachable payment_transitions FailedPaymentStatus ReadyPaymentStatus.
Proof.
  unfold RetryFailedPayments in Hrun. destruct paymentIDs as [|i ids]; [done|].
  set (paymentIDs := i :: ids) in *. destruct (email =? ""); [done|].
  apply mbind_ok in Hrun as (rows & w1 & H & Hg). apply lift_ok in Hg as [Hg ->].
  apply map_errM_ok, db_stmt_ok in H as (ctx & x' & Hq & ->).
  change (conn_get (w_db (settle w))) with (sdp (settle w)) in Hq.
  apply UpdatePayments_ok in Hq as (Hrows & _ & Hnd & Hl); [|done].
  unfold sdp at 2 3. cbn [w_db put_part set_field]. rewrite conn_get_set.
  apply guard_err_ok, negb_false_iff, Nat.eqb_eq in Hg. rewrite Hrows, length_map in Hg.
  destruct (exact_hits Pay_ID paymentIDs (fun p => Pay_Status p =? FailedPaymentStatus) _ Hnd Hg)
    as [Hdup Hhit].
  split; [done|]. split; [|split].
  - intros id Hid. destruct (Hhit id Hid) as (p & Hin & Hk & Hf).
    assert (Hlp : lookup_payment id (sdp (settle w)) = Some p).
    { by apply (first_such_unique Pay_ID). }
    exists p, (refresh_payment ctx (set_retried ("User " +:+ email
      +:+ " has requested to retry the payment - Previous Stellar Transaction ID: ") ctx p)), (NOW ctx).
    split; [done|]. split.
    + rewrite Hl, Hlp. cbn. rewrite Hk, Hf.
      assert (Hc : slices_Contains paymentIDs id = true) by by apply slices_Contains_spec.
      unfold paymentIDs in Hc. cbn in Hc. by rewrite Hc.
    + apply String.eqb_eq in Hf. by repeat split.
  - intros id Hid. rewrite Hl. destruct (lookup_payment id _) as [p|] eqn:E0; cbn; [|done].
    apply lookup_payment_id in E0. apply slices_Contains_false in Hid. subst id.
    unfold paymentIDs in Hid. cbn in Hid. by rewrite Hid.
  - intros Hr. assert (Hin : ReadyPaymentStatus ∈
      [FailedPaymentStatus; PendingPaymentStatus; SuccessPaymentStatus]).
    { eapply (closed_reachable payment_transitions); [by_computation| |exact Hr]. by constructor. }
    rewrite !elem_of_cons in Hin. by destruct Hin as [|[|[|?%elem_of_nil]]].
Qed.

(** A payment the platform may send: it and its joins are in the tables, it is
    READY, its receiver has registered, its disbursement, if any, is started. *)
Definition payable (db : SdpDb) (v : PaymentView) : Prop :=
  exists p v0, p ∈ payments db /\ join_payment db p = Some v0 /\ ready_to_pay v0 = true /\
    v = removeEmptyDisbursementForDirect v0.

Lemma elem_of_select q db v :
  v ∈ select_payments q db <-> exists p, p ∈ payments db /\ join_payment db p = Some v /\ q v = true.
Proof.
  unfold select_payments, basePaymentQuery. rewrite list_elem_of_filter, list_elem_of_omap.
  naive_solver.
Qed.

Lemma batch_payable db q vs n :
  (forall v, v ∈ vs -> exists p, p ∈ payments db /\ join_payment db p = Some v /\ q v = true) ->
  (forall v, q v = true -> ready_to_pay v = true) ->
  Forall (payable db) (map removeEmptyDisbursementForDirect (take n vs)).
Proof.
  intros Hvs Hq. apply Forall_forall. intros v Hv. apply list_elem_of_fmap in Hv as (v0 & -> & Hv).
  apply subseteq_take in Hv. destruct (Hvs v0 Hv) as (p & ? & ? & ?). exists p, v0. auto.
Qed.

(** A payment that may be sent and none of whose rows another process ever holds. *)
Definition free_to_pay (db : SdpDb) (v : PaymentView) : Prop :=
  exists p v0, p ∈ payments db /\ join_payment db p = Some v0 /\ ready_to_pay v0 = true /\
    (forall t, skips_all (mkCtx 0 (env_locked t)) v0 = false) /\ v = removeEmptyDisbursementForDirect v0.

Lemma ready_to_pay_batch v : ready_to_pay v = batch_disbursement v || batch_direct v.
Proof.
  unfold batch_disbursement, batch_direct, ready_to_pay.
  by destruct (has_status _ v), (wallet_registered v), (disbursement_started v),
    (has_type PaymentTypeDisbursement v), (has_type PaymentTypeDirect v).
Qed.

(** The batch of the payment jobs, taken inside their transaction, holds at most
    [batchSize] payments, all of which may be sent; and all of those, unless it is
    full or another process held their rows. *)
Lemma GetBatchForUpdate_open (batchSize : Z) w vs w' (Htx : w_tx w <> ∅)
    (Hrun : GetBatchForUpdate batchSize w = (Ok vs, w')) :
  (0 < batchSize)%Z /\ w_db w' = w_db w /\ w_tx w' = w_tx w /\
  length vs <= Z.to_nat batchSize /\ Forall (payable (sdp w)) vs /\
  (forall v, free_to_pay (sdp w) v -> v ∈ vs \/ length vs = Z.to_nat batchSize).
Proof.
  unfold GetBatchForUpdate in Hrun. destruct (Z.leb_spec batchSize 0); [done|].
  apply mbind_ok in Hrun as (ds & w1 & H1 & Hrun). apply map_errM_ok in H1.
  apply db_stmt_open_held in H1 as (now1 & x1 & [= Hds <-] & Hdb1 & Htx1); [|done].
  apply mbind_ok in Hrun as (dirs & w2 & H2 & Hrun). apply map_errM_ok in H2.
  apply db_stmt_open_held in H2 as (now2 & x2 & [= Hdirs <-] & Hdb2 & Htx2); [|congruence].
  rewrite conn_set_get in Hdb1, Hdb2. rewrite Hdb1 in *. injection Hrun as <- <-.
  set (all := ds ++ dirs) in *.
  assert (Hcut : (if (Z.of_nat (length all) >? batchSize)%Z then take (Z.to_nat batchSize) all
                  else all) = take (Z.to_nat batchSize) all).
  { destruct (Z.gtb_spec (Z.of_nat (length all)) batchSize); [done|]. rewrite take_ge; [done|lia]. }
  rewrite Hcut. split; [done|]. split; [done|]. split; [congruence|].
  split; [rewrite length_map, length_take; lia|]. split.
  - apply (batch_payable _ (fun v => batch_disbursement v || batch_direct v)).
    + intros v Hv. apply elem_of_app in Hv as [Hv|Hv].
      * rewrite <- Hds, sort_with_perm in Hv. apply elem_of_select in Hv as (p & ? & ? & Hq).
        apply andb_true_iff in Hq as [Hq _]. exists p. by rewrite Hq.
      * rewrite <- Hdirs, sort_by_perm in Hv. apply elem_of_select in Hv as (p & ? & ? & Hq).
        apply andb_true_iff in Hq as [Hq _]. exists p. by rewrite Hq, orb_true_r.
    + intros v Hq. by rewrite ready_to_pay_batch.
  - intros v (p & v0 & Hp & Hj & Hr & Hfree & ->).
    assert (Hall : v0 ∈ all).
    { rewrite ready_to_pay_batch in Hr. apply elem_of_app.
      apply orb_true_iff in Hr as [Hr|Hr]; [left; rewrite <- Hds, sort_with_perm|right; rewrite <- Hdirs, sort_by_perm];
        apply elem_of_select; exists p; (split; [done|]); (split; [done|]); rewrite Hr; apply negb_true_iff.
      - apply (Hfree (w_clock w)).
      - specialize (Hfree (w_clock w1)). unfold skips_all in Hfree. rewrite !orb_false_iff in Hfree. apply Hfree. }
    rewrite length_map, length_take. destruct (decide (length all <= Z.to_nat batchSize)); [left|right; lia].
    rewrite take_ge by done. apply list_elem_of_fmap. by exists v0.
Qed.
End facts.
