(* ===== verification/Platform.v ===== *)
(** A small platform for the witnesses: both databases without faults or other
    writers, a toy text form of amounts that meets the laws of SdpDb.v, sample
    rows; and the witnesses of PaymentStore.v. *)

From S2P Require Import Prelude GoStrings Errors StateMachine Effects Schema TxStore Tables SdpDb PaymentStore.
From Stdlib Require Import QArith Ascii.

Local Close Scope Q_scope.
Local Open Scope string_scope.
Local Open Scope list_scope.
Local Open Scope go_scope.

Module Platform.
Definition Dbs : Type := SdpDb * TssDb.

#[export] Instance tss_conn : Conn Dbs TssDb :=
  {| conn_id := 0; conn_get := snd; conn_set := fun x d => (fst d, x) |}.
#[export] Instance tss_laws : ConnLaws Dbs TssDb.
Proof. constructor; [done|by intros []|done]. Qed.
#[export] Instance sdp_conn : Conn Dbs SdpDb :=
  {| conn_id := 1; conn_get := fst; conn_set := fun x d => (x, snd d) |}.
#[export] Instance sdp_laws : ConnLaws Dbs SdpDb.
Proof. constructor; [done|by intros []|done]. Qed.

#[export] Instance env : Env Dbs :=
  {| env_fault _ := NoFault; env_interfere _ d := d; env_now t := Z.of_nat t;
     env_locked _ _ := false |}.

#[export] Instance sdk : StellarSdk := Calm.sdk.
#[export] Instance uuids : UuidGen := {| uuid_generate ctx i := "u" +:+ itoa (Z.of_nat i) |}.

(** Numbers in binary, the least significant digit first. *)
Fixpoint bits (p : positive) : string :=
  match p with
  | xH => ""
  | xO p => String "0"%char (bits p)
  | xI p => String "1"%char (bits p)
  end.
Fixpoint unbits (s : string) : positive :=
  match s with
  | EmptyString => xH
  | String "0"%char s => xO (unbits s)
  | String _ s => xI (unbits s)
  end.
Definition text (z : Z) : string :=
  match z with
  | Z0 => "z"
  | Zpos p => String "+"%char (bits p)
  | Zneg p => String "-"%char (bits p)
  end.
Definition untext (s : string) : option Z :=
  match s with
  | String "+"%char s => Some (Zpos (unbits s))
  | String "-"%char s => Some (Zneg (unbits s))
  | "z" => Some 0%Z
  | _ => None
  end.

Lemma unbits_bits p : unbits (bits p) = p.
Proof. by induction p as [p IH|p IH|]; cbn; rewrite ?IH. Qed.

Lemma untext_text z : untext (text z) = Some z.
Proof. by destruct z; cbn; rewrite ?unbits_bits. Qed.

(** Columns are numbers of units, cents are marked with a letter. *)
Definition decimal (s : string) : res Q :=
  match s with
  | String "c"%char s =>
    match untext s with Some z => Ok (z # 100)%Q | None => Err (EExternal "can't convert to decimal") end
  | _ =>
    match untext s with Some z => Ok (z # units)%Q | None => Err (EExternal "can't convert to decimal") end
  end.

#[export] Instance numerics : Numerics :=
  {| numeric_text := text; numeric2_text z := String "c"%char (text z); numeric_in := untext;
     amount_ParseInt64 s := match untext s with Some z => Ok z | None => Err "invalid amount format" end;
     decimal_NewFromString := decimal; decimal_StringFixed2 q := text (Qnum q);
     decimal_StringFixed6 q := text (Qnum q) |}.

#[export] Instance numeric_laws : NumericLaws.
Proof.
  constructor.
  - intros z. exists (z # units)%Q. split; [|reflexivity]. cbn [numeric_text decimal_NewFromString numerics].
    pose proof (untext_text z) as H. by destruct z; cbn in *; rewrite ?unbits_bits.
  - intros z. exists (z # 100)%Q. cbn. rewrite untext_text. by split.
  - done.
Qed.

Definition xlm : Asset := mkAsset "a1" "XLM" "" None.
Definition wallet : Wallet := mkWallet "w1" "wallet.example" true false false "Wallet" None "https://wallet.example" "wallet://".
Definition registered : ReceiverWallet :=
  mkReceiverWallet "rw1" "r1" "w1" (Some "GDEST") None None RegisteredReceiversWalletStatus [] None 0
    None None None None None 0 0.
Definition invited : ReceiverWallet :=
  mkReceiverWallet "rw2" "r2" "w1" None None None DraftReceiversWalletStatus [] None 0
    None None None None None 0 0.

Definition disbursement (id status : string) : Disbursement :=
  mkDisbursement id ("name of " +:+ id) "w1" "a1" status None
    [mkDisbursementHistory "author" DraftDisbursementStatus 0 ""] "" None "" RegistrationContactTypePhone 0 0.

(** A payment of so many units. *)
Definition pay (id disbursementID status : string) (amount : Z) (rw : ReceiverWallet) : Payment :=
  mkPayment id amount None status [] PaymentTypeDisbursement (Some disbursementID) "a1"
    (RW_ReceiverID rw) (RW_ID rw) None None 0 0.

Definition organization (approval : bool) : Organization := mkOrganization "org" approval false (Some 3%Z) (Some true) None "" ["SMS"; "EMAIL"] None None ""
    false "+00:00" None.

Definition sdp_db (approval : bool) (ds : list Disbursement) (ps : list Payment) : SdpDb :=
  mkSdpDb ps ds [registered; invited] [wallet] [xlm] [organization approval] [] [] [] [] [] []
    [("w1", "a1")] [] [] [] [].

Definition world (db : SdpDb) (txs : list Transaction) : World Dbs unit unit :=
  mkWorld (db, mkTssDb txs []) 0 ∅ tt [].

Definition account : TransactionAccount := NewDefaultStellarTransactionAccount "GDIST".
End Platform.

(** ** Witnesses for the payments *)

Module Batch.
Export Platform.
Local Open Scope Z_scope.

(** A started disbursement: a payment ready for a registered receiver, one for
    an invited receiver, one that failed. *)
Definition p_ready := pay "p1" "d1" ReadyPaymentStatus 50000000 registered.
Definition p_failed :=
  (pay "p3" "d1" FailedPaymentStatus 10000000 registered) <| Pay_StellarTransactionID := Some "hash" |>.
Definition started : World Dbs unit unit :=
  world (sdp_db false [disbursement "d1" StartedDisbursementStatus]
    [p_ready; pay "p2" "d1" ReadyPaymentStatus 70000000 invited; p_failed]) [].
End Batch.
Import Batch.

(** The payment that is ready is paused, from the status it has. *)
Lemma payments_follow_lifecycle_witness :
  exists p', lookup_payment "p1" (sdp (snd (run_payment_op (OpByDisbursement "d1" PausedPaymentStatus) started)))
             = Some p' /\ moved_on (fun p s => Pay_Status p = s) p_ready p'.
Proof.
  destruct (payments_follow_lifecycle (E := env) (C := sdp_conn) (OpByDisbursement "d1" PausedPaymentStatus) started)
    as [H|[H|(_ & _ & H)]].
  1, 2: apply (f_equal (fun db => Pay_Status <$> lookup_payment "p1" db)) in H; vm_compute in H; discriminate.
  destruct (H "p1" p_ready eq_refl) as (p' & Hl & [Hp|Hm]); [|by exists p'].
  exfalso. rewrite Hp in Hl. vm_compute in Hl. discriminate.
Defined.

Lemma retry_restarts_failed_witness :
  exists w', RetryFailedPayments "user@example" ["p3"] started = (Ok tt, w') /\
    exists p', lookup_payment "p3" (sdp w') = Some p' /\ Pay_Status p' = ReadyPaymentStatus.
Proof.
  eexists. split; [vm_compute; reflexivity|].
  edestruct (retry_restarts_failed (E := env) (C := sdp_conn) "user@example" ["p3"] started)
    as (_ & H & _); [vm_compute; reflexivity|].
  destruct (H "p3") as (p & p' & t & _ & Hl & _ & Hs & _); [by_computation|].
  exists p'. split; [exact Hl|exact Hs].
Defined.
