(* ===== verification/ReceiverStore.v ===== *)
(** The receivers of the platform and what verifies them: the operations of
    [ReceiverModel] in [internal/data/receivers.go], of [ReceiverVerificationModel]
    in [receiver_verification.go], and the validation of contacts of
    [internal/utils/validation.go]. *)

From S2P Require Import Prelude GoStrings Errors StateMachine Effects Schema TxStore Tables SdpDb.
From S2P Require Import PaymentStore.
From Stdlib Require Import Ascii String.

Local Open Scope string_scope.
Local Open Scope list_scope.

(** ** Third-party code *)

(** [bcrypt] salts every hash: the result depends on when it is computed.  The errors
    of a comparison are a mismatch and those of texts that are no hashes. *)
Definition ErrMismatchedHashAndPassword : err :=
  ESentinel "crypto/bcrypt: hashedPassword is not the hash of the given password".

Class Bcrypt := {
  bcrypt_GenerateFromPassword : nat -> string -> res string;
  bcrypt_CompareHashAndPassword : string -> string -> res unit }.

(** A hash compares equal to the value it was made from. *)
Class BcryptLaws {B : Bcrypt} := {
  bcrypt_compare_generated t v h :
    bcrypt_GenerateFromPassword t v = Ok h -> bcrypt_CompareHashAndPassword h v = Ok tt }.

(** [phonenumbers.Parse] followed by [IsValidNumber]. *)
Class PhoneNumbers := { phonenumbers_valid : string -> bool }.

(** ** Contacts *)

Definition is_letter (c : ascii) : bool := is_lower c || is_upper c.
Definition is_alnum (c : ascii) : bool := is_letter c || is_digit c.

(** [^\+[1-9]{1}[0-9]{9,14}$]. *)
Definition rxPhone (s : string) : bool :=
  match list_ascii_of_string s with
  | plus :: d :: ds =>
    Ascii.eqb plus "+" && is_digit d && negb (Ascii.eqb d "0") && forallb is_digit ds
    && (9 <=? List.length ds)%nat && (List.length ds <=? 14)%nat
  | _ => false
  end.

(** The parts of a list between the elements that meet [p]. *)
Fixpoint split_on (p : ascii -> bool) (l : list ascii) : list (list ascii) :=
  match l with
  | [] => [[]]
  | c :: l' =>
    if p c then [] :: split_on p l'
    else match split_on p l' with part :: parts => (c :: part) :: parts | [] => [[c]] end
  end.

Definition email_local_char (c : ascii) : bool :=
  is_alnum c || existsb (Ascii.eqb c) (list_ascii_of_string ".!#$%&'*+/=?^_`{|}~-").

(** [[a-zA-Z0-9](?:[a-zA-Z0-9-]{0,61}[a-zA-Z0-9])?]. *)
Definition dns_label (l : list ascii) : bool :=
  match l with
  | [] => false
  | c :: _ =>
    is_alnum c && is_alnum (List.last l c) && forallb (fun c => is_alnum c || Ascii.eqb c "-") l
    && (List.length l <=? 63)%nat
  end.

(** [rxEmail]: no "@" but the one between the local part and the labels. *)
Definition rxEmail (s : string) : bool :=
  match split_on (Ascii.eqb "@") (list_ascii_of_string s) with
  | [local; domain] =>
    negb (bool_decide (local = [])) && forallb email_local_char local
    && forallb dns_label (split_on (Ascii.eqb ".") domain)
  | _ => false
  end.

Definition ErrInvalidE164PhoneNumber : err :=
  ESentinel "the provided phone number is not a valid E.164 number".
Definition ErrEmptyPhoneNumber : err := ESentinel "phone number cannot be empty".
Definition ErrEmptyEmail : err := ESentinel "email field is required".

Definition ValidatePhoneNumber {PN : PhoneNumbers} (phoneNumberStr : string) : res unit :=
  if TrimSpace phoneNumberStr =? "" then Err ErrEmptyPhoneNumber
  else if negb (rxPhone phoneNumberStr) then Err ErrInvalidE164PhoneNumber
  else guard_err (negb (phonenumbers_valid phoneNumberStr)) ErrInvalidE164PhoneNumber.

Definition ValidateEmail (email : string) : res unit :=
  if email =? "" then Err ErrEmptyEmail
  else guard_err (negb (rxEmail email)) (ENew "the email address provided is not valid").

Example phone_ok : rxPhone "+14155552671" = true /\ rxPhone "+0415555267" = false. Proof. done. Qed.
Example email_ok : map rxEmail ["a.b@mail.example"; "a@b@c"; "a@-x.org"; "@x"] = [true; false; false; false].
Proof. done. Qed.

(** ** Statements on the tables of this file *)

Definition duplicate_email : err := EExternal "pq: 23505 receiver_unique_email".
Definition duplicate_phone : err := EExternal "pq: 23505 receiver_unique_phone_number".

Definition check_receivers {A} (a : A) (db : SdpDb) : res (A * SdpDb) :=
  if negb (bool_decide (NoDup (lower_keys Rec_Email (receivers db)))) then Err duplicate_email
  else if negb (bool_decide (NoDup (lower_keys Rec_PhoneNumber (receivers db)))) then Err duplicate_phone
  else if decide (receivers_ok (receivers db)) then Ok (a, db)
  else Err (EExternal "pq: a constraint of receivers is violated").

Definition check_verifications {A} (a : A) (db : SdpDb) : res (A * SdpDb) :=
  if decide (verifications_ok (receiver_verifications db)) then Ok (a, db)
  else Err (EExternal "pq: a constraint of receiver_verifications is violated").

Definition UpdateReceivers (p : Receiver -> bool) (f : StmtCtx -> Receiver -> Receiver) :
    Stmt SdpDb (list Receiver) := fun ctx db =>
  let set x := (f ctx x) <| Rec_UpdatedAt := NOW ctx |> in
  check_receivers (map set (filter (fun x => p x = true) (receivers db)))
    (db <| receivers := update_where p set (receivers db) |>).

Definition UpdateVerifications (p : ReceiverVerification -> bool)
    (f : StmtCtx -> ReceiverVerification -> ReceiverVerification) :
    Stmt SdpDb (list ReceiverVerification) := fun ctx db =>
  let set x := (f ctx x) <| RV_UpdatedAt := NOW ctx |> in
  check_verifications (map set (filter (fun x => p x = true) (receiver_verifications db)))
    (db <| receiver_verifications := update_where p set (receiver_verifications db) |>).

Definition is_verification (receiverID field : string) (v : ReceiverVerification) : bool :=
  (RV_ReceiverID v =? receiverID) && (RV_VerificationField v =? field).

Definition lookup_receiver (id : string) (db : SdpDb) : option Receiver :=
  first_such (fun r => Rec_ID r =? id) (receivers db).
Definition lookup_verification (receiverID field : string) (db : SdpDb) : option ReceiverVerification :=
  first_such (is_verification receiverID field) (receiver_verifications db).

(** ** Receivers *)

Definition ErrDuplicateEmail : err := ESentinel "email already in use".
Definition ErrDuplicatePhoneNumber : err := ESentinel "phone number already in use".

Record ReceiverInsert := mkReceiverInsert {
  RI_PhoneNumber : option string;
  RI_Email : option string;
  RI_ExternalID : option string;
  RI_RecipientName : option string;
  RI_CurrencyType : option string }.

(** [type ReceiverUpdate ReceiverInsert]. *)
Definition ReceiverUpdate_IsEmpty (ru : ReceiverInsert) : bool :=
  bool_decide (RI_Email ru = None) && bool_decide (RI_ExternalID ru = None)
  && bool_decide (RI_PhoneNumber ru = None).

Definition ReceiverUpdate_Validate {PN : PhoneNumbers} (ru : ReceiverInsert) : res unit :=
  if ReceiverUpdate_IsEmpty ru then Err (ENew "no values provided to update receiver")
  else
    let? _ := match RI_Email ru with
              | Some e => wrap "validating email" (ValidateEmail e) | None => Ok tt end in
    match RI_PhoneNumber ru with
    | Some n => wrap "validating phone number" (ValidatePhoneNumber n)
    | None => Ok tt
    end.

(** A unique violation by the name of its index. *)
Definition duplicate_contact (prefix : string) (e : err) : err :=
  match e with
  | EExternal m =>
    if Contains m "23505" then
      if Contains m "receiver_unique_email" then ErrDuplicateEmail
      else if Contains m "receiver_unique_phone_number" then ErrDuplicatePhoneNumber
      else EWrap prefix e
    else EWrap prefix e
  | _ => EWrap prefix e
  end.

(** [SET] of the columns an update gives. *)
Definition set_receiver_update (ru : ReceiverInsert) (ctx : StmtCtx) (r : Receiver) : Receiver :=
  let r := match RI_PhoneNumber ru with Some n => r <| Rec_PhoneNumber := Some n |> | None => r end in
  let r := match RI_Email ru with Some e => r <| Rec_Email := Some e |> | None => r end in
  match RI_ExternalID ru with Some i => r <| Rec_ExternalID := Some i |> | None => r end.

(** [phone_number = ANY(contacts) OR email = ANY(contacts)]. *)
Definition has_contact (contacts : list string) (r : Receiver) : bool :=
  match Rec_PhoneNumber r with Some n => slices_Contains contacts n | None => false end
  || match Rec_Email r with Some e => slices_Contains contacts e | None => false end.

Section ReceiverModel.
Context {D L Ev : Type} {E : Env D} {C : Conn D SdpDb}.
Abbreviation M := (M D L Ev).

(** The single result of [GetAll] with the id as the filter; the statistics of
    the answer are left out. *)
Definition Receiver_Get (id : string) : M Receiver :=
  let! receivers := wrapM "getting receiver by id" (wrapM "error querying receivers"
    (db_stmt (fun _ db => Ok (filter (fun r => Rec_ID r =? id = true) (receivers db), db)))) in
  match receivers with
  | [] => throw ErrRecordNotFound
  | r :: _ => mret_ r
  end.

Definition Receiver_Update {PN : PhoneNumbers} (id : string) (receiverUpdate : ReceiverInsert) : M unit :=
  wrapM "validating receiver update" (lift (ReceiverUpdate_Validate receiverUpdate)) ;;!
  map_errM (duplicate_contact "updating receiver") (db_stmt (UpdateReceivers
    (fun r => Rec_ID r =? id) (set_receiver_update receiverUpdate))) ;;!
  mret_ tt.

Definition GetByContacts (contacts : list string) : M (list Receiver) :=
  match contacts with
  | [] => mret_ []
  | _ => wrapM "fetching receivers by phone numbers or email" (db_stmt (fun _ db =>
      Ok (filter (fun r => has_contact contacts r = true) (receivers db), db)))
  end.

(** [SELECT DISTINCT]: each receiver once, however many wallets match. *)
Definition GetByWalletAddress (walletAddress : string) : M Receiver :=
  let! receivers := wrapM ("querying receiver by wallet address " +:+ walletAddress) (db_stmt (fun _ db =>
    Ok (filter (fun r => existsb (fun rw => (RW_ReceiverID rw =? Rec_ID r)
          && bool_decide (RW_StellarAddress rw = Some walletAddress)
          && (RW_Status rw =? RegisteredReceiversWalletStatus)) (receiver_wallets db) = true)
          (receivers db), db))) in
  match receivers with
  | [] => throw ErrRecordNotFound
  | [r] => mret_ r
  | _ => throw (ENew ("multiple receivers found with wallet address " +:+ walletAddress))
  end.

Section insert.
Context {U : UuidGen}.

Definition insert_receiver (insert : ReceiverInsert) : Stmt SdpDb Receiver := fun ctx db =>
  let r := mkReceiver (uuid_generate ctx (List.length (receivers db))) (RI_Email insert)
    (RI_PhoneNumber insert) (RI_ExternalID insert) (RI_RecipientName insert) (RI_CurrencyType insert)
    (NOW ctx) (NOW ctx) in
  check_receivers r (db <| receivers := receivers db ++ [r] |>).

Definition Receiver_Insert (insert : ReceiverInsert) : M Receiver :=
  map_errM (duplicate_contact "inserting receiver") (db_stmt (insert_receiver insert)).
End insert.

(** ** Verifications *)

Definition MaxAttemptsAllowed : Z := 15.

Record ReceiverVerificationInsert := mkReceiverVerificationInsert {
  RVI_ReceiverID : string;
  RVI_VerificationField : string;
  RVI_VerificationValue : string }.

Definition ReceiverVerificationInsert_Validate (rvi : ReceiverVerificationInsert) : res unit :=
  if TrimSpace (RVI_ReceiverID rvi) =? "" then Err (ENew "receiver id is required")
  else if RVI_VerificationField rvi =? "" then Err (ENew "verification field is required")
  else guard_err (TrimSpace (RVI_VerificationValue rvi) =? "") (ENew "verification value is required").

(** [nil] pointers and empty texts are left as they are. *)
Record ReceiverVerificationUpdate := mkReceiverVerificationUpdate {
  RVU_ReceiverID : string;
  RVU_VerificationField : string;
  RVU_VerificationChannel : string;
  RVU_Attempts : option Z;
  RVU_ConfirmedAt : option Z;
  RVU_ConfirmedByType : string;
  RVU_ConfirmedByID : string;
  RVU_FailedAt : option Z }.

Definition ReceiverVerificationUpdate_Validate (rvu : ReceiverVerificationUpdate) : res unit :=
  if TrimSpace (RVU_ReceiverID rvu) =? "" then Err (ENew "receiver id is required")
  else if RVU_VerificationField rvu =? "" then Err (ENew "verification field is required")
  else guard_err (RVU_VerificationChannel rvu =? "") (ENew "verification channel is required").

Definition set_verification_update (u : ReceiverVerificationUpdate) (ctx : StmtCtx)
    (v : ReceiverVerification) : ReceiverVerification :=
  let v := match RVU_Attempts u with Some n => v <| RV_Attempts := n |> | None => v end in
  let v := match RVU_ConfirmedAt u with Some t => v <| RV_ConfirmedAt := Some t |> | None => v end in
  let v := if RVU_ConfirmedByID u =? "" then v else v <| RV_ConfirmedByID := Some (RVU_ConfirmedByID u) |> in
  let v := if RVU_ConfirmedByType u =? "" then v
           else v <| RV_ConfirmedByType := Some (RVU_ConfirmedByType u) |> in
  let v := match RVU_FailedAt u with Some t => v <| RV_FailedAt := Some t |> | None => v end in
  v <| RV_VerificationChannel := Some (RVU_VerificationChannel u) |>.

(** Without a field the text of the query starts with a comma. *)
Definition no_fields (u : ReceiverVerificationUpdate) : bool :=
  bool_decide (RVU_Attempts u = None) && bool_decide (RVU_ConfirmedAt u = None)
  && (RVU_ConfirmedByID u =? "") && (RVU_ConfirmedByType u =? "") && bool_decide (RVU_FailedAt u = None).

Definition GetByReceiverIDsAndVerificationField (receiverIds : list string) (verificationField : string) :
    M (list ReceiverVerification) :=
  wrapM "error querying receiver verifications" (db_stmt (fun _ db =>
    if slices_Contains GetAllVerificationTypes verificationField then
      Ok (filter (fun v => slices_Contains receiverIds (RV_ReceiverID v)
                    && (RV_VerificationField v =? verificationField) = true)
            (receiver_verifications db), db)
    else Err (EExternal "pq: invalid input value for enum verification_type"))).

Definition GetAllByReceiverID (receiverID : string) : M (list ReceiverVerification) :=
  wrapM "error querying receiver verifications" (db_stmt (fun _ db =>
    Ok (filter (fun v => RV_ReceiverID v =? receiverID = true) (receiver_verifications db), db))).

(** [ORDER BY updated_at DESC, verification_field ASC], an enum in its order. *)
Definition verification_rank (v : ReceiverVerification) : nat :=
  match list_find (fun t => t = RV_VerificationField v)
          [VerificationTypeDateOfBirth; VerificationTypePin; VerificationTypeNationalID;
           VerificationTypeYearMonth] with
  | Some (i, _) => i
  | None => 4
  end.

Definition latest_first (a b : ReceiverVerification) : bool :=
  if (RV_UpdatedAt a =? RV_UpdatedAt b)%Z then (verification_rank a <=? verification_rank b)%nat
  else (RV_UpdatedAt b <? RV_UpdatedAt a)%Z.

Definition GetLatestByContactInfo (contactInfo : string) : M ReceiverVerification :=
  no_rows_as ErrRecordNotFound
    ("fetching receiver verifications for contact info " +:+ TruncateString contactInfo 3)
    (GetContext (fun _ db => Ok (hd_error (sort_with latest_first
       (filter (fun v => existsb (fun r => (Rec_ID r =? RV_ReceiverID v) && has_contact [contactInfo] r)
                           (receivers db) = true) (receiver_verifications db))), db))).

Definition ExceededAttempts (attempts : Z) : bool := (MaxAttemptsAllowed <=? attempts)%Z.

Section bcrypt.
Context {B : Bcrypt}.

Definition HashVerificationValue (verificationValue : string) : M string :=
  wrapM "error hashing verification value"
    (ask_res (fun t => bcrypt_GenerateFromPassword t verificationValue)).

Definition CompareVerificationValue (hashedValue verificationValue : string) : bool :=
  is_ok (bcrypt_CompareHashAndPassword hashedValue verificationValue).

(** A new row: never tried, never confirmed. *)
Definition new_verification (ctx : StmtCtx) (receiverID field hashedValue : string) :
    ReceiverVerification :=
  mkReceiverVerification receiverID field hashedValue 0 None None None None None (NOW ctx) (NOW ctx).

Definition Verification_Insert (verificationInsert : ReceiverVerificationInsert) : M string :=
  wrapM "error validating receiver verification insert"
    (lift (ReceiverVerificationInsert_Validate verificationInsert)) ;;!
  let! hashedValue := wrapM "error hashing verification value"
    (HashVerificationValue (RVI_VerificationValue verificationInsert)) in
  wrapM "error inserting receiver verification" (db_stmt (fun ctx db =>
    check_verifications tt (db <| receiver_verifications := receiver_verifications db ++
      [new_verification ctx (RVI_ReceiverID verificationInsert)
         (RVI_VerificationField verificationInsert) hashedValue] |>))) ;;!
  mret_ hashedValue.

Definition UpdateVerificationValue (receiverID verificationField verificationValue : string) : M unit :=
  let! hashedValue := wrapM "error hashing verification value" (HashVerificationValue verificationValue) in
  wrapM "error updating receiver verification" (db_stmt (UpdateVerifications
    (is_verification receiverID verificationField) (fun _ v => v <| RV_HashedValue := hashedValue |>))) ;;!
  mret_ tt.

(** [ON CONFLICT (receiver_id, verification_field) DO UPDATE]. *)
Definition set_upserted (hashedValue userID : string) (ctx : StmtCtx) (v : ReceiverVerification) :
    ReceiverVerification :=
  let v' := v <| RV_HashedValue := hashedValue |> <| RV_Attempts := 0%Z |> in
  match RV_ConfirmedAt v with
  | Some _ => v' <| RV_ConfirmedByType := Some ConfirmedByTypeUser |> <| RV_ConfirmedByID := Some userID |>
  | None => v'
  end.

Definition UpsertVerificationValue (userID receiverID verificationField verificationValue : string) : M unit :=
  let! hashedValue := wrapM "hashing verification value" (HashVerificationValue verificationValue) in
  wrapM "upserting receiver verification" (db_stmt (fun ctx db =>
    match lookup_verification receiverID verificationField db with
    | Some _ => UpdateVerifications (is_verification receiverID verificationField)
                  (set_upserted hashedValue userID) ctx db
    | None =>
      let v := new_verification ctx receiverID verificationField hashedValue in
      check_verifications [v] (db <| receiver_verifications := receiver_verifications db ++ [v] |>)
    end)) ;;!
  mret_ tt.
End bcrypt.

Definition UpdateReceiverVerification (update : ReceiverVerificationUpdate) : M unit :=
  wrapM "validating receiver verification update" (lift (ReceiverVerificationUpdate_Validate update)) ;;!
  wrapM "updating receiver verification" (db_stmt (fun ctx db =>
    if no_fields update then Err (EExternal "pq: syntax error at or near ','")
    else UpdateVerifications (is_verification (RVU_ReceiverID update) (RVU_VerificationField update))
           (set_verification_update update) ctx db)) ;;!
  mret_ tt.
End ReceiverModel.

(** ** Lemmas *)

Lemma check_receivers_ok {A} (a : A) db b db' :
  check_receivers a db = Ok (b, db') -> b = a /\ db' = db /\ receivers_ok (receivers db).
Proof.
  unfold check_receivers. destruct (bool_decide _); cbn; [|done]. destruct (bool_decide _); cbn; [|done].
  destruct (decide _); naive_solver.
Qed.

Lemma check_verifications_ok {A} (a : A) db b db' :
  check_verifications a db = Ok (b, db') ->
  b = a /\ db' = db /\ verifications_ok (receiver_verifications db).
Proof. unfold check_verifications. destruct (decide _); naive_solver. Qed.

Lemma UpdateVerifications_ok p f ctx db rows db' :
  UpdateVerifications p f ctx db = Ok (rows, db') ->
  db' = db <| receiver_verifications :=
    update_where p (fun v => (f ctx v) <| RV_UpdatedAt := NOW ctx |>) (receiver_verifications db) |> /\
  verifications_ok (receiver_verifications db').
Proof. unfold UpdateVerifications. intros H. by apply check_verifications_ok in H as (_ & -> & ?). Qed.
