(* ===== verification/Messages.v ===== *)
(** The messages to receivers: [internal/message/message.go], the types of messengers
    of [main.go] and [message_dispatcher.go], which tries the channels in the order
    of the organization.  The clients of the messaging services are parameters. *)

From S2P Require Import Prelude GoStrings Errors Effects TxStore Tables SdpDb Platform ReceiverStore.

Local Open Scope string_scope.
Local Open Scope list_scope.
Local Open Scope go_scope.

(** ** Messages *)

Definition MessageTypeReceiverInvitation := "receiver_invitation".
Definition MessageTypeReceiverOTP := "receiver_otp".

Record Message := mkMessage {
  Msg_Type : string;
  ToPhoneNumber : string;
  ToEmail : string;
  Msg_Body : string;
  Msg_Title : string;
  TemplateVariables : gmap string string }.

Definition Message_String (m : Message) : string :=
  "Message{ToPhoneNumber: " +:+ TruncateString (ToPhoneNumber m) 3 +:+ ", ToEmail: "
  +:+ TruncateString (ToEmail m) 3 +:+ ", Message: " +:+ TruncateString (Msg_Body m) 3
  +:+ ", Title: " +:+ TruncateString (Msg_Title m) 3 +:+ "}".

(** ** Messengers *)

Definition MessengerTypeTwilioSMS := "TWILIO_SMS".
Definition MessengerTypeTwilioWhatsApp := "TWILIO_WHATSAPP".
Definition MessengerTypeTwilioEmail := "TWILIO_EMAIL".
Definition MessengerTypeAWSSMS := "AWS_SMS".
Definition MessengerTypeAWSEmail := "AWS_EMAIL".
Definition MessengerTypeDryRun := "DRY_RUN".

Definition MessengerTypes : list string :=
  [MessengerTypeTwilioSMS; MessengerTypeTwilioWhatsApp; MessengerTypeTwilioEmail; MessengerTypeAWSSMS;
   MessengerTypeAWSEmail; MessengerTypeDryRun].
Definition ValidSMSTypes : list string :=
  [MessengerTypeDryRun; MessengerTypeTwilioSMS; MessengerTypeTwilioWhatsApp; MessengerTypeAWSSMS].
Definition ValidEmailTypes : list string :=
  [MessengerTypeDryRun; MessengerTypeTwilioEmail; MessengerTypeAWSEmail].

Definition ParseMessengerType (messengerTypeStr : string) : res string :=
  let mType := ToUpper messengerTypeStr in
  if slices_Contains MessengerTypes mType then Ok mType
  else Err (ENew ("invalid message sender type " +:+ quote mType)).

Definition IsSMS (mt : string) : bool := slices_Contains ValidSMSTypes mt.
Definition IsEmail (mt : string) : bool := slices_Contains ValidEmailTypes mt.

Section messages.
Context {PN : PhoneNumbers}.

Definition IsValidForEmail (m : Message) : res unit :=
  let? _ := wrap "invalid email format" (ValidateEmail (ToEmail m)) in
  guard_err (TrimSpace (Msg_Title m) =? "") (ENew "title is empty").

Definition ValidateFor (m : Message) (messengerType : string) : res unit :=
  let? _ := (if IsSMS messengerType then wrap "invalid message" (ValidatePhoneNumber (ToPhoneNumber m)) else Ok tt) in
  let? _ := (if IsEmail messengerType then wrap "invalid e-mail" (IsValidForEmail m) else Ok tt) in
  guard_err ((messengerType <>? MessengerTypeTwilioWhatsApp) && (TrimSpace (Msg_Body m) =? ""))
    (ENew "message is empty").

Definition SupportedChannels (m : Message) : list string :=
  (if is_ok (ValidatePhoneNumber (ToPhoneNumber m)) then [MessageChannelSMS] else [])
  ++ (if is_ok (IsValidForEmail m) then [MessageChannelEmail] else []).

(** ** The dispatcher *)

(** The clients that are registered, by channel: the type of the messenger and its
    [SendMessage], whose answer may depend on when it is called. *)
Class MessageDispatcher := { clients : gmap string (string * (nat -> Message -> res unit)) }.

(** What leaves for a messenger is in the trace. *)
Class MessageEvents (Ev : Type) := { sent : string -> Message -> Ev }.

Section dispatcher.
Context {MD : MessageDispatcher} {D L Ev : Type} {E : Env D} {EM : MessageEvents Ev}.
Abbreviation M := (M D L Ev).

Definition unable (message : Message) : err :=
  ENew ("unable to send message " +:+ Message_String message +:+ " using any of the supported channels").

(** The loop over the channels; the error carries the messenger type with it. *)
Fixpoint try_channels (message : Message) (messengerType : string) (channels : list string) :
    M (string * res unit) :=
  match channels with
  | [] => mret_ (messengerType, Err (unable message))
  | channel :: rest =>
    if negb (slices_Contains (SupportedChannels message) channel)
    then try_channels message messengerType rest
    else
      match clients !! channel with
      | None => try_channels message messengerType rest
      | Some (messengerType', send) =>
        emit (fun _ => sent messengerType' message) ;;!
        let! err := ask (fun t => send t message) in
        match err with
        | Ok _ => mret_ (messengerType', Ok tt)
        | Err _ => try_channels message messengerType' rest
        end
      end
  end.

(** An absent client of the first channel, or no channel at all, is a panic. *)
Definition SendMessage (message : Message) (channelPriority : list string) : M (string * res unit) :=
  match channelPriority with
  | [] => throw (EExternal "runtime error: index out of range [0] with length 0")
  | first :: _ =>
    match clients !! first with
    | None => throw nil_dereference
    | Some (messengerType, _) =>
      match SupportedChannels message with
      | [] => mret_ (messengerType, Err (ENew ("no valid channel found for message " +:+ Message_String message)))
      | _ => try_channels message messengerType channelPriority
      end
    end
  end.

Definition GetClient (channel : string) : res (string * (nat -> Message -> res unit)) :=
  match clients !! channel with
  | Some client => Ok client
  | None => Err (ENew ("no client registered for channel " +:+ quote channel))
  end.
End dispatcher.
End messages.

(** ** Properties *)

Section theorems.
Context {PN : PhoneNumbers} {MD : MessageDispatcher} {D L Ev : Type} {E : Env D} {EM : MessageEvents Ev}.
Implicit Types w : World D L Ev.

(** The clients a message can go through, in the order of the channels. *)
Definition route (message : Message) (channels : list string) : list (string * (nat -> Message -> res unit)) :=
  omap (fun channel => if slices_Contains (SupportedChannels message) channel then clients !! channel else None)
    channels.

(** The calls made: the first ones of the route, all refused but the last. *)
Definition tried (message : Message) (calls : list (string * (nat -> Message -> res unit))) (ok : bool) : Prop :=
  exists refused, Forall (fun c => exists t, is_ok (snd c t message) = false) refused /\
    if ok then exists c t, calls = refused ++ [c] /\ is_ok (snd c t message) = true else calls = refused.

Lemma try_channels_tried message mt channels w r w' :
  try_channels message mt channels w = (r, w') ->
  exists calls rest mt' answer, r = Ok (mt', answer) /\ route message channels = calls ++ rest /\
    tried message calls (is_ok answer) /\ (is_ok answer = false -> rest = []) /\
    (is_ok answer = true -> fst <$> last calls = Some mt') /\
    w_trace w' = w_trace w ++ map (fun c => sent (fst c) message) calls.
Proof.
  revert mt w. induction channels as [|ch channels IH]; intros mt w; cbn [try_channels route omap list_omap].
  { intros [= <- <-]. exists [], [], mt, (Err (unable message)).
    split_and!; [done|done|by exists []|done|done|by rewrite app_nil_r]. }
  destruct (slices_Contains _ ch) eqn:Es; cbn [negb]; [|by apply IH].
  destruct (clients !! ch) as [[mt1 send]|] eqn:Ec; [|by apply IH].
  unfold mbind_, emit, ask. set (w1 := settle _). set (t := w_clock _).
  assert (Ht : w_trace w1 = w_trace w ++ [sent mt1 message]) by (unfold w1, settle; by case_bool_decide).
  destruct (send t message) as [u|e] eqn:Eans.
  - intros [= <- <-]. exists [(mt1, send)], (route message channels), mt1, (Ok tt).
    split_and!; [done|done| |done|done|exact Ht].
    exists []. split; [constructor|]. exists (mt1, send), t. split; [done|].
    change (is_ok (send t message) = true). by rewrite Eans.
  - intros H. apply IH in H as (calls & rest & mt' & answer & -> & Hr & (refused & Hf & Hok) & Hrest & Hlast & Htr).
    exists ((mt1, send) :: calls), rest, mt', answer. cbn. split_and!; [done|by rewrite <- Hr| |done| |].
    + exists ((mt1, send) :: refused). split; [constructor; [exists t; change (is_ok (send t message) = false); by rewrite Eans|done]|].
      destruct (is_ok answer); [destruct Hok as (c & u & -> & ?); by exists c, u|by rewrite Hok].
    + intros Ha. specialize (Hlast Ha). rewrite last_cons. by destruct (last calls).
    + rewrite Htr, Ht, <- app_assoc. done.
Qed.

(** A message goes through the registered clients of the channels that suit it, in the
    order of the organization, each once, until one accepts it; the dispatcher
    reports success, and that messenger, exactly then, and otherwise has tried them
    all.  It writes nothing to the database. *)
Theorem message_takes_first_open_channel message channels w mt answer w'
    (Hrun : SendMessage message channels w = (Ok (mt, answer), w')) :
  exists calls rest, route message channels = calls ++ rest /\ tried message calls (is_ok answer) /\
    (is_ok answer = false -> rest = []) /\ (is_ok answer = true -> fst <$> last calls = Some mt) /\
    w_trace w' = w_trace w ++ map (fun c => sent (fst c) message) calls.
Proof.
  unfold SendMessage in Hrun. destruct channels as [|first channels]; [done|].
  destruct (clients !! first) as [[mt1 send]|]; [|done].
  destruct (SupportedChannels message) as [|c cs] eqn:Es.
  - injection Hrun as <- <- <-. exists [], []. split_and!; [|by exists []|done|done|by rewrite app_nil_r].
    unfold route. rewrite Es. clear. by induction (first :: channels).
  - apply try_channels_tried in Hrun as (calls & rest & mt' & answer' & [= <- <-] & H). by exists calls, rest.
Qed.
End theorems.

(** ** Witness *)

(** An SMS service that is down, and one for emails. *)
Module Channels.
Export Platform.
#[export] Instance phones : PhoneNumbers := {| phonenumbers_valid _ := true |}.
#[export] Instance dispatcher : MessageDispatcher :=
  {| clients := {[ MessageChannelSMS := (MessengerTypeAWSSMS, fun _ _ => Err (ENew "down"));
                   MessageChannelEmail := (MessengerTypeAWSEmail, fun _ _ => Ok tt) ]} |}.
#[export] Instance events : MessageEvents (string * string) := {| sent mt m := (mt, Msg_Body m) |}.
Definition hello : Message := mkMessage MessageTypeReceiverInvitation "+14155552671" "a@b.co" "hello" "title" ∅.
Definition quiet : World Dbs unit (string * string) := mkWorld (sdp_db false [] [], mkTssDb [] []) 0 ∅ tt [].
End Channels.
Import Channels.

Lemma message_takes_first_open_channel_witness :
  exists w', SendMessage hello ["SMS"; "EMAIL"] quiet = (Ok (MessengerTypeAWSEmail, Ok tt), w') /\
    exists calls rest, route hello ["SMS"; "EMAIL"] = calls ++ rest /\ tried hello calls true.
Proof.
  eexists. split; [vm_compute; reflexivity|].
  edestruct (message_takes_first_open_channel (E := env) hello ["SMS"; "EMAIL"] quiet)
    as (calls & rest & H1 & H2 & _); [vm_compute; reflexivity|]. exists calls, rest. split; [exact H1|exact H2].
Defined.
