(* ===== verification/ReceiverWalletStore.v ===== *)
(** The receiver wallets of the platform: the operations of [ReceiverWalletModel]
    in [internal/data/receivers_wallet.go]. *)

From S2P Require Import Prelude GoStrings Errors StateMachine Effects Schema TxStore SdpDb.
From S2P Require Import PaymentStore.

Local Open Scope string_scope.
Local Open Scope list_scope.

(** ** Sentinels *)

Definition ErrWalletNotRegistered : err := ESentinel "receiver wallet not registered".
Definition ErrPaymentsInProgressForWallet : err := ESentinel "receiver wallet has payments in progress".
Definition ErrUnregisterUserManagedWallet : err :=
  ESentinel "user managed wallet cannot be unregistered".
Definition ErrDuplicateWalletAddress : err := ESentinel "wallet address already in use".
Definition ErrMemosNotSupportedForContractAddresses : err :=
  ESentinel "memos are not supported for contract addresses".

(** ** Updates *)

(** [nil] pointers and zero values are [None] or the empty string. *)
Record ReceiverWalletUpdate := mkReceiverWalletUpdate {
  RWU_Status : string;
  RWU_SEP24TransactionID : string;
  RWU_StellarAddress : string;
  RWU_StellarMemo : option string;
  RWU_StellarMemoType : option string;
  RWU_OTPConfirmedAt : option Z;
  RWU_OTPConfirmedWith : string;
  RWU_OTPAttempts : option Z }.

Definition RWU_IsEmpty (u : ReceiverWalletUpdate) : bool :=
  (RWU_Status u =? "") && (RWU_SEP24TransactionID u =? "") && (RWU_StellarAddress u =? "")
  && bool_decide (RWU_StellarMemo u = None) && bool_decide (RWU_StellarMemoType u = None)
  && bool_decide (RWU_OTPConfirmedAt u = None) && (RWU_OTPConfirmedWith u =? "")
  && bool_decide (RWU_OTPAttempts u = None).

Definition ReceiverWalletUpdate_Validate {SDK : StellarSdk} (u : ReceiverWalletUpdate) : res unit :=
  if RWU_IsEmpty u then Err (ENew "no values provided to update receiver wallet")
  else
    let? _ := (if RWU_Status u <>? "" then wrap "validating status" (ReceiversWalletStatus_Validate (RWU_Status u))
               else Ok tt) in
    if (RWU_StellarAddress u <>? "")
       && negb (IsValidEd25519PublicKey (RWU_StellarAddress u)
                || IsValidContractAddress (RWU_StellarAddress u))
    then Err (ENew "invalid stellar address")
    else if negb (bool_decide (RWU_OTPConfirmedAt u = None)) && (RWU_OTPConfirmedWith u =? "")
    then Err (ENew "OTPConfirmedWith is required when OTPConfirmedAt is provided")
    else guard_err ((RWU_OTPConfirmedWith u <>? "") && bool_decide (RWU_OTPConfirmedAt u = None))
      (ENew "OTPConfirmedAt is required when OTPConfirmedWith is provided").

(** The columns of the statement: those the update gives.  A status goes to the
    front of the history here, to its end in the other operations. *)
Definition set_wallet_update (u : ReceiverWalletUpdate) (ctx : StmtCtx) (rw : ReceiverWallet) :
    ReceiverWallet :=
  let rw := if RWU_Status u =? "" then rw else
    rw <| RW_Status := RWU_Status u |>
       <| RW_StatusHistory := mkReceiverWalletHistory (RWU_Status u) "" (NOW ctx) :: RW_StatusHistory rw |> in
  let rw := if RWU_SEP24TransactionID u =? "" then rw else
    rw <| RW_SEP24TransactionID := Some (RWU_SEP24TransactionID u) |> in
  let rw := if RWU_StellarAddress u =? "" then rw else
    rw <| RW_StellarAddress := Some (RWU_StellarAddress u) |> in
  let rw := match RWU_StellarMemo u with
            | Some memo => rw <| RW_StellarMemo := null_if_empty memo |> | None => rw end in
  let rw := match RWU_StellarMemoType u with
            | Some t => rw <| RW_StellarMemoType := null_if_empty t |> | None => rw end in
  let rw := match RWU_OTPConfirmedAt u with
            | Some t => rw <| RW_OTPConfirmedAt := Some t |> | None => rw end in
  let rw := if RWU_OTPConfirmedWith u =? "" then rw else
    rw <| RW_OTPConfirmedWith := Some (RWU_OTPConfirmedWith u) |> in
  match RWU_OTPAttempts u with Some n => rw <| RW_OTPAttempts := n |> | None => rw end.

Definition set_wallet_status (status message : string) (ctx : StmtCtx) (rw : ReceiverWallet) :
    ReceiverWallet :=
  rw <| RW_Status := status |>
     <| RW_StatusHistory := RW_StatusHistory rw ++ [mkReceiverWalletHistory status message (NOW ctx)] |>.

(** Unregistering: back to READY, with nothing of the registration left. *)
Definition set_unregistered (message : string) (ctx : StmtCtx) (rw : ReceiverWallet) : ReceiverWallet :=
  set_wallet_status ReadyReceiversWalletStatus message ctx rw
    <| RW_StellarAddress := None |> <| RW_StellarMemo := None |> <| RW_StellarMemoType := None |>
    <| RW_InvitationSentAt := None |> <| RW_OTP := None |> <| RW_OTPConfirmedAt := None |>
    <| RW_OTPConfirmedWith := None |> <| RW_OTPCreatedAt := None |> <| RW_SEP24TransactionID := None |>.

(** ** Operations *)

Section ReceiverWalletModel.
Context {D L Ev : Type} {E : Env D} {C : Conn D SdpDb} {SDK : StellarSdk}.
Abbreviation M := (M D L Ev).

(** A receiver wallet with its wallet. *)
Definition join_wallet (db : SdpDb) (rw : ReceiverWallet) : option (ReceiverWallet * Wallet) :=
  (fun wal => (rw, wal)) <$> lookup_wallet (RW_WalletID rw) db.

Definition select_wallets (q : ReceiverWallet * Wallet -> bool) (db : SdpDb) :
    list (ReceiverWallet * Wallet) :=
  filter (fun x => q x = true) (omap (join_wallet db) (receiver_wallets db)).

Definition RW_GetByID (id : string) : M (ReceiverWallet * Wallet) :=
  no_rows_as ErrRecordNotFound "querying receiver wallet"
    (GetContext (fun _ db => Ok (hd_error (select_wallets (fun x => RW_ID (fst x) =? id) db), db))).

Definition RW_GetByIDs (ids : list string) : M (list (ReceiverWallet * Wallet)) :=
  match ids with
  | [] => throw (ENew "no receiver wallet IDs provided")
  | _ => wrapM "querying receiver wallet" (db_stmt (fun _ db =>
      Ok (select_wallets (fun x => slices_Contains ids (RW_ID (fst x))) db, db)))
  end.

Definition GetByReceiverIDsAndWalletID (receiverIds : list string) (walletID : string) :
    M (list ReceiverWallet) :=
  wrapM "error querying receiver wallets" (db_stmt (fun _ db =>
    Ok (filter (fun rw => slices_Contains receiverIds (RW_ReceiverID rw)
                          && (RW_WalletID rw =? walletID) = true) (receiver_wallets db), db))).

(** On the connection pool; a wallet without an address accepts any account. *)
Definition GetBySEP24TransactionIDAndAccount (transactionID stellarAccount stellarMemo : string) :
    M ReceiverWallet :=
  no_rows_as ErrRecordNotFound "error querying receiver wallet by transaction ID"
    (GetContext (fun _ db => Ok (first_such (fun rw =>
       bool_decide (RW_SEP24TransactionID rw = Some transactionID)
       && ((default "" (RW_StellarAddress rw) =? "")
           || ((default "" (RW_StellarAddress rw) =? stellarAccount)
               && (default "" (RW_StellarMemo rw) =? stellarMemo)))) (receiver_wallets db), db))).

Definition GetByReceiverIDAndWalletDomain (receiverID walletDomain : string) :
    M (ReceiverWallet * Wallet) :=
  wrapM "error querying receiver wallet" (GetContext (fun _ db =>
    Ok (hd_error (select_wallets (fun x => (RW_ReceiverID (fst x) =? receiverID)
                    && (Wal_SEP10ClientDomain (snd x) =? walletDomain)) db), db))).

(** On the connection pool; the memo is looked at where it is given. *)
Definition by_account_and_memo (stellarAccount clientDomain : string) (stellarMemo : option string) (db : SdpDb) :
    option (ReceiverWallet * Wallet) :=
  hd_error (select_wallets (fun '(rw, wal) =>
    bool_decide (RW_StellarAddress rw = Some stellarAccount)
    && ((clientDomain =? "") || (Wal_SEP10ClientDomain wal =? clientDomain))
    && match stellarMemo with
       | None => true
       | Some memo =>
         if memo =? "" then default "" (RW_StellarMemo rw) =? ""
         else bool_decide (RW_StellarMemo rw = Some memo)
       end) db).

Definition GetByStellarAccountAndMemo (stellarAccount clientDomain : string)
    (stellarMemo : option string) : M (ReceiverWallet * Wallet) :=
  no_rows_as
    (EWrap "no receiver wallet could be found in GetByStellarAccountAndMemo" ErrRecordNotFound)
    "error querying receiver wallet"
    (pool_query (fun _ db =>
       match by_account_and_memo stellarAccount clientDomain stellarMemo db with
       | Some found => Ok found
       | None => Err (ESentinel sql_ErrNoRows)
       end)).

(** The wallets of the payments of a disbursement, in the status [from]. *)
Definition RW_UpdateStatusByDisbursementID (disbursementID from to : string) : M unit :=
  wrapM ("cannot transition from " +:+ from +:+ " to " +:+ to
         +:+ " for receiver wallets for disbursement " +:+ disbursementID)
    (lift (ReceiversWalletStatus_TransitionTo from to)) ;;!
  wrapM ("error updating receiver_wallets for disbursement " +:+ disbursementID)
    (db_stmt (UpdateReceiverWallets (fun db rw => (RW_Status rw =? from)
        && existsb (fun p => of_disbursement disbursementID p && (Pay_ReceiverWalletID p =? RW_ID rw))
             (payments db))
      (set_wallet_status to ""))) ;;!
  mret_ tt.

Definition RetryInvitationMessage (receiverWalletID : string) : M ReceiverWallet :=
  no_rows_as ErrRecordNotFound "updating receiver wallet"
    (let! rows := db_stmt (UpdateReceiverWallets
       (fun _ rw => (RW_ID rw =? receiverWalletID) && (RW_Status rw =? ReadyReceiversWalletStatus))
       (fun _ rw => rw <| RW_InvitationSentAt := None |>)) in
     lift match rows with
          | rw :: _ => Ok rw
          | [] => Err (ESentinel sql_ErrNoRows)
          end).

Definition UpdateInvitationSentAt (receiverWalletIDs : list string) : M (list ReceiverWallet) :=
  wrapM "updating invitation sent at" (db_stmt (UpdateReceiverWallets
    (fun _ rw => slices_Contains receiverWalletIDs (RW_ID rw)
                 && (RW_Status rw =? ReadyReceiversWalletStatus))
    (fun ctx rw => rw <| RW_InvitationSentAt := Some (NOW ctx) |>))).

(** Memos are refused for contract addresses: the new one, or the stored one. *)
Definition check_memo (id : string) (update : ReceiverWalletUpdate) : M unit :=
  match RWU_StellarMemo update, RWU_StellarMemoType update with
  | None, None => mret_ tt
  | memo, memoType =>
    let! stellarAddress :=
      (if RWU_StellarAddress update =? "" then
         let! existing := wrapM "checking stored stellar address for memo validation" (RW_GetByID id) in
         mret_ (default "" (RW_StellarAddress (fst existing)))
       else mret_ (RWU_StellarAddress update)) in
    if IsValidContractAddress stellarAddress then
      let memoIsClear := bool_decide (memo = Some "") in
      let memoTypeIsClear := default "" memoType =? "" in
      lift (guard_err (negb memoIsClear || negb memoTypeIsClear) ErrMemosNotSupportedForContractAddresses)
    else mret_ tt
  end.

(** [pq.Error] with code P0001 and the text of the trigger. *)
Definition duplicate_or (prefix : string) (e : err) : err :=
  match e with
  | EExternal m => if Contains m "P0001" && Contains m "already belongs to another receiver"
                   then ErrDuplicateWalletAddress else EWrap prefix e
  | _ => EWrap prefix e
  end.

Definition RW_Update (id : string) (update : ReceiverWalletUpdate) : M unit :=
  wrapM "validating receiver wallet update" (lift (ReceiverWalletUpdate_Validate update)) ;;!
  check_memo id update ;;!
  let! rows := map_errM (duplicate_or "updating receiver wallet") (db_stmt (UpdateReceiverWallets
    (fun _ rw => RW_ID rw =? id) (set_wallet_update update))) in
  lift (guard_err (Nat.eqb (length rows) 0)
    (EWrap "no receiver wallet could be found in UpdateReceiverWallet" ErrRecordNotFound)).

Definition HasPaymentsInProgress (receiverWalletID : string) : M bool :=
  wrapM "checking payments in progress for receiver wallet" (db_stmt (fun _ db =>
    Ok (existsb (fun p => (Pay_ReceiverWalletID p =? receiverWalletID)
                          && slices_Contains PaymentInProgressStatuses (Pay_Status p)) (payments db), db))).

Definition UpdateStatusToReady (id : string) : M unit :=
  RunInTransaction (
    let! (receiverWallet, wallet) :=
      wrapM ("getting receiver wallet with ID " +:+ quote id) (RW_GetByID id) in
    if RW_Status receiverWallet <>? RegisteredReceiversWalletStatus then throw ErrWalletNotRegistered
    else if Wal_UserManaged wallet then throw ErrUnregisterUserManagedWallet
    else
      let! paymentsInProgress :=
        wrapM ("checking payments in progress for receiver wallet " +:+ id) (HasPaymentsInProgress id) in
      if (paymentsInProgress : bool) then throw ErrPaymentsInProgressForWallet
      else
        let statusMessage := "unregistered stellar address "
          +:+ default "" (RW_StellarAddress receiverWallet) +:+ ", memo "
          +:+ default "" (RW_StellarMemo receiverWallet) in
        wrapM "unregistering receiver wallet" (db_stmt (UpdateReceiverWallets
          (fun _ rw => RW_ID rw =? id) (set_unregistered statusMessage))) ;;!
        mret_ tt).

Section insert.
Context {U : UuidGen}.

(** The defaults of the columns that are not given. *)
Definition new_receiver_wallet (ctx : StmtCtx) (id receiverID walletID : string) : ReceiverWallet :=
  mkReceiverWallet id receiverID walletID None None None DraftReceiversWalletStatus
    [mkReceiverWalletHistory DraftReceiversWalletStatus "" (NOW ctx)] None 0 None None None None
    None (NOW ctx) (NOW ctx).

Definition GetOrInsertReceiverWallet (receiverID walletID : string) : M string :=
  wrapM "error inserting receiver wallet" (db_stmt (fun ctx db =>
    let id := uuid_generate ctx (length (receiver_wallets db)) in
    check_receiver_wallets id (db <| receiver_wallets := receiver_wallets db ++
      [new_receiver_wallet ctx id receiverID walletID] |>))).
End insert.
End ReceiverWalletModel.
