(* ===== verification/DisbursementStore.v ===== *)
(** The disbursements of the platform: the operations of [DisbursementModel] in
    [internal/data/disbursements.go], and the reading of the organization
    ([organizations.go]). *)

From S2P Require Import Prelude GoStrings Errors StateMachine Effects Schema TxStore Limiter SdpDb.
From S2P Require Import PaymentStore.

Local Open Scope string_scope.
Local Open Scope list_scope.

(** ** Disbursements *)

(** A disbursement with its wallet and asset; [selectDisbursementQuery] joins
    both. *)
Record DisbursementView := mkDisbursementView {
  dv_row : Disbursement;
  dv_Wallet : Wallet;
  dv_Asset : Asset }.

(** The statistics the services read: sums in the database, as text; [None] for
    a disbursement without payments. *)
Record DisbursementStats := mkDisbursementStats {
  TotalPayments : Z;
  SuccessfulPayments : Z;
  FailedPayments : Z;
  CanceledPayments : Z;
  RemainingPayments : Z;
  AmountDisbursed : string;
  TotalAmount : string;
  AverageAmount : string }.

Definition join_disbursement (db : SdpDb) (d : Disbursement) : option DisbursementView :=
  match lookup_wallet (Dis_WalletID d) db, lookup_asset (Dis_AssetID d) db with
  | Some wal, Some a => Some (mkDisbursementView d wal a)
  | _, _ => None
  end.

(** [ROUND(x, 2)] of a number of units: to the nearest cent, halves away from
    zero, as a NUMERIC of two decimals. *)
Definition cent : Z := 100000.
Definition round2 (x : Z) : Z := (Z.sgn x * ((Z.abs x + cent / 2) / cent))%Z.

(** [ROUND(avg(x), 2)] of a sum and a count. *)
Definition round2_avg (sum n : Z) : Z := (Z.sgn sum * ((2 * Z.abs sum + cent * n) / (2 * cent * n)))%Z.

Definition total (ps : list Payment) : Z := foldr (fun p acc => Pay_Amount p + acc)%Z 0%Z ps.
Definition count_status (statuses : list string) (ps : list Payment) : Z :=
  Z.of_nat (length (filter (fun p => slices_Contains statuses (Pay_Status p) = true) ps)).

Definition create_disbursement_status_history (status userID reason : string) (ctx : StmtCtx) :
    DisbursementStatusHistoryEntry := mkDisbursementHistory userID status (NOW ctx) reason.

Definition set_disbursement_status (status userID reason : string) (ctx : StmtCtx)
    (d : Disbursement) : Disbursement :=
  d <| Dis_Status := status |>
    <| Dis_StatusHistory := Dis_StatusHistory d
         ++ [create_disbursement_status_history status userID reason ctx] |>.

Record DisbursementUpdate := mkDisbursementUpdate {
  DU_ID : string;
  DU_FileName : string;
  DU_FileContent : string }.

Definition DisbursementUpdate_Validate (du : DisbursementUpdate) : res unit :=
  if DU_FileName du =? "" then Err (ENew "file name is required")
  else if DU_FileContent du =? "" then Err (ENew "file content is required")
  else guard_err (DU_ID du =? "") (ENew "disbursement ID is required").

Section DisbursementModel.
Context {D L Ev : Type} {E : Env D} {C : Conn D SdpDb} {N : Numerics}.
Abbreviation M := (M D L Ev).

Definition Disbursement_Get (id : string) : M DisbursementView :=
  no_rows_as ErrRecordNotFound ("error querying disbursement ID " +:+ id)
    (GetContext (fun _ db =>
      Ok (match lookup_disbursement id db with
          | Some d => join_disbursement db d
          | None => None
          end, db))).

Definition GetByName (name : string) : M DisbursementView :=
  no_rows_as ErrRecordNotFound ("error querying disbursement with name " +:+ name)
    (GetContext (fun _ db =>
      Ok (match first_such (fun d => Dis_Name d =? name) (disbursements db) with
          | Some d => join_disbursement db d
          | None => None
          end, db))).

(** The same query on the connection pool. *)
Definition Disbursement_Get_pool (id : string) : M DisbursementView :=
  no_rows_as ErrRecordNotFound ("error querying disbursement ID " +:+ id)
    (pool_query (fun _ db =>
      match lookup_disbursement id db with
      | Some d =>
        match join_disbursement db d with
        | Some v => Ok v
        | None => Err (ESentinel sql_ErrNoRows)
        end
      | None => Err (ESentinel sql_ErrNoRows)
      end)).

(** The aggregates of one group; the amounts are rounded to two decimals. *)
Definition statistics (ps : list Payment) : option DisbursementStats :=
  match ps with
  | [] => None
  | _ => Some (mkDisbursementStats (Z.of_nat (length ps))
      (count_status ["SUCCESS"] ps) (count_status ["FAILED"] ps) (count_status ["CANCELED"] ps)
      (count_status ["DRAFT"; "READY"; "PENDING"; "PAUSED"] ps)
      (numeric2_text (round2 (total (filter (fun p => (Pay_Status p =? "SUCCESS") = true) ps))))
      (numeric2_text (round2 (total ps)))
      (numeric2_text (round2_avg (total ps) (Z.of_nat (length ps)))))
  end.

(** [populateStatistics] for one disbursement. *)
Definition populateStatistics (d : DisbursementView) : M (option DisbursementStats) :=
  wrapM "error querying disbursement statistics" (pool_query (fun _ db =>
    Ok (statistics (filter (fun p => of_disbursement (Dis_ID (dv_row d)) p = true) (payments db))))).

Definition GetWithStatistics (id : string) : M (DisbursementView * option DisbursementStats) :=
  let! disbursement := Disbursement_Get_pool id in
  let! stats := wrapM ("error populating statistics for disbursement ID " +:+ id)
    (populateStatistics disbursement) in
  mret_ (disbursement, stats).

Definition updateStatus (userID disbursementID targetStatus reason : string) : M unit :=
  let sourceStatuses := DisbursementStatus_SourceStatuses targetStatus in
  let! rows := wrapM "error updating disbursement status" (db_stmt (UpdateDisbursements
    (fun _ d => (Dis_ID d =? disbursementID) && slices_Contains sourceStatuses (Dis_Status d))
    (set_disbursement_status targetStatus userID reason))) in
  match rows with
  | [] => throw (ENew ("disbursement " +:+ disbursementID +:+ " status was not updated from ["
                       +:+ Join " " sourceStatuses +:+ "] to " +:+ targetStatus))
  | [_] => mret_ tt
  | _ => throw (ENew ("unexpected number of rows affected: " +:+ itoa (Z.of_nat (length rows))
      +:+ " when updating disbursement " +:+ disbursementID +:+ " status from ["
      +:+ Join " " sourceStatuses +:+ "] to " +:+ targetStatus))
  end.

Definition Disbursement_UpdateStatus (userID disbursementID targetStatus : string) : M unit :=
  updateStatus userID disbursementID targetStatus "".

Definition UpdateStatusWithReason (userID disbursementID targetStatus reason : string) : M unit :=
  updateStatus userID disbursementID targetStatus reason.

Definition Disbursement_Update (du : DisbursementUpdate) : M unit :=
  wrapM "error validating disbursement update" (lift (DisbursementUpdate_Validate du)) ;;!
  let! rows := wrapM "error updating disbursement" (db_stmt (UpdateDisbursements
    (fun _ d => Dis_ID d =? DU_ID du)
    (fun _ d => d <| Dis_FileName := Some (DU_FileName du) |>
                  <| Dis_FileContent := DU_FileContent du |>))) in
  lift (guard_err (negb (Nat.eqb (length rows) 1))
    (ENew ("disbursement " +:+ DU_ID du +:+ " was not updated"))).

(** The ids of [incompleted_disbursements]: those with a payment that is not SUCCESS. *)
Definition has_unpaid (db : SdpDb) (d : Disbursement) : bool :=
  existsb (fun p => of_disbursement (Dis_ID d) p && (Pay_Status p <>? SuccessPaymentStatus)) (payments db).

Definition CompleteDisbursements (disbursementIDs : list string) : M unit :=
  wrapM "error completing disbursement" (db_stmt (UpdateDisbursements
    (fun db d => slices_Contains disbursementIDs (Dis_ID d)
       && (Dis_Status d =? StartedDisbursementStatus) && negb (has_unpaid db d))
    (set_disbursement_status CompletedDisbursementStatus "" ""))) ;;!
  mret_ tt.

Definition has_unfinished (db : SdpDb) (d : Disbursement) : bool :=
  existsb (fun p => of_disbursement (Dis_ID d) p
                    && negb (slices_Contains PaymentCompletedStatuses (Pay_Status p))) (payments db).

Definition CompleteIfNecessary : M (list string) :=
  let! rows := wrapM "completing disbursements" (db_stmt (UpdateDisbursements
    (fun db d => (Dis_Status d =? StartedDisbursementStatus) && negb (has_unfinished db d))
    (set_disbursement_status CompletedDisbursementStatus "" ""))) in
  mret_ (map Dis_ID rows).

Section insert.
Context {U : UuidGen}.

Definition Disbursement_Insert (disbursement : Disbursement) : M string :=
  map_errM (fun e => if Contains (Error e) "duplicate key" then ErrRecordAlreadyExists
                     else EWrap ("unable to create disbursement " +:+ Dis_Name disbursement) e)
    (db_stmt (fun ctx db =>
      let id := uuid_generate ctx (length (disbursements db)) in
      check_disbursements id (db <| disbursements := disbursements db ++
        [mkDisbursement id (Dis_Name disbursement) (Dis_WalletID disbursement)
           (Dis_AssetID disbursement) (Dis_Status disbursement)
           (null_if_empty (default "" (Dis_VerificationField disbursement)))
           (Dis_StatusHistory disbursement) (Dis_ReceiverRegistrationMessageTemplate disbursement)
           None "" (Dis_RegistrationContactType disbursement) (NOW ctx) (NOW ctx)] |>))).
End insert.

(** ** The organization: read on the connection pool *)

Definition Organizations_Get : M Organization :=
  no_rows_as ErrRecordNotFound "error querying organization table"
    (pool_query (fun _ db =>
      match organizations db with
      | o :: _ => Ok o
      | [] => Err (ESentinel sql_ErrNoRows)
      end)).
End DisbursementModel.
