(* ===== verification/Instructions.v ===== *)
(** The instructions of a disbursement: [internal/data/disbursement_instructions.go].
    An upload creates or finds the receivers, their wallets and verifications,
    and replaces the draft payments of the disbursement. *)

From S2P Require Import Prelude GoStrings Errors StateMachine Effects Schema TxStore Tables SdpDb.
From S2P Require Import PaymentStore ReceiverStore ReceiverWalletStore DisbursementStore.

Local Open Scope string_scope.
Local Open Scope list_scope.

(** ** Data *)

Record DisbursementInstruction := mkInstruction {
  DI_Phone : string;
  DI_Email : string;
  DI_ID : string;
  DI_Amount : string;
  DI_VerificationValue : string;
  DI_ExternalPaymentID : string;
  DI_WalletAddress : string;
  DI_WalletAddressMemo : string;
  DI_RecipientName : string;
  DI_CurrencyType : string }.

(** The method [Contact]. *)
Definition Contact (di : DisbursementInstruction) : res string :=
  if (DI_Phone di <>? "") && (DI_Email di <>? "") then Err (ENew "phone and email are both provided")
  else if DI_Phone di <>? "" then Ok (DI_Phone di)
  else if DI_Email di <>? "" then Ok (DI_Email di)
  else Err (ENew "phone and email are empty").

Definition MaxInstructionsPerDisbursement : Z := 10000.

Definition ErrMaxInstructionsExceeded : err := ESentinel "maximum number of instructions exceeded".
Definition ErrReceiverVerificationMismatch : err := ESentinel "receiver verification mismatch".
Definition ErrReceiverWalletAddressMismatch : err := ESentinel "receiver wallet address mismatch".

Record DisbursementInstructionsOpts := mkInstructionsOpts {
  UserID : string;
  Instructions : list DisbursementInstruction;
  Opts_Disbursement : DisbursementView;
  Opts_DisbursementUpdate : DisbursementUpdate;
  MaxNumberOfInstructions : Z }.

(** The zero value the lookup of an absent key of a map of structs gives. *)
Definition zero_ReceiverWallet : ReceiverWallet :=
  mkReceiverWallet "" "" "" None None None "" [] None 0 None None None None None 0 0.

Definition resolving (di : DisbursementInstruction) : string :=
  "resolving contact information for instruction with ID " +:+ DI_ID di.

Definition no_contact (r : Receiver) (contactType : string) : err :=
  ENew ("receiver with ID " +:+ Rec_ID r +:+ " has no contact information for contact type "
        +:+ contactType).

(** ** Operations *)

Section DisbursementInstructionModel.
Context {D L Ev : Type} {E : Env D} {C : Conn D SdpDb} {SDK : StellarSdk} {N : Numerics}
  {U : UuidGen} {B : Bcrypt} {R : MapRange}.
Abbreviation M := (M D L Ev).

(** The first of the receivers in the order of the map that has the contact. *)
Definition findReceiverByInstruction (receiverMap : gmap string Receiver)
    (instruction : DisbursementInstruction) : M (option Receiver) :=
  match Contact instruction with
  | Err _ => mret_ None
  | Ok contact =>
    let! entries := range_map receiverMap in
    mret_ (first_such (fun r => (contact =? PhoneNumber r) || (contact =? Email r)) (map snd entries))
  end.

Definition createReceiverFromInstructionIfNeeded (instruction : DisbursementInstruction)
    (existingReceiversByContactMap : gmap string Receiver) : M unit :=
  let! contact := wrapM (resolving instruction) (lift (Contact instruction)) in
  match existingReceiversByContactMap !! contact with
  | Some _ => mret_ tt
  | None =>
    wrapM "inserting receiver" (Receiver_Insert (mkReceiverInsert
      (null_if_empty (DI_Phone instruction)) (null_if_empty (DI_Email instruction))
      (null_if_empty (DI_ID instruction)) (null_if_empty (DI_RecipientName instruction))
      (null_if_empty (DI_CurrencyType instruction)))) ;;!
    mret_ tt
  end.

Definition instruction_contacts (instructions : list DisbursementInstruction) : M (list string) :=
  mmapM (fun di => wrapM (resolving di) (lift (Contact di))) instructions.

(** The receivers by contact; an error when one has none of the type. *)
Definition receivers_by_contact (contactType : string) (l : list Receiver) : res (gmap string Receiver) :=
  let? _ := res_forM (fun r => guard_err (ContactByType r contactType =? "") (no_contact r contactType)) l in
  Ok (map_by (fun r => ContactByType r contactType) l).

Definition reconcileExistingReceiversWithInstructions (instructions : list DisbursementInstruction)
    (contactType : string) : M (gmap string Receiver) :=
  let! contacts := instruction_contacts instructions in
  let! existingReceivers := wrapM "fetching receivers by contacts" (GetByContacts contacts) in
  let! existingReceiversByContactMap := lift (receivers_by_contact contactType existingReceivers) in
  mforM (fun instruction => wrapM "creating receiver from instruction"
    (createReceiverFromInstructionIfNeeded instruction existingReceiversByContactMap)) instructions ;;!
  let! receivers := wrapM "fetching receivers by contact information" (GetByContacts contacts) in
  if negb (Nat.eqb (length receivers) (length instructions))
  then throw (ENew "receiver count mismatch after processing instructions")
  else mret_ (map_by Rec_ID receivers).

Definition ensure_receiver_wallet (walletID receiverID : string) (ids : gmap string string) :
    M (gmap string string) :=
  match ids !! receiverID with
  | None =>
    let! rwID := wrapM ("inserting receiver wallet for receiver id " +:+ receiverID)
      (GetOrInsertReceiverWallet receiverID walletID) in
    mret_ (<[receiverID := rwID]> ids)
  | Some receiverWalletID =>
    let! retry := try_ (RetryInvitationMessage receiverWalletID) in
    match retry with
    | Err e => if errors_Is_err e ErrRecordNotFound then mret_ ids
               else throw (EWrap "retrying invitation" e)
    | Ok _ => mret_ ids
    end
  end.

Definition processReceiverWallets (receiversByIDMap : gmap string Receiver) (disbursement : DisbursementView) :
    M (gmap string string) :=
  let walletID := Wal_ID (dv_Wallet disbursement) in
  let! receiverIDs := range_map receiversByIDMap in
  let! receiverWallets := wrapM "fetching receiver wallets"
    (GetByReceiverIDsAndWalletID (map fst receiverIDs) walletID) in
  let ids := RW_ID <$> map_by RW_ReceiverID receiverWallets in
  let! entries := range_map receiversByIDMap in
  mfoldM (fun ids entry => ensure_receiver_wallet walletID (fst entry) ids) ids entries.

Definition process_verification (disbursement : Disbursement) (field contactType : string)
    (verificationByReceiverIDMap : gmap string ReceiverVerification)
    (instructionsByContactMap : gmap string DisbursementInstruction) (receiver : Receiver) : M unit :=
  let contact := ContactByType receiver contactType in
  if contact =? "" then throw (no_contact receiver contactType)
  else
    match instructionsByContactMap !! contact with
    | None => throw (ENew ("instruction not found for receiver with ID " +:+ Rec_ID receiver))
    | Some instruction =>
      match verificationByReceiverIDMap !! Rec_ID receiver with
      | None =>
        wrapM "error inserting receiver verification"
          (Verification_Insert (mkReceiverVerificationInsert (Rec_ID receiver) field
             (DI_VerificationValue instruction))) ;;!
        mret_ tt
      | Some verification =>
        if CompareVerificationValue (RV_HashedValue verification) (DI_VerificationValue instruction)
        then mret_ tt
        else
          match RV_ConfirmedAt verification with
          | Some _ => throw (EWrap ("receiver verification for " +:+ contact
              +:+ " doesn't match. Check instruction with ID " +:+ DI_ID instruction)
              ErrReceiverVerificationMismatch)
          | None =>
            wrapM ("error updating receiver verification for disbursement id " +:+ Dis_ID disbursement)
              (UpdateVerificationValue (RV_ReceiverID verification) (RV_VerificationField verification)
                 (DI_VerificationValue instruction))
          end
      end
    end.

Definition processReceiverVerifications (receiversByIDMap : gmap string Receiver)
    (instructions : list DisbursementInstruction) (disbursement : DisbursementView)
    (contactType : string) : M unit :=
  let field := default "" (Dis_VerificationField (dv_row disbursement)) in
  let! receiverIDs := range_map receiversByIDMap in
  let! verifications := wrapM "fetching receiver verifications"
    (GetByReceiverIDsAndVerificationField (map fst receiverIDs) field) in
  let verificationByReceiverIDMap := map_by RV_ReceiverID verifications in
  let! contacts := instruction_contacts instructions in
  let instructionsByContactMap := snd <$> map_by fst (zip contacts instructions) in
  let! entries := range_map receiversByIDMap in
  mforM (fun entry => process_verification (dv_row disbursement) field contactType
           verificationByReceiverIDMap instructionsByContactMap (snd entry)) entries.

Definition getReceiverWalletsByIDMap (receiverWalletIDs : list string) : M (gmap string ReceiverWallet) :=
  let! receiverWallets := wrapM "fetching receiver wallets" (RW_GetByIDs receiverWalletIDs) in
  mret_ (map_by RW_ID (map fst receiverWallets)).

Definition register_supplied_wallet (receiversByIDMap : gmap string Receiver)
    (receiverIDToReceiverWalletIDMap : gmap string string)
    (receiverWalletsByIDMap : gmap string ReceiverWallet) (instruction : DisbursementInstruction) : M unit :=
  let! found := findReceiverByInstruction receiversByIDMap instruction in
  match found with
  | None => throw (ENew ("receiver not found for instruction with ID " +:+ DI_ID instruction))
  | Some receiver =>
    match receiverIDToReceiverWalletIDMap !! Rec_ID receiver with
    | None => throw (ENew ("receiver wallet not found for receiver with ID " +:+ Rec_ID receiver))
    | Some receiverWalletID =>
      let receiverWallet := default zero_ReceiverWallet (receiverWalletsByIDMap !! receiverWalletID) in
      let stellarAddress := default "" (RW_StellarAddress receiverWallet) in
      if (stellarAddress <>? "") && (stellarAddress <>? DI_WalletAddress instruction)
      then throw (EWrap ("receiver wallet address mismatch for receiver with ID " +:+ Rec_ID receiver)
                    ErrReceiverWalletAddressMismatch)
      else if slices_Contains [RegisteredReceiversWalletStatus; FlaggedReceiversWalletStatus]
                (RW_Status receiverWallet) then mret_ tt
      else
        let! memo :=
          (if DI_WalletAddressMemo instruction =? "" then mret_ (None, None)
           else
             let! parsed := wrapM ("parsing memo " +:+ DI_WalletAddressMemo instruction)
               (lift (ParseMemo (DI_WalletAddressMemo instruction))) in
             mret_ (Some (DI_WalletAddressMemo instruction), Some (snd parsed))) in
        map_errM (fun e => if errors_Is_err e ErrDuplicateWalletAddress
            then EWrap ("wallet address " +:+ DI_WalletAddress instruction
                        +:+ " is already registered to another receiver") ErrDuplicateWalletAddress
            else EWrap "marking receiver wallet as registered" e)
          (RW_Update receiverWalletID (mkReceiverWalletUpdate RegisteredReceiversWalletStatus ""
             (DI_WalletAddress instruction) (fst memo) (snd memo) None "" None))
    end
  end.

Definition registerSuppliedWallets (instructions : list DisbursementInstruction)
    (receiversByIDMap : gmap string Receiver)
    (receiverIDToReceiverWalletIDMap : gmap string string) : M unit :=
  let! ids := range_map receiverIDToReceiverWalletIDMap in
  let! receiverWalletsByIDMap := wrapM "building receiver wallets lookup map"
    (getReceiverWalletsByIDMap (map snd ids)) in
  mforM (register_supplied_wallet receiversByIDMap receiverIDToReceiverWalletIDMap
           receiverWalletsByIDMap) instructions.

Definition payment_of_instruction (receiverMap : gmap string Receiver)
    (receiverIDToReceiverWalletIDMap : gmap string string) (disbursement : DisbursementView)
    (instruction : DisbursementInstruction) : M PaymentInsert :=
  let! found := findReceiverByInstruction receiverMap instruction in
  match found with
  | None => throw (ENew ("receiver not found for instruction with ID " +:+ DI_ID instruction))
  | Some receiver =>
    mret_ (mkPaymentInsert (Rec_ID receiver) (Some (Dis_ID (dv_row disbursement)))
      PaymentTypeDisbursement (DI_Amount instruction) (Asset_ID (dv_Asset disbursement))
      (default "" (receiverIDToReceiverWalletIDMap !! Rec_ID receiver))
      (null_if_empty (DI_ExternalPaymentID instruction)))
  end.

Definition createPayments (receiverMap : gmap string Receiver)
    (receiverIDToReceiverWalletIDMap : gmap string string)
    (instructions : list DisbursementInstruction) (disbursement : DisbursementView) : M unit :=
  let! payments := mmapM (payment_of_instruction receiverMap receiverIDToReceiverWalletIDMap
                            disbursement) instructions in
  wrapM "inserting payments" (InsertAll payments).

Definition ProcessAll (opts : DisbursementInstructionsOpts) : M unit :=
  if (MaxNumberOfInstructions opts <? Z.of_nat (length (Instructions opts)))%Z then throw ErrMaxInstructionsExceeded
  else
    let disbursement := Opts_Disbursement opts in
    let registrationContactType := Dis_RegistrationContactType (dv_row disbursement) in
    let contactType := ReceiverContactType registrationContactType in
    let! receiversByIDMap := wrapM "processing receivers"
      (reconcileExistingReceiversWithInstructions (Instructions opts) contactType) in
    let! receiverIDToReceiverWalletIDMap := wrapM "processing receiver wallets"
      (processReceiverWallets receiversByIDMap disbursement) in
    (if IncludesWalletAddress registrationContactType then
       map_errM (fun e => if errors_Is_err e ErrDuplicateWalletAddress then e
                          else EWrap "registering supplied wallets" e)
         (registerSuppliedWallets (Instructions opts) receiversByIDMap receiverIDToReceiverWalletIDMap)
     else if default "" (Dis_VerificationField (dv_row disbursement)) <>? "" then
       wrapM "processing receiver verifications"
         (processReceiverVerifications receiversByIDMap (Instructions opts) disbursement contactType)
     else mret_ tt) ;;!
    wrapM "deleting draft payments" (DeleteAllDraftForDisbursement (Dis_ID (dv_row disbursement))) ;;!
    wrapM "creating payments" (createPayments receiversByIDMap receiverIDToReceiverWalletIDMap
      (Instructions opts) disbursement) ;;!
    wrapM "persisting payment file" (Disbursement_Update (Opts_DisbursementUpdate opts)) ;;!
    wrapM "updating status" (Disbursement_UpdateStatus (UserID opts) (Dis_ID (dv_row disbursement))
      ReadyDisbursementStatus).
End DisbursementInstructionModel.
