(* ===== verification/InstructionsSafety.v ===== *)
(** What the upload of instructions guarantees: which payments it creates, and
    what it never overwrites (Instructions.v). *)

From S2P Require Import Prelude GoStrings Errors StateMachine Effects Transactions Schema TxStore.
From S2P Require Import Tables SdpDb PaymentStore ReceiverStore ReceiverWalletStore.
From S2P Require Import DisbursementStore Instructions Platform.

Local Open Scope string_scope.
Local Open Scope list_scope.

Section steps.
Context {D L Ev : Type} {E : Env D} {C : Conn D SdpDb} {CL : ConnLaws D SdpDb} {SDK : StellarSdk}
  {N : Numerics} {U : UuidGen} {B : Bcrypt} {R : MapRange}.
Abbreviation M := (M D L Ev).

(** ** Receivers *)

Definition adds_receivers (x x' : SdpDb) : Prop :=
  exists news, x' = x <| receivers := receivers x ++ news |>.

#[export] Instance adds_receivers_preorder : PreOrder adds_receivers.
Proof.
  split; [intros x; exists []; rewrite app_nil_r; by destruct x|].
  intros x y z [n1 ->] [n2 ->]. exists (n1 ++ n2). cbn. by rewrite app_assoc.
Qed.

Lemma GetByContacts_opens contacts :
  opens (GetByContacts contacts : M _) (fun rs x x' =>
    x' = x /\ forall r, r ∈ rs -> r ∈ receivers x /\ has_contact contacts r = true).
Proof.
  destruct contacts as [|c cs].
  { eapply opens_mono; [apply opens_ret|]. intros rs x x' [-> ->]. split; [done|].
    by intros r ?%elem_of_nil. }
  eapply opens_mono; [apply opens_wrap, opens_read|]. intros rs x x' [[ctx ->] ->].
  split; [done|]. intros r Hr. by apply list_elem_of_filter in Hr as [? ?].
Qed.

Lemma create_receiver_opens di m :
  opens (createReceiverFromInstructionIfNeeded di m : M _) (fun _ x x' => adds_receivers x x').
Proof.
  unfold createReceiverFromInstructionIfNeeded. eapply opens_bind_with.
  { apply opens_wrap, opens_lift. }
  intros contact. destruct (m !! contact).
  { eapply opens_mono; [apply opens_ret|]. intros ? ? ? [_ ->] x [_ ->]. reflexivity. }
  eapply opens_bind_with; [apply opens_wrap, opens_map_err, opens_stmt|].
  intros r. eapply opens_mono; [apply opens_ret|]. intros ? ? ? [_ ->] y [ctx H] x [_ ->].
  unfold insert_receiver in H. apply check_receivers_ok in H as (_ & -> & _). by eexists.
Qed.

Lemma reconcile_opens ins contactType :
  opens (reconcileExistingReceiversWithInstructions ins contactType : M _) (fun m x x' =>
    adds_receivers x x' /\ forall id r, m !! id = Some r -> r ∈ receivers x' /\ Rec_ID r = id).
Proof.
  unfold reconcileExistingReceiversWithInstructions.
  eapply opens_bind_with; [apply (opens_map_read (fun di c _ => Contact di = Ok c))|].
  { intros di. eapply opens_mono; [apply opens_wrap, opens_lift|]. by intros c x x' [? ->]. }
  intros contacts. eapply opens_bind_with; [apply opens_wrap, GetByContacts_opens|].
  intros old. eapply opens_bind_with; [apply opens_lift|].
  intros bycontact. eapply opens_bind_with.
  { apply (opens_for_rel adds_receivers). intros di. apply opens_wrap, create_receiver_opens. }
  intros ?. eapply opens_bind_with; [apply opens_wrap, GetByContacts_opens|].
  intros rs. destruct (negb _); [apply opens_throw|].
  eapply opens_mono; [apply opens_ret|].
  intros m x' ? [-> ->] x4 [-> Hrs] x3 Hadds x2 [_ ->] x1 [-> _] x [-> _]. split; [done|].
  intros id r Hr. apply map_by_elem in Hr as [Hr Hid]. by apply Hrs in Hr as [Hr _].
Qed.

Lemma find_receiver_opens m di :
  opens (findReceiverByInstruction m di : M _) (fun o x x' => x' = x /\
    forall r, o = Some r -> (exists id, m !! id = Some r) /\
      exists contact, Contact di = Ok contact /\ (contact = PhoneNumber r \/ contact = Email r)).
Proof.
  unfold findReceiverByInstruction. destruct (Contact di) as [contact|e].
  2: { eapply opens_mono; [apply opens_ret|]. by intros o x x' [-> ->]. }
  eapply opens_bind_with; [apply opens_range|]. intros entries.
  eapply opens_mono; [apply opens_ret|]. intros o y0 x' [-> ->] x [Hperm ->]. split; [done|].
  intros r Hr. apply first_such_some in Hr as [Hin Hc]. split.
  - apply list_elem_of_fmap in Hin as ([id r'] & -> & Hin). rewrite Hperm in Hin.
    apply elem_of_map_to_list in Hin. by exists id.
  - exists contact. split; [done|]. apply orb_true_iff in Hc as [Hc|Hc]; apply String.eqb_eq in Hc; auto.
Qed.

(** ** Receiver wallets *)

(** What no upload takes away: an address, a registration. *)
Definition wallet_kept (rw rw' : ReceiverWallet) : Prop :=
  RW_ID rw' = RW_ID rw /\ RW_ReceiverID rw' = RW_ReceiverID rw /\ RW_WalletID rw' = RW_WalletID rw /\
  (forall a, RW_StellarAddress rw = Some a -> a <> "" -> RW_StellarAddress rw' = Some a) /\
  (RW_Status rw ∈ [RegisteredReceiversWalletStatus; FlaggedReceiversWalletStatus] ->
   RW_Status rw' = RW_Status rw).

#[export] Instance wallet_kept_preorder : PreOrder wallet_kept.
Proof.
  split; [by intros rw; split_and!|].
  intros a b c (H1 & H2 & H3 & H4 & H5) (K1 & K2 & K3 & K4 & K5). split_and!; try congruence.
  - intros s Hs Hne. by apply K4; [apply H4|].
  - intros Hs. rewrite K5; [by apply H5|]. by rewrite H5.
Qed.

Definition wallets_kept (x x' : SdpDb) : Prop :=
  (exists rws, x' = x <| receiver_wallets := rws |>) /\
  forall id rw, lookup_receiver_wallet id x = Some rw ->
    exists rw', lookup_receiver_wallet id x' = Some rw' /\ wallet_kept rw rw'.

#[export] Instance wallets_kept_preorder : PreOrder wallets_kept.
Proof.
  split.
  - intros x. split; [exists (receiver_wallets x); by destruct x|]. intros id rw H. by exists rw.
  - intros x y z [[r1 ->] H1] [[r2 ->] H2]. split; [by exists r2|]. intros id rw H.
    destruct (H1 id rw H) as (rw1 & K1 & ?). destruct (H2 id rw1 K1) as (rw2 & ? & ?).
    exists rw2. split; [done|]. by etransitivity.
Qed.

Lemma UpdateReceiverWallets_kept q f ctx x rows x' :
  (forall rw, RW_ID (f ctx rw) = RW_ID rw) ->
  (forall id rw, lookup_receiver_wallet id x = Some rw -> q x rw = true -> wallet_kept rw (f ctx rw)) ->
  UpdateReceiverWallets q f ctx x = Ok (rows, x') ->
  wallets_kept x x' /\ receiver_wallets_ok (receiver_wallets x').
Proof.
  intros Hid Hf H. pose proof H as Hl. apply UpdateReceiverWallets_ok in Hl as (_ & Hx & _ & Hl); [|done].
  unfold UpdateReceiverWallets in H. apply check_receiver_wallets_ok in H as (_ & _ & Hok & _).
  rewrite <- Hx in Hok. split; [|done]. split; [rewrite Hx; by eexists|].
  intros id rw Hrw. rewrite Hl, Hrw. cbn. eexists. split; [done|].
  destruct (q x rw) eqn:Eq; [by eapply Hf|done].
Qed.

Definition has_wallet (walletID : string) (x : SdpDb) (rid rwid : string) : Prop :=
  exists rw, lookup_receiver_wallet rwid x = Some rw /\ RW_ReceiverID rw = rid /\ RW_WalletID rw = walletID.

Lemma has_wallet_kept walletID x x' rid rwid :
  wallets_kept x x' -> has_wallet walletID x rid rwid -> has_wallet walletID x' rid rwid.
Proof.
  intros [_ Hk] (rw & Hl & <- & <-). destruct (Hk rwid rw Hl) as (rw' & Hl' & _ & H2 & H3 & _).
  exists rw'. by rewrite H2, H3.
Qed.

Lemma retry_opens id :
  opens (try_ (RetryInvitationMessage id : M _)) (fun _ x x' =>
    wallets_kept x x' /\ receiver_wallets_ok (receiver_wallets x')).
Proof.
  eapply opens_mono; [apply opens_try_stmt|]. intros r x x' (ctx & rows & H & _).
  eapply UpdateReceiverWallets_kept; [| |exact H]; [done|]. intros ? rw _ _. by split_and!.
Qed.

Lemma insert_wallet_opens rid wid :
  opens (GetOrInsertReceiverWallet rid wid : M _) (fun id x x' =>
    wallets_kept x x' /\ receiver_wallets_ok (receiver_wallets x') /\ has_wallet wid x' rid id).
Proof.
  eapply opens_mono; [apply opens_wrap, opens_stmt|]. intros id x x' [ctx H].
  apply check_receiver_wallets_ok in H as (-> & -> & Hok & _). split; [|split; [exact Hok|]].
  - split; [by eexists|]. intros id rw Hl. exists rw. unfold lookup_receiver_wallet in *. cbn.
    rewrite first_such_app, Hl. done.
  - eexists (new_receiver_wallet ctx _ rid wid). split; [|by split].
    apply (first_such_unique RW_ID); [apply Hok| |reflexivity]. cbn. apply elem_of_app. right.
    apply list_elem_of_here.
Qed.

Lemma ensure_wallet_opens walletID rid ids :
  opens (ensure_receiver_wallet walletID rid ids : M _) (fun ids' x x' =>
    receiver_wallets_ok (receiver_wallets x) ->
    wallets_kept x x' /\ receiver_wallets_ok (receiver_wallets x') /\
    (forall r, is_Some (ids !! r) -> ids' !! r = ids !! r) /\
    (ids' = ids /\ is_Some (ids !! rid) \/
     exists rwid, ids' = <[rid := rwid]> ids /\ has_wallet walletID x' rid rwid)).
Proof.
  unfold ensure_receiver_wallet. destruct (ids !! rid) as [rwid|] eqn:Er.
  - eapply opens_bind_with; [apply retry_opens|]. intros r.
    assert (Hret : opens (mret_ ids : M _) (fun ids' y x' => forall x,
      wallets_kept x y /\ receiver_wallets_ok (receiver_wallets y) ->
      receiver_wallets_ok (receiver_wallets x) -> wallets_kept x x' /\
      receiver_wallets_ok (receiver_wallets x') /\ (forall r, is_Some (ids !! r) -> ids' !! r = ids !! r) /\
      (ids' = ids /\ is_Some (ids !! rid) \/
       exists rwid, ids' = <[rid := rwid]> ids /\ has_wallet walletID x' rid rwid))).
    { eapply opens_mono; [apply opens_ret|]. intros ? ? ? [-> ->] x [? ?] _. split_and!; try done. left. eauto. }
    rewrite Er in Hret. destruct r as [?|e]; [exact Hret|]. destruct (errors_Is_err _ _); [exact Hret|].
    apply opens_throw.
  - eapply opens_bind_with; [apply opens_wrap, insert_wallet_opens|]. intros rwid.
    eapply opens_mono; [apply opens_ret|]. intros ? ? ? [-> ->] x (? & ? & ?) _. split_and!; try done.
    + intros r [v Hr]. rewrite lookup_insert_ne; [done|]. congruence.
    + right. eauto.
Qed.

(** Every receiver of the map gets a wallet of the disbursement's kind. *)
Lemma process_wallets_opens m d :
  opens (processReceiverWallets m d : M _) (fun ids x x' =>
    receiver_wallets_ok (receiver_wallets x) ->
    wallets_kept x x' /\ receiver_wallets_ok (receiver_wallets x') /\
    (forall rid rwid, ids !! rid = Some rwid -> has_wallet (Wal_ID (dv_Wallet d)) x' rid rwid) /\
    forall rid, is_Some (m !! rid) -> is_Some (ids !! rid)).
Proof.
  set (walletID := Wal_ID (dv_Wallet d)).
  unfold processReceiverWallets. eapply opens_bind_with; [apply opens_range|]. intros keys.
  eapply opens_bind_with; [apply opens_wrap, opens_wrap, opens_read|]. intros rws.
  eapply opens_bind_with; [apply opens_range|]. intros entries.
  eapply opens_mono.
  { apply opens_all. intros x0.
    apply (opens_fold (fun ids rest x => wallets_kept x0 x /\ receiver_wallets_ok (receiver_wallets x) /\
      (forall rid rwid, ids !! rid = Some rwid -> has_wallet walletID x rid rwid) /\
      forall e, e ∈ entries -> is_Some (ids !! fst e) \/ e ∈ rest)).
    intros ids [rid r] rest. eapply opens_mono; [apply ensure_wallet_opens|].
    intros ids' x x' H (Hx0 & Hok & Hids & Hall). destruct (H Hok) as (Hk & Hok' & Hold & Hnew).
    assert (Hkept : forall r w, is_Some (ids !! r) -> ids' !! r = Some w -> has_wallet walletID x' r w).
    { intros r0 w0 Hs Hw. rewrite Hold in Hw by done. eapply has_wallet_kept; [exact Hk|]. by apply Hids. }
    split; [by etransitivity|]. split; [done|]. split.
    - intros r0 w0 Hw. destruct (ids !! r0) eqn:E0; [apply Hkept; [by rewrite E0|done]|].
      destruct Hnew as [[-> _]|(rwid & -> & Hw')]; [by rewrite E0 in Hw|].
      apply lookup_insert_Some in Hw as [[<- <-]|[_ Hw]]; [done|by rewrite E0 in Hw].
    - intros e He. destruct (Hall e He) as [Hs|Hin].
      + left. by rewrite Hold.
      + apply elem_of_cons in Hin as [->|Hin]; [left|by right]. cbn.
        destruct Hnew as [[-> Hs]|(rwid & -> & _)]; [done|]. rewrite lookup_insert_eq. by eexists. }
  intros ids x3 x' H x2 [Hperm ->] x1 [[ctx ->] ->] x [_ ->] Hok.
  destruct (H x) as (Hk & Hok' & Hids & Hall); [|split; [done|split; [done|split; [done|]]]].
  - split; [reflexivity|]. split; [done|]. split; [|by right].
    intros rid rwid Hl. apply lookup_fmap_Some in Hl as (rw & <- & Hl).
    apply map_by_elem in Hl as [Hin Hrid]. apply list_elem_of_filter in Hin as [Hin Hrw].
    apply andb_true_iff in Hin as [_ Hin]. apply String.eqb_eq in Hin. exists rw.
    split; [|done]. by apply (first_such_unique RW_ID); [apply Hok| |].
  - intros rid [r Hr]. destruct (Hall (rid, r)) as [?|?%elem_of_nil]; [|done|done].
    rewrite Hperm. by apply elem_of_map_to_list.
Qed.

Lemma check_memo_opens id u : opens (check_memo id u : M _) (fun _ x x' => x' = x).
Proof.
  assert (Hbody : opens (let! a := (if RWU_StellarAddress u =? "" then
         let! existing := wrapM "checking stored stellar address for memo validation" (RW_GetByID id) in
         mret_ (default "" (RW_StellarAddress (fst existing)))
       else mret_ (RWU_StellarAddress u)) in
    if IsValidContractAddress a then
      lift (guard_err (negb (bool_decide (RWU_StellarMemo u = Some ""))
                       || negb (default "" (RWU_StellarMemoType u) =? "")) ErrMemosNotSupportedForContractAddresses)
    else mret_ tt : M _) (fun _ x x' => x' = x)).
  { eapply (opens_bind_with _ _ (fun _ x x' => x' = x)).
    - destruct (_ =? _); [|eapply opens_mono; [apply opens_ret|]; by intros ? ? ? [_ ->]].
      eapply opens_bind_with; [apply opens_wrap, opens_map_err, opens_GetContext|]. intros a.
      eapply opens_mono; [apply opens_ret|]. by intros ? ? ? [_ ->] x [ctx [= _ ->]].
    - intros a. destruct (IsValidContractAddress a).
      + eapply opens_mono; [apply opens_lift|]. by intros ? ? ? [_ ->] x ->.
      + eapply opens_mono; [apply opens_ret|]. by intros ? ? ? [_ ->] x ->. }
  unfold check_memo. destruct (RWU_StellarMemo u), (RWU_StellarMemoType u); [exact Hbody..|].
  eapply opens_mono; [apply opens_ret|]. by intros ? ? ? [_ ->].
Qed.

Lemma RW_Update_opens id u :
  opens (RW_Update id u : M _) (fun _ x x' => exists ctx rows,
    UpdateReceiverWallets (fun _ rw => RW_ID rw =? id) (set_wallet_update u) ctx x = Ok (rows, x')).
Proof.
  unfold RW_Update. eapply opens_bind_with; [apply opens_wrap, opens_lift|]. intros ?.
  eapply opens_bind_with; [apply check_memo_opens|]. intros ?.
  eapply opens_bind_with; [apply opens_map_err, opens_stmt|]. intros rows.
  eapply opens_mono; [apply opens_lift|]. intros ? ? ? [_ ->] x3 [ctx H] x2 -> x1 [_ ->]. eauto.
Qed.

Lemma set_wallet_update_id u ctx rw : RW_ID (set_wallet_update u ctx rw) = RW_ID rw.
Proof. unfold set_wallet_update. repeat case_match; done. Qed.

(** Registering a wallet whose snapshot has no other address and is not yet
    registered takes nothing away. *)
Lemma set_registered_kept addr m1 m2 ctx rw0 rw :
  wallet_kept rw0 rw ->
  RW_Status rw0 ∉ [RegisteredReceiversWalletStatus; FlaggedReceiversWalletStatus] ->
  (default "" (RW_StellarAddress rw0) <> "" -> default "" (RW_StellarAddress rw0) = addr) ->
  wallet_kept rw0 (set_wallet_update (mkReceiverWalletUpdate RegisteredReceiversWalletStatus ""
    addr m1 m2 None "" None) ctx rw).
Proof.
  intros (H1 & H2 & H3 & H4 & H5) Hst Haddr. unfold set_wallet_update. cbn.
  destruct (String.eqb_spec addr "") as [->|Hne]; destruct m1, m2;
    (split_and!; [exact H1|exact H2|exact H3| |by intros ?]); cbn; try exact H4;
    intros a Ha Hane; rewrite Ha in Haddr; cbn in Haddr; by rewrite Haddr.
Qed.

(** The rows a selection reads are rows of the table. *)
Lemma select_wallets_sublist q db : map fst (select_wallets q db) `sublist_of` receiver_wallets db.
Proof.
  unfold select_wallets. induction (receiver_wallets db) as [|rw l IH]; [constructor|].
  cbn [omap list_omap]. unfold join_wallet at 1.
  destruct (lookup_wallet _ db) as [wal|]; cbn [fmap option_fmap option_map]; [|by constructor].
  rewrite filter_cons. destruct (decide _); cbn [map fst]; by constructor.
Qed.

Lemma snapshot_lookup q x rwid rw wal :
  NoDup (map RW_ID (receiver_wallets x)) -> lookup_receiver_wallet rwid x = Some rw ->
  lookup_wallet (RW_WalletID rw) x = Some wal -> q (rw, wal) = true ->
  map_by RW_ID (map fst (select_wallets q x)) !! rwid = Some rw.
Proof.
  intros Hnd Hrw Hwal Hq. pose proof (first_such_some _ _ _ Hrw) as [Hin Hid].
  apply String.eqb_eq in Hid.
  assert (Hsel : NoDup (map RW_ID (map fst (select_wallets q x)))).
  { eapply NoDup_key_select; [|exact Hnd]. apply sublist_submseteq, select_wallets_sublist. }
  rewrite map_by_lookup by done. apply (first_such_unique RW_ID); [done| |done].
  apply list_elem_of_fmap. exists (rw, wal). split; [done|]. apply list_elem_of_filter. split; [done|].
  apply list_elem_of_omap. exists rw. split; [done|]. unfold join_wallet. by rewrite Hwal.
Qed.

Definition snapshot_of (ids : gmap string string) (wm : gmap string ReceiverWallet) (x : SdpDb) : Prop :=
  forall rid rwid, ids !! rid = Some rwid ->
    exists rw, lookup_receiver_wallet rwid x = Some rw /\ wm !! rwid = Some rw.

Lemma register_wallet_opens m ids wm di :
  opens (register_supplied_wallet m ids wm di : M _) (fun _ x x' => forall x0,
    snapshot_of ids wm x0 -> wallets_kept x0 x -> wallets_kept x0 x').
Proof.
  unfold register_supplied_wallet.
  eapply opens_bind_with; [apply find_receiver_opens|]. intros [r|]; [|apply opens_throw].
  destruct (ids !! Rec_ID r) as [rwid|] eqn:Eid; [|apply opens_throw].
  set (rw0 := default zero_ReceiverWallet (wm !! rwid)). cbn zeta.
  destruct (_ && _) eqn:Eaddr; [apply opens_throw|].
  destruct (slices_Contains _ _) eqn:Est.
  { eapply opens_mono; [apply opens_ret|]. by intros ? ? ? [_ ->] x [-> _] x0 _. }
  eapply (opens_bind_with _ _ (fun _ x x' => x' = x)).
  { destruct (DI_WalletAddressMemo di =? "").
    { eapply opens_mono; [apply opens_ret|]. by intros ? ? ? [_ ->]. }
    eapply opens_bind_with; [apply opens_wrap, opens_lift|]. intros ?.
    eapply opens_mono; [apply opens_ret|]. by intros ? ? ? [_ ->] x [_ ->]. }
  intros [m1 m2]. eapply opens_mono; [apply opens_map_err, RW_Update_opens|].
  intros _ x2 x' (ctx & rows & H) x1 -> x [-> _] x0 Hsnap [[rws ->] Hk].
  destruct (Hsnap _ _ Eid) as (rw0' & Hrw0 & Hwm).
  assert (rw0' = rw0) as -> by (unfold rw0; by rewrite Hwm).
  apply UpdateReceiverWallets_ok in H as (_ & Hx & _ & Hl); [|apply set_wallet_update_id].
  split; [rewrite Hx; by eexists|].
  intros id rw1 Hrw1. destruct (Hk id rw1 Hrw1) as (rw2 & Hrw2 & Hkept).
  rewrite Hl, Hrw2. cbn [fmap option_fmap option_map]. eexists. split; [done|].
  destruct (String.eqb_spec (RW_ID rw2) rwid) as [Hid|_]; [|done].
  assert (id = rwid) as ->.
  { pose proof (first_such_some _ _ _ Hrw2) as [_ Hi]. apply String.eqb_eq in Hi. congruence. }
  assert (rw1 = rw0) as -> by congruence.
  apply (set_registered_kept (DI_WalletAddress di) m1 m2 ctx) in Hkept as Hset; [exact Hset| |].
  - by apply slices_Contains_false.
  - intros Hne. apply andb_false_iff in Eaddr as [Ea|Ea]; apply negb_false_iff, String.eqb_eq in Ea; congruence.
Qed.

Lemma register_wallets_opens ins m ids :
  opens (registerSuppliedWallets ins m ids : M _) (fun _ x x' =>
    NoDup (map RW_ID (receiver_wallets x)) ->
    (forall rid rwid, ids !! rid = Some rwid ->
       exists rw, lookup_receiver_wallet rwid x = Some rw /\ is_Some (lookup_wallet (RW_WalletID rw) x)) ->
    wallets_kept x x').
Proof.
  unfold registerSuppliedWallets. eapply opens_bind_with; [apply opens_range|]. intros entries.
  eapply opens_bind_with.
  { apply opens_wrap. unfold getReceiverWalletsByIDMap. eapply opens_bind_with.
    - apply opens_wrap. apply (opens_mono _ (fun rws x x' => x' = x /\
        rws = select_wallets (fun y => slices_Contains (map snd entries) (RW_ID (fst y))) x)).
      + unfold RW_GetByIDs. destruct (map snd entries) as [|i rest] eqn:Ei; [apply opens_throw|].
        eapply opens_mono; [apply opens_wrap, opens_read|]. intros rws x x' [[_ ->] ->]. done.
      + intros rws x x' H. exact H.
    - intros rws. eapply opens_mono; [apply opens_ret|]. intros wm y x' [-> ->] x [-> ->].
      instantiate (1 := fun wm x x' => x' = x /\ wm = map_by RW_ID (map fst
        (select_wallets (fun y => slices_Contains (map snd entries) (RW_ID (fst y))) x))). done. }
  intros wm. eapply opens_mono.
  { apply opens_all. intros x0. apply (opens_for (fun _ x => snapshot_of ids wm x0 /\ wallets_kept x0 x)).
    intros di l. eapply opens_mono; [apply register_wallet_opens|].
    intros u x x' H [Hs Hk]. split; [exact Hs|exact (H x0 Hs Hk)]. }
  intros ? x2 x' H x1 [Hx1 Hwm] x [Hperm Hx] Hnd Hids. rewrite Hx1, Hx, Hwm in H.
  apply (H x). split; [|reflexivity].
  intros rid rwid Hl. destruct (Hids rid rwid Hl) as (rw & Hrw & [wal Hwal]). exists rw. split; [done|].
  apply (snapshot_lookup _ _ _ _ wal); [by rewrite Hx..|]. cbn.
  apply slices_Contains_spec, list_elem_of_fmap. exists (rid, rwid). split.
  - cbn. apply first_such_some in Hrw as [_ Hi]. by apply String.eqb_eq in Hi.
  - rewrite Hperm. by apply elem_of_map_to_list.
Qed.

(** ** Verifications *)

Definition confirmed_kept (x x' : SdpDb) : Prop :=
  (exists vs, x' = x <| receiver_verifications := vs |>) /\
  forall rid field v, lookup_verification rid field x = Some v -> RV_ConfirmedAt v <> None ->
    lookup_verification rid field x' = Some v.

#[export] Instance confirmed_kept_preorder : PreOrder confirmed_kept.
Proof.
  split; [intros x; split; [exists (receiver_verifications x); by destruct x|done]|].
  intros x y z [[v1 ->] H1] [[v2 ->] H2]. split; [by exists v2|]. intros rid f v Hv Hc.
  apply H2; [|done]. by apply H1.
Qed.

Definition vouches (x : SdpDb) (rid field value : string) : Prop :=
  exists v, lookup_verification rid field x = Some v /\
    CompareVerificationValue (RV_HashedValue v) value = true.

(** One step on the verification of one receiver. *)
Definition settles_one (rid field value : string) (x x' : SdpDb) : Prop :=
  confirmed_kept x x' /\ vouches x' rid field value /\
  forall r f, (r, f) <> (rid, field) -> lookup_verification r f x' = lookup_verification r f x.

Lemma is_verification_key rid field v :
  is_verification rid field v = true <-> (RV_ReceiverID v, RV_VerificationField v) = (rid, field).
Proof.
  unfold is_verification. rewrite andb_true_iff, !String.eqb_eq. split; [by intros [-> ->]|naive_solver].
Qed.

Section bcrypt_laws.
Context {BL : BcryptLaws}.

Lemma hash_opens value : opens (HashVerificationValue value : M _) (fun h x x' =>
  x' = x /\ CompareVerificationValue h value = true).
Proof.
  eapply opens_mono; [apply opens_wrap, opens_ask_res|]. intros h x x' [[t Ht] ->].
  split; [done|]. unfold CompareVerificationValue. by erewrite bcrypt_compare_generated.
Qed.

Lemma insert_verification_opens rid field value :
  opens (Verification_Insert (mkReceiverVerificationInsert rid field value) : M _) (fun _ x x' =>
    lookup_verification rid field x = None -> settles_one rid field value x x').
Proof.
  unfold Verification_Insert. cbn. eapply opens_bind_with; [apply opens_wrap, opens_lift|]. intros ?.
  eapply opens_bind_with; [apply opens_wrap, hash_opens|]. intros h.
  eapply opens_bind_with; [apply opens_wrap, opens_stmt|]. intros ?.
  eapply opens_mono; [apply opens_ret|]. intros ? ? ? [_ ->] x2 [ctx H] x1 [-> Hh] x [_ ->] Hnone.
  apply check_verifications_ok in H as (_ & -> & _).
  assert (Hl : forall r f, lookup_verification r f (x <| receiver_verifications :=
    receiver_verifications x ++ [new_verification ctx rid field h] |>) =
    match lookup_verification r f x with
    | Some v => Some v
    | None => first_such (is_verification r f) [new_verification ctx rid field h]
    end) by (intros r f; apply first_such_app).
  split; [split; [by eexists|intros r f v Hv _; by rewrite Hl, Hv]|]. split.
  - eexists. rewrite Hl, Hnone. cbn. unfold is_verification. cbn. rewrite !eqb_same. done.
  - intros r f Hne. rewrite Hl. destruct (lookup_verification r f x); [done|]. cbn.
    destruct (is_verification r f _) eqn:Hev; [|done]. apply is_verification_key in Hev. by destruct Hne.
Qed.

Lemma update_verification_opens rid field value :
  opens (UpdateVerificationValue rid field value : M _) (fun _ x x' => forall v,
    lookup_verification rid field x = Some v -> RV_ConfirmedAt v = None ->
    settles_one rid field value x x').
Proof.
  unfold UpdateVerificationValue. eapply opens_bind_with; [apply opens_wrap, hash_opens|]. intros h.
  eapply opens_bind_with; [apply opens_wrap, opens_stmt|]. intros ?.
  eapply opens_mono; [apply opens_ret|]. intros ? ? ? [_ ->] x1 [ctx H] x [-> Hh] v Hv Hunc.
  apply UpdateVerifications_ok in H as [-> _].
  assert (Hl : forall r f, lookup_verification r f (x <| receiver_verifications :=
    update_where (is_verification rid field) (fun v => v <| RV_HashedValue := h |> <| RV_UpdatedAt := NOW ctx |>)
      (receiver_verifications x) |>) = (fun v => if is_verification rid field v
        then v <| RV_HashedValue := h |> <| RV_UpdatedAt := NOW ctx |> else v) <$> lookup_verification r f x)
    by (intros r f; by apply first_such_update).
  assert (Hother : forall r f, (r, f) <> (rid, field) -> lookup_verification r f (x <| receiver_verifications :=
    update_where (is_verification rid field) (fun v => v <| RV_HashedValue := h |> <| RV_UpdatedAt := NOW ctx |>)
      (receiver_verifications x) |>) = lookup_verification r f x).
  { intros r f Hne. rewrite Hl. destruct (lookup_verification r f x) as [u|] eqn:Eu; [|done]. cbn.
    apply first_such_some in Eu as [_ Eu]. destruct (is_verification rid field u) eqn:Hev; [|done].
    apply is_verification_key in Eu, Hev. congruence. }
  split; [split; [by eexists|]|split; [|done]].
  - intros r f u Hu Hc. destruct (decide ((r, f) = (rid, field))) as [[= -> ->]|Hne]; [congruence|].
    by rewrite Hother.
  - eexists. rewrite Hl, Hv. cbn. apply first_such_some in Hv as [_ Hv]. rewrite Hv. done.
Qed.
Lemma process_verification_opens d field contactType vm im r :
  opens (process_verification d field contactType vm im r : M _) (fun _ x x' =>
    (forall v, vm !! Rec_ID r = Some v -> RV_ReceiverID v = Rec_ID r /\ RV_VerificationField v = field) ->
    lookup_verification (Rec_ID r) field x = vm !! Rec_ID r ->
    exists di, im !! ContactByType r contactType = Some di /\
      settles_one (Rec_ID r) field (DI_VerificationValue di) x x').
Proof.
  unfold process_verification. destruct (_ =? ""); [apply opens_throw|].
  destruct (im !! _) as [di|]; [|apply opens_throw].
  destruct (vm !! Rec_ID r) as [v|] eqn:Hvm.
  - destruct (CompareVerificationValue _ _) eqn:Hc.
    { eapply opens_mono; [apply opens_ret|]. intros ? x x' [_ ->] _ Hl. exists di. split; [done|].
      split; [reflexivity|]. split; [by exists v|done]. }
    destruct (RV_ConfirmedAt v) eqn:Hconf; [apply opens_throw|].
    eapply opens_mono; [apply opens_wrap, update_verification_opens|]. intros ? x x' H Hkey Hl.
    exists di. split; [done|]. destruct (Hkey v eq_refl) as [Hr Hf].
    rewrite Hr, Hf in H. by apply (H v).
  - eapply opens_bind_with; [apply opens_wrap, insert_verification_opens|]. intros ?.
    eapply opens_mono; [apply opens_ret|]. intros ? ? x' [_ ->] x H _ Hl. exists di. auto.
Qed.

(** The verifications read for the receivers are those of the table. *)
Lemma verification_map rids field x id :
  verifications_ok (receiver_verifications x) -> id ∈ rids ->
  map_by RV_ReceiverID (filter (fun v => slices_Contains rids (RV_ReceiverID v)
    && (RV_VerificationField v =? field) = true) (receiver_verifications x)) !! id =
  lookup_verification id field x.
Proof.
  intros [_ Hnd] Hid. set (sel := filter _ _). rewrite map_by_lookup.
  - unfold sel. rewrite first_such_filter. apply first_such_ext. intros v. unfold is_verification.
    destruct (String.eqb_spec (RV_ReceiverID v) id) as [->|_]; [|by rewrite andb_false_r].
    rewrite (proj2 (slices_Contains_spec _ _) Hid). by rewrite andb_true_r.
  - apply (NoDup_map_through _ verification_key).
    + intros v1 v2 H1 H2 Heq. apply list_elem_of_filter in H1 as [H1 _], H2 as [H2 _].
      apply andb_true_iff in H1 as [_ H1], H2 as [_ H2]. apply String.eqb_eq in H1, H2.
      unfold verification_key. congruence.
    + eapply NoDup_key_select; [apply sublist_submseteq, sublist_filter|exact Hnd].
Qed.

(** After the upload every receiver has a verification of the disbursement's
    field that accepts the value of an instruction with its contact. *)
Definition vouched (ins : list DisbursementInstruction) (contactType field : string) (x : SdpDb)
    (r : Receiver) : Prop :=
  exists di, di ∈ ins /\ Contact di = Ok (ContactByType r contactType) /\
    vouches x (Rec_ID r) field (DI_VerificationValue di).

Lemma verification_loop_opens d field contactType vm im entries :
  opens (mforM (fun e => process_verification d field contactType vm im (snd e)) entries : M _)
    (fun _ x x' => verifications_ok (receiver_verifications x) ->
      NoDup (map (fun e : string * Receiver => Rec_ID (snd e)) entries) ->
      (forall e, e ∈ entries -> vm !! Rec_ID (snd e) = lookup_verification (Rec_ID (snd e)) field x) ->
      confirmed_kept x x' /\ forall e, e ∈ entries -> exists di,
        im !! ContactByType (snd e) contactType = Some di /\
        vouches x' (Rec_ID (snd e)) field (DI_VerificationValue di)).
Proof.
  set (id := fun e : string * Receiver => Rec_ID (snd e)).
  set (served := fun e x => exists di, im !! ContactByType (snd e) contactType = Some di /\
    vouches x (id e) field (DI_VerificationValue di)).
  eapply opens_mono.
  { apply opens_all. intros x0. apply (opens_for (fun rest x => confirmed_kept x0 x /\
      (forall e, e ∈ rest -> vm !! id e = lookup_verification (id e) field x) /\
      NoDup (map id rest) /\ forall e, e ∈ entries -> e ∈ rest \/ served e x /\ id e ∉ map id rest)).
    intros e rest. eapply opens_mono; [apply process_verification_opens|].
    intros ? x x' H (Hk & Hvm & Hnd & Hall). cbn in Hnd. apply NoDup_cons in Hnd as [Hnew Hnd].
    destruct H as (di & Him & Hk' & Hv & Hother).
    { intros v Hl. change (vm !! id e = Some v) in Hl. rewrite Hvm in Hl by apply list_elem_of_here.
      apply first_such_some in Hl as [_ Hl]. apply is_verification_key in Hl. by injection Hl. }
    { symmetry. apply Hvm, list_elem_of_here. }
    split; [by etransitivity|]. split; [|split; [done|]].
    - intros e' He'. rewrite Hvm by by apply list_elem_of_further. symmetry. apply Hother.
      intros [= Heq]. apply Hnew. change (id e' = id e) in Heq. rewrite <- Heq. by apply list_elem_of_fmap_2.
    - intros e' He'. destruct (Hall e' He') as [Hin|[(di' & Him' & Hs) Hout]].
      + apply elem_of_cons in Hin as [->|Hin]; [right|by left]. split; [by exists di|done].
      + right. cbn in Hout. apply not_elem_of_cons in Hout as [Hne Hout]. split; [|done].
        destruct Hs as (v & Hl & Hc). exists di'. split; [done|]. exists v. rewrite Hother; [done|].
        intros [= Heq]. by apply Hne. }
  intros ? x x' H Hok Hnd Hvm. destruct (H x) as (Hk & _ & _ & Hall).
  - split; [reflexivity|]. split; [done|]. split; [done|]. by left.
  - split; [done|]. intros e He. by destruct (Hall e He) as [?%elem_of_nil|[? _]].
Qed.

Lemma process_verifications_opens m ins d contactType :
  let field := default "" (Dis_VerificationField (dv_row d)) in
  opens (processReceiverVerifications m ins d contactType : M _) (fun _ x x' =>
    verifications_ok (receiver_verifications x) ->
    (forall id r, m !! id = Some r -> Rec_ID r = id) ->
    confirmed_kept x x' /\ forall id r, m !! id = Some r -> vouched ins contactType field x' r).
Proof.
  intros field. unfold processReceiverVerifications. fold field.
  eapply opens_bind_with; [apply opens_range|]. intros keys.
  eapply opens_bind_with.
  { apply opens_wrap, opens_wrap. eapply opens_mono; [apply opens_stmt|]. intros vs x x' [ctx H].
    instantiate (1 := fun vs x x' => x' = x /\ vs = filter (fun v => slices_Contains (map fst keys) (RV_ReceiverID v)
      && (RV_VerificationField v =? field) = true) (receiver_verifications x)).
    cbn beta in H. destruct (slices_Contains _ field) in H; [|done]. by injection H as <- <-. }
  intros vs. eapply opens_bind_with; [apply (opens_map_read (fun di c _ => Contact di = Ok c))|].
  { intros di. eapply opens_mono; [apply opens_wrap, opens_lift|]. by intros c x x' [? ->]. }
  intros contacts. eapply opens_bind_with; [apply opens_range|]. intros entries.
  eapply opens_mono; [apply verification_loop_opens|].
  intros ? x4 x' H x3 [Hent Hx3] x2 [Hx2 Hc] x1 [Hx1 Hvs] x [Hkeys Hx] Hok Hids.
  rewrite Hx3, Hx2, Hx1, Hx in H. rewrite Hx2, Hx1, Hx in *.
  assert (Hentry : forall id r, (id, r) ∈ entries <-> m !! id = Some r).
  { intros id r. rewrite Hent. apply elem_of_map_to_list. }
  assert (Hid : map (fun e : string * Receiver => Rec_ID (snd e)) entries = map fst entries).
  { apply map_ext_in. intros [id r] He. apply list_elem_of_In, Hentry in He. by apply Hids. }
  destruct H as [Hk Hall]; [done| | |].
  - rewrite Hid, (Permutation_map _ Hent). apply NoDup_fst_map_to_list.
  - intros [id r] He. cbn. apply Hentry in He. rewrite (Hids _ _ He), Hvs.
    apply verification_map; [done|]. rewrite Hkeys. apply list_elem_of_fmap. exists (id, r).
    split; [done|]. by apply elem_of_map_to_list.
  - split; [done|]. intros id r He. apply Hentry in He. destruct (Hall _ He) as (di & Him & Hv). cbn in Him.
    apply lookup_fmap_Some in Him as ([c di'] & Heq & Hl). cbn in Heq. subst di'.
    apply map_by_elem in Hl as [Hl Hcontact]. cbn in Hcontact. subst c.
    apply elem_of_lookup_zip_with in Hl as (i & c & di' & [= <- <-] & Hci & Hdi).
    destruct (Forall2_lookup_r _ _ _ _ _ Hc Hci) as (di2 & Hdi2 & Hcc).
    exists di. assert (di2 = di) as -> by congruence. split; [by eapply list_elem_of_lookup_2|]. done.
Qed.
End bcrypt_laws.

(** ** Payments and the disbursement *)

(** The payment an instruction becomes. *)
Definition payment_for (v : DisbursementView) (x : SdpDb)
    (di : DisbursementInstruction) (p : Payment) : Prop :=
  Pay_Status p = DraftPaymentStatus /\ Pay_Type p = PaymentTypeDisbursement /\
  Pay_DisbursementID p = Some (Dis_ID (dv_row v)) /\
  Pay_AssetID p = Asset_ID (dv_Asset v) /\
  numeric_in (DI_Amount di) = Some (Pay_Amount p) /\ ValidateAmount (DI_Amount di) = Ok tt /\
  Pay_ExternalPaymentID p = null_if_empty (DI_ExternalPaymentID di) /\
  (exists r contact, r ∈ receivers x /\ Rec_ID r = Pay_ReceiverID p /\
     Contact di = Ok contact /\ (contact = PhoneNumber r \/ contact = Email r)) /\
  has_wallet (Wal_ID (dv_Wallet v)) x (Pay_ReceiverID p) (Pay_ReceiverWalletID p).

(** The row of an insert. *)
Definition row_of (i : PaymentInsert) (p : Payment) : Prop :=
  Pay_Status p = DraftPaymentStatus /\ Pay_Type p = PI_PaymentType i /\
  Pay_DisbursementID p = PI_DisbursementID i /\ Pay_AssetID p = PI_AssetID i /\
  numeric_in (PI_Amount i) = Some (Pay_Amount p) /\ Pay_ExternalPaymentID p = PI_ExternalPaymentID i /\
  Pay_ReceiverID p = PI_ReceiverID i /\ Pay_ReceiverWalletID p = PI_ReceiverWalletID i.

Lemma insert_rows_opens inserts :
  opens (mforM (fun p => wrapM "error inserting payment"
           (db_stmt (insert_payment p DraftPaymentStatus None)) ;;! mret_ tt) inserts : M _)
    (fun _ x x' => exists rows, x' = x <| payments := payments x ++ rows |> /\ Forall2 row_of inserts rows).
Proof.
  induction inserts as [|i inserts IH]; cbn [mforM].
  { eapply opens_mono; [apply opens_ret|]. intros ? x x' [_ ->]. exists []. rewrite app_nil_r.
    split; [by destruct x|constructor]. }
  eapply opens_bind_with.
  { eapply opens_bind_with; [apply opens_wrap, opens_stmt|]. intros id.
    eapply opens_mono; [apply opens_ret|]. intros ? y x' [_ ->] x [ctx H].
    instantiate (1 := fun _ x x' => exists row, x' = x <| payments := payments x ++ [row] |> /\ row_of i row).
    cbn beta. unfold insert_payment in H. destruct (numeric_in (PI_Amount i)) as [amount|] eqn:Ea; [|done].
    apply check_payments_ok in H as (_ & -> & _). eexists. split; [reflexivity|]. by split_and!. }
  intros ?. eapply opens_mono; [apply IH|]. intros ? y x' (rows & -> & Hrows) x (row & -> & Hrow).
  exists (row :: rows). cbn. rewrite <- app_assoc. by split; [|constructor].
Qed.

Lemma create_payments_opens m ids ins d :
  opens (createPayments m ids ins d : M _) (fun _ x x' => exists rows,
    x' = x <| payments := payments x ++ rows |> /\
    Forall2 (fun di p => exists i, row_of i p /\ ValidateAmount (PI_Amount i) = Ok tt /\
      exists r, (exists id, m !! id = Some r) /\
        (exists contact, Contact di = Ok contact /\ (contact = PhoneNumber r \/ contact = Email r)) /\
        i = mkPaymentInsert (Rec_ID r) (Some (Dis_ID (dv_row d))) PaymentTypeDisbursement (DI_Amount di)
              (Asset_ID (dv_Asset d)) (default "" (ids !! Rec_ID r)) (null_if_empty (DI_ExternalPaymentID di)))
      ins rows).
Proof.
  unfold createPayments. eapply opens_bind_with.
  { apply (opens_map_read (fun di i _ => exists r, (exists id, m !! id = Some r) /\
      (exists contact, Contact di = Ok contact /\ (contact = PhoneNumber r \/ contact = Email r)) /\
      i = mkPaymentInsert (Rec_ID r) (Some (Dis_ID (dv_row d))) PaymentTypeDisbursement (DI_Amount di)
            (Asset_ID (dv_Asset d)) (default "" (ids !! Rec_ID r)) (null_if_empty (DI_ExternalPaymentID di)))).
    intros di. unfold payment_of_instruction. eapply opens_bind_with; [apply find_receiver_opens|].
    intros [r|]; [|apply opens_throw]. eapply opens_mono; [apply opens_ret|].
    intros i y x' [-> ->] x [-> Hr]. split; [done|]. destruct (Hr r eq_refl) as [? ?]. by exists r. }
  intros inserts. apply opens_wrap. unfold InsertAll. eapply opens_bind_with; [apply opens_lift|].
  intros ?. eapply opens_mono; [apply insert_rows_opens|].
  intros ? x2 x' (rows & -> & Hrows) x1 [Hv ->] x [-> Hins]. exists rows. split; [done|].
  apply res_forM_ok in Hv. clear -Hins Hrows Hv. revert rows Hrows Hv.
  induction Hins as [|di i ins inserts Hi _ IH]; intros rows Hrows Hv;
    inversion Hrows; subst; [constructor|]. apply Forall_cons in Hv as [Hv Hvs].
  constructor; [|by apply IH]. exists i. split; [done|]. split; [|done].
  apply wrap_ok in Hv. unfold PaymentInsert_Validate in Hv. destruct (_ =? ""); [done|].
  apply res_bind_ok in Hv as ([] & _ & Hv). repeat (destruct (_ && _); [done|]).
  by apply res_bind_ok in Hv as ([] & Ha%wrap_ok & _).
Qed.

(** Only the disbursement moves, to READY and with its file. *)
Definition made_ready (u : DisbursementUpdate) (d : string) (x x' : SdpDb) : Prop :=
  (exists ds, x' = x <| disbursements := ds |>) /\
  (forall id, id <> d -> lookup_disbursement id x' = lookup_disbursement id x) /\
  exists d0 d1, lookup_disbursement d x = Some d0 /\ lookup_disbursement d x' = Some d1 /\
    Dis_Status d0 ∈ DisbursementStatus_SourceStatuses ReadyDisbursementStatus /\
    Dis_Status d1 = ReadyDisbursementStatus /\
    Dis_FileName d1 = Some (DU_FileName u) /\ Dis_FileContent d1 = DU_FileContent u.

Lemma lookup_receiver_wallet_id id x rw : lookup_receiver_wallet id x = Some rw -> RW_ID rw = id.
Proof. intros H. apply first_such_some in H as [_ H]. by apply String.eqb_eq in H. Qed.
Lemma lookup_disbursement_id id x d : lookup_disbursement id x = Some d -> Dis_ID d = id.
Proof. intros H. apply first_such_some in H as [_ H]. by apply String.eqb_eq in H. Qed.

Lemma update_file_opens u :
  opens (Disbursement_Update u : M _) (fun _ x x' => (exists ds, x' = x <| disbursements := ds |>) /\
    (forall id, id <> DU_ID u -> lookup_disbursement id x' = lookup_disbursement id x) /\
    forall d1, lookup_disbursement (DU_ID u) x' = Some d1 -> exists d0,
      lookup_disbursement (DU_ID u) x = Some d0 /\ Dis_Status d1 = Dis_Status d0 /\
      Dis_FileName d1 = Some (DU_FileName u) /\ Dis_FileContent d1 = DU_FileContent u).
Proof.
  unfold Disbursement_Update. eapply opens_bind_with; [apply opens_wrap, opens_lift|]. intros ?.
  eapply opens_bind_with; [apply opens_wrap, opens_stmt|]. intros rows.
  eapply opens_mono; [apply opens_lift|]. intros ? y x' [_ ->] x1 [ctx H] x [_ ->].
  apply UpdateDisbursements_ok in H as (_ & Hx & _ & Hl); [|done]. split; [rewrite Hx; by eexists|].
  split.
  - intros id Hne. rewrite Hl. destruct (lookup_disbursement id x) as [e|] eqn:He; [|done].
    cbn [fmap option_fmap option_map].
    rewrite (lookup_disbursement_id _ _ _ He). by apply eqb_false in Hne as ->.
  - intros d1 H1. rewrite Hl in H1. destruct (lookup_disbursement _ x) as [e|] eqn:He; [|done].
    cbn in H1. rewrite (lookup_disbursement_id _ _ _ He), eqb_same in H1. injection H1 as <-. by exists e.
Qed.

Lemma update_status_opens userID d target :
  opens (Disbursement_UpdateStatus userID d target : M _) (fun _ x x' =>
    (exists ds, x' = x <| disbursements := ds |>) /\
    (forall id, id <> d -> lookup_disbursement id x' = lookup_disbursement id x) /\
    exists d0 d1, lookup_disbursement d x = Some d0 /\ lookup_disbursement d x' = Some d1 /\
      Dis_Status d0 ∈ DisbursementStatus_SourceStatuses target /\ Dis_Status d1 = target /\
      Dis_FileName d1 = Dis_FileName d0 /\ Dis_FileContent d1 = Dis_FileContent d0).
Proof.
  unfold Disbursement_UpdateStatus, updateStatus.
  eapply opens_bind_with; [apply opens_wrap, opens_stmt|].
  intros [|row [|? ?]]; [apply opens_throw| |apply opens_throw].
  eapply opens_mono; [apply opens_ret|]. intros ? y x' [_ ->] x [ctx H].
  apply UpdateDisbursements_ok in H as (Hrow & Hx & Hnd & Hl); [|done]. split; [rewrite Hx; by eexists|].
  split.
  - intros id Hne. rewrite Hl. destruct (lookup_disbursement id x) as [e|] eqn:He; [|done].
    cbn [fmap option_fmap option_map].
    rewrite (lookup_disbursement_id _ _ _ He). by apply eqb_false in Hne as ->.
  - assert (He : exists e, e ∈ disbursements x /\ Dis_ID e = d /\
      Dis_Status e ∈ DisbursementStatus_SourceStatuses target).
    { destruct (filter _ _) as [|e l] eqn:Ef; [done|].
      assert (Hin : e ∈ e :: l) by apply list_elem_of_here.
      rewrite <- Ef in Hin. apply list_elem_of_filter in Hin as [Hq Hin].
      apply andb_true_iff in Hq as [Hi Hs]. apply String.eqb_eq in Hi.
      apply slices_Contains_spec in Hs. by exists e. }
    destruct He as (e & Hin & Hi & Hs).
    assert (Hle : lookup_disbursement d x = Some e) by by apply (first_such_unique Dis_ID).
    exists e. eexists. split; [done|]. rewrite Hl, Hle. cbn [fmap option_fmap option_map].
    rewrite Hi, eqb_same, (proj2 (slices_Contains_spec _ _) Hs). by split_and!.
Qed.

Lemma make_ready_opens userID u d :
  DU_ID u = d ->
  opens (wrapM "persisting payment file" (Disbursement_Update u) ;;!
         wrapM "updating status" (Disbursement_UpdateStatus userID d ReadyDisbursementStatus) : M _)
    (fun _ x x' => made_ready u d x x').
Proof.
  intros <-. eapply opens_bind_with; [apply opens_wrap, update_file_opens|]. intros ?.
  eapply opens_mono; [apply opens_wrap, update_status_opens|].
  intros ? y x' ([ds2 Hx'] & Ho2 & d1 & d2 & H1 & H2 & Hs & Hr & Hf & Hc) x ([ds1 Hy] & Ho1 & Hfile).
  destruct (Hfile d1 H1) as (d0 & H0 & Hst & Hfn & Hfc).
  split; [exists ds2; by rewrite Hx', Hy|]. split; [intros id Hne; by rewrite Ho2, Ho1|].
  exists d0, d2. split_and!; congruence.
Qed.
End steps.

(** ** The upload *)

(** The tables meet their constraints. *)
Definition tables_ok (x : SdpDb) : Prop :=
  receiver_wallets_ok (receiver_wallets x) /\ verifications_ok (receiver_verifications x).

Section upload.
Context {D L Ev : Type} {E : Env D} {C : Conn D SdpDb} {CL : ConnLaws D SdpDb} {SDK : StellarSdk}
  {N : Numerics} {U : UuidGen} {B : Bcrypt} {BL : BcryptLaws} {R : MapRange}.
Context (opts : DisbursementInstructionsOpts).
Abbreviation M := (M D L Ev).

Let d := Dis_ID (dv_row (Opts_Disbursement opts)).
Let row := dv_row (Opts_Disbursement opts).
Let contactType := ReceiverContactType (Dis_RegistrationContactType row).
Let field := default "" (Dis_VerificationField row).

(** What the upload did to the tables. *)
Record uploaded (x x' : SdpDb) : Prop := {
  up_count : (Z.of_nat (length (Instructions opts)) <= MaxNumberOfInstructions opts)%Z;
  up_tables : exists rs rws vs ps ds, x' = x <| receivers := receivers x ++ rs |>
    <| receiver_wallets := rws |> <| receiver_verifications := vs |> <| payments := ps |>
    <| disbursements := ds |>;
  up_wallets : wallets_kept x (x <| receiver_wallets := receiver_wallets x' |>);
  up_confirmed : confirmed_kept x (x <| receiver_verifications := receiver_verifications x' |>);
  up_payments : exists rows,
    payments x' = filter (fun p => negb (of_disbursement d p && (Pay_Status p =? DraftPaymentStatus)) = true)
                    (payments x) ++ rows /\
    Forall2 (payment_for (Opts_Disbursement opts) x') (Instructions opts) rows /\
    (IncludesWalletAddress (Dis_RegistrationContactType row) = false -> field <> "" ->
     Forall (fun p => exists r, r ∈ receivers x' /\ Rec_ID r = Pay_ReceiverID p /\
               vouched (Instructions opts) contactType field x' r) rows);
  up_ready : made_ready (Opts_DisbursementUpdate opts) d x (x <| disbursements := disbursements x' |>) }.

(** The third step: addresses, or verifications, or neither. *)
Definition third_step (m : gmap string Receiver) (x x' : SdpDb) : Prop :=
  (exists rws vs, x' = x <| receiver_wallets := rws |> <| receiver_verifications := vs |>) /\
  wallets_kept x (x <| receiver_wallets := receiver_wallets x' |>) /\
  confirmed_kept x (x <| receiver_verifications := receiver_verifications x' |>) /\
  (IncludesWalletAddress (Dis_RegistrationContactType row) = false -> field <> "" ->
   forall id r, m !! id = Some r -> vouched (Instructions opts) contactType field x' r).

Lemma third_step_opens m ids :
  opens (if IncludesWalletAddress (Dis_RegistrationContactType row) then
       map_errM (fun e => if errors_Is_err e ErrDuplicateWalletAddress then e
                          else EWrap "registering supplied wallets" e)
         (registerSuppliedWallets (Instructions opts) m ids)
     else if field <>? "" then
       wrapM "processing receiver verifications"
         (processReceiverVerifications m (Instructions opts) (Opts_Disbursement opts) contactType)
     else mret_ tt : M _) (fun _ x x' =>
    tables_ok x -> is_Some (lookup_wallet (Wal_ID (dv_Wallet (Opts_Disbursement opts))) x) ->
    (forall rid rwid, ids !! rid = Some rwid ->
       has_wallet (Wal_ID (dv_Wallet (Opts_Disbursement opts))) x rid rwid) ->
    (forall id r, m !! id = Some r -> Rec_ID r = id) -> third_step m x x').
Proof.
  unfold third_step. destruct (IncludesWalletAddress _).
  - eapply opens_mono; [apply opens_map_err, register_wallets_opens|].
    intros ? x x' H [Hrw _] Hwal Hids _. destruct H as [[rws ->] Hk]; [apply Hrw| |].
    + intros rid rwid Hl. destruct (Hids rid rwid Hl) as (rw & Hrw' & _ & Hw). exists rw. by rewrite Hw.
    + split; [exists rws, (receiver_verifications x); by destruct x|]. split; [split; [by eexists|done]|].
      split; [|done]. cbn. split; [by eexists|done].
  - destruct (String.eqb_spec field "") as [Hf|Hf]; cbn [negb].
    + eapply opens_mono; [apply opens_ret|]. intros ? x x' [_ ->] _ _ _ _.
      split; [exists (receiver_wallets x), (receiver_verifications x); by destruct x|].
      split; [split; [by eexists|]; intros id rw Hl; by exists rw|]. split; [|done].
      split; [by eexists|done].
    + eapply opens_mono; [apply opens_wrap, process_verifications_opens|].
      intros ? x x' H [_ Hv] _ _ Hm. destruct (H Hv Hm) as [[[vs ->] Hk] Hall].
      split; [exists (receiver_wallets x), vs; by destruct x|].
      split; [split; [by eexists|]; intros id rw Hl; by exists rw|]. split; [|done].
      split; [by eexists|done].
Qed.

Lemma ProcessAll_opens :
  DU_ID (Opts_DisbursementUpdate opts) = d ->
  opens (ProcessAll opts : M _) (fun _ x x' => tables_ok x ->
    is_Some (lookup_wallet (Wal_ID (dv_Wallet (Opts_Disbursement opts))) x) -> uploaded x x').
Proof.
  intros Hfile. unfold ProcessAll. destruct (Z.ltb_spec (MaxNumberOfInstructions opts)
    (Z.of_nat (length (Instructions opts)))) as [|Hcount]; [apply opens_throw|].
  eapply opens_bind_with; [apply opens_wrap, reconcile_opens|]. intros m.
  eapply opens_bind_with; [apply opens_wrap, process_wallets_opens|]. intros ids.
  eapply opens_bind_with; [apply third_step_opens|]. intros ?.
  eapply opens_bind_with; [apply opens_wrap, opens_wrap, opens_stmt|]. intros ?.
  eapply opens_bind_with; [apply opens_wrap, create_payments_opens|]. intros ?.
  eapply opens_mono; [by apply make_ready_opens|].
  intros ? x5 x' Hready x4 (rows & -> & Hrows) x3 [ctx [= _ <-]] x2 H3 x1 H2 x [[news ->] Hm] Hok Hwal.
  destruct Hok as [Hrw Hv]. destruct H2 as ([[rws2 ->] Hk2] & Hok2 & Hids & Hall); [exact Hrw|].
  destruct H3 as ([rws3 [vs ->]] & Hk3 & Hc3 & Hvouch); [by split|exact Hwal|exact Hids| |].
  { intros id r Hl. by apply Hm in Hl as [_ ?]. }
  destruct Hready as ([ds ->] & Hready). constructor; cbn.
  - lia.
  - by eexists _, _, _, _, _.
  - split; [by eexists|]. intros id rw Hl. destruct (Hk2 id rw Hl) as (rw2 & Hl2 & Hk).
    destruct Hk3 as [_ Hk3]. destruct (Hk3 id rw2 Hl2) as (rw3 & Hl3 & Hk').
    exists rw3. split; [exact Hl3|]. by etransitivity.
  - split; [by eexists|]. apply Hc3.
  - clear Hready. exists rows. split; [done|]. split.
    + eapply Forall2_impl; [exact Hrows|]. cbn. intros di p (i & Hrow & Hamt & r & [id Hr] & Hcontact & ->).
      destruct Hrow as (R1 & R2 & R3 & R4 & R5 & R6 & R7 & R8). cbn in R2, R3, R4, R5, R6, R7, R8, Hamt.
      destruct (Hm id r Hr) as [Hin Hid]. destruct (Hall id) as [rwid Hrwid]; [by eexists|].
      pose proof (has_wallet_kept _ _ _ _ _ Hk3 (Hids _ _ Hrwid)) as Hw.
      rewrite <- Hid in Hrwid, Hw. rewrite Hrwid in R8. cbn in R8. rewrite <- R7, <- R8 in Hw.
      destruct Hcontact as (contact & ? & ?).
      unfold payment_for. split_and!; try done. by exists r, contact.
    + intros Hinc Hf. apply Forall_forall. intros p Hp.
      apply list_elem_of_lookup in Hp as [i Hp].
      destruct (Forall2_lookup_r _ _ _ _ _ Hrows Hp) as (di & _ & ins & Hrow & _ & r & [id Hr] & _ & ->).
      destruct (Hm id r Hr) as [Hin Hid]. exists r. split; [done|]. split; [by destruct Hrow as (_&_&_&_&_&_&->&_)|].
      exact (Hvouch Hinc Hf id r Hr).
  - split; [by eexists|]. exact Hready.
Qed.
End upload.

(** ** A small world

    Toy hashes and an order of maps, for the witnesses. *)

Module Upload.
Export Platform.

#[export] Instance bcrypt : Bcrypt :=
  {| bcrypt_GenerateFromPassword _ v := Ok ("#" +:+ v);
     bcrypt_CompareHashAndPassword h v :=
       if h =? "#" +:+ v then Ok tt else Err ErrMismatchedHashAndPassword |}.
#[export] Instance bcrypt_laws : BcryptLaws.
Proof. constructor. intros t v h [= <-]. unfold bcrypt_CompareHashAndPassword, bcrypt. by rewrite eqb_same. Qed.
#[export] Instance ranges : MapRange.
Proof. refine {| range_order _ _ l := l |}. done. Defined.

(** A draft with an old draft payment; one of two receivers is known, registered
    and verified. *)
Definition draft : Disbursement :=
  (disbursement "d1" DraftDisbursementStatus) <| Dis_VerificationField := Some "PIN" |>.
Definition known : Receiver := mkReceiver "r1" None (Some "+14155552671") (Some "x1") None None 0 0.
Definition verified : ReceiverVerification :=
  mkReceiverVerification "r1" "PIN" "#1234" 0 (Some "RECEIVER") (Some "r1") (Some 7%Z) None (Some "SMS") 0 0.
Definition instruction (phone id amount pin : string) : DisbursementInstruction :=
  mkInstruction phone "" id amount pin "" "" "" "" "".
Definition before : World Dbs unit unit :=
  world ((sdp_db false [draft] [pay "old" "d1" DraftPaymentStatus 10000000 registered])
         <| receivers := [known] |> <| receiver_verifications := [verified] |>) [].
End Upload.
