(* ===== verification/Validators.v ===== *)
(** The validation of what clients send: [internal/utils/validation.go] and, of
    [internal/serve/validators], the validator itself and those of registrations,
    of the instructions of a disbursement, of updates of receivers and of the memos
    of wallet addresses; with the CSV files of instructions
    ([httphandler/disbursement_handler.go]). *)

From S2P Require Import Prelude GoStrings Errors StateMachine Effects Schema TxStore Limiter Tables.
From S2P Require Import SdpDb PaymentStore ReceiverStore ReceiverWalletStore DisbursementStore Instructions.
From Stdlib Require Import Ascii String.

Local Open Scope string_scope.
Local Open Scope list_scope.

(** ** Text and dates *)

(** [utf8.RuneCountInString]: an invalid byte counts as a rune. *)
Definition between (a b : nat) (c : ascii) : bool := (a <=? code c)%nat && (code c <=? b)%nat.
Definition continuation : ascii -> bool := between 128 191.

(** The number of bytes of the first rune. *)
Definition rune_width (l : list ascii) : nat :=
  match l with
  | a :: b :: rest =>
    if between 194 223 a && continuation b then 2
    else match rest with
    | c :: rest' =>
      if continuation c
         && ((between 224 224 a && between 160 191 b) || (between 225 236 a && continuation b)
             || (between 237 237 a && between 128 159 b) || (between 238 239 a && continuation b)) then 3
      else match rest' with
      | d :: _ =>
        if continuation c && continuation d
           && ((between 240 240 a && between 144 191 b) || (between 241 243 a && continuation b)
               || (between 244 244 a && between 128 143 b)) then 4 else 1
      | [] => 1
      end
    | [] => 1
    end
  | _ => 1
  end.

(** The fuel is the number of bytes: every rune has one at least. *)
Fixpoint rune_count (fuel : nat) (l : list ascii) : nat :=
  match fuel, l with
  | S fuel', _ :: _ => S (rune_count fuel' (skipn (rune_width l) l))
  | _, _ => O
  end.

Definition RuneCountInString (s : string) : nat :=
  rune_count (String.length s) (list_ascii_of_string s).

(** A number of [n] digits at the front. *)
Fixpoint take_digits (n : nat) (acc : Z) (s : string) : option (Z * string) :=
  match n, s with
  | O, _ => Some (acc, s)
  | S n', String c s' =>
    if is_digit c then take_digits n' (acc * 10 + Z.of_nat (code c - 48)) s' else None
  | _, EmptyString => None
  end.

Definition is_leap (year : Z) : bool :=
  ((year mod 4 =? 0)%Z && negb (year mod 100 =? 0)%Z) || (year mod 400 =? 0)%Z.

Definition days_in (month year : Z) : Z :=
  if (month =? 2)%Z then (if is_leap year then 29 else 28)
  else if existsb (Z.eqb month) [4; 6; 9; 11]%Z then 30 else 31.

(** Days since 1970-01-01 of a day of the Gregorian calendar. *)
Definition days_from_civil (year month day : Z) : Z :=
  let y := (if month <=? 2 then year - 1 else year)%Z in
  let m := (if month <=? 2 then month + 9 else month - 3)%Z in
  (365 * y + y / 4 - y / 100 + y / 400 + (153 * m + 2) / 5 + day - 1 - 719468)%Z.

(** [time.Parse] of the layouts "2006-01" and "2006-01-02": midnight, in UTC. *)
Definition parse_year_month (s : string) : option (Z * Z * string) :=
  match take_digits 4 0 s with
  | Some (year, String "-" s1) =>
    match take_digits 2 0 s1 with
    | Some (month, s2) => if ((1 <=? month) && (month <=? 12))%Z then Some (year, month, s2) else None
    | None => None
    end
  | _ => None
  end.

Definition time_Parse_month (s : string) : option Z :=
  match parse_year_month s with
  | Some (year, month, EmptyString) => Some (days_from_civil year month 1 * Day)%Z
  | _ => None
  end.

Definition time_Parse_date (s : string) : option Z :=
  match parse_year_month s with
  | Some (year, month, String "-" s1) =>
    match take_digits 2 0 s1 with
    | Some (day, EmptyString) =>
      if ((1 <=? day) && (day <=? days_in month year))%Z
      then Some (days_from_civil year month day * Day)%Z else None
    | _ => None
    end
  | _ => None
  end.

Example epoch : time_Parse_date "1970-01-01" = Some 0%Z. Proof. reflexivity. Qed.
Example leap_day :
  time_Parse_date "2000-02-29" = Some (11016 * Day)%Z /\ time_Parse_date "1900-02-29" = None
  /\ time_Parse_date "2000-2-29" = None /\ time_Parse_month "1990-13" = None.
Proof. by vm_compute. Qed.
Example runes : RuneCountInString (String "195" (String "169" "a")) = 2 /\ RuneCountInString (String "195" "a") = 2.
Proof. done. Qed.

(** ** [internal/utils/validation.go] *)

Definition VerificationFieldPinMinLength : nat := 4.
Definition VerificationFieldPinMaxLength : nat := 8.
Definition VerificationFieldMaxIDLength : nat := 50.

Definition Extra_0 := "EXTRA_0".
Definition Extra_1 := "EXTRA_1".
Definition Extra_2 := "EXTRA_2".
Definition Extra_3 := "EXTRA_3".
Definition Extra_4 := "EXTRA_4".
Definition Extra_5 := "EXTRA_5".
Definition Extra_6 := "EXTRA_6".

(** [^\d{6}$]. *)
Definition rxOTP (s : string) : bool :=
  (String.length s =? 6)%nat && forallb is_digit (list_ascii_of_string s).

Definition ValidateOTP (otp : string) : res unit :=
  if otp =? "" then Err (ENew "otp cannot be empty")
  else guard_err (negb (rxOTP otp)) (ENew "the provided OTP is not a valid 6 digits value").

Definition ValidateStringLength (field fieldName : string) (maxLength : nat) : res unit :=
  if TrimSpace field =? "" then Err (ENew (fieldName +:+ " field is required"))
  else guard_err (maxLength <? RuneCountInString field)%nat
    (ENew (fieldName +:+ " cannot exceed " +:+ itoa (Z.of_nat maxLength) +:+ " characters")).

(** The pair of an error code and an error; the code is empty without one. *)
Definition ValidateDateOfBirthVerification (now : Z) (dob : string) : string * res unit :=
  if dob =? "" then (Extra_0, Err (ENew "date of birth cannot be empty"))
  else match time_Parse_date dob with
  | None => (Extra_2, Err (ENew "invalid date of birth format. Correct format: 1990-01-30"))
  | Some t =>
    if (now <? t)%Z then (Extra_4, Err (ENew "date of birth cannot be in the future")) else ("", Ok tt)
  end.

Definition ValidateYearMonthVerification (now : Z) (yearMonth : string) : string * res unit :=
  if yearMonth =? "" then (Extra_0, Err (ENew "year/month cannot be empty"))
  else match time_Parse_month yearMonth with
  | None => (Extra_3, Err (ENew "invalid year/month format. Correct format: 1990-12"))
  | Some t =>
    if (now <? t)%Z then (Extra_4, Err (ENew "year/month cannot be in the future")) else ("", Ok tt)
  end.

Definition ValidatePinVerification (pin : string) : string * res unit :=
  if (String.length pin <? VerificationFieldPinMinLength)%nat
     || (VerificationFieldPinMaxLength <? String.length pin)%nat
  then (Extra_5, Err (ENew "invalid pin length. Cannot have less than 4 or more than 8 characters in pin"))
  else ("", Ok tt).

Definition ValidateNationalIDVerification (nationalID : string) : string * res unit :=
  if nationalID =? "" then (Extra_0, Err (ENew "national id cannot be empty"))
  else if (VerificationFieldMaxIDLength <? String.length nationalID)%nat
  then (Extra_6, Err (ENew "invalid national id. Cannot have more than 50 characters in national id"))
  else ("", Ok tt).

(** ** [validator.go] *)

Record Validator := mkValidator {
  V_Errors : gmap string string;
  V_ErrorCodes : list string }.

Definition NewValidator : Validator := mkValidator ∅ [].
Definition HasErrors (v : Validator) : bool := negb (bool_decide (V_Errors v = ∅)).
Definition AddError (key message : string) (v : Validator) : Validator :=
  mkValidator (<[key := message]> (V_Errors v)) (V_ErrorCodes v).
Definition Check_ (ok : bool) (key message : string) (v : Validator) : Validator :=
  if ok then v else AddError key message v.
Definition CheckError (e : res unit) (key message : string) (v : Validator) : Validator :=
  match e with
  | Ok _ => v
  | Err e => Check_ false key (if message =? "" then Error e else message) v
  end.
Definition V_WithErrorCode (code : string) (v : Validator) : Validator :=
  mkValidator (V_Errors v) (V_ErrorCodes v ++ [code]).

(** [code, err := ...; rv.CheckError(err, key, "").WithErrorCode(code)]. *)
Definition CheckCoded (r : string * res unit) (key : string) (v : Validator) : Validator :=
  V_WithErrorCode (fst r) (CheckError (snd r) key "" v).

(** ** [receiver_registration_validator.go] *)

Record ReceiverRegistrationRequest := mkRegistrationRequest {
  RR_Email : string;
  RR_PhoneNumber : string;
  RR_OTP : string;
  RR_VerificationValue : string;
  RR_VerificationField : string }.

Section contacts.
Context {PN : PhoneNumbers}.

(** Exactly one of the two, and valid: the switch of the validator of registrations
    and of [validateContactInfo] of the OTP requests. *)
Definition check_contact (phone email : string) (v : Validator) : Validator :=
  if (phone =? "") && (email =? "") then
    Check_ false "email" "phone_number or email is required"
      (Check_ false "phone_number" "phone_number or email is required" v)
  else if (phone <>? "") && (email <>? "") then
    Check_ false "email" "phone_number and email cannot be both provided"
      (Check_ false "phone_number" "phone_number and email cannot be both provided" v)
  else if phone <>? "" then CheckError (ValidatePhoneNumber phone) "phone_number" "" v
  else CheckError (ValidateEmail email) "email" "" v.

Definition validateAndGetVerificationType (verificationType : string) (v : Validator) : string * Validator :=
  let vt := ToUpper verificationType in
  if slices_Contains GetAllVerificationTypes vt then (vt, v)
  else ("", Check_ false "verification_field"
              ("invalid parameter. valid values are: [" +:+ Join " " GetAllVerificationTypes +:+ "]") v).

(** The request it leaves is the trimmed one. *)
Definition ValidateReceiver (now : Z) (info : ReceiverRegistrationRequest) (rv : Validator) :
    ReceiverRegistrationRequest * Validator :=
  let phone := TrimAndLower (RR_PhoneNumber info) in
  let email := TrimAndLower (RR_Email info) in
  let otp := TrimSpace (RR_OTP info) in
  let verification := TrimSpace (RR_VerificationValue info) in
  let verificationField := TrimSpace (RR_VerificationField info) in
  let rv := check_contact phone email rv in
  let rv := V_WithErrorCode Extra_1
    (CheckError (ValidateOTP otp) "otp" "invalid otp format. Needs to be a 6 digit value" rv) in
  let rv := Check_ (verificationField <>? "") "verification_field" "verification type cannot be empty" rv in
  let '(vf, rv) := validateAndGetVerificationType verificationField rv in
  let rv :=
    if vf =? VerificationTypeDateOfBirth
    then CheckCoded (ValidateDateOfBirthVerification now verification) "verification" rv
    else if vf =? VerificationTypeYearMonth
    then CheckCoded (ValidateYearMonthVerification now verification) "verification" rv
    else if vf =? VerificationTypePin then CheckCoded (ValidatePinVerification verification) "verification" rv
    else if vf =? VerificationTypeNationalID
    then CheckCoded (ValidateNationalIDVerification verification) "verification" rv
    else rv in
  (mkRegistrationRequest email phone otp verification vf, rv).

(** ** [receiver_update_validator.go] *)

Record UpdateReceiverRequest := mkUpdateReceiverRequest {
  UR_DateOfBirth : string;
  UR_YearMonth : string;
  UR_Pin : string;
  UR_NationalID : string;
  UR_Email : string;
  UR_PhoneNumber : string;
  UR_ExternalID : string }.

#[local] Instance UpdateReceiverRequest_eq : EqDecision UpdateReceiverRequest.
Proof. solve_decision. Defined.

Definition when_given (given : string) (check : Validator -> Validator) (v : Validator) : Validator :=
  if given <>? "" then check v else v.

Definition UpdateReceiver_Validate (now : Z) (req : UpdateReceiverRequest) (ur : Validator) :
    UpdateReceiverRequest * Validator :=
  let ur := Check_ (negb (bool_decide (req = mkUpdateReceiverRequest "" "" "" "" "" "" "")))
              "body" "request body is empty" ur in
  if HasErrors ur then (req, ur)
  else
    let dateOfBirth := TrimSpace (UR_DateOfBirth req) in
    let yearMonth := TrimSpace (UR_YearMonth req) in
    let pin := TrimSpace (UR_Pin req) in
    let nationalID := TrimSpace (UR_NationalID req) in
    let email := TrimSpace (UR_Email req) in
    let externalID := TrimSpace (UR_ExternalID req) in
    let ur := when_given dateOfBirth
      (CheckError (snd (ValidateDateOfBirthVerification now dateOfBirth)) "date_of_birth" "") ur in
    let ur := when_given yearMonth
      (CheckError (snd (ValidateYearMonthVerification now yearMonth)) "year_month" "") ur in
    let ur := when_given (UR_Pin req) (CheckError (snd (ValidatePinVerification pin)) "pin" "") ur in
    let ur := when_given (UR_NationalID req)
      (CheckError (snd (ValidateNationalIDVerification nationalID)) "national_id" "") ur in
    let ur := when_given (UR_Email req) (Check_ (is_ok (ValidateEmail email)) "email" "invalid email format") ur in
    let ur := when_given (UR_PhoneNumber req)
      (Check_ (is_ok (ValidatePhoneNumber (UR_PhoneNumber req))) "phone_number" "invalid phone number format") ur in
    let ur := when_given (UR_ExternalID req)
      (Check_ (externalID <>? "") "external_id" "external_id cannot be set to empty") ur in
    (mkUpdateReceiverRequest dateOfBirth yearMonth pin nationalID email (UR_PhoneNumber req) externalID, ur).

(** ** [ValidateWalletAddressMemo] of [wallet_validator.go] *)

Section instructions.
Context {SDK : StellarSdk} {N : Numerics}.

Definition ErrMemoNotSupportedForContract : err :=
  ESentinel "wallet address memo is not supported for contract addresses".

Definition ValidateWalletAddressMemo (walletAddress memo : string) : res string :=
  if memo =? "" then Ok ""
  else if IsValidContractAddress walletAddress then Err ErrMemoNotSupportedForContract
  else if IsValidEd25519PublicKey walletAddress then
    let? parsed := wrap ("parsing memo " +:+ memo) (ParseMemo memo) in Ok (snd parsed)
  else Ok "".

(** ** [disbursement_instructions_validator.go] *)

Definition maxReceiverExternalIDLength : nat := 64.
Definition maxExternalPaymentIDLength : nat := 64.

Definition line (lineNumber : Z) (what : string) : string :=
  "line " +:+ itoa lineNumber +:+ " - " +:+ what.

(** 1. Required fields. *)
Definition validate_required (instruction : DisbursementInstruction) (lineNumber : Z) (iv : Validator) :
    Validator :=
  let id := DI_ID instruction in
  let iv := Check_ (id <>? "") (line lineNumber "id") "id cannot be empty" iv in
  let iv := when_given id (CheckError (ValidateStringLength id "id" maxReceiverExternalIDLength)
              (line lineNumber "id") "") iv in
  let iv := CheckError (ValidateAmount (DI_Amount instruction)) (line lineNumber "amount")
              "invalid amount. Amount must be a positive number" iv in
  when_given (DI_ExternalPaymentID instruction)
    (CheckError (ValidateStringLength (DI_ExternalPaymentID instruction) "paymentID" maxExternalPaymentIDLength)
       (line lineNumber "paymentID") "") iv.

(** 2. The contact. *)
Definition validate_contact (contactType : string) (instruction : DisbursementInstruction) (lineNumber : Z)
    (iv : Validator) : Validator :=
  if contactType =? ReceiverContactTypeEmail then
    when_given (DI_Email instruction)
      (CheckError (ValidateEmail (DI_Email instruction)) (line lineNumber "email") "invalid email format")
      (Check_ (DI_Email instruction <>? "") (line lineNumber "email") "email cannot be empty" iv)
  else if contactType =? ReceiverContactTypeSMS then
    when_given (DI_Phone instruction)
      (CheckError (ValidatePhoneNumber (DI_Phone instruction)) (line lineNumber "phone")
         "invalid phone format. Correct format: +380445555555")
      (Check_ (DI_Phone instruction <>? "") (line lineNumber "phone") "phone cannot be empty" iv)
  else iv.

(** 3. The wallet address and its memo. *)
Definition validate_memo (address memo : string) (lineNumber : Z) (iv : Validator) : Validator :=
  match ValidateWalletAddressMemo address memo with
  | Ok _ => iv
  | Err e =>
    if errors_Is_err e ErrMemoNotSupportedForContract
    then AddError (line lineNumber "wallet address memo") (Error e) iv
    else CheckError (Err e) (line lineNumber "wallet address memo")
      "invalid wallet address memo. For more information, visit https://docs.stellar.org/learn/encyclopedia/transactions-specialized/memos" iv
  end.

Definition validate_address (instruction : DisbursementInstruction) (lineNumber : Z) (iv : Validator) :
    Validator :=
  let address := DI_WalletAddress instruction in
  let iv := Check_ (address <>? "") (line lineNumber "wallet address") "wallet address cannot be empty" iv in
  let iv := when_given address
    (Check_ (IsValidEd25519PublicKey address || IsValidContractAddress address)
       (line lineNumber "wallet address")
       "invalid wallet address. Must be a valid Stellar public key or contract address") iv in
  when_given (DI_WalletAddressMemo instruction)
    (validate_memo address (DI_WalletAddressMemo instruction) lineNumber) iv.

(** 4. The value of the verification field. *)
Definition validate_verification (now : Z) (verificationField verification : string) (lineNumber : Z)
    (iv : Validator) : Validator :=
  if verificationField =? VerificationTypeDateOfBirth
  then CheckError (snd (ValidateDateOfBirthVerification now verification)) (line lineNumber "date of birth") "" iv
  else if verificationField =? VerificationTypeYearMonth
  then CheckError (snd (ValidateYearMonthVerification now verification)) (line lineNumber "year/month") "" iv
  else if verificationField =? VerificationTypePin
  then CheckError (snd (ValidatePinVerification verification)) (line lineNumber "pin") "" iv
  else if verificationField =? VerificationTypeNationalID
  then CheckError (snd (ValidateNationalIDVerification verification)) (line lineNumber "national id") "" iv
  else iv.

Definition ValidateInstruction (now : Z) (contactType : RegistrationContactType)
    (verificationField : string) (instruction : DisbursementInstruction) (lineNumber : Z)
    (iv : Validator) : Validator :=
  let iv := validate_required instruction lineNumber iv in
  let iv := validate_contact (ReceiverContactType contactType) instruction lineNumber iv in
  if IncludesWalletAddress contactType then validate_address instruction lineNumber iv
  else validate_verification now verificationField (DI_VerificationValue instruction) lineNumber iv.

(** A new instruction: what it does not set is empty. *)
Definition SanitizeInstruction (instruction : DisbursementInstruction) : DisbursementInstruction :=
  mkInstruction
    (ToLower (TrimSpace (DI_Phone instruction)))
    (ToLower (TrimSpace (DI_Email instruction)))
    (TrimSpace (DI_ID instruction))
    (TrimSpace (DI_Amount instruction))
    (TrimSpace (DI_VerificationValue instruction))
    (TrimSpace (DI_ExternalPaymentID instruction))
    (ToUpper (TrimSpace (DI_WalletAddress instruction)))
    (TrimSpace (DI_WalletAddressMemo instruction))
    "" "".

Definition check_duplicate (state : gmap string Z * Validator) (entry : nat * DisbursementInstruction) :
    gmap string Z * Validator :=
  let '(seenContacts, iv) := state in
  let '(i, instruction) := entry in
  let lineNumber := (Z.of_nat i + 2)%Z in
  match Contact instruction with
  | Err _ => (seenContacts, AddError (line lineNumber "contact info") "invalid contact information" iv)
  | Ok contact =>
    match seenContacts !! contact with
    | Some firstLine => (seenContacts, AddError (line lineNumber "contact info")
        ("duplicate contact information. Also found on line " +:+ itoa firstLine) iv)
    | None => (<[contact := lineNumber]> seenContacts, iv)
    end
  end.

Definition CheckForDuplicateContacts (instructions : list DisbursementInstruction) (iv : Validator) :
    Validator :=
  snd (foldl check_duplicate (∅, iv) (imap pair instructions)).

(** ** The CSV file *)

(** [gocsv.Unmarshal] of a file, and the first record [csv.Reader] reads. *)
Context (gocsv_Unmarshal : string -> option (list DisbursementInstruction)).
Context (csv_headers : string -> res (list string)).

Definition parseInstructionsFromCSV (now : Z) (reader : string) (contactType : RegistrationContactType)
    (verificationField : string) : result Validator (list DisbursementInstruction) :=
  match gocsv_Unmarshal reader with
  | None => Err (AddError "file" "could not parse file" NewValidator)
  | Some instructions =>
    let sanitizedInstructions := map SanitizeInstruction instructions in
    let validator := foldl (fun v '(i, instruction) =>
      ValidateInstruction now contactType verificationField instruction (Z.of_nat i + 2) v)
      NewValidator (imap pair sanitizedInstructions) in
    let validator := Check_ (0 <? List.length sanitizedInstructions)%nat "instructions"
                       "no valid instructions found" validator in
    let validator := CheckForDuplicateContacts instructions validator in
    if HasErrors validator then Err validator else Ok sanitizedInstructions
  end.

Definition phoneHeader := "phone".
Definition emailHeader := "email".
Definition walletAddressHeader := "walletAddress".
Definition walletAddressMemoHeader := "walletAddressMemo".
Definition verificationHeader := "verification".

(** Required and disallowed headers. *)
Definition header_rules (rct : RegistrationContactType) : list string * list string :=
  if bool_decide (rct = RegistrationContactTypePhone) then
    ([phoneHeader; verificationHeader], [emailHeader; walletAddressHeader; walletAddressMemoHeader])
  else if bool_decide (rct = RegistrationContactTypeEmail) then
    ([emailHeader; verificationHeader], [phoneHeader; walletAddressHeader; walletAddressMemoHeader])
  else if bool_decide (rct = RegistrationContactTypeEmailAndWalletAddress) then
    ([emailHeader; walletAddressHeader], [phoneHeader; verificationHeader])
  else if bool_decide (rct = RegistrationContactTypePhoneAndWalletAddress) then
    ([phoneHeader; walletAddressHeader], [emailHeader; verificationHeader])
  else ([], []).

Definition validateCSVHeaders (file : string) (registrationContactType : RegistrationContactType)
    (skipVerification : bool) : res unit :=
  let? headers := wrap "reading csv headers" (csv_headers file) in
  let '(required, disallowed) := header_rules registrationContactType in
  let '(required, disallowed) :=
    if skipVerification
    then (filter (fun h => h <>? verificationHeader = true) required, disallowed ++ [verificationHeader])
    else (required, disallowed) in
  let? _ := res_forM (fun h => guard_err (negb (slices_Contains headers h))
              (ENew (h +:+ " column is required"))) required in
  res_forM (fun h => guard_err (slices_Contains headers h)
    (ENew (h +:+ " column is not allowed for this registration contact type"))) disallowed.
End instructions.
End contacts.

(** ** What passes *)

Definition clean (v : Validator) : Prop := V_Errors v = ∅.

Lemma HasErrors_clean v : HasErrors v = false <-> clean v.
Proof. unfold HasErrors, clean. rewrite negb_false_iff, bool_decide_eq_true. done. Qed.

Lemma clean_check ok key message v : clean (Check_ ok key message v) <-> ok = true /\ clean v.
Proof.
  destruct ok; cbn; [naive_solver|]. unfold clean. cbn. split; [|naive_solver].
  intros H. by apply insert_non_empty in H.
Qed.

Lemma clean_error e key message v : clean (CheckError e key message v) <-> e = Ok tt /\ clean v.
Proof.
  destruct e as [[]|e]; cbn; [naive_solver|].
  change (AddError key ?m v) with (Check_ false key m v). rewrite clean_check. naive_solver.
Qed.

Lemma clean_add key message v : clean (AddError key message v) <-> False.
Proof. change (AddError key message v) with (Check_ false key message v). rewrite clean_check. naive_solver. Qed.

Lemma clean_when s f v (P : Prop) :
  (clean (f v) <-> P /\ clean v) -> clean (when_given s f v) <-> (s <> "" -> P) /\ clean v.
Proof. unfold when_given. destruct (String.eqb_spec s ""); cbn; naive_solver. Qed.

Lemma clean_code code v : clean (V_WithErrorCode code v) <-> clean v.
Proof. done. Qed.

Lemma clean_fold {A} (f : Validator -> A -> Validator) (P : A -> Prop) l v :
  (forall v x, clean (f v x) <-> P x /\ clean v) ->
  clean (foldl f v l) <-> Forall P l /\ clean v.
Proof.
  intros Hf. revert v. induction l as [|x l IH]; intros v; cbn; [rewrite Forall_nil; naive_solver|].
  rewrite IH, Hf, Forall_cons. naive_solver.
Qed.

Section passes.
Context {PN : PhoneNumbers} {SDK : StellarSdk} {N : Numerics}.

(** An instruction a validator has no complaint about. *)
Definition valid_required (di : DisbursementInstruction) : Prop :=
  DI_ID di <> "" /\ ValidateStringLength (DI_ID di) "id" maxReceiverExternalIDLength = Ok tt /\
  ValidateAmount (DI_Amount di) = Ok tt /\
  (DI_ExternalPaymentID di <> "" ->
   ValidateStringLength (DI_ExternalPaymentID di) "paymentID" maxExternalPaymentIDLength = Ok tt).

Definition valid_contact (contactType : string) (di : DisbursementInstruction) : Prop :=
  (contactType = ReceiverContactTypeEmail -> ValidateEmail (DI_Email di) = Ok tt) /\
  (contactType = ReceiverContactTypeSMS -> ValidatePhoneNumber (DI_Phone di) = Ok tt).

Definition valid_address (di : DisbursementInstruction) : Prop :=
  (IsValidEd25519PublicKey (DI_WalletAddress di) || IsValidContractAddress (DI_WalletAddress di)) = true /\
  (DI_WalletAddressMemo di <> "" ->
   is_ok (ValidateWalletAddressMemo (DI_WalletAddress di) (DI_WalletAddressMemo di)) = true).

Definition valid_verification (now : Z) (field value : string) : Prop :=
  (field = VerificationTypeDateOfBirth -> snd (ValidateDateOfBirthVerification now value) = Ok tt) /\
  (field = VerificationTypeYearMonth -> snd (ValidateYearMonthVerification now value) = Ok tt) /\
  (field = VerificationTypePin -> snd (ValidatePinVerification value) = Ok tt) /\
  (field = VerificationTypeNationalID -> snd (ValidateNationalIDVerification value) = Ok tt).

Definition valid_instruction (now : Z) (ct : RegistrationContactType) (field : string)
    (di : DisbursementInstruction) : Prop :=
  valid_required di /\ valid_contact (ReceiverContactType ct) di /\
  if IncludesWalletAddress ct then valid_address di
  else valid_verification now field (DI_VerificationValue di).

(** A value that is checked not to be empty, and validated when it is not. *)
Lemma clean_given s k1 m1 v f (P : Prop) :
  (forall v, clean (f v) <-> P /\ clean v) ->
  clean (when_given s f (Check_ (s <>? "") k1 m1 v)) <-> (s <> "" /\ P) /\ clean v.
Proof.
  intros Hf. rewrite (clean_when _ _ _ P) by apply Hf.
  rewrite clean_check, negb_true_iff, eqb_false. naive_solver.
Qed.

Lemma validate_required_clean di n v :
  clean (validate_required di n v) <-> valid_required di /\ clean v.
Proof.
  unfold validate_required, valid_required. rewrite clean_when by apply clean_error.
  rewrite clean_error, clean_given by (intros; apply clean_error). tauto.
Qed.

Lemma ValidateEmail_nonempty s : ValidateEmail s = Ok tt -> s <> "".
Proof. by intros H ->. Qed.

Lemma ValidatePhoneNumber_nonempty s : ValidatePhoneNumber s = Ok tt -> s <> "".
Proof. by intros H ->. Qed.

Lemma validate_contact_clean ct di n v :
  clean (validate_contact ct di n v) <-> valid_contact ct di /\ clean v.
Proof.
  unfold validate_contact, valid_contact. destruct (String.eqb_spec ct ReceiverContactTypeEmail) as [->|He].
  - rewrite clean_given by (intros; apply clean_error). split.
    + intros [[_ H] Hv]. by split; [split|].
    + intros [[H _] Hv]. split; [|done]. split; [by apply ValidateEmail_nonempty, H|by apply H].
  - destruct (String.eqb_spec ct ReceiverContactTypeSMS) as [->|Hs].
    + rewrite clean_given by (intros; apply clean_error). split.
      * intros [[_ H] Hv]. by split; [split|].
      * intros [[_ H] Hv]. split; [|done]. split; [by apply ValidatePhoneNumber_nonempty, H|by apply H].
    + naive_solver.
Qed.

Lemma validate_memo_clean address memo n v :
  clean (validate_memo address memo n v) <-> is_ok (ValidateWalletAddressMemo address memo) = true /\ clean v.
Proof.
  unfold validate_memo. destruct (ValidateWalletAddressMemo _ _) as [t|e]; cbn [is_ok]; [naive_solver|].
  destruct (errors_Is_err _ _); [rewrite clean_add; naive_solver|rewrite clean_error; naive_solver].
Qed.

Lemma validate_address_clean di n v :
  clean (validate_address di n v) -> valid_address di /\ clean v.
Proof.
  unfold validate_address, valid_address. rewrite clean_when by apply validate_memo_clean.
  rewrite clean_given by (intros; apply clean_check). tauto.
Qed.

Lemma validate_verification_clean now field value n v :
  clean (validate_verification now field value n v) -> valid_verification now field value /\ clean v.
Proof.
  unfold validate_verification, valid_verification.
  repeat match goal with |- context [?a =? ?b] => destruct (String.eqb_spec a b) as [->|] end;
    rewrite ?clean_error; intros H; (split; [|by try apply H]); split_and!; try done; by intros _; apply H.
Qed.

Lemma ValidateInstruction_clean now ct field di n v :
  clean (ValidateInstruction now ct field di n v) -> valid_instruction now ct field di /\ clean v.
Proof.
  unfold ValidateInstruction, valid_instruction. destruct (IncludesWalletAddress ct).
  - intros [Ha H]%validate_address_clean. apply validate_contact_clean in H as [Hc H].
    apply validate_required_clean in H as [Hr H]. tauto.
  - intros [Ha H]%validate_verification_clean. apply validate_contact_clean in H as [Hc H].
    apply validate_required_clean in H as [Hr H]. tauto.
Qed.

(** The check of duplicates: every contact is seen once. *)
Lemma check_duplicates_clean l seen v :
  clean (snd (foldl check_duplicate (seen, v) l)) ->
  clean v /\ exists contacts, mapM (fun e : nat * DisbursementInstruction =>
      match Contact (snd e) with Ok c => Some c | Err _ => None end) l = Some contacts /\
    NoDup contacts /\ forall c, c ∈ contacts -> seen !! c = None.
Proof.
  revert seen v. induction l as [|[i di] l IH]; intros seen v; cbn.
  { intros H. split; [done|]. exists []. split; [done|]. split; [constructor|]. by intros c ?%elem_of_nil. }
  destruct (Contact di) as [c|e] eqn:Ec.
  - destruct (seen !! c) as [n|] eqn:Es.
    + intros H. apply IH in H as [H _]. by apply clean_add in H.
    + intros H. apply IH in H as (Hv & cs & Hcs & Hnd & Hseen). split; [done|].
      exists (c :: cs). rewrite Hcs. cbn. split; [done|]. split.
      * constructor; [|done]. intros Hin. apply Hseen in Hin. by rewrite lookup_insert_eq in Hin.
      * intros c' Hc'. apply elem_of_cons in Hc' as [->|Hin]; [done|]. apply Hseen in Hin.
        by apply lookup_insert_None in Hin as [? _].
  - intros H. apply IH in H as [H _]. by apply clean_add in H.
Qed.

Context (gocsv_Unmarshal : string -> option (list DisbursementInstruction)).

(** The instructions an upload passes on: none but what the file holds, trimmed,
    every one valid for the contact type and the verification field of the
    disbursement; the contacts the file gives are all different. *)
Definition accepted_file (now : Z) (reader : string) (ct : RegistrationContactType) (field : string)
    (l : list DisbursementInstruction) : Prop :=
  exists raw contacts, gocsv_Unmarshal reader = Some raw /\ l = map SanitizeInstruction raw /\ l <> [] /\
    Forall (valid_instruction now ct field) l /\
    Forall2 (fun di c => Contact di = Ok c) raw contacts /\ NoDup contacts.

Lemma parseInstructionsFromCSV_ok now reader ct field l :
  parseInstructionsFromCSV gocsv_Unmarshal now reader ct field = Ok l ->
  accepted_file now reader ct field l.
Proof.
  unfold accepted_file, parseInstructionsFromCSV. destruct (gocsv_Unmarshal reader) as [raw|]; [|done].
  set (l' := map SanitizeInstruction raw). cbn zeta.
  destruct (HasErrors _) eqn:He; [done|]. intros [= <-]. apply HasErrors_clean in He.
  unfold CheckForDuplicateContacts in He.
  apply check_duplicates_clean in He as (Hv & contacts & Hcs & Hnd & _).
  apply clean_check in Hv as [Hlen Hv]. exists raw, contacts. split; [done|]. split; [done|].
  split; [intros Hl; by rewrite Hl in Hlen|]. split; [|split; [|done]].
  - assert (Hall : forall k v, clean (foldl (fun v '(i, instruction) =>
      ValidateInstruction now ct field instruction (Z.of_nat i + 2) v) v (imap (fun i => pair (k + i)%nat) l')) ->
      Forall (valid_instruction now ct field) l' /\ clean v).
    { clear. induction l' as [|di l IH]; intros k v; [by split|]. cbn. intros H.
      rewrite (imap_ext _ (fun i => pair (S k + i)%nat)) in H by (intros; cbn; f_equal; lia).
      apply IH in H as [Hl H]. apply ValidateInstruction_clean in H as [Hd Hv]. by split; [constructor|]. }
    by apply (Hall 0%nat) in Hv as [? _].
  - clear -Hcs. assert (Hall : forall k contacts, mapM (fun e : nat * DisbursementInstruction =>
      match Contact (snd e) with Ok c => Some c | Err _ => None end) (imap (fun i => pair (k + i)%nat) raw)
      = Some contacts -> Forall2 (fun di c => Contact di = Ok c) raw contacts).
    { clear. induction raw as [|di raw IH]; intros k cs; cbn; [intros [= <-]; constructor|].
      destruct (Contact di) as [c|] eqn:Ec; cbn; [|done].
      rewrite (imap_ext _ (fun i => pair (S k + i)%nat)) by (intros; cbn; f_equal; lia).
      destruct (mapM _ _) as [cs'|] eqn:Em; cbn; [|done]. intros [= <-].
      constructor; [done|]. by eapply IH. }
    by apply (Hall 0%nat).
Qed.
End passes.
