(* ===== verification/Registration.v ===== *)
(** The registration of a receiver's wallet: the one-time passwords of
    [httphandler/receiver_send_otp_handler.go] and the verification of
    [verify_receiver_registration_handler.go], with the claims of the SEP-24 token
    ([internal/sepauth/sep24_jwt_claims.go]), [IsCAPTCHADisabled] of
    [httphandler/auth_utils.go] and [RandomString] of [internal/utils/string.go]. *)

From S2P Require Import Prelude GoStrings Errors StateMachine Effects Schema TxStore Limiter Tables.
From S2P Require Import SdpDb PaymentStore ReceiverStore Messages ReceiverWalletStore DisbursementStore.
From S2P Require Import Validators.
From Stdlib Require Import Ascii String.

Local Open Scope string_scope.
Local Open Scope list_scope.

(** ** Claims *)

(** Of [jwt.RegisteredClaims], the fields the code reads. *)
Record SEP24JWTClaims := mkSEP24Claims {
  ClientDomain : string;
  HomeDomain : string;
  TransactionID : string;
  Subject : string;
  ExpiresAt : option Z }.

(** [strings.Cut(s, ":")]. *)
Fixpoint cut_colon (s : string) : option (string * string) :=
  match s with
  | EmptyString => None
  | String c s' =>
    if Ascii.eqb c ":"%char then Some ("", s')
    else (fun '(before, after) => (String c before, after)) <$> cut_colon s'
  end.

Definition ParseAccountAndMemo (subject : string) : string * string :=
  match cut_colon subject with
  | Some (before, after) => if before <>? "" then (before, after) else (subject, "")
  | None => (subject, "")
  end.

Definition FormatSubject (stellarAccount stellarMemo : string) : string :=
  if stellarMemo <>? "" then stellarAccount +:+ ":" +:+ stellarMemo else stellarAccount.

Definition Account (c : SEP24JWTClaims) : string := fst (ParseAccountAndMemo (Subject c)).
Definition Memo_ (c : SEP24JWTClaims) : string := snd (ParseAccountAndMemo (Subject c)).

(** The package of the tokens, and [govalidator.IsDNSName]. *)
Class ClaimsLibrary := {
  RegisteredClaims_Valid : nat -> SEP24JWTClaims -> res unit;
  IsDNSName : string -> bool }.

Definition ValidateDNS {CLib : ClaimsLibrary} (domain : string) : res unit :=
  guard_err (negb (IsDNSName domain)) (ENew (quote domain +:+ " is not a valid DNS name")).

Definition Claims_Valid {CLib : ClaimsLibrary} {SDK : StellarSdk} (t : nat) (c : SEP24JWTClaims) : res unit :=
  match ExpiresAt c with
  | None => Err (ENew "expires_at is required")
  | Some _ =>
    let? _ := wrap "validating registered claims" (RegisteredClaims_Valid t c) in
    if TransactionID c =? "" then Err (ENew "transaction_id is required")
    else if negb (IsValidEd25519PublicKey (Account c)) && negb (IsValidContractAddress (Account c))
    then Err (ENew "stellar account is invalid")
    else if ClientDomain c <>? "" then wrap "client_domain is invalid" (ValidateDNS (ClientDomain c))
    else Ok tt
  end.

(** ** Random strings *)

(** [rand.Int] of [crypto/rand]: the answer, below the bound, depends on the call. *)
Class CryptoRand := { rand_Int : nat -> Z -> res Z }.
Class CryptoRandLaws {CR : CryptoRand} := {
  rand_Int_bounds : forall t max n, (0 < max)%Z -> rand_Int t max = Ok n -> (0 <= n < max)%Z }.

Definition NumberBytes := "0123456789".

Section random.
Context {CR : CryptoRand} {D L Ev : Type} {E : Env D}.

Fixpoint RandomString (size : nat) (charSet : string) : M D L Ev string :=
  match size with
  | O => mret_ ""
  | S size' =>
    let! randInt := wrapM "error generating random number in RandomString"
      (ask_res (fun t => rand_Int t (Z.of_nat (String.length charSet)))) in
    match String.get (Z.to_nat randInt) charSet with
    | None => throw (EExternal "runtime error: index out of range")
    | Some c => let! rest := RandomString size' charSet in mret_ (String c rest)
    end
  end.
End random.

(** ** Third parties *)

(** The service that checks the token of a CAPTCHA. *)
Class ReCAPTCHA := { IsTokenValid : nat -> string -> res bool }.

(** [html/template]: a text that parses, and its execution on named values. *)
Class Templates := {
  Template : Type;
  template_Parse : string -> res Template;
  template_Execute : Template -> list (string * string) -> res string }.

Definition TestNetworkPassphrase := "Test SDF Network ; September 2015".
Definition FutureNetworkPassphrase := "Test SDF Future Network ; October 2022".
Definition IsTestNetwork (networkPassphrase : string) : bool :=
  slices_Contains [TestNetworkPassphrase; FutureNetworkPassphrase] networkPassphrase.

(** ** Sentinels *)

Definition OTPExpirationTimeMinutes : Z := 5.
Definition OTPMaxAttempts : Z := 5.
Definition InformationNotFoundOnServer := "The information you provided could not be found".
Definition TestnetAlwaysValidOTP := "000000".
Definition TestnetAlwaysInvalidOTP := "999999".

Definition ErrOTPMaxAttemptsExceeded : err :=
  ESentinel "the number of attempts to confirm the OTP exceeded the max attempts".
Definition ErrOTPExpired : err := ESentinel "the OTP is expired, please request a new one".
Definition ErrOTPDoesNotMatch : err := ESentinel "the OTP does not match the one saved in the database".

Definition InformationNotFoundError (cause : err) : err := EOpaque "InformationNotFoundError" cause.
Definition VerificationAttemptsExceededError (cause : err) : err :=
  EOpaque "VerificationAttemptsExceededError" cause.

(** Bytes are compared in constant time; the answer is the same. *)
Definition isOTPValid (storedOTP providedOTP : string) : bool :=
  if negb (Nat.eqb (String.length storedOTP) (String.length providedOTP)) then false
  else storedOTP =? providedOTP.

Section handlers.
Context {D L Ev : Type} {E : Env D} {C : Conn D SdpDb} {SDK : StellarSdk} {B : Bcrypt} {PN : PhoneNumbers}
  {CR : CryptoRand} {RC : ReCAPTCHA}.
Abbreviation M := (M D L Ev).

(** ** CAPTCHA *)

Definition IsCAPTCHADisabled (ReCAPTCHADisabled : bool) : M bool :=
  let! org := try_ Organizations_Get in
  mret_ match org with
        | Err _ => ReCAPTCHADisabled
        | Ok org => default ReCAPTCHADisabled (Org_CAPTCHADisabled org)
        end.

(** [STEP 3] of the validation, and the same check of the requests for a password. *)
Definition check_captcha (ReCAPTCHADisabled : bool) (token : string) (tokenErr : err -> err)
    (invalidErr : option err) : M unit :=
  let! disabled := IsCAPTCHADisabled ReCAPTCHADisabled in
  if (disabled : bool) then mret_ tt
  else
    let! isValid := map_errM (fun e => WithErrorCode "500_5"
        (InternalError "Cannot validate reCAPTCHA token" (Some (tokenErr e))))
      (ask_res (fun t => IsTokenValid t token)) in
    if (isValid : bool) then mret_ tt
    else throw (WithErrorCode "400_1" (BadRequest "reCAPTCHA token is invalid" invalidErr)).

(** ** Verifying *)

Section verifying.
Context (NetworkPassphrase : string).

Definition verifyReceiverWalletOTP (receiverWallet : ReceiverWallet) (providedOTP : string) : M unit :=
  if providedOTP =? "" then throw (ENew "otp cannot be empty")
  else if (OTPMaxAttempts <=? RW_OTPAttempts receiverWallet)%Z then throw ErrOTPMaxAttemptsExceeded
  else if IsTestNetwork NetworkPassphrase && (providedOTP =? TestnetAlwaysValidOTP) then mret_ tt
  else if IsTestNetwork NetworkPassphrase && (providedOTP =? TestnetAlwaysInvalidOTP)
  then throw ErrOTPDoesNotMatch
  else
    match RW_OTPCreatedAt receiverWallet with
    | None => throw (ENew "otp does not have a valid created_at time")
    | Some createdAt =>
      if (createdAt =? time_zero)%Z then throw (ENew "otp does not have a valid created_at time")
      else
        let! now := ask env_now in
        if (createdAt + Minute * OTPExpirationTimeMinutes <? now)%Z then throw ErrOTPExpired
        else if negb (isOTPValid (default "" (RW_OTP receiverWallet)) providedOTP)
        then throw ErrOTPDoesNotMatch
        else mret_ tt
    end.

Definition attempts_update (n : Z) : ReceiverWalletUpdate :=
  mkReceiverWalletUpdate "" "" "" None None None "" (Some n).

(** On the connection pool: the count stays when the transaction is rolled back. *)
Definition incrementOTPAttempts (receiverWallet : ReceiverWallet) : M (ReceiverWallet * bool) :=
  let attempts := (RW_OTPAttempts receiverWallet + 1)%Z in
  wrapM "updating receiver wallet OTP attempts"
    (on_pool (X := SdpDb) (RW_Update (RW_ID receiverWallet) (attempts_update attempts))) ;;!
  if (OTPMaxAttempts <=? attempts)%Z then throw ErrOTPMaxAttemptsExceeded else throw ErrOTPDoesNotMatch.

Definition registration_update (claims : SEP24JWTClaims) (now : Z) (contactInfo : string) :
    ReceiverWalletUpdate :=
  mkReceiverWalletUpdate RegisteredReceiversWalletStatus "" (Account claims) (Some (Memo_ claims))
    (Some (if Memo_ claims <>? "" then MemoTypeID else "")) (Some now) contactInfo None.

(** The receiver wallet, and whether it was registered already. *)
Definition processReceiverWalletOTP (sep24Claims : SEP24JWTClaims) (receiver : Receiver)
    (otp contactInfo : string) : M (ReceiverWallet * bool) :=
  let! (rw, _) := map_errM (fun e => InformationNotFoundError (EWrap ("receiver wallet not found for receiverID="
      +:+ Rec_ID receiver +:+ " and clientDomain=" +:+ ClientDomain sep24Claims) e))
    (GetByReceiverIDAndWalletDomain (Rec_ID receiver) (ClientDomain sep24Claims)) in
  if RW_Status rw =? RegisteredReceiversWalletStatus then mret_ (rw, true)
  else
    map_errM (fun e => InformationNotFoundError (EWrap ("transitioning status for receiverWallet[ID="
        +:+ RW_ID rw +:+ "]") e))
      (lift (ReceiversWalletStatus_TransitionTo (RW_Status rw) RegisteredReceiversWalletStatus)) ;;!
    let! verified := try_ (verifyReceiverWalletOTP rw otp) in
    match verified with
    | Err e =>
      if errors_Is_err e ErrOTPDoesNotMatch then incrementOTPAttempts rw
      else throw (EWrap "verifying receiver wallet OTP"
        (EWrap ("unable to verify receiver wallet OTP for receiver wallet ID " +:+ RW_ID rw) e))
    | Ok _ =>
      let! now := ask env_now in
      wrapM "completing receiver wallet registration"
        (RW_Update (RW_ID rw) (registration_update sep24Claims now contactInfo)) ;;!
      mret_ (rw, false)
    end.

Definition no_confirmation (v : ReceiverVerification) (channel : string) : ReceiverVerificationUpdate :=
  mkReceiverVerificationUpdate (RV_ReceiverID v) (RV_VerificationField v) channel None None "" "" None.

Definition processReceiverVerificationPII (receiver : Receiver) (request : ReceiverRegistrationRequest) :
    M unit :=
  let! now := ask env_now in
  let field := RR_VerificationField request in
  let! receiverVerifications := wrapM ("retrieving receiver verification for verification type " +:+ field)
    (GetByReceiverIDsAndVerificationField [Rec_ID receiver] field) in
  match receiverVerifications with
  | [] => throw (InformationNotFoundError (ENew ("verification of type " +:+ field
            +:+ " not found for receiver id " +:+ Rec_ID receiver)))
  | receiverVerification :: _ =>
    if ExceededAttempts (RV_Attempts receiverVerification)
    then throw (VerificationAttemptsExceededError
      (ENew "the number of attempts to confirm the verification value exceeded the max attempts"))
    else
      let! channel := lift
        (if TrimSpace (RR_PhoneNumber request) <>? "" then Ok MessageChannelSMS
         else if TrimSpace (RR_Email request) <>? "" then Ok MessageChannelEmail
         else Err (InformationNotFoundError
                (ENew "no valid verification channel found resolved for receiver"))) in
      if negb (CompareVerificationValue (RV_HashedValue receiverVerification) (RR_VerificationValue request)) then
        let baseErrMsg := field +:+ " value does not match for receiver with id " +:+ Rec_ID receiver in
        let! updateErr := try_ (on_pool (X := SdpDb) (UpdateReceiverVerification
          (mkReceiverVerificationUpdate (RV_ReceiverID receiverVerification)
             (RV_VerificationField receiverVerification) channel
             (Some (RV_Attempts receiverVerification + 1)%Z) None "" "" (Some now)))) in
        throw (InformationNotFoundError match updateErr with
                                        | Err e => EWrap baseErrMsg e
                                        | Ok _ => ENew baseErrMsg
                                        end)
      else
        wrapM "updating successfully verified user" (UpdateReceiverVerification
          (mkReceiverVerificationUpdate (RV_ReceiverID receiverVerification)
             (RV_VerificationField receiverVerification) channel None (Some now)
             ConfirmedByTypeReceiver (Rec_ID receiver) None))
  end.

Definition processTransactionID (sep24Claims : SEP24JWTClaims) (receiverWallet : ReceiverWallet) : M unit :=
  wrapM "updating receiver wallet with transaction ID"
    (RW_Update (RW_ID receiverWallet)
       (mkReceiverWalletUpdate "" (TransactionID sep24Claims) "" None None None "" None)).

(** The transaction of the handler. *)
Definition register_body (claims : SEP24JWTClaims) (request : ReceiverRegistrationRequest)
    (contactInfo : string) : M unit :=
  let truncated := TruncateString contactInfo 3 in
  let! receivers := wrapM ("retrieving receiver with contact info " +:+ truncated)
    (GetByContacts [contactInfo]) in
  match receivers with
  | [] => throw (InformationNotFoundError
            (ENew ("receiver with contact info " +:+ truncated +:+ " not found in our server")))
  | receiver :: _ =>
    let! (receiverWallet, wasAlreadyRegistered) :=
      wrapM ("processing OTP for receiver with contact info " +:+ truncated)
        (processReceiverWalletOTP claims receiver (RR_OTP request) contactInfo) in
    wrapM ("processing receiver verification entry for receiver with contact info " +:+ truncated)
      (processReceiverVerificationPII receiver request) ;;!
    if negb wasAlreadyRegistered
    then wrapM "processing transaction ID" (processTransactionID claims receiverWallet)
    else mret_ tt
  end.

(** How its errors are answered. *)
Definition registration_error (e : err) : err :=
  if errors_Is_err e ErrOTPMaxAttemptsExceeded
  then WithErrorCode "400_4" (BadRequest "Maximum OTP verification attempts exceeded. Please request a new OTP." (Some e))
  else if errors_Is_err e ErrOTPExpired
  then WithErrorCode "400_5" (BadRequest "OTP has expired. Please request a new one." (Some e))
  else if errors_Is_err e ErrOTPDoesNotMatch
  then WithErrorCode "400_6" (BadRequest "Invalid OTP. Please check and try again." (Some e))
  else
    match As_Opaque "InformationNotFoundError" e with
    | Some _ => WithErrorCode "400_2" (BadRequest InformationNotFoundOnServer (Some e))
    | None =>
      match As_Opaque "VerificationAttemptsExceededError" e with
      | Some cause => WithErrorCode "400_3" (BadRequest (Error cause) (Some e))
      | None => WithErrorCode "500_0" (InternalError "" (Some e))
      end
    end.

(** The body of the request: absent, or what decoding gave, the token of the CAPTCHA
    apart.  The text of a refused request lists what the validator found. *)
Definition validate (ReCAPTCHADisabled : bool) (claims : option SEP24JWTClaims)
    (body : option (res (ReceiverRegistrationRequest * string))) :
    M (ReceiverRegistrationRequest * SEP24JWTClaims) :=
  match claims with
  | None => throw (WithErrorCode "401_0" (Unauthorized ""
              (Some (ENew "no SEP-24 claims found in the request context"))))
  | Some claims =>
    match body with
    | None => throw (WithErrorCode "400_0" (BadRequest "" (Some (ENew "request body is empty"))))
    | Some (Err e) => throw (WithErrorCode "400_0" (BadRequest "" (Some (EWrap "invalid request body" e))))
    | Some (Ok (request, token)) =>
      check_captcha ReCAPTCHADisabled token (EWrap "validating reCAPTCHA token")
        (Some (ENew ("reCAPTCHA token is invalid for request with OTP " +:+ TruncateString (RR_OTP request) 2
           +:+ " and Phone Number " +:+ TruncateString (RR_PhoneNumber request) 3))) ;;!
      let! now := ask env_now in
      let '(request, validator) := ValidateReceiver now request NewValidator in
      if HasErrors validator
      then throw (WithErrorCode "400_0" (BadRequest "" (Some (ENew "request invalid"))))
      else mret_ (request, claims)
    end
  end.

Definition contact_of (request : ReceiverRegistrationRequest) : string :=
  if RR_PhoneNumber request <>? "" then RR_PhoneNumber request else RR_Email request.

Definition VerifyReceiverRegistration (ReCAPTCHADisabled : bool) (claims : option SEP24JWTClaims)
    (body : option (res (ReceiverRegistrationRequest * string))) : M unit :=
  let! (request, claims) := validate ReCAPTCHADisabled claims body in
  if contact_of request =? ""
  then throw (WithErrorCode "500_6" (InternalError "Unexpected contact info" None))
  else map_errM registration_error (RunInTransaction (register_body claims request (contact_of request))).
End verifying.

(** ** One-time passwords *)

Section passwords.
Context {MD : MessageDispatcher} {EM : MessageEvents Ev} {TP : Templates} {CLib : ClaimsLibrary}.

(** The receiver wallets of the contact and the domain that are not confirmed. *)
Definition awaits_otp (contactInfo domain : string) (db : SdpDb) (rw : ReceiverWallet) : bool :=
  existsb (fun r => (Rec_ID r =? RW_ReceiverID rw) && has_contact [contactInfo] r) (receivers db)
  && match lookup_wallet (RW_WalletID rw) db with
     | Some w => Wal_SEP10ClientDomain w =? domain
     | None => false
     end
  && bool_decide (RW_OTPConfirmedAt rw = None).

Definition set_otp (otp : string) (ctx : StmtCtx) (rw : ReceiverWallet) : ReceiverWallet :=
  rw <| RW_OTP := Some otp |> <| RW_OTPCreatedAt := Some (NOW ctx) |> <| RW_OTPAttempts := 0%Z |>.

Definition UpdateOTPByReceiverContactInfoAndWalletDomain (receiverContactInfo sep10ClientDomain otp : string) :
    M Z :=
  let! rows := wrapM "updating receiver wallets otp" (db_stmt (UpdateReceiverWallets
    (awaits_otp receiverContactInfo sep10ClientDomain) (set_otp otp))) in
  mret_ (Z.of_nat (List.length rows)).

Definition InsertReceiverRegistrationAttempt (attempt : ReceiverRegistrationAttempt) : M unit :=
  wrapM "inserting receiver registration attempt" (db_stmt (fun _ db => Ok (tt,
    db <| receiver_registration_attempts := receiver_registration_attempts db ++ [attempt] |>))).

(** An error of the log is only logged. *)
Definition recordRegistrationAttempt (claims : SEP24JWTClaims) (contactType contactInfo : string) : M unit :=
  let! now := ask env_now in
  let attempt := mkRegistrationAttempt
    (if contactType =? ReceiverContactTypeSMS then contactInfo else "")
    (if contactType =? ReceiverContactTypeEmail then contactInfo else "")
    now (ClientDomain claims) (TransactionID claims) (Account claims) (Memo_ claims) in
  try_ (InsertReceiverRegistrationAttempt attempt) ;;!
  mret_ tt.

Definition OTPMessageDisclaimer :=
  " If you did not request this code, please ignore. Do not share your code with anyone.".

(** [strings.ToLower] of the contact type, with spaces. *)
Definition Humanize (contactType : string) : string :=
  ToLower (string_of_list_ascii (map (fun c => if Ascii.eqb c "_"%char then " "%char else c)
    (list_ascii_of_string contactType))).

Definition sendOTP (contactType contactInfo otp : string) : M unit :=
  let! organization := wrapM "cannot get organization" Organizations_Get in
  let withDisclaimer := OTPMessageTemplate organization +:+ OTPMessageDisclaimer in
  let otpMessageTemplate :=
    if negb (Contains (OTPMessageTemplate organization) "{{.OTP}}")
    then "{{.OTP}} " +:+ TrimSpace withDisclaimer else withDisclaimer in
  let! tpl := wrapM "cannot parse OTP template" (lift (template_Parse otpMessageTemplate)) in
  let! text := wrapM "cannot execute OTP template"
    (lift (template_Execute tpl [("OTP", otp); ("OrganizationName", Org_Name organization)])) in
  let sms := contactType =? ReceiverContactTypeSMS in
  let email := contactType =? ReceiverContactTypeEmail in
  let msg := mkMessage MessageTypeReceiverOTP (if sms then contactInfo else "")
    (if email then contactInfo else "") text
    (if email then "Your One-Time Password: " +:+ otp else "")
    {[ "receiver_otp" := otp; "org_name" := Org_Name organization ]} in
  let! answer := SendMessage msg (MessageChannelPriority organization) in
  wrapM ("cannot send OTP message through " +:+ Humanize contactType +:+ " to " +:+ TruncateString contactInfo 3)
    (lift (snd answer)).

(** The answer does not tell an unknown contact from a known one. *)
Definition handleOTPForReceiver (claims : SEP24JWTClaims) (contactType contactInfo : string) : M string :=
  let placeholderVerificationField := VerificationTypeDateOfBirth in
  let unknown := recordRegistrationAttempt claims contactType contactInfo ;;!
                 mret_ placeholderVerificationField in
  let! found := try_ (GetLatestByContactInfo contactInfo) in
  match found with
  | Err _ => unknown
  | Ok receiverVerification =>
    let! newOTP := map_errM (fun e => WithErrorCode "500_7"
        (InternalError "Cannot generate OTP for receiver wallet" (Some e)))
      (RandomString 6 NumberBytes) in
    let! updated := try_ (UpdateOTPByReceiverContactInfoAndWalletDomain contactInfo (ClientDomain claims) newOTP) in
    let! numberOfUpdatedRows :=
      match updated with
      | Ok n => mret_ n
      | Err e =>
        if errors_Is_err e ErrRecordNotFound then mret_ 0%Z
        else throw (WithErrorCode "500_8" (InternalError "Cannot update OTP for receiver wallet" (Some e)))
      end in
    if (numberOfUpdatedRows <? 1)%Z then unknown
    else
      map_errM (fun e => let e := EWrap "sending OTP message" e in
          WithErrorCode "500_9" (InternalError ("Failed to send OTP message, reason: " +:+ Error e) (Some e)))
        (sendOTP contactType contactInfo newOTP) ;;!
      mret_ (RV_VerificationField receiverVerification)
  end.

Definition newReceiverSendOTPResponseBody (contactType verificationField : string) : string * string :=
  (if contactType =? ReceiverContactTypeSMS then "if your phone number is registered, you'll receive an OTP"
   else if contactType =? ReceiverContactTypeEmail then "if your email is registered, you'll receive an OTP"
   else "", verificationField).

(** The handler: the phone number, the email and the token of the body. *)
Definition SendOTP (ReCAPTCHADisabled : bool) (claims : option SEP24JWTClaims)
    (body : res (string * string * string)) : M (string * string) :=
  let! (contact, token) := map_errM (fun e => WithErrorCode "400_0" (BadRequest "invalid request body" (Some e)))
    (lift body) in
  let phone := TrimAndLower (fst contact) in
  let email := TrimAndLower (snd contact) in
  check_captcha ReCAPTCHADisabled token id None ;;!
  match claims with
  | None => throw (WithErrorCode "401_0" (Unauthorized ""
              (Some (ENew "no SEP-24 claims found in the request context"))))
  | Some claims =>
    map_errM (fun e => WithErrorCode "401_0" (Unauthorized "" (Some (EWrap "SEP-24 claims are invalid" e))))
      (ask_res (fun t => Claims_Valid t claims)) ;;!
    if HasErrors (check_contact phone email NewValidator)
    then throw (WithErrorCode "400_0" (BadRequest "" None))
    else
      let! (contactType, contactInfo) :=
        (if phone <>? "" then mret_ (ReceiverContactTypeSMS, phone)
         else if email <>? "" then mret_ (ReceiverContactTypeEmail, email)
         else throw (WithErrorCode "500_6" (InternalError "Unexpected contact info" None))) in
      let! verificationField := handleOTPForReceiver claims contactType contactInfo in
      mret_ (newReceiverSendOTPResponseBody contactType verificationField)
  end.
End passwords.
End handlers.
