(* ===== verification/RegistrationSafety.v ===== *)
(** What a registration guarantees (Registration.v): who is registered, what a failed
    request leaves behind, and that guesses are counted. *)

From S2P Require Import Prelude GoStrings Errors StateMachine Effects Transactions Schema TxStore Limiter.
From S2P Require Import Tables SdpDb PaymentStore Platform ReceiverStore Messages ReceiverWalletStore.
From S2P Require Import DisbursementStore Instructions InstructionsSafety Validators Registration.
From Stdlib Require Import Ascii String.

Local Open Scope string_scope.
Local Open Scope list_scope.

(** ** Passwords and subjects *)

Definition otp_accepted (networkPassphrase : string) (now : Z) (rw : ReceiverWallet) (otp : string) : Prop :=
  (RW_OTPAttempts rw < OTPMaxAttempts)%Z /\
  ((IsTestNetwork networkPassphrase = true /\ otp = TestnetAlwaysValidOTP) \/
   (RW_OTP rw = Some otp /\
    exists createdAt, RW_OTPCreatedAt rw = Some createdAt /\
      (now <= createdAt + Minute * OTPExpirationTimeMinutes)%Z)).

Lemma isOTPValid_spec a b : isOTPValid a b = true <-> a = b.
Proof.
  unfold isOTPValid. destruct (Nat.eqb_spec (String.length a) (String.length b)) as [_|Hne]; cbn.
  - apply String.eqb_eq.
  - split; [done|]. by intros ->.
Qed.

Lemma cut_colon_spec s before after :
  cut_colon s = Some (before, after) -> s = before +:+ ":" +:+ after /\ cut_colon before = None.
Proof.
  revert before after. induction s as [|c s IH]; intros before after; cbn; [done|].
  destruct (Ascii.eqb_spec c ":"%char) as [->|Hc].
  - intros [= <- <-]. done.
  - destruct (cut_colon s) as [[b a]|]; [|done]. intros [= <- <-].
    destruct (IH b a eq_refl) as [-> Hb]. split; [done|]. cbn.
    apply Ascii.eqb_neq in Hc. by rewrite Hc, Hb.
Qed.

Lemma cut_colon_app before after :
  cut_colon before = None -> cut_colon (before +:+ ":" +:+ after) = Some (before, after).
Proof.
  induction before as [|c before IH]; [done|].
  change (String c before +:+ ":" +:+ after) with (String c (before +:+ ":" +:+ after)).
  cbn [cut_colon]. destruct (Ascii.eqb c ":"%char); [done|].
  destruct (cut_colon before) as [[]|]; [done|]. intros _. by rewrite (IH eq_refl).
Qed.

(** The subject of a token and the account and memo in it are the same thing, for
    accounts that are not empty and have no colon. *)
Theorem subject_roundtrip (account memo subject : string) :
  (account <> "" -> cut_colon account = None ->
   ParseAccountAndMemo (FormatSubject account memo) = (account, memo)) /\
  (ParseAccountAndMemo subject = (account, memo) -> memo <> "" ->
   FormatSubject account memo = subject /\ account <> "" /\ cut_colon account = None).
Proof.
  unfold ParseAccountAndMemo, FormatSubject. split.
  - intros Hne Hc. destruct (String.eqb_spec memo "") as [->|_]; cbn [negb].
    + by rewrite Hc.
    + rewrite cut_colon_app by done. apply eqb_false in Hne. by rewrite Hne.
  - intros H Hm. apply eqb_false in Hm as Hm'. rewrite Hm'. cbn [negb].
    destruct (cut_colon subject) as [[b a]|] eqn:Hcut; [|by injection H].
    destruct (String.eqb_spec b "") as [->|Hb]; cbn [negb] in H; [by injection H|].
    injection H as <- <-. by apply cut_colon_spec in Hcut as [-> ?].
Qed.

Lemma subject_roundtrip_witness :
  ParseAccountAndMemo (FormatSubject "GA" "7") = ("GA", "7") /\ FormatSubject "GA" "7:8" = "GA:7:8".
Proof.
  split; [by apply (subject_roundtrip "GA" "7" "")|by apply (subject_roundtrip "GA" "7:8" "GA:7:8")].
Defined.

(** ** What a registration does *)

Section steps.
Context {D L Ev : Type} {E : Env D} {C : Conn D SdpDb} {CL : ConnLaws D SdpDb} {SDK : StellarSdk} {B : Bcrypt}.
Context (NetworkPassphrase : string).
Abbreviation M := (M D L Ev).
Implicit Types w : World D L Ev.

Lemma verify_quiet rw otp :
  quiet (X := SdpDb) (verifyReceiverWalletOTP NetworkPassphrase rw otp : M unit) (fun r =>
    (r = Ok tt -> exists now, otp_accepted NetworkPassphrase now rw otp) /\
    (forall e, r = Err e -> errors_Is_err e ErrOTPDoesNotMatch = true ->
       (RW_OTPAttempts rw < OTPMaxAttempts)%Z)).
Proof.
  intros w Hin. unfold verifyReceiverWalletOTP, otp_accepted, ErrOTPDoesNotMatch.
  destruct (String.eqb_spec otp "") as [->|Hne]; [split_and!; try done; by intros e [= <-]|].
  destruct (Z.leb_spec OTPMaxAttempts (RW_OTPAttempts rw)) as [|Hlt].
  { split_and!; try done. by intros e [= <-]. }
  destruct (IsTestNetwork NetworkPassphrase && (otp =? TestnetAlwaysValidOTP)) eqn:Ev1.
  { split_and!; try done. intros _. exists 0%Z. split; [done|left]. apply andb_true_iff in Ev1 as [? H].
    by apply String.eqb_eq in H. }
  destruct (IsTestNetwork NetworkPassphrase && (otp =? TestnetAlwaysInvalidOTP)); [by split_and!|].
  destruct (RW_OTPCreatedAt rw) as [created|] eqn:Ec; [|by split_and!].
  destruct (_ =? _)%Z; [by split_and!|]. unfold mbind_, ask. destruct (in_tx_settle w Hin) as [Hd Ht].
  destruct (Z.ltb_spec (created + Minute * OTPExpirationTimeMinutes) (env_now (w_clock w))) as [|Hexp];
    [by split_and!|].
  destruct (isOTPValid _ otp) eqn:Eo; cbn [negb]; [|by split_and!]. split_and!; try done. intros _.
  exists (env_now (w_clock w)). split; [done|right]. apply isOTPValid_spec in Eo.
  destruct (RW_OTP rw); cbn in Eo; subst; [|done]. eauto.
Qed.

(** The one change a failed request may leave. *)
Definition counted_otp (x x' : SdpDb) : Prop :=
  exists rw now, lookup_receiver_wallet (RW_ID rw) x = Some rw /\ (RW_OTPAttempts rw < OTPMaxAttempts)%Z /\
    x' = x <| receiver_wallets := update_where (fun r => RW_ID r =? RW_ID rw)
      (fun r => r <| RW_OTPAttempts := (RW_OTPAttempts rw + 1)%Z |> <| RW_UpdatedAt := now |>)
      (receiver_wallets x) |>.

Definition counted_pii (x x' : SdpDb) : Prop :=
  exists v channel failed now, lookup_verification (RV_ReceiverID v) (RV_VerificationField v) x = Some v /\
    (RV_Attempts v < MaxAttemptsAllowed)%Z /\
    x' = x <| receiver_verifications := update_where (is_verification (RV_ReceiverID v) (RV_VerificationField v))
      (fun u => u <| RV_Attempts := (RV_Attempts v + 1)%Z |> <| RV_FailedAt := Some failed |>
                  <| RV_VerificationChannel := Some channel |> <| RV_UpdatedAt := now |>)
      (receiver_verifications x) |>.

Definition left_by_failure (x x' : SdpDb) : Prop := x' = x \/ counted_otp x x' \/ counted_pii x x'.

(** Work on the pool beside the transaction. *)
Lemma on_pool_committed {A} (m : M A) w r w' :
  in_tx (X := SdpDb) w -> on_pool (X := SdpDb) m w = (r, w') ->
  exists wa, fst (m wa) = r /\ committed w' = conn_get (X := SdpDb) (w_db (snd (m wa))) /\
    conn_get (w_db wa) = committed (X := SdpDb) w /\ w_tx wa !! conn_id SdpDb = None /\ w_tx wa <> ∅.
Proof.
  intros (now & saved & Hin) H. apply on_pool_run in H as (wa & w1 & Hm & Hwa & Hn & Hne & _ & Hc & _);
    [|unfold is_open; by rewrite Hin].
  exists wa. by rewrite Hm.
Qed.

Lemma set_attempts n ctx rw :
  set_wallet_update (attempts_update n) ctx rw = rw <| RW_OTPAttempts := n |>.
Proof. done. Qed.

Lemma increment_counts rw w r w' :
  in_tx (X := SdpDb) w -> lookup_receiver_wallet (RW_ID rw) (committed w) = Some rw ->
  (RW_OTPAttempts rw < OTPMaxAttempts)%Z ->
  incrementOTPAttempts rw w = (r, w') -> is_ok r = false /\ left_by_failure (committed w) (committed w').
Proof.
  intros Hin Hl Hlt. unfold incrementOTPAttempts, mbind_ at 1, wrapM, map_errM.
  destruct (on_pool _ w) as [r1 w1] eqn:Ep.
  apply on_pool_committed in Ep as (wa & <- & Hc & Hwa & _ & Hopen); [|done].
  assert (Hend : left_by_failure (committed w) (committed w1)).
  { rewrite Hc, <- Hwa. set (n := (RW_OTPAttempts rw + 1)%Z).
    unfold RW_Update, mbind_, wrapM, map_errM, lift.
    change (check_memo (RW_ID rw) (attempts_update n)) with (mret_ tt : M unit). cbn [fst snd].
    destruct (ReceiverWalletUpdate_Validate _) as [u|e]; cbn [res_map_err fst snd]; [|by left]. cbn [mret_].
    set (q := UpdateReceiverWallets _ _).
    assert (Hq : left_by_failure (conn_get (w_db wa)) (conn_get (w_db (snd (db_stmt q wa))))).
    { destruct (settle_open wa Hopen) as [Hd _].
      destruct (db_stmt_effect q wa) as [Hs|(ctx & a & x' & Hq & Hs)]; rewrite Hs, Hd; [by left|].
      rewrite conn_get_set. right; left. rewrite Hd in Hq.
      apply UpdateReceiverWallets_ok in Hq as (_ & -> & _ & _); [|done].
      exists rw, (NOW ctx). rewrite Hwa. done. }
    by destruct (db_stmt q wa) as [[rows|e] w2]. }
  destruct (fst (RW_Update _ _ wa)); cbn [res_map_err]; [|intros [= <- <-]; by split].
  by destruct (_ <=? _)%Z; intros [= <- <-].
Qed.

(** The update of a wrong value of the verification field, on the pool. *)
Lemma mismatch_counts v channel failed w r w' :
  in_tx (X := SdpDb) w ->
  lookup_verification (RV_ReceiverID v) (RV_VerificationField v) (committed w) = Some v ->
  (RV_Attempts v < MaxAttemptsAllowed)%Z ->
  on_pool (X := SdpDb) (UpdateReceiverVerification (mkReceiverVerificationUpdate (RV_ReceiverID v)
    (RV_VerificationField v) channel (Some (RV_Attempts v + 1)%Z) None "" "" (Some failed)) : M unit) w = (r, w') ->
  left_by_failure (committed w) (committed w').
Proof.
  intros Hin Hl Hlt Hp.
  apply on_pool_committed in Hp as (wa & _ & -> & Hwa & _ & Hopen); [|done]. rewrite <- Hwa in *.
  unfold UpdateReceiverVerification, mbind_, wrapM, map_errM, lift.
  destruct (ReceiverVerificationUpdate_Validate _) as [u|e]; cbn [res_map_err fst snd]; [|by left].
  set (q := fun ctx db => _).
  assert (Hq : left_by_failure (conn_get (w_db wa)) (conn_get (w_db (snd (db_stmt q wa))))).
  { destruct (settle_open wa Hopen) as [Hd _].
    destruct (db_stmt_effect q wa) as [Hs|(ctx & a & x' & Hq & Hs)]; rewrite Hs, Hd; [by left|].
    rewrite conn_get_set. right; right. rewrite Hd in Hq. unfold q in Hq. cbn [no_fields] in Hq.
    apply UpdateVerifications_ok in Hq as [-> _]. exists v, channel, failed, (NOW ctx). done. }
  by destruct (db_stmt q wa) as [[rows|e] w2].
Qed.

(** Failures that leave nothing. *)
Definition nothing (e : err) (s x s' : SdpDb) : Prop := s' = s.

Lemma check_memo_steps id u : steps (check_memo id u : M _) (fun _ x x' => x' = x) nothing.
Proof.
  assert (Hbody : steps (let! a := (if RWU_StellarAddress u =? "" then
         let! existing := wrapM "checking stored stellar address for memo validation" (RW_GetByID id) in
         mret_ (default "" (RW_StellarAddress (fst existing)))
       else mret_ (RWU_StellarAddress u)) in
    if IsValidContractAddress a then
      lift (guard_err (negb (bool_decide (RWU_StellarMemo u = Some ""))
                       || negb (default "" (RWU_StellarMemoType u) =? "")) ErrMemosNotSupportedForContractAddresses)
    else mret_ tt : M _) (fun _ x x' => x' = x) nothing).
  { eapply (steps_bind _ _ (fun _ x x' => x' = x)).
    - destruct (_ =? _); [|by apply steps_ret].
      eapply steps_bind; [by apply steps_wrap, steps_map_err, steps_GetContext|]. intros a.
      apply steps_ret. by intros y x [ctx [= _ ->]].
    - intros a. destruct (IsValidContractAddress a).
      + eapply steps_mono; [apply (steps_lift _ (fun e s y s' => forall x, y = x -> nothing e s x s'))| |];
          [done|by intros ? ? ? [_ ->] x ->|by intros e s y s' H x _; apply (H y)].
      + by apply steps_ret. }
  unfold check_memo. destruct (RWU_StellarMemo u), (RWU_StellarMemoType u); [exact Hbody..|].
  by apply steps_ret.
Qed.

Lemma RW_Update_steps id u :
  steps (RW_Update id u : M _) (fun _ x x' => ReceiverWalletUpdate_Validate u = Ok tt /\ exists ctx rows,
    UpdateReceiverWallets (fun _ rw => RW_ID rw =? id) (set_wallet_update u) ctx x = Ok (rows, x')) nothing.
Proof.
  unfold RW_Update. eapply steps_bind; [by apply steps_wrap, steps_lift|]. intros [].
  eapply steps_bind.
  { eapply steps_mono; [apply check_memo_steps| |].
    - intros ? x x' H. exact H.
    - by intros e s x s' H y _. }
  intros ?. eapply steps_bind; [by apply steps_map_err, steps_stmt|]. intros rows.
  eapply steps_mono; [by apply (steps_lift _ (fun _ s _ s' => s' = s))| |].
  - intros ? ? ? [_ ->] x3 [ctx H] x2 -> x1 [Hv ->]. eauto.
  - by intros e s x s' H ? ? ? ? ? ?.
Qed.

(** The first step: the wallet of the receiver and of the client's domain. *)
Definition wallet_of (claims : SEP24JWTClaims) (r : Receiver) (rw : ReceiverWallet) (x : SdpDb) : Prop :=
  lookup_receiver_wallet (RW_ID rw) x = Some rw /\ RW_ReceiverID rw = Rec_ID r /\
  exists wal, lookup_wallet (RW_WalletID rw) x = Some wal /\ Wal_SEP10ClientDomain wal = ClientDomain claims.

Definition otp_step (claims : SEP24JWTClaims) (otp contact : string) (rw : ReceiverWallet) (already : bool)
    (x x' : SdpDb) : Prop :=
  if already then x' = x /\ RW_Status rw = RegisteredReceiversWalletStatus
  else ReceiversWalletStatus_TransitionTo (RW_Status rw) RegisteredReceiversWalletStatus = Ok tt /\
    (exists now, otp_accepted NetworkPassphrase now rw otp) /\
    exists now ctx rows, UpdateReceiverWallets (fun _ r => RW_ID r =? RW_ID rw)
      (set_wallet_update (registration_update claims now contact)) ctx x = Ok (rows, x').

Lemma get_wallet_steps claims r :
  steps (GetByReceiverIDAndWalletDomain (Rec_ID r) (ClientDomain claims) : M _) (fun v x x' => x' = x /\
    (NoDup (map RW_ID (receiver_wallets x)) -> wallet_of claims r (fst v) x)) nothing.
Proof.
  eapply (steps_mono _ _ _ nothing); [by apply steps_wrap, steps_GetContext| |done].
  intros [rw wal] x x' [ctx [= Hhd <-]]. split; [done|]. intros Hnd. cbn.
  set (l := select_wallets _ x) in Hhd. assert (Hin : (rw, wal) ∈ l).
  { destruct l as [|v l]; [done|]. injection Hhd as ->. apply list_elem_of_here. }
  apply list_elem_of_filter in Hin as [Hq Hin]. apply andb_true_iff in Hq as [Hr Hd].
  apply String.eqb_eq in Hr, Hd. apply list_elem_of_omap in Hin as (rw' & Hin & Hj).
  unfold join_wallet in Hj. destruct (lookup_wallet _ x) as [wal'|] eqn:Ew; [|done].
  injection Hj as -> ->. split; [by apply (first_such_unique RW_ID)|]. split; [done|]. by exists wal.
Qed.

Lemma process_otp_steps claims r otp contact :
  steps (processReceiverWalletOTP NetworkPassphrase claims r otp contact : M _) (fun v x x' =>
      NoDup (map RW_ID (receiver_wallets x)) ->
      wallet_of claims r (fst v) x /\ otp_step claims otp contact (fst v) (snd v) x x')
    (fun _ s x s' => s = x -> NoDup (map RW_ID (receiver_wallets x)) -> left_by_failure s s').
Proof.
  unfold processReceiverWalletOTP. eapply steps_bind.
  { apply steps_map_err. eapply steps_mono; [apply get_wallet_steps| |].
    - intros v x x' H. exact H.
    - intros ? s x s' -> _ _. by left. }
  intros [rw wal]. destruct (String.eqb_spec (RW_Status rw) RegisteredReceiversWalletStatus) as [Hst|_].
  { apply steps_ret. intros y x [-> Hw] Hnd. split; [by apply Hw|]. by split. }
  eapply steps_bind; [apply steps_map_err, steps_lift|].
  { intros e s x _ y [-> _] _ _. by left. }
  intros []. eapply steps_bind; [apply steps_try_quiet, verify_quiet|].
  intros [[]|e].
  - eapply steps_bind; [apply steps_ask|]. intros now.
    eapply steps_bind; [apply steps_wrap; eapply steps_mono; [apply RW_Update_steps| |]|].
    { intros ? x x' H. exact H. }
    { intros e s x s' -> ? _ ? _ ? _ ? _ _ _. by left. }
    intros []. apply steps_ret. cbn.
    intros y x4 (_ & ctx & rows & Hup) x3 [_ ->] x2 [[Hok _] ->] x1 [Ht ->] x [-> Hw] Hnd.
    split; [by apply Hw|]. split; [done|]. split; [by apply Hok|]. by exists now, ctx, rows.
  - destruct (errors_Is_err e ErrOTPDoesNotMatch) eqn:Eis.
    + intros w Hin. destruct (incrementOTPAttempts rw w) as [[v|e'] w'] eqn:Ei.
      * (* it never answers *)
        exfalso. revert Ei. unfold incrementOTPAttempts, mbind_. destruct (wrapM _ _ w) as [[]]; [|done].
        by destruct (_ <=? _)%Z.
      * intros x3 [[_ Hlt] _] x2 [_ _] x1 [_ Hw] Hs Hnd. subst x1.
        apply (increment_counts rw w (Err e') w'); [done| |by eapply Hlt|exact Ei].
        by apply Hw.
    + apply steps_throw. intros s x3 x2 _ x1 _ x _ _ _. by left.
Qed.

(** The second step: the value of the verification field. *)
Definition pii_step (r : Receiver) (request : ReceiverRegistrationRequest) (x x' : SdpDb) : Prop :=
  exists v, lookup_verification (Rec_ID r) (RR_VerificationField request) x = Some v /\
    (RV_Attempts v < MaxAttemptsAllowed)%Z /\
    CompareVerificationValue (RV_HashedValue v) (RR_VerificationValue request) = true /\
    exists channel now ctx rows,
      UpdateVerifications (is_verification (RV_ReceiverID v) (RV_VerificationField v))
        (set_verification_update (mkReceiverVerificationUpdate (RV_ReceiverID v) (RV_VerificationField v) channel
           None (Some now) ConfirmedByTypeReceiver (Rec_ID r) None)) ctx x = Ok (rows, x').

Lemma UpdateReceiverVerification_steps u :
  steps (UpdateReceiverVerification u : M _) (fun _ x x' => exists ctx rows,
    UpdateVerifications (is_verification (RVU_ReceiverID u) (RVU_VerificationField u))
      (set_verification_update u) ctx x = Ok (rows, x')) nothing.
Proof.
  unfold UpdateReceiverVerification. eapply steps_bind; [by apply steps_wrap, steps_lift|]. intros [].
  eapply steps_bind; [by apply steps_wrap, steps_stmt|]. intros rows. apply steps_ret.
  intros y x [ctx H] z [_ ->]. destruct (no_fields u); [done|]. by exists ctx, rows.
Qed.

Lemma process_pii_steps r request :
  steps (processReceiverVerificationPII r request : M _) (fun _ x x' => pii_step r request x x')
    (fun _ s x s' => receiver_verifications s = receiver_verifications x -> left_by_failure s s').
Proof.
  unfold processReceiverVerificationPII. eapply steps_bind; [apply steps_ask|]. intros now.
  eapply steps_bind; [apply steps_wrap, steps_wrap, steps_stmt; intros; by left|].
  intros [|v vs]; [apply steps_throw; intros s x ? _ ? _ _; by left|].
  destruct (ExceededAttempts (RV_Attempts v)) eqn:Eex; [apply steps_throw; intros s x ? _ ? _ _; by left|].
  eapply steps_bind; [apply steps_lift; intros e s x _ ? _ ? _ _; by left|]. intros channel.
  assert (Hv : forall x2 x1 x now', (exists ctx : StmtCtx, (if slices_Contains GetAllVerificationTypes (RR_VerificationField request)
      then Ok (filter (fun v => slices_Contains [Rec_ID r] (RV_ReceiverID v)
             && (RV_VerificationField v =? RR_VerificationField request) = true) (receiver_verifications x1), x1)
      else Err (EExternal "pq: invalid input value for enum verification_type")) = Ok (v :: vs, x2)) ->
      (exists t : nat, now = now' t) /\ x1 = x ->
      x2 = x /\ lookup_verification (Rec_ID r) (RR_VerificationField request) x = Some v /\
      RV_ReceiverID v = Rec_ID r /\ RV_VerificationField v = RR_VerificationField request).
  { intros x2 x1 x now' [_ H] [_ ->]. destruct (slices_Contains _ (RR_VerificationField request)); [|done].
    injection H as Hf <-. split; [done|].
    assert (Hl : lookup_verification (Rec_ID r) (RR_VerificationField request) x = Some v).
    { unfold lookup_verification.
      rewrite (first_such_ext _ (fun v => slices_Contains [Rec_ID r] (RV_ReceiverID v)
        && (RV_VerificationField v =? RR_VerificationField request))).
      - etransitivity; [symmetry; apply hd_filter|]. exact (f_equal hd_error Hf).
      - intros u. unfold is_verification. cbn. by rewrite orb_false_r. }
    split; [done|]. apply first_such_some in Hl as [_ Hl]. apply is_verification_key in Hl. by injection Hl. }
  assert (Hlt : (RV_Attempts v < MaxAttemptsAllowed)%Z) by (apply Z.leb_gt; exact Eex).
  destruct (CompareVerificationValue _ _) eqn:Ecmp; cbn [negb].
  - apply steps_wrap. eapply steps_mono; [apply UpdateReceiverVerification_steps| |].
    + intros ? x3 x' (ctx & rows & Hup) x2 [_ ->] x1 H1 x H0. destruct (Hv _ _ _ _ H1 H0) as (-> & Hl & _).
      exists v. split_and!; try done. by exists channel, now, ctx, rows.
    + intros ? s x3 s' -> ? _ ? _ ? _ _. by left.
  - intros w Hin. unfold mbind_, try_, throw.
    destruct (on_pool _ w) as [r1 w1] eqn:Ep.
    intros x2 [_ Hx] x1 H1 x H0 Hs. destruct (Hv _ _ _ _ H1 H0) as (-> & Hl & Hr & Hf).
    eapply mismatch_counts; [exact Hin| |exact Hlt|exact Ep].
    unfold lookup_verification. rewrite Hs, Hr, Hf. exact Hl.
Qed.

(** The whole of it. *)
Definition transaction_update (claims : SEP24JWTClaims) : ReceiverWalletUpdate :=
  mkReceiverWalletUpdate "" (TransactionID claims) "" None None None "" None.

Definition registration_done (claims : SEP24JWTClaims) (request : ReceiverRegistrationRequest) (contact : string)
    (x x' : SdpDb) : Prop :=
  exists r rw already y z, r ∈ receivers x /\ has_contact [contact] r = true /\ wallet_of claims r rw x /\
    otp_step claims (RR_OTP request) contact rw already x y /\ pii_step r request y z /\
    if (already : bool) then x' = z
    else ReceiverWalletUpdate_Validate (transaction_update claims) = Ok tt /\ exists ctx rows,
      UpdateReceiverWallets (fun _ r => RW_ID r =? RW_ID rw)
        (set_wallet_update (transaction_update claims)) ctx z = Ok (rows, x').

Lemma otp_step_tables claims otp contact rw already x y :
  otp_step claims otp contact rw already x y -> exists rws, y = x <| receiver_wallets := rws |>.
Proof.
  destruct already; cbn.
  - intros [-> _]. exists (receiver_wallets x). by destruct x.
  - intros (_ & _ & now & ctx & rows & H).
    apply UpdateReceiverWallets_ok in H as (_ & -> & _); [by eexists|apply set_wallet_update_id].
Qed.

Lemma register_body_steps claims request contact :
  steps (register_body NetworkPassphrase claims request contact : M _)
    (fun _ x x' => NoDup (map RW_ID (receiver_wallets x)) -> registration_done claims request contact x x')
    (fun _ s x s' => s = x -> NoDup (map RW_ID (receiver_wallets x)) -> left_by_failure s s').
Proof.
  unfold register_body. eapply steps_bind.
  { apply steps_wrap. eapply (steps_mono _ (fun rs x x' => x' = x /\
      rs = filter (fun r => has_contact [contact] r = true) (receivers x)) _ nothing).
    - apply steps_wrap. eapply (steps_mono _ _ _ nothing); [by apply steps_read| |done].
      by intros rs x x' [[_ ->] ->].
    - intros rs x x' H. exact H.
    - intros ? s x s' -> _ _. by left. }
  intros [|r rs]; [apply steps_throw; intros s x ? _ _ _; by left|].
  eapply steps_bind; [apply steps_wrap; eapply steps_mono; [apply process_otp_steps| |]|].
  { intros v x x' H. exact H. }
  { intros ? s x s' H y [-> _] Hs Hnd. by apply H. }
  intros [rw already]. eapply steps_bind; [apply steps_wrap; eapply steps_mono; [apply process_pii_steps| |]|].
  { intros ? x x' H. exact H. }
  { intros ? s y s' H x1 Hotp x [-> _] -> Hnd. destruct (Hotp Hnd) as [_ Hstep].
    apply otp_step_tables in Hstep as [rws Hy]. apply H. by rewrite Hy. }
  intros []. destruct already; cbn [negb].
  - apply steps_ret. intros z y Hpii x1 Hotp x [-> Hrs] Hnd. destruct (Hotp Hnd) as [Hw Hstep].
    assert (Hr : r ∈ r :: rs) by apply list_elem_of_here. rewrite Hrs in Hr.
    apply list_elem_of_filter in Hr as [Hc Hr]. by exists r, rw, true, y, z.
  - apply steps_wrap, steps_wrap. eapply steps_mono; [apply RW_Update_steps| |].
    + intros ? z x' Hsep y Hpii x1 Hotp x [-> Hrs] Hnd. destruct (Hotp Hnd) as [Hw Hstep].
      assert (Hr : r ∈ r :: rs) by apply list_elem_of_here. rewrite Hrs in Hr.
      apply list_elem_of_filter in Hr as [Hc Hr]. by exists r, rw, false, y, z.
    + intros ? s z s' -> ? _ ? _ ? _ _ _. by left.
Qed.

(** What has been registered, row by row. *)
Record verified_registration (claims : SEP24JWTClaims) (request : ReceiverRegistrationRequest)
    (contact : string) (x x' : SdpDb) (r : Receiver) (rw rw' : ReceiverWallet)
    (v v' : ReceiverVerification) : Prop := {
  reg_receiver : r ∈ receivers x /\ has_contact [contact] r = true;
  reg_wallet : wallet_of claims r rw x;
  reg_pii : lookup_verification (Rec_ID r) (RR_VerificationField request) x = Some v /\
    (RV_Attempts v < MaxAttemptsAllowed)%Z /\
    CompareVerificationValue (RV_HashedValue v) (RR_VerificationValue request) = true;
  reg_confirmed : lookup_verification (Rec_ID r) (RR_VerificationField request) x' = Some v' /\
    RV_ConfirmedAt v' <> None /\ RV_ConfirmedByType v' = Some ConfirmedByTypeReceiver /\
    RV_HashedValue v' = RV_HashedValue v;
  reg_registered : lookup_receiver_wallet (RW_ID rw) x' = Some rw' /\
    RW_Status rw' = RegisteredReceiversWalletStatus;
  reg_how : (RW_Status rw = RegisteredReceiversWalletStatus /\ rw' = rw) \/
    (ReceiversWalletStatus_TransitionTo (RW_Status rw) RegisteredReceiversWalletStatus = Ok tt /\
     (exists now, otp_accepted NetworkPassphrase now rw (RR_OTP request)) /\
     (Account claims <> "" -> RW_StellarAddress rw' = Some (Account claims)) /\
     RW_StellarMemo rw' = null_if_empty (Memo_ claims) /\
     RW_OTPConfirmedAt rw' <> None /\ RW_OTPConfirmedWith rw' = Some contact /\
     RW_SEP24TransactionID rw' = Some (TransactionID claims) /\ TransactionID claims <> "");
  reg_others : forall id, id <> RW_ID rw -> lookup_receiver_wallet id x' = lookup_receiver_wallet id x }.

Lemma update_wallet_lookup rwid u ctx x rows x' :
  UpdateReceiverWallets (fun _ r => RW_ID r =? rwid) (set_wallet_update u) ctx x = Ok (rows, x') ->
  (exists rws, x' = x <| receiver_wallets := rws |>) /\
  (forall rw, lookup_receiver_wallet rwid x = Some rw ->
     lookup_receiver_wallet rwid x' = Some (refresh_receiver_wallet ctx (set_wallet_update u ctx rw))) /\
  forall id, id <> rwid -> lookup_receiver_wallet id x' = lookup_receiver_wallet id x.
Proof.
  intros H. apply UpdateReceiverWallets_ok in H as (_ & Hx & _ & Hl); [|apply set_wallet_update_id].
  split; [rewrite Hx; by eexists|]. split.
  - intros rw Hrw. rewrite Hl, Hrw. cbn [fmap option_fmap option_map].
    by rewrite (lookup_receiver_wallet_id _ _ _ Hrw), eqb_same.
  - intros id Hne. rewrite Hl. destruct (lookup_receiver_wallet id x) as [rw|] eqn:Hrw; [|done].
    cbn [fmap option_fmap option_map]. rewrite (lookup_receiver_wallet_id _ _ _ Hrw).
    by apply eqb_false in Hne as ->.
Qed.

(** The row after each of the updates. *)
Lemma set_registration claims now contact ctx rw :
  contact <> "" ->
  let rw' := set_wallet_update (registration_update claims now contact) ctx rw in
  RW_Status rw' = RegisteredReceiversWalletStatus /\
  (Account claims <> "" -> RW_StellarAddress rw' = Some (Account claims)) /\
  RW_StellarMemo rw' = null_if_empty (Memo_ claims) /\
  RW_OTPConfirmedAt rw' = Some now /\ RW_OTPConfirmedWith rw' = Some contact.
Proof.
  intros Hc. apply eqb_false in Hc. unfold set_wallet_update. cbn. rewrite Hc.
  destruct (String.eqb_spec (Account claims) ""); by split_and!.
Qed.

Lemma set_transaction claims ctx rw :
  ReceiverWalletUpdate_Validate (transaction_update claims) = Ok tt ->
  TransactionID claims <> "" /\ set_wallet_update (transaction_update claims) ctx rw =
    rw <| RW_SEP24TransactionID := Some (TransactionID claims) |>.
Proof.
  intros Hval. assert (Ht : TransactionID claims <> "").
  { intros Ht. unfold transaction_update in Hval. by rewrite Ht in Hval. }
  split; [done|]. apply eqb_false in Ht. unfold set_wallet_update. cbn. by rewrite Ht.
Qed.

Lemma updated_row claims now contact ctx ctx2 rw :
  ReceiverWalletUpdate_Validate (transaction_update claims) = Ok tt -> contact <> "" ->
  let rw' := refresh_receiver_wallet ctx2 (set_wallet_update (transaction_update claims) ctx2
    (refresh_receiver_wallet ctx (set_wallet_update (registration_update claims now contact) ctx rw))) in
  RW_Status rw' = RegisteredReceiversWalletStatus /\
  (Account claims <> "" -> RW_StellarAddress rw' = Some (Account claims)) /\
  RW_StellarMemo rw' = null_if_empty (Memo_ claims) /\
  RW_OTPConfirmedAt rw' <> None /\ RW_OTPConfirmedWith rw' = Some contact /\
  RW_SEP24TransactionID rw' = Some (TransactionID claims) /\ TransactionID claims <> "".
Proof.
  intros Hval Hc. pose proof (set_registration claims now contact ctx rw Hc) as Hset. cbn zeta in Hset.
  destruct (set_transaction claims ctx2 (refresh_receiver_wallet ctx
    (set_wallet_update (registration_update claims now contact) ctx rw)) Hval) as [Ht ->].
  revert Hset. generalize (set_wallet_update (registration_update claims now contact) ctx rw). intros rw1.
  cbn. intros (H1 & H2 & H3 & H4 & H5). rewrite H4. by split_and!.
Qed.

Lemma pii_step_rows r request y z :
  pii_step r request y z -> (exists vs, z = y <| receiver_verifications := vs |>) /\
  exists v v', lookup_verification (Rec_ID r) (RR_VerificationField request) y = Some v /\
    (RV_Attempts v < MaxAttemptsAllowed)%Z /\
    CompareVerificationValue (RV_HashedValue v) (RR_VerificationValue request) = true /\
    lookup_verification (Rec_ID r) (RR_VerificationField request) z = Some v' /\
    RV_ConfirmedAt v' <> None /\ RV_ConfirmedByType v' = Some ConfirmedByTypeReceiver /\
    RV_HashedValue v' = RV_HashedValue v.
Proof.
  intros (v & Hv & Hlt & Hc & channel & now & ctx & rows & H). apply UpdateVerifications_ok in H as [-> _].
  split; [by eexists|]. exists v. eexists. split; [done|]. split; [done|]. split; [done|].
  assert (Hkey : is_verification (RV_ReceiverID v) (RV_VerificationField v) v = true).
  { by apply is_verification_key. }
  split.
  - etransitivity; [apply (first_such_update (is_verification (Rec_ID r) (RR_VerificationField request)))|].
    { intros u. unfold is_verification, set_verification_update. cbn. by destruct (Rec_ID r =? ""). }
    unfold lookup_verification in Hv. rewrite Hv. cbn [fmap option_fmap option_map]. rewrite Hkey. reflexivity.
  - cbn. unfold set_verification_update. cbn. by destruct (_ =? "").
Qed.
End steps.

(** ** A wrong guess without faults *)

Section wrong_guess.
Context {D L Ev : Type} {E : Env D} {C : Conn D SdpDb} {CL : ConnLaws D SdpDb} {SDK : StellarSdk} {B : Bcrypt}.
Context (NetworkPassphrase : string).
Context (Hcalm : forall t, env_fault t = NoFault).
Abbreviation M := (M D L Ev).
Implicit Types w : World D L Ev.

(** Inside a transaction that has written nothing. *)
Definition reading (x : SdpDb) w : Prop :=
  in_tx (X := SdpDb) w /\ committed w = x /\ conn_get (w_db w) = x.

Lemma read_calm {A} (f : StmtCtx -> SdpDb -> A) x w :
  reading x w -> exists ctx w', db_stmt (fun ctx y => Ok (f ctx y, y)) w = (Ok (f ctx x), w') /\ reading x w'.
Proof.
  intros (Hin & Hc & Hx). pose proof Hin as (now & saved & Ht). destruct (in_tx_settle w Hin) as [Hd Hs].
  assert (Hrun : db_stmt (fun ctx y => Ok (f ctx y, y)) w = (Ok (f (mkCtx now (env_locked (w_clock w))) x),
    put_part x (settle w))).
  { unfold db_stmt. rewrite Ht, Hcalm, Hd, Hx. done. }
  exists (mkCtx now (env_locked (w_clock w))), (put_part x (settle w)). split; [done|]. split; [|split].
  - exists now, saved. cbn. by rewrite Hs.
  - rewrite <- Hc. unfold committed, snapshot. cbn. by rewrite Hs, Ht.
  - cbn. by rewrite conn_get_set.
Qed.

Lemma settle_reading x w : reading x w -> reading x (settle w).
Proof.
  intros (Hin & Hc & Hx). destruct (in_tx_settle w Hin) as [Hd Hs].
  destruct (quiet_open w (settle w) Hs Hd Hin) as [Hin' Hc']. unfold reading. by rewrite Hc', Hd.
Qed.

Lemma db_stmt_pool {A} (q : Stmt SdpDb A) w :
  w_tx w !! conn_id SdpDb = None -> db_stmt q w =
    match q (mkCtx (env_now (w_clock w)) (env_locked (w_clock w))) (conn_get (w_db (settle w))) with
    | Ok (a, x') => (Ok a, put_part x' (settle w))
    | Err e => (Err e, settle w)
    end.
Proof. intros Ht. unfold db_stmt. rewrite Ht, Hcalm. by destruct (q _ _) as [[]|]. Qed.

(** Counting does not touch what the constraints are about. *)
Lemma count_ok p n now rows :
  let set rw := rw <| RW_OTPAttempts := n |> <| RW_UpdatedAt := now |> in
  receiver_wallets_ok rows -> addresses_ok rows ->
  receiver_wallets_ok (update_where p set rows) /\ addresses_ok (update_where p set rows).
Proof.
  intros set (Hst & Hid & Hkey) Ha. assert (Hsame : forall rw, p rw = true -> RW_ID (set rw) = RW_ID rw /\
    (RW_ReceiverID (set rw), RW_WalletID (set rw)) = (RW_ReceiverID rw, RW_WalletID rw)) by done.
  split; [split; [|split]|].
  - unfold update_where. apply Forall_map. eapply Forall_impl; [exact Hst|]. intros rw H. by destruct (p rw).
  - rewrite update_where_proj; [done|]. intros rw H. by apply Hsame.
  - rewrite update_where_proj; [done|]. intros rw H. by apply Hsame.
  - unfold addresses_ok, update_where in *. apply Forall_map. eapply Forall_impl; [exact Ha|].
    intros a H. apply Forall_map. eapply Forall_impl; [exact H|]. intros b Hb. by destruct (p a), (p b).
Qed.

Lemma increment_calm rw x w :
  reading x w -> lookup_receiver_wallet (RW_ID rw) x = Some rw ->
  receiver_wallets_ok (receiver_wallets x) -> addresses_ok (receiver_wallets x) ->
  (RW_OTPAttempts rw < OTPMaxAttempts)%Z ->
  exists w', incrementOTPAttempts rw w =
      (Err (if (OTPMaxAttempts <=? RW_OTPAttempts rw + 1)%Z then ErrOTPMaxAttemptsExceeded
            else ErrOTPDoesNotMatch), w') /\
    counted_otp x (committed w').
Proof.
  intros (Hin & Hc & Hx) Hl Hok Ha Hlt. unfold incrementOTPAttempts, mbind_ at 1, wrapM, map_errM.
  set (n := (RW_OTPAttempts rw + 1)%Z). destruct (on_pool _ w) as [r w1] eqn:Ep.
  apply on_pool_committed in Ep as (wa & Hr & Hw1 & Hwa & Hnone & Hopen); [|done].
  destruct (settle_open wa Hopen) as [Hd _]. rewrite Hc in Hwa.
  assert (Hrun : exists rows now, RW_Update (RW_ID rw) (attempts_update n) wa =
    (Ok tt, put_part (x <| receiver_wallets := update_where (fun r => RW_ID r =? RW_ID rw)
      (fun r => r <| RW_OTPAttempts := n |> <| RW_UpdatedAt := now |>) (receiver_wallets x) |>) (settle wa)) /\
    rows = filter (fun r => (RW_ID r =? RW_ID rw) = true) (receiver_wallets x)).
  { set (now := env_now (w_clock wa)). eexists _, now. split; [|reflexivity].
    unfold RW_Update. change (ReceiverWalletUpdate_Validate (attempts_update n)) with (Ok tt : res unit).
    change (check_memo (RW_ID rw) (attempts_update n)) with (mret_ tt : M unit).
    unfold mbind_, wrapM, map_errM, lift, mret_. cbn [res_map_err fst snd].
    rewrite db_stmt_pool by done. rewrite Hd, Hwa. unfold UpdateReceiverWallets, check_receiver_wallets.
    destruct (count_ok (fun r => RW_ID r =? RW_ID rw) n now _ Hok Ha) as [H1 H2].
    match goal with |- context [decide (addresses_ok ?l)] => rewrite (decide_True (P := addresses_ok l)) by exact H2 end.
    match goal with |- context [decide (receiver_wallets_ok ?l)] =>
      rewrite (decide_True (P := receiver_wallets_ok l)) by exact H1 end.
    cbn [res_map_err]. assert (Hin' : rw ∈ filter (fun r => (RW_ID r =? RW_ID rw) = true) (receiver_wallets x)).
    { apply first_such_some in Hl as [Hin' Hi]. by apply list_elem_of_filter. }
    destruct (filter _ _) as [|r0 rs]; [by apply elem_of_nil in Hin'|]. done. }
  destruct Hrun as (rows & now & Hrun & _). rewrite Hrun in Hr, Hw1. cbn in Hr. subst r. cbn [res_map_err].
  exists w1. split; [by destruct (_ <=? _)%Z|]. rewrite Hw1. cbn. rewrite conn_get_set.
  exists rw, now. by split.
Qed.

(** A password that does not match, before it expires. *)
Definition wrong_otp (rw : ReceiverWallet) (otp : string) : Prop :=
  otp <> "" /\ (RW_OTPAttempts rw < OTPMaxAttempts)%Z /\
  IsTestNetwork NetworkPassphrase && (otp =? TestnetAlwaysValidOTP) = false /\
  (IsTestNetwork NetworkPassphrase && (otp =? TestnetAlwaysInvalidOTP) = true \/
   exists createdAt, RW_OTPCreatedAt rw = Some createdAt /\ createdAt <> time_zero /\
     (forall t, (env_now t <= createdAt + Minute * OTPExpirationTimeMinutes)%Z) /\ RW_OTP rw <> Some otp).

Lemma verify_wrong rw otp x w :
  wrong_otp rw otp -> reading x w ->
  exists w', verifyReceiverWalletOTP NetworkPassphrase rw otp w = (Err ErrOTPDoesNotMatch, w') /\ reading x w'.
Proof.
  intros (Hne & Hlt & Hvalid & Hwrong) Hw. unfold verifyReceiverWalletOTP.
  rewrite (proj2 (eqb_false _ _) Hne), (proj2 (Z.leb_gt _ _) Hlt), Hvalid.
  destruct (IsTestNetwork NetworkPassphrase && (otp =? TestnetAlwaysInvalidOTP)); [by exists w|].
  destruct Hwrong as [?|(c & -> & Hz & Hexp & Hotp)]; [done|].
  rewrite (proj2 (Z.eqb_neq _ _) Hz). unfold mbind_, ask.
  rewrite (proj2 (Z.ltb_ge _ _) (Hexp _)). destruct (isOTPValid _ otp) eqn:Eo; cbn [negb].
  - exfalso. apply isOTPValid_spec in Eo. destruct (RW_OTP rw); cbn in Eo; congruence.
  - exists (settle w). split; [done|by apply settle_reading].
Qed.

Lemma wrong_otp_body claims request contact x r rw wal w :
  reading x w -> receiver_wallets_ok (receiver_wallets x) -> addresses_ok (receiver_wallets x) ->
  first_such (has_contact [contact]) (receivers x) = Some r ->
  hd_error (select_wallets (fun v => (RW_ReceiverID (fst v) =? Rec_ID r)
    && (Wal_SEP10ClientDomain (snd v) =? ClientDomain claims)) x) = Some (rw, wal) ->
  RW_Status rw <> RegisteredReceiversWalletStatus ->
  ReceiversWalletStatus_TransitionTo (RW_Status rw) RegisteredReceiversWalletStatus = Ok tt ->
  wrong_otp rw (RR_OTP request) ->
  exists p w', register_body NetworkPassphrase claims request contact w =
      (Err (EWrap p (if (OTPMaxAttempts <=? RW_OTPAttempts rw + 1)%Z then ErrOTPMaxAttemptsExceeded
                     else ErrOTPDoesNotMatch)), w') /\ counted_otp x (committed w').
Proof.
  intros Hw Hok Ha Hr Hrw Hst Htr Hwrong. pose proof (proj1 (proj2 Hok)) as Hids.
  rewrite <- hd_filter in Hr.
  destruct (read_calm (fun _ db => filter (fun r => has_contact [contact] r = true) (receivers db)) x w Hw)
    as (? & w1 & H1 & Hw1).
  destruct (read_calm (fun _ db => hd_error (select_wallets (fun v => (RW_ReceiverID (fst v) =? Rec_ID r)
    && (Wal_SEP10ClientDomain (snd v) =? ClientDomain claims)) db)) x w1 Hw1) as (? & w2 & H2 & Hw2).
  destruct (verify_wrong rw _ x w2 Hwrong Hw2) as (w3 & H3 & Hw3).
  assert (Hl : lookup_receiver_wallet (RW_ID rw) x = Some rw).
  { destruct (select_wallets _ x) as [|v l] eqn:Es; [done|]. injection Hrw as ->.
    assert (Hin : (rw, wal) ∈ (rw, wal) :: l) by apply list_elem_of_here. rewrite <- Es in Hin.
    apply list_elem_of_filter in Hin as [_ Hin]. apply list_elem_of_omap in Hin as (rw' & Hin & Hj).
    unfold join_wallet in Hj. destruct (lookup_wallet _ x); [|done]. injection Hj as -> _.
    by apply (first_such_unique RW_ID). }
  destruct (increment_calm rw x w3 Hw3 Hl Hok Ha (proj1 (proj2 Hwrong))) as (w4 & H4 & Hc).
  eexists _, w4. split; [|exact Hc]. unfold register_body, GetByContacts, mbind_ at 1, wrapM at 1 2, map_errM at 1 2.
  rewrite H1. cbn [res_map_err]. destruct (filter _ (receivers x)) as [|r0 rs]; [done|]. injection Hr as ->.
  unfold mbind_ at 1, wrapM at 1, map_errM at 1, processReceiverWalletOTP, mbind_ at 1, map_errM at 1,
    GetByReceiverIDAndWalletDomain, wrapM at 1, map_errM at 1, GetContext, mbind_ at 1.
  rewrite H2, Hrw. cbn [mret_ res_map_err]. rewrite (proj2 (eqb_false _ _) Hst).
  rewrite Htr. unfold mbind_ at 1, map_errM at 1, lift at 1. cbn [res_map_err].
  unfold mbind_ at 1, try_. rewrite H3. cbn [errors_Is_err errors_Is ErrOTPDoesNotMatch]. rewrite String.eqb_refl, H4.
  reflexivity.
Qed.
End wrong_guess.

(** ** Properties *)

Section theorems.
Context {D L Ev : Type} {E : Env D} {C : Conn D SdpDb} {CL : ConnLaws D SdpDb} {SDK : StellarSdk} {B : Bcrypt}
  {PN : PhoneNumbers} {RC : ReCAPTCHA}.
Implicit Types w : World D L Ev.

(** C27: A registration that succeeds was of a receiver with the contact of the request and
    its wallet for the domain of the token, and the value of the verification field was
    the receiver's, tried fewer than fifteen times.  Unless the wallet was registered
    before, and then it is as it was, the password was accepted: fewer than five wrong
    guesses, and the one that was sent at most five minutes before, or the one of the
    test networks.  The wallet is registered for the account, memo and transaction of
    the token; no other wallet changes. *)
Theorem registration_is_verified networkPassphrase captcha claims body w request claims' w1 w'
    (Hvalid : validate captcha claims body w = (Ok (request, claims'), w1))
    (Hids : NoDup (map RW_ID (receiver_wallets (sdp (settle w1)))))
    (Hrun : VerifyReceiverRegistration networkPassphrase captcha claims body w = (Ok tt, w')) :
  exists r rw rw' v v', verified_registration networkPassphrase claims' request (contact_of request)
    (sdp (settle w1)) (sdp w') r rw rw' v v'.
Proof.
  unfold VerifyReceiverRegistration in Hrun. apply mbind_ok in Hrun as ([rq cl] & w2 & Hv & Hrun).
  rewrite Hvalid in Hv. injection Hv as <- <- <-.
  destruct (String.eqb_spec (contact_of request) "") as [|Hcontact]; [done|].
  apply map_errM_ok in Hrun. eapply RunInTransaction_steps in Hrun; [|apply register_body_steps].
  destruct (Hrun Hids) as (r & rw & already & y & z & Hr & Hc & Hw & Hotp & Hpii & Hlast).
  apply pii_step_rows in Hpii as ([vs Hz] & v & v' & Hv & Hlt & Hcmp & Hv' & Hconf & Htype & Hhash).
  unfold sdp in *. set (x := conn_get (w_db (settle w1))) in *. set (x' := conn_get (w_db w')) in *.
  assert (Hxv : lookup_verification (Rec_ID r) (RR_VerificationField request) x = Some v).
  { apply otp_step_tables in Hotp as [rws Hy]. by rewrite Hy in Hv. }
  destruct already.
  - destruct Hotp as [Hyx Hst]. exists r, rw, rw, v, v'. rewrite Hyx in Hz. rewrite <- Hlast in Hz, Hv'.
    constructor; try done; [split; [|done]|by left|intros id _]; rewrite Hz; [apply Hw|done].
  - destruct Hotp as (Htr & Hacc & now & ctx & rows & Hup). destruct Hlast as (Hval & ctx2 & rows2 & Hup2).
    apply update_wallet_lookup in Hup as ([rws Hy] & Hme & Hothers).
    apply update_wallet_lookup in Hup2 as ([rws2 Hx'] & Hme2 & Hothers2).
    assert (Hlz : forall id, lookup_receiver_wallet id z = lookup_receiver_wallet id y) by (by rewrite Hz).
    specialize (Hme2 _ (eq_trans (Hlz _) (Hme rw (proj1 Hw)))).
    eexists r, rw, _, v, v'. constructor; [done|done|done| |split; [exact Hme2|]| |].
    + split; [|done]. by rewrite Hx'.
    + by apply updated_row.
    + right. split; [done|]. split; [done|]. by apply updated_row.
    + intros id Hne. by rewrite Hothers2, Hlz, Hothers.
Qed.

(** C37: A registration that fails leaves the tables as they were, or with one more wrong
    guess counted: of the password of a wallet with fewer than five, or of the value of a
    verification field with fewer than fifteen.  The one exception is a commit whose answer
    was lost: the registration is done. *)
Theorem failed_registration_counts networkPassphrase captcha claims body w request claims' w1 e w'
    (Hvalid : validate captcha claims body w = (Ok (request, claims'), w1))
    (Hids : NoDup (map RW_ID (receiver_wallets (sdp (settle w1)))))
    (Hcontact : contact_of request <> "")
    (Hrun : VerifyReceiverRegistration networkPassphrase captcha claims body w = (Err e, w')) :
  sdp w' = sdp (settle w1) \/ counted_otp (sdp (settle w1)) (sdp w') \/ counted_pii (sdp (settle w1)) (sdp w') \/
  registration_done networkPassphrase claims' request (contact_of request) (sdp (settle w1)) (sdp w').
Proof.
  unfold VerifyReceiverRegistration, mbind_ in Hrun. rewrite Hvalid in Hrun.
  destruct (String.eqb_spec (contact_of request) "") as [|_]; [done|].
  unfold map_errM in Hrun. destruct (RunInTransaction _ w1) as [[u|e1] w2] eqn:Et; [done|].
  injection Hrun as _ <-. eapply RunInTransaction_steps in Et; [|apply register_body_steps].
  destruct Et as [H|[[u H]|(e' & _ & H)]]; [by left|by right; right; right; apply H|].
  destruct (H eq_refl Hids) as [H1|[H1|H1]]; [by left|right; by left|right; right; by left].
Qed.

(** Without faults, a wrong password for a wallet that can be registered is answered
    as such and counted, although the transaction is rolled back: the fifth is answered
    with the error of too many attempts. *)
Theorem wrong_otp_is_counted networkPassphrase captcha claims body w request claims' w1 r rw wal
    (Hcalm : forall t, env_fault t = NoFault)
    (Hvalid : validate captcha claims body w = (Ok (request, claims'), w1))
    (Hcontact : contact_of request <> "")
    (Hok : receiver_wallets_ok (receiver_wallets (sdp (settle w1))))
    (Haddresses : addresses_ok (receiver_wallets (sdp (settle w1))))
    (Hreceiver : first_such (has_contact [contact_of request]) (receivers (sdp (settle w1))) = Some r)
    (Hwallet : hd_error (select_wallets (fun v => (RW_ReceiverID (fst v) =? Rec_ID r)
       && (Wal_SEP10ClientDomain (snd v) =? ClientDomain claims')) (sdp (settle w1))) = Some (rw, wal))
    (Hnew : RW_Status rw <> RegisteredReceiversWalletStatus)
    (Hstatus : ReceiversWalletStatus_TransitionTo (RW_Status rw) RegisteredReceiversWalletStatus = Ok tt)
    (Hwrong : wrong_otp networkPassphrase rw (RR_OTP request)) :
  exists msg e w', VerifyReceiverRegistration networkPassphrase captcha claims body w =
      (Err (EHTTP 400 msg (if (OTPMaxAttempts <=? RW_OTPAttempts rw + 1)%Z then "400_4" else "400_6") e), w') /\
    counted_otp (sdp (settle w1)) (sdp w').
Proof.
  unfold VerifyReceiverRegistration, mbind_. rewrite Hvalid. rewrite (proj2 (eqb_false _ _) Hcontact).
  unfold map_errM, RunInTransaction, RunInTransactionWithResult. rewrite Hcalm.
  set (w2 := set_tx (Some (mkTx false (env_now (w_clock w1)) (w_db (settle w1)))) (settle w1)).
  assert (Hw : reading (sdp (settle w1)) w2).
  { split; [|split]; [|unfold committed, snapshot|done].
    - eexists _, _. unfold w2. cbn. by rewrite lookup_partial_alter_eq.
    - unfold w2. cbn. by rewrite lookup_partial_alter_eq. }
  destruct (wrong_otp_body networkPassphrase Hcalm claims' request _ _ r rw wal w2 Hw Hok Haddresses Hreceiver
    Hwallet Hnew Hstatus Hwrong) as (p & w3 & Hrun & Hc).
  rewrite Hrun. cbn [res_map_err]. unfold registration_error.
  destruct (OTPMaxAttempts <=? RW_OTPAttempts rw + 1)%Z.
  all: eexists _, _, _; split; [reflexivity|]; unfold sdp at 2; cbn; rewrite conn_get_set; exact Hc.
Qed.
End theorems.

(** ** Witnesses *)

Module Registering.
Export Upload.

(** The clock stands still. *)
#[export] Instance still : Env Dbs :=
  {| env_fault _ := NoFault; env_interfere _ d := d; env_now _ := 0%Z; env_locked _ _ := false |}.
#[export] Instance phones : PhoneNumbers := {| phonenumbers_valid _ := true |}.
#[export] Instance captcha : ReCAPTCHA := {| IsTokenValid _ _ := Ok true |}.

Definition waiting : ReceiverWallet :=
  mkReceiverWallet "rw1" "r1" "w1" None None None ReadyReceiversWalletStatus [] (Some "123456") 3 (Some 0%Z)
    None None None None 0 0.
Definition pin : ReceiverVerification :=
  mkReceiverVerification "r1" "PIN" "#1234" 0 None None None None None 0 0.
Definition start : World Dbs unit unit :=
  world ((sdp_db false [] []) <| receivers := [known] |> <| receiver_verifications := [pin] |>
         <| receiver_wallets := [waiting] |>) [].
Definition token : SEP24JWTClaims := mkSEP24Claims "wallet.example" "home" "tx1" "GDEST:7" (Some 9%Z).
Definition asked (otp : string) : option (res (ReceiverRegistrationRequest * string)) :=
  Some (Ok (mkRegistrationRequest "" " +14155552671" otp "1234" "pin", "token")).
Definition sent_request (otp : string) : ReceiverRegistrationRequest :=
  mkRegistrationRequest "" "+14155552671" otp "1234" "PIN".
End Registering.
Import Registering.

Lemma registration_is_verified_witness :
  exists (w1 w' : World Dbs unit unit) r rw rw' v v', verified_registration "public" token
    (sent_request "123456") "+14155552671" (sdp (settle w1)) (sdp w') r rw rw' v v'.
Proof.
  eexists _, _. eapply (registration_is_verified (E := still) (C := sdp_conn) "public" true (Some token)
    (asked "123456") start (sent_request "123456") token);
    [vm_compute; reflexivity|by_computation|vm_compute; reflexivity].
Defined.

Lemma failed_registration_counts_witness :
  exists w1 w' : World Dbs unit unit, sdp w' = sdp (settle w1) \/ counted_otp (sdp (settle w1)) (sdp w') \/
    counted_pii (sdp (settle w1)) (sdp w') \/
    registration_done "public" token (sent_request "654321") "+14155552671" (sdp (settle w1)) (sdp w').
Proof.
  eexists _, _.
  eapply (failed_registration_counts (E := still) (C := sdp_conn) "public" true (Some token) (asked "654321") start
    (sent_request "654321") token); [vm_compute; reflexivity|by_computation|done|vm_compute; reflexivity].
Defined.

Lemma wrong_otp_is_counted_witness :
  exists msg e w' x, VerifyReceiverRegistration "public" true (Some token) (asked "654321") start =
      (Err (EHTTP 400 msg "400_6" e), w') /\ counted_otp x (sdp w').
Proof.
  edestruct (wrong_otp_is_counted (E := still) (C := sdp_conn) "public" true (Some token) (asked "654321") start
    (sent_request "654321") token) as (msg & e & w' & H1 & H2);
    [done|vm_compute; reflexivity|discriminate|by_computation|by_computation|vm_compute; reflexivity
    |vm_compute; reflexivity|discriminate|vm_compute; reflexivity| |].
  - split_and!; [discriminate|done|done|]. right. exists 0%Z. by split_and!.
  - eexists msg, e, w', _. split; [exact H1|exact H2].
Defined.
