(* ===== verification/DisbursementMgmt.v ===== *)
(** The services that move disbursements and payments at a user's request:
    [disbursement_management_service.go], [payment_management_service.go],
    [ready_payments_cancellation_service.go] and the Stellar strategy of
    [distribution_account_service.go] in [internal/services]. *)

From S2P Require Import Prelude GoStrings Errors StateMachine Effects Schema TxStore Limiter SdpDb.
From S2P Require Import PaymentStore ReceiverWalletStore DisbursementStore.
From Stdlib Require Import QArith.

Local Close Scope Q_scope.
Local Open Scope string_scope.
Local Open Scope list_scope.
Local Open Scope go_scope.

(** ** Sentinels *)

Definition ErrDisbursementNotFound : err := ESentinel "disbursement not found".
Definition ErrDisbursementNotReadyToStart : err := ESentinel "disbursement is not ready to be started".
Definition ErrDisbursementNotReadyToPause : err := ESentinel "disbursement is not ready to be paused".
Definition ErrDisbursementNotReadyToApprove : err :=
  ESentinel "disbursement is not ready to be approved".
Definition ErrDisbursementNotReadyToSubmit : err :=
  ESentinel "disbursement is not ready to be submitted".
Definition ErrDisbursementNotReadyToReject : err :=
  ESentinel "disbursement is not in a state that can be rejected".
Definition ErrDisbursementWalletDisabled : err := ESentinel "disbursement wallet is disabled".
Definition ErrDisbursementRejectionReasonRequired : err :=
  ESentinel "a reason is required to reject a disbursement".
Definition ErrDisbursementStartedByCreator : err :=
  ESentinel "disbursement can't be started by its creator".
Definition ErrDisbursementApprovedByCreator : err :=
  ESentinel "disbursement can't be approved by its creator".
Definition ErrDisbursementRequiresApprovalStep : err := ESentinel
  "disbursement must be approved before it can be started; use the approve and submit endpoints".
Definition ErrPaymentNotFound : err := ESentinel "payment not found".
Definition ErrPaymentNotReadyToCancel : err := ESentinel "payment is not ready to be canceled".
Definition ErrPaymentStatusCantBeChanged : err :=
  ESentinel "payment status can't be changed to the requested status".

(** ** Balances *)

(** [DistributionAccountServiceInterface]: the answers may depend on when they are
    asked; the balances by code and issuer. *)
Class DistributionAccountService := {
  GetBalances : nat -> TransactionAccount -> res (gmap (string * string) Q);
  GetBalance : nat -> TransactionAccount -> Asset -> res Q }.

(** A balance of [horizon.Account]. *)
Record HorizonBalance := mkHorizonBalance {
  HB_Type : string;
  HB_Code : string;
  HB_Issuer : string;
  HB_Balance : string }.

Class HorizonAccounts := { AccountBalances : nat -> string -> res (list HorizonBalance) }.

Section stellar.
Context {N : Numerics} {HA : HorizonAccounts}.

(** The map of balances by code and issuer. *)
Fixpoint parse_balances (l : list HorizonBalance) (acc : gmap (string * string) Q) :
    res (gmap (string * string) Q) :=
  match l with
  | [] => Ok acc
  | b :: l' =>
    let key := if HB_Type b =? "native" then ("XLM", "") else (HB_Code b, HB_Issuer b) in
    let? balance := wrap ("parsing balance " +:+ HB_Balance b +:+ " to decimal")
      (decimal_NewFromString (HB_Balance b)) in
    parse_balances l' (<[ key := balance ]> acc)
  end.

Definition Stellar_GetBalances (t : nat) (account : TransactionAccount) :
    res (gmap (string * string) Q) :=
  let? balances := wrap "getting details for account from Horizon"
    (AccountBalances t (Address account)) in
  parse_balances balances ∅.

Definition ErrNoBalanceForAsset : err := ESentinel "no balance for asset".

Definition Stellar_GetBalance (t : nat) (account : TransactionAccount) (asset : Asset) : res Q :=
  let? accBalances := wrap "getting balances for distribution account" (Stellar_GetBalances t account) in
  let issuer := if Asset_IsNative asset then "" else Issuer asset in
  match accBalances !! (Code asset, issuer) with
  | Some balance => Ok balance
  | None => Err (EWrap "balance not found for distribution account" ErrNoBalanceForAsset)
  end.

#[export] Instance StellarDistributionAccountService : DistributionAccountService :=
  {| GetBalances := Stellar_GetBalances; GetBalance := Stellar_GetBalance |}.
End stellar.

Definition Qlt_bool (a b : Q) : bool := negb (Qle_bool b a).

Section services.
Context {D L Ev : Type} {E : Env D} {C : Conn D SdpDb} {N : Numerics} {SDK : StellarSdk}
  {DS : DistributionAccountService}.
Abbreviation M := (M D L Ev).

(** [if errors.Is(err, data.ErrRecordNotFound) { return nf } else { wrap }]. *)
Definition not_found_as {A} (nf : err) (p : string) (m : M A) : M A :=
  map_errM (fun e => if errors_Is e "record not found" then nf else EWrap p e) m.

(** The pending payments of the same asset, those of the disbursement excepted. *)
Definition counts_as_pending (disbursement : DisbursementView) (ip : PaymentView) : bool :=
  negb ((Pay_Type (pv_row ip) =? PaymentTypeDisbursement)
        && match pv_Disbursement ip with
           | Some d => Dis_ID d =? Dis_ID (dv_row disbursement)
           | None => false
           end)
  && Asset_Equals (pv_Asset ip) (dv_Asset disbursement).

Fixpoint sum_pending (disbursement : DisbursementView) (ips : list PaymentView) (acc : Q) : res Q :=
  match ips with
  | [] => Ok acc
  | ip :: rest =>
    if counts_as_pending disbursement ip then
      let amount := numeric_text (Pay_Amount (pv_row ip)) in
      let? paymentAmount := wrap ("cannot convert amount " +:+ amount +:+ " for payment id "
        +:+ Pay_ID (pv_row ip) +:+ " to decimal") (decimal_NewFromString amount) in
      sum_pending disbursement rest (Qplus acc paymentAmount)
    else sum_pending disbursement rest acc
  end.

Definition InsufficientBalanceError (address : string) (disbursement : DisbursementView)
    (available amount pending : Q) : err :=
  EOpaque "InsufficientBalanceError" (ENew ("the disbursement " +:+ Dis_ID (dv_row disbursement)
    +:+ " failed due to an account balance (" +:+ decimal_StringFixed2 available
    +:+ ") that was insufficient to fulfill new amount (" +:+ decimal_StringFixed2 amount
    +:+ ") along with the pending amount (" +:+ decimal_StringFixed2 pending
    +:+ "). To complete this action, your distribution account (" +:+ address
    +:+ ") needs to be recharged with at least "
    +:+ decimal_StringFixed2 (Qminus (Qplus amount pending) available) +:+ " "
    +:+ Code (dv_Asset disbursement))).

(** The statistics of a disbursement without payments are a nil pointer. *)
Definition validateBalanceForDisbursement (distributionAccount : TransactionAccount)
    (disbursement : DisbursementView) (stats : option DisbursementStats) : M unit :=
  let! availableBalance := wrapM ("getting balance for asset (" +:+ Code (dv_Asset disbursement)
      +:+ "," +:+ Issuer (dv_Asset disbursement) +:+ ") on distribution account")
    (ask_res (fun t => GetBalance t distributionAccount (dv_Asset disbursement))) in
  match stats with
  | None => throw nil_dereference
  | Some st =>
    let! totalAmount := wrapM ("cannot convert total amount " +:+ TotalAmount st
        +:+ " for disbursement id " +:+ Dis_ID (dv_row disbursement) +:+ " to decimal")
      (lift (decimal_NewFromString (TotalAmount st))) in
    let! disbursementAmount :=
      (if AmountDisbursed st =? "" then mret_ totalAmount
       else
         let! amountDisbursed := wrapM ("cannot convert amount disbursed " +:+ AmountDisbursed st
             +:+ " for disbursement id " +:+ Dis_ID (dv_row disbursement) +:+ " to decimal")
           (lift (decimal_NewFromString (AmountDisbursed st))) in
         mret_ (Qminus totalAmount amountDisbursed)) in
    let! incompletePayments := wrapM "cannot retrieve incomplete payments"
      (GetAllByStatus PaymentInProgressStatuses) in
    let! totalPendingAmount := lift (sum_pending disbursement incompletePayments 0%Q) in
    let requiredAmount := Qplus disbursementAmount totalPendingAmount in
    lift (guard_err (Qlt_bool availableBalance requiredAmount)
      (InsufficientBalanceError (default "" (TA_ID distributionAccount)) disbursement
         availableBalance disbursementAmount totalPendingAmount))
  end.

(** The user drafted the disbursement or uploaded its instructions. *)
Definition created_by (userID : string) (d : Disbursement) : bool :=
  existsb (fun sh => (DH_UserID sh =? userID)
    && ((DH_Status sh =? DraftDisbursementStatus) || (DH_Status sh =? ReadyDisbursementStatus)))
    (Dis_StatusHistory d).

(** Payments and receiver wallets to READY, the disbursement to STARTED. *)
Definition start_rows (disbursementID userID : string) : M unit :=
  wrapM ("error updating payment status to ready for disbursement with id " +:+ disbursementID)
    (UpdateStatusByDisbursementID disbursementID ReadyPaymentStatus) ;;!
  wrapM ("error updating receiver wallet status to ready for disbursement with id " +:+ disbursementID)
    (RW_UpdateStatusByDisbursementID disbursementID DraftReceiversWalletStatus
       ReadyReceiversWalletStatus) ;;!
  wrapM ("error updating disbursement status to started for disbursement with id " +:+ disbursementID)
    (Disbursement_UpdateStatus userID disbursementID StartedDisbursementStatus).

Definition StartDisbursement (disbursementID userID : string)
    (distributionAccount : TransactionAccount) : M unit :=
  RunInTransaction (
    let! (disbursement, stats) := not_found_as ErrDisbursementNotFound
      ("error getting disbursement with id " +:+ disbursementID) (GetWithStatistics disbursementID) in
    let d := dv_row disbursement in
    if negb (Wal_Enabled (dv_Wallet disbursement)) then throw ErrDisbursementWalletDisabled
    else
      map_errM (fun _ => ErrDisbursementNotReadyToStart)
        (lift (DisbursementStatus_TransitionTo (Dis_Status d) StartedDisbursementStatus)) ;;!
      let! organization := wrapM "error getting organization" Organizations_Get in
      (if IsApprovalRequired organization then
         if Dis_Status d <>? ApprovedDisbursementStatus then throw ErrDisbursementRequiresApprovalStep
         else lift (guard_err (created_by userID d) ErrDisbursementStartedByCreator)
       else mret_ tt) ;;!
      wrapM "validating balance for disbursement"
        (validateBalanceForDisbursement distributionAccount disbursement stats) ;;!
      start_rows disbursementID userID).

Definition SubmitDisbursement (disbursementID userID : string)
    (distributionAccount : TransactionAccount) : M unit :=
  RunInTransaction (
    let! (disbursement, stats) := not_found_as ErrDisbursementNotFound
      ("error getting disbursement with id " +:+ disbursementID) (GetWithStatistics disbursementID) in
    let d := dv_row disbursement in
    if negb (Wal_Enabled (dv_Wallet disbursement)) then throw ErrDisbursementWalletDisabled
    else if Dis_Status d <>? ApprovedDisbursementStatus then throw ErrDisbursementNotReadyToSubmit
    else
      map_errM (fun _ => ErrDisbursementNotReadyToSubmit)
        (lift (DisbursementStatus_TransitionTo (Dis_Status d) StartedDisbursementStatus)) ;;!
      wrapM "validating balance for disbursement"
        (validateBalanceForDisbursement distributionAccount disbursement stats) ;;!
      start_rows disbursementID userID).

Definition PauseDisbursement (disbursementID userID : string) : M unit :=
  RunInTransaction (
    let! disbursement := not_found_as ErrDisbursementNotFound
      ("error getting disbursement with id " +:+ disbursementID) (Disbursement_Get disbursementID) in
    map_errM (fun _ => ErrDisbursementNotReadyToPause)
      (lift (DisbursementStatus_TransitionTo (Dis_Status (dv_row disbursement))
               PausedDisbursementStatus)) ;;!
    wrapM ("error updating payment status to paused for disbursement with id " +:+ disbursementID)
      (UpdateStatusByDisbursementID disbursementID PausedPaymentStatus) ;;!
    wrapM ("error updating disbursement status to started for disbursement with id " +:+ disbursementID)
      (Disbursement_UpdateStatus userID disbursementID PausedDisbursementStatus)).

Definition ApproveDisbursement (disbursementID userID : string) : M unit :=
  RunInTransaction (
    let! disbursement := not_found_as ErrDisbursementNotFound
      ("error getting disbursement with id " +:+ disbursementID) (Disbursement_Get disbursementID) in
    map_errM (fun _ => ErrDisbursementNotReadyToApprove)
      (lift (DisbursementStatus_TransitionTo (Dis_Status (dv_row disbursement))
               ApprovedDisbursementStatus)) ;;!
    let! organization := wrapM "error getting organization" Organizations_Get in
    lift (guard_err (IsApprovalRequired organization && created_by userID (dv_row disbursement))
            ErrDisbursementApprovedByCreator) ;;!
    wrapM ("error updating disbursement status to approved for disbursement with id "
           +:+ disbursementID)
      (Disbursement_UpdateStatus userID disbursementID ApprovedDisbursementStatus)).

(** One step back in the workflow. *)
Definition reject_target (status : string) : res string :=
  if status =? ReadyDisbursementStatus then Ok DraftDisbursementStatus
  else if status =? ApprovedDisbursementStatus then Ok ReadyDisbursementStatus
  else Err ErrDisbursementNotReadyToReject.

Definition RejectDisbursement (disbursementID userID reason : string) : M unit :=
  if TrimSpace reason =? "" then throw ErrDisbursementRejectionReasonRequired
  else RunInTransaction (
    let! disbursement := not_found_as ErrDisbursementNotFound
      ("error getting disbursement with id " +:+ disbursementID) (Disbursement_Get disbursementID) in
    let! targetStatus := lift (reject_target (Dis_Status (dv_row disbursement))) in
    map_errM (fun _ => ErrDisbursementNotReadyToReject)
      (lift (DisbursementStatus_TransitionTo (Dis_Status (dv_row disbursement)) targetStatus)) ;;!
    wrapM ("error updating disbursement status to " +:+ targetStatus +:+ " for disbursement with id "
           +:+ disbursementID)
      (UpdateStatusWithReason userID disbursementID targetStatus reason)).

(** ** Payments *)

Definition CancelPayment (paymentID : string) : M unit :=
  RunInTransaction (
    let! payment := not_found_as ErrPaymentNotFound
      ("error getting payment with id " +:+ paymentID) (Payment_Get paymentID) in
    map_errM (fun _ => ErrPaymentNotReadyToCancel)
      (lift (PaymentStatus_TransitionTo (Pay_Status (pv_row payment)) CanceledPaymentStatus)) ;;!
    let! numRowsAffected := wrapM ("error updating payment status with id " +:+ paymentID
        +:+ " to 'canceled'") (UpdateStatuses [payment] CanceledPaymentStatus) in
    lift (guard_err (numRowsAffected =? 0)%Z ErrPaymentStatusCantBeChanged)).

Definition CancelReadyPayments : M unit :=
  let! organization := wrapM "error getting organization" Organizations_Get in
  match PaymentCancellationPeriodDays organization with
  | None => mret_ tt
  | Some days =>
    wrapM ("canceling ready payments after " +:+ itoa days +:+ " days")
      (CancelPaymentsWithinPeriodDays days)
  end.
End services.
