(* ===== verification/DisbursementHandler.v ===== *)
(** The requests about disbursements: [httphandler/disbursement_handler.go], with
    [ValidateNoHTML] and [ValidatePathIsNotTraversal] of [internal/utils], the
    wallets and assets it reads ([internal/data/wallets.go], [assets.go]) and the
    deletion of a disbursement.  A handler answers with what it renders or with an
    [HTTPError]. *)

From S2P Require Import Prelude GoStrings Errors StateMachine Effects Schema TxStore Limiter Tables.
From S2P Require Import SdpDb PaymentStore ReceiverStore ReceiverWalletStore DisbursementStore Instructions.
From S2P Require Import Validators DisbursementMgmt.
From Stdlib Require Import Ascii String.

Local Open Scope string_scope.
Local Open Scope list_scope.

(** ** Active content

    The regular expressions of [validation.go], which fold case: U+017F folds to s
    and U+212A to k. *)

(** The spaces of a regular expression. *)
Definition is_space (c : ascii) : bool := existsb (Nat.eqb (code c)) [9; 10; 12; 13; 32]%nat.
Fixpoint drop_spaces (l : list ascii) : list ascii :=
  match l with c :: l' => if is_space c then drop_spaces l' else l | [] => [] end.

(** One letter of either case at the front: it, in lower case, and the rest. *)
Definition take_letter (l : list ascii) : option (ascii * list ascii) :=
  match l with
  | "197"%char :: "191"%char :: l' => Some ("s"%char, l')
  | "226"%char :: "132"%char :: "170"%char :: l' => Some ("k"%char, l')
  | c :: l' => if is_letter c then Some (lower_char c, l') else None
  | [] => None
  end.

(** Letters and digits; the fuel is the number of bytes. *)
Fixpoint drop_alnum (fuel : nat) (l : list ascii) : list ascii :=
  match fuel, l with
  | S fuel', c :: l' =>
    if is_digit c then drop_alnum fuel' l'
    else match take_letter l with Some (_, l'') => drop_alnum fuel' l'' | None => l end
  | _, _ => l
  end.

(** At the front: an angle bracket, a slash or not, a name; then the other bracket,
    or a space and anything before it. *)
Definition html_tag_here (l : list ascii) : bool :=
  match l with
  | "<"%char :: l1 =>
    let l2 := drop_spaces l1 in
    let l3 := match l2 with "/"%char :: l' => drop_spaces l' | _ => l2 end in
    match take_letter l3 with
    | Some (_, l4) =>
      match drop_alnum (List.length l4) l4 with
      | ">"%char :: _ => true
      | c :: l5 => is_space c && existsb (Ascii.eqb ">"%char) l5
      | [] => false
      end
    | None => false
    end
  | _ => false
  end.

Fixpoint take_word (word : list ascii) (l : list ascii) : option (list ascii) :=
  match word with
  | [] => Some l
  | c :: word' =>
    match take_letter l with
    | Some (c', l') => if Ascii.eqb c c' then take_word word' l' else None
    | None => None
    end
  end.

(** The word, spaces and the punctuation at the front. *)
Definition call_here (word : string) (punctuation : ascii) (l : list ascii) : bool :=
  match take_word (list_ascii_of_string word) l with
  | Some l' => match drop_spaces l' with c :: _ => Ascii.eqb c punctuation | [] => false end
  | None => false
  end.

(** A match anywhere; a border is the one between a word character and another. *)
Definition is_word_char (c : ascii) : bool := is_alnum c || Ascii.eqb c "_"%char.

Fixpoint somewhere (here : list ascii -> bool) (l : list ascii) : bool :=
  match l with [] => false | _ :: l' => here l || somewhere here l' end.

Fixpoint at_border (here : list ascii -> bool) (after_word : bool) (l : list ascii) : bool :=
  match l with
  | [] => false
  | c :: l' => (negb (Bool.eqb after_word (is_word_char c)) && here l) || at_border here (is_word_char c) l'
  end.

Definition active_content (s : string) : bool :=
  let l := list_ascii_of_string s in
  somewhere html_tag_here l || at_border (call_here "javascript" ":"%char) false l
  || at_border (call_here "expression" "("%char) false l.

Example tags :
  map active_content ["<b>"; "< / SCRIPT src=x >"; "a < b"; "<1>"; "x <b y"; "see javaScript :x"; "myjavascript:x";
    "width: Expression (1)"; "<b/>"] = [true; true; false; false; false; true; false; true; false].
Proof. reflexivity. Qed.

(** [html.UnescapeString]. *)
Class HtmlText := { html_UnescapeString : string -> string }.

Definition ValidateNoHTML {H : HtmlText} (s : string) : res unit :=
  if s =? "" then Ok tt
  else if active_content s then Err (ENew "input contains HTML or active content")
  else guard_err (active_content (html_UnescapeString s)) (ENew "input contains HTML or active content").

(** Two dots that are a whole element of the path. *)
Definition is_separator (c : ascii) : bool := Ascii.eqb c "/"%char || Ascii.eqb c "\"%char.
Fixpoint path_traversal (after_separator : bool) (l : list ascii) : bool :=
  match l with
  | [] => false
  | c :: l' =>
    (after_separator && match l with
                        | "."%char :: "."%char :: [] => true
                        | "."%char :: "."%char :: d :: _ => is_separator d
                        | _ => false
                        end)
    || path_traversal (is_separator c) l'
  end.

Definition ValidatePathIsNotTraversal (p : string) : res unit :=
  guard_err (path_traversal true (list_ascii_of_string p)) (ENew "path cannot contain path traversal").

(** [filepath.Ext]: from the last dot of the last element of the path. *)
Fixpoint ext_from (ext : option (list ascii)) (l : list ascii) : list ascii :=
  match l with
  | [] => default [] ext
  | "/"%char :: l' => ext_from None l'
  | "."%char :: l' => ext_from (Some l) l'
  | _ :: l' => ext_from ext l'
  end.
Definition filepath_Ext (path : string) : string :=
  string_of_list_ascii (ext_from None (list_ascii_of_string path)).

Example paths :
  map filepath_Ext ["a.csv"; "a.b/c"; "a.tar.csv"; "csv"] = [".csv"; ""; ".csv"; ""] /\
  map (fun p => is_ok (ValidatePathIsNotTraversal p)) ["a/../b"; ".."; "..a"; "a..csv"; "x\.."; "../x"]
  = [false; false; true; true; false; false].
Proof. done. Qed.

(** ** Requests *)

Record PostDisbursementRequest := mkPostDisbursementRequest {
  Req_Name : string;
  Req_WalletID : string;
  Req_AssetID : string;
  Req_VerificationField : string;
  Req_RegistrationContactType : RegistrationContactType;
  Req_ReceiverRegistrationMessageTemplate : string }.

(** A form as the packages of the language parsed it: the JSON of its [data] field,
    the name and the content of its file.  A body is a form or JSON. *)
Record MultipartForm := mkMultipartForm {
  form_data : res PostDisbursementRequest;
  form_file : res (string * res string) }.

Inductive Body :=
  | FormBody (form : res MultipartForm)
  | JSONBody (req : res PostDisbursementRequest).

Definition limitCSVUploadRequestSize (body : Body) : res unit :=
  match body with
  | FormBody (Err e) =>
    Err (match As_Opaque "MaxBytesError" e with
         | Some _ => BadRequest "could not parse multipart form data" (Some (EWrap "request body too large" e))
         | None => BadRequest "could not parse multipart form data" (Some (EWrap "parsing multipart form" e))
         end)
  | _ => Ok tt
  end.

Definition FormFile (body : Body) : res (string * res string) :=
  match body with
  | FormBody (Ok form) => form_file form
  | FormBody (Err e) => Err e
  | JSONBody _ => Err (EExternal "request Content-Type isn't multipart/form-data")
  end.

(** The content and the name of the file. *)
Definition parseCsvFromMultipartRequest (body : Body) : res (string * string) :=
  match FormFile body with
  | Err e => Err (BadRequest "could not parse file" (Some e))
  | Ok (filename, content) =>
    if negb (is_ok (ValidatePathIsNotTraversal filename))
    then Err (BadRequest "file name contains invalid traversal pattern" None)
    else if filepath_Ext filename <>? ".csv" then Err (BadRequest "the file extension should be .csv" None)
    else match content with
    | Err e => Err (BadRequest "could not read file" (Some e))
    | Ok buf => Ok (buf, filename)
    end
  end.

(** The error of a request that the validator refused; what it found is in the
    extras. *)
Definition invalid (msg : string) : err := BadRequest msg None.

(** An error that [errors.As] finds to be an [HTTPError], or an internal one. *)
Definition rendered (msg : string) (e : err) : err :=
  match As_HTTP e with
  | Some h => EHTTP (HE_StatusCode h) (HE_Message h) (HE_ErrorCode h) (HE_Err h)
  | None => InternalError msg (Some e)
  end.

(** [errors.Is] against the cases of a switch, in order. *)
Fixpoint first_case (e : err) (cases : list (err * (err -> err))) (fallback : err -> err) : err :=
  match cases with
  | [] => fallback e
  | (sentinel, answer) :: cases' =>
    if errors_Is_err e sentinel then answer e else first_case e cases' fallback
  end.

Definition not_found (sentinel : err) : err * (err -> err) :=
  (sentinel, fun e => NotFound (Error sentinel) (Some e)).
Definition bad_request (sentinel : err) : err * (err -> err) :=
  (sentinel, fun e => BadRequest (Error sentinel) (Some e)).
Definition forbidden (sentinel : err) (msg : string) : err * (err -> err) :=
  (sentinel, fun e => Forbidden msg (Some e)).

Definition ErrDisbursementStatusCantBeChanged : err :=
  ESentinel "disbursement status can't be changed to the requested status".

(** ** Wallets, assets *)

(** [ORDER BY name]. *)
Fixpoint insert_by_name {Co : Collation} (w : Wallet) (l : list Wallet) : list Wallet :=
  match l with
  | [] => [w]
  | w' :: l' => if text_le (Wal_Name w) (Wal_Name w') then w :: l else w' :: insert_by_name w l'
  end.
Definition order_by_name {Co : Collation} (l : list Wallet) : list Wallet := foldr insert_by_name [] l.

Inductive WalletFilter :=
  | FilterEnabledWallets (value : bool)
  | FilterUserManaged (value : bool)
  | FilterEmbedded (value : bool)
  | FilterIncludeDeleted (value : bool).

Definition filter_condition (f : WalletFilter) (w : Wallet) : bool :=
  match f with
  | FilterEnabledWallets b => Bool.eqb (Wal_Enabled w) b
  | FilterUserManaged b => Bool.eqb (Wal_UserManaged w) b
  | FilterEmbedded b => Bool.eqb (Wal_Embedded w) b
  | FilterIncludeDeleted _ => true
  end.

(** The last filter of the kind counts. *)
Definition include_deleted (filters : list WalletFilter) : bool :=
  foldl (fun b f => match f with FilterIncludeDeleted b' => b' | _ => b end) false filters.

Definition newWalletQuery {Co : Collation} (filters : list WalletFilter) (db : SdpDb) : list Wallet :=
  order_by_name (filter (fun w => forallb (fun f => filter_condition f w) filters
    && (include_deleted filters || bool_decide (Wal_DeletedAt w = None)) = true) (wallets db)).

Section handlers.
Context {D L Ev : Type} {E : Env D} {C : Conn D SdpDb} {SDK : StellarSdk} {N : Numerics} {U : UuidGen}
  {B : Bcrypt} {R : MapRange} {PN : PhoneNumbers} {H : HtmlText} {Co : Collation}.
Abbreviation M := (M D L Ev).

(** On the connection pool. *)
Definition Wallets_Get (id : string) : M Wallet :=
  no_rows_as ErrRecordNotFound ("error querying wallet ID " +:+ id)
    (pool_query (fun _ db =>
      match lookup_wallet id db with Some w => Ok w | None => Err (ESentinel sql_ErrNoRows) end)).

Definition FindWallets (filters : list WalletFilter) : M (list Wallet) :=
  wrapM "querying wallets" (pool_query (fun _ db => Ok (newWalletQuery filters db))).

Definition Assets_Get (id : string) : M Asset :=
  no_rows_as ErrRecordNotFound ("error querying asset ID " +:+ id)
    (pool_query (fun _ db =>
      match lookup_asset id db with Some a => Ok a | None => Err (ESentinel sql_ErrNoRows) end)).

(** ** Creating *)

Definition validate_wallet (req : PostDisbursementRequest) (v : Validator) : M Validator :=
  let trimmedWalletID := TrimSpace (Req_WalletID req) in
  let v := Check_ (trimmedWalletID <>? "") "wallet_id" "wallet_id is required" v in
  let! (wallet, v) :=
    (if trimmedWalletID <>? "" then
       let! fetched := try_ (Wallets_Get trimmedWalletID) in
       mret_ match fetched with
             | Ok w => (Some w, v)
             | Err _ => (None, Check_ false "wallet_id" "wallet_id could not be retrieved" v)
             end
     else mret_ (None, v)) in
  let walletIsEmbedded := match wallet with Some w => Wal_Embedded w | None => false end in
  mret_ (if negb walletIsEmbedded || (Req_VerificationField req <>? "")
         then Check_ (slices_Contains GetAllVerificationTypes (Req_VerificationField req)) "verification_field"
                ("verification_field must be one of [" +:+ Join " " GetAllVerificationTypes +:+ "]") v
         else v).

Definition validateRequest (req : PostDisbursementRequest) : M Validator :=
  let v := NewValidator in
  let v := Check_ (Req_Name req <>? "") "name" "name is required" v in
  let v := Check_ (Req_AssetID req <>? "") "asset_id" "asset_id is required" v in
  let v := Check_ (bool_decide (Req_RegistrationContactType req ∈ AllRegistrationContactTypes))
    "registration_contact_type" ("registration_contact_type must be one of ["
      +:+ Join " " (map RCT_String AllRegistrationContactTypes) +:+ "]") v in
  let v := CheckError (ValidateNoHTML (Req_ReceiverRegistrationMessageTemplate req))
    "receiver_registration_message_template"
    "receiver_registration_message_template cannot contain HTML, JS or CSS" v in
  if negb (IncludesWalletAddress (Req_RegistrationContactType req)) then validate_wallet req v
  else
    mret_ (Check_ (Req_WalletID req =? "") "wallet_id"
             "wallet_id is not allowed for this registration contact type"
             (Check_ (Req_VerificationField req =? "") "verification_field"
                "verification_field is not allowed for this registration contact type" v)).

(** The wallet of a new disbursement: the first user managed one, or the one asked for. *)
Definition choose_wallet (req : PostDisbursementRequest) : M Wallet :=
  if IncludesWalletAddress (Req_RegistrationContactType req) then
    let! found := map_errM (fun e => InternalError "Cannot get wallets" (Some e))
      (FindWallets [FilterUserManaged true; FilterEnabledWallets true]) in
    lift match found with
         | wallet :: _ => Ok wallet
         | [] => Err (BadRequest "No User Managed Wallets found" None)
         end
  else map_errM (fun e => BadRequest "Wallet ID could not be retrieved" (Some e))
         (Wallets_Get (Req_WalletID req)).

Definition new_disbursement (req : PostDisbursementRequest) (userID : string) (wallet : Wallet)
    (asset : Asset) (now : Z) : Disbursement :=
  mkDisbursement "" (Req_Name req) (Wal_ID wallet) (Asset_ID asset) DraftDisbursementStatus
    (Some (Req_VerificationField req))
    [mkDisbursementHistory userID DraftDisbursementStatus now ""]
    (Req_ReceiverRegistrationMessageTemplate req) None "" (Req_RegistrationContactType req) 0 0.

Definition createNewDisbursement (userID : string) (req : PostDisbursementRequest) : M DisbursementView :=
  let! wallet := choose_wallet req in
  if negb (Wal_Enabled wallet)
  then throw (BadRequest "Wallet is not enabled" (Some (ENew "wallet is not enabled")))
  else
    let! asset := map_errM (fun e => BadRequest "asset ID could not be retrieved" (Some e))
      (Assets_Get (Req_AssetID req)) in
    let! now := ask env_now in
    let! newID := map_errM (fun e =>
        if errors_Is_err e ErrRecordAlreadyExists then Conflict "disbursement already exists" (Some e)
        else BadRequest "could not create disbursement" (Some e))
      (Disbursement_Insert (new_disbursement req userID wallet asset now)) in
    map_errM (fun e => InternalError ("Cannot retrieve disbursement for ID: " +:+ newID) (Some e))
      (Disbursement_Get newID).

Definition postDisbursementOnly (req : PostDisbursementRequest) (userID : string) : M DisbursementView :=
  let! v := validateRequest req in
  if HasErrors v then throw (invalid "") else createNewDisbursement userID req.

(** ** Instructions *)

Section csv.
Context (gocsv_Unmarshal : string -> option (list DisbursementInstruction)).
Context (csv_headers : string -> res (list string)).

(** How the errors of [ProcessAll] are answered; [errors.Unwrap] is one step. *)
Definition Unwrap (e : err) : option err :=
  match e with
  | EWrap _ e' | EHorizon _ _ e' _ | ERPC _ e' | ETransactionStatusUpdate _ _ _ e' => Some e'
  | ESimulation (mkSimulationError _ o _) | EHTTP _ _ _ o => o
  | ESentinel _ | ENew _ | EExternal _ | EOpaque _ _ | EAPI _ _ _ | EJoin _ _ _ => None
  end.
Definition unwrapped (sentinel : err) : err * (err -> err) :=
  (sentinel, fun e => match Unwrap e with
                      | Some e' => BadRequest (Error e') (Some e)
                      | None => nil_dereference
                      end).

Definition instructions_error (disbursementID : string) (e : err) : err :=
  first_case e
    [(ErrMaxInstructionsExceeded, fun e => BadRequest ("number of instructions exceeds maximum of "
        +:+ itoa MaxInstructionsPerDisbursement) (Some e));
     unwrapped ErrReceiverVerificationMismatch; unwrapped ErrReceiverWalletAddressMismatch;
     (ErrDuplicateWalletAddress, fun e => Conflict (Error e) (Some e))]
    (fun e => InternalError ("Cannot process instructions for disbursement with ID " +:+ disbursementID)
                (Some e)).

Definition validateAndProcessInstructions (body : Body) (userID : string) (disbursement : DisbursementView) :
    M unit :=
  let row := dv_row disbursement in
  let! (buf, filename) := wrapM "could not parse csv file" (lift (parseCsvFromMultipartRequest body)) in
  let skipVerification := Wal_Embedded (dv_Wallet disbursement)
    && (default "" (Dis_VerificationField row) =? "") in
  map_errM (fun e => BadRequest ("CSV columns are not valid for registration contact type "
      +:+ RCT_String (Dis_RegistrationContactType row) +:+ ": " +:+ Error e) (Some e))
    (lift (validateCSVHeaders csv_headers buf (Dis_RegistrationContactType row) skipVerification)) ;;!
  let! now := ask env_now in
  match parseInstructionsFromCSV gocsv_Unmarshal now buf (Dis_RegistrationContactType row)
          (default "" (Dis_VerificationField row)) with
  | Err _ => throw (invalid "could not parse csv file")
  | Ok instructions =>
    map_errM (instructions_error (Dis_ID row))
      (ProcessAll (mkInstructionsOpts userID instructions disbursement
         (mkDisbursementUpdate (Dis_ID row) filename buf) MaxInstructionsPerDisbursement))
  end.

Definition PostDisbursementInstructions (user : res string) (disbursementID : string) (body : Body) : M unit :=
  match user with
  | Err e => throw (InternalError ("Cannot get user from context token when processing instructions for disbursement with ID "
      +:+ disbursementID) (Some e))
  | Ok userID =>
    lift (limitCSVUploadRequestSize body) ;;!
    map_errM (rendered "Cannot process instructions for disbursement") (RunInTransaction (
      let! disbursement := map_errM (fun e => BadRequest "disbursement ID is invalid" (Some e))
        (Disbursement_Get disbursementID) in
      if negb (slices_Contains [DraftDisbursementStatus; ReadyDisbursementStatus]
                 (Dis_Status (dv_row disbursement)))
      then throw (BadRequest "disbursement is not in draft or ready status" None)
      else validateAndProcessInstructions body userID disbursement))
  end.

Definition postDisbursementWithInstructions (body : Body) (userID : string) : M DisbursementView :=
  let data := match body with
    | FormBody (Ok form) => form_data form
    | _ => Err (EExternal "unexpected end of JSON input")   (* no field of that name *)
    end in
  let! req := map_errM (fun e => BadRequest (Error e) (Some e)) (lift data) in
  map_errM (rendered "Cannot create disbursement") (RunInTransactionWithResult (
    let! disbursement := createNewDisbursement userID req in
    wrapM "could not process instructions" (validateAndProcessInstructions body userID disbursement) ;;!
    mret_ disbursement)).

Definition PostDisbursement (user : res string) (body : Body) : M DisbursementView :=
  match user with
  | Err e => throw (InternalError "Cannot get user" (Some e))
  | Ok userID =>
    lift (limitCSVUploadRequestSize body) ;;!
    match body with
    | FormBody _ => postDisbursementWithInstructions body userID
    | JSONBody parsed =>
      let! req := map_errM (fun e => BadRequest (Error e) (Some e)) (lift parsed) in
      postDisbursementOnly req userID
    end
  end.
End csv.

(** ** Deleting *)

Definition deletable (disbursementID : string) (d : Disbursement) : bool :=
  (Dis_ID d =? disbursementID) && slices_Contains NotStartedDisbursementStatuses (Dis_Status d).

Definition Disbursements_Delete (disbursementID : string) : M unit :=
  let! rowsAffected := map_errM (fun e =>
      if Contains (Error e) "violates foreign key constraint"
      then EWrap ("deleting disbursement " +:+ disbursementID +:+ " because it has associated payments") e
      else EWrap ("deleting disbursement " +:+ disbursementID) e)
    (db_stmt (fun _ db =>
      Ok (List.length (filter (fun d => deletable disbursementID d = true) (disbursements db)),
          db <| disbursements := filter (fun d => negb (deletable disbursementID d) = true) (disbursements db) |>))) in
  lift (guard_err (Nat.eqb rowsAffected 0) ErrRecordNotFound).

(** The constraint of [payments.disbursement_id] is INITIALLY DEFERRED: the commit
    checks it. *)
Definition references_ok (db : SdpDb) : bool :=
  forallb (fun p => match Pay_DisbursementID p with
                    | Some id => existsb (fun d => Dis_ID d =? id) (disbursements db)
                    | None => true
                    end) (payments db).
Definition check_deferred : M unit :=
  wrapM "committing transaction in RunInTransactionWithResult" (db_stmt (fun _ db =>
    if references_ok db then Ok (tt, db)
    else Err (EExternal "pq: update or delete on table disbursements violates foreign key constraint on table payments"))).

Definition ErrDisbursementStarted : err := ESentinel "can't delete disbursement that has started".

Definition DeleteDisbursement (disbursementID : string) : M DisbursementView :=
  map_errM (fun e => first_case e
      [(ErrRecordNotFound, fun e => NotFound "Disbursement not found" (Some e));
       (ErrDisbursementStarted, fun e => BadRequest "Cannot delete a disbursement that has started" (Some e))]
      (fun e => InternalError "Cannot delete disbursement" (Some e)))
    (RunInTransactionWithResult (
      let! disbursement := wrapM "getting disbursement" (Disbursement_Get disbursementID) in
      if negb (slices_Contains NotStartedDisbursementStatuses (Dis_Status (dv_row disbursement)))
      then throw ErrDisbursementStarted
      else
        wrapM "deleting payments" (DeleteAllDraftForDisbursement disbursementID) ;;!
        wrapM "deleting draft or ready disbursement" (Disbursements_Delete disbursementID) ;;!
        check_deferred ;;!
        mret_ disbursement)).

(** ** Statuses *)

Section statuses.
Context {DS : DistributionAccountService}.

(** [DistributionAccountFromContext]: the answer may depend on when it is asked. *)
Context (DistributionAccountFromContext : nat -> res TransactionAccount).

Definition distribution_account : M TransactionAccount :=
  map_errM (fun e => InternalError "Cannot get distribution account" (Some e))
    (ask_res DistributionAccountFromContext).

Definition patch_error (disbursementID toStatus : string) (e : err) : err :=
  first_case e
    [not_found ErrDisbursementNotFound; bad_request ErrDisbursementNotReadyToStart;
     bad_request ErrDisbursementNotReadyToPause; bad_request ErrDisbursementStatusCantBeChanged;
     forbidden ErrDisbursementStartedByCreator
       "Disbursement can't be started by its creator. Approval by another user is required.";
     bad_request ErrDisbursementRequiresApprovalStep; bad_request ErrDisbursementWalletDisabled]
    (fun e => match As_Opaque "InsufficientBalanceError" e with
              | Some balanceErr => Conflict (Error balanceErr) (Some e)
              | None => InternalError ("Cannot update disbursementID=" +:+ disbursementID +:+ " with status="
                          +:+ toStatus +:+ ": " +:+ Error e) (Some e)
              end).

Definition PatchDisbursementStatus (user : res string) (disbursementID : string) (body : res string) :
    M string :=
  let! status := map_errM (fun e => BadRequest "invalid request body" (Some e)) (lift body) in
  let! toStatus := map_errM (fun e => BadRequest "invalid status" (Some e)) (lift (ToDisbursementStatus status)) in
  let! userID := map_errM (fun e => InternalError "Cannot get user from context" (Some e)) (lift user) in
  if toStatus =? StartedDisbursementStatus then
    let! distributionAccount := distribution_account in
    map_errM (patch_error disbursementID toStatus)
      (StartDisbursement disbursementID userID distributionAccount) ;;!
    mret_ "Disbursement started"
  else if toStatus =? PausedDisbursementStatus then
    map_errM (patch_error disbursementID toStatus) (PauseDisbursement disbursementID userID) ;;!
    mret_ "Disbursement paused"
  else throw (patch_error disbursementID toStatus ErrDisbursementStatusCantBeChanged).

Definition PostApproveDisbursement (user : res string) (disbursementID : string) : M string :=
  let! userID := map_errM (fun e => InternalError "Cannot get user from context" (Some e)) (lift user) in
  map_errM (fun e => first_case e
      [not_found ErrDisbursementNotFound; bad_request ErrDisbursementNotReadyToApprove;
       forbidden ErrDisbursementApprovedByCreator
         "Disbursement can't be approved by its creator. Approval by another user is required."]
      (fun e => InternalError ("Cannot approve disbursementID=" +:+ disbursementID +:+ ": " +:+ Error e) (Some e)))
    (ApproveDisbursement disbursementID userID) ;;!
  mret_ "Disbursement approved".

Definition PostRejectDisbursement (user : res string) (disbursementID : string) (body : res string) : M string :=
  let! reason := map_errM (fun e => BadRequest "invalid request body" (Some e)) (lift body) in
  let! userID := map_errM (fun e => InternalError "Cannot get user from context" (Some e)) (lift user) in
  map_errM (fun e => first_case e
      [not_found ErrDisbursementNotFound; bad_request ErrDisbursementNotReadyToReject;
       bad_request ErrDisbursementRejectionReasonRequired]
      (fun e => InternalError ("Cannot reject disbursementID=" +:+ disbursementID +:+ ": " +:+ Error e) (Some e)))
    (RejectDisbursement disbursementID userID reason) ;;!
  mret_ "Disbursement rejected".

(** [errors.Is(err, InsufficientBalanceError{})] compares with an error of no
    disbursement, which none is. *)
Definition submit_error (disbursementID : string) (e : err) : err :=
  first_case e
    [not_found ErrDisbursementNotFound; bad_request ErrDisbursementNotReadyToSubmit;
     bad_request ErrDisbursementWalletDisabled]
    (fun e => InternalError ("Cannot submit disbursementID=" +:+ disbursementID +:+ ": " +:+ Error e) (Some e)).

Definition PostSubmitDisbursement (user : res string) (disbursementID : string) : M string :=
  let! userID := map_errM (fun e => InternalError "Cannot get user from context" (Some e)) (lift user) in
  let! distributionAccount := distribution_account in
  map_errM (submit_error disbursementID) (SubmitDisbursement disbursementID userID distributionAccount) ;;!
  mret_ "Disbursement submitted to Stellar".
End statuses.

(** The file name and the content. *)
Definition GetDisbursementInstructions (disbursementID : string) : M (string * string) :=
  let! disbursement := map_errM (fun e => NotFound "disbursement not found" (Some e))
    (Disbursement_Get disbursementID) in
  let row := dv_row disbursement in
  if Dis_FileContent row =? "" then
    let e := ENew ("disbursement " +:+ disbursementID +:+ " has no instructions file") in
    throw (NotFound (Error e) (Some e))
  else
    let filename := default "" (Dis_FileName row) in
    mret_ (if filepath_Ext filename <>? ".csv" then filename +:+ ".csv" else filename, Dis_FileContent row).
End handlers.
