(* ===== verification/DisbursementSafety.v ===== *)
(** What the disbursement services guarantee: a disbursement is started with an enabled
    wallet, approved where that is asked for, from an account whose balance passed the
    check, with its payments and receiver wallets; it is paused, approved and rejected
    only along its lifecycle. *)

From S2P Require Import Prelude GoStrings Errors StateMachine Effects Schema TxStore Limiter SdpDb.
From S2P Require Import PaymentStore Platform ReceiverWalletStore DisbursementStore DisbursementMgmt.
From Stdlib Require Import QArith.

Local Close Scope Q_scope.
Local Open Scope string_scope.
Local Open Scope list_scope.
Local Open Scope go_scope.

Section store.
Context {D L Ev : Type} {E : Env D} {C : Conn D SdpDb} {CL : ConnLaws D SdpDb} {N : Numerics}.
Implicit Types w : World D L Ev.

(** ** The operations of the stores in an open transaction *)

(** An update that answered, by its effect on each row. *)
Lemma update_payments_open q f w rows w' :
  (forall ctx x, Pay_ID (f ctx x) = Pay_ID x) ->
  w_tx w <> ∅ -> db_stmt (UpdatePayments q f) w = (Ok rows, w') ->
  w_tx w' = w_tx w /\ exists ctx,
    let set x := refresh_payment ctx (f ctx x) in
    rows = map set (filter (fun x => q (sdp w) x = true) (payments (sdp w))) /\
    sdp w' = (sdp w) <| payments := update_where (q (sdp w)) set (payments (sdp w)) |> /\
    NoDup (map Pay_ID (payments (sdp w))) /\
    forall id, lookup_payment id (sdp w') =
      (fun x => if q (sdp w) x then set x else x) <$> lookup_payment id (sdp w).
Proof.
  intros Hid Htx H. apply db_stmt_open in H as (ctx & x' & Hq & Hdb & Ht); [|done].
  split; [done|]. exists ctx. fold (sdp w) in Hq.
  assert (Hx : sdp w' = x') by (unfold sdp; by rewrite Hdb, conn_get_set). rewrite Hx.
  apply UpdatePayments_ok in Hq as (? & ? & ? & ?); [done|apply Hid].
Qed.

Lemma update_disbursements_open q f w rows w' :
  (forall ctx x, Dis_ID (f ctx x) = Dis_ID x) ->
  w_tx w <> ∅ -> db_stmt (UpdateDisbursements q f) w = (Ok rows, w') ->
  w_tx w' = w_tx w /\ exists ctx,
    let set x := refresh_disbursement ctx (f ctx x) in
    rows = map set (filter (fun x => q (sdp w) x = true) (disbursements (sdp w))) /\
    sdp w' = (sdp w) <| disbursements := update_where (q (sdp w)) set (disbursements (sdp w)) |> /\
    NoDup (map Dis_ID (disbursements (sdp w))) /\
    forall id, lookup_disbursement id (sdp w') =
      (fun x => if q (sdp w) x then set x else x) <$> lookup_disbursement id (sdp w).
Proof.
  intros Hid Htx H. apply db_stmt_open in H as (ctx & x' & Hq & Hdb & Ht); [|done].
  split; [done|]. exists ctx. fold (sdp w) in Hq.
  assert (Hx : sdp w' = x') by (unfold sdp; by rewrite Hdb, conn_get_set). rewrite Hx.
  apply UpdateDisbursements_ok in Hq as (? & ? & ? & ?); [done|apply Hid].
Qed.

Lemma update_wallets_open q f w rows w' :
  (forall ctx x, RW_ID (f ctx x) = RW_ID x) ->
  w_tx w <> ∅ -> db_stmt (UpdateReceiverWallets q f) w = (Ok rows, w') ->
  w_tx w' = w_tx w /\ exists ctx,
    let set x := refresh_receiver_wallet ctx (f ctx x) in
    rows = map set (filter (fun x => q (sdp w) x = true) (receiver_wallets (sdp w))) /\
    sdp w' = (sdp w) <| receiver_wallets := update_where (q (sdp w)) set (receiver_wallets (sdp w)) |> /\
    forall id, lookup_receiver_wallet id (sdp w') =
      (fun x => if q (sdp w) x then set x else x) <$> lookup_receiver_wallet id (sdp w).
Proof.
  intros Hid Htx H. apply db_stmt_open in H as (ctx & x' & Hq & Hdb & Ht); [|done].
  split; [done|]. exists ctx. fold (sdp w) in Hq.
  assert (Hx : sdp w' = x') by (unfold sdp; by rewrite Hdb, conn_get_set). rewrite Hx.
  apply UpdateReceiverWallets_ok in Hq as (? & ? & _ & ?); [done|apply Hid].
Qed.

(** The status of a disbursement moved, from one of the lifecycle's sources. *)
Definition disbursement_moved (id userID status reason : string) (db db' : SdpDb) : Prop :=
  exists d ctx, lookup_disbursement id db = Some d /\
    step disbursement_transitions (Dis_Status d) status /\
    lookup_disbursement id db' =
      Some (refresh_disbursement ctx (set_disbursement_status status userID reason ctx d)) /\
    forall other, other <> id -> lookup_disbursement other db' = lookup_disbursement other db.

Lemma updateStatus_open userID id status reason w w' :
  w_tx w <> ∅ -> updateStatus userID id status reason w = (Ok tt, w') ->
  w_tx w' = w_tx w /\ disbursement_moved id userID status reason (sdp w) (sdp w') /\
  payments (sdp w') = payments (sdp w) /\ receiver_wallets (sdp w') = receiver_wallets (sdp w).
Proof.
  intros Htx H. unfold updateStatus in H. apply mbind_ok in H as (rows & w1 & H & Hr).
  apply map_errM_ok, update_disbursements_open in H as (Ht & ctx & Hrows & Hdb & Hnd & Hl); [|done..].
  assert (Hw : w' = w1 /\ exists x, rows = [x]).
  { destruct rows as [|x [|]]; try done. injection Hr as <-. eauto. }
  destruct Hw as [-> [x Hx]]. split; [done|]. split; [|by rewrite Hdb].
  set (q := fun d => (Dis_ID d =? id) && slices_Contains (DisbursementStatus_SourceStatuses status)
                       (Dis_Status d)) in *.
  assert (Hhit : exists d, d ∈ disbursements (sdp w) /\ q d = true).
  { assert (Hin : x ∈ rows) by (rewrite Hx; constructor). rewrite Hrows in Hin.
    apply list_elem_of_fmap in Hin as (d & _ & Hd). apply list_elem_of_filter in Hd as [? ?].
    by exists d. }
  destruct Hhit as (d & Hin & Hq). pose proof Hq as Hq'. apply andb_true_iff in Hq' as [Hid Hsrc].
  apply String.eqb_eq in Hid. apply slices_Contains_spec, disbursement_sources_spec in Hsrc.
  exists d, ctx. assert (Hld : lookup_disbursement id (sdp w) = Some d)
    by by apply (first_such_unique Dis_ID).
  split; [done|]. split; [done|]. split.
  - rewrite Hl, Hld. change (Some (if q d then refresh_disbursement ctx
      (set_disbursement_status status userID reason ctx d) else d) =
      Some (refresh_disbursement ctx (set_disbursement_status status userID reason ctx d))).
    by rewrite Hq.
  - intros other Hne. rewrite Hl. destruct (lookup_disbursement other (sdp w)) as [d0|] eqn:E0; [|done].
    apply first_such_some in E0 as [_ E0]. apply String.eqb_eq in E0.
    change (Some (if q d0 then refresh_disbursement ctx
      (set_disbursement_status status userID reason ctx d0) else d0) = Some d0).
    unfold q. destruct (String.eqb_spec (Dis_ID d0) id); [congruence|done].
Qed.

Definition sources_of_ready : list string := [DraftPaymentStatus; PausedPaymentStatus].

Lemma sources_of_ready_eq : PaymentStatus_SourceStatuses ReadyPaymentStatus = sources_of_ready.
Proof. vm_compute. reflexivity. Qed.

(** The payments of a disbursement in one of the statuses [from] moved to [to]. *)
Definition payments_moved (id : string) (from : list string) (to : string) (db db' : SdpDb) : Prop :=
  exists ctx, forall pid, lookup_payment pid db' =
    (fun p => if of_disbursement id p && slices_Contains from (Pay_Status p)
              then refresh_payment ctx (set_payment_status to None ctx p) else p)
      <$> lookup_payment pid db.

(** The receiver wallets of its payments moved. *)
Definition receives_from (id : string) (db : SdpDb) (rw : ReceiverWallet) : bool :=
  existsb (fun p => of_disbursement id p && (Pay_ReceiverWalletID p =? RW_ID rw)) (payments db).

Definition wallets_moved (id from to : string) (db db' : SdpDb) : Prop :=
  exists ctx, forall rid, lookup_receiver_wallet rid db' =
    (fun rw => if (RW_Status rw =? from) && receives_from id db' rw
               then refresh_receiver_wallet ctx (set_wallet_status to "" ctx rw) else rw)
      <$> lookup_receiver_wallet rid db.

Lemma UpdateStatusByDisbursementID_open id status w w' :
  w_tx w <> ∅ -> UpdateStatusByDisbursementID id status w = (Ok tt, w') ->
  w_tx w' = w_tx w /\
  payments_moved id (PaymentStatus_SourceStatuses status) status (sdp w) (sdp w') /\
  receiver_wallets (sdp w') = receiver_wallets (sdp w) /\
  disbursements (sdp w') = disbursements (sdp w).
Proof.
  intros Htx H. unfold UpdateStatusByDisbursementID in H. apply mbind_ok in H as (rows & w1 & H & Hr).
  injection Hr as <-.
  apply map_errM_ok, update_payments_open in H as (Ht & ctx & _ & Hdb & _ & Hl); [|done..].
  split; [done|]. split; [by exists ctx|by rewrite Hdb].
Qed.

Lemma RW_UpdateStatusByDisbursementID_open {SDK : StellarSdk} id from to w w' :
  w_tx w <> ∅ -> RW_UpdateStatusByDisbursementID id from to w = (Ok tt, w') ->
  w_tx w' = w_tx w /\ step receivers_wallet_transitions from to /\
  wallets_moved id from to (sdp w) (sdp w') /\
  payments (sdp w') = payments (sdp w) /\ disbursements (sdp w') = disbursements (sdp w).
Proof.
  intros Htx H. unfold RW_UpdateStatusByDisbursementID in H. apply mbind_ok in H as ([] & w0 & H0 & H).
  apply map_errM_ok, lift_ok in H0 as [Hstep ->]. apply mbind_ok in H as (rows & w1 & H & Hr).
  injection Hr as <-.
  apply map_errM_ok, update_wallets_open in H as (Ht & ctx & _ & Hdb & Hl); [|done..].
  split; [done|]. split; [by apply ReceiversWalletStatus_TransitionTo_spec|].
  split; [|by rewrite Hdb]. exists ctx. intros rid. rewrite Hl. unfold receives_from. by rewrite Hdb.
Qed.
End store.

Section services.
Context {D L Ev : Type} {E : Env D} {C : Conn D SdpDb} {CL : ConnLaws D SdpDb} {N : Numerics}
  {NL : NumericLaws} {SDK : StellarSdk} {DS : DistributionAccountService}.
Implicit Types w : World D L Ev.

(** ** Starting *)

Definition disbursement_started (id userID : string) (db db' : SdpDb) : Prop :=
  disbursement_moved id userID StartedDisbursementStatus "" db db' /\
  payments_moved id sources_of_ready ReadyPaymentStatus db db' /\
  wallets_moved id DraftReceiversWalletStatus ReadyReceiversWalletStatus db db'.

Lemma start_rows_open id userID w w' :
  w_tx w <> ∅ -> start_rows id userID w = (Ok tt, w') ->
  w_tx w' = w_tx w /\ disbursement_started id userID (sdp w) (sdp w').
Proof.
  intros Htx H. unfold start_rows in H. apply mbind_ok in H as ([] & w1 & H1 & H).
  apply map_errM_ok, UpdateStatusByDisbursementID_open in H1 as (Ht1 & Hp & Hr1 & Hd1); [|done].
  rewrite sources_of_ready_eq in Hp. apply mbind_ok in H as ([] & w2 & H2 & H).
  apply map_errM_ok, RW_UpdateStatusByDisbursementID_open in H2 as (Ht2 & _ & Hw & Hp2 & Hd2);
    [|congruence].
  apply map_errM_ok, updateStatus_open in H as (Ht3 & Hm & Hp3 & Hr3); [|congruence].
  split; [congruence|]. split; [|split].
  - unfold disbursement_moved, lookup_disbursement in *. by rewrite Hd2, Hd1 in Hm.
  - destruct Hp as [ctx Hp]. exists ctx. intros pid. rewrite <- Hp. unfold lookup_payment.
    by rewrite Hp3, Hp2.
  - destruct Hw as [ctx Hw]. exists ctx. intros rid. specialize (Hw rid).
    unfold lookup_receiver_wallet, receives_from in *. by rewrite Hr3, Hw, Hr1, Hp3.
Qed.

(** ** The balance *)

(** What the other payments in progress of the same asset will cost, in units. *)
Definition pending_cost (dv : DisbursementView) (ips : list PaymentView) : Z :=
  foldr (fun ip acc => if counts_as_pending dv ip then Pay_Amount (pv_row ip) + acc else acc)%Z 0%Z ips.

Lemma sum_pending_cost dv ips acc q :
  sum_pending dv ips acc = Ok q -> Qeq q (Qplus acc (pending_cost dv ips # units)).
Proof.
  revert acc. induction ips as [|ip ips IH]; intros acc H; cbn in *.
  - injection H as <-. assert (Hz : Qeq (0 # units) 0%Q) by reflexivity. by rewrite Hz, Qplus_0_r.
  - destruct (counts_as_pending dv ip); [|by apply IH].
    destruct (decimal_of_column (Pay_Amount (pv_row ip))) as (x & Hx & Heq). rewrite Hx in H. cbn in H.
    apply IH in H. rewrite H, Heq, <- Qplus_assoc. apply Qplus_comp; [reflexivity|].
    unfold Qeq, Qplus. cbn [Qnum Qden]. rewrite Pos2Z.inj_mul.
    fold (pending_cost dv ips). ring.
Qed.

Lemma sum_pending_opaque dv ips acc e what e' : sum_pending dv ips acc = Err e -> e <> EOpaque what e'.
Proof.
  revert acc. induction ips as [|ip ips IH]; intros acc H; cbn in H; [done|].
  destruct (counts_as_pending dv ip); [|exact (IH _ H)].
  destruct (decimal_NewFromString _); [exact (IH _ H)|]. by injection H as <-.
Qed.

Lemma wrapM_opaque {A} p (m : M D L Ev A) w e w' what e' : wrapM p m w = (Err e, w') -> e <> EOpaque what e'.
Proof. unfold wrapM, map_errM. destruct (m w) as [[a|e0] w1]; [done|]. by intros [= <- _]. Qed.

Definition in_progress (db : SdpDb) : list PaymentView :=
  map removeEmptyDisbursementForDirect
    (select_payments (fun v => slices_Contains PaymentInProgressStatuses (Pay_Status (pv_row v))) db).

Definition payments_of (id : string) (db : SdpDb) : list Payment :=
  filter (fun p => of_disbursement id p = true) (payments db).

(** The cents the check counts for the disbursement itself: what it pays, less
    what it has paid, each rounded. *)
Definition own_cents (ps : list Payment) : Z :=
  Z.sub (round2 (total ps)) (round2 (total (filter (fun p => (Pay_Status p =? "SUCCESS") = true) ps))).

(** What the check asks of the account, at the instant it reads the balance. *)
Definition funded (acc : TransactionAccount) (dv : DisbursementView) (db : SdpDb) : Prop :=
  exists t balance, GetBalance t acc (dv_Asset dv) = Ok balance /\
    Qle (Qplus (own_cents (payments_of (Dis_ID (dv_row dv)) db) # 100)
           (pending_cost dv (in_progress db) # units)) balance.

Lemma validateBalance_open acc dv w w' :
  w_tx w <> ∅ ->
  validateBalanceForDisbursement acc dv (statistics (payments_of (Dis_ID (dv_row dv)) (sdp w))) w
    = (Ok tt, w') ->
  w_tx w' = w_tx w /\ w_db w' = w_db w /\ funded acc dv (sdp w).
Proof.
  intros Htx H. unfold validateBalanceForDisbursement in H.
  apply mbind_ok in H as (balance & w1 & Hb & H). apply map_errM_ok in Hb. injection Hb as Hb <-.
  destruct (settle_open w Htx) as [Hdb1 Ht1].
  unfold funded, statistics in *. set (ps := payments_of _ _) in *. destruct ps as [|p0 ps0] eqn:Ep; [done|].
  rewrite <- Ep in *. cbn [TotalAmount AmountDisbursed] in H.
  destruct (decimal_of_cents (round2 (total ps))) as (q1 & Hq1 & Heq1). rewrite Hq1 in H.
  apply mbind_ok in H as (tot & w2 & Ht & H). injection Ht as <- <-.
  destruct (String.eqb_spec (numeric2_text (round2 (total (filter
    (fun p => (Pay_Status p =? "SUCCESS") = true) ps)))) "") as [He|_]; [by apply text_of_cents in He|].
  apply mbind_ok in H as (own & w3 & Ho & H). apply mbind_ok in Ho as (paid & w4 & Hp & Ho).
  destruct (decimal_of_cents (round2 (total (filter (fun p => (Pay_Status p =? "SUCCESS") = true) ps))))
    as (q2 & Hq2 & Heq2). rewrite Hq2 in Hp. injection Hp as <- <-. injection Ho as <- <-.
  apply mbind_ok in H as (ips & w5 & Hi & H).
  unfold GetAllByStatus in Hi. apply map_errM_ok, map_errM_ok, db_stmt_open in Hi as (ctx & x' & [= Hips <-] & Hdb5 & Ht5); [|congruence].
  rewrite conn_set_get in Hdb5. apply mbind_ok in H as (pend & w6 & Hs & H).
  apply lift_ok in Hs as [Hs ->]. apply lift_ok in H as [Hg ->]. apply guard_err_ok in Hg.
  split; [congruence|]. split; [congruence|]. exists (w_clock w), balance. split; [done|].
  unfold Qlt_bool in Hg. apply negb_false_iff, Qle_bool_iff in Hg. apply sum_pending_cost in Hs.
  rewrite Hs in Hg. rewrite Hdb1 in Hips. fold (sdp w) in Hips. change (in_progress (sdp w) = ips) in Hips.
  rewrite Hips. eapply Qle_trans; [|exact Hg]. rewrite Heq1, Heq2. unfold own_cents, Qle. cbn.
  fold (total ps). lia.
Qed.
(** Rounding to a cent moves a sum by half a cent at most. *)
Lemma round2_near x : (Z.abs (round2 x * cent - x) <= cent / 2)%Z.
Proof.
  unfold round2, cent. pose proof (Z.div_mod (Z.abs x + 100000 / 2) 100000 ltac:(lia)) as H.
  pose proof (Z.mod_pos_bound (Z.abs x + 100000 / 2) 100000 ltac:(lia)).
  change (100000 / 2)%Z with 50000%Z in *. destruct (Z.sgn_spec x) as [[? ->]|[[? ->]|[? ->]]]; lia.
Qed.

(** ** What the services read *)

Lemma join_disbursement_row db d dv : join_disbursement db d = Some dv -> dv_row dv = d.
Proof.
  unfold join_disbursement.
  destruct (lookup_wallet (Dis_WalletID d) db), (lookup_asset (Dis_AssetID d) db); try done.
  by intros [= <-].
Qed.

Lemma GetWithStatistics_open id w dv st w' :
  w_tx w <> ∅ -> GetWithStatistics id w = (Ok (dv, st), w') ->
  w_db w' = w_db w /\ w_tx w' = w_tx w /\ lookup_disbursement id (sdp w) = Some (dv_row dv) /\
  join_disbursement (sdp w) (dv_row dv) = Some dv /\
  st = statistics (payments_of (Dis_ID (dv_row dv)) (sdp w)).
Proof.
  intros Htx H. unfold GetWithStatistics in H. apply mbind_ok in H as (v & w1 & H1 & H).
  apply map_errM_ok, pool_query_open in H1 as (ctx & Hq & Hdb1 & Ht1); [|done].
  fold (sdp w) in Hq. destruct (lookup_disbursement id (sdp w)) as [d|] eqn:El; [|done].
  destruct (join_disbursement (sdp w) d) as [v'|] eqn:Ej; [|done]. injection Hq as ->.
  pose proof (join_disbursement_row _ _ _ Ej) as Hrow.
  apply mbind_ok in H as (st' & w2 & H2 & H). injection H as -> <- <-. unfold populateStatistics in H2.
  apply map_errM_ok, map_errM_ok, pool_query_open in H2 as (ctx2 & Hq & Hdb2 & Ht2); [|congruence].
  injection Hq as Hq. rewrite Hdb1 in Hq. fold (sdp w) in Hq. rewrite Hrow in *.
  split; [congruence|]. split; [congruence|]. split; [done|]. split; [done|]. by rewrite <- Hq.
Qed.

Lemma Disbursement_Get_open id w dv w' :
  w_tx w <> ∅ -> Disbursement_Get id w = (Ok dv, w') ->
  w_db w' = w_db w /\ w_tx w' = w_tx w /\ lookup_disbursement id (sdp w) = Some (dv_row dv).
Proof.
  intros Htx H. unfold Disbursement_Get in H. apply map_errM_ok in H. unfold GetContext in H.
  apply mbind_ok in H as (o & w1 & H & Ho). apply db_stmt_open in H as (ctx & x & Hq & Hdb & Ht); [|done].
  injection Hq as Hq <-. rewrite conn_set_get in Hdb. fold (sdp w) in Hq.
  destruct (lookup_disbursement id (sdp w)) as [d|]; [|by subst o].
  destruct o as [v|]; [|done]. injection Ho as -> <-. split; [done|]. split; [done|].
  by rewrite (join_disbursement_row _ _ _ Hq).
Qed.

Lemma Organizations_Get_open w org w' :
  w_tx w <> ∅ -> Organizations_Get w = (Ok org, w') ->
  w_db w' = w_db w /\ w_tx w' = w_tx w /\ head (organizations (sdp w)) = Some org.
Proof.
  intros Htx H. unfold Organizations_Get in H.
  apply map_errM_ok, pool_query_open in H as (ctx & Hq & Hdb & Ht); [|done]. fold (sdp w) in Hq.
  split; [done|]. split; [done|]. destruct (organizations (sdp w)); [done|]. by injection Hq as ->.
Qed.

(** ** Starting a disbursement *)

(** Who may start it: with [submit] an approved disbursement, else one that is
    approved by someone other than the starter, if the organization asks for
    approvals. *)
Definition may_start (submit : bool) (userID : string) (d : Disbursement) (db : SdpDb) : Prop :=
  if submit then Dis_Status d = ApprovedDisbursementStatus
  else exists org, head (organizations db) = Some org /\
    (IsApprovalRequired org = true ->
       Dis_Status d = ApprovedDisbursementStatus /\ created_by userID d = false).

(** What was checked before the balance. *)
Lemma start_checks (submit : bool) id userID acc w w' :
  w_tx w !! conn_id SdpDb = None ->
  (if submit then SubmitDisbursement id userID acc else StartDisbursement id userID acc) w = (Ok tt, w') ->
  exists w1 w2 dv w3, w_tx w1 <> ∅ /\ w_db w1 = w_db (settle w) /\ w_db w' = w_db w2 /\
  w_tx w3 = w_tx w1 /\ w_db w3 = w_db w1 /\
  lookup_disbursement id (sdp w1) = Some (dv_row dv) /\ join_disbursement (sdp w1) (dv_row dv) = Some dv /\
  Wal_Enabled (dv_Wallet dv) = true /\ may_start submit userID (dv_row dv) (sdp w1) /\
  (wrapM "validating balance for disbursement" (validateBalanceForDisbursement acc dv
  (statistics (payments_of (Dis_ID (dv_row dv)) (sdp w1)))) ;;! start_rows id userID) w3
  = (Ok tt, w2).
Proof.
  intros Htx Hrun.
  destruct submit; apply RunInTransaction_open in Hrun as (w1 & w2 & H & Ho & Hdb & Hdb' & _); try done.
  all: apply mbind_ok in H as ([dv st] & w3 & H1 & H);
       apply map_errM_ok, GetWithStatistics_open in H1 as (Hdb3 & Htx3 & Hl & Hj & ->); [|done].
  all: destruct (Wal_Enabled (dv_Wallet dv)) eqn:Ew; [cbn [negb] in H|done].
  - destruct (String.eqb_spec (Dis_Status (dv_row dv)) ApprovedDisbursementStatus) as [Ea|];
      [cbn [negb] in H|done].
    apply mbind_ok in H as ([] & w4 & H1 & H). apply map_errM_ok, lift_ok in H1 as [_ ->].
    exists w1, w2, dv, w3. by rewrite Hdb3, Htx3.
  - apply mbind_ok in H as ([] & w4 & H1 & H). apply map_errM_ok, lift_ok in H1 as [_ ->].
    apply mbind_ok in H as (org & w4 & H1 & H).
    apply map_errM_ok, Organizations_Get_open in H1 as (Hdb4 & Htx4 & Horg); [|congruence].
    apply mbind_ok in H as ([] & w5 & H1 & H).
    assert (Hg : w5 = w4 /\ may_start false userID (dv_row dv) (sdp w1)).
    { unfold may_start. replace (sdp w1) with (sdp w3) by (unfold sdp; by rewrite Hdb3).
      destruct (IsApprovalRequired org) eqn:Er; [|injection H1 as <-; split; [done|exists org; split; [done|congruence]]].
      destruct (String.eqb_spec (Dis_Status (dv_row dv)) ApprovedDisbursementStatus) as [Ea|];
        [cbn [negb] in H1|done].
      apply lift_ok in H1 as [H1 ->]. apply guard_err_ok in H1. split; [done|]. by exists org. }
    destruct Hg as [-> Hg]. exists w1, w2, dv, w4. by rewrite Hdb4, Htx4, Hdb3, Htx3.
Qed.

(** C35: A disbursement that starts or is submitted has an enabled wallet.  A submitted
    one is APPROVED, whoever submits it; one that is started is, where the organization
    requires approvals, APPROVED and not of the starter's making.  At the moment of the
    check the balance of the account covered what the check counts: the cents of the
    disbursement, its total and what it has paid each rounded, and the other payments in
    progress in its asset.  It is left STARTED, from a status
    that leads there, its draft and paused payments READY, the draft receiver wallets of
    its payments READY, all in one transaction. *)
Theorem started_disbursements_are_safe (submit : bool) (id userID : string) (acc : TransactionAccount)
    w w' (Htx : w_tx w !! conn_id SdpDb = None)
    (Hrun : (if submit then SubmitDisbursement id userID acc else StartDisbursement id userID acc) w
            = (Ok tt, w')) :
  exists dv, let db := sdp (settle w) in
    lookup_disbursement id db = Some (dv_row dv) /\ join_disbursement db (dv_row dv) = Some dv /\
    Wal_Enabled (dv_Wallet dv) = true /\ may_start submit userID (dv_row dv) db /\
    funded acc dv db /\ disbursement_started id userID db (sdp w').
Proof.
  apply start_checks in Hrun as (w1 & w2 & dv & w3 & Ho & Hdb & Hdb' & Htx3 & Hdb3 & Hl & Hj & Hw & Hm & H); [|done].
  replace (sdp (settle w)) with (sdp w1) by (unfold sdp; by rewrite Hdb).
  replace (sdp w') with (sdp w2) by (unfold sdp; by rewrite Hdb').
  replace (sdp w1) with (sdp w3) in * by (unfold sdp; by rewrite Hdb3).
  apply mbind_ok in H as ([] & w4 & H1 & H).
  apply map_errM_ok, validateBalance_open in H1 as (Ht4 & Hdb4 & Hf); [|congruence].
  apply start_rows_open in H as (_ & Hs); [|congruence].
  unfold sdp in Hs at 1. rewrite Hdb4 in Hs. exists dv. eauto 10.
Qed.

(** How the check ends: by the balance, or by an error of another kind. *)
Lemma balance_check_runs acc dv w r w' :
  w_tx w <> ∅ ->
  validateBalanceForDisbursement acc dv (statistics (payments_of (Dis_ID (dv_row dv)) (sdp w))) w = (r, w') ->
  (exists t balance own pend, GetBalance t acc (dv_Asset dv) = Ok balance /\
     Qeq own (own_cents (payments_of (Dis_ID (dv_row dv)) (sdp w)) # 100) /\
     Qeq pend (pending_cost dv (in_progress (sdp w)) # units) /\
     r = guard_err (Qlt_bool balance (Qplus own pend))
           (InsufficientBalanceError (default "" (TA_ID acc)) dv balance own pend)) \/
  (exists e, r = Err e /\ forall what e', e <> EOpaque what e').
Proof.
  intros Htx H. unfold validateBalanceForDisbursement in H.
  apply mbind_run in H as [(balance & w1 & Hb & H)|(e & Hb & ->)]; [|right; exists e; split; [done|]; intros what e'; exact (wrapM_opaque _ _ _ _ _ what e' Hb)].
  apply map_errM_ok in Hb. injection Hb as Hb <-. destruct (settle_open w Htx) as [Hdb1 Ht1].
  unfold statistics in H. set (ps := payments_of _ _) in *.
  destruct ps as [|p0 ps0] eqn:Ep; [injection H as <- <-; right; by eexists|].
  rewrite <- Ep in *. cbn [TotalAmount AmountDisbursed] in H.
  destruct (decimal_of_cents (round2 (total ps))) as (q1 & Hq1 & Heq1). rewrite Hq1 in H.
  set (paid := total (filter (fun p => (Pay_Status p =? "SUCCESS") = true) ps)) in *.
  apply mbind_run in H as [(tot & w2 & Ht & H)|(e & Ht & ->)]; [injection Ht as <- <-|done].
  destruct (String.eqb_spec (numeric2_text (round2 paid)) "") as [He|_]; [by apply text_of_cents in He|].
  destruct (decimal_of_cents (round2 paid)) as (q2 & Hq2 & Heq2). rewrite Hq2 in H.
  apply mbind_run in H as [(own & w3 & Ho & H)|(e & Ho & ->)]; [injection Ho as <- <-|done].
  apply mbind_run in H as [(ips & w5 & Hi & H)|(e & Hi & ->)]; [|right; exists e; split; [done|]; intros what e'; exact (wrapM_opaque _ _ _ _ _ what e' Hi)].
  unfold GetAllByStatus in Hi. apply map_errM_ok, map_errM_ok, db_stmt_open in Hi
    as (ctx & x' & [= Hips <-] & _ & _); [|congruence].
  rewrite Hdb1 in Hips. fold (sdp w) in Hips. change (in_progress (sdp w) = ips) in Hips.
  apply mbind_run in H as [(pend & w6 & Hs & H)|(e & Hs & ->)].
  2: { right. exists e. split; [done|]. intros what e'. injection Hs as Hs _. exact (sum_pending_opaque _ _ _ _ what e' Hs). }
  apply lift_ok in Hs as [Hs ->]. injection H as <- <-. left.
  exists (w_clock w), balance, (Qminus q1 q2), pend. split; [done|]. split; [|split; [|done]].
  - rewrite Heq1, Heq2. unfold own_cents, Qeq. cbn. fold (total ps) paid. lia.
  - apply sum_pending_cost in Hs. by rewrite Hs, Qplus_0_l, Hips.
Qed.

(** C39: The check of the balance is exact but for the rounding of what the disbursement
    itself costs, a cent: an account that passes it lacks at most a cent of what is
    still to be paid, and one that is refused for its balance has less than a cent
    more than that. *)
Theorem balance_check_within_a_cent (acc : TransactionAccount) dv w r w' (Htx : w_tx w <> ∅)
    (Hrun : validateBalanceForDisbursement acc dv (statistics (payments_of (Dis_ID (dv_row dv)) (sdp w))) w = (r, w')) :
  let owed := payments_of (Dis_ID (dv_row dv)) (sdp w) in
  let paid := filter (fun p => (Pay_Status p =? "SUCCESS") = true) owed in
  let cost := (total owed - total paid + pending_cost dv (in_progress (sdp w)))%Z in
  match r with
  | Ok _ => exists t balance, GetBalance t acc (dv_Asset dv) = Ok balance /\ Qle (cost - cent # units) balance
  | Err e => forall address balance own pend, e = InsufficientBalanceError address dv balance own pend ->
      exists t available, GetBalance t acc (dv_Asset dv) = Ok available /\ Qlt available (cost + cent # units)
  end.
Proof.
  intros owed paid cost. apply balance_check_runs in Hrun; [|done].
  destruct Hrun as [(t & balance & own & pend & Hb & Hown & Hpend & ->)|(e & -> & He)].
  2: { intros address balance own pend Heq. by destruct (He _ _ Heq). }
  assert (Hsum : Qeq (Qplus own pend) (Qplus (own_cents owed # 100) (pending_cost dv (in_progress (sdp w)) # units)))
    by by rewrite Hown, Hpend.
  pose proof (round2_near (total owed)) as H1. pose proof (round2_near (total paid)) as H2.
  assert (Hnear : Qle (cost - cent # units) (Qplus own pend) /\ Qle (Qplus own pend) (cost + cent # units)).
  { rewrite Hsum. unfold cost, own_cents, Qle, Qplus. fold paid. cbn [Qnum Qden]. unfold cent in *.
    change (Z.pos (100 * units)) with 1000000000%Z. change (Z.pos units) with 10000000%Z.
    change (Z.pos 100) with 100%Z. change (100000 / 2)%Z with 50000%Z in *. split; lia. }
  destruct (Qlt_bool balance (Qplus own pend)) eqn:Eq; cbn.
  - intros _ _ _ _ _. exists t, balance. split; [done|]. eapply Qlt_le_trans; [|apply Hnear].
    apply Qnot_le_lt. rewrite <- Qle_bool_iff. unfold Qlt_bool in Eq. by destruct (Qle_bool _ _).
  - exists t, balance. split; [done|]. eapply Qle_trans; [apply Hnear|].
    unfold Qlt_bool in Eq. by apply negb_false_iff, Qle_bool_iff in Eq.
Qed.

(** ** Pausing and reviewing *)

Lemma sources_of_paused_eq : PaymentStatus_SourceStatuses PausedPaymentStatus = [ReadyPaymentStatus].
Proof. vm_compute. reflexivity. Qed.

Lemma to_disbursement_status s t f :
  DisbursementStatus_SourceStatuses t = [f] -> DisbursementStatus_TransitionTo s t = Ok tt -> s = f.
Proof.
  intros Hf H. apply DisbursementStatus_TransitionTo_spec, disbursement_sources_spec in H.
  rewrite Hf in H. by apply list_elem_of_singleton in H.
Qed.

Lemma reject_target_ok s t :
  reject_target s = Ok t ->
  (s, t) ∈ [(ReadyDisbursementStatus, DraftDisbursementStatus);
            (ApprovedDisbursementStatus, ReadyDisbursementStatus)].
Proof.
  unfold reject_target. destruct (String.eqb_spec s ReadyDisbursementStatus) as [->|].
  { intros [= <-]. by constructor. }
  destruct (String.eqb_spec s ApprovedDisbursementStatus) as [->|]; [|done].
  intros [= <-]. by do 2 constructor.
Qed.

Inductive ReviewOp := OpPause | OpApprove | OpReject (reason : string).

Definition run_review (op : ReviewOp) (id userID : string) : M D L Ev unit :=
  match op with
  | OpPause => PauseDisbursement id userID
  | OpApprove => ApproveDisbursement id userID
  | OpReject reason => RejectDisbursement id userID reason
  end.

(** Where an operation leads, and what it does besides. *)
Definition reviewed (op : ReviewOp) (id userID : string) (d : Disbursement) (db db' : SdpDb) : Prop :=
  match op with
  | OpPause =>
    Dis_Status d = StartedDisbursementStatus /\
    disbursement_moved id userID PausedDisbursementStatus "" db db' /\
    payments_moved id [ReadyPaymentStatus] PausedPaymentStatus db db'
  | OpApprove =>
    Dis_Status d = ReadyDisbursementStatus /\
    disbursement_moved id userID ApprovedDisbursementStatus "" db db' /\
    payments db' = payments db /\
    exists org, head (organizations db) = Some org /\
      IsApprovalRequired org && created_by userID d = false
  | OpReject reason =>
    TrimSpace reason <> "" /\
    (exists target, (Dis_Status d, target) ∈ [(ReadyDisbursementStatus, DraftDisbursementStatus);
                                              (ApprovedDisbursementStatus, ReadyDisbursementStatus)] /\
       disbursement_moved id userID target reason db db') /\
    payments db' = payments db
  end.
Lemma Reject_ok id userID reason w w' :
  w_tx w !! conn_id SdpDb = None -> RejectDisbursement id userID reason w = (Ok tt, w') ->
  exists d, lookup_disbursement id (sdp (settle w)) = Some d /\
    reviewed (OpReject reason) id userID d (sdp (settle w)) (sdp w') /\
    receiver_wallets (sdp w') = receiver_wallets (sdp (settle w)).
Proof.
  intros Htx Hrun. unfold RejectDisbursement in Hrun.
  destruct (String.eqb_spec (TrimSpace reason) "") as [|Hreason]; [done|].
  apply RunInTransaction_open in Hrun as (w1 & w2 & H & Ho & Hdb & Hdb' & _); [|done].
  replace (sdp (settle w)) with (sdp w1) by (unfold sdp; by rewrite Hdb).
  replace (sdp w') with (sdp w2) by (unfold sdp; by rewrite Hdb').
  apply mbind_ok in H as (dv & w3 & H1 & H).
  apply map_errM_ok, Disbursement_Get_open in H1 as (Hdb3 & Htx3 & Hl); [|done].
  replace (sdp w1) with (sdp w3) in * by (unfold sdp; by rewrite Hdb3).
  exists (dv_row dv). split; [done|].
  apply mbind_ok in H as (target & w4 & H1 & H). apply lift_ok in H1 as [Ht ->].
  apply mbind_ok in H as ([] & w5 & H1 & H). apply map_errM_ok, lift_ok in H1 as [Hstep ->].
  apply map_errM_ok, updateStatus_open in H as (_ & Hm & Hp6 & Hr6); [|congruence].
  split; [|congruence]. split; [done|]. split; [|done]. exists target. split; [|done].
  by apply reject_target_ok.
Qed.

(** C11: The operations that review and pause a disbursement move it one step of the
    workflow: STARTED is paused, and its ready payments with it; READY is approved, not
    by who made it, where approvals are required; READY is rejected to DRAFT and
    APPROVED to READY, with a reason, which the history keeps.  No other disbursement
    and no receiver wallet changes, and no payment but for a pause. *)
Theorem reviews_follow_workflow (op : ReviewOp) (id userID : string) w w'
    (Htx : w_tx w !! conn_id SdpDb = None) (Hrun : run_review op id userID w = (Ok tt, w')) :
  exists d, lookup_disbursement id (sdp (settle w)) = Some d /\
    reviewed op id userID d (sdp (settle w)) (sdp w') /\
    receiver_wallets (sdp w') = receiver_wallets (sdp (settle w)).
Proof.
  destruct op as [| |reason]; cbn [run_review] in Hrun; [..|by apply Reject_ok].
  all: apply RunInTransaction_open in Hrun as (w1 & w2 & H & Ho & Hdb & Hdb' & _); [|done];
    replace (sdp (settle w)) with (sdp w1) by (unfold sdp; by rewrite Hdb);
    replace (sdp w') with (sdp w2) by (unfold sdp; by rewrite Hdb');
    apply mbind_ok in H as (dv & w3 & H1 & H);
    apply map_errM_ok, Disbursement_Get_open in H1 as (Hdb3 & Htx3 & Hl); [|done];
    replace (sdp w1) with (sdp w3) in * by (unfold sdp; by rewrite Hdb3);
    exists (dv_row dv); (split; [done|]).
  - apply mbind_ok in H as ([] & w4 & H1 & H). apply map_errM_ok, lift_ok in H1 as [Hstep ->].
    apply mbind_ok in H as ([] & w5 & H1 & H).
    apply map_errM_ok, UpdateStatusByDisbursementID_open in H1 as (Ht5 & Hp & Hr & Hd); [|congruence].
    rewrite sources_of_paused_eq in Hp. apply map_errM_ok, updateStatus_open in H as (_ & Hm & Hp6 & Hr6); [|congruence].
    split; [|congruence]. split; [by apply (to_disbursement_status _ PausedDisbursementStatus); [vm_compute; reflexivity|]|]. split.
    + unfold disbursement_moved, lookup_disbursement in *. by rewrite Hd in Hm.
    + destruct Hp as [ctx Hp]. exists ctx. intros pid. rewrite <- Hp. unfold lookup_payment. by rewrite Hp6.
  - apply mbind_ok in H as ([] & w4 & H1 & H). apply map_errM_ok, lift_ok in H1 as [Hstep ->].
    apply mbind_ok in H as (org & w5 & H1 & H).
    apply map_errM_ok, Organizations_Get_open in H1 as (Hdb5 & Ht5 & Horg); [|congruence].
    apply mbind_ok in H as ([] & w6 & H1 & H). apply lift_ok in H1 as [Hg ->]. apply guard_err_ok in Hg.
    apply map_errM_ok, updateStatus_open in H as (_ & Hm & Hp6 & Hr6); [|congruence].
    replace (sdp w5) with (sdp w3) in * by (unfold sdp; by rewrite Hdb5).
    split; [|congruence]. split; [by apply (to_disbursement_status _ ApprovedDisbursementStatus); [vm_compute; reflexivity|]|]. eauto.
Qed.

(** A paused disbursement of an organization that requires approvals is stuck:
    it can be resumed only by starting it, which asks for the status APPROVED,
    and nothing leads from PAUSED there. *)
Theorem paused_is_stuck_under_approval (id userID : string) (acc : TransactionAccount) d org w
    (Htx : w_tx w !! conn_id SdpDb = None)
    (Hd : lookup_disbursement id (sdp (settle w)) = Some d)
    (Hpaused : Dis_Status d = PausedDisbursementStatus)
    (Horg : head (organizations (sdp (settle w))) = Some org) (Happ : IsApprovalRequired org = true) :
  is_ok (fst (StartDisbursement id userID acc w)) = false /\
  is_ok (fst (SubmitDisbursement id userID acc w)) = false /\
  forall op, is_ok (fst (run_review op id userID w)) = false.
Proof.
  assert (Hbad : forall m : M D L Ev unit, (forall w', m w <> (Ok tt, w')) -> is_ok (fst (m w)) = false).
  { intros m Hm. destruct (m w) as [[[]|e] w']; [by destruct (Hm w')|done]. }
  assert (Hread : forall w1 dv, w_db w1 = w_db (settle w) ->
    lookup_disbursement id (sdp w1) = Some (dv_row dv) -> Dis_Status (dv_row dv) = PausedDisbursementStatus).
  { intros w1 dv Hdb Hl. unfold sdp in Hl. rewrite Hdb in Hl. unfold sdp in Hd. congruence. }
  split; [|split]; [..|intros op].
  - apply Hbad. intros w' H. apply RunInTransaction_open in H as (w1 & w2 & H & Ho & Hdb & _); [|done].
    apply mbind_ok in H as ([dv st] & w3 & H1 & H).
    apply map_errM_ok, GetWithStatistics_open in H1 as (Hdb3 & Htx3 & Hl & _); [|done].
    apply (Hread w1 dv Hdb) in Hl. destruct (Wal_Enabled (dv_Wallet dv)); [cbn [negb] in H|done].
    apply mbind_ok in H as ([] & w4 & H1 & H). apply map_errM_ok, lift_ok in H1 as [_ ->].
    apply mbind_ok in H as (org' & w4 & H1 & H).
    apply map_errM_ok, Organizations_Get_open in H1 as (_ & _ & Horg'); [|congruence].
    unfold sdp in Horg'. rewrite Hdb3, Hdb in Horg'. unfold sdp in Horg.
    assert (org' = org) as -> by congruence. rewrite Happ in H.
    apply mbind_ok in H as ([] & w5 & H1 & H). by rewrite Hl in H1.
  - apply Hbad. intros w' H. apply RunInTransaction_open in H as (w1 & w2 & H & Ho & Hdb & _); [|done].
    apply mbind_ok in H as ([dv st] & w3 & H1 & H).
    apply map_errM_ok, GetWithStatistics_open in H1 as (Hdb3 & Htx3 & Hl & _); [|done].
    apply (Hread w1 dv Hdb) in Hl. destruct (Wal_Enabled (dv_Wallet dv)); [cbn [negb] in H|done].
    by rewrite Hl in H.
  - apply Hbad. intros w' H. destruct op as [| |reason]; cbn [run_review] in H.
    3: unfold RejectDisbursement in H; destruct (TrimSpace reason =? ""); [done|].
    all: apply RunInTransaction_open in H as (w1 & w2 & H & Ho & Hdb & _); [|done];
      apply mbind_ok in H as (dv & w3 & H1 & H);
      apply map_errM_ok, Disbursement_Get_open in H1 as (Hdb3 & Htx3 & Hl); [|done];
      apply (Hread w1 dv Hdb) in Hl; rewrite Hl in H; apply mbind_ok in H as (x & w4 & H1 & _);
      revert H1; vm_compute; done.
Qed.

Lemma created_by_grows userID d d' es :
  Dis_StatusHistory d' = Dis_StatusHistory d ++ es -> created_by userID d = true ->
  created_by userID d' = true.
Proof. unfold created_by. intros -> H. by rewrite existsb_app, H. Qed.

(** Who rejects a disbursement is taken for one of its creators from then on:
    the rejection is recorded in the history with the status it goes back to, DRAFT
    or READY, which is how creators are told.  Where approvals are required the
    rejecter can not approve it later, however it is corrected. *)
Theorem rejecter_becomes_creator (id userID reason : string) w w' (Htx : w_tx w !! conn_id SdpDb = None)
    (Hrun : RejectDisbursement id userID reason w = (Ok tt, w')) :
  exists d', lookup_disbursement id (sdp w') = Some d' /\ created_by userID d' = true /\
    forall later d2 es org, w_tx later !! conn_id SdpDb = None ->
      lookup_disbursement id (sdp (settle later)) = Some d2 ->
      Dis_StatusHistory d2 = Dis_StatusHistory d' ++ es ->
      head (organizations (sdp (settle later))) = Some org -> IsApprovalRequired org = true ->
      is_ok (fst (ApproveDisbursement id userID (later : World D L Ev))) = false.
Proof.
  apply Reject_ok in Hrun as (d & _ & (_ & (target & Ht & d0 & ctx & _ & _ & Hl & _) & _) & _); [|done].
  eexists. split; [exact Hl|]. set (d' := refresh_disbursement _ _).
  assert (Hc : created_by userID d' = true).
  { unfold created_by, d'. cbn. rewrite existsb_app. cbn. rewrite eqb_same.
    apply elem_of_cons in Ht as [[= _ ->]|[[= _ ->]|[]%elem_of_nil]%elem_of_cons];
      cbn; by rewrite ?orb_true_r. }
  split; [done|]. intros later d2 es org Htx2 Hl2 Hh Horg Happ.
  destruct (ApproveDisbursement id userID later) as [[[]|e] w2] eqn:Erun; [|done]. exfalso.
  apply RunInTransaction_open in Erun as (w3 & w4 & H & Ho & Hdb & _); [|done].
  apply mbind_ok in H as (dv & w5 & H1 & H).
  apply map_errM_ok, Disbursement_Get_open in H1 as (Hdb5 & Htx5 & Hl5); [|done].
  apply mbind_ok in H as ([] & w6 & H1 & H). apply map_errM_ok, lift_ok in H1 as [_ ->].
  apply mbind_ok in H as (org' & w6 & H1 & H).
  apply map_errM_ok, Organizations_Get_open in H1 as (_ & _ & Horg'); [|congruence].
  apply mbind_ok in H as ([] & w7 & H1 & _). apply lift_ok in H1 as [Hg _]. apply guard_err_ok in Hg.
  unfold sdp in *. rewrite Hdb5, Hdb, Horg in Horg'. injection Horg' as <-.
  rewrite Hdb, Hl2 in Hl5. injection Hl5 as ->. rewrite Happ in Hg.
  by rewrite (created_by_grows userID d' (dv_row dv) es Hh Hc) in Hg.
Qed.
End services.

(** ** Witnesses *)

(** A distribution account with so much of every asset. *)
Definition bank (balance : Q) : DistributionAccountService := {| GetBalances _ _ := Ok ∅; GetBalance _ _ _ := Ok balance |}.

Module Tenant.
Export Platform.
Local Open Scope Z_scope.

(** Two payments of five and seven units of the asset. *)
Definition ready_to_start : World Dbs unit unit :=
  world (sdp_db false [disbursement "d1" ReadyDisbursementStatus]
    [pay "p1" "d1" DraftPaymentStatus 50000000 registered;
     pay "p2" "d1" DraftPaymentStatus 70000000 invited]) [].
Definition approved : World Dbs unit unit :=
  world (sdp_db true [disbursement "d1" ApprovedDisbursementStatus]
    [pay "p1" "d1" DraftPaymentStatus 50000000 registered]) [].
Definition to_review : World Dbs unit unit :=
  world (sdp_db true [disbursement "d1" ReadyDisbursementStatus]
    [pay "p1" "d1" DraftPaymentStatus 50000000 registered]) [].
Definition paused : World Dbs unit unit :=
  world (sdp_db true [disbursement "d1" PausedDisbursementStatus]
    [pay "p1" "d1" PausedPaymentStatus 50000000 registered]) [].

(** The check, while the transaction that starts the disbursement is open. *)
Definition to_start : DisbursementView :=
  mkDisbursementView (disbursement "d1" ReadyDisbursementStatus) wallet xlm.
Definition checking : World Dbs unit unit :=
  ready_to_start <| w_tx := {[ conn_id SdpDb := mkTx false 0 (w_db ready_to_start) ]} |>.

(** A payment of 0.004. *)
Definition tiny : World Dbs unit unit :=
  world (sdp_db false [disbursement "d1" ReadyDisbursementStatus]
    [pay "p1" "d1" DraftPaymentStatus 40000 registered]) [].
End Tenant.
Import Tenant.

(** The statistics round the total of a disbursement to cents, so the check of
    the balance counts a total below half a cent as nothing: the disbursement
    starts although the account is empty. *)
Theorem empty_account_starts_disbursement :
  exists w', StartDisbursement (DS := bank 0) "d1" "starter" account tiny = (Ok tt, w') /\
    Dis_Status <$> lookup_disbursement "d1" (sdp w') = Some StartedDisbursementStatus /\
    (fun p => (Pay_Status p, Pay_Amount p)) <$> lookup_payment "p1" (sdp w')
      = Some (ReadyPaymentStatus, 40000%Z).
Proof. eexists. split; [vm_compute; reflexivity|]. split; vm_compute; reflexivity. Qed.

Lemma started_disbursements_are_safe_witness :
  exists w', StartDisbursement (DS := bank 12) "d1" "starter" account ready_to_start = (Ok tt, w') /\
    disbursement_started "d1" "starter" (sdp (settle ready_to_start)) (sdp w').
Proof.
  eexists. split; [vm_compute; reflexivity|].
  edestruct (started_disbursements_are_safe (DS := bank 12) (C := sdp_conn) (E := env) false "d1" "starter"
    account ready_to_start) as (dv & _ & _ & _ & _ & _ & H);
    [reflexivity|vm_compute; reflexivity|exact H].
Defined.

(** Seven units are too few for payments of twelve, and twelve are enough. *)
Lemma balance_check_within_a_cent_witness :
  (exists w', validateBalanceForDisbursement (DS := bank 12) account to_start
     (statistics (payments_of "d1" (sdp checking))) checking = (Ok tt, w') /\
   exists t balance, GetBalance (DistributionAccountService := bank 12) t account xlm = Ok balance /\
     Qle ((120000000 - 0 + 0 - cent)%Z # units) balance) /\
  exists e w', validateBalanceForDisbursement (DS := bank 7) account to_start
     (statistics (payments_of "d1" (sdp checking))) checking = (Err e, w').
Proof.
  split; [|eexists _, _; vm_compute; reflexivity]. eexists. split; [vm_compute; reflexivity|].
  edestruct (balance_check_within_a_cent (DS := bank 12) (C := sdp_conn) (E := env) account to_start checking (Ok tt))
    as (t & b & H1 & H2); [discriminate|vm_compute; reflexivity|]. exists t, b. split; [exact H1|exact H2].
Defined.

Lemma reviews_follow_workflow_witness :
  exists w', run_review OpApprove "d1" "reviewer" to_review = (Ok tt, w') /\
    disbursement_moved "d1" "reviewer" ApprovedDisbursementStatus "" (sdp (settle to_review)) (sdp w').
Proof.
  eexists. split; [vm_compute; reflexivity|].
  edestruct (reviews_follow_workflow (C := sdp_conn) (E := env) OpApprove "d1" "reviewer" to_review)
    as (d & _ & (_ & H & _) & _); [reflexivity|vm_compute; reflexivity|exact H].
Defined.

Lemma paused_is_stuck_under_approval_witness :
  is_ok (fst (StartDisbursement (DS := bank 12) "d1" "starter" account paused)) = false.
Proof.
  refine (proj1 (paused_is_stuck_under_approval (DS := bank 12) (C := sdp_conn) (E := env) "d1" "starter"
    account (disbursement "d1" PausedDisbursementStatus) (organization true) paused _ _ _ _ _));
    reflexivity.
Defined.

Lemma rejecter_becomes_creator_witness :
  exists w', RejectDisbursement "d1" "reviewer" "wrong amounts" to_review = (Ok tt, w') /\
    exists d', lookup_disbursement "d1" (sdp w') = Some d' /\ created_by "reviewer" d' = true.
Proof.
  eexists. split; [vm_compute; reflexivity|].
  edestruct (rejecter_becomes_creator (C := sdp_conn) (E := env) "d1" "reviewer" "wrong amounts" to_review)
    as (d' & Hl & Hc & _); [reflexivity|vm_compute; reflexivity|]. exists d'. split; [exact Hl|exact Hc].
Defined.
