(* ===== verification/HandlerSafety.v ===== *)
(** What the requests about disbursements guarantee (DisbursementHandler.v): which
    payments an upload of instructions creates and what it never overwrites, when
    a disbursement is deleted, and how errors are answered. *)

From S2P Require Import Prelude GoStrings Errors StateMachine Effects Transactions Schema TxStore Limiter.
From S2P Require Import Tables SdpDb PaymentStore ReceiverStore ReceiverWalletStore DisbursementStore.
From S2P Require Import Instructions Validators DisbursementMgmt DisbursementHandler Platform.
From S2P Require Import InstructionsSafety.

Local Open Scope string_scope.
Local Open Scope list_scope.

Section steps.
Context {D L Ev : Type} {E : Env D} {C : Conn D SdpDb} {CL : ConnLaws D SdpDb} {SDK : StellarSdk}
  {N : Numerics} {U : UuidGen} {B : Bcrypt} {BL : BcryptLaws} {R : MapRange} {PN : PhoneNumbers}.
Abbreviation M := (M D L Ev).
Context (gocsv_Unmarshal : string -> option (list DisbursementInstruction)).
Context (csv_headers : string -> res (list string)).

(** The disbursement as a query reads it. *)
Definition reads (id : string) (v : DisbursementView) (x : SdpDb) : Prop :=
  lookup_disbursement id x = Some (dv_row v) /\
  lookup_wallet (Dis_WalletID (dv_row v)) x = Some (dv_Wallet v) /\
  lookup_asset (Dis_AssetID (dv_row v)) x = Some (dv_Asset v).

Lemma Disbursement_Get_opens id : opens (Disbursement_Get id : M _) (fun v x x' => x' = x /\ reads id v x).
Proof.
  eapply opens_mono; [apply opens_map_err, opens_GetContext|]. intros v x x' [ctx [= Hv <-]].
  split; [done|]. unfold reads. destruct (lookup_disbursement id x) as [d|]; [|done].
  unfold join_disbursement in Hv. destruct (lookup_wallet _ x) eqn:Ew; [|done].
  destruct (lookup_asset _ x) eqn:Ea; [|done]. injection Hv as <-. done.
Qed.

Lemma lookup_wallet_id id x w : lookup_wallet id x = Some w -> Wal_ID w = id.
Proof. intros H. apply first_such_some in H as [_ H]. by apply String.eqb_eq in H. Qed.

(** An upload for the disbursement [v], from one file. *)
Record accepted (body : Body) (userID : string) (v : DisbursementView) (opts : DisbursementInstructionsOpts) :
    Prop := {
  acc_opts : exists ins filename buf, FormFile body = Ok (filename, Ok buf) /\
    opts = mkInstructionsOpts userID ins v (mkDisbursementUpdate (Dis_ID (dv_row v)) filename buf)
             MaxInstructionsPerDisbursement /\
    exists now, accepted_file gocsv_Unmarshal now buf (Dis_RegistrationContactType (dv_row v))
      (default "" (Dis_VerificationField (dv_row v))) ins }.

Lemma parseCsv_ok body buf filename :
  parseCsvFromMultipartRequest body = Ok (buf, filename) -> FormFile body = Ok (filename, Ok buf).
Proof.
  unfold parseCsvFromMultipartRequest. destruct (FormFile body) as [[name content]|e]; [|done].
  destruct (negb _); [done|]. destruct (negb _); [done|]. destruct content; [|done]. by intros [= <- <-].
Qed.

Lemma process_opens body userID v :
  opens (validateAndProcessInstructions gocsv_Unmarshal csv_headers body userID v : M _) (fun _ x x' =>
    tables_ok x -> is_Some (lookup_wallet (Wal_ID (dv_Wallet v)) x) ->
    exists opts, accepted body userID v opts /\ uploaded opts x x').
Proof.
  unfold validateAndProcessInstructions. eapply opens_bind_with; [apply opens_wrap, opens_lift|].
  intros [buf filename]. eapply opens_bind_with; [apply opens_map_err, opens_lift|]. intros ?.
  eapply opens_bind_with; [apply opens_ask|]. intros now.
  destruct (parseInstructionsFromCSV _ _ _ _ _) as [ins|] eqn:Ep; [|apply opens_throw].
  eapply opens_mono; [apply opens_map_err, ProcessAll_opens; reflexivity|].
  intros ? x3 x' H x2 [_ Hx2] x1 [_ Hx1] x [Hcsv Hx] Hok Hwal. subst.
  apply parseInstructionsFromCSV_ok in Ep.
  eexists. split; [|by apply H]. constructor.
  exists ins, filename, buf. split; [by apply parseCsv_ok|]. split; [done|]. by exists now.
Qed.

Lemma PostDisbursementInstructions_ok user id body (w w' : World D L Ev) :
  tables_ok (sdp (settle w)) ->
  PostDisbursementInstructions gocsv_Unmarshal csv_headers user id body w = (Ok tt, w') ->
  exists userID v opts, user = Ok userID /\ reads id v (sdp (settle w)) /\
    Dis_Status (dv_row v) ∈ [DraftDisbursementStatus; ReadyDisbursementStatus] /\
    accepted body userID v opts /\ uploaded opts (sdp (settle w)) (sdp w').
Proof.
  intros Hok. unfold PostDisbursementInstructions. destruct user as [userID|]; [|done].
  intros H. apply mbind_ok in H as (? & w1 & [_ ->]%lift_ok & H). apply map_errM_ok in H.
  eapply RunInTransaction_opens in H.
  2: { eapply opens_bind_with; [apply opens_map_err, Disbursement_Get_opens|]. intros v.
    instantiate (1 := fun _ x x' => tables_ok x -> exists v opts, reads id v x /\
      Dis_Status (dv_row v) ∈ [DraftDisbursementStatus; ReadyDisbursementStatus] /\
      accepted body userID v opts /\ uploaded opts x x').
    destruct (slices_Contains _ _) eqn:Es; cbn [negb]; [|apply opens_throw].
    eapply opens_mono; [apply process_opens|].
    intros ? y x' Hp z [Hy Hr] Hz. subst y.
    destruct Hp as (opts & Hacc & Hup); [done| |].
    - pose proof Hr as (_ & Hw & _). rewrite (lookup_wallet_id _ _ _ Hw), Hw. by eexists.
    - exists v, opts. split; [done|]. split; [|done]. by apply slices_Contains_spec. }
  destruct (H Hok) as (v & opts & ? & ? & ? & ?). by exists userID, v, opts.
Qed.
End steps.

(** The name of the recipient and the type of currency of a file never arrive: the
    validator's copy of an instruction leaves them out. *)
Lemma recipients_are_forgotten {PN : PhoneNumbers} {SDK : StellarSdk} {N : Numerics} gocsv now buf ct field ins :
  accepted_file gocsv now buf ct field ins ->
  Forall (fun di => DI_RecipientName di = "" /\ DI_CurrencyType di = "") ins.
Proof.
  intros (raw & _ & _ & -> & _). apply Forall_forall. intros di Hdi.
  by apply list_elem_of_fmap in Hdi as (x & -> & _).
Qed.

(** ** Deleting *)

Section deleting.
Context {D L Ev : Type} {E : Env D} {C : Conn D SdpDb} {CL : ConnLaws D SdpDb} {N : Numerics}.
Abbreviation M := (M D L Ev).

Lemma references_ok_spec x :
  references_ok x = true <-> forall p id, p ∈ payments x -> Pay_DisbursementID p = Some id ->
    exists d, d ∈ disbursements x /\ Dis_ID d = id.
Proof.
  unfold references_ok. rewrite forallb_forall. split.
  - intros H p id Hp Hid. apply list_elem_of_In, H in Hp. rewrite Hid in Hp.
    apply existsb_exists in Hp as (d & Hd & He). apply String.eqb_eq in He.
    exists d. by apply list_elem_of_In in Hd.
  - intros H p Hp. destruct (Pay_DisbursementID p) as [id|] eqn:Hid; [|done].
    destruct (H p id) as (d & Hd & <-); [by apply list_elem_of_In|done|].
    apply existsb_exists. exists d. split; [by apply list_elem_of_In|apply String.eqb_refl].
Qed.

(** What a deletion leaves. *)
Record deleted (id : string) (v : DisbursementView) (x x' : SdpDb) : Prop := {
  del_read : reads id v x;
  del_status : Dis_Status (dv_row v) ∈ NotStartedDisbursementStatuses;
  del_tables : x' = x <| payments := filter (fun p => negb (of_disbursement id p
      && (Pay_Status p =? DraftPaymentStatus)) = true) (payments x) |>
    <| disbursements := filter (fun d => negb (deletable id d) = true) (disbursements x) |>;
  del_references : references_ok x' = true }.

Lemma delete_opens id :
  opens (let! disbursement := wrapM "getting disbursement" (Disbursement_Get id) in
      if negb (slices_Contains NotStartedDisbursementStatuses (Dis_Status (dv_row disbursement)))
      then throw ErrDisbursementStarted
      else
        wrapM "deleting payments" (DeleteAllDraftForDisbursement id) ;;!
        wrapM "deleting draft or ready disbursement" (Disbursements_Delete id) ;;!
        check_deferred ;;!
        mret_ disbursement : M _) (fun v x x' => deleted id v x x').
Proof.
  eapply opens_bind_with; [apply opens_wrap, Disbursement_Get_opens|]. intros v.
  destruct (slices_Contains _ _) eqn:Es; cbn [negb]; [|apply opens_throw].
  eapply opens_bind_with; [apply opens_wrap, opens_wrap, opens_stmt|]. intros ?.
  eapply opens_bind_with.
  { apply opens_wrap. eapply opens_bind_with; [apply opens_map_err, opens_stmt|]. intros n.
    eapply opens_mono; [apply opens_lift|]. intros ? x x' [_ ->] y [ctx H].
    instantiate (1 := fun _ y x => x = y <| disbursements := filter (fun d => negb (deletable id d) = true)
      (disbursements y) |>). by injection H. }
  intros ?. eapply opens_bind_with; [apply opens_wrap, opens_stmt|]. intros ?.
  eapply opens_mono; [apply opens_ret|].
  intros ? x4 x' [-> ->] x3 [ctx Hr] x2 -> x1 [ctx' H1] x [-> Hx].
  injection H1 as _ <-. destruct (references_ok _) eqn:Href in Hr; [|done]. injection Hr as _ <-.
  constructor; [done|by apply slices_Contains_spec|done|done].
Qed.

Lemma deleted_lookup id v x x' :
  NoDup (map Dis_ID (disbursements x)) -> deleted id v x x' ->
  lookup_disbursement id x' = None /\
  (forall i, i <> id -> lookup_disbursement i x' = lookup_disbursement i x) /\
  forall p, p ∈ payments x -> Pay_DisbursementID p = Some id -> Pay_Status p = DraftPaymentStatus.
Proof.
  intros Hnd [[Hl _] Hs -> Href]. set (x' := x <| payments := _ |> <| disbursements := _ |>) in *.
  assert (Hgone : forall d, d ∈ disbursements x' -> Dis_ID d <> id).
  { intros d Hd Hid. apply list_elem_of_filter in Hd as [Hd Hin].
    assert (d = dv_row v) as ->.
    { assert (Hd' : lookup_disbursement id x = Some d) by by apply (first_such_unique Dis_ID). congruence. }
    unfold deletable in Hd. by rewrite Hid, eqb_same, (proj2 (slices_Contains_spec _ _) Hs) in Hd. }
  split; [|split].
  - apply first_such_none. intros d Hd. apply eqb_false. by apply Hgone.
  - intros i Hi. unfold lookup_disbursement. cbn. rewrite first_such_filter. apply first_such_ext.
    intros d. unfold deletable. destruct (String.eqb_spec (Dis_ID d) i) as [->|_]; [|by rewrite andb_false_r].
    by rewrite (proj2 (eqb_false _ _) Hi).
  - intros p Hp Hid. destruct (String.eqb_spec (Pay_Status p) DraftPaymentStatus) as [|Hne]; [done|].
    destruct (proj1 (references_ok_spec x') Href p id) as (d & Hd & Hdid); [|done|by destruct (Hgone d Hd)].
    apply list_elem_of_filter. split; [|done]. unfold of_disbursement. rewrite (proj2 (eqb_false _ _) Hne).
    by rewrite andb_false_r.
Qed.
End deleting.

(** ** Errors *)

Lemma opaque_is_no_sentinel t e cause s :
  linear e = true -> As_Opaque t e = Some cause -> errors_Is e s = false.
Proof. induction e using err_chain_ind; by cbn. Qed.

Lemma first_case_fallback e cases fallback :
  Forall (fun c => errors_Is_err e (fst c) = false) cases -> first_case e cases fallback = fallback e.
Proof.
  induction 1 as [|[s f] cases H _ IH]; [done|]. cbn in *. by rewrite H.
Qed.

(** ** Properties *)

Section theorems.
Context {D L Ev : Type} {E : Env D} {C : Conn D SdpDb} {CL : ConnLaws D SdpDb} {SDK : StellarSdk}
  {N : Numerics} {U : UuidGen} {B : Bcrypt} {BL : BcryptLaws} {R : MapRange} {PN : PhoneNumbers}.
Context (gocsv_Unmarshal : string -> option (list DisbursementInstruction)).
Context (csv_headers : string -> res (list string)).
Implicit Types w : World D L Ev.

(** C26: An upload that succeeds was for a DRAFT or READY disbursement, of a file of
    at most ten thousand instructions that all pass the validation, with different
    contacts.  It replaces the draft payments of the disbursement by one draft
    payment per instruction, in order: of the instruction's amount, for a receiver
    with its contact and a wallet of the disbursement's kind.  Every other payment
    stays.  The disbursement is READY with the file; no other disbursement
    changes. *)
Theorem upload_replaces_drafts user id body w w'
    (Htables : tables_ok (sdp (settle w)))
    (Hrun : PostDisbursementInstructions gocsv_Unmarshal csv_headers user id body w = (Ok tt, w')) :
  exists v ins now filename buf d1,
    reads id v (sdp (settle w)) /\
    Dis_Status (dv_row v) ∈ [DraftDisbursementStatus; ReadyDisbursementStatus] /\
    FormFile body = Ok (filename, Ok buf) /\
    accepted_file gocsv_Unmarshal now buf (Dis_RegistrationContactType (dv_row v))
      (default "" (Dis_VerificationField (dv_row v))) ins /\
    (Z.of_nat (length ins) <= MaxInstructionsPerDisbursement)%Z /\
    (exists rows, payments (sdp w') =
       filter (fun p => negb (of_disbursement id p && (Pay_Status p =? DraftPaymentStatus)) = true)
         (payments (sdp (settle w))) ++ rows /\
       Forall2 (payment_for v (sdp w')) ins rows) /\
    (forall i, i <> id -> lookup_disbursement i (sdp w') = lookup_disbursement i (sdp (settle w))) /\
    lookup_disbursement id (sdp w') = Some d1 /\ Dis_Status d1 = ReadyDisbursementStatus /\
    Dis_FileName d1 = Some filename /\ Dis_FileContent d1 = buf.
Proof.
  apply PostDisbursementInstructions_ok in Hrun
    as (userID & v & opts & _ & Hr & Hs & [(ins & filename & buf & Hf & -> & now & Ha)] & Hup); [|done].
  pose proof (lookup_disbursement_id _ _ _ (proj1 Hr)) as Hid.
  destruct Hup as [Hcount _ _ _ (rows & Hp & Hrows & _) (_ & Ho & d0 & d1 & _ & H1 & _ & Hd1)].
  cbn in Hcount, Hp, Hrows, Ho, H1, Hd1. rewrite Hid in *.
  exists v, ins, now, filename, buf, d1. by split_and!; [..|exists rows| | | | |]; try apply Hd1.
Qed.

(** C28: An upload takes nothing from the receivers: an address that a wallet has
    stays, and so does its registration; a verification the receiver has confirmed
    is not touched.  Where the receivers are to verify themselves, each receiver
    that is paid has a verification that accepts the value of an instruction
    with its contact. *)
Theorem upload_respects_receivers user id body w w'
    (Htables : tables_ok (sdp (settle w)))
    (Hrun : PostDisbursementInstructions gocsv_Unmarshal csv_headers user id body w = (Ok tt, w')) :
  (forall i rw, lookup_receiver_wallet i (sdp (settle w)) = Some rw ->
     exists rw', lookup_receiver_wallet i (sdp w') = Some rw' /\ wallet_kept rw rw') /\
  (forall rid f v, lookup_verification rid f (sdp (settle w)) = Some v -> RV_ConfirmedAt v <> None ->
     lookup_verification rid f (sdp w') = Some v) /\
  exists v ins now buf, lookup_disbursement id (sdp (settle w)) = Some v /\
    let ct := Dis_RegistrationContactType v in
    let field := default "" (Dis_VerificationField v) in
    accepted_file gocsv_Unmarshal now buf ct field ins /\
    (IncludesWalletAddress ct = false -> field <> "" ->
     forall p, p ∈ payments (sdp w') -> p ∉ payments (sdp (settle w)) ->
       exists r, r ∈ receivers (sdp w') /\ Rec_ID r = Pay_ReceiverID p /\
         vouched ins (ReceiverContactType ct) field (sdp w') r).
Proof.
  apply PostDisbursementInstructions_ok in Hrun
    as (userID & v & opts & _ & Hr & Hs & [(ins & filename & buf & Hf & -> & now & Ha)] & Hup); [|done].
  destruct Hup as [_ _ [_ Hw] [_ Hc] (rows & Hp & _ & Hv) _].
  split; [exact Hw|]. split; [exact Hc|]. exists (dv_row v), ins, now, buf.
  split; [apply Hr|]. split; [exact Ha|]. intros Hinc Hfield p Hin Hout.
  specialize (Hv Hinc Hfield). rewrite Forall_forall in Hv. apply Hv.
  rewrite Hp in Hin. apply elem_of_app in Hin as [Hin|Hin]; [|done].
  by apply list_elem_of_filter in Hin as [_ Hin].
Qed.

(** A disbursement that is deleted had not started, and its payments were all
    drafts; they are gone with it, while every other disbursement and payment is
    as it was. *)
Theorem delete_only_not_started id w v w'
    (Hids : NoDup (map Dis_ID (disbursements (sdp (settle w)))))
    (Hrun : DeleteDisbursement id w = (Ok v, w')) :
  lookup_disbursement id (sdp (settle w)) = Some (dv_row v) /\
  Dis_Status (dv_row v) ∈ NotStartedDisbursementStatuses /\
  lookup_disbursement id (sdp w') = None /\
  (forall i, i <> id -> lookup_disbursement i (sdp w') = lookup_disbursement i (sdp (settle w))) /\
  (forall p, p ∈ payments (sdp (settle w)) -> Pay_DisbursementID p = Some id ->
     Pay_Status p = DraftPaymentStatus) /\
  payments (sdp w') = filter (fun p => negb (of_disbursement id p
    && (Pay_Status p =? DraftPaymentStatus)) = true) (payments (sdp (settle w))) /\
  receivers (sdp w') = receivers (sdp (settle w)) /\
  receiver_wallets (sdp w') = receiver_wallets (sdp (settle w)).
Proof.
  unfold DeleteDisbursement in Hrun. apply map_errM_ok in Hrun.
  eapply RunInTransaction_opens in Hrun; [|apply delete_opens].
  destruct (deleted_lookup _ _ _ _ Hids Hrun) as (H1 & H2 & H3).
  destruct Hrun as [[Hl _] Hs Hx _]. by split_and!; try done; unfold sdp; rewrite Hx.
Qed.

(** A distribution account without the balance is answered with a conflict when a
    disbursement is started by a change of its status, but as an internal error when
    it is submitted. *)
Theorem insufficient_balance_answers id e cause
    (Hlinear : linear e = true) (Hcause : As_Opaque "InsufficientBalanceError" e = Some cause) :
  patch_error id StartedDisbursementStatus e = Conflict (Error cause) (Some e) /\
  exists msg, submit_error id e = EHTTP 500 msg "" (Some e).
Proof.
  pose proof (fun s => opaque_is_no_sentinel _ _ _ s Hlinear Hcause) as Hno. split.
  - unfold patch_error. rewrite first_case_fallback, Hcause; [done|]. by repeat constructor; apply Hno.
  - unfold submit_error. rewrite first_case_fallback; [by eexists|]. by repeat constructor; apply Hno.
Qed.
End theorems.

(** ** Witnesses *)

Module Requests.
Export Upload.

#[export] Instance phones : PhoneNumbers := {| phonenumbers_valid _ := true |}.
#[export] Instance html : HtmlText := {| html_UnescapeString s := s |}.
#[export] Instance collation : Collation := {| text_le a b := (a <=? b)%string |}.

(** A file of two instructions. *)
Definition gocsv (reader : string) : option (list DisbursementInstruction) :=
  Some [instruction "+14155552671" "x1" (text 50000000) "1234";
        instruction " +14155552672" "x2" (text 70000000) "5678"].
Definition headers (reader : string) : res (list string) := Ok ["phone"; "id"; "amount"; "verification"].

Definition request : PostDisbursementRequest :=
  mkPostDisbursementRequest "" "w1" "a1" "" RegistrationContactTypePhone "<script>".
Definition body : Body := FormBody (Ok (mkMultipartForm (Ok request) (Ok ("file.csv", Ok "rows")))).
Definition after := snd (PostDisbursementInstructions gocsv headers (Ok "user") "d1" body before).
End Requests.
Import Requests.

Lemma upload_replaces_drafts_witness :
  exists rows v ins, payments (sdp after) = [] ++ rows /\ Forall2 (payment_for v (sdp after)) ins rows.
Proof.
  destruct (upload_replaces_drafts (E := env) (C := sdp_conn) gocsv headers (Ok "user") "d1" body before after)
    as (v & ins & _ & _ & _ & _ & _ & _ & _ & _ & _ & (rows & Hp & Hf) & _);
    [by_computation|vm_compute; reflexivity|].
  exists rows, v, ins. split; [exact Hp|exact Hf].
Defined.

Lemma upload_respects_receivers_witness : lookup_verification "r1" "PIN" (sdp after) = Some verified.
Proof.
  destruct (upload_respects_receivers (E := env) (C := sdp_conn) gocsv headers (Ok "user") "d1" body before after)
    as (_ & Hc & _); [by_computation|vm_compute; reflexivity|].
  apply Hc; [vm_compute; reflexivity|discriminate].
Defined.

Lemma delete_only_not_started_witness :
  exists w' : World Dbs unit unit, lookup_disbursement "d1" (sdp w') = None /\ payments (sdp w') = [].
Proof.
  eexists. edestruct (delete_only_not_started (E := env) (C := sdp_conn) "d1" before)
    as (_ & _ & H1 & _ & _ & H2 & _); [by_computation|vm_compute; reflexivity|].
  split; [exact H1|]. rewrite H2. reflexivity.
Defined.

Lemma insufficient_balance_answers_witness :
  exists msg, submit_error "d1" (EWrap "validating balance for disbursement"
    (EOpaque "InsufficientBalanceError" (ENew "not enough"))) = EHTTP 500 msg "" (Some
      (EWrap "validating balance for disbursement" (EOpaque "InsufficientBalanceError" (ENew "not enough")))).
Proof. by eapply (insufficient_balance_answers "d1" (EWrap _ (EOpaque _ _)) (ENew "not enough")). Defined.

(** A disbursement without a name, with HTML in the message its receivers get and
    without a verification field is refused as JSON, and created as a form with
    instructions. *)
Theorem forms_are_not_validated :
  (exists msg e, fst (PostDisbursement gocsv headers (Ok "user") (JSONBody (Ok request)) before)
     = Err (EHTTP 400 msg "" e)) /\
  exists v, fst (PostDisbursement gocsv headers (Ok "user") body before) = Ok v /\
    Dis_Name (dv_row v) = "" /\ Dis_ReceiverRegistrationMessageTemplate (dv_row v) = "<script>" /\
    Dis_VerificationField (dv_row v) = None.
Proof. split; [by eexists _, _; vm_compute|]. eexists. split; [vm_compute; reflexivity|done]. Qed.
