(* ===== verification/Tenant.v ===== *)
(** The tenant of a request and what the payments take from it: the distribution
    account ([engine/signing/distribution_account_resolver.go]) and the memo
    ([pkg/tenant/manager.go], [paymentdispatchers/memo_resolver.go]). *)

From S2P Require Import Prelude GoStrings Errors StateMachine Effects Schema TxStore SdpDb.
From S2P Require Import PaymentStore DisbursementStore.

Local Open Scope string_scope.
Local Open Scope list_scope.

(** ** Data: [pkg/schema/tenant.go], [sdpcontext] *)

Record Tenant := mkTenant {
  Ten_ID : string;
  Ten_Name : string;
  BaseURL : option string;
  SDPUIBaseURL : option string;
  Ten_Status : string;
  IsDefault : bool;
  Ten_CreatedAt : Z;
  Ten_UpdatedAt : Z;
  Ten_DeletedAt : option Z;
  DistributionAccountAddress : option string;
  DistributionAccountType : string;
  DistributionAccountStatus : string }.
#[export] Instance eta_Tenant : Eta Tenant := fun r =>
  mkTenant (Ten_ID r) (Ten_Name r) (BaseURL r) (SDPUIBaseURL r) (Ten_Status r) (IsDefault r)
    (Ten_CreatedAt r) (Ten_UpdatedAt r) (Ten_DeletedAt r) (DistributionAccountAddress r)
    (DistributionAccountType r) (DistributionAccountStatus r).

Definition CreatedTenantStatus := "TENANT_CREATED".
Definition ProvisionedTenantStatus := "TENANT_PROVISIONED".
Definition ActivatedTenantStatus := "TENANT_ACTIVATED".
Definition DeactivatedTenantStatus := "TENANT_DEACTIVATED".

Definition TenantStatus_IsValid (s : string) : bool :=
  slices_Contains [CreatedTenantStatus; ProvisionedTenantStatus; ActivatedTenantStatus;
    DeactivatedTenantStatus] s.

(** The tenant in the context of a request, if any. *)
Definition Context_ : Type := option Tenant.

Definition ErrTenantNotFoundInContext : err := ESentinel "tenant not found in context".
Definition ErrDistributionAccountIsEmpty : err := ESentinel "distribution account is empty".

Definition GetTenantFromContext (ctx : Context_) : res Tenant :=
  match ctx with Some t => Ok t | None => Err ErrTenantNotFoundInContext end.

(** ** The memo of a tenant *)

(** [schema.Memo], not yet checked. *)
Record SchemaMemo := mkSchemaMemo { Memo_Value : string; Memo_Type : string }.

(** [url.Parse]: the path of a URL and its text with another path; [None] for
    an error. *)
Class NetUrl := { url_Parse : string -> option (string * (string -> string)) }.

(** [strings.TrimRight(s, "/")]. *)
Fixpoint TrimRight_slash (s : string) : string :=
  match s with
  | EmptyString => ""
  | String c s =>
    let s' := TrimRight_slash s in
    if (s' =? "") && (String c "" =? "/") then "" else String c s'
  end.

Section memo.
Context {URL : NetUrl}.

Definition GenerateHashFromBaseURL (baseURL : string) : string :=
  let baseURL := TrimSpace baseURL in
  let baseURL := match url_Parse baseURL with
    | Some (path, set_path) => set_path (TrimRight_slash path)
    | None => baseURL
    end in
  "sdp-" +:+ String.substring 0 12 (hex_EncodeToString (Sum256 baseURL)).

Definition GenerateMemoForTenant (ctx : Context_) : res SchemaMemo :=
  let? tnt := wrap "getting tenant" (GetTenantFromContext ctx) in
  match BaseURL tnt with
  | None => Err nil_dereference
  | Some u => Ok (mkSchemaMemo (GenerateHashFromBaseURL u) MemoTypeText)
  end.
End memo.

(** ** On the tenant's database *)

Section database.
Context {D L Ev : Type} {E : Env D} {C : Conn D SdpDb} {SDK : StellarSdk} {URL : NetUrl}.
Abbreviation M := (M D L Ev).

Definition MemoResolver_GetMemo (ctx : Context_) (receiverWallet : ReceiverWallet) : M SchemaMemo :=
  if IsValidContractAddress (default "" (RW_StellarAddress receiverWallet))
  then mret_ (mkSchemaMemo "" "")
  else
    let memoValue := default "" (RW_StellarMemo receiverWallet) in
    let memoType := default "" (RW_StellarMemoType receiverWallet) in
    if memoValue <>? ""
    then mret_ (mkSchemaMemo memoValue (if memoType =? "" then MemoTypeID else memoType))
    else
      let! org := wrapM "getting organization" Organizations_Get in
      if negb (IsMemoTracingEnabled org) then mret_ (mkSchemaMemo "" "")
      else wrapM "generating tenant memo" (lift (GenerateMemoForTenant ctx)).

(** No row is not an error. *)
Definition ClientConfig_Get : M (option ClientConfig) :=
  wrapM "getting circle config" (pool_query (fun _ db => Ok (head (circle_client_config db)))).

Definition getDistributionAccount (tnt : Tenant) : M TransactionAccount :=
  if DistributionAccountType tnt =? DistributionAccountCircleDBVault then
    let! cc := wrapM "getting circle client config" ClientConfig_Get in
    mret_ (mkTransactionAccount "" (default "" (cc ≫= WalletID)) DistributionAccountCircleDBVault
             (DistributionAccountStatus tnt))
  else
    match DistributionAccountAddress tnt with
    | None => throw ErrDistributionAccountIsEmpty
    | Some a => mret_ (mkTransactionAccount a "" (DistributionAccountType tnt)
                         (DistributionAccountStatus tnt))
    end.

Definition DistributionAccountFromContext (ctx : Context_) : M TransactionAccount :=
  let! tnt := wrapM "getting tenant" (lift (GetTenantFromContext ctx)) in
  getDistributionAccount tnt.
End database.
