(* ===== verification/Tenants.v ===== *)
(** The tenants in the administrator's database: [manager.go] and [query_params.go]
    of [stellar-multitenant/pkg/tenant]. *)

From S2P Require Import Prelude GoStrings Errors StateMachine Effects Schema TxStore SdpDb PaymentStore.
From S2P Require Import DisbursementMgmt Validators Tenant.
From Stdlib Require Import QArith.

Local Close Scope Q_scope.
Local Open Scope string_scope.
Local Open Scope list_scope.
Local Open Scope go_scope.

(** ** The table [tenants], and the schemas of the tenants *)

Record AdminDb := mkAdminDb {
  tenants : list Tenant;
  schemas : list string }.
#[export] Instance eta_AdminDb : Eta AdminDb := fun r => mkAdminDb (tenants r) (schemas r).

(** The enums of the migrations. *)
Definition tenant_row_ok (t : Tenant) : bool :=
  TenantStatus_IsValid (Ten_Status t)
  && slices_Contains DistributionAccountTypes (DistributionAccountType t)
  && slices_Contains [AccountStatusActive; AccountStatusPendingUserActivation]
       (DistributionAccountStatus t).

(** [idx_unique_name] is on [LOWER(name)]. *)
Definition tenant_names (rows : list Tenant) : list string := map (fun t => ToLower (Ten_Name t)) rows.

Definition tenants_ok (rows : list Tenant) : Prop :=
  Forall (fun t => tenant_row_ok t = true) rows /\ NoDup (map Ten_ID rows) /\ NoDup (tenant_names rows).

#[export] Instance tenants_ok_dec rows : Decision (tenants_ok rows).
Proof. unfold tenants_ok. apply _. Defined.

Definition duplicate_tenant_name : err := EExternal "pq: 23505 idx_unique_name".

Definition check_tenants {A} (a : A) (db : AdminDb) : res (A * AdminDb) :=
  if bool_decide (tenants_ok (tenants db)) then Ok (a, db)
  else if bool_decide (NoDup (tenant_names (tenants db)))
  then Err (EExternal "pq: a constraint of tenants is violated")
  else Err duplicate_tenant_name.

(** [UPDATE tenants SET f WHERE p RETURNING *], with the trigger of [updated_at]. *)
Definition UpdateTenants (p : Tenant -> bool) (f : StmtCtx -> Tenant -> Tenant) : Stmt AdminDb (list Tenant) :=
  fun ctx db =>
    let g t := (f ctx t) <| Ten_UpdatedAt := NOW ctx |> in
    check_tenants (map g (filter (fun t => p t = true) (tenants db)))
      (db <| tenants := update_where p g (tenants db) |>).

Definition lookup_tenant (id : string) (db : AdminDb) : option Tenant :=
  first_such (fun t => Ten_ID t =? id) (tenants db).

(** ** Queries *)

(** [QueryParams]: the filters, and the order by name or none. *)
Record QueryParams := mkQueryParams {
  FilterKeyNameOrID : option string;
  FilterKeyName : option string;
  FilterKeyID : option string;
  FilterKeyIsDefault : option bool;
  FilterKeyStatus : option string;
  FilterKeyOutStatus : option string;
  FilterKeyDeleted : option bool;
  SortByName : bool }.
#[export] Instance eta_QueryParams : Eta QueryParams := fun q =>
  mkQueryParams (FilterKeyNameOrID q) (FilterKeyName q) (FilterKeyID q) (FilterKeyIsDefault q)
    (FilterKeyStatus q) (FilterKeyOutStatus q) (FilterKeyDeleted q) (SortByName q).

Definition no_filters : QueryParams := mkQueryParams None None None None None None None false.

(** [FilterKeyDeleted] is [true] for the tenants that are not deleted. *)
Definition excludeInactiveTenantsFilters : QueryParams :=
  no_filters <| FilterKeyOutStatus := Some DeactivatedTenantStatus |> <| FilterKeyDeleted := Some true |>.
Definition getDeactivatedTenantsFilters : QueryParams :=
  no_filters <| FilterKeyStatus := Some DeactivatedTenantStatus |>.

Definition given {A} (o : option A) (p : A -> bool) : bool :=
  match o with Some a => p a | None => true end.

(** The conditions of [newManagerQuery]: a status that is asked for hides the one
    that is excluded. *)
Definition matches (q : QueryParams) (t : Tenant) : bool :=
  given (FilterKeyNameOrID q) (fun a => (Ten_Name t =? a) || (Ten_ID t =? a))
  && given (FilterKeyName q) (fun a => Ten_Name t =? a)
  && given (FilterKeyID q) (fun a => Ten_ID t =? a)
  && given (FilterKeyIsDefault q) (Bool.eqb (IsDefault t))
  && match FilterKeyStatus q with
     | Some s => Ten_Status t =? s
     | None => given (FilterKeyOutStatus q) (fun s => Ten_Status t <>? s)
     end
  && given (FilterKeyDeleted q) (fun kept => Bool.eqb (bool_decide (Ten_DeletedAt t = None)) kept).

Definition newManagerQuery {Co : Collation} (q : QueryParams) (db : AdminDb) : list Tenant :=
  let rows := filter (fun t => matches q t = true) (tenants db) in
  if SortByName q then sort_with (fun a b => text_le (Ten_Name a) (Ten_Name b)) rows else rows.

(** ** The manager *)

Definition ErrTenantDoesNotExist : err := ESentinel "tenant does not exist".
Definition ErrDuplicatedTenantName : err := ESentinel "duplicated tenant name".
Definition ErrEmptyTenantName : err := ESentinel "tenant name cannot be empty".
Definition ErrEmptyUpdateTenant : err := ESentinel "provide at least one field to be updated".
Definition ErrTooManyDefaultTenants : err :=
  ESentinel "too many default tenants. Expected at most one default tenant".

Definition MinTenantDistributionAccountAmount : Z := 5.
Definition MaxTenantDistributionAccountAmount : Z := 50.

Record TenantUpdate := mkTenantUpdate {
  TU_ID : string;
  TU_BaseURL : option string;
  TU_SDPUIBaseURL : option string;
  TU_Status : option string;
  TU_DistributionAccountAddress : string;
  TU_DistributionAccountType : string;
  TU_DistributionAccountStatus : string }.

(** [url.ParseRequestURI]: whether it parses; [url.Parse]: scheme, host name and
    port, and the text with another host; [url.JoinPath]. *)
Class RequestURLs := {
  url_ParseRequestURI : string -> bool;
  url_scheme : string -> res string;
  url_host : string -> res (string * string * (string -> string));
  url_JoinPath : string -> string -> res string }.

(** Which of two updates of the same row in one statement takes place, a
    data-modifying WITH or the main query: the server does not say. *)
Class SameRowTwice := { main_query_wins : StmtCtx -> bool }.

Section manager.
Context {D L Ev : Type} {E : Env D} {AC : Conn D AdminDb} {Co : Collation} {U : UuidGen} {SDK : StellarSdk}
  {URI : RequestURLs}.
Abbreviation M := (M D L Ev).

Definition isValidURL (u : string) : bool := url_ParseRequestURI u.

Definition areAllFieldsEmpty (tu : TenantUpdate) : bool :=
  bool_decide (TU_BaseURL tu = None) && bool_decide (TU_SDPUIBaseURL tu = None)
  && bool_decide (TU_Status tu = None) && (TU_DistributionAccountAddress tu =? "")
  && (TU_DistributionAccountType tu =? "") && (TU_DistributionAccountStatus tu =? "").

Definition TenantUpdate_Validate (tu : TenantUpdate) : res unit :=
  if TU_ID tu =? "" then Err (ENew "tenant ID is required")
  else if areAllFieldsEmpty tu then Err ErrEmptyUpdateTenant
  else if negb (given (TU_BaseURL tu) isValidURL) then Err (ENew "invalid base URL")
  else if negb (given (TU_SDPUIBaseURL tu) isValidURL) then Err (ENew "invalid SDP UI base URL")
  else if negb (given (TU_Status tu) TenantStatus_IsValid)
  then Err (ENew ("invalid tenant status: " +:+ quote (default "" (TU_Status tu))))
  else guard_err ((TU_DistributionAccountAddress tu <>? "")
                  && negb (IsValidEd25519PublicKey (TU_DistributionAccountAddress tu)))
         (ENew ("invalid distribution account: " +:+ quote (TU_DistributionAccountAddress tu))).

Definition GetAllTenants (queryParams : option QueryParams) : M (list Tenant) :=
  let q := default (excludeInactiveTenantsFilters <| SortByName := true |>) queryParams in
  wrapM "getting all tenants" (db_stmt (fun _ db => Ok (newManagerQuery q db, db))).

Definition GetTenant (q : QueryParams) : M Tenant :=
  no_rows_as ErrTenantDoesNotExist "getting tenant"
    (GetContext (fun _ db => Ok (head (newManagerQuery q db), db))).

Definition GetTenantByIDIncludingDeactivated (id : string) : M Tenant :=
  GetTenant (no_filters <| FilterKeyID := Some id |> <| FilterKeyDeleted := Some true |>).
Definition GetTenantByID (id : string) : M Tenant :=
  GetTenant (excludeInactiveTenantsFilters <| FilterKeyID := Some id |>).
Definition GetTenantByName (name : string) : M Tenant :=
  GetTenant (excludeInactiveTenantsFilters <| FilterKeyName := Some name |>).
Definition GetTenantByIDOrName (arg : string) : M Tenant :=
  GetTenant (excludeInactiveTenantsFilters <| FilterKeyNameOrID := Some arg |>).

(** The choice of [GetDefault] among the tenants that are active. *)
Definition default_tenant (singleTenantMode : bool) (tnts : list Tenant) : res Tenant :=
  match tnts with
  | [] => Err ErrTenantDoesNotExist
  | t :: rest =>
    if singleTenantMode && bool_decide (rest = []) then Ok t
    else match filter (fun t => IsDefault t = true) tnts with
         | [] => Err ErrTenantDoesNotExist
         | [t] => Ok t
         | _ => Err ErrTooManyDefaultTenants
         end
  end.

Definition GetDefault (singleTenantMode : bool) : M Tenant :=
  let! tnts := wrapM "getting tenants" (db_stmt (fun _ db =>
    Ok (newManagerQuery excludeInactiveTenantsFilters db, db))) in
  lift (default_tenant singleTenantMode tnts).

(** One statement: the old default is removed by its WITH, the new one set by its
    main query; both see the table as it was before. *)
Definition may_be_default (id : string) (t : Tenant) : bool :=
  (Ten_ID t =? id) && (Ten_Status t <>? DeactivatedTenantStatus).

Definition set_default_row {SR : SameRowTwice} (id : string) (ctx : StmtCtx) (t : Tenant) : Tenant :=
  let set b := t <| IsDefault := b |> <| Ten_UpdatedAt := NOW ctx |> in
  if may_be_default id t then set (negb (IsDefault t) || main_query_wins ctx)
  else if IsDefault t then set false else t.

Definition SetDefault {SR : SameRowTwice} (id : string) : M Tenant :=
  no_rows_as ErrTenantDoesNotExist ("setting tenant id " +:+ id +:+ " as default")
    (GetContext (fun ctx db =>
      let rows := map (set_default_row id ctx) (tenants db) in
      check_tenants (head (filter (fun t => may_be_default id t && IsDefault t = true) rows))
        (db <| tenants := rows |>))).

Definition new_tenant (ctx : StmtCtx) (name : string) : Tenant :=
  mkTenant (uuid_generate ctx 0) name None None CreatedTenantStatus false (NOW ctx) (NOW ctx) None None
    DistributionAccountStellarDBVault AccountStatusActive.

Definition duplicate_name (name : string) (e : err) : err :=
  match e with
  | EExternal m => if Contains m "idx_unique_name" then ErrDuplicatedTenantName
                   else EWrap ("inserting tenant " +:+ name) e
  | _ => EWrap ("inserting tenant " +:+ name) e
  end.

Definition AddTenant (name : string) : M Tenant :=
  if name =? "" then throw ErrEmptyTenantName
  else map_errM (duplicate_name name)
         (db_stmt (fun ctx db => check_tenants (new_tenant ctx name)
           (db <| tenants := tenants db ++ [new_tenant ctx name] |>))).

Definition DeleteTenantByName (name : string) : M unit :=
  if name =? "" then throw ErrEmptyTenantName
  else wrapM ("deleting tenant " +:+ name) (db_stmt (fun _ db =>
         Ok (tt, db <| tenants := filter (fun t => Ten_Name t <>? name = true) (tenants db) |>))).

Definition SoftDeleteTenantByID (tenantID : string) : M Tenant :=
  let q := getDeactivatedTenantsFilters <| FilterKeyID := Some tenantID |> in
  no_rows_as ErrTenantDoesNotExist ("soft deleting tenant " +:+ tenantID)
    (GetContext (fun ctx db =>
      let? (rows, db') := UpdateTenants (matches q) (fun ctx t => t <| Ten_DeletedAt := Some (NOW ctx) |>) ctx db in
      Ok (head rows, db'))).

Definition is_circle_tenant (tenantID : string) (t : Tenant) : bool :=
  (Ten_ID t =? tenantID) && (DistributionAccountType t =? DistributionAccountCircleDBVault).

Definition DeactivateTenantDistributionAccount (tenantID : string) : M unit :=
  wrapM ("deactivating distribution account for tenant " +:+ tenantID)
    (db_stmt (UpdateTenants (is_circle_tenant tenantID)
       (fun _ t => t <| DistributionAccountStatus := AccountStatusPendingUserActivation |>)) ;;! mret_ tt).

Definition schema_name (tenantName : string) : string := "sdp_" +:+ tenantName.

Definition CreateTenantSchema (tenantName : string) : M unit :=
  let name := schema_name tenantName in
  wrapM ("creating schema for tenant " +:+ name) (db_stmt (fun _ db =>
    if slices_Contains (schemas db) name then Err (EExternal "pq: schema already exists")
    else Ok (tt, db <| schemas := name :: schemas db |>))).

Definition DropTenantSchema (tenantName : string) : M unit :=
  let name := schema_name tenantName in
  wrapM ("dropping schema for tenant " +:+ name) (db_stmt (fun _ db =>
    Ok (tt, db <| schemas := filter (fun s => s <>? name = true) (schemas db) |>))).

(** The columns of an update: a field that is not given keeps its value. *)
Definition or_given (o current : option string) : option string :=
  match o with Some _ => o | None => current end.
Definition or_text (s current : string) : string := if s =? "" then current else s.

Definition updateDistributionAccountFields (tu : TenantUpdate) (t : Tenant) : Tenant :=
  t <| DistributionAccountAddress := if TU_DistributionAccountAddress tu =? "" then DistributionAccountAddress t
                                     else Some (TU_DistributionAccountAddress tu) |>
    <| DistributionAccountType := or_text (TU_DistributionAccountType tu) (DistributionAccountType t) |>
    <| DistributionAccountStatus := or_text (TU_DistributionAccountStatus tu) (DistributionAccountStatus t) |>.

Definition set_tenant_update (tu : TenantUpdate) (t : Tenant) : Tenant :=
  updateDistributionAccountFields tu
    (t <| BaseURL := or_given (TU_BaseURL tu) (BaseURL t) |>
       <| SDPUIBaseURL := or_given (TU_SDPUIBaseURL tu) (SDPUIBaseURL t) |>
       <| Ten_Status := default (Ten_Status t) (TU_Status tu) |>).

Definition UpdateTenantConfig (tu : TenantUpdate) : M Tenant :=
  lift (TenantUpdate_Validate tu) ;;!
  no_rows_as ErrTenantDoesNotExist ("updating tenant ID " +:+ TU_ID tu)
    (GetContext (fun ctx db =>
      let? (rows, db') := UpdateTenants (fun t => Ten_ID t =? TU_ID tu) (fun _ => set_tenant_update tu) ctx db in
      Ok (head rows, db'))).
End manager.
