(* ===== verification/TenantHandlers.v ===== *)
(** The requests about tenants, under [stellar-multitenant/internal]: their validation
    ([validators/tenant_validator.go], with [internal/utils/url.go]), the check of a
    change of status ([services/status_change_validator.go]) and the handlers
    ([httphandler/tenants_handler.go]), the creation of a tenant apart. *)

From S2P Require Import Prelude GoStrings Errors StateMachine Effects Schema TxStore SdpDb PaymentStore.
From S2P Require Import ReceiverStore DisbursementMgmt Validators Tenant Tenants.
From Stdlib Require Import Ascii String QArith.

Local Close Scope Q_scope.
Local Open Scope string_scope.
Local Open Scope list_scope.
Local Open Scope go_scope.

(** ** Requests *)

Record TenantRequest := mkTenantRequest {
  TR_Name : string;
  TR_OwnerEmail : string;
  TR_OwnerFirstName : string;
  TR_OwnerLastName : string;
  TR_OrganizationName : string;
  TR_DistributionAccountType : string;
  TR_BaseURL : option string;
  TR_SDPUIBaseURL : option string }.

Record UpdateTenantRequest := mkUpdateTenantRequest {
  UT_BaseURL : option string;
  UT_SDPUIBaseURL : option string;
  UT_Status : option string }.

(** [validTenantName]: letters in lower case and dashes. *)
Definition valid_name_char (c : ascii) : bool := between 97 122 c || Ascii.eqb c "-"%char.
Definition validTenantName (name : string) : bool :=
  (name <>? "") && forallb valid_name_char (list_ascii_of_string name).

Definition DefaultTenantRequest_Validate (id : string) : res string :=
  let id := TrimSpace id in
  if id =? "" then Err (ENew "id is required") else Ok id.

Definition validateDistributionAccountType (t : string) (tv : Validator) : Validator :=
  let valid := "valid values are: [" +:+ Join " " DistributionAccountTypes +:+ "]" in
  let tv := Check_ (t <>? "") "distribution_account_type"
    ("distribution_account_type is required. " +:+ valid) tv in
  Check_ ((t =? "") || slices_Contains DistributionAccountTypes t) "distribution_account_type"
    ("invalid distribution_account_type. " +:+ valid) tv.

Section urls.
Context {URI : RequestURLs}.

(** The schemes the text "http https" contains. *)
Definition GetURLWithScheme (rawURL : string) : res string :=
  let? scheme := wrap "parsing url" (url_scheme rawURL) in
  if (scheme =? "") || negb (Contains "http https" scheme)
  then wrap "joining scheme to raw URL" (url_JoinPath "http://" rawURL)
  else Ok rawURL.

Definition GenerateTenantURL (baseURL tenantID : string) : res string :=
  if tenantID =? "" then Err (ENew "tenantID is empty")
  else
    let? (hostname, port, with_host) := wrap ("invalid base URL " +:+ baseURL) (url_host baseURL) in
    if negb (Contains hostname ".")
    then Err (ENew ("base URL must have at least two domain parts " +:+ baseURL))
    else
      let newHostname := tenantID +:+ "." +:+ hostname in
      Ok (with_host (if port <>? "" then newHostname +:+ ":" +:+ port else newHostname)).

Definition generateTenantURL (providedURL : option string) (defaultURL tenantName : string) : res string :=
  match providedURL with Some u => Ok u | None => GenerateTenantURL defaultURL tenantName end.

Definition check_url (u : option string) (key message : string) (tv : Validator) : Validator :=
  Check_ (given u url_ParseRequestURI) key message tv.

Definition ValidateCreateTenantRequest (reqBody : option TenantRequest) : option TenantRequest * Validator :=
  match reqBody with
  | None => (None, Check_ false "body" "request body is empty" NewValidator)
  | Some req =>
    let tv := Check_ (validTenantName (TR_Name req)) "name"
      "invalid tenant name. It should only contains lower case letters and dash (-)" NewValidator in
    let tv := CheckError (ValidateEmail (TR_OwnerEmail req)) "owner_email" "invalid email" tv in
    let tv := Check_ (TR_OwnerFirstName req <>? "") "owner_first_name" "owner_first_name is required" tv in
    let tv := Check_ (TR_OwnerLastName req <>? "") "owner_last_name" "owner_last_name is required" tv in
    let tv := Check_ (TR_OrganizationName req <>? "") "organization_name" "organization_name is required" tv in
    let tv := validateDistributionAccountType (TR_DistributionAccountType req) tv in
    let tv := check_url (TR_BaseURL req) "base_url" "invalid base URL value" tv in
    let tv := check_url (TR_SDPUIBaseURL req) "sdp_ui_base_url" "invalid SDP UI base URL value" tv in
    (if HasErrors tv then None else Some req, tv)
  end.

(** A URL of an update: it parses, and gets a scheme when it has none. *)
Definition update_url (u : option string) (key message : string) (tv : Validator) : option string * Validator :=
  let tv := check_url u key message tv in
  match u, V_Errors tv !! key with
  | Some raw, None =>
    match GetURLWithScheme raw with
    | Ok url => (Some url, tv)
    | Err _ => (Some "", Check_ false key (message +:+ ". Verify the URL protocol scheme") tv)
    end
  | _, _ => (u, tv)
  end.

Definition ValidateUpdateTenantRequest (reqBody : option UpdateTenantRequest) :
    option UpdateTenantRequest * Validator :=
  match reqBody with
  | None => (None, Check_ false "body" "request body is empty" NewValidator)
  | Some req =>
    let '(base, tv) := update_url (UT_BaseURL req) "base_url" "invalid base URL value" NewValidator in
    let '(ui, tv) := update_url (UT_SDPUIBaseURL req) "sdp_ui_base_url" "invalid SDP UI base URL value" tv in
    let tv := Check_ (given (UT_Status req) TenantStatus_IsValid) "status" "invalid status value" tv in
    (if HasErrors tv then None else Some (mkUpdateTenantRequest base ui (UT_Status req)), tv)
  end.
End urls.

(** ** Changes of status *)

Definition ErrCannotRetrieveTenantByID : err := ESentinel "cannot retrieve tenant by id".
Definition ErrCannotRetrievePayments : err := ESentinel "cannot retrieve payments for tenant".
Definition ErrCannotDeactivateDefaultTenant : err := ESentinel "cannot deactivate default tenant".
Definition ErrCannotDeactivateTenantWithActivePayments : err :=
  ESentinel "cannot deactivate tenant with active payments".
Definition ErrCannotActivateTenant : err :=
  ESentinel "cannot activate tenant for tenant that is not deactivated".
Definition ErrCannotPerformStatusUpdate : err :=
  ESentinel "cannot perform update on tenant to requested status".

Section handlers.
Context {D L Ev : Type} {E : Env D} {AC : Conn D AdminDb} {C : Conn D SdpDb} {Co : Collation} {U : UuidGen}
  {SDK : StellarSdk} {URI : RequestURLs} {R : MapRange} {DS : DistributionAccountService}.
Abbreviation M := (M D L Ev).

Definition tenant_by_id (tenantID : string) : QueryParams := no_filters <| FilterKeyID := Some tenantID |>.

(** The payments are those of the tenant that was found. *)
Definition ValidateStatus (tenantID reqStatus : string) : M unit :=
  let! tnt := map_errM (EJoin ErrCannotRetrieveTenantByID ": ") (GetTenant (tenant_by_id tenantID)) in
  if reqStatus =? DeactivatedTenantStatus then
    if Ten_Status tnt =? DeactivatedTenantStatus then mret_ tt
    else if IsDefault tnt then throw ErrCannotDeactivateDefaultTenant
    else
      let! activePaymentsCount := map_errM (EJoin ErrCannotRetrievePayments ": ")
        (CountByStatus PaymentActiveStatuses) in
      lift (guard_err (negb (activePaymentsCount =? 0)%Z) ErrCannotDeactivateTenantWithActivePayments)
  else if reqStatus =? ActivatedTenantStatus then
    lift (guard_err ((Ten_Status tnt <>? ActivatedTenantStatus) && (Ten_Status tnt <>? DeactivatedTenantStatus))
            ErrCannotActivateTenant)
  else throw ErrCannotPerformStatusUpdate.

(** ** Handlers *)

Definition GetAll : M (list Tenant) :=
  map_errM (fun e => InternalError "Cannot get tenants" (Some e)) (GetAllTenants (Some no_filters)).

Definition GetByIDOrName (arg : string) : M Tenant :=
  map_errM (fun e => if errors_Is_err e ErrTenantDoesNotExist
                     then NotFound ("tenant " +:+ arg +:+ " does not exist") (Some e)
                     else InternalError "Cannot get tenant by ID or name" (Some e))
    (GetTenantByIDOrName arg).

Definition status_error (e : err) : err :=
  if errors_Is_err e ErrCannotRetrieveTenantByID
  then InternalError (Error ErrCannotRetrieveTenantByID) (Some e)
  else if errors_Is_err e ErrCannotRetrievePayments
  then InternalError (Error ErrCannotRetrievePayments) (Some e)
  else BadRequest (Error e) None.

Definition update_error (tenantID : string) (e : err) : err :=
  if errors_Is_err e ErrEmptyUpdateTenant
  then BadRequest ("updating tenant " +:+ tenantID +:+ ": " +:+ Error e) (Some e)
  else if errors_Is_err e ErrTenantDoesNotExist
  then NotFound ("updating tenant: tenant " +:+ tenantID +:+ " does not exist") (Some e)
  else InternalError "" (Some (EWrap "updating tenant" e)).

(** The body as it was decoded, nil for a null. *)
Definition Patch (tenantID : string) (body : res (option UpdateTenantRequest)) : M Tenant :=
  let! reqBody := map_errM (fun e => BadRequest "" (Some (EWrap "decoding request body" e))) (lift body) in
  match fst (ValidateUpdateTenantRequest reqBody) with
  | None => throw (BadRequest "invalid request body" None)
  | Some req =>
    match UT_Status req with
    | Some status => map_errM status_error (ValidateStatus tenantID status)
    | None => mret_ tt
    end ;;!
    map_errM (update_error tenantID)
      (UpdateTenantConfig (mkTenantUpdate tenantID (UT_BaseURL req) (UT_SDPUIBaseURL req) (UT_Status req) "" "" ""))
  end.

Definition MaxNativeAssetBalanceForDeletion : Z := 100.

(** [DistributionAccount] of [distribution_account_resolver.go]. *)
Definition DistributionAccount (tenantID : string) : M TransactionAccount :=
  let! tnt := wrapM "getting tenant" (GetTenantByIDIncludingDeactivated tenantID) in
  getDistributionAccount tnt.

(** The balances that keep a tenant from being deleted; [decimal_String] is how the
    SDK writes a decimal. *)
Definition asset_is_native (asset : string * string) : bool :=
  Asset_IsNative (mkAsset "" (fst asset) (snd asset) None).

Definition small_balance (b : (string * string) * Q) : bool :=
  if asset_is_native (fst b) then Qle_bool (snd b) (inject_Z MaxNativeAssetBalanceForDeletion)
  else Qeq_bool (snd b) 0.

Definition too_rich (decimal_String : Q -> string) (b : (string * string) * Q) : string :=
  if asset_is_native (fst b)
  then "Tenant distribution account must have a balance of less than "
    +:+ itoa MaxNativeAssetBalanceForDeletion +:+ " XLM to be eligible for deletion"
  else "Tenant distribution account must have a zero balance to be eligible for deletion. Current balance for ("
    +:+ fst (fst b) +:+ ", " +:+ snd (fst b) +:+ ")=" +:+ decimal_String (snd b).

Definition check_balances (decimal_String : Q -> string) (tenantID : string) : M unit :=
  let! account := map_errM (fun e => InternalError "Cannot get tenant distribution account" (Some e))
    (DistributionAccount tenantID) in
  let! balances := map_errM (fun e => InternalError "Cannot get tenant distribution account balances" (Some e))
    (ask_res (fun t => GetBalances t account)) in
  let! entries := ask (fun t => range_order t (map_to_list balances)) in
  lift match first_such (fun b => negb (small_balance b)) entries with
       | Some b => Err (BadRequest (too_rich decimal_String b) None)
       | None => Ok tt
       end.

(** The answer: the status of the response and the tenant. *)
Definition Delete (decimal_String : Q -> string) (hostAddress tenantID : string) : M (Z * Tenant) :=
  let! tnt := map_errM (fun e => if errors_Is_err e ErrTenantDoesNotExist
      then NotFound ("tenant " +:+ tenantID +:+ " does not exist") (Some e)
      else InternalError "Cannot get tenant by ID" (Some e))
    (GetTenant (tenant_by_id tenantID)) in
  if negb (bool_decide (Ten_DeletedAt tnt = None)) then mret_ (304%Z, tnt)
  else if Ten_Status tnt <>? DeactivatedTenantStatus
  then throw (BadRequest "Tenant must be deactivated to be eligible for deletion" None)
  else
    match DistributionAccountAddress tnt with
    | Some address =>
      if hostAddress <>? address then check_balances decimal_String (Ten_ID tnt) else mret_ tt
    | None => mret_ tt
    end ;;!
    let! deleted := map_errM (fun e => InternalError ("Cannot delete tenant " +:+ tenantID) (Some e))
      (SoftDeleteTenantByID tenantID) in
    mret_ (200%Z, deleted).

Definition SetDefaultTenant {SR : SameRowTwice} (singleTenantMode : bool) (body : res string) : M Tenant :=
  if negb singleTenantMode
  then throw (Forbidden
    "Single Tenant Mode feature is disabled. Please, enable it before setting a tenant as default." None)
  else
    let! reqID := map_errM (fun e => BadRequest "" (Some (EWrap "decoding request body" e))) (lift body) in
    let! id := map_errM (fun _ => BadRequest "Invalid request body" None) (lift (DefaultTenantRequest_Validate reqID)) in
    map_errM (fun e => if errors_Is_err e ErrTenantDoesNotExist
        then NotFound ("tenant id " +:+ id +:+ " does not exist") (Some e)
        else InternalError "" (Some e))
      (RunInTransactionWithResult (X := AdminDb)
        (wrapM ("setting tenant id " +:+ id +:+ " as default") (SetDefault id))).
End handlers.
