(* ===== verification/TenantSafety.v ===== *)
(** What the operations on tenants guarantee: the table of tenants stays well formed,
    one tenant is the default one, and a tenant is deactivated and deleted only as
    the handlers of TenantHandlers.v intend. *)

From S2P Require Import Prelude GoStrings Errors StateMachine Effects Transactions Schema TxStore Tables SdpDb.
From S2P Require Import PaymentStore Platform ReceiverStore DisbursementMgmt Validators Tenant Tenants TenantHandlers.
From Stdlib Require Import QArith.

Local Close Scope Q_scope.
Local Open Scope string_scope.
Local Open Scope list_scope.
Local Open Scope go_scope.

(** ** The table *)

Definition well_formed (db : AdminDb) : Prop := tenants_ok (tenants db).

Lemma check_tenants_ok {A} (a : A) db b db' :
  check_tenants a db = Ok (b, db') -> b = a /\ db' = db /\ well_formed db.
Proof. unfold check_tenants. case_bool_decide; [naive_solver|]. by case_bool_decide. Qed.

(** What a [DELETE] leaves. *)
Lemma tenants_ok_filter (p : Tenant -> bool) rows :
  tenants_ok rows -> tenants_ok (filter (fun t => p t = true) rows).
Proof.
  intros (Hrow & Hid & Hname). split_and!.
  - apply Forall_forall. intros t Ht. apply list_elem_of_filter in Ht as [_ Ht].
    by eapply Forall_forall in Hrow.
  - eapply sublist_NoDup; [exact Hid|]. apply fmap_sublist, sublist_filter.
  - eapply sublist_NoDup; [exact Hname|]. apply fmap_sublist, sublist_filter.
Qed.

Lemma UpdateTenants_ok p f ctx db rows db' :
  UpdateTenants p f ctx db = Ok (rows, db') ->
  let g t := (f ctx t) <| Ten_UpdatedAt := NOW ctx |> in
  rows = map g (filter (fun t => p t = true) (tenants db)) /\
  db' = db <| tenants := update_where p g (tenants db) |> /\ well_formed db'.
Proof. intros H. by apply check_tenants_ok in H as (-> & -> & ?). Qed.

(** ** The operations *)

Section theorems.
Context {D L Ev : Type} {E : Env D} {AC : Conn D AdminDb} {AL : ConnLaws D AdminDb}.
Context {C : Conn D SdpDb} {CI : ConnIndep D AdminDb SdpDb}.
Context {Co : Collation} {U : UuidGen} {SDK : StellarSdk} {URI : RequestURLs} {R : MapRange}.
Context {DS : DistributionAccountService} {SR : SameRowTwice}.
Implicit Types w : World D L Ev.

Definition admin w : AdminDb := conn_get (w_db w).

(** Everything that writes to the tables of the administrator. *)
Inductive TenantOp :=
  | OpAddTenant (name : string)
  | OpDeleteTenantByName (name : string)
  | OpUpdateTenantConfig (tu : TenantUpdate)
  | OpDeactivateDistributionAccount (id : string)
  | OpCreateSchema (name : string)
  | OpDropSchema (name : string)
  | OpPatch (id : string) (body : res (option UpdateTenantRequest))
  | OpDelete (decimal_String : Q -> string) (hostAddress id : string)
  | OpSetDefault (singleTenantMode : bool) (body : res string).

Definition run_tenant_op (op : TenantOp) : M D L Ev unit :=
  let run {A} (m : M D L Ev A) : M D L Ev unit := try_ m ;;! mret_ tt in
  match op with
  | OpAddTenant name => run (AddTenant name)
  | OpDeleteTenantByName name => run (DeleteTenantByName name)
  | OpUpdateTenantConfig tu => run (UpdateTenantConfig tu)
  | OpDeactivateDistributionAccount id => run (DeactivateTenantDistributionAccount id)
  | OpCreateSchema name => run (CreateTenantSchema name)
  | OpDropSchema name => run (DropTenantSchema name)
  | OpPatch id body => run (Patch id body)
  | OpDelete s host id => run (Delete s host id)
  | OpSetDefault mode body => run (SetDefaultTenant mode body)
  end.

Section keeps.
Context (Hothers : forall t (d : D), well_formed (conn_get d) -> well_formed (conn_get (env_interfere t d))).
Abbreviation kept m := (keeps well_formed m).

Lemma kept_GetTenant q : kept (GetTenant q : M D L Ev Tenant).
Proof using All. apply keeps_map_err, keeps_GetContext; [done|]. by intros ctx x a x' H [= _ <-]. Qed.

Lemma tenants_kept_update {A} p f (k : list Tenant -> A) :
  kept (db_stmt (fun ctx db => let? (rows, db') := UpdateTenants p f ctx db in Ok (k rows, db')) : M D L Ev A).
Proof using All.
  apply keeps_stmt; [done|]. intros ctx x a x' _ H. destruct (UpdateTenants p f ctx x) as [[rows db']|] eqn:Eu; [|done].
  injection H as _ <-. by apply UpdateTenants_ok in Eu as (_ & _ & ?).
Qed.

Lemma kept_UpdateTenantConfig tu : kept (UpdateTenantConfig tu : M D L Ev Tenant).
Proof using All.
  apply keeps_bind; [apply keeps_still|]. intros []. apply keeps_map_err, keeps_bind; [by apply tenants_kept_update|].
  intros [t|]; apply keeps_still.
Qed.

Lemma kept_ValidateStatus id status : kept (ValidateStatus id status : M D L Ev unit).
Proof using All.
  apply keeps_bind; [apply keeps_map_err, kept_GetTenant|]. intros t.
  repeat match goal with |- keeps _ (if ?b then _ else _) => destruct b end; try apply keeps_still.
  apply keeps_bind; [by apply keeps_map_err, keeps_map_err, keeps_stmt_other|]. intros n. apply keeps_still.
Qed.

Lemma kept_Patch id body : kept (Patch id body : M D L Ev Tenant).
Proof using All.
  apply keeps_bind; [apply keeps_map_err, keeps_still|]. intros reqBody.
  destruct (fst _) as [req|]; [|apply keeps_still]. apply keeps_bind.
  - destruct (UT_Status req); [apply keeps_map_err, kept_ValidateStatus|apply keeps_still].
  - intros []. apply keeps_map_err, kept_UpdateTenantConfig.
Qed.

Lemma kept_check_balances s id : kept (check_balances s id : M D L Ev unit).
Proof using All.
  apply keeps_bind; [apply keeps_map_err, keeps_bind; [apply keeps_map_err, kept_GetTenant|]|].
  - intros t. unfold getDistributionAccount. destruct (_ =? _).
    + apply keeps_bind; [by do 2 apply keeps_map_err; apply keeps_pool_other|]. intros cc. apply keeps_still.
    + destruct (DistributionAccountAddress t); apply keeps_still.
  - intros account. apply keeps_bind; [by apply keeps_map_err, keeps_ask_res|]. intros b.
    apply keeps_bind; [by apply keeps_ask|]. intros l. apply keeps_still.
Qed.

Lemma kept_Delete s host id : kept (Delete s host id : M D L Ev (Z * Tenant)).
Proof using All.
  apply keeps_bind; [apply keeps_map_err, kept_GetTenant|]. intros t.
  repeat match goal with |- keeps _ (if ?b then _ else _) => destruct b end; try apply keeps_still.
  apply keeps_bind.
  - destruct (DistributionAccountAddress t) as [a|]; [|apply keeps_still].
    destruct (_ <>? _); [apply kept_check_balances|apply keeps_still].
  - intros []. apply keeps_bind; [|intros d; apply keeps_still].
    apply keeps_map_err, keeps_map_err, keeps_bind; [by apply tenants_kept_update|]. intros [d|]; apply keeps_still.
Qed.

Lemma kept_SetDefaultTenant mode body : kept (SetDefaultTenant mode body : M D L Ev Tenant).
Proof using All.
  unfold SetDefaultTenant. destruct (negb mode); [apply keeps_still|].
  do 2 (apply keeps_bind; [apply keeps_map_err, keeps_still|intros ?]).
  apply keeps_map_err, keeps_tx; [done|]. apply keeps_map_err, keeps_map_err, keeps_GetContext; [done|].
  intros ctx x t x' _ H. apply check_tenants_ok in H as (_ & -> & H). exact H.
Qed.

Lemma kept_simple op : kept (run_tenant_op op).
Proof using All.
  assert (Hrun : forall A (m : M D L Ev A), kept m -> kept (try_ m ;;! mret_ tt)).
  { intros A m Hm. apply keeps_bind; [|intros r; apply keeps_still]. by apply respects_try. }
  destruct op; cbn [run_tenant_op]; apply Hrun.
  - unfold AddTenant. destruct (_ =? _); [apply keeps_still|]. apply keeps_map_err, keeps_stmt; [done|].
    intros ctx x a x' _ H. by apply check_tenants_ok in H as (_ & -> & H).
  - unfold DeleteTenantByName. destruct (_ =? _); [apply keeps_still|]. apply keeps_map_err, keeps_stmt; [done|].
    intros ctx x a x' Hx [= _ <-]. by apply tenants_ok_filter.
  - apply kept_UpdateTenantConfig.
  - apply keeps_map_err, keeps_bind; [|intros r; apply keeps_still]. apply keeps_stmt; [done|].
    intros ctx x a x' _ H. by apply UpdateTenants_ok in H as (_ & _ & ?).
  - apply keeps_map_err, keeps_stmt; [done|]. intros ctx x a x' Hx H.
    destruct (slices_Contains _ _); [done|]. by injection H as _ <-.
  - apply keeps_map_err, keeps_stmt; [done|]. by intros ctx x a x' Hx [= _ <-].
  - apply kept_Patch.
  - apply kept_Delete.
  - apply kept_SetDefaultTenant.
Qed.
End keeps.

(** The table of tenants is well formed after any sequence of operations, whatever
    fails and whoever else writes to it: the statuses and account types are known
    ones, the identifiers are unique, and so are the names up to their case. *)
Theorem tenant_table_well_formed ops w
    (Hothers : forall t (d : D), well_formed (conn_get d) -> well_formed (conn_get (env_interfere t d)))
    (Htx : w_tx w !! conn_id AdminDb = None) (Hstart : well_formed (admin w)) :
  well_formed (admin (snd (mforM run_tenant_op ops w))).
Proof.
  assert (Hkept : keeps well_formed (mforM run_tenant_op ops : M D L Ev unit)).
  { apply respects_forM; [apply carries_preorder|]. intros op. by apply kept_simple. }
  apply (Hkept w). split; [done|]. intros t Ht. congruence.
Qed.

(** ** The default tenant *)

Lemma same_id l t u : NoDup (map Ten_ID l) -> t ∈ l -> u ∈ l -> Ten_ID t = Ten_ID u -> t = u.
Proof.
  intros Hnd Ht Hu Heq. pose proof (first_such_unique Ten_ID _ l t Hnd Ht Heq) as H1.
  rewrite (first_such_unique Ten_ID _ l u Hnd Hu eq_refl) in H1. congruence.
Qed.

Lemma filter_one (p : Tenant -> bool) l t :
  NoDup (map Ten_ID l) -> t ∈ l -> (forall u, u ∈ l -> p u = true <-> Ten_ID u = Ten_ID t) ->
  filter (fun u => p u = true) l = [t].
Proof.
  induction l as [|a l IH]; intros Hnd Hin Hp; [by apply elem_of_nil in Hin|].
  cbn [map] in Hnd. apply NoDup_cons in Hnd as [Ha Hnd].
  assert (Hown : forall u, u ∈ l -> Ten_ID u <> Ten_ID a).
  { intros u Hu Heq. apply Ha. rewrite <- Heq. by apply list_elem_of_fmap_2. }
  apply elem_of_cons in Hin as [<-|Hin].
  - rewrite filter_cons_True by (apply Hp; [by left|done]). f_equal.
    destruct (filter _ l) as [|u l'] eqn:Ef; [done|]. assert (Hu : u ∈ u :: l') by left.
    rewrite <- Ef in Hu. apply list_elem_of_filter in Hu as [Hpu Hu].
    apply Hp in Hpu; [|by right]. by destruct (Hown u Hu).
  - rewrite filter_cons_False.
    + apply IH; [done|done|]. intros u Hu. apply Hp. by right.
    + intros Hpa. apply Hp in Hpa; [|by left]. by apply (Hown t).
Qed.

Lemma set_default_row_is id ctx t t' :
  t' = set_default_row id ctx t ->
  Ten_ID t' = Ten_ID t /\ Ten_Status t' = Ten_Status t /\ Ten_DeletedAt t' = Ten_DeletedAt t /\
  (IsDefault t' = true -> may_be_default id t = true) /\
  (may_be_default id t = true -> IsDefault t' = negb (IsDefault t) || main_query_wins ctx).
Proof.
  intros ->. unfold set_default_row. destruct (may_be_default id t) eqn:Em; cbn.
  - by split_and!.
  - destruct (IsDefault t) eqn:Ed; cbn; by rewrite ?Ed.
Qed.

Lemma set_default_rows id ctx old t :
  let rows := map (set_default_row id ctx) old in
  NoDup (map Ten_ID rows) ->
  head (filter (fun t => may_be_default id t && IsDefault t = true) rows) = Some t ->
  t ∈ rows /\ Ten_Status t <> DeactivatedTenantStatus /\
  forall u, u ∈ rows -> IsDefault u = true <-> Ten_ID u = Ten_ID t.
Proof.
  intros rows Hnd Ht.
  assert (Hids : forall u, u ∈ rows -> IsDefault u = true -> Ten_ID u = id /\ Ten_Status u <> DeactivatedTenantStatus).
  { intros u Hu Hd. apply list_elem_of_fmap in Hu as (v & Hv & _).
    destruct (set_default_row_is id ctx v u Hv) as (-> & -> & _ & Hm & _). specialize (Hm Hd).
    unfold may_be_default in Hm. apply andb_true_iff in Hm as [H1 H2]. apply String.eqb_eq in H1.
    apply negb_true_iff, String.eqb_neq in H2. done. }
  destruct (filter _ rows) as [|u l] eqn:Ef; [done|]. injection Ht as ->.
  assert (Hu : t ∈ t :: l) by left. rewrite <- Ef in Hu.
  apply list_elem_of_filter in Hu as [Hm Hrow]. apply andb_true_iff in Hm as [_ Hdef].
  destruct (Hids t Hrow Hdef) as [Hid Hstat]. split; [done|]. split; [done|].
  intros u Hu. split; [intros Hd; destruct (Hids u Hu Hd); congruence|]. intros Heq.
  by rewrite (same_id rows u t).
Qed.

Lemma default_tenant_of (rows : list Tenant) t :
  NoDup (map Ten_ID rows) -> t ∈ rows -> Ten_Status t <> DeactivatedTenantStatus -> Ten_DeletedAt t = None ->
  (forall u, u ∈ rows -> IsDefault u = true <-> Ten_ID u = Ten_ID t) ->
  default_tenant true (filter (fun u => matches excludeInactiveTenantsFilters u = true) rows) = Ok t.
Proof.
  intros Hnd Hrow Hstat Hkept Hiff.
  assert (Hl : t ∈ filter (fun u => matches excludeInactiveTenantsFilters u = true) rows).
  { apply list_elem_of_filter. split; [|done]. unfold matches. cbn. rewrite Hkept.
    apply String.eqb_neq in Hstat. by rewrite Hstat. }
  assert (Hone : filter (fun u => IsDefault u = true)
    (filter (fun u => matches excludeInactiveTenantsFilters u = true) rows) = [t]).
  { apply filter_one; [|done|].
    - eapply sublist_NoDup; [exact Hnd|]. apply fmap_sublist, sublist_filter.
    - intros u Hu. apply Hiff. by apply list_elem_of_filter in Hu as [_ Hu]. }
  unfold default_tenant. destruct (filter (fun u => matches _ u = true) rows) as [|u rest];
    [by apply elem_of_nil in Hl|].
  rewrite Hone. case_bool_decide as Hr; [|done]. subst rest. by apply list_elem_of_singleton in Hl as ->.
Qed.

(** When a tenant was set as the default one, it is the only default tenant of the
    table, it is not deactivated, and unless it had been deleted it is the tenant
    that the requests without one of their own are for. *)
Theorem default_tenant_is_unique singleTenantMode body w t w'
    (Hrun : SetDefaultTenant singleTenantMode body w = (Ok t, w')) :
  t ∈ tenants (admin w') /\ Ten_Status t <> DeactivatedTenantStatus /\
  (forall u, u ∈ tenants (admin w') -> IsDefault u = true <-> Ten_ID u = Ten_ID t) /\
  (Ten_DeletedAt t = None ->
   default_tenant singleTenantMode (newManagerQuery excludeInactiveTenantsFilters (admin w')) = Ok t).
Proof.
  unfold SetDefaultTenant in Hrun. destruct singleTenantMode; cbn [negb] in Hrun; [|done].
  apply mbind_ok in Hrun as (rid & w1 & _ & Hrun). apply mbind_ok in Hrun as (id & w2 & _ & Hrun).
  apply map_errM_ok, RunInTransaction_ok in Hrun as (w3 & w4 & Hrun & Hin & _ & Hdb).
  apply map_errM_ok, map_errM_ok in Hrun. apply GetContext_in_tx in Hrun as (ctx & x & Hq & -> & _); [|done].
  cbn in Hdb. rewrite (proj1 (in_tx_settle w3 Hin)) in Hdb. unfold admin. rewrite Hdb, conn_get_set. clear Hdb.
  apply check_tenants_ok in Hq as (Ht & -> & _ & Hnd & _).
  destruct (set_default_rows id ctx _ t Hnd (eq_sym Ht)) as (Hrow & Hstat & Hiff).
  split_and!; [done..|]. intros Hkept. by apply default_tenant_of.
Qed.

(** ** Deactivation and deletion *)

Section quiet.
Context {CL : ConnLaws D SdpDb}.
Context (Hquiet : forall t (d : D), env_interfere t d = d).

Lemma quiet_settle w : w_db (settle w) = w_db w.
Proof using Hquiet. unfold settle. case_bool_decide; [apply Hquiet|done]. Qed.

Lemma GetTenant_ok q w t w' :
  SortByName q = false -> GetTenant q w = (Ok t, w') ->
  first_such (matches q) (tenants (admin w)) = Some t /\ w_db w' = w_db w.
Proof using All.
  intros Hsort H. apply map_errM_ok, mbind_ok in H as (o & w1 & H & Hk).
  apply db_stmt_ok in H as (ctx & x & [= Ho <-] & ->). destruct o as [t'|]; [|done]. injection Hk as -> <-.
  cbn. rewrite quiet_settle in *. rewrite conn_set_get. split; [|done].
  unfold newManagerQuery in Ho. rewrite Hsort in Ho. by rewrite <- hd_filter.
Qed.

Lemma tenant_by_id_is id rows t :
  first_such (matches (tenant_by_id id)) rows = Some t <-> first_such (fun u => Ten_ID u =? id) rows = Some t.
Proof.
  rewrite (first_such_ext (matches (tenant_by_id id)) (fun u => Ten_ID u =? id)); [done|].
  intros u. unfold matches. cbn. by rewrite !andb_true_r.
Qed.

(** An update of one row, as [GetContext] answers it. *)
Lemma update_tenant_row id p f ctx db rows db' t :
  (forall u, p u = true -> Ten_ID u = id) -> (forall u, Ten_ID (f ctx u) = Ten_ID u) ->
  UpdateTenants p f ctx db = Ok (rows, db') -> head rows = Some t ->
  exists old, lookup_tenant id db = Some old /\ p old = true /\
    t = (f ctx old) <| Ten_UpdatedAt := NOW ctx |> /\ lookup_tenant id db' = Some t /\
    forall i, i <> id -> lookup_tenant i db' = lookup_tenant i db.
Proof.
  intros Hp Hf H Ht. apply UpdateTenants_ok in H as (-> & -> & _ & Hnd & _).
  set (g u := (f ctx u) <| Ten_UpdatedAt := NOW ctx |>) in *.
  assert (Hg : forall u, Ten_ID (g u) = Ten_ID u) by (intros u; apply (Hf u)).
  change (NoDup (map Ten_ID (update_where p g (tenants db)))) in Hnd.
  rewrite update_where_proj in Hnd by (intros; apply Hg).
  assert (Hup : forall i, lookup_tenant i (db <| tenants := update_where p g (tenants db) |>)
    = (fun u => if p u then g u else u) <$> lookup_tenant i db).
  { intros i. apply first_such_update. intros u. by rewrite Hg. }
  destruct (filter _ (tenants db)) as [|old l] eqn:Ef; [done|]. injection Ht as <-.
  assert (Hin : old ∈ old :: l) by left. rewrite <- Ef in Hin. apply list_elem_of_filter in Hin as [Hold Hin].
  pose proof (first_such_unique Ten_ID id (tenants db) old Hnd Hin (Hp old Hold)) as Hl.
  exists old. split_and!; [exact Hl|done|done| |].
  - rewrite Hup. unfold lookup_tenant. rewrite Hl. cbn. by rewrite Hold.
  - intros i Hi. rewrite Hup. destruct (lookup_tenant i db) as [u|] eqn:Eu; [|done]. cbn.
    apply first_such_some in Eu as [_ Eu]. apply String.eqb_eq in Eu.
    destruct (p u) eqn:Epu; [|done]. apply Hp in Epu. congruence.
Qed.

Lemma GetContext_update id p f w t w' :
  (forall u, p u = true -> Ten_ID u = id) -> (forall ctx u, Ten_ID (f ctx u) = Ten_ID u) ->
  GetContext (fun ctx db => let? (rows, db') := UpdateTenants p f ctx db in Ok (head rows, db')) w = (Ok t, w') ->
  exists ctx old, lookup_tenant id (admin w) = Some old /\ p old = true /\
    t = (f ctx old) <| Ten_UpdatedAt := NOW ctx |> /\ lookup_tenant id (admin w') = Some t /\
    forall i, i <> id -> lookup_tenant i (admin w') = lookup_tenant i (admin w).
Proof using All.
  intros Hp Hf H. apply mbind_ok in H as (o & w1 & H & Hk). apply db_stmt_ok in H as (ctx & x & Hq & ->).
  rewrite quiet_settle in Hq. destruct (UpdateTenants _ _ _ _) as [[rows db']|] eqn:Eu; [|done].
  injection Hq as <- <-. destruct (head rows) as [t'|] eqn:Eh; [|done]. injection Hk as -> <-.
  exists ctx. destruct (update_tenant_row id p f ctx _ rows db' t Hp (Hf ctx) Eu Eh) as (old & H1 & H2 & H3 & H4 & H5).
  exists old. unfold admin. cbn. rewrite conn_get_set. done.
Qed.

Lemma ValidateStatus_ok id w w' :
  ValidateStatus id DeactivatedTenantStatus w = (Ok tt, w') ->
  w_db w' = w_db w /\
  exists old, lookup_tenant id (admin w) = Some old /\
    (Ten_Status old = DeactivatedTenantStatus \/
     IsDefault old = false /\
     select_payments (fun v => slices_Contains PaymentActiveStatuses (Pay_Status (pv_row v)))
       (conn_get (w_db w)) = []).
Proof using All.
  intros H. apply mbind_ok in H as (old & w1 & H & Hk). apply map_errM_ok, GetTenant_ok in H as [Hl Hdb]; [|done].
  apply tenant_by_id_is in Hl. cbn [String.eqb] in Hk.
  destruct (String.eqb_spec (Ten_Status old) DeactivatedTenantStatus) as [Hs|Hs].
  { injection Hk as <-. split; [done|]. exists old. auto. }
  destruct (IsDefault old) eqn:Ed; [done|]. apply mbind_ok in Hk as (n & w2 & Hn & Hk).
  apply map_errM_ok, map_errM_ok, db_stmt_ok in Hn as (ctx & x & [= <- <-] & ->).
  apply lift_ok in Hk as [Hk ->]. unfold guard_err in Hk. cbn [w_db] in Hk |- *.
  rewrite quiet_settle, Hdb in *. split; [cbn; by rewrite quiet_settle, Hdb, conn_set_get|].
  exists old. split; [done|]. right. split; [done|].
  match type of Hk with context [length ?l] => destruct l as [|v l'] eqn:El; [exact El|] end.
  destruct (Z.eqb_spec (Z.of_nat (length (v :: l'))) 0); [done|done].
Qed.

(** C12: A tenant becomes deactivated at a request only when it was so already, or when
    it is not the default tenant and none of its payments is ready or pending; as
    long as nobody else writes between the statements. *)
Theorem deactivation_is_guarded id req w t w'
    (Hstatus : UT_Status req = Some DeactivatedTenantStatus)
    (Hrun : Patch id (Ok (Some req)) w = (Ok t, w')) :
  exists old, lookup_tenant id (admin w) = Some old /\
    (Ten_Status old = DeactivatedTenantStatus \/
     IsDefault old = false /\
     select_payments (fun v => slices_Contains PaymentActiveStatuses (Pay_Status (pv_row v)))
       (conn_get (w_db w)) = []) /\
    lookup_tenant id (admin w') = Some t /\ Ten_Status t = DeactivatedTenantStatus /\
    IsDefault t = IsDefault old.
Proof using All.
  apply mbind_ok in Hrun as (body & w1 & Hb & Hrun). injection Hb as <- <-.
  destruct (fst _) as [req'|] eqn:Er; [|done].
  assert (Hs : UT_Status req' = Some DeactivatedTenantStatus).
  { revert Er. cbn [ValidateUpdateTenantRequest]. destruct (update_url _ _ _ _) as [b tv].
    destruct (update_url _ _ _ tv) as [u tv']. cbn. destruct (HasErrors _); [done|]. by intros [= <-]. }
  rewrite Hs in Hrun. apply mbind_ok in Hrun as ([] & w1 & Hv & Hrun). apply map_errM_ok in Hv, Hrun.
  apply ValidateStatus_ok in Hv as (Hdb & old & Hl & Hguard). exists old. split; [done|]. split; [done|].
  apply mbind_ok in Hrun as ([] & w2 & Hval & Hrun). apply lift_ok in Hval as [_ ->]. apply map_errM_ok in Hrun.
  apply (GetContext_update id) in Hrun as (ctx & old' & Hl' & _ & -> & Hnew & _); [| |done].
  - unfold admin in Hl'. rewrite Hdb in Hl'. assert (old' = old) as -> by (unfold admin in Hl; congruence). done.
  - intros u Hu. by apply String.eqb_eq in Hu.
Qed.

Definition balances_are_small (old : Tenant) (a : string) : Prop :=
  exists instant account balances, GetBalances instant account = Ok balances /\
    (DistributionAccountType old <> DistributionAccountCircleDBVault -> Address account = a) /\
    map_Forall (fun asset b => small_balance (asset, b) = true) balances.

Lemma first_such_narrow {A} (k q : A -> bool) l x :
  first_such k l = Some x -> q x = true -> first_such (fun y => k y && q y) l = Some x.
Proof.
  intros Hk Hq. induction l as [|a l IH]; [done|]. revert Hk. cbn [first_such List.find].
  destruct (k a); cbn [andb]; [|exact IH]. intros [= ->]. by rewrite Hq.
Qed.

Lemma including_deactivated id l old :
  first_such (fun u => Ten_ID u =? id) l = Some old -> Ten_DeletedAt old = None ->
  first_such (matches (no_filters <| FilterKeyID := Some id |> <| FilterKeyDeleted := Some true |>)) l = Some old.
Proof.
  intros Hl Hdel. rewrite <- (first_such_narrow _ (fun u => bool_decide (Ten_DeletedAt u = None)) l old Hl).
  - apply first_such_ext. intros u. unfold matches. cbn. rewrite !andb_true_r. by destruct (bool_decide _).
  - by rewrite Hdel.
Qed.

Lemma account_ok old a w account w' :
  getDistributionAccount old w = (Ok account, w') -> DistributionAccountAddress old = Some a ->
  w_db w' = w_db w /\ (DistributionAccountType old <> DistributionAccountCircleDBVault -> Address account = a).
Proof using All.
  unfold getDistributionAccount. intros H Ha.
  destruct (String.eqb_spec (DistributionAccountType old) DistributionAccountCircleDBVault) as [Hc|Hc].
  - apply mbind_ok in H as (cc & w1 & H & Hk). injection Hk as _ <-. apply map_errM_ok, map_errM_ok in H.
    split; [|done]. unfold pool_query in H. destruct (env_fault _); try done. injection H as _ <-.
    apply quiet_settle.
  - rewrite Ha in H. by injection H as <- <-.
Qed.

Lemma check_balances_ok s id old a w w' :
  first_such (fun u => Ten_ID u =? id) (tenants (admin w)) = Some old -> DistributionAccountAddress old = Some a ->
  Ten_DeletedAt old = None -> check_balances s id w = (Ok tt, w') ->
  w_db w' = w_db w /\ balances_are_small old a.
Proof using All.
  intros Hl Ha Hdel H. apply mbind_ok in H as (account & w1 & H & Hrun). apply map_errM_ok in H.
  apply mbind_ok in H as (old' & w2 & H & Hacc). apply map_errM_ok, GetTenant_ok in H as [Hl' Hdb2]; [|done].
  rewrite (including_deactivated _ _ _ Hl Hdel) in Hl'. injection Hl' as <-.
  apply (account_ok _ a) in Hacc as [Hdb1 Hacc]; [|done].
  apply mbind_ok in Hrun as (balances & w3 & Hbal & Hrun). apply map_errM_ok in Hbal.
  unfold ask_res in Hbal. injection Hbal as Hbal <-.
  apply mbind_ok in Hrun as (entries & w4 & He & Hrun). injection He as <- <-. apply lift_ok in Hrun as [Hnone ->].
  split; [by rewrite !quiet_settle, Hdb1|]. exists (w_clock w1), account, balances. split_and!; [done..|].
  destruct (first_such _ _) eqn:Ef in Hnone; [done|]. intros asset b Hb.
  eapply first_such_none in Ef; [by apply negb_false_iff in Ef|]. rewrite range_order_perm.
  by apply elem_of_map_to_list.
Qed.

(** A tenant is deleted only when it was deactivated and not deleted yet and, where
    it has an account that is not the host's, the balances of its account were
    nothing but 100 XLM; the deletion is the mark on its row, and no other row
    changes. *)
Theorem deletion_is_guarded decimal_String host id w t w'
    (Hrun : Delete decimal_String host id w = (Ok (200%Z, t), w')) :
  exists old now, lookup_tenant id (admin w) = Some old /\
    Ten_Status old = DeactivatedTenantStatus /\ Ten_DeletedAt old = None /\
    (forall a, DistributionAccountAddress old = Some a -> a <> host ->
       exists instant account balances, GetBalances instant account = Ok balances /\
         (DistributionAccountType old <> DistributionAccountCircleDBVault -> Address account = a) /\
         map_Forall (fun asset b => small_balance (asset, b) = true) balances) /\
    t = old <| Ten_DeletedAt := Some now |> <| Ten_UpdatedAt := now |> /\
    lookup_tenant id (admin w') = Some t /\
    forall i, i <> id -> lookup_tenant i (admin w') = lookup_tenant i (admin w).
Proof using All.
  apply mbind_ok in Hrun as (old & w1 & H & Hrun). apply map_errM_ok, GetTenant_ok in H as [Hl Hdb]; [|done].
  apply tenant_by_id_is in Hl. pose proof (proj2 (first_such_some _ _ _ Hl)) as Hid. apply String.eqb_eq in Hid.
  case_bool_decide as Hdel; cbn [negb] in Hrun; [|done].
  destruct (Ten_Status old <>? DeactivatedTenantStatus) eqn:Es; [done|].
  apply negb_false_iff, String.eqb_eq in Es. apply mbind_ok in Hrun as ([] & w2 & Hb & Hrun).
  assert (Hb' : w_db w2 = w_db w1 /\ forall a, DistributionAccountAddress old = Some a -> a <> host ->
    balances_are_small old a).
  { destruct (DistributionAccountAddress old) as [a|] eqn:Ea; [|injection Hb as <-; done].
    destruct (String.eqb_spec host a) as [->|Hne]; cbn [negb] in Hb; [injection Hb as <-|].
    - split; [done|]. by intros a' [= <-].
    - rewrite Hid in Hb. apply (check_balances_ok _ _ old a) in Hb as [Hdb2 Hs]; [| |done|done].
      + split; [done|]. by intros a' [= <-].
      + unfold admin in *. by rewrite Hdb. }
  destruct Hb' as [Hdb2 Hsmall]. apply mbind_ok in Hrun as (t' & w3 & Hrun & Hk). injection Hk as <- <-.
  apply map_errM_ok, map_errM_ok in Hrun.
  apply (GetContext_update id) in Hrun as (ctx & old' & Hl' & _ & -> & Hnew & Hrest); [|intros u Hu|done].
  - assert (admin w2 = admin w) as Hw by (unfold admin; congruence). rewrite Hw in *.
    assert (old' = old) as -> by (unfold lookup_tenant in Hl'; congruence).
    exists old, (NOW ctx). by split_and!.
  - revert Hu. unfold matches. cbn. by destruct (String.eqb_spec (Ten_ID u) id).
Qed.
End quiet.
End theorems.

(** ** Witnesses *)

Module Tenancy.
Definition Dbs : Type := SdpDb * AdminDb.

#[export] Instance sdp_conn : Conn Dbs SdpDb :=
  {| conn_id := 1; conn_get := fst; conn_set := fun x d => (x, snd d) |}.
#[export] Instance sdp_laws : ConnLaws Dbs SdpDb.
Proof. constructor; [done|by intros []|done]. Qed.
#[export] Instance admin_conn : Conn Dbs AdminDb :=
  {| conn_id := 2; conn_get := snd; conn_set := fun x d => (fst d, x) |}.
#[export] Instance admin_laws : ConnLaws Dbs AdminDb.
Proof. constructor; [done|by intros []|done]. Qed.
#[export] Instance indep : ConnIndep Dbs AdminDb SdpDb.
Proof. by constructor. Qed.

#[export] Instance env : Env Dbs :=
  {| env_fault _ := NoFault; env_interfere _ d := d; env_now t := Z.of_nat t; env_locked _ _ := false |}.
#[export] Instance sdk : StellarSdk := Calm.sdk.
#[export] Instance uuids : UuidGen := Platform.uuids.
#[export] Instance collation : Collation := {| text_le a b := (a <=? b)%string |}.
#[export] Instance urls : RequestURLs :=
  {| url_ParseRequestURI _ := true; url_scheme _ := Ok "https"; url_host u := Ok (u, "", fun h => h);
     url_JoinPath a b := Ok (a +:+ b) |}.
#[export] Instance twice : SameRowTwice := {| main_query_wins _ := true |}.
#[export] Instance range : MapRange.
Proof. by refine {| range_order := fun A _ l => l |}. Defined.

(** 90 XLM on every account. *)
#[export] Instance accounts : DistributionAccountService :=
  {| GetBalances _ _ := Ok {[ ("XLM", "") := inject_Z 90 ]}; GetBalance _ _ _ := Ok (inject_Z 90) |}.

Definition tenant (id status : string) (is_default : bool) : Tenant :=
  mkTenant id ("org-" +:+ id) (Some "https://tenant.example") None status is_default 0 0 None
    (Some ("G" +:+ id)) DistributionAccountStellarDBVault AccountStatusActive.

Definition three : World Dbs unit unit :=
  mkWorld (Platform.sdp_db false [] [],
           mkAdminDb [tenant "t1" ProvisionedTenantStatus true; tenant "t2" ProvisionedTenantStatus false;
                      tenant "t3" DeactivatedTenantStatus false] []) 0 ∅ tt [].

Definition deactivate : UpdateTenantRequest := mkUpdateTenantRequest None None (Some DeactivatedTenantStatus).

Definition requests : list TenantOp :=
  [OpAddTenant "new"; OpAddTenant "ORG-t1"; OpSetDefault true (Ok "t2"); OpDelete (fun _ => "") "GHOST" "t3"].
End Tenancy.
Import Tenancy.

Lemma tenant_table_well_formed_witness : well_formed (admin (snd (mforM run_tenant_op requests three))).
Proof.
  apply (tenant_table_well_formed requests three); [by intros t d H|reflexivity|by_computation].
Defined.

Lemma default_tenant_is_unique_witness :
  exists t w', SetDefaultTenant true (Ok " t2 ") three = (Ok t, w') /\
    map IsDefault (tenants (admin w')) = [false; true; false] /\ t ∈ tenants (admin w').
Proof.
  eexists _, _. split; [vm_compute; reflexivity|]. split; [reflexivity|].
  by edestruct (default_tenant_is_unique (E := env) (AC := admin_conn) true (Ok " t2 ") three) as (H & _);
    [vm_compute; reflexivity|exact H].
Defined.

Lemma deactivation_is_guarded_witness :
  exists t w', Patch "t2" (Ok (Some deactivate)) three = (Ok t, w') /\ Ten_Status t = DeactivatedTenantStatus.
Proof.
  eexists _, _. split; [vm_compute; reflexivity|].
  by edestruct (deactivation_is_guarded (E := env) (AC := admin_conn) (C := sdp_conn) (fun _ _ => eq_refl)
    "t2" deactivate three) as (old & _ & _ & _ & H & _); [reflexivity|vm_compute; reflexivity|exact H].
Defined.

Lemma deletion_is_guarded_witness :
  exists t w', Delete (fun _ => "") "GHOST" "t3" three = (Ok (200%Z, t), w') /\ lookup_tenant "t3" (admin w') = Some t.
Proof.
  eexists _, _. split; [vm_compute; reflexivity|].
  by edestruct (deletion_is_guarded (E := env) (AC := admin_conn) (C := sdp_conn) (fun _ _ => eq_refl)
    (fun _ => "") "GHOST" "t3" three) as (old & now & _ & _ & _ & _ & _ & H & _); [vm_compute; reflexivity|exact H].
Defined.
