(* ===== verification/EmbeddedStore.v ===== *)
(** Embedded wallets and sponsored transactions of a tenant: the operations of
    [EmbeddedWalletModel] and [SponsoredTransactionModel], in [embedded_wallet.go] and
    [sponsored_transaction.go] of [internal/data], over the tables of Tables.v; and their
    way to the submission service and back, [wallet_creation_to_submitter_service.go],
    [wallet_creation_from_submitter_service.go],
    [sponsored_transactions_to_submitter_service.go] and
    [sponsored_transaction_from_submitter_service.go] of [internal/services]. *)

From S2P Require Import Prelude GoStrings Errors StateMachine Effects Schema TxStore Tables SdpDb PaymentStore.
From S2P Require Import ReceiverWalletStore Tenant.

Local Open Scope string_scope.
Local Open Scope list_scope.

Definition ErrEmbeddedWalletCredentialIDAlreadyExists : err :=
  ESentinel "an embedded wallet with this credential ID already exists".

Definition MaxCredentialIDLength : nat := 2048.

(** A text that [encoding/hex] decodes. *)
Definition is_hex (s : string) : bool := negb (bool_decide (hex_DecodeString s = None)).

(** ** What is inserted and updated *)

Record EmbeddedWalletInsert := mkEmbeddedWalletInsert {
  EWI_Token : string;
  EWI_WasmHash : string;
  EWI_RequiresVerification : bool;
  EWI_WalletStatus : string }.

Definition EmbeddedWalletInsert_Validate (ewi : EmbeddedWalletInsert) : res unit :=
  if EWI_Token ewi =? "" then Err (ENew "token cannot be empty")
  else if EWI_WasmHash ewi =? "" then Err (ENew "wasm hash cannot be empty")
  else if negb (is_hex (EWI_WasmHash ewi)) then Err (ENew "invalid wasm hash")
  else wrap "validating wallet status" (EmbeddedWalletStatus_Validate (EWI_WalletStatus ewi)).

(** Zero values are not written; [RequiresVerification] is a pointer. *)
Record EmbeddedWalletUpdate := mkEmbeddedWalletUpdate {
  EWU_WasmHash : string;
  EWU_ContractAddress : string;
  EWU_CredentialID : string;
  EWU_PublicKey : string;
  EWU_WalletStatus : string;
  EWU_ReceiverWalletID : string;
  EWU_RequiresVerification : option bool }.
#[export] Instance eta_EmbeddedWalletUpdate : Eta EmbeddedWalletUpdate := fun r =>
  mkEmbeddedWalletUpdate (EWU_WasmHash r) (EWU_ContractAddress r) (EWU_CredentialID r) (EWU_PublicKey r)
    (EWU_WalletStatus r) (EWU_ReceiverWalletID r) (EWU_RequiresVerification r).

Definition no_wallet_update : EmbeddedWalletUpdate := mkEmbeddedWalletUpdate "" "" "" "" "" "" None.

Definition EWU_IsEmpty (u : EmbeddedWalletUpdate) : bool :=
  (EWU_WasmHash u =? "") && (EWU_ContractAddress u =? "") && (EWU_CredentialID u =? "") && (EWU_PublicKey u =? "")
  && (EWU_WalletStatus u =? "") && (EWU_ReceiverWalletID u =? "")
  && bool_decide (EWU_RequiresVerification u = None).

Definition EmbeddedWalletUpdate_Validate {SDK : StellarSdk} (ewu : EmbeddedWalletUpdate) : res unit :=
  if EWU_IsEmpty ewu then Err (ENew "no values provided to update embedded wallet")
  else if (EWU_WasmHash ewu <>? "") && negb (is_hex (EWU_WasmHash ewu)) then Err (ENew "invalid wasm hash")
  else if (EWU_ContractAddress ewu <>? "") && negb (IsValidContractAddress (EWU_ContractAddress ewu))
  then Err (ENew "invalid contract address")
  else
    let? _ := (if EWU_WalletStatus ewu <>? ""
               then wrap "validating wallet status" (EmbeddedWalletStatus_Validate (EWU_WalletStatus ewu))
               else Ok tt) in
    guard_err (MaxCredentialIDLength <? String.length (EWU_CredentialID ewu))%nat
      (ENew ("credential ID must be 2048 characters or less, got "
             +:+ itoa (Z.of_nat (String.length (EWU_CredentialID ewu))) +:+ " characters")).

(** [BuildSetClause]: the columns of the fields that are given. *)
Definition given_or (new : string) (old : option string) : option string := if new =? "" then old else Some new.
Definition given_else (new old : string) : string := if new =? "" then old else new.

Definition set_embedded_wallet (u : EmbeddedWalletUpdate) (_ : StmtCtx) (w : EmbeddedWallet) : EmbeddedWallet :=
  mkEmbeddedWallet (EW_Token w) (given_else (EWU_WasmHash u) (EW_WasmHash w))
    (given_or (EWU_ContractAddress u) (EW_ContractAddress w)) (given_or (EWU_CredentialID u) (EW_CredentialID w))
    (given_or (EWU_PublicKey u) (EW_PublicKey w)) (given_or (EWU_ReceiverWalletID u) (EW_ReceiverWalletID w))
    (default (EW_RequiresVerification w) (EWU_RequiresVerification u))
    (given_else (EWU_WalletStatus u) (EW_WalletStatus w)) (EW_CreatedAt w) (EW_UpdatedAt w).

Record SponsoredTransactionInsert := mkSponsoredTransactionInsert {
  STI_ID : string;
  STI_Account : string;
  STI_OperationXDR : string;
  STI_Status : string }.

Definition SponsoredTransactionInsert_Validate (sti : SponsoredTransactionInsert) : res unit :=
  if STI_ID sti =? "" then Err (ENew "id cannot be empty")
  else if STI_Account sti =? "" then Err (ENew "account cannot be empty")
  else if STI_OperationXDR sti =? "" then Err (ENew "operation XDR cannot be empty")
  else wrap "validating status" (SponsoredTransactionStatus_Validate (STI_Status sti)).

Record SponsoredTransactionUpdate := mkSponsoredTransactionUpdate {
  STU_Status : string;
  STU_TransactionHash : string }.

Definition SponsoredTransactionUpdate_Validate (stu : SponsoredTransactionUpdate) : res unit :=
  let hash := STU_TransactionHash stu in
  if (STU_Status stu =? "") && (hash =? "") then Err (ENew "no values provided to update sponsored transaction")
  else
    let? _ := (if STU_Status stu <>? ""
               then wrap "validating status" (SponsoredTransactionStatus_Validate (STU_Status stu)) else Ok tt) in
    if (hash <>? "") && negb (Nat.eqb (String.length hash) 64)
    then Err (ENew ("transaction hash must be 64 characters, got " +:+ itoa (Z.of_nat (String.length hash))))
    else guard_err ((hash <>? "") && negb (is_hex hash))
      (EWrap "transaction hash must be valid hexadecimal" (EExternal "encoding/hex: invalid string")).

Definition set_sponsored (u : SponsoredTransactionUpdate) (_ : StmtCtx) (s : SponsoredTransaction) :
    SponsoredTransaction :=
  s <| ST_Status := given_else (STU_Status u) (ST_Status s) |>
    <| ST_TransactionHash := given_or (STU_TransactionHash u) (ST_TransactionHash s) |>.

(** ** Operations *)

Section models.
Context {D L Ev : Type} {E : Env D} {C : Conn D SdpDb} {SDK : StellarSdk}.
Abbreviation M := (M D L Ev).

Definition get_wallet (p : string) (q : SdpDb -> option EmbeddedWallet) : M EmbeddedWallet :=
  no_rows_as ErrRecordNotFound p (GetContext (fun _ db => Ok (q db, db))).

Definition GetByToken (token : string) : M EmbeddedWallet :=
  get_wallet "querying embedded wallet" (lookup_embedded_wallet token).

Definition with_credential (credentialID : string) (db : SdpDb) : option EmbeddedWallet :=
  first_such (fun w => bool_decide (EW_CredentialID w = Some credentialID)) (embedded_wallets db).

Definition GetByCredentialID (credentialID : string) : M EmbeddedWallet :=
  get_wallet "querying embedded wallet by credential ID" (with_credential credentialID).

(** [ORDER BY key DESC LIMIT 1]. *)
Definition latest {A} (key : A -> Z) (l : list A) : option A :=
  hd_error (sort_by (fun x => Some (- key x)%Z) l).

Definition GetByReceiverWalletIDAndStatuses (receiverWalletID : string) (statuses : list string) : M EmbeddedWallet :=
  if TrimSpace receiverWalletID =? "" then throw ErrMissingInput
  else match statuses with
  | [] => throw (ENew "at least one status must be provided")
  | _ => get_wallet "querying embedded wallet by receiver wallet ID and statuses" (fun db =>
      latest EW_CreatedAt (filter (fun w => bool_decide (EW_ReceiverWalletID w = Some receiverWalletID)
        && slices_Contains statuses (EW_WalletStatus w) = true) (embedded_wallets db)))
  end.

(** The receiver wallets of the embedded wallets at an address, of which there is one. *)
Definition receiver_wallets_at (contractAddress : string) (db : SdpDb) : list ReceiverWallet :=
  omap (fun w => if bool_decide (EW_ContractAddress w = Some contractAddress)
                 then EW_ReceiverWalletID w ≫= (fun id => lookup_receiver_wallet id db) else None)
    (embedded_wallets db).

Definition in_progress_of (rw : ReceiverWallet) (p : Payment) : bool :=
  (Pay_ReceiverWalletID p =? RW_ID rw) && (Pay_Type p =? PaymentTypeDisbursement)
  && slices_Contains PaymentInProgressStatuses (Pay_Status p).

(** A payment with the asset of its disbursement. *)
Definition disbursed_asset (db : SdpDb) (p : Payment) : option (Payment * Asset) :=
  id ← Pay_DisbursementID p; d ← lookup_disbursement id db; a ← lookup_asset (Dis_AssetID d) db; Some (p, a).

Definition EW_GetPendingDisbursementAsset (contractAddress : string) : M Asset :=
  if TrimSpace contractAddress =? "" then throw ErrMissingInput
  else no_rows_as ErrRecordNotFound ("querying pending disbursement asset for contract " +:+ contractAddress)
    (GetContext (fun _ db => Ok (snd <$> latest (fun x => Pay_UpdatedAt (fst x))
       (mjoin (map (fun rw => omap (disbursed_asset db)
                 (filter (fun p => in_progress_of rw p = true) (payments db)))
               (receiver_wallets_at contractAddress db))), db))).

Definition EW_GetReceiverWallet (contractAddress : string) : M ReceiverWallet :=
  if TrimSpace contractAddress =? "" then throw ErrMissingInput
  else no_rows_as ErrRecordNotFound "querying receiver wallet by contract address"
    (GetContext (fun _ db => Ok (hd_error (receiver_wallets_at contractAddress db), db))).

Definition new_embedded_wallet (ctx : StmtCtx) (insert : EmbeddedWalletInsert) : EmbeddedWallet :=
  mkEmbeddedWallet (EWI_Token insert) (EWI_WasmHash insert) None None None None (EWI_RequiresVerification insert)
    (EWI_WalletStatus insert) (NOW ctx) (NOW ctx).

Definition EW_Insert (insert : EmbeddedWalletInsert) : M EmbeddedWallet :=
  wrapM "validating embedded wallet insert" (lift (EmbeddedWalletInsert_Validate insert)) ;;!
  wrapM "inserting embedded wallet" (db_stmt (fun ctx db =>
    let row := new_embedded_wallet ctx insert in
    check_embedded_wallets row (db <| embedded_wallets := embedded_wallets db ++ [row] |>))).

(** A [pq.Error] 23505 of the index of the credentials. *)
Definition credential_taken (e : err) : err :=
  match e with
  | EExternal m => if m =? Error duplicate_credential then ErrEmbeddedWalletCredentialIDAlreadyExists
                   else EWrap "updating embedded wallet" e
  | _ => EWrap "updating embedded wallet" e
  end.

Definition EW_Update (token : string) (update : EmbeddedWalletUpdate) : M unit :=
  wrapM "validating embedded wallet update" (lift (EmbeddedWalletUpdate_Validate update)) ;;!
  let! rows := map_errM credential_taken
    (db_stmt (UpdateEmbeddedWallets (fun w => EW_Token w =? token) (set_embedded_wallet update))) in
  lift (guard_err (Nat.eqb (length rows) 0)
    (EWrap "no embedded wallets could be found in UpdateEmbeddedWallet" ErrRecordNotFound)).

(** PENDING, with a key, a credential and code. *)
Definition ready_to_create (w : EmbeddedWallet) : bool :=
  (EW_WalletStatus w =? PendingWalletStatus) && (default "" (EW_PublicKey w) <>? "")
  && (default "" (EW_CredentialID w) <>? "") && (EW_WasmHash w <>? "").

(** [ORDER BY ... LIMIT ... FOR UPDATE SKIP LOCKED]. *)
Definition EW_GetPendingForSubmission (batchSize : Z) : M (list EmbeddedWallet) :=
  if (batchSize <=? 0)%Z then throw (ENew "batch size must be greater than 0")
  else wrapM "getting pending embedded wallets for submission" (db_stmt (fun ctx db =>
    Ok (take (Z.to_nat batchSize) (sort_by (fun w => Some (EW_UpdatedAt w))
          (filter (fun w => ready_to_create w && negb (row_locked ctx (EW_Token w)) = true)
             (embedded_wallets db))), db))).

(** ** Sponsored transactions *)

Definition new_sponsored (ctx : StmtCtx) (insert : SponsoredTransactionInsert) : SponsoredTransaction :=
  mkSponsoredTransaction (STI_ID insert) (STI_Account insert) (STI_OperationXDR insert) (STI_Status insert) None
    (NOW ctx) (NOW ctx).

Definition ST_Insert (insert : SponsoredTransactionInsert) : M SponsoredTransaction :=
  wrapM "validating sponsored transaction insert" (lift (SponsoredTransactionInsert_Validate insert)) ;;!
  wrapM "inserting sponsored transaction" (db_stmt (fun ctx db =>
    let row := new_sponsored ctx insert in
    check_sponsored row (db <| sponsored_transactions := sponsored_transactions db ++ [row] |>))).

Definition ST_GetByID (id : string) : M SponsoredTransaction :=
  if id =? "" then throw (ENew "transaction ID is required")
  else no_rows_as ErrRecordNotFound ("getting sponsored transaction by ID " +:+ id)
    (GetContext (fun _ db => Ok (lookup_sponsored id db, db))).

Definition ST_GetByIDAndAccount (id account : string) : M SponsoredTransaction :=
  if id =? "" then throw (ENew "transaction ID is required")
  else if TrimSpace account =? "" then throw (ENew "account is required")
  else no_rows_as ErrRecordNotFound ("getting sponsored transaction by ID " +:+ id)
    (GetContext (fun _ db => Ok (first_such (fun s => (ST_ID s =? id) && (ST_Account s =? TrimSpace account))
                                   (sponsored_transactions db), db))).

Definition ST_Update (id : string) (update : SponsoredTransactionUpdate) : M unit :=
  if id =? "" then throw (ENew "transaction ID is required")
  else
    wrapM "validating sponsored transaction update" (lift (SponsoredTransactionUpdate_Validate update)) ;;!
    let! rows := wrapM "updating sponsored transaction"
      (db_stmt (UpdateSponsored (fun s => ST_ID s =? id) (set_sponsored update))) in
    lift (guard_err (Nat.eqb (length rows) 0)
      (EWrap "no sponsored transactions could be found" ErrRecordNotFound)).

Definition ST_GetPendingForSubmission (batchSize : Z) : M (list SponsoredTransaction) :=
  if (batchSize <=? 0)%Z then throw (ENew "batch size must be greater than 0")
  else wrapM "getting pending sponsored transactions for submission" (db_stmt (fun ctx db =>
    Ok (take (Z.to_nat batchSize) (sort_by (fun s => Some (ST_UpdatedAt s))
          (filter (fun s => (ST_Status s =? PendingSponsoredTransactionStatus) && negb (row_locked ctx (ST_ID s)) = true)
             (sponsored_transactions db))), db))).
End models.

Local Open Scope string_scope.
Local Open Scope list_scope.

Definition no_transaction : Transaction :=
  mkTransaction "" "" "" None [] "" "" "" 0 "" "" "" "" "" "" "" "" None 0 0 None None None None 0 None None None None None.

Definition wallet_transaction (tenantID : string) (w : EmbeddedWallet) : Transaction :=
  no_transaction <| ExternalID := EW_Token w |> <| TransactionType := TransactionTypeWalletCreation |>
    <| TenantID := tenantID |> <| PublicKey := default "" (EW_PublicKey w) |> <| WasmHash := EW_WasmHash w |>.

Definition sponsored_transaction (tenantID : string) (s : SponsoredTransaction) : Transaction :=
  no_transaction <| ExternalID := ST_ID s |> <| TransactionType := TransactionTypeSponsored |>
    <| TenantID := tenantID |> <| SponsoredAccount := ST_Account s |> <| SponsoredOperationXDR := ST_OperationXDR s |>.

(** The identifier of a contract is the hash of this, in XDR. *)
Record HashIdPreimageContractId := mkPreimage {
  NetworkId : list Z;
  DeployerEd25519 : list Z;
  Salt : list Z }.

(** Of the SDK: the hash, the keys as texts and the encoding of the preimage. *)
Class ContractIds := {
  hash_Hash : list Z -> list Z;
  strkey_DecodeAccountID : string -> res (list Z);
  strkey_EncodeContract : list Z -> res string;
  preimage_MarshalBinary : HashIdPreimageContractId -> res (list Z) }.

Definition bytes_of (s : string) : list Z :=
  map (fun c => Z.of_nat (code c)) (String.list_ascii_of_string s).

(** [copy(uint256Val[:], rawAddress)]. *)
Definition uint256_of (raw : list Z) : list Z := take 32 (raw ++ replicate 32 0%Z).

Definition autoRegistrationIdentifier := "AUTO_REGISTRATION".

Section services.
Context {D L Ev : Type} {E : Env D} {C : Conn D SdpDb} {T : Conn D TssDb} {SDK : StellarSdk} {U : UuidGen}
  {CId : ContractIds}.
Abbreviation M := (M D L Ev).

(** ** To the submitter *)

Definition bulk_insert (p : string) (transactions : list Transaction) : M (list Transaction) :=
  RunInTransactionWithResult (X := TssDb) (wrapM p (BulkInsert transactions)).

(** The rows whose transaction was inserted become PROCESSING. *)
Definition mark_wallets_processing (inserted : list Transaction) (wallets : list EmbeddedWallet) : M unit :=
  mforM (fun wallet =>
    if slices_Contains (map ExternalID inserted) (EW_Token wallet)
    then wrapM ("updating embedded wallet " +:+ EW_Token wallet)
           (EW_Update (EW_Token wallet) (no_wallet_update <| EWU_WalletStatus := ProcessingWalletStatus |>))
    else mret_ tt) wallets.

Definition send_wallets (tenantID : string) (wallets : list EmbeddedWallet) : M unit :=
  let complete := filter (fun w => (default "" (EW_PublicKey w) <>? "") && (EW_WasmHash w <>? "") = true) wallets in
  match complete with
  | [] => mret_ tt
  | _ =>
    let! inserted := bulk_insert "creating wallet transactions in TSS" (map (wallet_transaction tenantID) complete) in
    mark_wallets_processing inserted wallets
  end.

Definition SendBatchWalletCreations (ctx : Context_) (batchSize : Z) : M unit :=
  if (batchSize <=? 0)%Z then throw (ENew "batch size must be greater than 0")
  else
    let! tenant := wrapM "getting tenant from context" (lift (GetTenantFromContext ctx)) in
    RunInTransaction (X := SdpDb) (
      let! wallets := wrapM "getting pending embedded wallets" (EW_GetPendingForSubmission batchSize) in
      send_wallets (Ten_ID tenant) wallets).

Definition mark_sponsored_processing (inserted : list Transaction) (sponsored : list SponsoredTransaction) : M unit :=
  mforM (fun st =>
    if slices_Contains (map ExternalID inserted) (ST_ID st)
    then wrapM ("updating sponsored transaction " +:+ ST_ID st)
           (ST_Update (ST_ID st) (mkSponsoredTransactionUpdate ProcessingSponsoredTransactionStatus ""))
    else mret_ tt) sponsored.

Definition send_sponsored (tenantID : string) (sponsored : list SponsoredTransaction) : M unit :=
  match sponsored with
  | [] => mret_ tt
  | _ =>
    let! inserted := bulk_insert "creating sponsored transactions in TSS"
      (map (sponsored_transaction tenantID) sponsored) in
    mark_sponsored_processing inserted sponsored
  end.

Definition SendBatchSponsoredTransactions (ctx : Context_) (batchSize : Z) : M unit :=
  if (batchSize <=? 0)%Z then throw (ENew "batch size must be greater than 0")
  else
    let! tenant := wrapM "getting tenant from context" (lift (GetTenantFromContext ctx)) in
    RunInTransaction (X := SdpDb) (
      let! sponsored := wrapM "getting pending sponsored transactions" (ST_GetPendingForSubmission batchSize) in
      send_sponsored (Ten_ID tenant) sponsored).

(** ** From the submitter *)

(** Both services check a batch before they write; [subject] is what the transaction is for. *)
Definition validate_synced (subject : Transaction -> string) (what : string) (transaction : Transaction) : res unit :=
  let expected p := "expected " +:+ p +:+ "transaction " +:+ ID transaction +:+ " to have " in
  let? _ := (if Status transaction =? TransactionStatusSuccess then
               match StellarTransactionHash transaction, DistributionAccount transaction with
               | None, _ => Err (ENew (expected "successful " +:+ "a stellar transaction hash"))
               | Some _, None => Err (ENew (expected "successful " +:+ "a distribution account"))
               | Some _, Some _ => Ok tt
               end else Ok tt) in
  if subject transaction =? "" then Err (ENew (expected "" +:+ what))
  else guard_err ((Status transaction <>? TransactionStatusSuccess) && (Status transaction <>? TransactionStatusError))
         (ENew ("transaction id " +:+ ID transaction +:+ " is in an unexpected status " +:+ Status transaction)).

Definition sync_batch (transactionType getting synchronizing syncing : string)
    (validate : Transaction -> res unit) (sync_one : Transaction -> M unit) (batchSize : Z) (tenantID : string) : M unit :=
  wrapM synchronizing (RunInTransaction (X := SdpDb) (RunInTransaction (X := TssDb) (
    let! transactions := wrapM getting (GetTransactionBatchForUpdate batchSize tenantID transactionType) in
    match transactions with
    | [] => mret_ tt
    | _ =>
      lift (res_forM validate transactions) ;;!
      mforM (fun transaction => wrapM (syncing +:+ ID transaction) (sync_one transaction)) transactions ;;!
      wrapM "updating transactions as synced" (UpdateSyncedTransactions (map ID transactions))
    end))).

(** *** Wallets *)

Definition calculateContractAddress (networkPassphrase distributionAccount publicKey : string) : res string :=
  let? publicKeyBytes := match hex_DecodeString publicKey with
                         | Some bytes => Ok bytes
                         | None => Err (EWrap "decoding public key" (EExternal "encoding/hex: invalid string"))
                         end in
  let? rawAddress := wrap "decoding distribution account address" (strkey_DecodeAccountID distributionAccount) in
  let? preimageXDR := wrap "marshaling preimage" (preimage_MarshalBinary
    (mkPreimage (hash_Hash (bytes_of networkPassphrase)) (uint256_of rawAddress) (hash_Hash publicKeyBytes))) in
  wrap "encoding contract address" (strkey_EncodeContract (hash_Hash preimageXDR)).

(** A wallet that is registered already stays as it is. *)
Definition autoRegisterEmbeddedWallet (token contractAddress receiverWalletID : string) : M unit :=
  let! (receiverWallet, _) := wrapM ("getting embedded wallet " +:+ receiverWalletID) (RW_GetByID receiverWalletID) in
  if RW_Status receiverWallet =? RegisteredReceiversWalletStatus then mret_ tt
  else if TrimSpace contractAddress =? ""
  then throw (ENew ("embedded wallet " +:+ token +:+ " missing contract address"))
  else
    let! now := ask env_now in
    wrapM ("updating receiver wallet " +:+ RW_ID receiverWallet) (RW_Update (RW_ID receiverWallet)
      (mkReceiverWalletUpdate RegisteredReceiversWalletStatus "" contractAddress None None (Some now)
         autoRegistrationIdentifier None)).

Definition token_not_found (token : string) (e : err) : err :=
  if errors_Is_err e ErrRecordNotFound then ENew ("embedded wallet with token " +:+ token +:+ " not found")
  else EWrap ("getting embedded wallet with token " +:+ token) e.

Definition not_terminal (transaction : Transaction) : err :=
  ENew ("transaction " +:+ ID transaction +:+ " is not in a terminal state (status: " +:+ Status transaction +:+ ")").

(** What the outcome of the transaction makes of the wallet. *)
Definition wallet_outcome (networkPassphrase : string) (transaction : Transaction) : res EmbeddedWalletUpdate :=
  if Status transaction =? TransactionStatusSuccess then
    match DistributionAccount transaction with
    | None => Err (ENew ("distribution account is not set for transaction " +:+ ID transaction))
    | Some account =>
      let? contractAddress := wrap ("calculating contract address for transaction " +:+ ID transaction)
        (calculateContractAddress networkPassphrase account (PublicKey transaction)) in
      Ok (no_wallet_update <| EWU_ContractAddress := contractAddress |> <| EWU_WalletStatus := SuccessWalletStatus |>)
    end
  else if Status transaction =? TransactionStatusError
  then Ok (no_wallet_update <| EWU_WalletStatus := FailedWalletStatus |>)
  else Err (not_terminal transaction).

Definition syncEmbeddedWalletWithTransaction (networkPassphrase : string) (transaction : Transaction) : M unit :=
  let! embeddedWallet := map_errM (token_not_found (ExternalID transaction)) (GetByToken (ExternalID transaction)) in
  let! update := lift (wallet_outcome networkPassphrase transaction) in
  wrapM ("updating embedded wallet with token " +:+ EW_Token embeddedWallet)
    (EW_Update (EW_Token embeddedWallet) update) ;;!
  let receiverWalletID := default "" (EW_ReceiverWalletID embeddedWallet) in
  if (Status transaction =? TransactionStatusSuccess) && (receiverWalletID <>? "")
     && negb (EW_RequiresVerification embeddedWallet)
  then wrapM ("auto registering receiver wallet " +:+ receiverWalletID)
         (autoRegisterEmbeddedWallet (EW_Token embeddedWallet) (EWU_ContractAddress update) receiverWalletID)
  else mret_ tt.

Definition WalletCreation_SyncBatchTransactions (networkPassphrase : string) : Z -> string -> M unit :=
  sync_batch TransactionTypeWalletCreation "getting wallet creation transactions for update"
    "synchronizing wallet creations from submitter" "syncing embedded wallet for transaction ID "
    (validate_synced PublicKey "a public key in wallet creation") (syncEmbeddedWalletWithTransaction networkPassphrase).

(** *** Sponsored transactions *)

Definition sponsored_outcome (transaction : Transaction) : res SponsoredTransactionUpdate :=
  if Status transaction =? TransactionStatusSuccess then
    match StellarTransactionHash transaction with
    | None => Err (ENew ("stellar transaction hash is not set for transaction " +:+ ID transaction))
    | Some hash => Ok (mkSponsoredTransactionUpdate SuccessSponsoredTransactionStatus hash)
    end
  else if Status transaction =? TransactionStatusError
  then Ok (mkSponsoredTransactionUpdate FailedSponsoredTransactionStatus "")
  else Err (not_terminal transaction).

Definition sponsored_not_found (id : string) (e : err) : err :=
  if errors_Is_err e ErrRecordNotFound then ENew ("sponsored transaction with ID " +:+ id +:+ " not found")
  else EWrap ("getting sponsored transaction with ID " +:+ id) e.

Definition syncSponsoredTransactionWithTSSTransaction (transaction : Transaction) : M unit :=
  let! sponsoredTransaction := map_errM (sponsored_not_found (ExternalID transaction)) (ST_GetByID (ExternalID transaction)) in
  let! update := lift (sponsored_outcome transaction) in
  wrapM ("updating sponsored transaction with ID " +:+ ST_ID sponsoredTransaction)
    (ST_Update (ST_ID sponsoredTransaction) update).

Definition Sponsored_SyncBatchTransactions : Z -> string -> M unit :=
  sync_batch TransactionTypeSponsored "getting sponsored transactions for update"
    "synchronizing sponsored transactions from submitter" "syncing sponsored transaction for TSS transaction ID "
    (validate_synced SponsoredAccount "a sponsored account") syncSponsoredTransactionWithTSSTransaction.
End services.
