(* ===== verification/PaymentPipeline.v ===== *)
(** The payments on their way to the submission service and back:
    [payment_to_submitter_service.go], [payment_from_submitter_service.go] and
    [paymentdispatchers/stellar_payment_dispatcher.go] of [internal/services],
    between the tenant's database and that of the submission service. *)

From S2P Require Import Prelude GoStrings Errors StateMachine Effects Schema TxStore Handlers SdpDb.
From S2P Require Import PaymentStore DisbursementStore Tenant.
From Stdlib Require Import QArith.

Local Close Scope Q_scope.
Local Open Scope string_scope.
Local Open Scope list_scope.
Local Open Scope go_scope.

(** ** Validation *)

(** The columns of an absent disbursement are read as empty strings. *)
Definition disbursement_id_of (p : PaymentView) : string :=
  match pv_Disbursement p with Some d => Dis_ID d | None => "" end.
Definition disbursement_status_of (p : PaymentView) : string :=
  match pv_Disbursement p with Some d => Dis_Status d | None => "" end.

Definition validatePaymentReadyForSending {N : Numerics} (p : PaymentView) : res unit :=
  let id := Pay_ID (pv_row p) in
  let rw := pv_ReceiverWallet p in
  if Pay_Status (pv_row p) <>? ReadyPaymentStatus
  then Err (ENew ("payment " +:+ id +:+ " is not in " +:+ ReadyPaymentStatus +:+ " state"))
  else if RW_Status rw <>? RegisteredReceiversWalletStatus
  then Err (ENew ("receiver wallet " +:+ RW_ID rw +:+ " for payment " +:+ id +:+ " is not in "
                  +:+ RegisteredReceiversWalletStatus +:+ " state"))
  else if (Pay_Type (pv_row p) =? PaymentTypeDisbursement)
          && (disbursement_status_of p <>? StartedDisbursementStatus)
  then Err (ENew ("disbursement " +:+ disbursement_id_of p +:+ " for payment " +:+ id +:+ " is not in "
                  +:+ StartedDisbursementStatus +:+ " state"))
  else if TrimSpace id =? "" then Err (ENew "payment ID is empty for Payment")
  else
    let codeTrimmed := TrimSpace (Code (pv_Asset p)) in
    if codeTrimmed =? "" then Err (ENew ("payment asset code is empty for payment " +:+ id))
    else if (TrimSpace (Issuer (pv_Asset p)) =? "") && (codeTrimmed <>? XLMAssetCode)
            && (codeTrimmed <>? XLMAssetCodeAlias)
    then Err (ENew ("payment asset issuer is empty for payment " +:+ id))
    else match ValidateAmount (numeric_text (Pay_Amount (pv_row p))) with
    | Err _ => Err (ENew ("payment amount is invalid for payment " +:+ id))
    | Ok _ => guard_err (TrimSpace (default "" (RW_StellarAddress rw)) =? "")
                (ENew ("payment receiver wallet stellar address is empty for payment " +:+ id))
    end.

(** A transaction of the Stellar queue for a payment. *)
Definition transaction_for (tenantID : string) (p : PaymentView) (memo : SchemaMemo) (amount : Z) :
    Transaction :=
  mkTransaction "" (Pay_ID (pv_row p)) "" None [] TransactionTypePayment (Code (pv_Asset p))
    (Issuer (pv_Asset p)) amount (default "" (RW_StellarAddress (pv_ReceiverWallet p)))
    (Memo_Value memo) (Memo_Type memo) "" "" "" "" tenantID None 0 0 None None None None 0 None None
    None None None.

(** [PaymentDispatcherInterface]. *)
Class PaymentDispatcher (D L Ev : Type) := {
  DispatchPayments : Context_ -> string -> list PaymentView -> M D L Ev unit }.

Section services.
Context {D L Ev : Type} {E : Env D} {C : Conn D SdpDb} {T : Conn D TssDb} {N : Numerics}
  {SDK : StellarSdk} {U : UuidGen} {URL : NetUrl}.
Abbreviation M := (M D L Ev).

(** ** The Stellar dispatcher *)

Definition build_transaction (ctx : Context_) (tenantID : string) (payment : PaymentView) :
    M Transaction :=
  let text := numeric_text (Pay_Amount (pv_row payment)) in
  let id := Pay_ID (pv_row payment) in
  let! amount := wrapM ("parsing payment amount " +:+ text +:+ " for payment ID " +:+ id)
    (lift (decimal_NewFromString text)) in
  if negb (Qeq_bool amount (Truncate7 amount))
  then throw (ENew ("payment amount " +:+ text +:+ " for payment ID " +:+ id
                    +:+ " exceeds Stellar's 7 decimal place precision"))
  else
    let! memo := wrapM "getting memo" (MemoResolver_GetMemo ctx (pv_ReceiverWallet payment)) in
    mret_ (transaction_for tenantID payment memo (Qnum (Truncate7 amount))).

Definition sendPaymentsToTSS (ctx : Context_) (tenantID : string) (pendingPayments : list PaymentView) :
    M unit :=
  let! transactions := mmapM (build_transaction ctx tenantID) pendingPayments in
  wrapM "inserting transactions" (BulkInsert transactions) ;;!
  match pendingPayments with
  | [] => mret_ tt
  | _ => wrapM ("updating payment statuses to " +:+ PendingPaymentStatus)
           (UpdateStatuses pendingPayments PendingPaymentStatus) ;;! mret_ tt
  end.

Definition Stellar_DispatchPayments (ctx : Context_) (tenantID : string)
    (paymentsToDispatch : list PaymentView) : M unit :=
  match paymentsToDispatch with
  | [] => mret_ tt
  | _ =>
    let! distAccount := wrapM "getting distribution account" (DistributionAccountFromContext ctx) in
    if negb (AccountType_IsStellar (TA_Type distAccount))
    then throw (ENew ("distribution account is not a Stellar account for tenant " +:+ tenantID))
    else RunInTransaction (X := TssDb) (sendPaymentsToTSS ctx tenantID paymentsToDispatch)
  end.

#[export] Instance StellarPaymentDispatcher : PaymentDispatcher D L Ev :=
  {| DispatchPayments := Stellar_DispatchPayments |}.

(** ** To the submitter *)

Definition markPaymentsAsFailed (failedPayments : list PaymentView) : M unit :=
  match failedPayments with
  | [] => mret_ tt
  | _ => wrapM "updating payment statuses to Failed"
           (UpdateStatuses failedPayments FailedPaymentStatus) ;;! mret_ tt
  end.

Definition sendable (p : PaymentView) : bool := is_ok (validatePaymentReadyForSending p).

Section to_submitter.
Context {PD : PaymentDispatcher D L Ev}.

Definition sendPaymentsReadyToPay (ctx : Context_) (tenantID : string)
    (getPaymentsFn : M (list PaymentView)) : M unit :=
  wrapM "sending payments ready-to-pay inside syncronized database transactions"
    (RunInTransaction (X := SdpDb) (
      let! payments := wrapM "getting payments ready to be sent" getPaymentsFn in
      let failedPayments := filter (fun p => negb (sendable p) = true) payments in
      let pendingPayments := filter (fun p => sendable p = true) payments in
      wrapM "marking payments as failed" (markPaymentsAsFailed failedPayments) ;;!
      wrapM "sending payments to target platform" (DispatchPayments ctx tenantID pendingPayments))).

Definition SendBatchPayments (ctx : Context_) (batchSize : Z) : M unit :=
  let! t := wrapM "getting tenant from context" (lift (GetTenantFromContext ctx)) in
  wrapM "sending payments" (sendPaymentsReadyToPay ctx (Ten_ID t) (GetBatchForUpdate batchSize)).
End to_submitter.

(** ** From the submitter *)

Definition final_status (transaction : Transaction) : res string :=
  if Status transaction =? TransactionStatusSuccess then Ok SuccessPaymentStatus
  else if Status transaction =? TransactionStatusError then Ok FailedPaymentStatus
  else Err (ENew ("invalid transaction status " +:+ Status transaction +:+ ". Expected only "
                  +:+ TransactionStatusSuccess +:+ " or " +:+ TransactionStatusError)).

Definition payment_update (toStatus : string) (transaction : Transaction) : PaymentUpdate :=
  mkPaymentUpdate toStatus (default "" (StatusMessage transaction))
    (default "" (StellarTransactionHash transaction)) (default "" (DistributionAccount transaction)).

Definition syncPaymentWithTransaction (transaction : Transaction) : M unit :=
  let! payments := wrapM "getting payments by IDs" (GetByIDs [ExternalID transaction]) in
  match payments with
  | [payment] =>
    let! toStatus := lift (final_status transaction) in
    wrapM ("updating payment ID " +:+ Pay_ID (pv_row payment) +:+ " for transaction ID "
           +:+ ID transaction)
      (Payment_Update (pv_row payment) (payment_update toStatus transaction)) ;;!
    if Pay_Type (pv_row payment) =? PaymentTypeDisbursement
    then wrapM "completing disbursement" (CompleteDisbursements [disbursement_id_of payment])
    else mret_ tt
  | _ => throw (ENew ("expected exactly 1 payment for the transaction ID " +:+ ID transaction
                      +:+ " but found " +:+ itoa (Z.of_nat (length payments))))
  end.

Definition validate_finished (transaction : Transaction) : res unit :=
  match StellarTransactionHash transaction with
  | None => Err (ENew ("expected transaction " +:+ ID transaction
                       +:+ " to have a stellar transaction hash"))
  | Some _ =>
    guard_err ((Status transaction <>? TransactionStatusSuccess)
               && (Status transaction <>? TransactionStatusError))
      (ENew ("transaction id " +:+ ID transaction +:+ " is in an unexpected status "
             +:+ Status transaction))
  end.

Definition syncTransactions (transactions : list Transaction) : M unit :=
  match transactions with
  | [] => mret_ tt
  | _ =>
    lift (res_forM validate_finished transactions) ;;!
    mforM (fun transaction => wrapM ("syncing payments for transaction ID " +:+ ID transaction)
                                (syncPaymentWithTransaction transaction)) transactions ;;!
    wrapM "updating transactions as synced" (UpdateSyncedTransactions (map ID transactions))
  end.

Definition SyncBatchTransactions (batchSize : Z) (tenantID : string) : M unit :=
  wrapM "synchronizing payments from submitter"
    (RunInTransaction (X := SdpDb) (RunInTransaction (X := TssDb) (
      let! transactions := wrapM "getting payment transactions for update"
        (GetTransactionBatchForUpdate batchSize tenantID TransactionTypePayment) in
      syncTransactions transactions))).
End services.
