(* ===== verification/PipelineSafety.v ===== *)
(** What the dispatch of payments guarantees on both databases: each payment that
    is sent is queued once, as recorded, and is PENDING. *)

From S2P Require Import Prelude GoStrings Errors StateMachine Effects Schema TxStore TxQueue SdpDb.
From S2P Require Import PaymentStore Platform DisbursementStore DisbursementSafety Tenant PaymentPipeline.
From Stdlib Require Import QArith.

Local Close Scope Q_scope.
Local Open Scope string_scope.
Local Open Scope list_scope.
Local Open Scope go_scope.

Section pipeline.
Context {D L Ev : Type} {E : Env D} {C : Conn D SdpDb} {CL : ConnLaws D SdpDb}
  {T : Conn D TssDb} {TL : ConnLaws D TssDb} {CI : ConnIndep D SdpDb TssDb}
  {N : Numerics} {NL : NumericLaws} {SDK : StellarSdk} {U : UuidGen} {URL : NetUrl}.
Implicit Types w : World D L Ev.

(** ** Frames *)

(** Nothing written, while a transaction is open. *)
Definition same_dbs w w' : Prop := w_db w' = w_db w /\ w_tx w' = w_tx w.

Lemma tss_after_sdp w w' x : w_db w' = conn_set (x : SdpDb) (w_db w) -> tss w' = tss w.
Proof. intros H. unfold tss. by rewrite H, conn_get_set_l. Qed.

Lemma sdp_after_tss w w' x : w_db w' = conn_set (x : TssDb) (w_db w) -> sdp w' = sdp w.
Proof. intros H. unfold sdp. by rewrite H, conn_get_set_r. Qed.

(** ** Updates of payments by status *)

Definition ids_of (pays : list PaymentView) : list string := map (fun v => Pay_ID (pv_row v)) pays.

Lemma UpdateStatuses_open pays s w n w' :
  w_tx w <> ∅ -> pays <> [] -> UpdateStatuses pays s w = (Ok n, w') ->
  w_tx w' = w_tx w /\ tss w' = tss w /\
  Forall (fun v => step payment_transitions (Pay_Status (pv_row v)) s) pays /\
  exists ctx, sdp w' = (sdp w) <| payments := update_where
    (fun p => slices_Contains (ids_of pays) (Pay_ID p))
    (fun p => refresh_payment ctx (set_payment_status s None ctx p)) (payments (sdp w)) |>.
Proof.
  intros Htx Hne H. unfold UpdateStatuses in H. destruct pays as [|v0 vs]; [done|].
  set (pays := v0 :: vs) in *. apply mbind_ok in H as ([] & w1 & Hg & H). apply lift_ok in Hg as [Hg ->].
  apply mbind_ok in H as (rows & w2 & H & Hr). injection Hr as _ <-. apply map_errM_ok in H.
  pose proof H as H0. apply db_stmt_open in H0 as (ctx0 & x & _ & Hdb & _); [|done].
  apply update_payments_open in H as (Ht & ctx & _ & Hs & _); [|done..].
  split; [done|]. split; [by apply (tss_after_sdp _ _ x)|]. split; [|by exists ctx].
  apply res_forM_ok in Hg. eapply Forall_impl; [exact Hg|]. intros v Hv. cbn in Hv. apply wrap_ok in Hv.
  by apply PaymentStatus_TransitionTo_spec.
Qed.

(** ** Building the transactions *)

Lemma Organizations_Get_same w org w' :
  w_tx w <> ∅ -> Organizations_Get w = (Ok org, w') -> same_dbs w w'.
Proof. intros Htx H. by apply Organizations_Get_open in H as (? & ? & _). Qed.

(** The memo of the payment: none for a contract, else the receiver's own. *)
Definition memo_rule (rw : ReceiverWallet) (value : string) : Prop :=
  let address := default "" (RW_StellarAddress rw) in
  let own := default "" (RW_StellarMemo rw) in
  (IsValidContractAddress address = true -> value = "") /\
  (IsValidContractAddress address = false -> own <> "" -> value = own).

Lemma GetMemo_open ctx rw w memo w' :
  w_tx w <> ∅ -> MemoResolver_GetMemo ctx rw w = (Ok memo, w') ->
  same_dbs w w' /\ memo_rule rw (Memo_Value memo).
Proof.
  intros Htx H. unfold MemoResolver_GetMemo, memo_rule in *.
  destruct (IsValidContractAddress _); [by injection H as <- <-|].
  destruct (String.eqb_spec (default "" (RW_StellarMemo rw)) "") as [He|He]; cbn [negb] in H;
    [|by injection H as <- <-].
  apply mbind_ok in H as (org & w1 & H1 & H). apply map_errM_ok, Organizations_Get_same in H1; [|done].
  split; [|done]. destruct (negb (IsMemoTracingEnabled org)); [by injection H as <- <-|].
  apply map_errM_ok, lift_ok in H as [_ ->]. done.
Qed.

(** The amount of the column is what is queued. *)
Lemma Truncate7_units q z : Qeq q (z # units) -> Qnum (Truncate7 q) = z.
Proof.
  destruct q as [n d]. unfold Qeq, Truncate7. cbn [Qnum Qden]. intros ->. apply Z.quot_mul. lia.
Qed.

Definition queued (tenantID : string) (v : PaymentView) (tx : Transaction) : Prop :=
  ExternalID tx = Pay_ID (pv_row v) /\ Amount tx = Pay_Amount (pv_row v) /\
  AssetCode tx = Code (pv_Asset v) /\ AssetIssuer tx = Issuer (pv_Asset v) /\
  Destination tx = default "" (RW_StellarAddress (pv_ReceiverWallet v)) /\
  memo_rule (pv_ReceiverWallet v) (T_Memo tx) /\
  TenantID tx = tenantID /\ TransactionType tx = TransactionTypePayment.

Lemma build_transaction_open ctx tenantID v w tx w' :
  w_tx w <> ∅ -> build_transaction ctx tenantID v w = (Ok tx, w') ->
  same_dbs w w' /\ queued tenantID v tx.
Proof.
  intros Htx H. unfold build_transaction in H.
  destruct (decimal_of_column (Pay_Amount (pv_row v))) as (q & Hq & Heq). rewrite Hq in H.
  apply mbind_ok in H as (q' & w1 & H1 & H). apply map_errM_ok, lift_ok in H1 as [[= <-] ->].
  destruct (negb (Qeq_bool q (Truncate7 q))); [done|].
  apply mbind_ok in H as (memo & w2 & H1 & H). apply map_errM_ok, GetMemo_open in H1 as [Hs Hm]; [|done].
  rewrite (Truncate7_units _ _ Heq) in H. injection H as <- <-. split; [done|].
  by repeat split; try apply Hm.
Qed.
(** ** Dispatching *)

(** A row of the queue that nobody has touched. *)
Definition fresh (tx : Transaction) : Prop :=
  Status tx = TransactionStatusPending /\ StellarTransactionHash tx = None /\ SyncedAt tx = None /\
  LockedUntilLedgerNumber tx = None.

(** Rows for [xs] are appended to the queue, in their order. *)
Definition enqueued_as {A} (Q : A -> Transaction -> Prop) (xs : list A) (db db' : TssDb) : Prop :=
  exists rows, db' = db <| submitter_transactions := submitter_transactions db ++ rows |> /\
    Forall2 (fun x row => Q x row /\ fresh row) xs rows /\
    NoDup (map ExternalID (filter (fun tx => live tx = true) (submitter_transactions db'))).

Definition enqueued (tenantID : string) : list PaymentView -> TssDb -> TssDb -> Prop := enqueued_as (queued tenantID).

(** The payments [pays] in the status [s], the others as they were. *)
Definition moved_to (s : string) (pays : list PaymentView) (db db' : SdpDb) : Prop :=
  exists ctx, db' = db <| payments := update_where
    (fun p => slices_Contains (ids_of pays) (Pay_ID p))
    (fun p => refresh_payment ctx (set_payment_status s None ctx p)) (payments db) |>.

Lemma sendPayments_open ctx tenantID pays w w' :
  w_tx w <> ∅ -> pays <> [] -> sendPaymentsToTSS ctx tenantID pays w = (Ok tt, w') ->
  w_tx w' = w_tx w /\ enqueued tenantID pays (tss w) (tss w') /\
  moved_to PendingPaymentStatus pays (sdp w) (sdp w').
Proof.
  intros Htx Hne H. unfold sendPaymentsToTSS in H. apply mbind_ok in H as (txs & w1 & H1 & H).
  apply (mmapM_ok (same_dbs w) (queued tenantID)) in H1 as [[Hdb1 Ht1] Hq]; [| |by split].
  2: { intros v w2 tx w3 [Hd Ht] Hb. apply build_transaction_open in Hb as [[? ?] ?]; [|congruence].
       split; [split; congruence|done]. }
  apply mbind_ok in H as (rows & w2 & H2 & H). apply map_errM_ok, BulkInsert_ok in H2
    as (_ & c2 & db2 & Hrows & -> & Hdb2 & Hok); [|intros ->; inversion Hq; by subst].
  destruct pays as [|v0 vs] eqn:Ep; [done|]. rewrite <- Ep in *. clear v0 vs Ep.
  apply mbind_ok in H as (n & w3 & H & Hr). injection Hr as <-.
  destruct (settle_open w1) as [Hds Hts]; [congruence|].
  assert (Htss : tss (settle w1) = tss w) by (unfold tss; congruence).
  assert (Hsdp : sdp (put_part db2 (settle w1)) = sdp w).
  { unfold sdp, put_part. cbn. rewrite conn_get_set_r. congruence. }
  apply map_errM_ok, UpdateStatuses_open in H as (Ht3 & Htss3 & _ & c3 & Hsdp3); [|cbn; congruence|done].
  split; [rewrite Ht3; cbn; congruence|]. rewrite Htss3, tss_put, Hsdp in *. split; [|by exists c3].
  exists rows. rewrite Hdb2, Htss. split; [done|]. split; [|rewrite Hdb2, Htss in Hok; apply Hok].
  rewrite Hrows. apply Forall2_lookup. intros i. rewrite list_lookup_imap.
  rewrite Forall2_lookup in Hq. specialize (Hq i).
  destruct Hq as [v tx Hv|]; cbn; constructor. by split.
Qed.

Lemma getDistributionAccount_same tnt w a w' :
  w_tx w <> ∅ -> getDistributionAccount tnt w = (Ok a, w') -> same_dbs w w'.
Proof.
  intros Htx H. unfold getDistributionAccount in H. destruct (_ =? _).
  - apply mbind_ok in H as (cc & w1 & H1 & H). injection H as _ <-. unfold ClientConfig_Get in H1.
    by apply map_errM_ok, map_errM_ok, pool_query_open in H1 as (? & _ & ? & ?).
  - destruct (DistributionAccountAddress tnt); [|done]. by injection H as _ <-.
Qed.

Lemma dispatch_open ctx tenantID pays w w' :
  w_tx w <> ∅ -> w_tx w !! conn_id TssDb = None ->
  Stellar_DispatchPayments ctx tenantID pays w = (Ok tt, w') ->
  (pays = [] /\ w' = w) \/
  (enqueued tenantID pays (tss w) (tss w') /\ moved_to PendingPaymentStatus pays (sdp w) (sdp w')).
Proof.
  intros Htx Hnone H. unfold Stellar_DispatchPayments in H.
  destruct pays as [|v0 vs] eqn:Ep; [injection H as <-; by left|]. rewrite <- Ep in *. right.
  apply mbind_ok in H as (acc & w1 & H1 & H). unfold DistributionAccountFromContext in H1.
  apply map_errM_ok, mbind_ok in H1 as (tnt & w2 & H2 & H1). apply map_errM_ok, lift_ok in H2 as [_ ->].
  apply getDistributionAccount_same in H1 as [Hd1 Ht1]; [|done].
  destruct (negb _); [done|]. apply RunInTransaction_open in H
    as (w2 & w3 & H & Ho & Hd2 & Hd3 & _ & _); [|congruence].
  apply sendPayments_open in H as (_ & Hq & Hm); [|done|by rewrite Ep].
  destruct (settle_open w1) as [Hds _]; [congruence|].
  assert (Hw2 : w_db w2 = w_db w) by congruence. unfold tss, sdp in *. by rewrite Hd3, <- Hw2.
Qed.

(** ** A batch of payments *)

Lemma join_payment_row db p v : join_payment db p = Some v -> pv_row v = p.
Proof.
  unfold join_payment. destruct (lookup_asset (Pay_AssetID p) db); [|done].
  destruct (lookup_receiver_wallet (Pay_ReceiverWalletID p) db) as [rw|]; [|done].
  destruct (lookup_wallet (RW_WalletID rw) db); [|done]. by intros [= <-].
Qed.

Lemma payable_row db v : payable db v -> pv_row v ∈ payments db /\ Pay_Status (pv_row v) = ReadyPaymentStatus.
Proof.
  intros (p & v0 & Hin & Hj & Hr & ->). apply join_payment_row in Hj.
  assert (Hrow : pv_row (removeEmptyDisbursementForDirect v0) = pv_row v0)
    by (unfold removeEmptyDisbursementForDirect; by destruct (_ =? _)).
  rewrite Hrow, Hj. split; [done|]. unfold ready_to_pay, has_status in Hr.
  rewrite !andb_true_iff in Hr. destruct Hr as [[Hr _] _]. apply String.eqb_eq in Hr. by rewrite <- Hj.
Qed.

Lemma payable_inj db v v' :
  NoDup (map Pay_ID (payments db)) -> payable db v -> payable db v' ->
  Pay_ID (pv_row v) = Pay_ID (pv_row v') -> v = v'.
Proof.
  intros Hnd Hv Hv' Hid. destruct (payable_row _ _ Hv) as [Hin _]. destruct (payable_row _ _ Hv') as [Hin' _].
  assert (Hrow : pv_row v = pv_row v').
  { pose proof (first_such_unique Pay_ID (Pay_ID (pv_row v)) (payments db) (pv_row v)) as H1.
    pose proof (first_such_unique Pay_ID (Pay_ID (pv_row v)) (payments db) (pv_row v')) as H2.
    assert (Some (pv_row v) = Some (pv_row v')) as [= ?] by (rewrite <- H1, <- H2 by done; done). done. }
  destruct Hv as (p & v0 & _ & Hj & _ & ->), Hv' as (p' & v0' & _ & Hj' & _ & ->).
  assert (forall v0, pv_row (removeEmptyDisbursementForDirect v0) = pv_row v0) as Hr
    by (intros v1; unfold removeEmptyDisbursementForDirect; by destruct (_ =? _)).
  rewrite !Hr, (join_payment_row _ _ _ Hj), (join_payment_row _ _ _ Hj') in Hrow. congruence.
Qed.
Lemma mark_failed_open pays w w' :
  w_tx w <> ∅ -> markPaymentsAsFailed pays w = (Ok tt, w') ->
  w_tx w' = w_tx w /\ tss w' = tss w /\
  (moved_to FailedPaymentStatus pays (sdp w) (sdp w') \/ pays = [] /\ sdp w' = sdp w).
Proof.
  intros Htx H. unfold markPaymentsAsFailed in H. destruct pays as [|v0 vs] eqn:Ep.
  { injection H as <-. auto. }
  rewrite <- Ep in *. apply mbind_ok in H as (n & w1 & H & Hr). injection Hr as <-.
  apply map_errM_ok, UpdateStatuses_open in H as (? & ? & _ & ? & ?); [|done|by rewrite Ep].
  split; [done|]. split; [done|]. left. by eexists.
Qed.

(** The statuses after a batch was sent. *)
Definition sent_status (v : PaymentView) : string :=
  if sendable v then PendingPaymentStatus else FailedPaymentStatus.

(** The row of a payment that is sent: a new status, with its entry of history. *)
Definition restated (s : string) (p p' : Payment) : Prop :=
  exists ctx, p' = refresh_payment ctx (set_payment_status s None ctx p).

(** No payment is lost or made, nothing but payments changes, and of them those of
    the batch, in their status alone. *)
Definition batch_sent (batch : list PaymentView) (db db' : SdpDb) : Prop :=
  db' = db <| payments := payments db' |> /\ map Pay_ID (payments db') = map Pay_ID (payments db) /\
  forall id p, lookup_payment id db = Some p ->
    exists p', lookup_payment id db' = Some p' /\
      (forall v, v ∈ batch -> Pay_ID (pv_row v) = id -> restated (sent_status v) p p') /\
      (id ∉ ids_of batch -> p' = p).

Definition moved_if (s : string) (pays : list PaymentView) (db db' : SdpDb) : Prop :=
  moved_to s pays db db' \/ pays = [] /\ db' = db.

Lemma moved_if_frame s pays db db' :
  moved_if s pays db db' ->
  db' = db <| payments := payments db' |> /\ map Pay_ID (payments db') = map Pay_ID (payments db).
Proof.
  intros [[ctx ->]|[_ ->]]; (split; [by destruct db|]); [|done].
  by apply update_where_proj.
Qed.

(** What a move did to the payment of an id; [pays] may be empty. *)
Lemma moved_lookup s pays db db' id p :
  moved_if s pays db db' -> lookup_payment id db = Some p ->
  exists p', lookup_payment id db' = Some p' /\
    (id ∈ ids_of pays -> restated s p p') /\ (id ∉ ids_of pays -> p' = p).
Proof.
  intros [[ctx ->]|[-> ->]] Hl;
    [|exists p; split; [done|]; split; [by intros ?%elem_of_nil|done]].
  pose proof (lookup_payment_id _ _ _ Hl) as Hid.
  assert (Hl' : lookup_payment id (db <| payments := update_where
      (fun p => slices_Contains (ids_of pays) (Pay_ID p))
      (fun p => refresh_payment ctx (set_payment_status s None ctx p)) (payments db) |>)
    = (fun p => if slices_Contains (ids_of pays) (Pay_ID p)
                then refresh_payment ctx (set_payment_status s None ctx p) else p) <$> lookup_payment id db)
    by by apply first_such_update.
  rewrite Hl', Hl. cbn [fmap option_fmap option_map]. eexists. split; [done|].
  rewrite Hid. destruct (slices_Contains (ids_of pays) id) eqn:Ec.
  - apply slices_Contains_spec in Ec. split; [by exists ctx|done].
  - apply slices_Contains_false in Ec. by repeat split.
Qed.

Lemma ids_of_filter f batch id :
  id ∈ ids_of (filter (fun v => f v = true) batch) <-> exists v, v ∈ batch /\ f v = true /\ Pay_ID (pv_row v) = id.
Proof.
  unfold ids_of. rewrite list_elem_of_fmap. setoid_rewrite list_elem_of_filter. naive_solver.
Qed.

Lemma batch_sent_intro batch db db1 db2 :
  NoDup (map Pay_ID (payments db)) -> Forall (payable db) batch ->
  let failed := filter (fun p => negb (sendable p) = true) batch in
  let pending := filter (fun p => sendable p = true) batch in
  moved_if FailedPaymentStatus failed db db1 -> moved_if PendingPaymentStatus pending db1 db2 ->
  batch_sent batch db db2.
Proof.
  intros Hnd Hpay failed pending H1 H2. rewrite Forall_forall in Hpay.
  destruct (moved_if_frame _ _ _ _ H1) as [Hf1 Hk1], (moved_if_frame _ _ _ _ H2) as [Hf2 Hk2].
  split; [by rewrite Hf2, Hf1|]. split; [congruence|]. intros id p Hl.
  destruct (moved_lookup _ _ _ _ _ _ H1 Hl) as (p1 & Hl1 & Hin1 & Hout1).
  destruct (moved_lookup _ _ _ _ _ _ H2 Hl1) as (p2 & Hl2 & Hin2 & Hout2).
  exists p2. split; [done|]. split.
  - intros v Hv Hid. unfold sent_status. destruct (sendable v) eqn:Es.
    + rewrite <- Hout1; [apply Hin2; apply ids_of_filter; eauto|].
      intros Hin. apply ids_of_filter in Hin as (v' & Hv' & Hs' & Hid').
      assert (v = v') as <- by (apply (payable_inj db); auto; congruence). by rewrite Es in Hs'.
    + rewrite Hout2; [apply Hin1; apply ids_of_filter; exists v; by rewrite Es|].
      intros Hin. apply ids_of_filter in Hin as (v' & Hv' & Hs' & Hid').
      assert (v = v') as <- by (apply (payable_inj db); auto; congruence). congruence.
  - intros Hout. assert (Ho : forall f, id ∉ ids_of (filter (fun v => f v = true) batch)).
    { intros f Hin. apply ids_of_filter in Hin as (v & Hv & _ & <-). apply Hout.
      apply list_elem_of_fmap. eauto. }
    rewrite Hout2, Hout1; [done|apply Ho..].
Qed.

(** C4: A batch that is sent: at most [batchSize] payments, each READY, for a
    registered receiver and, if it has one, of a started disbursement; and all such
    payments none of whose rows another process ever holds, unless the batch is full.
    Those that can be sent are queued, each once, unlocked and without hash, with
    the amount, asset, destination and memo on record, and become PENDING; the
    others become FAILED; every other row of the two databases stays as it is, none
    is lost, and no payment has two live transactions. *)
Theorem dispatch_queues_payments (ctx : Context_) (batchSize : Z) w w' (Htx : w_tx w = ∅)
    (Hpk : NoDup (map Pay_ID (payments (sdp (settle w)))))
    (Hrun : SendBatchPayments ctx batchSize w = (Ok tt, w')) :
  exists tnt batch, ctx = Some tnt /\ length batch <= Z.to_nat batchSize /\
    Forall (payable (sdp (settle w))) batch /\
    (forall v, free_to_pay (sdp (settle w)) v -> v ∈ batch \/ length batch = Z.to_nat batchSize) /\
    (tss w' = tss (settle w) /\ filter (fun p => sendable p = true) batch = [] \/
     enqueued (Ten_ID tnt) (filter (fun p => sendable p = true) batch) (tss (settle w)) (tss w')) /\
    batch_sent batch (sdp (settle w)) (sdp w').
Proof.
  unfold SendBatchPayments in Hrun. apply mbind_ok in Hrun as (tnt & w0 & H0 & Hrun).
  apply map_errM_ok, lift_ok in H0 as [Hctx ->]. unfold sendPaymentsReadyToPay in Hrun.
  apply map_errM_ok, map_errM_ok, RunInTransaction_open in Hrun
    as (w1 & w2 & H & Ho & Hd1 & Hd2 & _ & Hother); [|by rewrite Htx].
  apply mbind_ok in H as (batch & w3 & Hb & H).
  apply map_errM_ok, GetBatchForUpdate_open in Hb as (_ & Hd3 & Ht3 & Hlen & Hpay & Hfree); [|done].
  apply mbind_ok in H as ([] & w4 & Hf & H).
  apply map_errM_ok, mark_failed_open in Hf as (Ht4 & Htss4 & Hf); [|congruence].
  apply map_errM_ok, dispatch_open in H; [|congruence|].
  2: { rewrite Ht4, Ht3, Hother, Htx; [apply lookup_empty|]. intros Heq. by apply conn_id_ne. }
  assert (Es : sdp w1 = sdp (settle w)) by (unfold sdp; by rewrite Hd1).
  assert (Et : tss w4 = tss (settle w)) by (rewrite Htss4; unfold tss; by rewrite Hd3, Hd1).
  exists tnt, batch. split; [by destruct ctx; [injection Hctx as ->|]|]. split; [done|].
  rewrite <- Es. split; [done|]. split; [done|].
  assert (tss w' = tss w2 /\ sdp w' = sdp w2) as [-> ->] by (unfold tss, sdp; by rewrite Hd2).
  split.
  - destruct H as [[He ->]|[Hq _]]; [left; by split|right; by rewrite <- Et].
  - assert (E3 : sdp w3 = sdp w1) by (unfold sdp; by rewrite Hd3).
    apply (batch_sent_intro batch (sdp w1) (sdp w4)); [by rewrite Es|done| |].
    + by rewrite E3 in Hf.
    + unfold moved_if. destruct H as [[? ->]|[_ ?]]; auto.
Qed.
End pipeline.
