(* ===== verification/SyncSafety.v ===== *)
(** What the synchronisation with the submission service guarantees: each finished
    transaction settles its payment, once; a disbursement is completed exactly
    when all of it is paid.  And what it does not: the two databases commit one
    after the other. *)

From S2P Require Import Prelude GoStrings Errors StateMachine Effects Schema TxStore TxQueue SdpDb.
From S2P Require Import PaymentStore Platform DisbursementStore DisbursementSafety Tenant PaymentPipeline.
From S2P Require Import EmbeddedStore PipelineSafety.
From Stdlib Require Import QArith.

Local Close Scope Q_scope.
Local Open Scope string_scope.
Local Open Scope list_scope.
Local Open Scope go_scope.

(** ** One transaction, as a relation of the tenant's tables *)

Definition dis_of (db : SdpDb) (p : Payment) : string :=
  match Pay_DisbursementID p with
  | Some d => match lookup_disbursement d db with Some d => Dis_ID d | None => "" end
  | None => ""
  end.

Definition with_paid (ctx : StmtCtx) (tx : Transaction) (s : string) (p : Payment) (db : SdpDb) : SdpDb :=
  db <| payments := update_where (fun x => Pay_ID x =? Pay_ID p)
    (fun x => refresh_payment ctx (set_payment_update (payment_update s tx) ctx x)) (payments db) |>.

Definition completes (db : SdpDb) (did : string) (d : Disbursement) : bool :=
  slices_Contains [did] (Dis_ID d) && (Dis_Status d =? StartedDisbursementStatus)
  && negb (has_unpaid db d).

Definition with_completed (ctx : StmtCtx) (did : string) (db : SdpDb) : SdpDb :=
  db <| disbursements := update_where (completes db did)
    (fun d => refresh_disbursement ctx (set_disbursement_status CompletedDisbursementStatus "" "" ctx d))
    (disbursements db) |>.

(** The payment of the transaction moves to the final status, and its
    disbursement is completed if nothing of it is unpaid. *)
Definition synced_one (tx : Transaction) (db db' : SdpDb) : Prop :=
  exists p s c1 c2, NoDup (map Pay_ID (payments db)) /\ p ∈ payments db /\ Pay_ID p = ExternalID tx /\
    final_status tx = Ok s /\ step payment_transitions (Pay_Status p) s /\
    (Pay_DisbursementID p <> None -> Pay_Type p = PaymentTypeDisbursement) /\
    db' = if Pay_Type p =? PaymentTypeDisbursement
          then with_completed c2 (dis_of db p) (with_paid c1 tx s p db) else with_paid c1 tx s p db.

Section sync.
Context {D L Ev : Type} {E : Env D} {C : Conn D SdpDb} {CL : ConnLaws D SdpDb}
  {T : Conn D TssDb} {TL : ConnLaws D TssDb} {CI : ConnIndep D SdpDb TssDb} {N : Numerics}.
Implicit Types w : World D L Ev.

Lemma Payment_Update_open p s tx w w' :
  w_tx w <> ∅ -> p ∈ payments (sdp w) -> Payment_Update p (payment_update s tx) w = (Ok tt, w') ->
  w_tx w' = w_tx w /\ tss w' = tss w /\ step payment_transitions (Pay_Status p) s /\
  NoDup (map Pay_ID (payments (sdp w))) /\
  (Pay_DisbursementID p <> None -> Pay_Type p = PaymentTypeDisbursement) /\
  exists ctx, sdp w' = with_paid ctx tx s p (sdp w).
Proof.
  intros Htx Hp H. unfold Payment_Update in H. apply mbind_ok in H as ([] & w1 & H1 & H).
  apply map_errM_ok, lift_ok in H1 as [_ ->]. apply mbind_ok in H as ([] & w1 & H1 & H).
  apply map_errM_ok, lift_ok in H1 as [Hstep ->]. apply PaymentStatus_TransitionTo_spec in Hstep.
  apply mbind_ok in H as (rows & w1 & H1 & H). apply map_errM_ok, db_stmt_open in H1
    as (ctx & db' & Hq & Hdb & Ht); [|done]. fold (sdp w) in Hq.
  assert (Hw : w' = w1) by (destruct rows as [|? [|]]; try done; by injection H). subst w1.
  split; [done|]. split; [by apply (tss_after_sdp _ _ db')|]. split; [done|].
  assert (Hsdp : sdp w' = db') by (unfold sdp; by rewrite Hdb, conn_get_set). rewrite Hsdp.
  pose proof Hq as Hq'. unfold UpdatePayments in Hq'. apply check_payments_ok in Hq' as (_ & -> & [Hok _]).
  apply UpdatePayments_ok in Hq as (_ & _ & Hnd & _); [|done]. split; [done|]. split; [|by exists ctx].
  intros Hd. cbn in Hok. rewrite Forall_forall in Hok.
  specialize (Hok (refresh_payment ctx (set_payment_update (payment_update s tx) ctx p))).
  assert (Hrow : payment_row_ok (refresh_payment ctx (set_payment_update (payment_update s tx) ctx p)) = true).
  { apply Hok. apply elem_of_update_where. exists p. split; [done|]. by rewrite eqb_same. }
  unfold payment_row_ok in Hrow. rewrite !andb_true_iff in Hrow. destruct Hrow as [[[[[Hrow _] _] _] _] _].
  change (Pay_Type (refresh_payment ctx (set_payment_update (payment_update s tx) ctx p)))
    with (Pay_Type p) in Hrow.
  change (Pay_DisbursementID (refresh_payment ctx (set_payment_update (payment_update s tx) ctx p)))
    with (Pay_DisbursementID p) in Hrow.
  destruct (String.eqb_spec (Pay_Type p) PaymentTypeDisbursement); [done|].
  apply andb_true_iff in Hrow as [_ Hrow]. by apply bool_decide_eq_true in Hrow.
Qed.

Lemma CompleteDisbursements_open did w w' :
  w_tx w <> ∅ -> CompleteDisbursements [did] w = (Ok tt, w') ->
  w_tx w' = w_tx w /\ tss w' = tss w /\ exists ctx, sdp w' = with_completed ctx did (sdp w).
Proof.
  intros Htx H. unfold CompleteDisbursements in H. apply mbind_ok in H as (rows & w1 & H & Hr).
  injection Hr as <-. apply map_errM_ok in H. pose proof H as H0.
  apply db_stmt_open in H0 as (ctx0 & x & _ & Hdb & _); [|done].
  apply update_disbursements_open in H as (Ht & ctx & _ & Hs & _); [|done..].
  split; [done|]. split; [by apply (tss_after_sdp _ _ x)|]. exists ctx. exact Hs.
Qed.

Lemma GetByIDs_one id w v w' :
  w_tx w <> ∅ -> GetByIDs [id] w = (Ok [v], w') ->
  same_dbs w w' /\ exists p, p ∈ payments (sdp w) /\ pv_row v = p /\ Pay_ID p = id /\
    (Pay_Type p = PaymentTypeDisbursement -> disbursement_id_of v = dis_of (sdp w) p).
Proof.
  intros Htx H. unfold GetByIDs in H. apply map_errM_ok, map_errM_ok, db_stmt_open in H
    as (ctx & x & [= Hv <-] & Hdb & Ht); [|done]. rewrite conn_set_get in Hdb. fold (sdp w) in Hv.
  split; [done|]. assert (Hin : v ∈ [v]) by constructor. rewrite <- Hv in Hin.
  apply list_elem_of_fmap in Hin as (v0 & -> & Hin). rewrite sort_by_perm in Hin.
  apply elem_of_select in Hin as (p & Hp & Hj & Hid). pose proof (join_payment_row _ _ _ Hj) as Hrow.
  exists p. split; [done|]. rewrite Hrow in Hid.
  apply (slices_Contains_spec [id]), list_elem_of_singleton in Hid.
  assert (Hr : pv_row (removeEmptyDisbursementForDirect v0) = pv_row v0)
    by (unfold removeEmptyDisbursementForDirect; by destruct (_ =? _)).
  split; [congruence|]. split; [done|]. intros Ht0. rewrite <- Hrow in Ht0.
  unfold removeEmptyDisbursementForDirect. rewrite Ht0. change (PaymentTypeDisbursement =? PaymentTypeDirect) with false.
  cbn iota. unfold disbursement_id_of, dis_of. unfold join_payment in Hj.
  destruct (lookup_asset (Pay_AssetID p) (sdp w)); [|done].
  destruct (lookup_receiver_wallet (Pay_ReceiverWalletID p) (sdp w)) as [rw|]; [|done].
  destruct (lookup_wallet (RW_WalletID rw) (sdp w)); [|done]. injection Hj as <-. cbn.
  by destruct (Pay_DisbursementID p).
Qed.

Lemma sync_one_open tx w w' :
  w_tx w <> ∅ -> syncPaymentWithTransaction tx w = (Ok tt, w') ->
  w_tx w' = w_tx w /\ tss w' = tss w /\ synced_one tx (sdp w) (sdp w').
Proof.
  intros Htx H. unfold syncPaymentWithTransaction in H. apply mbind_ok in H as (vs & w1 & H1 & H).
  apply map_errM_ok in H1. destruct vs as [|v [|]]; [done| |done].
  apply GetByIDs_one in H1 as ([Hdb1 Ht1] & p & Hp & Hrow & Hid & Hdis); [|done]. rewrite Hrow in H.
  apply mbind_ok in H as (s & w2 & H2 & H). apply lift_ok in H2 as [Hs ->].
  assert (Esdp : sdp w1 = sdp w) by (unfold sdp; by rewrite Hdb1).
  assert (Etss : tss w1 = tss w) by (unfold tss; by rewrite Hdb1).
  apply mbind_ok in H as ([] & w2 & H2 & H). apply map_errM_ok, Payment_Update_open in H2
    as (Ht2 & Htss2 & Hstep & Hnd & Htype & c1 & Hs2); [|congruence|congruence]. rewrite Esdp in *.
  assert (Hone : forall c2 db', db' = (if Pay_Type p =? PaymentTypeDisbursement
      then with_completed c2 (dis_of (sdp w) p) (with_paid c1 tx s p (sdp w))
      else with_paid c1 tx s p (sdp w)) -> synced_one tx (sdp w) db').
  { intros c2 db' Hdb'. exists p, s, c1, c2. auto 10. }
  destruct (String.eqb_spec (Pay_Type p) PaymentTypeDisbursement) as [Hd|Hd].
  - apply map_errM_ok, CompleteDisbursements_open in H as (Ht3 & Htss3 & c2 & Hs3); [|congruence].
    split; [congruence|]. split; [congruence|]. apply (Hone c2). by rewrite Hs3, Hs2, Hdis.
  - injection H as <-. split; [congruence|]. split; [congruence|]. apply (Hone (mkCtx 0 (fun _ => false))). done.
Qed.

(** ** A whole batch *)

(** The transactions a batch may hold. *)
Definition finished_batch (transactionType tenantID : string) (db : TssDb) (tx : Transaction) : Prop :=
  tx ∈ submitter_transactions db /\ finished tx /\ SyncedAt tx = None /\
  TransactionType tx = transactionType /\ TenantID tx = tenantID.

(** The batch leaves out no such transaction that no other process ever holds,
    unless it is full, and then of those that completed before it. *)
Definition complete_batch (batchSize : Z) (transactionType tenantID : string) (db : TssDb) (batch : list Transaction) :
    Prop :=
  length batch <= Z.to_nat batchSize /\
  forall tx, finished_batch transactionType tenantID db tx -> (forall t, env_locked t (ID tx) = false) ->
    tx ∉ batch -> length batch = Z.to_nat batchSize /\
      Forall (fun row => key_le (CompletedAt row) (CompletedAt tx) = true) batch.

Lemma GetTransactionBatch_open batchSize tenantID transactionType w batch w' :
  w_tx w <> ∅ -> GetTransactionBatchForUpdate batchSize tenantID transactionType w = (Ok batch, w') ->
  same_dbs w w' /\ Forall (finished_batch transactionType tenantID (tss w)) batch /\
  complete_batch batchSize transactionType tenantID (tss w) batch.
Proof.
  intros Htx H. unfold GetTransactionBatchForUpdate in H. destruct (batchSize <=? 0)%Z; [done|].
  destruct (tenantID =? ""); [done|]. apply map_errM_ok, db_stmt_open_held in H
    as (now & x & [= Hrows <-] & Hdb & Ht); [|done]. rewrite conn_set_get in Hdb. split; [done|].
  fold (tss w) in Hrows. set (n := Z.to_nat batchSize) in *.
  set (sel := fun tx => unsynced transactionType tx && (TenantID tx =? tenantID) &&
     negb (env_locked (w_clock w) (ID tx))).
  change (take n (sort_by CompletedAt (filter (fun tx => sel tx = true)
    (submitter_transactions (tss w)))) = batch) in Hrows.
  assert (Hsel : forall tx, tx ∈ filter (fun tx => sel tx = true) (submitter_transactions (tss w)) <->
    finished_batch transactionType tenantID (tss w) tx /\ env_locked (w_clock w) (ID tx) = false).
  { intros tx. rewrite list_elem_of_filter. unfold sel, finished_batch.
    rewrite !andb_true_iff, negb_true_iff, eqb_true, unsynced_spec. tauto. }
  split; [|split].
  - apply Forall_forall. intros tx Hin. rewrite <- Hrows in Hin. apply subseteq_take in Hin.
    rewrite sort_by_perm in Hin. by apply Hsel.
  - rewrite <- Hrows, length_take. apply Nat.le_min_l.
  - intros tx Hf Hfree Hout.
    rewrite <- Hrows in Hout |- *. apply limit_takes_least; [by apply Hsel|done].
Qed.

(** What synchronises one transaction, on the tenant's tables. *)
Definition synchronizes (R : Transaction -> SdpDb -> SdpDb -> Prop) (sync_one : Transaction -> M D L Ev unit) : Prop :=
  forall tx w w', w_tx w <> ∅ -> sync_one tx w = (Ok tt, w') ->
    w_tx w' = w_tx w /\ tss w' = tss w /\ R tx (sdp w) (sdp w').

Lemma sync_batch_ok R transactionType p1 p2 p3 validate sync_one batchSize tenantID w w' :
  synchronizes R sync_one -> w_tx w = ∅ ->
  sync_batch transactionType p1 p2 p3 validate sync_one batchSize tenantID w = (Ok tt, w') ->
  exists batch,
    Forall (fun tx => finished_batch transactionType tenantID (tss (settle w)) tx /\ validate tx = Ok tt) batch /\
    complete_batch batchSize transactionType tenantID (tss (settle w)) batch /\
    chain R batch (sdp (settle w)) (sdp w') /\ marked (map ID batch) (tss (settle w)) (tss w').
Proof.
  intros Hone Htx H. unfold sync_batch in H.
  apply map_errM_ok, RunInTransaction_open in H as (w1 & w2 & H & Ho & Hd1 & Hd2 & _ & Hother);
    [|by rewrite Htx].
  apply RunInTransaction_open in H as (w3 & w4 & H & Ho3 & Hd3 & Hd4 & _ & _).
  2: { rewrite Hother, Htx; [apply lookup_empty|]. intros Heq. by apply conn_id_ne. }
  destruct (settle_open w1 Ho) as [Hs1 _].
  assert (Hw3 : w_db w3 = w_db (settle w)) by congruence.
  assert (Hw' : w_db w' = w_db w4) by congruence.
  apply mbind_ok in H as (batch & w5 & Hb & H). apply map_errM_ok in Hb.
  apply GetTransactionBatch_open in Hb as ([Hd5 Ht5] & Hsel & Hall); [|done].
  assert (Etw3 : tss w3 = tss (settle w)) by (unfold tss; congruence). rewrite Etw3 in *.
  assert (E5 : sdp w5 = sdp (settle w) /\ tss w5 = tss (settle w)) by (unfold sdp, tss; split; congruence).
  destruct E5 as [Es5 Et5].
  assert (E4 : sdp w' = sdp w4 /\ tss w' = tss w4) by (unfold sdp, tss; split; congruence).
  destruct E4 as [-> ->]. exists batch.
  destruct batch as [|tx0 txs] eqn:Eb.
  { injection H as <-. rewrite Es5, Et5. split; [done|]. split; [done|]. split; [constructor|].
    split; [constructor|]. split; [by intros id Hid%elem_of_nil|done]. }
  rewrite <- Eb in *. apply mbind_ok in H as ([] & w6 & H6 & H). apply lift_ok in H6 as [Hv ->].
  apply res_forM_ok in Hv. apply mbind_ok in H as ([] & w6 & H6 & H).
  apply (mforM_ok (fun v => w_tx v = w_tx w3 /\ tss v = tss (settle w)) sdp R) in H6
    as [[Ht6 Et6] Hch]; [|clear H|by split].
  2: { intros tx w7 w8 [Ht7 Et7] H. apply map_errM_ok, Hone in H as (? & ? & ?); [|congruence].
       split; [split; congruence|done]. }
  rewrite Es5 in Hch. apply map_errM_ok, UpdateSynced_ok in H as (db' & -> & Hm).
  destruct (settle_open w6) as [Hs6 _]; [congruence|].
  assert (Ets6 : tss (settle w6) = tss (settle w)) by (unfold tss in *; congruence).
  rewrite Ets6 in Hm. rewrite tss_put. split; [|split; [done|split; [|done]]].
  - apply Forall_and. by split.
  - assert (Ep : sdp (put_part db' (settle w6)) = sdp w6).
    { unfold sdp, put_part. cbn. by rewrite conn_get_set_r, Hs6. }
    by rewrite Ep.
Qed.

Definition to_sync (tenantID : string) (db : TssDb) (tx : Transaction) : Prop :=
  finished_batch TransactionTypePayment tenantID db tx /\ StellarTransactionHash tx <> None.

Lemma SyncBatch_ok batchSize tenantID w w' :
  w_tx w = ∅ -> SyncBatchTransactions batchSize tenantID w = (Ok tt, w') ->
  exists batch, Forall (to_sync tenantID (tss (settle w))) batch /\
    complete_batch batchSize TransactionTypePayment tenantID (tss (settle w)) batch /\
    chain synced_one batch (sdp (settle w)) (sdp w') /\
    marked (map ID batch) (tss (settle w)) (tss w').
Proof.
  intros Htx H. destruct (sync_batch_ok synced_one TransactionTypePayment _ _ _ validate_finished _ _ _ w w' sync_one_open Htx H)
    as (batch & Hb & Hall & Hch & Hm). exists batch. split; [|done].
  eapply Forall_impl; [exact Hb|]. intros tx [Hf Hv]. split; [done|]. unfold validate_finished in Hv.
  by destruct (StellarTransactionHash tx).
Qed.
End sync.

(** ** What a chain of synchronised transactions did *)

(** The payment is settled by its transaction: the final status, the hash, one
    entry of history with the message; what is paid, to whom, is untouched. *)
Definition settled (tx : Transaction) (p p' : Payment) : Prop :=
  exists s t, final_status tx = Ok s /\ step payment_transitions (Pay_Status p) s /\
    Pay_Status p' = s /\ Pay_StellarTransactionID p' = Some (default "" (StellarTransactionHash tx)) /\
    payment_core p' = payment_core p /\
    Pay_StatusHistory p' = Pay_StatusHistory p
      ++ [mkPaymentHistory s (Some (default "" (StatusMessage tx))) t].

Lemma final_status_cases tx s :
  final_status tx = Ok s ->
  (Status tx = TransactionStatusSuccess /\ s = SuccessPaymentStatus) \/
  (Status tx = TransactionStatusError /\ s = FailedPaymentStatus).
Proof.
  unfold final_status. destruct (String.eqb_spec (Status tx) TransactionStatusSuccess); [naive_solver|].
  destruct (String.eqb_spec (Status tx) TransactionStatusError); naive_solver.
Qed.

(** A settled payment cannot be settled again. *)
Lemma final_is_final tx tx' s s' :
  final_status tx = Ok s -> final_status tx' = Ok s' -> ~ step payment_transitions s s'.
Proof.
  intros H H'. apply final_status_cases in H as [[_ ->]|[_ ->]], H' as [[_ ->]|[_ ->]]; by_computation.
Qed.

Lemma payments_of_one tx db db' :
  synced_one tx db db' -> exists p s ctx, NoDup (map Pay_ID (payments db)) /\ p ∈ payments db /\
    Pay_ID p = ExternalID tx /\ final_status tx = Ok s /\ step payment_transitions (Pay_Status p) s /\
    payments db' = payments (with_paid ctx tx s p db).
Proof.
  intros (p & s & c1 & c2 & ? & ? & ? & ? & ? & _ & ->). exists p, s, c1.
  repeat (split; [done|]). by destruct (_ =? _).
Qed.

Lemma lookup_one tx db db' id :
  synced_one tx db db' ->
  (id = ExternalID tx -> exists p p', lookup_payment id db = Some p /\ lookup_payment id db' = Some p' /\
     settled tx p p') /\
  (id <> ExternalID tx -> lookup_payment id db' = lookup_payment id db).
Proof.
  intros H. apply payments_of_one in H as (p & s & ctx & Hnd & Hin & Hid & Hs & Hstep & Hp').
  set (set := fun x => refresh_payment ctx (set_payment_update (payment_update s tx) ctx x)).
  assert (Hl : lookup_payment id db' =
    (fun x => if Pay_ID x =? Pay_ID p then set x else x) <$> lookup_payment id db).
  { unfold lookup_payment. rewrite Hp'. by apply first_such_update. }
  rewrite Hl. split.
  - intros ->. assert (Hlp : lookup_payment (ExternalID tx) db = Some p)
      by by apply (first_such_unique Pay_ID).
    rewrite Hlp. exists p, (set p). cbn. rewrite eqb_same. split; [done|]. split; [done|].
    by exists s, (NOW ctx).
  - intros Hne. destruct (lookup_payment id db) as [x|] eqn:E0; [|done]. cbn.
    destruct (String.eqb_spec (Pay_ID x) (Pay_ID p)) as [He|]; [|done].
    apply lookup_payment_id in E0. congruence.
Qed.

Lemma chain_payments txs db db' :
  chain synced_one txs db db' ->
  NoDup (map ExternalID txs) /\
  (forall tx, tx ∈ txs -> exists p p', lookup_payment (ExternalID tx) db = Some p /\
     lookup_payment (ExternalID tx) db' = Some p' /\ settled tx p p') /\
  (forall id, id ∉ map ExternalID txs -> lookup_payment id db' = lookup_payment id db).
Proof.
  induction 1 as [db|tx txs db db1 db' H1 Hc (Hnd & Hin & Hout)].
  { split; [constructor|]. by split; [intros tx Htx%elem_of_nil|]. }
  destruct (lookup_one tx db db1 (ExternalID tx) H1) as [Hhead _].
  destruct (Hhead eq_refl) as (p & p1 & Hl & Hl1 & Hset). clear Hhead.
  assert (Hnew : ExternalID tx ∉ map ExternalID txs).
  { intros Hx. apply list_elem_of_fmap in Hx as (tx2 & Hid & Htx2).
    destruct (Hin tx2 Htx2) as (p2 & _ & Hl2 & _ & s2 & _ & Hs2 & Hstep2 & _). rewrite <- Hid, Hl1 in Hl2.
    injection Hl2 as <-. destruct Hset as (s & t & Hs & _ & Hst & _). rewrite Hst in Hstep2.
    exact (final_is_final _ _ _ _ Hs Hs2 Hstep2). }
  cbn [map]. split; [by constructor|]. split.
  - intros tx' Htx'. apply elem_of_cons in Htx' as [->|Htx'].
    + exists p, p1. rewrite Hout by done. by split.
    + destruct (Hin tx' Htx') as (q & q' & Hq & Hq' & Hs). exists q, q'. split; [|done].
      rewrite <- Hq. symmetry. apply (lookup_one tx); [done|]. intros He. apply Hnew. rewrite <- He.
      apply list_elem_of_fmap. eauto.
  - intros id Hid. rewrite not_elem_of_cons in Hid. destruct Hid as [Hne Hid].
    rewrite Hout by done. by apply (lookup_one tx).
Qed.

(** ** Completion *)

(** Something of the disbursement is not paid. *)
Definition unpaid (did : string) (db : SdpDb) : bool :=
  existsb (fun p => of_disbursement did p && (Pay_Status p <>? SuccessPaymentStatus)) (payments db).

Lemma unpaid_true did db :
  unpaid did db = true <->
  exists p, p ∈ payments db /\ Pay_DisbursementID p = Some did /\ Pay_Status p <> SuccessPaymentStatus.
Proof.
  unfold unpaid, of_disbursement. rewrite existsb_exists. setoid_rewrite andb_true_iff.
  setoid_rewrite bool_decide_eq_true. setoid_rewrite negb_true_iff. setoid_rewrite eqb_false.
  by setoid_rewrite list_elem_of_In.
Qed.

(** A transaction for another disbursement, or none, changes nothing of it. *)
Lemma unpaid_other ctx tx s p db did :
  NoDup (map Pay_ID (payments db)) -> p ∈ payments db -> Pay_DisbursementID p <> Some did ->
  unpaid did (with_paid ctx tx s p db) = unpaid did db.
Proof.
  intros Hnd Hp Hd. apply eq_true_iff_eq. rewrite !unpaid_true.
  assert (Hhit : forall x, x ∈ payments db -> Pay_ID x = Pay_ID p -> x = p).
  { intros x Hx Hid. pose proof (first_such_unique Pay_ID (Pay_ID p) _ x Hnd Hx Hid) as H1.
    pose proof (first_such_unique Pay_ID (Pay_ID p) _ p Hnd Hp eq_refl) as H2. congruence. }
  unfold with_paid. cbn [set_field payments]. setoid_rewrite elem_of_update_where. split.
  - intros (y & (x & Hx & ->) & Hy & Hs). destruct (String.eqb_spec (Pay_ID x) (Pay_ID p)) as [He|He].
    + rewrite (Hhit x Hx He) in Hy. done.
    + by exists x.
  - intros (x & Hx & Hy & Hs). exists x. split; [|done]. exists x. split; [done|].
    destruct (String.eqb_spec (Pay_ID x) (Pay_ID p)) as [He|He]; [|done]. rewrite (Hhit x Hx He) in Hy. done.
Qed.

Lemma unpaid_one_other tx db db' did p :
  synced_one tx db db' -> lookup_payment (ExternalID tx) db = Some p -> Pay_DisbursementID p <> Some did ->
  unpaid did db' = unpaid did db.
Proof.
  intros H Hl Hd. apply payments_of_one in H as (q & s & ctx & Hnd & Hq & Hid & _ & _ & Hp').
  assert (Hlq : lookup_payment (ExternalID tx) db = Some q) by by apply (first_such_unique Pay_ID).
  assert (p = q) as -> by congruence.
  transitivity (unpaid did (with_paid ctx tx s q db)); [unfold unpaid; by rewrite Hp'|by apply unpaid_other].
Qed.

Lemma unpaid_one tx db db' did :
  synced_one tx db db' -> unpaid did db = false -> unpaid did db' = false.
Proof.
  intros H Hu. pose proof H as H0.
  apply payments_of_one in H0 as (p & s & ctx & Hnd & Hp & Hid & Hs & Hstep & _).
  rewrite (unpaid_one_other tx db db' did p); [done|done|by apply (first_such_unique Pay_ID)|].
  intros Hd. apply not_true_iff_false in Hu. apply Hu, unpaid_true. exists p.
  split; [done|]. split; [done|]. intros He. rewrite He in Hstep. revert Hstep.
  apply (final_is_final (tx <| Status := TransactionStatusSuccess |>) tx); [by vm_compute|done].
Qed.

Definition pays_for (did : string) (tx : Transaction) (db : SdpDb) : Prop :=
  exists p, lookup_payment (ExternalID tx) db = Some p /\ Pay_DisbursementID p = Some did.

(** No synchronisation changes what a payment is for. *)
Lemma pays_for_one tx tx' db db' did : synced_one tx db db' -> pays_for did tx' db' <-> pays_for did tx' db.
Proof.
  intros H. destruct (lookup_one tx db db' (ExternalID tx') H) as [Hsame Hother]. unfold pays_for.
  destruct (decide (ExternalID tx' = ExternalID tx)) as [He|He]; [|by rewrite Hother].
  destruct (Hsame He) as (q & q' & -> & -> & s & t & _ & _ & _ & _ & Hcore & _). unfold payment_core in Hcore.
  split; intros (p & [= <-] & Hd); eexists; (split; [done|]); congruence.
Qed.

Lemma dis_of_some db p did : did <> "" -> dis_of db p = did -> Pay_DisbursementID p = Some did.
Proof.
  unfold dis_of. destruct (Pay_DisbursementID p) as [x|]; [|congruence].
  destruct (lookup_disbursement x db) as [d|] eqn:El; [|congruence].
  apply first_such_some in El as [_ El]. apply String.eqb_eq in El. congruence.
Qed.

(** The disbursement is completed, by a payment of it, or as it was. *)
Lemma disbursement_one tx db db' did d :
  synced_one tx db db' -> lookup_disbursement did db = Some d ->
  exists d', lookup_disbursement did db' = Some d' /\
    (d' = d \/ Dis_Status d = StartedDisbursementStatus /\ Dis_Status d' = CompletedDisbursementStatus /\
               unpaid did db' = false /\ (did <> "" -> pays_for did tx db)).
Proof.
  intros (p & s & c1 & c2 & Hnd & Hp & Hid & _ & _ & _ & ->) Hl.
  destruct (_ =? _); [|by exists d; split; [|left]]. set (paid := with_paid c1 tx s p db).
  set (f := fun d => refresh_disbursement c2 (set_disbursement_status CompletedDisbursementStatus "" "" c2 d)).
  assert (Hl' : lookup_disbursement did (with_completed c2 (dis_of db p) paid) =
    (fun d => if completes paid (dis_of db p) d then f d else d) <$> lookup_disbursement did db)
    by by apply first_such_update.
  rewrite Hl', Hl. cbn [fmap option_fmap option_map]. eexists. split; [done|].
  destruct (completes paid (dis_of db p) d) eqn:Ec; [|by left]. right. unfold completes in Ec.
  rewrite !andb_true_iff, negb_true_iff in Ec. destruct Ec as [[Hof Hst] Hun]. apply String.eqb_eq in Hst.
  split; [done|]. split; [done|]. apply first_such_some in Hl as [_ Hl]. apply String.eqb_eq in Hl.
  split; [rewrite <- Hl; exact Hun|]. intros Hne. exists p. split; [by apply (first_such_unique Pay_ID)|].
  apply (slices_Contains_spec [_]), list_elem_of_singleton in Hof. apply (dis_of_some db); congruence.
Qed.

(** A started disbursement still has something to pay. *)
Definition pending_work (did : string) (db : SdpDb) : Prop :=
  forall d, lookup_disbursement did db = Some d -> Dis_Status d = StartedDisbursementStatus ->
    unpaid did db = true.

Lemma pending_work_one tx db db' did :
  synced_one tx db db' -> pending_work did db \/ pays_for did tx db -> pending_work did db'.
Proof.
  intros H Hor. pose proof H as H0. destruct H0 as (p & s & c1 & c2 & Hnd & Hp & Hid & _ & _ & Ht & Hdb').
  assert (Hlp : lookup_payment (ExternalID tx) db = Some p) by by apply (first_such_unique Pay_ID).
  destruct (decide (Pay_DisbursementID p = Some did)) as [Hd|Hd].
  - intros d' Hl' Hst. rewrite Ht, eqb_same in Hdb' by congruence.
    set (paid := with_paid c1 tx s p db) in *.
    assert (Hun : unpaid did db' = unpaid did paid) by by rewrite Hdb'. rewrite Hun.
    set (f := fun d => refresh_disbursement c2 (set_disbursement_status CompletedDisbursementStatus "" "" c2 d)).
    assert (Hl : lookup_disbursement did db' =
      (fun d => if completes paid (dis_of db p) d then f d else d) <$> lookup_disbursement did db)
      by (rewrite Hdb'; by apply first_such_update).
    rewrite Hl' in Hl. destruct (lookup_disbursement did db) as [d|] eqn:E0; [|done].
    pose proof E0 as Hk. apply first_such_some in Hk as [_ Hk]. apply String.eqb_eq in Hk.
    assert (Hdo : dis_of db p = did) by (unfold dis_of; by rewrite Hd, E0).
    cbn [fmap option_fmap option_map] in Hl. injection Hl as ->.
    destruct (completes paid (dis_of db p) d) eqn:Ec; [by vm_compute in Hst|].
    unfold completes in Ec. rewrite Hdo, Hst, eqb_same in Ec. cbn in Ec. rewrite Hk, eqb_same in Ec.
    cbn in Ec. apply negb_false_iff in Ec. unfold has_unpaid in Ec. rewrite ?Hk in Ec. exact Ec.
  - destruct Hor as [Hw|(q & Hq & Hqd)]; [|congruence].
    intros d' Hl' Hst. rewrite (unpaid_one_other tx db db' did p) by done.
    destruct (lookup_disbursement did db) as [d|] eqn:E0.
    + destruct (disbursement_one tx db db' did d H E0) as (d2 & Hl2 & [->|(_ & Hc & _)]).
      * apply (Hw d); [done|congruence].
      * rewrite Hl2 in Hl'. injection Hl' as <-. rewrite Hc in Hst. discriminate.
    + exfalso. revert Hl'. rewrite Hdb'. destruct (_ =? _).
      * set (f := fun d => refresh_disbursement c2
                  (set_disbursement_status CompletedDisbursementStatus "" "" c2 d)).
        assert (Hl : lookup_disbursement did (with_completed c2 (dis_of db p) (with_paid c1 tx s p db)) =
          (fun d => if completes (with_paid c1 tx s p db) (dis_of db p) d then f d else d)
            <$> lookup_disbursement did db) by by apply first_such_update.
        by rewrite Hl, E0.
      * change (lookup_disbursement did (with_paid c1 tx s p db)) with (lookup_disbursement did db).
        by rewrite E0.
Qed.

Lemma chain_disbursements txs db db' did :
  chain synced_one txs db db' ->
  (unpaid did db = false -> unpaid did db' = false) /\
  (forall d, lookup_disbursement did db = Some d -> exists d', lookup_disbursement did db' = Some d' /\
     (d' = d \/ Dis_Status d = StartedDisbursementStatus /\ Dis_Status d' = CompletedDisbursementStatus /\
                unpaid did db' = false /\ (did <> "" -> exists tx, tx ∈ txs /\ pays_for did tx db))) /\
  (pending_work did db \/ (exists tx, tx ∈ txs /\ pays_for did tx db) -> pending_work did db').
Proof.
  induction 1 as [db|tx txs db db1 db' H1 Hc (IHu & IHd & IHw)].
  { split; [done|]. split; [eauto|]. by intros [|(tx & []%elem_of_nil & _)]. }
  split; [intros Hu; by apply IHu, (unpaid_one tx db)|]. split.
  - intros d Hl. destruct (disbursement_one _ _ _ _ _ H1 Hl) as (d1 & Hl1 & Hd1).
    destruct (IHd d1 Hl1) as (d' & Hl' & Hd'). exists d'. split; [done|].
    destruct Hd1 as [->|(Hs & Hs1 & Hu1 & Hpf)].
    + destruct Hd' as [->|(Hs & Hs' & Hu & Hpf)]; [by left|right]. split_and!; [done..|].
      intros Hne. destruct (Hpf Hne) as (tx' & Hin & Hp). exists tx'. split; [by right|].
      by apply (pays_for_one tx tx' db db1).
    + right. destruct Hd' as [->|(Hs1' & _)]; [|rewrite Hs1 in Hs1'; discriminate]. split_and!; [done|done|by apply IHu|].
      intros Hne. exists tx. split; [by left|auto].
  - intros Hor. apply IHw.
    destruct Hor as [Hw|(tx' & Hin & Hp)].
    + left. by apply (pending_work_one tx db); [|left].
    + apply elem_of_cons in Hin as [->|Hin].
      * left. by apply (pending_work_one tx db); [|right].
      * right. exists tx'. split; [done|]. by apply (pays_for_one tx tx' db db1).
Qed.

(** ** The theorems *)

Section theorems.
Context {D L Ev : Type} {E : Env D} {C : Conn D SdpDb} {CL : ConnLaws D SdpDb}
  {T : Conn D TssDb} {TL : ConnLaws D TssDb} {CI : ConnIndep D SdpDb TssDb} {N : Numerics}.
Implicit Types w : World D L Ev.

(** C5: A synchronisation that succeeds took the finished payment transactions of the
    tenant that were not synchronised: all of them that no other process ever holds,
    or as many as the batch has room for, the first that completed.  There is at most
    one per payment; each settled its payment and is marked as synchronised; no other
    payment and no other transaction has changed. *)
Theorem sync_settles_payments (batchSize : Z) (tenantID : string) w w' (Htx : w_tx w = ∅)
    (Hrun : SyncBatchTransactions batchSize tenantID w = (Ok tt, w')) :
  exists batch, Forall (to_sync tenantID (tss (settle w))) batch /\
    complete_batch batchSize TransactionTypePayment tenantID (tss (settle w)) batch /\ NoDup (map ExternalID batch) /\
    (forall tx, tx ∈ batch -> exists p p', lookup_payment (ExternalID tx) (sdp (settle w)) = Some p /\
       lookup_payment (ExternalID tx) (sdp w') = Some p' /\ settled tx p p') /\
    (forall id, id ∉ map ExternalID batch ->
       lookup_payment id (sdp w') = lookup_payment id (sdp (settle w))) /\
    marked (map ID batch) (tss (settle w)) (tss w').
Proof.
  destruct (SyncBatch_ok _ _ _ _ Htx Hrun) as (batch & Hsel & Hall & Hch & Hm). exists batch.
  destruct (chain_payments _ _ _ Hch) as (Hnd & Hin & Hout). auto 10.
Qed.

(** C29: Of the disbursements it completes exactly those it changed a payment of, that were
    started and of which every payment is SUCCESS: each disbursement stays as it is, or
    was started and is completed with all its payments successful; and when the
    synchronisation changed one of its payments and none of them is other than SUCCESS,
    it is not left started.  A failed or canceled payment keeps its disbursement
    started, though a comment of the code speaks of payments in their end state. *)
Theorem sync_completes_disbursements (batchSize : Z) (tenantID : string) w w' (Htx : w_tx w = ∅)
    (Hrun : SyncBatchTransactions batchSize tenantID w = (Ok tt, w')) (did : string) d
    (Hd : lookup_disbursement did (sdp (settle w)) = Some d) :
  exists d', lookup_disbursement did (sdp w') = Some d' /\
    (d' = d \/ Dis_Status d = StartedDisbursementStatus /\ Dis_Status d' = CompletedDisbursementStatus /\
               unpaid did (sdp w') = false /\
               (did <> "" -> exists id p, lookup_payment id (sdp (settle w)) = Some p /\
                  Pay_DisbursementID p = Some did /\ lookup_payment id (sdp w') <> Some p)) /\
    (forall id p, lookup_payment id (sdp (settle w)) = Some p -> Pay_DisbursementID p = Some did ->
       lookup_payment id (sdp w') <> Some p -> unpaid did (sdp w') = false ->
       Dis_Status d' <> StartedDisbursementStatus).
Proof.
  destruct (SyncBatch_ok _ _ _ _ Htx Hrun) as (batch & _ & _ & Hch & _).
  destruct (chain_payments _ _ _ Hch) as (_ & Hin & Hout).
  destruct (chain_disbursements _ _ _ did Hch) as (_ & Hdis & Hwork).
  destruct (Hdis d Hd) as (d' & Hl' & Hor). exists d'. split; [done|]. split.
  { destruct Hor as [->|(? & ? & ? & Hpf)]; [by left|right]. split_and!; [done..|]. intros Hne.
    destruct (Hpf Hne) as (tx & Htxb & p & Hp & Hpd). exists (ExternalID tx), p. split; [done|]. split; [done|].
    destruct (Hin tx Htxb) as (q & q' & Hq & Hq' & s & t & _ & _ & _ & _ & _ & Hhist). rewrite Hp in Hq.
    injection Hq as <-. rewrite Hq'. intros [= ->]. apply (f_equal length) in Hhist.
    rewrite length_app in Hhist. cbn in Hhist. lia. }
  intros id p Hl Hpd Hne Hu Hst. destruct (decide (id ∈ map ExternalID batch)) as [Hib|Hib].
  - apply list_elem_of_fmap in Hib as (tx & -> & Hib). apply not_true_iff_false in Hu. apply Hu.
    apply (Hwork (or_intror (ex_intro _ tx (conj Hib (ex_intro _ p (conj Hl Hpd))))) d'); done.
  - apply Hne. by rewrite Hout.
Qed.
End theorems.

(** ** Witnesses *)

Module Queue.
Export Platform.
#[export] Instance indep : ConnIndep Dbs SdpDb TssDb.
Proof. by constructor. Qed.
#[export] Instance url : NetUrl := {| url_Parse s := None |}.

Definition tenant : Tenant :=
  mkTenant "tenant" "tenant" (Some "https://tenant.example") None ProvisionedTenantStatus false 0 0 None
    (Some "GDIST") DistributionAccountStellarDBVault AccountStatusActive.

(** One payment to send, of 5 units; one whose receiver has not registered. *)
Definition to_send : World Dbs unit unit :=
  world (sdp_db false [disbursement "d1" StartedDisbursementStatus]
    [pay "p1" "d1" ReadyPaymentStatus 50000000 registered;
     pay "p2" "d1" ReadyPaymentStatus 70000000 invited]) [].

(** A payment whose transaction succeeded. *)
Definition to_settle : World Dbs unit unit :=
  world (sdp_db false [disbursement "d1" StartedDisbursementStatus]
    [pay "p1" "d1" PendingPaymentStatus 50000000 registered])
    [Calm.payment "1" TransactionStatusSuccess (Some "hash") 0 None].

(** The connection breaks at one instant. *)
Definition losing (at_ : nat) : Env Dbs :=
  {| env_fault t := if Nat.eqb t at_ then FaultBefore (EExternal "connection reset") else NoFault;
     env_interfere _ d := d; env_now t := Z.of_nat t; env_locked _ _ := false |}.

(** The instant of the last commit of sending the batch. *)
Definition commit_of_sdp : nat :=
  pred (w_clock (snd (SendBatchPayments (E := env) (Some tenant) 10 to_send))).

(** The tables after the commit of the tenant's database was lost, and later,
    when the network has paid. *)
Definition lost : World Dbs unit unit :=
  snd (SendBatchPayments (E := losing commit_of_sdp) (Some tenant) 10 to_send).
Definition lost_and_paid : World Dbs unit unit :=
  put_part (mkTssDb (map (fun tx => tx <| Status := TransactionStatusSuccess |>
    <| StellarTransactionHash := Some "hash" |>) (submitter_transactions (tss lost))) []) lost.
End Queue.
Import Queue.

Lemma dispatch_queues_payments_witness :
  exists w', SendBatchPayments (Some tenant) 10 to_send = (Ok tt, w') /\
    (exists rows, submitter_transactions (tss w') = rows /\ length rows = 1) /\
    exists p', lookup_payment "p1" (sdp w') = Some p' /\ Pay_Amount p' = 50000000%Z.
Proof.
  eexists. split; [vm_compute; reflexivity|].
  edestruct (dispatch_queues_payments (E := env) (C := sdp_conn) (T := tss_conn) (Some tenant) 10 to_send)
    as (tnt & batch & _ & _ & _ & Hall & _ & _ & _ & H); [reflexivity|by_computation|vm_compute; reflexivity|].
  split; [eexists; split; [reflexivity|reflexivity]|].
  destruct (H "p1" (pay "p1" "d1" ReadyPaymentStatus 50000000 registered)) as (p' & Hl & Hin & Hout);
    [reflexivity|]. exists p'. split; [exact Hl|].
  destruct (decide ("p1" ∈ ids_of batch)) as [Hid|Hid]; [|by rewrite (Hout Hid)].
  apply list_elem_of_fmap in Hid as (v & Hid & Hv). by destruct (Hin v Hv (eq_sym Hid)) as [ctx ->].
Defined.

Lemma sync_settles_payments_witness :
  exists w', SyncBatchTransactions 10 "tenant" to_settle = (Ok tt, w') /\
    exists p p' tx, lookup_payment "p1" (sdp (settle to_settle)) = Some p /\
      lookup_payment "p1" (sdp w') = Some p' /\ settled tx p p'.
Proof.
  eexists. split; [vm_compute; reflexivity|].
  edestruct (sync_settles_payments (E := env) (C := sdp_conn) (T := tss_conn) 10 "tenant" to_settle)
    as (batch & _ & _ & _ & Hin & Hout & _); [reflexivity|vm_compute; reflexivity|].
  destruct (decide ("p1" ∈ map ExternalID batch)) as [H|H].
  - apply list_elem_of_fmap in H as (tx & Hid & Htx). destruct (Hin tx Htx) as (p & p' & Hp & Hp' & Hs).
    rewrite <- Hid in Hp, Hp'. by exists p, p', tx.
  - exfalso. specialize (Hout "p1" H). vm_compute in Hout. discriminate.
Defined.

Lemma sync_completes_disbursements_witness :
  exists w', SyncBatchTransactions 10 "tenant" to_settle = (Ok tt, w') /\
    exists d', lookup_disbursement "d1" (sdp w') = Some d' /\ Dis_Status d' <> StartedDisbursementStatus.
Proof.
  eexists. split; [vm_compute; reflexivity|].
  edestruct (sync_completes_disbursements (E := env) (C := sdp_conn) (T := tss_conn) 10 "tenant" to_settle)
    with (did := "d1") as (d' & Hl & _ & H); [reflexivity|vm_compute; reflexivity|reflexivity|].
  exists d'. split; [exact Hl|].
  apply (H "p1" (pay "p1" "d1" PendingPaymentStatus 50000000 registered));
    [reflexivity|reflexivity|vm_compute; discriminate|vm_compute; reflexivity].
Defined.

(** The two commits are not one: when the connection to the tenant's database
    breaks as the last commit is sent, the transaction is queued and the payment
    is still READY.  From then on the batch is refused, with no fault at all,
    because the queue already has a live transaction for the payment; and when
    the network has paid, the synchronisation is refused too, because the
    payment is not PENDING. *)
Theorem lost_commit_wedges_payments :
  is_ok (fst (SendBatchPayments (E := losing commit_of_sdp) (Some tenant) 10 to_send)) = false /\
  Pay_Status <$> lookup_payment "p1" (sdp lost) = Some ReadyPaymentStatus /\
  map (fun tx => (ExternalID tx, Status tx)) (submitter_transactions (tss lost))
    = [("p1", TransactionStatusPending)] /\
  is_ok (fst (SendBatchPayments (Some tenant) 10 lost)) = false /\
  is_ok (fst (SendBatchPayments (Some tenant) 10 lost_and_paid)) = false /\
  is_ok (fst (SyncBatchTransactions 10 "tenant" lost_and_paid)) = false /\
  w_db (snd (SendBatchPayments (Some tenant) 10 lost_and_paid)) = w_db lost_and_paid /\
  w_db (snd (SyncBatchTransactions 10 "tenant" lost_and_paid)) = w_db lost_and_paid.
Proof. split_and!; vm_compute; reflexivity. Qed.
