(* ===== verification/CircleClient.v ===== *)
(** Circle, the other platform a tenant can pay through ([internal/circle]): what its API
    says and is asked, with the assets of [services/assets] it knows; the client of the
    API ([client.go], [errors.go]) and the service that asks with the key of the tenant
    ([service.go], [client_config.go]). *)

From S2P Require Import Prelude GoStrings Errors StateMachine Effects Retry Schema TxStore SdpDb ReceiverStore.
From S2P Require Import DisbursementMgmt Tenant Tenants.
From Stdlib Require Import Ascii String.

Local Open Scope string_scope.
Local Open Scope list_scope.
Local Open Scope go_scope.

(** ** Data: [transfer.go], [payout.go], [recipient.go], [balance.go], [account_configuration.go] *)

Definition TransferStatusPending := "pending".
Definition TransferStatusComplete := "complete".
Definition TransferStatusFailed := "failed".

Definition TransferStatus_ToPaymentStatus (s : string) : res string :=
  if s =? TransferStatusPending then Ok PendingPaymentStatus
  else if s =? TransferStatusComplete then Ok SuccessPaymentStatus
  else if s =? TransferStatusFailed then Ok FailedPaymentStatus
  else Err (ENew ("unknown transfer status " +:+ quote s)).

Definition TransferAccountTypeBlockchain := "blockchain".
Definition TransferAccountTypeAddressBook := "address_book".
Definition TransferAccountTypeWallet := "wallet".
Definition StellarChainCode := "XLM".

Record CircleBalance := mkCircleBalance { CB_Amount : string; CB_Currency : string }.

Record TransferAccount := mkTransferAccount {
  TAc_Type : string;
  TAc_ID : string;
  TAc_Chain : string;
  TAc_Address : string;
  TAc_AddressTag : string }.
#[export] Instance eta_TransferAccount : Eta TransferAccount := fun r =>
  mkTransferAccount (TAc_Type r) (TAc_ID r) (TAc_Chain r) (TAc_Address r) (TAc_AddressTag r).

Record Transfer := mkTransfer {
  Tr_ID : string;
  Tr_Source : TransferAccount;
  Tr_Destination : TransferAccount;
  Tr_Amount : CircleBalance;
  Tr_TransactionHash : string;
  Tr_Status : string;
  Tr_ErrorCode : string;
  Tr_CreateDate : Z }.

Record Payout := mkPayout {
  Po_ID : string;
  Po_Destination : TransferAccount;
  Po_Amount : CircleBalance;
  Po_ToAmount : CircleBalance;
  Po_TransactionHash : string;
  Po_CreateDate : Z;
  Po_UpdateDate : Z;
  Po_SourceWalletID : string;
  Po_Fees : CircleBalance;
  Po_Status : string;
  Po_ErrorCode : string;
  Po_RiskDecision : string;
  Po_RiskReason : string }.

Record RecipientMetadata := mkRecipientMetadata { Nickname : string; RM_Email : string; BNS : string }.

Record Recipient := mkRecipient {
  Rcp_ID : string;
  Rcp_Chain : string;
  Rcp_AddressTag : string;
  Rcp_Address : string;
  Rcp_Metadata : RecipientMetadata;
  Rcp_Status : string;
  Rcp_CreateDate : string;
  Rcp_UpdateDate : string }.

Record CircleBalances := mkCircleBalances { Available : list CircleBalance; Unsettled : list CircleBalance }.
Record AccountConfiguration := mkAccountConfiguration { MasterWalletID : string }.

(** Requests. *)
Record TransferRequest := mkTransferRequest {
  TRq_Source : TransferAccount;
  TRq_Destination : TransferAccount;
  TRq_Amount : CircleBalance;
  TRq_IdempotencyKey : string }.

Record PayoutRequest := mkPayoutRequest {
  PRq_IdempotencyKey : string;
  PRq_Source : TransferAccount;
  PRq_Destination : TransferAccount;
  PRq_Amount : CircleBalance;
  PRq_ToCurrency : string }.

Record RecipientRequest := mkRecipientRequest {
  RRq_IdempotencyKey : string;
  RRq_Address : string;
  RRq_AddressTag : string;
  RRq_Chain : string;
  RRq_Metadata : RecipientMetadata }.

(** ** Third parties *)

(** The UUIDs of google/uuid, and [strconv.ParseFloat]: whether a text is valid. *)
Class GoogleUuid := { uuid_valid : string -> bool; uuid_NewString : nat -> string }.
Class ParseFloat := { float_valid : string -> bool }.

(** [encoding/json] on these types. *)
Class CircleJson := {
  json_TransferRequest : TransferRequest -> string;
  json_PayoutRequest : PayoutRequest -> string;
  json_RecipientRequest : RecipientRequest -> string;
  json_Transfer : Transfer -> string;
  json_Payout : Payout -> string;
  json_Recipient : Recipient -> string;
  json_APIError : Z * Z -> string -> string;
  decode_Transfer : string -> res Transfer;
  decode_Payout : string -> res Payout;
  decode_Recipient : string -> res Recipient;
  decode_Balances : string -> res CircleBalances;
  decode_Configuration : string -> res AccountConfiguration;
  unmarshal_APIError : string -> Z * string * bool }.   (* what was read, and whether all was *)

(** HTTP: what Circle answers at an instant. *)
Record HttpRequest := mkHttpRequest {
  HQ_Method : string;
  HQ_URL : string;
  HQ_Authorization : option string;
  HQ_Body : string }.

Record HttpResponse := mkHttpResponse {
  HS_StatusCode : Z;
  HS_RetryAfter : string;
  HS_Body : res string }.

Class CircleHttp (Ev : Type) := {
  http_JoinPath : list string -> res string;
  http_Do : nat -> HttpRequest -> res HttpResponse;
  duration_text : Z -> string;
  requested : HttpRequest -> Ev }.

(** ** Validation *)

Section validation.
Context {UU : GoogleUuid} {PF : ParseFloat} {SDK : StellarSdk} {N : Numerics}.

Definition APITypePayouts := "PAYOUTS".
Definition APITypeTransfers := "TRANSFERS".
Definition AllAPITypes : list string := [APITypePayouts; APITypeTransfers].

Definition ParseAPIType (s : string) : res string :=
  let upper := ToUpper s in
  if slices_Contains AllAPITypes upper then Ok upper
  else Err (ENew ("invalid Circle API type " +:+ quote upper +:+ ", must be one of ["
                  +:+ Join " " AllAPITypes +:+ "]")).

Record PaymentRequest := mkPaymentRequest {
  SourceWalletID : string;
  RecipientID : string;
  DestinationStellarAddress : string;
  DestinationStellarMemo : string;
  APIType : string;
  PR_Amount : string;
  StellarAssetCode : string;
  PR_IdempotencyKey : string }.

Definition USDCAssetCode := "USDC".
Definition EURCAssetCode := "EURC".

Definition GetCircleAssetCode (p : PaymentRequest) : res string :=
  if StellarAssetCode p =? USDCAssetCode then Ok "USD"
  else if StellarAssetCode p =? EURCAssetCode then Ok "EUR"
  else Err (ENew ("unsupported asset code for CIRCLE: " +:+ StellarAssetCode p)).

Definition PaymentRequest_Validate (p : PaymentRequest) : res unit :=
  let? _ := ParseAPIType (APIType p) in
  if SourceWalletID p =? "" then Err (ENew "source wallet ID is required")
  else if (APIType p =? APITypePayouts) && (RecipientID p =? "") then Err (ENew "recipient ID is required")
  else if (APIType p =? APITypeTransfers) && negb (IsValidEd25519PublicKey (DestinationStellarAddress p))
  then Err (ENew "destination stellar address is not a valid public key")
  else
    let? _ := wrap "amount is not valid" (ValidateAmount (PR_Amount p)) in
    if StellarAssetCode p =? "" then Err (ENew "stellar asset code is required")
    else guard_err (negb (uuid_valid (PR_IdempotencyKey p)))
           (EWrap "idempotency key is not valid" (EExternal "invalid UUID")).

Definition TransferRequest_validate (tr : TransferRequest) : res unit :=
  if TAc_Type (TRq_Source tr) =? "" then Err (ENew "source type must be provided")
  else if TAc_Type (TRq_Source tr) <>? TransferAccountTypeWallet then Err (ENew "source type must be wallet")
  else if TAc_ID (TRq_Source tr) =? "" then Err (ENew "source ID must be provided for wallet transfers")
  else if TAc_Type (TRq_Destination tr) <>? TransferAccountTypeBlockchain
  then Err (ENew "destination type must be blockchain")
  else if TAc_Chain (TRq_Destination tr) <>? "XLM" then Err (ENew "destination chain must be Stellar (XLM)")
  else if TAc_Address (TRq_Destination tr) =? "" then Err (ENew "destination address must be provided")
  else if CB_Currency (TRq_Amount tr) =? "" then Err (ENew "currency must be provided")
  else if CB_Amount (TRq_Amount tr) =? "" then Err (ENew "amount must be provided")
  else if TRq_IdempotencyKey tr =? "" then Err (ENew "idempotency key must be provided")
  else guard_err (negb (float_valid (CB_Amount (TRq_Amount tr)))) (ENew "amount must be a valid number").

Definition check_key (key : string) : res unit :=
  if key =? "" then Err (ENew "idempotency key must be provided")
  else guard_err (negb (uuid_valid key)) (ENew "idempotency key is not a valid UUID").

(** The request it leaves has a chain. *)
Definition chain_or_stellar (chain : string) : string := if chain =? "" then StellarChainCode else chain.

Definition PayoutRequest_validate (pr : PayoutRequest) : res PayoutRequest :=
  let dest := PRq_Destination pr in
  let? _ := check_key (PRq_IdempotencyKey pr) in
  if TAc_Type (PRq_Source pr) =? "" then Err (ENew "source type must be provided")
  else if TAc_Type (PRq_Source pr) <>? TransferAccountTypeWallet then Err (ENew "source type must be wallet")
  else if TAc_ID (PRq_Source pr) =? "" then Err (ENew "source ID must be provided for wallet transfers")
  else if TAc_Type dest <>? TransferAccountTypeAddressBook then Err (ENew "destination type must be address_book")
  else if (TAc_Chain dest <>? "") && (TAc_Chain dest <>? StellarChainCode)
  then Err (ENew ("invalid destination chain provided " +:+ quote (TAc_Chain dest)))
  else if TAc_ID dest =? "" then Err (ENew "destination ID must be provided")
  else if CB_Currency (PRq_Amount pr) =? "" then Err (ENew "currency must be provided")
  else
    let? _ := wrap "validating amount" (ValidateAmount (CB_Amount (PRq_Amount pr))) in
    if PRq_ToCurrency pr =? "" then Err (ENew "toAmount.currency must be provided")
    else Ok (mkPayoutRequest (PRq_IdempotencyKey pr) (PRq_Source pr)
               (dest <| TAc_Chain := chain_or_stellar (TAc_Chain dest) |>) (PRq_Amount pr) (PRq_ToCurrency pr)).

Definition RecipientRequest_validate (rr : RecipientRequest) : res RecipientRequest :=
  let meta := RRq_Metadata rr in
  let? _ := check_key (RRq_IdempotencyKey rr) in
  if RRq_Address rr =? "" then Err (ENew "address must be provided")
  else if negb (IsValidEd25519PublicKey (RRq_Address rr))
  then Err (ENew "address is not a valid Stellar public key")
  else if (RRq_Chain rr <>? "") && (RRq_Chain rr <>? StellarChainCode)
  then Err (ENew ("invalid chain provided " +:+ quote (RRq_Chain rr)))
  else if (Nickname meta =? "") && (RM_Email meta =? "") && (BNS meta =? "")
  then Err (ENew "metadata must be provided")
  else if Nickname meta =? "" then Err (ENew "metadata nickname must be provided")
  else if (RM_Email meta <>? "") && negb (is_ok (ValidateEmail (RM_Email meta)))
  then Err (ENew "metadata email is not a valid email")
  else Ok (mkRecipientRequest (RRq_IdempotencyKey rr) (RRq_Address rr) (RRq_AddressTag rr)
             (chain_or_stellar (RRq_Chain rr)) meta).
End validation.

(** ** Assets: [AllowedAssetsMap] and the assets of [services/assets] *)

Definition USDCAssetPubnet := mkAsset "" USDCAssetCode "GA5ZSEJYB37JRC5AVCIA5MOP4RHTM335X2KGX3IHOJAPP5RE34K4KZVN" None.
Definition EURCAssetPubnet := mkAsset "" EURCAssetCode "GDHU6WRG4IEQXM5NZ4BMPKOXHW76MZM4Y2IEMFDVXBSDP6SJY4ITNPP2" None.
Definition USDCAssetTestnet := mkAsset "" USDCAssetCode "GBBD47IF6LWK7P7MDEVSCWR7DPUWV3NY3DTQEVFL4NAT4AQH3ZLLFLA5" None.
Definition EURCAssetTestnet := mkAsset "" EURCAssetCode "GB3Q6QDZYTHWT7E5PVS3W7FUT5GVAFC5KSZFFLPU25GO7VTC3NM2ZTVO" None.

Definition ErrUnsupportedCurrency : err := ESentinel "unsupported Circle currency code".
Definition ErrUnsupportedCurrencyForNetwork : err :=
  ESentinel "unsupported Circle currency code for this network type".

Definition AllowedAssetsMap : gmap string (gmap string Asset) := list_to_map
  [("USD", list_to_map [("pubnet", USDCAssetPubnet); ("testnet", USDCAssetTestnet)]);
   ("EUR", list_to_map [("pubnet", EURCAssetPubnet); ("testnet", EURCAssetTestnet)])].

Definition parseStellarAssetFromAllowlist (circleCurrency networkType : string)
    (allowed : gmap string (gmap string Asset)) : res Asset :=
  match allowed !! circleCurrency with
  | None => Err ErrUnsupportedCurrency
  | Some byNetwork =>
    match byNetwork !! networkType with Some a => Ok a | None => Err ErrUnsupportedCurrencyForNetwork end
  end.

Definition ParseStellarAsset (circleCurrency networkType : string) : res Asset :=
  parseStellarAssetFromAllowlist circleCurrency networkType AllowedAssetsMap.

Local Open Scope string_scope.
Local Open Scope list_scope.
Local Open Scope go_scope.

Definition pingPath := "/ping".
Definition transferPath := "/v1/transfers".
Definition payoutPath := "/v1/payouts".
Definition businessBalancesPath := "/v1/businessAccount/balances".
Definition configurationPath := "/v1/configuration".
Definition addressRecipientPath := "/v1/addressBook/recipients".

Definition Sandbox := "https://api-sandbox.circle.com".
Definition Production := "https://api.circle.com".

Record Client := mkClient { BasePath : string; APIKey : string }.

Definition NewClient (networkType apiKey : string) : Client :=
  mkClient (if networkType =? "pubnet" then Production else Sandbox) apiKey.

(** [strconv.Atoi], and the seconds of the header; 0 when there are none. *)
Definition Atoi (s : string) : option Z :=
  let in_range z := if ((- 2 ^ 63 <=? z) && (z <? 2 ^ 63))%Z then Some z else None in
  match s with
  | String "-"%char s' => match ParseUint64 s' with Ok n => in_range (- n)%Z | Err _ => None end
  | String "+"%char s' => match ParseUint64 s' with Ok n => in_range n | Err _ => None end
  | _ => match ParseUint64 s with Ok n => in_range n | Err _ => None end
  end.

Definition parseRetryAfter (retryAfter : string) : Z :=
  if retryAfter =? "" then 0%Z else default 0%Z (Atoi retryAfter).

Example retry_after : map parseRetryAfter ["5"; "-1"; "soon"; "+7"; "9223372036854775808"] = [5; -1; 0; 7; 0]%Z.
Proof. reflexivity. Qed.

Definition maxRequestAttempts : nat := 4.

(** An error of type [RetryableError], and [RetryIf]. *)
Definition RetryableError (e : err) : err := EOpaque "RetryableError" (EWrap "retryable error" e).
Definition is_retryable (e : err) : bool :=
  match As_Opaque "RetryableError" e with Some _ => true | None => false end.

Section client.
Context {D L Ev : Type} {E : Env D} {AC : Conn D AdminDb} {RT : Retry D L Ev} {H : CircleHttp Ev} {J : CircleJson}.
Context {UU : GoogleUuid} {PF : ParseFloat} {SDK : StellarSdk} {N : Numerics}.
Abbreviation M := (M D L Ev).

(** One attempt: the request leaves, then it is answered or not. *)
Definition attempt (u : string) (req : HttpRequest) : M HttpResponse :=
  emit (fun _ => requested req) ;;!
  let! resp := wrapM ("submitting request to " +:+ u) (ask_res (fun t => http_Do t req)) in
  if (HS_StatusCode resp =? 429)%Z
  then throw (RetryableError (ENew ("rate limited, retry after: "
         +:+ duration_text (parseRetryAfter (HS_RetryAfter resp)))))
  else mret_ resp.

Definition request (client : Client) (u method : string) (isAuthed : bool) (body : string) : M HttpResponse :=
  wrapM "unsuccessful after multiple attempts"
    (retry_Do maxRequestAttempts is_retryable (attempt u (mkHttpRequest method u
       (if isAuthed then Some ("Bearer " +:+ APIKey client) else None) body))).

Definition authErrorStatusCodes : list Z := [401; 403]%Z.

Definition parseAPIError (resp : HttpResponse) : res err :=
  let? body := wrap "reading error response body" (HS_Body resp) in
  let '(code, message, is_json) := unmarshal_APIError body in
  Ok (EAPI code (HS_StatusCode resp) (if is_json then message else body)).

(** The error of an answer with another status than the ones a method expects; a key
    that is not accepted makes the tenant's account one to be activated again. *)
Definition handleError (ctx : Context_) (resp : HttpResponse) : M err :=
  (if existsb (Z.eqb (HS_StatusCode resp)) authErrorStatusCodes then
     let! tnt := wrapM "getting tenant from context" (lift (GetTenantFromContext ctx)) in
     wrapM "deactivating tenant distribution account" (DeactivateTenantDistributionAccount (Ten_ID tnt))
   else mret_ tt) ;;!
  let! apiError := wrapM "parsing API error" (lift (parseAPIError resp)) in
  mret_ (EWrap "circle API error" apiError).

Definition refuse {A} (ctx : Context_) (resp : HttpResponse) : M A :=
  wrapM "handling API response error" (let! e := handleError ctx resp in throw e).

Definition decode_body {A} (p : string) (decode : string -> res A) (resp : HttpResponse) : res A :=
  wrap p (let? body := HS_Body resp in decode body).

(** The shape the methods share: build the path, ask, accept some statuses, decode. *)
Definition call {A} (ctx : Context_) (client : Client) (path : list string) (method body : string)
    (accepted : list Z) (parse : HttpResponse -> res A) : M A :=
  let! u := wrapM "building path" (lift (http_JoinPath (BasePath client :: path))) in
  let! resp := wrapM "making request" (request client u method true body) in
  if existsb (Z.eqb (HS_StatusCode resp)) accepted then lift (parse resp) else refuse ctx resp.

Definition parseTransferResponse := decode_body "decoding transfer response" decode_Transfer.
Definition parsePayoutResponse := decode_body "decoding transfer response" decode_Payout.
Definition parseRecipientResponse := decode_body "decoding recipient response" decode_Recipient.
Definition parseBusinessBalancesResponse := decode_body "unmarshalling Circle HTTP response" decode_Balances.
Definition parseAccountConfigurationResponse := decode_body "decoding response" decode_Configuration.

Definition Client_Ping (client : Client) : M bool :=
  let! u := wrapM "building path" (lift (http_JoinPath [BasePath client; pingPath])) in
  let! resp := wrapM "making request" (request client u "GET" false "") in
  if negb (HS_StatusCode resp =? 200)%Z
  then throw (ENew ("unexpected status code: " +:+ itoa (HS_StatusCode resp))) else mret_ true.

Definition Client_PostTransfer (ctx : Context_) (client : Client) (transferReq : TransferRequest) : M Transfer :=
  wrapM "validating transfer request" (lift (TransferRequest_validate transferReq)) ;;!
  call ctx client [transferPath] "POST" (json_TransferRequest transferReq) [201%Z] parseTransferResponse.

Definition Client_GetTransferByID (ctx : Context_) (client : Client) (id : string) : M Transfer :=
  call ctx client [transferPath; id] "GET" "" [200%Z] parseTransferResponse.

Definition Client_PostRecipient (ctx : Context_) (client : Client) (recipientRequest : RecipientRequest) :
    M Recipient :=
  let! rr := wrapM "validating recipient request" (lift (RecipientRequest_validate recipientRequest)) in
  call ctx client [addressRecipientPath] "POST" (json_RecipientRequest rr) [201; 200]%Z parseRecipientResponse.

Definition Client_GetRecipientByID (ctx : Context_) (client : Client) (id : string) : M Recipient :=
  call ctx client [addressRecipientPath; id] "GET" "" [200%Z] parseRecipientResponse.

Definition Client_PostPayout (ctx : Context_) (client : Client) (payoutRequest : PayoutRequest) : M Payout :=
  let! pr := wrapM "validating payout request" (lift (PayoutRequest_validate payoutRequest)) in
  call ctx client [payoutPath] "POST" (json_PayoutRequest pr) [201%Z] parsePayoutResponse.

Definition Client_GetPayoutByID (ctx : Context_) (client : Client) (id : string) : M Payout :=
  call ctx client [payoutPath; id] "GET" "" [200%Z] parsePayoutResponse.

Definition Client_GetBusinessBalances (ctx : Context_) (client : Client) : M CircleBalances :=
  call ctx client [businessBalancesPath] "GET" "" [200%Z] parseBusinessBalancesResponse.

Definition Client_GetAccountConfiguration (ctx : Context_) (client : Client) : M AccountConfiguration :=
  call ctx client [configurationPath] "GET" "" [200%Z] parseAccountConfigurationResponse.
End client.

(** ** The service *)

(** [PrivateKeyEncrypter.Decrypt], and the settings of the service. *)
Class CircleSettings := {
  CS_Decrypt : string -> string -> res string;
  CS_EncryptionPassphrase : string;
  CS_NetworkType : string }.

Section service.
Context {D L Ev : Type} {E : Env D} {AC : Conn D AdminDb} {C : Conn D SdpDb} {RT : Retry D L Ev} {H : CircleHttp Ev}.
Context {J : CircleJson} {UU : GoogleUuid} {PF : ParseFloat} {SDK : StellarSdk} {N : Numerics}.
Context {CS : CircleSettings} {URL : NetUrl}.
Abbreviation M := (M D L Ev).

Definition GetDecryptedAPIKey : M string :=
  let! config := wrapM "getting circle config" ClientConfig_Get in
  match config ≫= EncryptedAPIKey with
  | None => throw nil_dereference
  | Some key => wrapM "decrypting circle API key" (lift (CS_Decrypt key CS_EncryptionPassphrase))
  end.

Definition getClientForTenantInContext : M Client :=
  let! apiKey := wrapM "retrieving decrypted Circle API key" GetDecryptedAPIKey in
  mret_ (NewClient CS_NetworkType apiKey).

Definition with_client {A} (k : Client -> M A) : M A :=
  let! client := wrapM "cannot get Circle client" getClientForTenantInContext in k client.

Definition Ping : M bool := with_client Client_Ping.
Definition PostTransfer ctx req : M Transfer := with_client (fun client => Client_PostTransfer ctx client req).
Definition GetTransferByID ctx id : M Transfer := with_client (fun client => Client_GetTransferByID ctx client id).
Definition PostRecipient ctx req : M Recipient := with_client (fun client => Client_PostRecipient ctx client req).
Definition GetRecipientByID ctx id : M Recipient := with_client (fun client => Client_GetRecipientByID ctx client id).
Definition PostPayout ctx req : M Payout := with_client (fun client => Client_PostPayout ctx client req).
Definition GetPayoutByID ctx id : M Payout := with_client (fun client => Client_GetPayoutByID ctx client id).
Definition GetBusinessBalances ctx : M CircleBalances := with_client (Client_GetBusinessBalances ctx).
Definition GetAccountConfiguration ctx : M AccountConfiguration :=
  with_client (Client_GetAccountConfiguration ctx).

Definition transfer_of (p : PaymentRequest) (circleAssetCode : string) : TransferRequest :=
  mkTransferRequest
    (mkTransferAccount TransferAccountTypeWallet (SourceWalletID p) "" "" "")
    (mkTransferAccount TransferAccountTypeBlockchain "" StellarChainCode (DestinationStellarAddress p)
       (DestinationStellarMemo p))
    (mkCircleBalance (PR_Amount p) circleAssetCode) (PR_IdempotencyKey p).

Definition payout_of (p : PaymentRequest) (circleAssetCode : string) : PayoutRequest :=
  mkPayoutRequest (PR_IdempotencyKey p)
    (mkTransferAccount TransferAccountTypeWallet (SourceWalletID p) "" "" "")
    (mkTransferAccount TransferAccountTypeAddressBook (RecipientID p) StellarChainCode "" "")
    (mkCircleBalance (PR_Amount p) circleAssetCode) circleAssetCode.

Definition SendTransfer (ctx : Context_) (p : PaymentRequest) : M Transfer :=
  if APIType p <>? APITypeTransfers then throw (ENew "SendTransfer requires APITypeTransfers")
  else
    wrapM "validating payment request" (lift (PaymentRequest_Validate p)) ;;!
    let! code := wrapM "getting Circle asset code" (lift (GetCircleAssetCode p)) in
    PostTransfer ctx (transfer_of p code).

Definition SendPayout (ctx : Context_) (p : PaymentRequest) : M Payout :=
  if APIType p <>? APITypePayouts then throw (ENew "SendPayout requires APITypePayouts")
  else
    wrapM "validating payment request" (lift (PaymentRequest_Validate p)) ;;!
    let! code := wrapM "getting Circle asset code" (lift (GetCircleAssetCode p)) in
    PostPayout ctx (payout_of p code).
End service.
