(* ===== verification/CircleStore.v ===== *)
(** The models of the tables of Tables.v: [circle_transfer_requests.go] and
    [circle_recipient.go] of [internal/data].  The first takes the connection of its
    caller, but for [GetOrInsert], which has a transaction of its own on the pool;
    the second works on the pool. *)

From S2P Require Import Prelude GoStrings Errors StateMachine Effects Schema TxStore Tables SdpDb PaymentStore.

Local Open Scope string_scope.
Local Open Scope list_scope.
Local Open Scope go_scope.

(** A parameter of a column of type JSONB: whether the server takes the text. *)
Class Jsonb := { jsonb_valid : string -> bool }.

(** ** Statements *)

Definition check_transfer_requests {A} (a : A) (db : SdpDb) : res (A * SdpDb) :=
  if decide (transfer_requests_ok (circle_transfer_requests db)) then Ok (a, db)
  else Err (EExternal "pq: a constraint of circle_transfer_requests is violated").

Definition check_recipients {A} (a : A) (db : SdpDb) : res (A * SdpDb) :=
  if decide (recipients_ok (circle_recipients db)) then Ok (a, db)
  else Err (EExternal "pq: a constraint of circle_recipients is violated").

Definition UpdateTransferRequests (p : CircleTransferRequest -> bool)
    (f : CircleTransferRequest -> CircleTransferRequest) : Stmt SdpDb (list CircleTransferRequest) :=
  fun ctx db =>
    let g c := (f c) <| CTR_UpdatedAt := NOW ctx |> in
    check_transfer_requests (map g (filter (fun c => p c = true) (circle_transfer_requests db)))
      (db <| circle_transfer_requests := update_where p g (circle_transfer_requests db) |>).

Definition UpdateRecipients (p : SdpDb -> CircleRecipient -> bool) (f : CircleRecipient -> CircleRecipient) :
    Stmt SdpDb (list CircleRecipient) :=
  fun ctx db =>
    let g c := (f c) <| CR_UpdatedAt := NOW ctx |> in
    check_recipients (map g (filter (fun c => p db c = true) (circle_recipients db)))
      (db <| circle_recipients := update_where (p db) g (circle_recipients db) |>).

Definition lookup_transfer_request (key : string) (db : SdpDb) : option CircleTransferRequest :=
  first_such (fun c => CTR_IdempotencyKey c =? key) (circle_transfer_requests db).
Definition lookup_recipient (id : string) (db : SdpDb) : option CircleRecipient :=
  first_such (fun c => CR_ReceiverWalletID c =? id) (circle_recipients db).

(** [BuildSetClause]: the fields of an update that have their zero value are left
    alone. *)
Definition set_text (s : string) (current : option string) : option string := if s =? "" then current else Some s.
Definition set_number (z current : Z) : Z := if (z =? 0)%Z then current else z.
Definition set_time (t current : option Z) : option Z := match t with Some _ => t | None => current end.

Record CircleTransferRequestUpdate := mkTransferRequestUpdate {
  CTU_CircleTransferID : string;
  CTU_CirclePayoutID : string;
  CTU_Status : string;
  CTU_ResponseBody : string;
  CTU_SourceWalletID : string;
  CTU_CompletedAt : option Z;
  CTU_LastSyncAttemptAt : option Z;
  CTU_SyncAttempts : Z }.

Definition no_transfer_update : CircleTransferRequestUpdate := mkTransferRequestUpdate "" "" "" "" "" None None 0.

#[export] Instance transfer_update_eq : EqDecision CircleTransferRequestUpdate.
Proof. solve_decision. Defined.

Definition set_transfer_update (u : CircleTransferRequestUpdate) (c : CircleTransferRequest) :
    CircleTransferRequest :=
  c <| CTR_CircleTransferID := set_text (CTU_CircleTransferID u) (CTR_CircleTransferID c) |>
    <| CTR_CirclePayoutID := set_text (CTU_CirclePayoutID u) (CTR_CirclePayoutID c) |>
    <| CTR_Status := set_text (CTU_Status u) (CTR_Status c) |>
    <| CTR_ResponseBody := set_text (CTU_ResponseBody u) (CTR_ResponseBody c) |>
    <| CTR_SourceWalletID := set_text (CTU_SourceWalletID u) (CTR_SourceWalletID c) |>
    <| CTR_CompletedAt := set_time (CTU_CompletedAt u) (CTR_CompletedAt c) |>
    <| CTR_LastSyncAttemptAt := set_time (CTU_LastSyncAttemptAt u) (CTR_LastSyncAttemptAt c) |>
    <| CTR_SyncAttempts := set_number (CTU_SyncAttempts u) (CTR_SyncAttempts c) |>.

Record CircleRecipientUpdate := mkRecipientUpdate {
  CRU_IdempotencyKey : string;
  CRU_CircleRecipientID : string;
  CRU_StellarAddress : string;
  CRU_StellarMemo : string;
  CRU_Status : string;
  CRU_SyncAttempts : Z;
  CRU_LastSyncAttemptAt : option Z;
  CRU_ResponseBody : string }.

Definition no_recipient_update : CircleRecipientUpdate := mkRecipientUpdate "" "" "" "" "" 0 None "".

#[export] Instance recipient_update_eq : EqDecision CircleRecipientUpdate.
Proof. solve_decision. Defined.

Definition set_recipient_update (u : CircleRecipientUpdate) (c : CircleRecipient) : CircleRecipient :=
  c <| CR_IdempotencyKey := if CRU_IdempotencyKey u =? "" then CR_IdempotencyKey c else CRU_IdempotencyKey u |>
    <| CR_CircleRecipientID := set_text (CRU_CircleRecipientID u) (CR_CircleRecipientID c) |>
    <| CR_StellarAddress := set_text (CRU_StellarAddress u) (CR_StellarAddress c) |>
    <| CR_StellarMemo := set_text (CRU_StellarMemo u) (CR_StellarMemo c) |>
    <| CR_Status := set_text (CRU_Status u) (CR_Status c) |>
    <| CR_SyncAttempts := set_number (CRU_SyncAttempts u) (CR_SyncAttempts c) |>
    <| CR_LastSyncAttemptAt := set_time (CRU_LastSyncAttemptAt u) (CR_LastSyncAttemptAt c) |>
    <| CR_ResponseBody := set_text (CRU_ResponseBody u) (CR_ResponseBody c) |>.

(** ** Transfer requests *)

Definition maxSyncAttempts : Z := 10.
Definition reconciliation_batchSize : nat := 10.

(** [ORDER BY c.created_at DESC]; [ORDER BY c.last_sync_attempt_at ASC], NULLs last. *)
Definition newest_first (a b : CircleTransferRequest) : bool := (CTR_CreatedAt b <=? CTR_CreatedAt a)%Z.
Definition by_last_sync (a b : CircleTransferRequest) : bool :=
  match CTR_LastSyncAttemptAt a, CTR_LastSyncAttemptAt b with
  | Some x, Some y => (x <=? y)%Z
  | None, Some _ => false
  | _, None => true
  end.

Definition is_incomplete (paymentID : string) (c : CircleTransferRequest) : bool :=
  (CTR_PaymentID c =? paymentID) && bool_decide (CTR_CompletedAt c = None).

Definition to_reconcile (ctx : StmtCtx) (c : CircleTransferRequest) : bool :=
  bool_decide (CTR_Status c = Some CircleTransferStatusPending) && (CTR_SyncAttempts c <? maxSyncAttempts)%Z
  && negb (row_locked ctx (CTR_IdempotencyKey c)).

Definition invalid_json : err := EExternal "pq: invalid input syntax for type json".

(** The order an [ORDER BY] leaves open among the rows it does not tell apart. *)
Class TieOrder := {
  tie_order : forall {A}, StmtCtx -> list A -> list A;
  tie_order_perm : forall {A} ctx (l : list A), tie_order ctx l ≡ₚ l }.

Section models.
Context {D L Ev : Type} {E : Env D} {C : Conn D SdpDb} {U : UuidGen} {JB : Jsonb} {TO : TieOrder}.
Abbreviation M := (M D L Ev).

Definition CTR_GetIncompleteByPaymentID (paymentID : string) : M CircleTransferRequest :=
  no_rows_as ErrRecordNotFound "getting circle transfer request"
    (GetContext (fun _ db => Ok (head (sort_with newest_first
       (filter (fun c => is_incomplete paymentID c = true) (circle_transfer_requests db))), db))).

Definition new_transfer_request (ctx : StmtCtx) (n : nat) (paymentID : string) : CircleTransferRequest :=
  mkCircleTransferRequest (uuid_generate ctx n) paymentID None None None None None (NOW ctx) (NOW ctx) None None 0.

Definition CTR_Insert (paymentID : string) : M CircleTransferRequest :=
  if paymentID =? "" then throw (ENew "paymentID is required")
  else wrapM "inserting circle transfer request" (db_stmt (fun ctx db =>
    let c := new_transfer_request ctx (length (circle_transfer_requests db)) paymentID in
    check_transfer_requests c (db <| circle_transfer_requests := circle_transfer_requests db ++ [c] |>))).

Definition get_or_insert (paymentID : string) : M CircleTransferRequest :=
  let! paymentIDExists := wrapM "getting payment by ID" (db_stmt (fun _ db =>
    Ok (match lookup_payment paymentID db with Some _ => true | None => false end, db))) in
  if negb paymentIDExists
  then throw (EWrap ("payment with ID " +:+ paymentID +:+ " does not exist") ErrRecordNotFound)
  else
    let! found := try_ (CTR_GetIncompleteByPaymentID paymentID) in
    match found with
    | Ok circleTransferRequest => mret_ circleTransferRequest
    | Err e => if errors_Is_err e ErrRecordNotFound then CTR_Insert paymentID
               else throw (EWrap "finding incomplete circle transfer by payment ID" e)
    end.

Definition CTR_GetOrInsert (paymentID : string) : M CircleTransferRequest :=
  if paymentID =? "" then throw (ENew "paymentID is required")
  else on_pool (X := SdpDb) (RunInTransactionWithResult (get_or_insert paymentID)).

Definition CTR_GetPendingReconciliation : M (list CircleTransferRequest) :=
  wrapM "getting circle transfer requests" (db_stmt (fun ctx db =>
    Ok (take reconciliation_batchSize (sort_with by_last_sync
          (tie_order ctx (filter (fun c => to_reconcile ctx c = true) (circle_transfer_requests db)))), db))).

(** [GetCurrentTransfersForPaymentIDs]: the newest request of each payment. *)
Definition CTR_GetCurrentTransfersForPaymentIDs (paymentIDs : list string) :
    M (gmap string CircleTransferRequest) :=
  match paymentIDs with
  | [] => throw (ENew "paymentIDs is required")
  | _ => wrapM "getting circle transfer requests" (db_stmt (fun _ db =>
      let newest id := head (sort_with newest_first
        (filter (fun c => (CTR_PaymentID c =? id) = true) (circle_transfer_requests db))) in
      Ok (list_to_map (omap (fun id => c ← newest id; Some (id, c)) paymentIDs), db)))
  end.

Definition CTR_Update (idempotencyKey : string) (update : CircleTransferRequestUpdate) : M CircleTransferRequest :=
  if idempotencyKey =? "" then throw (ENew "idempotencyKey is required")
  else if bool_decide (update = no_transfer_update) then throw (ENew "no fields to update")
  else
    no_rows_as (EWrap ("circle transfer request with idempotency key " +:+ idempotencyKey +:+ " not found")
                  ErrRecordNotFound) "updating circle transfer request"
      (GetContext (fun ctx db =>
        if negb (jsonb_valid (CTU_ResponseBody update)) && (CTU_ResponseBody update <>? "") then Err invalid_json
        else
          let? (rows, db') := UpdateTransferRequests (fun c => CTR_IdempotencyKey c =? idempotencyKey)
                                (set_transfer_update update) ctx db in
          Ok (head rows, db'))).

(** ** Recipients *)

Definition recipient_for (ctx : StmtCtx) (n : nat) (receiverWalletID : string) : CircleRecipient :=
  mkCircleRecipient receiverWalletID (uuid_generate ctx n) None None None None (NOW ctx) (NOW ctx) 0 None None.

Definition CR_Insert (receiverWalletID : string) : M CircleRecipient :=
  if receiverWalletID =? "" then throw (ENew "receiverWalletID is required")
  else wrapM "getting context" (on_pool (X := SdpDb) (db_stmt (fun ctx db =>
    let c := recipient_for ctx (length (circle_recipients db)) receiverWalletID in
    check_recipients c (db <| circle_recipients := circle_recipients db ++ [c] |>)))).

Definition reset_recipient (c : CircleRecipient) : CircleRecipient :=
  c <| CR_Status := None |> <| CR_SyncAttempts := 0%Z |> <| CR_LastSyncAttemptAt := None |>
    <| CR_ResponseBody := None |> <| CR_StellarMemo := None |> <| CR_StellarAddress := None |>.

Definition wallet_of_payments (paymentIDs : list string) (db : SdpDb) (receiverWalletID : string) : bool :=
  existsb (fun p => slices_Contains paymentIDs (Pay_ID p) && (Pay_ReceiverWalletID p =? receiverWalletID))
    (payments db).

(** The statement, on the connection of the caller. *)
Definition reset_recipients (paymentIDs : list string) : Stmt SdpDb (list CircleRecipient) :=
  UpdateRecipients (fun db c => wallet_of_payments paymentIDs db (CR_ReceiverWalletID c)
    && negb (bool_decide (CR_Status c = Some CircleRecipientStatusActive))) reset_recipient.

Definition ResetRecipientsForRetryIfNeeded (paymentIDs : list string) : M (list CircleRecipient) :=
  match paymentIDs with
  | [] => throw (EWrap "at least one payment ID is required" (ESentinel "missing input"))
  | _ => wrapM "getting context" (db_stmt (reset_recipients paymentIDs))
  end.

Definition CR_Update (receiverWalletID : string) (update : CircleRecipientUpdate) : M CircleRecipient :=
  if receiverWalletID =? "" then throw (ENew "receiverWalletID is required")
  else if bool_decide (update = no_recipient_update) then throw (ENew "no fields to update")
  else
    no_rows_as (EWrap ("circle recipient with receiver_wallet_id " +:+ receiverWalletID +:+ " not found")
                  ErrRecordNotFound) "updating circle recipient"
      (on_pool (X := SdpDb) (GetContext (fun ctx db =>
        if negb (jsonb_valid (CRU_ResponseBody update)) && (CRU_ResponseBody update <>? "") then Err invalid_json
        else
          let? (rows, db') := UpdateRecipients (fun _ c => CR_ReceiverWalletID c =? receiverWalletID)
                                (set_recipient_update update) ctx db in
          Ok (head rows, db')))).

Definition CR_GetByReceiverWalletID (receiverWalletID : string) : M CircleRecipient :=
  if receiverWalletID =? "" then throw (ENew "receiverWalletID is required")
  else no_rows_as ErrRecordNotFound "getting circle recipient"
    (on_pool (X := SdpDb) (GetContext (fun _ db => Ok (lookup_recipient receiverWalletID db, db)))).
End models.
