(* ===== verification/CircleDispatch.v ===== *)
(** Payments sent through Circle:
    [paymentdispatchers/circle_payment_transfer_dispatcher.go] and
    [circle_payment_payout_dispatcher.go] of [internal/services], the other two
    implementations of [PaymentDispatcherInterface], which run inside the transaction
    of PaymentPipeline.v, but record the requests they send on the pool; and their
    outcome, [circle_reconciliation_service.go]. *)

From S2P Require Import Prelude GoStrings Errors StateMachine Effects Retry Schema TxStore Tables SdpDb PaymentStore.
From S2P Require Import DisbursementStore Tenant Tenants PaymentPipeline CircleClient CircleStore.

Local Open Scope string_scope.
Local Open Scope list_scope.
Local Open Scope go_scope.

Definition ErrCircleRecipientCreationFailedTooManyTimes : err :=
  ESentinel "circle recipient creation failed too many times".
Definition maxCircleRecipientCreationAttempts : nat := 5.

(** [DestinationAddressErrorCodes] of [client.go]. *)
Definition DestinationAddressErrorCodes : list Z := [5003; 5004; 5011]%Z.

Section dispatchers.
Context {D L Ev : Type} {E : Env D} {AC : Conn D AdminDb} {C : Conn D SdpDb} {RT : Retry D L Ev} {H : CircleHttp Ev}.
Context {J : CircleJson} {JB : Jsonb} {UU : GoogleUuid} {PF : ParseFloat} {SDK : StellarSdk} {N : Numerics}.
Context {CS : CircleSettings} {URL : NetUrl} {U : UuidGen}.
Abbreviation M := (M D L Ev).

(** The guard both dispatchers start with. *)
Definition circle_wallet (ctx : Context_) (tenantID : string) : M string :=
  let! distAccount := wrapM "getting distribution account" (DistributionAccountFromContext ctx) in
  if negb (AccountType_IsCircle (TA_Type distAccount))
  then throw (ENew ("distribution account is not a Circle account for tenant " +:+ tenantID))
  else mret_ (CircleWalletID distAccount).

Definition completed_at (status : string) (now : Z) : option Z :=
  if CircleTransferStatus_IsCompleted status then Some now else None.

Definition mark_as_failed (payment : PaymentView) (e : err) : M unit :=
  wrapM "marking payment as failed"
    (UpdateStatus (Pay_ID (pv_row payment)) FailedPaymentStatus (Some (Error e)) "").

Definition wallet_address (rw : ReceiverWallet) : string := default "" (RW_StellarAddress rw).

(** ** Transfers *)

Definition transfer_request (circleWalletID : string) (payment : PaymentView) (memo : SchemaMemo)
    (idempotencyKey : string) : PaymentRequest :=
  mkPaymentRequest circleWalletID "" (wallet_address (pv_ReceiverWallet payment)) (Memo_Value memo)
    APITypeTransfers (numeric_text (Pay_Amount (pv_row payment))) (Code (pv_Asset payment)) idempotencyKey.

Definition Transfer_updateCircleTransferRequest (circleWalletID : string) (transfer : Transfer)
    (transferRequest : CircleTransferRequest) : M unit :=
  let! now := ask env_now in
  wrapM "updating circle transfer request" (CTR_Update (CTR_IdempotencyKey transferRequest)
    (mkTransferRequestUpdate (Tr_ID transfer) "" (Tr_Status transfer) (json_Transfer transfer) circleWalletID
       (completed_at (Tr_Status transfer) now) None 0)) ;;!
  mret_ tt.

Definition updatePaymentStatusForCircleTransfer (transfer : Transfer) (payment : PaymentView) : M unit :=
  let! paymentStatus := wrapM "converting CIRCLE transfer status to SDP Payment status"
    (lift (TransferStatus_ToPaymentStatus (Tr_Status transfer))) in
  wrapM ("marking payment as " +:+ paymentStatus) (UpdateStatus (Pay_ID (pv_row payment)) paymentStatus
    (Some ("Transfer " +:+ Tr_ID transfer +:+ " is " +:+ Tr_Status transfer +:+ " in Circle"))
    (Tr_TransactionHash transfer)).

Definition send_transfer (ctx : Context_) (circleWalletID : string) (payment : PaymentView) : M unit :=
  let! transferRequest := wrapM "inserting circle transfer request" (CTR_GetOrInsert (Pay_ID (pv_row payment))) in
  let! memo := wrapM "getting memo" (MemoResolver_GetMemo ctx (pv_ReceiverWallet payment)) in
  let! sent := catch_ (SendTransfer ctx
    (transfer_request circleWalletID payment memo (CTR_IdempotencyKey transferRequest))) in
  match sent with
  | Err e => mark_as_failed payment e
  | Ok transfer =>
    wrapM "updating circle transfer request"
      (Transfer_updateCircleTransferRequest circleWalletID transfer transferRequest) ;;!
    wrapM "updating payment status for Circle transfer" (updatePaymentStatusForCircleTransfer transfer payment)
  end.

Definition Transfer_sendPaymentsToCircle (ctx : Context_) (circleWalletID : string)
    (paymentsToSubmit : list PaymentView) : M unit :=
  mforM (send_transfer ctx circleWalletID) paymentsToSubmit.

Definition Transfer_DispatchPayments (ctx : Context_) (tenantID : string) (paymentsToDispatch : list PaymentView) :
    M unit :=
  match paymentsToDispatch with
  | [] => mret_ tt
  | _ => let! circleWalletID := circle_wallet ctx tenantID in
         Transfer_sendPaymentsToCircle ctx circleWalletID paymentsToDispatch
  end.

Definition CirclePaymentTransferDispatcher : PaymentDispatcher D L Ev :=
  {| DispatchPayments := Transfer_DispatchPayments |}.

(** ** Recipients *)

Definition getOrCreateRecipient (receiverWallet : ReceiverWallet) : M CircleRecipient :=
  let! found := catch_ (CR_GetByReceiverWalletID (RW_ID receiverWallet)) in
  let! dataRecipient :=
    match found with
    | Ok r => mret_ r
    | Err e => if errors_Is_err e ErrRecordNotFound
               then wrapM "inserting Circle recipient" (CR_Insert (RW_ID receiverWallet))
               else throw (EWrap "getting Circle recipient" e)
    end in
  if (Z.of_nat maxCircleRecipientCreationAttempts <=? CR_SyncAttempts dataRecipient)%Z
  then throw ErrCircleRecipientCreationFailedTooManyTimes else mret_ dataRecipient.

Definition handleFailedRecipientIfNeeded (dataRecipient : CircleRecipient) : M CircleRecipient :=
  if negb (CircleRecipientStatus_IsCompleted (default "" (CR_Status dataRecipient))) then mret_ dataRecipient
  else
    let! key := ask uuid_NewString in
    wrapM "updating Circle recipient's idempotency key"
      (CR_Update (CR_ReceiverWalletID dataRecipient) (mkRecipientUpdate key "" "" "" "" 0 None "")).

(** The contact of the receiver as the payment carries it: its query reads no more of
    the receiver than the identifier. *)
Definition loaded_contact (receiverWallet : ReceiverWallet) : string * string := ("", "").

Definition recipient_request (receiverWallet : ReceiverWallet) (memo : SchemaMemo) (idempotencyKey : string) :
    RecipientRequest :=
  let '(phone, email) := loaded_contact receiverWallet in
  mkRecipientRequest idempotencyKey (wallet_address receiverWallet) (Memo_Value memo) StellarChainCode
    (mkRecipientMetadata (if phone <>? "" then phone else RW_ID receiverWallet) email "").

Definition error_body (e : err) : string := "{" +:+ quote "error" +:+ ": " +:+ quote (Error e) +:+ "}".

Definition submitRecipientToCircle (ctx : Context_) (receiverWallet : ReceiverWallet)
    (dataRecipient : CircleRecipient) : M CircleRecipient :=
  let id := CR_ReceiverWalletID dataRecipient in
  let attempts := (CR_SyncAttempts dataRecipient + 1)%Z in
  let! memo := wrapM "getting memo" (MemoResolver_GetMemo ctx receiverWallet) in
  let! posted := catch_ (PostRecipient ctx
    (recipient_request receiverWallet memo (CR_IdempotencyKey dataRecipient))) in
  match posted with
  | Err e =>
    let! now := ask env_now in
    wrapM "updating Circle recipient after postRecipientErr"
      (CR_Update id (mkRecipientUpdate "" "" "" "" "" attempts (Some now) (error_body e))) ;;!
    throw (EWrap "creating Circle recipient" e)
  | Ok recipient =>
    let! status := wrapM "parsing Circle recipient status" (lift (ParseRecipientStatus (Rcp_Status recipient))) in
    let! now := ask env_now in
    wrapM "updating Circle recipient" (CR_Update id
      (mkRecipientUpdate (CR_IdempotencyKey dataRecipient) (Rcp_ID recipient) (wallet_address receiverWallet)
         (Memo_Value memo) status attempts (Some now) (json_Recipient recipient)))
  end.

Definition is_active (r : CircleRecipient) : bool :=
  default "" (CR_Status r) =? CircleRecipientStatusActive.

Definition is_for (r : CircleRecipient) (receiverWallet : ReceiverWallet) (memo : SchemaMemo) : bool :=
  (Memo_Value memo =? default "" (CR_StellarMemo r))
  && (wallet_address receiverWallet =? default "" (CR_StellarAddress r)).

(** The reset is asked for with the identifier of the wallet. *)
Definition ensureRecipientIsReady (ctx : Context_) (receiverWallet : ReceiverWallet) : M CircleRecipient :=
  let! dataRecipient := wrapM "getting or creating Circle recipient" (getOrCreateRecipient receiverWallet) in
  let! ready :=
    (if is_active dataRecipient then
       let! memo := wrapM "getting memo" (MemoResolver_GetMemo ctx receiverWallet) in
       if is_for dataRecipient receiverWallet memo then mret_ true
       else
         wrapM "resetting Circle recipient due to a memo or address change"
           (on_pool (X := SdpDb) (ResetRecipientsForRetryIfNeeded [CR_ReceiverWalletID dataRecipient])) ;;!
         mret_ false
     else mret_ false) in
  if (ready : bool) then mret_ dataRecipient
  else
    let! dataRecipient := wrapM "handling failed or inactive recipient"
      (handleFailedRecipientIfNeeded dataRecipient) in
    wrapM "submitting recipient to Circle" (submitRecipientToCircle ctx receiverWallet dataRecipient).

Definition ensure_once (ctx : Context_) (receiverWallet : ReceiverWallet) : M CircleRecipient :=
  let! recipient := map_errM (fun e =>
      if errors_Is_err e ErrCircleRecipientCreationFailedTooManyTimes then Unrecoverable e else e)
    (ensureRecipientIsReady ctx receiverWallet) in
  if negb (is_active recipient)
  then throw (ENew ("recipient not ready, status: " +:+ default "" (CR_Status recipient)))
  else mret_ recipient.

Definition ensureRecipientIsReadyWithRetry (ctx : Context_) (receiverWallet : ReceiverWallet) : M CircleRecipient :=
  wrapM "failed to ensure recipient is ready"
    (retry_Do maxCircleRecipientCreationAttempts IsRecoverable (ensure_once ctx receiverWallet)).

(** ** Payouts *)

Definition payout_request (circleWalletID : string) (payment : PaymentView) (recipient : CircleRecipient)
    (idempotencyKey : string) : PaymentRequest :=
  mkPaymentRequest circleWalletID (default "" (CR_CircleRecipientID recipient)) "" "" APITypePayouts
    (numeric_text (Pay_Amount (pv_row payment))) (Code (pv_Asset payment)) idempotencyKey.

Definition Payout_updateCircleTransferRequest (circleWalletID : string) (payout : Payout)
    (transferRequest : CircleTransferRequest) : M unit :=
  let! now := ask env_now in
  wrapM "updating circle transfer request" (CTR_Update (CTR_IdempotencyKey transferRequest)
    (mkTransferRequestUpdate "" (Po_ID payout) (Po_Status payout) (json_Payout payout) circleWalletID
       (completed_at (Po_Status payout) now) None 0)) ;;!
  mret_ tt.

Definition updatePaymentStatusForCirclePayout (payout : Payout) (payment : PaymentView) : M unit :=
  let! paymentStatus := wrapM "converting CIRCLE payout status to SDP Payment status"
    (lift (TransferStatus_ToPaymentStatus (Po_Status payout))) in
  wrapM ("marking payment as " +:+ paymentStatus) (UpdateStatus (Pay_ID (pv_row payment)) paymentStatus
    (Some ("Payout ID " +:+ Po_ID payout +:+ " has status=" +:+ Po_Status payout +:+ " in Circle"))
    (Po_TransactionHash payout)).

Definition is_destination_error (e : err) : bool :=
  match As_API e with Some (code, _) => existsb (Z.eqb code) DestinationAddressErrorCodes | None => false end.

Definition send_payout (ctx : Context_) (circleWalletID : string) (payment : PaymentView) : M unit :=
  let id := Pay_ID (pv_row payment) in
  let! ready := catch_ (ensureRecipientIsReadyWithRetry ctx (pv_ReceiverWallet payment)) in
  match ready with
  | Err e => mark_as_failed payment (EWrap ("failed to create Circle recipient for payment ID " +:+ id) e)
  | Ok recipient =>
    let! transferRequest := wrapM "inserting circle transfer request" (CTR_GetOrInsert id) in
    let! sent := catch_ (SendPayout ctx
      (payout_request circleWalletID payment recipient (CTR_IdempotencyKey transferRequest))) in
    match sent with
    | Err e =>
      (if is_destination_error e
       then wrapM "updating Circle recipient status" (CR_Update (CR_ReceiverWalletID recipient)
              (mkRecipientUpdate "" "" "" "" CircleRecipientStatusDenied 0 None "")) ;;! mret_ tt
       else mret_ tt) ;;!
      mark_as_failed payment (EWrap ("failed to submit payment ID " +:+ id +:+ " to Circle") e)
    | Ok payout =>
      wrapM "updating circle transfer request"
        (Payout_updateCircleTransferRequest circleWalletID payout transferRequest) ;;!
      wrapM "updating payment status for Circle transfer" (updatePaymentStatusForCirclePayout payout payment)
    end
  end.

Definition Payout_sendPaymentsToCircle (ctx : Context_) (circleWalletID : string)
    (paymentsToSubmit : list PaymentView) : M unit :=
  mforM (send_payout ctx circleWalletID) paymentsToSubmit.

Definition Payout_DispatchPayments (ctx : Context_) (tenantID : string) (paymentsToDispatch : list PaymentView) :
    M unit :=
  match paymentsToDispatch with
  | [] => mret_ tt
  | _ => let! circleWalletID := circle_wallet ctx tenantID in
         Payout_sendPaymentsToCircle ctx circleWalletID paymentsToDispatch
  end.

Definition CirclePaymentPayoutDispatcher : PaymentDispatcher D L Ev :=
  {| DispatchPayments := Payout_DispatchPayments |}.
End dispatchers.

Local Open Scope string_scope.
Local Open Scope list_scope.
Local Open Scope go_scope.

Definition circleObjTypePayout := "payout".
Definition circleObjTypeTransfer := "transfer".

(** The object of Circle; the response as it is stored. *)
Record circleObjectData := mkCircleObjectData {
  CO_ID : string;
  CO_Type : string;
  CO_Status : string;
  CO_ErrorCode : string;
  CO_TransactionHash : string;
  CO_ResponseObj : string }.

Section reconciliation.
Context {D L Ev : Type} {E : Env D} {AC : Conn D AdminDb} {C : Conn D SdpDb} {RT : Retry D L Ev} {H : CircleHttp Ev}.
Context {J : CircleJson} {JB : Jsonb} {UU : GoogleUuid} {PF : ParseFloat} {SDK : StellarSdk} {N : Numerics}.
Context {CS : CircleSettings} {URL : NetUrl} {TO : TieOrder}.
Abbreviation M := (M D L Ev).

(** The kind and the identifier of the object, with which the errors are reported, or
    none: then the caller dereferences a nil pointer. *)
Definition circle_object (circleRequest : CircleTransferRequest) : option (string * string) :=
  match CTR_CirclePayoutID circleRequest, CTR_CircleTransferID circleRequest with
  | Some id, _ => Some (circleObjTypePayout, id)
  | None, Some id => Some (circleObjTypeTransfer, id)
  | None, None => None
  end.

Definition fetchCircleData (ctx : Context_) (type id : string) : M circleObjectData :=
  wrapM ("fetching Circle " +:+ type)
    (if type =? circleObjTypePayout then
       let! payout := GetPayoutByID ctx id in
       mret_ (mkCircleObjectData id type (Po_Status payout) (Po_ErrorCode payout) (Po_TransactionHash payout)
                (json_Payout payout))
     else
       let! transfer := GetTransferByID ctx id in
       mret_ (mkCircleObjectData id type (Tr_Status transfer) (Tr_ErrorCode transfer) (Tr_TransactionHash transfer)
                (json_Transfer transfer))).

(** [None] for a request that has the status already. *)
Definition updateCircleTransferRequest (cObjData : circleObjectData) (circleRequest : CircleTransferRequest) :
    M (option CircleTransferRequest) :=
  match CTR_Status circleRequest with
  | None => throw nil_dereference
  | Some status =>
    if status =? CO_Status cObjData then mret_ None
    else
      let! now := ask env_now in
      let! updated := wrapM "updating Circle transfer request" (CTR_Update (CTR_IdempotencyKey circleRequest)
        (mkTransferRequestUpdate "" "" (CO_Status cObjData) (CO_ResponseObj cObjData) ""
           (completed_at (CO_Status cObjData) now) (Some now) (CTR_SyncAttempts circleRequest + 1))) in
      mret_ (Some updated)
  end.

Definition status_message (o : circleObjectData) : res string :=
  if CO_Status o =? TransferStatusComplete
  then Ok ("Circle " +:+ CO_Type o +:+ " completed successfully with the Stellar transaction hash: "
           +:+ quote (CO_TransactionHash o))
  else if CO_Status o =? TransferStatusFailed
  then Ok ("Circle " +:+ CO_Type o +:+ " failed with error: " +:+ quote (CO_ErrorCode o))
  else Err (ENew ("unexpected Circle status: " +:+ quote (CO_Status o))).

(** A request that Circle does not know, the answer 400, counts as an attempt. *)
Definition count_attempt (circleRequest : CircleTransferRequest) (e : err) : M unit :=
  match As_API e with
  | Some (code, status) =>
    if (status =? 400)%Z then
      let! now := ask env_now in
      wrapM "updating Circle transfer/payout request sync attempts" (CTR_Update (CTR_IdempotencyKey circleRequest)
        (mkTransferRequestUpdate "" "" "" (json_APIError (code, status) (Error e)) "" None (Some now)
           (CTR_SyncAttempts circleRequest + 1))) ;;!
      mret_ tt
    else mret_ tt
  | None => mret_ tt
  end.

Definition reconcilePaymentRequest (ctx : Context_) (circleRequest : CircleTransferRequest) : M unit :=
  match circle_object circleRequest with
  | None => throw nil_dereference
  | Some (type, id) =>
    let! fetched := catch_ (fetchCircleData ctx type id) in
    match fetched with
    | Err e =>
      count_attempt circleRequest e ;;!
      throw (EWrap ("getting Circle " +:+ type +:+ " by ID " +:+ quote id) e)
    | Ok cObjData =>
      let! updated := wrapM "updating Circle transfer request"
        (updateCircleTransferRequest cObjData circleRequest) in
      match updated with
      | None => mret_ tt
      | Some circleRequest =>
        let! newPaymentStatus := wrapM "converting Circle transfer status to Payment status"
          (lift (TransferStatus_ToPaymentStatus (CO_Status cObjData))) in
        let! statusMsg := lift (status_message cObjData) in
        wrapM "updating payment status" (UpdateStatus (CTR_PaymentID circleRequest) newPaymentStatus
          (Some statusMsg) (CO_TransactionHash cObjData))
      end
    end
  end.

(** The loop over the requests: it goes on after an error and collects them. *)
Fixpoint reconcile_all (ctx : Context_) (circleRequests : list CircleTransferRequest) : M (list err) :=
  match circleRequests with
  | [] => mret_ []
  | circleRequest :: rest =>
    let! r := catch_ (reconcilePaymentRequest ctx circleRequest) in
    match r with
    | Ok _ => reconcile_all ctx rest
    | Err e =>
      let! errs := reconcile_all ctx rest in
      mret_ (EWrap "reconciling Circle transfer request" e :: errs)
    end
  end.

Definition reconcile_batch (ctx : Context_) : M (nat * list err) :=
  let! circleRequests := wrapM "getting pending Circle transfer requests" CTR_GetPendingReconciliation in
  let! reconciliationErrors := reconcile_all ctx circleRequests in
  wrapM "completing disbursements" CompleteIfNecessary ;;!
  mret_ (length circleRequests, reconciliationErrors).

Definition Reconcile (ctx : Context_) : M unit :=
  let! tnt := wrapM "getting tenant from context" (lift (GetTenantFromContext ctx)) in
  let! distAcc := wrapM "getting distribution account from context" (DistributionAccountFromContext ctx) in
  if negb (IsCircle distAcc) then mret_ tt
  else if TA_Status distAcc <>? AccountStatusActive then mret_ tt
  else
    let! (reconciliationCount, reconciliationErrors) :=
      wrapM ("running Circle reconciliation for tenant " +:+ quote (Ten_Name tnt))
        (RunInTransactionWithResult (X := SdpDb) (reconcile_batch ctx)) in
    lift (guard_err (negb (Nat.eqb (length reconciliationErrors) 0))
      (ENew ("attempted to reconcyle " +:+ itoa (Z.of_nat reconciliationCount)
        +:+ " circle requests but failed on " +:+ itoa (Z.of_nat (length reconciliationErrors))
        +:+ " reconciliations: [" +:+ Join " " (map Error reconciliationErrors) +:+ "]"))).
End reconciliation.
