(* ===== verification/CirclePlatform.v ===== *)
(** A small Circle for the witnesses: it accepts every request, and has every payment as
    pending but those whose identifier says otherwise. *)

From S2P Require Import Prelude GoStrings Errors StateMachine Effects Transactions Retry Schema TxStore Tables.
From S2P Require Import SdpDb PaymentStore Platform DisbursementStore Tenant Tenants TenantHandlers TenantSafety.
From S2P Require Import PaymentPipeline CircleClient CircleStore CircleDispatch.
From Stdlib Require Import QArith.

Local Close Scope Q_scope.
Local Open Scope string_scope.
Local Open Scope list_scope.
Local Open Scope go_scope.

Module CircleWorld.
Export Tenancy.
#[export] Instance numerics : Numerics := Platform.numerics.
#[export] Instance admin_indep : ConnIndep Dbs SdpDb AdminDb.
Proof. by constructor. Qed.
#[export] Instance google : GoogleUuid := {| uuid_valid _ := true; uuid_NewString t := "v" +:+ itoa (Z.of_nat t) |}.
#[export] Instance floats : ParseFloat := {| float_valid _ := true |}.
#[export] Instance jsonb : Jsonb := {| jsonb_valid _ := true |}.
(** The database gives rows it does not tell apart the newest first. *)
#[export] Instance ties : TieOrder := {| tie_order A _ l := reverse l; tie_order_perm A _ l := reverse_Permutation l |}.
#[export] Instance settings : CircleSettings :=
  {| CS_Decrypt key _ := Ok key; CS_EncryptionPassphrase := "passphrase"; CS_NetworkType := "testnet" |}.
#[export] Instance net_url : NetUrl := {| url_Parse u := Some (u, fun path => path) |}.

Definition money : CircleBalance := mkCircleBalance "5" "USD".
Definition end_ : TransferAccount := mkTransferAccount TransferAccountTypeWallet "1000" "" "" "".
Definition transfer (status : string) : Transfer := mkTransfer "tr-1" end_ end_ money "txhash" status "" 0.
Definition payout (status : string) : Payout :=
  mkPayout "po-1" end_ money money "txhash" 0 0 "1000" money status "" "" "".
Definition recipient (status : string) : Recipient :=
  mkRecipient "rcp-1" StellarChainCode "" "GDEST" (mkRecipientMetadata "rw1" "" "") status "" "".

(** The body of an answer is the status of the object. *)
#[export] Instance json : CircleJson :=
  {| json_TransferRequest r := "transfer " +:+ TRq_IdempotencyKey r;
     json_PayoutRequest r := "payout " +:+ PRq_IdempotencyKey r;
     json_RecipientRequest r := "recipient " +:+ RRq_IdempotencyKey r;
     json_Transfer := Tr_Status; json_Payout := Po_Status; json_Recipient := Rcp_Status;
     json_APIError _ message := message;
     decode_Transfer s := Ok (transfer s); decode_Payout s := Ok (payout s); decode_Recipient s := Ok (recipient s);
     decode_Balances _ := Ok (mkCircleBalances [] []); decode_Configuration _ := Ok (mkAccountConfiguration "1000");
     unmarshal_APIError s := (0%Z, s, true) |}.

Definition answer (q : HttpRequest) : HttpResponse :=
  if HQ_Method q =? "GET"
  then mkHttpResponse 200 "" (Ok (if Contains (HQ_URL q) "done" then "complete" else "pending"))
  else mkHttpResponse 201 "" (Ok (if Contains (HQ_URL q) "recipients" then "active" else "pending")).

#[export] Instance http : CircleHttp HttpRequest :=
  {| http_JoinPath l := Ok (Join "/" l); http_Do _ q := Ok (answer q); duration_text z := itoa z; requested q := q |}.

Definition circle_tenant : Tenant :=
  (tenant "t1" ProvisionedTenantStatus true) <| DistributionAccountType := DistributionAccountCircleDBVault |>.

Definition usdc : Asset := mkAsset "a1" "USDC" "GISSUER" None.
Definition memo_wallet : ReceiverWallet := Platform.registered <| RW_StellarMemo := Some "42" |>.
Definition due : Payment := Platform.pay "p1" "d1" PendingPaymentStatus 50000000 memo_wallet.
Definition view : PaymentView :=
  mkPaymentView due (Some (Platform.disbursement "d1" StartedDisbursementStatus)) usdc memo_wallet Platform.wallet.

(** A request that was sent, with the identifier Circle gave it. *)
Definition sent (key paymentID id : string) (last : Z) : CircleTransferRequest :=
  mkCircleTransferRequest key paymentID (Some id) None (Some CircleTransferStatusPending) None (Some "1000") 0 0 None
    (Some last) 0.

Definition db (requests : list CircleTransferRequest) : SdpDb :=
  (Platform.sdp_db false [Platform.disbursement "d1" StartedDisbursementStatus] [due])
    <| assets := [usdc] |> <| receiver_wallets := [memo_wallet] |> <| circle_transfer_requests := requests |>
    <| circle_client_config := [mkClientConfig (Some "key") (Some "1000") None] |>.

Definition dbs (requests : list CircleTransferRequest) : Dbs := (db requests, mkAdminDb [circle_tenant] []).
Definition idle (requests : list CircleTransferRequest) : World Dbs unit HttpRequest :=
  mkWorld (dbs requests) 0 ∅ tt [].

(** Inside a transaction of the dispatcher. *)
Definition dispatching (requests : list CircleTransferRequest) : World Dbs unit HttpRequest :=
  mkWorld (dbs requests) 0 {[ 1%nat := mkTx false 0 (dbs requests) ]} tt [].
End CircleWorld.
