(* ===== verification/CircleSafety.v ===== *)
(** What the payments through Circle guarantee: every request to pay is recorded before
    it leaves, whatever becomes of the transaction it is sent in. *)

From S2P Require Import Prelude GoStrings Errors StateMachine Effects Calm Transactions Retry Schema TxStore Tables.
From S2P Require Import SdpDb PaymentStore DisbursementStore Tenant Tenants PaymentPipeline CircleClient.
From S2P Require Import CircleStore CircleDispatch.
From S2P Require Import TenantSafety CirclePlatform.

Local Open Scope string_scope.
Local Open Scope list_scope.
Local Open Scope go_scope.

(** ** The record of requests *)

(** Rows are never removed, nor do they change key or payment. *)
Definition rows_kept (db db' : SdpDb) : Prop :=
  forall c, c ∈ circle_transfer_requests db ->
    exists c', c' ∈ circle_transfer_requests db' /\ CTR_IdempotencyKey c' = CTR_IdempotencyKey c /\
      CTR_PaymentID c' = CTR_PaymentID c.

#[export] Instance rows_kept_preorder : PreOrder rows_kept.
Proof.
  split; [intros db c Hc; by exists c|]. intros d1 d2 d3 H1 H2 c Hc.
  destruct (H1 c Hc) as (c2 & H & ? & ?). destruct (H2 c2 H) as (c3 & ? & ? & ?). exists c3. by split_and!; congruence.
Qed.

Definition recorded (paymentID key : string) (db : SdpDb) : Prop :=
  exists c, c ∈ circle_transfer_requests db /\ CTR_IdempotencyKey c = key /\ CTR_PaymentID c = paymentID.

Lemma recorded_kept id key db db' : rows_kept db db' -> recorded id key db -> recorded id key db'.
Proof. intros Hk (c & Hc & <- & <-). destruct (Hk c Hc) as (c' & ? & ? & ?). by exists c'. Qed.

(** What [get_or_insert] did: it found the newest request that is not completed, or it
    added one. *)
Definition got_or_inserted (paymentID : string) (c : CircleTransferRequest) (x x' : SdpDb) : Prop :=
  let open_ := filter (fun c => is_incomplete paymentID c = true) (circle_transfer_requests x) in
  (x' = x /\ head (sort_with newest_first open_) = Some c) \/
  (open_ = [] /\ x' = x <| circle_transfer_requests := circle_transfer_requests x ++ [c] |> /\
   transfer_requests_ok (circle_transfer_requests x') /\ CTR_PaymentID c = paymentID /\ CTR_CompletedAt c = None).

Lemma got_or_inserted_recorded id c x x' :
  got_or_inserted id c x x' -> rows_kept x x' /\ recorded id (CTR_IdempotencyKey c) x'.
Proof.
  intros [[-> Hh]|(_ & -> & _ & Hid & _)].
  - split; [done|]. exists c. assert (Hc : c ∈ sort_with newest_first (filter (fun c => is_incomplete id c = true)
      (circle_transfer_requests x))) by (destruct (sort_with _ _); [done|injection Hh as ->; left]).
    rewrite sort_with_perm in Hc. apply list_elem_of_filter in Hc as [Hi Hc]. apply andb_true_iff in Hi as [Hi _].
    apply String.eqb_eq in Hi. done.
  - split; [|exists c; split_and!; try done; apply elem_of_app; right; by left].
    intros c' Hc'. exists c'. split_and!; try done. apply elem_of_app. by left.
Qed.

Section sends.
Context {D L Ev : Type} {E : Env D} {C : Conn D SdpDb} {CL : ConnLaws D SdpDb}.
Context {AC : Conn D AdminDb} {CI : ConnIndep D SdpDb AdminDb}.
Implicit Types w : World D L Ev.
Abbreviation M := (M D L Ev).

(** [grows ok w w']: from an open transaction the run comes to one, the committed
    record only grows, and every event of the run is one that [ok] allows under
    the committed record. *)
Section grows.
Context (ok : SdpDb -> Ev -> Prop) (Hok : forall db db' ev, rows_kept db db' -> ok db ev -> ok db' ev).

Definition grows w w' : Prop :=
  is_open (X := SdpDb) w ->
  is_open (X := SdpDb) w' /\ rows_kept (committed w) (committed w') /\
  exists new, w_trace w' = w_trace w ++ new /\ Forall (ok (committed w')) new.

#[export] Instance grows_preorder : PreOrder grows.
Proof using Hok.
  split.
  - intros w Ho. split; [done|]. split; [done|]. exists []. by rewrite app_nil_r.
  - intros w1 w2 w3 H1 H2 Ho. destruct (H1 Ho) as (Ho2 & Hk & n1 & Ht1 & Hn1).
    destruct (H2 Ho2) as (Ho3 & Hk2 & n2 & Ht2 & Hn2). split; [done|]. split; [by transitivity (committed (X := SdpDb) w2)|].
    exists (n1 ++ n2). split; [by rewrite Ht2, Ht1, app_assoc|]. apply Forall_app. split; [|done].
    eapply Forall_impl; [exact Hn1|]. intros ev. by apply Hok.
Qed.

(** What leaves the transactions and the trace alone, or changes those of another
    connection. *)
Lemma grows_same w w' :
  tx_saved <$> w_tx w' !! conn_id SdpDb = tx_saved <$> w_tx w !! conn_id SdpDb ->
  w_trace w' = w_trace w -> grows w w'.
Proof.
  intros Htx Htr Ho. unfold is_open, committed, snapshot in *.
  destruct (w_tx w !! conn_id SdpDb) as [t|]; [|done]. destruct (w_tx w' !! conn_id SdpDb) as [t'|]; [|done].
  injection Htx as ->. split; [done|]. split; [done|]. exists []. by rewrite app_nil_r.
Qed.

Lemma grows_stmt {A} (q : Stmt SdpDb A) : respects grows (db_stmt q).
Proof. intros w. apply grows_same; [apply db_stmt_same_snapshot|apply db_stmt_trace]. Qed.

Lemma grows_admin {A} (q : Stmt AdminDb A) : respects grows (db_stmt q).
Proof using CI.
  intros w. apply grows_same; [|apply db_stmt_trace]. rewrite <- (settle_tx w). unfold db_stmt.
  pose proof (conn_id_ne (X := SdpDb) (Y := AdminDb)) as Hne.
  destruct (w_tx w !! conn_id AdminDb) as [[[] now saved]|]; [done|..];
    destruct (env_fault _); cbn; rewrite ?lookup_partial_alter_ne by done; try done;
    destruct (q _ _) as [[]|]; cbn; by rewrite ?lookup_partial_alter_ne by done.
Qed.

Lemma grows_settle w : grows w (settle w).
Proof. apply grows_same; [by rewrite settle_tx|apply settle_trace]. Qed.

Lemma grows_pool_query {A} (q : StmtCtx -> SdpDb -> res A) : respects grows (pool_query q).
Proof. intros w. unfold pool_query. destruct (env_fault _); apply grows_settle. Qed.

Lemma grows_ask {A} (f : nat -> A) : respects grows (ask f).
Proof. intros w. apply grows_settle. Qed.

Lemma grows_ask_res {A} (f : nat -> res A) : respects grows (ask_res f).
Proof. intros w. apply grows_settle. Qed.

(** Work on the pool that leaves the record alone. *)
Definition leaves_requests {A} (m : M A) : Prop := forall w, w_tx w <> ∅ ->
  circle_transfer_requests (conn_get (w_db (snd (m w)))) = circle_transfer_requests (conn_get (w_db w)) /\
  w_trace (snd (m w)) = w_trace w.

Lemma leaves_stmt {A} (q : Stmt SdpDb A) :
  (forall ctx db a db', q ctx db = Ok (a, db') -> circle_transfer_requests db' = circle_transfer_requests db) ->
  leaves_requests (db_stmt q).
Proof using CL.
  intros Hq w Hne. split; [|apply db_stmt_trace]. destruct (settle_open w Hne) as [Hd _].
  destruct (db_stmt_effect q w) as [Hs|(ctx & a & x' & Hx & Hs)]; rewrite Hs, Hd; [done|].
  rewrite conn_get_set. rewrite Hd in Hx. by eapply Hq.
Qed.

Lemma leaves_map_err {A} f (m : M A) : leaves_requests m -> leaves_requests (map_errM f m).
Proof. intros Hm w Hne. specialize (Hm w Hne). unfold map_errM. by destruct (m w). Qed.

Lemma leaves_GetContext {A} (q : Stmt SdpDb (option A)) :
  (forall ctx db a db', q ctx db = Ok (a, db') -> circle_transfer_requests db' = circle_transfer_requests db) ->
  leaves_requests (GetContext q).
Proof using CL.
  intros Hq w Hne. pose proof (leaves_stmt q Hq w Hne) as H. unfold GetContext, mbind_.
  by destruct (db_stmt q w) as [[[a|]|e] w'].
Qed.

Lemma grows_on_pool {A} (m : M A) : leaves_requests m -> respects grows (on_pool (X := SdpDb) m).
Proof using CL.
  intros Hm w Ho. destruct (on_pool _ w) as [r w'] eqn:Ep. cbn.
  apply on_pool_run in Ep as (wa & w1 & Hrun & Hwa & _ & Hne & Htr & Hc & Ho' & Htr'); [|done].
  specialize (Hm wa Hne). rewrite Hrun, Hwa in Hm. cbn in Hm. destruct Hm as [Hdb Htr1].
  split; [done|]. rewrite Hc. split; [unfold rows_kept; rewrite Hdb; intros c Hin; by exists c|].
  exists []. rewrite app_nil_r. split; [congruence|done].
Qed.
End grows.

(** ** The record of a payment *)

Section get_or_insert.
Context {U : UuidGen}.

Lemma get_or_insert_respects id (R : World D L Ev -> World D L Ev -> Prop) `{!PreOrder R} :
  (forall A (q : Stmt SdpDb A), respects R (db_stmt q)) -> respects R (get_or_insert id : M CircleTransferRequest).
Proof.
  intros Hs. apply respects_bind; [done|by apply respects_wrap|]. intros [|]; cbn [negb]; [|by apply respects_throw].
  apply respects_bind; [done|apply respects_try, respects_map_err, respects_bind; [done..|]|].
  { intros [c|]; [by apply respects_ret|by apply respects_throw]. }
  intros [c|e]; [by apply respects_ret|]. destruct (errors_Is_err _ _); [|by apply respects_throw].
  unfold CTR_Insert. destruct (_ =? _); [by apply respects_throw|]. by apply respects_wrap.
Qed.

Lemma get_or_insert_opens id :
  opens (X := SdpDb) (get_or_insert id : M CircleTransferRequest) (got_or_inserted id).
Proof using CL.
  eapply opens_bind_with; [apply opens_wrap, opens_stmt|]. intros [|]; cbn [negb]; [|apply opens_throw].
  eapply opens_mono; [eapply opens_bind_with with (Q := got_or_inserted id)|].
  - apply opens_try_GetContext.
  - intros [c|e]; cbn [errors_Is_err].
    + eapply opens_mono; [apply opens_ret|]. intros b y x' [-> ->] x (ctx & o & [= Ho <-] & Hr).
      left. split; [done|]. destruct o; [by injection Hr as ->|done].
    + destruct (errors_Is_err e ErrRecordNotFound); [|apply opens_throw].
      unfold CTR_Insert. destruct (_ =? _); [apply opens_throw|].
      eapply opens_mono; [apply opens_wrap, opens_stmt|].
      intros c y x' [ctx' Hins] x (ctx & o & [= Ho <-] & Hr). right.
      unfold check_transfer_requests in Hins. destruct (decide _) as [Hok|]; [|done]. injection Hins as <- <-.
      split_and!; try done. destruct o as [c|]; [done|].
      destruct (filter _ _) as [|c l] eqn:Ef; [done|]. exfalso.
      assert (Hc : c ∈ sort_with newest_first (c :: l)) by (rewrite sort_with_perm; by left).
      destruct (sort_with newest_first (c :: l)); [by apply elem_of_nil in Hc|done].
  - cbn beta. intros c y x' HQ x [ctx [= _ <-]]. exact HQ.
Qed.

Lemma CTR_GetOrInsert_run id w r w' :
  is_open (X := SdpDb) w -> CTR_GetOrInsert id w = (r, w') ->
  is_open (X := SdpDb) w' /\ w_trace w' = w_trace w /\
  match r with
  | Ok c => got_or_inserted id c (committed w) (committed w')
  | Err _ => committed (X := SdpDb) w' = committed w \/ exists c, got_or_inserted id c (committed w) (committed w')
  end.
Proof using CL.
  unfold CTR_GetOrInsert. intros Ho H. destruct (_ =? _); [injection H as <- <-; by auto|].
  apply on_pool_run in H as (wa & w1 & Hm & Hwa & _ & Hne & Htr & Hc & Ho' & Htr'); [|done].
  split; [done|]. split.
  - rewrite Htr', <- Htr. pose proof (tx_trace (X := SdpDb) (get_or_insert id : M CircleTransferRequest)) as Hs. specialize (Hs
      ltac:(apply get_or_insert_respects; [apply _|intros A q w0; apply db_stmt_trace]) wa).
    unfold same_trace in Hs. by rewrite Hm in Hs.
  - apply (RunInTransaction_outcome _ (got_or_inserted id)) in Hm; [|apply get_or_insert_opens|].
    + rewrite (proj1 (settle_open wa Hne)), Hwa, <- Hc in Hm. exact Hm.
    + apply get_or_insert_respects; [apply _|]. intros A q. apply db_stmt_same_snapshot.
Qed.
End get_or_insert.

(** ** Requests to Circle *)

Lemma PayoutRequest_validate_same {UU : GoogleUuid} {N : Numerics} p code pr :
  PayoutRequest_validate (payout_of p code) = Ok pr -> pr = payout_of p code.
Proof.
  unfold PayoutRequest_validate. destruct (check_key _); [|done]. cbn.
  repeat (destruct (_ =? _); [done|]). cbn. destruct (ValidateAmount _); [|done]. cbn. by intros [= <-].
Qed.

Lemma RecipientRequest_validate_same {UU : GoogleUuid} {SDK : StellarSdk} rr rr' :
  RRq_Chain rr = StellarChainCode -> RecipientRequest_validate rr = Ok rr' -> rr' = rr.
Proof.
  unfold RecipientRequest_validate. intros Hc. rewrite Hc. destruct (check_key _); [|done]. cbn.
  destruct (_ =? _); [done|]. destruct (negb _); [done|]. destruct (_ && _); [done|]. destruct (_ =? _); [done|].
  destruct (_ && _); [done|]. intros [= <-]. destruct rr. cbn in *. by rewrite Hc.
Qed.

Section requests.
Context {RT : Retry D L Ev} {H : CircleHttp Ev} {J : CircleJson} {JB : Jsonb} {UU : GoogleUuid} {PF : ParseFloat}.
Context {SDK : StellarSdk} {N : Numerics} {CS : CircleSettings} {URL : NetUrl} {U : UuidGen}.

Section allowed.
Context (ok : SdpDb -> Ev -> Prop) (Hok : forall db db' ev, rows_kept db db' -> ok db ev -> ok db' ev).
Context (P : SdpDb -> Prop) (HP : forall db db', rows_kept db db' -> P db -> P db').

(** Where [P] holds of the committed record. *)
Definition grows_if w w' : Prop := P (committed w) -> grows ok w w'.

Lemma grows_if_preorder : PreOrder grows_if.
Proof using Hok HP.
  pose proof (grows_preorder ok Hok) as HG.
  split; [intros w _; reflexivity|]. intros w1 w2 w3 H1 H2 HP1 Ho. destruct (H1 HP1 Ho) as (Ho2 & Hk & _).
  apply (PreOrder_Transitive (R := grows ok) w1 w2 w3 (H1 HP1)); [|done]. apply H2. by eapply HP.
Qed.

Lemma weaken {A} (m : M A) : respects (grows ok) m -> respects grows_if m.
Proof. intros Hm w _. apply Hm. Qed.

End allowed.

Ltac grow :=
  repeat first
    [ apply respects_wrap | apply respects_map_err | apply respects_catch | apply respects_try
    | apply (respects_ret _) | apply (respects_throw _) | apply (respects_lift _)
    | apply respects_retry; [apply _|]
    | apply respects_bind; [apply _| |intros ?]
    | match goal with |- respects _ (if ?b then _ else _) => destruct b end
    | match goal with |- respects _ (match ?x with _ => _ end) => destruct x end
    | apply weaken, grows_stmt | apply weaken, grows_admin | apply weaken, grows_pool_query
    | apply weaken, grows_ask | apply weaken, grows_ask_res ].

Section client.
Context (ok : SdpDb -> Ev -> Prop) (Hok : forall db db' ev, rows_kept db db' -> ok db ev -> ok db' ev).
Context (P : SdpDb -> Prop) (HP : forall db db', rows_kept db db' -> P db -> P db').
Abbreviation grows_if := (grows_if ok P).
#[local] Instance grows_if_instance : PreOrder grows_if := grows_if_preorder ok Hok P HP.

Lemma attempt_grows u req :
  (forall db, P db -> ok db (requested req)) -> respects grows_if (attempt u req : M HttpResponse).
Proof using Hok HP.
  intros Hreq. apply respects_bind; [apply _| |intros _].
  - intros w HPw Ho. split; [done|]. split; [done|]. exists [requested req]. split; [done|].
    by constructor; [apply Hreq|].
  - apply respects_bind; [apply _|apply respects_wrap, weaken, grows_ask_res|].
    intros resp. destruct (_ =? _)%Z; [apply respects_throw|apply respects_ret]; apply _.
Qed.

Lemma call_grows {A} ctx client path method body accepted (parse : HttpResponse -> res A) :
  (forall db u auth, P db -> ok db (requested (mkHttpRequest method u auth body))) ->
  respects grows_if (call ctx client path method body accepted parse : M A).
Proof using Hok HP CI.
  intros Hreq. unfold call. apply respects_bind; [apply _|grow|intros u].
  apply respects_bind; [apply _| |intros resp].
  - do 2 apply respects_wrap. apply respects_retry; [apply _|]. apply attempt_grows. auto.
  - destruct (existsb _ _); [grow|]. unfold refuse, handleError, DeactivateTenantDistributionAccount. grow.
Qed.

Lemma with_client_grows {A} (k : Client -> M A) :
  (forall client, respects grows_if (k client)) -> respects grows_if (with_client k).
Proof using Hok HP.
  intros Hk. unfold with_client, getClientForTenantInContext, GetDecryptedAPIKey, ClientConfig_Get. grow. apply Hk.
Qed.

Lemma SendTransfer_grows ctx p :
  (forall db u auth code, P db -> GetCircleAssetCode p = Ok code ->
     ok db (requested (mkHttpRequest "POST" u auth (json_TransferRequest (transfer_of p code))))) ->
  respects grows_if (SendTransfer ctx p : M Transfer).
Proof using Hok HP CI.
  intros Hreq. unfold SendTransfer. destruct (_ <>? _); [grow|]. apply respects_bind; [apply _|grow|intros _].
  intros w. unfold mbind_, wrapM, map_errM, lift. destruct (GetCircleAssetCode p) as [code|e] eqn:Ec; cbn.
  - apply with_client_grows. intros client. apply respects_bind; [apply _|grow|intros _].
    apply call_grows. auto.
  - reflexivity.
Qed.

Lemma SendPayout_grows ctx p :
  (forall db u auth code, P db -> GetCircleAssetCode p = Ok code ->
     ok db (requested (mkHttpRequest "POST" u auth (json_PayoutRequest (payout_of p code))))) ->
  respects grows_if (SendPayout ctx p : M Payout).
Proof using Hok HP CI.
  intros Hreq. unfold SendPayout. destruct (_ <>? _); [grow|]. apply respects_bind; [apply _|grow|intros _].
  intros w. unfold mbind_, wrapM, map_errM, lift. destruct (GetCircleAssetCode p) as [code|e] eqn:Ec; cbn.
  - apply with_client_grows. intros client w0. unfold Client_PostPayout, mbind_, wrapM, map_errM, lift.
    destruct (PayoutRequest_validate _) as [pr|e] eqn:Epr; [|reflexivity].
    apply call_grows. intros db u auth HPdb.
    apply PayoutRequest_validate_same in Epr as ->. by apply Hreq.
  - reflexivity.
Qed.

Lemma PostRecipient_grows ctx rr :
  (forall db u auth, P db -> RRq_Chain rr = StellarChainCode ->
     ok db (requested (mkHttpRequest "POST" u auth (json_RecipientRequest rr)))) ->
  RRq_Chain rr = StellarChainCode -> respects grows_if (PostRecipient ctx rr : M Recipient).
Proof using Hok HP CI.
  intros Hreq Hchain. apply with_client_grows. intros client w.
  unfold Client_PostRecipient, mbind_, wrapM, map_errM, lift.
  destruct (RecipientRequest_validate rr) as [rr'|e] eqn:Er; [|reflexivity].
  apply RecipientRequest_validate_same in Er as ->; [|done]. apply call_grows. auto.
Qed.

Lemma GetMemo_grows ctx rw : respects grows_if (MemoResolver_GetMemo ctx rw : M SchemaMemo).
Proof using Hok HP. unfold MemoResolver_GetMemo, Organizations_Get, no_rows_as. grow. Qed.

Lemma CR_Get_grows id : respects grows_if (CR_GetByReceiverWalletID id : M CircleRecipient).
Proof using Hok HP CL.
  unfold CR_GetByReceiverWalletID. destruct (_ =? _); [grow|]. apply respects_map_err, weaken.
  apply grows_on_pool, leaves_GetContext. by intros ctx db a db' [= _ <-].
Qed.

Lemma CR_Insert_grows id : respects grows_if (CR_Insert id : M CircleRecipient).
Proof using Hok HP CL.
  unfold CR_Insert. destruct (_ =? _); [grow|]. apply respects_wrap, weaken, grows_on_pool, leaves_stmt.
  intros ctx db a db' Hx. unfold check_recipients in Hx. destruct (decide _); [by injection Hx as _ <-|done].
Qed.

Lemma UpdateRecipients_requests p f ctx db rows db' :
  UpdateRecipients p f ctx db = Ok (rows, db') -> circle_transfer_requests db' = circle_transfer_requests db.
Proof. unfold UpdateRecipients, check_recipients. destruct (decide _); [by intros [= _ <-]|done]. Qed.

Lemma CR_Update_grows id u : respects grows_if (CR_Update id u : M CircleRecipient).
Proof using Hok HP CL.
  unfold CR_Update. destruct (_ =? _); [grow|]. case_bool_decide; [grow|]. apply respects_map_err, weaken.
  apply grows_on_pool, leaves_GetContext. intros ctx db a db' Hx. destruct (_ && _); [done|].
  destruct (UpdateRecipients _ _ _ _) as [[rows x]|] eqn:Eu; [|done]. injection Hx as _ <-.
  by eapply UpdateRecipients_requests.
Qed.

Lemma reset_grows ids :
  respects grows_if (on_pool (X := SdpDb) (ResetRecipientsForRetryIfNeeded ids) : M (list CircleRecipient)).
Proof using Hok HP CL.
  apply weaken, grows_on_pool. unfold ResetRecipientsForRetryIfNeeded. destruct ids; [by intros w|].
  apply leaves_map_err, leaves_stmt. intros ctx db rows db'. apply UpdateRecipients_requests.
Qed.

Lemma ensureRecipientIsReady_grows ctx rw :
  (forall db u auth rr, P db -> RRq_Address rr = wallet_address rw ->
     ok db (requested (mkHttpRequest "POST" u auth (json_RecipientRequest rr)))) ->
  respects grows_if (ensureRecipientIsReady ctx rw : M CircleRecipient).
Proof using Hok HP CL CI.
  intros Hreq. unfold ensureRecipientIsReady. apply respects_bind; [apply _|apply respects_wrap|intros r].
  { unfold getOrCreateRecipient. apply respects_bind; [apply _|apply respects_catch, CR_Get_grows|intros [r|e]];
      (apply respects_bind; [apply _| |intros r']; grow; apply CR_Insert_grows). }
  apply respects_bind; [apply _| |intros ready].
  { destruct (is_active r); [|grow]. apply respects_bind; [apply _|apply respects_wrap, GetMemo_grows|intros memo].
    destruct (is_for _ _ _); [grow|]. apply respects_bind; [apply _|apply respects_wrap, reset_grows|intros _].
    grow. }
  destruct (ready : bool); [grow|]. apply respects_bind; [apply _|apply respects_wrap|intros r'].
  { unfold handleFailedRecipientIfNeeded. destruct (negb _); [grow|].
    apply respects_bind; [apply _|grow|intros key]. apply respects_wrap, CR_Update_grows. }
  apply respects_wrap. unfold submitRecipientToCircle.
  apply respects_bind; [apply _|apply respects_wrap, GetMemo_grows|intros memo].
  apply respects_bind; [apply _|apply respects_catch, PostRecipient_grows|intros [rcp|e]].
  - intros db u auth HPdb _. by apply Hreq.
  - done.
  - do 2 (apply respects_bind; [apply _|grow|intros ?]). apply respects_wrap, CR_Update_grows.
  - apply respects_bind; [apply _|grow|intros now].
    apply respects_bind; [apply _|apply respects_wrap, CR_Update_grows|intros _]. grow.
Qed.

Lemma ensure_with_retry_grows ctx rw :
  (forall db u auth rr, P db -> RRq_Address rr = wallet_address rw ->
     ok db (requested (mkHttpRequest "POST" u auth (json_RecipientRequest rr)))) ->
  respects grows_if (ensureRecipientIsReadyWithRetry ctx rw : M CircleRecipient).
Proof using Hok HP CL CI.
  intros Hreq. apply respects_wrap, respects_retry; [apply _|]. unfold ensure_once.
  apply respects_bind; [apply _| |intros r; grow]. by apply respects_map_err, ensureRecipientIsReady_grows.
Qed.

Lemma UpdateStatus_grows id status msg h : respects grows_if (UpdateStatus id status msg h : M unit).
Proof using Hok HP CL. unfold UpdateStatus. grow. Qed.

Lemma CTR_Update_grows key u : respects grows_if (CTR_Update key u : M CircleTransferRequest).
Proof using Hok HP CL. unfold CTR_Update, no_rows_as, GetContext. grow. Qed.
End client.

(** ** Dispatching transfers *)

Lemma respects_forM_in {A} (R : World D L Ev -> World D L Ev -> Prop) `{!PreOrder R} (f : A -> M unit) l :
  (forall x, x ∈ l -> respects R (f x)) -> respects R (mforM f l).
Proof.
  induction l as [|x l IH]; intros Hf; cbn; [by apply respects_ret|].
  apply respects_bind; [done|apply Hf; by left|intros []; apply IH; intros y Hy; apply Hf; by right].
Qed.

Lemma respects_true {A} ok (m : M A) : respects (grows_if ok (fun _ => True)) m -> respects (grows ok) m.
Proof. intros Hm w. by apply Hm. Qed.

(** The request of a payment is recorded, then the rest runs. *)
Lemma after_get_or_insert {A} ok p id (k : CircleTransferRequest -> M A)
    (Hok : forall db db' ev, rows_kept db db' -> ok db ev -> ok db' ev) :
  (forall c, respects (grows_if ok (recorded id (CTR_IdempotencyKey c))) (k c)) ->
  respects (grows ok) (mbind_ (wrapM p (CTR_GetOrInsert id)) k).
Proof using CL.
  intros Hk w Ho. unfold mbind_, wrapM, map_errM. destruct (CTR_GetOrInsert id w) as [r w1] eqn:Er.
  apply CTR_GetOrInsert_run in Er as (Ho1 & Htr & Hr); [|done].
  assert (Hstep : rows_kept (committed w) (committed w1)).
  { destruct r as [c|e]; [by apply got_or_inserted_recorded in Hr as [? _]|].
    destruct Hr as [->|[c Hc]]; [done|by apply got_or_inserted_recorded in Hc as [? _]]. }
  assert (Hg : grows ok w w1).
  { intros _. split; [done|]. split; [done|]. exists []. by rewrite app_nil_r. }
  destruct r as [c|e]; cbn; [|by apply Hg].
  apply got_or_inserted_recorded in Hr as [_ Hrec].
  apply (PreOrder_Transitive (R := grows ok) (PreOrder := grows_preorder ok Hok) w w1); [done| |done].
  by apply Hk.
Qed.

(** The payment a request to Circle is for. *)
Definition transfer_pays (payment : PaymentView) (tr : TransferRequest) : Prop :=
  CB_Amount (TRq_Amount tr) = numeric_text (Pay_Amount (pv_row payment)) /\
  TAc_Address (TRq_Destination tr) = wallet_address (pv_ReceiverWallet payment) /\
  exists p, GetCircleAssetCode p = Ok (CB_Currency (TRq_Amount tr)) /\ StellarAssetCode p = Code (pv_Asset payment).

Definition transfer_allowed (pays : list PaymentView) (db : SdpDb) (ev : Ev) : Prop :=
  exists payment u auth tr, payment ∈ pays /\
    ev = requested (mkHttpRequest "POST" u auth (json_TransferRequest tr)) /\ transfer_pays payment tr /\
    recorded (Pay_ID (pv_row payment)) (TRq_IdempotencyKey tr) db.

Lemma transfer_allowed_kept pays db db' ev :
  rows_kept db db' -> transfer_allowed pays db ev -> transfer_allowed pays db' ev.
Proof.
  intros Hk (payment & u & auth & tr & ? & ? & ? & Hr). exists payment, u, auth, tr. split_and!; try done.
  by eapply recorded_kept.
Qed.

Lemma send_transfer_grows ctx circleWalletID pays payment :
  payment ∈ pays -> respects (grows (transfer_allowed pays)) (send_transfer ctx circleWalletID payment : M unit).
Proof using CL CI.
  intros Hin. pose proof (transfer_allowed_kept pays) as Hok.
  apply after_get_or_insert; [done|]. intros c.
  set (P := recorded (Pay_ID (pv_row payment)) (CTR_IdempotencyKey c)).
  assert (HP : forall db db', rows_kept db db' -> P db -> P db') by (intros db db'; apply recorded_kept).
  pose proof (grows_if_preorder (transfer_allowed pays) Hok P HP) as HR.
  apply respects_bind; [done|by apply respects_wrap, GetMemo_grows|]. intros memo.
  apply respects_bind; [done|apply respects_catch, SendTransfer_grows; try done|].
  - intros db u auth code HPdb Hcode. exists payment, u, auth. eexists. split_and!; [done|done| |done].
    split; [done|]. split; [done|]. eexists. split; [exact Hcode|done].
  - intros [transfer|e]; [|by apply respects_wrap, UpdateStatus_grows].
    apply respects_bind; [done|apply respects_wrap|intros _].
    + apply respects_bind; [done|apply weaken, grows_ask|intros now].
      apply respects_bind; [done|by apply respects_wrap, CTR_Update_grows|intros _]. by apply respects_ret.
    + apply respects_wrap, respects_bind; [done|apply respects_wrap; by apply respects_lift|intros status].
      by apply respects_wrap, UpdateStatus_grows.
Qed.

Lemma grown_events {A} ok (m : M A) w :
  respects (grows ok) m -> in_tx (X := SdpDb) w -> w_trace w = [] ->
  Forall (ok (committed (snd (m w)))) (w_trace (snd (m w))).
Proof.
  intros Hg (now & saved & Ht) Htr. destruct (Hg w) as (_ & _ & new & Hnew & Hall).
  { unfold is_open. by rewrite Ht. }
  rewrite Htr in Hnew. cbn in Hnew. by rewrite Hnew.
Qed.

Lemma dispatch_grows (allowed : list PaymentView -> SdpDb -> Ev -> Prop) (send : string -> PaymentView -> M unit)
    ctx tenantID pays :
  (forall db db' ev, rows_kept db db' -> allowed pays db ev -> allowed pays db' ev) ->
  (forall wid payment, payment ∈ pays -> respects (grows (allowed pays)) (send wid payment)) ->
  respects (grows (allowed pays)) (match pays with
    | [] => mret_ tt
    | _ => let! wid := circle_wallet ctx tenantID in mforM (send wid) pays
    end).
Proof using CL CI.
  intros Hok Hsend. pose proof (grows_preorder (allowed pays) Hok) as HR.
  destruct pays as [|p l] eqn:Ep; [by apply respects_ret|]. rewrite <- Ep in *.
  apply respects_bind; [done| |intros wid; apply respects_forM_in; [done|intros x; apply Hsend]].
  apply respects_true. unfold circle_wallet, DistributionAccountFromContext, getDistributionAccount, ClientConfig_Get.
  pose proof (grows_if_preorder (allowed pays) Hok (fun _ => True) (fun _ _ _ _ => I)) as HR'. grow.
Qed.

(** Whatever becomes of the transaction, each request to pay that leaves for Circle is
    for a payment of the batch, with its amount, its asset and its receiver's
    address, and its idempotency key is that of a committed row for that payment:
    a payment that is sent again is sent under the same record. *)
Theorem transfers_are_recorded ctx tenantID pays w
    (Htx : in_tx (X := SdpDb) w) (Htr : w_trace w = []) :
  Forall (transfer_allowed pays (committed (snd (Transfer_DispatchPayments ctx tenantID pays w))))
    (w_trace (snd (Transfer_DispatchPayments ctx tenantID pays w))).
Proof.
  apply (grown_events (transfer_allowed pays)); [|done|done]. apply dispatch_grows; [apply transfer_allowed_kept|].
  intros wid payment. apply send_transfer_grows.
Qed.

(** ** Dispatching payouts *)

Definition payout_pays (payment : PaymentView) (pr : PayoutRequest) : Prop :=
  CB_Amount (PRq_Amount pr) = numeric_text (Pay_Amount (pv_row payment)) /\
  exists p, GetCircleAssetCode p = Ok (CB_Currency (PRq_Amount pr)) /\ StellarAssetCode p = Code (pv_Asset payment).

Definition payout_allowed (pays : list PaymentView) (db : SdpDb) (ev : Ev) : Prop :=
  exists payment u auth, payment ∈ pays /\
    ((exists rr, ev = requested (mkHttpRequest "POST" u auth (json_RecipientRequest rr)) /\
        RRq_Address rr = wallet_address (pv_ReceiverWallet payment)) \/
     (exists pr, ev = requested (mkHttpRequest "POST" u auth (json_PayoutRequest pr)) /\ payout_pays payment pr /\
        recorded (Pay_ID (pv_row payment)) (PRq_IdempotencyKey pr) db)).

Lemma payout_allowed_kept pays db db' ev :
  rows_kept db db' -> payout_allowed pays db ev -> payout_allowed pays db' ev.
Proof.
  intros Hk (payment & u & auth & Hin & [Hrcp|(pr & ? & ? & Hr)]); exists payment, u, auth; (split; [done|]).
  - by left.
  - right. exists pr. split_and!; try done. by eapply recorded_kept.
Qed.

Lemma send_payout_grows ctx circleWalletID pays payment :
  payment ∈ pays -> respects (grows (payout_allowed pays)) (send_payout ctx circleWalletID payment : M unit).
Proof using CL CI.
  intros Hin. pose proof (payout_allowed_kept pays) as Hok. pose proof (grows_preorder (payout_allowed pays) Hok) as HG.
  apply respects_bind; [done| |intros [r|e]].
  - apply respects_catch, respects_true, ensure_with_retry_grows; [done|done|].
    intros db u auth rr _ Ha. exists payment, u, auth. split; [done|]. left. by exists rr.
  - apply after_get_or_insert; [done|]. intros c.
    set (P := recorded (Pay_ID (pv_row payment)) (CTR_IdempotencyKey c)).
    assert (HP : forall db db', rows_kept db db' -> P db -> P db') by (intros db db'; apply recorded_kept).
    pose proof (grows_if_preorder (payout_allowed pays) Hok P HP) as HR.
    apply respects_bind; [done|apply respects_catch, SendPayout_grows; try done|].
    + intros db u auth code HPdb Hcode. exists payment, u, auth. split; [done|]. right. eexists.
      split_and!; [done| |done]. split; [done|]. eexists. split; [exact Hcode|done].
    + intros [payout|e].
      * apply respects_bind; [done|apply respects_wrap|intros _].
        -- apply respects_bind; [done|apply weaken, grows_ask|intros now].
           apply respects_bind; [done|by apply respects_wrap, CTR_Update_grows|intros _]. by apply respects_ret.
        -- apply respects_wrap, respects_bind; [done|apply respects_wrap; by apply respects_lift|intros status].
           by apply respects_wrap, UpdateStatus_grows.
      * apply respects_bind; [done| |intros _; by apply respects_wrap, UpdateStatus_grows].
        destruct (is_destination_error e); [|by apply respects_ret].
        apply respects_bind; [done|by apply respects_wrap, CR_Update_grows|intros _]. by apply respects_ret.
  - by apply respects_wrap, respects_true, UpdateStatus_grows.
Qed.

(** C6: The same for payouts: each request is the registration of a recipient for the
    address of a receiver of the batch, or it asks to pay a payment of the batch, with
    its amount and its asset, under the key of a committed row for that payment. *)
Theorem payouts_are_recorded ctx tenantID pays w
    (Htx : in_tx (X := SdpDb) w) (Htr : w_trace w = []) :
  Forall (payout_allowed pays (committed (snd (Payout_DispatchPayments ctx tenantID pays w))))
    (w_trace (snd (Payout_DispatchPayments ctx tenantID pays w))).
Proof.
  apply (grown_events (payout_allowed pays)); [|done|done]. apply dispatch_grows; [apply payout_allowed_kept|].
  intros wid payment. apply send_payout_grows.
Qed.
End requests.
End sends.

(** ** Witnesses *)

Import CircleWorld.

Definition transfer_run : res unit * World Dbs unit HttpRequest :=
  Transfer_DispatchPayments (E := env) (C := sdp_conn) (AC := admin_conn) (RT := plain_retry) (Some circle_tenant) "t1"
    [view] (dispatching []).

Definition payout_run : res unit * World Dbs unit HttpRequest :=
  Payout_DispatchPayments (E := env) (C := sdp_conn) (AC := admin_conn) (RT := plain_retry) (Some circle_tenant) "t1"
    [view] (dispatching []).

Lemma transfers_are_recorded_witness :
  fst transfer_run = Ok tt /\ length (w_trace (snd transfer_run)) = 1%nat /\
  Forall (transfer_allowed [view] (committed (X := SdpDb) (snd transfer_run))) (w_trace (snd transfer_run)).
Proof.
  split; [vm_compute; reflexivity|]. split; [vm_compute; reflexivity|]. unfold transfer_run.
  apply (transfers_are_recorded (E := env) (C := sdp_conn) (AC := admin_conn)); [by exists 0%Z, (dbs [])|done].
Defined.

Lemma payouts_are_recorded_witness :
  fst payout_run = Ok tt /\ length (w_trace (snd payout_run)) = 2%nat /\
  Forall (payout_allowed [view] (committed (X := SdpDb) (snd payout_run))) (w_trace (snd payout_run)).
Proof.
  split; [vm_compute; reflexivity|]. split; [vm_compute; reflexivity|]. unfold payout_run.
  apply (payouts_are_recorded (E := env) (C := sdp_conn) (AC := admin_conn)); [by exists 0%Z, (dbs [])|done].
Defined.
