(* ===== verification/CirclePayoutSafety.v ===== *)
(** The recipients of payouts: what a payout may rely on, and where the attempts to
    register a recipient end. *)

From S2P Require Import Prelude GoStrings Errors StateMachine Effects Transactions Retry Schema TxStore Tables.
From S2P Require Import SdpDb PaymentStore DisbursementStore Tenant Tenants PaymentPipeline CircleClient.
From S2P Require Import CircleStore CircleDispatch CircleSafety.
From S2P Require Import TenantSafety CirclePlatform.

Local Open Scope string_scope.
Local Open Scope list_scope.
Local Open Scope go_scope.

Section recipients.
Context {D L Ev : Type} {E : Env D} {C : Conn D SdpDb} {CL : ConnLaws D SdpDb}.
Context {AC : Conn D AdminDb} {CI : ConnIndep D SdpDb AdminDb}.
Context {RT : Retry D L Ev} {H : CircleHttp Ev} {J : CircleJson} {JB : Jsonb} {UU : GoogleUuid} {PF : ParseFloat}.
Context {SDK : StellarSdk} {N : Numerics} {CS : CircleSettings} {URL : NetUrl} {U : UuidGen}.
Implicit Types w : World D L Ev.
Abbreviation M := (M D L Ev).
Abbreviation past w := (committed (X := SdpDb) w).
Abbreviation opened w := (is_open (X := SdpDb) w).

(** ** Statements on the pool *)

Lemma pool_stmt {A} (q : Stmt SdpDb A) w a w' :
  opened w -> on_pool (X := SdpDb) (db_stmt q) w = (Ok a, w') ->
  opened w' /\ exists ctx, q ctx (past w) = Ok (a, past w').
Proof using CL.
  intros Ho Hp. apply on_pool_run in Hp as (wa & w1 & Hm & Hwa & _ & Hne & _ & Hc & Ho' & _); [|done].
  split; [done|]. apply db_stmt_open in Hm as (ctx & x' & Hq & Hdb & _); [|done].
  exists ctx. rewrite Hc, <- Hwa, Hdb, conn_get_set. exact Hq.
Qed.

Lemma pool_GetContext {A} (q : Stmt SdpDb (option A)) w a w' :
  opened w -> on_pool (X := SdpDb) (GetContext q) w = (Ok a, w') ->
  opened w' /\ exists ctx, q ctx (past w) = Ok (Some a, past w').
Proof using CL.
  intros Ho Hp. apply on_pool_run in Hp as (wa & w1 & Hm & Hwa & _ & Hne & _ & Hc & Ho' & _); [|done].
  split; [done|]. apply mbind_ok in Hm as (o & w2 & Hm & Hk). destruct o as [b|]; [|done]. injection Hk as -> <-.
  apply db_stmt_open in Hm as (ctx & x' & Hq & Hdb & _); [|done].
  exists ctx. rewrite Hc, <- Hwa, Hdb, conn_get_set. exact Hq.
Qed.

Lemma CR_Get_ok id w r w' :
  opened w -> CR_GetByReceiverWalletID id w = (Ok r, w') ->
  opened w' /\ lookup_recipient id (past w') = Some r.
Proof using CL.
  unfold CR_GetByReceiverWalletID. intros Ho Hr. destruct (_ =? _); [done|]. apply map_errM_ok in Hr.
  apply pool_GetContext in Hr as [Ho' [ctx [= Hl <-]]]; [|done]. done.
Qed.

Lemma CR_Insert_ok id w r w' :
  opened w -> CR_Insert id w = (Ok r, w') ->
  opened w' /\ lookup_recipient id (past w') = Some r.
Proof using CL.
  unfold CR_Insert. intros Ho Hr. destruct (_ =? _); [done|]. apply map_errM_ok in Hr.
  apply pool_stmt in Hr as [Ho' [ctx Hq]]; [|done]. split; [done|].
  unfold check_recipients in Hq. destruct (decide _) as [(_ & Hnd & _)|]; [|done]. injection Hq as <- Hdb. rewrite <- Hdb.
  apply (first_such_unique CR_ReceiverWalletID); [exact Hnd| |done]. apply elem_of_app. right. by left.
Qed.

Lemma UpdateRecipients_row id u ctx db rows db' r :
  UpdateRecipients (fun _ c => CR_ReceiverWalletID c =? id) (set_recipient_update u) ctx db = Ok (rows, db') ->
  head rows = Some r ->
  lookup_recipient id db' = Some r /\
  exists old, lookup_recipient id db = Some old /\ r = (set_recipient_update u old) <| CR_UpdatedAt := NOW ctx |>.
Proof.
  unfold UpdateRecipients, check_recipients. destruct (decide _); [|done]. intros [= <- <-].
  set (g := fun c => (set_recipient_update u c) <| CR_UpdatedAt := NOW ctx |>). intros Hr.
  assert (Hup : lookup_recipient id (db <| circle_recipients := update_where (fun c => CR_ReceiverWalletID c =? id) g
      (circle_recipients db) |>)
    = (fun c => if CR_ReceiverWalletID c =? id then g c else c) <$> lookup_recipient id db)
    by by apply first_such_update.
  pose proof (hd_filter (fun c => CR_ReceiverWalletID c =? id) (circle_recipients db)) as Hf.
  unfold lookup_recipient in Hup |- * . destruct (filter _ _) as [|old l]; [done|]. injection Hr as <-.
  rewrite <- Hf in Hup |- * . pose proof (proj2 (first_such_some _ _ _ (eq_sym Hf))) as Hold.
  cbn in Hold, Hup. rewrite Hold in Hup. split; [exact Hup|]. by exists old.
Qed.

Lemma CR_Update_ok id u w r w' :
  opened w -> CR_Update id u w = (Ok r, w') ->
  opened w' /\ lookup_recipient id (past w') = Some r /\
  exists old now, lookup_recipient id (past w) = Some old /\
    r = (set_recipient_update u old) <| CR_UpdatedAt := now |>.
Proof using CL.
  unfold CR_Update. intros Ho Hr. destruct (_ =? _); [done|]. case_bool_decide; [done|]. apply map_errM_ok in Hr.
  apply pool_GetContext in Hr as [Ho' [ctx Hq]]; [|done]. split; [done|]. destruct (_ && _); [done|].
  destruct (UpdateRecipients _ _ _ _) as [[rows db']|] eqn:Eu; [|done]. injection Hq as Hhd Hdb. rewrite Hdb in Eu.
  apply (UpdateRecipients_row _ _ _ _ _ _ r) in Eu as (Hl & old & Hold & Hr'); [|done].
  split; [done|]. by exists old, (NOW ctx).
Qed.

(** ** Everything else keeps the transaction open *)

Definition any (db : SdpDb) (ev : Ev) : Prop := True.

Lemma any_kept db db' ev : rows_kept db db' -> any db ev -> any db' ev.
Proof. done. Qed.

Lemma true_kept (db db' : SdpDb) : rows_kept db db' -> True -> True.
Proof. done. Qed.

Lemma stays_open {A} (m : M A) w : respects (grows_if any (fun _ => True)) m -> opened w -> opened (snd (m w)).
Proof. intros Hm Ho. by destruct (Hm w I Ho). Qed.

Lemma GetMemo_ok ctx rw w memo w' :
  opened w -> MemoResolver_GetMemo ctx rw w = (Ok memo, w') -> opened w' /\ past w' = past w.
Proof using CI CL.
  intros Ho Hm. assert (Hs : respects (same_snapshot (X := SdpDb)) (MemoResolver_GetMemo ctx rw : M SchemaMemo)).
  { unfold MemoResolver_GetMemo, Organizations_Get, no_rows_as.
    assert (Hp : forall A (q : StmtCtx -> SdpDb -> res A), respects (same_snapshot (X := SdpDb)) (pool_query q : M A)).
    { intros A q w0. unfold pool_query, same_snapshot. destruct (env_fault _); cbn; by rewrite settle_tx. }
    repeat first [ apply respects_map_err | apply Hp
      | match goal with |- respects _ (if ?b then _ else _) => destruct b end
      | apply respects_bind; [apply _| |intros ?]
      | apply respects_ret, _ | apply respects_lift, _ ]. }
  specialize (Hs w). rewrite Hm in Hs. unfold same_snapshot in Hs. cbn in Hs.
  unfold is_open, committed, snapshot in *. destruct (w_tx w !! _) as [t|]; [|done].
  destruct (w_tx w' !! _) as [t'|]; [|done]. injection Hs as ->. done.
Qed.

(** The memo of the wallet, where it has one, is the memo that is sent. *)
Lemma GetMemo_own ctx rw w memo w' m :
  RW_StellarMemo rw = Some m -> m <> "" -> IsValidContractAddress (wallet_address rw) = false ->
  MemoResolver_GetMemo ctx rw w = (Ok memo, w') -> Memo_Value memo = m.
Proof.
  unfold MemoResolver_GetMemo, wallet_address. intros Hm Hne -> Hrun. rewrite Hm in Hrun. cbn in Hrun.
  apply String.eqb_neq in Hne. rewrite Hne in Hrun. by injection Hrun as <- _.
Qed.

(** ** What a payout relies on *)

Definition ready_for (rw : ReceiverWallet) (r : CircleRecipient) (db : SdpDb) : Prop :=
  lookup_recipient (RW_ID rw) db = Some r /\ is_active r = true /\
  wallet_address rw = default "" (CR_StellarAddress r) /\
  forall m, RW_StellarMemo rw = Some m -> m <> "" -> IsValidContractAddress (wallet_address rw) = false ->
    CR_StellarMemo r = Some m.

Lemma getOrCreate_ok rw w r w' :
  opened w -> getOrCreateRecipient rw w = (Ok r, w') -> opened w' /\ lookup_recipient (RW_ID rw) (past w') = Some r.
Proof using CL CI.
  intros Ho Hrun. apply mbind_ok in Hrun as (found & w1 & Hf & Hrun). apply mbind_ok in Hrun as (dr & w2 & Hd & Hrun).
  assert (Hr : r = dr /\ w' = w2) by (destruct (_ <=? _)%Z; [done|by injection Hrun as <- <-]). destruct Hr as [-> ->].
  unfold catch_ in Hf. destruct (CR_GetByReceiverWalletID _ w) as [[r0|e] w0] eqn:Eg.
  - injection Hf as <- <-. injection Hd as <- <-. by eapply CR_Get_ok.
  - assert (Ho1 : opened w1).
    { assert (w1 = w0) as -> by (destruct (is_panic e); [done|by injection Hf as _ <-]).
      pose proof (stays_open (CR_GetByReceiverWalletID (RW_ID rw)) w (CR_Get_grows any any_kept _ true_kept _) Ho) as H0.
      by rewrite Eg in H0. }
    destruct (is_panic e); [done|]. injection Hf as <- <-.
    destruct (errors_Is_err _ _); [|done]. apply map_errM_ok in Hd. by eapply CR_Insert_ok.
Qed.

Lemma PostRecipient_address ctx rr w r w' : PostRecipient ctx rr w = (Ok r, w') -> RRq_Address rr <> "".
Proof.
  intros Hrun. apply mbind_ok in Hrun as (client & w1 & _ & Hrun). apply mbind_ok in Hrun as (rr' & w2 & Hv & _).
  apply map_errM_ok, lift_ok in Hv as [Hv _]. unfold RecipientRequest_validate in Hv.
  destruct (check_key _); [|done]. cbn in Hv. by destruct (String.eqb_spec (RRq_Address rr) "").
Qed.

Lemma submit_ok ctx rw dr w r w' :
  opened w -> CR_ReceiverWalletID dr = RW_ID rw -> submitRecipientToCircle ctx rw dr w = (Ok r, w') ->
  is_active r = true -> opened w' /\ ready_for rw r (past w').
Proof using CL CI.
  intros Ho Hid Hrun Hact. apply mbind_ok in Hrun as (memo & w1 & Hm & Hrun). apply map_errM_ok in Hm.
  pose proof (GetMemo_own ctx rw w memo w1) as Hown. pose proof Hm as Hm'. apply GetMemo_ok in Hm as [Ho1 _]; [|done].
  apply mbind_ok in Hrun as (posted & w2 & Hp & Hrun). destruct posted as [rcp|e].
  - apply catch_ok in Hp. pose proof (stays_open (PostRecipient ctx (recipient_request rw memo (CR_IdempotencyKey dr))) w1
      (PostRecipient_grows any any_kept _ true_kept ctx (recipient_request rw memo (CR_IdempotencyKey dr))
        (fun _ _ _ _ _ => I) eq_refl) Ho1) as Ho2.
    rewrite Hp in Ho2. cbn in Ho2.
    apply mbind_ok in Hrun as (status & w3 & Hs & Hrun). apply map_errM_ok, lift_ok in Hs as [Hs ->].
    apply mbind_ok in Hrun as (now & w4 & Hn & Hrun). injection Hn as _ <-. apply map_errM_ok in Hrun.
    rewrite Hid in Hrun. apply CR_Update_ok in Hrun as (Ho' & Hl & old & now' & _ & Hr);
      [|by unfold is_open in *; rewrite settle_tx].
    split; [done|]. split; [done|]. split; [done|].
    assert (Hne : wallet_address rw <> "") by exact (PostRecipient_address _ _ _ _ _ Hp).
    subst r. cbn. unfold set_text. split.
    + by rewrite (proj2 (String.eqb_neq _ _) Hne).
    + intros m Hmm Hmne Hc. rewrite (Hown m) by done. by rewrite (proj2 (String.eqb_neq _ _) Hmne).
  - exfalso. apply mbind_ok in Hrun as (? & ? & _ & Hrun). by apply mbind_ok in Hrun as (? & ? & _ & Hrun).
Qed.

Lemma handle_ok dr w r w' :
  opened w -> handleFailedRecipientIfNeeded dr w = (Ok r, w') ->
  opened w' /\ CR_ReceiverWalletID r = CR_ReceiverWalletID dr.
Proof using CL CI.
  unfold handleFailedRecipientIfNeeded. intros Ho Hrun. destruct (negb _); [by injection Hrun as <- <-|].
  apply mbind_ok in Hrun as (key & w1 & Hk & Hrun). injection Hk as _ <-. apply map_errM_ok in Hrun.
  apply CR_Update_ok in Hrun as (Ho' & Hl & _); [|by unfold is_open in *; rewrite settle_tx].
  split; [done|]. by apply first_such_some in Hl as [_ Hl%String.eqb_eq].
Qed.

Lemma ensure_ok ctx rw w r w' :
  opened w -> ensureRecipientIsReady ctx rw w = (Ok r, w') -> is_active r = true ->
  opened w' /\ ready_for rw r (past w').
Proof using CL CI.
  intros Ho Hrun Hact. apply mbind_ok in Hrun as (dr & w1 & Hg & Hrun). apply map_errM_ok in Hg.
  apply getOrCreate_ok in Hg as [Ho1 Hl1]; [|done].
  assert (Hid : CR_ReceiverWalletID dr = RW_ID rw) by (by apply first_such_some in Hl1 as [_ Hl1%String.eqb_eq]).
  apply mbind_ok in Hrun as (ready & w2 & Hready & Hrun).
  assert (H2 : opened w2 /\ (ready = true -> ready_for rw dr (past w2))).
  { destruct (is_active dr) eqn:Ed; [|by injection Hready as <- <-].
    apply mbind_ok in Hready as (memo & w3 & Hm & Hready). apply map_errM_ok in Hm.
    pose proof (GetMemo_own ctx rw w1 memo w3) as Hown. pose proof Hm as Hm'. apply GetMemo_ok in Hm as [Ho3 Hp3]; [|done].
    destruct (is_for dr rw memo) eqn:Ef.
    - injection Hready as <- <-. split; [done|]. intros _. apply andb_true_iff in Ef as [Em%String.eqb_eq Ea%String.eqb_eq].
      split; [by rewrite Hp3|]. split; [done|]. split; [done|]. intros m Hmm Hne Hc.
      rewrite (Hown m) in Em by done. destruct (CR_StellarMemo dr); cbn in Em; congruence.
    - apply mbind_ok in Hready as (l & w4 & Hreset & Hready). injection Hready as <- <-. apply map_errM_ok in Hreset.
      pose proof (stays_open (on_pool (X := SdpDb) (ResetRecipientsForRetryIfNeeded [CR_ReceiverWalletID dr])) w3
        (reset_grows any any_kept _ true_kept _) Ho3) as Ho4. rewrite Hreset in Ho4. done. }
  destruct H2 as [Ho2 Hr2]. destruct ready; [injection Hrun as <- <-; auto|].
  apply mbind_ok in Hrun as (dr2 & w5 & Hh & Hrun). apply map_errM_ok in Hh, Hrun.
  apply handle_ok in Hh as [Ho5 Hid5]; [|done]. apply (submit_ok ctx rw dr2 w5); [done|congruence|done|done].
Qed.

(** C7: A recipient that the dispatcher takes for ready is the committed row of the wallet;
    Circle has it as active, for the address of the wallet, and for its memo where
    the wallet has one: no payout goes to an address or a memo the wallet had
    before, however often the registration was retried. *)
Theorem payout_recipient_is_current ctx rw w r w'
    (Htx : in_tx (X := SdpDb) w) (Hrun : ensureRecipientIsReadyWithRetry ctx rw w = (Ok r, w')) :
  lookup_recipient (RW_ID rw) (past w') = Some r /\
  CR_Status r = Some CircleRecipientStatusActive /\
  wallet_address rw = default "" (CR_StellarAddress r) /\
  forall m, RW_StellarMemo rw = Some m -> m <> "" -> IsValidContractAddress (wallet_address rw) = false ->
    CR_StellarMemo r = Some m.
Proof using CL CI.
  apply map_errM_ok in Hrun.
  apply (retry_ok (fun w => opened w) (fun r w => is_active r = true /\ ready_for rw r (past w))) in Hrun as [Hact (Hl & _ & Hrest)].
  - split; [done|]. split; [|done]. unfold is_active in Hact. apply String.eqb_eq in Hact.
    by destruct (CR_Status r); cbn in Hact; subst.
  - clear Hrun. intros w0 r0 w1 Ho Hrun. pose proof (stays_open (ensure_once ctx rw) w0) as Hs. rewrite Hrun in Hs.
    destruct r0 as [r0|e].
    + apply mbind_ok in Hrun as (r' & w2 & Hr & Hrun). destruct (is_active r') eqn:Ea; [|done]. injection Hrun as <- <-.
      apply map_errM_ok in Hr. apply ensure_ok in Hr as [_ Hr]; [|done|done]. done.
    + apply Hs; [|done]. unfold ensure_once. pose proof (grows_if_preorder (L := L) any any_kept _ true_kept) as HR.
      apply respects_bind; [done| |intros r1].
      * by apply respects_map_err, (ensureRecipientIsReady_grows any any_kept _ true_kept).
      * destruct (negb _); [by apply respects_throw|by apply respects_ret].
  - destruct Htx as (now & saved & Ht). unfold is_open. by rewrite Ht.
Qed.
End recipients.

(** ** Witnesses *)

Import CircleWorld.

Lemma payout_recipient_is_current_witness :
  exists r w', ensureRecipientIsReadyWithRetry (E := env) (C := sdp_conn) (AC := admin_conn) (RT := plain_retry)
      (Some circle_tenant) memo_wallet (dispatching []) = (Ok r, w') /\ CR_StellarMemo r = Some "42".
Proof.
  eexists _, _. split; [vm_compute; reflexivity|].
  by edestruct (payout_recipient_is_current (E := env) (C := sdp_conn) (AC := admin_conn) (RT := plain_retry)
      (Some circle_tenant) memo_wallet (dispatching [])) as (_ & _ & _ & Hm);
    [by exists 0%Z, (dbs [])|vm_compute; reflexivity|apply Hm].
Defined.
