(* ===== verification/CircleLimits.v ===== *)
(** How much is asked of Circle: the retries end, each after a number of requests that
    is known in advance. *)

From S2P Require Import Prelude GoStrings Errors StateMachine Effects Calm Transactions Retry Schema TxStore Tables.
From S2P Require Import SdpDb PaymentStore DisbursementStore Tenant Tenants PaymentPipeline CircleClient.
From S2P Require Import CircleStore CircleDispatch CircleSafety.

Local Open Scope string_scope.
Local Open Scope list_scope.
Local Open Scope go_scope.

Section limits.
Context {D L Ev : Type} {E : Env D} {C : Conn D SdpDb} {AC : Conn D AdminDb}.
Implicit Types w : World D L Ev.
Abbreviation M := (M D L Ev).

(** ** Counting events *)

Definition adds {A} (n : nat) (m : M A) : Prop :=
  forall w, (length (w_trace (snd (m w))) <= length (w_trace w) + n)%nat.

Lemma adds_quiet {A} n (m : M A) : respects same_trace m -> adds n m.
Proof. intros Hm w. specialize (Hm w). unfold same_trace in Hm. rewrite Hm. lia. Qed.

Lemma adds_le {A} n k (m : M A) : (n <= k)%nat -> adds n m -> adds k m.
Proof. intros Hle Hm w. specialize (Hm w). lia. Qed.

Lemma adds_map_err {A} n f (m : M A) : adds n m -> adds n (map_errM f m).
Proof. intros Hm w. specialize (Hm w). unfold map_errM. by destruct (m w). Qed.

Lemma adds_catch {A} n (m : M A) : adds n m -> adds n (catch_ m).
Proof. intros Hm w. specialize (Hm w). unfold catch_. by destruct (m w) as [[]]. Qed.

Lemma adds_bind {A B} n k (m : M A) (f : A -> M B) : adds n m -> (forall a, adds k (f a)) -> adds (n + k) (mbind_ m f).
Proof.
  intros Hm Hf w. specialize (Hm w). unfold mbind_. destruct (m w) as [[a|e] w1]; cbn in *; [|lia].
  specialize (Hf a w1). lia.
Qed.

(** What is asked for first is not counted. *)
Lemma adds_after {A B} n (m : M A) (f : A -> M B) :
  respects same_trace m -> (forall a, adds n (f a)) -> adds n (mbind_ m f).
Proof. intros Hm Hf. apply (adds_bind 0); [by apply adds_quiet|done]. Qed.

Lemma adds_then {A B} n (m : M A) (f : A -> M B) :
  adds n m -> (forall a, respects same_trace (f a)) -> adds n (mbind_ m f).
Proof. intros Hm Hf. rewrite <- (Nat.add_0_r n). apply adds_bind; [done|]. intros a. by apply adds_quiet. Qed.

Lemma adds_forM {A} n (f : A -> M unit) l : (forall x, adds n (f x)) -> adds (n * length l) (mforM f l).
Proof.
  intros Hf. induction l as [|x l IH]; cbn; [by apply adds_quiet, respects_ret, _|].
  replace (n * S (length l))%nat with (n + n * length l)%nat by lia. by apply adds_bind.
Qed.

(** A loop of retries makes no more attempts than it is allowed. *)
Lemma adds_retry {RT : Retry D L Ev} {A} n k again (m : M A) : adds k m -> adds (n * k) (retry_Do n again m).
Proof.
  intros Hm w. induction (retry_Do_tries n again m w) as [n w e|n w a w' Hr|n w e e' w' Hr _|n w e w1 r w' Hr _ _ _ IH];
    [lia|..]; specialize (Hm w); rewrite Hr in Hm; cbn in Hm; lia.
Qed.

End limits.

Section circle.
Context {D L Ev : Type} {E : Env D} {C : Conn D SdpDb} {AC : Conn D AdminDb}.
Context {RT : Retry D L Ev} {H : CircleHttp Ev} {J : CircleJson} {JB : Jsonb} {UU : GoogleUuid} {PF : ParseFloat}.
Context {SDK : StellarSdk} {N : Numerics} {CS : CircleSettings} {URL : NetUrl} {U : UuidGen}.
Implicit Types w : World D L Ev.
Abbreviation M := (M D L Ev).

Lemma request_adds client u method auth body :
  adds maxRequestAttempts (request client u method auth body : M HttpResponse).
Proof.
  apply adds_map_err. change maxRequestAttempts with (maxRequestAttempts * 1)%nat at 1. apply adds_retry.
  apply adds_then; [intros w; cbn; rewrite length_app; cbn; lia|]. intros _. quiet.
Qed.

Lemma call_adds {A} ctx client path method body accepted (parse : HttpResponse -> res A) :
  adds maxRequestAttempts (call ctx client path method body accepted parse : M A).
Proof.
  unfold call. apply adds_after; [quiet|]. intros u. apply adds_then; [apply adds_map_err, request_adds|]. intros resp.
  unfold refuse, handleError, DeactivateTenantDistributionAccount. quiet.
Qed.

Lemma with_client_adds {A} n (k : Client -> M A) : (forall client, adds n (k client)) -> adds n (with_client k).
Proof.
  intros Hk. apply adds_after; [|done]. unfold getClientForTenantInContext, GetDecryptedAPIKey, ClientConfig_Get. quiet.
Qed.

Lemma PostRecipient_adds ctx rr : adds maxRequestAttempts (PostRecipient ctx rr : M Recipient).
Proof. apply with_client_adds. intros client. apply adds_after; [quiet|]. intros rr'. apply call_adds. Qed.

Lemma SendPayout_adds ctx p : adds maxRequestAttempts (SendPayout ctx p : M Payout).
Proof.
  unfold SendPayout. destruct (_ <>? _); [apply adds_quiet; quiet|]. do 2 (apply adds_after; [quiet|intros ?]).
  apply with_client_adds. intros client. apply adds_after; [quiet|]. intros pr. apply call_adds.
Qed.

Lemma SendTransfer_adds ctx p : adds maxRequestAttempts (SendTransfer ctx p : M Transfer).
Proof.
  unfold SendTransfer. destruct (_ <>? _); [apply adds_quiet; quiet|]. do 2 (apply adds_after; [quiet|intros ?]).
  apply with_client_adds. intros client. apply adds_after; [quiet|]. intros pr. apply call_adds.
Qed.
(** ** The rest of the dispatchers *)

Lemma quiet_GetMemo ctx rw : respects same_trace (MemoResolver_GetMemo ctx rw : M SchemaMemo).
Proof. unfold MemoResolver_GetMemo, Organizations_Get, no_rows_as. quiet. Qed.

Lemma quiet_CR_Update id u : respects same_trace (CR_Update id u : M CircleRecipient).
Proof. unfold CR_Update, no_rows_as, GetContext. quiet. Qed.

Lemma quiet_getOrCreate rw : respects same_trace (getOrCreateRecipient rw : M CircleRecipient).
Proof. unfold getOrCreateRecipient, CR_GetByReceiverWalletID, CR_Insert, no_rows_as, GetContext. quiet. Qed.

Lemma quiet_reset ids :
  respects same_trace (on_pool (X := SdpDb) (ResetRecipientsForRetryIfNeeded ids) : M (list CircleRecipient)).
Proof. unfold ResetRecipientsForRetryIfNeeded. quiet. Qed.

Lemma quiet_GetOrInsert id : respects same_trace (CTR_GetOrInsert id : M CircleTransferRequest).
Proof.
  unfold CTR_GetOrInsert. destruct (_ =? _); [quiet|]. apply quiet_on_pool, tx_trace.
  apply get_or_insert_respects; [apply _|]. intros A q. apply quiet_stmt.
Qed.

Lemma quiet_CTR_Update key u : respects same_trace (CTR_Update key u : M CircleTransferRequest).
Proof. unfold CTR_Update, no_rows_as, GetContext. quiet. Qed.

Lemma quiet_UpdateStatus id status msg h : respects same_trace (UpdateStatus id status msg h : M unit).
Proof. unfold UpdateStatus. quiet. Qed.

Lemma quiet_circle_wallet ctx tenantID : respects same_trace (circle_wallet ctx tenantID : M string).
Proof. unfold circle_wallet, DistributionAccountFromContext, getDistributionAccount, ClientConfig_Get. quiet. Qed.

Lemma submit_adds ctx rw dr : adds maxRequestAttempts (submitRecipientToCircle ctx rw dr : M CircleRecipient).
Proof.
  apply adds_after; [apply respects_wrap, quiet_GetMemo|]. intros memo.
  apply adds_then; [apply adds_catch, PostRecipient_adds|]. intros [rcp|e]; quiet; apply quiet_CR_Update.
Qed.

Lemma ensure_adds ctx rw : adds maxRequestAttempts (ensure_once ctx rw : M CircleRecipient).
Proof.
  apply adds_then; [|intros r; quiet]. apply adds_map_err.
  apply adds_after; [apply respects_wrap, quiet_getOrCreate|]. intros dr. apply adds_after.
  - quiet. apply quiet_GetMemo.
  - intros [|]; [apply adds_quiet; quiet|]. apply adds_after; [|intros r; apply adds_map_err, submit_adds].
    unfold handleFailedRecipientIfNeeded. quiet. apply quiet_CR_Update.
Qed.

Lemma send_payout_adds ctx wid payment :
  adds (maxCircleRecipientCreationAttempts * maxRequestAttempts + maxRequestAttempts)
    (send_payout ctx wid payment : M unit).
Proof.
  apply adds_bind; [apply adds_catch, adds_map_err, adds_retry, ensure_adds|]. intros [r|e].
  - apply adds_after; [apply respects_wrap, quiet_GetOrInsert|]. intros c.
    apply adds_then; [apply adds_catch, SendPayout_adds|]. intros [payout|e].
    + unfold Payout_updateCircleTransferRequest, updatePaymentStatusForCirclePayout.
      quiet; [apply quiet_CTR_Update|apply quiet_UpdateStatus].
    + unfold mark_as_failed. quiet; [apply quiet_CR_Update|apply quiet_UpdateStatus..].
  - apply adds_quiet. unfold mark_as_failed. quiet. apply quiet_UpdateStatus.
Qed.

Lemma send_transfer_adds ctx wid payment : adds maxRequestAttempts (send_transfer ctx wid payment : M unit).
Proof.
  apply adds_after; [apply respects_wrap, quiet_GetOrInsert|]. intros c.
  apply adds_after; [apply respects_wrap, quiet_GetMemo|]. intros memo.
  apply adds_then; [apply adds_catch, SendTransfer_adds|]. intros [tr|e].
  - unfold Transfer_updateCircleTransferRequest, updatePaymentStatusForCircleTransfer.
    quiet; [apply quiet_CTR_Update|apply quiet_UpdateStatus].
  - unfold mark_as_failed. quiet. apply quiet_UpdateStatus.
Qed.

(** C10: The loops of retries of the dispatchers end, whatever Circle answers and whatever
    fails: a batch of payouts asks at most 24 times for each payment, four times for
    the payout and four for each of the five attempts to register its recipient; a
    batch of transfers at most four times for each. *)
Theorem dispatch_terminates ctx tenantID pays w :
  (length (w_trace (snd (Payout_DispatchPayments ctx tenantID pays w))) <= length (w_trace w) + 24 * length pays)%nat /\
  (length (w_trace (snd (Transfer_DispatchPayments ctx tenantID pays w))) <= length (w_trace w) + 4 * length pays)%nat.
Proof.
  assert (Hdispatch : forall n (send : string -> PaymentView -> M unit), (forall wid p, adds n (send wid p)) ->
    adds (n * length pays) (match pays with
      | [] => mret_ tt
      | _ => let! wid := circle_wallet ctx tenantID in mforM (send wid) pays
      end)).
  { intros n send Hsend. destruct pays as [|p l]; [apply adds_quiet; quiet|].
    apply adds_after; [apply quiet_circle_wallet|]. intros wid. by apply adds_forM. }
  split.
  - apply (Hdispatch 24%nat). intros wid p. apply send_payout_adds.
  - apply (Hdispatch 4%nat). intros wid p. apply send_transfer_adds.
Qed.
End circle.
