(* ===== verification/CircleOutcome.v ===== *)
(** What the synchronisation with Circle does of a request, and what it does not: a
    payment follows the status Circle has for its request, and the requests Circle has
    not settled keep their place at the head of the queue. *)

From S2P Require Import Prelude GoStrings Errors StateMachine Effects Transactions Retry Schema TxStore Tables.
From S2P Require Import SdpDb PaymentStore DisbursementStore Tenant Tenants PaymentPipeline CircleClient.
From S2P Require Import CircleStore CircleDispatch CircleSafety CirclePayoutSafety.
From S2P Require Import TenantSafety CirclePlatform.

Local Open Scope string_scope.
Local Open Scope list_scope.
Local Open Scope go_scope.

Section outcome.
Context {D L Ev : Type} {E : Env D} {C : Conn D SdpDb} {CL : ConnLaws D SdpDb}.
Context {AC : Conn D AdminDb} {AL : ConnLaws D AdminDb} {CI : ConnIndep D SdpDb AdminDb}.
Context {RT : Retry D L Ev} {H : CircleHttp Ev} {J : CircleJson} {JB : Jsonb} {UU : GoogleUuid} {PF : ParseFloat}.
Context {SDK : StellarSdk} {N : Numerics} {CS : CircleSettings} {URL : NetUrl} {U : UuidGen} {TO : TieOrder}.
Implicit Types w : World D L Ev.
Abbreviation M := (M D L Ev).
Abbreviation sdp w := (conn_get (X := SdpDb) (w_db w)).

(** ** The queue *)

(** The requests to be reconciled, when nobody holds a lock, and those of them the
    next batch may hold: fewer than ten others were certainly tried before. *)
Definition to_ask (rows : list CircleTransferRequest) : list CircleTransferRequest :=
  filter (fun c => to_reconcile (mkCtx 0 (fun _ => false)) c = true) rows.
Definition tried_before (rows : list CircleTransferRequest) (c : CircleTransferRequest) :
    list CircleTransferRequest := filter (fun d => by_last_sync c d = false) (to_ask rows).
Definition first_in_line (rows : list CircleTransferRequest) (c : CircleTransferRequest) : Prop :=
  c ∈ to_ask rows /\ length (tried_before rows c) < reconciliation_batchSize.

Lemma batch_first_in_line ctx (rows : list CircleTransferRequest) c :
  c ∈ take reconciliation_batchSize (sort_with by_last_sync (tie_order ctx (to_ask rows))) ->
  first_in_line rows c.
Proof.
  intros Hc. split.
  - apply subseteq_take in Hc. by rewrite sort_with_perm, tie_order_perm in Hc.
  - apply take_sorted_rank in Hc; [by rewrite tie_order_perm in Hc|..]; unfold by_last_sync.
    + intros a b d. destruct (CTR_LastSyncAttemptAt a), (CTR_LastSyncAttemptAt b), (CTR_LastSyncAttemptAt d);
        try done. lia.
    + intros a b. destruct (CTR_LastSyncAttemptAt a), (CTR_LastSyncAttemptAt b); try done. lia.
Qed.

Lemma filter_to_reconcile c1 c2 (rows : list CircleTransferRequest) :
  (forall k, row_locked c1 k = row_locked c2 k) ->
  filter (fun c => to_reconcile c1 c = true) rows = filter (fun c => to_reconcile c2 c = true) rows.
Proof.
  intros Hl. apply list_filter_iff. intros c. unfold to_reconcile. by rewrite Hl.
Qed.

Section quiet.
Context (rows : list CircleTransferRequest).
Definition same_requests (db : SdpDb) : Prop := circle_transfer_requests db = rows.
Context (Halone : forall t (d : D), same_requests (conn_get d) -> same_requests (conn_get (env_interfere t d))).
Context (Hlocks : forall t k, env_locked t k = false).
Abbreviation kept m := (keeps same_requests m).

(** Where the answer is known. *)
Lemma kept_bind {A B} (Q : A -> Prop) (m : M A) (k : A -> M B) :
  kept m -> (forall w a w', holds same_requests w -> m w = (Ok a, w') -> Q a) -> (forall a, Q a -> kept (k a)) ->
  kept (mbind_ m k).
Proof.
  intros Hm HQ Hk w Hw. specialize (Hm w Hw). specialize (HQ w). unfold mbind_. destruct (m w) as [[a|e] w1]; [|done].
  apply Hk; [by eapply HQ|done].
Qed.

Ltac keep :=
  repeat first
    [ apply keeps_bind; [|intros ?]
    | apply keeps_map_err | apply respects_catch | apply keeps_still
    | match goal with |- keeps _ (if ?b then _ else _) => destruct b end
    | match goal with |- keeps _ (match ?x with _ => _ end) => destruct x end
    | by apply keeps_stmt_other | by apply keeps_ask | by apply keeps_ask_res ].

Lemma kept_pool_query {A} (q : StmtCtx -> SdpDb -> res A) : kept (pool_query q : M A).
Proof using Halone. intros w Hw. unfold pool_query. destruct (env_fault _); by apply settle_carries. Qed.

Lemma kept_call {A} ctx client path method body accepted (parse : HttpResponse -> res A) :
  kept (call ctx client path method body accepted parse : M A).
Proof using Halone CI.
  unfold call. apply keeps_bind; [keep|intros u]. apply keeps_bind; [|intros resp].
  - apply keeps_map_err, keeps_map_err, respects_retry; [apply carries_preorder|].
    apply keeps_bind; [by intros w Hw|]. intros _. keep.
  - destruct (existsb _ _); [keep|]. unfold refuse, handleError, DeactivateTenantDistributionAccount. keep.
Qed.

Lemma kept_with_client {A} (k : Client -> M A) : (forall client, kept (k client)) -> kept (with_client k).
Proof using Halone.
  intros Hk. unfold with_client, getClientForTenantInContext, GetDecryptedAPIKey, ClientConfig_Get. keep;
    [apply kept_pool_query|apply Hk].
Qed.

Lemma kept_fetch ctx type id : kept (fetchCircleData ctx type id : M circleObjectData).
Proof using Halone CI.
  apply keeps_map_err. destruct (_ =? _); (apply keeps_bind; [|intros o; keep]);
    apply kept_with_client; intros client; apply kept_call.
Qed.

(** ** Requests that are not settled *)

(** Circle still has the object as pending, or it cannot be asked, by an error that is
    not the answer 400. *)
Definition unsettled (ctx : Context_) (c : CircleTransferRequest) : Prop :=
  forall type id w r w', circle_object c = Some (type, id) -> fetchCircleData ctx type id w = (r, w') ->
    match r with
    | Ok o => CO_Status o = TransferStatusPending
    | Err e => forall code, As_API e <> Some (code, 400%Z)
    end.

Lemma kept_unsettled ctx c :
  CTR_Status c = Some TransferStatusPending -> unsettled ctx c -> kept (reconcilePaymentRequest ctx c : M unit).
Proof using Halone CI.
  intros Hs Hun. unfold reconcilePaymentRequest. destruct (circle_object c) as [[type id]|] eqn:Ec; [|keep].
  apply (kept_bind (fun r => match r with
    | Ok o => CO_Status o = TransferStatusPending | Err e => forall code, As_API e <> Some (code, 400%Z) end)).
  - apply respects_catch, kept_fetch.
  - intros w r w' _ Hr. unfold catch_ in Hr. destruct (fetchCircleData _ _ _ w) as [[o|e] w1] eqn:Ef.
    + injection Hr as <- _. exact (Hun type id w (Ok o) w1 Ec Ef).
    + destruct (is_panic e); [done|]. injection Hr as <- _. exact (Hun type id w (Err e) w1 Ec Ef).
  - intros [o|e] Hr.
    + unfold updateCircleTransferRequest. rewrite Hs, Hr. change (TransferStatusPending =? TransferStatusPending) with true.
      apply (kept_bind (fun u => u = None)); [keep| |intros u ->; keep].
      intros w u w' _ Hu. by injection Hu as <- _.
    + unfold count_attempt. destruct (As_API e) as [[code status]|]; [|keep].
      destruct (Z.eqb_spec status 400) as [->|]; [by destruct (Hr code)|keep].
Qed.

Lemma kept_reconcile_all ctx batch :
  (forall c, c ∈ batch -> CTR_Status c = Some TransferStatusPending /\ unsettled ctx c) ->
  kept (reconcile_all ctx batch : M (list err)).
Proof using Halone CI.
  induction batch as [|c batch IH]; intros Hall; cbn [reconcile_all]; [keep|].
  assert (Hrest : kept (reconcile_all ctx batch : M (list err))) by (apply IH; intros c' Hc'; apply Hall; by right).
  apply keeps_bind; [|intros [[]|e]; [done|apply keeps_bind; [done|intros errs; keep]]].
  apply respects_catch, kept_unsettled; apply Hall; by left.
Qed.

Lemma kept_batch ctx :
  (forall c, first_in_line rows c -> unsettled ctx c) -> kept (reconcile_batch ctx : M (nat * list err)).
Proof using Halone Hlocks CL CI.
  intros Hun. apply (kept_bind (fun batch => forall c, c ∈ batch -> CTR_Status c = Some TransferStatusPending /\
    unsettled ctx c)).
  - apply keeps_map_err, keeps_map_err, keeps_stmt; [done|]. by intros cx x a x' Hx [= _ <-].
  - intros w batch w' Hw Hb. apply map_errM_ok, map_errM_ok, db_stmt_held in Hb as (now & x & Hb & _).
    destruct (settle_carries same_requests Halone w Hw) as [Hr _]. unfold same_requests in Hr.
    injection Hb as <- _. rewrite Hr, (filter_to_reconcile _ (mkCtx 0 (fun _ => false))) by (intros k; apply Hlocks).
    intros c Hc. apply batch_first_in_line in Hc. split; [|by apply Hun]. destruct Hc as [Hc _].
    apply list_elem_of_filter in Hc as [Hc _]. unfold to_reconcile in Hc. rewrite !andb_true_iff in Hc.
    by destruct Hc as [[Hc%bool_decide_eq_true _] _].
  - intros batch Hb. apply keeps_bind; [by apply kept_reconcile_all|]. intros errs.
    apply keeps_bind; [|intros ?; keep]. apply keeps_map_err, keeps_bind; [|intros ?; keep].
    apply keeps_map_err, keeps_stmt; [done|]. intros cx x a x' Hx Hq. unfold UpdateDisbursements in Hq.
    by apply check_disbursements_ok in Hq as (_ & -> & _).
Qed.

Lemma kept_Reconcile ctx :
  (forall c, first_in_line rows c -> unsettled ctx c) -> kept (Reconcile ctx : M unit).
Proof using Halone Hlocks CL CI.
  intros Hun. unfold Reconcile, DistributionAccountFromContext, getDistributionAccount, ClientConfig_Get.
  apply keeps_bind; [keep|intros tnt]. apply keeps_bind; [keep; apply kept_pool_query|intros account].
  do 2 (destruct (negb _); [keep|]). apply keeps_bind; [|intros [n errs]; keep].
  apply keeps_map_err, keeps_tx; [done|]. by apply kept_batch.
Qed.
End quiet.

(** C9: Requests that Circle does not settle block the queue, where this server alone
    reconciles: while no other process writes the requests or holds their rows, and
    each request that has fewer than ten others ahead of it, whatever the database
    does with ties, is pending in Circle or cannot be asked about, no run of the
    synchronisation changes any request, whether the others are settled in Circle or
    not, for as many runs as this lasts. *)
Theorem unsettled_requests_block_the_queue ctx n w
    (Halone : forall t (d : D), circle_transfer_requests (conn_get (env_interfere t d)) =
       circle_transfer_requests (conn_get d))
    (Hlocks : forall t k, env_locked t k = false)
    (Htx : w_tx w !! conn_id SdpDb = None)
    (Hun : forall c, first_in_line (circle_transfer_requests (sdp w)) c ->
       forall type id w1 r w2, circle_object c = Some (type, id) -> fetchCircleData ctx type id w1 = (r, w2) ->
       match r with
       | Ok o => CO_Status o = TransferStatusPending
       | Err e => forall code, As_API e <> Some (code, 400%Z)
       end) :
  circle_transfer_requests (sdp (snd (mforM (fun _ : nat => try_ (Reconcile ctx) ;;! mret_ tt) (seq 0 n) w)))
    = circle_transfer_requests (sdp w).
Proof using CL CI.
  set (rows := circle_transfer_requests (sdp w)) in *.
  assert (Hkept : keeps (same_requests rows)
    (mforM (fun _ : nat => try_ (Reconcile ctx) ;;! mret_ tt) (seq 0 n) : M unit)).
  { apply respects_forM; [apply carries_preorder|]. intros _. apply keeps_bind; [|intros r; apply keeps_still].
    apply respects_try, kept_Reconcile; [|done|exact Hun]. intros t d Hd. unfold same_requests. by rewrite Halone. }
  apply (Hkept w). split; [done|]. intros t Ht. congruence.
Qed.
(** ** Requests that Circle settled *)

(** Inside the transaction, what reads elsewhere leaves the tables alone. *)
Definition steady w w' : Prop := in_tx (X := SdpDb) w -> in_tx (X := SdpDb) w' /\ sdp w' = sdp w.

#[local] Instance steady_preorder : PreOrder steady.
Proof.
  split; [by intros w Hw|]. intros w1 w2 w3 H1 H2 Hw. destruct (H1 Hw) as [Hw2 E2]. destruct (H2 Hw2) as [Hw3 E3].
  split; [done|congruence].
Qed.

Lemma steady_settle w : steady w (settle w).
Proof.
  intros Htx. destruct (in_tx_settle w Htx) as [Hdb Ht]. split; [|by rewrite Hdb].
  destruct Htx as (now & saved & Htx). exists now, saved. by rewrite Ht.
Qed.

Lemma steady_admin {A} (q : Stmt AdminDb A) : respects steady (db_stmt q : M A).
Proof using CI.
  intros w Htx. destruct (steady_settle w Htx) as [(now & saved & Ht) Hdb]. split.
  - exists now, saved. rewrite <- Ht. clear Ht Hdb. pose proof (conn_id_ne (X := SdpDb) (Y := AdminDb)) as Hne.
    unfold db_stmt. destruct (w_tx w !! conn_id AdminDb) as [[[] now' saved']|]; [done|..];
      destruct (env_fault _); cbn; rewrite ?lookup_partial_alter_ne by done; try done;
      destruct (q _ _) as [[]|]; cbn; by rewrite ?lookup_partial_alter_ne by done.
  - rewrite <- Hdb. destruct (db_stmt_effect q w) as [->|(ctx & a & x' & _ & ->)]; [done|]. by rewrite conn_get_set_r.
Qed.

Lemma steady_pool {A} (q : StmtCtx -> SdpDb -> res A) : respects steady (pool_query q : M A).
Proof. intros w. unfold pool_query. destruct (env_fault _); apply steady_settle. Qed.

Ltac stead :=
  repeat first
    [ apply respects_bind; [apply _| |intros ?]
    | apply respects_map_err | apply respects_wrap | apply respects_catch
    | apply (respects_ret _) | apply (respects_throw _) | apply (respects_lift _)
    | apply steady_admin | (intros ?; apply steady_settle)
    | match goal with |- respects _ (if ?b then _ else _) => destruct b end
    | match goal with |- respects _ (match ?x with _ => _ end) => destruct x end ].

Lemma steady_call {A} ctx client path method body accepted (parse : HttpResponse -> res A) :
  respects steady (call ctx client path method body accepted parse : M A).
Proof using CI.
  unfold call. apply respects_bind; [apply _|stead|intros u]. apply respects_bind; [apply _| |intros resp].
  - do 2 apply respects_map_err. apply respects_retry; [apply _|].
    apply respects_bind; [apply _|by intros w Hw|]. intros _. apply respects_bind; [apply _| |intros r; stead].
    apply respects_map_err. intros w. apply steady_settle.
  - destruct (existsb _ _); [stead|]. unfold refuse, handleError, DeactivateTenantDistributionAccount. stead.
Qed.

Lemma steady_with_client {A} (k : Client -> M A) :
  (forall client, respects steady (k client)) -> respects steady (with_client k).
Proof.
  intros Hk. unfold with_client, getClientForTenantInContext, GetDecryptedAPIKey, ClientConfig_Get. stead.
  - apply steady_pool.
  - apply Hk.
Qed.

Lemma steady_fetch ctx type id : respects steady (fetchCircleData ctx type id : M circleObjectData).
Proof using CI.
  apply respects_map_err. destruct (_ =? _); (apply respects_bind; [apply _| |intros o; stead]);
    apply steady_with_client; intros client; apply steady_call.
Qed.
Lemma CTR_Update_in_tx key u w row w' :
  in_tx (X := SdpDb) w -> CTR_Update key u w = (Ok row, w') ->
  in_tx (X := SdpDb) w' /\ payments (sdp w') = payments (sdp w) /\
  lookup_transfer_request key (sdp w') = Some row /\
  exists old now, lookup_transfer_request key (sdp w) = Some old /\
    row = (set_transfer_update u old) <| CTR_UpdatedAt := now |>.
Proof using CL.
  unfold CTR_Update. intros Htx Hrun. destruct (_ =? _); [done|]. case_bool_decide; [done|].
  apply map_errM_ok, GetContext_in_tx in Hrun as (cx & x & Hq & -> & Htx'); [|done]. destruct (_ && _); [done|].
  destruct (UpdateTransferRequests _ _ _ _) as [[rows db']|] eqn:Eu; [|done]. injection Hq as Hhd <-.
  split; [done|]. cbn. rewrite conn_get_set. unfold UpdateTransferRequests, check_transfer_requests in Eu.
  destruct (decide _); [|done]. injection Eu as <- <-.
  set (g := fun c => (set_transfer_update u c) <| CTR_UpdatedAt := NOW cx |>) in *. split; [done|].
  assert (Hup : forall db, lookup_transfer_request key (db <| circle_transfer_requests :=
      update_where (fun c => CTR_IdempotencyKey c =? key) g (circle_transfer_requests db) |>)
    = (fun c => if CTR_IdempotencyKey c =? key then g c else c) <$> lookup_transfer_request key db)
    by (intros db; by apply first_such_update).
  specialize (Hup (sdp w)). pose proof (hd_filter (fun c => CTR_IdempotencyKey c =? key)
    (circle_transfer_requests (sdp w))) as Hf.
  unfold lookup_transfer_request in Hup |- * . destruct (filter _ _) as [|old l]; [done|]. injection Hhd as <-.
  rewrite <- Hf in Hup |- * . pose proof (proj2 (first_such_some _ _ _ (eq_sym Hf))) as Hold.
  cbn in Hold, Hup. rewrite Hold in Hup. split; [exact Hup|]. by exists old, (NOW cx).
Qed.

Lemma UpdateStatus_in_tx id status msg h w w' :
  in_tx (X := SdpDb) w -> UpdateStatus id status msg h w = (Ok tt, w') ->
  in_tx (X := SdpDb) w' /\ circle_transfer_requests (sdp w') = circle_transfer_requests (sdp w) /\
  exists p p', lookup_payment id (sdp w) = Some p /\ lookup_payment id (sdp w') = Some p' /\ Pay_Status p' = status /\
    Pay_StellarTransactionID p' = (if h =? "" then Pay_StellarTransactionID p else Some h).
Proof using CL.
  unfold UpdateStatus. intros Htx Hrun. destruct (_ =? _); [done|]. apply mbind_ok in Hrun as ([] & w1 & Hv & Hrun).
  apply map_errM_ok, lift_ok in Hv as [_ ->]. apply mbind_ok in Hrun as (rows & w1 & Hq & Hrun).
  apply map_errM_ok, db_stmt_in_tx in Hq as (cx & x & Hq & -> & Htx'); [|done].
  apply lift_ok in Hrun as [Hg ->]. split; [done|]. cbn. rewrite conn_get_set.
  set (f := fun (ctx : StmtCtx) p => _) in Hq.
  assert (Hid : forall p, Pay_ID (f cx p) = Pay_ID p) by (intros p; unfold f; by destruct (null_if_empty h)).
  apply UpdatePayments_ok in Hq as (-> & -> & _ & Hl); [|exact Hid]. split; [done|]. specialize (Hl id).
  pose proof (hd_filter (fun p => Pay_ID p =? id) (payments (sdp w))) as Hf. unfold lookup_payment in Hl |- * .
  destruct (filter _ _) as [|p l]; [done|]. rewrite <- Hf in Hl |- * . cbn in Hl.
  pose proof (proj2 (first_such_some _ _ _ (eq_sym Hf))) as Hp. rewrite Hp in Hl.
  exists p. eexists. split; [done|]. split; [exact Hl|]. unfold f, null_if_empty. by destruct (h =? "").
Qed.

(** C8: A request is settled by what Circle has of it: when the synchronisation of a request
    succeeds, either Circle's status is the one the row has, and the tables stay as
    they are; or the row takes Circle's status, is marked as completed when it is a final
    one, and its payment takes the status that stands for it
    with the hash of its transaction. *)
Theorem reconciliation_follows_circle ctx c w w'
    (Htx : in_tx (X := SdpDb) w) (Hrun : reconcilePaymentRequest ctx c w = (Ok tt, w')) :
  exists type id o w1, circle_object c = Some (type, id) /\ fetchCircleData ctx type id w = (Ok o, w1) /\
    ((CTR_Status c = Some (CO_Status o) /\ sdp w' = sdp w) \/
     (exists row s p p',
        lookup_transfer_request (CTR_IdempotencyKey c) (sdp w') = Some row /\
        CTR_Status row = Some (CO_Status o) /\
        TransferStatus_ToPaymentStatus (CO_Status o) = Ok s /\
        (s = SuccessPaymentStatus \/ s = FailedPaymentStatus) /\ CTR_CompletedAt row <> None /\
        lookup_payment (CTR_PaymentID row) (sdp w) = Some p /\
        lookup_payment (CTR_PaymentID row) (sdp w') = Some p' /\ Pay_Status p' = s /\
        Pay_StellarTransactionID p' =
          (if CO_TransactionHash o =? "" then Pay_StellarTransactionID p else Some (CO_TransactionHash o)))).
Proof using CL CI.
  unfold reconcilePaymentRequest in Hrun. destruct (circle_object c) as [[type id]|]; [|done].
  apply mbind_ok in Hrun as ([o|e] & w1 & Hf & Hrun).
  2:{ by apply mbind_ok in Hrun as (? & ? & _ & Hrun). }
  apply catch_ok in Hf. exists type, id, o, w1. split; [done|]. split; [done|].
  pose proof (steady_fetch ctx type id w) as Hs. rewrite Hf in Hs. destruct (Hs Htx) as [Htx1 Hdb]. cbn in Htx1, Hdb.
  apply mbind_ok in Hrun as (updated & w2 & Hu & Hrun). apply map_errM_ok in Hu. unfold updateCircleTransferRequest in Hu.
  destruct (CTR_Status c) as [status|] eqn:Es; [|done].
  destruct (String.eqb_spec status (CO_Status o)) as [->|Hne].
  { injection Hu as <- <-. injection Hrun as <-. by left. }
  right. apply mbind_ok in Hu as (now & w3 & Hn & Hu). injection Hn as <- <-.
  apply mbind_ok in Hu as (row & w3 & Hu & Hk). injection Hk as <- <-. apply map_errM_ok in Hu.
  destruct (steady_settle w1 Htx1) as [Htx1' Hdb1].
  apply CTR_Update_in_tx in Hu as (Htx3 & Hpay & Hl & old & now & Hold & Hrow); [|done].
  apply mbind_ok in Hrun as (s & w4 & Hst & Hrun). apply map_errM_ok, lift_ok in Hst as [Hst ->].
  apply mbind_ok in Hrun as (msg & w4 & Hmsg & Hrun). apply lift_ok in Hmsg as [Hmsg ->]. apply map_errM_ok in Hrun.
  apply UpdateStatus_in_tx in Hrun as (Htx4 & Hreq & p & p' & Hp & Hp' & Hps & Hph); [|done].
  exists row, s, p, p'.
  assert (Hfinal : CO_Status o = TransferStatusComplete \/ CO_Status o = TransferStatusFailed).
  { unfold status_message in Hmsg. destruct (String.eqb_spec (CO_Status o) TransferStatusComplete); [by left|].
    destruct (String.eqb_spec (CO_Status o) TransferStatusFailed); [by right|done]. }
  assert (Hset : CTR_Status row = Some (CO_Status o) /\ CTR_CompletedAt row <> None)
    by (subst row; destruct Hfinal as [Hc|Hc]; rewrite Hc; done).
  destruct Hset as [Hrs Hrc]. split_and!; try done.
  - unfold lookup_transfer_request in *. by rewrite Hreq.
  - destruct Hfinal as [Hc|Hc]; rewrite Hc in Hst; injection Hst as <-; auto.
  - rewrite <- Hdb, <- Hdb1. unfold lookup_payment in *. by rewrite <- Hpay.
Qed.
End outcome.

(** ** Witnesses *)

Import CircleWorld.

(** Ten requests that are pending in Circle, and one that is done there. *)
Definition queue : list CircleTransferRequest :=
  map (fun n => sent ("k" +:+ itoa (Z.of_nat n)) ("p" +:+ itoa (Z.of_nat n)) ("open" +:+ itoa (Z.of_nat n)) 0) (seq 0 10)
    ++ [sent "k10" "p10" "done" 1].

(** Circle answers, unless its configuration is missing. *)
Lemma pending_in_circle id w r w' :
  id ∈ omap CTR_CircleTransferID (take 10 queue) ->
  fetchCircleData (E := env) (C := sdp_conn) (AC := admin_conn) (RT := plain_retry) (Ev := HttpRequest) (L := unit)
    (Some circle_tenant) circleObjTypeTransfer id w = (r, w') ->
  match r with
  | Ok o => CO_Status o = TransferStatusPending
  | Err e => forall code, As_API e <> Some (code, 400%Z)
  end.
Proof.
  intros Hid.
  assert (Ha : forall key w1, exists w2, Client_GetTransferByID (E := env) (AC := admin_conn) (RT := plain_retry)
      (Ev := HttpRequest) (L := unit) (Some circle_tenant) (NewClient "testnet" key) id w1 = (Ok (transfer "pending"), w2)).
  { intros key w1. vm_compute in Hid.
    repeat (apply elem_of_cons in Hid as [->|Hid]; [eexists; reflexivity|]). by apply elem_of_nil in Hid. }
  unfold fetchCircleData, GetTransferByID, with_client, getClientForTenantInContext, GetDecryptedAPIKey,
    ClientConfig_Get, pool_query, mbind_, wrapM, map_errM.
  cbn -[Client_GetTransferByID]. destruct (head _ ≫= EncryptedAPIKey) as [key|]; cbn -[Client_GetTransferByID].
  - destruct (Ha key (settle w)) as [w2 Hw2]. cbn -[Client_GetTransferByID] in Hw2. rewrite Hw2. by intros [= <- _].
  - by intros [= <- _].
Qed.

(** The request that is done in Circle is never asked for. *)
Lemma unsettled_requests_block_the_queue_witness :
  circle_transfer_requests (conn_get (X := SdpDb) (w_db (snd (mforM (fun _ : nat =>
      try_ (Reconcile (E := env) (C := sdp_conn) (AC := admin_conn) (RT := plain_retry) (Ev := HttpRequest) (L := unit)
        (Some circle_tenant)) ;;! mret_ tt) (seq 0 20) (idle queue))))) = queue.
Proof.
  apply (unsettled_requests_block_the_queue (E := env) (C := sdp_conn) (AC := admin_conn) (RT := plain_retry)
    (Some circle_tenant) 20 (idle queue)); [done|done|done|].
  intros c Hc type id w1 r w2 Hobj.
  assert (Hin : c ∈ take 10 queue).
  { destruct Hc as [Hc Hlen]. apply list_elem_of_filter in Hc as [_ Hc].
    change (c ∈ take 10 queue ++ [sent "k10" "p10" "done" 1]) in Hc.
    apply elem_of_app in Hc as [Hc|Hc%list_elem_of_singleton]; [done|]. subst c. vm_compute in Hlen. lia. }
  assert (Ht : type = circleObjTypeTransfer /\ id ∈ omap CTR_CircleTransferID (take 10 queue)).
  { split.
    - vm_compute in Hin. repeat (apply elem_of_cons in Hin as [->|Hin]; [by injection Hobj as <- _|]). by apply elem_of_nil in Hin.
    - apply list_elem_of_omap. exists c. split; [done|]. vm_compute in Hin.
      repeat (apply elem_of_cons in Hin as [->|Hin]; [by injection Hobj as _ <-|]). by apply elem_of_nil in Hin. }
  destruct Ht as [-> Hid]. by apply pending_in_circle.
Defined.

(** A request that is done is settled, when it is asked for. *)
Lemma reconciliation_follows_circle_witness :
  exists w', reconcilePaymentRequest (E := env) (C := sdp_conn) (AC := admin_conn) (RT := plain_retry)
      (Some circle_tenant) (sent "k1" "p1" "done" 0) (dispatching [sent "k1" "p1" "done" 0]) = (Ok tt, w') /\
    exists o w1, fetchCircleData (E := env) (C := sdp_conn) (AC := admin_conn) (RT := plain_retry)
      (Some circle_tenant) circleObjTypeTransfer "done" (dispatching [sent "k1" "p1" "done" 0]) = (Ok o, w1).
Proof.
  eexists. split; [vm_compute; reflexivity|].
  edestruct (reconciliation_follows_circle (E := env) (C := sdp_conn) (AC := admin_conn) (RT := plain_retry)
    (Some circle_tenant) (sent "k1" "p1" "done" 0) (dispatching [sent "k1" "p1" "done" 0])) as (t & id & o & w1 & Ho & Hf & _);
    [by exists 0%Z, (dbs [sent "k1" "p1" "done" 0])|vm_compute; reflexivity|].
  injection Ho as <- <-. by exists o, w1.
Defined.
