(* ===== verification/Passwords.v ===== *)
(** Passwords of the staff: what [stellar-auth/pkg/utils] asks of them
    ([password_validation.go], [utils.go]) and how [stellar-auth/pkg/auth/password_encrypter.go]
    keeps them. *)

From S2P Require Import Prelude GoStrings Errors Effects ReceiverStore Validators Registration.
From Stdlib Require Import Ascii String.

Local Open Scope string_scope.
Local Open Scope list_scope.

(** ** Texts *)

(** The runes a [range] over a text goes through, as their bytes. *)
Fixpoint split_runes (fuel : nat) (l : list ascii) : list (list ascii) :=
  match fuel, l with
  | S fuel', _ :: _ => firstn (rune_width l) l :: split_runes fuel' (skipn (rune_width l) l)
  | _, _ => []
  end.

(** [string(c)]: a byte that starts no rune is U+FFFD. *)
Definition rune_text (r : list ascii) : string :=
  match r with
  | [c] => if (code c <? 128)%nat then String c "" else String "239" (String "191" (String "189" ""))
  | _ => string_of_list_ascii r
  end.

Definition runes_of (s : string) : list string :=
  map rune_text (split_runes (String.length s) (list_ascii_of_string s)).

(** The tables of the package [unicode] outside ASCII, on the text of a rune. *)
Class UnicodeTables := {
  wide_IsDigit : string -> bool;
  wide_IsPunct_or_IsSymbol : string -> bool }.

Definition ascii_special (c : ascii) : bool :=
  between 33 47 c || between 58 64 c || between 91 96 c || between 123 126 c.

Definition is_rune (p : ascii -> bool) (wide : string -> bool) (r : string) : bool :=
  match r with
  | String c EmptyString => p c
  | _ => wide r
  end.

Section runes.
Context {UT : UnicodeTables}.
Definition lower_rune : string -> bool := is_rune is_lower (fun _ => false).
Definition upper_rune : string -> bool := is_rune is_upper (fun _ => false).
Definition digit_rune : string -> bool := is_rune is_digit wide_IsDigit.
Definition special_rune : string -> bool := is_rune ascii_special wide_IsPunct_or_IsSymbol.
Definition known_rune (r : string) : bool :=
  lower_rune r || upper_rune r || digit_rune r || special_rune r.
End runes.

(** ** [password_validation.go] *)

Definition passwordMinLength : nat := 12.
Definition passwordMaxLength : nat := 36.

Record PasswordValidator := mkPasswordValidator { commonPasswordsList : gset string }.

(** From the text of the embedded file. *)
Definition newPasswordValidator (contents : string) : PasswordValidator :=
  let passwordsList := map string_of_list_ascii (split_on (Ascii.eqb "010") (list_ascii_of_string contents)) in
  mkPasswordValidator (list_to_set (map (fun p => TrimSpace (ToLower p)) passwordsList)).

Definition determineIfCommonPassword (pv : PasswordValidator) (input : string) : bool :=
  bool_decide (ToLower input ∈ commonPasswordsList pv).

Section validation.
Context {UT : UnicodeTables}.

(** The five flags and the runes that are none of the four kinds; a rune counts for
    the first kind it is of. *)
Definition hasLength (input : string) : bool :=
  (passwordMinLength <=? String.length input)%nat && (String.length input <=? passwordMaxLength)%nat.
Definition hasLower (input : string) : bool := existsb lower_rune (runes_of input).
Definition hasUpper (input : string) : bool := existsb upper_rune (runes_of input).
Definition hasDigit (input : string) : bool := existsb digit_rune (runes_of input).
Definition hasSpecial (input : string) : bool :=
  existsb (fun r => special_rune r && negb (digit_rune r)) (runes_of input).
Definition invalidCharacteres (input : string) : list string :=
  filter (fun r => negb (known_rune r) = true) (runes_of input).

Definition fail (ok : bool) (key msg : string) (m : gmap string string) : gmap string string :=
  if ok then m else <[key := msg]> m.

(** The failed validations; [None] when there are none. *)
Definition ValidatePassword (pv : PasswordValidator) (input : string) : option (gmap string string) :=
  let invalid := invalidCharacteres input in
  let m := fail (hasLower input) "lowercase" "password must contain at least one lowercase letter" ∅ in
  let m := fail (hasUpper input) "uppercase" "password must contain at least one uppercase letter" m in
  let m := fail (hasDigit input) "digit" "password must contain at least one numberical digit" m in
  let m := fail (hasSpecial input) "special character"
    "password must contain at least one special character" m in
  let m := fail (bool_decide (invalid = [])) "invalid character"
    ("password cannot contain any invalid characters ('" +:+ Join "', '" invalid +:+ "')") m in
  let m := fail (hasLength input) "length" ("password length must be between "
    +:+ itoa (Z.of_nat passwordMinLength) +:+ " and " +:+ itoa (Z.of_nat passwordMaxLength) +:+ " characters") m in
  if bool_decide (m = ∅) then
    if determineIfCommonPassword pv input
    then Some {[ "common password" := "password is determined to be too common" ]} else None
  else Some m.
End validation.

(** ** [utils.go] *)

Definition DefaultCharset := "abcdefghijklmnopqrstuvwxyzABCDEFGHIJKLMNOPQRSTUVWXYZ0123456789".
Definition SpecialCharset := "!@#$%&*+-_".
Definition PasswordCharset := DefaultCharset +:+ SpecialCharset.

Definition Auth_ValidateEmail (email : string) : res unit :=
  if email =? "" then Err (ENew "email field is required")
  else guard_err (negb (rxEmail email)) (ENew ("the provided email " +:+ quote email +:+ " is not valid")).

Section random.
Context {CR : CryptoRand} {D L Ev : Type} {E : Env D}.

Fixpoint StringWithCharset (length : nat) (charset : string) : M D L Ev string :=
  match length with
  | O => mret_ ""
  | S length' =>
    let! randomNumber := wrapM "error generating random number in StringWithCharset"
      (ask_res (fun t => rand_Int t (Z.of_nat (String.length charset)))) in
    match String.get (Z.to_nat randomNumber) charset with
    | None => throw (EExternal "runtime error: index out of range")
    | Some c => let! rest := StringWithCharset length' charset in mret_ (String c rest)
    end
  end.
End random.

(** ** [password_encrypter.go] *)

Definition MinPasswordLength : nat := 12.
Definition MaxPasswordLength : nat := 36.

Definition ErrPasswordTooShort : err :=
  ESentinel ("password should have at least " +:+ itoa (Z.of_nat MinPasswordLength) +:+ " characters").
Definition ErrPasswordTooLong : err :=
  ESentinel ("password should have at most " +:+ itoa (Z.of_nat MaxPasswordLength) +:+ " characters").

Section encrypter.
Context {B : Bcrypt} {D L Ev : Type} {E : Env D}.

(** [len] counts bytes. *)
Definition Encrypt (password : string) : M D L Ev string :=
  if (String.length password <? MinPasswordLength)%nat then throw ErrPasswordTooShort
  else if (MaxPasswordLength <? String.length password)%nat then throw ErrPasswordTooLong
  else wrapM "encrypting password" (ask_res (fun t => bcrypt_GenerateFromPassword t password)).

Definition ComparePassword (encryptedPassword password : string) : res bool :=
  match bcrypt_CompareHashAndPassword encryptedPassword password with
  | Ok _ => Ok true
  | Err e =>
    if errors_Is_err e ErrMismatchedHashAndPassword then Ok false
    else Err (EWrap "comparing encrypted password and password" e)
  end.
End encrypter.

(** ** Lemmas *)

Lemma fail_empty ok key msg m : fail ok key msg m = ∅ <-> ok = true /\ m = ∅.
Proof. destruct ok; cbn; [naive_solver|]. split; [intros H; by apply insert_non_empty in H|naive_solver]. Qed.

(** Accepted passwords meet every rule; what the encrypter asks of their length is
    one of them. *)
Lemma ValidatePassword_none {UT : UnicodeTables} pv input :
  ValidatePassword pv input = None <->
  hasLower input = true /\ hasUpper input = true /\ hasDigit input = true /\ hasSpecial input = true /\
  invalidCharacteres input = [] /\ hasLength input = true /\ ToLower input ∉ commonPasswordsList pv.
Proof.
  unfold ValidatePassword, determineIfCommonPassword. case_bool_decide as Hm.
  - rewrite !fail_empty, bool_decide_eq_true in Hm.
    destruct Hm as (H6 & H5 & H4 & H3 & H2 & H1 & _). case_bool_decide; [|done].
    split; [done|]. by intros (_ & _ & _ & _ & _ & _ & ?).
  - split; [done|]. intros (H1 & H2 & H3 & H4 & H5 & H6 & _). destruct Hm.
    rewrite !fail_empty. split_and!; try done. by apply bool_decide_eq_true.
Qed.

Lemma hasLength_spec input :
  hasLength input = true <-> MinPasswordLength <= String.length input <= MaxPasswordLength.
Proof.
  unfold hasLength, passwordMinLength, passwordMaxLength, MinPasswordLength, MaxPasswordLength.
  rewrite andb_true_iff, !Nat.leb_le. done.
Qed.

Lemma Encrypt_ok {B : Bcrypt} {BL : BcryptLaws} {D L Ev} {E : Env D} password (w w' : World D L Ev) h :
  Encrypt password w = (Ok h, w') ->
  w' = settle w /\ hasLength password = true /\ bcrypt_CompareHashAndPassword h password = Ok tt.
Proof.
  unfold Encrypt. intros H.
  destruct (Nat.ltb_spec (String.length password) MinPasswordLength); [done|].
  destruct (Nat.ltb_spec MaxPasswordLength (String.length password)); [done|].
  apply map_errM_ok in H. unfold ask_res in H. injection H as Hh <-. split; [done|].
  split; [apply hasLength_spec; lia|]. by eapply bcrypt_compare_generated.
Qed.

Module PasswordExamples.
#[export] Instance tables : UnicodeTables :=
  {| wide_IsDigit _ := false; wide_IsPunct_or_IsSymbol _ := false |}.
Definition pv : PasswordValidator := newPasswordValidator (String.concat (String "010" "") ["P@ssword1234"; "abc"]).
Example common : map (determineIfCommonPassword pv) ["p@sSword1234"; "Tr0ub4dor&3xyz"] = [true; false].
Proof. by vm_compute. Qed.
Example rules : map (fun s => (hasLower s && hasUpper s && hasDigit s && hasSpecial s && hasLength s,
    List.length (invalidCharacteres s))) ["Tr0ub4dor&3xyz"; "Tr0ub4dor& 3xyz"; "short&1A"]
  = [(true, 0); (true, 1); (false, 0)]%nat.
Proof. by vm_compute. Qed.
(** A rune of two bytes, one that is invalid, a letter. *)
Example wide_runes : List.length (runes_of (String "195" (String "169" (String "169" "a")))) = 3.
Proof. by vm_compute. Qed.
End PasswordExamples.
