(* ===== verification/Authenticator.v ===== *)
(** The users of the staff: their tables, in the database of the tenant
    ([db/migrations/auth-migrations]), the operations of
    [stellar-auth/pkg/auth/authenticator.go] and [role_manager.go] on them, and the second
    factor of a login, [mfa_manager.go]: a row per device and user holds the code that
    was sent and until when the device is remembered. *)

From S2P Require Import Prelude GoStrings Errors Effects TxStore Limiter PaymentStore ReceiverStore Validators.
From S2P Require Import Registration Passwords.
From Stdlib Require Import Ascii String.

Local Open Scope string_scope.
Local Open Scope list_scope.

(** ** Tables

    The roles are empty for a null; [is_active] is never written null. *)

Record AuthUser := mkAuthUser {
  AU_ID : string;
  AU_FirstName : string;
  AU_LastName : string;
  AU_Email : string;
  AU_EncryptedPassword : string;
  AU_Roles : list string;
  AU_IsOwner : bool;
  AU_IsActive : bool }.
#[export] Instance eta_AuthUser : Eta AuthUser := fun r =>
  mkAuthUser (AU_ID r) (AU_FirstName r) (AU_LastName r) (AU_Email r) (AU_EncryptedPassword r)
    (AU_Roles r) (AU_IsOwner r) (AU_IsActive r).

Record PasswordReset := mkPasswordReset {
  PR_Token : string;
  PR_UserID : string;
  PR_IsValid : bool;
  PR_CreatedAt : Z }.
#[export] Instance eta_PasswordReset : Eta PasswordReset := fun r =>
  mkPasswordReset (PR_Token r) (PR_UserID r) (PR_IsValid r) (PR_CreatedAt r).

Record mfaCode := mkMfaCode {
  DeviceID : string;
  MFA_UserID : string;
  MFA_Code : option string;
  DeviceExpiresAt : option Z;
  CodeExpiresAt : option Z }.
#[export] Instance eta_mfaCode : Eta mfaCode := fun r =>
  mkMfaCode (DeviceID r) (MFA_UserID r) (MFA_Code r) (DeviceExpiresAt r) (CodeExpiresAt r).

Record AuthDb := mkAuthDb {
  auth_users : list AuthUser;
  auth_user_password_reset : list PasswordReset;
  auth_user_mfa_codes : list mfaCode }.
#[export] Instance eta_AuthDb : Eta AuthDb := fun r =>
  mkAuthDb (auth_users r) (auth_user_password_reset r) (auth_user_mfa_codes r).

(** ** Constraints *)

Definition users_ok (rows : list AuthUser) : Prop :=
  NoDup (map AU_ID rows) /\
  Forall (fun u => (RuneCountInString (AU_FirstName u) <= 128)%nat /\
                   (RuneCountInString (AU_LastName u) <= 128)%nat) rows.

(** [unique_user_valid_token]: at most one valid token per user. *)
Definition valid_tokens (rows : list PasswordReset) : list PasswordReset :=
  filter (fun r => PR_IsValid r = true) rows.

Definition resets_ok (rows : list PasswordReset) : Prop :=
  NoDup (map PR_Token rows) /\ NoDup (map PR_UserID (valid_tokens rows)).

(** The key, [UNIQUE (device_id, code)] over codes that are not null, the size of a code
    and the reference to a user. *)
Definition device_codes (rows : list mfaCode) : list (string * string) :=
  omap (fun m => (fun c => (DeviceID m, c)) <$> MFA_Code m) rows.

Definition mfa_codes_ok (users : list AuthUser) (rows : list mfaCode) : Prop :=
  NoDup (map (fun m => (DeviceID m, MFA_UserID m)) rows) /\ NoDup (device_codes rows) /\
  Forall (fun m => (String.length (default "" (MFA_Code m)) <= 8)%nat /\
                   MFA_UserID m ∈ map AU_ID users) rows.

#[export] Instance users_ok_dec rows : Decision (users_ok rows).
Proof. unfold users_ok. apply _. Defined.
#[export] Instance resets_ok_dec rows : Decision (resets_ok rows).
Proof. unfold resets_ok. apply _. Defined.
#[export] Instance mfa_codes_ok_dec users rows : Decision (mfa_codes_ok users rows).
Proof. unfold mfa_codes_ok. apply _. Defined.

Definition duplicate_user_email : err := EExternal "pq: 23505 auth_users_email_key".

Definition check_users {A} (a : A) (db : AuthDb) : res (A * AuthDb) :=
  if decide (users_ok (auth_users db)) then
    if decide (NoDup (map AU_Email (auth_users db))) then Ok (a, db) else Err duplicate_user_email
  else Err (EExternal "pq: a constraint of auth_users is violated").

Definition check_resets {A} (a : A) (db : AuthDb) : res (A * AuthDb) :=
  if decide (resets_ok (auth_user_password_reset db)) then Ok (a, db)
  else Err (EExternal "pq: a constraint of auth_user_password_reset is violated").

Definition check_mfa_codes {A} (a : A) (db : AuthDb) : res (A * AuthDb) :=
  if decide (mfa_codes_ok (auth_users db) (auth_user_mfa_codes db)) then Ok (a, db)
  else Err (EExternal "pq: a constraint of auth_user_mfa_codes is violated").

(** The number of rows an update met. *)
Definition UpdateUsers (p : AuthUser -> bool) (f : AuthUser -> AuthUser) : Stmt AuthDb nat := fun _ db =>
  check_users (List.length (filter (fun u => p u = true) (auth_users db)))
    (db <| auth_users := update_where p f (auth_users db) |>).

Definition lookup_user (id : string) (db : AuthDb) : option AuthUser :=
  first_such (fun u => AU_ID u =? id) (auth_users db).
Definition lookup_reset (token : string) (db : AuthDb) : option PasswordReset :=
  first_such (fun r => PR_Token r =? token) (auth_user_password_reset db).

(** ** Users: [manager.go] *)

Record User := mkUser {
  U_ID : string;
  U_FirstName : string;
  U_LastName : string;
  U_Email : string;
  U_IsOwner : bool;
  U_IsActive : bool;
  U_Roles : list string }.
#[export] Instance eta_User : Eta User := fun r =>
  mkUser (U_ID r) (U_FirstName r) (U_LastName r) (U_Email r) (U_IsOwner r) (U_IsActive r) (U_Roles r).

Definition SanitizeAndValidate (u : User) : res User :=
  let u := u <| U_Email := TrimSpace (ToLower (U_Email u)) |> <| U_FirstName := TrimSpace (U_FirstName u) |>
             <| U_LastName := TrimSpace (U_LastName u) |> in
  if U_Email u =? "" then Err (ENew "email is required")
  else
    let? _ := wrap "email is invalid" (Auth_ValidateEmail (U_Email u)) in
    if U_FirstName u =? "" then Err (ENew "first name is required")
    else if U_LastName u =? "" then Err (ENew "last name is required")
    else Ok u.

(** ** [authenticator.go] *)

Definition ErrInvalidCredentials : err := ESentinel "invalid credentials".
Definition ErrNoRowsAffected : err := ESentinel "no rows affected".
Definition ErrInvalidResetPasswordToken : err := ESentinel "invalid reset password token".
Definition ErrExpiredResetPasswordToken : err := ESentinel "expired reset password token".
Definition ErrUserNotFound : err := ESentinel "user not found".
Definition ErrUserEmailAlreadyExists : err := ESentinel "a user with this email already exists".
Definition ErrUserHasValidToken : err := ESentinel "user has a valid token".

Definition resetTokenLength : nat := 10.
(** [INTERVAL '20 minutes'] and [time.Minute * 20]. *)
Definition resetTokenLife : Z := 20 * Minute.

(** A token that is valid and younger than its life. *)
Definition live_reset (now : Z) (r : PasswordReset) : bool :=
  PR_IsValid r && (now <? PR_CreatedAt r + resetTokenLife)%Z.

(** The trigger of the table: a new token invalidates the older ones of its user. *)
Definition insert_reset (ctx : StmtCtx) (userID token : string) (rows : list PasswordReset) :
    list PasswordReset :=
  update_where (fun r => PR_UserID r =? userID) (fun r => r <| PR_IsValid := false |>) rows
  ++ [mkPasswordReset token userID true (NOW ctx)].

Section authenticator.
Context {D L Ev : Type} {E : Env D} {AuC : Conn D AuthDb} {B : Bcrypt} {CR : CryptoRand} {U : UuidGen}.
Abbreviation M := (M D L Ev).

Definition user_of (u : AuthUser) : User :=
  mkUser (AU_ID u) (AU_FirstName u) (AU_LastName u) (AU_Email u) false false [].

Definition ValidateCredentials (email password : string) : M User :=
  let email := TrimSpace (ToLower email) in
  let! au := no_rows_as ErrInvalidCredentials "querying user"
    (GetContext (X := AuthDb) (fun _ db =>
       Ok (first_such (fun u => (AU_Email u =? email) && AU_IsActive u) (auth_users db), db))) in
  let! isEqual := wrapM "comparing password" (lift (ComparePassword (AU_EncryptedPassword au) password)) in
  if (isEqual : bool) then mret_ (user_of au) else throw ErrInvalidCredentials.

(** An empty password is replaced by a random one. *)
Definition password_or_random (password : string) : M string :=
  if password =? "" then
    let! randomNumber := wrapM "generating random number in create user"
      (ask_res (fun t => rand_Int t (Z.of_nat (MaxPasswordLength - MinPasswordLength + 1)))) in
    wrapM "generating random password string in create user"
      (StringWithCharset (Z.to_nat randomNumber + MinPasswordLength) PasswordCharset)
  else mret_ password.

Definition insert_user (user : User) (encryptedPassword : string) : Stmt AuthDb (option string) :=
  fun ctx db =>
    let id := uuid_generate ctx (List.length (auth_users db)) in
    check_users (Some id) (db <| auth_users := auth_users db ++
      [mkAuthUser id (U_FirstName user) (U_LastName user) (U_Email user) encryptedPassword
         (U_Roles user) (U_IsOwner user) true] |>).

Definition duplicate_email_as (e : err) : err :=
  match e with
  | EExternal m => if Contains m "auth_users_email_key" then ErrUserEmailAlreadyExists
                   else EWrap "inserting user" e
  | _ => EWrap "inserting user" e
  end.

Definition CreateUser (user : User) (password : string) : M User :=
  let! user := wrapM "validating user fields" (lift (SanitizeAndValidate user)) in
  let! password := password_or_random password in
  let! encryptedPassword := wrapM "encrypting password" (Encrypt password) in
  let! userID := map_errM duplicate_email_as
    (GetContext (X := AuthDb) (insert_user user encryptedPassword)) in
  mret_ (user <| U_ID := userID |> <| U_IsActive := true |>).

(** [RowsAffected() == 0]. *)
Definition affected (m : M nat) : M unit :=
  let! n := m in if (n =? 0)%nat then throw ErrNoRowsAffected else mret_ tt.

Definition set_user_fields (firstName lastName email : string) (encryptedPassword : option string) (u : AuthUser) : AuthUser :=
  let u := if firstName <>? "" then u <| AU_FirstName := firstName |> else u in
  let u := if lastName <>? "" then u <| AU_LastName := lastName |> else u in
  let u := if email <>? "" then u <| AU_Email := email |> else u in
  match encryptedPassword with Some h => u <| AU_EncryptedPassword := h |> | None => u end.

Definition UpdateUser (id firstName lastName email password : string) : M unit :=
  let firstName := TrimSpace firstName in
  let lastName := TrimSpace lastName in
  let email := TrimSpace (ToLower email) in
  if (firstName =? "") && (lastName =? "") && (email =? "") && (password =? "")
  then throw (ENew "provide at least one of these values: firstName, lastName, email or password")
  else
    (if email <>? "" then wrapM "validating email" (lift (Auth_ValidateEmail email)) else mret_ tt) ;;!
    let! encryptedPassword :=
      (if password <>? "" then (let! h := wrapM "encrypting password" (Encrypt password) in mret_ (Some h))
       else mret_ None) in
    affected (wrapM "updating user in the database" (db_stmt (UpdateUsers (fun u => AU_ID u =? id)
      (set_user_fields firstName lastName email encryptedPassword)))).

Definition updateIsActive (userID : string) (isActive : bool) : M unit :=
  affected (wrapM ("error updating is_active for user ID " +:+ userID)
    (db_stmt (UpdateUsers (fun u => AU_ID u =? userID) (fun u => u <| AU_IsActive := isActive |>)))).

Definition ActivateUser (userID : string) : M unit :=
  wrapM ("error activating user ID " +:+ userID) (updateIsActive userID true).
Definition DeactivateUser (userID : string) : M unit :=
  wrapM ("error deactivating user ID " +:+ userID) (updateIsActive userID false).

(** [SELECT EXISTS ...]: the join of the tokens with the user of the email. *)
Definition has_live_reset (email : string) : Stmt AuthDb bool := fun ctx db =>
  Ok (existsb (fun r => live_reset (NOW ctx) r &&
        existsb (fun u => (AU_ID u =? PR_UserID r) && (AU_Email u =? email)) (auth_users db))
      (auth_user_password_reset db), db).

(** [INSERT ... SELECT]: a row for the user of the email, who is unique. *)
Definition insert_reset_for (email token : string) : Stmt AuthDb nat := fun ctx db =>
  match first_such (fun u => AU_Email u =? email) (auth_users db) with
  | None => Ok (0%nat, db)
  | Some u => check_resets 1%nat (db <| auth_user_password_reset :=
      insert_reset ctx (AU_ID u) token (auth_user_password_reset db) |>)
  end.

Definition ForgotPassword (email : string) : M string :=
  let email := TrimSpace (ToLower email) in
  if email =? "" then throw (ENew "generating user reset password token: email field is required")
  else
    let! resetToken := wrapM "generating random reset token in forgot password"
      (StringWithCharset resetTokenLength DefaultCharset) in
    let! hasValidToken := wrapM "checking if user has valid token" (db_stmt (has_live_reset email)) in
    if (hasValidToken : bool) then throw ErrUserHasValidToken
    else
      let! rowsAffected := wrapM "inserting user reset password token in the database"
        (db_stmt (insert_reset_for email resetToken)) in
      if (rowsAffected =? 0)%nat then throw ErrUserNotFound else mret_ resetToken.

Definition invalidateResetPasswordToken (resetToken : string) : M unit :=
  wrapM "error invalidating reset password token in the database" (db_stmt (fun _ db =>
    check_resets tt (db <| auth_user_password_reset := update_where (fun r => PR_Token r =? resetToken)
      (fun r => r <| PR_IsValid := false |>) (auth_user_password_reset db) |>))).

(** The transaction of [ResetPassword]. *)
Definition reset_password_body (resetToken password : string) : M unit :=
  let! aupr := no_rows_as ErrInvalidResetPasswordToken
    "error searching password reset token for user in database"
    (GetContext (X := AuthDb) (fun _ db =>
       Ok (first_such (fun r => (PR_Token r =? resetToken) && PR_IsValid r) (auth_user_password_reset db), db))) in
  let! now := ask env_now in
  if (PR_CreatedAt aupr + resetTokenLife <? now)%Z then throw ErrExpiredResetPasswordToken
  else
    let! encryptedPassword := wrapM "error trying to encrypt user password" (Encrypt password) in
    wrapM "error reseting user password in the database" (db_stmt (UpdateUsers
      (fun u => AU_ID u =? PR_UserID aupr) (fun u => u <| AU_EncryptedPassword := encryptedPassword |>))) ;;!
    wrapM "error invalidating reset password token" (invalidateResetPasswordToken resetToken).

Definition ResetPassword (resetToken password : string) : M unit :=
  RunInTransaction (X := AuthDb) (reset_password_body resetToken password).

(** A use of a user that panics when there is none. *)
Definition deref (user : option User) : M User :=
  match user with Some u => mret_ u | None => throw nil_dereference end.

Definition UpdatePassword (user : option User) (currentPassword newPassword : string) : M unit :=
  if (currentPassword =? "") || (newPassword =? "")
  then throw (ENew "provide currentPassword and newPassword values")
  else
    let! user := deref user in
    wrapM "validating credentials" (ValidateCredentials (U_Email user) currentPassword) ;;!
    let! encryptedPassword := wrapM "encrypting password" (Encrypt newPassword) in
    affected (wrapM "updating user password in the database" (db_stmt (UpdateUsers
      (fun u => AU_ID u =? U_ID user) (fun u => u <| AU_EncryptedPassword := encryptedPassword |>)))).

Definition full_user (u : AuthUser) : User :=
  mkUser (AU_ID u) (AU_FirstName u) (AU_LastName u) (AU_Email u) (AU_IsOwner u) (AU_IsActive u) (AU_Roles u).

Definition GetAllUsers : M (list User) :=
  wrapM "error querying all users in the database" (db_stmt (fun _ db => Ok (map full_user (auth_users db), db))).

Definition GetUser (userID : string) : M User :=
  let! u := no_rows_as ErrUserNotFound ("error querying user ID " +:+ userID)
    (GetContext (X := AuthDb) (fun _ db =>
       Ok (first_such (fun u => (AU_ID u =? userID) && AU_IsActive u) (auth_users db), db))) in
  mret_ (mkUser userID (AU_FirstName u) (AU_LastName u) (AU_Email u) false false []).

Definition GetUsers (userIDs : list string) (activeOnly : bool) : M (list User) :=
  match userIDs with
  | [] => mret_ []
  | _ =>
    let! dbUsers := wrapM "querying user IDs" (db_stmt (fun _ db => Ok (filter (fun u =>
      slices_Contains userIDs (AU_ID u) && (negb activeOnly || AU_IsActive u) = true) (auth_users db), db))) in
    mret_ (map (fun u => mkUser (AU_ID u) (AU_FirstName u) (AU_LastName u) "" false false []) dbUsers)
  end.

(** ** [role_manager.go] *)

Definition defaultOwnerRoleName := "owner".

Section roles.
Context (ownerRoleName : string).

Definition getUserRolesInfo (user : User) : M (list string * bool) :=
  map_errM (fun e => EWrap ("error querying user ID " +:+ U_ID user +:+ " roles")
      (if errors_Is e sql_ErrNoRows then ErrUserNotFound else e))
    (GetContext (X := AuthDb) (fun _ db =>
       Ok ((fun u => (AU_Roles u, AU_IsOwner u)) <$> lookup_user (U_ID user) db, db))).

(** The roles of an owner are the one. *)
Definition GetUserRoles (user : User) : M (list string) :=
  let! (roles, isOwner) := wrapM "getting user roles info from the database" (getUserRolesInfo user) in
  mret_ (if (isOwner : bool) then [ownerRoleName] else roles).

Definition HasAllRoles (user : User) (roleNames : list string) : M bool :=
  let! userRoles := wrapM "getting user roles" (GetUserRoles user) in
  mret_ (forallb (slices_Contains userRoles) roleNames).

Definition HasAnyRoles (user : User) (roleNames : list string) : M bool :=
  let! userRoles := wrapM "getting user roles" (GetUserRoles user) in
  mret_ (existsb (slices_Contains userRoles) roleNames).

Definition IsSuperUser (user : User) : M bool :=
  let! (_, isOwner) := wrapM "getting user roles info from the database" (getUserRolesInfo user) in
  mret_ isOwner.

Definition UpdateRoles (user : User) (roleNames : list string) : M unit :=
  affected (wrapM ("error updating user roles ID " +:+ U_ID user +:+ " roles")
    (db_stmt (UpdateUsers (fun u => AU_ID u =? U_ID user) (fun u => u <| AU_Roles := roleNames |>)))).
End roles.
End authenticator.

Local Open Scope string_scope.
Local Open Scope list_scope.

Definition mfaCodeMaxLength : nat := 6.
Definition mfaDeviceExpiryHours : Z := 7 * Day.
Definition mfaCodeExpiryMinutes : Z := 5 * Minute.

Definition ErrMFACodeInvalid : err := ESentinel "MFA code is invalid".
Definition ErrMFANoCodeForUserDevice : err := ESentinel "no MFA code for user and device".

(** The two conditions the statements have. *)
Definition of_device_and_user (deviceID userID : string) (m : mfaCode) : bool :=
  (DeviceID m =? deviceID) && (MFA_UserID m =? userID).
Definition of_device_and_code (deviceID code : string) (m : mfaCode) : bool :=
  (DeviceID m =? deviceID) && bool_decide (MFA_Code m = Some code).

Definition UpdateMfaCodes (p : mfaCode -> bool) (f : mfaCode -> mfaCode) : Stmt AuthDb unit := fun _ db =>
  check_mfa_codes tt (db <| auth_user_mfa_codes := update_where p f (auth_user_mfa_codes db) |>).

(** [INSERT ... ON CONFLICT (auth_user_id, device_id) DO UPDATE]. *)
Definition upsert_code (deviceID userID code : string) (expiresAt : Z) (rows : list mfaCode) : list mfaCode :=
  if existsb (of_device_and_user deviceID userID) rows
  then update_where (of_device_and_user deviceID userID)
         (fun m => m <| MFA_Code := Some code |> <| CodeExpiresAt := Some expiresAt |>) rows
  else rows ++ [mkMfaCode deviceID userID (Some code) None (Some expiresAt)].

Section mfa.
Context {D L Ev : Type} {E : Env D} {AuC : Conn D AuthDb} {CR : CryptoRand}.
Abbreviation M := (M D L Ev).

Definition getByDeviceAndUser (deviceID userID : string) : M mfaCode :=
  if (deviceID =? "") || (userID =? "") then throw (ENew "device ID and user ID are required")
  else no_rows_as ErrMFANoCodeForUserDevice
    ("error fetching MFA code for device ID " +:+ deviceID +:+ " and user ID " +:+ userID)
    (GetContext (X := AuthDb) (fun _ db =>
       Ok (first_such (of_device_and_user deviceID userID) (auth_user_mfa_codes db), db))).

Definition getByDeviceAndCode (deviceID code : string) : M mfaCode :=
  if (deviceID =? "") || (code =? "") then throw (ENew "device ID and code are required")
  else no_rows_as ErrMFANoCodeForUserDevice ("error fetching MFA code for device ID " +:+ deviceID)
    (GetContext (X := AuthDb) (fun _ db =>
       Ok (first_such (of_device_and_code deviceID code) (auth_user_mfa_codes db), db))).

Definition MFADeviceRemembered (deviceID userID : string) : M bool :=
  let! found := try_ (getByDeviceAndUser deviceID userID) in
  match found with
  | Err e =>
    if errors_Is_err e ErrMFANoCodeForUserDevice then mret_ false
    else throw (EWrap ("error validating MFA device for token string " +:+ userID +:+ " and device ID "
                  +:+ deviceID) e)
  | Ok mc =>
    match DeviceExpiresAt mc with
    | None => mret_ false
    | Some expiresAt => let! now := ask env_now in mret_ (negb (expiresAt <? now)%Z)
    end
  end.

Fixpoint generate_digits (n : nat) : M string :=
  match n with
  | O => mret_ ""
  | S n' =>
    let! randomDigit := wrapM "error generating random digit for MFA code" (ask_res (fun t => rand_Int t 10)) in
    let! rest := generate_digits n' in
    mret_ (itoa randomDigit +:+ rest)
  end.
Definition generateMFACode : M string := generate_digits mfaCodeMaxLength.

Definition upsertMFACode (deviceID userID code : string) : M unit :=
  if (deviceID =? "") || (userID =? "") || (code =? "")
  then throw (ENew "device ID, user ID and code are required")
  else
    let! now := ask env_now in
    wrapM ("error upserting MFA code for user ID " +:+ userID +:+ " and device ID " +:+ deviceID)
      (db_stmt (X := AuthDb) (fun _ db => check_mfa_codes tt (db <| auth_user_mfa_codes :=
         upsert_code deviceID userID code (now + mfaCodeExpiryMinutes) (auth_user_mfa_codes db) |>))).

Definition generateAndUpdateMFACode (deviceID userID : string) : M string :=
  let context := " MFA code for user ID " +:+ userID +:+ " and device ID " +:+ deviceID in
  let! code := wrapM ("error generating" +:+ context) generateMFACode in
  wrapM ("error updating" +:+ context) (upsertMFACode deviceID userID code) ;;!
  mret_ code.

Definition expireMFACode (deviceID code : string) : M unit :=
  if (deviceID =? "") || (code =? "") then throw (ENew "device ID and code are required")
  else wrapM ("error expiring MFA code for device ID " +:+ deviceID +:+ " and code " +:+ code)
    (db_stmt (UpdateMfaCodes (of_device_and_code deviceID code)
      (fun m => m <| MFA_Code := None |> <| CodeExpiresAt := None |>))).

(** The code that stays when it expires just now, or without an expiry, gives the empty
    text. *)
Definition GenerateMFACode (deviceID userID : string) : M string :=
  let! found := try_ (getByDeviceAndUser deviceID userID) in
  match found with
  | Err e =>
    if errors_Is_err e ErrMFANoCodeForUserDevice then generateAndUpdateMFACode deviceID userID
    else throw (EWrap ("error validating MFA device for user ID " +:+ userID +:+ " and device ID " +:+ deviceID) e)
  | Ok mc =>
    let code := default "" (MFA_Code mc) in
    if code =? "" then generateAndUpdateMFACode deviceID userID
    else
      match CodeExpiresAt mc with
      | None => mret_ ""
      | Some expiresAt =>
        let! now := ask env_now in
        if (expiresAt <? now)%Z then generateAndUpdateMFACode deviceID userID
        else
          let! now := ask env_now in
          if (now <? expiresAt)%Z then
            wrapM ("expiring MFA code for device ID " +:+ deviceID +:+ " and code " +:+ code)
              (expireMFACode deviceID code) ;;!
            generateAndUpdateMFACode deviceID userID
          else mret_ ""
      end
  end.

(** The body of the transaction, all of it on the connection pool. *)
Definition validate_code (deviceID code : string) : M string :=
  let! found := try_ (getByDeviceAndCode deviceID code) in
  match found with
  | Err e =>
    if errors_Is_err e ErrMFANoCodeForUserDevice then throw ErrMFACodeInvalid
    else throw (EWrap ("error validating MFA code for device ID " +:+ deviceID) e)
  | Ok mc =>
    match CodeExpiresAt mc with
    | None => throw ErrMFACodeInvalid
    | Some expiresAt =>
      if default "" (MFA_Code mc) =? code then
        let! now := ask env_now in
        if (now <? expiresAt)%Z then
          wrapM ("error expiring MFA code for device ID " +:+ deviceID +:+ " and code " +:+ code)
            (expireMFACode deviceID code) ;;!
          mret_ (MFA_UserID mc)
        else throw ErrMFACodeInvalid
      else throw ErrMFACodeInvalid
    end
  end.

Definition ValidateMFACode (deviceID code : string) : M string :=
  RunInTransactionWithResult (X := AuthDb) (beside_idle (X := AuthDb) (validate_code deviceID code)).

Definition resetDeviceExpiry (deviceID code : string) : M unit :=
  if (deviceID =? "") || (code =? "") then throw (ENew "device ID and code are required")
  else
    let! now := ask env_now in
    wrapM ("error updating device expiry for device ID " +:+ deviceID +:+ " and code " +:+ code)
      (db_stmt (UpdateMfaCodes (of_device_and_code deviceID code)
        (fun m => m <| DeviceExpiresAt := Some (now + mfaDeviceExpiryHours)%Z |>))).

Definition RememberDevice (deviceID code : string) : M unit :=
  wrapM ("error updating device expiry for device ID " +:+ deviceID +:+ " and code " +:+ code)
    (resetDeviceExpiry deviceID code).

Definition ForgetDevice (deviceID userID : string) : M unit :=
  if (deviceID =? "") || (userID =? "") then throw (ENew "device ID and user ID are required")
  else wrapM ("error expiring device for device ID " +:+ deviceID +:+ " and user ID " +:+ userID)
    (db_stmt (UpdateMfaCodes (of_device_and_user deviceID userID)
      (fun m => m <| DeviceExpiresAt := None |>))).
End mfa.
