(* ===== verification/AuthManager.v ===== *)
(** Tokens and the manager of authentications: [stellar-auth/pkg/auth/jwt_manager.go] and
    [auth.go], where the package of the tokens is a parameter; and the roles of the staff,
    [internal/data/roles.go]. *)

From S2P Require Import Prelude GoStrings Errors Effects TxStore Limiter PaymentStore ReceiverStore Registration.
From S2P Require Import Tenant Passwords Authenticator.
From Stdlib Require Import Ascii String.
From Stdlib Require Import String.

Local Open Scope string_scope.
Local Open Scope list_scope.

(** ** [jwt_manager.go] *)

Definition ErrInvalidToken : err := ESentinel "invalid token".
Definition tokenRefreshWindow : Z := 3.

(** [ExpiresAt] is of [jwt.RegisteredClaims]. *)
Record claims := mkClaims {
  Claims_User : option User;
  Claims_TenantID : string;
  Claims_ExpiresAt : option Z }.

(** How [ParseWithClaims] fails: with an error that is no [ValidationError], with one
    that only says the key could not be had, with another one. *)
Inductive ParseFailure :=
  | NotValidation (e : err)
  | Unverifiable (e : err)
  | OtherValidation (e : err).

(** Parsing checks the signature with the public key and the expiry at the time given. *)
Class JwtLibrary := {
  ECPrivateKey : Type;
  ParseECPrivateKeyFromPEM : string -> res ECPrivateKey;
  ParseWithClaims : Z -> string -> string -> result ParseFailure claims;
  SignedString : nat -> ECPrivateKey -> claims -> res string }.

(** Times in a token are whole seconds. *)
Definition NewNumericDate (t : Z) : Z := (t / Second * Second)%Z.

(** What the JSON of a user keeps. *)
Definition json_user (u : User) : User := u <| U_IsOwner := false |>.

(** The parts of the manager that are settings. *)
Record AuthSettings := mkAuthSettings {
  publicKey : string;
  privateKey : string;
  expirationTimeInMinutes : Z;
  ownerRoleName : string }.

Section manager.
Context {D L Ev : Type} {E : Env D} {AuC : Conn D AuthDb} {B : Bcrypt} {CR : CryptoRand} {U : UuidGen}
  {J : JwtLibrary} (am : AuthSettings).
Abbreviation M := (M D L Ev).

Definition parse_result (r : result ParseFailure claims) : res claims :=
  match r with
  | Ok c => Ok c
  | Err (NotValidation e) => Err (EWrap "parsing token" e)
  | Err (Unverifiable e) => Err (EWrap "invalid key" e)
  | Err (OtherValidation _) => Err ErrInvalidToken
  end.

Definition parseToken (tokenString : string) : M claims :=
  let! now := ask env_now in
  lift (parse_result (ParseWithClaims now (publicKey am) tokenString)).

(** Without a tenant in the context the token has none. *)
Definition GenerateToken (ctx : Context_) (user : option User) (expiresAt : Z) : M string :=
  let! esPrivateKey := wrapM "parsing EC Private Key" (lift (ParseECPrivateKeyFromPEM (privateKey am))) in
  wrapM "signing token" (ask_res (fun t => SignedString t esPrivateKey
    (mkClaims (json_user <$> user) (default "" (Ten_ID <$> ctx)) (Some (NewNumericDate expiresAt))))).

Definition jwt_RefreshToken (ctx : Context_) (tokenString : string) (expiresAt : Z) : M string :=
  let! c := wrapM "parsing token to be refreshed" (parseToken tokenString) in
  match Claims_ExpiresAt c with
  | None => throw nil_dereference
  | Some exp =>
    let! now := ask env_now in
    if (tokenRefreshWindow * Minute <? exp - now)%Z then mret_ tokenString
    else wrapM "generating new refreshed token" (GenerateToken ctx (Claims_User c) expiresAt)
  end.

Definition jwt_ValidateToken (tokenString : string) : M bool :=
  let! parsed := try_ (parseToken tokenString) in
  match parsed with
  | Ok _ => mret_ true
  | Err e => if errors_Is_err e ErrInvalidToken then mret_ false
             else throw (EWrap "parsing token to be validated" e)
  end.

Definition GetUserFromToken (tokenString : string) : M (option User) :=
  let! c := wrapM "parsing token to be validated" (parseToken tokenString) in mret_ (Claims_User c).

Definition GetTenantIDFromToken (tokenString : string) : M string :=
  let! c := wrapM "parsing token to be validated" (parseToken tokenString) in mret_ (Claims_TenantID c).

(** ** [auth.go] *)

Definition ValidateToken (tokenString : string) : M bool :=
  wrapM "validating token" (jwt_ValidateToken tokenString).

(** The two checks every operation of a token starts with. *)
Definition require_token (tokenString : string) : M unit :=
  let! isValid := wrapM "validating token" (ValidateToken tokenString) in
  if (isValid : bool) then mret_ tt else throw ErrInvalidToken.

Definition generateToken (ctx : Context_) (user : User) : M string :=
  let! roles := wrapM "error getting user roles" (GetUserRoles (ownerRoleName am) user) in
  let! now := ask env_now in
  wrapM "generating token"
    (GenerateToken ctx (Some (user <| U_Roles := roles |>)) (now + expirationTimeInMinutes am)).

Definition Authenticate (ctx : Context_) (email pass : string) : M string :=
  let! user := wrapM "validating credentials" (ValidateCredentials email pass) in
  generateToken ctx user.

Definition RefreshToken (ctx : Context_) (tokenString : string) : M string :=
  require_token tokenString ;;!
  let! now := ask env_now in
  wrapM "generating new refreshed token"
    (jwt_RefreshToken ctx tokenString (now + expirationTimeInMinutes am)).

Definition user_of_token (p : string) (tokenString : string) : M (option User) :=
  require_token tokenString ;;! wrapM p (GetUserFromToken tokenString).

Definition AllRolesInTokenUser (tokenString : string) (roleNames : list string) : M bool :=
  let! user := user_of_token "error getting user from token" tokenString in
  let! user := deref user in
  wrapM "error validating user roles" (HasAllRoles (ownerRoleName am) user roleNames).

Definition AnyRolesInTokenUser (tokenString : string) (roleNames : list string) : M bool :=
  let! user := user_of_token "error getting user from token" tokenString in
  let! user := deref user in
  wrapM "error validating user roles" (HasAnyRoles (ownerRoleName am) user roleNames).

Definition Manager_CreateUser (user : User) (password : string) : M User :=
  wrapM "creating user" (CreateUser user password).

Definition Manager_UpdateUser (tokenString firstName lastName email password : string) : M unit :=
  let! user := user_of_token "getting user from token" tokenString in
  let! user := deref user in
  wrapM "error updating user" (UpdateUser (U_ID user) firstName lastName email password).

Definition Manager_ForgotPassword (email : string) : M string :=
  map_errM (fun e => if errors_Is_err e ErrUserNotFound
                     then EWrap "user not found in auth forgot password" e
                     else EWrap "calling authenticator's ForgotPassword" e) (ForgotPassword email).

Definition Manager_ResetPassword (resetToken newPassword : string) : M unit :=
  map_errM (fun e => if errors_Is_err e ErrInvalidResetPasswordToken
                     then EWrap "invalid token in auth reset password" e
                     else EWrap "error on reset password" e) (ResetPassword resetToken newPassword).

Definition Manager_UpdatePassword (tokenString currentPassword newPassword : string) : M unit :=
  let! user := user_of_token "getting user from token" tokenString in
  wrapM "updating password" (UpdatePassword user currentPassword newPassword).

Definition Manager_ActivateUser (tokenString userID : string) : M unit :=
  require_token tokenString ;;! wrapM ("error activating user ID " +:+ userID) (ActivateUser userID).

Definition Manager_DeactivateUser (tokenString userID : string) : M unit :=
  require_token tokenString ;;! wrapM ("error deactivating user ID " +:+ userID) (DeactivateUser userID).

Definition UpdateUserRoles (tokenString userID : string) (roles : list string) : M unit :=
  require_token tokenString ;;!
  wrapM "error updating user roles" (UpdateRoles (mkUser userID "" "" "" false false []) roles).

Definition Manager_GetAllUsers (tokenString : string) : M (list User) :=
  require_token tokenString ;;! wrapM "error getting all users" GetAllUsers.

Definition getUserFromToken (tokenString : string) : M (option User) :=
  user_of_token "getting user from token" tokenString.

Definition GetUsersByID (userIDs : list string) (activeOnly : bool) : M (list User) :=
  wrapM "getting user with IDs" (GetUsers userIDs activeOnly).

(** Any error is a user that is not found. *)
Definition GetUserByID (userID : string) : M User :=
  map_errM (fun _ => ErrUserNotFound) (GetUser userID).

Definition GetTenantID (tokenString : string) : M string :=
  require_token tokenString ;;!
  wrapM "getting tenant ID from token" (GetTenantIDFromToken tokenString).

Definition GetUserID (tokenString : string) : M string :=
  let! tokenUser := getUserFromToken tokenString in
  let! tokenUser := deref tokenUser in
  mret_ (U_ID tokenUser).

Definition Manager_GetUser (tokenString : string) : M User :=
  let! tokenUser := wrapM "getting user from token" (getUserFromToken tokenString) in
  let! tokenUser := deref tokenUser in
  let! user := wrapM ("getting user ID " +:+ U_ID tokenUser) (GetUser (U_ID tokenUser)) in
  let! roles := wrapM ("getting user ID " +:+ U_ID tokenUser +:+ " roles")
    (GetUserRoles (ownerRoleName am) user) in
  mret_ (user <| U_Roles := roles |>).

Definition GetMFACode (deviceID userID : string) : M string := GenerateMFACode deviceID userID.

Definition AuthenticateMFA (ctx : Context_) (deviceID code : string) (rememberMe : bool) : M string :=
  (if rememberMe then wrapM ("error remembering device ID " +:+ deviceID) (RememberDevice deviceID code)
   else mret_ tt) ;;!
  let! userID := wrapM "error validating MFA code" (ValidateMFACode deviceID code) in
  let! user := wrapM ("error getting user ID " +:+ userID) (GetUser userID) in
  generateToken ctx user.
End manager.

(** The tokens of a pair of keys: what is signed is what is parsed, until it expires. *)
Class KeyPair {J : JwtLibrary} (am : AuthSettings) := {
  parse_signed : forall k t now c c' s, ParseECPrivateKeyFromPEM (privateKey am) = Ok k ->
    SignedString t k c = Ok s -> ParseWithClaims now (publicKey am) s = Ok c' -> c' = c;
  parse_unexpired : forall now s c exp, ParseWithClaims now (publicKey am) s = Ok c ->
    Claims_ExpiresAt c = Some exp -> (now < exp)%Z }.

Local Open Scope string_scope.
Local Open Scope list_scope.

Definition OwnerUserRole := "owner".
Definition FinancialControllerUserRole := "financial_controller".
Definition DeveloperUserRole := "developer".
Definition BusinessUserRole := "business".
Definition InitiatorUserRole := "initiator".
Definition ApproverUserRole := "approver".
Definition UploaderUserRole := "uploader".
Definition FinanceOfficerUserRole := "finance_officer".

Definition GetAllRoles : list string :=
  [OwnerUserRole; FinancialControllerUserRole; DeveloperUserRole; BusinessUserRole; InitiatorUserRole;
   ApproverUserRole; UploaderUserRole; FinanceOfficerUserRole].

Definition UserRole_IsValid (u : string) : bool :=
  slices_Contains [OwnerUserRole; FinancialControllerUserRole; DeveloperUserRole; BusinessUserRole;
    InitiatorUserRole; ApproverUserRole; UploaderUserRole; FinanceOfficerUserRole] u.

Definition GetBusinessOperationRoles : list string :=
  [OwnerUserRole; FinancialControllerUserRole; BusinessUserRole; InitiatorUserRole; ApproverUserRole;
   UploaderUserRole; FinanceOfficerUserRole].

Definition ValidateRoleMutualExclusivity (roles : list string) : res unit :=
  guard_err (slices_Contains roles InitiatorUserRole && slices_Contains roles ApproverUserRole)
    (ENew "initiator and approver roles are mutually exclusive").
