(* ===== verification/AuthHandlers.v ===== *)
(** The requests of the staff about themselves and about users: the login and its second
    factor, passwords and tokens ([httphandler/login_handler.go], [mfa_handler.go],
    [forgot_password_handler.go], [reset_password_handler.go], [refresh_token_handler.go],
    [user_handler.go], the profile of [profile_handler.go]), [IsMFADisabled] of
    [auth_utils.go] and the invitation of [services/send_invitation_message.go]. *)

From S2P Require Import Prelude GoStrings Errors Effects TxStore Limiter PaymentStore ReceiverStore SdpDb.
From S2P Require Import DisbursementStore Messages Validators Registration Tenant Tenants AuthManager Passwords.
From S2P Require Import Authenticator.
From Stdlib Require Import Ascii String.

Local Open Scope string_scope.
Local Open Scope list_scope.

(** ** Messages to the staff *)

Definition MessageTypeUserForgotPassword := "user_forgot_password".
Definition MessageTypeUserMFA := "user_mfa".
Definition MessageTypeUserInvitation := "user_invitation".

(** The client of the emails to the staff. *)
Class StaffMessenger := {
  messenger_Type : string;
  messenger_SendMessage : nat -> Message -> res unit }.

(** [html/template] over the embedded files: they parse, and a template by its name is
    executed on named values. *)
Class EmbeddedTemplates := {
  parsed_templates : res (string -> list (string * string) -> res string) }.

(** [url.Parse] with [path.Join]: the text of a URL with a segment joined to its path
    and the query [token] set to a value. *)
Class TokenLinks := { url_with_token : string -> string -> string -> res string }.

Section templates.
Context {ET : EmbeddedTemplates}.

Definition ExecuteHTMLTemplate (templateName : string) (data : list (string * string)) : res string :=
  let? execute := wrap "error parsing embedded template files" parsed_templates in
  wrap "executing html template" (execute templateName data).

Definition StaffMFAEmailMessage (MFACode OrganizationName : string) : res string :=
  ExecuteHTMLTemplate "staff_mfa_message.tmpl"
    [("MFACode", MFACode); ("OrganizationName", OrganizationName)].

Definition StaffForgotPasswordEmailMessage (ResetPasswordLink OrganizationName : string) : res string :=
  ExecuteHTMLTemplate "staff_forgot_password_message.tmpl"
    [("ResetPasswordLink", ResetPasswordLink); ("OrganizationName", OrganizationName)].

Definition StaffInvitationEmailMessage (FirstName Role ForgotPasswordLink OrganizationName : string) : res string :=
  ExecuteHTMLTemplate "staff_invitation_message.tmpl"
    [("FirstName", FirstName); ("Role", Role); ("ForgotPasswordLink", ForgotPasswordLink);
     ("OrganizationName", OrganizationName)].
End templates.

(** ** Requests *)

Record LoginRequest := mkLoginRequest {
  Login_Email : string;
  Login_Password : string;
  Login_ReCAPTCHAToken : string }.

Record MFARequest := mkMFARequest {
  MR_MFACode : string;
  MR_RememberMe : bool;
  MR_ReCAPTCHAToken : string }.

Record CreateUserRequest := mkCreateUserRequest {
  CU_FirstName : string;
  CU_LastName : string;
  CU_Email : string;
  CU_Roles : list string }.

(** What a login answers: a token, or that a code was sent. *)
Inductive LoginAnswer :=
  | LoginToken (token : string)
  | CodeSent.

Definition bad_fields (msg : string) (v : Validator) : res unit :=
  guard_err (HasErrors v) (BadRequest msg None).

Section handlers.
Context {D L Ev : Type} {E : Env D} {C : Conn D SdpDb} {AuC : Conn D AuthDb} {B : Bcrypt} {CR : CryptoRand}
  {U : UuidGen} {J : JwtLibrary} {RC : ReCAPTCHA} {EM : MessageEvents Ev} {SM : StaffMessenger}
  {ET : EmbeddedTemplates} {TL : TokenLinks} {URI : RequestURLs} {URL : NetUrl} {UT : UnicodeTables}.
Context (am : AuthSettings).
Abbreviation M := (M D L Ev).

Definition IsMFADisabled (MFADisabled : bool) : M bool :=
  let! org := try_ Organizations_Get in
  mret_ match org with
        | Err _ => MFADisabled
        | Ok org => default MFADisabled (Org_MFADisabled org)
        end.

Definition send_to_staff (p : string) (msg : Message) : M unit :=
  emit (fun _ => sent messenger_Type msg) ;;!
  wrapM p (ask_res (fun t => messenger_SendMessage t msg)).

(** The check of the token of a CAPTCHA when it is not disabled; what a failing service
    answers depends on the handler. *)
Definition check_recaptcha (ReCAPTCHADisabled : bool) (token : string) (failed : err -> err) : M unit :=
  let! disabled := IsCAPTCHADisabled ReCAPTCHADisabled in
  if (disabled : bool) then mret_ tt
  else
    let! isValid := map_errM failed (ask_res (fun t => IsTokenValid t token)) in
    if (isValid : bool) then mret_ tt else throw (BadRequest "reCAPTCHA token invalid" None).

Definition captcha_unavailable (e : err) : err := InternalError "Cannot validate reCAPTCHA token" (Some e).

(** ** [login_handler.go] *)

Section login.
Context (ReCAPTCHADisabled MFADisabled : bool).

Definition login_validateRequest (req : LoginRequest) (deviceID : string) : M unit :=
  let lv := Check_ (Login_Email req <>? "") "email" "email is required" NewValidator in
  let lv := Check_ (Login_Password req <>? "") "password" "password is required" lv in
  let! captchaDisabled := IsCAPTCHADisabled ReCAPTCHADisabled in
  let lv := Check_ (captchaDisabled || (Login_ReCAPTCHAToken req <>? "")) "recaptcha_token"
    "reCAPTCHA token is required" lv in
  let! mfaDisabled := IsMFADisabled MFADisabled in
  let lv := Check_ (mfaDisabled || (deviceID <>? "")) "Device-ID" "Device-ID header is required" lv in
  lift (bad_fields "" lv).

Definition sendMFAEmail (user : User) (code : string) : M unit :=
  let! organization := wrapM "fetching organization" Organizations_Get in
  let! msgContent := wrapM "executing MFA message template"
    (lift (StaffMFAEmailMessage code (Org_Name organization))) in
  send_to_staff ("sending MFA code to email " +:+ U_Email user)
    (mkMessage MessageTypeUserMFA "" (U_Email user) msgContent "Verification code to access your account"
      {[ "mfa_code" := code; "org_name" := Org_Name organization ]}).

(** Whether the second factor can be skipped. *)
Definition handleMFA (deviceID : string) (user : User) : M bool :=
  let truncatedEmail := TruncateString (U_Email user) 3 in
  let! mfaDisabled := IsMFADisabled MFADisabled in
  if (mfaDisabled : bool) then mret_ true
  else
    let! isRemembered := map_errM (fun e => InternalError "Cannot check if MFA code is remembered"
        (Some (EWrap ("checking if device is remembered for user with email " +:+ truncatedEmail) e)))
      (MFADeviceRemembered deviceID (U_ID user)) in
    if (isRemembered : bool) then mret_ true
    else
      let! code := map_errM (fun e => InternalError "Cannot get MFA code"
          (Some (EWrap ("getting MFA code for user with email " +:+ truncatedEmail) e)))
        (GetMFACode deviceID (U_ID user)) in
      map_errM (fun e => InternalError "Failed to send send MFA code" (Some e)) (sendMFAEmail user code) ;;!
      mret_ false.

Definition Login (ctx : Context_) (deviceID : string) (body : res LoginRequest) : M LoginAnswer :=
  let! reqBody := map_errM (fun e => BadRequest "" (Some (EWrap "decoding the request body" e))) (lift body) in
  login_validateRequest reqBody deviceID ;;!
  check_recaptcha ReCAPTCHADisabled (Login_ReCAPTCHAToken reqBody)
    (fun e => Unauthorized "Cannot validate reCAPTCHA token" (Some e)) ;;!
  let! token := map_errM (fun e => if errors_Is_err e ErrInvalidCredentials then Unauthorized "" (Some e)
                                   else InternalError "Cannot authenticate user credentials" (Some e))
    (Authenticate am ctx (Login_Email reqBody) (Login_Password reqBody)) in
  let! user := map_errM (fun e => InternalError "" (Some e)) (Manager_GetUser am token) in
  let! canSkipMFA := handleMFA deviceID user in
  mret_ (if (canSkipMFA : bool) then LoginToken token else CodeSent).
End login.

(** ** [mfa_handler.go] *)

Definition mfa_validateRequest (ReCAPTCHADisabled : bool) (req : MFARequest) (deviceID : string) : M unit :=
  let lv := Check_ (MR_MFACode req <>? "") "mfa_code" "MFA Code is required" NewValidator in
  let! captchaDisabled := IsCAPTCHADisabled ReCAPTCHADisabled in
  let lv := Check_ (captchaDisabled || (MR_ReCAPTCHAToken req <>? "")) "recaptcha_token"
    "reCAPTCHA token is required" lv in
  lift (bad_fields "" (Check_ (deviceID <>? "") "Device-ID" "Device-ID header is required" lv)).

Definition VerifyMFA (ReCAPTCHADisabled : bool) (ctx : Context_) (deviceID : string) (body : res MFARequest) :
    M string :=
  let! reqBody := map_errM (fun e => BadRequest "" (Some e)) (lift body) in
  mfa_validateRequest ReCAPTCHADisabled reqBody deviceID ;;!
  check_recaptcha ReCAPTCHADisabled (MR_ReCAPTCHAToken reqBody) captcha_unavailable ;;!
  let! token := map_errM (fun e => if errors_Is_err e ErrMFACodeInvalid then Unauthorized "" (Some e)
                                   else InternalError "Cannot authenticate user" (Some e))
    (AuthenticateMFA am ctx deviceID (MR_MFACode reqBody) (MR_RememberMe reqBody)) in
  map_errM (fun e => InternalError "Cannot get user ID" (Some e)) (GetUserID am token) ;;!
  mret_ token.

(** ** [forgot_password_handler.go] *)

Definition forgot_validateRequest (ReCAPTCHADisabled : bool) (email token : string) : M unit :=
  let v := Check_ (email <>? "") "email" "email is required" NewValidator in
  let! captchaDisabled := IsCAPTCHADisabled ReCAPTCHADisabled in
  lift (bad_fields "" (Check_ (captchaDisabled || (token <>? "")) "recaptcha_token"
    "reCAPTCHA token is required" v)).

Definition SendForgotPasswordMessage (uiBaseURL email resetToken : string) : M unit :=
  let! organization := wrapM "getting organization data" Organizations_Get in
  let! link := wrapM "parsing reset password link" (lift (url_with_token uiBaseURL "reset-password" resetToken)) in
  let! messageContent := wrapM "executing forgot password message template"
    (lift (StaffForgotPasswordEmailMessage link (Org_Name organization))) in
  send_to_staff ("sending forgot password email for " +:+ TruncateString email 3)
    (mkMessage MessageTypeUserForgotPassword "" email messageContent "Reset Account Password"
      {[ "reset_password_link" := link; "org_name" := Org_Name organization ]}).

(** Whether a user has the email is not told. *)
Definition HandleForgotPassword (ReCAPTCHADisabled : bool) (ctx : Context_) (body : res (string * string)) :
    M unit :=
  let! tnt := map_errM (fun e => Unauthorized "" (Some (EWrap "getting tenant from context" e)))
    (lift (GetTenantFromContext ctx)) in
  let! (email, token) := map_errM (fun e => BadRequest "" (Some e)) (lift body) in
  forgot_validateRequest ReCAPTCHADisabled email token ;;!
  check_recaptcha ReCAPTCHADisabled token captcha_unavailable ;;!
  let! sent := catch_ (RunInTransaction (X := AuthDb) (
    let! resetToken := wrapM "resetting password" (Manager_ForgotPassword email) in
    match SDPUIBaseURL tnt with
    | None => throw nil_dereference
    | Some uiBaseURL =>
      wrapM "sending forgot password message" (SendForgotPasswordMessage uiBaseURL email resetToken)
    end)) in
  match sent with
  | Ok _ => mret_ tt
  | Err e =>
    if errors_Is_err e ErrUserNotFound || errors_Is_err e ErrUserHasValidToken then mret_ tt
    else throw (InternalError "Failed to reset password" (Some e))
  end.

(** ** [reset_password_handler.go] *)

Definition add_errors (failed : option (gmap string string)) (v : Validator) : Validator :=
  match failed with
  | Some m => mkValidator (m ∪ V_Errors v) (V_ErrorCodes v)
  | None => v
  end.

(** The password and the token of the body. *)
Definition HandleResetPassword (pv : PasswordValidator) (body : res (string * string)) : M unit :=
  let! (password, resetToken) := map_errM (fun e => BadRequest "invalid request body" (Some e)) (lift body) in
  let v := add_errors (ValidatePassword pv password) NewValidator in
  lift (bad_fields "" (Check_ (resetToken <>? "") "reset_token" "reset token is required" v)) ;;!
  map_errM (fun e =>
      if errors_Is_err e ErrExpiredResetPasswordToken
      then BadRequest "Reset password token expired, please request a new token through the forgot password flow."
             (Some e)
      else if errors_Is_err e ErrInvalidResetPasswordToken
      then BadRequest "Invalid reset password token." (Some e)
      else InternalError "Cannot reset password" (Some e))
    (Manager_ResetPassword resetToken password).

(** ** [refresh_token_handler.go] *)

(** [GetTokenFromContext]: an empty token is none. *)
Definition GetTokenFromContext (token : option string) : res string :=
  match token with
  | Some t => if t =? "" then Err (ESentinel "token not found in context") else Ok t
  | None => Err (ESentinel "token not found in context")
  end.

Definition token_or_unauthorized (token : option string) : M string :=
  map_errM (fun _ => Unauthorized "" None) (lift (GetTokenFromContext token)).

Definition PostRefreshToken (ctx : Context_) (token : option string) : M string :=
  let! token := token_or_unauthorized token in
  map_errM (fun e => if errors_Is_err e ErrInvalidToken then BadRequest "" (Some e)
                     else InternalError "Cannot refresh user token" (Some e))
    (RefreshToken am ctx token).

(** ** [user_handler.go] *)

Definition validateRoles (roles : list string) (v : Validator) : Validator :=
  let v := Check_ (List.length roles =? 1)%nat "roles" "the number of roles required is exactly one" v in
  let v := CheckError (ValidateRoleMutualExclusivity roles) "roles" "" v in
  match V_Errors v !! "roles", roles with
  | None, role :: _ => Check_ (UserRole_IsValid role) "roles" ("unexpected value for roles[0]=" +:+ role
      +:+ ". Expect one of these values: [" +:+ Join " " GetAllRoles +:+ "]") v
  | _, _ => v
  end.

Definition CreateUserRequest_validate (cur : CreateUserRequest) : res unit :=
  let v := CheckError (ValidateStringLength (CU_FirstName cur) "first_name" 128) "fist_name" "" NewValidator in
  let v := CheckError (ValidateStringLength (CU_LastName cur) "last_name" 128) "last_name" "" v in
  let v := CheckError (ValidateEmail (TrimAndLower (CU_Email cur))) "email" "" v in
  bad_fields "Request invalid" (validateRoles (CU_Roles cur) v).

(** The id of the caller, by their token. *)
Definition caller_id (failed : err -> err) (token : string) : M string :=
  map_errM failed (GetUserID am token).

Definition activation_error (e : err) : err :=
  if errors_Is_err e ErrInvalidToken then Unauthorized "" (Some e)
  else if errors_Is_err e ErrNoRowsAffected then BadRequest "" (Some e)
  else InternalError "" (Some e).

(** The user and the wanted activation; nobody changes their own. *)
Definition UserActivation (token : option string) (body : res (string * option bool)) : M unit :=
  let! token := token_or_unauthorized token in
  let! (reqUserID, isActive) := map_errM (fun e => BadRequest "" (Some (EWrap "decoding the request body" e)))
    (lift body) in
  let v := Check_ (reqUserID <>? "") "user_id" "user_id is required" NewValidator in
  lift (bad_fields "Request invalid"
    (Check_ (negb (bool_decide (isActive = None))) "is_active" "is_active is required" v)) ;;!
  let! userID := caller_id (fun e => if errors_Is_err e ErrInvalidToken then Unauthorized "" (Some e)
      else InternalError "" (Some (EWrap "getting user from token" e))) token in
  if userID =? reqUserID then throw (BadRequest "" None)
  else map_errM activation_error
    (if default false isActive then Manager_ActivateUser am token reqUserID
     else Manager_DeactivateUser am token reqUserID).

Definition invitation_Validate (FirstName Email Role UIBaseURL : string) : res unit :=
  if FirstName =? "" then Err (ENew "first name is required")
  else if Email =? "" then Err (ENew "email is required")
  else if Role =? "" then Err (ENew "role is required")
  else if UIBaseURL =? "" then Err (ENew "UI base URL is required")
  else guard_err (bool_decide (fst <$> url_Parse UIBaseURL = None)) (ENew "UI base URL is not a valid URL").

Definition SendInvitationMessage (FirstName Email Role UIBaseURL : string) : M unit :=
  wrapM "invalid options" (lift (invitation_Validate FirstName Email Role UIBaseURL)) ;;!
  let! organization := wrapM "getting organization" Organizations_Get in
  let! forgotPasswordLink := wrapM "getting forgot password link"
    (lift (url_JoinPath UIBaseURL "forgot-password")) in
  let! messageContent := wrapM "executing invitation message HTML template"
    (lift (StaffInvitationEmailMessage FirstName Role forgotPasswordLink (Org_Name organization))) in
  send_to_staff "sending invitation message via messenger client"
    (mkMessage MessageTypeUserInvitation "" Email messageContent "Welcome to Stellar Disbursement Platform"
      {[ "first_name" := FirstName; "role" := Role; "forgot_password_link" := forgotPasswordLink;
         "org_name" := Org_Name organization ]}).

(** The user is created with a random password, and invited to choose one; that the
    invitation failed is only reported. *)
Definition HandleCreateUser (ctx : Context_) (token : option string) (body : res CreateUserRequest) : M User :=
  let! tnt := map_errM (fun e => Unauthorized "" (Some (EWrap "getting tenant from context" e)))
    (lift (GetTenantFromContext ctx)) in
  let! token := token_or_unauthorized token in
  let! reqBody := map_errM (fun e => BadRequest "" (Some (EWrap "decoding the request body" e))) (lift body) in
  lift (CreateUserRequest_validate reqBody) ;;!
  caller_id (fun e => Unauthorized "" (Some (EWrap "getting request authenticated user ID" e))) token ;;!
  let newUser := mkUser "" (TrimSpace (CU_FirstName reqBody)) (TrimSpace (CU_LastName reqBody))
    (TrimAndLower (CU_Email reqBody)) false false (CU_Roles reqBody) in
  let! u := map_errM (fun e => if errors_Is_err e ErrUserEmailAlreadyExists
      then BadRequest (Error ErrUserEmailAlreadyExists) (Some e)
      else InternalError "Cannot create user" (Some e)) (Manager_CreateUser newUser "") in
  match U_Roles u, SDPUIBaseURL tnt with
  | role :: _, Some uiBaseURL =>
    try_ (SendInvitationMessage (U_FirstName u) (U_Email u) role uiBaseURL) ;;! mret_ u
  | [], _ => throw (EExternal "runtime error: index out of range [0] with length 0")
  | _, None => throw nil_dereference
  end.

Definition HandleUpdateUserRoles (token : option string) (body : res (string * list string)) : M unit :=
  let! token := token_or_unauthorized token in
  let! (reqUserID, roles) := map_errM (fun e => BadRequest "" (Some (EWrap "decoding the request body" e)))
    (lift body) in
  let v := Check_ (reqUserID <>? "") "user_id" "user_id is required" NewValidator in
  lift (bad_fields "Request invalid" (validateRoles roles v)) ;;!
  caller_id (fun e => Unauthorized "" (Some (EWrap "getting request authenticated user ID" e))) token ;;!
  map_errM (fun e => if errors_Is_err e ErrInvalidToken then Unauthorized "" (Some e)
                     else if errors_Is_err e ErrNoRowsAffected then BadRequest "" (Some e)
                     else InternalError "Cannot update user activation" (Some e))
    (UpdateUserRoles am token reqUserID roles).

(** ** [profile_handler.go] *)

Definition getTokenAndUser (token : option string) : M (string * User) :=
  let! token := token_or_unauthorized token in
  let! user := map_errM (fun e =>
      if errors_Is_err e ErrInvalidToken then Unauthorized "" (Some (EWrap "getting user profile" e))
      else if errors_Is_err e ErrUserNotFound
      then BadRequest "" (Some (EWrap ("user from token " +:+ token +:+ " not found") e))
      else InternalError "Cannot get user" (Some e))
    (Manager_GetUser am token) in
  mret_ (token, user).

Definition PatchUserProfile (token : option string) (body : res (string * string * string)) : M unit :=
  let! (token, _) := getTokenAndUser token in
  let! (names, email) := map_errM (fun e => BadRequest "" (Some (EWrap "decoding the request body" e)))
    (lift body) in
  if (email <>? "") && negb (is_ok (ValidateEmail email)) then throw (BadRequest "" None)
  else if (fst names =? "") && (snd names =? "") && (email =? "") then throw (BadRequest "" None)
  else map_errM (fun e => InternalError "Cannot update user profiles" (Some e))
    (Manager_UpdateUser am token (fst names) (snd names) email "").

(** The current and the new password. *)
Definition PatchUserPassword (pv : PasswordValidator) (token : option string) (body : res (string * string)) :
    M unit :=
  let! (token, _) := getTokenAndUser token in
  let! (current, new) := map_errM (fun e => BadRequest "" (Some (EWrap "decoding the request body" e)))
    (lift body) in
  let v := Check_ (current <>? "") "current_password" "current_password is required" NewValidator in
  lift (bad_fields "" (Check_ (current <>? new) "new_password"
    "new_password should be different from current_password" v)) ;;!
  match ValidatePassword pv new with
  | Some _ => throw (BadRequest "" None)
  | None => map_errM (fun e => InternalError "Cannot update user password" (Some e))
              (Manager_UpdatePassword am token current new)
  end.

Definition GetProfile (token : option string) : M (User * string) :=
  let! (_, user) := getTokenAndUser token in
  let! org := map_errM (fun e => InternalError "Cannot get organization" (Some e)) Organizations_Get in
  mret_ (user, Org_Name org).
End handlers.
