(* ===== verification/AuthWorld.v ===== *)
(** A small tenant with its staff, for the witnesses: the databases without faults or
    other writers, toy hashes, and a toy library of tokens whose texts are the codes of
    their claims. *)

From S2P Require Import Prelude GoStrings Errors Effects TxStore Limiter SdpDb PaymentStore Tables.
From S2P Require Import Platform ReceiverStore Messages Validators Registration Tenant Tenants Passwords.
From S2P Require Import Authenticator AuthManager AuthHandlers.
From Stdlib Require Import Ascii String.

Local Open Scope string_scope.
Local Open Scope list_scope.
Local Open Scope go_scope.

Module AuthWorld.
Definition Dbs : Type := SdpDb * AuthDb.

#[export] Instance sdp_conn : Conn Dbs SdpDb :=
  {| conn_id := 0; conn_get := fst; conn_set := fun x d => (x, snd d) |}.
#[export] Instance sdp_laws : ConnLaws Dbs SdpDb.
Proof. constructor; [done|by intros []|done]. Qed.
#[export] Instance auth_conn : Conn Dbs AuthDb :=
  {| conn_id := 1; conn_get := snd; conn_set := fun x d => (fst d, x) |}.
#[export] Instance auth_laws : ConnLaws Dbs AuthDb.
Proof. constructor; [done|by intros []|done]. Qed.

#[export] Instance env : Env Dbs :=
  {| env_fault _ := NoFault; env_interfere _ d := d; env_now t := Z.of_nat t; env_locked _ _ := false |}.

#[export] Instance bcrypt : Bcrypt :=
  {| bcrypt_GenerateFromPassword _ v := Ok ("#" +:+ v);
     bcrypt_CompareHashAndPassword h v :=
       if h =? "#" +:+ v then Ok tt else Err ErrMismatchedHashAndPassword |}.
#[export] Instance bcrypt_laws : BcryptLaws.
Proof.
  constructor. intros t v h [= <-]. unfold bcrypt_CompareHashAndPassword, bcrypt. by rewrite eqb_same.
Qed.

#[export] Instance crypto_rand : CryptoRand := {| rand_Int t max := Ok (Z.of_nat t mod max)%Z |}.
#[export] Instance crypto_rand_laws : CryptoRandLaws.
Proof. constructor. intros t max n Hm [= <-]. by apply Z.mod_pos_bound. Qed.

#[export] Instance uuids : UuidGen := Platform.uuids.
#[export] Instance captcha : ReCAPTCHA := {| IsTokenValid _ _ := Ok true |}.
#[export] Instance messenger : StaffMessenger := {| messenger_Type := "DRY_RUN"; messenger_SendMessage _ _ := Ok tt |}.
#[export] Instance events : MessageEvents (string * Message) := {| sent t m := (t, m) |}.
#[export] Instance templates : EmbeddedTemplates :=
  {| parsed_templates := Ok (fun name data => Ok (name +:+ Join "," (map snd data))) |}.
#[export] Instance links : TokenLinks :=
  {| url_with_token base path token := Ok (base +:+ "/" +:+ path +:+ "?token=" +:+ token) |}.

(** ** Tokens *)

#[export] Instance User_eq : EqDecision User.
Proof. solve_decision. Defined.
#[export] Instance User_countable : Countable User.
Proof.
  refine (inj_countable' (fun u => (U_ID u, U_FirstName u, U_LastName u, U_Email u, U_IsOwner u, U_IsActive u, U_Roles u))
    (fun '(a, b, c, d, e, f, g) => mkUser a b c d e f g) _). by intros [].
Defined.
#[export] Instance claims_eq : EqDecision claims.
Proof. solve_decision. Defined.
#[export] Instance claims_countable : Countable claims.
Proof.
  refine (inj_countable' (fun c => (Claims_User c, Claims_TenantID c, Claims_ExpiresAt c))
    (fun '(a, b, c) => mkClaims a b c) _). by intros [].
Defined.

Definition token (c : claims) : string := Platform.bits (encode c).

#[export] Instance jwt : JwtLibrary := {|
  ECPrivateKey := unit;
  ParseECPrivateKeyFromPEM _ := Ok tt;
  ParseWithClaims now _ s :=
    match decode (Platform.unbits s) with
    | Some c => if (now <? default (now + 1) (Claims_ExpiresAt c))%Z then Ok c
                else Err (OtherValidation (ENew "token is expired"))
    | None => Err (OtherValidation (ENew "token is malformed"))
    end;
  SignedString _ _ c := Ok (token c) |}.

Definition am : AuthSettings := mkAuthSettings "public" "private" (15 * Minute) "owner".

#[export] Instance key_pair : KeyPair am.
Proof.
  constructor.
  - intros k t now c c' s _ [= <-]. cbn. unfold token. rewrite Platform.unbits_bits, decode_encode.
    destruct (_ <? _)%Z; [by intros [= <-]|done].
  - intros now s c exp. cbn. destruct (decode _) as [c'|]; [|done]. destruct (Z.ltb_spec now (default (now + 1)%Z (Claims_ExpiresAt c'))); [|done].
    intros [= <-] He. by rewrite He in H.
Qed.

(** ** The staff *)

Definition alice : AuthUser := mkAuthUser "u1" "Alice" "A" "alice@org.example" "#Tr0ub4dor&3xyz" ["owner"] true true.
Definition bob : AuthUser := mkAuthUser "u2" "Bob" "B" "bob@org.example" "#C0rrect&horse" ["business"] false true.
Definition tenant : Tenant := mkTenant "t1" "org" (Some "https://org.example") (Some "https://ui.org.example")
  ActivatedTenantStatus false 0 0 None (Some "GDIST") "DISTRIBUTION_ACCOUNT.STELLAR.ENV" "ACTIVE".

Definition auth_db (resets : list PasswordReset) (codes : list mfaCode) : AuthDb := mkAuthDb [alice; bob] resets codes.
Definition world (resets : list PasswordReset) (codes : list mfaCode) : World Dbs unit (string * Message) :=
  mkWorld (Platform.sdp_db false [] [], auth_db resets codes) 0 ∅ tt [].

Definition login_request : LoginRequest := mkLoginRequest " Alice@ORG.example" "Tr0ub4dor&3xyz" "".
Definition code_of (expiresAt : Z) : mfaCode := mkMfaCode "device" "u1" (Some "123456") None (Some expiresAt).
Definition remembered_device : mfaCode := mkMfaCode "device" "u1" None (Some 1000%Z) None.
End AuthWorld.
