(* ===== verification/AuthSafety.v ===== *)
(** What a login, a second factor and a reset of a password guarantee. *)

From S2P Require Import Prelude GoStrings Errors Effects TxStore Limiter PaymentStore ReceiverStore SdpDb.
From S2P Require Import DisbursementStore Messages Validators Registration Tenant Tenants AuthManager Passwords.
From S2P Require Import Calm Authenticator AuthHandlers AuthWorld.
From Stdlib Require Import Ascii String.

Local Open Scope string_scope.
Local Open Scope list_scope.
Local Open Scope go_scope.


Section safety.
Context {D L Ev : Type} {E : Env D} {C : Conn D SdpDb} {AuC : Conn D AuthDb} {AuL : ConnLaws D AuthDb}.
Context {B : Bcrypt} {BL : BcryptLaws} {CR : CryptoRand} {U : UuidGen} {J : JwtLibrary} {RC : ReCAPTCHA}.
Context {EM : MessageEvents Ev} {SM : StaffMessenger} {ET : EmbeddedTemplates}.
Context (am : AuthSettings).
Implicit Types w : World D L Ev.
Abbreviation M := (M D L Ev).
Abbreviation auth w := (conn_get (X := AuthDb) (w_db w)).
Abbreviation sdp w := (conn_get (X := SdpDb) (w_db w)).

Section calm.
Context (Hcalm : forall t (d : D), env_interfere t d = d).

(** ** Logging in *)

Definition active_user (db : AuthDb) (u : AuthUser) : Prop := u ∈ auth_users db /\ AU_IsActive u = true.

(** The token was signed for the user. *)
Definition token_of (token userID : string) : Prop :=
  exists k t c, ParseECPrivateKeyFromPEM (privateKey am) = Ok k /\ SignedString t k c = Ok token /\
    U_ID <$> Claims_User c = Some userID.

Lemma credentials_ok email password w user w' :
  ValidateCredentials email password w = (Ok user, w') ->
  read_only w w' /\ exists u, active_user (auth w) u /\ AU_Email u = TrimSpace (ToLower email) /\
    bcrypt_CompareHashAndPassword (AU_EncryptedPassword u) password = Ok tt /\ user = user_of u.
Proof using Hcalm AuL.
  unfold ValidateCredentials, no_rows_as. intros H. apply mbind_ok in H as (u & w1 & H1 & H).
  apply map_errM_ok, (Get_ok Hcalm) in H1 as [Hr (cx & Hu)]. apply first_such_some in Hu as [Hin Hu].
  apply andb_true_iff in Hu as [He Ha]. apply eqb_true in He.
  apply mbind_ok in H as (eq & w2 & H2 & H). apply map_errM_ok, lift_ok in H2 as [Hc ->].
  destruct eq; [|done]. injection H as <- <-. split; [done|]. exists u. split_and!; try done.
  unfold ComparePassword in Hc. destruct (bcrypt_CompareHashAndPassword _ _) as [[]|e]; [done|].
  by destruct (errors_Is_err _ _).
Qed.

Lemma reads_roles name user : respects read_only (GetUserRoles name user : M (list string)).
Proof using Hcalm AuL. unfold GetUserRoles, getUserRolesInfo. reads. Qed.

Lemma generate_ok ctx user w token w' :
  generateToken am ctx user w = (Ok token, w') -> read_only w w' /\ token_of token (U_ID user).
Proof using Hcalm AuL.
  unfold generateToken, GenerateToken. intros H. split.
  - eapply reads_ok; [|exact H]. apply respects_bind; [apply _|apply respects_wrap, reads_roles|]. intros roles. reads.
  - apply mbind_ok in H as (roles & w1 & _ & H). apply mbind_ok in H as (now & w2 & _ & H).
    apply map_errM_ok, mbind_ok in H as (k & w3 & Hk & H). apply map_errM_ok, lift_ok in Hk as [Hk _].
    apply map_errM_ok in H. unfold ask_res in H. injection H as Hs _. by eexists _, _, _.
Qed.

Lemma reads_parse tok : respects read_only (parseToken am tok : M claims).
Proof using Hcalm. unfold parseToken. reads. Qed.

Lemma reads_token_user p tok : respects read_only (user_of_token am p tok : M (option User)).
Proof using Hcalm.
  unfold user_of_token, require_token, ValidateToken, jwt_ValidateToken, GetUserFromToken.
  reads; apply reads_parse.
Qed.

Lemma reads_GetUser id : respects read_only (GetUser id : M User).
Proof using Hcalm AuL. unfold GetUser, no_rows_as. reads. Qed.

(** The user of a token that was signed for a user is that user. *)
Lemma token_user_ok {KP : KeyPair am} p tok id w o w' :
  token_of tok id -> user_of_token am p tok w = (Ok o, w') -> exists u, o = Some u /\ U_ID u = id.
Proof.
  intros (k & t & c & Hk & Hs & Hid) H. unfold user_of_token in H.
  apply mbind_ok in H as (u & w1 & _ & H). apply map_errM_ok, mbind_ok in H as (c' & w2 & H & Hret).
  apply map_errM_ok, mbind_ok in H as (now & w3 & _ & H). apply lift_ok in H as [Hp _].
  destruct (ParseWithClaims now (publicKey am) tok) as [c''|[]] eqn:Ep; try done. injection Hp as ->.
  rewrite (parse_signed k t now c c' tok Hk Hs Ep) in Hret. injection Hret as <- _.
  destruct (Claims_User c) as [u'|]; [|done]. injection Hid as Hid. eauto.
Qed.

Lemma manager_user_ok {KP : KeyPair am} tok id w user w' :
  token_of tok id -> Manager_GetUser am tok w = (Ok user, w') -> read_only w w' /\ U_ID user = id.
Proof using Hcalm AuL.
  intros Htok H. split.
  - eapply reads_ok; [|exact H]. unfold Manager_GetUser, getUserFromToken, deref.
    reads.
  - unfold Manager_GetUser, getUserFromToken in H. apply mbind_ok in H as (o & w1 & H1 & H).
    apply map_errM_ok in H1. destruct (token_user_ok _ _ _ _ _ _ Htok H1) as (u & -> & Hu).
    apply mbind_ok in H as (u' & w2 & Hd & H). injection Hd as <- <-.
    apply mbind_ok in H as (v & w3 & Hv & H). apply map_errM_ok in Hv.
    unfold GetUser in Hv. apply mbind_ok in Hv as (row & w4 & _ & Hv). injection Hv as <- _.
    apply mbind_ok in H as (roles & w5 & _ & H). injection H as <- _. exact Hu.
Qed.

(** The setting of the organization, or that of the server where the organization has
    none or cannot be read. *)
Definition mfa_off (MFADisabled : bool) (db : SdpDb) : Prop :=
  MFADisabled = true \/ exists org, hd_error (organizations db) = Some org /\ Org_MFADisabled org = Some true.

Lemma mfa_off_ok MFADisabled w w' :
  IsMFADisabled MFADisabled w = (Ok true, w') -> mfa_off MFADisabled (sdp w).
Proof using Hcalm.
  unfold IsMFADisabled. intros H. apply mbind_ok in H as (org & w1 & Horg & H). injection H as Heq _.
  destruct org as [org|e]; [|by left]. destruct (Org_MFADisabled org) as [b|] eqn:Eb; [|by left].
  cbn in Heq. subst b. right. exists org. split; [|done].
  unfold try_, Organizations_Get, no_rows_as, map_errM, pool_query in Horg.
  rewrite (calm_settle Hcalm) in Horg. destruct (env_fault _); try done.
  destruct (organizations (sdp w)); cbn in Horg; [done|]. by injection Horg as <- _.
Qed.

Lemma reads_mfa_off b : respects read_only (IsMFADisabled b : M bool).
Proof using Hcalm. unfold IsMFADisabled, Organizations_Get, no_rows_as. reads. Qed.

Lemma reads_captcha_off b : respects read_only (IsCAPTCHADisabled b : M bool).
Proof using Hcalm. unfold IsCAPTCHADisabled, Organizations_Get, no_rows_as. reads. Qed.

(** The device of the user is remembered: its row says until a time that has not come. *)
Definition remembered (deviceID userID : string) w : Prop :=
  exists m exp t, m ∈ auth_user_mfa_codes (auth w) /\ DeviceID m = deviceID /\ MFA_UserID m = userID /\
    DeviceExpiresAt m = Some exp /\ w_clock w <= t /\ (env_now t <= exp)%Z.

Lemma remembered_ok deviceID userID w w' :
  MFADeviceRemembered deviceID userID w = (Ok true, w') -> remembered deviceID userID w.
Proof using Hcalm AuL.
  unfold MFADeviceRemembered. intros H. apply mbind_ok in H as (found & w1 & Hf & H).
  destruct found as [m|e]; [|by destruct (errors_Is_err e _)].
  unfold try_ in Hf. destruct (getByDeviceAndUser deviceID userID w) as [r w2] eqn:Hg. injection Hf as -> ->.
  unfold getByDeviceAndUser, no_rows_as in Hg. destruct (_ || _); [done|].
  apply map_errM_ok, (Get_ok Hcalm) in Hg as [[_ Hclock] (cx & Hm)]. apply first_such_some in Hm as [Hin Hm].
  apply andb_true_iff in Hm as [Hd Hu]. apply eqb_true in Hd, Hu.
  destruct (DeviceExpiresAt m) as [exp|] eqn:Ee; [|done].
  apply mbind_ok in H as (now & w3 & Hnow & H). apply (ask_ok Hcalm) in Hnow as [-> _]. injection H as Hlt _.
  apply negb_true_iff, Z.ltb_ge in Hlt. exists m, exp, (w_clock w1). split_and!; try done.
Qed.

Lemma reads_validate_login r m req dev : respects read_only (login_validateRequest r m req dev : M unit).
Proof using Hcalm. unfold login_validateRequest. reads. Qed.

Lemma reads_recaptcha r tok failed : respects read_only (check_recaptcha r tok failed : M unit).
Proof using Hcalm. unfold check_recaptcha. reads. Qed.

Lemma remembered_later deviceID userID w w' : read_only w w' -> remembered deviceID userID w' -> remembered deviceID userID w.
Proof. intros [Hdb Hle] (m & exp & t & H1 & H2 & H3 & H4 & H5 & H6). rewrite Hdb in H1. exists m, exp, t. split_and!; try done. lia. Qed.


(** ** The second factor *)

Definition live_code (deviceID code : string) w (m : mfaCode) : Prop :=
  m ∈ auth_user_mfa_codes (auth w) /\ of_device_and_code deviceID code m = true /\
  exists exp t, CodeExpiresAt m = Some exp /\ w_clock w <= t /\ (env_now t < exp)%Z.

Definition no_code (deviceID code : string) (db : AuthDb) : Prop :=
  Forall (fun m => of_device_and_code deviceID code m = false) (auth_user_mfa_codes db).

Lemma get_code_ok deviceID code w m w' :
  getByDeviceAndCode deviceID code w = (Ok m, w') ->
  read_only w w' /\ m ∈ auth_user_mfa_codes (auth w) /\ of_device_and_code deviceID code m = true.
Proof using Hcalm AuL.
  unfold getByDeviceAndCode, no_rows_as. destruct (_ || _); [done|]. intros H.
  apply map_errM_ok, (Get_ok Hcalm) in H as [Hr (cx & Hm)]. by apply first_such_some in Hm.
Qed.

Lemma reads_get_code deviceID code : respects read_only (getByDeviceAndCode deviceID code : M mfaCode).
Proof using Hcalm AuL. unfold getByDeviceAndCode, no_rows_as. reads. Qed.

(** An update of the codes that answered. *)
Lemma update_codes_ok p f w u w' :
  db_stmt (UpdateMfaCodes p f) w = (Ok u, w') ->
  w_clock w <= w_clock w' /\ auth_users (auth w') = auth_users (auth w) /\
  auth_user_mfa_codes (auth w') = update_where p f (auth_user_mfa_codes (auth w)).
Proof using Hcalm AuL.
  intros H. apply (stmt_ok Hcalm) in H as [Hc (cx & Hq & _)]. unfold UpdateMfaCodes, check_mfa_codes in Hq.
  destruct (decide _); [|done]. injection Hq as _ Hdb. rewrite <- Hdb. split_and!; [lia|done|done].
Qed.

Lemma update_where_gone {A} (p : A -> bool) f (l : list A) :
  (forall x, p (f x) = false) -> Forall (fun x => p x = false) (update_where p f l).
Proof.
  intros Hf. apply Forall_forall. intros y Hy. apply list_elem_of_fmap in Hy as (x & -> & _).
  by destruct (p x) eqn:Ep.
Qed.

Lemma validate_code_ok deviceID code w id w' :
  validate_code deviceID code w = (Ok id, w') ->
  w_clock w <= w_clock w' /\ auth_users (auth w') = auth_users (auth w) /\ no_code deviceID code (auth w') /\
  exists m, live_code deviceID code w m /\ id = MFA_UserID m.
Proof using Hcalm AuL.
  unfold validate_code. intros H. apply mbind_ok in H as (found & w1 & Hf & H).
  destruct found as [m|e]; [|by destruct (errors_Is_err e _)].
  unfold try_ in Hf. destruct (getByDeviceAndCode deviceID code w) as [r w2] eqn:Hg. injection Hf as -> ->.
  apply get_code_ok in Hg as ([Hdb1 Hc1] & Hin & Hof).
  destruct (CodeExpiresAt m) as [exp|] eqn:Ee; [|done]. destruct (_ =? _); [|done].
  apply mbind_ok in H as (now & w2 & Hnow & H). apply (ask_ok Hcalm) in Hnow as [-> [Hdb2 Hc2]].
  destruct (Z.ltb_spec (env_now (w_clock w1)) exp); [|done].
  apply mbind_ok in H as (u & w3 & Hexp & H). injection H as <- <-.
  apply map_errM_ok in Hexp. unfold expireMFACode in Hexp. destruct (_ || _); [done|].
  apply map_errM_ok, update_codes_ok in Hexp as (Hc3 & Hu & Hcodes). rewrite Hdb2, Hdb1 in Hu.
  split_and!; [lia|done| |].
  - unfold no_code. rewrite Hcodes. apply update_where_gone. intros x. unfold of_device_and_code. cbn.
    by destruct (_ =? _).
  - exists m. split; [|done]. split_and!; try done. by exists exp, (w_clock w1).
Qed.

Lemma ValidateMFACode_ok deviceID code w id w' :
  ValidateMFACode deviceID code w = (Ok id, w') ->
  w_clock w <= w_clock w' /\ auth_users (auth w') = auth_users (auth w) /\ no_code deviceID code (auth w') /\
  exists m, live_code deviceID code w m /\ id = MFA_UserID m.
Proof using Hcalm AuL.
  intros H. apply (tx_ok Hcalm) in H as (w1 & w2 & H & _ & [Hdb1 Hc1] & Hdb2 & Hc2).
  apply beside_idle_ok in H as (w3 & w4 & H & Hdb3 & Hc3 & Hdb4 & Hc4).
  apply validate_code_ok in H as (Hc & Hu & Hno & m & (Hin & Hof & exp & t & He & Hle & Hlt) & ->).
  assert (E3 : w_db w3 = w_db w) by congruence. assert (E4 : w_db w' = w_db w4) by congruence.
  rewrite E4. rewrite E3 in Hu, Hin. split_and!; [lia|done|done|]. exists m. split; [|done].
  split_and!; [done|done|]. exists exp, t. split_and!; [done|lia|done].
Qed.

(** Without such a code nothing is written, and the answer is that it is not valid or
    an error. *)
Lemma get_code_none deviceID code w m w' :
  no_code deviceID code (auth w) -> getByDeviceAndCode deviceID code w <> (Ok m, w').
Proof using Hcalm AuL.
  intros Hno H. apply get_code_ok in H as (_ & Hin & Hof). unfold no_code in Hno. rewrite Forall_forall in Hno.
  by rewrite (Hno m Hin) in Hof.
Qed.

Lemma ValidateMFACode_none deviceID code w id w' :
  no_code deviceID code (auth w) -> ValidateMFACode deviceID code w <> (Ok id, w').
Proof using Hcalm AuL.
  intros Hno H. apply ValidateMFACode_ok in H as (_ & _ & _ & m & (Hin & Hof & _) & _).
  unfold no_code in Hno. rewrite Forall_forall in Hno. by rewrite (Hno m Hin) in Hof.
Qed.

(** Remembering the device writes no code. *)
Lemma RememberDevice_ok deviceID code w u w' :
  RememberDevice deviceID code w = (Ok u, w') ->
  w_clock w <= w_clock w' /\ auth_users (auth w') = auth_users (auth w) /\
  exists t, auth_user_mfa_codes (auth w') = update_where (of_device_and_code deviceID code)
    (fun m => m <| DeviceExpiresAt := Some (env_now t + mfaDeviceExpiryHours)%Z |>)
    (auth_user_mfa_codes (auth w)).
Proof using Hcalm AuL.
  unfold RememberDevice, resetDeviceExpiry. intros H. apply map_errM_ok in H. destruct (_ || _); [done|].
  apply mbind_ok in H as (now & w1 & Hnow & H). apply (ask_ok Hcalm) in Hnow as [-> [Hdb Hc]].
  apply map_errM_ok, update_codes_ok in H as (Hc2 & Hu & Hm). rewrite Hdb in Hu, Hm.
  split_and!; [lia|done|eauto].
Qed.

Lemma update_where_in {A} (p : A -> bool) f (l : list A) y :
  y ∈ update_where p f l -> exists x, x ∈ l /\ y = (if p x then f x else x).
Proof. intros Hy. apply list_elem_of_fmap in Hy as (x & -> & Hx). eauto. Qed.

Lemma get_user_ok id w user w' :
  GetUser id w = (Ok user, w') ->
  read_only w w' /\ U_ID user = id /\ exists u, active_user (auth w) u /\ AU_ID u = id.
Proof using Hcalm AuL.
  intros H. split; [eapply reads_ok; [apply reads_GetUser|exact H]|]. unfold GetUser, no_rows_as in H.
  apply mbind_ok in H as (u & w1 & H1 & H). apply map_errM_ok, (Get_ok Hcalm) in H1 as [_ (cx & Hu)].
  apply first_such_some in Hu as [Hin Hu]. apply andb_true_iff in Hu as [Hid Ha]. apply eqb_true in Hid.
  injection H as <- _. split; [done|]. by exists u.
Qed.

(** The first step of the second factor. *)
Definition remember_if (deviceID code : string) (rememberMe : bool) : M unit :=
  if rememberMe then wrapM ("error remembering device ID " +:+ deviceID) (RememberDevice deviceID code)
  else mret_ tt.

Lemma remember_if_ok deviceID code rememberMe w u w' :
  remember_if deviceID code rememberMe w = (Ok u, w') ->
  w_clock w <= w_clock w' /\ auth_users (auth w') = auth_users (auth w) /\
  (no_code deviceID code (auth w) -> no_code deviceID code (auth w')) /\
  forall m', live_code deviceID code w' m' -> exists m, live_code deviceID code w m /\ MFA_UserID m = MFA_UserID m'.
Proof using Hcalm AuL.
  unfold remember_if. destruct rememberMe; intros H.
  - apply map_errM_ok, RememberDevice_ok in H as (Hc & Hu & t & Hm). split_and!; [done|done| |].
    + unfold no_code. rewrite Hm. intros Hno. rewrite update_where_none; [done|]. by apply Forall_forall.
    + intros m' (Hin & Hof & exp & t' & He & Hle & Hlt). rewrite Hm in Hin.
      apply update_where_in in Hin as (x & Hx & ->). exists x.
      destruct (of_device_and_code deviceID code x) eqn:Ex; [|congruence].
      split; [|done]. split_and!; [done|done|]. exists exp, t'. split_and!; [done|lia|done].
  - injection H as _ <-. split_and!; [done|done|done|]. intros m Hm. by exists m.
Qed.

(** C14: As long as nobody else writes in between, a second factor answers with a token
    only for a code that was sent to that device, has not expired, and belongs to an
    active user, for whom the token is; and once: the code opens nothing more, whoever
    tries it again.  Uses of one code at the same time are not excluded: the statements
    go to the connection pool, and both can find the code before one expires it. *)
Theorem mfa_code_is_single_use ctx deviceID code rememberMe w token w'
    (Hrun : AuthenticateMFA am ctx deviceID code rememberMe w = (Ok token, w')) :
  (exists m u, live_code deviceID code w m /\ active_user (auth w) u /\ AU_ID u = MFA_UserID m /\
     token_of token (AU_ID u)) /\
  no_code deviceID code (auth w') /\
  forall ctx' remember' w2, auth w2 = auth w' ->
    is_ok (fst (AuthenticateMFA am ctx' deviceID code remember' w2)) = false.
Proof using Hcalm AuL.
  unfold AuthenticateMFA in Hrun. fold (remember_if deviceID code rememberMe) in Hrun.
  apply mbind_ok in Hrun as (u1 & w1 & H1 & H). apply remember_if_ok in H1 as (Hc1 & Hu1 & _ & Hlive1).
  apply mbind_ok in H as (id & w2 & H2 & H).
  apply map_errM_ok, ValidateMFACode_ok in H2 as (Hc2 & Hu2 & Hno & m & Hlive & ->).
  apply mbind_ok in H as (user & w3 & H3 & H). apply map_errM_ok, get_user_ok in H3 as (R3 & Hid & u & Hu & Hau).
  apply generate_ok in H as [R4 Htok].
  assert (Hdb : w_db w' = w_db w2) by (destruct R3, R4; congruence). rewrite Hdb.
  destruct (Hlive1 m Hlive) as (m0 & Hm0 & Hsame). split; [|split; [done|]].
  - exists m0, u. unfold active_user in *. rewrite Hu2, Hu1 in Hu. rewrite Hau, Hsame. rewrite Hid in Htok. done.
  - intros ctx' remember' w0 Hw0. rewrite <- Hdb in Hw0. destruct (AuthenticateMFA _ _ _ _ _ _) as [[tok|e] wx] eqn:Ex; [|done].
    exfalso. unfold AuthenticateMFA in Ex. fold (remember_if deviceID code remember') in Ex.
    apply mbind_ok in Ex as (u' & w4 & H4 & Ex). apply remember_if_ok in H4 as (_ & _ & Hkeep & _).
    apply mbind_ok in Ex as (id' & w5 & H5 & _). apply map_errM_ok in H5. revert H5.
    apply ValidateMFACode_none, Hkeep. by rewrite Hw0, Hdb.
Qed.

(** ** An expired code *)

Lemma device_codes_update p f rows :
  (forall m, DeviceID (f m) = DeviceID m /\ MFA_Code (f m) = MFA_Code m) ->
  device_codes (update_where p f rows) = device_codes rows.
Proof.
  intros Hf. unfold device_codes, update_where. induction rows as [|m rows IH]; [done|]. cbn.
  destruct (Hf m) as [Hd Hc]. destruct (p m); cbn; rewrite ?Hd, ?Hc; destruct (MFA_Code m); cbn; by rewrite IH.
Qed.

(** Only the expiry of devices changes: the constraints stay met. *)
Lemma set_device_expiry_ok users p expiry rows :
  mfa_codes_ok users rows -> mfa_codes_ok users (update_where p (fun m => m <| DeviceExpiresAt := expiry |>) rows).
Proof.
  intros (Hk & Hc & Hf). split_and!.
  - by rewrite update_where_proj.
  - by rewrite device_codes_update.
  - rewrite Forall_forall in Hf |- *. intros m Hm. apply update_where_in in Hm as (x & Hx & ->).
    specialize (Hf x Hx). by destruct (p x).
Qed.

(** Keys find their row. *)
Lemma row_by_key {A K} (key : A -> K) (p : A -> bool) rows x :
  NoDup (map key rows) -> (forall y, p y = true -> key y = key x) -> p x = true -> x ∈ rows ->
  first_such p rows = Some x.
Proof.
  intros Hnd Hp Hx Hin. induction rows as [|a rows IH]; [by apply elem_of_nil in Hin|].
  cbn in *. apply NoDup_cons in Hnd as [Ha Hnd]. apply elem_of_cons in Hin as [->|Hin]; [by rewrite Hx|].
  destruct (p a) eqn:Ea; [|by apply IH]. destruct Ha. rewrite (Hp a Ea). apply list_elem_of_fmap. eauto.
Qed.

Lemma row_by_code deviceID code rows m :
  NoDup (device_codes rows) -> m ∈ rows -> of_device_and_code deviceID code m = true ->
  first_such (of_device_and_code deviceID code) rows = Some m.
Proof.
  assert (Hof : forall x, of_device_and_code deviceID code x = true <-> DeviceID x = deviceID /\ MFA_Code x = Some code).
  { intros x. unfold of_device_and_code. by rewrite andb_true_iff, eqb_true, bool_decide_eq_true. }
  intros Hnd Hin Hm. induction rows as [|a rows IH]; [by apply elem_of_nil in Hin|].
  cbn. apply elem_of_cons in Hin as [->|Hin]; [by rewrite Hm|].
  unfold device_codes in Hnd. cbn in Hnd. destruct (of_device_and_code deviceID code a) eqn:Ea.
  - apply Hof in Ea as [Hda Hca]. rewrite Hca in Hnd. cbn in Hnd. apply NoDup_cons in Hnd as [Ha _]. destruct Ha.
    apply list_elem_of_omap. exists m. split; [done|]. apply Hof in Hm as [Hdm Hcm]. rewrite Hcm. cbn. congruence.
  - apply IH; [|done]. destruct (MFA_Code a); cbn in Hnd; [by apply NoDup_cons in Hnd as [_ Hnd]|done].
Qed.

Definition expires_in (deviceID userID : string) (t : nat) (db : AuthDb) : Prop :=
  exists m, m ∈ auth_user_mfa_codes db /\ DeviceID m = deviceID /\ MFA_UserID m = userID /\
    DeviceExpiresAt m = Some (env_now t + mfaDeviceExpiryHours)%Z.

Section no_faults.
Context (Hfaults : forall t, env_fault t = NoFault).

Lemma remember_run deviceID code w :
  w_tx w = ∅ -> deviceID <> "" -> code <> "" -> mfa_codes_ok (auth_users (auth w)) (auth_user_mfa_codes (auth w)) ->
  exists w', remember_if deviceID code true w = (Ok tt, w') /\
    auth w' = (auth w) <| auth_user_mfa_codes := update_where (of_device_and_code deviceID code)
      (fun m => m <| DeviceExpiresAt := Some (env_now (w_clock w) + mfaDeviceExpiryHours)%Z |>)
      (auth_user_mfa_codes (auth w)) |>.
Proof using Hcalm Hfaults AuL.
  intros Htx Hd Hc Hok. unfold remember_if, RememberDevice, resetDeviceExpiry, wrapM, map_errM.
  apply eqb_false in Hd, Hc. rewrite Hd, Hc. cbn [orb]. unfold mbind_, ask.
  pose proof (settle_tx w) as Ht. rewrite Htx in Ht.
  rewrite (db_stmt_run _ _ Ht (Hfaults _)). rewrite !(calm_settle Hcalm).
  unfold UpdateMfaCodes, check_mfa_codes. rewrite decide_True by (cbn; by apply set_device_expiry_ok).
  eexists. split; [reflexivity|]. cbn. by rewrite conn_get_set.
Qed.

Lemma validate_expired deviceID code w m exp :
  deviceID <> "" -> code <> "" ->
  first_such (of_device_and_code deviceID code) (auth_user_mfa_codes (auth w)) = Some m ->
  CodeExpiresAt m = Some exp -> (forall t, (exp <= env_now t)%Z) ->
  exists e w', ValidateMFACode deviceID code w = (Err e, w') /\ errors_Is_err e ErrMFACodeInvalid = true /\
    w_db w' = w_db w.
Proof using Hcalm Hfaults AuL.
  intros Hd Hc Hm He Hexp. apply eqb_false in Hd, Hc. unfold ValidateMFACode, RunInTransactionWithResult.
  rewrite Hfaults. set (w1 := set_tx _ _).
  assert (Ht1 : w_tx w1 !! conn_id AuthDb = Some (mkTx false (env_now (w_clock w)) (w_db (settle w))))
    by (unfold w1; cbn; by rewrite lookup_partial_alter_eq).
  unfold beside_idle at 1. rewrite Ht1. set (w2 := set_tx (X := AuthDb) None w1).
  assert (Ht2 : w_tx w2 !! conn_id AuthDb = None) by (unfold w2; cbn; by rewrite lookup_partial_alter_eq).
  assert (Hdb2 : w_db w2 = w_db w) by apply (calm_settle Hcalm w).
  destruct (Get_run Hcalm (X := AuthDb) (fun _ db => first_such (of_device_and_code deviceID code)
    (auth_user_mfa_codes db)) w2 Ht2 (Hfaults _)) as (w3 & [Hdb3 _] & _ & Hget).
  rewrite Hdb2, Hm in Hget.
  assert (Hv : exists w4, validate_code deviceID code w2 = (Err ErrMFACodeInvalid, w4) /\ w_db w4 = w_db w).
  { unfold validate_code, mbind_ at 1, try_, getByDeviceAndCode, no_rows_as, map_errM. rewrite Hd, Hc. cbn [orb].
    rewrite Hget. cbn. rewrite He. apply first_such_some in Hm as [_ Hof].
    apply andb_true_iff in Hof as [_ Hof]. apply bool_decide_eq_true in Hof. rewrite Hof. cbn.
    rewrite eqb_same. unfold mbind_ at 1, ask. destruct (Z.ltb_spec (env_now (w_clock w3)) exp) as [Hlt|Hge].
    - specialize (Hexp (w_clock w3)). lia.
    - eexists. split; [reflexivity|]. rewrite (calm_settle Hcalm). congruence. }
  destruct Hv as (w4 & -> & Hdb4). eexists _, _. split; [reflexivity|]. split; [done|]. cbn.
  unfold snapshot. cbn. rewrite lookup_partial_alter_eq. cbn. rewrite Hdb4. apply conn_set_get.
Qed.

(** A code that has expired is refused, but before it is looked at it has already
    made the server remember the device: until seven days later a login from that
    device with the password alone gets a token. *)
Theorem expired_code_remembers_device ctx deviceID code w m exp
    (Htx : w_tx w = ∅) (Hdevice : deviceID <> "") (Hcode : code <> "")
    (Hok : mfa_codes_ok (auth_users (auth w)) (auth_user_mfa_codes (auth w)))
    (Hm : m ∈ auth_user_mfa_codes (auth w)) (Hof : of_device_and_code deviceID code m = true)
    (Hexp : CodeExpiresAt m = Some exp) (Hpast : forall t, (exp <= env_now t)%Z) :
  exists e w', AuthenticateMFA am ctx deviceID code true w = (Err e, w') /\
    errors_Is_err e ErrMFACodeInvalid = true /\
    expires_in deviceID (MFA_UserID m) (w_clock w) (auth w') /\
    forall w2, auth w2 = auth w' -> w_tx w2 = ∅ ->
      (forall t, env_now t <= env_now (w_clock w) + mfaDeviceExpiryHours)%Z ->
      MFA_UserID m <> "" ->
      fst (MFADeviceRemembered deviceID (MFA_UserID m) w2) = Ok true.
Proof using Hcalm Hfaults AuL.
  destruct (remember_run deviceID code w Htx Hdevice Hcode Hok) as (w1 & H1 & Hdb1).
  set (m1 := m <| DeviceExpiresAt := Some (env_now (w_clock w) + mfaDeviceExpiryHours)%Z |>).
  assert (Hok1 : mfa_codes_ok (auth_users (auth w1)) (auth_user_mfa_codes (auth w1)))
    by (rewrite Hdb1; cbn; by apply set_device_expiry_ok).
  assert (Hm1 : m1 ∈ auth_user_mfa_codes (auth w1)).
  { rewrite Hdb1. cbn. apply list_elem_of_fmap. exists m. by rewrite Hof. }
  destruct Hok1 as (Hkeys & Hcodes & _).
  destruct (validate_expired deviceID code w1 m1 exp Hdevice Hcode) as (e & w' & H2 & He & Hdb2);
    [by apply row_by_code|done|done|].
  pose proof Hof as Hof'. apply andb_true_iff in Hof' as [Hdm _]. apply eqb_true in Hdm.
  exists (EWrap "error validating MFA code" e), w'. split; [|split; [exact He|split]].
  - unfold AuthenticateMFA. fold (remember_if deviceID code true). unfold mbind_ at 1. rewrite H1.
    unfold mbind_ at 1, wrapM, map_errM. by rewrite H2.
  - rewrite Hdb2. by exists m1.
  - intros w2 Hw2 Htx2 Hsoon Huser. unfold MFADeviceRemembered, mbind_ at 1, try_, getByDeviceAndUser, no_rows_as, map_errM.
    apply eqb_false in Hdevice, Huser. rewrite Hdevice, Huser. cbn [orb].
    destruct (Get_run Hcalm (X := AuthDb) (fun _ db => first_such (of_device_and_user deviceID (MFA_UserID m))
      (auth_user_mfa_codes db)) w2 (eq_trans (f_equal (lookup _) Htx2) (lookup_empty _)) (Hfaults _))
      as (w3 & _ & _ & Hget).
    rewrite Hget, Hw2, Hdb2. clear Hget.
    rewrite (row_by_key (fun m => (DeviceID m, MFA_UserID m)) _ _ m1 Hkeys); [|..|done].
    + cbn. unfold mbind_, ask. cbn. specialize (Hsoon (w_clock w3)). by destruct (Z.ltb_spec
        (env_now (w_clock w) + mfaDeviceExpiryHours)%Z (env_now (w_clock w3))); [lia|].
    + intros y Hy. apply andb_true_iff in Hy as [Hy1 Hy2]. apply eqb_true in Hy1, Hy2. cbn. congruence.
    + unfold of_device_and_user. cbn. by rewrite Hdm, !eqb_same.
Qed.
End no_faults.

(** ** Asking for a new password *)

Lemma random_length {CRL : CryptoRandLaws} n charset w s w' :
  StringWithCharset n charset w = (Ok s, w') -> String.length s = n.
Proof.
  revert w s w'. induction n as [|n IH]; intros w s w'; cbn [StringWithCharset]; [by intros [= <- _]|].
  intros H. apply mbind_ok in H as (k & w1 & _ & H). destruct (String.get _ _); [|done].
  apply mbind_ok in H as (rest & w2 & Hrest & H). injection H as <- _. cbn. by rewrite (IH _ _ _ Hrest).
Qed.

Lemma reads_random n charset : respects read_only (StringWithCharset n charset : M string).
Proof using Hcalm. induction n; cbn [StringWithCharset]; reads. exact IHn. Qed.

(** A token that is not valid resets nothing. *)
Lemma reset_needs_valid token password w :
  Forall (fun r => (PR_Token r =? token) && PR_IsValid r = false) (auth_user_password_reset (auth (settle w))) ->
  is_ok (fst (ResetPassword token password w : res unit * World D L Ev)) = false.
Proof using AuL.
  intros Hno. destruct (ResetPassword token password w) as [[u|e] w'] eqn:Hrun; [|done]. exfalso.
  apply RunInTransaction_ok in Hrun as (w1 & w2 & H & Htx & Hdb & _). unfold reset_password_body, no_rows_as in H.
  apply mbind_ok in H as (r & w3 & H & _). apply map_errM_ok, (GetContext_in_tx _ _ _ _ Htx) in H
    as (cx & x & Hq & _). rewrite Hdb in Hq. injection Hq as Hq _. apply first_such_some in Hq as [Hin Hr].
  rewrite Forall_forall in Hno. by rewrite (Hno r Hin) in Hr.
Qed.

(** A request for a new password is granted to the user of the email who has no live
    token; the new token is then their only valid one, and a token they were sent
    earlier resets nothing any more. *)
Theorem new_reset_token_replaces_old {CRL : CryptoRandLaws} email token w w'
    (Hrun : ForgotPassword email w = (Ok token, w')) :
  String.length token = resetTokenLength /\
  exists u now, u ∈ auth_users (auth w) /\ AU_Email u = TrimSpace (ToLower email) /\
    Forall (fun r => PR_UserID r = AU_ID u -> live_reset now r = false) (auth_user_password_reset (auth w)) /\
    (exists now', mkPasswordReset token (AU_ID u) true now' ∈ auth_user_password_reset (auth w')) /\
    Forall (fun r => PR_UserID r = AU_ID u -> PR_IsValid r = true -> PR_Token r = token)
      (auth_user_password_reset (auth w')) /\
    forall old password w2, old <> token -> auth (settle w2) = auth w' ->
      (exists r, r ∈ auth_user_password_reset (auth w') /\ PR_Token r = old /\ PR_UserID r = AU_ID u) ->
      is_ok (fst (ResetPassword old password w2 : res unit * World D L Ev)) = false.
Proof using Hcalm AuL.
  unfold ForgotPassword in Hrun. destruct (_ =? _)%string; [done|].
  apply mbind_ok in Hrun as (tok & w1 & H1 & H). apply map_errM_ok in H1.
  pose proof (random_length _ _ _ _ _ H1) as Hlen.
  pose proof (reads_ok _ _ _ _ (reads_random _ _) H1) as [Hdb1 _].
  apply mbind_ok in H as (live & w2 & H2 & H). apply map_errM_ok in H2.
  pose proof (reads_ok _ _ _ _ (reads_stmt Hcalm (X := AuthDb) _) H2) as [Hdb2 _].
  apply (stmt_ok Hcalm) in H2 as [_ (cx & Hq & _)]. injection Hq as Hlive _. destruct live; [done|].
  apply mbind_ok in H as (n & w3 & H3 & H). apply map_errM_ok, (stmt_ok Hcalm) in H3 as [_ (cx' & Hq & _)].
  rewrite Hdb2, Hdb1 in Hq. rewrite Hdb1 in Hlive. unfold insert_reset_for in Hq.
  destruct (first_such _ _) as [u|] eqn:Hu; [|injection Hq as <- _; done].
  apply first_such_some in Hu as [Hin He]. apply eqb_true in He.
  unfold check_resets in Hq. destruct (decide (resets_ok _)) as [Hok|]; [|done]. injection Hq as <- Hw'.
  injection H as <- <-. split; [done|]. exists u, (NOW cx). split_and!; [done|done| | | |].
  - apply Forall_forall. intros r Hr Hru. apply not_true_iff_false. intros Hl.
    assert (Ht : existsb (fun r => live_reset (NOW cx) r && existsb (fun u => (AU_ID u =? PR_UserID r) &&
      (AU_Email u =? TrimSpace (ToLower email))) (auth_users (auth w))) (auth_user_password_reset (auth w)) = true).
    { apply existsb_exists. exists r. split; [by apply list_elem_of_In|]. rewrite Hl. cbn. apply existsb_exists.
      exists u. split; [by apply list_elem_of_In|]. by rewrite Hru, He, !eqb_same. }
    congruence.
  - rewrite <- Hw'. cbn. unfold insert_reset. exists (NOW cx'). apply elem_of_app. right. by left.
  - rewrite <- Hw'. cbn. apply Forall_app. split; [|by apply Forall_singleton].
    apply Forall_forall. intros r Hr. apply update_where_in in Hr as (x & Hx & ->).
    destruct (PR_UserID x =? AU_ID u)%string eqn:Ex; [done|]. apply eqb_false in Ex. done.
  - intros old password w4 Hne Hw4 (r0 & Hr0 & Ht0 & Hu0). apply reset_needs_valid. rewrite Hw4.
    rewrite <- Hw' in Hr0 |- *. cbn in Hr0, Hok |- *. apply Forall_forall. intros r Hr.
    apply not_true_iff_false. intros Hv. apply andb_true_iff in Hv as [Ht Hv]. apply eqb_true in Ht.
    assert (r = r0) as ->.
    { destruct Hok as [Hnd _].
      pose proof (first_such_unique PR_Token old _ r Hnd Hr Ht) as Er.
      rewrite (first_such_unique PR_Token old _ r0 Hnd Hr0 Ht0) in Er. congruence. }
    unfold insert_reset in Hr. apply elem_of_app in Hr as [Hr|Hr].
    + apply update_where_in in Hr as (x & Hx & ->). destruct (PR_UserID x =? AU_ID u)%string eqn:Ex; [done|].
      apply eqb_false in Ex. done.
    + apply list_elem_of_singleton in Hr as ->. done.
Qed.
End calm.

(** ** Resetting a password *)

Lemma ask_in_tx {A} (f : nat -> A) w a w' :
  in_tx (X := AuthDb) w -> ask f w = (Ok a, w') -> in_tx (X := AuthDb) w' /\ w_db w' = w_db w /\ a = f (w_clock w).
Proof.
  intros Htx [= <- <-]. destruct (in_tx_settle w Htx) as [Hdb Ht]. split_and!; [|done|done].
  destruct Htx as (now & saved & Htx). exists now, saved. by rewrite Ht.
Qed.

Definition opens_with (u : AuthUser) (password : string) : Prop :=
  bcrypt_CompareHashAndPassword (AU_EncryptedPassword u) password = Ok tt.

(** C15: A password is reset only by a token that is valid and at most twenty minutes old;
    the new password, of a length the rules allow, is then that of the token's user and
    of nobody else, and the token resets nothing any more. *)
Theorem reset_token_is_single_use token password w u w'
    (Hrun : ResetPassword token password w = (Ok u, w')) :
  hasLength password = true /\
  (exists r t, r ∈ auth_user_password_reset (auth (settle w)) /\ PR_Token r = token /\ PR_IsValid r = true /\
     (env_now t <= PR_CreatedAt r + resetTokenLife)%Z /\
     forall id, match lookup_user id (auth (settle w)), lookup_user id (auth w') with
                | Some before, Some after =>
                  if decide (id = PR_UserID r) then opens_with after password else after = before
                | None, None => True
                | _, _ => False
                end) /\
  forall password' w2, auth (settle w2) = auth w' ->
    is_ok (fst (ResetPassword token password' w2 : res unit * World D L Ev)) = false.
Proof using AuL BL.
  apply RunInTransaction_ok in Hrun as (w1 & w2 & H & Htx & Hdb & Hw'). rewrite Hw'. clear Hw'.
  unfold reset_password_body, no_rows_as in H. rewrite <- Hdb.
  apply mbind_ok in H as (r & w3 & H1 & H). apply map_errM_ok, (GetContext_in_tx _ _ _ _ Htx) in H1
    as (cx & x & Hq & -> & Htx3). injection Hq as Hr <-. apply first_such_some in Hr as [Hin Hr].
  apply andb_true_iff in Hr as [Ht Hv]. apply eqb_true in Ht.
  set (w3 := put_part _ _) in *.
  assert (Hdb3 : w_db w3 = w_db w1).
  { unfold w3. cbn. rewrite (proj1 (in_tx_settle w1 Htx)). apply conn_set_get. }
  apply mbind_ok in H as (now & w4 & H4 & H). apply ask_in_tx in H4 as (Htx4 & Hdb4 & ->); [|done].
  destruct (Z.ltb_spec (PR_CreatedAt r + resetTokenLife)%Z (env_now (w_clock w3))) as [|Hage]; [done|].
  apply mbind_ok in H as (h & w5 & H5 & H). apply map_errM_ok, Encrypt_ok in H5 as (-> & Hlen & Hh).
  destruct (in_tx_settle w4 Htx4) as [Hdb5 Htx5].
  assert (Htxs : in_tx (X := AuthDb) (settle w4)).
  { destruct Htx4 as (now & saved & Htx4). exists now, saved. by rewrite Htx5. }
  apply mbind_ok in H as (n & w6 & H6 & H). apply map_errM_ok, (db_stmt_in_tx _ _ _ _ Htxs) in H6
    as (cx6 & x6 & Hq6 & -> & Htx6). rewrite Hdb5, Hdb4, Hdb3 in Hq6.
  unfold UpdateUsers, check_users in Hq6. destruct (decide _); [|done]. destruct (decide _); [|done].
  injection Hq6 as _ <-. apply map_errM_ok, map_errM_ok, (db_stmt_in_tx _ _ _ _ Htx6) in H
    as (cx7 & x7 & Hq7 & -> & _). cbn in Hq7. rewrite conn_get_set in Hq7.
  unfold check_resets in Hq7. destruct (decide _); [|done]. injection Hq7 as _ <-. cbn in Hage |- *.
  rewrite !conn_get_set. split; [done|]. split.
  - exists r, (w_clock w3). split_and!; [done|done|done|done|]. intros id. unfold lookup_user. cbn.
    rewrite first_such_update by done.
    destruct (first_such _ (auth_users (auth w1))) as [before|] eqn:E0; [|done]. cbn.
    apply first_such_some in E0 as [_ E0]. apply eqb_true in E0. subst id.
    destruct (String.eqb_spec (AU_ID before) (PR_UserID r)) as [->|Hne]; [by rewrite decide_True|by rewrite decide_False].
  - intros password' w0 Hw0. apply reset_needs_valid. rewrite Hw0. cbn. apply Forall_forall. intros r' Hr'.
    apply update_where_in in Hr' as (x & _ & ->). destruct (PR_Token x =? token)%string eqn:Ex; cbn.
    + by rewrite andb_false_r.
    + by rewrite Ex.
Qed.
End safety.

(** ** Witnesses *)

Module AuthCases.
Export AuthWorld.
Definition calm : forall t (d : Dbs), env_interfere t d = d := fun _ _ => eq_refl.
Definition no_fault : forall t, env_fault (D := Dbs) t = NoFault := fun _ => eq_refl.

Definition login (w : World Dbs unit (string * Message)) := Login am true false (Some tenant) "device" (Ok login_request) w.
Definition mfa remember (w : World Dbs unit (string * Message)) := AuthenticateMFA am (Some tenant) "device" "123456" remember w.
Definition before_login := world [] [remembered_device].
Definition before_mfa := world [] [code_of 1000].
Definition before_forgot := world [mkPasswordReset "old" "u1" true (- 60 * Minute)] [].
Definition before_reset := world [mkPasswordReset "new" "u2" true 0] [].
Definition issued : string :=
  match fst (ForgotPassword " Alice@org.example" before_forgot) with Ok token => token | Err _ => "" end.
Definition with_expired_code : World Dbs unit (string * Message) := world [] [code_of 0].
End AuthCases.
Import AuthCases.


Lemma mfa_code_is_single_use_witness :
  exists token w', mfa true before_mfa = (Ok token, w') /\
    is_ok (fst (mfa false w')) = false.
Proof.
  eexists _, _. split; [vm_compute; reflexivity|].
  edestruct (mfa_code_is_single_use (E := env) (AuC := auth_conn) (AuL := auth_laws) am calm
    (Some tenant) "device" "123456" true before_mfa) as (_ & _ & H); [vm_compute; reflexivity|].
  apply H. reflexivity.
Defined.

Lemma expired_code_remembers_device_witness :
  exists e w', mfa true with_expired_code = (Err e, w') /\ errors_Is_err e ErrMFACodeInvalid = true /\
    expires_in "device" "u1" 0 (conn_get (w_db w')).
Proof.
  destruct (expired_code_remembers_device (E := env) (AuC := auth_conn) (AuL := auth_laws) am calm no_fault
    (Some tenant) "device" "123456" with_expired_code (code_of 0) 0) as (e & w' & H1 & H2 & H3 & _);
    [done|done|done|by_computation|by left|done|done|cbn; lia|].
  exists e, w'. split; [exact H1|]. split; [exact H2|exact H3].
Defined.

Lemma new_reset_token_replaces_old_witness :
  exists w', ForgotPassword " Alice@org.example" before_forgot = (Ok issued, w') /\
    is_ok (fst (ResetPassword "old" "C0rrect&horse" w' : res unit * _)) = false.
Proof.
  eexists. split; [vm_compute; reflexivity|].
  edestruct (new_reset_token_replaces_old (E := env) (AuC := auth_conn) (AuL := auth_laws) calm
    " Alice@org.example" issued before_forgot) as (_ & u & now & Hu & He & _ & _ & _ & H); [vm_compute; reflexivity|].
  apply H; [discriminate|reflexivity|].
  assert (Hid : AU_ID u = "u1").
  { apply elem_of_cons in Hu as [->|Hu]; [done|]. apply list_elem_of_singleton in Hu as ->. vm_compute in He. discriminate. }
  exists (mkPasswordReset "old" "u1" false (- 60 * Minute)). split; [by left|]. split; [done|]. by rewrite Hid.
Defined.

Lemma reset_token_is_single_use_witness :
  exists w', ResetPassword "new" "N3w!password" before_reset = (Ok tt, w') /\
    is_ok (fst (ResetPassword "new" "An0ther#password" w' : res unit * _)) = false.
Proof.
  eexists. split; [vm_compute; reflexivity|].
  edestruct (reset_token_is_single_use (E := env) (AuC := auth_conn) (AuL := auth_laws)
    "new" "N3w!password" before_reset tt) as (_ & _ & H); [vm_compute; reflexivity|].
  apply H. reflexivity.
Defined.
