(* ===== verification/AuthInvariants.v ===== *)
(** The tables of the users stay well formed: what every operation of the staff's accounts
    keeps, whatever fails and whoever else writes. *)

From S2P Require Import Prelude GoStrings Errors Effects Transactions TxStore Limiter PaymentStore ReceiverStore.
From S2P Require Import Validators Registration Tenant Passwords Authenticator AuthManager AuthWorld.
From Stdlib Require Import Ascii String.

Local Open Scope string_scope.
Local Open Scope list_scope.
Local Open Scope go_scope.

Section invariants.
Context {D L Ev : Type} {E : Env D} {AuC : Conn D AuthDb} {AuL : ConnLaws D AuthDb}.
Context {B : Bcrypt} {BL : BcryptLaws} {CR : CryptoRand} {U : UuidGen} {J : JwtLibrary}.
Context (am : AuthSettings).
Implicit Types w : World D L Ev.
Abbreviation M := (M D L Ev).

(** An email in the one form it is looked up in. *)
Definition canonical_email (e : string) : Prop :=
  rxEmail e = true /\ exists given, e = TrimSpace (ToLower given).

(** The hash of a password of an allowed length. *)
Definition password_hash (h : string) : Prop :=
  exists password, hasLength password = true /\ bcrypt_CompareHashAndPassword h password = Ok tt.

Definition user_ok (u : AuthUser) : Prop := canonical_email (AU_Email u) /\ password_hash (AU_EncryptedPassword u).

Record auth_ok (db : AuthDb) : Prop := {
  ok_users : users_ok (auth_users db);
  ok_emails : NoDup (map AU_Email (auth_users db));
  ok_user : Forall user_ok (auth_users db);
  ok_resets : resets_ok (auth_user_password_reset db);
  ok_owners : Forall (fun r => PR_UserID r ∈ map AU_ID (auth_users db)) (auth_user_password_reset db);
  ok_codes : mfa_codes_ok (auth_users db) (auth_user_mfa_codes db) }.

Context (Hothers : forall t (d : D), auth_ok (conn_get d) -> auth_ok (conn_get (env_interfere t d))).
Abbreviation kept m := (keeps auth_ok m).

Lemma more_users users users' codes :
  map AU_ID users ⊆ map AU_ID users' -> mfa_codes_ok users codes -> mfa_codes_ok users' codes.
Proof.
  intros Hsub (H1 & H2 & H3). split_and!; [done|done|]. eapply Forall_impl; [exact H3|]. cbn. intros m [? ?]. auto.
Qed.

(** An update of the users. *)
Lemma users_updated p f ctx db a db' :
  (forall u, AU_ID (f u) = AU_ID u) -> (forall u, user_ok u -> user_ok (f u)) ->
  auth_ok db -> UpdateUsers p f ctx db = Ok (a, db') -> auth_ok db'.
Proof.
  intros Hid Hf Hok Hq. unfold UpdateUsers, check_users in Hq. destruct (decide _) as [Hu|]; [|done].
  destruct (decide _) as [He|]; [|done]. injection Hq as _ <-.
  assert (Hids : map AU_ID (update_where p f (auth_users db)) = map AU_ID (auth_users db))
    by (apply update_where_proj; auto).
  split; cbn; [done|done| |apply Hok| |].
  - apply Forall_fmap. eapply Forall_impl; [apply (ok_user _ Hok)|]. intros u Hu'. cbn. destruct (p u); auto.
  - rewrite Hids. apply Hok.
  - apply (more_users (auth_users db)); [by rewrite Hids|apply Hok].
Qed.

Lemma kept_affected (m : M nat) : kept m -> kept (affected m).
Proof. intros Hm. apply keeps_bind; [done|]. intros n. destruct (n =? 0)%nat; apply keeps_still. Qed.

Lemma kept_update p f : (forall u, AU_ID (f u) = AU_ID u) -> (forall u, user_ok u -> user_ok (f u)) ->
  kept (db_stmt (UpdateUsers p f) : M nat).
Proof using Hothers AuL.
  intros Hid Hf. apply keeps_stmt; [done|]. intros ctx x a x' Hx Hq. by eapply users_updated.
Qed.

Lemma kept_lift_bind {A T} f (r : res A) (k : A -> M T) :
  (forall a, r = Ok a -> kept (k a)) -> kept (mbind_ (map_errM f (lift r)) k).
Proof.
  intros Hk. destruct r as [a|e]; [|by intros w Hw]. specialize (Hk a eq_refl). exact Hk.
Qed.

Lemma kept_get {A} (f : AuthDb -> option A) : kept (GetContext (X := AuthDb) (fun _ db => Ok (f db, db)) : M A).
Proof using Hothers AuL. apply keeps_GetContext; [done|]. by intros ctx x a x' Hx [= _ <-]. Qed.

Ltac kept_step :=
  first
    [ apply kept_get | apply keeps_bind; [|intros ?] | apply keeps_map_err | apply keeps_try | apply keeps_still
    | match goal with |- keeps _ (if ?b then _ else _) => destruct b end
    | match goal with |- keeps _ (match ?x with _ => _ end) => destruct x end
    | by apply keeps_ask | by apply keeps_ask_res ].
Ltac kept_ := repeat kept_step.

Lemma kept_random n charset : kept (StringWithCharset n charset : M string).
Proof using Hothers. induction n; cbn [StringWithCharset]; kept_. exact IHn. Qed.

Lemma kept_encrypt password : kept (Encrypt password : M string).
Proof using Hothers. unfold Encrypt. kept_. Qed.

Lemma encrypted password w h w' : Encrypt password w = (Ok h, w') -> password_hash h.
Proof using BL. intros H. apply Encrypt_ok in H as (_ & Hlen & Hh). by exists password. Qed.

Lemma encrypted_wrap f password w h w' : map_errM f (Encrypt password) w = (Ok h, w') -> password_hash h.
Proof using BL. intros H. apply map_errM_ok in H. by eapply encrypted. Qed.

Lemma valid_email given :
  Auth_ValidateEmail (TrimSpace (ToLower given)) = Ok tt -> canonical_email (TrimSpace (ToLower given)).
Proof.
  unfold Auth_ValidateEmail. destruct (_ =? _)%string; [done|]. intros H. apply guard_err_ok in H.
  split; [by apply negb_false_iff|eauto].
Qed.

Lemma sanitized user user' : SanitizeAndValidate user = Ok user' -> canonical_email (U_Email user').
Proof.
  unfold SanitizeAndValidate. cbn. destruct (_ =? _)%string; [done|]. intros H.
  apply res_bind_ok in H as ([] & H1 & H). destruct (_ =? _)%string; [done|]. destruct (_ =? _)%string; [done|].
  injection H as <-. cbn. apply valid_email. by destruct (Auth_ValidateEmail _) as [[]|].
Qed.

(** ** The operations of the authenticator *)

Lemma kept_CreateUser user password : kept (CreateUser user password : M User).
Proof using Hothers AuL BL.
  unfold CreateUser. apply kept_lift_bind. intros user' Huser. apply sanitized in Huser.
  apply keeps_bind; [unfold password_or_random; kept_; apply kept_random|]. intros pw.
  apply (keeps_bind_where _ password_hash); [apply keeps_map_err, kept_encrypt|intros w h w'; apply encrypted_wrap|].
  intros h Hh. apply keeps_bind; [|intros id; apply keeps_still]. apply keeps_map_err, keeps_GetContext; [done|].
  intros ctx db a db' Hok Hq. unfold insert_user, check_users in Hq. destruct (decide _) as [Hu|]; [|done].
  destruct (decide _) as [He|]; [|done]. injection Hq as _ <-.
  assert (Hsub : forall new, map AU_ID (auth_users db) ⊆ map AU_ID (auth_users db ++ [new])).
  { intros new x Hx. rewrite map_app. apply elem_of_app. by left. }
  split; cbn; [done|done| |apply Hok| |].
  - apply Forall_app. split; [apply Hok|]. apply Forall_singleton. by split.
  - eapply Forall_impl; [apply (ok_owners _ Hok)|]. intros r Hr. by apply Hsub.
  - apply (more_users (auth_users db)); [apply Hsub|apply Hok].
Qed.

Lemma fields_id f l e h u : AU_ID (set_user_fields f l e h u) = AU_ID u.
Proof. unfold set_user_fields. destruct (_ <>? _), (_ <>? _), (_ <>? _), h; done. Qed.

Lemma fields_ok f l e h u :
  (e <> "" -> canonical_email e) -> (forall x, h = Some x -> password_hash x) ->
  user_ok u -> user_ok (set_user_fields f l e h u).
Proof.
  intros He Hh [H1 H2]. unfold set_user_fields, user_ok.
  destruct (f <>? ""), (l <>? ""), (String.eqb_spec e ""), h as [x|]; cbn; split; auto.
Qed.

Lemma kept_UpdateUser id f l e p : kept (UpdateUser id f l e p : M unit).
Proof using Hothers AuL BL.
  unfold UpdateUser. set (email := TrimSpace (ToLower e)). destruct (_ && _ && _ && _); [apply keeps_still|].
  apply (keeps_bind_where _ (fun _ => email <> "" -> canonical_email email)).
  - kept_.
  - intros w a w' H. destruct (String.eqb_spec email ""); [done|]. intros _. cbn in H.
      destruct (Auth_ValidateEmail email) as [[]|] eqn:Hv; [|done]. by apply valid_email.
  - intros _ Hemail. apply (keeps_bind_where _ (fun h => forall x, h = Some x -> password_hash x)).
    + kept_. apply kept_encrypt.
    + intros w h w' H x ->. destruct (_ <>? _); [|done]. apply mbind_ok in H as (h' & w1 & H1 & H).
      injection H as -> _. by eapply encrypted_wrap.
    + intros h Hh. apply kept_affected, keeps_map_err, kept_update; [intros u; apply fields_id|].
      intros u. by apply fields_ok.
Qed.

Lemma kept_is_active id b : kept (updateIsActive id b : M unit).
Proof using Hothers AuL. apply kept_affected, keeps_map_err, kept_update; [done|]. by intros u [? ?]. Qed.

Lemma kept_UpdateRoles user roles : kept (UpdateRoles user roles : M unit).
Proof using Hothers AuL. apply kept_affected, keeps_map_err, kept_update; [done|]. by intros u [? ?]. Qed.

Lemma kept_credentials email password : kept (ValidateCredentials email password : M User).
Proof using Hothers AuL. unfold ValidateCredentials, no_rows_as. kept_. Qed.

Lemma kept_set_password p h : password_hash h ->
  kept (db_stmt (UpdateUsers p (fun u => u <| AU_EncryptedPassword := h |>)) : M nat).
Proof using Hothers AuL. intros Hh. apply kept_update; [done|]. by intros u [? ?]. Qed.

Lemma kept_UpdatePassword user current new : kept (UpdatePassword user current new : M unit).
Proof using Hothers AuL BL.
  unfold UpdatePassword. destruct (_ || _); [apply keeps_still|]. apply keeps_bind; [unfold deref; kept_|intros u].
  apply keeps_bind; [apply keeps_map_err, kept_credentials|intros _].
  apply (keeps_bind_where _ password_hash); [apply keeps_map_err, kept_encrypt|intros w h w'; apply encrypted_wrap|].
  intros h Hh. apply kept_affected, keeps_map_err. by apply kept_set_password.
Qed.

Lemma kept_ForgotPassword email : kept (ForgotPassword email : M string).
Proof using Hothers AuL.
  unfold ForgotPassword. destruct (_ =? _); [apply keeps_still|].
  apply keeps_bind; [apply keeps_map_err, kept_random|intros token].
  apply keeps_bind; [apply keeps_map_err, keeps_stmt; [done|by intros ctx x a x' Hx [= _ <-]]|intros live].
  destruct live; [apply keeps_still|]. apply keeps_bind; [|intros n; destruct (n =? 0)%nat; apply keeps_still].
  apply keeps_map_err, keeps_stmt; [done|]. intros ctx db a db' Hok Hq. unfold insert_reset_for in Hq.
  destruct (first_such _ _) as [u|] eqn:Hu; [|by injection Hq as _ <-]. apply first_such_some in Hu as [Hin _].
  unfold check_resets in Hq. destruct (decide (resets_ok _)) as [Hr|]; [|done]. injection Hq as _ <-.
  split; cbn; [apply Hok|apply Hok|apply Hok|done| |apply Hok].
  unfold insert_reset. apply Forall_app. split.
  - apply Forall_fmap. eapply Forall_impl; [apply (ok_owners _ Hok)|]. intros r Hr'. cbn. by destruct (_ =? _)%string.
  - apply Forall_singleton. cbn. by apply list_elem_of_fmap_2.
Qed.

Lemma kept_ResetPassword token password : kept (ResetPassword token password : M unit).
Proof using Hothers AuL BL.
  apply keeps_tx; [done|]. apply keeps_bind; [apply keeps_map_err, kept_get|intros r].
  apply keeps_bind; [by apply keeps_ask|intros now]. destruct (_ <? _)%Z; [apply keeps_still|].
  apply (keeps_bind_where _ password_hash); [apply keeps_map_err, kept_encrypt|intros w h w'; apply encrypted_wrap|].
  intros h Hh. apply keeps_bind; [apply keeps_map_err; by apply kept_set_password|intros _].
  apply keeps_map_err, keeps_map_err, keeps_stmt; [done|]. intros ctx db a db' Hok Hq. unfold check_resets in Hq.
  destruct (decide _) as [Hr|]; [|done]. injection Hq as _ <-.
  split; cbn; [apply Hok|apply Hok|apply Hok|done| |apply Hok].
  apply Forall_fmap. eapply Forall_impl; [apply (ok_owners _ Hok)|]. intros x Hx. cbn. by destruct (_ =? _)%string.
Qed.

(** ** The second factor *)

Lemma kept_codes (g : AuthDb -> list mfaCode) :
  kept (db_stmt (X := AuthDb) (fun _ db => check_mfa_codes tt (db <| auth_user_mfa_codes := g db |>)) : M unit).
Proof using Hothers AuL.
  apply keeps_stmt; [done|]. intros ctx db a db' Hok Hq. unfold check_mfa_codes in Hq.
  destruct (decide _) as [Hc|]; [|done]. injection Hq as _ <-. split; try apply Hok. exact Hc.
Qed.

Lemma kept_digits n : kept (generate_digits n : M string).
Proof using Hothers. induction n; cbn [generate_digits]; kept_. exact IHn. Qed.

Lemma kept_upsert dev user code : kept (upsertMFACode dev user code : M unit).
Proof using Hothers AuL. unfold upsertMFACode. kept_. apply kept_codes. Qed.

Lemma kept_expire dev code : kept (expireMFACode dev code : M unit).
Proof using Hothers AuL. unfold expireMFACode. kept_. apply kept_codes. Qed.

Lemma kept_GenerateMFACode dev user : kept (GenerateMFACode dev user : M string).
Proof using Hothers AuL.
  unfold GenerateMFACode, generateAndUpdateMFACode, generateMFACode, getByDeviceAndUser, no_rows_as. kept_;
    first [apply kept_digits|apply kept_upsert|apply kept_expire].
Qed.

Lemma kept_ValidateMFACode dev code : kept (ValidateMFACode dev code : M string).
Proof using Hothers AuL.
  apply keeps_tx; [done|]. apply keeps_idle. unfold validate_code, getByDeviceAndCode, no_rows_as. kept_.
  apply kept_expire.
Qed.

Lemma kept_AuthenticateMFA ctx dev code remember : kept (AuthenticateMFA am ctx dev code remember : M string).
Proof using Hothers AuL.
  unfold AuthenticateMFA, RememberDevice, resetDeviceExpiry, generateToken, GenerateToken, GetUserRoles,
    getUserRolesInfo, GetUser, no_rows_as.
  kept_; first [apply kept_codes|apply kept_ValidateMFACode].
Qed.

Lemma kept_ForgetDevice dev user : kept (ForgetDevice dev user : M unit).
Proof using Hothers AuL. unfold ForgetDevice. kept_. apply kept_codes. Qed.

(** ** All of them *)

Inductive AuthOp :=
  | OpCreateUser (user : User) (password : string)
  | OpUpdateUser (id firstName lastName email password : string)
  | OpSetActive (id : string) (isActive : bool)
  | OpForgotPassword (email : string)
  | OpResetPassword (token password : string)
  | OpUpdatePassword (user : option User) (current new : string)
  | OpUpdateRoles (user : User) (roles : list string)
  | OpMFACode (deviceID userID : string)
  | OpAuthenticateMFA (ctx : Context_) (deviceID code : string) (rememberMe : bool)
  | OpForgetDevice (deviceID userID : string).

Definition run_auth_op (op : AuthOp) : M unit :=
  let ignore {A} (m : M A) : M unit := try_ m ;;! mret_ tt in
  match op with
  | OpCreateUser user password => ignore (CreateUser user password)
  | OpUpdateUser id f l e p => ignore (UpdateUser id f l e p)
  | OpSetActive id b => ignore (if b then ActivateUser id else DeactivateUser id)
  | OpForgotPassword email => ignore (RunInTransactionWithResult (X := AuthDb) (ForgotPassword email))
  | OpResetPassword token password => ignore (ResetPassword token password)
  | OpUpdatePassword user current new => ignore (UpdatePassword user current new)
  | OpUpdateRoles user roles => ignore (UpdateRoles user roles)
  | OpMFACode dev user => ignore (GetMFACode dev user)
  | OpAuthenticateMFA ctx dev code remember => ignore (AuthenticateMFA am ctx dev code remember)
  | OpForgetDevice dev user => ignore (ForgetDevice dev user)
  end.

Lemma kept_op op : kept (run_auth_op op).
Proof using Hothers AuL BL.
  assert (Hrun : forall A (m : M A), kept m -> kept (try_ m ;;! mret_ tt)).
  { intros A m Hm. apply keeps_bind; [|intros r; apply keeps_still]. by apply keeps_try. }
  destruct op; apply Hrun.
  - apply kept_CreateUser.
  - apply kept_UpdateUser.
  - destruct isActive; apply keeps_map_err, kept_is_active.
  - apply keeps_tx; [done|]. apply kept_ForgotPassword.
  - apply kept_ResetPassword.
  - apply kept_UpdatePassword.
  - apply kept_UpdateRoles.
  - apply kept_GenerateMFACode.
  - apply kept_AuthenticateMFA.
  - apply kept_ForgetDevice.
Qed.

(** C16: After any operations on accounts, whatever fails and whoever else writes, the
    tables are well formed: emails are unique, valid and in the one form they are looked
    up in, every stored hash opens with a password of an allowed length, a user has at
    most one valid reset token, and a code is that of one user per device. *)
Theorem auth_tables_well_formed ops w (Htx : w_tx w !! conn_id AuthDb = None)
    (Hstart : auth_ok (conn_get (w_db w))) :
  auth_ok (conn_get (w_db (snd (mforM run_auth_op ops w)))).
Proof using Hothers AuL BL.
  assert (Hkept : kept (mforM run_auth_op ops)).
  { apply respects_forM; [apply carries_preorder|]. intros op. apply kept_op. }
  apply (Hkept w). split; [done|]. intros t Ht. congruence.
Qed.
End invariants.

Import AuthWorld.

Definition some_ops : list AuthOp :=
  [OpForgotPassword "bob@org.example"; OpUpdateUser "u2" "" "" "Robert@Org.example" "";
   OpCreateUser (mkUser "" "Eve" "E" "eve@org.example" false false ["business"]) ""].

Lemma start_ok : auth_ok (B := bcrypt) (auth_db [] []).
Proof.
  assert (Hu : forall u p, AU_EncryptedPassword u = "#" +:+ p -> hasLength p = true -> rxEmail (AU_Email u) = true ->
    TrimSpace (ToLower (AU_Email u)) = AU_Email u -> user_ok (B := bcrypt) u).
  { intros u p Hp Hl He Hc. split; [by split; [|exists (AU_Email u)]|]. exists p. split; [done|].
    rewrite Hp. unfold bcrypt_CompareHashAndPassword, bcrypt. by rewrite eqb_same. }
  split; cbn [auth_users auth_user_password_reset auth_user_mfa_codes auth_db].
  - by_computation.
  - by_computation.
  - apply Forall_cons; split; [by apply (Hu _ "Tr0ub4dor&3xyz")|]. apply Forall_singleton. by apply (Hu _ "C0rrect&horse").
  - by_computation.
  - by apply Forall_nil.
  - by_computation.
Qed.

Lemma auth_tables_well_formed_witness :
  auth_ok (B := bcrypt) (conn_get (X := AuthDb) (w_db (snd (mforM (run_auth_op am) some_ops (world [] []))))).
Proof.
  exact (auth_tables_well_formed (AuC := auth_conn) am (fun _ _ H => H) some_ops (world [] []) eq_refl start_ok).
Defined.
