(* ===== verification/NetIP.v ===== *)
(** The addresses of Go's package [net], as the code uses them: [ParseIP], [ParseCIDR],
    [IPNet.Contains] and [SplitHostPort].  An address is its 16 bytes, the last four of
    them where Go takes [To4]. *)

From S2P Require Import Prelude GoStrings Errors ReceiverStore.
From Stdlib Require Import Ascii String.

Local Open Scope string_scope.
Local Open Scope list_scope.

(** ** Parsing addresses: [netip.ParseAddr] *)

(** The loop over the octets: those read, the value and the number of digits of the
    current one, and whether the byte before was a dot or there is none. *)
Fixpoint ipv4_octets (s : list ascii) (fields : list Z) (val : Z) (digLen : nat) (dot : bool) :
    option (list Z) :=
  match s with
  | [] => if (List.length fields <? 3)%nat then None else Some (fields ++ [val])
  | c :: s' =>
    if is_digit c then
      if (digLen =? 1)%nat && (val =? 0)%Z then None
      else
        let val' := (val * 10 + Z.of_nat (code c - 48))%Z in
        if (255 <? val')%Z then None else ipv4_octets s' fields val' (S digLen) false
    else if Ascii.eqb c "." then
      if dot || bool_decide (s' = []) || (List.length fields =? 3)%nat then None
      else ipv4_octets s' (fields ++ [val]) 0 0 true
    else None
  end.

Definition parseIPv4Fields (s : list ascii) : option (list Z) := ipv4_octets s [] 0 0 true.

(** The digits of a group of at most four, and what follows them. *)
Fixpoint hex_group (off : nat) (acc : Z) (s : list ascii) : option (nat * Z * list ascii) :=
  match s with
  | [] => Some (off, acc, [])
  | c :: s' =>
    match hex_digit c with
    | Some d => if (3 <? off)%nat then None else hex_group (S off) (acc * 16 + d) s'
    | None => Some (off, acc, s)
    end
  end.

(** The loop over the eight groups: the bytes read, where the ellipsis is, the rest. *)
Fixpoint ipv6_groups (groups : nat) (s : list ascii) (ip : list Z) (ellipsis : option nat) :
    option (list Z * option nat * list ascii) :=
  match groups with
  | O => Some (ip, ellipsis, s)
  | S groups' =>
    '(off, acc, rest) ← hex_group 0 0 s;
    if (off =? 0)%nat then None
    else
      let ip' := ip ++ [acc / 256; acc mod 256]%Z in
      match rest with
      | [] => Some (ip', ellipsis, [])
      | "."%char :: _ =>
        if bool_decide (ellipsis = None) && negb (List.length ip =? 12)%nat then None
        else if (16 <? List.length ip + 4)%nat then None
        else fields ← parseIPv4Fields s; Some (ip ++ fields, ellipsis, [])
      | ":"%char :: [] => None
      | ":"%char :: ":"%char :: rest' =>
        match ellipsis, rest' with
        | Some _, _ => None
        | None, [] => Some (ip', Some (List.length ip'), [])
        | None, _ => ipv6_groups groups' rest' ip' (Some (List.length ip'))
        end
      | ":"%char :: rest' => ipv6_groups groups' rest' ip' ellipsis
      | _ => None
      end
  end.

Definition expand_ellipsis (ip : list Z) (ellipsis : option nat) : option (list Z) :=
  if (List.length ip <? 16)%nat then
    e ← ellipsis; Some (take e ip ++ replicate (16 - List.length ip) 0%Z ++ drop e ip)
  else match ellipsis with None => Some ip | Some _ => None end.

(** A zone, which no address the code accepts has, is an unexpected byte. *)
Definition parseIPv6 (s : list ascii) : option (list Z) :=
  match s with
  | ":"%char :: ":"%char :: [] => Some (replicate 16 0%Z)
  | _ =>
    let '(s, ellipsis) := match s with
      | ":"%char :: ":"%char :: s' => (s', Some 0%nat)
      | _ => (s, None)
      end in
    '(ip, ellipsis, rest) ← ipv6_groups 8 s [] ellipsis;
    match rest with [] => expand_ellipsis ip ellipsis | _ => None end
  end.

Definition v4InV6Prefix : list Z := replicate 10 0%Z ++ [255; 255]%Z.

(** The number of bits of the text's kind of address, and the 16 bytes; the first dot,
    colon or percent sign decides the kind. *)
Definition ParseAddr (s : string) : option (nat * list Z) :=
  let l := list_ascii_of_string s in
  match List.find (fun c => Ascii.eqb c "." || Ascii.eqb c ":" || Ascii.eqb c "%") l with
  | Some "."%char => (fun ip => (32%nat, v4InV6Prefix ++ ip)) <$> parseIPv4Fields l
  | Some ":"%char => (fun ip => (128%nat, ip)) <$> parseIPv6 l
  | _ => None
  end.

Definition ParseIP (s : string) : option (list Z) := snd <$> ParseAddr s.

(** ** Networks *)

Definition To4 (ip : list Z) : option (list Z) :=
  if (List.length ip =? 4)%nat then Some ip
  else if (List.length ip =? 16)%nat && bool_decide (take 12 ip = v4InV6Prefix) then Some (drop 12 ip)
  else None.

Fixpoint CIDRMask (ones bytes : nat) : list Z :=
  match bytes with
  | O => []
  | S bytes' => (255 - 255 / 2 ^ Z.of_nat (ones `min` 8))%Z :: CIDRMask (ones - 8) bytes'
  end.

Definition and_bytes (a m : list Z) : list Z := zip_with Z.land a m.

Record IPNet := mkIPNet { Net_IP : list Z; Net_Mask : list Z }.

(** [IP(addr16[:]).Mask(m)] for the masks of the two kinds of address. *)
Definition network (bits : nat) (ip16 : list Z) (ones : nat) : IPNet :=
  let m := CIDRMask ones (bits / 8) in
  if (bits =? 32)%nat then mkIPNet (and_bytes (drop 12 ip16) m) m else mkIPNet (and_bytes ip16 m) m.

(** [dtoi] on a whole text: no digit, another byte, or a number of [0xFFFFFF] or more
    fail. *)
Fixpoint dtoi (n : Z) (s : list ascii) : option Z :=
  match s with
  | [] => Some n
  | c :: s' =>
    if is_digit c then
      let n' := (n * 10 + Z.of_nat (code c - 48))%Z in
      if (16777215 <=? n')%Z then None else dtoi n' s'
    else None
  end.

Fixpoint cut_slash (s : string) : option (string * string) :=
  match s with
  | EmptyString => None
  | String c s' =>
    if Ascii.eqb c "/" then Some ("", s')
    else (fun '(before, after) => (String c before, after)) <$> cut_slash s'
  end.

Definition ParseCIDR (s : string) : option IPNet :=
  '(addr, mask) ← cut_slash s;
  '(bits, ip16) ← ParseAddr addr;
  if mask =? "" then None
  else
    n ← dtoi 0 (list_ascii_of_string mask);
    if (Z.of_nat bits <? n)%Z then None else Some (network bits ip16 (Z.to_nat n)).

(** [networkNumberAndMask]. *)
Definition network_number (n : IPNet) : option (list Z * list Z) :=
  match To4 (Net_IP n) with
  | Some ip4 =>
    if (List.length (Net_Mask n) =? 4)%nat then Some (ip4, Net_Mask n)
    else if (List.length (Net_Mask n) =? 16)%nat then Some (ip4, drop 12 (Net_Mask n)) else None
  | None =>
    if (List.length (Net_IP n) =? 16)%nat && (List.length (Net_Mask n) =? 16)%nat
    then Some (Net_IP n, Net_Mask n) else None
  end.

(** [IPNet.Contains]. *)
Definition Net_Contains (n : IPNet) (ip : list Z) : bool :=
  match network_number n with
  | None => false
  | Some (nn, m) =>
    let ip := default ip (To4 ip) in
    bool_decide (List.length ip = List.length nn) && bool_decide (and_bytes nn m = and_bytes ip m)
  end.

(** ** Hosts and ports: [SplitHostPort] *)

Definition has_char (c : ascii) (s : list ascii) : bool := existsb (Ascii.eqb c) s.

(** The parts before and after the first, and the last, of a byte. *)
Fixpoint cut_first (c : ascii) (s : list ascii) : option (list ascii * list ascii) :=
  match s with
  | [] => None
  | d :: s' => if Ascii.eqb c d then Some ([], s')
               else (fun '(before, after) => (d :: before, after)) <$> cut_first c s'
  end.

Fixpoint cut_last (c : ascii) (s : list ascii) : option (list ascii * list ascii) :=
  match s with
  | [] => None
  | d :: s' =>
    match cut_last c s' with
    | Some (before, after) => Some (d :: before, after)
    | None => if Ascii.eqb c d then Some ([], s') else None
    end
  end.

Definition SplitHostPort (hostport : string) : option (string * string) :=
  let l := list_ascii_of_string hostport in
  let answer '(host, port) := (string_of_list_ascii host, string_of_list_ascii port) in
  '(before, port) ← cut_last ":" l;
  match l with
  | "["%char :: l' =>
    '(host, after) ← cut_first "]" l';
    match after with
    | ":"%char :: port =>
      if has_char ":" port || has_char "[" l' || has_char "]" after then None else Some (answer (host, port))
    | _ => None
    end
  | _ => if has_char ":" before || has_char "[" l || has_char "]" l then None
         else Some (answer (before, port))
  end.

(** ** What a mask does: the first bits of an address *)

Definition bits8 (b : Z) : list bool := map (Z.testbit b) [7; 6; 5; 4; 3; 2; 1; 0]%Z.
Definition address_bits (l : list Z) : list bool := l ≫= bits8.

Definition mask_byte (k : nat) : Z := (255 - 255 / 2 ^ Z.of_nat k)%Z.
Definition of_bits (l : list bool) : Z :=
  foldl (fun acc (b : bool) => 2 * acc + if b then 1 else 0)%Z 0%Z (l ++ replicate (8 - List.length l) false).

Definition is_byte (b : Z) : Prop := (0 <= b < 256)%Z.

(** Both directions of [mask_byte_eq], for every byte and number of bits. *)
Lemma mask_byte_table :
  forallb (fun k => forallb (fun b =>
      (Z.land b (mask_byte k) =? of_bits (take k (bits8 b)))%Z
      && bool_decide (take k (bits8 (Z.land b (mask_byte k))) = take k (bits8 b))) (map Z.of_nat (seq 0 256)))
    (seq 0 9) = true.
Proof. by vm_compute. Qed.

Lemma mask_byte_entry k b : k <= 8 -> is_byte b ->
  Z.land b (mask_byte k) = of_bits (take k (bits8 b)) /\
  take k (bits8 (Z.land b (mask_byte k))) = take k (bits8 b).
Proof.
  intros Hk Hb. pose proof mask_byte_table as H. rewrite forallb_forall in H.
  specialize (H k). rewrite in_seq, forallb_forall in H. specialize (H ltac:(lia) b).
  rewrite andb_true_iff, Z.eqb_eq, bool_decide_eq_true in H. apply H, in_map_iff.
  unfold is_byte in Hb. exists (Z.to_nat b). rewrite in_seq. lia.
Qed.

Lemma mask_byte_eq k a b : k <= 8 -> is_byte a -> is_byte b ->
  Z.land a (mask_byte k) = Z.land b (mask_byte k) <-> take k (bits8 a) = take k (bits8 b).
Proof.
  intros Hk Ha Hb. destruct (mask_byte_entry k a Hk Ha) as [Ea Ta], (mask_byte_entry k b Hk Hb) as [Eb Tb].
  split; intros H; [by rewrite <- Ta, <- Tb, H|by rewrite Ea, Eb, H].
Qed.

(** Two addresses agree under the mask of [k] bits when their first [k] bits do. *)
Lemma mask_is_prefix k a b :
  List.length a = List.length b -> Forall is_byte a -> Forall is_byte b ->
  and_bytes a (CIDRMask k (List.length a)) = and_bytes b (CIDRMask k (List.length a)) <->
  take k (address_bits a) = take k (address_bits b).
Proof.
  intros Hlen Ha Hb. revert k b Hlen Hb.
  induction Ha as [|x a Hx Ha IH]; intros k [|y b] Hlen Hb; try done.
  apply Forall_cons in Hb as [Hy Hb]. injection Hlen as Hlen.
  change (address_bits (x :: a)) with (bits8 x ++ address_bits a).
  change (address_bits (y :: b)) with (bits8 y ++ address_bits b).
  rewrite !take_app. cbn [CIDRMask List.length and_bytes zip_with].
  change (255 - 255 / 2 ^ Z.of_nat (k `min` 8))%Z with (mask_byte (k `min` 8)).
  assert (Hl : forall z, List.length (bits8 z) = 8) by done. rewrite !Hl.
  assert (Hmin : forall z, take k (bits8 z) = take (k `min` 8) (bits8 z)).
  { intros z. destruct (Nat.le_gt_cases k 8); [by rewrite Nat.min_l by lia|].
    rewrite (take_ge (bits8 z) k), (take_ge (bits8 z) (k `min` 8)); [done|rewrite (Hl z); lia..]. }
  rewrite !Hmin. specialize (IH (k - 8) b Hlen Hb). split.
  - intros [= H1 H2]. apply mask_byte_eq in H1; [|lia|done|done]. f_equal; [done|]. by apply IH.
  - intros H. apply app_inj_1 in H as [H1 H2]; [|by rewrite !length_take, !Hl].
    f_equal; [by apply mask_byte_eq; try lia|]. by apply IH.
Qed.

(** ** The parsers give bytes *)

Lemma ipv4_octets_bytes s fields val digLen dot ip :
  Forall is_byte fields -> is_byte val -> (List.length fields <= 3)%nat ->
  ipv4_octets s fields val digLen dot = Some ip -> Forall is_byte ip /\ List.length ip = 4.
Proof.
  revert fields val digLen dot. induction s as [|c s IH]; intros fields val digLen dot Hf Hv Hl H; cbn [ipv4_octets] in H.
  - destruct (Nat.ltb_spec (List.length fields) 3); [done|]. injection H as <-.
    rewrite Forall_app, length_app. cbn. split; [split; [exact Hf|by constructor]|lia].
  - destruct (is_digit c).
    + destruct (_ && _)%bool; [done|]. destruct (Z.ltb_spec 255 (val * 10 + Z.of_nat (code c - 48))); [done|].
      apply IH in H; [exact H|exact Hf|unfold is_byte in *; lia|exact Hl].
    + destruct (Ascii.eqb c "."); [|done]. destruct (dot || bool_decide (s = [])); [done|]. cbn [orb] in H.
      destruct (Nat.eqb_spec (List.length fields) 3); [done|].
      apply IH in H; [exact H| |done|rewrite length_app; cbn; lia].
      apply Forall_app. split; [exact Hf|by constructor].
Qed.

Lemma parseIPv4Fields_bytes s ip : parseIPv4Fields s = Some ip -> Forall is_byte ip /\ List.length ip = 4.
Proof. intros H. eapply ipv4_octets_bytes; [| | |exact H]; [constructor|done|cbn; lia]. Qed.

Lemma hex_digit_bounds c d : hex_digit c = Some d -> (0 <= d < 16)%Z.
Proof.
  unfold hex_digit, is_digit. intros H. repeat case_match; simplify_eq.
  all: match goal with E : _ && _ = true |- _ => apply andb_true_iff in E as [E1 E2] end.
  all: rewrite ?Nat.leb_le, ?Z.leb_le in E1, E2; lia.
Qed.

Lemma hex_group_bounds s off acc off' acc' rest :
  (off <= 4)%nat -> (0 <= acc < 16 ^ Z.of_nat off)%Z -> hex_group off acc s = Some (off', acc', rest) ->
  (0 <= acc' < 65536)%Z.
Proof.
  revert off acc. induction s as [|c s IH]; intros off acc Hoff Hacc H; cbn [hex_group] in H.
  all: assert (Hpow : (16 ^ Z.of_nat off <= 16 ^ 4)%Z) by (apply Z.pow_le_mono_r; lia).
  - injection H as <- <- <-. lia.
  - destruct (hex_digit c) as [d|] eqn:Ed; [|injection H as <- <- <-; lia].
    apply hex_digit_bounds in Ed. destruct (Nat.ltb_spec 3 off); [done|].
    apply IH in H; [exact H|lia|]. rewrite Nat2Z.inj_succ, Z.pow_succ_r by lia. lia.
Qed.

Lemma group_bytes ip acc : Forall is_byte ip -> (0 <= acc < 65536)%Z ->
  Forall is_byte (ip ++ [acc / 256; acc mod 256]%Z) /\ List.length (ip ++ [acc / 256; acc mod 256]%Z) = List.length ip + 2.
Proof.
  intros Hip Hacc. rewrite length_app. split; [|done]. apply Forall_app. split; [done|].
  repeat constructor; unfold is_byte; [apply Z.div_pos; lia|apply Z.div_lt_upper_bound; lia|..];
    apply Z.mod_pos_bound; lia.
Qed.

Definition short_bytes (ip : list Z) : Prop := Forall is_byte ip /\ (List.length ip <= 16)%nat.

Lemma ipv6_groups_bytes groups s ip e ip' e' rest :
  Forall is_byte ip -> List.length ip + 2 * groups = 16 ->
  ipv6_groups groups s ip e = Some (ip', e', rest) -> short_bytes ip'.
Proof.
  revert s ip e. induction groups as [|groups IH]; intros s ip e Hip Hlen H; cbn [ipv6_groups] in H.
  { injection H as <- _ _. split; [done|lia]. }
  apply bind_Some in H as ([[off acc] after] & Hg & H).
  apply hex_group_bounds in Hg as Hacc; [|lia|cbn; lia].
  destruct (group_bytes ip acc Hip Hacc) as [Hip' Hl'].
  destruct (off =? 0)%nat; [done|]. destruct after as [|c after]; [injection H as <- _ _; split; [done|lia]|].
  assert (Hnext : forall s e, ipv6_groups groups s (ip ++ [acc / 256; acc mod 256]%Z) e = Some (ip', e', rest) ->
    short_bytes ip') by (intros s' e0; apply IH; [done|lia]).
  destruct (Ascii.eqb_spec c "."%char) as [->|Hdot].
  - destruct (_ && _)%bool; [done|]. destruct (Nat.ltb_spec 16 (List.length ip + 4)); [done|].
    apply bind_Some in H as (fields & Hf & H). injection H as <- _ _.
    apply parseIPv4Fields_bytes in Hf as [Hf Hfl]. split; [by apply Forall_app|]. rewrite length_app, Hfl. done.
  - destruct (Ascii.eqb_spec c ":"%char) as [->|Hcolon].
    + destruct after as [|c' after]; [done|]. destruct (Ascii.eqb_spec c' ":"%char) as [->|Hc'].
      * destruct e; [done|]. destruct after; [injection H as <- _ _; split; [done|lia]|eauto].
      * destruct c' as [[] [] [] [] [] [] [] []]; try done; eauto.
    + by destruct c as [[] [] [] [] [] [] [] []].
Qed.

Lemma expand_ellipsis_bytes ip e ip' :
  short_bytes ip -> expand_ellipsis ip e = Some ip' -> Forall is_byte ip' /\ List.length ip' = 16.
Proof.
  intros [Hip Hlen]. unfold expand_ellipsis. destruct (Nat.ltb_spec (List.length ip) 16).
  - intros He. apply bind_Some in He as (n & -> & He). injection He as <-. split.
    + rewrite !Forall_app. split_and!; [by apply Forall_take| |by apply Forall_drop].
      apply Forall_replicate. by unfold is_byte.
    + rewrite !length_app, length_take, length_replicate, length_drop. lia.
  - destruct e; [done|]. intros [= <-]. split; [done|lia].
Qed.

Lemma parseIPv6_bytes s ip : parseIPv6 s = Some ip -> Forall is_byte ip /\ List.length ip = 16.
Proof.
  intros H. assert (Hgroups : forall s0 e0, (('(ip, ellipsis, rest) ← ipv6_groups 8 s0 [] e0;
    match rest with [] => expand_ellipsis ip ellipsis | _ => None end) = Some ip) ->
    Forall is_byte ip /\ List.length ip = 16).
  { intros s0 e0 H0. apply bind_Some in H0 as ([[ip0 e1] rest] & Hg & H0). destruct rest; [|done].
    eapply expand_ellipsis_bytes; [|exact H0]. by apply (ipv6_groups_bytes 8 s0 [] e0 ip0 e1 []). }
  assert (Hzero : Forall is_byte (replicate 16 0%Z) /\ List.length (replicate 16 0%Z) = 16)
    by (split; [apply Forall_replicate; by unfold is_byte|done]).
  unfold parseIPv6 in H. repeat (case_match; try done; simplify_eq); eauto.
Qed.

Lemma ParseAddr_bytes s bits ip :
  ParseAddr s = Some (bits, ip) ->
  Forall is_byte ip /\ List.length ip = 16 /\ (bits = 32 /\ take 12 ip = v4InV6Prefix \/ bits = 128).
Proof.
  unfold ParseAddr. destruct (List.find _ _) as [c|]; [|done].
  destruct (Ascii.eqb_spec c "."%char) as [->|Hdot]; [|destruct (Ascii.eqb_spec c ":"%char) as [->|Hcolon]].
  - intros H. apply fmap_Some in H as (f & Hf & [= -> ->]). apply parseIPv4Fields_bytes in Hf as [Hf Hl].
    assert (Hpre : Forall is_byte v4InV6Prefix) by (apply (Forall_app_2 is_byte (replicate 10 0%Z));
      [by apply Forall_replicate; unfold is_byte|by repeat constructor]).
    split; [exact (Forall_app_2 is_byte v4InV6Prefix f Hpre Hf)|]. cbn [List.length]. rewrite Hl.
    by split; [|left].
  - intros H. apply fmap_Some in H as (f & Hf & [= -> ->]). apply parseIPv6_bytes in Hf as [Hf Hl].
    split_and!; [done..|by right].
  - by destruct c as [[] [] [] [] [] [] [] []].
Qed.

Module NetExamples.
Example parse_v4 : map ParseIP ["10.0.0.7"; "256.0.0.1"; "1.2.3"; "01.2.3.4"; "1.2.3.4."]
  = [Some (v4InV6Prefix ++ [10; 0; 0; 7]%Z); None; None; None; None].
Proof. by vm_compute. Qed.
Example parse_v6 : map ParseIP ["::"; "::1"; "2001:DB8::ff"; "1::2::3"; "::ffff:1.2.3.4"; "fe80::1%eth0"; "1:2:3:4:5:6:7:8:9"]
  = [Some (replicate 16 0%Z); Some (replicate 15 0%Z ++ [1%Z]);
     Some ([32; 1; 13; 184]%Z ++ replicate 11 0%Z ++ [255]%Z); None;
     Some (v4InV6Prefix ++ [1; 2; 3; 4]%Z); None; None].
Proof. by vm_compute. Qed.
Example contains : map (fun '(c, ip) => (fun n => bool_decide (Net_Contains n <$> ParseIP ip = Some true)) <$> ParseCIDR c)
    [("10.1.0.0/9", "10.127.3.4"); ("10.1.0.0/9", "10.128.0.0"); ("10.0.0.0/33", "10.0.0.0");
     ("::ffff:10.0.0.0/104", "10.9.9.9"); ("::/0", "10.0.0.0"); ("2001:db8::/32", "2001:db8:1::2")]
  = [Some true; Some false; None; Some true; Some false; Some true].
Proof. by vm_compute. Qed.
Example split_host : map SplitHostPort ["10.0.0.1:80"; "[::1]:80"; "::1:80"; "host"; "[::1]"]
  = [Some ("10.0.0.1", "80"); Some ("::1", "80"); None; None; None].
Proof. by vm_compute. Qed.
End NetExamples.
