(* ===== verification/ApiKeys.v ===== *)
(** The keys of programs that act for the staff: [internal/data/api_keys.go] with its table
    ([sdp-migrations/2025-04-30.0-create-api-keys-table.sql]) and the requests about
    keys of [httphandler/api_key_handler.go]. *)

From S2P Require Import Prelude GoStrings Errors Effects TxStore Limiter ReceiverStore Validators.
From S2P Require Import NetIP.
From Stdlib Require Import Ascii String.

Local Open Scope string_scope.
Local Open Scope list_scope.

(** ** Permissions *)

Definition APIKeyPrefix := "SDP_".
Definition APIKeySaltSize : nat := 16.
Definition APIKeySecretSize : nat := 32.
Definition maxAttempts : nat := 3.
Definition alphabet := "ABCDEFGHIJKLMNOPQRSTUVWXYZabcdefghijklmnopqrstuvwxyz0123456789".

Definition ReadAll := "read:all".
Definition WriteAll := "write:all".
Definition ReadDisbursements := "read:disbursements".
Definition WriteDisbursements := "write:disbursements".
Definition ReadReceivers := "read:receivers".
Definition WriteReceivers := "write:receivers".
Definition ReadPayments := "read:payments".
Definition WritePayments := "write:payments".
Definition ReadOrganization := "read:organization".
Definition WriteOrganization := "write:organization".
Definition ReadUsers := "read:users".
Definition WriteUsers := "write:users".
Definition ReadWallets := "read:wallets".
Definition WriteWallets := "write:wallets".
Definition ReadStatistics := "read:statistics".
Definition ReadExports := "read:exports".

Definition validPermissions : list string :=
  [ReadAll; WriteAll; ReadDisbursements; WriteDisbursements; ReadReceivers; WriteReceivers;
   ReadPayments; WritePayments; ReadOrganization; WriteOrganization; ReadUsers; WriteUsers;
   ReadWallets; WriteWallets; ReadStatistics; ReadExports].

Definition ValidatePermissions (perms : list string) : res unit :=
  res_forM (fun p => guard_err (negb (slices_Contains validPermissions p))
    (ENew ("invalid permission (" +:+ p +:+ ")"))) perms.

(** What the column's [Scan] makes of the permissions of a row. *)
Definition Scan_permissions (perms : list string) : res unit :=
  res_forM (fun p => guard_err (negb (slices_Contains validPermissions p))
    (ENew ("invalid permission from DB (" +:+ p +:+ ")"))) perms.

Definition ValidateAllowedIPs (ips : list string) : res unit :=
  res_forM (fun ip =>
    if Contains ip "/" then guard_err (bool_decide (ParseCIDR ip = None)) (ENew ("invalid CIDR: " +:+ ip))
    else guard_err (bool_decide (ParseIP ip = None)) (ENew ("invalid IP: " +:+ ip))) ips.

(** ** Keys *)

Record APIKey := mkAPIKey {
  Key_ID : string;
  Key_Name : string;
  KeyHash : string;
  Salt : string;
  ExpiryDate : option Z;
  Permissions : list string;
  AllowedIPs : list string;
  Key_CreatedAt : Z;
  CreatedBy : string;
  Key_UpdatedAt : Z;
  UpdatedBy : string;
  LastUsedAt : option Z }.
#[export] Instance eta_APIKey : Eta APIKey := fun r =>
  mkAPIKey (Key_ID r) (Key_Name r) (KeyHash r) (Salt r) (ExpiryDate r) (Permissions r) (AllowedIPs r)
    (Key_CreatedAt r) (CreatedBy r) (Key_UpdatedAt r) (UpdatedBy r) (LastUsedAt r).

Definition HasPermission (a : APIKey) (req : string) : bool :=
  if prefix "read:" req && slices_Contains (Permissions a) ReadAll then true
  else if prefix "write:" req && slices_Contains (Permissions a) WriteAll then true
  else slices_Contains (Permissions a) req.

(** [now.After(expiry)], where there is an expiry. *)
Definition expired_at (now : Z) (a : APIKey) : bool :=
  match ExpiryDate a with None => false | Some expiry => (expiry <? now)%Z end.

(** A single entry of the list. *)
Definition entry_allows (ipStr : string) (ip : list Z) (cidr : string) : bool :=
  if Contains cidr "/"
  then match ParseCIDR cidr with Some netw => Net_Contains netw ip | None => false end
  else cidr =? ipStr.

Definition IsAllowedIP (a : APIKey) (ipStr : string) : bool :=
  match AllowedIPs a with
  | [] => true
  | ips => match ParseIP ipStr with None => false | Some ip => existsb (entry_allows ipStr ip) ips end
  end.

(** ** The table *)

Record ApiKeyDb := mkApiKeyDb { api_keys : list APIKey }.
#[export] Instance eta_ApiKeyDb : Eta ApiKeyDb := fun r => mkApiKeyDb (api_keys r).

(** Values of the columns of type UUID: the text the server gives back for the one it
    is given. *)
Class PgUuid := { uuid_in : string -> option string }.

Definition invalid_uuid : err := EExternal "pq: 22P02 invalid input syntax for type uuid".
Definition unique_violation : err := EExternal "pq: 23505 api_keys".

(** The length a column allows is in characters. *)
Definition key_row_ok (k : APIKey) : Prop :=
  (RuneCountInString (Key_Name k) <= 128)%nat /\ (String.length (KeyHash k) <= 64)%nat /\
  (String.length (Salt k) <= 32)%nat /\
  Forall (fun p => (RuneCountInString p <= 32)%nat) (Permissions k) /\
  Forall (fun ip => (RuneCountInString ip <= 64)%nat) (AllowedIPs k).
#[export] Instance key_row_ok_dec k : Decision (key_row_ok k).
Proof. unfold key_row_ok. apply _. Defined.

Definition keys_ok (rows : list APIKey) : Prop := NoDup (map Key_ID rows) /\ NoDup (map KeyHash rows).
#[export] Instance keys_ok_dec rows : Decision (keys_ok rows).
Proof. unfold keys_ok. apply _. Defined.

Definition check_keys {A} (a : A) (db : ApiKeyDb) : res (A * ApiKeyDb) :=
  if decide (Forall key_row_ok (api_keys db)) then
    if decide (keys_ok (api_keys db)) then Ok (a, db) else Err unique_violation
  else Err (EExternal "pq: 22001 value too long for type character varying").

Definition lookup_key (id : string) (db : ApiKeyDb) : option APIKey :=
  first_such (fun k => Key_ID k =? id) (api_keys db).

(** The columns the queries of a key leave out. *)
Definition without_secrets (k : APIKey) : APIKey := k <| KeyHash := "" |> <| Salt := "" |>.
Definition credentials (k : APIKey) : APIKey :=
  k <| Key_Name := "" |> <| Key_CreatedAt := 0%Z |> <| Key_UpdatedAt := 0%Z |> <| UpdatedBy := "" |>.

(** ** The model *)

(** [rand.Read] of [crypto/rand]. *)
Class CryptoBytes := { rand_Read : nat -> nat -> res (list Z) }.
Class CryptoBytesLaws {CB : CryptoBytes} := {
  rand_Read_length : forall t n l, rand_Read t n = Ok l -> List.length l = n }.

Definition is_unique_violation (e : err) : bool :=
  match e with EExternal m => prefix "pq: 23505" m | _ => false end.

Definition secret_char (b : Z) : ascii :=
  default "A"%char (String.get (Z.to_nat (b mod Z.of_nat (String.length alphabet))) alphabet).

Definition key_hash (salt secret : string) : string := hex_EncodeToString (Sum256 (salt +:+ secret)).

Section model.
Context {D L Ev : Type} {E : Env D} {KC : Conn D ApiKeyDb} {CB : CryptoBytes} {U : UuidGen} {PU : PgUuid}.
Abbreviation M := (M D L Ev).

Definition IsExpired (a : APIKey) : M bool :=
  match ExpiryDate a with
  | None => mret_ false
  | Some _ => let! now := ask env_now in mret_ (expired_at now a)
  end.

Definition generateSecret : M string :=
  let! secBytes := wrapM "secret gen" (ask_res (fun t => rand_Read t APIKeySecretSize)) in
  mret_ (string_of_list_ascii (map secret_char secBytes)).

Definition insert_key (candidate : APIKey) : Stmt ApiKeyDb APIKey := fun ctx db =>
  match uuid_in (CreatedBy candidate) with
  | None => Err invalid_uuid
  | Some creator =>
    let row := candidate <| Key_ID := uuid_generate ctx (List.length (api_keys db)) |>
      <| Key_CreatedAt := NOW ctx |> <| Key_UpdatedAt := NOW ctx |> <| CreatedBy := creator |> <| UpdatedBy := creator |> in
    check_keys (candidate <| Key_ID := Key_ID row |> <| Key_CreatedAt := NOW ctx |> <| Key_UpdatedAt := NOW ctx |>)
      (db <| api_keys := api_keys db ++ [row] |>)
  end.

(** The attempts, and what the last of them fails with; the key and its text. *)
Fixpoint insert_attempts (attempts : nat) (name : string) (permissions allowedIPs : list string)
    (expiry : option Z) (createdBy : string) : M (APIKey * string) :=
  match attempts with
  | O => throw (ENew ("could not generate unique API key after " +:+ itoa (Z.of_nat maxAttempts) +:+ " attempts"))
  | S attempts' =>
    let! saltBytes := wrapM "salt gen" (ask_res (fun t => rand_Read t APIKeySaltSize)) in
    let salt := hex_EncodeToString saltBytes in
    let! secret := generateSecret in
    let candidate := mkAPIKey "" name (key_hash salt secret) salt expiry permissions allowedIPs 0 createdBy 0
      createdBy None in
    let! inserted := try_ (db_stmt (insert_key candidate)) in
    match inserted with
    | Ok candidate => mret_ (candidate, APIKeyPrefix +:+ Key_ID candidate +:+ "." +:+ secret)
    | Err e =>
      if is_unique_violation e && (0 <? attempts')%nat
      then insert_attempts attempts' name permissions allowedIPs expiry createdBy
      else throw (EWrap "insert API key" e)
    end
  end.

Definition Keys_Insert := insert_attempts maxAttempts.

(** A row whose permissions are not known cannot be scanned. *)
Definition scan_key (f : APIKey -> APIKey) (k : APIKey) : res APIKey :=
  let? _ := wrap "scanning APIKeyPermissions" (Scan_permissions (Permissions k)) in Ok (f k).

Fixpoint scan_keys (rows : list APIKey) : res (list APIKey) :=
  match rows with
  | [] => Ok []
  | k :: rows' => let? a := scan_key without_secrets k in let? rest := scan_keys rows' in Ok (a :: rest)
  end.

Definition of_creator (id : string) (creator : string) (k : APIKey) : bool :=
  (Key_ID k =? id) && (CreatedBy k =? creator).

(** The value of a parameter compared with the creator of a row. *)
Definition as_creator {A} (createdBy : string) (q : string -> Stmt ApiKeyDb A) : Stmt ApiKeyDb A := fun ctx db =>
  match uuid_in createdBy with None => Err invalid_uuid | Some creator => q creator ctx db end.

Definition Keys_GetAll (createdBy : string) : M (list APIKey) :=
  wrapM "selecting api keys" (
    let! rows := db_stmt (as_creator createdBy (fun creator _ db =>
      Ok (List.rev (sort_by (fun k => Some (Key_CreatedAt k)) (List.rev
            (filter (fun k => CreatedBy k = creator) (api_keys db)))), db))) in
    lift (scan_keys rows)).

Definition Keys_GetByID (id createdBy : string) : M APIKey :=
  no_rows_as ErrRecordNotFound "get api key by id" (
    let! row := GetContext (as_creator createdBy (fun creator _ db =>
      Ok (first_such (of_creator id creator) (api_keys db), db))) in
    lift (scan_key without_secrets row)).

Definition use_key (id : string) : Stmt ApiKeyDb (option APIKey) := fun ctx db =>
  let used k := k <| LastUsedAt := Some (NOW ctx) |> in
  check_keys (used <$> lookup_key id db)
    (db <| api_keys := update_where (fun k => Key_ID k =? id) used (api_keys db) |>).

(** The transaction of [ValidateRawKeyAndUpdateLastUsed]. *)
Definition validate_and_use (id secret : string) : M APIKey :=
  let! a := wrapM "API key not found" (
    let! row := GetContext (X := ApiKeyDb) (fun _ db => Ok (lookup_key id db, db)) in
    lift (scan_key credentials row)) in
  if key_hash (Salt a) secret <>? KeyHash a then throw (ENew "invalid API key")
  else
    let! expired := IsExpired a in
    if (expired : bool) then throw (ENew "API key expired")
    else wrapM "failed to update last_used_at" (
      let! row := GetContext (use_key id) in lift (scan_key credentials row)).

Definition ValidateRawKeyAndUpdateLastUsed (raw : string) : M APIKey :=
  if negb (prefix APIKeyPrefix raw) then throw (ENew "invalid API key prefix")
  else
    match split_on (Ascii.eqb ".") (drop (String.length APIKeyPrefix) (list_ascii_of_string raw)) with
    | [id; secret] =>
      wrapM "validating and updating API key" (RunInTransactionWithResult (X := ApiKeyDb)
        (validate_and_use (string_of_list_ascii id) (string_of_list_ascii secret)))
    | _ => throw (ENew "invalid API key format")
    end.

Definition Keys_Update (id createdBy : string) (perms ips : list string) : M APIKey :=
  no_rows_as ErrRecordNotFound "update api key" (
    let! row := GetContext (as_creator createdBy (fun creator ctx db =>
      let set k := k <| Permissions := perms |> <| AllowedIPs := ips |> <| Key_UpdatedAt := NOW ctx |> in
      check_keys (set <$> first_such (of_creator id creator) (api_keys db))
        (db <| api_keys := update_where (of_creator id creator) set (api_keys db) |>))) in
    lift (scan_key without_secrets row)).

Definition Keys_Delete (id createdBy : string) : M unit :=
  let! rows := wrapM "delete api key" (db_stmt (as_creator createdBy (fun creator _ db =>
    Ok (List.length (filter (fun k => of_creator id creator k = true) (api_keys db)),
        db <| api_keys := filter (fun k => of_creator id creator k = false) (api_keys db) |>)))) in
  if (rows =? 0)%nat then throw ErrRecordNotFound else mret_ tt.

(** ** [api_key_handler.go] *)

(** What the field of the addresses decodes to: a text, a list with its elements that
    are texts, or another value. *)
Inductive AnyJson :=
  | JsonNull
  | JsonString (s : string)
  | JsonArray (l : list (option string))
  | JsonOther.

Fixpoint string_items (i : nat) (l : list (option string)) : res (list string) :=
  match l with
  | [] => Ok []
  | None :: _ => Err (ENew ("item at position " +:+ itoa (Z.of_nat i) +:+ " must be a string"))
  | Some s :: l' => let? rest := string_items (S i) l' in Ok (s :: rest)
  end.

Definition parseAllowedIPs (input : AnyJson) : res (list string) :=
  match input with
  | JsonNull => Ok []
  | JsonArray l => string_items 0 l
  | JsonString s => Ok [s]
  | JsonOther => Err (ENew "must be a string or array of strings")
  end.

Record CreateAPIKeyRequest := mkCreateAPIKeyRequest {
  CK_Name : string;
  CK_Permissions : list string;
  CK_ExpiryDate : option Z;
  CK_AllowedIPs : AnyJson }.

Definition add_error (e : res unit) (key : string) (v : Validator) : Validator := CheckError e key "" v.

Definition parsed_ips (input : AnyJson) : res unit :=
  let? ips := parseAllowedIPs input in ValidateAllowedIPs ips.

(** The user ID of the context. *)
Definition user_of_request (userID : res string) : M string :=
  map_errM (fun _ => InternalError "User identification error" None) (lift userID).

Definition CreateAPIKey (userID : res string) (body : res CreateAPIKeyRequest) : M (APIKey * string) :=
  let! req := map_errM (fun e => BadRequest "Invalid request body" (Some e)) (lift body) in
  let v := Check_ (CK_Name req <>? "") "name" "name is required" NewValidator in
  let v := Check_ (0 <? List.length (CK_Permissions req))%nat "permissions"
    "API key must have at least one permission assigned" v in
  let v := add_error (ValidatePermissions (CK_Permissions req)) "permissions" v in
  let v := add_error (parsed_ips (CK_AllowedIPs req)) "allowed_ips" v in
  let! past := match CK_ExpiryDate req with
    | None => mret_ false
    | Some expiry => let! now := ask env_now in mret_ (expiry <? now)%Z
    end in
  let v := Check_ (negb past) "expiry_date" "expiry date must be in the future" v in
  lift (guard_err (HasErrors v) (BadRequest "Request validation failed" None)) ;;!
  let! userID := user_of_request userID in
  let! allowedIPs := lift (parseAllowedIPs (CK_AllowedIPs req)) in
  map_errM (fun e => InternalError "Failed to create API key" (Some e))
    (Keys_Insert (CK_Name req) (CK_Permissions req) allowedIPs (CK_ExpiryDate req) userID).

Definition key_error (msg : string) (e : err) : err :=
  if errors_Is_err e ErrRecordNotFound then NotFound "API key not found" None else InternalError msg (Some e).

Definition GetAPIKeyByID (userID : res string) (keyID : string) : M APIKey :=
  let! userID := user_of_request userID in
  map_errM (key_error "Failed to retrieve API key") (Keys_GetByID keyID userID).

Definition GetAllAPIKeys (userID : res string) : M (list APIKey) :=
  let! userID := user_of_request userID in
  map_errM (fun e => InternalError "Failed to retrieve API keys" (Some e)) (Keys_GetAll userID).

(** The permissions and the addresses of the body. *)
Definition UpdateKey (userID : res string) (keyID : string) (body : res (list string * AnyJson)) : M APIKey :=
  let! (permissions, input) := map_errM (fun e => BadRequest "Invalid request body" (Some e)) (lift body) in
  match permissions with
  | [] => throw (BadRequest "permissions must be non-empty" None)
  | _ =>
    map_errM (fun e => BadRequest "Invalid permissions" (Some e)) (lift (ValidatePermissions permissions)) ;;!
    let! ips := map_errM (fun e => BadRequest "Invalid allowed_ips" (Some e)) (lift (parseAllowedIPs input)) in
    map_errM (fun e => BadRequest "Invalid allowed_ips" (Some e)) (lift (ValidateAllowedIPs ips)) ;;!
    let! userID := user_of_request userID in
    map_errM (key_error "Failed to update API key") (Keys_Update keyID userID permissions ips)
  end.

Definition DeleteAPIKey (userID : res string) (keyID : string) : M unit :=
  let! userID := user_of_request userID in
  map_errM (key_error "Failed to delete API key") (Keys_Delete keyID userID).
End model.
