(* ===== verification/Access.v ===== *)
(** Who may send which request: the middlewares of [internal/serve/middleware]
    ([middleware.go], [api_keys_middleware.go]) in front of the handlers.

    A middleware takes the request and its context and gives the context its handler
    is called with, or the error that is answered. *)

From S2P Require Import Prelude GoStrings Errors Effects TxStore Limiter SdpDb ReceiverStore Tenant Tenants AuthManager.
From S2P Require Import Registration Passwords Authenticator AuthHandlers NetIP ApiKeys.
From Stdlib Require Import Ascii String.

Local Open Scope string_scope.
Local Open Scope list_scope.

(** ** Requests and their contexts *)

(** The headers the middlewares read, empty where there is none. *)
Record Request := mkRequest {
  Authorization : string;
  XForwardedFor : string;
  XRealIP : string;
  TenantNameHeader : string;
  Host : string;
  RemoteAddr : string;
  BasicAuth : option (string * string) }.

(** The values of [sdpcontext]. *)
Record ReqContext := mkReqContext {
  Ctx_Tenant : Context_;
  Ctx_Token : option string;
  Ctx_UserID : option string;
  Ctx_APIKey : option APIKey }.
#[export] Instance eta_ReqContext : Eta ReqContext := fun r =>
  mkReqContext (Ctx_Tenant r) (Ctx_Token r) (Ctx_UserID r) (Ctx_APIKey r).

Definition no_context : ReqContext := mkReqContext None None None None.

Definition GetUserIDFromContext (c : ReqContext) : res string :=
  match Ctx_UserID c with
  | Some userID => if userID =? "" then Err (ESentinel "user ID not found in context") else Ok userID
  | None => Err (ESentinel "user ID not found in context")
  end.

(** The databases of the tenants, one per tenant: the pools choose by the tenant of
    the context. *)
Class TenantPools (D X : Type) := tenant_pool : string -> Conn D X.

(** ** The cache of validated keys

    The package of the cache is a parameter: what it holds at a time. *)

Class KeyCache := {
  Cache : Type;
  cache_Get : Z -> Cache -> string -> option APIKey;
  cache_Del : string -> Cache -> Cache;
  cache_SetWithTTL : Z -> string -> APIKey -> Z -> Cache -> Cache }.

(** It gives what was last put in under the key, until its time is over, or nothing. *)
Class KeyCacheLaws {KCh : KeyCache} := {
  cache_Get_Set : forall now t k a ttl c k' a', cache_Get now (cache_SetWithTTL t k a ttl c) k' = Some a' ->
    k' = k /\ a' = a /\ (now <= t + ttl)%Z \/ cache_Get now c k' = Some a';
  cache_Get_Del : forall now k c k' a', cache_Get now (cache_Del k c) k' = Some a' ->
    cache_Get now c k' = Some a' }.

Definition apiKeyCacheTTL : Z := 3 * Minute.

(** ** Tokens, addresses and names in a request *)

Definition split_spaces (s : string) : list string :=
  map string_of_list_ascii (split_on (Ascii.eqb " ") (list_ascii_of_string s)).

Definition extractToken (r : Request) : string :=
  match split_spaces (Authorization r) with
  | [_; token] => token
  | _ => Authorization r
  end.

(** What comes before a comma that is not the first byte. *)
Definition first_address (ip : string) : string :=
  match cut_first ","%char (list_ascii_of_string ip) with
  | Some (before, _) => match before with [] => ip | _ => string_of_list_ascii before end
  | None => ip
  end.

Definition extractClientIP (r : Request) : string :=
  if XForwardedFor r <>? "" then TrimSpace (first_address (XForwardedFor r))
  else if XRealIP r <>? "" then TrimSpace (first_address (XRealIP r))
  else
    match SplitHostPort (RemoteAddr r) with
    | Some (host, _) => if host =? "" then RemoteAddr r else host
    | None => RemoteAddr r
    end.

Definition ErrHostnameIsIPAddress : err := ESentinel "hostname is an IP address".
Definition ErrTenantNameNotFound : err := ESentinel "tenant name not found".

Definition ExtractTenantNameFromHostName (hostname : string) : res string :=
  let hostname := match SplitHostPort hostname with Some (host, _) => host | None => hostname end in
  if negb (bool_decide (ParseIP hostname = None)) then Err ErrHostnameIsIPAddress
  else
    let parts := split_on (Ascii.eqb ".") (list_ascii_of_string hostname) in
    if (2 <? List.length parts)%nat then Ok (string_of_list_ascii (hd [] parts)) else Err ErrTenantNameNotFound.

Definition extractTenantNameFromRequest (r : Request) : res string :=
  if TenantNameHeader r <>? "" then Ok (TenantNameHeader r)
  else wrap "extracting tenant name from hostname" (ExtractTenantNameFromHostName (Host r)).

(** ** The middlewares *)

Section middlewares.
Context {D L Ev : Type} {E : Env D} {AC : Conn D AdminDb} {AuP : TenantPools D AuthDb} {KeP : TenantPools D ApiKeyDb}.
Context {KCh : KeyCache} {CaC : Conn D Cache} {J : JwtLibrary} {Co : SdpDb.Collation}.
Context (am : AuthSettings).
Abbreviation M := (M D L Ev).

(** Work on the database of the tenant of the context. *)
Definition on_tenant {X A} {P : TenantPools D X} (ctx : Context_) (m : Conn D X -> M A) : M A :=
  match ctx with
  | None => throw ErrTenantNotFoundInContext
  | Some t => m (tenant_pool (Ten_ID t))
  end.

(** A panic is not an answer of the call it is of. *)
Definition unless_panic (f : err -> err) (e : err) : err := if is_panic e then e else f e.

Definition ResolveTenantFromRequestMiddleware (singleTenantMode : bool) (r : Request) (c : ReqContext) :
    M ReqContext :=
  if singleTenantMode then
    let! found := try_ (GetDefault singleTenantMode) in
    match found with
    | Ok tnt => mret_ (c <| Ctx_Tenant := Some tnt |>)
    | Err e =>
      if errors_Is_err e ErrTenantDoesNotExist then mret_ c
      else if errors_Is_err e ErrTooManyDefaultTenants
      then throw (InternalError "Too many default tenants configured" (Some e))
      else throw (InternalError "" (Some (EWrap "error getting default tenant" e)))
    end
  else
    match extractTenantNameFromRequest r with
    | Err _ => mret_ c
    | Ok tenantName =>
      if tenantName =? "" then mret_ c
      else
        let! found := try_ (GetTenantByName tenantName) in
        mret_ (match found with Ok tnt => c <| Ctx_Tenant := Some tnt |> | Err _ => c end)
    end.

Definition EnsureTenantMiddleware (c : ReqContext) : M ReqContext :=
  map_errM (fun e => BadRequest "Tenant not found in context" (Some e)) (lift (GetTenantFromContext (Ctx_Tenant c))) ;;!
  mret_ c.

(** The token's tenant replaces the request's where it can be found. *)
Definition AuthenticateMiddleware (r : Request) (c : ReqContext) : M ReqContext :=
  match split_spaces (Authorization r) with
  | [_; token] =>
    let! userID := map_errM (unless_panic (fun _ => Unauthorized "" None)) (GetUserID am token) in
    let c := c <| Ctx_Token := Some token |> <| Ctx_UserID := Some userID |> in
    let! tenantID := try_ (GetTenantID am token) in
    match tenantID with
    | Ok tenantID =>
      if tenantID =? "" then mret_ c
      else
        let! currentTenant := try_ (GetTenantByID tenantID) in
        mret_ (match currentTenant with Ok tnt => c <| Ctx_Tenant := Some tnt |> | Err _ => c end)
    | Err _ => mret_ c
    end
  | _ => throw (Unauthorized "" None)
  end.

Definition role_error (e : err) : err :=
  if errors_Is_err e ErrInvalidToken || errors_Is_err e ErrUserNotFound then Unauthorized "" None
  else InternalError "" (Some e).

Definition AnyRoleMiddleware (requiredRoles : list string) (c : ReqContext) : M ReqContext :=
  let! token := map_errM (fun _ => Unauthorized "" None) (lift (GetTokenFromContext (Ctx_Token c))) in
  match requiredRoles with
  | [] => mret_ c
  | _ =>
    let! hasAnyRoles := map_errM (unless_panic role_error)
      (on_tenant (Ctx_Tenant c) (fun AuC => AnyRolesInTokenUser (AuC := AuC) am token requiredRoles)) in
    if (hasAnyRoles : bool) then mret_ c else throw (Forbidden "" None)
  end.

Definition BasicAuthMiddleware (adminAccount adminAPIKey : string) (r : Request) (c : ReqContext) : M ReqContext :=
  if (adminAccount =? "") || (adminAPIKey =? "")
  then throw (InternalError "Admin account and API key are not set" None)
  else
    match BasicAuth r with
    | None => throw (Unauthorized "" None)
    | Some (accountUserName, apiKey) =>
      if (accountUserName <>? adminAccount) || (apiKey <>? adminAPIKey) then throw (Unauthorized "" None)
      else mret_ c
    end.

(** ** Keys *)

Definition cached (cacheKey : string) : M (option APIKey) := fun w =>
  let w' := settle w in
  (Ok (cache_Get (env_now (w_clock w)) (conn_get (w_db w')) cacheKey), w').

Definition update_cache (f : Z -> Cache -> Cache) : M unit := fun w =>
  let w' := settle w in
  (Ok tt, put_part (f (env_now (w_clock w)) (conn_get (w_db w'))) w').

Definition cache_key (tenantID rawKey : string) : string := tenantID +:+ ":" +:+ rawKey.

Definition validate_in_tenant (ctx : Context_) (rawKey : string) : M APIKey :=
  on_tenant ctx (fun KC => ValidateRawKeyAndUpdateLastUsed (KC := KC) rawKey).

(** Without a cache, or a tenant, every request asks the database. *)
Definition validate (hasCache : bool) (ctx : Context_) (rawKey : string) : M APIKey :=
  let tenantID := default "" (Ten_ID <$> ctx) in
  if negb hasCache || (tenantID =? "")
  then wrapM "validating API key (cacheless)" (validate_in_tenant ctx rawKey)
  else
    let cacheKey := cache_key tenantID rawKey in
    let from_database :=
      let! apiKey := wrapM "validating API key" (validate_in_tenant ctx rawKey) in
      let! expired := IsExpired apiKey in
      (if (expired : bool) then mret_ tt
       else update_cache (fun now => cache_SetWithTTL now cacheKey apiKey apiKeyCacheTTL)) ;;!
      mret_ apiKey in
    let! found := cached cacheKey in
    match found with
    | Some apiKey =>
      let! expired := IsExpired apiKey in
      if (expired : bool) then update_cache (fun _ => cache_Del cacheKey) ;;! from_database
      else mret_ apiKey
    | None => from_database
    end.

Definition APIKeyOrJWTAuthenticate (hasCache : bool) (jwtAuth : Request -> ReqContext -> M ReqContext)
    (r : Request) (c : ReqContext) : M ReqContext :=
  let token := extractToken r in
  if negb (prefix APIKeyPrefix token) then jwtAuth r c
  else
    let! apiKey := map_errM (fun _ => Unauthorized "Invalid API key" None) (validate hasCache (Ctx_Tenant c) token) in
    if negb (IsAllowedIP apiKey (extractClientIP r)) then throw (Forbidden "IP not allowed" None)
    else mret_ (c <| Ctx_APIKey := Some apiKey |> <| Ctx_UserID := Some (CreatedBy apiKey) |>).

Definition RequirePermission (perm : string) (jwtCheck : ReqContext -> M ReqContext) (c : ReqContext) : M ReqContext :=
  match Ctx_APIKey c with
  | Some apiKey =>
    if HasPermission apiKey perm then mret_ c else throw (Forbidden "Insufficient API key permissions" None)
  | None => jwtCheck c
  end.
End middlewares.
