(* ===== verification/Routes.v ===== *)
(** The routes of the API as data, and what a request has to pass to reach their handlers:
    [handleHTTP] of [internal/serve/serve.go] and of [stellar-multitenant/pkg/serve/serve.go].

    Every request also passes the middlewares that limit rates, log, measure,
    compress and recover; they answer or change nothing the guards depend on. *)

From S2P Require Import Prelude GoStrings Errors Effects TxStore Limiter SdpDb Tenant Tenants AuthManager.
From S2P Require Import Authenticator ApiKeys Access.
From Stdlib Require Import String.

Local Open Scope string_scope.
Local Open Scope list_scope.

(** ** Routes *)

(** What guards a route. *)
Inductive Guard :=
  | Anyone
  | TenantAware                                               (* [EnsureTenantMiddleware] *)
  | Staff (permission : string) (roles : list string)         (* [RequirePermission] over [AnyRoleMiddleware] *)
  | StaffToken                                                (* a tenant and the token of a user *)
  | WalletToken (tenantAware : bool)                          (* [WalletAuthMiddleware] *)
  | WebAuthToken                                              (* a SEP-10 or SEP-45 token *)
  | RegistrationToken (inQuery : bool)                        (* a SEP-24 token *)
  | Administrator.                                            (* [BasicAuthMiddleware] *)

Record Route := mkRoute {
  Method : string;
  Path : string;
  Guarded : Guard;
  Handler : string }.

Definition guarded (g : Guard) (l : list (string * string * string)) : list Route :=
  map (fun '(method, path, handler) => mkRoute method path g handler) l.

(** ** [handleHTTP]: the staff *)

Definition api_key_routes : list Route :=
  guarded (Staff WriteAll [OwnerUserRole; DeveloperUserRole])
    [("GET", "/api-keys/{id}", "GetAPIKeyByID"); ("GET", "/api-keys", "GetAllAPIKeys");
     ("POST", "/api-keys", "CreateAPIKey"); ("PATCH", "/api-keys/{id}", "UpdateKey");
     ("DELETE", "/api-keys/{id}", "DeleteAPIKey")].

Definition statistics_routes : list Route :=
  guarded (Staff ReadStatistics GetAllRoles)
    [("GET", "/statistics", "GetStatistics"); ("GET", "/statistics/{id}", "GetStatisticsByDisbursement")].

Definition user_routes : list Route :=
  guarded (Staff ReadUsers [OwnerUserRole]) [("GET", "/users", "GetAllUsers"); ("GET", "/users/roles", "GetRoles")]
  ++ guarded (Staff WriteUsers [OwnerUserRole])
    [("POST", "/users", "CreateUser"); ("PATCH", "/users/roles", "UpdateUserRoles");
     ("PATCH", "/users/activation", "UserActivation")]
  ++ guarded (Staff ReadAll []) [("POST", "/refresh-token", "PostRefreshToken")].

Definition disbursement_routes : list Route :=
  guarded (Staff ReadDisbursements GetBusinessOperationRoles)
    [("GET", "/disbursements", "GetDisbursements"); ("GET", "/disbursements/{id}", "GetDisbursement");
     ("GET", "/disbursements/{id}/receivers", "GetDisbursementReceivers");
     ("GET", "/disbursements/{id}/instructions", "GetDisbursementInstructions")]
  ++ guarded (Staff WriteDisbursements
       [OwnerUserRole; FinancialControllerUserRole; InitiatorUserRole; UploaderUserRole])
    [("POST", "/disbursements", "PostDisbursement"); ("DELETE", "/disbursements/{id}", "DeleteDisbursement");
     ("POST", "/disbursements/{id}/instructions", "PostDisbursementInstructions")]
  ++ guarded (Staff WriteDisbursements [OwnerUserRole; FinancialControllerUserRole; ApproverUserRole])
    [("PATCH", "/disbursements/{id}/status", "PatchDisbursementStatus")]
  ++ guarded (Staff WriteDisbursements [OwnerUserRole; FinancialControllerUserRole; ApproverUserRole])
    [("PATCH", "/disbursements/{id}/approve", "ApproveDisbursement")]
  ++ guarded (Staff WriteDisbursements [OwnerUserRole; FinancialControllerUserRole; FinanceOfficerUserRole])
    [("PATCH", "/disbursements/{id}/submit", "SubmitDisbursement")]
  ++ guarded (Staff WriteDisbursements
       [OwnerUserRole; FinancialControllerUserRole; ApproverUserRole; FinanceOfficerUserRole])
    [("PATCH", "/disbursements/{id}/reject", "RejectDisbursement")].

Definition payment_routes : list Route :=
  guarded (Staff ReadPayments GetBusinessOperationRoles)
    [("GET", "/payments", "GetPayments"); ("GET", "/payments/{id}", "GetPayment")]
  ++ guarded (Staff WritePayments [OwnerUserRole; FinancialControllerUserRole; BusinessUserRole])
    [("POST", "/payments", "PostDirectPayment"); ("PATCH", "/payments/retry", "RetryPayments")]
  ++ guarded (Staff WritePayments [OwnerUserRole; FinancialControllerUserRole])
    [("PATCH", "/payments/{id}/status", "PatchPaymentStatus")].

Definition receiver_routes : list Route :=
  guarded (Staff ReadReceivers GetAllRoles)
    [("GET", "/receivers/verification-types", "GetReceiverVerificationTypes")]
  ++ guarded (Staff ReadReceivers GetBusinessOperationRoles)
    [("GET", "/receivers", "GetReceivers"); ("GET", "/receivers/{id}", "GetReceiver")]
  ++ guarded (Staff WriteReceivers
       [OwnerUserRole; FinancialControllerUserRole; ApproverUserRole; InitiatorUserRole])
    [("POST", "/receivers", "CreateReceiver"); ("PATCH", "/receivers/{id}", "UpdateReceiver");
     ("PATCH", "/receivers/{receiver_id}/wallets/{receiver_wallet_id}", "PatchReceiverWallet");
     ("PATCH", "/receivers/wallets/{receiver_wallet_id}", "RetryInvitation");
     ("PATCH", "/receivers/wallets/{receiver_wallet_id}/status", "PatchReceiverWalletStatus")].

Definition contact_type_routes : list Route :=
  guarded (Staff ReadAll GetAllRoles) [("GET", "/registration-contact-types", "GetRegistrationContactTypes")].

Definition asset_routes : list Route :=
  guarded (Staff ReadAll GetAllRoles) [("GET", "/assets", "GetAssets")]
  ++ guarded (Staff WriteAll [OwnerUserRole; FinancialControllerUserRole; DeveloperUserRole])
    [("POST", "/assets", "CreateAsset"); ("DELETE", "/assets/{id}", "DeleteAsset")].

Definition wallet_routes : list Route :=
  guarded (Staff ReadWallets GetAllRoles) [("GET", "/wallets", "GetWallets")]
  ++ guarded (Staff WriteWallets [OwnerUserRole; DeveloperUserRole])
    [("POST", "/wallets", "PostWallets"); ("DELETE", "/wallets/{id}", "DeleteWallet")]
  ++ guarded (Staff WriteWallets [OwnerUserRole; DeveloperUserRole]) [("PATCH", "/wallets/{id}", "PatchWallets")].

Definition profile_routes : list Route :=
  guarded (Staff ReadAll GetAllRoles) [("GET", "/profile", "GetProfile")]
  ++ guarded (Staff WriteAll GetAllRoles)
    [("PATCH", "/profile", "PatchUserProfile"); ("PATCH", "/profile/reset-password", "PatchUserPassword")].

Definition organization_routes : list Route :=
  guarded (Staff ReadOrganization GetAllRoles) [("GET", "/organization", "GetOrganizationInfo")]
  ++ guarded (Staff WriteOrganization [OwnerUserRole; FinancialControllerUserRole])
    [("PATCH", "/organization", "PatchOrganizationProfile")]
  ++ guarded (Staff WriteOrganization [OwnerUserRole])
    [("PATCH", "/organization/circle-config", "PatchCircleConfig")].

Definition bridge_routes (hasBridgeService : bool) : list Route :=
  if hasBridgeService then
    guarded (Staff ReadOrganization GetAllRoles) [("GET", "/bridge-integration", "GetBridgeIntegration")]
    ++ guarded (Staff WriteOrganization [OwnerUserRole; FinancialControllerUserRole])
      [("PATCH", "/bridge-integration", "PatchBridgeIntegration")]
  else [].

Definition balance_routes : list Route := guarded (Staff ReadAll []) [("GET", "/balances", "GetBalances")].

Definition export_routes : list Route :=
  guarded (Staff ReadExports [OwnerUserRole; FinancialControllerUserRole; ApproverUserRole; InitiatorUserRole])
    [("GET", "/exports/disbursements", "ExportDisbursements"); ("GET", "/exports/payments", "ExportPayments");
     ("GET", "/exports/receivers", "ExportReceivers")].

Definition staff_routes (hasBridgeService : bool) : list Route :=
  api_key_routes ++ statistics_routes ++ user_routes ++ disbursement_routes ++ payment_routes ++ receiver_routes
  ++ contact_type_routes ++ asset_routes ++ wallet_routes ++ profile_routes ++ organization_routes
  ++ bridge_routes hasBridgeService ++ balance_routes ++ export_routes.

(** ** [handleHTTP]: everybody else *)

Definition public_routes : list Route :=
  guarded TenantAware
    [("GET", "/app-config", "AppConfig"); ("GET", "/organization/logo", "GetOrganizationLogo");
     ("POST", "/login", "Login"); ("POST", "/mfa", "MFA"); ("POST", "/forgot-password", "ForgotPassword");
     ("POST", "/reset-password", "ResetPassword"); ("GET", "/r/{code}", "HandleRedirect")].

(** Declared inside the group of [EnsureTenantMiddleware], but on the router outside of
    it, whose middlewares are the ones they get. *)
Definition embedded_wallet_routes (enabled : bool) : list Route :=
  if enabled then
    guarded Anyone [("POST", "/embedded-wallets", "CreateWallet"); ("GET", "/embedded-wallets/{credentialID}", "GetWallet")]
    ++ guarded (WalletToken false)
      [("GET", "/embedded-wallets/profile", "GetEmbeddedWalletProfile");
       ("POST", "/embedded-wallets/sponsored-transactions", "CreateSponsoredTransaction");
       ("GET", "/embedded-wallets/sponsored-transactions/{id}", "GetSponsoredTransaction")]
    ++ guarded Anyone
      [("POST", "/embedded-wallets/passkey/registration/start", "StartPasskeyRegistration");
       ("POST", "/embedded-wallets/passkey/registration/finish", "FinishPasskeyRegistration");
       ("POST", "/embedded-wallets/passkey/authentication/start", "StartPasskeyAuthentication");
       ("POST", "/embedded-wallets/passkey/authentication/finish", "FinishPasskeyAuthentication");
       ("POST", "/embedded-wallets/passkey/authentication/refresh", "RefreshWalletToken")]
  else [].

Definition rpc_routes (hasRPC : bool) : list Route :=
  if hasRPC then
    guarded (WalletToken true) [("POST", "/rpc/wallet", "RPCProxy")]
    ++ guarded StaffToken [("POST", "/rpc/user", "RPCProxy")]
  else [].

Definition sep_routes (enableSep45 : bool) : list Route :=
  guarded Anyone
    [("GET", "/health", "Health"); ("GET", "/.well-known/stellar.toml", "StellarToml");
     ("GET", "/sep10/auth", "GetSEP10Challenge"); ("POST", "/sep10/auth", "PostSEP10Challenge")]
  ++ (if enableSep45 then guarded Anyone
        [("GET", "/sep45/auth", "GetSEP45Challenge"); ("POST", "/sep45/auth", "PostSEP45Challenge")] else [])
  ++ guarded TenantAware [("GET", "/sep24/info", "GetSEP24Info")]
  ++ guarded WebAuthToken
    [("GET", "/sep24/transaction", "GetSEP24Transaction");
     ("POST", "/sep24/transactions/deposit/interactive", "PostDepositInteractive")].

Definition registration_routes : list Route :=
  guarded (RegistrationToken true) [("GET", "/wallet-registration/*", "ServeRegistrationApp")]
  ++ guarded (RegistrationToken false)
    [("GET", "/sep24-interactive-deposit/info", "ReceiverRegistration");
     ("POST", "/sep24-interactive-deposit/otp", "ReceiverSendOTP");
     ("POST", "/sep24-interactive-deposit/verification", "VerifyReceiverRegistration")]
  ++ guarded TenantAware [("DELETE", "/contact-info/{contact_info}", "DeleteContactInfo")].

Definition routes (hasBridgeService embeddedWallets hasRPC enableSep45 : bool) : list Route :=
  guarded Anyone [("GET", "/static/*", "StaticFile")]
  ++ staff_routes hasBridgeService ++ public_routes ++ embedded_wallet_routes embeddedWallets ++ rpc_routes hasRPC
  ++ sep_routes enableSep45 ++ registration_routes.

(** The server of the administrators. *)
Definition admin_routes : list Route :=
  guarded Anyone [("GET", "/health", "Health")]
  ++ guarded Administrator
    [("GET", "/tenants", "GetAll"); ("POST", "/tenants", "Post"); ("GET", "/tenants/{arg}", "GetByIDOrName");
     ("DELETE", "/tenants/{id}", "Delete"); ("PATCH", "/tenants/{id}", "Patch");
     ("POST", "/tenants/default-tenant", "SetDefault")].

(** ** Reaching a handler *)

Section access.
Context {D L Ev : Type} {E : Env D} {AC : Conn D AdminDb} {AuP : TenantPools D AuthDb} {KeP : TenantPools D ApiKeyDb}.
Context {KCh : KeyCache} {CaC : Conn D Cache} {J : JwtLibrary} {Co : Collation}.
Context (am : AuthSettings) (singleTenantMode hasCache : bool).
Abbreviation M := (M D L Ev).

(** The context the handler of a route of the staff is called with. *)
Definition reach_staff (permission : string) (roles : list string) (r : Request) : M ReqContext :=
  let! c := ResolveTenantFromRequestMiddleware singleTenantMode r no_context in
  let! c := APIKeyOrJWTAuthenticate hasCache (AuthenticateMiddleware am) r c in
  let! c := EnsureTenantMiddleware c in
  RequirePermission permission (AnyRoleMiddleware am roles) c.

Definition reach_public (r : Request) : M ReqContext :=
  let! c := ResolveTenantFromRequestMiddleware singleTenantMode r no_context in EnsureTenantMiddleware c.

Definition reach_user (r : Request) : M ReqContext :=
  let! c := reach_public r in AuthenticateMiddleware am r c.

Definition reach_admin (adminAccount adminAPIKey : string) (r : Request) : M ReqContext :=
  BasicAuthMiddleware adminAccount adminAPIKey r no_context.
End access.

(** What a list of roles opens, and what a permission of a key does. *)
Definition role_opens (userRoles : list string) (rt : Route) : bool :=
  match Guarded rt with
  | Staff _ [] => true
  | Staff _ required => existsb (slices_Contains userRoles) required
  | _ => false
  end.

Definition key_opens (a : APIKey) (rt : Route) : bool :=
  match Guarded rt with Staff permission _ => HasPermission a permission | _ => false end.

Definition handlers_of (opens : Route -> bool) (l : list Route) : list string :=
  map Handler (filter (fun rt => opens rt = true) l).
