(* ===== verification/KeyWorld.v ===== *)
(** Two organizations on one server, for the witnesses: a database per tenant, a toy
    cache and the toy tokens of the staff, without faults or other writers. *)

From S2P Require Import Prelude GoStrings Errors Effects TxStore Limiter SdpDb PaymentStore.
From S2P Require Import Tenant Tenants Passwords Authenticator AuthManager AuthWorld ApiKeys Access.
From Stdlib Require Import Ascii String FunctionalExtensionality.

Local Open Scope string_scope.
Local Open Scope list_scope.
Local Open Scope go_scope.

Module KeyWorld.

(** ** A cache *)

Record Entry := mkEntry { Entry_Key : string; Entry_Value : APIKey; Entry_Expires : Z }.

Definition get_entry (now : Z) (c : list Entry) (k : string) : option APIKey :=
  Entry_Value <$> first_such (fun e => (Entry_Key e =? k) && (now <=? Entry_Expires e)%Z) c.

#[export] Instance cache : KeyCache := {|
  Cache := list Entry;
  cache_Get := get_entry;
  cache_Del k c := filter (fun e => Entry_Key e <> k) c;
  cache_SetWithTTL now k a ttl c := mkEntry k a (now + ttl) :: c |}.

Lemma get_after_delete now k c k' a : get_entry now (filter (fun e => Entry_Key e <> k) c) k' = Some a ->
  get_entry now c k' = Some a.
Proof.
  unfold get_entry. induction c as [|e c IH]; [done|]. rewrite filter_cons. destruct (decide _) as [Hk|Hk].
  - unfold first_such in *. cbn [List.find]. by destruct ((Entry_Key e =? k') && (now <=? Entry_Expires e)%Z).
  - intros H. unfold first_such in IH |- *. cbn [List.find]. destruct ((Entry_Key e =? k') && (now <=? Entry_Expires e)%Z) eqn:He; [|by apply IH].
    exfalso. apply andb_true_iff in He as [He%eqb_true _]. apply fmap_Some in H as (e' & H & _).
    apply first_such_some in H as [[Hne _]%list_elem_of_filter [He'%eqb_true _]%andb_true_iff].
    apply dec_stable in Hk. congruence.
Qed.

#[export] Instance cache_laws : KeyCacheLaws.
Proof.
  split.
  - intros now t k a ttl c k' a'. unfold cache_Get, cache_SetWithTTL, cache, get_entry, first_such.
    cbn [List.find Entry_Key Entry_Expires]. destruct ((k =? k') && (now <=? t + ttl)%Z) eqn:He; [|by right]. intros [= <-]. left.
    apply andb_true_iff in He as [He%eqb_true Hle%Z.leb_le]. done.
  - intros now k c k' a'. apply get_after_delete.
Qed.

(** ** The databases *)

Record Dbs := mkDbs {
  d_admin : AdminDb;
  d_auth : string -> AuthDb;
  d_keys : string -> ApiKeyDb;
  d_cache : Cache }.

(** The part of one tenant. *)
Definition put_of {X} (T : string) (x : X) (f : string -> X) : string -> X := fun T' => if T' =? T then x else f T'.

Lemma put_of_get {X} T (f : string -> X) : put_of T (f T) f = f.
Proof. apply functional_extensionality. intros T'. unfold put_of. destruct (eqb_spec T' T); [by subst|done]. Qed.
Lemma put_of_same {X} T (x : X) f : put_of T x f T = x.
Proof. unfold put_of. by rewrite eqb_same. Qed.
Lemma put_of_twice {X} T (x y : X) f : put_of T x (put_of T y f) = put_of T x f.
Proof. apply functional_extensionality. intros T'. unfold put_of. by destruct (_ =? _). Qed.

#[export] Instance admin_conn : Conn Dbs AdminDb :=
  {| conn_id := 0; conn_get := d_admin; conn_set x d := mkDbs x (d_auth d) (d_keys d) (d_cache d) |}.
#[export] Instance admin_laws : ConnLaws Dbs AdminDb.
Proof. constructor; [done|by intros []|done]. Qed.
#[export] Instance cache_conn : Conn Dbs Cache :=
  {| conn_id := 1; conn_get := d_cache; conn_set x d := mkDbs (d_admin d) (d_auth d) (d_keys d) x |}.
#[export] Instance cache_conn_laws : ConnLaws Dbs Cache.
Proof. constructor; [done|by intros []|done]. Qed.

#[export] Instance auth_pools : TenantPools Dbs AuthDb := fun T =>
  {| conn_id := 2; conn_get d := d_auth d T; conn_set x d := mkDbs (d_admin d) (put_of T x (d_auth d)) (d_keys d) (d_cache d) |}.
#[export] Instance key_pools : TenantPools Dbs ApiKeyDb := fun T =>
  {| conn_id := 3; conn_get d := d_keys d T; conn_set x d := mkDbs (d_admin d) (d_auth d) (put_of T x (d_keys d)) (d_cache d) |}.

#[export] Instance auth_pool_laws T : ConnLaws Dbs AuthDb (C := tenant_pool T).
Proof.
  constructor; [intros x d; apply put_of_same|intros []; cbn; by rewrite put_of_get|intros x y d; cbn; by rewrite put_of_twice].
Qed.
#[export] Instance key_pool_laws T : ConnLaws Dbs ApiKeyDb (C := tenant_pool T).
Proof.
  constructor; [intros x d; apply put_of_same|intros []; cbn; by rewrite put_of_get|intros x y d; cbn; by rewrite put_of_twice].
Qed.

Lemma cache_apart T (x : Cache) (d : Dbs) :
  conn_get (Conn := tenant_pool T) (conn_set x d) = (conn_get (Conn := tenant_pool T) d : ApiKeyDb).
Proof. done. Qed.
Lemma tables_apart T (x : ApiKeyDb) (d : Dbs) :
  conn_get (X := Cache) (conn_set (Conn := tenant_pool T) x d) = conn_get (X := Cache) d.
Proof. done. Qed.
Lemma tenants_apart T T' (x : ApiKeyDb) (d : Dbs) : T <> T' ->
  conn_get (Conn := tenant_pool T) (conn_set (Conn := tenant_pool T') x d) = (conn_get (Conn := tenant_pool T) d : ApiKeyDb).
Proof. intros H. cbn. unfold put_of. by destruct (eqb_spec T T'). Qed.

#[export] Instance env : Env Dbs :=
  {| env_fault _ := NoFault; env_interfere _ d := d; env_now t := Z.of_nat t; env_locked _ _ := false |}.
Lemma calm t (d : Dbs) : env_interfere t d = d.
Proof. done. Qed.

#[export] Instance uuids : UuidGen := {| uuid_generate _ i := string_of_list_ascii (repeat "u"%char (S i)) |}.
Lemma uuid_has_no_dot cx n : "."%char ∉ list_ascii_of_string (uuid_generate cx n).
Proof.
  cbn [uuid_generate uuids]. rewrite list_ascii_of_string_of_list_ascii. intros H%list_elem_of_In%repeat_spec. done.
Qed.
#[export] Instance pg_uuid : PgUuid := {| uuid_in s := Some s |}.
#[export] Instance random : CryptoBytes := {| rand_Read t n := Ok (map (fun i => Z.of_nat (t + i)) (seq 0 n)) |}.
#[export] Instance jwt : JwtLibrary := AuthWorld.jwt.
#[export] Instance collation : SdpDb.Collation := {| text_le := String.leb |}.

(** ** The organizations *)

Definition north : Tenant := mkTenant "t1" "north" (Some "https://north.example") None ActivatedTenantStatus false 0 0 None
  (Some "GDIST") "DISTRIBUTION_ACCOUNT.STELLAR.ENV" "ACTIVE".
Definition south : Tenant := mkTenant "t2" "south" (Some "https://south.example") None ActivatedTenantStatus false 0 0 None
  (Some "GDIST") "DISTRIBUTION_ACCOUNT.STELLAR.ENV" "ACTIVE".

Definition secret := "s3cret".
Definition exporter : APIKey := mkAPIKey "k1" "exports" (key_hash "salt" secret) "salt" None [ReadExports] ["10.0.0.0/8"]
  0 "u1" 0 "u1" None.
Definition exporter_text := "SDP_k1." +:+ secret.

Definition dbs (keys : list APIKey) (c : Cache) : Dbs :=
  mkDbs (mkAdminDb [north; south] []) (fun _ => AuthWorld.auth_db [] [])
    (fun T => mkApiKeyDb (if T =? "t1" then keys else [])) c.
Definition world (keys : list APIKey) (c : Cache) : World Dbs unit unit := mkWorld (dbs keys c) 0 ∅ tt [].

Definition request (authorization tenant : string) : Request :=
  mkRequest authorization "10.1.2.3" "" tenant "" "127.0.0.1:80" None.
End KeyWorld.
