(* ===== verification/RouteSafety.v ===== *)
(** What the table of routes grants: the duties that are kept apart, and those that are
    not. *)

From S2P Require Import Prelude GoStrings Errors AuthManager Validators ReceiverStore AuthHandlers ApiKeys Access Routes.
From Stdlib Require Import String.

Local Open Scope string_scope.
Local Open Scope list_scope.

(** The duties around a disbursement: it is drafted, approved and submitted, and its
    payments' statuses are changed by hand. *)
Definition drafting : list string := ["PostDisbursement"; "PostDisbursementInstructions"; "DeleteDisbursement"].
Definition approving : list string := ["ApproveDisbursement"; "PatchDisbursementStatus"].
Definition submitting : list string := ["SubmitDisbursement"].
Definition user_management : list string := ["CreateUser"; "UpdateUserRoles"; "UserActivation"; "PatchCircleConfig"].

Definition does (opened duty : list string) : bool := existsb (slices_Contains opened) duty.

(** A list of roles the handlers of users accept is one known role. *)
Lemma accepted_roles roles :
  V_Errors (validateRoles roles NewValidator) !! "roles" = None -> exists role, roles = [role] /\ role ∈ GetAllRoles.
Proof.
  unfold validateRoles. destruct roles as [|role [|role' roles]]; [done| |].
  - assert (Hex : ValidateRoleMutualExclusivity [role] = Ok tt).
    { unfold ValidateRoleMutualExclusivity. destruct (slices_Contains [role] InitiatorUserRole) eqn:E1; [|done].
      destruct (slices_Contains [role] ApproverUserRole) eqn:E2; [|done]. exfalso.
      apply slices_Contains_spec, list_elem_of_singleton in E1, E2. by rewrite <- E1 in E2. }
    cbn [List.length Nat.eqb Check_]. rewrite Hex. cbn [CheckError Check_ V_Errors NewValidator].
    destruct (UserRole_IsValid role) eqn:Ev; [|cbn [Check_ AddError V_Errors]; by simplify_map_eq].
    intros _. exists role. split; [done|]. by apply slices_Contains_spec in Ev.
  - intros H. exfalso. revert H. cbn [List.length Nat.eqb Check_ AddError].
    destruct (ValidateRoleMutualExclusivity _); cbn [CheckError Check_ AddError V_Errors]; by simplify_map_eq.
Qed.

(** The options of the server. *)
Definition server_options : list (bool * bool * bool * bool) :=
  (let bools := [true; false] in a ← bools; b ← bools; c ← bools; d ← bools; [(a, b, c, d)]).

Definition options_routes '(a, b, c, d) : list Route := routes a b c d.

Lemma every_option a b c d : (a, b, c, d) ∈ server_options.
Proof. apply list_elem_of_In. destruct a, b, c, d; cbn; tauto. Qed.

(** A check of the table, for every server and role. *)
Definition for_roles (check : string -> list Route -> bool) : bool :=
  forallb (fun o => forallb (fun role => check role (options_routes o)) GetAllRoles) server_options.

Lemma for_roles_spec check role a b c d :
  for_roles check = true -> role ∈ GetAllRoles -> check role (routes a b c d) = true.
Proof.
  intros H Hr. unfold for_roles in H. rewrite forallb_forall in H.
  specialize (H (a, b, c, d) ltac:(apply list_elem_of_In, every_option)).
  rewrite forallb_forall in H. apply H. by apply list_elem_of_In.
Qed.

Definition opened_by (role : string) (l : list Route) : list string := handlers_of (role_opens [role]) l.

(** Everything the duties are about is guarded by roles. *)
Definition has_roles (rt : Route) : bool := match Guarded rt with Staff _ (_ :: _) => true | _ => false end.
Definition duties_guarded (l : list Route) : bool :=
  forallb (fun rt => has_roles rt ||
    negb (slices_Contains (drafting ++ approving ++ submitting ++ user_management ++ ["PatchPaymentStatus"]) (Handler rt))) l.

Definition apart (role : string) (l : list Route) : bool :=
  let opened := opened_by role l in
  duties_guarded l
  && ((role =? OwnerUserRole) || negb (does opened user_management))
  && ((role =? OwnerUserRole) || (role =? FinancialControllerUserRole)
      || (List.length (filter (fun duty => does opened duty = true) [drafting; approving; submitting]) <=? 1)%nat
         && negb (slices_Contains opened "PatchPaymentStatus")).

Lemma table_apart : for_roles apart = true.
Proof. by vm_compute. Qed.

(** C18: What the tables of routes ask of the role of a user, for requests with the user's
    token: each route to a duty around disbursements names the roles it is for.  The
    roles a user can be given open, beside owners and financial controllers, at most one
    of drafting, approving and submitting disbursements, and never the status of a
    payment; users, their roles and the Circle configuration are the owner's alone.
    This is not what the comments on the roles say ([roles_differ_from_their_comments]),
    and the key of a program is checked for its permissions alone
    ([developers_make_keys_for_everything]). *)
Theorem duties_are_separated roles bridge embedded rpc sep45
    (Haccepted : V_Errors (validateRoles roles NewValidator) !! "roles" = None) :
  let l := routes bridge embedded rpc sep45 in
  let opened := handlers_of (role_opens roles) l in
  (forall rt, rt ∈ l ->
     Handler rt ∈ drafting ++ approving ++ submitting ++ user_management ++ ["PatchPaymentStatus"] -> has_roles rt = true) /\
  (roles <> [OwnerUserRole] -> forall h, h ∈ user_management -> h ∉ opened) /\
  (roles <> [OwnerUserRole] -> roles <> [FinancialControllerUserRole] ->
     List.length (filter (fun duty => does opened duty = true) [drafting; approving; submitting]) <= 1 /\
     "PatchPaymentStatus" ∉ opened).
Proof.
  destruct (accepted_roles _ Haccepted) as (role & -> & Hrole). cbn zeta.
  pose proof (for_roles_spec apart role bridge embedded rpc sep45 table_apart Hrole) as H.
  unfold apart, opened_by in H. apply andb_true_iff in H as [[Hg Hu]%andb_true_iff Hd]. split_and!.
  - intros rt Hin Hh. unfold duties_guarded in Hg. rewrite forallb_forall in Hg.
    specialize (Hg rt ltac:(by apply list_elem_of_In)). apply orb_true_iff in Hg as [?|Hg]; [done|].
    apply slices_Contains_spec in Hh. by rewrite Hh in Hg.
  - intros Hno h Hh Hopen. apply orb_true_iff in Hu as [He%eqb_true|Hu]; [by rewrite He in Hno|].
    unfold does in Hu. apply negb_true_iff in Hu. rewrite <- not_true_iff_false, existsb_exists in Hu.
    destruct Hu. exists h. split; [by apply list_elem_of_In|by apply slices_Contains_spec].
  - intros H1 H2. apply orb_true_iff in Hd as [[He%eqb_true|He%eqb_true]%orb_true_iff|Hd];
      [by rewrite He in H1|by rewrite He in H2|].
    apply andb_true_iff in Hd as [?%Nat.leb_le Hs]. split; [done|]. by apply negb_true_iff, slices_Contains_false in Hs.
Qed.

Lemma duties_are_separated_witness :
  "ApproveDisbursement" ∉ handlers_of (role_opens [FinanceOfficerUserRole]) (routes true true true true) /\
  "SubmitDisbursement" ∈ handlers_of (role_opens [FinanceOfficerUserRole]) (routes true true true true).
Proof.
  destruct (duties_are_separated [FinanceOfficerUserRole] true true true true eq_refl) as (_ & _ & H).
  specialize (H ltac:(done) ltac:(done)). split; [|by apply slices_Contains_spec; vm_compute].
  intros Ha%slices_Contains_spec. by vm_compute in Ha.
Defined.

(** ** What the table does not keep apart *)

(** The roles differ from what [roles.go] says of them: a business user, who is to read
    only, pays and retries; an approver cannot submit; a financial controller lacks
    more than the users. *)
Fact roles_differ_from_their_comments :
  let opened role := opened_by role (routes false false false false) in
  Forall (fun h => h ∈ opened BusinessUserRole) ["PostDirectPayment"; "RetryPayments"] /\
  "SubmitDisbursement" ∉ opened ApproverUserRole /\
  Forall (fun h => h ∈ opened OwnerUserRole /\ h ∉ opened FinancialControllerUserRole)
    ["CreateAPIKey"; "PostWallets"; "PatchCircleConfig"].
Proof. cbn zeta. by_computation. Qed.

(** Who may make keys may make one that opens everything a role could: the
    permissions of a key are not those of its creator. *)
Fact developers_make_keys_for_everything bridge a :
  Permissions a = [ReadAll; WriteAll] ->
  "CreateAPIKey" ∈ opened_by DeveloperUserRole (staff_routes bridge) /\
  is_ok (ValidatePermissions (Permissions a)) = true /\
  forall rt, rt ∈ staff_routes bridge -> key_opens a rt = true.
Proof.
  intros Hp. rewrite Hp. split_and!; [by apply slices_Contains_spec; destruct bridge; vm_compute|done|].
  intros rt Hrt. unfold key_opens, HasPermission. rewrite Hp.
  apply list_elem_of_In in Hrt. revert rt Hrt. apply List.Forall_forall.
  by destruct bridge; repeat constructor.
Qed.
