(* ===== verification/ApiKeySafety.v ===== *)
(** What the allowed addresses of a key admit, that a key opens what it was made for, and
    who may change it. *)

From S2P Require Import Prelude GoStrings Errors Effects TxStore Limiter ReceiverStore Validators.
From S2P Require Import Calm Transactions NetIP ApiKeys Access KeyWorld.
From Stdlib Require Import Ascii String.

Local Open Scope string_scope.
Local Open Scope list_scope.
Local Open Scope go_scope.

(** ** Networks are prefixes *)

Definition is_v4 (ip : list Z) : Prop := take 12 ip = v4InV6Prefix.
#[export] Instance is_v4_dec ip : Decision (is_v4 ip).
Proof. unfold is_v4. apply _. Defined.

Lemma length_CIDRMask n bytes : List.length (CIDRMask n bytes) = bytes.
Proof. revert n. induction bytes as [|bytes IH]; intros n; [done|]. cbn. by rewrite IH. Qed.

Lemma length_and a m : List.length (and_bytes a m) = min (List.length a) (List.length m).
Proof. apply length_zip_with. Qed.

Lemma CIDRMask_lookup n bytes i : i < bytes -> CIDRMask n bytes !! i = Some (mask_byte ((n - 8 * i) `min` 8)).
Proof.
  revert n i. induction bytes as [|bytes IH]; intros n i Hi; [lia|].
  destruct i as [|i]; [cbn; by rewrite Nat.sub_0_r|]. cbn [CIDRMask lookup list_lookup].
  rewrite IH by lia. do 2 f_equal. lia.
Qed.

Lemma and_lookup a m i x y : a !! i = Some x -> m !! i = Some y -> and_bytes a m !! i = Some (Z.land x y).
Proof. intros Hx Hy. unfold and_bytes. by rewrite lookup_zip_with, Hx, Hy. Qed.

(** Under a mask of at least 96 bits the first twelve bytes are as they were. *)
Lemma and_keeps_12 a n : List.length a = 16 -> Forall is_byte a -> 96 <= n ->
  take 12 (and_bytes a (CIDRMask n 16)) = take 12 a.
Proof.
  intros Hl Ha Hn. apply list_eq. intros i. destruct (Nat.lt_ge_cases i 12) as [Hi|Hi].
  - rewrite !lookup_take_lt by done.
    destruct (lookup_lt_is_Some_2 a i) as [x Hx]; [lia|]. rewrite Hx.
    rewrite (and_lookup a _ i x _ Hx (CIDRMask_lookup n 16 i ltac:(lia))).
    f_equal. rewrite Nat.min_r by lia. change (mask_byte 8) with (Z.ones 8).
    rewrite Z.land_ones by lia. apply Z.mod_small. rewrite Forall_lookup in Ha. by apply (Ha i).
  - rewrite !lookup_take_ge by done. done.
Qed.

(** And under a smaller one they are no longer those of an IPv4 address. *)
Lemma masked_v4 a n : List.length a = 16 -> Forall is_byte a -> is_v4 (and_bytes a (CIDRMask n 16)) -> 96 <= n.
Proof.
  intros Hl Ha Hv. destruct (Nat.le_gt_cases 96 n) as [|Hn]; [done|]. exfalso.
  destruct (lookup_lt_is_Some_2 a 11) as [x Hx]; [lia|].
  pose proof (and_lookup a _ 11 x _ Hx (CIDRMask_lookup n 16 11 ltac:(lia))) as H11.
  assert (H : take 12 (and_bytes a (CIDRMask n 16)) !! 11 = Some 255%Z) by (by rewrite Hv).
  rewrite lookup_take_lt, H11 in H by lia. injection H as H.
  rewrite Forall_lookup in Ha. specialize (Ha 11 x Hx).
  assert (Hk : exists k, k < 8 /\ Z.land x (mask_byte k) = 255%Z)
    by (exists ((n - 8 * 11) `min` 8); split; [lia|exact H]).
  clear H. destruct Hk as (k & Hk & H). destruct (mask_byte_entry k x ltac:(lia) Ha) as [Hof _].
  rewrite Hof in H. clear -Hk H. revert H. generalize (bits8 x). intros l.
  do 8 (destruct k as [|k]; [destruct l as [|[] [|[] [|[] [|[] [|[] [|[] [|[] l]]]]]]]; done|]). lia.
Qed.

Lemma and_idem a m : and_bytes (and_bytes a m) m = and_bytes a m.
Proof.
  revert m. induction a as [|x a IH]; intros [|y m]; try done. cbn.
  change (zip_with Z.land (zip_with Z.land a m) m) with (and_bytes (and_bytes a m) m).
  rewrite IH. by rewrite <- Z.land_assoc, Z.land_diag.
Qed.

Lemma bits_determine a b : List.length a = List.length b -> Forall is_byte a -> Forall is_byte b ->
  take (8 * List.length a) (address_bits a) = take (8 * List.length a) (address_bits b) <-> a = b.
Proof.
  intros Hl Ha Hb. rewrite <- (mask_is_prefix (8 * List.length a) a b Hl Ha Hb).
  assert (Hff : forall l : list Z, Forall is_byte l -> and_bytes l (CIDRMask (8 * List.length l) (List.length l)) = l).
  { intros l. induction 1 as [|x l Hx Hl' IH]; [done|].
    replace (8 * List.length (x :: l)) with (8 + 8 * List.length l) by (cbn; lia).
    cbn [List.length CIDRMask and_bytes zip_with].
    replace ((8 + 8 * List.length l) `min` 8) with 8 by lia.
    replace (8 + 8 * List.length l - 8) with (8 * List.length l) by lia.
    change (255 - 255 / 2 ^ Z.of_nat 8)%Z with (Z.ones 8). rewrite Z.land_ones by lia.
    f_equal; [by apply Z.mod_small|exact IH]. }
  rewrite (Hff a Ha), Hl, (Hff b Hb). done.
Qed.

Lemma length_bits l : List.length (address_bits l) = 8 * List.length l.
Proof. induction l as [|b l IH]; [done|]. unfold address_bits in *. cbn. rewrite IH. lia. Qed.

(** The masks of both kinds of address, on 16 bytes. *)
Lemma v4_prefix_bits n a b :
  List.length a = 16 -> List.length b = 16 -> Forall is_byte a -> Forall is_byte b -> is_v4 a ->
  take (96 + n) (address_bits a) = take (96 + n) (address_bits b) <->
  is_v4 b /\ take n (address_bits (drop 12 a)) = take n (address_bits (drop 12 b)).
Proof.
  intros La Lb Ha Hb Hva. rewrite <- (take_drop 12 a) at 1. rewrite <- (take_drop 12 b) at 1.
  unfold address_bits. rewrite !bind_app. fold (address_bits (take 12 a)) (address_bits (drop 12 a))
    (address_bits (take 12 b)) (address_bits (drop 12 b)).
  assert (Hlen : forall l, List.length l = 12 -> List.length (address_bits l) = 96).
  { intros l Hl. rewrite length_bits. lia. }
  assert (L12 : forall l : list Z, List.length l = 16 -> List.length (take 12 l) = 12) by (intros l Hl; rewrite length_take; lia).
  rewrite !take_app_add' by (symmetry; apply Hlen; auto). split.
  - intros H. apply app_inj_1 in H as [H1 H2]; [|rewrite !Hlen; auto]. split; [|done].
    unfold is_v4. rewrite <- Hva. symmetry. apply bits_determine; [by rewrite !L12|by apply Forall_take..|by rewrite H1].
  - intros [Hvb H]. f_equal; [|done]. unfold is_v4 in Hva, Hvb. by rewrite Hva, Hvb.
Qed.

Lemma drop_zip_with_and k a m : drop k (and_bytes a m) = and_bytes (drop k a) (drop k m).
Proof.
  revert a m. induction k as [|k IH]; [done|]. intros [|x a] [|y m]; cbn; [done|done| |apply IH].
  by destruct (drop k a).
Qed.

Lemma To4_16 l : List.length l = 16 -> To4 l = if decide (is_v4 l) then Some (drop 12 l) else None.
Proof.
  intros Hl. unfold To4. rewrite Hl. cbn [Nat.eqb andb]. unfold is_v4. by case_bool_decide; destruct (decide _).
Qed.

(** How many of the 128 bits of an address a network of either kind fixes. *)
Definition fixed_bits (bits n : nat) : nat := n + (128 - bits).

(** The address of the network, its kind and the number of bits of its text: the
    addresses it contains agree with it on those bits, and an IPv4 address is only in
    networks of IPv4 addresses. *)
Lemma Contains_is_prefix bits base n ip :
  (bits = 32 /\ is_v4 base \/ bits = 128) -> n <= bits ->
  List.length base = 16 -> Forall is_byte base -> List.length ip = 16 -> Forall is_byte ip ->
  Net_Contains (network bits base n) ip = true <->
  take (fixed_bits bits n) (address_bits base) = take (fixed_bits bits n) (address_bits ip) /\
  (is_v4 ip -> 96 <= fixed_bits bits n).
Proof.
  intros Hbits Hn Lb Hb Li Hi. unfold fixed_bits. destruct Hbits as [[-> Hv]| ->].
  - change (128 - 32) with 96. rewrite (Nat.add_comm n 96), (v4_prefix_bits n base ip) by done.
    unfold network. change (32 / 8) with 4. cbn [Nat.eqb].
    assert (L4 : forall l : list Z, List.length l = 16 -> List.length (drop 12 l) = 4) by (intros l Hl; rewrite length_drop; lia).
    assert (Lm : List.length (and_bytes (drop 12 base) (CIDRMask n 4)) = 4)
      by (rewrite length_and, length_CIDRMask, L4 by done; done).
    unfold Net_Contains, network_number. cbn [Net_IP Net_Mask]. unfold To4 at 1. rewrite Lm, length_CIDRMask.
    cbn [Nat.eqb]. rewrite (To4_16 ip Li), andb_true_iff, !bool_decide_eq_true, Lm, and_idem.
    pose proof (mask_is_prefix n (drop 12 base) (drop 12 ip)) as Hmask. rewrite !L4 in Hmask by done.
    specialize (Hmask eq_refl ltac:(by apply Forall_drop) ltac:(by apply Forall_drop)).
    destruct (decide (is_v4 ip)) as [Hvi|Hvi]; cbn [default from_option id].
    + rewrite L4, Hmask by done. split; [intros [_ ?]; split_and!; [done..|lia]|by intros ([_ ?] & _)].
    + rewrite Li. split; [by intros [? _]|by intros ([? _] & _)].
  - change (128 - 128) with 0. rewrite Nat.add_0_r. unfold network. change (128 / 8) with 16. cbn [Nat.eqb].
    assert (Lm : forall l, List.length l = 16 -> List.length (and_bytes l (CIDRMask n 16)) = 16)
      by (intros l Hl; rewrite length_and, length_CIDRMask, Hl; done).
    unfold Net_Contains, network_number. cbn [Net_IP Net_Mask].
    rewrite (To4_16 _ (Lm base Lb)), (To4_16 ip Li), length_CIDRMask, (Lm base Lb). cbn [Nat.eqb andb].
    pose proof (mask_is_prefix n base ip) as Hmask. rewrite Lb, Li in Hmask.
    specialize (Hmask eq_refl Hb Hi). rewrite <- Hmask.
    assert (Hkind : forall l, List.length l = 16 -> Forall is_byte l ->
      is_v4 (and_bytes l (CIDRMask n 16)) <-> is_v4 l /\ 96 <= n).
    { intros l Hl Hbl. split; [intros Hvl; pose proof (masked_v4 l n Hl Hbl Hvl); split; [|done]|intros [Hvl Hn']];
        unfold is_v4 in *; by rewrite and_keeps_12 in * by done. }
    pose proof (Hkind base Lb Hb) as Kb. pose proof (Hkind ip Li Hi) as Ki.
    destruct (decide (is_v4 (and_bytes base (CIDRMask n 16)))) as [Hvb|Hvb], (decide (is_v4 ip)) as [Hvi|Hvi];
      cbn [default from_option id]; rewrite ?andb_true_iff, ?bool_decide_eq_true, ?length_drop, ?(Lm base Lb), ?Li.
    + rewrite <- !drop_zip_with_and, and_idem. apply Kb in Hvb as [Hvb Hn96]. split.
      * intros [_ H]. split; [|done]. rewrite <- (take_drop 12 (and_bytes base _)), <- (take_drop 12 (and_bytes ip _)).
        f_equal; [|exact H]. rewrite !and_keeps_12 by done. unfold is_v4 in *. congruence.
      * intros [H _]. by rewrite H.
    + split; [by intros [? _]|]. intros [H _]. rewrite H in Hvb. by apply Ki in Hvb as [? _].
    + split; [by intros [? _]|]. intros [H Hn96]. exfalso. rewrite H in Hvb. apply Hvb, Ki. split; [done|auto].
    + rewrite and_idem. split; [by intros [_ ?]|by intros [? _]].
Qed.

(** ** The addresses a key may be used from *)

(** What an entry of the list says about an address, given as text. *)
Definition entry_matches (ipStr : string) (ip : list Z) (entry : string) : Prop :=
  if Contains entry "/" then
    exists addr mask n bits base,
      cut_slash entry = Some (addr, mask) /\ mask <> "" /\ ParseAddr addr = Some (bits, base) /\
      dtoi 0 (list_ascii_of_string mask) = Some (Z.of_nat n) /\ n <= bits /\
      take (fixed_bits bits n) (address_bits base) = take (fixed_bits bits n) (address_bits ip) /\
      (is_v4 ip -> 96 <= fixed_bits bits n)
  else entry = ipStr.

Lemma dtoi_nonneg s acc n : (0 <= acc)%Z -> dtoi acc s = Some n -> (0 <= n)%Z.
Proof.
  revert acc. induction s as [|c s IH]; intros acc Hacc; cbn [dtoi]; [by intros [= <-]|].
  destruct (is_digit c); [|done]. destruct (_ <=? _)%Z; [done|]. apply IH. lia.
Qed.

Lemma entry_allows_spec ipStr ip entry :
  ParseIP ipStr = Some ip -> entry_allows ipStr ip entry = true <-> entry_matches ipStr ip entry.
Proof.
  intros Hip. unfold entry_allows, entry_matches. destruct (Contains entry "/"); [|apply eqb_true].
  unfold ParseIP in Hip. apply fmap_Some in Hip as ([b0 ip'] & Hip & Heq). cbn [snd] in Heq. subst ip'.
  destruct (ParseAddr_bytes _ _ _ Hip) as (Hi & Li & _).
  unfold ParseCIDR. destruct (cut_slash entry) as [[addr mask]|]; [|by split; [|intros (? & ? & ? & ? & ? & ? & _)]].
  cbn [mbind option_bind]. destruct (ParseAddr addr) as [[bits base]|] eqn:Ea; cbn [mbind option_bind].
  2: { split; [done|]. intros (? & ? & ? & ? & ? & [= <- <-] & _ & ? & _). congruence. }
  destruct (ParseAddr_bytes _ _ _ Ea) as (Hb & Lb & Hkind). destruct (eqb_spec mask "") as [->|Hmask].
  { split; [done|]. by intros (? & ? & ? & ? & ? & [= <- <-] & ? & _). }
  destruct (dtoi 0 (list_ascii_of_string mask)) as [n|] eqn:En; cbn [mbind option_bind].
  2: { split; [done|]. intros (? & ? & ? & ? & ? & [= <- <-] & _ & _ & ? & _). congruence. }
  apply dtoi_nonneg in En as Hn0; [|lia]. destruct (Z.ltb_spec (Z.of_nat bits) n) as [Hlt|Hle].
  { split; [done|]. intros (? & ? & n' & bits' & ? & [= <- <-] & _ & Ha & Hd & Hle & _).
    rewrite Ea in Ha. injection Ha as <- <-. rewrite En in Hd. injection Hd as ->. lia. }
  rewrite (Contains_is_prefix bits base (Z.to_nat n) ip Hkind ltac:(lia) Lb Hb Li Hi). split.
  - intros H. exists addr, mask, (Z.to_nat n), bits, base. rewrite Z2Nat.id by done. split_and!; try done; [lia|apply H..].
  - intros (? & ? & n' & bits' & base' & [= <- <-] & _ & Ha & Hd & _ & H).
    rewrite Ea in Ha. injection Ha as <- <-. rewrite En in Hd. injection Hd as ->. by rewrite Nat2Z.id.
Qed.

(** C24: A key with a list of addresses is accepted from exactly the addresses that agree
    with an entry of the list: with a network on the bits its length fixes, IPv4
    networks and addresses apart from those of IPv6, and with a single address in the very
    spelling of the list; a key without a list is accepted from everywhere. *)
Theorem allow_list_is_respected a ipStr :
  IsAllowedIP a ipStr = true <->
  AllowedIPs a = [] \/
  exists ip, ParseIP ipStr = Some ip /\ exists entry, entry ∈ AllowedIPs a /\ entry_matches ipStr ip entry.
Proof.
  unfold IsAllowedIP. destruct (AllowedIPs a) as [|e l]; [by split; [left|]|].
  destruct (ParseIP ipStr) as [ip|] eqn:Eip; [|by split; [|intros [|(? & ? & _)]]].
  rewrite existsb_exists. split.
  - intros (entry & Hin & He). right. exists ip. split; [done|]. exists entry.
    split; [by apply list_elem_of_In|by apply entry_allows_spec].
  - intros [|(ip' & [= <-] & entry & Hin & He)]; [done|]. exists entry.
    split; [by apply list_elem_of_In|by apply entry_allows_spec].
Qed.

(** An address of the list in another spelling than the server's is never matched,
    though it is accepted when the key is made. *)
Fact spelled_address_never_matches :
  let a := mkAPIKey "k" "" "" "" None [] ["2001:DB8::1"] 0 "" 0 "" None in
  is_ok (ValidateAllowedIPs (AllowedIPs a)) = true /\ ParseIP "2001:DB8::1" = ParseIP "2001:db8::1" /\
  IsAllowedIP a "2001:db8::1" = false.
Proof. by vm_compute. Qed.

(** ** A key opens what it was made for *)

Lemma split_on_nodot (l : list ascii) : "."%char ∉ l -> split_on (Ascii.eqb ".") l = [l].
Proof.
  induction l as [|c l IH]; [done|]. rewrite not_elem_of_cons. intros [Hc Hl]. cbn [split_on].
  destruct (Ascii.eqb_spec "." c); [congruence|]. by rewrite IH.
Qed.

Lemma split_on_dot (a b : list ascii) :
  "."%char ∉ a -> split_on (Ascii.eqb ".") (a ++ "."%char :: b) = a :: split_on (Ascii.eqb ".") b.
Proof.
  induction a as [|c a IH]; [done|]. rewrite not_elem_of_cons. intros [Hc Ha]. cbn [app split_on].
  destruct (Ascii.eqb_spec "." c); [congruence|]. by rewrite IH.
Qed.

Lemma get_in_alphabet n c : String.get n alphabet = Some c -> c <> "."%char.
Proof.
  intros H ->. assert (Hall : forallb (fun n => bool_decide (String.get n alphabet <> Some "."%char)) (seq 0 63) = true) by done.
  rewrite forallb_forall in Hall. destruct (Nat.lt_ge_cases n 63) as [Hn|Hn].
  - specialize (Hall n ltac:(apply in_seq; lia)). by apply bool_decide_eq_true in Hall.
  - assert (Hnone : forall s m, String.length s <= m -> String.get m s = None).
    { induction s as [|c s IH]; intros m Hm; [done|]. cbn in Hm. destruct m; [lia|]. cbn. apply IH. lia. }
    rewrite Hnone in H; [done|]. cbn. lia.
Qed.

Lemma secret_has_no_dot l : "."%char ∉ map secret_char l.
Proof.
  rewrite list_elem_of_In, in_map_iff. intros (b & Hb & _). unfold secret_char in Hb.
  destruct (String.get _ _) eqn:E; [|done]. cbn in Hb. by apply get_in_alphabet in E.
Qed.

Lemma split_on_nonempty (l : list ascii) : split_on (Ascii.eqb ".") l <> [].
Proof.
  destruct l as [|c l]; [done|]. cbn [split_on]. destruct (Ascii.eqb "." c); [done|].
  by destruct (split_on _ l).
Qed.

Lemma split_on_one (l a : list ascii) : split_on (Ascii.eqb ".") l = [a] -> l = a /\ "."%char ∉ a.
Proof.
  revert a. induction l as [|c l IH]; intros a; cbn [split_on]; [intros [= <-]; split; [done|apply not_elem_of_nil]|].
  destruct (Ascii.eqb_spec "." c); [intros [= _ H]; by apply split_on_nonempty in H|].
  destruct (split_on _ l) as [|p ps] eqn:Ep; [by apply split_on_nonempty in Ep|]. intros [= <- ->].
  destruct (IH p eq_refl) as [-> ?]. rewrite not_elem_of_cons. by split_and!.
Qed.

Lemma split_on_two (l a b : list ascii) :
  split_on (Ascii.eqb ".") l = [a; b] -> l = a ++ "."%char :: b /\ "."%char ∉ a.
Proof.
  revert a. induction l as [|c l IH]; intros a; cbn [split_on]; [done|].
  destruct (Ascii.eqb_spec "." c) as [<-|Hc].
  - intros [= <- H]. apply split_on_one in H as [-> _]. split; [done|apply not_elem_of_nil].
  - destruct (split_on _ l) as [|p ps] eqn:E; [done|]. intros [= <- ->].
    destruct (IH p eq_refl) as [-> ?]. rewrite not_elem_of_cons. by split_and!.
Qed.

Lemma separated_inj (s : ascii) (a b c d : list ascii) :
  s ∉ a -> s ∉ c -> a ++ s :: b = c ++ s :: d -> a = c /\ b = d.
Proof.
  revert c. induction a as [|x a IH]; intros [|y c] Ha Hc; cbn; rewrite ?not_elem_of_cons in *.
  - by intros [= ->].
  - intros H. injection H as Hy _. naive_solver.
  - intros H. injection H as Hx _. naive_solver.
  - intros H. injection H as Hxy H. destruct (IH c) as [-> ->]; naive_solver.
Qed.

Lemma prefix_drop p s : prefix p s = true ->
  s = p +:+ string_of_list_ascii (drop (String.length p) (list_ascii_of_string s)).
Proof.
  revert s. induction p as [|c p IH]; intros s H; [symmetry; apply string_of_list_ascii_of_string|].
  destruct s as [|d s]; [done|]. cbn in H. destruct (ascii_dec c d) as [<-|]; [|done].
  change (String c s = String c (p +:+ string_of_list_ascii (drop (String.length p) (list_ascii_of_string s)))).
  by rewrite <- (IH s H).
Qed.

(** The text of a key. *)
Definition key_text (id secret : string) : string := APIKeyPrefix +:+ id +:+ "." +:+ secret.

Lemma key_text_split raw id secret :
  prefix APIKeyPrefix raw = true ->
  split_on (Ascii.eqb ".") (drop (String.length APIKeyPrefix) (list_ascii_of_string raw)) = [id; secret] ->
  raw = key_text (string_of_list_ascii id) (string_of_list_ascii secret) /\ "."%char ∉ id.
Proof.
  intros Hp Hs. apply split_on_two in Hs as [Hs Hid]. split; [|done].
  rewrite (prefix_drop _ _ Hp), Hs. unfold key_text. f_equal. clear. induction id as [|c id IH]; [done|]. exact (f_equal (String c) IH).
Qed.

Lemma key_text_parts id secret : "."%char ∉ list_ascii_of_string id -> "."%char ∉ list_ascii_of_string secret ->
  prefix APIKeyPrefix (key_text id secret) = true /\
  split_on (Ascii.eqb ".") (drop (String.length APIKeyPrefix) (list_ascii_of_string (key_text id secret)))
    = [list_ascii_of_string id; list_ascii_of_string secret].
Proof.
  intros Hi Hs. split; [unfold key_text, APIKeyPrefix; cbn; by destruct (id +:+ _)|].
  unfold key_text. rewrite !list_ascii_app. cbn. rewrite drop_0.
  rewrite split_on_dot, split_on_nodot by done. done.
Qed.

Lemma key_text_inj id1 secret1 id2 secret2 :
  "."%char ∉ list_ascii_of_string id1 -> "."%char ∉ list_ascii_of_string id2 ->
  key_text id1 secret1 = key_text id2 secret2 -> id1 = id2 /\ secret1 = secret2.
Proof.
  intros H1 H2 H. unfold key_text, APIKeyPrefix in H. injection H as H.
  apply (f_equal list_ascii_of_string) in H. rewrite !list_ascii_app in H. apply separated_inj in H as [Ei Es]; [|done..].
  apply (f_equal string_of_list_ascii) in Ei, Es. by rewrite !string_of_list_ascii_of_string in Ei, Es.
Qed.

Lemma scan_of_valid perms : ValidatePermissions perms = Ok tt -> Scan_permissions perms = Ok tt.
Proof.
  unfold ValidatePermissions, Scan_permissions. induction perms as [|p perms IH]; [done|]. cbn.
  destruct (negb _); [done|]. exact IH.
Qed.

(** The secret of the text is the one of the row. *)
Definition opens_row (raw : string) (row : APIKey) : Prop :=
  "."%char ∉ list_ascii_of_string (Key_ID row) /\
  exists secret, raw = key_text (Key_ID row) secret /\ key_hash (Salt row) secret = KeyHash row.

Lemma scan_valid k f : Scan_permissions (Permissions k) = Ok tt -> scan_key f k = Ok (f k).
Proof. intros H. unfold scan_key. by rewrite H. Qed.

Section keys.
Context {D L Ev : Type} {E : Env D} {KC : Conn D ApiKeyDb} {KL : ConnLaws D ApiKeyDb}.
Context {CB : CryptoBytes} {U : UuidGen} {PU : PgUuid}.
Implicit Types w : World D L Ev.
Abbreviation M := (M D L Ev).
Abbreviation keys w := (api_keys (conn_get (X := ApiKeyDb) (w_db w))).

Lemma check_keys_ok {A} (a : A) db a' db' :
  check_keys a db = Ok (a', db') -> a' = a /\ db' = db /\ Forall key_row_ok (api_keys db) /\ keys_ok (api_keys db).
Proof. unfold check_keys. destruct (decide _); [|done]. destruct (decide _); [|done]. by intros [= <- <-]. Qed.

Lemma generateSecret_ok w s w' : generateSecret w = (Ok s, w') -> "."%char ∉ list_ascii_of_string s.
Proof.
  intros H. unfold generateSecret in H. apply mbind_ok in H as (l & w1 & _ & H). injection H as <- _.
  rewrite list_ascii_of_string_of_list_ascii. apply secret_has_no_dot.
Qed.

(** The row of a key that was made, whichever attempt made it. *)
Definition made (name : string) (perms ips : list string) (expiry : option Z) (creator : string)
    (k row : APIKey) (text : string) : Prop :=
  exists secret, text = APIKeyPrefix +:+ Key_ID row +:+ "." +:+ secret /\ "."%char ∉ list_ascii_of_string secret /\
    KeyHash row = key_hash (Salt row) secret /\ Key_ID k = Key_ID row /\ Permissions row = perms /\
    AllowedIPs row = ips /\ ExpiryDate row = expiry /\ uuid_in creator = Some (CreatedBy row) /\
    exists cx n, Key_ID row = uuid_generate cx n.

Lemma insert_ok attempts name perms ips expiry creator w k text w' :
  insert_attempts attempts name perms ips expiry creator w = (Ok (k, text), w') ->
  exists row, row ∈ keys w' /\ made name perms ips expiry creator k row text /\
    Forall key_row_ok (keys w') /\ keys_ok (keys w').
Proof using KL.
  revert w. induction attempts as [|n IH]; intros w H; [done|]. cbn [insert_attempts] in H.
  apply mbind_ok in H as (salt & w1 & _ & H). apply mbind_ok in H as (secret & w2 & Hs & H).
  apply generateSecret_ok in Hs. apply mbind_ok in H as (r & w3 & Hr & H). destruct r as [c|e].
  - injection H as <- <- <-. unfold try_ in Hr. destruct (db_stmt _ w2) as [r' w'] eqn:Hq. injection Hr as -> ->.
    apply db_stmt_ok in Hq as (cx & x' & Hq & ->). unfold insert_key in Hq.
    destruct (uuid_in _) as [creator'|] eqn:Ec; [|done]. apply check_keys_ok in Hq as (-> & -> & Hrows & Hok).
    cbn [put_part w_db]. cbn. rewrite conn_get_set. eexists. split; [apply elem_of_app; right; by apply list_elem_of_singleton|].
    split; [|done]. exists secret. cbn. split_and!; try done. by eexists _, _.
  - destruct (_ && _); [by eapply IH|done].
Qed.

Lemma lookup_key_row row db : keys_ok (api_keys db) -> row ∈ api_keys db -> lookup_key (Key_ID row) db = Some row.
Proof.
  intros [Hid _] Hin. by apply (first_such_unique Key_ID).
Qed.

Definition used_at (now : Z) (k : APIKey) : APIKey := k <| LastUsedAt := Some now |>.

Lemma scan_key_ok f k a : scan_key f k = Ok a -> a = f k.
Proof. unfold scan_key. destruct (Scan_permissions _); [|done]. by intros [= <-]. Qed.

Section calm.
Context (Hcalm : forall t (d : D), env_interfere t d = d).

Lemma IsExpired_ok a w b w' :
  IsExpired a w = (Ok b, w') ->
  read_only w w' /\ w_tx w' = w_tx w /\ exists t, w_clock w <= t /\ b = expired_at (env_now t) a.
Proof using Hcalm.
  unfold IsExpired, expired_at. destruct (ExpiryDate a).
  - intros H. apply mbind_ok in H as (now & w1 & H1 & H). injection H as <- <-.
    assert (w_tx w1 = w_tx w) by (unfold ask in H1; injection H1 as _ <-; apply settle_tx).
    apply (ask_ok Hcalm) in H1 as [-> Hr]. split_and!; [done..|]. by exists (w_clock w).
  - intros [= <- <-]. split_and!; [done..|]. by exists (w_clock w).
Qed.

(** An answer of the database: the row of the key's text, unexpired, and used now. *)
Lemma validate_ok raw w a w' :
  ValidateRawKeyAndUpdateLastUsed raw w = (Ok a, w') ->
  exists row now, row ∈ keys w /\ opens_row raw row /\ lookup_key (Key_ID row) (conn_get (w_db w)) = Some row /\
    (exists t, w_clock w <= t /\ expired_at (env_now t) row = false) /\
    a = credentials (used_at now row) /\ w_clock w <= w_clock w' /\
    w_db w' = conn_set (conn_get (w_db w') : ApiKeyDb) (w_db w) /\
    keys w' = update_where (fun k => Key_ID k =? Key_ID row) (used_at now) (keys w) /\ keys_ok (keys w').
Proof using Hcalm KL.
  unfold ValidateRawKeyAndUpdateLastUsed. destruct (prefix APIKeyPrefix raw) eqn:Hp; [|done]. cbn [negb].
  destruct (split_on _ _) as [|id [|secret [|]]] eqn:Hs; try done. intros H.
  apply map_errM_ok, (tx_ok Hcalm) in H as (w1 & w2 & H & Htx & [Hdb Hclock] & Hdb' & Hclock').
  destruct (key_text_split _ _ _ Hp Hs) as [Hraw Hnodot]. clear Hp Hs.
  set (sid := string_of_list_ascii id) in *. set (ssecret := string_of_list_ascii secret) in *.
  unfold validate_and_use in H. apply mbind_ok in H as (b & w3 & H1 & H).
  apply map_errM_ok, mbind_ok in H1 as (row & w4 & H1 & H1'). apply lift_ok in H1' as [Hb ->].
  apply scan_key_ok in Hb as ->. apply (GetContext_in_tx _ _ _ _ Htx) in H1 as (cx & x' & [= Hrow <-] & -> & Htx4).
  destruct (in_tx_settle w1 Htx) as [Hs1 Ht1]. set (w4 := put_part _ _) in *.
  assert (Hdb4 : w_db w4 = w_db w) by (unfold w4; cbn; by rewrite Hs1, conn_set_get).
  assert (Hc4 : w_clock w <= w_clock w4) by (unfold w4; cbn; rewrite settle_clock; lia).
  destruct (_ <>? _) eqn:Hhash; [done|]. apply negb_false_iff, eqb_true in Hhash.
  apply mbind_ok in H as (e & w5 & H5 & H). apply IsExpired_ok in H5 as ([Hdb5 Hc5] & Ht5 & t & Ht & ->).
  assert (Hexp : expired_at (env_now t) (credentials row) = expired_at (env_now t) row) by done. rewrite Hexp in H.
  destruct (expired_at (env_now t) row) eqn:He; [done|]. apply map_errM_ok, mbind_ok in H as (row' & w6 & H6 & H).
  apply lift_ok in H as [Ha ->]. apply scan_key_ok in Ha as ->.
  assert (Htx5 : in_tx (X := ApiKeyDb) w5) by (destruct Htx4 as (now & saved & Htx4); exists now, saved; by rewrite Ht5).
  destruct (in_tx_settle w5 Htx5) as [Hs5 _].
  apply (GetContext_in_tx _ _ _ _ Htx5) in H6 as (cx' & y & Hq & -> & _). unfold use_key in Hq.
  rewrite Hdb5, Hdb4 in Hq. rewrite Hdb in Hrow. apply check_keys_ok in Hq as (Hrow' & -> & _ & Hok).
  rewrite Hrow in Hrow'. injection Hrow' as ->. apply first_such_some in Hrow as Hr. destruct Hr as [Hin Hid%eqb_true].
  cbn [put_part w_db w_clock] in *. cbn in Hdb'. rewrite Hs5, Hdb5, Hdb4 in Hdb'.
  exists row, (NOW cx'). rewrite Hdb', !conn_get_set. cbn. split_and!; try done.
  - unfold opens_row. rewrite Hid. split; [unfold sid; by rewrite list_ascii_of_string_of_list_ascii|]. by exists ssecret.
  - by rewrite Hid.
  - exists t. split; [lia|done].
  - cbn in Hclock'. rewrite ?settle_clock in Hclock'. lia.
  - by rewrite Hid.
Qed.

(** Without faults a text that opens a row that has not expired is answered with it. *)
Lemma validate_runs row secret w :
  (forall t, env_fault t = NoFault) ->
  (forall t, w_clock w <= t <= w_clock w + 2 -> expired_at (env_now t) row = false) ->
  row ∈ keys w -> Forall key_row_ok (keys w) -> keys_ok (keys w) ->
  Scan_permissions (Permissions row) = Ok tt ->
  "."%char ∉ list_ascii_of_string (Key_ID row) -> "."%char ∉ list_ascii_of_string secret ->
  key_hash (Salt row) secret = KeyHash row ->
  exists now w', ValidateRawKeyAndUpdateLastUsed (key_text (Key_ID row) secret) w = (Ok (credentials (used_at now row)), w').
Proof using Hcalm KL.
  intros Hf Hexp Hin Hrows Hok Hscan Hid Hsecret Hhash. unfold ValidateRawKeyAndUpdateLastUsed.
  destruct (key_text_parts _ _ Hid Hsecret) as [-> ->]. cbn [negb].
  rewrite !string_of_list_ascii_of_string. pose proof (lookup_key_row row (conn_get (w_db w)) Hok Hin) as Hrow.
  set (w1 := set_tx (X := ApiKeyDb) (Some (mkTx false (env_now (w_clock w)) (w_db (settle w)))) (settle w)).
  assert (Hdb1 : w_db w1 = w_db w) by apply (calm_settle Hcalm).
  assert (Htx1 : in_tx (X := ApiKeyDb) w1)
    by (eexists _, _; unfold w1; cbn; by rewrite lookup_partial_alter_eq).
  destruct (Get_in_tx_run (fun _ (db : ApiKeyDb) => Ok (lookup_key (Key_ID row) db, db)) w1
    (fun a x' => a = row /\ x' = conn_get (w_db w)) Hf Htx1) as (a & x' & [-> ->] & Hg & Htx2).
  { intros cx. rewrite Hdb1, Hrow. by eexists _, _. }
  set (w2 := put_part _ _) in *.
  assert (Hdb2 : w_db w2 = w_db w).
  { unfold w2. cbn. destruct (in_tx_settle w1 Htx1) as [-> _]. rewrite Hdb1. apply conn_set_get. }
  assert (Hexpired : exists w3, IsExpired (credentials row) w2 = (Ok false, w3) /\ w_db w3 = w_db w /\ in_tx (X := ApiKeyDb) w3).
  { unfold IsExpired. assert (Hclock : w_clock w2 = w_clock w + 2).
    { unfold w2. cbn. rewrite settle_clock. unfold w1. cbn. rewrite settle_clock. lia. }
    specialize (Hexp (w_clock w2) ltac:(lia)). unfold expired_at in *. cbn.
    destruct (ExpiryDate row) as [x|]; [|by exists w2]. unfold mbind_, ask. rewrite Hexp. eexists. split; [done|].
    rewrite (calm_settle Hcalm). split; [done|]. destruct Htx2 as (now & saved & Ht). exists now, saved.
    by rewrite settle_tx. }
  destruct Hexpired as (w3 & He & Hdb3 & Htx3).
  destruct (Get_in_tx_run (use_key (Key_ID row)) w3 (fun a x' => exists now, a = used_at now row) Hf Htx3)
    as (a & x' & [now ->] & Hu & Htx4).
  { intros cx. unfold use_key, check_keys. rewrite Hdb3, Hrow. cbn [api_keys].
    set (used := fun k : APIKey => k <| LastUsedAt := Some (NOW cx) |>).
    set (rows := update_where _ _ _).
    assert (Hrows' : Forall key_row_ok rows).
    { apply Forall_fmap. eapply Forall_impl; [exact Hrows|]. intros k Hk. cbn. by destruct (_ =? _). }
    assert (Hok' : keys_ok rows).
    { unfold keys_ok, rows in *. rewrite !update_where_proj by done. exact Hok. }
    destruct (decide _) as [_|Hn]; [|exfalso; exact (Hn Hrows')].
    destruct (decide _) as [_|Hn]; [|exfalso; exact (Hn Hok')]. eexists _, _. split; [done|]. by exists (NOW cx). }
  destruct (tx_run (X := ApiKeyDb) (validate_and_use (Key_ID row) secret) w (credentials (used_at now row))
    (put_part x' (settle w3)) Hf) as (w' & Hw' & _); [|exact Htx4|exists now, w'; by apply map_errM_ok].
  fold w1. unfold validate_and_use, wrapM, map_errM, mbind_. rewrite Hg. unfold lift. rewrite (scan_valid row) by done.
  cbn [res_map_err]. change (Salt (credentials row)) with (Salt row). change (KeyHash (credentials row)) with (KeyHash row).
  rewrite Hhash, eqb_same. cbn [negb]. rewrite He, Hu, (scan_valid (used_at now row)) by done. done.
Qed.

(** *** What a use leaves *)

(** The keys are the same but for the times they were last used. *)
Definition unused (k : APIKey) : APIKey := k <| LastUsedAt := None |>.
Definition same_but_used (rows rows' : list APIKey) : Prop := map unused rows' = map unused rows.

Lemma same_but_used_map {B} (g : APIKey -> B) rows rows' :
  (forall k, g (unused k) = g k) -> same_but_used rows rows' -> map g rows' = map g rows.
Proof.
  intros Hg H. apply (f_equal (map g)) in H. rewrite !map_map in H.
  by rewrite !(map_ext (fun k => g (unused k)) g) in H.
Qed.

Lemma same_but_used_in rows rows' row :
  same_but_used rows rows' -> row ∈ rows' -> exists row0, row0 ∈ rows /\ unused row0 = unused row.
Proof.
  intros H Hin. assert (Hu : unused row ∈ map unused rows) by (rewrite <- H; by apply list_elem_of_fmap_2).
  apply list_elem_of_fmap in Hu as (row0 & He & Hin0). by exists row0.
Qed.

Lemma same_but_used_ok rows rows' :
  same_but_used rows rows' -> Forall key_row_ok rows /\ keys_ok rows -> Forall key_row_ok rows' /\ keys_ok rows'.
Proof.
  intros H [Hrows [Hid Hhash]]. split.
  - apply Forall_forall. intros row Hin. destruct (same_but_used_in _ _ _ H Hin) as (row0 & Hin0 & He).
    rewrite Forall_forall in Hrows. specialize (Hrows row0 Hin0). destruct row, row0. by injection He as -> -> -> -> -> -> ->.
  - unfold keys_ok. by rewrite (same_but_used_map Key_ID rows), (same_but_used_map KeyHash rows).
Qed.

(** A use, of any text and with any result, changes nothing else. *)
Lemma use_keeps_keys raw w :
  w_tx w !! conn_id ApiKeyDb = None -> same_but_used (keys w) (keys (snd (ValidateRawKeyAndUpdateLastUsed raw w))).
Proof using Hcalm KL.
  set (I := fun x : ApiKeyDb => same_but_used (keys w) (api_keys x)). intros Htx.
  assert (Hkeep : keeps I (ValidateRawKeyAndUpdateLastUsed raw : M APIKey)).
  { assert (Halone : forall t (d : D), I (conn_get d) -> I (conn_get (env_interfere t d))) by (intros; by rewrite Hcalm).
    unfold ValidateRawKeyAndUpdateLastUsed. destruct (negb _); [apply keeps_still|].
    destruct (split_on _ _) as [|id [|secret [|]]]; try apply keeps_still.
    apply keeps_map_err, keeps_tx; [done|]. unfold validate_and_use.
    apply keeps_bind; [apply keeps_map_err, keeps_bind; [|intros row; apply keeps_still]|].
    { apply keeps_GetContext; [done|]. by intros cx x a x' Hx [= _ <-]. }
    intros a. destruct (_ <>? _); [apply keeps_still|]. apply keeps_bind.
    { unfold IsExpired. destruct (ExpiryDate a); [apply keeps_bind; [by apply keeps_ask|intros now; apply keeps_still]|apply keeps_still]. }
    intros expired. destruct expired; [apply keeps_still|].
    apply keeps_map_err, keeps_bind; [|intros row; apply keeps_still].
    apply keeps_GetContext; [done|]. intros cx x b x' Hx Hq. apply check_keys_ok in Hq as (_ & -> & _).
    unfold I, same_but_used in *. rewrite <- Hx. apply update_where_proj. by intros. }
  destruct (Hkeep w) as [H _]; [|exact H]. split; [reflexivity|]. intros t Ht. congruence.
Qed.

(** C25: While nobody else writes the keys, the text of a key that was made, and told once,
    is accepted until the key expires, with the permissions, addresses and creator it was
    made for, however often it or other keys were used since; and a text of the same key
    with another secret is refused, whatever fails.  A use, of whatever text and however
    it ends, changes nothing of the keys but when they were last used. *)
Theorem created_key_opens name perms ips expiry creator w k text w'
    (Hmade : Keys_Insert name perms ips expiry creator w = (Ok (k, text), w'))
    (Huuid : forall cx n, "."%char ∉ list_ascii_of_string (uuid_generate cx n))
    (Hperms : ValidatePermissions perms = Ok tt) :
  (forall w2, same_but_used (keys w') (keys w2) -> (forall t, env_fault t = NoFault) ->
     (forall t, w_clock w2 <= t <= w_clock w2 + 2 ->
        match expiry with Some x => (env_now t <= x)%Z | None => True end) ->
     exists a w3, ValidateRawKeyAndUpdateLastUsed text w2 = (Ok a, w3) /\ Key_ID a = Key_ID k /\
       Permissions a = perms /\ AllowedIPs a = ips /\ ExpiryDate a = expiry /\ uuid_in creator = Some (CreatedBy a)) /\
  (forall w2 secret, same_but_used (keys w') (keys w2) ->
     (forall row, row ∈ keys w' -> Key_ID row = Key_ID k -> key_hash (Salt row) secret <> KeyHash row) ->
     is_ok (fst (ValidateRawKeyAndUpdateLastUsed (key_text (Key_ID k) secret) w2)) = false) /\
  (forall w2 raw, same_but_used (keys w') (keys w2) -> w_tx w2 !! conn_id ApiKeyDb = None ->
     same_but_used (keys w') (keys (snd (ValidateRawKeyAndUpdateLastUsed raw w2)))).
Proof using Hcalm KL.
  apply insert_ok in Hmade as (row & Hin & (given & -> & Hdot & Hhash & Hid & Hp & Hips & Hexp & Hcr & cx & n & Hgen) & Hrows & Hok).
  assert (Hiddot : "."%char ∉ list_ascii_of_string (Key_ID row)) by (rewrite Hgen; apply Huuid).
  rewrite Hid. split; [|split].
  - intros w2 Hk Hf Hx. destruct (same_but_used_ok _ _ Hk (conj Hrows Hok)) as [Hrows2 Hok2].
    destruct (same_but_used_in (keys w2) (keys w') row (eq_sym Hk) Hin) as (row2 & Hin2 & He).
    assert (Hsame : Key_ID row2 = Key_ID row /\ KeyHash row2 = KeyHash row /\ Salt row2 = Salt row /\
      ExpiryDate row2 = ExpiryDate row /\ Permissions row2 = Permissions row /\ AllowedIPs row2 = AllowedIPs row /\
      CreatedBy row2 = CreatedBy row) by (destruct row2, row; by injection He).
    destruct Hsame as (Ei & Eh & Es & Ee & Ep & Ea & Ec).
    destruct (validate_runs row2 given w2) as (now & w3 & Hrun); try congruence; try done.
    + intros t Ht. unfold expired_at. rewrite Ee, Hexp. specialize (Hx t Ht). destruct expiry; [|done]. apply Z.ltb_ge. lia.
    + rewrite Ep, Hp. by apply scan_of_valid.
    + rewrite Ei in Hrun. eexists _, _. split; [exact Hrun|]. cbn. split_and!; congruence.
  - intros w2 secret Hk Hno. destruct (ValidateRawKeyAndUpdateLastUsed _ w2) as [[a|e] w3] eqn:Hrun; [|done]. exfalso.
    apply validate_ok in Hrun as (row' & now & Hin' & (Hdot' & secret' & Htext & Hopen) & _).
    destruct (same_but_used_in _ _ _ Hk Hin') as (row0 & Hin0 & He).
    destruct (key_text_inj (Key_ID row) secret (Key_ID row') secret') as [Ei Es]; [done..|].
    subst secret'. apply (Hno row0 Hin0); destruct row0, row'; injection He; cbn in *; congruence.
  - intros w2 raw Hk Htx. unfold same_but_used in *. rewrite <- Hk. by apply use_keeps_keys.
Qed.

End calm.
End keys.

(** ** A witness *)

Module KeyWitness.
Import KeyWorld.

#[local] Instance conn : Conn Dbs ApiKeyDb := tenant_pool "t1".
#[local] Instance laws : ConnLaws Dbs ApiKeyDb := key_pool_laws "t1".

Definition make : M Dbs unit unit (APIKey * string) :=
  Keys_Insert "exports" [ReadExports] ["10.0.0.0/8"] (Some 1000%Z) "u1".
Definition made : res (APIKey * string) * World Dbs unit unit := make (world [] []).
Definition made_text : string := match fst made with Ok (_, text) => text | Err _ => "" end.

Definition at_time (n : nat) (w : World Dbs unit unit) : World Dbs unit unit := w <| w_clock := n |>.

Lemma clock_at_time n w : w_clock (at_time n w) = n.
Proof. done. Qed.

(** The key after it was used. *)
Definition used_once : World Dbs unit unit := snd (ValidateRawKeyAndUpdateLastUsed made_text (snd made)).

Lemma created_key_opens_witness :
  exists a w', ValidateRawKeyAndUpdateLastUsed made_text (at_time 900 used_once) = (Ok a, w') /\ Permissions a = [ReadExports].
Proof.
  assert (Hmade : exists k, make (world [] []) = (Ok (k, made_text), snd made)) by (eexists; vm_compute; reflexivity).
  destruct Hmade as (k & Hmade).
  destruct (created_key_opens (E := env) (KC := conn) (KL := laws) calm _ _ _ _ _ _ _ _ _ Hmade uuid_has_no_dot eq_refl)
    as (Hopen & _ & Hkeep).
  assert (Hused : same_but_used (api_keys (conn_get (w_db (snd made)))) (api_keys (conn_get (w_db used_once))))
    by (apply Hkeep; [reflexivity|vm_compute; reflexivity]).
  destruct (Hopen (at_time 900 used_once) Hused (fun _ => eq_refl)) as (a & w3 & H & _ & Hp & _); [|exists a, w3; exact (conj H Hp)].
  intros t [_ Ht]. rewrite clock_at_time in Ht. change (Z.of_nat t <= 1000)%Z. lia.
Defined.
End KeyWitness.
