(* ===== verification/AccessSafety.v ===== *)
(** Who reaches the handlers of the staff: the composition of the middlewares with the
    tables of keys, users and tenants. *)

From S2P Require Import Prelude GoStrings Errors Effects TxStore Limiter SdpDb PaymentStore ReceiverStore.
From S2P Require Import Validators Registration Tenant Tenants AuthManager Passwords Calm Authenticator.
From S2P Require Import AuthHandlers AuthWorld NetIP ApiKeys ApiKeySafety Access Routes RouteSafety KeyWorld.
From Stdlib Require Import Ascii String.

Local Open Scope string_scope.
Local Open Scope list_scope.
Local Open Scope go_scope.

(** The pools of the tenants. *)
Class TenantPoolLaws (D X : Type) {P : TenantPools D X} := {
  pool_laws : forall T, ConnLaws D X (C := tenant_pool T) }.

(** What a token says does not depend on when it is read. *)
Class StableTokens {J : JwtLibrary} := {
  parse_same : forall t1 t2 k s c1 c2, ParseWithClaims t1 k s = Ok c1 -> ParseWithClaims t2 k s = Ok c2 -> c1 = c2 }.

Section safety.
Context {D L Ev : Type} {E : Env D} {AC : Conn D AdminDb} {AL : ConnLaws D AdminDb}.
Context {AuP : TenantPools D AuthDb} {AuPL : TenantPoolLaws D AuthDb}.
Context {KeP : TenantPools D ApiKeyDb} {KePL : TenantPoolLaws D ApiKeyDb}.
Context {KCh : KeyCache} {CaC : Conn D Cache} {CaL : ConnLaws D Cache} {J : JwtLibrary} {ST : StableTokens} {Co : Collation}.
Context (am : AuthSettings) (singleTenantMode hasCache : bool).
Implicit Types w : World D L Ev.
Abbreviation M := (M D L Ev).
Abbreviation keys_of T w := (api_keys (conn_get (Conn := tenant_pool T) (w_db w) : ApiKeyDb)).
Abbreviation users_of T w := (conn_get (Conn := tenant_pool T) (w_db w) : AuthDb).
Abbreviation cache w := (conn_get (X := Cache) (w_db w)).

Section calm.
Context (Hcalm : forall t (d : D), env_interfere t d = d).

Lemma reads_GetTenant q : respects read_only (GetTenant q : M Tenant).
Proof using Hcalm AL. unfold GetTenant, no_rows_as. reads. Qed.

Lemma reads_GetTenantByID id : respects read_only (GetTenantByID id : M Tenant).
Proof using Hcalm AL. apply reads_GetTenant. Qed.

Lemma reads_resolve r c : respects read_only (ResolveTenantFromRequestMiddleware singleTenantMode r c : M ReqContext).
Proof using Hcalm AL.
  unfold ResolveTenantFromRequestMiddleware, GetDefault, GetTenantByName. reads; apply reads_GetTenant.
Qed.

(** Only the tenant is put in the context. *)
Definition only_tenant (c c' : ReqContext) : Prop :=
  Ctx_Token c' = Ctx_Token c /\ Ctx_UserID c' = Ctx_UserID c /\ Ctx_APIKey c' = Ctx_APIKey c.

Lemma resolve_context r c w c' w' :
  ResolveTenantFromRequestMiddleware singleTenantMode r c w = (Ok c', w') -> only_tenant c c'.
Proof.
  unfold ResolveTenantFromRequestMiddleware. destruct singleTenantMode.
  - intros H. apply mbind_ok in H as ([t|e] & w1 & _ & H); [by injection H as <- _|].
    destruct (errors_Is_err e _); [by injection H as <- _|]. by destruct (errors_Is_err e _).
  - destruct (extractTenantNameFromRequest r) as [name|e]; [|by intros [= <- _]].
    destruct (name =? ""); [by intros [= <- _]|]. intros H.
    apply mbind_ok in H as ([t|e] & w1 & _ & H); by injection H as <- _.
Qed.

Lemma reads_user_id token : respects read_only (GetUserID am token : M string).
Proof using Hcalm.
  unfold GetUserID, getUserFromToken, user_of_token, require_token, ValidateToken, jwt_ValidateToken,
    GetUserFromToken, parseToken, deref. reads.
Qed.

Lemma reads_tenant_id token : respects read_only (GetTenantID am token : M string).
Proof using Hcalm.
  unfold GetTenantID, require_token, ValidateToken, jwt_ValidateToken, GetTenantIDFromToken, parseToken. reads.
Qed.

(** The claims of a token that was read. *)
Definition says (token : string) (cl : claims) : Prop :=
  exists now, ParseWithClaims now (publicKey am) token = Ok cl.

Lemma parse_says token w cl w' : parseToken am token w = (Ok cl, w') -> says token cl.
Proof.
  unfold parseToken. intros H. apply mbind_ok in H as (now & w1 & _ & H). apply lift_ok in H as [H _].
  exists now. by destruct (ParseWithClaims now _ token) as [c|[]]; try done; injection H as ->.
Qed.

Lemma user_of_token_says p token w o w' :
  user_of_token am p token w = (Ok o, w') -> exists cl, says token cl /\ Claims_User cl = o.
Proof.
  unfold user_of_token. intros H. apply mbind_ok in H as (u & w1 & _ & H).
  apply map_errM_ok, mbind_ok in H as (cl & w2 & H & Hret). apply map_errM_ok, parse_says in H.
  injection Hret as <- _. eauto.
Qed.

(** The tenant of a token where it can be found, and else the one of the request. *)
Definition tenant_of_token (token : string) (cl : claims) (before after : Context_) w : Prop :=
  (exists t, after = Some t /\ t ∈ tenants (conn_get (w_db w)) /\ Ten_ID t = Claims_TenantID cl /\
     Ten_Status t <> DeactivatedTenantStatus) \/
  after = before /\
  (Claims_TenantID cl = "" \/ (exists now, is_ok (ParseWithClaims now (publicKey am) token) = false) \/
   (exists w1 e, w_db w1 = w_db w /\ fst (GetTenantByID (Claims_TenantID cl) w1 : res Tenant * World D L Ev) = Err e)).

Lemma GetTenantByID_ok id w t w' :
  GetTenantByID id w = (Ok t, w') ->
  t ∈ tenants (conn_get (w_db w)) /\ Ten_ID t = id /\ Ten_Status t <> DeactivatedTenantStatus.
Proof using Hcalm AL.
  unfold GetTenantByID, GetTenant, no_rows_as. intros H. apply map_errM_ok, (Get_ok Hcalm) in H as [_ (cx & H)].
  unfold newManagerQuery in H. cbn [SortByName excludeInactiveTenantsFilters no_filters] in H. cbn in H.
  apply head_Some_elem_of, list_elem_of_filter in H as [Hm Hin]. split; [done|].
  unfold matches in Hm. cbn in Hm. rewrite !andb_true_iff in Hm. destruct Hm as [[[Hid _] Hs] _].
  apply eqb_true in Hid. split; [done|]. intros He. by rewrite He in Hs.
Qed.

Lemma tenant_id_says token w id w' :
  GetTenantID am token w = (Ok id, w') -> exists cl, says token cl /\ Claims_TenantID cl = id.
Proof.
  unfold GetTenantID. intros H. apply mbind_ok in H as (u & w1 & _ & H).
  apply map_errM_ok, mbind_ok in H as (cl & w2 & H & Hret). apply map_errM_ok, parse_says in H.
  injection Hret as <- _. eauto.
Qed.

(** Reading the tenant of a token fails only where the token cannot be read. *)
Lemma tenant_id_fails token w e w' :
  GetTenantID am token w = (Err e, w') -> exists now, is_ok (ParseWithClaims now (publicKey am) token) = false.
Proof.
  intros H. assert (Hp : forall w0 e0 w1, parseToken am token w0 = (Err e0, w1) ->
    exists now, is_ok (ParseWithClaims now (publicKey am) token) = false).
  { intros w0 e0 w1. unfold parseToken, mbind_, ask, lift. intros [= Hr _]. exists (env_now (w_clock w0)).
    by destruct (ParseWithClaims _ _ token). }
  unfold GetTenantID, require_token, ValidateToken, jwt_ValidateToken, GetTenantIDFromToken, wrapM, map_errM, mbind_,
    try_ in H. destruct (parseToken am token w) as [[cl|e1] w1] eqn:E1; [|by eapply Hp]. cbn -[parseToken] in H.
  destruct (parseToken am token w1) as [[cl'|e2] w2] eqn:E2; [done|by eapply Hp].
Qed.

Lemma authenticate_ok r c w c' w' :
  AuthenticateMiddleware am r c w = (Ok c', w') ->
  read_only w w' /\ exists token cl u, Ctx_Token c' = Some token /\ says token cl /\ Claims_User cl = Some u /\
    Ctx_UserID c' = Some (U_ID u) /\ Ctx_APIKey c' = Ctx_APIKey c /\
    tenant_of_token token cl (Ctx_Tenant c) (Ctx_Tenant c') w.
Proof using Hcalm AL ST.
  unfold AuthenticateMiddleware. destruct (split_spaces _) as [|scheme [|token [|]]]; try done. intros H.
  apply mbind_ok in H as (userID & w1 & H1 & H). apply map_errM_ok in H1.
  pose proof (reads_ok _ _ _ _ (reads_user_id token) H1) as R1.
  unfold GetUserID, getUserFromToken in H1. apply mbind_ok in H1 as (o & w1' & H1 & Hd).
  apply user_of_token_says in H1 as (cl & Hcl & <-). apply mbind_ok in Hd as (u & w2' & Hd & Hret).
  destruct (Claims_User cl) as [u'|] eqn:Eu; [|done]. injection Hd as -> _. injection Hret as <- _.
  apply mbind_ok in H as (tid & w2 & H2 & H). unfold try_ in H2.
  destruct (GetTenantID am token w1) as [tr w2''] eqn:Ht. injection H2 as <- <-.
  assert (R2 : read_only w1 w2'') by (pose proof (reads_tenant_id token w1) as Hr; by rewrite Ht in Hr).
  assert (Hdone : forall tnt w', (tnt = Ctx_Tenant c /\ (Claims_TenantID cl = "" \/
      (exists now, is_ok (ParseWithClaims now (publicKey am) token) = false) \/
      (exists w1 e, w_db w1 = w_db w /\ fst (GetTenantByID (Claims_TenantID cl) w1 : res Tenant * World D L Ev) = Err e))
      \/ (exists t, tnt = Some t /\ t ∈ tenants (conn_get (w_db w)) /\ Ten_ID t = Claims_TenantID cl /\
           Ten_Status t <> DeactivatedTenantStatus)) ->
    read_only w2'' w' -> read_only w w' /\ exists token0 cl0 u0, Some token = Some token0 /\ says token0 cl0 /\
      Claims_User cl0 = Some u0 /\ Some (U_ID u) = Some (U_ID u0) /\ Ctx_APIKey c = Ctx_APIKey c /\
      tenant_of_token token0 cl0 (Ctx_Tenant c) tnt w).
  { intros tnt w0 Hor R3. split; [by transitivity w1; [|transitivity w2'']|]. exists token, cl, u.
    split_and!; try done. unfold tenant_of_token. tauto. }
  destruct tr as [id|e].
  - apply tenant_id_says in Ht as (cl' & Hcl' & <-).
    assert (cl' = cl) as -> by (destruct Hcl as [? ?], Hcl' as [? ?]; by eapply parse_same).
    destruct (eqb_spec (Claims_TenantID cl) "") as [Hempty|Hne].
    + injection H as <- <-. apply (Hdone (Ctx_Tenant c)); [left; tauto|done].
    + apply mbind_ok in H as (found & w3 & H3 & H). injection H as <- <-. unfold try_ in H3.
      destruct (GetTenantByID (Claims_TenantID cl) w2'') as [fr w3'] eqn:Hg. injection H3 as <- <-.
      assert (R3 : read_only w2'' w3') by (pose proof (reads_GetTenantByID (Claims_TenantID cl) w2'') as Hr; by rewrite Hg in Hr).
      assert (Hdb : w_db w2'' = w_db w) by (destruct R1 as [E1 _], R2 as [E2 _]; congruence).
      destruct fr as [t|e].
      * apply (Hdone (Some t)); [|done]. right. exists t. split; [done|].
        apply GetTenantByID_ok in Hg. by rewrite Hdb in Hg.
      * apply (Hdone (Ctx_Tenant c)); [|done]. left. split; [done|]. right. right. exists w2'', e. split; [done|].
        by rewrite Hg.
  - injection H as <- <-. apply tenant_id_fails in Ht. apply (Hdone (Ctx_Tenant c)); [left; tauto|done].
Qed.

(** ** Keys *)

(** The key the database gives for a text. *)
Definition from_table (T raw : string) w (a : APIKey) : Prop :=
  exists row now t, row ∈ keys_of T w /\ opens_row raw row /\ expired_at (env_now t) row = false /\
    w_clock w <= t /\ a = credentials (used_at now row).

(** The key the cache gives for it. *)
Definition from_cache (T raw : string) w (a : APIKey) : Prop :=
  hasCache = true /\
  exists t t', cache_Get (env_now t) (cache w) (cache_key T raw) = Some a /\ expired_at (env_now t') a = false /\
    w_clock w <= t /\ t <= t'.

Lemma validate_in_tenant_ok ctx raw w a w' :
  validate_in_tenant ctx raw w = (Ok a, w') -> exists t, ctx = Some t /\ from_table (Ten_ID t) raw w a.
Proof using Hcalm KePL.
  unfold validate_in_tenant, on_tenant. destruct ctx as [t|]; [|done]. intros H. exists t. split; [done|].
  apply (validate_ok (KL := pool_laws (Ten_ID t)) Hcalm) in H
    as (row & now & Hin & Hopen & _ & (t' & Ht & He) & -> & _). by exists row, now, t'.
Qed.

Lemma from_table_read_only T raw w w1 a : read_only w w1 -> from_table T raw w1 a -> from_table T raw w a.
Proof.
  intros [Hdb Hc] (row & now & t & Hin & Ho & He & Ht & ->). rewrite Hdb in Hin. exists row, now, t.
  split_and!; try done. lia.
Qed.

(** The part of [validate] that asks the database. *)
Lemma validate_fresh_ok (ctx : Context_) raw k w a w' :
  (let! apiKey := wrapM "validating API key" (validate_in_tenant ctx raw) in
   let! expired := IsExpired apiKey in
   (if (expired : bool) then mret_ tt
    else update_cache (fun now => cache_SetWithTTL now k apiKey apiKeyCacheTTL)) ;;! mret_ apiKey) w = (Ok a, w') ->
  exists t, ctx = Some t /\ from_table (Ten_ID t) raw w a.
Proof using Hcalm KePL.
  intros H. apply mbind_ok in H as (b & w1 & H1 & H). apply map_errM_ok, validate_in_tenant_ok in H1 as (t & -> & Hf).
  apply mbind_ok in H as (e & w2 & _ & H). apply mbind_ok in H as (u & w3 & _ & H). injection H as <- _. by exists t.
Qed.

Lemma update_cache_ok f w u w' :
  update_cache f w = (Ok u, w') ->
  w_db w' = conn_set (f (env_now (w_clock w)) (cache w)) (w_db w) /\ w_clock w' = S (w_clock w).
Proof using Hcalm.
  unfold update_cache. intros [= _ <-]. cbn. by rewrite (calm_settle Hcalm), settle_clock.
Qed.

Context (Hcache : forall T (x : Cache) (d : D),
  conn_get (Conn := tenant_pool T) (conn_set x d) = (conn_get (Conn := tenant_pool T) d : ApiKeyDb)).

Lemma validate_key_ok ctx raw w a w' :
  validate hasCache ctx raw w = (Ok a, w') ->
  exists t, ctx = Some t /\ (from_table (Ten_ID t) raw w a \/ from_cache (Ten_ID t) raw w a).
Proof using Hcalm KePL Hcache.
  unfold validate. destruct (negb hasCache || _)%bool eqn:Hno.
  { intros H. apply map_errM_ok, validate_in_tenant_ok in H as (t & -> & Hf). eauto. }
  apply orb_false_iff in Hno as [Hc Hid]. apply negb_false_iff in Hc.
  destruct ctx as [t|]; [|done]. cbn [fmap option_fmap option_map default from_option id] in *.
  set (k := cache_key (Ten_ID t) raw) in *.
  intros H. apply mbind_ok in H as (found & w1 & H1 & H). unfold cached in H1. injection H1 as <- <-.
  rewrite (calm_settle Hcalm) in H. pose proof (read_only_settle Hcalm w) as R1.
  destruct (cache_Get _ _ k) as [b|] eqn:Hget.
  - apply mbind_ok in H as (e & w2 & H2 & H). apply (IsExpired_ok Hcalm) in H2 as ([Hdb2 Hc2] & _ & t' & Ht' & He).
    destruct e.
    + apply mbind_ok in H as (u & w3 & H3 & H). apply update_cache_ok in H3 as [Hdb3 Hc3].
      apply validate_fresh_ok in H as (t0 & [= <-] & (row & now & t1 & Hin & Ho & Hx & Ht1 & ->)).
      exists t. split; [done|]. left. rewrite Hdb3, Hcache, Hdb2, (proj1 R1) in Hin.
      exists row, now, t1. split_and!; try done. destruct R1. lia.
    + injection H as <- _. exists t. split; [done|]. right. split; [done|].
      exists (w_clock w), t'. split_and!; [done|done|done|]. rewrite settle_clock in Ht'. lia.
  - apply validate_fresh_ok in H as (t0 & [= <-] & Hf). exists t. split; [done|]. left. by eapply from_table_read_only.
Qed.

(** ** The whole path *)

Lemma roles_ok T u roles w w' :
  HasAnyRoles (AuC := tenant_pool T) (ownerRoleName am) u roles w = (Ok true, w') ->
  exists row, lookup_user (U_ID u) (users_of T w) = Some row /\
    exists role, role ∈ roles /\ role ∈ (if AU_IsOwner row then [ownerRoleName am] else AU_Roles row).
Proof using Hcalm AuPL.
  unfold HasAnyRoles, GetUserRoles, getUserRolesInfo. intros H.
  apply mbind_ok in H as (l & w1 & H & Hret). injection Hret as Hex _.
  apply map_errM_ok, mbind_ok in H as ([rs owner] & w2 & H & Hret). injection Hret as <- _.
  apply map_errM_ok, map_errM_ok, (Get_ok (CL := pool_laws T) Hcalm) in H as [_ (cx & H)].
  apply fmap_Some in H as (row & Hrow & [= -> ->]). exists row. split; [exact Hrow|].
  apply existsb_exists in Hex as (role & Hin & Hr). exists role. split; [by apply list_elem_of_In|].
  by apply slices_Contains_spec in Hr.
Qed.

(** The key of a request: good for the permission, from an address of its list, and of
    the tenant of the request. *)
Definition by_key (perm : string) (r : Request) (t : Tenant) (a : APIKey) w : Prop :=
  prefix APIKeyPrefix (extractToken r) = true /\ HasPermission a perm = true /\
  IsAllowedIP a (extractClientIP r) = true /\
  (from_table (Ten_ID t) (extractToken r) w a \/ from_cache (Ten_ID t) (extractToken r) w a).

(** The token of a request: signed, of a user, and of one who has a role in the tenant
    the handler is called for, where the route asks for one. *)
Definition by_token (roles : list string) (r : Request) (t : Tenant) (userID : string) w : Prop :=
  exists token cl u, token ∈ split_spaces (Authorization r) /\ says token cl /\ Claims_User cl = Some u /\ U_ID u = userID /\
    (roles = [] \/ exists row, lookup_user userID (users_of (Ten_ID t) w) = Some row /\
       exists role, role ∈ roles /\ role ∈ (if AU_IsOwner row then [ownerRoleName am] else AU_Roles row)).

Lemma from_cache_read_only T raw w w1 a : read_only w w1 -> from_cache T raw w1 a -> from_cache T raw w a.
Proof.
  intros [Hdb Hc] (Hh & t & t' & Hg & He & Ht & Ht'). rewrite Hdb in Hg. split; [done|]. exists t, t'.
  split_and!; try done. lia.
Qed.

Lemma ensure_tenant_ok c w c' w' :
  EnsureTenantMiddleware c w = (Ok c', w') -> c' = c /\ w' = w /\ exists t, Ctx_Tenant c = Some t.
Proof.
  unfold EnsureTenantMiddleware. intros H. apply mbind_ok in H as (t & w1 & H & Hret). injection Hret as <- <-.
  apply map_errM_ok, lift_ok in H as [Ht ->]. split_and!; try done. unfold GetTenantFromContext in Ht.
  destruct (Ctx_Tenant c) as [t'|]; [by exists t'|done].
Qed.

Lemma any_role_ok roles c w c' w' token :
  AnyRoleMiddleware am roles c w = (Ok c', w') -> Ctx_Token c = Some token ->
  c' = c /\ (roles = [] \/ exists t cl u, Ctx_Tenant c = Some t /\ says token cl /\ Claims_User cl = Some u /\
    exists row, lookup_user (U_ID u) (users_of (Ten_ID t) w) = Some row /\
      exists role, role ∈ roles /\ role ∈ (if AU_IsOwner row then [ownerRoleName am] else AU_Roles row)).
Proof using Hcalm AuPL.
  unfold AnyRoleMiddleware. intros H Htok. apply mbind_ok in H as (tk & w1 & H1 & H).
  apply map_errM_ok, lift_ok in H1 as [Ht ->]. unfold GetTokenFromContext in Ht. rewrite Htok in Ht.
  assert (tk = token) as -> by (cbn in Ht; by destruct (token =? "") in Ht; simplify_eq).
  destruct roles as [|role roles]; [injection H as <- _; tauto|]. apply mbind_ok in H as (b & w2 & H & Hb).
  destruct b; [|done]. injection Hb as <- _. split; [done|]. right. apply map_errM_ok in H.
  unfold on_tenant in H. destruct (Ctx_Tenant c) as [t|] eqn:Et; [|done]. exists t.
  unfold AnyRolesInTokenUser in H. apply mbind_ok in H as (o & w3 & H3 & H).
  pose proof (H3) as Hsays. apply user_of_token_says in Hsays as (cl & Hcl & Hu).
  assert (R3 : read_only w w3).
  { refine (reads_ok _ _ _ _ _ H3). unfold user_of_token, require_token, ValidateToken, jwt_ValidateToken, GetUserFromToken, parseToken. reads. }
  apply mbind_ok in H as (u & w4 & Hd & H). unfold deref in Hd. destruct o as [u'|]; [|done].
  injection Hd as -> <-. exists cl, u. split_and!; try done.
  apply map_errM_ok, roles_ok in H. destruct R3 as [E3 _]. by rewrite E3 in H.
Qed.

(** C17: While nobody writes in between, a handler of the staff is called for a tenant and a
    user only if the request carries a key or a token.  A key is unexpired, good for the
    permission of the route and sent from an address of its list, the user is its
    creator, and it is in the table of that tenant, or in the memory of the server,
    which remembers keys by tenant.  A token is signed and says the user, who has
    one of the roles of the route in that very tenant, where the route has roles; where
    it has none, the token of any tenant's user will do
    ([token_of_inactive_tenant_crosses]). *)
Theorem request_is_authorized perm roles r w c w'
    (Hreach : reach_staff am singleTenantMode hasCache perm roles r w = (Ok c, w')) :
  exists t userID, Ctx_Tenant c = Some t /\ Ctx_UserID c = Some userID /\
    match Ctx_APIKey c with
    | Some a => userID = CreatedBy a /\ by_key perm r t a w
    | None => by_token roles r t userID w
    end.
Proof using Hcalm AL AuPL KePL ST CaL Hcache.
  unfold reach_staff in Hreach. apply mbind_ok in Hreach as (c1 & w1 & H1 & H).
  pose proof (reads_ok _ _ _ _ (reads_resolve r no_context) H1) as R1. apply resolve_context in H1 as (E1 & E2 & E3).
  apply mbind_ok in H as (c2 & w2 & H2 & H). apply mbind_ok in H as (c3 & w3 & H3 & H).
  apply ensure_tenant_ok in H3 as (-> & -> & t & Ht). unfold APIKeyOrJWTAuthenticate in H2.
  destruct (prefix APIKeyPrefix (extractToken r)) eqn:Epre; cbn [negb] in H2.
  - apply mbind_ok in H2 as (a & w2' & Hv & H2). apply map_errM_ok, validate_key_ok in Hv as (t1 & Ht1 & Hkey).
    destruct (IsAllowedIP a _) eqn:Eip; cbn [negb] in H2; [|done]. injection H2 as <- <-.
    unfold RequirePermission in H. cbn [Ctx_APIKey] in H. destruct (HasPermission a perm) eqn:Ep; [|done].
    injection H as <- _. cbn in Ht |- *. exists t, (CreatedBy a). rewrite Ht1 in Ht. injection Ht as ->.
    split_and!; [done..|]. split; [done|]. split_and!; try done.
    destruct Hkey; [left; by eapply from_table_read_only|right; by eapply from_cache_read_only].
  - pose proof H2 as Ha. apply authenticate_ok in Ha as (R2 & token & cl & u & Htok & Hcl & Hu & Hid & Hkey & _).
    exists t, (U_ID u). rewrite E3 in Hkey. cbn in Hkey. unfold RequirePermission in H. rewrite Hkey in H.
    apply (any_role_ok _ _ _ _ _ _ H) in Htok as Hr. destruct Hr as [-> Hr].
    rewrite Hkey. split_and!; [done..|]. exists token, cl, u. split_and!; try done.
    + unfold AuthenticateMiddleware in H2. destruct (split_spaces _) as [|a [|b [|]]]; try done.
      apply mbind_ok in H2 as (id & w4 & _ & H2). apply mbind_ok in H2 as (tid & w5 & _ & H2).
      assert (Ctx_Token c2 = Some b) as Hb.
      { destruct tid as [tid|]; [|by injection H2 as <- _]. destruct (tid =? ""); [by injection H2 as <- _|].
        apply mbind_ok in H2 as ([] & w6 & _ & H2); by injection H2 as <- _. }
      rewrite Hb in Htok. injection Htok as ->. set_solver.
    + destruct Hr as [->|(t' & cl' & u' & Ht' & Hcl' & Hu' & Hrow)]; [by left|]. right.
      rewrite Ht in Ht'. injection Ht' as <-.
      assert (cl' = cl) as -> by (destruct Hcl as [? ?], Hcl' as [? ?]; by eapply parse_same).
      rewrite Hu in Hu'. injection Hu' as <-. destruct R1 as [E4 _], R2 as [E5 _]. by rewrite E5, E4 in Hrow.
Qed.
End calm.
End safety.

(** ** A witness: the key of the north exports with a handler of the owner's roles *)

Module AccessWitness.
Import KeyWorld.

#[local] Instance auth_laws : TenantPoolLaws Dbs AuthDb := {| pool_laws := auth_pool_laws |}.
#[local] Instance key_laws : TenantPoolLaws Dbs ApiKeyDb := {| pool_laws := key_pool_laws |}.
#[local] Instance stable : StableTokens.
Proof.
  constructor. intros t1 t2 k s c1 c2. cbn. destruct (decode _) as [c|]; [|done].
  destruct (_ <? _)%Z; [|done]. destruct (_ <? _)%Z; [|done]. by intros [= <-] [= <-].
Qed.

Definition exporting : Request := request ("Bearer " +:+ exporter_text) "north".
Definition start : World Dbs unit unit := world [exporter] [].
Definition reached : res ReqContext * World Dbs unit unit :=
  reach_staff AuthWorld.am false true ReadExports [OwnerUserRole] exporting start.
Definition context : ReqContext := match fst reached with Ok c => c | Err _ => no_context end.

Lemma request_is_authorized_witness :
  exists t a, Ctx_Tenant context = Some t /\ Ten_Name t = "north" /\ Ctx_APIKey context = Some a /\
    by_key true ReadExports exporting t a start.
Proof.
  assert (Hreach : reached = (Ok context, snd reached)) by (vm_compute; reflexivity).
  assert (Hkey : exists a, Ctx_APIKey context = Some a) by (eexists; vm_compute; reflexivity).
  assert (Hten : Ctx_Tenant context = Some north) by (vm_compute; reflexivity).
  destruct (request_is_authorized AuthWorld.am false true calm cache_apart ReadExports [OwnerUserRole] exporting start
    context (snd reached) Hreach) as (t & userID & Ht & _ & H).
  destruct Hkey as [a Hkey]. rewrite Hkey in H. destruct H as [_ H].
  rewrite Hten in Ht. injection Ht as <-. exists north, a.
  split; [exact Hten|]. split; [reflexivity|]. split; [exact Hkey|exact H].
Defined.

(** The token of a user of a tenant that is no longer active opens the routes without
    roles for any tenant the request names, and is refreshed to a token of that tenant. *)
Definition stranger : User := mkUser "u9" "Mallory" "M" "mallory@east.example" false true [].
Definition stranger_token : string := AuthWorld.token (mkClaims (Some stranger) "t9" (Some 1000%Z)).
Definition crossing : res ReqContext * World Dbs unit unit :=
  reach_staff AuthWorld.am false true ReadAll [] (request ("Bearer " +:+ stranger_token) "north") start.

Definition crossed : ReqContext := match fst crossing with Ok c => c | Err _ => no_context end.
Definition refreshed : res string :=
  fst (PostRefreshToken AuthWorld.am (Ctx_Tenant crossed) (Ctx_Token crossed) (snd crossing)).
Definition refreshed_tenant : res string :=
  match refreshed with Ok token => fst (GetTenantID AuthWorld.am token start) | Err e => Err e end.

Fact token_of_inactive_tenant_crosses :
  is_ok (fst crossing) = true /\ Ctx_Tenant crossed = Some north /\ Ctx_UserID crossed = Some "u9" /\
  lookup_user "u9" (conn_get (Conn := tenant_pool "t1") (w_db start)) = None /\ refreshed_tenant = Ok "t1".
Proof. split_and!; vm_compute; reflexivity. Qed.
End AccessWitness.
