(* ===== verification/Revocation.v ===== *)
(** What a deleted key still opens: nothing in the database, and in the memory of the
    server what was put there until its time is over. *)

From S2P Require Import Prelude GoStrings Errors Effects TxStore Limiter SdpDb PaymentStore ReceiverStore.
From S2P Require Import Validators Registration Tenant Tenants AuthManager Passwords Calm Authenticator.
From S2P Require Import AuthHandlers NetIP ApiKeys ApiKeySafety Access Routes AccessSafety KeyWorld.
From Stdlib Require Import Ascii String.

Local Open Scope string_scope.
Local Open Scope list_scope.
Local Open Scope go_scope.

Section revocation.
Context {D L Ev : Type} {E : Env D}.
Context {KeP : TenantPools D ApiKeyDb} {KePL : TenantPoolLaws D ApiKeyDb}.
Context {KCh : KeyCache} {KCL : KeyCacheLaws} {CaC : Conn D Cache} {CaL : ConnLaws D Cache} {PU : PgUuid}.
Context (hasCache : bool) (Hcalm : forall t (d : D), env_interfere t d = d).
Implicit Types w : World D L Ev.
Abbreviation M := (M D L Ev).
Abbreviation keys_of T w := (api_keys (conn_get (Conn := tenant_pool T) (w_db w) : ApiKeyDb)).
Abbreviation cache w := (conn_get (X := Cache) (w_db w)).

(** The databases of the tenants and the memory of the server are apart. *)
Context (Hcache : forall T (x : Cache) (d : D),
  conn_get (Conn := tenant_pool T) (conn_set x d) = (conn_get (Conn := tenant_pool T) d : ApiKeyDb)).
Context (Htable : forall T (x : ApiKeyDb) (d : D),
  conn_get (X := Cache) (conn_set (Conn := tenant_pool T) x d) = conn_get (X := Cache) d).
Context (Htenants : forall T T' (x : ApiKeyDb) (d : D), T <> T' ->
  conn_get (Conn := tenant_pool T) (conn_set (Conn := tenant_pool T') x d)
  = (conn_get (Conn := tenant_pool T) d : ApiKeyDb)).

(** ** The identifiers of a table *)

(** No identifier is new. *)
Definition no_new (x y : ApiKeyDb) : Prop := map Key_ID (api_keys y) ⊆ map Key_ID (api_keys x).
#[local] Instance no_new_preorder : PreOrder no_new.
Proof. unfold no_new. split; [by intros x|]. intros x y z H1 H2. by etransitivity. Qed.

Lemma update_no_new p f x : (forall k, Key_ID (f k) = Key_ID k) -> no_new x (x <| api_keys := update_where p f (api_keys x) |>).
Proof. intros Hf. unfold no_new. cbn. by rewrite update_where_proj. Qed.

Lemma checked_no_new {A} (a : A) x y b z : no_new x y -> check_keys a y = Ok (b, z) -> no_new x z.
Proof. unfold check_keys. intros H. destruct (decide _); [|done]. destruct (decide _); [|done]. by intros [= _ <-]. Qed.

(** What a program on the database of a tenant does to the database of any. *)
Definition calls w w' : Prop :=
  w_clock w <= w_clock w' /\ cache w' = cache w /\ forall T, map Key_ID (keys_of T w') ⊆ map Key_ID (keys_of T w).

Lemma calls_refl w w' : w_db w' = w_db w -> w_clock w <= w_clock w' -> calls w w'.
Proof. intros Hd Hc. unfold calls. by rewrite Hd. Qed.

#[local] Instance calls_preorder : PreOrder calls.
Proof.
  split; [intros w; by apply calls_refl|]. intros w1 w2 w3 (C1 & E1 & S1) (C2 & E2 & S2).
  split_and!; [lia|congruence|]. intros T. etransitivity; [apply S2|apply S1].
Qed.

Lemma within_calls T w w' :
  w_clock w <= w_clock w' ->
  (exists y, w_db w' = conn_set (Conn := tenant_pool T) y (w_db w) /\ no_new (conn_get (Conn := tenant_pool T) (w_db w)) y) ->
  calls w w'.
Proof using Htable Htenants KePL.
  intros Hc (y & Hy & Hn). pose proof (pool_laws T) as KL. split_and!; [done|by rewrite Hy, Htable|]. intros T'.
  destruct (decide (T' = T)) as [->|Hne]; rewrite Hy; [rewrite conn_get_set; exact Hn|by rewrite Htenants].
Qed.

(** Programs about the keys of the tenant [T]. *)
Section tenant.
Context (T : string).
#[local] Instance pool : Conn D ApiKeyDb := tenant_pool T.
#[local] Instance laws : ConnLaws D ApiKeyDb := pool_laws T.

Lemma use_key_no_new id cx x a x' : use_key id cx x = Ok (a, x') -> no_new x x'.
Proof. unfold use_key. apply checked_no_new. by apply update_no_new. Qed.

Lemma validate_and_use_within id secret : respects (within (X := ApiKeyDb) no_new) (validate_and_use id secret : M APIKey).
Proof using Hcalm KePL.
  pose proof (within_preorder (D := D) (L := L) (Ev := Ev) (X := ApiKeyDb) no_new) as HP.
  unfold validate_and_use. apply respects_bind; [done| |intros a].
  - apply respects_wrap, respects_bind; [done| |intros row; apply respects_lift; apply _].
    apply within_Get; [done|apply _|]. by intros cx x a x' [= _ <-].
  - destruct (_ <>? _); [apply respects_throw; apply _|]. apply respects_bind; [done| |intros e].
    + unfold IsExpired. destruct (ExpiryDate a); [|apply respects_ret; apply _].
      apply respects_bind; [done|apply within_ask; [done|apply _]|intros now; apply respects_ret; apply _].
    + destruct e; [apply respects_throw; apply _|]. apply respects_wrap, respects_bind; [done| |intros row; apply respects_lift; apply _].
      apply within_Get; [done|apply _|]. intros cx x b x'. apply use_key_no_new.
Qed.

Lemma validate_raw_calls raw : respects calls (ValidateRawKeyAndUpdateLastUsed raw : M APIKey).
Proof using Hcalm KePL Htable Htenants.
  unfold ValidateRawKeyAndUpdateLastUsed. destruct (negb _); [by apply respects_throw, _|].
  destruct (split_on _ _) as [|id [|secret [|]]]; try by apply respects_throw, _. apply respects_wrap. intros w.
  destruct (within_tx Hcalm no_new _ (validate_and_use_within (string_of_list_ascii id) (string_of_list_ascii secret)) w) as [Hc Hw].
  by apply (within_calls T).
Qed.

Lemma stmt_calls {A} (q : Stmt ApiKeyDb A) :
  (forall cx x a x', q cx x = Ok (a, x') -> no_new x x') -> respects calls (db_stmt q : M A).
Proof using Hcalm KePL Htable Htenants.
  intros Hq w. destruct (within_stmt Hcalm no_new q Hq w) as (_ & Hc & Hw). by apply (within_calls T).
Qed.

Lemma as_creator_no_new {A} creator (q : string -> Stmt ApiKeyDb A) :
  (forall c cx x a x', q c cx x = Ok (a, x') -> no_new x x') ->
  forall cx x a x', as_creator creator q cx x = Ok (a, x') -> no_new x x'.
Proof. intros Hq cx x a x'. unfold as_creator. destruct (uuid_in creator); [apply Hq|done]. Qed.

Lemma update_calls id creator perms ips : respects calls (Keys_Update id creator perms ips : M APIKey).
Proof using Hcalm KePL Htable Htenants.
  unfold Keys_Update. apply respects_map_err, respects_bind; [apply _| |intros row; apply respects_lift; apply _].
  apply respects_bind; [apply _| |intros [row|]; [apply respects_ret|apply respects_throw]; apply _].
  apply stmt_calls, as_creator_no_new. intros c cx x a x'. apply checked_no_new. by apply update_no_new.
Qed.

Lemma delete_calls id creator : respects calls (Keys_Delete id creator : M unit).
Proof using Hcalm KePL Htable Htenants.
  unfold Keys_Delete. apply respects_bind; [apply _| |intros n; destruct (n =? 0)%nat; [apply respects_throw|apply respects_ret]; apply _].
  apply respects_wrap, stmt_calls, as_creator_no_new. intros c cx x a x' [= _ <-]. unfold no_new. cbn.
  intros k (row & -> & [_ Hin]%list_elem_of_filter)%list_elem_of_fmap. by apply list_elem_of_fmap_2.
Qed.

(** A deletion that answers leaves no row with the identifier. *)
Lemma delete_ok id creator w w' :
  keys_ok (keys_of T w) -> Keys_Delete id creator w = (Ok tt, w') -> id ∉ map Key_ID (keys_of T w').
Proof using Hcalm KePL.
  intros [Hnd _] H. unfold Keys_Delete in H. apply mbind_ok in H as (n & w1 & H & Hn).
  destruct (n =? 0)%nat eqn:En; [done|]. injection Hn as <-.
  apply map_errM_ok, (stmt_ok Hcalm) in H as (_ & cx & Hq & _). unfold as_creator in Hq.
  destruct (uuid_in creator) as [c|]; [|done]. injection Hq as Hn Hx. apply Nat.eqb_neq in En.
  change (conn_get (Conn := pool) (w_db w1)) with (conn_get (Conn := tenant_pool T) (w_db w1)) in Hx. rewrite <- Hx. cbn.
  intros (row & Hid & [Hno Hin']%list_elem_of_filter)%list_elem_of_fmap.
  destruct (filter (fun k => of_creator id c k = true) _) as [|row' rest] eqn:Ef; [by rewrite <- Hn in En|].
  assert (Hin'' : row' ∈ filter (fun k => of_creator id c k = true) (keys_of T w)).
  { change (row' ∈ filter (fun k => of_creator id c k = true) (api_keys (conn_get (Conn := pool) (w_db w)))).
    rewrite Ef. left. }
  apply list_elem_of_filter in Hin'' as [Hc Hin'']. pose proof Hc as Hc'. unfold of_creator in Hc'.
  apply andb_true_iff in Hc' as [He%eqb_true _]. assert (row = row') as ->; [|by rewrite Hc in Hno].
  pose proof (first_such_unique Key_ID id _ row Hnd Hin' (eq_sym Hid)).
  pose proof (first_such_unique Key_ID id _ row' Hnd Hin'' He). congruence.
Qed.
End tenant.

(** ** The memory of the server *)

Definition no_colon (T : string) : Prop := ":"%char ∉ list_ascii_of_string T.

Lemma cache_key_tenant T raw T' raw' : no_colon T -> no_colon T' -> cache_key T raw = cache_key T' raw' -> T = T'.
Proof.
  unfold no_colon, cache_key. intros H1 H2 H. apply (f_equal list_ascii_of_string) in H.
  rewrite !list_ascii_app in H. apply separated_inj in H as [H _]; [|done..].
  by rewrite <- (string_of_list_ascii_of_string T), H, string_of_list_ascii_of_string.
Qed.

(** The key is in the table of its tenant no more, and what the memory holds of it is
    forgotten after a time. *)
Definition forgotten (T id : string) (until : Z) w : Prop :=
  id ∉ map Key_ID (keys_of T w) /\
  forall now raw a, cache_Get now (cache w) (cache_key T raw) = Some a -> Key_ID a = id -> (now <= until)%Z.

Lemma forgotten_calls T id until w w' : calls w w' -> forgotten T id until w -> forgotten T id until w'.
Proof. intros (_ & Hc & Hk) [Hno Hg]. split; [intros Hin; by apply Hno, Hk|by rewrite Hc]. Qed.

Lemma settle_calls w : calls w (settle w).
Proof using Hcalm. apply calls_refl; [apply (calm_settle Hcalm)|rewrite settle_clock; lia]. Qed.

(** A change of the memory that adds nothing of the key. *)
Lemma forgotten_update T id until f w :
  (forall now c k a t, cache_Get t (f now c) k = Some a ->
     cache_Get t c k = Some a \/ Key_ID a <> id \/ forall raw, k <> cache_key T raw) ->
  forgotten T id until w -> forgotten T id until (snd (update_cache f w)) /\
    w_clock (snd (update_cache f w)) = S (w_clock w).
Proof using Hcalm Hcache CaL.
  intros Hf [Hno Hg]. unfold update_cache. cbn [snd]. split; [|cbn; by rewrite settle_clock].
  unfold forgotten. cbn. rewrite (calm_settle Hcalm), Hcache, conn_get_set. split; [done|].
  intros now raw a Hget Hid. apply Hf in Hget as [Hget|[|Hk]]; [by eapply Hg|done|by destruct (Hk raw)].
Qed.

(** The keys that are validated are those of the tables. *)
Lemma validated_is_other T id until ctx raw w a w' :
  forgotten T id until w -> validate_in_tenant ctx raw w = (Ok a, w') ->
  forall T', default "" (Ten_ID <$> ctx) = T' -> T' = T -> Key_ID a <> id.
Proof using Hcalm KePL.
  intros [Hno _] H T' HT' -> <-. apply (validate_in_tenant_ok Hcalm) in H
    as (t & -> & row & now & t1 & Hin & _ & _ & _ & ->). cbn in HT'. subst T. apply Hno. cbn. by apply list_elem_of_fmap_2.
Qed.

Lemma validate_in_tenant_calls ctx raw : respects calls (validate_in_tenant ctx raw : M APIKey).
Proof using Hcalm KePL Htable Htenants.
  unfold validate_in_tenant, on_tenant. destruct ctx as [t|]; [apply validate_raw_calls|by apply respects_throw, _].
Qed.

Lemma expired_calls a : respects calls (IsExpired a : M bool).
Proof using Hcalm.
  unfold IsExpired. destruct (ExpiryDate a); [|by apply respects_ret, _].
  apply respects_bind; [apply _|intros w; apply settle_calls|intros now; by apply respects_ret, _].
Qed.

(** The part that asks the database. *)
Lemma fresh_forgotten T id until ctx raw w :
  no_colon T -> no_colon (default "" (Ten_ID <$> ctx)) -> forgotten T id until w ->
  forgotten T id until (snd ((
    let! apiKey := wrapM "validating API key" (validate_in_tenant ctx raw) in
    let! expired := IsExpired apiKey in
    (if (expired : bool) then mret_ tt
     else update_cache (fun now => cache_SetWithTTL now (cache_key (default "" (Ten_ID <$> ctx)) raw) apiKey apiKeyCacheTTL)) ;;!
    mret_ apiKey) w)).
Proof using Hcalm KePL Hcache Htable Htenants CaL KCL.
  intros HT HT' Hw. unfold wrapM, map_errM. unfold mbind_ at 1.
  pose proof (validate_in_tenant_calls ctx raw w) as Hv. pose proof (validated_is_other T id until ctx raw w) as Hother.
  destruct (validate_in_tenant ctx raw w) as [[a|e] w1]; cbn [res_map_err snd] in *; [|by eapply forgotten_calls].
  specialize (Hother a w1 Hw eq_refl _ eq_refl). apply (forgotten_calls _ _ _ _ _ Hv) in Hw. unfold mbind_ at 1.
  pose proof (expired_calls a w1) as He. destruct (IsExpired a w1) as [[[]|e] w2]; cbn [snd] in He;
    apply (forgotten_calls _ _ _ _ _ He) in Hw; [done| |done].
  unfold mbind_. destruct (update_cache _ w2) as [r w3] eqn:Eu. enough (forgotten T id until w3) by (by destruct r).
  replace w3 with (snd (update_cache (fun now => cache_SetWithTTL now (cache_key (default "" (Ten_ID <$> ctx)) raw) a apiKeyCacheTTL) w2)).
  2: { unfold M. by rewrite Eu. }
  apply forgotten_update; [|done]. intros now c k b t Hget. apply cache_Get_Set in Hget as [(-> & -> & _)|?]; [|by left].
  right. destruct (decide (default "" (Ten_ID <$> ctx) = T)) as [He'|Hne]; [left; by apply Hother|right].
  intros raw' Hk. by apply Hne, (cache_key_tenant _ raw _ raw').
Qed.

Lemma validate_forgotten T id until ctx raw w :
  no_colon T -> no_colon (default "" (Ten_ID <$> ctx)) -> forgotten T id until w ->
  forgotten T id until (snd (validate hasCache ctx raw w)).
Proof using Hcalm KePL Hcache Htable Htenants CaL KCL.
  intros HT HT' Hw. unfold validate. destruct (_ || _)%bool.
  { eapply forgotten_calls; [|exact Hw]. apply (respects_wrap _ _ _ (validate_in_tenant_calls ctx raw)). }
  unfold mbind_ at 1. unfold cached. pose proof (forgotten_calls _ _ _ _ _ (settle_calls w) Hw) as Hs.
  destruct (cache_Get _ _ _) as [a|]; [|by apply fresh_forgotten].
  unfold mbind_ at 1. pose proof (expired_calls a (settle w)) as He.
  destruct (IsExpired a (settle w)) as [[[]|e] w1]; cbn [snd] in He; apply (forgotten_calls _ _ _ _ _ He) in Hs; [|done..].
  assert (Hd := forgotten_update T id until (fun _ => cache_Del (cache_key (default "" (Ten_ID <$> ctx)) raw)) w1).
  destruct Hd as [Hd _]; [intros now c k b t Hget; left; by eapply cache_Get_Del|done|].
  unfold mbind_ at 1. destruct (update_cache _ w1) as [[u|e] w2]; [|done]. by apply fresh_forgotten.
Qed.

(** ** What happens after a deletion *)

(** The requests about keys, beside those that make new ones, and time. *)
Inductive key_request : World D L Ev -> World D L Ev -> Prop :=
  | validates ctx raw w : no_colon (default "" (Ten_ID <$> ctx)) -> key_request w (snd (validate hasCache ctx raw w))
  | updates T id creator perms ips w : key_request w (snd (Keys_Update (KC := tenant_pool T) id creator perms ips w))
  | deletes T id creator w : key_request w (snd (Keys_Delete (KC := tenant_pool T) id creator w))
  | waits w : key_request w (settle w).

Lemma request_forgotten T id until w w' :
  no_colon T -> key_request w w' -> forgotten T id until w -> forgotten T id until w'.
Proof using Hcalm KePL Hcache Htable Htenants CaL KCL.
  intros HT [ctx raw w0 Hc|T' id' creator perms ips w0|T' id' creator w0|w0] Hw.
  - by apply validate_forgotten.
  - eapply forgotten_calls; [apply update_calls|done].
  - eapply forgotten_calls; [apply delete_calls|done].
  - eapply forgotten_calls; [apply settle_calls|done].
Qed.

End revocation.

(** ** A witness: a deleted key that is still remembered *)

Module RevocationWitness.
Import KeyWorld.

#[local] Instance key_laws : TenantPoolLaws Dbs ApiKeyDb := {| pool_laws := key_pool_laws |}.

Definition last : Z := 10.
Definition before : World Dbs unit unit :=
  world [exporter] [mkEntry (cache_key "t1" exporter_text) (credentials exporter) (last + apiKeyCacheTTL)].
Definition deleted : World Dbs unit unit := snd (Keys_Delete (KC := tenant_pool "t1") "k1" "u1" before).
Definition after : World Dbs unit unit := settle deleted.
Definition accepted : res APIKey * World Dbs unit unit := validate true (Some north) exporter_text after.

Lemma remembered now k b : get_entry now (d_cache (w_db before)) k = Some b -> (now <= last + apiKeyCacheTTL)%Z.
Proof.
  intros H. apply fmap_Some in H as (e & H & _). apply first_such_some in H as [Hin [_ Hle%Z.leb_le]%andb_true_iff].
  apply list_elem_of_singleton in Hin as ->. exact Hle.
Qed.

End RevocationWitness.
