(* ===== verification/DirectPayments.v ===== *)
(** Payments made directly to a receiver, without a disbursement:
    [direct_payment_service.go] and [direct_payment_resolvers.go] of [internal/services]. *)

From S2P Require Import Prelude GoStrings Errors StateMachine Effects Schema TxStore Limiter Tables SdpDb PaymentStore.
From S2P Require Import ReceiverStore ReceiverWalletStore DisbursementStore DisbursementMgmt DisbursementHandler.
From Stdlib Require Import QArith.

Local Open Scope string_scope.
Local Open Scope list_scope.

(** ** Errors

    By their types; of [ReceiverWalletNotFoundError] the code returns a pointer, which is
    a type of its own. *)

Definition ValidationError (EntityType Field Message : string) : err :=
  EOpaque "ValidationError" (ENew ("validation error for " +:+ EntityType +:+ "." +:+ Field +:+ ": " +:+ Message)).
Definition NotFoundError (EntityType Reference Message : string) : err :=
  EOpaque "NotFoundError" (ENew (if Message <>? "" then EntityType +:+ " not found: " +:+ Message
                                 else EntityType +:+ " not found with reference: " +:+ Reference)).
Definition UnsupportedError (EntityType Feature : string) : err :=
  EOpaque "UnsupportedError" (ENew (EntityType +:+ ": " +:+ Feature +:+ " not yet supported")).
Definition AmbiguousReferenceError (EntityType Reference : string) (Count : Z) : err :=
  EOpaque "AmbiguousReferenceError" (ENew ("ambiguous " +:+ EntityType +:+ " reference " +:+ Reference
    +:+ ": found " +:+ itoa Count +:+ " matches")).

Definition TrustlineNotFoundError (asset : Asset) (distributionAccount : string) : err :=
  EOpaque "TrustlineNotFoundError" (ENew ("distribution account " +:+ distributionAccount
    +:+ " does not have a trustline for asset " +:+ Code asset +:+ ":" +:+ Issuer asset)).
Definition AccountNotFoundError (address : string) : err :=
  EOpaque "AccountNotFoundError" (ENew ("distribution account " +:+ address +:+ " not found on the Stellar network")).
Definition CircleAccountNotActivatedError (accountType status : string) : err :=
  EOpaque "CircleAccountNotActivatedError" (ENew ("Circle distribution account is in " +:+ status
    +:+ " state, please complete the " +:+ accountType +:+ " activation process")).
Definition WalletNotEnabledError (walletName : string) : err :=
  EOpaque "WalletNotEnabledError" (ENew ("wallet '" +:+ walletName +:+ "' is not enabled for payments")).
Definition ReceiverWalletNotFoundError (receiverID walletID : string) : err :=
  EOpaque "*ReceiverWalletNotFoundError" (ENew ("no receiver wallet: receiver=" +:+ receiverID +:+ " wallet=" +:+ walletID)).
Definition ReceiverWalletNotReadyForPaymentError (status : string) : err :=
  EOpaque "ReceiverWalletNotReadyForPaymentError"
    (ENew ("receiver wallet is not ready for payment, current status is " +:+ status)).
Definition AssetNotSupportedByWalletError (assetCode walletName : string) : err :=
  EOpaque "AssetNotSupportedByWalletError"
    (ENew ("asset '" +:+ assetCode +:+ "' is not supported by wallet '" +:+ walletName +:+ "'")).

Definition InsufficientBalanceForDirectPaymentError {N : Numerics} (asset : Asset) (requested available pending : Q) : err :=
  EOpaque "InsufficientBalanceForDirectPaymentError" (ENew ("insufficient balance for direct payment: requested "
    +:+ decimal_StringFixed6 requested +:+ " " +:+ Code asset +:+ ", but only " +:+ decimal_StringFixed6 available
    +:+ " available (" +:+ decimal_StringFixed6 pending +:+ " in pending payments). Need "
    +:+ decimal_StringFixed6 (Qminus (Qplus requested pending) available) +:+ " more " +:+ Code asset)).

(** ** References *)

Definition EntityTypeAsset := "asset".
Definition EntityTypeReceiver := "receiver".
Definition EntityTypeWallet := "wallet".
Definition FieldReference := "reference".
Definition FieldCode := "code".
Definition FieldIssuer := "issuer".
Definition FieldContractID := "contract_id".
Definition FieldEmail := "email".
Definition FieldPhoneNumber := "phone_number".
Definition FieldWalletAddress := "wallet_address".
Definition FieldAddress := "address".

Definition AssetTypeNative := "native".
Definition AssetTypeClassic := "classic".
Definition AssetTypeContract := "contract".
Definition AssetTypeFiat := "fiat".
Definition validTypes : list string := [AssetTypeNative; AssetTypeClassic; AssetTypeContract; AssetTypeFiat].

(** A nil pointer is [None]. *)
Record AssetReference := mkAssetReference {
  AR_ID : option string;
  AR_Type : option string;
  AR_Code : option string;
  AR_Issuer : option string;
  AR_ContractID : option string }.

Record ReceiverReference := mkReceiverReference {
  RR_ID : option string;
  RR_Email : option string;
  RR_PhoneNumber : option string;
  RR_WalletAddress : option string }.

Record WalletReference := mkWalletReference {
  WR_ID : option string;
  WR_Address : option string }.

(** Not nil, and not of white space only. *)
Definition given (p : option string) : bool :=
  match p with Some s => TrimSpace s <>? "" | None => false end.

Definition references (ps : list (option string)) : nat := List.length (List.filter given ps).

(** Between none and more than one. *)
Definition exactly_one (count : nat) (none several : err) : res unit :=
  if (count =? 0)%nat then Err none else guard_err (1 <? count)%nat several.

Section validation.
Context {SDK : StellarSdk} {PN : PhoneNumbers}.

Definition is_address (s : string) : bool := IsValidEd25519PublicKey s || IsValidContractAddress s.

Definition AssetResolver_type (ref : AssetReference) (type : string) : res unit :=
  let required field kind := ValidationError EntityTypeAsset field ("required for " +:+ kind +:+ " asset") in
  if negb (slices_Contains validTypes type)
  then Err (ValidationError "asset" "type" ("invalid type '" +:+ type +:+ "', must be one of: " +:+ Join ", " validTypes))
  else if type =? AssetTypeClassic then
    if negb (given (AR_Code ref)) then Err (required FieldCode "classic")
    else if negb (bool_decide (AR_ContractID ref = None))
    then Err (ValidationError EntityTypeAsset FieldContractID "field not supported for classic asset")
    else guard_err (negb (given (AR_Issuer ref))) (required FieldIssuer "classic")
  else if type =? AssetTypeContract then
    if negb (given (AR_ContractID ref)) then Err (required FieldContractID "contract")
    else guard_err (negb (IsValidContractAddress (default "" (AR_ContractID ref))))
      (ValidationError EntityTypeAsset FieldContractID "invalid contract format provided")
  else if type =? AssetTypeFiat then guard_err (negb (given (AR_Code ref))) (required FieldCode "fiat")
  else Ok tt.

Definition AssetResolver_Validate (ref : AssetReference) : res unit :=
  let? _ := (if given (AR_Type ref) then AssetResolver_type ref (default "" (AR_Type ref)) else Ok tt) in
  exactly_one (references [AR_ID ref; AR_Type ref])
    (ValidationError EntityTypeAsset FieldReference "must be specified by id or type")
    (ValidationError EntityTypeAsset FieldReference "must be specified by either id or type, not both").

(** The check of a field that is given. *)
Definition check_given (p : option string) (ok : string -> bool) (e : string -> err) : res unit :=
  if given p then guard_err (negb (ok (default "" p))) (e (default "" p)) else Ok tt.

Definition ReceiverResolver_Validate (ref : ReceiverReference) : res unit :=
  let? _ := check_given (RR_Email ref) (fun s => is_ok (ValidateEmail s))
    (fun s => ValidationError EntityTypeReceiver FieldEmail ("invalid format: " +:+ s)) in
  let? _ := check_given (RR_PhoneNumber ref) (fun s => is_ok (ValidatePhoneNumber s))
    (fun s => ValidationError EntityTypeReceiver FieldPhoneNumber ("invalid format: " +:+ s)) in
  let? _ := check_given (RR_WalletAddress ref) is_address
    (fun s => ValidationError EntityTypeReceiver FieldWalletAddress ("invalid stellar address format: " +:+ s)) in
  exactly_one (references [RR_ID ref; RR_Email ref; RR_PhoneNumber ref; RR_WalletAddress ref])
    (ValidationError EntityTypeReceiver FieldReference "must be specified by id, email, phone_number, or wallet_address")
    (ValidationError EntityTypeReceiver FieldReference "must be specified by only one identifier").

Definition WalletResolver_Validate (ref : WalletReference) : res unit :=
  let? _ := check_given (WR_Address ref) is_address
    (fun s => ValidationError EntityTypeWallet FieldAddress ("invalid stellar address format: " +:+ s)) in
  exactly_one (references [WR_ID ref; WR_Address ref])
    (ValidationError EntityTypeWallet FieldReference "must be specified by id or address")
    (ValidationError EntityTypeWallet FieldReference "must be specified by either id or address, not both").
End validation.

Definition GetContactInfo (r : ReceiverReference) : string :=
  let email := default "" (RR_Email r) in
  if email <>? "" then email else default "" (RR_PhoneNumber r).

(** The account of Horizon's answers; the status of an error of its client. *)
Class HorizonErrors := { horizon_StatusCode : err -> option Z }.

Section service.
Context {D L Ev : Type} {E : Env D} {C : Conn D SdpDb} {N : Numerics} {SDK : StellarSdk} {PN : PhoneNumbers}
  {DS : DistributionAccountService} {HA : HorizonAccounts} {HE : HorizonErrors} {Co : Collation} {U : UuidGen}.
Abbreviation M := (M D L Ev).

(** ** Resolving: wallets and assets on the connection pool, receivers in the transaction *)

Definition Assets_GetByCodeAndIssuer (code issuer : string) : M Asset :=
  no_rows_as ErrRecordNotFound ("error querying asset with code " +:+ code +:+ " and issuer " +:+ issuer)
    (pool_query (fun _ db =>
      match first_such (fun a => (Code a =? code) && (Issuer a =? issuer)) (assets db) with
      | Some a => Ok a
      | None => Err (ESentinel sql_ErrNoRows)
      end)).

Definition Wallets_GetAssets (walletID : string) : M (list Asset) :=
  wrapM "querying wallet assets" (pool_query (fun _ db =>
    Ok (sort_with (fun a b => text_le (Code a) (Code b))
          (omap (fun '(w, a) => if w =? walletID then lookup_asset a db else None) (wallets_assets db))))).

Definition asset_unspecified : err :=
  ValidationError EntityTypeAsset FieldReference "must be specified by id or type".

Definition AssetResolver_Resolve (ref : AssetReference) : M Asset :=
  lift (AssetResolver_Validate ref) ;;!
  match AR_ID ref with
  | Some id => not_found_as (NotFoundError EntityTypeAsset id "") "getting asset by ID" (Assets_Get id)
  | None =>
    match AR_Type ref with
    | None => throw asset_unspecified
    | Some type =>
      if type =? AssetTypeNative then
        not_found_as (NotFoundError EntityTypeAsset "" "native XLM asset not found") "getting native asset"
          (Assets_GetByCodeAndIssuer "XLM" "")
      else if type =? AssetTypeClassic then
        match AR_Code ref, AR_Issuer ref with
        | Some code, Some issuer =>
          not_found_as (NotFoundError EntityTypeAsset (code +:+ ":" +:+ issuer) "") "getting classic asset"
            (Assets_GetByCodeAndIssuer code issuer)
        | _, _ => throw nil_dereference
        end
      else if type =? AssetTypeContract then throw (UnsupportedError EntityTypeAsset "contract assets")
      else if type =? AssetTypeFiat then throw (UnsupportedError EntityTypeAsset "fiat assets")
      else throw asset_unspecified
    end
  end.

Definition ReceiverResolver_Resolve (ref : ReceiverReference) : M Receiver :=
  lift (ReceiverResolver_Validate ref) ;;!
  match RR_ID ref with
  | Some id => not_found_as (NotFoundError EntityTypeReceiver id "") "getting receiver by ID" (Receiver_Get id)
  | None =>
    let contactInfo := GetContactInfo ref in
    if contactInfo <>? "" then
      let! receivers := wrapM "getting receiver by contact" (GetByContacts [contactInfo]) in
      match receivers with
      | [] => throw (NotFoundError EntityTypeReceiver "" ("no receiver found with contact info: " +:+ contactInfo))
      | [receiver] => mret_ receiver
      | _ => throw (AmbiguousReferenceError EntityTypeReceiver contactInfo (Z.of_nat (List.length receivers)))
      end
    else
      match RR_WalletAddress ref with
      | Some address =>
        not_found_as (NotFoundError EntityTypeReceiver "" ("no receiver found with wallet address: " +:+ address))
          "getting receiver by wallet address" (GetByWalletAddress address)
      | None => throw (ValidationError EntityTypeReceiver FieldReference
                  "must be specified by id, email, phone_number, or wallet_address")
      end
  end.

Definition WalletResolver_Resolve (ref : WalletReference) : M Wallet :=
  lift (WalletResolver_Validate ref) ;;!
  match WR_ID ref with
  | Some id => not_found_as (NotFoundError EntityTypeWallet id "") "getting wallet by ID" (Wallets_Get id)
  | None =>
    match WR_Address ref with
    | Some address =>
      let! (_, wallet) := wrapM "finding receiver wallet" (GetByStellarAccountAndMemo address "" None) in
      if negb (Wal_UserManaged wallet) || negb (Wal_Enabled wallet)
      then throw (NotFoundError EntityTypeWallet "" "no user managed wallet found")
      else mret_ wallet
    | None => throw (ValidationError EntityTypeWallet FieldReference "must be specified by id or address")
    end
  end.

(** ** The service *)

Definition validateAssetWalletCompatibility (asset : Asset) (wallet : Wallet) : M unit :=
  if Wal_UserManaged wallet then mret_ tt
  else
    let! walletAssets := wrapM "getting wallet assets" (Wallets_GetAssets (Wal_ID wallet)) in
    lift (guard_err (negb (existsb (fun a => Asset_Equals a asset) walletAssets))
      (AssetNotSupportedByWalletError (Code asset) (Wal_Name wallet))).

Definition ready_update : ReceiverWalletUpdate :=
  mkReceiverWalletUpdate ReadyReceiversWalletStatus "" "" None None None "" None.

Definition getReceiverWallet (receiverID walletID : string) (walletAddress : option string) : M ReceiverWallet :=
  let! receiverWallets := wrapM "checking for existing receiver wallet"
    (GetByReceiverIDsAndWalletID [receiverID] walletID) in
  match receiverWallets with
  | receiverWallet :: _ =>
    let address := default "" walletAddress in
    if (address <>? "") && (default "" (RW_StellarAddress receiverWallet) <>? address)
    then throw (ENew "wallet address mismatch - receiver is registered with a different address for this wallet")
    else mret_ receiverWallet
  | [] =>
    let! wallet := wrapM "getting wallet" (Wallets_Get walletID) in
    if Wal_UserManaged wallet then throw (ReceiverWalletNotFoundError receiverID walletID)
    else
      let! receiverVerifications := wrapM "checking receiver verifications" (GetAllByReceiverID receiverID) in
      match receiverVerifications with
      | [] => throw (ReceiverWalletNotFoundError receiverID walletID)
      | _ =>
        let! newReceiverWalletID := wrapM "creating receiver wallet"
          (GetOrInsertReceiverWallet receiverID walletID) in
        wrapM "updating receiver wallet status to READY" (RW_Update newReceiverWalletID ready_update) ;;!
        let! (createdReceiverWallet, _) := wrapM "getting created receiver wallet" (RW_GetByID newReceiverWalletID) in
        mret_ createdReceiverWallet
      end
  end.

Definition checkTrustlineExists (account : TransactionAccount) (asset : Asset) : M bool :=
  if Asset_IsNative asset then mret_ true
  else
    let! balances := map_errM (fun e =>
        if bool_decide (horizon_StatusCode e = Some 404%Z) then AccountNotFoundError (Address account)
        else EWrap "getting account details from Horizon" e)
      (ask_res (fun t => AccountBalances t (Address account))) in
    mret_ (existsb (fun b => (HB_Type b <>? AssetTypeNative) && (HB_Code b =? Code asset) && (HB_Issuer b =? Issuer asset))
             balances).

Definition validateCircleAccount (account : TransactionAccount) : res unit :=
  guard_err (TA_Status account =? AccountStatusPendingUserActivation)
    (CircleAccountNotActivatedError (TA_Type account) (TA_Status account)).

(** Amounts that cannot be read are left out. *)
Definition add_pending (targetAsset : Asset) (total : Q) (payment : PaymentView) : Q :=
  if Asset_Equals (pv_Asset payment) targetAsset then
    match decimal_NewFromString (numeric_text (Pay_Amount (pv_row payment))) with
    | Ok amount => Qplus total amount
    | Err _ => total
    end
  else total.

Definition calculatePendingAmountForAsset (targetAsset : Asset) : M Q :=
  let! pendingPayments := wrapM "getting pending payments" (GetAllByStatus PaymentInProgressStatuses) in
  mret_ (foldl (add_pending targetAsset) 0%Q pendingPayments).

Definition validateBalance (distributionAccount : TransactionAccount) (asset : Asset) (amount : string) : M unit :=
  let! requestedAmount := wrapM "parsing amount" (lift (decimal_NewFromString amount)) in
  (if IsStellar distributionAccount then
     let! exists_ := wrapM "checking trustline existence" (checkTrustlineExists distributionAccount asset) in
     lift (guard_err (negb exists_) (TrustlineNotFoundError asset (Address distributionAccount)))
   else mret_ tt) ;;!
  (if IsCircle distributionAccount then lift (validateCircleAccount distributionAccount) else mret_ tt) ;;!
  let! availableBalance := wrapM "getting balance" (ask_res (fun t => GetBalance t distributionAccount asset)) in
  let! totalPending := wrapM "calculating pending amounts" (calculatePendingAmountForAsset asset) in
  lift (guard_err (Qlt_bool availableBalance (Qplus requestedAmount totalPending))
    (InsufficientBalanceForDirectPaymentError asset requestedAmount availableBalance totalPending)).

Record CreateDirectPaymentRequest := mkCreateDirectPaymentRequest {
  DP_Amount : string;
  DP_Asset : AssetReference;
  DP_Receiver : ReceiverReference;
  DP_Wallet : WalletReference;
  DP_ExternalPaymentID : option string }.

(** The body of the transaction. *)
Definition create_direct_payment (req : CreateDirectPaymentRequest) (userID : string)
    (distributionAccount : TransactionAccount) : M PaymentView :=
  let! asset := AssetResolver_Resolve (DP_Asset req) in
  let! receiver := ReceiverResolver_Resolve (DP_Receiver req) in
  let! wallet := WalletResolver_Resolve (DP_Wallet req) in
  if negb (Wal_Enabled wallet) then throw (WalletNotEnabledError (Wal_Name wallet))
  else
    validateAssetWalletCompatibility asset wallet ;;!
    let! receiverWallet := wrapM "getting receiver wallet"
      (getReceiverWallet (Rec_ID receiver) (Wal_ID wallet) (WR_Address (DP_Wallet req))) in
    if negb (slices_Contains [ReadyReceiversWalletStatus; RegisteredReceiversWalletStatus] (RW_Status receiverWallet))
    then throw (ReceiverWalletNotReadyForPaymentError (RW_Status receiverWallet))
    else
      validateBalance distributionAccount asset (DP_Amount req) ;;!
      let! paymentID := wrapM "creating payment" (CreateDirectPayment
        (mkPaymentInsert (Rec_ID receiver) None PaymentTypeDirect (DP_Amount req) (Asset_ID asset)
           (RW_ID receiverWallet) (DP_ExternalPaymentID req)) userID) in
      wrapM "getting created payment" (Payment_Get paymentID).

Definition Service_CreateDirectPayment (req : CreateDirectPaymentRequest) (userID : string)
    (distributionAccount : TransactionAccount) : M PaymentView :=
  wrapM "creating direct payment"
    (RunInTransactionWithResult (X := SdpDb) (create_direct_payment req userID distributionAccount)).
End service.
