(* ===== verification/PaymentsHandler.v ===== *)
(** The requests about payments: [httphandler/payments_handler.go] and the validation of
    direct payments, [validators/direct_payment_validator.go]. *)

From S2P Require Import Prelude GoStrings Errors StateMachine Effects Schema TxStore Limiter Tables SdpDb PaymentStore.
From S2P Require Import ReceiverStore ReceiverWalletStore DisbursementStore DisbursementMgmt DisbursementHandler.
From S2P Require Import Validators Registration Tenant CircleClient CircleStore Passwords Authenticator AuthManager.
From S2P Require Import AuthHandlers ApiKeys Access DirectPayments.

Local Open Scope string_scope.
Local Open Scope list_scope.

(** ** Validation *)

Record DirectPaymentAsset := mkDirectPaymentAsset {
  DPA_ID : option string;
  DPA_Type : option string;
  DPA_Code : option string;
  DPA_Issuer : option string;
  DPA_ContractID : option string }.
#[export] Instance eta_DirectPaymentAsset : Eta DirectPaymentAsset := fun r =>
  mkDirectPaymentAsset (DPA_ID r) (DPA_Type r) (DPA_Code r) (DPA_Issuer r) (DPA_ContractID r).

Record DirectPaymentReceiver := mkDirectPaymentReceiver {
  DPR_ID : option string;
  DPR_Email : option string;
  DPR_PhoneNumber : option string;
  DPR_WalletAddress : option string }.

Record DirectPaymentWallet := mkDirectPaymentWallet {
  DPW_ID : option string;
  DPW_Address : option string }.

Record PostDirectPaymentRequest := mkPostDirectPaymentRequest {
  PDP_Amount : string;
  PDP_Asset : DirectPaymentAsset;
  PDP_Receiver : DirectPaymentReceiver;
  PDP_Wallet : DirectPaymentWallet;
  PDP_ExternalPaymentID : option string }.

Section validation.
Context {SDK : StellarSdk} {PN : PhoneNumbers} {N : Numerics}.

(** The text of a field without the white space around it. *)
Definition trimmed (p : option string) : string := TrimSpace (default "" p).

(** The field is replaced by its trimmed text where the text is not empty. *)
Definition keep_trimmed (p : option string) : option string := if given p then Some (trimmed p) else p.

(** The checks of the fields that a type of asset needs. *)
Definition check_asset_type (asset : DirectPaymentAsset) (assetType : string) (v : Validator) : Validator :=
  if assetType =? AssetTypeClassic then
    let v := Check_ (given (DPA_Code asset)) "asset.code" "code is required for classic asset" v in
    let v := Check_ (given (DPA_Issuer asset)) "asset.issuer" "issuer is required for classic asset" v in
    if given (DPA_Issuer asset)
    then Check_ (IsValidEd25519PublicKey (trimmed (DPA_Issuer asset))) "asset.issuer"
           "invalid stellar account ID format for issuer" v
    else v
  else if assetType =? AssetTypeContract then
    Check_ (given (DPA_ContractID asset)) "asset.contract_id" "contract_id is required for contract asset" v
  else if assetType =? AssetTypeFiat then
    Check_ (given (DPA_Code asset)) "asset.code" "code is required for fiat asset" v
  else v.

Definition trim_asset (asset : DirectPaymentAsset) : DirectPaymentAsset :=
  asset <| DPA_Code := TrimSpace <$> DPA_Code asset |> <| DPA_Issuer := TrimSpace <$> DPA_Issuer asset |>
    <| DPA_ContractID := TrimSpace <$> DPA_ContractID asset |>.

(** It returns early, with the fields as they were, where there are errors already. *)
Definition validateAssetReference (asset : DirectPaymentAsset) (v : Validator) : Validator * DirectPaymentAsset :=
  let hasID := given (DPA_ID asset) in
  let hasType := given (DPA_Type asset) in
  let v := Check_ (hasID || hasType) "asset" "asset reference is required - must specify either id or type" v in
  let v := Check_ (negb hasID || negb hasType) "asset" "asset reference must specify either id or type, not both" v in
  if hasType then
    let assetType := trimmed (DPA_Type asset) in
    let v := Check_ (slices_Contains validTypes assetType) "asset.type"
      "invalid asset type, must be one of: native, classic, contract, fiat" v in
    if HasErrors v then (v, asset)
    else (check_asset_type asset assetType v, trim_asset (asset <| DPA_Type := Some assetType |>))
  else (v, trim_asset asset).

Definition validateReceiverReference (receiver : DirectPaymentReceiver) (v : Validator) :
    Validator * DirectPaymentReceiver :=
  let identifierCount := references
    [DPR_ID receiver; DPR_Email receiver; DPR_PhoneNumber receiver; DPR_WalletAddress receiver] in
  let v := Check_ (0 <? identifierCount)%nat "receiver"
    "receiver reference is required - must specify id, email, phone_number, or wallet_address" v in
  let v := Check_ (identifierCount =? 1)%nat "receiver" "receiver reference must specify exactly one identifier" v in
  let v := if given (DPR_Email receiver)
           then CheckError (ValidateEmail (trimmed (DPR_Email receiver))) "receiver.email" "" v else v in
  let v := if given (DPR_PhoneNumber receiver)
           then CheckError (ValidatePhoneNumber (trimmed (DPR_PhoneNumber receiver))) "receiver.phone_number" "" v
           else v in
  let v := if given (DPR_WalletAddress receiver)
           then Check_ (is_address (trimmed (DPR_WalletAddress receiver))) "receiver.wallet_address"
                  "invalid stellar address format" v
           else v in
  (v, mkDirectPaymentReceiver (keep_trimmed (DPR_ID receiver)) (keep_trimmed (DPR_Email receiver))
        (keep_trimmed (DPR_PhoneNumber receiver)) (keep_trimmed (DPR_WalletAddress receiver))).

Definition validateWalletReference (wallet : DirectPaymentWallet) (v : Validator) : Validator * DirectPaymentWallet :=
  let hasID := given (DPW_ID wallet) in
  let hasAddress := given (DPW_Address wallet) in
  let v := Check_ (hasID || hasAddress) "wallet" "wallet reference is required - must specify either id or address" v in
  let v := Check_ (negb hasID || negb hasAddress) "wallet" "wallet reference must specify either id or address, not both" v in
  let v := if hasAddress then Check_ (is_address (trimmed (DPW_Address wallet))) "wallet.address"
                                "invalid stellar address format" v else v in
  (v, mkDirectPaymentWallet (keep_trimmed (DPW_ID wallet)) (keep_trimmed (DPW_Address wallet))).

(** The errors, and the request without the white space of its fields where there are
    none. *)
Definition ValidateCreateDirectPaymentRequest (reqBody : PostDirectPaymentRequest) :
    Validator * option PostDirectPaymentRequest :=
  let amount := TrimSpace (PDP_Amount reqBody) in
  let v := Check_ (amount <>? "") "amount" "amount is required" NewValidator in
  let v := if amount <>? "" then CheckError (ValidateAmount amount) "amount" "" v else v in
  let '(v, asset) := validateAssetReference (PDP_Asset reqBody) v in
  let '(v, receiver) := validateReceiverReference (PDP_Receiver reqBody) v in
  let '(v, wallet) := validateWalletReference (PDP_Wallet reqBody) v in
  (v, if HasErrors v then None
      else Some (mkPostDirectPaymentRequest amount asset receiver wallet (PDP_ExternalPaymentID reqBody))).
End validation.

(** ** Conversions *)

Definition convertAssetReference (asset : DirectPaymentAsset) : AssetReference :=
  mkAssetReference (DPA_ID asset) (DPA_Type asset) (DPA_Code asset) (DPA_Issuer asset) (DPA_ContractID asset).
Definition convertReceiverReference (receiver : DirectPaymentReceiver) : ReceiverReference :=
  mkReceiverReference (DPR_ID receiver) (DPR_Email receiver) (DPR_PhoneNumber receiver) (DPR_WalletAddress receiver).
Definition convertWalletReference (wallet : DirectPaymentWallet) : WalletReference :=
  mkWalletReference (DPW_ID wallet) (DPW_Address wallet).

Definition serviceReq (req : PostDirectPaymentRequest) : CreateDirectPaymentRequest :=
  mkCreateDirectPaymentRequest (PDP_Amount req) (convertAssetReference (PDP_Asset req))
    (convertReceiverReference (PDP_Receiver req)) (convertWalletReference (PDP_Wallet req)) (PDP_ExternalPaymentID req).

(** ** Answers *)

(** [errors.As] against the cases of a switch, in order: the type of the error, and its
    answer from the text of the error found. *)
Fixpoint first_type (e : err) (cases : list (string * (string -> err -> err))) (fallback : err -> err) : err :=
  match cases with
  | [] => fallback e
  | (type, answer) :: rest =>
    match As_Opaque type e with Some cause => answer (Error cause) e | None => first_type e rest fallback end
  end.

Definition bad_request_and (hint : string) (msg : string) (e : err) : err := BadRequest (msg +:+ hint) (Some e).

Definition direct_payment_error (e : err) : err :=
  let bad_request := bad_request_and "" in
  first_type e
    [("ValidationError", bad_request); ("NotFoundError", fun msg e => NotFound msg (Some e));
     ("UnsupportedError", bad_request); ("AmbiguousReferenceError", bad_request);
     ("InsufficientBalanceForDirectPaymentError", bad_request); ("WalletNotEnabledError", bad_request);
     ("AssetNotSupportedByWalletError", bad_request); ("ReceiverWalletNotReadyForPaymentError", bad_request);
     ("ReceiverWalletNotFoundError", bad_request);
     ("TrustlineNotFoundError", bad_request_and ". Please add a trustline for this asset to your distribution account, or choose a different asset that already has a trustline.");
     ("CircleAccountNotActivatedError", bad_request_and ". Please complete the Circle account activation process...");
     ("CircleAssetNotSupportedError", bad_request_and ". Please choose a different asset supported by Circle...");
     ("AccountNotFoundError", bad_request_and ". Please ensure your distribution account exists and is funded on the Stellar network.")]
    (fun e => InternalError "creating payment" (Some e)).

Section handlers.
Context {D L Ev : Type} {E : Env D} {C : Conn D SdpDb} {AuC : Conn D AuthDb} {N : Numerics} {SDK : StellarSdk}
  {PN : PhoneNumbers} {DS : DistributionAccountService} {HA : HorizonAccounts} {HE : HorizonErrors} {Co : Collation}
  {U : UuidGen} {J : JwtLibrary}.
Context (am : AuthSettings).
Abbreviation M := (M D L Ev).

(** A payment of a Circle account with the identifier of the transfer, which payouts do
    not have.  [distAccount]: what the resolver gives for the tenant of the context. *)
Definition decorateWithCircleTransactionInfo (distAccount : res TransactionAccount) (payments : list PaymentView) :
    M (list (PaymentView * option string)) :=
  match payments with
  | [] => mret_ []
  | _ =>
    let! account := wrapM "resolving distribution account" (lift distAccount) in
    if negb (IsCircle account) then mret_ (map (fun v => (v, None)) payments)
    else
      let! transfers := wrapM "getting circle transfers for payment IDs"
        (CTR_GetCurrentTransfersForPaymentIDs (map (fun v => Pay_ID (pv_row v)) payments)) in
      mret_ (map (fun v => (v, transfers !! Pay_ID (pv_row v) ≫= CTR_CircleTransferID)) payments)
  end.

Definition GetPayment (distAccount : res TransactionAccount) (paymentID : string) : M (PaymentView * option string) :=
  let! payment := map_errM (fun e =>
      if errors_Is_err e ErrRecordNotFound then NotFound ("Cannot retrieve payment with ID: " +:+ paymentID) (Some e)
      else InternalError ("Cannot retrieve payment with id " +:+ paymentID) (Some e)) (Payment_Get paymentID) in
  let! payments := map_errM (fun e => InternalError "Cannot retrieve payment with circle info" (Some e))
    (decorateWithCircleTransactionInfo distAccount [payment]) in
  match payments with
  | p :: _ => mret_ p
  | [] => throw (EExternal "runtime error: index out of range [0] with length 0")
  end.

Definition PostDirectPayment (body : res PostDirectPaymentRequest) (userID : res string)
    (distAccount : res TransactionAccount) : M PaymentView :=
  let! req := map_errM (fun e => BadRequest "invalid request body" (Some e)) (lift body) in
  match ValidateCreateDirectPaymentRequest req with
  | (_, None) => throw (BadRequest "request invalid" None)
  | (_, Some validatedReq) =>
    let! userID := map_errM (fun _ => Unauthorized "" None) (lift userID) in
    let! user := map_errM (fun e => InternalError "Cannot get user" (Some e)) (GetUserByID userID) in
    let! account := map_errM (fun e => InternalError "resolving distribution account" (Some e)) (lift distAccount) in
    map_errM direct_payment_error (Service_CreateDirectPayment (serviceReq validatedReq) (U_ID user) account)
  end.

Definition RetryPaymentsRequest_validate (paymentIDs : list string) : res unit :=
  guard_err (HasErrors (Check_ (negb (List.length paymentIDs =? 0)%nat) "payment_ids"
    "payment_ids should not be empty" NewValidator)) (BadRequest "" None).

(** The body of the transaction of a retry. *)
Definition retry_payments (ctx : Context_) (email : string) (paymentIDs : list string) : M unit :=
  wrapM "retrying failed payments" (RetryFailedPayments email paymentIDs) ;;!
  let! tnt := wrapM "getting tenant from context" (lift (GetTenantFromContext ctx)) in
  if AccountType_IsCircle (DistributionAccountType tnt)
  then wrapM "resetting circle recipients for retry if needed" (ResetRecipientsForRetryIfNeeded paymentIDs) ;;! mret_ tt
  else mret_ tt.

Definition retry_error (e : err) : err :=
  if errors_Is_err e ErrMismatchNumRowsAffected
  then BadRequest "Invalid payment ID(s) provided. All payment IDs must exist and be in the 'FAILED' state." (Some e)
  else InternalError "" (Some e).

Definition RetryPayments (ctx : Context_) (token : option string) (body : res (list string)) : M unit :=
  let! token := token_or_unauthorized token in
  let! user := map_errM (fun e => InternalError "" (Some e)) (Manager_GetUser am token) in
  let! paymentIDs := map_errM (fun e => BadRequest "" (Some e)) (lift body) in
  lift (RetryPaymentsRequest_validate paymentIDs) ;;!
  map_errM retry_error (RunInTransaction (X := SdpDb) (retry_payments ctx (U_Email user) paymentIDs)).

Definition patch_status_error (paymentID toStatus : string) (e : err) : err :=
  if errors_Is_err e ErrPaymentNotFound then NotFound (Error ErrPaymentNotFound) (Some e)
  else if errors_Is_err e ErrPaymentNotReadyToCancel then BadRequest (Error ErrPaymentNotReadyToCancel) (Some e)
  else if errors_Is_err e ErrPaymentStatusCantBeChanged then BadRequest (Error ErrPaymentStatusCantBeChanged) (Some e)
  else InternalError ("Cannot update payment ID " +:+ paymentID +:+ " with status: " +:+ toStatus) (Some e).

(** The status of the body. *)
Definition PatchPaymentStatus (paymentID : string) (body : res string) : M string :=
  let! status := map_errM (fun e => BadRequest "invalid request body" (Some e)) (lift body) in
  let! toStatus := map_errM (fun e => BadRequest "invalid status" (Some e)) (lift (ToPaymentStatus status)) in
  map_errM (patch_status_error paymentID toStatus)
    (if toStatus =? CanceledPaymentStatus then CancelPayment paymentID else throw ErrPaymentStatusCantBeChanged) ;;!
  mret_ "Payment canceled".
End handlers.
