(* ===== verification/DirectPaymentSafety.v ===== *)
(** What a direct payment guarantees: it is funded, to a wallet of its receiver that is
    ready for payments, in an asset the wallet supports; and how its request is checked. *)

From S2P Require Import Prelude GoStrings Errors StateMachine Effects Transactions Schema TxStore Limiter SdpDb PaymentStore.
From S2P Require Import Tables ReceiverStore ReceiverWalletStore DisbursementStore DisbursementMgmt DisbursementHandler.
From S2P Require Import InstructionsSafety Validators Platform DirectPayments PaymentsHandler.
From Stdlib Require Import QArith.

Local Open Scope string_scope.
Local Open Scope list_scope.
Local Open Scope go_scope.

(** ** Programs that begin by reading *)

Section reads.
Context {D L Ev : Type} {E : Env D} {X : Type} {C : Conn D X} {CL : ConnLaws D X}.
Abbreviation M := (M D L Ev).

Definition looks {A} (m : M A) (P : A -> X -> Prop) : Prop := opens m (fun a x x' => x' = x /\ P a x).

Lemma opens_look {A B} (m : M A) (k : A -> M B) (P : A -> X -> Prop) (Q : B -> X -> X -> Prop) :
  looks m P -> (forall a, opens (k a) (fun b x x' => P a x -> Q b x x')) -> opens (mbind_ m k) Q.
Proof.
  intros Hm Hk. eapply opens_bind_with; [exact Hm|]. intros a. eapply opens_mono; [apply Hk|].
  intros b y x' H x [-> HP]. auto.
Qed.

Lemma looks_bind {A B} (m : M A) (k : A -> M B) (P : A -> X -> Prop) (Q : B -> X -> Prop) :
  looks m P -> (forall a, looks (k a) (fun b x => P a x -> Q b x)) -> looks (mbind_ m k) Q.
Proof.
  intros Hm Hk. eapply opens_look; [exact Hm|]. intros a. eapply opens_mono; [apply Hk|].
  intros b x x' [-> H] HP. auto.
Qed.

Lemma looks_mono {A} (m : M A) (P Q : A -> X -> Prop) : looks m P -> (forall a x, P a x -> Q a x) -> looks m Q.
Proof. intros Hm H. eapply opens_mono; [exact Hm|]. intros a x x' [-> HP]. auto. Qed.

Lemma looks_pool {A} (q : StmtCtx -> X -> res A) : looks (pool_query q : M A) (fun a x => exists ctx, q ctx x = Ok a).
Proof.
  intros w a w' Ho H. assert (Hne : w_tx w <> ∅) by (intros He; unfold is_open in Ho; by rewrite He, lookup_empty in Ho).
  apply pool_query_open in H as (ctx & Hq & Hdb & Ht); [|done]. unfold is_open, Transactions.live, is_aborted in *.
  rewrite Hdb, Ht. split; [done|]. intros Hl. split_and!; try done.
  by exists ctx.
Qed.

Lemma looks_read {A} (f : StmtCtx -> X -> A) :
  looks (db_stmt (fun cx x => Ok (f cx x, x)) : M A) (fun a x => exists cx, a = f cx x).
Proof. eapply opens_mono; [apply opens_read|]. by intros a x x' [? ->]. Qed.

Lemma looks_lift {A} (r : res A) : looks (lift r : M A) (fun a _ => r = Ok a).
Proof. eapply opens_mono; [apply opens_lift|]. by intros a x x' [? ->]. Qed.

Lemma looks_ret {A} (a : A) : looks (mret_ a : M A) (fun b _ => b = a).
Proof. eapply opens_mono; [apply opens_ret|]. by intros b x x' [-> ->]. Qed.

Lemma looks_throw {A} e (P : A -> X -> Prop) : looks (throw e : M A) P.
Proof. apply opens_throw. Qed.

Lemma looks_ask_res {A} (f : nat -> res A) : looks (ask_res f : M A) (fun a _ => exists t, f t = Ok a).
Proof. eapply opens_mono; [apply opens_ask_res|]. by intros a x x' [? ->]. Qed.

Lemma looks_map_err {A} f (m : M A) P : looks m P -> looks (map_errM f m) P.
Proof. apply opens_map_err. Qed.
End reads.

Create HintDb looks.
#[export] Hint Resolve looks_map_err looks_pool looks_read looks_lift looks_ret looks_throw looks_ask_res : looks.

Section direct.
Context {D L Ev : Type} {E : Env D} {C : Conn D SdpDb} {CL : ConnLaws D SdpDb} {N : Numerics} {SDK : StellarSdk}
  {PN : PhoneNumbers} {DS : DistributionAccountService} {HA : HorizonAccounts} {HE : HorizonErrors} {Co : Collation}
  {U : UuidGen}.
Implicit Types w : World D L Ev.
Abbreviation M := (M D L Ev).

Ltac look := unfold wrapM, no_rows_as, not_found_as; eauto 6 with looks.

(** ** Resolving *)

Lemma resolve_asset_looks ref :
  looks (AssetResolver_Resolve ref : M Asset) (fun a x => a ∈ assets x).
Proof.
  assert (Hget : forall id, looks (Assets_Get id : M Asset) (fun a x => a ∈ assets x)).
  { intros id. eapply looks_mono; [unfold Assets_Get; look|]. intros a x [cx H]. unfold lookup_asset in H.
    destruct (first_such _ _) eqn:Ef; [|done]. injection H as ->. by apply first_such_some in Ef as [? _]. }
  assert (Hcode : forall code issuer, looks (Assets_GetByCodeAndIssuer code issuer : M Asset) (fun a x => a ∈ assets x)).
  { intros code issuer. eapply looks_mono; [unfold Assets_GetByCodeAndIssuer; look|]. intros a x [cx H].
    destruct (first_such _ _) eqn:Ef; [|done]. injection H as ->. by apply first_such_some in Ef as [? _]. }
  unfold AssetResolver_Resolve. eapply looks_bind; [look|]. intros u.
  eapply looks_mono with (P := fun a x => a ∈ assets x); [|done].
  destruct (AR_ID ref); [look|]. destruct (AR_Type ref) as [type|]; [|look].
  destruct (type =? AssetTypeNative)%string; [look|]. destruct (type =? AssetTypeClassic)%string.
  - destruct (AR_Code ref), (AR_Issuer ref); look.
  - destruct (type =? AssetTypeContract)%string; [look|]. destruct (type =? AssetTypeFiat)%string; look.
Qed.

Lemma resolve_receiver_looks ref :
  looks (ReceiverResolver_Resolve ref : M Receiver) (fun r x => r ∈ receivers x).
Proof.
  unfold ReceiverResolver_Resolve. eapply looks_bind; [look|]. intros u.
  eapply looks_mono with (P := fun r x => r ∈ receivers x); [|done].
  destruct (RR_ID ref) as [id|].
  - apply looks_map_err. unfold Receiver_Get. eapply looks_bind; [look|]. intros [|r l]; [look|].
    eapply looks_mono; [look|]. intros b x -> [cx H].
    assert (Hin : r ∈ filter (fun r => (Rec_ID r =? id)%string = true) (receivers x)) by (rewrite <- H; left).
    by apply list_elem_of_filter in Hin as [_ ?].
  - destruct (_ <>? _)%string.
    + eapply looks_bind; [unfold GetByContacts; look|]. intros [|r [|? ?]]; [look| |look].
      eapply looks_mono; [look|]. intros b x -> [cx H].
      assert (Hin : r ∈ filter (fun r => has_contact [GetContactInfo ref] r = true) (receivers x)) by (rewrite <- H; left).
      by apply list_elem_of_filter in Hin as [_ ?].
    + destruct (RR_WalletAddress ref) as [address|]; [|look]. apply looks_map_err. unfold GetByWalletAddress.
      eapply looks_bind; [look|]. intros [|r [|? ?]]; [look| |look].
      eapply looks_mono; [look|]. intros b x -> [cx H].
      match type of H with [r] = ?l => assert (Hin : r ∈ l) by (rewrite <- H; left) end.
      by apply list_elem_of_filter in Hin as [_ ?].
Qed.

(** A wallet by its identifier, or by the account of a receiver's: one its user manages. *)
Definition wallet_of (ref : WalletReference) (wal : Wallet) (x : SdpDb) : Prop :=
  wal ∈ wallets x /\
  match WR_ID ref with
  | Some id => Wal_ID wal = id
  | None => Wal_UserManaged wal = true /\ Wal_Enabled wal = true
  end.

Lemma get_wallet_looks id :
  looks (Wallets_Get id : M Wallet) (fun wal x => wal ∈ wallets x /\ Wal_ID wal = id).
Proof.
  eapply looks_mono; [unfold Wallets_Get; look|]. intros wal x [cx H]. unfold lookup_wallet in H.
  destruct (first_such _ _) eqn:Ef; [|done]. injection H as ->. by apply first_such_some in Ef as [? ?%eqb_true].
Qed.

Lemma account_looks address :
  looks (GetByStellarAccountAndMemo address "" None : M _) (fun '(_, wal) x => wal ∈ wallets x).
Proof.
  eapply looks_mono; [unfold GetByStellarAccountAndMemo; look|]. intros [rw wal] x [cx H].
  destruct (by_account_and_memo _ _ _ _) eqn:Ef; [|done]. injection H as ->.
  unfold by_account_and_memo in Ef. apply head_Some_elem_of in Ef. unfold select_wallets in Ef.
  apply list_elem_of_filter in Ef as [_ Hin]. apply list_elem_of_omap in Hin as (rw' & _ & Hj). unfold join_wallet in Hj.
  apply fmap_Some in Hj as (wal' & Hl & [= -> ->]). unfold lookup_wallet in Hl. by apply first_such_some in Hl as [? _].
Qed.

Lemma resolve_wallet_looks ref : looks (WalletResolver_Resolve ref : M Wallet) (wallet_of ref).
Proof.
  unfold WalletResolver_Resolve. eapply looks_bind; [look|]. intros u.
  eapply looks_mono with (P := wallet_of ref); [|done]. unfold wallet_of. destruct (WR_ID ref) as [id|].
  - apply looks_map_err, get_wallet_looks.
  - destruct (WR_Address ref) as [address|]; [|look]. eapply looks_bind; [apply looks_map_err, account_looks|].
    intros [rw wal]. destruct (negb _ || negb _)%bool eqn:Hb; [look|]. apply orb_false_iff in Hb as [H1 H2].
    apply negb_false_iff in H1, H2. eapply looks_mono; [look|]. by intros b x ->.
Qed.

(** ** The wallet of the receiver *)

(** The asset is one of the wallet's, unless its user manages it. *)
Definition supports (wal : Wallet) (asset : Asset) (x : SdpDb) : Prop :=
  Wal_UserManaged wal = true \/
  exists a, (Wal_ID wal, Asset_ID a) ∈ wallets_assets x /\ a ∈ assets x /\ Asset_Equals a asset = true.

Lemma compatible_looks asset wal :
  looks (validateAssetWalletCompatibility asset wal : M unit) (fun _ => supports wal asset).
Proof.
  unfold validateAssetWalletCompatibility, supports. destruct (Wal_UserManaged wal).
  { eapply looks_mono; [look|]. intros ? x _. by left. }
  eapply looks_bind; [unfold Wallets_GetAssets; look|]. intros l. eapply looks_mono; [look|].
  intros u x Hg [cx H]. injection H as <-. right. apply guard_err_ok, negb_false_iff, existsb_exists in Hg as (a & Hin & He).
  apply list_elem_of_In in Hin. rewrite sort_with_perm in Hin. apply list_elem_of_omap in Hin as ([w' aid] & Hin & Hl).
  destruct (String.eqb_spec w' (Wal_ID wal)) as [->|]; [|done]. exists a. unfold lookup_asset in Hl.
  apply first_such_some in Hl as [Ha Hid%eqb_true]. by rewrite Hid.
Qed.

(** The wallet of the receiver that is paid: one there is, at the address that is given,
    or a new one, ready for its invitation, where the receiver can be verified and its
    wallet is not one its user manages. *)
Record receiver_wallet_given (receiverID walletID : string) (walletAddress : option string) (rw : ReceiverWallet)
    (x y : SdpDb) : Prop := {
  given_receiver : RW_ReceiverID rw = receiverID;
  given_wallet : RW_WalletID rw = walletID;
  given_there : rw ∈ receiver_wallets y;
  given_as :
    (y = x /\ (default "" walletAddress <> "" -> RW_StellarAddress rw = walletAddress)) \/
    (y = x <| receiver_wallets := receiver_wallets x ++ [rw] |> /\
     (forall rw', rw' ∈ receiver_wallets x -> RW_ReceiverID rw' = receiverID -> RW_WalletID rw' <> walletID) /\
     RW_Status rw = ReadyReceiversWalletStatus /\ RW_StellarAddress rw = None /\
     exists wal v, wal ∈ wallets x /\ Wal_ID wal = walletID /\ Wal_UserManaged wal = false /\
       v ∈ receiver_verifications x /\ RV_ReceiverID v = receiverID) }.

(** The row made for the receiver, after it is made ready. *)
Definition ready_row (ctx1 ctx2 : StmtCtx) (id receiverID walletID : string) : ReceiverWallet :=
  refresh_receiver_wallet ctx2 (set_wallet_update ready_update ctx2 (new_receiver_wallet ctx1 id receiverID walletID)).

Lemma new_wallet_opens receiverID walletID :
  opens (let! id := wrapM "creating receiver wallet" (GetOrInsertReceiverWallet receiverID walletID) in
         wrapM "updating receiver wallet status to READY" (RW_Update id ready_update) ;;!
         let! (rw, _) := wrapM "getting created receiver wallet" (RW_GetByID id) in
         mret_ rw : M ReceiverWallet)
    (fun rw x y => exists ctx1 ctx2 id, rw = ready_row ctx1 ctx2 id receiverID walletID /\
       y = x <| receiver_wallets := receiver_wallets x ++ [rw] |>).
Proof.
  eapply opens_bind_with; [apply opens_wrap, opens_wrap, opens_stmt|]. intros id.
  eapply opens_bind_with; [apply opens_wrap, RW_Update_opens|]. intros u.
  eapply opens_bind_with; [unfold RW_GetByID; apply opens_wrap, opens_map_err, opens_GetContext|]. intros [rw wal].
  eapply opens_mono; [apply opens_ret|]. intros b y x' [-> ->] y2 (ctx3 & [= Hhd ->]) y1 (ctx2 & rows & Hu) x (ctx1 & Hins).
  apply check_receiver_wallets_ok in Hins as (-> & -> & [_ [Hnd _]] & _).
  apply UpdateReceiverWallets_ok in Hu as (_ & -> & _ & _); [|apply set_wallet_update_id].
  set (id := uuid_generate ctx1 _) in *. exists ctx1, ctx2, id.
  set (row := new_receiver_wallet ctx1 id receiverID walletID) in *.
  change (NoDup (map RW_ID (receiver_wallets x ++ [row]))) in Hnd.
  assert (Hold : forall rw', rw' ∈ receiver_wallets x -> RW_ID rw' <> id).
  { intros rw' Hin Heq. rewrite map_app in Hnd. apply NoDup_app in Hnd as (_ & Hno & _).
    apply (Hno id); [|left]. rewrite <- Heq. by apply list_elem_of_fmap_2. }
  assert (Hrows : update_where (fun rw => (RW_ID rw =? id)%string)
      (fun rw => refresh_receiver_wallet ctx2 (set_wallet_update ready_update ctx2 rw)) (receiver_wallets x ++ [row])
    = receiver_wallets x ++ [ready_row ctx1 ctx2 id receiverID walletID]).
  { rewrite update_where_app, update_where_none.
    - cbn. by rewrite String.eqb_refl.
    - intros rw' Hin. by apply String.eqb_neq, Hold. }
  assert (Hy : forall z, z <| receiver_wallets := receiver_wallets x ++ [row] |>
     <| receiver_wallets := update_where (fun rw => (RW_ID rw =? id)%string)
      (fun rw => refresh_receiver_wallet ctx2 (set_wallet_update ready_update ctx2 rw)) (receiver_wallets x ++ [row]) |>
    = z <| receiver_wallets := receiver_wallets x ++ [ready_row ctx1 ctx2 id receiverID walletID] |>).
  { intros z. by rewrite Hrows. }
  cbn beta in Hhd |- *. change (receiver_wallets (x <| receiver_wallets := ?l |>)) with l in *. rewrite Hy in *.
  assert (rw = ready_row ctx1 ctx2 id receiverID walletID) as ->; [|done].
  apply head_Some_elem_of, list_elem_of_filter in Hhd as [Hid Hin].
  apply list_elem_of_omap in Hin as (rw' & Hin & Hj). unfold join_wallet in Hj. apply fmap_Some in Hj as (? & _ & [= -> ->]).
  apply eqb_true in Hid. cbn [receiver_wallets fst] in *. apply elem_of_app in Hin as [Hin|Hin]; [by apply Hold in Hin|].
  by apply list_elem_of_singleton in Hin.
Qed.

Lemma getReceiverWallet_opens receiverID walletID walletAddress :
  opens (getReceiverWallet receiverID walletID walletAddress : M ReceiverWallet)
    (fun rw x y => receiver_wallet_given receiverID walletID walletAddress rw x y).
Proof.
  unfold getReceiverWallet. eapply opens_look.
  { unfold GetByReceiverIDsAndWalletID. apply looks_map_err, looks_map_err, looks_read. }
  intros rows. destruct rows as [|rw rows].
  - eapply opens_look; [apply looks_map_err, get_wallet_looks|]. intros wal.
    destruct (Wal_UserManaged wal) eqn:Hum; [apply opens_throw|].
    eapply opens_look; [unfold GetAllByReceiverID; apply looks_map_err, looks_map_err, looks_read|].
    intros vs. destruct vs as [|v vs]; [apply opens_throw|].
    eapply opens_mono; [apply new_wallet_opens|].
    intros rw x y (ctx1 & ctx2 & id & -> & ->) [cx Hv] [Hwal Hid] [cx' Hnone]. split; [done..| |].
    + apply elem_of_app. right. left.
    + right. split; [done|]. split; [|split; [done|split; [done|]]].
      * intros rw' Hin Hr Hw. symmetry in Hnone. revert Hin. apply (filter_nil_not_elem_of _ _ _ Hnone).
        apply andb_true_iff. split; [apply slices_Contains_spec; rewrite Hr; left|by apply eqb_true].
      * assert (Hin : v ∈ v :: vs) by left. rewrite Hv in Hin. apply list_elem_of_filter in Hin as [Hr%eqb_true Hin].
        by exists wal, v.
  - assert (Hin : rw ∈ rw :: rows) by left.
    destruct (_ && _) eqn:Ha; [apply opens_throw|]. eapply opens_mono; [apply opens_ret|].
    intros b x y [-> ->] [cx Hf]. rewrite Hf in Hin. apply list_elem_of_filter in Hin as [[Hr Hw]%andb_true_iff Hin].
    apply slices_Contains_spec, list_elem_of_singleton in Hr. apply eqb_true in Hw. split; try done. left. split; [done|].
    intros Hne. apply andb_false_iff in Ha as [Ha|Ha]; apply negb_false_iff, String.eqb_eq in Ha; [done|].
    destruct walletAddress as [a|]; [|done]. cbn in Ha, Hne. destruct (RW_StellarAddress rw); cbn in Ha; congruence.
Qed.

(** ** The balance *)

(** What payments that are not settled yet will take of an asset. *)
Definition committed (asset : Asset) (x : SdpDb) : Q :=
  foldl (fun total v => Qplus total (Pay_Amount (pv_row v) # units)) 0%Q
    (filter (fun v => Asset_Equals (pv_Asset v) asset = true)
       (select_payments (fun v => slices_Contains PaymentInProgressStatuses (Pay_Status (pv_row v))) x)).

Lemma pending_is_committed {NL : NumericLaws} asset l q q' :
  Qeq q q' ->
  Qeq (foldl (add_pending asset) q (map removeEmptyDisbursementForDirect l))
    (foldl (fun total v => Qplus total (Pay_Amount (pv_row v) # units)) q'
       (filter (fun v => Asset_Equals (pv_Asset v) asset = true) l)).
Proof.
  revert q q'. induction l as [|v l IH]; intros q q' Hq; [done|]. cbn [map foldl].
  assert (Hv : pv_row (removeEmptyDisbursementForDirect v) = pv_row v /\
               pv_Asset (removeEmptyDisbursementForDirect v) = pv_Asset v).
  { unfold removeEmptyDisbursementForDirect. by destruct (_ =? _)%string. }
  destruct Hv as [Hr Ha]. unfold add_pending at 2. rewrite Hr, Ha, filter_cons.
  destruct (decide (Asset_Equals (pv_Asset v) asset = true)) as [He|He].
  - rewrite He. destruct (decimal_of_column (Pay_Amount (pv_row v))) as (n & -> & Hn). cbn [foldl]. apply IH.
    by rewrite Hq, Hn.
  - apply not_true_is_false in He. rewrite He. by apply IH.
Qed.

(** The account of the distribution can pay: it trusts the asset, it is activated, and
    its balance covers the amount besides what is committed. *)
Record funded (account : TransactionAccount) (asset : Asset) (amount : string) (x : SdpDb) : Prop := {
  funded_trustline : IsStellar account = true -> Asset_IsNative asset = true \/
    exists t balances b, AccountBalances t (Address account) = Ok balances /\ b ∈ balances /\
      HB_Type b <> AssetTypeNative /\ HB_Code b = Code asset /\ HB_Issuer b = Issuer asset;
  funded_active : IsCircle account = true -> TA_Status account <> AccountStatusPendingUserActivation;
  funded_balance : exists requested available t, decimal_NewFromString amount = Ok requested /\
    GetBalance t account asset = Ok available /\ Qle (Qplus requested (committed asset x)) available }.

Lemma trustline_looks account asset :
  looks (checkTrustlineExists account asset : M bool) (fun b _ => b = true -> Asset_IsNative asset = true \/
    exists t balances b, AccountBalances t (Address account) = Ok balances /\ b ∈ balances /\
      HB_Type b <> AssetTypeNative /\ HB_Code b = Code asset /\ HB_Issuer b = Issuer asset).
Proof.
  unfold checkTrustlineExists. destruct (Asset_IsNative asset).
  { eapply looks_mono; [look|]. intros b _ _ _. by left. }
  eapply looks_bind; [look|]. intros balances. eapply looks_mono; [look|].
  intros b x -> [t Ht] He. right. apply existsb_exists in He as (b & Hin & He).
  apply andb_true_iff in He as [[H1 H2%eqb_true]%andb_true_iff H3%eqb_true].
  apply list_elem_of_In in Hin. exists t, balances, b. split_and!; try done.
  by apply negb_true_iff, String.eqb_neq in H1.
Qed.

Lemma balance_looks {NL : NumericLaws} account asset amount :
  looks (validateBalance account asset amount : M unit) (fun _ => funded account asset amount).
Proof.
  unfold validateBalance. eapply looks_bind; [look|]. intros requested.
  eapply looks_bind.
  { instantiate (1 := fun _ _ => IsStellar account = true -> Asset_IsNative asset = true \/
      exists t balances b, AccountBalances t (Address account) = Ok balances /\ b ∈ balances /\
        HB_Type b <> AssetTypeNative /\ HB_Code b = Code asset /\ HB_Issuer b = Issuer asset).
    destruct (IsStellar account); [|eapply looks_mono; [look|]; done].
    eapply looks_bind; [apply looks_map_err, trustline_looks|]. intros b. eapply looks_mono; [look|].
    intros u x Hg%guard_err_ok%negb_false_iff Hb _. by apply Hb. }
  intros u1. eapply looks_bind.
  { instantiate (1 := fun _ _ => IsCircle account = true -> TA_Status account <> AccountStatusPendingUserActivation).
    destruct (IsCircle account); [|eapply looks_mono; [look|]; done].
    eapply looks_mono; [look|]. intros u x Hg%guard_err_ok _. by apply String.eqb_neq. }
  intros u2. eapply looks_bind; [look|]. intros available.
  eapply looks_bind.
  { apply looks_map_err. unfold calculatePendingAmountForAsset. eapply (looks_bind _ _ _ (fun q x => Qeq q (committed asset x))).
    - unfold GetAllByStatus. look.
    - intros l. eapply looks_mono; [look|]. intros q x -> [cx ->]. by apply pending_is_committed. }
  intros pending. eapply looks_mono; [look|].
  intros u x Hg%guard_err_ok Hp [t Hav] Hc Hs Hreq. split; [done..|]. exists requested, available, t. split_and!; [done..|].
  rewrite <- Hp. unfold Qlt_bool in Hg. by apply negb_false_iff, Qle_bool_iff in Hg.
Qed.

(** ** The transaction *)

Lemma insert_direct_opens insert userID :
  opens (CreateDirectPayment insert userID : M string) (fun id x x' =>
    exists ctx amount, numeric_in (PI_Amount insert) = Some amount /\
    let p := mkPayment id amount None ReadyPaymentStatus
        [mkPaymentHistory ReadyPaymentStatus (Some ("Payment submitted by user_id " +:+ userID)) (NOW ctx)]
        (PI_PaymentType insert) None (PI_AssetID insert) (PI_ReceiverID insert)
        (PI_ReceiverWalletID insert) (PI_ExternalPaymentID insert) None (NOW ctx) (NOW ctx) in
    x' = x <| payments := payments x ++ [p] |> /\ NoDup (map Pay_ID (payments x ++ [p]))).
Proof.
  unfold CreateDirectPayment. eapply opens_look; [look|]. intros u.
  eapply opens_mono; [apply opens_wrap, opens_stmt|]. intros id x x' [ctx H] _. unfold insert_payment in H.
  cbn [PI_Amount] in H. destruct (numeric_in _) as [amount|]; [|done].
  apply check_payments_ok in H as (Hid & -> & [_ Hnd]). exists ctx, amount. rewrite Hid. by split_and!.
Qed.

Lemma get_payment_looks id :
  looks (Payment_Get id : M PaymentView) (fun v x => pv_row v ∈ payments x /\ Pay_ID (pv_row v) = id).
Proof.
  unfold Payment_Get. eapply looks_bind; [look|]. intros [|v l]; [look|]. eapply looks_mono; [look|].
  intros b x -> [cx H]. assert (Hin : v ∈ v :: l) by left. rewrite H in Hin.
  apply list_elem_of_fmap in Hin as (v' & -> & Hin). apply list_elem_of_filter in Hin as [Hid%eqb_true Hin].
  apply list_elem_of_omap in Hin as (p & Hin & Hj). unfold join_payment in Hj.
  assert (Hp : pv_row v' = p) by (repeat case_match; by simplify_eq).
  unfold removeEmptyDisbursementForDirect. rewrite <- Hp in Hin. by destruct (_ =? _)%string.
Qed.

(** A direct payment, and the tables it is made from and leaves. *)
Record direct_payment (req : CreateDirectPaymentRequest) (account : TransactionAccount) (p : Payment)
    (x x' : SdpDb) : Prop := {
  direct_parts : exists asset receiver wal rw y,
    (asset ∈ assets x /\ receiver ∈ receivers x /\ wallet_of (DP_Wallet req) wal x) /\
    (Wal_Enabled wal = true /\ supports wal asset x) /\
    receiver_wallet_given (Rec_ID receiver) (Wal_ID wal) (WR_Address (DP_Wallet req)) rw x y /\
    RW_Status rw ∈ [ReadyReceiversWalletStatus; RegisteredReceiversWalletStatus] /\
    funded account asset (DP_Amount req) y /\
    x' = y <| payments := payments y ++ [p] |> /\
    (Pay_AssetID p, Pay_ReceiverID p, Pay_ReceiverWalletID p) = (Asset_ID asset, Rec_ID receiver, RW_ID rw);
  direct_amount : numeric_in (DP_Amount req) = Some (Pay_Amount p);
  direct_kind : (Pay_Status p, Pay_Type p, Pay_DisbursementID p, Pay_ExternalPaymentID p)
    = (ReadyPaymentStatus, PaymentTypeDirect, None, DP_ExternalPaymentID req) }.

Lemma create_opens {NL : NumericLaws} req userID account :
  opens (create_direct_payment req userID account : M PaymentView)
    (fun v x x' => direct_payment req account (pv_row v) x x').
Proof.
  unfold create_direct_payment. eapply opens_look; [apply resolve_asset_looks|]. intros asset.
  eapply opens_look; [apply resolve_receiver_looks|]. intros receiver.
  eapply opens_look; [apply resolve_wallet_looks|]. intros wal.
  destruct (Wal_Enabled wal) eqn:He; [|apply opens_throw]. cbn [negb].
  eapply opens_look; [apply compatible_looks|]. intros u1.
  eapply opens_bind_with; [apply opens_wrap, getReceiverWallet_opens|]. intros rw.
  destruct (slices_Contains _ (RW_Status rw)) eqn:Hs; [|apply opens_throw]. cbn [negb].
  eapply opens_look; [apply balance_looks|]. intros u2.
  eapply opens_bind_with; [apply opens_wrap, insert_direct_opens|]. intros id.
  eapply opens_mono; [apply looks_map_err, get_payment_looks|].
  intros v x3 x' [-> [Hin Hid]] y (ctx & amount & Ham & -> & Hnd) Hfund x Hrw Hsup Hwal Hrec Has.
  set (p := mkPayment id _ _ _ _ _ _ _ _ _ _ _ _ _) in *.
  assert (pv_row v = p) as ->.
  { change (pv_row v ∈ payments y ++ [p]) in Hin. pose proof (first_such_unique Pay_ID id _ (pv_row v) Hnd Hin Hid) as H1.
    rewrite (first_such_unique Pay_ID id _ p Hnd) in H1; [by injection H1|apply elem_of_app; right; left|done]. }
  split; [|done|done]. exists asset, receiver, wal, rw, y. by apply slices_Contains_spec in Hs.
Qed.

(** It writes to this database only, inside the transaction. *)
Lemma settle_same_snapshot w : same_snapshot (X := SdpDb) w (settle w).
Proof. unfold same_snapshot. by rewrite settle_tx. Qed.

Lemma pool_same_snapshot {A} (q : StmtCtx -> SdpDb -> res A) : respects (same_snapshot (X := SdpDb)) (pool_query q : M A).
Proof. intros w. unfold pool_query. destruct (env_fault _); apply settle_same_snapshot. Qed.

Lemma ask_same_snapshot {A} (f : nat -> res A) : respects (same_snapshot (X := SdpDb)) (ask_res f : M A).
Proof. intros w. apply settle_same_snapshot. Qed.

Ltac same_step :=
  first
    [ apply respects_bind; [apply same_snapshot_preorder| |intros ?]
    | apply respects_map_err | apply respects_wrap
    | apply (respects_ret _) | apply (respects_throw _) | apply (respects_lift _)
    | apply db_stmt_same_snapshot | apply pool_same_snapshot | apply ask_same_snapshot
    | match goal with |- respects _ (if ?b then _ else _) => destruct b end
    | match goal with |- respects _ (match ?x with _ => _ end) => destruct x end ].
Ltac same := repeat same_step.

Lemma resolve_asset_same ref : respects (same_snapshot (X := SdpDb)) (AssetResolver_Resolve ref : M Asset).
Proof. unfold AssetResolver_Resolve, not_found_as, no_rows_as, Assets_Get, Assets_GetByCodeAndIssuer. same. Qed.

Lemma resolve_receiver_same ref : respects (same_snapshot (X := SdpDb)) (ReceiverResolver_Resolve ref : M Receiver).
Proof. unfold ReceiverResolver_Resolve, not_found_as, Receiver_Get, GetByContacts, GetByWalletAddress. same. Qed.

Lemma resolve_wallet_same ref : respects (same_snapshot (X := SdpDb)) (WalletResolver_Resolve ref : M Wallet).
Proof. unfold WalletResolver_Resolve, not_found_as, Wallets_Get, GetByStellarAccountAndMemo. same. Qed.

Lemma receiver_wallet_same r wid a : respects (same_snapshot (X := SdpDb)) (getReceiverWallet r wid a : M ReceiverWallet).
Proof.
  unfold getReceiverWallet, GetByReceiverIDsAndWalletID, Wallets_Get, GetAllByReceiverID, GetOrInsertReceiverWallet,
    RW_Update, check_memo, RW_GetByID, no_rows_as, GetContext. same.
Qed.

Lemma create_same req userID account :
  respects (same_snapshot (X := SdpDb)) (create_direct_payment req userID account : M PaymentView).
Proof.
  unfold create_direct_payment, validateAssetWalletCompatibility, validateBalance, checkTrustlineExists,
    calculatePendingAmountForAsset, Wallets_GetAssets, GetAllByStatus, CreateDirectPayment, Payment_Get.
  repeat first [apply resolve_asset_same | apply resolve_receiver_same | apply resolve_wallet_same
    | apply receiver_wallet_same | same_step].
Qed.

(** C38: A direct payment that is created is of an asset the wallet supports, to a wallet
    that is enabled, for a receiver whose wallet is ready for payments (one there is, at
    the address of the request, or a new one for a receiver that can be verified), and
    what it takes, with all the payments that are not settled yet, is covered by the
    balance of the distribution account, which trusts the asset; nothing else changes.
    A request that is refused leaves the tables as they were, unless only the answer of
    the commit was lost. *)
Theorem direct_payment_is_safe {NL : NumericLaws} req userID account w r w'
    (Hrun : Service_CreateDirectPayment req userID account w = (r, w')) :
  match r with
  | Ok v => direct_payment req account (pv_row v) (sdp (settle w)) (sdp w')
  | Err _ => sdp w' = sdp (settle w) \/ exists p, direct_payment req account p (sdp (settle w)) (sdp w')
  end.
Proof.
  unfold Service_CreateDirectPayment, wrapM, map_errM in Hrun.
  destruct (RunInTransactionWithResult _ w) as [r0 w0] eqn:Hr.
  apply (RunInTransaction_outcome (X := SdpDb) _ _ _ _ _ (create_opens req userID account)) in Hr; [|apply create_same].
  destruct r0 as [v|e]; injection Hrun as <- <-; [exact Hr|].
  destruct Hr as [Hr|[v Hr]]; [by left|right; by exists (pv_row v)].
Qed.
End direct.

(** ** The validation of a request *)

Section validation.
Context {SDK : StellarSdk} {PN : PhoneNumbers} {N : Numerics}.

#[local] Arguments TrimSpace : simpl never.

Lemma given_keep p : given (keep_trimmed p) = given p.
Proof.
  unfold keep_trimmed. destruct (given p) eqn:Hg; [|done]. destruct p as [s|]; [|done]. unfold trimmed. cbn in *.
  by rewrite TrimSpace_idem.
Qed.

Lemma given_trim p : given (TrimSpace <$> p) = given p.
Proof. destruct p as [s|]; [|done]. cbn. by rewrite TrimSpace_idem. Qed.

Lemma given_trimmed p : given (Some (trimmed p)) = given p.
Proof. unfold trimmed. destruct p as [s|]; [|done]. cbn. by rewrite TrimSpace_idem. Qed.

Lemma keep_trimmed_text p : given p = true -> default "" (keep_trimmed p) = trimmed p.
Proof. unfold keep_trimmed. by intros ->. Qed.

(** A field the validator checks in its trimmed form, where it is given. *)
Lemma check_given_ok p ok e :
  (given p = true -> ok (trimmed p) = true) -> check_given (keep_trimmed p) ok e = Ok tt.
Proof.
  intros H. unfold check_given. rewrite given_keep. destruct (given p) eqn:Hg; [|done].
  by rewrite keep_trimmed_text, H.
Qed.

Lemma clean_if_given (p : option string) v v' P :
  (given p = true -> clean v' <-> P /\ clean v) ->
  clean (if given p then v' else v) <-> (given p = true -> P) /\ clean v.
Proof. destruct (given p); naive_solver. Qed.

Lemma asset_reference_ok asset v asset' v' :
  validateAssetReference asset v = (v', asset') -> clean v' -> DPA_ContractID asset = None ->
  clean v /\ AssetResolver_Validate (convertAssetReference asset') = Ok tt.
Proof.
  unfold validateAssetReference. set (v1 := Check_ _ _ _ v). set (v2 := Check_ _ _ _ v1).
  destruct (given (DPA_Type asset)) eqn:Ht.
  - set (v3 := Check_ _ _ _ v2). destruct (HasErrors v3) eqn:He.
    { intros [= <- <-] Hc. apply HasErrors_clean in Hc. congruence. }
    apply HasErrors_clean in He. unfold v3, v2, v1 in He. rewrite !clean_check in He.
    destruct He as (Hvalid & Hid & _ & Hclean). intros [= <- <-] Hc Hcontract. split; [done|].
    assert (Hid' : given (DPA_ID asset) = false) by (rewrite orb_false_r in Hid; by apply negb_true_iff in Hid).
    set (asset' := convertAssetReference _).
    change asset' with (mkAssetReference (DPA_ID asset) (Some (trimmed (DPA_Type asset))) (TrimSpace <$> DPA_Code asset)
      (TrimSpace <$> DPA_Issuer asset) (TrimSpace <$> DPA_ContractID asset)). clear asset'.
    unfold AssetResolver_Validate, references. cbn [AR_Type AR_ID List.filter].
    rewrite given_trimmed, Ht, Hid'. unfold AssetResolver_type. cbn [from_option id AR_Code AR_Issuer AR_ContractID].
    rewrite Hvalid. cbn [negb].
    unfold check_asset_type in Hc.
    destruct (_ =? AssetTypeClassic)%string.
    { destruct (given (DPA_Issuer asset)) eqn:Hi; rewrite !clean_check in Hc; [|naive_solver].
      rewrite !given_trim, Hcontract, Hi. by destruct Hc as (_ & _ & -> & _). }
    destruct (_ =? AssetTypeContract)%string.
    { rewrite clean_check, Hcontract in Hc. by destruct Hc. }
    destruct (_ =? AssetTypeFiat)%string; [|done]. rewrite clean_check in Hc. rewrite given_trim. by destruct Hc as [-> _].
  - intros [= <- <-] Hc _. unfold v2, v1 in Hc. rewrite !clean_check in Hc. destruct Hc as (_ & Hid & Hclean).
    split; [done|]. unfold AssetResolver_Validate, references. cbn. rewrite Ht. rewrite orb_false_r in Hid. by rewrite Hid.
Qed.

Lemma receiver_reference_ok receiver v receiver' v' :
  validateReceiverReference receiver v = (v', receiver') -> clean v' ->
  clean v /\ ReceiverResolver_Validate (convertReceiverReference receiver') = Ok tt.
Proof.
  unfold validateReceiverReference. intros [= <- <-] Hc.
  rewrite (clean_if_given _ _ _ _ (fun _ => clean_check _ _ _ _)) in Hc. destruct Hc as [Hw Hc].
  rewrite (clean_if_given _ _ _ _ (fun _ => clean_error _ _ _ _)) in Hc. destruct Hc as [Hp Hc].
  rewrite (clean_if_given _ _ _ _ (fun _ => clean_error _ _ _ _)) in Hc. destruct Hc as [He Hc].
  rewrite !clean_check in Hc. destruct Hc as (Hone & _ & Hclean). split; [done|].
  unfold ReceiverResolver_Validate, convertReceiverReference. cbn [RR_ID RR_Email RR_PhoneNumber RR_WalletAddress
    DPR_ID DPR_Email DPR_PhoneNumber DPR_WalletAddress].
  rewrite !check_given_ok; [|done|intros Hg; by rewrite (Hp Hg)|intros Hg; by rewrite (He Hg)]. cbn.
  unfold exactly_one, references in *. cbn [List.filter] in *. rewrite !given_keep.
  apply Nat.eqb_eq in Hone. repeat case_match; cbn in *; done.
Qed.

Lemma wallet_reference_ok wallet v wallet' v' :
  validateWalletReference wallet v = (v', wallet') -> clean v' ->
  clean v /\ WalletResolver_Validate (convertWalletReference wallet') = Ok tt.
Proof.
  unfold validateWalletReference. intros [= <- <-] Hc.
  rewrite (clean_if_given _ _ _ _ (fun _ => clean_check _ _ _ _)) in Hc. destruct Hc as [Ha Hc].
  rewrite !clean_check in Hc. destruct Hc as (H1 & H2 & Hclean). split; [done|].
  unfold WalletResolver_Validate, convertWalletReference. cbn [WR_ID WR_Address DPW_ID DPW_Address].
  rewrite check_given_ok by done. cbn. unfold exactly_one, references. cbn [List.filter]. rewrite !given_keep.
  by destruct (given (DPW_ID wallet)), (given (DPW_Address wallet)).
Qed.

(** A request that passes the validation of the handler is not refused by the checks
    of the service on its references, whatever the white space around its fields, where
    it names no contract. *)
Theorem validated_references_are_resolved reqBody v req
    (Hvalid : ValidateCreateDirectPaymentRequest reqBody = (v, Some req))
    (Hcontract : DPA_ContractID (PDP_Asset reqBody) = None) :
  ValidateAmount (PDP_Amount req) = Ok tt /\
  AssetResolver_Validate (DP_Asset (serviceReq req)) = Ok tt /\
  ReceiverResolver_Validate (DP_Receiver (serviceReq req)) = Ok tt /\
  WalletResolver_Validate (DP_Wallet (serviceReq req)) = Ok tt.
Proof.
  unfold ValidateCreateDirectPaymentRequest in Hvalid.
  destruct (validateAssetReference _ _) as [v1 asset] eqn:Ea.
  destruct (validateReceiverReference _ _) as [v2 receiver] eqn:Er.
  destruct (validateWalletReference _ _) as [v3 wallet] eqn:Ew.
  destruct (HasErrors v3) eqn:He; [done|]. injection Hvalid as <- <-. apply HasErrors_clean in He.
  destruct (wallet_reference_ok _ _ _ _ Ew He) as [Hc ?]. destruct (receiver_reference_ok _ _ _ _ Er Hc) as [Hc2 ?].
  destruct (asset_reference_ok _ _ _ _ Ea Hc2 Hcontract) as [Hc3 ?].
  split_and!; try done. cbn. destruct (TrimSpace (PDP_Amount reqBody) <>? "")%string; [by apply clean_error in Hc3 as [? _]|by apply clean_check in Hc3 as [? _]].
Qed.
End validation.

(** ** What modelling showed *)

(** A receiver without a wallet that can be paid: the type of the error is a pointer, of
    which the cases of the handler know only the value, so that what was to be a bad
    request is an internal error. *)
Fact missing_receiver_wallet_is_internal receiverID walletID :
  let e := EWrap "creating direct payment" (EWrap "getting receiver wallet"
    (ReceiverWalletNotFoundError receiverID walletID)) in
  direct_payment_error e = InternalError "creating payment" (Some e).
Proof. reflexivity. Qed.

(** An identifier of white space only is none for the checks, but what is looked up. *)
Fact blank_identifier_is_looked_up {D L Ev} {E : Env D} {C : Conn D SdpDb} {SDK : StellarSdk} {N : Numerics} {PN : PhoneNumbers}
    (w : World D L Ev) v :
  HasErrors v = false ->
  let '(v', asset) := validateAssetReference (mkDirectPaymentAsset (Some " ") (Some AssetTypeNative) None None None) v in
  v' = v /\
  AssetResolver_Resolve (convertAssetReference asset) w
    = not_found_as (NotFoundError EntityTypeAsset " " "") "getting asset by ID" (Assets_Get " ") w.
Proof.
  intros He. set (blank := mkDirectPaymentAsset _ _ _ _ _).
  assert (Hv : validateAssetReference blank v
    = if HasErrors v then (v, blank) else (v, trim_asset (blank <| DPA_Type := Some AssetTypeNative |>))) by reflexivity.
  by rewrite Hv, He.
Qed.

(** ** Witnesses *)

Module Direct.
Export Platform.

#[export] Instance phones : PhoneNumbers := {| phonenumbers_valid _ := true |}.
#[export] Instance collation : Collation := {| text_le a b := (a <=? b)%string |}.
#[export] Instance horizon : HorizonAccounts := {| AccountBalances _ _ := Ok [] |}.
#[export] Instance horizon_errors : HorizonErrors := {| horizon_StatusCode _ := None |}.
(** 90 XLM on every account. *)
#[export] Instance accounts : DistributionAccountService :=
  {| GetBalances _ _ := Ok {[ ("XLM", "") := inject_Z 90 ]}; GetBalance _ _ _ := Ok (inject_Z 90) |}.

(** A receiver who can be verified and has no wallet yet; 5 XLM are to be paid to another. *)
Definition receiver : Receiver := mkReceiver "r3" (Some "r3@stellar.org") None (Some "x3") None None 0 0.
Definition verification : ReceiverVerification :=
  mkReceiverVerification "r3" VerificationTypePin "hash" 0 None None None None None 0 0.
Definition before : World Dbs unit unit :=
  world ((sdp_db false [disbursement "d1" StartedDisbursementStatus] [pay "p1" "d1" ReadyPaymentStatus 50000000 registered])
    <| receivers := [receiver] |> <| receiver_verifications := [verification] |>) [].

Definition body : PostDirectPaymentRequest :=
  mkPostDirectPaymentRequest (" " +:+ text 850000000) (mkDirectPaymentAsset None (Some " native ") None None None)
    (mkDirectPaymentReceiver None (Some " r3@stellar.org") None None) (mkDirectPaymentWallet (Some "w1") None) (Some "ext").
Definition direct (units : Z) : CreateDirectPaymentRequest :=
  mkCreateDirectPaymentRequest (text units) (mkAssetReference None (Some "native") None None None)
    (mkReceiverReference None (Some "r3@stellar.org") None None) (mkWalletReference (Some "w1") None) (Some "ext").
End Direct.
Import Direct.

(** 85 XLM besides the 5 are covered, and one unit more is not. *)
Lemma direct_payment_is_safe_witness :
  (exists p, direct_payment (direct 850000000) account p (sdp (settle before))
     (sdp (snd (Service_CreateDirectPayment (direct 850000000) "user" account before)))) /\
  sdp (snd (Service_CreateDirectPayment (direct 850000001) "user" account before)) = sdp (settle before).
Proof.
  split; [|vm_compute; reflexivity].
  destruct (Service_CreateDirectPayment (direct 850000000) "user" account before) as [r w'] eqn:Hrun.
  pose proof (direct_payment_is_safe (E := env) (C := sdp_conn) (direct 850000000) "user" account before r w' Hrun) as H.
  destruct r as [v|e]; [exists (pv_row v); exact H|].
  assert (Hok : is_ok (fst (Service_CreateDirectPayment (direct 850000000) "user" account before)) = true)
    by (vm_compute; reflexivity).
  rewrite Hrun in Hok. discriminate Hok.
Defined.

Lemma validated_references_are_resolved_witness :
  exists req, AssetResolver_Validate (DP_Asset (serviceReq req)) = Ok tt /\ PDP_Amount req = text 850000000.
Proof.
  destruct (ValidateCreateDirectPaymentRequest body) as [v [req|]] eqn:Hv.
  - exists req. split; [by apply (validated_references_are_resolved body v req Hv)|].
    assert (Hok : PDP_Amount <$> snd (ValidateCreateDirectPaymentRequest body) = Some (text 850000000))
      by (vm_compute; reflexivity).
    rewrite Hv in Hok. by injection Hok.
  - assert (Hok : is_Some (snd (ValidateCreateDirectPaymentRequest body))) by (vm_compute; eauto).
    rewrite Hv in Hok. by destruct Hok.
Defined.
