(* ===== verification/EmbeddedService.v ===== *)
(** Embedded wallets and sponsored transactions: [embedded_wallet_service.go] of
    [internal/services], with the requests of [wallet_creation_handler.go],
    [sponsored_transaction_handler.go] and [embedded_wallet_profile_handler.go] of
    [internal/serve/httphandler]. *)

From S2P Require Import Prelude GoStrings Errors StateMachine Effects Schema TxStore Handlers Tables SdpDb.
From S2P Require Import PaymentStore ReceiverStore Validators DisbursementHandler Tenant CircleClient DirectPayments EmbeddedStore.

Local Open Scope string_scope.
Local Open Scope list_scope.

(** ** Errors *)

Definition ErrCreateWalletInvalidStatus : err := ESentinel "wallet status is not pending for token".
Definition ErrInvalidToken : err := ESentinel "token does not exist".
Definition ErrMissingToken : err := ESentinel "token is required".
Definition ErrMissingPublicKey : err := ESentinel "public key is required".
Definition ErrMissingCredentialID : err := ESentinel "credential ID is required".
Definition ErrInvalidCredentialID : err := ESentinel "credential ID does not exist".
Definition ErrCredentialIDAlreadyExists : err := ESentinel "credential ID already exists".
Definition ErrMissingContractAddress : err := ESentinel "contract address is required".
Definition ErrMissingAccount : err := ESentinel "account is required".
Definition ErrMissingOperationXDR : err := ESentinel "operation XDR is required".

Definition MinBaseFee : Z := 100.

(** Of the SDK: the decoding of an operation from base64, the contract a call is of,
    and the contract of an asset on a network. *)
Class OperationXdr {TB : TxnBuild} := {
  xdr_SafeUnmarshalBase64 : string -> res (HostFunction xdr_blob * list (AuthCredentials * xdr_blob));
  called_contract : xdr_blob -> res string;
  xdr_NewCreditAsset : string -> string -> res Handlers.Asset;
  xdr_ContractID : Handlers.Asset -> string -> res string }.

(** [if errors.Is(err, nf) { return e }]. *)
Definition not_found_to {A D L Ev} (e : err) (p : string) (m : M D L Ev A) : M D L Ev A :=
  map_errM (fun e' => if errors_Is_err e' ErrRecordNotFound then e else EWrap p e') m.

Section service.
Context {D L Ev : Type} {E : Env D} {C : Conn D SdpDb} {SDK : StellarSdk} {TB : TxnBuild} {TO : TxnBuildOps}
  {OX : OperationXdr} {UU : GoogleUuid}.
Context (wasmHash : string).
Abbreviation M := (M D L Ev).
Abbreviation in_tx := (RunInTransactionWithResult (X := SdpDb)).

(** ** Wallets *)

Definition CreateInvitationToken : M string :=
  let! token := ask uuid_NewString in
  in_tx (
    let! embeddedWallet := wrapM "creating embedded wallet invitation token"
      (EW_Insert (mkEmbeddedWalletInsert token wasmHash false PendingWalletStatus)) in
    mret_ (EW_Token embeddedWallet)).

(** The credential may be that of the wallet itself. *)
Definition check_credential (embeddedWallet : EmbeddedWallet) (credentialID : string) : M unit :=
  let! found := try_ (GetByCredentialID credentialID) in
  match found with
  | Ok credentialWallet =>
    lift (guard_err (EW_Token credentialWallet <>? EW_Token embeddedWallet) ErrCredentialIDAlreadyExists)
  | Err e => if errors_Is_err e ErrRecordNotFound then mret_ tt
             else throw (EWrap "checking credential ID availability" e)
  end.

(** The body of the transaction. *)
Definition create_wallet (token publicKey credentialID : string) : M unit :=
  let! embeddedWallet := not_found_to ErrInvalidToken ("getting wallet by token " +:+ token) (GetByToken token) in
  if EW_WalletStatus embeddedWallet <>? PendingWalletStatus then throw ErrCreateWalletInvalidStatus
  else
    check_credential embeddedWallet credentialID ;;!
    map_errM (fun e => if errors_Is_err e ErrEmbeddedWalletCredentialIDAlreadyExists then ErrCredentialIDAlreadyExists
                       else EWrap ("updating embedded wallet " +:+ EW_Token embeddedWallet) e)
      (EW_Update (EW_Token embeddedWallet)
         (no_wallet_update <| EWU_WasmHash := wasmHash |> <| EWU_CredentialID := credentialID |>
                           <| EWU_PublicKey := publicKey |>)).

Definition CreateWallet (token publicKey credentialID : string) : M unit :=
  if token =? "" then throw ErrMissingToken
  else if publicKey =? "" then throw ErrMissingPublicKey
  else if credentialID =? "" then throw ErrMissingCredentialID
  else RunInTransaction (X := SdpDb) (create_wallet token publicKey credentialID).

Definition GetWalletByCredentialID (credentialID : string) : M EmbeddedWallet :=
  if credentialID =? "" then throw ErrMissingCredentialID
  else in_tx (not_found_to ErrInvalidCredentialID ("getting wallet by credential ID " +:+ credentialID)
                (GetByCredentialID credentialID)).

Definition getReceiverWalletByContractAddress (contractAddress : string) : M ReceiverWallet :=
  let contractAddress := TrimSpace contractAddress in
  if contractAddress =? "" then throw ErrMissingContractAddress
  else in_tx (wrapM ("getting receiver wallet by contract address " +:+ contractAddress)
                (EW_GetReceiverWallet contractAddress)).

(** No asset where no payment is in progress. *)
Definition GetPendingDisbursementAsset (contractAddress : string) : M (option Asset) :=
  let contractAddress := TrimSpace contractAddress in
  if contractAddress =? "" then throw ErrMissingContractAddress
  else in_tx (
    let! found := try_ (EW_GetPendingDisbursementAsset contractAddress) in
    match found with
    | Ok asset => mret_ (Some asset)
    | Err e => if errors_Is_err e ErrRecordNotFound then mret_ None
               else throw (EWrap ("getting pending disbursement asset for " +:+ contractAddress) e)
    end).

Definition IsVerificationPending (contractAddress : string) : M bool :=
  if TrimSpace contractAddress =? "" then throw ErrMissingContractAddress
  else
    let! receiverWallet := getReceiverWalletByContractAddress (TrimSpace contractAddress) in
    mret_ (RW_Status receiverWallet =? ReadyReceiversWalletStatus).

Definition GetReceiverContact (contractAddress : string) : M Receiver :=
  if TrimSpace contractAddress =? "" then throw ErrMissingContractAddress
  else
    let! receiverWallet := getReceiverWalletByContractAddress (TrimSpace contractAddress) in
    wrapM ("getting receiver " +:+ RW_ReceiverID receiverWallet) (Receiver_Get (RW_ReceiverID receiverWallet)).

(** ** Sponsored transactions *)

Definition simulation_params (distributionAccount : string) (f : HostFunction xdr_blob)
    (auth : list (AuthCredentials * xdr_blob)) : TransactionParams :=
  mkParams distributionAccount 0 [OpInvokeHostFunction distributionAccount f auth None] None MinBaseFee 300 None false.

Definition invokes_contract (f : HostFunction xdr_blob) : res xdr_blob :=
  match f with
  | InvokeContract (Some args) => Ok args
  | InvokeContract None => Err (ENew "invoke contract operation is missing contract details")
  | _ => Err (ENew "operation is not an invoke contract host function")
  end.

Definition distribution_address (ctx : Context_) : res string :=
  let? tenant := wrap "getting tenant from context" (GetTenantFromContext ctx) in
  let address := TrimSpace (default "" (DistributionAccountAddress tenant)) in
  if address =? "" then Err (ENew "distribution account address is missing for tenant")
  else if negb (IsValidEd25519PublicKey address)
  then Err (ENew "distribution account address is not a valid ed25519 public key")
  else Ok address.

Definition simulateSponsoredTransaction (ctx : Context_) (operationXDR : string) : M unit :=
  let! distributionAccount := lift (distribution_address ctx) in
  let! (f, auth) := wrapM "decoding operation XDR" (lift (xdr_SafeUnmarshalBase64 operationXDR)) in
  lift (invokes_contract f) ;;!
  let! tx := wrapM "building simulation transaction"
    (lift (NewTransaction (simulation_params distributionAccount f auth))) in
  let! txEnvelope := wrapM "encoding simulation transaction" (lift (InnerTx_Base64 tx)) in
  ask_res (fun t => match SimulateTransaction t txEnvelope with Ok _ => Ok tt | Err s => Err (ESimulation s) end).

Definition SponsorTransaction (ctx : Context_) (account operationXDR : string) : M string :=
  let account := TrimSpace account in
  if account =? "" then throw ErrMissingAccount
  else if operationXDR =? "" then throw ErrMissingOperationXDR
  else
    wrapM "simulating sponsored transaction" (simulateSponsoredTransaction ctx operationXDR) ;;!
    in_tx (
      let! id := ask uuid_NewString in
      let! sponsoredTx := wrapM "creating sponsored transaction"
        (ST_Insert (mkSponsoredTransactionInsert id account operationXDR PendingSponsoredTransactionStatus)) in
      mret_ (ST_ID sponsoredTx)).

Definition GetTransactionStatus (account transactionID : string) : M SponsoredTransaction :=
  let account := TrimSpace account in
  if account =? "" then throw ErrMissingAccount
  else if transactionID =? "" then throw (ENew "transaction ID is required")
  else in_tx (wrapM ("getting sponsored transaction by ID " +:+ transactionID)
                (ST_GetByIDAndAccount transactionID account)).
End service.

(** ** Keys of passkeys: points of the curve P-256, which [crypto/ecdh] checks *)

Definition p256_p : Z := 2 ^ 256 - 2 ^ 224 + 2 ^ 192 + 2 ^ 96 - 1.
Definition p256_b : Z := 0x5ac635d8aa3a93e7b3ebbd55769886bc651d06b0cc53b0f63bce3c3e27d2604b.

Definition big_endian (bytes : list Z) : Z := foldl (fun n b => n * 256 + b)%Z 0%Z bytes.

Definition on_p256 (x y : Z) : bool :=
  (x <? p256_p)%Z && (y <? p256_p)%Z && ((y * y) mod p256_p =? (x * x * x - 3 * x + p256_b) mod p256_p)%Z.

Definition isValidP256PublicKey (pubKeyBytes : list Z) : bool :=
  match pubKeyBytes with
  | first :: point =>
    Nat.eqb (List.length point) 64 && (first =? 4)%Z
    && on_p256 (big_endian (take 32 point)) (big_endian (drop 32 point))
  | [] => false
  end.

(** The generator of the curve is on it; with another last byte it is not. *)
Definition p256_generator : string :=
  "046b17d1f2e12c4247f8bce6e563a440f277037d812deb33a0f4a13945d898c2964fe342e2fe1a7f9b8ee7eb4a7c0f9e162bce33576b315ececbb6406837bf51f".
Example p256_generator_is_valid : option_map isValidP256PublicKey (hex_DecodeString (p256_generator +:+ "5")) = Some true.
Proof. vm_compute. reflexivity. Qed.
Example p256_other_is_not : option_map isValidP256PublicKey (hex_DecodeString (p256_generator +:+ "6")) = Some false.
Proof. vm_compute. reflexivity. Qed.

(** ** Requests *)

Record CreateWalletRequest := mkCreateWalletRequest {
  CWR_Token : string;
  CWR_PublicKey : string;
  CWR_CredentialID : string }.

Definition CreateWalletRequest_Validate (r : CreateWalletRequest) : res unit :=
  let v := Check_ (TrimSpace (CWR_Token r) <>? "") "token" "token should not be empty" NewValidator in
  let v := Check_ (TrimSpace (CWR_PublicKey r) <>? "") "public_key" "public_key should not be empty" v in
  let v := Check_ (TrimSpace (CWR_CredentialID r) <>? "") "credential_id" "credential_id should not be empty" v in
  let v := Check_ (String.length (CWR_CredentialID r) <=? MaxCredentialIDLength)%nat "credential_id"
             "credential_id must be 2048 characters or less" v in
  let v := match hex_DecodeString (CWR_PublicKey r) with
           | None => AddError "public_key" "public_key is not a valid hex string" v
           | Some pk => Check_ (isValidP256PublicKey pk) "public_key"
                          "public_key is not a valid uncompressed P256 public key" v
           end in
  guard_err (HasErrors v) (BadRequest "" None).

Definition DefaultMaxXDRDecodedSize : nat := 50 * 1024.

Definition ValidateAndDecodeBase64XDR {TB : TxnBuild} (encoded : string) (maxDecodedSize : nat) : res string :=
  let maxEncodedSize := ((maxDecodedSize + 2) / 3 * 4)%nat in
  let size s := itoa (Z.of_nat (String.length s)) in
  if (maxEncodedSize <? String.length encoded)%nat
  then Err (ENew ("encoded payload too large (" +:+ size encoded +:+ " bytes, max "
                  +:+ itoa (Z.of_nat maxEncodedSize) +:+ ")"))
  else
    let? decoded := wrap "decoding base64 payload" (base64_DecodeString encoded) in
    if (maxDecodedSize <? String.length decoded)%nat
    then Err (ENew ("decoded payload too large (" +:+ size decoded +:+ " bytes, max "
                    +:+ itoa (Z.of_nat maxDecodedSize) +:+ ")"))
    else Ok decoded.

Definition CreateSponsoredTransactionRequest_Validate {TB : TxnBuild} (OperationXDR : string) : res unit :=
  let v := Check_ (TrimSpace OperationXDR <>? "") "operation_xdr" "operation_xdr should not be empty" NewValidator in
  let v := if OperationXDR =? "" then v else
    match ValidateAndDecodeBase64XDR OperationXDR DefaultMaxXDRDecodedSize with
    | Err _ => AddError "operation_xdr" "operation_xdr is invalid or too large" v
    | Ok xdrBytes => Check_ (is_ok (xdr_DecodeOperation xdrBytes)) "operation_xdr"
        "operation_xdr is not valid base64-encoded InvokeHostFunctionOp XDR" v
    end in
  guard_err (HasErrors v) (BadRequest "" None).

Definition ErrWalletContractAddressNotFoundInContext : err :=
  ESentinel "wallet contract address not found in context".

(** The address the middleware of the wallets' tokens leaves in the context. *)
Definition GetWalletContractAddressFromContext (address : option string) : res string :=
  match address with
  | Some s => if s =? "" then Err ErrWalletContractAddressNotFoundInContext else Ok s
  | None => Err ErrWalletContractAddressNotFoundInContext
  end.

(** Of the wallet: the assets it supports, the type and value of the contact. *)
Record EmbeddedWalletProfile := mkProfile {
  Prof_IsPending : bool;
  Prof_PendingAsset : option Asset;
  Prof_Wallet : option (list (string * string) * (string * string)) }.

Section handlers.
Context {D L Ev : Type} {E : Env D} {C : Conn D SdpDb} {SDK : StellarSdk} {TB : TxnBuild} {TO : TxnBuildOps}
  {OX : OperationXdr} {UU : GoogleUuid} {Co : Collation}.
Context (wasmHash NetworkPassphrase : string).
Abbreviation M := (M D L Ev).

Definition create_wallet_error (e : err) : err :=
  if errors_Is_err e ErrInvalidToken then BadRequest "Invalid token" (Some e)
  else if errors_Is_err e ErrCreateWalletInvalidStatus
  then BadRequest "Wallet status is not pending for token" (Some e)
  else if errors_Is_err e ErrCredentialIDAlreadyExists then Conflict "Credential ID already exists" (Some e)
  else InternalError "Failed to create wallet" (Some e).

(** The answer has the status PENDING. *)
Definition PostWallet (body : res CreateWalletRequest) : M string :=
  let! reqBody := map_errM (fun e => BadRequest "" (Some e)) (lift body) in
  lift (CreateWalletRequest_Validate reqBody) ;;!
  map_errM create_wallet_error
    (CreateWallet wasmHash (CWR_Token reqBody) (CWR_PublicKey reqBody) (CWR_CredentialID reqBody)) ;;!
  mret_ PendingWalletStatus.

(** The address and the status of the wallet. *)
Definition GetWallet (credentialID : string) : M (string * string) :=
  let credentialID := TrimSpace credentialID in
  if credentialID =? "" then throw (BadRequest "Credential ID is required" None)
  else
    let! wallet := map_errM (fun e => if errors_Is_err e ErrInvalidCredentialID then NotFound "Wallet not found" (Some e)
                                      else InternalError "Failed to get wallet" (Some e))
      (GetWalletByCredentialID credentialID) in
    mret_ (default "" (EW_ContractAddress wallet), EW_WalletStatus wallet).

(** The account of the wallet that makes the request. *)
Definition wallet_account (msg : string) (missing : err) (address : option string) : res string :=
  let? account := res_map_err (fun e => Unauthorized msg (Some e)) (GetWalletContractAddressFromContext address) in
  if TrimSpace account =? "" then Err (Unauthorized "" (Some missing)) else Ok (TrimSpace account).

Definition getInvokeContractAddress (operationXDR : string) : res string :=
  let? (f, _) := wrap "decoding operation XDR" (xdr_SafeUnmarshalBase64 operationXDR) in
  let? args := match f with
               | InvokeContract None => Err (ENew "invoke contract details are missing")
               | _ => invokes_contract f
               end in
  called_contract args.

Definition getEmbeddedWalletAssets : M (list Asset) :=
  let! wallets := wrapM "finding embedded wallets" (FindWallets [FilterEmbedded true]) in
  match wallets with
  | [wallet] => wrapM "getting embedded wallet assets" (Wallets_GetAssets (Wal_ID wallet))
  | _ => throw (ENew ("expected exactly one embedded wallet, found " +:+ itoa (Z.of_nat (length wallets))))
  end.

Definition asset_contract (asset : Asset) : res string :=
  let? xdrAsset := (if Asset_IsNative asset then Ok NativeAsset
                    else wrap ("building asset " +:+ Code asset +:+ ":" +:+ Issuer asset)
                           (xdr_NewCreditAsset (Code asset) (Issuer asset))) in
  wrap ("calculating contract ID for asset " +:+ Code asset +:+ ":" +:+ Issuer asset)
    (xdr_ContractID xdrAsset (TrimSpace NetworkPassphrase)).

(** In the order of the assets, until one is found or cannot be computed. *)
Fixpoint any_contract (assets : list Asset) (contractAddress : string) : res bool :=
  match assets with
  | [] => Ok false
  | asset :: rest =>
    let? encoded := asset_contract asset in
    if encoded =? contractAddress then Ok true else any_contract rest contractAddress
  end.

Definition isContractAllowed (contractAddress : string) : M bool :=
  if TrimSpace contractAddress =? "" then throw (ENew "contract address is required")
  else if TrimSpace NetworkPassphrase =? "" then throw (ENew "network passphrase is required")
  else
    let! assets := wrapM "getting embedded wallet assets" getEmbeddedWalletAssets in
    lift (any_contract assets contractAddress).

Definition sponsor_error (e : err) : err :=
  match As_Simulation e with
  | Some s => if negb (Sim_IsRetryable (Some s)) then BadRequest "operation_xdr failed simulation" (Some e)
              else InternalError "Failed to create sponsored transaction" (Some e)
  | None => InternalError "Failed to create sponsored transaction" (Some e)
  end.

(** The answer has the identifier, and the status PENDING. *)
Definition CreateSponsoredTransaction (ctx : Context_) (walletAddress : option string) (body : res string) :
    M (string * string) :=
  let! OperationXDR := map_errM (fun e => BadRequest "" (Some e)) (lift body) in
  lift (CreateSponsoredTransactionRequest_Validate OperationXDR) ;;!
  let! account := lift (wallet_account "Wallet contract address not found in context" ErrMissingAccount walletAddress) in
  let! contractAddress := map_errM (fun e => BadRequest "operation_xdr must target a valid contract address" (Some e))
    (lift (getInvokeContractAddress OperationXDR)) in
  let! allowed := map_errM (fun e => InternalError "Failed to validate contract address" (Some e))
    (isContractAllowed contractAddress) in
  if negb allowed then throw (BadRequest "operation_xdr contract address is not supported for this tenant" None)
  else
    let! transactionID := map_errM sponsor_error (SponsorTransaction ctx account OperationXDR) in
    mret_ (transactionID, PendingSponsoredTransactionStatus).

Definition GetSponsoredTransaction (walletAddress : option string) (id : string) : M (string * option string) :=
  let! account := lift (wallet_account "Wallet contract address not found in context" ErrMissingAccount walletAddress) in
  let transactionID := TrimSpace id in
  if transactionID =? "" then throw (BadRequest "Transaction ID is required" None)
  else
    let! transaction := map_errM (fun e =>
        if errors_Is_err e ErrRecordNotFound then NotFound "Transaction not found" (Some e)
        else InternalError "Failed to get transaction" (Some e)) (GetTransactionStatus account transactionID) in
    mret_ (ST_Status transaction, ST_TransactionHash transaction).

(** ** The profile of a wallet *)

Definition getReceiverContact (contractAddress : string) : M (string * string) :=
  let! receiver := wrapM "getting receiver contact" (GetReceiverContact contractAddress) in
  if default "" (Rec_Email receiver) <>? ""
  then mret_ (ReceiverContactTypeEmail, default "" (Rec_Email receiver))
  else if default "" (Rec_PhoneNumber receiver) <>? ""
  then mret_ (ReceiverContactTypeSMS, default "" (Rec_PhoneNumber receiver))
  else throw (ENew "receiver contact type not supported").

Definition getSupportedAssets : M (list (string * string)) :=
  let! wallets := wrapM "finding wallets" (FindWallets [FilterEmbedded true]) in
  match wallets with
  | [wallet] =>
    let! assets := wrapM "getting wallet supported assets" (Wallets_GetAssets (Wal_ID wallet)) in
    mret_ (map (fun a => (Code a, Issuer a)) assets)
  | _ => throw (ENew ("expected exactly one embedded wallet, found " +:+ itoa (Z.of_nat (length wallets))))
  end.

Definition profile_error (not_found : option string) (failed : string) (e : err) : err :=
  if errors_Is_err e ErrMissingContractAddress then Unauthorized "" (Some e)
  else match not_found with
       | Some msg => if errors_Is_err e ErrRecordNotFound then NotFound msg (Some e) else InternalError failed (Some e)
       | None => InternalError failed (Some e)
       end.

Definition GetProfile (walletAddress : option string) : M EmbeddedWalletProfile :=
  let! contractAddress := lift (wallet_account "" ErrMissingContractAddress walletAddress) in
  let! isPending := map_errM (profile_error (Some "receiver wallet not found") "Failed to evaluate verification requirement")
    (IsVerificationPending contractAddress) in
  if isPending then
    let! pendingAsset := map_errM (profile_error None "Failed to retrieve pending disbursement asset")
      (GetPendingDisbursementAsset contractAddress) in
    mret_ (mkProfile true pendingAsset None)
  else
    let! supportedAssets := map_errM (fun e => InternalError "Failed to retrieve supported assets" (Some e))
      getSupportedAssets in
    let! receiverContact := map_errM (profile_error (Some "receiver not found") "Failed to retrieve receiver contact info")
      (getReceiverContact contractAddress) in
    mret_ (mkProfile false None (Some (supportedAssets, receiverContact))).
End handlers.
