(* ===== verification/EmbeddedSafety.v ===== *)
(** What the pipelines of embedded wallets and of sponsored transactions guarantee on both
    databases: what is ready is queued once, as recorded; each outcome settles its row, and
    a wallet is registered for its receiver only where no verification is asked for. *)

From S2P Require Import Prelude GoStrings Errors StateMachine Effects Transactions Schema TxStore TxQueue Handlers Tables SdpDb.
From S2P Require Import PaymentStore ReceiverWalletStore DisbursementStore DisbursementSafety Tenant EmbeddedStore.
From S2P Require Import InstructionsSafety Platform PaymentPipeline PipelineSafety SyncSafety CircleClient EmbeddedService.

Local Open Scope string_scope.
Local Open Scope list_scope.
Local Open Scope go_scope.

(** ** One update of a row *)

Definition with_wallet (ctx : StmtCtx) (token : string) (u : EmbeddedWalletUpdate) (db : SdpDb) : SdpDb :=
  db <| embedded_wallets := update_where (fun x => EW_Token x =? token)
    (fun x => refresh_embedded_wallet ctx (set_embedded_wallet u ctx x)) (embedded_wallets db) |>.

Definition with_sponsored (ctx : StmtCtx) (id : string) (u : SponsoredTransactionUpdate) (db : SdpDb) : SdpDb :=
  db <| sponsored_transactions := update_where (fun x => ST_ID x =? id)
    (fun x => refresh_sponsored ctx (set_sponsored u ctx x)) (sponsored_transactions db) |>.

Lemma lookup_embedded_token token db w : lookup_embedded_wallet token db = Some w -> EW_Token w = token.
Proof. intros H. apply first_such_some in H as [_ H]. by apply String.eqb_eq in H. Qed.

Lemma lookup_sponsored_id id db s : lookup_sponsored id db = Some s -> ST_ID s = id.
Proof. intros H. apply first_such_some in H as [_ H]. by apply String.eqb_eq in H. Qed.

(** The row of the key is updated, the others stay. *)
Lemma lookup_key_update {A} (key : A -> string) (f : A -> A) (k token : string) l :
  (forall x, key (f x) = key x) ->
  first_such (fun x => key x =? k) (update_where (fun x => key x =? token) f l) =
    if k =? token then f <$> first_such (fun x => key x =? k) l else first_such (fun x => key x =? k) l.
Proof.
  intros Hf. rewrite first_such_update by (intros x; by rewrite Hf).
  destruct (first_such _ l) as [x|] eqn:Ef; [|by destruct (_ =? _)].
  apply first_such_some in Ef as [_ Ef]. apply String.eqb_eq in Ef. cbn. rewrite Ef. by destruct (_ =? _).
Qed.

Lemma lookup_with_wallet ctx token u k db :
  lookup_embedded_wallet k (with_wallet ctx token u db) =
    if k =? token then (fun x => refresh_embedded_wallet ctx (set_embedded_wallet u ctx x)) <$> lookup_embedded_wallet k db
    else lookup_embedded_wallet k db.
Proof. by apply (lookup_key_update EW_Token). Qed.

Lemma lookup_with_sponsored ctx id u k db :
  lookup_sponsored k (with_sponsored ctx id u db) =
    if k =? id then (fun x => refresh_sponsored ctx (set_sponsored u ctx x)) <$> lookup_sponsored k db
    else lookup_sponsored k db.
Proof. by apply (lookup_key_update ST_ID). Qed.

Lemma rows_of_key {A B} (key : A -> string) (k : string) (f : A -> B) l :
  Nat.eqb (length (map f (filter (fun x => (key x =? k) = true) l))) 0 = false ->
  exists x, first_such (fun x => key x =? k) l = Some x.
Proof.
  rewrite length_map. rewrite <- hd_filter. destruct (filter _ l); [done|eauto].
Qed.

Lemma check_embedded_wallets_ok {A} (a : A) db b db' :
  check_embedded_wallets a db = Ok (b, db') ->
  b = a /\ db' = db /\ credentials_ok (embedded_wallets db) /\ embedded_wallets_ok (embedded_wallets db).
Proof. unfold check_embedded_wallets. destruct (decide _); [|done]. destruct (decide _); naive_solver. Qed.

Lemma check_sponsored_ok {A} (a : A) db b db' :
  check_sponsored a db = Ok (b, db') -> b = a /\ db' = db /\ sponsored_ok (sponsored_transactions db).
Proof. unfold check_sponsored. destruct (decide _); naive_solver. Qed.

Section updates.
Context {D L Ev : Type} {E : Env D} {C : Conn D SdpDb} {CL : ConnLaws D SdpDb} {T : Conn D TssDb}
  {TL : ConnLaws D TssDb} {CI : ConnIndep D SdpDb TssDb} {SDK : StellarSdk}.
Implicit Types w : World D L Ev.

Lemma EW_Update_open token u w w' :
  w_tx w <> ∅ -> EW_Update token u w = (Ok tt, w') ->
  w_tx w' = w_tx w /\ tss w' = tss w /\ (exists x, lookup_embedded_wallet token (sdp w) = Some x) /\
  credentials_ok (embedded_wallets (sdp w')) /\ exists ctx, sdp w' = with_wallet ctx token u (sdp w).
Proof.
  intros Htx H. unfold EW_Update in H. apply mbind_ok in H as ([] & w1 & H1 & H).
  apply map_errM_ok, lift_ok in H1 as [_ ->]. apply mbind_ok in H as (rows & w1 & H1 & H).
  apply lift_ok in H as [Hg ->]. apply map_errM_ok, db_stmt_open in H1 as (ctx & db' & Hq & Hdb & Ht); [|done].
  fold (sdp w) in Hq. unfold UpdateEmbeddedWallets in Hq.
  apply check_embedded_wallets_ok in Hq as (-> & Hdb' & Hc & _).
  apply guard_err_ok in Hg. apply (rows_of_key EW_Token) in Hg.
  assert (Hs : sdp w1 = db') by (unfold sdp; by rewrite Hdb, conn_get_set).
  split; [done|]. split; [by apply (tss_after_sdp _ _ db')|]. split; [exact Hg|].
  rewrite Hs, Hdb'. split; [done|]. by exists ctx.
Qed.

Lemma ST_Update_open id u w w' :
  w_tx w <> ∅ -> ST_Update id u w = (Ok tt, w') ->
  w_tx w' = w_tx w /\ tss w' = tss w /\ (exists x, lookup_sponsored id (sdp w) = Some x) /\
  exists ctx, sdp w' = with_sponsored ctx id u (sdp w).
Proof.
  intros Htx H. unfold ST_Update in H. destruct (id =? ""); [done|]. apply mbind_ok in H as ([] & w1 & H1 & H).
  apply map_errM_ok, lift_ok in H1 as [_ ->]. apply mbind_ok in H as (rows & w1 & H1 & H).
  apply lift_ok in H as [Hg ->]. apply map_errM_ok, db_stmt_open in H1 as (ctx & db' & Hq & Hdb & Ht); [|done].
  fold (sdp w) in Hq. unfold UpdateSponsored in Hq. apply check_sponsored_ok in Hq as (-> & Hdb' & _).
  apply guard_err_ok in Hg. apply (rows_of_key ST_ID) in Hg.
  assert (Hs : sdp w1 = db') by (unfold sdp; by rewrite Hdb, conn_get_set).
  split; [done|]. split; [by apply (tss_after_sdp _ _ db')|]. split; [exact Hg|].
  rewrite Hs, Hdb'. by exists ctx.
Qed.

(** A lookup in the transaction reads the row and changes nothing. *)
Lemma get_row_open {A} nf p (q : SdpDb -> option A) w a w' :
  w_tx w <> ∅ -> no_rows_as nf p (GetContext (fun _ db => Ok (q db, db))) w = (Ok a, w') ->
  same_dbs w w' /\ q (sdp w) = Some a.
Proof.
  intros Htx H. apply map_errM_ok, mbind_ok in H as (o & w1 & H1 & H).
  apply db_stmt_open in H1 as (ctx & db' & [= <- <-] & Hdb & Ht); [|done]. rewrite conn_set_get in Hdb.
  unfold sdp. destruct (q _); [|done]. injection H as <- <-. by split.
Qed.
End updates.

(** ** To the submitter *)

Lemma filter_every {A} (f : A -> bool) (l : list A) : (forall x, x ∈ l -> f x = true) -> filter (fun x => f x = true) l = l.
Proof.
  induction l as [|x l IH]; intros H; [done|]. rewrite filter_cons_True by (apply H; by left).
  by rewrite IH by (intros y Hy; apply H; by right).
Qed.

(** Each element of a batch moves the row of its key, and no other. *)
Definition moves_one {A} (look : string -> SdpDb -> option A) (moved : A -> A -> Prop) (k : string) (db db' : SdpDb) : Prop :=
  (forall x, look k db = Some x -> exists x', look k db' = Some x' /\ moved x x') /\
  forall j, j <> k -> look j db' = look j db.

Lemma chain_moves {A B} (look : string -> SdpDb -> option A) (moved : A -> A -> Prop) (key : B -> string) batch db db' :
  (forall x y z, moved x y -> moved y z -> moved x z) ->
  chain (fun b => moves_one look moved (key b)) batch db db' ->
  forall k x, look k db = Some x ->
    (k ∈ map key batch -> exists x', look k db' = Some x' /\ moved x x') /\
    (k ∉ map key batch -> look k db' = Some x).
Proof.
  intros Htr. induction 1 as [db|b batch db db1 db' [H1 Hout] Hc IH]; intros k x Hl; cbn.
  { split; [by intros []%elem_of_nil|done]. }
  destruct (decide (k = key b)) as [->|Hk].
  - destruct (H1 x Hl) as (x1 & Hl1 & Hm1). destruct (IH _ x1 Hl1) as [Hin Hnin]. split; [|intros []; by left].
    intros _. destruct (decide (key b ∈ map key batch)) as [Hb|Hb]; [|by exists x1; split; [apply Hnin|]].
    destruct (Hin Hb) as (x' & ? & ?). exists x'. split; [done|by eapply Htr].
  - rewrite <- (Hout k Hk) in Hl. destruct (IH k x Hl) as [Hin Hnin]. split.
    + intros [->|Hx]%elem_of_cons; [done|by apply Hin].
    + intros Hx. apply Hnin. intros Hy. apply Hx. by right.
Qed.

(** The invitation was redeemed: with a key, a credential and code. *)
Definition redeemed_wallet (ew : EmbeddedWallet) : Prop :=
  EW_WalletStatus ew = PendingWalletStatus /\ default "" (EW_PublicKey ew) <> "" /\
  default "" (EW_CredentialID ew) <> "" /\ EW_WasmHash ew <> "".

Lemma ready_redeemed ew : ready_to_create ew = true <-> redeemed_wallet ew.
Proof.
  unfold ready_to_create, redeemed_wallet. rewrite !andb_true_iff, !negb_true_iff, !eqb_false, eqb_true. tauto.
Qed.

Definition queued_wallet (tenantID : string) (ew : EmbeddedWallet) (tx : Transaction) : Prop :=
  ExternalID tx = EW_Token ew /\ TransactionType tx = TransactionTypeWalletCreation /\ TenantID tx = tenantID /\
  PublicKey tx = default "" (EW_PublicKey ew) /\ WasmHash tx = EW_WasmHash ew.

Definition queued_sponsored (tenantID : string) (s : SponsoredTransaction) (tx : Transaction) : Prop :=
  ExternalID tx = ST_ID s /\ TransactionType tx = TransactionTypeSponsored /\ TenantID tx = tenantID /\
  SponsoredAccount tx = ST_Account s /\ SponsoredOperationXDR tx = ST_OperationXDR s.

(** Nothing but the status has changed. *)
Definition wallet_moved (status : string) (ew ew' : EmbeddedWallet) : Prop :=
  exists t, ew' = ew <| EW_WalletStatus := status |> <| EW_UpdatedAt := t |>.
Definition sponsored_moved (status : string) (s s' : SponsoredTransaction) : Prop :=
  exists t, s' = s <| ST_Status := status |> <| ST_UpdatedAt := t |>.

Lemma wallet_moved_trans status x y z : wallet_moved status x y -> wallet_moved status y z -> wallet_moved status x z.
Proof. intros [t1 ->] [t2 ->]. by exists t2. Qed.
Lemma sponsored_moved_trans status x y z :
  sponsored_moved status x y -> sponsored_moved status y z -> sponsored_moved status x z.
Proof. intros [t1 ->] [t2 ->]. by exists t2. Qed.

Section sending.
Context {D L Ev : Type} {E : Env D} {C : Conn D SdpDb} {CL : ConnLaws D SdpDb} {T : Conn D TssDb}
  {TL : ConnLaws D TssDb} {CI : ConnIndep D SdpDb TssDb} {SDK : StellarSdk} {U : UuidGen}.
Implicit Types w : World D L Ev.

Lemma bulk_insert_open {A} (Q : A -> Transaction -> Prop) (build : A -> Transaction) p xs w rows w' :
  w_tx w <> ∅ -> w_tx w !! conn_id TssDb = None -> xs <> [] ->
  (forall x ctx i, Q x (new_row ctx i (build x))) ->
  bulk_insert p (map build xs) w = (Ok rows, w') ->
  w_tx w' = w_tx w /\ sdp w' = sdp w /\ enqueued_as Q xs (tss w) (tss w') /\
  map ExternalID rows = map (fun x => ExternalID (build x)) xs.
Proof.
  intros Htx Hnone Hne HQ H. destruct (settle_open w Htx) as [Hdb Ht].
  apply RunInTransaction_open in H as (w1 & w2 & H & Ho & Hd1 & Hd2 & Hback & _); [|done].
  apply map_errM_ok, BulkInsert_ok in H as (_ & ctx & db' & -> & -> & Hdb' & Hok);
    [|by destruct xs].
  destruct (settle_open w1 Ho) as [Hs1 Ht1].
  assert (Hd : w_db (settle w1) = w_db w) by congruence.
  split; [by apply Hback|]. split; [unfold sdp; rewrite Hd2; cbn; by rewrite conn_get_set_r, Hd|].
  assert (Et : tss (settle w1) = tss w) by (unfold tss; by rewrite Hd).
  assert (Et' : tss w' = db') by (unfold tss; rewrite Hd2; cbn; by rewrite conn_get_set).
  rewrite Et', Et in *. split.
  - exists (imap (new_row ctx) (map build xs)). split; [by rewrite Hdb'|]. split; [|apply Hok].
    apply Forall2_lookup. intros i. rewrite list_lookup_imap, list_lookup_fmap.
    destruct (xs !! i); cbn; constructor. by repeat split.
  - apply list_eq. intros i. rewrite !list_lookup_fmap, list_lookup_imap, list_lookup_fmap. by destruct (xs !! i).
Qed.

Lemma EW_pending_open n w batch w' :
  w_tx w <> ∅ -> EW_GetPendingForSubmission n w = (Ok batch, w') ->
  same_dbs w w' /\ length batch <= Z.to_nat n /\
  Forall (fun ew => ew ∈ embedded_wallets (sdp w) /\ redeemed_wallet ew) batch.
Proof.
  intros Htx H. unfold EW_GetPendingForSubmission in H. destruct (n <=? 0)%Z; [done|].
  apply map_errM_ok, db_stmt_open in H as (ctx & db' & [= <- <-] & Hdb & Ht); [|done].
  rewrite conn_set_get in Hdb. split; [done|]. split; [rewrite length_take; lia|].
  apply Forall_forall. intros x Hx. apply subseteq_take in Hx. rewrite sort_by_perm, list_elem_of_filter in Hx.
  rewrite andb_true_iff, ready_redeemed in Hx. tauto.
Qed.

Lemma ST_pending_open n w batch w' :
  w_tx w <> ∅ -> ST_GetPendingForSubmission n w = (Ok batch, w') ->
  same_dbs w w' /\ length batch <= Z.to_nat n /\
  Forall (fun s => s ∈ sponsored_transactions (sdp w) /\ ST_Status s = PendingSponsoredTransactionStatus) batch.
Proof.
  intros Htx H. unfold ST_GetPendingForSubmission in H. destruct (n <=? 0)%Z; [done|].
  apply map_errM_ok, db_stmt_open in H as (ctx & db' & [= <- <-] & Hdb & Ht); [|done].
  rewrite conn_set_get in Hdb. split; [done|]. split; [rewrite length_take; lia|].
  apply Forall_forall. intros x Hx. apply subseteq_take in Hx. rewrite sort_by_perm, list_elem_of_filter in Hx.
  rewrite andb_true_iff, eqb_true in Hx. tauto.
Qed.

(** A loop that updates the rows whose transaction was inserted: all of the batch. *)
Lemma mark_open {A B} (look : string -> SdpDb -> option A) moved (key : B -> string) (update : B -> M D L Ev unit)
    inserted batch w w' :
  (forall x w w', w_tx w <> ∅ -> update x w = (Ok tt, w') ->
     w_tx w' = w_tx w /\ tss w' = tss w /\ moves_one look moved (key x) (sdp w) (sdp w')) ->
  w_tx w <> ∅ -> map ExternalID inserted = map key batch ->
  mforM (fun x => if slices_Contains (map ExternalID inserted) (key x) then update x else mret_ tt) batch w = (Ok tt, w') ->
  tss w' = tss w /\ chain (fun x => moves_one look moved (key x)) batch (sdp w) (sdp w').
Proof.
  intros Hupd Htx Hids H. rewrite Hids in H.
  assert (Hf : forall x, x ∈ batch -> slices_Contains (map key batch) (key x) = true)
    by (intros x Hin; apply slices_Contains_spec, list_elem_of_fmap; eauto).
  set (ids := map key batch) in *. clearbody ids. revert w Htx H. clear Hids.
  induction batch as [|x batch IH]; intros w Htx H; cbn in H.
  { injection H as <-. by split; [|constructor]. }
  rewrite (Hf x) in H by (by left). apply mbind_ok in H as ([] & w1 & H1 & H).
  apply Hupd in H1 as (Ht1 & Htss1 & Hm); [|done].
  apply IH in H as [Htss Hc]; [|by intros; apply Hf; right|congruence].
  split; [congruence|by econstructor].
Qed.

Lemma mark_wallets_open inserted batch w w' :
  w_tx w <> ∅ -> map ExternalID inserted = map EW_Token batch -> mark_wallets_processing inserted batch w = (Ok tt, w') ->
  tss w' = tss w /\ chain (fun ew => moves_one lookup_embedded_wallet (wallet_moved ProcessingWalletStatus) (EW_Token ew))
    batch (sdp w) (sdp w').
Proof.
  apply (mark_open _ _ EW_Token). clear inserted batch w w'. intros ew w w' Htx H.
  apply map_errM_ok, EW_Update_open in H as (? & ? & _ & _ & ctx & ->); [|done]. split; [done|]. split; [done|]. split.
  - intros x Hx. rewrite lookup_with_wallet, eqb_same, Hx. eexists. split; [reflexivity|].
    exists (NOW ctx). by destruct x.
  - intros j Hj. rewrite lookup_with_wallet. by destruct (String.eqb_spec j (EW_Token ew)).
Qed.

Lemma mark_sponsored_open inserted batch w w' :
  w_tx w <> ∅ -> map ExternalID inserted = map ST_ID batch -> mark_sponsored_processing inserted batch w = (Ok tt, w') ->
  tss w' = tss w /\
  chain (fun s => moves_one lookup_sponsored (sponsored_moved ProcessingSponsoredTransactionStatus) (ST_ID s))
    batch (sdp w) (sdp w').
Proof.
  apply (mark_open _ _ ST_ID). clear inserted batch w w'. intros s w w' Htx H.
  apply map_errM_ok, ST_Update_open in H as (? & ? & _ & ctx & ->); [|done]. split; [done|]. split; [done|]. split.
  - intros x Hx. rewrite lookup_with_sponsored, eqb_same, Hx. eexists. split; [reflexivity|].
    exists (NOW ctx). by destruct x.
  - intros j Hj. rewrite lookup_with_sponsored. by destruct (String.eqb_spec j (ST_ID s)).
Qed.

Lemma redeemed_complete ew : redeemed_wallet ew -> (default "" (EW_PublicKey ew) <>? "") && (EW_WasmHash ew <>? "") = true.
Proof. unfold redeemed_wallet. rewrite andb_true_iff, !negb_true_iff, !eqb_false. tauto. Qed.

(** A batch of wallet creations that is sent: at most [batchSize] wallets, each PENDING
    with a key, a credential and code.  Each is queued once, unlocked and without hash, with
    its token, key and code, and becomes PROCESSING; of the wallets nothing else
    changes, and no wallet has two live transactions. *)
Theorem wallet_creations_are_queued (ctx : Context_) (batchSize : Z) w w' (Htx : w_tx w = ∅)
    (Hrun : SendBatchWalletCreations ctx batchSize w = (Ok tt, w')) :
  exists tnt batch, ctx = Some tnt /\ length batch <= Z.to_nat batchSize /\
    Forall (fun ew => ew ∈ embedded_wallets (sdp (settle w)) /\ redeemed_wallet ew) batch /\
    (batch = [] /\ tss w' = tss (settle w) \/
     enqueued_as (queued_wallet (Ten_ID tnt)) batch (tss (settle w)) (tss w')) /\
    forall token ew, lookup_embedded_wallet token (sdp (settle w)) = Some ew ->
      (token ∈ map EW_Token batch ->
         exists ew', lookup_embedded_wallet token (sdp w') = Some ew' /\ wallet_moved ProcessingWalletStatus ew ew') /\
      (token ∉ map EW_Token batch -> lookup_embedded_wallet token (sdp w') = Some ew).
Proof.
  unfold SendBatchWalletCreations in Hrun. destruct (batchSize <=? 0)%Z; [done|].
  apply mbind_ok in Hrun as (tnt & w0 & H0 & Hrun). apply map_errM_ok, lift_ok in H0 as [Hctx ->].
  exists tnt. apply RunInTransaction_open in Hrun as (w1 & w2 & H & Ho & Hd1 & Hd2 & _ & Hother); [|by rewrite Htx].
  apply mbind_ok in H as (batch & w3 & Hb & H). apply map_errM_ok, EW_pending_open in Hb as ([Hd3 Ht3] & Hlen & Hin); [|done].
  assert (E3 : sdp w3 = sdp (settle w) /\ tss w3 = tss (settle w)) by (unfold sdp, tss; split; congruence).
  destruct E3 as [Es3 Et3]. assert (E2 : sdp w' = sdp w2 /\ tss w' = tss w2) by (unfold sdp, tss; split; congruence).
  destruct E2 as [-> ->]. replace (sdp w1) with (sdp (settle w)) in Hin by (unfold sdp; congruence).
  exists batch. split; [by destruct ctx; [injection Hctx as ->|]|]. split; [done|]. split; [done|].
  unfold send_wallets in H. set (complete := filter _ batch) in H.
  assert (Hall : complete = batch).
  { apply filter_every. intros x. rewrite Forall_forall in Hin. intros Hx. apply redeemed_complete. by apply Hin. }
  rewrite Hall in H. clear complete Hall. destruct batch as [|ew0 ews] eqn:Eb.
  { injection H as <-. rewrite Es3, Et3. split; [by left|]. intros token ew Hl. split; [by intros []%elem_of_nil|done]. }
  rewrite <- Eb in *. apply mbind_ok in H as (rows & w4 & H4 & H).
  eapply bulk_insert_open with (Q := queued_wallet (Ten_ID tnt)) in H4 as (Ht4 & Es4 & Hq & Hids);
    [|congruence| |by rewrite Eb|by repeat split].
  2: { rewrite Ht3, Hother, Htx; [apply lookup_empty|]. intros Heq. by apply conn_id_ne. }
  apply mark_wallets_open in H as [Htss Hc]; [|congruence|exact Hids].
  rewrite Htss, <- Et3. split; [by right|]. rewrite Es4, Es3 in Hc. exact (chain_moves _ _ EW_Token _ _ _ (wallet_moved_trans _) Hc).
Qed.

(** The same of sponsored transactions: each PENDING one of the batch is queued once,
    with its account and operation, and becomes PROCESSING. *)
Theorem sponsored_transactions_are_queued (ctx : Context_) (batchSize : Z) w w' (Htx : w_tx w = ∅)
    (Hrun : SendBatchSponsoredTransactions ctx batchSize w = (Ok tt, w')) :
  exists tnt batch, ctx = Some tnt /\ length batch <= Z.to_nat batchSize /\
    Forall (fun s => s ∈ sponsored_transactions (sdp (settle w)) /\ ST_Status s = PendingSponsoredTransactionStatus) batch /\
    (batch = [] /\ tss w' = tss (settle w) \/
     enqueued_as (queued_sponsored (Ten_ID tnt)) batch (tss (settle w)) (tss w')) /\
    forall id s, lookup_sponsored id (sdp (settle w)) = Some s ->
      (id ∈ map ST_ID batch ->
         exists s', lookup_sponsored id (sdp w') = Some s' /\ sponsored_moved ProcessingSponsoredTransactionStatus s s') /\
      (id ∉ map ST_ID batch -> lookup_sponsored id (sdp w') = Some s).
Proof.
  unfold SendBatchSponsoredTransactions in Hrun. destruct (batchSize <=? 0)%Z; [done|].
  apply mbind_ok in Hrun as (tnt & w0 & H0 & Hrun). apply map_errM_ok, lift_ok in H0 as [Hctx ->].
  exists tnt. apply RunInTransaction_open in Hrun as (w1 & w2 & H & Ho & Hd1 & Hd2 & _ & Hother); [|by rewrite Htx].
  apply mbind_ok in H as (batch & w3 & Hb & H). apply map_errM_ok, ST_pending_open in Hb as ([Hd3 Ht3] & Hlen & Hin); [|done].
  assert (E3 : sdp w3 = sdp (settle w) /\ tss w3 = tss (settle w)) by (unfold sdp, tss; split; congruence).
  destruct E3 as [Es3 Et3]. assert (E2 : sdp w' = sdp w2 /\ tss w' = tss w2) by (unfold sdp, tss; split; congruence).
  destruct E2 as [-> ->]. replace (sdp w1) with (sdp (settle w)) in Hin by (unfold sdp; congruence).
  exists batch. split; [by destruct ctx; [injection Hctx as ->|]|]. split; [done|]. split; [done|].
  unfold send_sponsored in H. destruct batch as [|s0 ss] eqn:Eb.
  { injection H as <-. rewrite Es3, Et3. split; [by left|]. intros id s Hl. split; [by intros []%elem_of_nil|done]. }
  rewrite <- Eb in *. apply mbind_ok in H as (rows & w4 & H4 & H).
  eapply bulk_insert_open with (Q := queued_sponsored (Ten_ID tnt)) in H4 as (Ht4 & Es4 & Hq & Hids);
    [|congruence| |by rewrite Eb|by repeat split].
  2: { rewrite Ht3, Hother, Htx; [apply lookup_empty|]. intros Heq. by apply conn_id_ne. }
  apply mark_sponsored_open in H as [Htss Hc]; [|congruence|exact Hids].
  rewrite Htss, <- Et3. split; [by right|]. rewrite Es4, Es3 in Hc. exact (chain_moves _ _ ST_ID _ _ _ (sponsored_moved_trans _) Hc).
Qed.
End sending.

(** ** From the submitter *)

(** The address of a contract is never empty. *)
Class ContractIdLaws {CId : ContractIds} := {
  contract_text b s : strkey_EncodeContract b = Ok s -> s <> "" }.

Definition auto_registers (tx : Transaction) (ew : EmbeddedWallet) : bool :=
  (Status tx =? TransactionStatusSuccess) && (default "" (EW_ReceiverWalletID ew) <>? "")
  && negb (EW_RequiresVerification ew).

Definition registration (address : string) (now : Z) : ReceiverWalletUpdate :=
  mkReceiverWalletUpdate RegisteredReceiversWalletStatus "" address None None (Some now) autoRegistrationIdentifier None.

Definition with_registered (ctx : StmtCtx) (id address : string) (now : Z) (db : SdpDb) : SdpDb :=
  db <| receiver_wallets := update_where (fun x => RW_ID x =? id)
    (fun x => refresh_receiver_wallet ctx (set_wallet_update (registration address now) ctx x)) (receiver_wallets db) |>.

(** The receiver's wallet of [id] is registered, or was before. *)
Definition registers (id address : string) (db db' : SdpDb) : Prop :=
  exists rw, rw ∈ receiver_wallets db /\ RW_ID rw = id /\
    (RW_Status rw = RegisteredReceiversWalletStatus /\ db' = db \/
     RW_Status rw <> RegisteredReceiversWalletStatus /\ exists ctx now, db' = with_registered ctx id address now db).

(** One transaction of a wallet creation. *)
Definition wallet_synced {CId : ContractIds} (networkPassphrase : string) (tx : Transaction) (db db' : SdpDb) : Prop :=
  exists ew u ctx, lookup_embedded_wallet (ExternalID tx) db = Some ew /\
    wallet_outcome networkPassphrase tx = Ok u /\
    let db1 := with_wallet ctx (ExternalID tx) u db in
    if auto_registers tx ew then registers (default "" (EW_ReceiverWalletID ew)) (EWU_ContractAddress u) db1 db'
    else db' = db1.

Definition sponsored_synced (tx : Transaction) (db db' : SdpDb) : Prop :=
  exists s u ctx, lookup_sponsored (ExternalID tx) db = Some s /\ sponsored_outcome tx = Ok u /\
    db' = with_sponsored ctx (ExternalID tx) u db.

Section syncing.
Context {D L Ev : Type} {E : Env D} {C : Conn D SdpDb} {CL : ConnLaws D SdpDb} {T : Conn D TssDb}
  {TL : ConnLaws D TssDb} {CI : ConnIndep D SdpDb TssDb} {SDK : StellarSdk} {CId : ContractIds}.
Implicit Types w : World D L Ev.

Lemma autoRegister_open token address id w w' :
  w_tx w <> ∅ -> autoRegisterEmbeddedWallet token address id w = (Ok tt, w') ->
  w_tx w' = w_tx w /\ tss w' = tss w /\ registers id address (sdp w) (sdp w').
Proof.
  intros Htx H. unfold autoRegisterEmbeddedWallet in H. apply mbind_ok in H as ([rw wal] & w1 & H1 & H).
  apply map_errM_ok, (get_row_open _ _ (fun db => hd_error (select_wallets (fun x => RW_ID (fst x) =? id) db)))
    in H1 as [[Hd1 Ht1] Hget]; [|done].
  assert (E1 : sdp w1 = sdp w /\ tss w1 = tss w) by (unfold sdp, tss; by rewrite Hd1). destruct E1 as [Es1 Et1].
  assert (Hrw : rw ∈ receiver_wallets (sdp w) /\ RW_ID rw = id).
  { apply head_Some_elem_of, list_elem_of_filter in Hget as [Hid Hin]. apply String.eqb_eq in Hid. split; [|done].
    apply list_elem_of_omap in Hin as (y & Hy & Hj). unfold join_wallet in Hj.
    destruct (lookup_wallet _ _); [|done]. by injection Hj as <- _. }
  destruct Hrw as [Hin Hid]. destruct (String.eqb_spec (RW_Status rw) RegisteredReceiversWalletStatus) as [Hs|Hs].
  { injection H as <-. split; [done|]. split; [done|]. exists rw. split; [done|]. split; [done|]. by left. }
  destruct (TrimSpace address =? ""); [done|]. apply mbind_ok in H as (now & w2 & H2 & H).
  unfold ask in H2. injection H2 as _ <-. destruct (settle_open w1) as [Hd2 Ht2]; [congruence|].
  apply map_errM_ok in H. unfold RW_Update in H. apply mbind_ok in H as ([] & w2 & H2 & H).
  apply map_errM_ok, lift_ok in H2 as [_ ->]. apply mbind_ok in H as ([] & w3 & H2 & H). injection H2 as <-.
  apply mbind_ok in H as (rows & w4 & H2 & H). apply lift_ok in H as [_ ->].
  apply map_errM_ok in H2. pose proof H2 as H0. apply db_stmt_open in H0 as (ctx0 & x & _ & Hdb & _); [|congruence].
  apply update_wallets_open in H2 as (Ht4 & ctx & _ & Hs4 & _); [|by intros; apply set_wallet_update_id|congruence].
  assert (E2 : sdp (settle w1) = sdp w /\ tss (settle w1) = tss w) by (unfold sdp, tss; split; congruence).
  destruct E2 as [Es2 Et2]. split; [congruence|]. split; [rewrite <- Et2; by apply (tss_after_sdp _ _ x)|].
  exists rw. split; [done|]. split; [done|]. right. split; [done|]. exists ctx, now. rewrite Hs4, Es2, Hid. done.
Qed.

Lemma wallet_sync_open networkPassphrase :
  synchronizes (C := C) (wallet_synced networkPassphrase) (syncEmbeddedWalletWithTransaction (D := D) (L := L) (Ev := Ev) networkPassphrase).
Proof.
  intros tx w w' Htx H. unfold syncEmbeddedWalletWithTransaction in H. apply mbind_ok in H as (ew & w1 & H1 & H).
  apply map_errM_ok, get_row_open in H1 as [[Hd1 Ht1] Hl]; [|done].
  assert (E1 : sdp w1 = sdp w /\ tss w1 = tss w) by (unfold sdp, tss; by rewrite Hd1). destruct E1 as [Es1 Et1].
  pose proof (lookup_embedded_token _ _ _ Hl) as Htok.
  apply mbind_ok in H as (u & w2 & H1 & H). apply lift_ok in H1 as [Hu ->].
  apply mbind_ok in H as ([] & w2 & H2 & H).
  apply map_errM_ok, EW_Update_open in H2 as (Ht2 & Htss2 & _ & _ & ctx & Hs2); [|congruence].
  rewrite Es1, Htok in Hs2. fold (auto_registers tx ew) in H.
  assert (Hex : forall db', (if auto_registers tx ew then registers (default "" (EW_ReceiverWalletID ew)) (EWU_ContractAddress u)
      (sdp w2) db' else db' = sdp w2) -> wallet_synced networkPassphrase tx (sdp w) db').
  { intros db' Hdb'. rewrite Hs2 in Hdb'. by exists ew, u, ctx. }
  destruct (auto_registers tx ew).
  - apply map_errM_ok, autoRegister_open in H as (? & ? & Hr); [|congruence].
    split; [congruence|]. split; [congruence|]. by apply Hex.
  - injection H as <-. split; [congruence|]. split; [congruence|]. by apply Hex.
Qed.

Lemma sponsored_sync_open :
  synchronizes (C := C) sponsored_synced (syncSponsoredTransactionWithTSSTransaction (D := D) (L := L) (Ev := Ev)).
Proof.
  intros tx w w' Htx H. unfold syncSponsoredTransactionWithTSSTransaction in H. apply mbind_ok in H as (s & w1 & H1 & H).
  apply map_errM_ok in H1. unfold ST_GetByID in H1. destruct (_ =? ""); [done|].
  apply get_row_open in H1 as [[Hd1 Ht1] Hl]; [|done].
  assert (E1 : sdp w1 = sdp w /\ tss w1 = tss w) by (unfold sdp, tss; by rewrite Hd1). destruct E1 as [Es1 Et1].
  pose proof (lookup_sponsored_id _ _ _ Hl) as Hid.
  apply mbind_ok in H as (u & w2 & H1 & H). apply lift_ok in H1 as [Hu ->].
  apply map_errM_ok, ST_Update_open in H as (Ht2 & Htss2 & _ & ctx & Hs2); [|congruence].
  rewrite Es1, Hid in Hs2. split; [congruence|]. split; [congruence|]. by exists s, u, ctx.
Qed.
End syncing.

(** The only element of the list with its key. *)
Definition once {B} (key : B -> string) (b : B) (l : list B) : Prop := filter (fun y => (key y =? key b) = true) l = [b].

Lemma chain_once {A B} (look : string -> SdpDb -> option A) (key : B -> string) (R : B -> SdpDb -> SdpDb -> Prop)
    (S : B -> A -> A -> Prop) batch db db' :
  (forall b db db', R b db db' ->
     (exists x x', look (key b) db = Some x /\ look (key b) db' = Some x' /\ S b x x') /\
     forall k, k <> key b -> look k db' = look k db) ->
  chain R batch db db' ->
  (forall k, k ∉ map key batch -> look k db' = look k db) /\
  forall b, once key b batch -> exists x x', look (key b) db = Some x /\ look (key b) db' = Some x' /\ S b x x'.
Proof.
  intros HR. induction 1 as [db|c batch db db1 db' H1 Hc [IHout IHin]]; [by split|].
  destruct (HR c db db1 H1) as [Hc1 Hout1]. split.
  - intros k Hk. apply not_elem_of_cons in Hk as [Hk Hkb]. by rewrite IHout, Hout1.
  - intros b Hb. unfold once in *. rewrite filter_cons in Hb. destruct (String.eqb_spec (key c) (key b)) as [He|He].
    + rewrite decide_True in Hb by done. injection Hb as -> Hnone. destruct Hc1 as (x & x' & Hx & Hx' & HS).
      exists x, x'. split; [done|]. split; [|done]. rewrite IHout; [done|]. intros Hin.
      apply list_elem_of_fmap in Hin as (y & Hy & Hin).
      assert (Hyin : y ∈ filter (fun y => (key y =? key b) = true) batch)
        by (apply list_elem_of_filter; split; [by rewrite Hy, eqb_same|done]).
      rewrite Hnone in Hyin. by apply elem_of_nil in Hyin.
    + rewrite decide_False in Hb by done. destruct (IHin b Hb) as (x & x' & Hx & ?).
      exists x, x'. by rewrite <- (Hout1 (key b)) by done.
Qed.

(** The outcome on record: the address of the contract, or the failure; the rest stays. *)
Definition wallet_settled {CId : ContractIds} (networkPassphrase : string) (tx : Transaction) (ew ew' : EmbeddedWallet) : Prop :=
  exists t,
    (Status tx = TransactionStatusSuccess /\ exists account address, DistributionAccount tx = Some account /\
       calculateContractAddress networkPassphrase account (PublicKey tx) = Ok address /\
       ew' = ew <| EW_ContractAddress := Some address |> <| EW_WalletStatus := SuccessWalletStatus |>
                <| EW_UpdatedAt := t |>) \/
    (Status tx = TransactionStatusError /\
       ew' = ew <| EW_WalletStatus := FailedWalletStatus |> <| EW_UpdatedAt := t |>).

Definition sponsored_settled (tx : Transaction) (s s' : SponsoredTransaction) : Prop :=
  exists t,
    (Status tx = TransactionStatusSuccess /\ exists hash, StellarTransactionHash tx = Some hash /\
       s' = s <| ST_Status := SuccessSponsoredTransactionStatus |>
              <| ST_TransactionHash := given_or hash (ST_TransactionHash s) |> <| ST_UpdatedAt := t |>) \/
    (Status tx = TransactionStatusError /\
       s' = s <| ST_Status := FailedSponsoredTransactionStatus |> <| ST_UpdatedAt := t |>).

(** The row of a receiver's wallet that is registered: its status with an entry of
    history, the address, and who confirmed it when; the rest stays. *)
Definition registered_as (address : string) (rw rw' : ReceiverWallet) : Prop :=
  exists t now, rw' = rw <| RW_Status := RegisteredReceiversWalletStatus |>
    <| RW_StatusHistory := mkReceiverWalletHistory RegisteredReceiversWalletStatus "" t :: RW_StatusHistory rw |>
    <| RW_StellarAddress := Some address |> <| RW_OTPConfirmedAt := Some now |>
    <| RW_OTPConfirmedWith := Some autoRegistrationIdentifier |> <| RW_UpdatedAt := t |>.

Lemma registered_as_status address rw rw' :
  registered_as address rw rw' -> RW_Status rw' = RegisteredReceiversWalletStatus.
Proof. by intros (t & now & ->). Qed.

Section outcomes.
Context {SDK : StellarSdk} {CId : ContractIds} {CIL : ContractIdLaws} (networkPassphrase : string).

Lemma wallet_outcome_ok tx u :
  wallet_outcome networkPassphrase tx = Ok u ->
  (Status tx = TransactionStatusSuccess /\ exists account address, DistributionAccount tx = Some account /\
     calculateContractAddress networkPassphrase account (PublicKey tx) = Ok address /\ address <> "" /\
     u = no_wallet_update <| EWU_ContractAddress := address |> <| EWU_WalletStatus := SuccessWalletStatus |>) \/
  (Status tx = TransactionStatusError /\ u = no_wallet_update <| EWU_WalletStatus := FailedWalletStatus |>).
Proof.
  unfold wallet_outcome. destruct (String.eqb_spec (Status tx) TransactionStatusSuccess) as [Hs|Hs].
  - destruct (DistributionAccount tx) as [account|]; [|done]. intros H. apply res_bind_ok in H as (address & Ha & [= <-]).
    apply wrap_ok in Ha. left. split; [done|]. exists account, address. split_and!; try done.
    unfold calculateContractAddress in Ha. destruct (hex_DecodeString _); [|done].
    apply res_bind_ok in Ha as (? & _ & Ha). apply res_bind_ok in Ha as (? & _ & Ha).
    apply res_bind_ok in Ha as (? & _ & Ha). apply wrap_ok in Ha. by eapply contract_text.
  - destruct (String.eqb_spec (Status tx) TransactionStatusError); [|done]. intros [= <-]. by right.
Qed.

(** The embedded wallets after one outcome. *)
Lemma wallet_synced_row tx db db' :
  wallet_synced networkPassphrase tx db db' ->
  (exists ew ew', lookup_embedded_wallet (ExternalID tx) db = Some ew /\
     lookup_embedded_wallet (ExternalID tx) db' = Some ew' /\ wallet_settled networkPassphrase tx ew ew') /\
  forall k, k <> ExternalID tx -> lookup_embedded_wallet k db' = lookup_embedded_wallet k db.
Proof.
  intros (ew & u & ctx & Hl & Hu & Hdb').
  assert (Hew : forall k, lookup_embedded_wallet k db' = lookup_embedded_wallet k (with_wallet ctx (ExternalID tx) u db)).
  { intros k. destruct (auto_registers tx ew); [|by rewrite Hdb'].
    destruct Hdb' as (rw & _ & _ & [[_ ->]|(_ & c2 & now & ->)]); done. }
  split.
  - exists ew, (refresh_embedded_wallet ctx (set_embedded_wallet u ctx ew)).
    rewrite Hew, lookup_with_wallet, eqb_same, Hl. split; [done|]. split; [done|]. exists (NOW ctx).
    apply wallet_outcome_ok in Hu as [(Hs & account & address & Ha & Hc & Hne & ->)|(Hs & ->)].
    + left. split; [done|]. exists account, address. split; [done|]. split; [done|].
      unfold set_embedded_wallet, given_or. cbn. apply eqb_false in Hne. rewrite Hne. by destruct ew.
    + right. split; [done|]. by destruct ew.
  - intros k Hk. rewrite Hew, lookup_with_wallet. by destruct (String.eqb_spec k (ExternalID tx)).
Qed.

Lemma sponsored_synced_row tx db db' :
  sponsored_synced tx db db' ->
  (exists s s', lookup_sponsored (ExternalID tx) db = Some s /\
     lookup_sponsored (ExternalID tx) db' = Some s' /\ sponsored_settled tx s s') /\
  forall k, k <> ExternalID tx -> lookup_sponsored k db' = lookup_sponsored k db.
Proof.
  intros (s & u & ctx & Hl & Hu & ->). split.
  - exists s, (refresh_sponsored ctx (set_sponsored u ctx s)). rewrite lookup_with_sponsored, eqb_same, Hl.
    split; [done|]. split; [done|]. exists (NOW ctx). unfold sponsored_outcome in Hu.
    destruct (String.eqb_spec (Status tx) TransactionStatusSuccess) as [Hs|Hs].
    + destruct (StellarTransactionHash tx) as [hash|] eqn:Eh; [|done]. injection Hu as <-.
      left. split; [done|]. exists hash. split; [done|]. by destruct s.
    + destruct (String.eqb_spec (Status tx) TransactionStatusError); [|done]. injection Hu as <-.
      right. split; [done|]. by destruct s.
  - intros k Hk. rewrite lookup_with_sponsored. by destruct (String.eqb_spec k (ExternalID tx)).
Qed.

(** *** The receivers' wallets *)

(** What decides whether, and for whom, a wallet is registered: no outcome changes it. *)
Definition link (ew : EmbeddedWallet) : option string * bool := (EW_ReceiverWalletID ew, EW_RequiresVerification ew).

Definition linked (token : string) (l : option string * bool) (db : SdpDb) : Prop :=
  exists ew, lookup_embedded_wallet token db = Some ew /\ link ew = l.

Lemma linked_synced tx db db' token l :
  wallet_synced networkPassphrase tx db db' -> linked token l db' <-> linked token l db.
Proof.
  intros H. apply wallet_synced_row in H as [(ew & ew' & Hl & Hl' & t & Hset) Hout]. unfold linked.
  destruct (decide (token = ExternalID tx)) as [->|Hne]; [|by rewrite Hout].
  rewrite Hl, Hl'. assert (He : link ew' = link ew)
    by (destruct Hset as [(_ & account & address & _ & _ & ->)|(_ & ->)]; by destruct ew).
  split; intros (x & [= <-] & <-); eauto.
Qed.

(** The transaction registers the receiver's wallet [id], at [address]. *)
Definition registers_for (tx : Transaction) (id address : string) (db : SdpDb) : Prop :=
  Status tx = TransactionStatusSuccess /\ id <> "" /\ linked (ExternalID tx) (Some id, false) db /\
  exists account, DistributionAccount tx = Some account /\
    calculateContractAddress networkPassphrase account (PublicKey tx) = Ok address.

Lemma set_auto_registration address now ctx rw :
  address <> "" ->
  registered_as address rw (refresh_receiver_wallet ctx (set_wallet_update (registration address now) ctx rw)).
Proof.
  intros Hne. apply eqb_false in Hne. exists (NOW ctx), now. unfold registration, set_wallet_update. cbn.
  rewrite Hne. by destruct rw.
Qed.

Lemma receiver_of_one tx db db' :
  wallet_synced networkPassphrase tx db db' -> NoDup (map RW_ID (receiver_wallets db)) ->
  NoDup (map RW_ID (receiver_wallets db')) /\
  forall id rw, lookup_receiver_wallet id db = Some rw -> exists rw', lookup_receiver_wallet id db' = Some rw' /\
    (rw' = rw \/ RW_Status rw <> RegisteredReceiversWalletStatus /\
       exists address, registers_for tx id address db /\ registered_as address rw rw') /\
    (forall address, registers_for tx id address db -> RW_Status rw' = RegisteredReceiversWalletStatus).
Proof.
  intros (ew & u & ctx & Hl & Hu & Hdb') Hnd. cbn zeta in Hdb'.
  assert (Hlink : forall id address, registers_for tx id address db ->
    auto_registers tx ew = true /\ default "" (EW_ReceiverWalletID ew) = id).
  { intros id address (Hs & Hid & (ew2 & Hl2 & Hlk) & _). rewrite Hl in Hl2. injection Hl2 as <-.
    unfold link in Hlk. injection Hlk as Hrw Hreq. unfold auto_registers. rewrite Hs, Hrw, Hreq. cbn.
    apply eqb_false in Hid. by rewrite Hid. }
  destruct (auto_registers tx ew) eqn:Ea.
  2: { subst db'. split; [done|]. intros id rw Hrw. exists rw. split; [done|]. split; [by left|].
       intros address Hr. by apply Hlink in Hr as [? _]. }
  destruct Hdb' as (rw0 & Hin & Hid0 & Hcase).
  assert (Hl0 : lookup_receiver_wallet (RW_ID rw0) db = Some rw0) by by apply (first_such_unique RW_ID).
  destruct Hcase as [[Hreg ->]|(Hnreg & c2 & now & ->)].
  { split; [done|]. intros id rw Hrw. exists rw. split; [done|]. split; [by left|].
    intros address Hr. apply Hlink in Hr as [_ Hr]. rewrite Hid0, Hr, Hrw in Hl0. congruence. }
  split.
  { unfold with_registered, with_wallet. cbn [set_field receiver_wallets].
    rewrite (update_where_proj _ _ RW_ID); [done|]. intros x _. apply set_wallet_update_id. }
  intros id rw Hrw. set (set := fun x => refresh_receiver_wallet c2 (set_wallet_update (registration (EWU_ContractAddress u) now) c2 x)).
  assert (Hl' : lookup_receiver_wallet id (with_registered c2 (default "" (EW_ReceiverWalletID ew)) (EWU_ContractAddress u)
      now (with_wallet ctx (ExternalID tx) u db)) =
    if id =? default "" (EW_ReceiverWalletID ew) then Some (set rw) else Some rw).
  { transitivity (if id =? default "" (EW_ReceiverWalletID ew) then set <$> lookup_receiver_wallet id db
                  else lookup_receiver_wallet id db).
    - apply (lookup_key_update RW_ID). intros x. apply set_wallet_update_id.
    - by rewrite Hrw. }
  rewrite Hl'. unfold auto_registers in Ea. rewrite !andb_true_iff in Ea. destruct Ea as [[Hs Hne] Hreq].
  apply String.eqb_eq in Hs. apply negb_true_iff, eqb_false in Hne. apply negb_true_iff in Hreq.
  destruct (String.eqb_spec id (default "" (EW_ReceiverWalletID ew))) as [He|He].
  - apply wallet_outcome_ok in Hu as [(_ & account & address & Ha & Hc & Hnea & ->)|(Hs' & _)]; [|by rewrite Hs in Hs'].
    eexists. split; [done|]. rewrite Hid0, <- He, Hrw in Hl0. injection Hl0 as ->.
    split; [right|by intros; eapply registered_as_status, set_auto_registration]. split; [done|]. exists address. split; [|by apply set_auto_registration].
    split; [done|]. split; [congruence|]. split; [|by exists account].
    exists ew. split; [done|]. unfold link. rewrite Hreq, He. destruct (EW_ReceiverWalletID ew); [done|]. by destruct Hne.
  - exists rw. split; [done|]. split; [by left|]. intros address Hr. apply Hlink in Hr as [_ Hr]. congruence.
Qed.

Lemma registers_for_synced tx0 tx id address db db' :
  wallet_synced networkPassphrase tx0 db db' -> registers_for tx id address db' <-> registers_for tx id address db.
Proof. intros H. unfold registers_for. by rewrite (linked_synced tx0 db db'). Qed.

Lemma chain_receivers batch db db' :
  chain (wallet_synced networkPassphrase) batch db db' -> NoDup (map RW_ID (receiver_wallets db)) ->
  forall id rw, lookup_receiver_wallet id db = Some rw -> exists rw', lookup_receiver_wallet id db' = Some rw' /\
    (rw' = rw \/ RW_Status rw <> RegisteredReceiversWalletStatus /\
       exists tx address, tx ∈ batch /\ registers_for tx id address db /\ registered_as address rw rw') /\
    (forall tx address, tx ∈ batch -> registers_for tx id address db -> RW_Status rw' = RegisteredReceiversWalletStatus).
Proof.
  induction 1 as [db|tx batch db db1 db' H1 Hc IH]; intros Hnd id rw Hl.
  { exists rw. split; [done|]. split; [by left|]. by intros ? ? []%elem_of_nil. }
  destruct (receiver_of_one _ _ _ H1 Hnd) as [Hnd1 Hone]. destruct (Hone id rw Hl) as (rw1 & Hl1 & Hor1 & Hreg1).
  destruct (IH Hnd1 id rw1 Hl1) as (rw' & Hl' & Hor & Hreg). exists rw'. split; [done|].
  assert (Hkeep : RW_Status rw1 = RegisteredReceiversWalletStatus -> rw' = rw1) by (destruct Hor as [?|[? _]]; [done|done]).
  split.
  - destruct Hor as [->|(Hn & tx' & address & Hin & Hr & Has)].
    + destruct Hor1 as [->|(Hn & address & Hr & Has)]; [by left|]. right. split; [done|].
      exists tx, address. split; [by left|done].
    + assert (rw1 = rw) as -> by (destruct Hor1 as [?|(_ & ? & _ & Hs%registered_as_status)]; [done|done]).
      right. split; [done|]. exists tx', address. split; [by right|]. split; [|done].
      by apply (registers_for_synced tx _ _ _ db db1).
  - intros tx' address [->|Hin]%elem_of_cons Hr.
    + rewrite (Hkeep (Hreg1 address Hr)). by apply (Hreg1 address).
    + apply (Hreg tx' address); [done|]. by apply (registers_for_synced tx _ _ _ db db1).
Qed.

Lemma chain_receiver_ids batch db db' :
  chain (wallet_synced networkPassphrase) batch db db' ->
  map RW_ID (receiver_wallets db') = map RW_ID (receiver_wallets db).
Proof.
  induction 1 as [|tx batch db db1 db' (ew & u & ctx & _ & _ & H1) _ IH]; [done|]. rewrite IH. cbn zeta in H1.
  destruct (auto_registers tx ew); [|by rewrite H1].
  destruct H1 as (rw & _ & _ & [[_ ->]|(_ & c2 & now & ->)]); [done|].
  apply (update_where_proj _ _ RW_ID). intros x _. apply set_wallet_update_id.
Qed.

(** The tables the synchronisation has no business with. *)
Definition other_tables (db : SdpDb) : SdpDb := db <| embedded_wallets := [] |> <| receiver_wallets := [] |>.

Lemma chain_other_tables batch db db' :
  chain (wallet_synced networkPassphrase) batch db db' -> other_tables db' = other_tables db.
Proof.
  induction 1 as [|tx batch db db1 db' (ew & u & ctx & _ & _ & H1) _ IH]; [done|]. rewrite IH. cbn zeta in H1.
  destruct (auto_registers tx ew); [|by rewrite H1].
  destruct H1 as (rw & _ & _ & [[_ ->]|(_ & c2 & now & ->)]); done.
Qed.
End outcomes.

(** ** The theorems *)

Section theorems.
Context {D L Ev : Type} {E : Env D} {C : Conn D SdpDb} {CL : ConnLaws D SdpDb} {T : Conn D TssDb}
  {TL : ConnLaws D TssDb} {CI : ConnIndep D SdpDb TssDb} {SDK : StellarSdk} {CId : ContractIds} {CIL : ContractIdLaws}.
Implicit Types w : World D L Ev.

(** C30: A synchronisation of wallet creations that succeeds took the finished
    transactions of the tenant that were not synchronised, all of them that no other
    process ever holds unless the batch is full, and marked them.  Each that is alone
    in the batch for its wallet settled it: with the address that follows from the
    network, the distribution account and the key of the transaction, or as failed.
    A receiver's wallet is registered at that address exactly for the successful ones
    whose wallet belongs to it and asks for no verification, unless it was registered
    before; nothing else of it changes but what records that.  No other row of an
    embedded or receiver wallet and no other table of the tenant changes. *)
Theorem wallet_creations_are_settled (networkPassphrase : string) (batchSize : Z) (tenantID : string) w w'
    (Htx : w_tx w = ∅) (Hpk : NoDup (map RW_ID (receiver_wallets (sdp (settle w)))))
    (Hrun : WalletCreation_SyncBatchTransactions networkPassphrase batchSize tenantID w = (Ok tt, w')) :
  exists batch,
    Forall (finished_batch TransactionTypeWalletCreation tenantID (tss (settle w))) batch /\
    complete_batch batchSize TransactionTypeWalletCreation tenantID (tss (settle w)) batch /\
    marked (map ID batch) (tss (settle w)) (tss w') /\
    (forall tx, once ExternalID tx batch ->
       exists ew ew', lookup_embedded_wallet (ExternalID tx) (sdp (settle w)) = Some ew /\
         lookup_embedded_wallet (ExternalID tx) (sdp w') = Some ew' /\ wallet_settled networkPassphrase tx ew ew') /\
    (forall token, token ∉ map ExternalID batch ->
       lookup_embedded_wallet token (sdp w') = lookup_embedded_wallet token (sdp (settle w))) /\
    (forall id rw, lookup_receiver_wallet id (sdp (settle w)) = Some rw ->
       exists rw', lookup_receiver_wallet id (sdp w') = Some rw' /\
         (rw' = rw \/ RW_Status rw <> RegisteredReceiversWalletStatus /\
            exists tx address, tx ∈ batch /\ registers_for networkPassphrase tx id address (sdp (settle w)) /\
              registered_as address rw rw') /\
         (forall tx address, tx ∈ batch -> registers_for networkPassphrase tx id address (sdp (settle w)) ->
            RW_Status rw' = RegisteredReceiversWalletStatus)) /\
    map RW_ID (receiver_wallets (sdp w')) = map RW_ID (receiver_wallets (sdp (settle w))) /\
    other_tables (sdp w') = other_tables (sdp (settle w)).
Proof.
  destruct (sync_batch_ok (wallet_synced networkPassphrase) _ _ _ _ _ _ _ _ _ _ (wallet_sync_open networkPassphrase) Htx Hrun)
    as (batch & Hb & Hall & Hch & Hm). exists batch.
  destruct (chain_once lookup_embedded_wallet ExternalID _ (wallet_settled networkPassphrase) _ _ _
    (wallet_synced_row networkPassphrase) Hch) as [Hout Hin].
  split; [eapply Forall_impl; [exact Hb|]; by intros tx [? _]|]. split; [done|]. split; [done|]. split; [exact Hin|].
  split; [exact Hout|].
  split; [|split; [by apply (chain_receiver_ids networkPassphrase batch)|by apply (chain_other_tables networkPassphrase batch)]].
  intros id rw Hl. exact (chain_receivers _ _ _ _ Hch Hpk id rw Hl).
Qed.

(** The same of sponsored transactions: each finished one that is alone for its row
    settled it, with its hash or as failed, and is marked; no other row changes. *)
Theorem sponsored_transactions_are_settled (batchSize : Z) (tenantID : string) w w' (Htx : w_tx w = ∅)
    (Hrun : Sponsored_SyncBatchTransactions batchSize tenantID w = (Ok tt, w')) :
  exists batch,
    Forall (finished_batch TransactionTypeSponsored tenantID (tss (settle w))) batch /\
    complete_batch batchSize TransactionTypeSponsored tenantID (tss (settle w)) batch /\
    marked (map ID batch) (tss (settle w)) (tss w') /\
    (forall tx, once ExternalID tx batch ->
       exists s s', lookup_sponsored (ExternalID tx) (sdp (settle w)) = Some s /\
         lookup_sponsored (ExternalID tx) (sdp w') = Some s' /\ sponsored_settled tx s s') /\
    (forall id, id ∉ map ExternalID batch -> lookup_sponsored id (sdp w') = lookup_sponsored id (sdp (settle w))).
Proof.
  destruct (sync_batch_ok sponsored_synced _ _ _ _ _ _ _ _ _ _ sponsored_sync_open Htx Hrun)
    as (batch & Hb & Hall & Hch & Hm). exists batch.
  destruct (chain_once lookup_sponsored ExternalID _ sponsored_settled _ _ _ sponsored_synced_row Hch) as [Hout Hin].
  split; [eapply Forall_impl; [exact Hb|]; by intros tx [? _]|]. done.
Qed.
End theorems.

(** ** The service *)

Section service.
Context {D L Ev : Type} {E : Env D} {C : Conn D SdpDb} {CL : ConnLaws D SdpDb} {T : Conn D TssDb}
  {TL : ConnLaws D TssDb} {CI : ConnIndep D SdpDb TssDb} {SDK : StellarSdk} {TB : TxnBuild} {TO : TxnBuildOps}
  {OX : OperationXdr} {UU : GoogleUuid}.
Implicit Types w : World D L Ev.

Definition claim (wasmHash publicKey credentialID : string) : EmbeddedWalletUpdate :=
  no_wallet_update <| EWU_WasmHash := wasmHash |> <| EWU_CredentialID := credentialID |> <| EWU_PublicKey := publicKey |>.

Lemma GetByToken_opens token :
  opens (X := SdpDb) (GetByToken token : M D L Ev _) (fun ew x x' => x' = x /\ lookup_embedded_wallet token x = Some ew).
Proof.
  unfold GetByToken, get_wallet, no_rows_as. eapply opens_mono; [apply opens_map_err, opens_GetContext|].
  intros ew x x' [ctx [= H <-]]. done.
Qed.

Lemma check_credential_opens ew credentialID :
  opens (X := SdpDb) (check_credential ew credentialID : M D L Ev unit) (fun _ x x' => x' = x).
Proof.
  unfold check_credential. eapply opens_bind_with; [apply opens_try_GetContext|]. intros [found|e]; cbn beta iota.
  - eapply opens_mono; [apply opens_lift|]. intros u x x' [_ ->] y (ctx & o & [= _ <-] & _). done.
  - destruct (errors_Is_err e ErrRecordNotFound); [|apply opens_throw].
    eapply opens_mono; [apply opens_ret|]. intros u x x' [_ ->] y (ctx & o & [= _ <-] & _). done.
Qed.

Lemma EW_Update_opens token u :
  opens (X := SdpDb) (EW_Update token u : M D L Ev unit) (fun _ x x' => exists ctx, x' = with_wallet ctx token u x /\
    credentials_ok (embedded_wallets x')).
Proof.
  unfold EW_Update. eapply opens_bind_with; [apply opens_wrap, opens_lift|]. intros u1.
  eapply opens_bind_with; [apply opens_map_err, opens_stmt|]. intros rows.
  eapply opens_mono; [apply opens_lift|]. intros u2 x x' [_ ->] y [ctx H] z [_ ->].
  apply check_embedded_wallets_ok in H as (_ & -> & Hc & _). exists ctx. split; [done|exact Hc].
Qed.

Lemma create_wallet_opens wasmHash token publicKey credentialID :
  opens (X := SdpDb) (create_wallet wasmHash token publicKey credentialID : M D L Ev unit) (fun _ x x' => exists ew ctx,
    lookup_embedded_wallet token x = Some ew /\ EW_WalletStatus ew = PendingWalletStatus /\
    x' = with_wallet ctx token (claim wasmHash publicKey credentialID) x /\ credentials_ok (embedded_wallets x')).
Proof.
  unfold create_wallet, not_found_to. eapply opens_bind_with; [apply opens_map_err, GetByToken_opens|]. intros ew.
  destruct (String.eqb_spec (EW_WalletStatus ew) PendingWalletStatus) as [Hs|Hs]; cbn [negb]; [|apply opens_throw].
  eapply opens_bind_with; [apply check_credential_opens|]. intros u1.
  eapply opens_mono; [apply opens_map_err, EW_Update_opens|].
  intros u2 x x' (ctx & -> & Hc) y -> z [-> Hl]. pose proof (lookup_embedded_token _ _ _ Hl) as Ht. rewrite Ht in *.
  exists ew, ctx. done.
Qed.

(** C31: The invitation is redeemed only while its wallet is PENDING: a [CreateWallet] that
    answers gave the wallet of the token, which was PENDING, the key, the credential and the
    code of the server; nothing else of it, and no other row, changed, and no other
    wallet has the credential. *)
Theorem wallet_is_claimed (wasmHash token publicKey credentialID : string) w w' (Hwasm : wasmHash <> "")
    (Hrun : CreateWallet wasmHash token publicKey credentialID w = (Ok tt, w')) :
  exists ew t, lookup_embedded_wallet token (sdp (settle w)) = Some ew /\ EW_WalletStatus ew = PendingWalletStatus /\
    lookup_embedded_wallet token (sdp w') = Some (ew <| EW_WasmHash := wasmHash |>
      <| EW_CredentialID := Some credentialID |> <| EW_PublicKey := Some publicKey |> <| EW_UpdatedAt := t |>) /\
    (forall other, other <> token ->
       lookup_embedded_wallet other (sdp w') = lookup_embedded_wallet other (sdp (settle w))) /\
    (forall ew', ew' ∈ embedded_wallets (sdp w') -> EW_CredentialID ew' = Some credentialID -> EW_Token ew' = token) /\
    (sdp w') <| embedded_wallets := [] |> = (sdp (settle w)) <| embedded_wallets := [] |>.
Proof.
  unfold CreateWallet in Hrun. destruct (String.eqb_spec token ""); [done|].
  destruct (String.eqb_spec publicKey "") as [|Hpk]; [done|]. destruct (String.eqb_spec credentialID "") as [|Hcred]; [done|].
  apply (RunInTransaction_opens _ _ w tt w' (create_wallet_opens wasmHash token publicKey credentialID))
    in Hrun as (ew & ctx & Hl & Hs & Hx & Hc). fold (sdp w') in Hx, Hc. fold (sdp (settle w)) in Hl, Hx.
  apply eqb_false in Hwasm, Hpk, Hcred. exists ew, (NOW ctx). split; [done|]. split; [done|].
  assert (Hnew : lookup_embedded_wallet token (sdp w') = Some (ew <| EW_WasmHash := wasmHash |>
      <| EW_CredentialID := Some credentialID |> <| EW_PublicKey := Some publicKey |> <| EW_UpdatedAt := NOW ctx |>)).
  { rewrite Hx, lookup_with_wallet, eqb_same, Hl. unfold set_embedded_wallet, claim, given_or, given_else. cbn.
    rewrite Hwasm, Hpk, Hcred. by destruct ew. }
  split; [done|]. split; [|split].
  - intros other Ho. rewrite Hx, lookup_with_wallet. by destruct (String.eqb_spec other token).
  - intros ew' Hin Hcr. pose proof (lookup_embedded_token _ _ _ Hnew) as Ht.
    apply first_such_some in Hnew as [Hin2 _]. by rewrite (omap_unique EW_CredentialID _ _ _ _ Hc Hin Hin2 Hcr eq_refl).
  - by rewrite Hx.
Qed.

(** What is sponsored was simulated: a call of a contract, made from the distribution
    account of the tenant, that the network accepted; and it is recorded PENDING for the
    account, the one row added. *)
Theorem sponsored_calls_are_simulated (ctx : Context_) (account operationXDR : string) w id w'
    (Hrun : SponsorTransaction ctx account operationXDR w = (Ok id, w')) :
  exists distributionAccount args auth tx envelope t response,
    distribution_address ctx = Ok distributionAccount /\
    xdr_SafeUnmarshalBase64 operationXDR = Ok (InvokeContract (Some args), auth) /\
    NewTransaction (simulation_params distributionAccount (InvokeContract (Some args)) auth) = Ok tx /\
    InnerTx_Base64 tx = Ok envelope /\ SimulateTransaction t envelope = Ok response /\
    TrimSpace account <> "" /\
    exists before now, sponsored_transactions (sdp w') = before ++
      [mkSponsoredTransaction id (TrimSpace account) operationXDR PendingSponsoredTransactionStatus None now now].
Proof.
  unfold SponsorTransaction in Hrun. destruct (String.eqb_spec (TrimSpace account) "") as [|Ha]; [done|].
  destruct (String.eqb_spec operationXDR "") as [|Hop]; [done|]. apply mbind_ok in Hrun as ([] & w1 & H1 & Hrun).
  apply map_errM_ok in H1. unfold simulateSponsoredTransaction in H1.
  apply mbind_ok in H1 as (address & w2 & H2 & H1). apply lift_ok in H2 as [Haddr ->].
  apply mbind_ok in H1 as ([f auth] & w2 & H2 & H1). apply map_errM_ok, lift_ok in H2 as [Hdec ->].
  apply mbind_ok in H1 as (args & w2 & H2 & H1). apply lift_ok in H2 as [Hargs ->].
  apply mbind_ok in H1 as (tx & w2 & H2 & H1). apply map_errM_ok, lift_ok in H2 as [Htx ->].
  apply mbind_ok in H1 as (envelope & w2 & H2 & H1). apply map_errM_ok, lift_ok in H2 as [Henv ->].
  unfold ask_res in H1. injection H1 as Hsim <-. destruct (SimulateTransaction _ _) as [response|] eqn:Es; [|done].
  assert (Hf : f = InvokeContract (Some args)) by (destruct f as [[]| |]; cbn in Hargs; congruence). subst f.
  exists address, args, auth, tx, envelope, (w_clock w), response. do 6 (split; [done|]).
  apply (RunInTransaction_opens _ (fun id x x' => exists before now, sponsored_transactions x' = before ++
      [mkSponsoredTransaction id (TrimSpace account) operationXDR PendingSponsoredTransactionStatus None now now])) in Hrun;
    [exact Hrun|].
  eapply opens_bind_with; [apply opens_ask|]. intros i.
  eapply opens_bind_with; [apply opens_wrap|].
  { unfold ST_Insert. eapply opens_bind_with; [apply opens_wrap, opens_lift|]. intros u1.
    eapply opens_mono; [apply opens_wrap, opens_stmt|]. intros a x x' H y [_ ->]. exact H. }
  intros st. eapply opens_mono; [apply opens_ret|]. intros b x x' [-> ->] y [c H] z _.
  apply check_sponsored_ok in H as (-> & -> & _). by exists (sponsored_transactions y), (NOW c).
Qed.
End service.

(** ** Witnesses *)

Module Wallets.
Export Platform.
#[export] Instance indep : ConnIndep Dbs SdpDb TssDb := Queue.indep.
#[export] Instance txnbuild : TxnBuild := Handlers.Toy.txnbuild.
#[export] Instance ops : TxnBuildOps := Handlers.Toy.ops.
#[export] Instance google : GoogleUuid := {| uuid_valid _ := true; uuid_NewString t := "v" +:+ itoa (Z.of_nat t) |}.
#[export] Instance operations : OperationXdr :=
  {| xdr_SafeUnmarshalBase64 x := Ok (InvokeContract (Some x), []); called_contract x := Ok x;
     xdr_NewCreditAsset code issuer := Ok (CreditAsset code issuer); xdr_ContractID _ _ := Ok "CASSET" |}.

(** The address of a contract is read off its preimage, here the key alone. *)
#[export] Instance ids : ContractIds :=
  {| hash_Hash b := b; strkey_DecodeAccountID s := Ok (bytes_of s);
     strkey_EncodeContract b := Ok ("C" +:+ hex_EncodeToString b); preimage_MarshalBinary p := Ok (Salt p) |}.
#[export] Instance ids_laws : ContractIdLaws.
Proof. constructor. by intros b s [= <-]. Qed.

Definition tenant : Tenant := Queue.tenant.
Definition ready : ReceiverWallet := invited <| RW_Status := ReadyReceiversWalletStatus |>.
Definition invitation : EmbeddedWallet := mkEmbeddedWallet "t1" "aa" None None None (Some "rw2") false PendingWalletStatus 0 0.
Definition redeemed : EmbeddedWallet :=
  invitation <| EW_CredentialID := Some "cred" |> <| EW_PublicKey := Some "04" |>.
Definition sponsored_call : SponsoredTransaction := mkSponsoredTransaction "s1" "CWALLET" "op" PendingSponsoredTransactionStatus None 0 0.

Definition tables (ew : EmbeddedWallet) (s : SponsoredTransaction) : SdpDb :=
  (sdp_db false [] []) <| receiver_wallets := [registered; ready] |> <| embedded_wallets := [ew] |>
    <| sponsored_transactions := [s] |>.

(** What the submission service leaves of its queue. *)
Definition succeeded (db : TssDb) : TssDb :=
  mkTssDb (map (fun tx => tx <| Status := TransactionStatusSuccess |> <| StellarTransactionHash := Some "" |>
                            <| DistributionAccount := Some "GDIST" |>) (submitter_transactions db)) [].

Definition to_create : World Dbs unit unit := world (tables redeemed sponsored_call) [].
Definition sent : World Dbs unit unit := snd (SendBatchWalletCreations (Some tenant) 10 to_create).
Definition created : World Dbs unit unit := put_part (succeeded (tss sent)) sent.
Definition sponsored_sent : World Dbs unit unit := snd (SendBatchSponsoredTransactions (Some tenant) 10 to_create).
Definition sponsored_done : World Dbs unit unit := put_part (succeeded (tss sponsored_sent)) sponsored_sent.

(** The instant of the last commit of sending the wallets, and what is left when it is lost. *)
Definition commit_of_sdp : nat := pred (w_clock sent).
Definition lost : World Dbs unit unit :=
  snd (SendBatchWalletCreations (E := Queue.losing commit_of_sdp) (Some tenant) 10 to_create).
Definition reclaimed : World Dbs unit unit := snd (CreateWallet "aa" "t1" "05" "other" lost).
Definition mixed : World Dbs unit unit :=
  snd (WalletCreation_SyncBatchTransactions "network" 10 "tenant" (put_part (succeeded (tss reclaimed)) reclaimed)).
End Wallets.
Import Wallets.

Lemma wallet_creations_are_queued_witness :
  exists w', SendBatchWalletCreations (Some tenant) 10 to_create = (Ok tt, w') /\
    exists ew', lookup_embedded_wallet "t1" (sdp w') = Some ew' /\ EW_WalletStatus ew' = ProcessingWalletStatus.
Proof.
  eexists. split; [vm_compute; reflexivity|].
  edestruct (wallet_creations_are_queued (E := env) (C := sdp_conn) (T := tss_conn) (Some tenant) 10 to_create)
    as (tnt & batch & _ & _ & _ & Hq & H); [reflexivity|vm_compute; reflexivity|].
  destruct (H "t1" redeemed) as [Hin Hout]; [reflexivity|].
  destruct (decide ("t1" ∈ map EW_Token batch)) as [Hb|Hb].
  - destruct (Hin Hb) as (ew' & Hl & t & ->). eexists. split; [exact Hl|reflexivity].
  - specialize (Hout Hb). vm_compute in Hout. discriminate.
Defined.

Lemma sponsored_transactions_are_queued_witness :
  exists w', SendBatchSponsoredTransactions (Some tenant) 10 to_create = (Ok tt, w') /\
    exists s', lookup_sponsored "s1" (sdp w') = Some s' /\ ST_Status s' = ProcessingSponsoredTransactionStatus.
Proof.
  eexists. split; [vm_compute; reflexivity|].
  edestruct (sponsored_transactions_are_queued (E := env) (C := sdp_conn) (T := tss_conn) (Some tenant) 10 to_create)
    as (tnt & batch & _ & _ & _ & Hq & H); [reflexivity|vm_compute; reflexivity|].
  destruct (H "s1" sponsored_call) as [Hin Hout]; [reflexivity|].
  destruct (decide ("s1" ∈ map ST_ID batch)) as [Hb|Hb].
  - destruct (Hin Hb) as (s' & Hl & t & ->). eexists. split; [exact Hl|reflexivity].
  - specialize (Hout Hb). vm_compute in Hout. discriminate.
Defined.

Lemma wallet_creations_are_settled_witness :
  exists w', WalletCreation_SyncBatchTransactions "network" 10 "tenant" created = (Ok tt, w') /\
    exists rw', lookup_receiver_wallet "rw2" (sdp w') = Some rw' /\ RW_StellarAddress rw' = Some "C04".
Proof.
  eexists. split; [vm_compute; reflexivity|].
  edestruct (wallet_creations_are_settled (E := env) (C := sdp_conn) (T := tss_conn) "network" 10 "tenant" created)
    as (batch & _ & _ & _ & _ & _ & H & _); [reflexivity|by_computation|vm_compute; reflexivity|].
  destruct (H "rw2" ready) as (rw' & Hl & Hor & _); [reflexivity|]. exists rw'. split; [exact Hl|].
  vm_compute in Hl. injection Hl as <-. reflexivity.
Defined.

Lemma sponsored_transactions_are_settled_witness :
  exists w', Sponsored_SyncBatchTransactions 10 "tenant" sponsored_done = (Ok tt, w') /\
    ST_Status <$> lookup_sponsored "s1" (sdp w') = Some SuccessSponsoredTransactionStatus.
Proof.
  eexists. split; [vm_compute; reflexivity|].
  edestruct (sponsored_transactions_are_settled (E := env) (C := sdp_conn) (T := tss_conn) 10 "tenant" sponsored_done)
    as (batch & _ & _ & _ & _ & _); [reflexivity|vm_compute; reflexivity|]. vm_compute. reflexivity.
Defined.

Lemma wallet_is_claimed_witness :
  exists w', CreateWallet "aa" "t1" "04" "cred" (world (tables invitation sponsored_call) []) = (Ok tt, w') /\
    EW_PublicKey <$> lookup_embedded_wallet "t1" (sdp w') = Some (Some "04").
Proof.
  eexists. split; [vm_compute; reflexivity|].
  edestruct (wallet_is_claimed (E := env) (C := sdp_conn) "aa" "t1" "04" "cred" (world (tables invitation sponsored_call) []))
    as (ew & t & _ & _ & Hl & _); [discriminate|vm_compute; reflexivity|]. rewrite Hl. reflexivity.
Defined.

Lemma sponsored_calls_are_simulated_witness :
  exists id w', SponsorTransaction (Some tenant) "CWALLET" "op" to_create = (Ok id, w') /\
    exists before s, sponsored_transactions (sdp w') = before ++ [s] /\ ST_Account s = "CWALLET".
Proof.
  eexists _, _. split; [vm_compute; reflexivity|].
  edestruct (sponsored_calls_are_simulated (E := env) (C := sdp_conn) (Some tenant) "CWALLET" "op" to_create)
    as (a & args & auth & tx & envelope & t & response & _ & _ & _ & _ & _ & _ & before & now & H);
    [vm_compute; reflexivity|]. eexists before, _. split; [exact H|reflexivity].
Defined.

(** The two commits are not one here either: when the last commit of the tenant's
    database is lost, the creation is queued with the first key while the wallet is still
    PENDING, so the invitation can be redeemed again.  The synchronisation asks for no
    status before: the wallet becomes SUCCESS, with the address of the first key and the
    key and the credential of the second, and the receiver is registered there. *)
Theorem lost_commit_mixes_keys :
  is_ok (fst (SendBatchWalletCreations (E := Queue.losing commit_of_sdp) (Some tenant) 10 to_create)) = false /\
  is_ok (fst (CreateWallet "aa" "t1" "05" "other" lost)) = true /\
  is_ok (fst (SendBatchWalletCreations (Some tenant) 10 reclaimed)) = false /\
  (fun ew => (EW_WalletStatus ew, EW_ContractAddress ew, EW_PublicKey ew, EW_CredentialID ew))
    <$> lookup_embedded_wallet "t1" (sdp mixed) = Some (SuccessWalletStatus, Some "C04", Some "05", Some "other") /\
  RW_StellarAddress <$> lookup_receiver_wallet "rw2" (sdp mixed) = Some (Some "C04").
Proof. split_and!; vm_compute; reflexivity. Qed.
