(* ===== verification/Links.v ===== *)
(** Links that carry a signature: the values of a query ([net/url]), [SignURL] and
    [VerifySignedURL] of [internal/utils/url.go], and the deep link that invites a
    receiver, [WalletDeepLink] of [send_receiver_wallets_invite_service.go]. *)

From S2P Require Import Prelude GoStrings Errors Effects Handlers TxStore Tenants TenantHandlers.
From Stdlib Require Import Ascii String.

Local Open Scope string_scope.
Local Open Scope list_scope.
Local Open Scope go_scope.

(** ** The values of a query: [url.Values] *)

Abbreviation Values := (gmap string (list string)).

Definition Values_Get (key : string) (v : Values) : string := default "" (v !! key ≫= hd_error).
Definition Values_Add (key value : string) (v : Values) : Values :=
  <[key := default [] (v !! key) ++ [value]]> v.
Definition Values_Del (key : string) (v : Values) : Values := delete key v.

Definition unreserved (c : ascii) : bool :=
  is_lower c || is_upper c || is_digit c || existsb (Ascii.eqb c) ["-"; "_"; "."; "~"]%char.

Definition upper_hex (n : nat) : ascii := byte_of (if (n <? 10)%nat then n + 48 else n + 55)%nat.

Definition escape_byte (c : ascii) : string :=
  if Ascii.eqb c " " then "+"
  else if unreserved c then String c ""
  else String "%" (String (upper_hex (code c / 16)) (String (upper_hex (code c mod 16)) "")).

Fixpoint QueryEscape (s : string) : string :=
  match s with
  | EmptyString => ""
  | String c s' => escape_byte c +:+ QueryEscape s'
  end.

(** [None] where a percent sign is not followed by two hexadecimal digits. *)
Fixpoint QueryUnescape (s : string) : option string :=
  match s with
  | EmptyString => Some ""
  | String c s' =>
    if Ascii.eqb c "%" then
      match s' with
      | String a (String b s'') =>
        h ← hex_digit a; l ← hex_digit b; String (byte_of (Z.to_nat (h * 16 + l))) <$> QueryUnescape s''
      | _ => None
      end
    else if Ascii.eqb c "+" then String " " <$> QueryUnescape s'
    else String c <$> QueryUnescape s'
  end.

(** [strings.Cut] at a byte. *)
Fixpoint Cut (sep : ascii) (s : string) : string * option string :=
  match s with
  | EmptyString => ("", None)
  | String c s' =>
    if Ascii.eqb c sep then ("", Some s')
    else let '(before, after) := Cut sep s' in (String c before, after)
  end.

Fixpoint split_at (sep : ascii) (s : string) : list string :=
  match s with
  | EmptyString => [""]
  | String c s' =>
    if Ascii.eqb c sep then "" :: split_at sep s'
    else match split_at sep s' with
         | [] => [String c ""]
         | piece :: pieces => String c piece :: pieces
         end
  end.

(** A key and its value; what is not well formed is left out. *)
Definition parse_pair (piece : string) : option (string * string) :=
  if Contains piece ";" || (piece =? "") then None
  else
    let '(key, value) := Cut "=" piece in
    k ← QueryUnescape key; v ← QueryUnescape (default "" value); Some (k, v).

Definition values_of (pairs : list (string * string)) : Values :=
  foldl (fun v '(key, value) => Values_Add key value v) ∅ pairs.

(** [u.Query()]. *)
Definition ParseQuery (rawQuery : string) : Values := values_of (omap parse_pair (split_at "&" rawQuery)).

Definition encode_pair (kv : string * string) : string :=
  QueryEscape (fst kv) +:+ "=" +:+ QueryEscape (snd kv).

Definition sorted_pairs (v : Values) : list (string * string) :=
  mjoin (map (fun '(key, values) => map (pair key) values)
           (merge_sort (fun a b => Is_true (String.leb (fst a) (fst b))) (map_to_list v))).

Definition Values_Encode (v : Values) : string := Join "&" (map encode_pair (sorted_pairs v)).

(** ** URLs *)

(** The parts the code reads or sets; [URL_rest] stands for the others. *)
Record URL := mkURL {
  URL_Scheme : string;
  URL_Host : string;
  URL_Path : string;
  RawQuery : string;
  Fragment : string;
  URL_rest : string }.
#[export] Instance eta_URL : Eta URL := fun u =>
  mkURL (URL_Scheme u) (URL_Host u) (URL_Path u) (RawQuery u) (Fragment u) (URL_rest u).

(** [url.Parse], [u.String()] and [path.Join]. *)
Class GoUrls := {
  go_url_Parse : string -> res URL;
  URL_String : URL -> string;
  path_Join : string -> string -> string }.

Definition URL_Query (u : URL) : Values := ParseQuery (RawQuery u).

(** The key pairs of the Stellar SDK. *)
Class StellarKeypairs := {
  Full : Type;
  keypair_ParseFull : string -> res Full;
  Full_Address : Full -> string;
  Full_Sign : Full -> string -> res (list Z);
  keypair_ParseAddress : string -> res (string -> list Z -> res unit) }.

Section signing.
Context {GU : GoUrls} {KP : StellarKeypairs}.

Definition SignURL (stellarSecretKey rawURL : string) : res string :=
  let? kp := wrap "error parsing stellar private key" (keypair_ParseFull stellarSecretKey) in
  let? u := wrap "error parsing raw url" (go_url_Parse rawURL) in
  if (URL_Scheme u =? "") || (URL_Host u =? "")
  then Err (ENew ("raw url " +:+ quote rawURL +:+ " should have both a scheme and a host"))
  else
    let u := u <| RawQuery := Values_Encode (URL_Query u) |> in
    let? signature := wrap "error signing url" (Full_Sign kp (URL_String u)) in
    Ok (URL_String u +:+ "&signature=" +:+ hex_EncodeToString signature).

Definition VerifySignedURL (signedURL expectedPublicKey : string) : res bool :=
  let? verify := wrap "error parsing expected public key" (keypair_ParseAddress expectedPublicKey) in
  let? u := wrap "error parsing signed url" (go_url_Parse signedURL) in
  let query := URL_Query u in
  let signatureHex := Values_Get "signature" query in
  if signatureHex =? "" then Err (ENew "signed url does not contain a signature")
  else
    let? signature := match hex_DecodeString signatureHex with
                      | Some bytes => Ok bytes
                      | None => Err (EWrap "error decoding signature" (EExternal "encoding/hex: invalid string"))
                      end in
    let u := u <| RawQuery := Values_Encode (Values_Del "signature" query) |> in
    let? _ := wrap "error verifying URL signature" (verify (URL_String u) signature) in
    Ok true.
End signing.

(** ** The deep link of an invitation *)

Record WalletDeepLink := mkWalletDeepLink {
  DeepLink : string;
  Route : string;
  WDL_OrganizationName : string;
  WDL_AssetCode : string;
  WDL_AssetIssuer : string;
  TenantBaseURL : string;
  TenantUIBaseURL : string;
  WDL_Token : string;
  SelfHosted : bool }.
#[export] Instance eta_WalletDeepLink : Eta WalletDeepLink := fun l =>
  mkWalletDeepLink (DeepLink l) (Route l) (WDL_OrganizationName l) (WDL_AssetCode l) (WDL_AssetIssuer l)
    (TenantBaseURL l) (TenantUIBaseURL l) (WDL_Token l) (SelfHosted l).

Section deep_link.
Context {GU : GoUrls} {KP : StellarKeypairs} {URI : RequestURLs} {SDK : StellarSdk}.

Definition isNativeAsset (wdl : WalletDeepLink) : bool :=
  (WDL_AssetIssuer wdl =? "") && is_native (WDL_AssetCode wdl).

Definition assetName (wdl : WalletDeepLink) : string :=
  if isNativeAsset wdl then "native" else WDL_AssetCode wdl +:+ "-" +:+ WDL_AssetIssuer wdl.

Definition BaseURLWithRoute (wdl : WalletDeepLink) : res string :=
  if DeepLink wdl =? "" then Err (ENew "DeepLink can't be empty")
  else
    let? deepLink := wrap "error parsing DeepLink" (go_url_Parse (DeepLink wdl)) in
    let deepLink := if URL_Scheme deepLink =? "" then deepLink <| URL_Scheme := "https" |> else deepLink in
    if (URL_Host deepLink =? "") && (URL_Path deepLink =? "") && (Route wdl =? "")
    then Err (ENew "the deep link needs to have a valid host, or path, or route")
    else
      Ok (URL_String
        (if Route wdl =? "" then deepLink
         else if (URL_Path deepLink =? "") && (URL_Host deepLink =? "") then deepLink <| URL_Path := Route wdl |>
         else deepLink <| URL_Path := path_Join (URL_Path deepLink) (Route wdl) |>)).

Definition TomlFileDomain (wdl : WalletDeepLink) : res string :=
  if TenantBaseURL wdl =? "" then Err (ENew "base URL for tenant can't be empty")
  else
    let? tenantBaseURL := wrap "setting the protocol scheme" (GetURLWithScheme (TenantBaseURL wdl)) in
    let? tenantURL := wrap ("error parsing TenantBaseURL " +:+ tenantBaseURL) (go_url_Parse tenantBaseURL) in
    Ok (URL_Host tenantURL).

Definition WalletDeepLink_validate (wdl : WalletDeepLink) : res unit :=
  if DeepLink wdl =? "" then Err (ENew "wallet schema can't be empty")
  else
    let? _ := wrap "can't generate a valid base URL for the deep link" (BaseURLWithRoute wdl) in
    if TenantBaseURL wdl =? "" then Err (ENew "tenant base URL can't be empty")
    else if WDL_OrganizationName wdl =? "" then Err (ENew "organization name can't be empty")
    else if WDL_AssetCode wdl =? "" then Err (ENew "asset code can't be empty")
    else if isNativeAsset wdl then Ok tt
    else if WDL_AssetIssuer wdl =? "" then Err (ENew "asset issuer can't be empty unless the asset code is XLM")
    else guard_err (negb (IsValidEd25519PublicKey (WDL_AssetIssuer wdl)))
      (ENew ("asset issuer is not a valid Ed25519 public key " +:+ WDL_AssetIssuer wdl)).

(** The parameters the link adds to those the deep link has. *)
Definition link_values (wdl : WalletDeepLink) (domain : string) (q : Values) : Values :=
  let q := Values_Add "asset" (assetName wdl) q in
  let q := if SelfHosted wdl then q
           else Values_Add "name" (WDL_OrganizationName wdl) (Values_Add "domain" domain q) in
  if WDL_Token wdl =? "" then q else Values_Add "token" (WDL_Token wdl) q.

Definition GetUnsignedRegistrationLink (wdl : WalletDeepLink) : res string :=
  let? _ := wrap "validating WalletDeepLink" (WalletDeepLink_validate wdl) in
  let? tomlFileDomain := wrap "getting WalletDeepLink toml file domain" (TomlFileDomain wdl) in
  let? baseURLWithRoute := wrap "getting WalletDeepLink base URL" (BaseURLWithRoute wdl) in
  let? u := wrap "parsing DeepLink" (go_url_Parse baseURLWithRoute) in
  Ok (URL_String (u <| RawQuery := Values_Encode (link_values wdl tomlFileDomain (URL_Query u)) |>)).

Definition GetSignedRegistrationLink (wdl : WalletDeepLink) (stellarSecretKey : string) : res string :=
  let? unsignedRegistrationLink := wrap "error getting unsigned registration link" (GetUnsignedRegistrationLink wdl) in
  wrap "error signing registration link" (SignURL stellarSecretKey unsignedRegistrationLink).
End deep_link.


(** ** Encoding and parsing *)

Definition lacks (sep : ascii) (s : string) : bool := negb (existsb (Ascii.eqb sep) (list_ascii_of_string s)).

Lemma append_cons c s t : String c s +:+ t = String c (s +:+ t).
Proof. done. Qed.

Lemma append_assoc s t r : s +:+ (t +:+ r) = (s +:+ t) +:+ r.
Proof. induction s as [|c s IH]; [done|]. by rewrite !append_cons, IH. Qed.

Lemma append_nil s : s +:+ "" = s.
Proof. induction s as [|c s IH]; [done|]. by rewrite append_cons, IH. Qed.

Lemma lacks_cons sep c s : lacks sep (String c s) = negb (Ascii.eqb sep c) && lacks sep s.
Proof. unfold lacks. cbn. by rewrite negb_orb. Qed.

Lemma lacks_app sep s t : lacks sep (s +:+ t) = lacks sep s && lacks sep t.
Proof.
  induction s as [|c s IH]; [done|]. rewrite append_cons.
  by rewrite !lacks_cons, IH, andb_assoc.
Qed.

Lemma Contains_lacks sep s : lacks sep s = true -> Contains s (String sep "") = false.
Proof.
  induction s as [|c s IH]; [done|]. rewrite lacks_cons, andb_true_iff, negb_true_iff. intros [Hc Hs].
  cbn [Contains]. rewrite (IH Hs), orb_false_r. unfold prefix. destruct (ascii_dec sep c) as [->|]; [|done].
  by rewrite Ascii.eqb_refl in Hc.
Qed.

(** What an escaped text is made of. *)
Definition query_char (c : ascii) : bool := unreserved c || existsb (Ascii.eqb c) ["%"; "+"; "&"; "="]%char.

Definition query_text (s : string) : bool := forallb query_char (list_ascii_of_string s).

Lemma query_text_app s t : query_text (s +:+ t) = query_text s && query_text t.
Proof.
  induction s as [|c s IH]; [done|]. rewrite append_cons.
  unfold query_text in *. cbn [forallb list_ascii_of_string]. by rewrite IH, andb_assoc.
Qed.

Lemma escape_byte_text c : query_text (escape_byte c) = true.
Proof. by destruct c as [[] [] [] [] [] [] [] []]. Qed.

Lemma escape_text s : query_text (QueryEscape s) = true.
Proof. induction s as [|c s IH]; [done|]. cbn [QueryEscape]. by rewrite query_text_app, escape_byte_text. Qed.

Lemma escape_byte_lacks sep c : existsb (Ascii.eqb sep) ["&"; "="; ";"]%char = true -> lacks sep (escape_byte c) = true.
Proof.
  cbn [existsb]. rewrite !orb_true_iff, !Ascii.eqb_eq.
  intros [-> | [-> | [-> | [=]]]]; by destruct c as [[] [] [] [] [] [] [] []].
Qed.

Lemma escape_lacks sep s : existsb (Ascii.eqb sep) ["&"; "="; ";"]%char = true -> lacks sep (QueryEscape s) = true.
Proof.
  intros H. induction s as [|c s IH]; [done|]. cbn [QueryEscape]. by rewrite lacks_app, escape_byte_lacks, IH.
Qed.

Lemma unescape_byte c s : QueryUnescape (escape_byte c +:+ s) = String c <$> QueryUnescape s.
Proof. by destruct c as [[] [] [] [] [] [] [] []]. Qed.

(** A text is read back as it was before it was escaped. *)
Lemma unescape_escape s : QueryUnescape (QueryEscape s) = Some s.
Proof. induction s as [|c s IH]; [done|]. cbn [QueryEscape]. by rewrite unescape_byte, IH. Qed.

Lemma Cut_cons sep c s :
  Cut sep (String c s) =
    if Ascii.eqb c sep then ("", Some s) else let '(before, after) := Cut sep s in (String c before, after).
Proof. done. Qed.

Lemma split_cons sep c s :
  split_at sep (String c s) =
    if Ascii.eqb c sep then "" :: split_at sep s
    else match split_at sep s with [] => [String c ""] | piece :: pieces => String c piece :: pieces end.
Proof. done. Qed.

Lemma cut_app sep s t : lacks sep s = true -> Cut sep (s +:+ String sep t) = (s, Some t).
Proof.
  induction s as [|c s IH]; [intros _; change ("" +:+ ?x) with x; by rewrite Cut_cons, Ascii.eqb_refl|].
  rewrite lacks_cons, andb_true_iff, negb_true_iff. intros [Hc Hs].
  by rewrite append_cons, Cut_cons, Ascii.eqb_sym, Hc, (IH Hs).
Qed.

Lemma split_lacks sep s : lacks sep s = true -> split_at sep s = [s].
Proof.
  induction s as [|c s IH]; [done|]. rewrite lacks_cons, andb_true_iff, negb_true_iff. intros [Hc Hs].
  by rewrite split_cons, Ascii.eqb_sym, Hc, (IH Hs).
Qed.

Lemma split_nonempty sep s : split_at sep s <> [].
Proof.
  destruct s as [|c s]; [done|]. rewrite split_cons. destruct (Ascii.eqb c sep); [done|]. by destruct (split_at sep s).
Qed.

Lemma split_app sep s t : split_at sep (s +:+ String sep t) = split_at sep s ++ split_at sep t.
Proof.
  induction s as [|c s IH]; [change ("" +:+ ?x) with x; by rewrite split_cons, Ascii.eqb_refl|].
  rewrite append_cons, !split_cons. destruct (Ascii.eqb c sep); [by rewrite IH|].
  rewrite IH. pose proof (split_nonempty sep s). by destruct (split_at sep s).
Qed.

Lemma split_join l : Forall (fun s => lacks "&" s = true) l -> l <> [] -> split_at "&" (Join "&" l) = l.
Proof.
  induction l as [|s [|s' l] IH]; [done|..]; intros Hl _; inversion Hl; subst; [by apply split_lacks|].
  change (Join "&" (s :: s' :: l)) with (s +:+ String "&" (Join "&" (s' :: l))).
  rewrite split_app, split_lacks by done. by rewrite IH.
Qed.

Lemma encode_pair_lacks kv : lacks "&" (encode_pair kv) = true.
Proof. unfold encode_pair. by rewrite !lacks_app, !escape_lacks. Qed.

Lemma parse_encode_pair kv : parse_pair (encode_pair kv) = Some kv.
Proof.
  destruct kv as [k v]. unfold parse_pair.
  assert (Hc : Contains (encode_pair (k, v)) ";" = false).
  { apply Contains_lacks. unfold encode_pair. by rewrite !lacks_app, !escape_lacks. }
  rewrite Hc. unfold encode_pair. cbn [fst snd orb].
  assert (He : (QueryEscape k +:+ "=" +:+ QueryEscape v =? "")%string = false).
  { apply String.eqb_neq. by destruct (QueryEscape k). }
  rewrite He. change ("=" +:+ QueryEscape v) with (String "=" (QueryEscape v)).
  rewrite cut_app by by apply escape_lacks. cbn. rewrite !unescape_escape. done.
Qed.

Lemma parse_query_join l : ParseQuery (Join "&" (map encode_pair l)) = values_of l.
Proof.
  unfold ParseQuery. destruct l as [|kv l]; [done|]. f_equal.
  rewrite split_join; [|apply Forall_map, Forall_true; apply encode_pair_lacks|done].
  generalize (kv :: l). induction l0 as [|x l0 IH]; [done|]. cbn. by rewrite parse_encode_pair, IH.
Qed.

Lemma values_of_app l l' : values_of (l ++ l') = foldl (fun v '(key, value) => Values_Add key value v) (values_of l) l'.
Proof. apply foldl_app. Qed.

(** Every key has a value. *)
Definition filled (v : Values) : Prop := map_Forall (fun _ values => values <> []) v.

Lemma filled_add key value v : filled v -> filled (Values_Add key value v).
Proof. intros H. apply map_Forall_insert_2; [by destruct (default [] _)|done]. Qed.

Lemma filled_values_of l : filled (values_of l).
Proof.
  unfold values_of. assert (H : filled ∅) by apply map_Forall_empty. revert H. generalize (∅ : Values).
  induction l as [|[k x] l IH]; intros v Hv; [done|]. cbn. by apply IH, filled_add.
Qed.

Lemma add_again key l x v : Values_Add key x (<[key := l]> v) = <[key := l ++ [x]]> v.
Proof. unfold Values_Add. by rewrite lookup_insert_eq, insert_insert_eq. Qed.

Lemma add_more key l rest v :
  foldl (fun v '(key, value) => Values_Add key value v) (<[key := l]> v) (map (pair key) rest) = <[key := l ++ rest]> v.
Proof.
  revert l. induction rest as [|x rest IH]; intros l; cbn [map foldl]; [by rewrite app_nil_r|].
  by rewrite add_again, IH, <- app_assoc.
Qed.

Lemma add_all key values v :
  v !! key = None -> values <> [] ->
  foldl (fun v '(key, value) => Values_Add key value v) v (map (pair key) values) = <[key := values]> v.
Proof.
  intros Hn Hne. destruct values as [|x rest]; [done|]. cbn [map foldl].
  unfold Values_Add at 2. rewrite Hn. cbn [default]. apply (add_more key [x]).
Qed.

Lemma values_of_pairs (l : list (string * list string)) v :
  NoDup (l.*1) -> Forall (fun kv => snd kv <> []) l -> (forall k, k ∈ l.*1 -> v !! k = None) ->
  foldl (fun v '(key, value) => Values_Add key value v) v
    (mjoin (map (fun '(key, values) => map (pair key) values) l)) = list_to_map l ∪ v.
Proof.
  revert v. induction l as [|[k values] l IH]; intros v Hnd Hne Hout; [by cbn; rewrite (left_id_L _ _)|].
  cbn in Hnd. apply NoDup_cons in Hnd as [Hk Hnd]. apply Forall_cons in Hne as [Hv Hne]. cbn in Hv.
  cbn [map]. change (mjoin (?x :: ?y)) with (x ++ mjoin y). rewrite foldl_app, add_all by (done || (apply Hout; left)).
  rewrite IH; [|done|done|].
  - cbn. rewrite <- insert_union_r by by apply not_elem_of_list_to_map_1. by rewrite insert_union_l.
  - intros j Hj. rewrite lookup_insert_ne; [apply Hout; by right|]. by intros ->.
Qed.

(** The values are read back as they were before they were encoded. *)
Lemma parse_encode v : filled v -> ParseQuery (Values_Encode v) = v.
Proof.
  intros Hf. unfold Values_Encode. rewrite parse_query_join. unfold sorted_pairs.
  set (l := merge_sort _ _). assert (Hp : l ≡ₚ map_to_list v) by apply merge_sort_Permutation.
  unfold values_of. rewrite values_of_pairs.
  - rewrite (right_id_L ∅ _). rewrite <- (list_to_map_to_list v). apply list_to_map_proper; [|done].
    rewrite Hp. apply NoDup_fst_map_to_list.
  - rewrite Hp. apply NoDup_fst_map_to_list.
  - rewrite Hp. apply Forall_forall. intros [k values] Hin. apply elem_of_map_to_list in Hin. exact (Hf k values Hin).
  - intros k _. apply lookup_empty.
Qed.

Lemma encode_text v : query_text (Values_Encode v) = true.
Proof.
  unfold Values_Encode. induction (sorted_pairs v) as [|kv l IH]; [done|].
  assert (Hp : query_text (encode_pair kv) = true) by (unfold encode_pair; by rewrite !query_text_app, !escape_text).
  destruct l as [|kv' l]; [done|].
  change (Join "&" (map encode_pair (kv :: kv' :: l))) with
    (encode_pair kv +:+ "&" +:+ Join "&" (map encode_pair (kv' :: l))).
  by rewrite !query_text_app, Hp, IH.
Qed.

Lemma encode_nonempty v : v <> ∅ -> filled v -> Values_Encode v <> "".
Proof.
  intros Hne Hf Hz. apply Hne. rewrite <- (parse_encode v Hf), Hz. done.
Qed.

(** One more parameter after those of an encoded query. *)
Lemma parse_appended v key value :
  v <> ∅ -> filled v ->
  ParseQuery (Values_Encode v +:+ "&" +:+ encode_pair (key, value)) = Values_Add key value v.
Proof.
  intros Hne Hf. rewrite <- (parse_encode v Hf) at 2. unfold ParseQuery.
  change ("&" +:+ encode_pair (key, value)) with (String "&" (encode_pair (key, value))).
  rewrite split_app, (split_lacks _ _ (encode_pair_lacks _)), omap_app. unfold values_of. rewrite foldl_app.
  cbn [omap list_omap]. by rewrite parse_encode_pair.
Qed.

Lemma del_added key value v : v !! key = None -> Values_Del key (Values_Add key value v) = v.
Proof. intros Hn. unfold Values_Del, Values_Add. by rewrite delete_insert_eq, delete_id. Qed.

Lemma get_added key value v : v !! key = None -> Values_Get key (Values_Add key value v) = value.
Proof. intros Hn. unfold Values_Get, Values_Add. by rewrite lookup_insert_eq, Hn. Qed.

(** Bytes are read back from their hexadecimal digits, which need no escape. *)
Definition is_byte (b : Z) : Prop := (0 <= b < 256)%Z.

Lemma sixteen (P : Z -> Prop) : Forall P (map Z.of_nat (seq 0 16)) -> forall n, (0 <= n < 16)%Z -> P n.
Proof.
  intros H n Hn. rewrite Forall_forall in H. apply H, list_elem_of_fmap. exists (Z.to_nat n). rewrite elem_of_seq. lia.
Qed.

Lemma hex_digit_char n : (0 <= n < 16)%Z -> hex_digit (hex_char n) = Some n.
Proof. revert n. apply sixteen. by repeat constructor. Qed.

Lemma hex_char_unescaped n : (0 <= n < 16)%Z -> escape_byte (hex_char n) = String (hex_char n) "".
Proof. revert n. apply sixteen. by repeat constructor. Qed.

Lemma nibbles b : is_byte b -> (0 <= b / 16 < 16)%Z /\ (0 <= b mod 16 < 16)%Z.
Proof.
  unfold is_byte. intros H. split; [|apply Z.mod_pos_bound; lia].
  split; [apply Z.div_pos; lia|apply Z.div_lt_upper_bound; lia].
Qed.

Lemma hex_cons b bytes :
  hex_EncodeToString (b :: bytes) = String (hex_char (b / 16)) (String (hex_char (b mod 16)) (hex_EncodeToString bytes)).
Proof. done. Qed.

Lemma hex_round_trip bytes : Forall is_byte bytes -> hex_DecodeString (hex_EncodeToString bytes) = Some bytes.
Proof.
  induction 1 as [|b bytes Hb _ IH]; [done|]. apply nibbles in Hb as [Hh Hl]. rewrite hex_cons.
  cbn [hex_DecodeString]. rewrite !hex_digit_char, IH by done. cbn. do 2 f_equal. rewrite Z.mul_comm.
  symmetry. apply Z.div_mod. lia.
Qed.

Lemma hex_unescaped bytes : Forall is_byte bytes -> QueryEscape (hex_EncodeToString bytes) = hex_EncodeToString bytes.
Proof.
  induction 1 as [|b bytes Hb _ IH]; [done|]. apply nibbles in Hb as [Hh Hl]. rewrite hex_cons.
  cbn [QueryEscape]. by rewrite !hex_char_unescaped, IH.
Qed.

Lemma hex_nonempty bytes : bytes <> [] -> hex_EncodeToString bytes <> "".
Proof. by destruct bytes. Qed.

(** ** Signed links *)

(** A URL with a host and no fragment is read back from its text, whatever is
    appended to its query. *)
Class GoUrlLaws {GU : GoUrls} := {
  parse_text raw u q tail : go_url_Parse raw = Ok u -> URL_Scheme u <> "" -> URL_Host u <> "" -> Fragment u = "" ->
    q <> "" -> query_text (q +:+ tail) = true ->
    exists u', go_url_Parse (URL_String (u <| RawQuery := q |>) +:+ tail) = Ok u' /\
      RawQuery u' = q +:+ tail /\ URL_Scheme u' <> "" /\ URL_Host u' <> "" /\ Fragment u' = "" /\
      forall q', q' <> "" -> URL_String (u' <| RawQuery := q' |>) = URL_String (u <| RawQuery := q' |>) }.

(** The address of a key pair verifies what the pair signed. *)
Class KeypairLaws {KP : StellarKeypairs} := {
  parse_own seed kp : keypair_ParseFull seed = Ok kp ->
    exists verify, keypair_ParseAddress (Full_Address kp) = Ok verify /\
      forall m signature, Full_Sign kp m = Ok signature ->
        signature <> [] /\ Forall is_byte signature /\ verify m signature = Ok tt }.

Section signed.
Context {GU : GoUrls} {GL : GoUrlLaws} {KP : StellarKeypairs} {KL : KeypairLaws}.

(** A URL with values is signed such that the address of the key verifies it, and keeps
    its values beside the signature. *)
Lemma signed_verifies seed kp raw u link :
  keypair_ParseFull seed = Ok kp -> go_url_Parse raw = Ok u -> Fragment u = "" -> URL_Query u <> ∅ ->
  URL_Query u !! "signature" = None -> SignURL seed raw = Ok link ->
  VerifySignedURL link (Full_Address kp) = Ok true /\
  exists u' signature, go_url_Parse link = Ok u' /\ URL_Query u' = Values_Add "signature" signature (URL_Query u).
Proof.
  intros Hkp Hu Hf Hne Hns H. unfold SignURL in H. rewrite Hkp, Hu in H. cbn [res_bind wrap res_map_err] in H.
  destruct (_ || _) eqn:Esh in H; [done|]. apply orb_false_iff in Esh as [Hs Hh]. apply eqb_false in Hs, Hh.
  assert (Hfill : filled (URL_Query u)) by apply filled_values_of.
  pose proof (encode_nonempty _ Hne Hfill) as Henc. set (q := Values_Encode (URL_Query u)) in *.
  apply res_bind_ok in H as (signature & Hsig & Hlink). apply wrap_ok in Hsig.
  assert (Hl : link = URL_String (u <| RawQuery := q |>) +:+ "&signature=" +:+ hex_EncodeToString signature) by congruence.
  subst link. clear Hlink.
  destruct (parse_own seed kp Hkp) as (verify & Hv & Hver). destruct (Hver _ _ Hsig) as (Hsne & Hbytes & Hok).
  assert (Htail : "&signature=" +:+ hex_EncodeToString signature =
                  "&" +:+ encode_pair ("signature", hex_EncodeToString signature)).
  { unfold encode_pair. cbn [fst snd]. by rewrite hex_unescaped. }
  destruct (parse_text raw u q ("&signature=" +:+ hex_EncodeToString signature) Hu Hs Hh Hf Henc)
    as (u' & Hp & Hq & _ & _ & _ & Hstr).
  { rewrite query_text_app. unfold q. rewrite encode_text, Htail, query_text_app. unfold encode_pair.
    by rewrite !query_text_app, !escape_text. }
  assert (HQ : URL_Query u' = Values_Add "signature" (hex_EncodeToString signature) (URL_Query u)).
  { unfold URL_Query at 1. rewrite Hq, Htail. by apply parse_appended. }
  split; [|by eexists _, _].
  unfold VerifySignedURL. rewrite Hv, Hp. cbn [res_bind wrap res_map_err]. rewrite HQ, get_added, del_added by done.
  apply hex_nonempty, eqb_false in Hsne. rewrite Hsne, hex_round_trip by done. cbn [res_bind].
  fold q. rewrite Hstr by done. by rewrite Hok.
Qed.

Section invitation.
Context {URI : RequestURLs} {SDK : StellarSdk}.

Lemma add_other key key' value v : key <> key' -> v !! key = None -> Values_Add key' value v !! key = None.
Proof. intros Hk Hn. unfold Values_Add. by rewrite lookup_insert_ne. Qed.

Lemma add_not_empty key value v : Values_Add key value v <> ∅.
Proof. apply insert_non_empty. Qed.

Lemma link_values_ok wdl domain v :
  filled v -> v !! "signature" = None ->
  filled (link_values wdl domain v) /\ link_values wdl domain v <> ∅ /\ link_values wdl domain v !! "signature" = None.
Proof.
  intros Hf Hn. unfold link_values. destruct (SelfHosted wdl), (WDL_Token wdl =? "");
    (split; [repeat apply filled_add; done|]; split; [apply add_not_empty|by repeat (apply add_other; [done|])]).
Qed.

(** C34: The link of an invitation is verified by the address of the key that signed it, and
    says what it should beside what the deep link of the wallet says already, as long
    as that has a host, no fragment and no signature of its own. *)
Theorem registration_link_is_signed wdl seed kp base u0 link (Hkp : keypair_ParseFull seed = Ok kp)
    (Hbase : BaseURLWithRoute wdl = Ok base) (Hu0 : go_url_Parse base = Ok u0)
    (Hhost : URL_Scheme u0 <> "" /\ URL_Host u0 <> "")
    (Hplain : Fragment u0 = "" /\ URL_Query u0 !! "signature" = None)
    (Hrun : GetSignedRegistrationLink wdl seed = Ok link) :
  VerifySignedURL link (Full_Address kp) = Ok true /\
  exists u domain signature, go_url_Parse link = Ok u /\ TomlFileDomain wdl = Ok domain /\
    URL_Query u = Values_Add "signature" signature (link_values wdl domain (URL_Query u0)).
Proof.
  destruct Hhost as [Hs Hh], Hplain as [Hf Hns]. unfold GetSignedRegistrationLink in Hrun.
  apply res_bind_ok in Hrun as (unsigned & Hun%wrap_ok & Hsign%wrap_ok). unfold GetUnsignedRegistrationLink in Hun.
  apply res_bind_ok in Hun as ([] & _ & Hun). apply res_bind_ok in Hun as (domain & Hd%wrap_ok & Hun).
  rewrite Hbase in Hun. cbn [res_bind wrap res_map_err] in Hun. rewrite Hu0 in Hun. cbn [res_bind wrap res_map_err] in Hun.
  destruct (link_values_ok wdl domain (URL_Query u0) (filled_values_of _) Hns) as (Hfill & Hne & Hn).
  set (v := link_values wdl domain (URL_Query u0)) in *. assert (Hq : Values_Encode v <> "") by by apply encode_nonempty.
  destruct (parse_text base u0 (Values_Encode v) "" Hu0 Hs Hh Hf Hq) as (u1 & Hp & Hq1 & _ & _ & Hf1 & _).
  { rewrite query_text_app. by rewrite encode_text. }
  rewrite append_nil in Hp, Hq1.
  assert (Hun' : unsigned = URL_String (u0 <| RawQuery := Values_Encode v |>)) by congruence. rewrite <- Hun' in Hp.
  assert (HQ : URL_Query u1 = v) by (unfold URL_Query; rewrite Hq1; by apply parse_encode).
  destruct (signed_verifies seed kp unsigned u1 link Hkp Hp Hf1) as (Hv & u' & signature & Hu' & HQ'); rewrite ?HQ; try done.
  split; [done|]. exists u', domain, signature. by rewrite HQ', HQ.
Qed.
End invitation.
End signed.

(** ** Witness *)

(** URLs of three parts, and keys that sign by copying. *)
Module Signing.
#[export] Instance urls : GoUrls :=
  {| go_url_Parse s :=
       let '(front, fragment) := Cut "#" s in
       let '(place, query) := Cut "?" front in
       Ok (mkURL "https" place "" (default "" query) (default "" fragment) "");
     URL_String u := URL_Host u +:+ (if RawQuery u =? "" then "" else "?" +:+ RawQuery u)
                       +:+ (if Fragment u =? "" then "" else "#" +:+ Fragment u);
     path_Join a b := a +:+ "/" +:+ b |}.

Lemma cut_none sep s : lacks sep s = true -> Cut sep s = (s, None).
Proof.
  induction s as [|c s IH]; [done|]. rewrite lacks_cons, andb_true_iff, negb_true_iff. intros [Hc Hs].
  by rewrite Cut_cons, Ascii.eqb_sym, Hc, (IH Hs).
Qed.

Lemma cut_before sep x s : (x = sep \/ lacks x s = true) -> lacks x (fst (Cut sep s)) = true.
Proof.
  intros H. induction s as [|c s IH]; [done|]. rewrite Cut_cons. destruct (Ascii.eqb c sep) eqn:Ec; [done|].
  destruct (Cut sep s) as [a b]. cbn [fst] in *. rewrite lacks_cons in *. destruct H as [->|H].
  - rewrite Ascii.eqb_sym, Ec. by apply IH; left.
  - apply andb_true_iff in H as [-> H]. by apply IH; right.
Qed.

Lemma query_text_lacks x s : query_char x = false -> query_text s = true -> lacks x s = true.
Proof.
  intros Hx. induction s as [|c s IH]; [done|]. unfold query_text. cbn [list_ascii_of_string forallb].
  rewrite andb_true_iff. intros [Hc Hs]. rewrite lacks_cons, (IH Hs), andb_true_r. apply negb_true_iff.
  destruct (Ascii.eqb_spec x c) as [->|]; [|done]. congruence.
Qed.

#[export] Instance url_laws : GoUrlLaws.
Proof.
  constructor. intros raw u q tail Hu Hs Hh Hf Hq Ht. cbn in Hu.
  pose proof (cut_before "#" "#" raw (or_introl eq_refl)) as H1. destruct (Cut "#" raw) as [front fragment].
  pose proof (cut_before "?" "?" front (or_introl eq_refl)) as H2.
  pose proof (cut_before "?" "#" front (or_intror H1)) as H3. destruct (Cut "?" front) as [place query].
  cbn [fst] in *. injection Hu as <-. cbn in Hf, Hh. pose proof Hq as Hq'. apply eqb_false in Hq.
  assert (Hlong : forall s, query_text s = true -> Cut "#" (place +:+ String "?" s) = (place +:+ String "?" s, None)).
  { intros s Hqs. apply cut_none. rewrite lacks_app, lacks_cons, H3. by apply query_text_lacks. }
  cbn [URL_String urls RawQuery Fragment URL_Host set_field]. rewrite Hq. cbn [go_url_Parse].
  rewrite Hf, eqb_same, append_nil, <- append_assoc. change ("?" +:+ q) with (String "?" q). rewrite append_cons.
  cbn [go_url_Parse urls]. rewrite Hlong, cut_app by done. eexists. split; [reflexivity|]. cbn.
  by split_and!.
Qed.

#[export] Instance keys : StellarKeypairs :=
  {| Full := string; keypair_ParseFull seed := Ok seed; Full_Address seed := seed;
     Full_Sign seed m := Ok (1%Z :: string_bytes (seed +:+ m));
     keypair_ParseAddress seed := Ok (fun m signature =>
       guard_err (negb (bool_decide (signature = 1%Z :: string_bytes (seed +:+ m))))
         (EExternal "signature verification failed")) |}.

#[export] Instance key_laws : KeypairLaws.
Proof.
  constructor. intros seed kp [= <-]. eexists. split; [reflexivity|]. intros m signature [= <-].
  split; [done|]. split.
  - constructor; [by unfold is_byte|]. induction (seed +:+ m) as [|c s IH]; constructor; [|done].
    pose proof (nat_ascii_bounded c). unfold is_byte, code. lia.
  - by rewrite bool_decide_eq_true_2.
Qed.

#[export] Instance request_urls : RequestURLs :=
  {| url_ParseRequestURI _ := true; url_scheme _ := Ok "https"; url_host u := Ok (u, "", fun h => h);
     url_JoinPath a b := Ok (a +:+ b) |}.

#[export] Instance sdk : StellarSdk := Calm.sdk.

Definition invitation (deepLink : string) : WalletDeepLink :=
  mkWalletDeepLink deepLink "" "Red Cross & Co" "USDC" "GISSUER" "https://tenant.example" "" "" false.
End Signing.
Import Signing.

Lemma registration_link_is_signed_witness :
  exists link, GetSignedRegistrationLink (invitation "https://wallet.example/sdp?lang=en") "seed" = Ok link /\
    VerifySignedURL link "seed" = Ok true.
Proof.
  eexists. split; [vm_compute; reflexivity|].
  edestruct (registration_link_is_signed (KP := keys) (invitation "https://wallet.example/sdp?lang=en") "seed" "seed")
    as [H _]; [reflexivity|vm_compute; reflexivity|reflexivity|by split|by split; vm_compute|vm_compute; reflexivity|].
  exact H.
Defined.

(** The signature is appended to the text of the link: where the deep link has a fragment,
    the signature is part of the fragment, and no link is ever verified. *)
Example fragment_hides_signature :
  exists link, GetSignedRegistrationLink (invitation "https://wallet.example/#/invite") "seed" = Ok link /\
    VerifySignedURL link "seed" = Err (ENew "signed url does not contain a signature").
Proof. eexists. split; vm_compute; reflexivity. Qed.
