(* ===== verification/Invitations.v ===== *)
(** The invitations of receivers to register a wallet: [data/messages.go],
    [data/url_shortener.go], the pending registrations of [data/receivers_wallet.go] and
    [data/assets.go], the job of [send_receiver_wallets_invite_service.go], and the
    requests of [url_shortener_handler.go] and [receiver_wallets_handler.go]. *)

From S2P Require Import Prelude GoStrings Errors StateMachine Effects Schema TxStore Tables SdpDb.
From S2P Require Import PaymentStore ReceiverStore Messages ReceiverWalletStore DisbursementStore Validators Registration.
From S2P Require Import DisbursementHandler Tenant Tenants CircleClient EmbeddedStore EmbeddedService Links.
From Stdlib Require Import Ascii String.

Local Open Scope string_scope.
Local Open Scope list_scope.
Local Open Scope go_scope.

(** ** Messages *)

Record MessageInsert := mkMessageInsert {
  MI_Type : string;
  MI_AssetID : option string;
  MI_ReceiverID : string;
  MI_WalletID : string;
  MI_ReceiverWalletID : option string;
  MI_TextEncrypted : string;
  MI_TitleEncrypted : string;
  MI_Status : string }.

(** Empty texts of the nullable columns are NULL; the history begins as PENDING. *)
Definition new_message {U : UuidGen} (ctx : StmtCtx) (i : nat) (m : MessageInsert) : MessageRow :=
  mkMessageRow (uuid_generate ctx i) (MI_Type m) (null_if_empty (default "" (MI_AssetID m))) (MI_ReceiverID m)
    (MI_WalletID m) (null_if_empty (default "" (MI_ReceiverWalletID m))) (MI_TextEncrypted m)
    (Some (MI_TitleEncrypted m)) (MI_Status m) [mkMessageHistory PendingMessageStatus (NOW ctx)] (NOW ctx) (NOW ctx).

(** [array_append(status_history, create_message_status_history(updated_at, status, NULL))]. *)
Definition append_status (ctx : StmtCtx) (m : MessageRow) : MessageRow :=
  m <| M_StatusHistory := M_StatusHistory m ++ [mkMessageHistory (M_Status m) (M_UpdatedAt m)] |>
    <| M_UpdatedAt := NOW ctx |>.

(** ** Short links *)

Definition maxCodeGenerationAttempts : nat := 5.
Definition shortCodeLength : nat := 6.

(** [RandomCodeGenerator]: the first characters of a UUID without its dashes. *)
Fixpoint remove_dashes (s : string) : string :=
  match s with
  | EmptyString => ""
  | String c s' => if Ascii.eqb c "-" then remove_dashes s' else String c (remove_dashes s')
  end.
Definition Generate {UU : GoogleUuid} (length : nat) (t : nat) : string :=
  remove_dashes (String.substring 0 length (uuid_NewString t)).

(** [errors.As] to a [pq.Error] with the code of a unique violation. *)
Fixpoint isDuplicateError (e : err) : bool :=
  match e with
  | EExternal m => m =? Error duplicate_key
  | EWrap _ e' => isDuplicateError e'
  | _ => false
  end.

(** ** What a receiver is invited for *)

Record ReceiverWalletAsset := mkReceiverWalletAsset {
  RWA_ReceiverWallet : ReceiverWallet;
  RWA_Receiver : Receiver;
  RWA_Asset : Asset;
  RWA_Template : string;
  RWA_VerificationField : string;
  TotalInvitationResentAttempts : Z }.

(** The columns that tell two rows of the answer apart; the others follow from them. *)
Definition rwa_key (r : ReceiverWalletAsset) : string * string * string * string :=
  (RW_ID (RWA_ReceiverWallet r), Asset_ID (RWA_Asset r), RWA_Template r, RWA_VerificationField r).

(** [SELECT DISTINCT]: each row once, in an order the server does not say. *)
Class DistinctOrder := {
  distinct_order : forall {A}, StmtCtx -> list A -> list A;
  distinct_order_perm : forall {A} ctx (l : list A), distinct_order ctx l ≡ₚ l }.

Fixpoint distinct (l : list ReceiverWalletAsset) : list ReceiverWalletAsset :=
  match l with
  | [] => []
  | r :: l' => r :: filter (fun r' => rwa_key r' <> rwa_key r) (distinct l')
  end.

(** The messages sent about the asset since the first invitation. *)
Definition resent_since (rw : ReceiverWallet) (assetID : string) (db : SdpDb) : Z :=
  match RW_InvitationSentAt rw with
  | None => 0
  | Some sentAt => Z.of_nat (List.length (filter (fun m =>
      bool_decide (M_ReceiverWalletID m = Some (RW_ID rw)) && (M_WalletID m =? RW_WalletID rw)
      && bool_decide (M_AssetID m = Some assetID) && (sentAt <? M_CreatedAt m)%Z
      && (M_Status m =? SuccessMessageStatus) = true) (messages db)))
  end.

(** A READY payment of one of the wallets, with its asset and what its disbursement asks. *)
Definition invited_payment (ids : list string) (db : SdpDb) (p : Payment) : option ReceiverWalletAsset :=
  if negb ((Pay_Status p =? ReadyPaymentStatus) && slices_Contains ids (Pay_ReceiverWalletID p)) then None
  else
    rw ← lookup_receiver_wallet (Pay_ReceiverWalletID p) db;
    r ← lookup_receiver (RW_ReceiverID rw) db;
    a ← lookup_asset (Pay_AssetID p) db;
    let d := if Pay_Type p =? PaymentTypeDisbursement
             then Pay_DisbursementID p ≫= (fun id => lookup_disbursement id db) else None in
    Some (mkReceiverWalletAsset rw r a (default "" (Dis_ReceiverRegistrationMessageTemplate <$> d))
            (default "" (d ≫= Dis_VerificationField)) (resent_since rw (Asset_ID a) db)).

(** The wallets to register: READY ones of receivers with a payment in a disbursement to
    that wallet. *)
Definition pending_registration (q : ReceiverWallet -> Disbursement -> bool) (db : SdpDb) (rw : ReceiverWallet) : bool :=
  (RW_Status rw =? ReadyReceiversWalletStatus)
  && negb (bool_decide (lookup_receiver (RW_ReceiverID rw) db = None))
  && negb (bool_decide (lookup_wallet (RW_WalletID rw) db = None))
  && existsb (fun d => (Dis_WalletID d =? RW_WalletID rw) && q rw d
       && existsb (fun p => bool_decide (Pay_DisbursementID p = Some (Dis_ID d))
                            && (Pay_ReceiverID p =? RW_ReceiverID rw)) (payments db)) (disbursements db).

Section data.
Context {D L Ev : Type} {E : Env D} {C : Conn D SdpDb} {U : UuidGen} {UU : GoogleUuid} {DO : DistinctOrder}.
Abbreviation M := (M D L Ev).

Definition Message_Insert (newMsg : MessageInsert) (statusHistory : list MessageStatusHistoryEntry) : M MessageRow :=
  wrapM "error inserting message" (db_stmt (fun ctx db =>
    let row := (new_message ctx (List.length (messages db)) newMsg) <| M_AssetID := MI_AssetID newMsg |>
                 <| M_ReceiverWalletID := MI_ReceiverWalletID newMsg |> <| M_StatusHistory := statusHistory |> in
    check_messages row (db <| messages := messages db ++ [row] |>))).

Definition Message_BulkInsert (newMsgs : list MessageInsert) : M unit :=
  let! newMsgIDs := wrapM "error inserting messages in BulkInsert" (db_stmt (fun ctx db =>
    let rows := imap (fun i => new_message ctx (List.length (messages db) + i)) newMsgs in
    check_messages (map M_ID rows) (db <| messages := messages db ++ rows |>))) in
  wrapM "error update messages status history" (db_stmt (fun ctx db =>
    check_messages tt (db <| messages := update_where
      (fun m => slices_Contains newMsgIDs (M_ID m) && (M_Status m <>? PendingMessageStatus))
      (append_status ctx) (messages db) |>))).

Definition lookup_short_url (code : string) (db : SdpDb) : option ShortURL :=
  first_such (fun u => SU_ID u =? code) (short_urls db).
Definition short_url_of (originalURL : string) (db : SdpDb) : option ShortURL :=
  first_such (fun u => OriginalURL u =? originalURL) (short_urls db).

Definition GetOriginalURL (shortCode : string) : M string :=
  no_rows_as ErrRecordNotFound ("getting URL for code " +:+ shortCode)
    (GetContext (fun _ db => Ok (OriginalURL <$> lookup_short_url shortCode db, db))).

(** The code of the link, or a new one. *)
Definition short_code (originalURL : string) : M string :=
  let! found := try_ (GetContext (fun _ db => Ok (SU_ID <$> short_url_of originalURL db, db))) in
  match found with
  | Ok code => mret_ code
  | Err e =>
    if negb (errors_Is_err e (ESentinel sql_ErrNoRows)) then throw (EWrap "checking for existing URL" e)
    else
      let! code := ask (Generate shortCodeLength) in
      wrapM "inserting new URL" (db_stmt (fun ctx db =>
        check_short_urls tt (db <| short_urls := short_urls db ++ [mkShortURL code originalURL (NOW ctx)] |>))) ;;!
      mret_ code
  end.

Fixpoint code_attempts (n : nat) (originalURL : string) : M string :=
  match n with
  | O => throw (ENew ("generating unique code after " +:+ itoa (Z.of_nat maxCodeGenerationAttempts) +:+ " attempts"))
  | S n' =>
    let! result := try_ (RunInTransactionWithResult (X := SdpDb) (short_code originalURL)) in
    match result with
    | Ok code => mret_ code
    | Err e => if isDuplicateError e then code_attempts n' originalURL
               else throw (EWrap "getting or creating short code" e)
    end
  end.
Definition GetOrCreateShortCode : string -> M string := code_attempts maxCodeGenerationAttempts.

Definition pending_registrations (p : string) (q : ReceiverWallet -> Disbursement -> bool) : M (list ReceiverWallet) :=
  wrapM p (db_stmt (fun _ db => Ok (filter (fun rw => pending_registration q db rw = true) (receiver_wallets db), db))).

Definition GetAllPendingRegistrations : M (list ReceiverWallet) :=
  pending_registrations "error querying pending registration receiver wallets" (fun _ _ => true).

Definition GetAllPendingRegistrationByReceiverWalletIDs (receiverWalletIDs : list string) : M (list ReceiverWallet) :=
  pending_registrations "error querying pending registration receiver wallets"
    (fun rw _ => slices_Contains receiverWalletIDs (RW_ID rw)).

Definition GetAllPendingRegistrationByDisbursementID (disbursementID : string) : M (list ReceiverWallet) :=
  pending_registrations ("error querying pending registration receiver wallets for disbursement ID " +:+ disbursementID)
    (fun _ d => Dis_ID d =? disbursementID).

(** On the connection pool. *)
Definition GetAssetsPerReceiverWallet (receiverWallets : list ReceiverWallet) : M (list ReceiverWalletAsset) :=
  wrapM "error querying most recent asset per receiver wallet" (db_stmt (fun ctx db =>
    Ok (distinct_order ctx (distinct (omap (invited_payment (map RW_ID receiverWallets) db) (payments db))), db))).
End data.

(** ** The job *)

Definition IsSelfHosted (w : Wallet) : bool := Wal_DeepLinkSchema w =? "SELF".

(** A wallet that is not in the map. *)
Definition no_wallet : Wallet := mkWallet "" "" false false false "" None "" "".

(** The link of the registration is part of the text, at its end where the template has
    no place for it. *)
Definition with_link_placeholder (template : string) : string :=
  if Contains template "{{.RegistrationLink}}" then template else TrimSpace template +:+ " {{.RegistrationLink}}".

(** [time.Now().AddDate(0, 0, -int(interval * (attempts + 1)))]; the interval is a column
    of 32 bits, so the product does not overflow. *)
Definition resend_before (now interval attempts : Z) : Z := (now - interval * (attempts + 1) * Day)%Z.

(** What the answers of [shouldSendInvitation] are, at an instant. *)
Definition is_due (maxInvitationResendAttempts : Z) (organization : Organization) (now : Z)
    (rwa : ReceiverWalletAsset) : bool :=
  match RW_InvitationSentAt (RWA_ReceiverWallet rwa) with
  | None => true
  | Some sentAt =>
    match ReceiverInvitationResendIntervalDays organization with
    | None => false
    | Some interval =>
      negb (maxInvitationResendAttempts <=? TotalInvitationResentAttempts rwa)%Z
      && (sentAt <? resend_before now interval (TotalInvitationResentAttempts rwa))%Z
    end
  end.

Section service.
Context {D L Ev : Type} {E : Env D} {C : Conn D SdpDb} {U : UuidGen} {UU : GoogleUuid} {DO : DistinctOrder}.
Context {SDK : StellarSdk} {GU : GoUrls} {KP : StellarKeypairs} {URI : RequestURLs} {Co : Collation}.
Context {PN : PhoneNumbers} {MD : MessageDispatcher} {EM : MessageEvents Ev} {TP : Templates}.
(** The code of embedded wallets, where the feature is configured, and the settings. *)
Context (embeddedWalletService : option string) (maxInvitationResendAttempts : Z) (sep10SigningPrivateKey : string).
Abbreviation M := (M D L Ev).

Definition shouldSendInvitation (organization : Organization) (rwa : ReceiverWalletAsset) : M bool :=
  let! now := ask env_now in mret_ (is_due maxInvitationResendAttempts organization now rwa).

(** The token of the wallet the receiver has, or of a new one; whether it is to be verified
    follows from the payment at hand. *)
Definition updateEmbeddedWalletDeepLink (wdl : WalletDeepLink) (receiverWalletID verificationField : string) :
    M WalletDeepLink :=
  match embeddedWalletService with
  | None => throw (ENew "embedded wallet service is not configured - embedded wallets feature is disabled")
  | Some wasmHash =>
    let wdl := if SelfHosted wdl then wdl <| DeepLink := TenantUIBaseURL wdl |> <| Route := "wallet" |> else wdl in
    let! existing := try_ (GetByReceiverWalletIDAndStatuses receiverWalletID
                             [PendingWalletStatus; ProcessingWalletStatus; SuccessWalletStatus]) in
    let! token :=
      match existing with
      | Ok existingWallet => mret_ (EW_Token existingWallet)
      | Err e =>
        if errors_Is_err e ErrRecordNotFound
        then wrapM "creating embedded wallet invitation token" (CreateInvitationToken wasmHash)
        else throw (EWrap ("getting existing embedded wallet for receiver wallet " +:+ receiverWalletID) e)
      end in
    wrapM ("linking embedded wallet token to receiver wallet " +:+ receiverWalletID)
      (EW_Update token (no_wallet_update <| EWU_ReceiverWalletID := receiverWalletID |>
                          <| EWU_RequiresVerification := Some (verificationField <>? "") |>)) ;;!
    mret_ (wdl <| WDL_Token := token |>)
  end.

Definition GetRegistrationLink (wdl : WalletDeepLink) (isLinkShortenerEnabled : bool) : M string :=
  let! registrationLink := wrapM "getting signed registration link"
    (lift (GetSignedRegistrationLink wdl sep10SigningPrivateKey)) in
  if negb isLinkShortenerEnabled then mret_ registrationLink
  else
    let! shortCode := wrapM "creating short URL for registration link" (GetOrCreateShortCode registrationLink) in
    wrapM "building shortened registration link"
      (lift (let? base := url_JoinPath (TenantBaseURL wdl) "r" in url_JoinPath base shortCode)).

Definition invitation_message (rwa : ReceiverWalletAsset) (organization : Organization) (text registrationLink : string) :
    Message :=
  mkMessage MessageTypeReceiverInvitation (PhoneNumber (RWA_Receiver rwa)) (Email (RWA_Receiver rwa)) text
    (if Email (RWA_Receiver rwa) =? "" then ""
     else "You have a payment waiting for you from " +:+ Org_Name organization)
    {[ "org_name" := Org_Name organization; "registration_link" := registrationLink ]}.

(** The template of the disbursement goes first.  The link is marked as HTML. *)
Definition prepareMessage (rwa : ReceiverWalletAsset) (msgTemplate : Template) (organization : Organization)
    (registrationLink : string) (wallet : Wallet) : M MessageInsert :=
  let! msgTemplate :=
    (if RWA_Template rwa =? "" then mret_ msgTemplate
     else wrapM "parsing disbursement receiver registration message template"
            (lift (template_Parse (with_link_placeholder (RWA_Template rwa))))) in
  let! text := wrapM "executing registration message template" (lift (template_Execute msgTemplate
    [("OrganizationName", Org_Name organization); ("RegistrationLink", registrationLink)])) in
  let msg := invitation_message rwa organization text registrationLink in
  let! (messengerType, sendErr) := SendMessage msg (MessageChannelPriority organization) in
  mret_ (mkMessageInsert messengerType (Some (Asset_ID (RWA_Asset rwa))) (Rec_ID (RWA_Receiver rwa)) (Wal_ID wallet)
           (Some (RW_ID (RWA_ReceiverWallet rwa))) (Msg_Body msg) (Msg_Title msg)
           (if is_ok sendErr then SuccessMessageStatus else FailureMessageStatus)).

(** One turn of the loop: what is to be recorded, or nothing where the invitation is not
    due, or an error was logged. *)
Definition invite (tenant : Tenant) (organization : Organization) (msgTemplate : Template) (wallets : list Wallet)
    (rwa : ReceiverWalletAsset) : M (option MessageInsert) :=
  let! due := shouldSendInvitation organization rwa in
  if negb due then mret_ None
  else
    let wallet := default no_wallet (first_such (fun w => Wal_ID w =? RW_WalletID (RWA_ReceiverWallet rwa)) wallets) in
    match BaseURL tenant, SDPUIBaseURL tenant with
    | Some baseURL, Some uiBaseURL =>
      let wdl := mkWalletDeepLink (Wal_DeepLinkSchema wallet) "" (Org_Name organization) (Code (RWA_Asset rwa))
                   (Issuer (RWA_Asset rwa)) baseURL uiBaseURL "" (IsSelfHosted wallet) in
      let! linked := (if Wal_Embedded wallet
                      then catch_ (updateEmbeddedWalletDeepLink wdl (RW_ID (RWA_ReceiverWallet rwa))
                                     (RWA_VerificationField rwa))
                      else mret_ (Ok wdl)) in
      match linked with
      | Err _ => mret_ None
      | Ok wdl =>
        let! link := catch_ (GetRegistrationLink wdl (IsLinkShortenerEnabled organization)) in
        match link with
        | Err _ => mret_ None
        | Ok registrationLink =>
          let! msg := catch_ (prepareMessage rwa msgTemplate organization registrationLink wallet) in
          mret_ (match msg with Ok m => Some m | Err _ => None end)
        end
      end
    | _, _ => throw nil_dereference
    end.

(** The first invitations that went out. *)
Definition first_sent (r : ReceiverWalletAsset * option MessageInsert) : option string :=
  match snd r with
  | Some m => if bool_decide (RW_InvitationSentAt (RWA_ReceiverWallet (fst r)) = None) && (MI_Status m =? SuccessMessageStatus)
              then Some (RW_ID (RWA_ReceiverWallet (fst r))) else None
  | None => None
  end.

Definition record_invitations (receiverWalletIDs : list string) (msgsToInsert : list MessageInsert) : M unit :=
  RunInTransaction (X := SdpDb) (
    wrapM "updating receiver wallets' invitation sent at" (UpdateInvitationSentAt receiverWalletIDs) ;;!
    wrapM "inserting messages in the database" (Message_BulkInsert msgsToInsert)).

Definition invite_all (tenant : Tenant) (organization : Organization) (msgTemplate : Template) : M unit :=
  let! wallets := wrapM "getting all wallets" (FindWallets []) in
  let! receiverWallets := wrapM "getting all receiver wallets pending registration" GetAllPendingRegistrations in
  let! receiverWalletsAsset := wrapM "getting all assets" (GetAssetsPerReceiverWallet receiverWallets) in
  let! msgs := mmapM (invite tenant organization msgTemplate wallets) receiverWalletsAsset in
  record_invitations (omap first_sent (zip receiverWalletsAsset msgs)) (omap id msgs).

Definition SendInvite (ctx : Context_) : M unit :=
  let! currentTenant := wrapM "getting tenant from context" (lift (GetTenantFromContext ctx)) in
  if bool_decide (BaseURL currentTenant = None)
  then throw (ENew ("tenant base URL cannot be nil for tenant " +:+ Ten_ID currentTenant))
  else
    let! organization := wrapM "getting organization" Organizations_Get in
    if default false (ReceiverInvitationsDisabled organization) then mret_ tt
    else
      let! msgTemplate := wrapM "parsing organization receiver registration message template"
        (lift (template_Parse (with_link_placeholder (ReceiverRegistrationMessageTemplate organization)))) in
      invite_all currentTenant organization msgTemplate.
End service.

(** ** Requests *)

Definition ErrUnsupportedStatusTransition : err := ESentinel "invalid target status".

Section handlers.
Context {D L Ev : Type} {E : Env D} {C : Conn D SdpDb} {SDK : StellarSdk}.
Abbreviation M := (M D L Ev).

(** The link a request is redirected to. *)
Definition HandleRedirect (code : string) : M string :=
  let shortCode := TrimSpace code in
  if shortCode =? "" then throw (BadRequest "Missing short code" None)
  else map_errM (fun e => if errors_Is_err e ErrRecordNotFound then NotFound "Short URL not found" (Some e)
                          else InternalError "Error retrieving URL" (Some e))
         (GetOriginalURL shortCode).

(** The database of a request whose tenant is missing answers so. *)
Definition RetryInvitation (receiverWalletID : string) : M ReceiverWallet :=
  map_errM (fun e => first_case e
      [(ErrRecordNotFound, fun e => NotFound "" (Some e)); (ErrTenantNotFoundInContext, fun e => Forbidden "" (Some e))]
      (fun e => InternalError "" (Some (EWrap "retrying invitation" e))))
    (RetryInvitationMessage receiverWalletID).

Definition validateAndUpdateStatus (receiverWalletID toStatus : string) : M unit :=
  if toStatus =? ReadyReceiversWalletStatus
  then wrapM ("updating receiver wallet " +:+ receiverWalletID) (UpdateStatusToReady receiverWalletID)
  else throw ErrUnsupportedStatusTransition.

Definition wallet_status_error (toStatus : string) (e : err) : err :=
  first_case e
    [(ErrRecordNotFound, fun e => NotFound "receiver wallet not found" (Some e));
     (ErrUnsupportedStatusTransition, fun _ => BadRequest ("switching to status " +:+ quote toStatus +:+ " is not supported") None);
     (ErrWalletNotRegistered, fun e => BadRequest "receiver wallet is not registered" (Some e));
     (ErrUnregisterUserManagedWallet, fun e => BadRequest "user managed wallet cannot be unregistered" (Some e));
     (ErrPaymentsInProgressForWallet, fun e => BadRequest "wallet has payments in progress" (Some e))]
    (fun e => InternalError "" (Some e)).

(** The body that is decoded, or its error. *)
Definition PatchReceiverWalletStatus (receiverWalletID : string) (body : res string) : M unit :=
  if TrimSpace receiverWalletID =? "" then throw (BadRequest "receiver_wallet_id is required" None)
  else
    let! status := map_errM (fun e => BadRequest "invalid request" (Some e)) (lift body) in
    match ToReceiversWalletStatus status with
    | Err _ => throw (BadRequest ("invalid status " +:+ quote status +:+ "; valid values ["
                                  +:+ Join " " ReceiversWalletStatuses +:+ "]") None)
    | Ok toStatus => map_errM (wallet_status_error toStatus) (validateAndUpdateStatus receiverWalletID toStatus)
    end.

Record PatchReceiverWalletRequest := mkPatchReceiverWalletRequest {
  PRW_StellarAddress : string;
  PRW_StellarMemo : option string }.

(** The memo the update gives: none for an address of a contract, where the stored one is
    to be cleared by an empty memo. *)
Definition memo_update (address : string) (memo : option string) (current : ReceiverWallet) :
    res (option string * option string) :=
  if IsValidContractAddress address then
    match memo with
    | None =>
      if (default "" (RW_StellarMemo current) <>? "") || (default "" (RW_StellarMemoType current) <>? "")
      then Err (BadRequest "Clear memo before assigning a contract address" None) else Ok (None, None)
    | Some memo =>
      if memo <>? "" then Err (BadRequest "Memos are not supported for contract addresses" None)
      else Ok (Some "", Some "")
    end
  else match memo with
  | None => Ok (None, None)
  | Some memo =>
    let? memoType := wrap ("validating memo " +:+ memo) (ValidateWalletAddressMemo address memo) in
    Ok (Some memo, Some memoType)
  end.

Definition patch_wallet (receiverID receiverWalletID address : string) (memo : option string) :
    M (ReceiverWallet * Wallet) :=
  let! (current, wallet) := wrapM ("getting receiver wallet by ID " +:+ receiverWalletID) (RW_GetByID receiverWalletID) in
  if RW_ReceiverID current <>? receiverID
  then throw (BadRequest "Receiver wallet does not belong to the specified receiver" None)
  else if negb (Wal_UserManaged wallet)
  then throw (BadRequest "Cannot edit stellar address for non-user-managed wallet" None)
  else
    let! (newMemo, memoType) := lift (memo_update address (TrimSpace <$> memo) current) in
    wrapM ("updating receiver wallet " +:+ receiverWalletID) (RW_Update receiverWalletID
      (mkReceiverWalletUpdate "" "" address newMemo memoType None "" None)) ;;!
    wrapM ("getting updated receiver wallet " +:+ receiverWalletID) (RW_GetByID receiverWalletID).

Definition wallet_patch_error (e : err) : err :=
  match As_HTTP e with
  | Some h => EHTTP (HE_StatusCode h) (HE_Message h) (HE_ErrorCode h) (HE_Err h)
  | None =>
    if errors_Is_err e ErrDuplicateWalletAddress
    then Conflict "The provided wallet address is already associated with another user." (Some e)
    else InternalError "Error updating receiver wallet" (Some e)
  end.

Definition PatchReceiverWallet (receiverID receiverWalletID : string) (body : res PatchReceiverWalletRequest) :
    M (ReceiverWallet * Wallet) :=
  if TrimSpace receiverWalletID =? "" then throw (BadRequest "receiver_wallet_id is required" None)
  else if TrimSpace receiverID =? "" then throw (BadRequest "receiver_id is required" None)
  else
    let! patchRequest := map_errM (fun e => BadRequest "invalid request body" (Some e)) (lift body) in
    let address := TrimSpace (PRW_StellarAddress patchRequest) in
    if address =? "" then throw (BadRequest "stellar_address is required" None)
    else if negb (IsValidEd25519PublicKey address || IsValidContractAddress address)
    then throw (BadRequest "stellar_address must be a valid Stellar account or contract address" None)
    else map_errM wallet_patch_error (RunInTransactionWithResult (X := SdpDb)
           (patch_wallet receiverID receiverWalletID address (PRW_StellarMemo patchRequest))).
End handlers.
