(* ===== verification/InvitationSafety.v ===== *)
(** What the job of the invitations guarantees: whom it writes to and when, what it records
    of that, and that short links lead where they should. *)

From S2P Require Import Prelude GoStrings Errors StateMachine Effects Calm Transactions Schema TxStore Tables.
From S2P Require Import SdpDb PaymentStore Platform ReceiverStore Messages ReceiverWalletStore.
From S2P Require Import DisbursementStore InstructionsSafety Registration DisbursementHandler Tenant Tenants CircleClient.
From S2P Require Import EmbeddedStore EmbeddedService Links Invitations.

Local Open Scope string_scope.
Local Open Scope list_scope.
Local Open Scope go_scope.

(** ** Whom *)

(** What a row of [GetAssetsPerReceiverWallet] says of the tables. *)
Definition to_invite (db : SdpDb) (rwa : ReceiverWalletAsset) : Prop :=
  exists p, p ∈ payments db /\ Pay_Status p = ReadyPaymentStatus /\
    lookup_receiver_wallet (Pay_ReceiverWalletID p) db = Some (RWA_ReceiverWallet rwa) /\
    RW_Status (RWA_ReceiverWallet rwa) = ReadyReceiversWalletStatus /\
    lookup_receiver (RW_ReceiverID (RWA_ReceiverWallet rwa)) db = Some (RWA_Receiver rwa) /\
    lookup_asset (Pay_AssetID p) db = Some (RWA_Asset rwa) /\
    TotalInvitationResentAttempts rwa = resent_since (RWA_ReceiverWallet rwa) (Asset_ID (RWA_Asset rwa)) db.

(** Never invited, or again: after the interval for each time before, and not more often
    than allowed. *)
Definition due (max : Z) (organization : Organization) (now : Z) (rwa : ReceiverWalletAsset) : Prop :=
  RW_InvitationSentAt (RWA_ReceiverWallet rwa) = None \/
  exists sentAt interval, RW_InvitationSentAt (RWA_ReceiverWallet rwa) = Some sentAt /\
    ReceiverInvitationResendIntervalDays organization = Some interval /\
    (TotalInvitationResentAttempts rwa < max)%Z /\
    (sentAt + interval * (TotalInvitationResentAttempts rwa + 1) * Day < now)%Z.

Lemma is_due_spec max organization now rwa : is_due max organization now rwa = true <-> due max organization now rwa.
Proof.
  unfold is_due, due, resend_before. destruct (RW_InvitationSentAt _) as [sentAt|]; [|by split; [left|]].
  destruct (ReceiverInvitationResendIntervalDays _) as [interval|]; [|by split; [|intros [|(? & ? & _ & ? & _)]]].
  rewrite andb_true_iff, negb_true_iff, Z.leb_gt, Z.ltb_lt. split.
  - intros [H1 H2]. right. exists sentAt, interval. split_and!; [done|done|lia|lia].
  - intros [|(s & i & [= <-] & [= <-] & ? & ?)]; [done|]. split; lia.
Qed.

Lemma elem_of_distinct rwa l : rwa ∈ distinct l -> rwa ∈ l.
Proof.
  induction l as [|r l IH]; [done|]. cbn. rewrite !elem_of_cons, list_elem_of_filter. tauto.
Qed.

(** A row of the answer, from the wallets that are to register. *)
Lemma invited_payment_ok ids db p rwa :
  NoDup (map RW_ID (receiver_wallets db)) -> p ∈ payments db ->
  (forall id, id ∈ ids -> exists rw, rw ∈ receiver_wallets db /\ RW_ID rw = id /\ RW_Status rw = ReadyReceiversWalletStatus) ->
  invited_payment ids db p = Some rwa -> to_invite db rwa.
Proof.
  intros Hpk Hp Hids H. unfold invited_payment in H. destruct (_ && _) eqn:Ec in H; [|done]. cbn [negb] in H.
  apply andb_true_iff in Ec as [Hs Hin]. apply eqb_true in Hs. apply slices_Contains_spec in Hin.
  destruct (lookup_receiver_wallet _ db) as [rw|] eqn:Erw in H; [|done]. cbn in H.
  destruct (lookup_receiver _ db) as [r|] eqn:Er in H; [|done]. cbn in H.
  destruct (lookup_asset _ db) as [a|] eqn:Ea in H; [|done]. injection H as <-. exists p. cbn. split_and!; try done.
  destruct (Hids _ Hin) as (rw' & Hrw' & Hid & Hst). pose proof (lookup_receiver_wallet_id _ _ _ Erw) as Hid'.
  apply first_such_some in Erw as [Hrw _].
  assert (rw = rw') as ->; [|done]. apply (map_unique RW_ID (receiver_wallets db)); congruence || done.
Qed.

(** ** Messages *)

(** A message to the receiver of the row. *)
Definition to_receiver (rwa : ReceiverWalletAsset) (m : Message) : Prop :=
  Msg_Type m = MessageTypeReceiverInvitation /\ ToPhoneNumber m = PhoneNumber (RWA_Receiver rwa) /\
  ToEmail m = Email (RWA_Receiver rwa).

Section sending.
Context {PN : PhoneNumbers} {MD : MessageDispatcher} {D L Ev : Type} {E : Env D} {EM : MessageEvents Ev}.
Implicit Types w : World D L Ev.

(** Whatever becomes of it, only the message at hand is sent. *)
Lemma SendMessage_leaves (P : Message -> Prop) message channels :
  P message -> respects (leaves_only (fun ev => exists mt m, ev = sent mt m /\ P m)) (SendMessage message channels : M D L Ev (string * res unit)).
Proof.
  intros HP w. destruct (SendMessage message channels w) as [r w'] eqn:Es. cbn.
  assert (Htried : forall mt chs, try_channels message mt chs w = (r, w') ->
            leaves_only (fun ev => exists mt m, ev = sent mt m /\ P m) w w').
  { intros mt chs H. apply try_channels_tried in H as (calls & rest & mt' & answer & _ & _ & _ & _ & _ & Htr).
    eexists. split; [exact Htr|]. apply Forall_forall. intros ev Hev.
    apply list_elem_of_fmap in Hev as (c & -> & _). eauto. }
  assert (Hsame : w' = w -> leaves_only (fun ev => exists mt m, ev = sent mt m /\ P m) w w')
    by (intros ->; reflexivity).
  unfold SendMessage in Es. destruct channels as [|first channels]; [injection Es as _ <-; by apply Hsame|].
  destruct (clients !! first) as [[mt send]|]; [|injection Es as _ <-; by apply Hsame].
  destruct (SupportedChannels message); [injection Es as _ <-; by apply Hsame|]. by eapply Htried.
Qed.
(** What a recorded message says of the row it was for. *)
Definition about (rwa : ReceiverWalletAsset) (m : MessageInsert) : Prop :=
  MI_ReceiverWalletID m = Some (RW_ID (RWA_ReceiverWallet rwa)) /\ MI_ReceiverID m = Rec_ID (RWA_Receiver rwa) /\
  MI_AssetID m = Some (Asset_ID (RWA_Asset rwa)).

(** The message of the row left in the calls [evs], along the channels of the
    organization: it is recorded as sent with the messenger that accepted it, the last
    one called, or as failed when all of them were called and refused it. *)
Definition outcome (organization : Organization) (evs : list Ev) (rwa : ReceiverWalletAsset) (m : MessageInsert) : Prop :=
  about rwa m /\ exists message calls rest, to_receiver rwa message /\ MI_TextEncrypted m = Msg_Body message /\
    evs = map (fun c => sent (fst c) message) calls /\
    route message (MessageChannelPriority organization) = calls ++ rest /\
    (MI_Status m = SuccessMessageStatus /\ tried message calls true /\ fst <$> last calls = Some (MI_Type m) \/
     MI_Status m = FailureMessageStatus /\ tried message calls false /\ rest = []).

Lemma SendMessage_fails message channels w e w' :
  SendMessage message channels w = (Err e, w') -> w_trace w' = w_trace w.
Proof.
  unfold SendMessage. destruct channels as [|first channels]; [by intros [= _ <-]|].
  destruct (clients !! first) as [[mt1 send]|]; [|by intros [= _ <-]]. destruct (SupportedChannels message); [done|].
  intros H. by apply try_channels_tried in H as (calls & rest & mt' & answer & ? & _).
Qed.
End sending.

(** ** What is recorded *)

(** The job writes to neither table before it records what it sent. *)
Definition unrecorded (x x' : SdpDb) : Prop := messages x' = messages x /\ receiver_wallets x' = receiver_wallets x.
#[export] Instance unrecorded_preorder : PreOrder unrecorded.
Proof. split; [done|]. unfold unrecorded. intros ? ? ? [] []. split; congruence. Qed.

Lemma check_embedded_same {A} (a : A) x b x' : check_embedded_wallets a x = Ok (b, x') -> x' = x.
Proof. unfold check_embedded_wallets. destruct (decide _); [|done]. destruct (decide _); [|done]. by intros [= _ <-]. Qed.

Lemma check_short_same {A} (a : A) x b x' : check_short_urls a x = Ok (b, x') -> x' = x.
Proof. unfold check_short_urls. destruct (negb _); [done|]. destruct (decide _); [|done]. by intros [= _ <-]. Qed.

(** The row of a message that was sent, or was not. *)
Definition recorded {U : UuidGen} (cx cx' : StmtCtx) (n i : nat) (m : MessageInsert) : MessageRow :=
  let row := new_message cx (n + i) m in
  if M_Status row =? PendingMessageStatus then row else append_status cx' row.

Definition accepted_for (msgs : list MessageInsert) (id : string) : bool :=
  existsb (fun m => bool_decide (MI_ReceiverWalletID m = Some id) && (MI_Status m =? SuccessMessageStatus)) msgs.

Definition invited_at (cx : StmtCtx) (rw : ReceiverWallet) : ReceiverWallet :=
  refresh_receiver_wallet cx (rw <| RW_InvitationSentAt := Some (NOW cx) |>).

Lemma check_messages_ok {A} (a : A) x b x' : check_messages a x = Ok (b, x') -> b = a /\ x' = x /\ messages_ok (messages x).
Proof. unfold check_messages. destruct (decide _) as [H|]; [|done]. by intros [= <- <-]. Qed.

(** Only the new messages have their status appended. *)
Lemma append_new {U : UuidGen} cx cx' old msgs :
  let rows := imap (fun i => new_message cx (length old + i)) msgs in
  NoDup (map M_ID (old ++ rows)) ->
  update_where (fun m => slices_Contains (map M_ID rows) (M_ID m) && (M_Status m <>? PendingMessageStatus))
    (append_status cx') (old ++ rows) = old ++ imap (recorded cx cx' (length old)) msgs.
Proof.
  cbn zeta. intros Hnd. unfold update_where. rewrite map_app in Hnd |- *. apply NoDup_app in Hnd as (_ & Hdis & _). f_equal.
  - rewrite <- (map_id old) at 2. apply map_ext_in. intros m Hm%list_elem_of_In.
    destruct (slices_Contains _ _) eqn:Ec; [|done]. apply slices_Contains_spec in Ec.
    destruct (Hdis (M_ID m)); [|done]. apply list_elem_of_fmap. by exists m.
  - rewrite fmap_imap. apply list_eq. intros i. rewrite !list_lookup_imap. destruct (msgs !! i) as [m|] eqn:Em; [|done].
    cbn. f_equal. unfold recorded. rewrite (proj2 (slices_Contains_spec _ _)).
    + cbn [andb]. by destruct (_ =? PendingMessageStatus).
    + apply list_elem_of_fmap. exists (new_message cx (length old + i) m). split; [done|].
      apply list_elem_of_lookup. exists i.
      by rewrite list_lookup_imap, Em.
Qed.

Section job.
Context {D L Ev : Type} {E : Env D} {C : Conn D SdpDb} {CL : ConnLaws D SdpDb} {U : UuidGen} {UU : GoogleUuid} {DO : DistinctOrder}.
Context {SDK : StellarSdk} {GU : GoUrls} {KP : StellarKeypairs} {URI : RequestURLs} {Co : Collation}.
Context {PN : PhoneNumbers} {MD : MessageDispatcher} {EM : MessageEvents Ev} {TP : Templates}.
Context (embeddedWalletService : option string) (max : Z) (key : string).
Implicit Types w : World D L Ev.
Abbreviation M := (M D L Ev).

Lemma quiet_run {A} (m : M A) w r w' : respects same_trace m -> m w = (r, w') -> w_trace w' = w_trace w.
Proof. intros Hm H. specialize (Hm w). by rewrite H in Hm. Qed.

Lemma quiet_link wdl short : respects same_trace (GetRegistrationLink key wdl short : M string).
Proof. unfold GetRegistrationLink, GetOrCreateShortCode. quiet. Qed.

Lemma quiet_record ids msgs : respects same_trace (record_invitations ids msgs : M unit).
Proof. unfold record_invitations, UpdateInvitationSentAt, Message_BulkInsert. quiet. Qed.

Lemma quiet_deep_link wdl id field :
  respects same_trace (updateEmbeddedWalletDeepLink embeddedWalletService wdl id field : M WalletDeepLink).
Proof.
  unfold updateEmbeddedWalletDeepLink, GetByReceiverWalletIDAndStatuses, get_wallet, no_rows_as, GetContext,
    CreateInvitationToken, EW_Insert, EW_Update. quiet.
Qed.

(** The message of a row that is due at some instant of the job. *)
Definition invitation_of (P : ReceiverWalletAsset -> Prop) (organization : Organization) (m : Message) : Prop :=
  exists rwa t, P rwa /\ due max organization (env_now t) rwa /\ to_receiver rwa m.

Lemma invite_leaves (P : ReceiverWalletAsset -> Prop) tenant organization tpl wallets rwa :
  P rwa ->
  respects (leaves_only (fun ev => exists mt m, ev = sent mt m /\ invitation_of P organization m))
    (invite embeddedWalletService max key tenant organization tpl wallets rwa : M (option MessageInsert)).
Proof.
  intros HP. set (R := leaves_only _). unfold invite, shouldSendInvitation. apply respects_assoc.
  apply respects_ask_bind; [apply _|apply leaves_quiet, quiet_ask|]. intros t.
  change (mbind_ (mret_ ?b) ?k) with (k b : M (option MessageInsert)). cbn beta.
  destruct (is_due _ _ _ _) eqn:Hdue; [|apply respects_ret, _]. cbn [negb]. apply is_due_spec in Hdue.
  destruct (BaseURL tenant), (SDPUIBaseURL tenant); try apply respects_throw, _.
  apply respects_bind; [apply _| |intros linked].
  { destruct (Wal_Embedded _); [|apply respects_ret, _]. apply leaves_quiet, respects_catch, quiet_deep_link. }
  destruct linked as [wdl|e]; [|apply respects_ret, _].
  apply respects_bind; [apply _|apply leaves_quiet, respects_catch, quiet_link|intros link].
  destruct link as [registrationLink|e]; [|apply respects_ret, _].
  apply respects_bind; [apply _|apply respects_catch|intros msg; apply respects_ret, _].
  unfold prepareMessage. apply respects_bind; [apply _|apply leaves_quiet; quiet|intros tpl'].
  apply respects_bind; [apply _|apply leaves_quiet; quiet|intros text].
  apply respects_bind; [apply _| |intros [mt answer]; apply respects_ret, _].
  apply SendMessage_leaves. exists rwa, t. split; [done|]. by split.
Qed.

Context (Hcalm : forall t (d : D), env_interfere t d = d).

Lemma pool_ok {A} (q : SdpDb -> res A) w a w' :
  pool_query (fun _ db => q db) w = (Ok a, w') -> read_only w w' /\ q (sdp w) = Ok a.
Proof using Hcalm.
  intros H. split; [pose proof (reads_pool Hcalm (fun _ db => q db) w) as Hr; by rewrite H in Hr|].
  unfold pool_query in H. rewrite (calm_settle Hcalm) in H. destruct (env_fault _); [|done..]. by injection H as H _.
Qed.

Lemma select_ok {A} (q : StmtCtx -> SdpDb -> A) w a w' :
  db_stmt (fun cx db => Ok (q cx db, db)) w = (Ok a, w') -> read_only w w' /\ exists cx, a = q cx (sdp w).
Proof using Hcalm CL.
  intros H. split; [pose proof (reads_stmt Hcalm q w) as Hr; by rewrite H in Hr|].
  apply db_stmt_ok in H as (cx & x' & [= Hq _] & _). rewrite (calm_settle Hcalm) in Hq. by exists cx.
Qed.

Lemma same_sdp w w' : read_only w w' -> sdp w' = sdp w.
Proof. intros [Hd _]. unfold sdp. by rewrite Hd. Qed.

(** What the job reads before it sends anything. *)
Lemma rows_to_invite w w1 w2 w3 wallets rws rows :
  NoDup (map RW_ID (receiver_wallets (sdp w))) ->
  (wrapM "getting all wallets" (FindWallets []) : M (list Wallet)) w = (Ok wallets, w1) ->
  (wrapM "getting all receiver wallets pending registration" GetAllPendingRegistrations : M (list ReceiverWallet)) w1
    = (Ok rws, w2) ->
  (wrapM "getting all assets" (GetAssetsPerReceiverWallet rws) : M (list ReceiverWalletAsset)) w2 = (Ok rows, w3) ->
  sdp w3 = sdp w /\ w_trace w3 = w_trace w /\ forall rwa, rwa ∈ rows -> to_invite (sdp w) rwa.
Proof using CL Hcalm.
  intros Hpk H1 H2 H3. unfold GetAllPendingRegistrations, pending_registrations in H2.
  unfold FindWallets, GetAssetsPerReceiverWallet in *.
  assert (Ht : w_trace w3 = w_trace w).
  { transitivity (w_trace w2); [eapply quiet_run; [|exact H3]; quiet|].
    transitivity (w_trace w1); (eapply quiet_run; [|first [exact H2 | exact H1]]; quiet). }
  do 2 apply map_errM_ok in H1. apply (pool_ok (fun db => Ok (newWalletQuery [] db))) in H1 as [Hr1 _].
  do 2 apply map_errM_ok in H2. apply select_ok in H2 as (Hr2 & _ & ->).
  do 2 apply map_errM_ok in H3. apply select_ok in H3 as (Hr3 & cx & ->).
  rewrite (same_sdp _ _ Hr3), (same_sdp _ _ Hr2), (same_sdp _ _ Hr1) in *. split_and!; [done..|].
  intros rwa Hin. rewrite distinct_order_perm in Hin. apply elem_of_distinct in Hin.
  apply list_elem_of_omap in Hin as (p & Hp & Hi). eapply invited_payment_ok; [done|exact Hp| |exact Hi].
  intros id Hid. apply list_elem_of_fmap in Hid as (rw & -> & Hrw). apply list_elem_of_filter in Hrw as [Hq Hrw].
  exists rw. split_and!; [done|done|]. unfold pending_registration in Hq. rewrite !andb_true_iff in Hq.
  destruct Hq as [[[Hq _] _] _]. by apply eqb_true.
Qed.

(** Who is invited was READY, and so was their payment. *)
Lemma invite_all_leaves tenant organization tpl w :
  NoDup (map RW_ID (receiver_wallets (sdp w))) ->
  leaves_only (fun ev => exists mt m, ev = sent mt m /\ invitation_of (to_invite (sdp w)) organization m) w
    (snd (invite_all embeddedWalletService max key tenant organization tpl w)).
Proof using CL Hcalm.
  intros Hpk. set (R := leaves_only _). unfold invite_all.
  apply run_bind; [apply _|apply leaves_quiet; unfold FindWallets; quiet|]. intros wallets w1 H1.
  apply run_bind; [apply _|apply leaves_quiet; unfold GetAllPendingRegistrations, pending_registrations; quiet|].
  intros rws w2 H2.
  apply run_bind; [apply _|apply leaves_quiet; unfold GetAssetsPerReceiverWallet; quiet|]. intros rows w3 H3.
  destruct (rows_to_invite w w1 w2 w3 wallets rws rows Hpk H1 H2 H3) as (_ & _ & Hrows).
  change (R w3 (snd (mbind_ (mmapM (invite embeddedWalletService max key tenant organization tpl wallets) rows)
    (fun msgs => record_invitations (omap first_sent (zip rows msgs)) (omap id msgs)) w3))).
  apply run_bind; [apply _|apply respects_mapM_in; [apply _|]|].
  - intros rwa Hin. by apply invite_leaves, Hrows.
  - intros msgs w4 _. apply leaves_quiet, quiet_record.
Qed.

(** C32: Whatever fails, as long as nobody writes in between, each message the job sends goes to
    a receiver whose wallet is READY and who has a READY payment: for the first time, or,
    where the organization has an interval, after that interval for each time before,
    and while fewer messages were sent than allowed.  Where invitations are disabled, none
    is sent. *)
Theorem invitations_are_due (ctx : Context_) w (Hpk : NoDup (map RW_ID (receiver_wallets (sdp w)))) :
  leaves_only (fun ev => exists organization rwa t mt m, ev = sent mt m /\
      hd_error (organizations (sdp w)) = Some organization /\ ReceiverInvitationsDisabled organization <> Some true /\
      to_invite (sdp w) rwa /\ due max organization (env_now t) rwa /\ to_receiver rwa m) w
    (snd (SendInvite embeddedWalletService max key ctx w)).
Proof using CL Hcalm.
  set (R := leaves_only _). unfold SendInvite.
  apply run_bind; [apply _|apply leaves_quiet; quiet|]. intros tnt w1 H1. apply map_errM_ok, lift_ok in H1 as [_ ->].
  destruct (bool_decide _); [apply (leaves_quiet _ (throw _)); quiet|].
  apply run_bind; [apply _|apply leaves_quiet; unfold Organizations_Get, no_rows_as; quiet|].
  intros organization w1 H1. unfold Organizations_Get, no_rows_as in H1. do 2 apply map_errM_ok in H1.
  apply (pool_ok (fun db => match organizations db with o :: _ => Ok o | [] => Err (ESentinel sql_ErrNoRows) end))
    in H1 as [Hr1 Horg]. destruct (organizations (sdp w)) as [|o os] eqn:Eo; [done|]. injection Horg as ->.
  destruct (default false _) eqn:Ed; [apply (leaves_quiet _ (mret_ tt)); quiet|].
  apply run_bind; [apply _|apply leaves_quiet; quiet|]. intros tpl w2 H2. apply map_errM_ok, lift_ok in H2 as [_ ->].
  pose proof (invite_all_leaves tnt organization tpl w1) as Hall. rewrite (same_sdp _ _ Hr1) in Hall.
  destruct (Hall Hpk) as (evs & Htr & Hevs).
  exists evs. split; [exact Htr|]. eapply Forall_impl; [exact Hevs|].
  intros ev (mt & m & -> & rwa & t & Hinv & Hdue & Hto). exists organization, rwa, t, mt, m.
  split_and!; try done. intros Hd. by rewrite Hd in Ed.
Qed.
End job.

Section recording.
Context {D L Ev : Type} {E : Env D} {C : Conn D SdpDb} {CL : ConnLaws D SdpDb} {U : UuidGen} {UU : GoogleUuid} {DO : DistinctOrder}.
Context {SDK : StellarSdk} {GU : GoUrls} {KP : StellarKeypairs} {URI : RequestURLs} {Co : Collation}.
Context {PN : PhoneNumbers} {MD : MessageDispatcher} {EM : MessageEvents Ev} {TP : Templates}.
Context (embeddedWalletService : option string) (max : Z) (key : string).
Context (Hcalm : forall t (d : D), env_interfere t d = d).
Implicit Types w : World D L Ev.
Abbreviation M := (M D L Ev).
Abbreviation leaves_tables := (outside (X := SdpDb) unrecorded).

Lemma emit_outside (ev : World D L Ev -> Ev) : respects leaves_tables (emit ev : M unit).
Proof. intros w Hi. by split. Qed.

Ltac stand_by t :=
  repeat first
    [ t | apply respects_bind; [apply _| |intros ?]
    | apply respects_map_err | apply respects_wrap | apply respects_catch | apply respects_try
    | apply (respects_ret _) | apply (respects_throw _) | apply (respects_lift _)
    | apply (outside_ask Hcalm unrecorded) | apply (outside_pool Hcalm unrecorded) | apply emit_outside
    | apply (outside_tx Hcalm unrecorded) | apply (within_Get Hcalm unrecorded) | apply (within_ask Hcalm unrecorded)
    | apply (within_stmt Hcalm unrecorded)
    | apply (outside_stmt Hcalm unrecorded)
    | match goal with |- respects _ (if ?b then _ else _) => destruct b end
    | match goal with |- respects _ (match ?x with _ => _ end) => destruct x end ].
Ltac stand := stand_by fail.

Lemma link_outside wdl short : respects leaves_tables (GetRegistrationLink key wdl short : M string).
Proof using Hcalm CL.
  assert (Hcode : forall n url, respects leaves_tables (code_attempts n url : M string)).
  { intros n url. induction n as [|n IH]; cbn [code_attempts]; [apply respects_throw, _|].
    apply respects_bind; [apply _| |].
    - unfold short_code. stand; intros cx db ? db' H; [by injection H as _ <-|].
      apply check_short_same in H as ->. by split.
    - intros r. stand. exact IH. }
  unfold GetRegistrationLink, GetOrCreateShortCode. stand_by ltac:(apply Hcode).
Qed.

Lemma deep_link_outside wdl id field :
  respects leaves_tables (updateEmbeddedWalletDeepLink embeddedWalletService wdl id field : M WalletDeepLink).
Proof using Hcalm CL.
  unfold updateEmbeddedWalletDeepLink, GetByReceiverWalletIDAndStatuses, get_wallet, no_rows_as, GetContext,
    CreateInvitationToken, in_tx, EW_Insert, EW_Update. stand; intros cx db ? db' H;
    first [by injection H as _ <- | apply check_embedded_same in H as ->; by split].
Qed.

Lemma send_outside message channels : respects leaves_tables (SendMessage message channels : M (string * res unit)).
Proof using Hcalm CL.
  assert (Htry : forall chs mt, respects leaves_tables (try_channels message mt chs : M (string * res unit))).
  { induction chs as [|ch chs IH]; intros mt; cbn [try_channels]; stand; auto. }
  unfold SendMessage. stand. apply Htry.
Qed.

Lemma invite_outside tenant organization tpl wallets rwa :
  respects leaves_tables (invite embeddedWalletService max key tenant organization tpl wallets rwa : M (option MessageInsert)).
Proof using Hcalm CL.
  unfold invite, shouldSendInvitation, prepareMessage.
  stand_by ltac:(first [apply deep_link_outside | apply link_outside | apply send_outside]).
Qed.

(** What one turn of the loop has sent is what it says to record. *)
Lemma prepare_outcome rwa tpl organization link wallet w r w' :
  prepareMessage rwa tpl organization link wallet w = (r, w') ->
  match r with
  | Ok m => exists evs, w_trace w' = w_trace w ++ evs /\ outcome organization evs rwa m
  | Err _ => w_trace w' = w_trace w
  end.
Proof.
  intros H. unfold prepareMessage in H.
  apply mbind_run in H as [(tpl' & w1 & H1 & H)|(e & H1 & ->)]; apply quiet_run in H1; [|quiet|done|quiet].
  apply mbind_run in H as [(text & w2 & H2 & H)|(e & H2 & ->)]; apply quiet_run in H2;
    [|quiet|congruence|quiet].
  apply mbind_run in H as [([mt answer] & w3 & H3 & H)|(e & H3 & ->)].
  2: { apply SendMessage_fails in H3. congruence. }
  injection H as <- ->.
  apply message_takes_first_open_channel in H3 as (calls & rest & Hr & Htried & Hrest & Hlast & Htr).
  eexists. split; [rewrite Htr, H2, H1; done|]. split; [done|].
  exists (invitation_message rwa organization text link), calls, rest. split_and!; [done..|].
  cbn. destruct (is_ok answer); [left|right]; auto.
Qed.

Lemma invite_outcome tenant organization tpl wallets rwa w o w' :
  invite embeddedWalletService max key tenant organization tpl wallets rwa w = (Ok o, w') ->
  exists evs, w_trace w' = w_trace w ++ evs /\
    match o with Some m => outcome organization evs rwa m | None => evs = [] end.
Proof.
  intros H. unfold invite in H.
  assert (Hnone : forall w1, (mret_ None : M (option MessageInsert)) w1 = (Ok o, w') -> w_trace w1 = w_trace w -> exists evs, w_trace w' = w_trace w ++ evs /\
    match o with Some m => outcome organization evs rwa m | None => evs = [] end).
  { intros w1 [= <- <-] Ht. exists []. by rewrite app_nil_r. }
  apply mbind_ok in H as (due & w1 & H1 & H).
  apply quiet_run in H1; [|unfold shouldSendInvitation; quiet].
  destruct due; cbn [negb] in H; [|by eapply Hnone]. destruct (BaseURL tenant), (SDPUIBaseURL tenant); try done.
  apply mbind_ok in H as (linked & w2 & H2 & H).
  apply quiet_run in H2; [|destruct (Wal_Embedded _); quiet; apply quiet_deep_link].
  destruct linked as [wdl|e]; [|eapply Hnone; [exact H|congruence]]. apply mbind_ok in H as (link & w3 & H3 & H).
  apply quiet_run in H3; [|apply respects_catch, quiet_link].
  destruct link as [registrationLink|e]; [|eapply Hnone; [exact H|congruence]].
  apply mbind_ok in H as (msg & w4 & H4 & H). injection H as <- <-. unfold catch_ in H4.
  destruct (prepareMessage _ _ _ _ _ w3) as [[m|e] w5] eqn:Ep; apply prepare_outcome in Ep.
  - injection H4 as <- <-. destruct Ep as (evs & Htr & Ho). exists evs. split; [congruence|done].
  - destruct (is_panic e); [done|]. injection H4 as <- <-. exists []. by rewrite app_nil_r, Ep, H3, H2, H1.
Qed.

(** The calls of the whole loop are those of the messages to be recorded, in order. *)
Lemma invite_loop tenant organization tpl wallets rows w msgs w' :
  mmapM (invite embeddedWalletService max key tenant organization tpl wallets) rows w = (Ok msgs, w') ->
  Forall2 (fun rwa o => forall m, o = Some m -> about rwa m) rows msgs /\
  exists calls, w_trace w' = w_trace w ++ concat calls /\
    Forall2 (fun m evs => exists rwa, rwa ∈ rows /\ outcome organization evs rwa m) (omap id msgs) calls.
Proof.
  revert w msgs. induction rows as [|rwa rows IH]; intros w msgs H; cbn in H.
  - injection H as <- <-. split; [done|]. exists []. by rewrite app_nil_r.
  - apply mbind_ok in H as (o & w1 & H1 & H). apply mbind_ok in H as (os & w2 & H2 & H). injection H as <- <-.
    apply invite_outcome in H1 as (evs & Ht1 & Ho). apply IH in H2 as (Habout & calls & Ht2 & Hall).
    assert (Hmore : Forall2 (fun m evs => exists rwa', rwa' ∈ rwa :: rows /\ outcome organization evs rwa' m)
      (omap id os) calls).
    { eapply Forall2_impl; [exact Hall|]. intros m ev (r & Hr & ?). exists r. by split; [right|]. }
    destruct o as [m|].
    + split; [constructor; [by intros ? [= <-]; apply Ho|done]|]. exists (evs :: calls). cbn.
      split; [by rewrite Ht2, Ht1, app_assoc|]. constructor; [|done]. exists rwa. by split; [left|].
    + subst evs. rewrite app_nil_r in Ht1. split; [by constructor|]. exists calls. split; [by rewrite Ht2, Ht1|done].
Qed.

Lemma record_opens ids msgs :
  opens (X := SdpDb) (wrapM "updating receiver wallets' invitation sent at" (UpdateInvitationSentAt ids) ;;!
    wrapM "inserting messages in the database" (Message_BulkInsert msgs) : M unit) (fun _ x x' =>
    exists cx cx' cx'', receiver_wallets x' =
      update_where (fun rw => slices_Contains ids (RW_ID rw) && (RW_Status rw =? ReadyReceiversWalletStatus))
        (invited_at cx) (receiver_wallets x) /\
    messages x' = messages x ++ imap (recorded cx' cx'' (length (messages x))) msgs).
Proof using CL.
  eapply opens_bind_with; [apply opens_wrap; unfold UpdateInvitationSentAt; apply opens_wrap, opens_stmt|]. intros rws.
  unfold Message_BulkInsert. apply opens_wrap. eapply opens_bind_with; [apply opens_wrap, opens_stmt|]. intros newIDs.
  eapply opens_mono; [apply opens_wrap, opens_stmt|].
  intros [] y x' [cx'' H] y1 [cx' H1] x [cx H0].
  apply check_receiver_wallets_ok in H0 as (-> & -> & _). apply check_messages_ok in H1 as (-> & -> & [_ Hnd]).
  apply check_messages_ok in H as (_ & -> & _). exists cx, cx', cx''. split; [done|].
  cbn. cbn in Hnd. by apply append_new.
Qed.

(** The wallets whose first invitation went out are those of the accepted messages that had
    none before. *)
Lemma first_sent_spec db rows msgs rw :
  NoDup (map RW_ID (receiver_wallets db)) -> Forall (to_invite db) rows ->
  Forall2 (fun rwa o => forall m, o = Some m -> about rwa m) rows msgs -> rw ∈ receiver_wallets db ->
  slices_Contains (omap first_sent (zip rows msgs)) (RW_ID rw) && (RW_Status rw =? ReadyReceiversWalletStatus) =
    bool_decide (RW_InvitationSentAt rw = None) && accepted_for (omap id msgs) (RW_ID rw).
Proof.
  intros Hpk Hrows Hout Hrw. rewrite Forall_forall in Hrows.
  assert (Hsame : forall rwa, rwa ∈ rows -> RW_ID (RWA_ReceiverWallet rwa) = RW_ID rw ->
            RWA_ReceiverWallet rwa = rw /\ RW_Status rw = ReadyReceiversWalletStatus).
  { intros rwa Hin Hid. destruct (Hrows rwa Hin) as (p & _ & _ & Hl & Hst & _). apply first_such_some in Hl as [Hl _].
    assert (RWA_ReceiverWallet rwa = rw) as <-; [|done]. by apply (map_unique RW_ID (receiver_wallets db)). }
  apply eq_true_iff_eq. rewrite !andb_true_iff, slices_Contains_spec, bool_decide_eq_true, eqb_true. unfold accepted_for.
  rewrite existsb_exists. split.
  - intros [Hin _]. apply list_elem_of_omap in Hin as ([rwa o] & Hz & Hf). unfold first_sent in Hf. cbn in Hf.
    destruct o as [m|]; [|done]. destruct (_ && _) eqn:Ec in Hf; [|done]. injection Hf as Hid.
    apply andb_true_iff in Ec as [Hn%bool_decide_eq_true Hs]. pose proof (elem_of_zip_l _ _ _ _ Hz) as Hr.
    destruct (Hsame rwa Hr Hid) as [He _]. rewrite He in *. split; [done|]. exists m.
    apply list_elem_of_lookup in Hz as [i Hi]. apply lookup_zip_Some in Hi as [Hi Hj].
    destruct (Forall2_lookup_lr _ _ _ _ _ _ Hout Hi Hj m eq_refl) as (Hw & _). split.
    + apply list_elem_of_In, list_elem_of_omap. exists (Some m). split; [by eapply list_elem_of_lookup_2|done].
    + rewrite Hs, andb_true_r. apply bool_decide_eq_true. by rewrite Hw, He.
  - intros [Hn (m & Hm & Hc)]. apply list_elem_of_In, list_elem_of_omap in Hm as (o & Ho & Hm). cbn in Hm. subst o.
    apply andb_true_iff in Hc as [Hid%bool_decide_eq_true Hs]. apply list_elem_of_lookup in Ho as [i Hj].
    destruct (Forall2_lookup_r _ _ _ _ _ Hout Hj) as (rwa & Hi & Ho). destruct (Ho m eq_refl) as (Hw & _).
    rewrite Hid in Hw. injection Hw as Hw. destruct (Hsame rwa (list_elem_of_lookup_2 _ _ _ Hi) (eq_sym Hw)) as [He Hst].
    split; [|done]. apply list_elem_of_omap. exists (rwa, Some m). split.
    + apply list_elem_of_lookup. exists i. by apply lookup_zip_Some.
    + unfold first_sent. cbn. by rewrite He, Hs, bool_decide_eq_true_2.
Qed.

Lemma outside_run {A} (m : M A) w a w' :
  respects leaves_tables m -> m w = (Ok a, w') -> idle (X := SdpDb) w ->
  idle (X := SdpDb) w' /\ unrecorded (sdp w) (sdp w').
Proof. intros Hm H. specialize (Hm w). by rewrite H in Hm. Qed.

Lemma invite_all_records tenant organization tpl w w' :
  NoDup (map RW_ID (receiver_wallets (sdp w))) -> idle (X := SdpDb) w ->
  invite_all embeddedWalletService max key tenant organization tpl w = (Ok tt, w') ->
  exists msgs calls cx cx' cx'', w_trace w' = w_trace w ++ concat calls /\
    Forall2 (fun m evs => exists rwa, to_invite (sdp w) rwa /\ outcome organization evs rwa m) msgs calls /\
    messages (sdp w') = messages (sdp w) ++ imap (recorded cx' cx'' (length (messages (sdp w)))) msgs /\
    receiver_wallets (sdp w') =
      update_where (fun rw => bool_decide (RW_InvitationSentAt rw = None) && accepted_for msgs (RW_ID rw))
        (invited_at cx) (receiver_wallets (sdp w)).
Proof using CL Hcalm.
  intros Hpk Hidle H. unfold invite_all in H. apply mbind_ok in H as (wallets & w1 & H1 & H).
  apply mbind_ok in H as (rws & w2 & H2 & H). apply mbind_ok in H as (rows & w3 & H3 & H).
  apply mbind_ok in H as (msgs & w4 & H4 & H5).
  destruct (rows_to_invite Hcalm w w1 w2 w3 wallets rws rows Hpk H1 H2 H3) as (Hdb & Htr & Hrows).
  pose proof (invite_loop _ _ _ _ _ _ _ _ H4) as (Hout & calls & Htr4 & Hcalls).
  apply outside_run in H1 as [Hi1 _]; [|stand|done].
  apply outside_run in H2 as [Hi2 _]; [|unfold GetAllPendingRegistrations, pending_registrations; stand|done].
  2: by intros cx db ? db' [= _ <-].
  apply outside_run in H3 as [Hi3 _]; [|unfold GetAssetsPerReceiverWallet; stand|done].
  2: by intros cx db ? db' [= _ <-].
  apply outside_run in H4 as [Hi4 [Hm4 Hr4]]; [|apply respects_mapM; [apply _|intros x; apply invite_outside]|done].
  rewrite Hdb in Hm4, Hr4. pose proof (quiet_run _ _ _ _ (quiet_record _ _) H5) as Ht5. unfold record_invitations in H5.
  apply (RunInTransaction_opens _ _ _ _ _ (record_opens _ _)) in H5 as (cx & cx' & cx'' & Hrw & Hmsg).
  rewrite (calm_settle Hcalm) in Hrw, Hmsg. fold (sdp w4) (sdp w') in *. rewrite Hr4 in Hrw. rewrite Hm4 in Hmsg.
  exists (omap id msgs), calls, cx, cx', cx''. split; [congruence|]. split_and!; [|done|].
  - eapply Forall2_impl; [exact Hcalls|]. intros m evs (rwa & Hin & Ho). exists rwa. split; [by apply Hrows|done].
  - rewrite Hrw. apply map_ext_in. intros rw Hrw'%list_elem_of_In.
    by rewrite (first_sent_spec (sdp w) rows msgs rw Hpk) by (done || by apply Forall_forall).
Qed.

(** C33: What a run of the job that answers, while nobody writes in between, has sent is
    what it records: its calls of messengers are those of the messages it adds to the
    table, in order, each message going along the channels of the organization.  A
    message is recorded as sent, with the messenger, when the last call accepted it, and
    as failed only when every channel refused it.  No other message changes; the wallets
    whose first message was accepted, and only those, are marked as invited. *)
Theorem invitations_are_recorded (ctx : Context_) w w' organization
    (Hpk : NoDup (map RW_ID (receiver_wallets (sdp w)))) (Hidle : idle (X := SdpDb) w)
    (Horg : hd_error (organizations (sdp w)) = Some organization)
    (Henabled : ReceiverInvitationsDisabled organization <> Some true)
    (Hrun : SendInvite embeddedWalletService max key ctx w = (Ok tt, w')) :
  exists msgs calls cx cx' cx'', w_trace w' = w_trace w ++ concat calls /\
    Forall2 (fun m evs => exists rwa, to_invite (sdp w) rwa /\ outcome organization evs rwa m) msgs calls /\
    messages (sdp w') = messages (sdp w) ++ imap (recorded cx' cx'' (length (messages (sdp w)))) msgs /\
    receiver_wallets (sdp w') =
      update_where (fun rw => bool_decide (RW_InvitationSentAt rw = None) && accepted_for msgs (RW_ID rw))
        (invited_at cx) (receiver_wallets (sdp w)).
Proof using CL Hcalm.
  unfold SendInvite in Hrun. apply mbind_ok in Hrun as (tnt & w1 & H1 & H). apply map_errM_ok, lift_ok in H1 as [_ ->].
  destruct (bool_decide _); [done|]. apply mbind_ok in H as (org & w1 & H1 & H).
  unfold Organizations_Get, no_rows_as in H1. do 2 apply map_errM_ok in H1.
  pose proof (quiet_run _ _ _ _ (quiet_pool_query _) H1) as Ht1.
  destruct (outside_run _ _ _ _ (outside_pool Hcalm unrecorded _) H1 Hidle) as [Hi1 _].
  apply (pool_ok Hcalm (fun db => match organizations db with o :: _ => Ok o | [] => Err (ESentinel sql_ErrNoRows) end))
    in H1 as [Hr1 Ho].
  destruct (organizations (sdp w)) as [|o os]; [done|]. injection Horg as ->. injection Ho as <-.
  destruct (ReceiverInvitationsDisabled organization) as [[]|] eqn:Ed; cbn [default] in H; [done|..].
  all: apply mbind_ok in H as (tpl & w2 & H2 & H); apply map_errM_ok, lift_ok in H2 as [_ ->].
  all: destruct (invite_all_records tnt organization tpl w1 w') as (msgs & calls & cx & cx' & cx'' & Htr & H3);
    rewrite ?(same_sdp _ _ Hr1) in *; try done.
  all: exists msgs, calls, cx, cx', cx''; split; [congruence|exact H3].
Qed.
End recording.

(** ** Short links *)

Section short_links.
Context {D L Ev : Type} {E : Env D} {C : Conn D SdpDb} {CL : ConnLaws D SdpDb} {UU : GoogleUuid}.
Implicit Types w : World D L Ev.

Lemma try_GetContext_opens {A} (q : Stmt SdpDb (option A)) :
  opens (X := SdpDb) (try_ (GetContext q) : M D L Ev (res A)) (fun r x x' => exists ctx o, q ctx x = Ok (o, x') /\
    r = match o with Some a => Ok a | None => Err (ESentinel sql_ErrNoRows) end).
Proof using CL.
  intros w r w' Ho H. apply (opens_try_GetContext q (fun e => e) w r w' Ho). rewrite <- H. unfold try_, map_errM.
  by destruct (GetContext q w) as [[a|e] w1].
Qed.

Lemma short_code_opens url :
  opens (X := SdpDb) (short_code url : M D L Ev string) (fun code _ x' =>
    exists u, u ∈ short_urls x' /\ SU_ID u = code /\ OriginalURL u = url).
Proof using CL.
  unfold short_code. eapply opens_bind_with; [apply try_GetContext_opens|]. intros r. destruct r as [code|e].
  - eapply opens_mono; [apply opens_ret|]. intros b y x' [-> ->] x (ctx & o & [= <- <-] & Hr).
    destruct (short_url_of url x) as [u|] eqn:Eu; [|done]. injection Hr as ->. apply first_such_some in Eu as [Hin Hu].
    exists u. apply eqb_true in Hu. by split_and!.
  - destruct (negb _); [apply opens_throw|]. eapply opens_bind_with; [apply opens_ask|]. intros code.
    eapply opens_bind_with; [apply opens_wrap, opens_stmt|]. intros u1.
    eapply opens_mono; [apply opens_ret|]. intros b y x' [-> ->] y1 [ctx H] x2 _ x _.
    apply check_short_same in H as ->. eexists. cbn. split; [apply elem_of_app; right; by left|]. by split.
Qed.

(** A short link that was given leads to the link it was given for. *)
Theorem short_link_leads_back n url w code w' (Hrun : code_attempts n url w = (Ok code, w'))
    (Hkeys : short_urls_unique (short_urls (sdp w'))) :
  OriginalURL <$> lookup_short_url code (sdp w') = Some url.
Proof using CL.
  revert w Hrun. induction n as [|n IH]; intros w Hrun; [done|]. cbn [code_attempts] in Hrun.
  apply mbind_ok in Hrun as (r & w1 & H1 & H). destruct r as [code'|e]; [|by destruct (isDuplicateError e); [eapply IH|]].
  injection H as -> <-. unfold try_ in H1. destruct (RunInTransactionWithResult (short_code url) w) as [[c|e] w2] eqn:Er;
    [|by destruct (is_panic e)].
  injection H1 as -> ->. apply (RunInTransaction_opens _ _ _ _ _ (short_code_opens url)) in Er as (u & Hin & <- & <-).
  unfold lookup_short_url. by rewrite (first_such_unique SU_ID (SU_ID u) _ u (proj1 Hkeys) Hin eq_refl).
Qed.
End short_links.

(** ** Witnesses *)

Module Inviting.
Export Channels.
#[export] Instance urls : GoUrls := Signing.urls.
#[export] Instance keys : StellarKeypairs := Signing.keys.
#[export] Instance request_urls : RequestURLs := Signing.request_urls.
#[export] Instance google : GoogleUuid := {| uuid_valid _ := true; uuid_NewString t := "v" +:+ itoa (Z.of_nat t) |}.
#[export] Instance collation : Collation := {| text_le a b := (a <=? b)%string |}.
#[export] Instance distinct_as_is : DistinctOrder.
Proof. by refine {| distinct_order A _ l := l |}. Defined.

(** Templates with the one place for the link. *)
Fixpoint fill (link : string) (skip : nat) (s : string) : string :=
  match s, skip with
  | EmptyString, _ => ""
  | String _ s', S k => fill link k s'
  | String c s', O =>
    if String.prefix "{{.RegistrationLink}}" s then link +:+ fill link 20 s' else String c (fill link 0 s')
  end.
#[export] Instance templates : Templates :=
  {| Template := string; template_Parse := Ok;
     template_Execute t values := Ok (fill (default "" (list_to_map (M := gmap string string) values !! "RegistrationLink")) 0 t) |}.

Definition tenant : Tenant :=
  mkTenant "t1" "Red Cross" (Some "https://tenant.example") (Some "https://ui.example") ActivatedTenantStatus true 0 0 None
    None "" "".
Definition receiver : Receiver := mkReceiver "r2" (Some "a@b.co") (Some "+14155552671") (Some "x2") None None 0 0.
Definition to_register : ReceiverWallet := invited <| RW_Status := ReadyReceiversWalletStatus |>.
Definition inviting : Organization := (organization false) <| ReceiverRegistrationMessageTemplate := "Welcome" |>.

(** One payment for each disbursement, which asks for what is given. *)
Definition asking (id template : string) (field : option string) : Disbursement :=
  (disbursement id StartedDisbursementStatus) <| Dis_ReceiverRegistrationMessageTemplate := template |>
    <| Dis_VerificationField := field |>.
Definition job (ds : list Disbursement) : SdpDb :=
  (sdp_db false ds (imap (fun i d => pay ("p" +:+ itoa (Z.of_nat i)) (Dis_ID d) ReadyPaymentStatus 50000000 to_register) ds))
    <| receivers := [receiver] |> <| receiver_wallets := [registered; to_register] |> <| organizations := [inviting] |>.
Definition world_of (db : SdpDb) : World Dbs unit (string * string) := mkWorld (db, mkTssDb [] []) 0 ∅ tt [].
Definition run (w : World Dbs unit (string * string)) := SendInvite (Some "aa") 3 "seed" (Some tenant) w.
Definition embedded_job (ds : list Disbursement) : SdpDb :=
  (job ds) <| wallets := [Platform.wallet <| Wal_Embedded := true |>] |>.

(** A template that says the link five times. *)
Definition repeated : string := "{{.RegistrationLink}} {{.RegistrationLink}} {{.RegistrationLink}} {{.RegistrationLink}} {{.RegistrationLink}}".
End Inviting.
Import Inviting.

Lemma invitations_are_due_witness :
  NoDup (map RW_ID (receiver_wallets (sdp (world_of (job [asking "d1" "" None]))))) /\
  exists ev, ev ∈ w_trace (snd (run (world_of (job [asking "d1" "" None])))) /\
    exists m, ev = (MessengerTypeAWSEmail, Msg_Body m) /\ ToEmail m = "a@b.co".
Proof.
  split; [by_computation|].
  destruct (invitations_are_due (E := env) (C := sdp_conn) (Some "aa") 3 "seed" (fun _ _ => eq_refl) (Some tenant)
    (world_of (job [asking "d1" "" None]))) as (evs & Htr & Hevs); [by_computation|].
  change (w_trace (snd (run (world_of (job [asking "d1" "" None])))) = evs) in Htr.
  rewrite Htr. rewrite Forall_forall in Hevs.
  assert (exists ev, ev ∈ evs /\ fst ev = MessengerTypeAWSEmail) as (ev & Hin & Hmt).
  { rewrite <- Htr. vm_compute. eexists (_, _). split; [right; left|reflexivity]. }
  exists ev. split; [exact Hin|].
  destruct (Hevs ev Hin) as (o & rwa & t & mt & m & -> & _ & _ & (p & _ & _ & _ & _ & Hr & _) & _ & _ & _ & He).
  cbn in Hmt. subst mt. exists m. split; [reflexivity|]. rewrite He.
  apply first_such_some in Hr as [Hr _]. apply list_elem_of_singleton in Hr. by rewrite Hr.
Defined.

Lemma invitations_are_recorded_witness :
  exists w', run (world_of (job [asking "d1" "" None])) = (Ok tt, w') /\
    map M_Status (messages (sdp w')) = [SuccessMessageStatus] /\
    map (fun rw => bool_decide (RW_InvitationSentAt rw = None)) (receiver_wallets (sdp w')) = [true; false].
Proof.
  eexists. split; [vm_compute; reflexivity|].
  edestruct (invitations_are_recorded (E := env) (C := sdp_conn) (Some "aa") 3 "seed" (fun _ _ => eq_refl) (Some tenant)
    (world_of (job [asking "d1" "" None]))) as (msgs & evs & cx & cx' & cx'' & _ & _ & Hm & Hr);
    [by_computation|reflexivity|reflexivity|discriminate|vm_compute; reflexivity|].
  split; vm_compute; reflexivity.
Defined.

(** The messages leave before they are recorded.  A column takes 1,024 characters of their
    text; a text that is longer, by a template that repeats the link, is sent, the
    transaction fails, and nothing tells the next run that the receiver was invited. *)
Example long_invitation_is_sent_again :
  let w := world_of (job [asking "d1" repeated None]) in
  let w1 := snd (run w) in
  is_ok (fst (run w)) = false /\ map fst (w_trace w1) = [MessengerTypeAWSSMS; MessengerTypeAWSEmail] /\
  messages (sdp w1) = [] /\ receiver_wallets (sdp w1) = receiver_wallets (sdp w) /\
  map fst (w_trace (snd (run w1))) = [MessengerTypeAWSSMS; MessengerTypeAWSEmail; MessengerTypeAWSSMS; MessengerTypeAWSEmail].
Proof. vm_compute. split_and!; reflexivity. Qed.

(** The rows are not one for each asset: two disbursements of one asset that ask for
    different things are two invitations in one run. *)
Example invited_once_for_each_template :
  let w' := snd (run (world_of (job [asking "d1" "Hello" None; asking "d2" "Hi" None]))) in
  map (fun m => (M_AssetID m, M_Status m)) (messages (sdp w')) =
    [(Some "a1", SuccessMessageStatus); (Some "a1", SuccessMessageStatus)].
Proof. vm_compute. reflexivity. Qed.

(** Whether the embedded wallet is to be verified is what the last of the rows said: a
    disbursement that asks for nothing undoes what another has asked for. *)
Example verification_is_the_last_one_asked :
  let asked ds := map EW_RequiresVerification (embedded_wallets (sdp (snd (run (world_of (embedded_job ds)))))) in
  asked [asking "d1" "" (Some "PIN"); asking "d2" "" None] = [false] /\
  asked [asking "d1" "" None; asking "d2" "" (Some "PIN")] = [true].
Proof. vm_compute. split; reflexivity. Qed.
