(* ===== verification/SepTokens.v ===== *)
(** The tokens of wallets: [internal/sepauth], which signs and reads the tokens of SEP-10,
    SEP-45 and SEP-24, with the middlewares that ask for one, and the requests of
    [internal/serve/httphandler/sep24_handler.go].  The library of the tokens is a
    parameter. *)

From S2P Require Import Prelude GoStrings Errors StateMachine Effects Schema TxStore Limiter Tables SdpDb PaymentStore.
From S2P Require Import ReceiverWalletStore Registration Tenant Tenants AuthManager Access CircleClient Links.
From Stdlib Require Import Ascii String.

Local Open Scope string_scope.
Local Open Scope list_scope.
Local Open Scope go_scope.

(** ** Claims *)

(** The JSON of a token: what the three kinds of claims read of it. *)
Record TokenClaims := mkTokenClaims {
  Tok_Issuer : string;
  Tok_Subject : string;
  Tok_ID : string;
  Tok_IssuedAt : option Z;
  Tok_ExpiresAt : option Z;
  Tok_ClientDomain : string;
  Tok_HomeDomain : string;
  Tok_Data : gmap string string }.

(** The signature of a text of claims with a secret; [RegisteredClaims.Valid]. *)
Class WalletJwt := {
  hs256_sign : string -> TokenClaims -> res string;
  hs256_verify : string -> string -> res TokenClaims;
  registered_Valid : nat -> TokenClaims -> res unit }.

Definition ErrTokenExpired : err := ESentinel "token is expired".

Definition sep24_claims (c : TokenClaims) : SEP24JWTClaims :=
  mkSEP24Claims (Tok_ClientDomain c) (Tok_HomeDomain c) (Tok_ID c) (Tok_Subject c) (Tok_ExpiresAt c).

(** What a domain is made of when it is given. *)
Definition blank (domain : string) : bool := (domain <>? "") && (TrimSpace domain =? "").

Section claims.
Context {WJ : WalletJwt} {CLib : ClaimsLibrary} {SDK : StellarSdk}.

Definition Sep10_Valid (t : nat) (c : TokenClaims) : res unit :=
  if Tok_Issuer c =? "" then Err (ENew "issuer is required")
  else if Tok_Subject c =? "" then Err (ENew "subject is required")
  else if Tok_ID c =? "" then Err (ENew "jti (JWT ID) is required")
  else if bool_decide (Tok_IssuedAt c = None) then Err (ENew "iat (issued at) is required")
  else if bool_decide (Tok_ExpiresAt c = None) then Err (ENew "exp (expires at) is required")
  else
    let? _ := wrap "validating registered claims" (registered_Valid t c) in
    if blank (Tok_ClientDomain c) then Err (ENew "client_domain cannot be empty if provided")
    else guard_err (blank (Tok_HomeDomain c)) (ENew "home_domain cannot be empty if provided").

(** The same text in the code. *)
Definition Sep45_Valid : nat -> TokenClaims -> res unit := Sep10_Valid.

(** The claims of SEP-24 ask the library about all the registered ones. *)
Definition SEP24_Valid (t : nat) (c : TokenClaims) : res unit :=
  Claims_Valid (CLib := {| RegisteredClaims_Valid t' _ := registered_Valid t' c; IsDNSName := IsDNSName |})
    t (sep24_claims c).
End claims.

(** ** The manager *)

Record JWTManager := mkJWTManager {
  JM_secret : string;
  JM_expirationMiliseconds : Z }.

Definition minSecretSize : nat := 12.
Definition minExpirationMiliseconds : Z := 5000.

Definition NewJWTManager (secret : string) (expirationMiliseconds : Z) : res JWTManager :=
  if (String.length secret <? minSecretSize)%nat
  then Err (ENew ("secret is required to have at least " +:+ itoa (Z.of_nat minSecretSize) +:+ " characteres"))
  else if (expirationMiliseconds <? minExpirationMiliseconds)%Z
  then Err (ENew ("expiration miliseconds is required to be at least " +:+ itoa minExpirationMiliseconds))
  else Ok (mkJWTManager secret expirationMiliseconds).

Definition Millisecond : Z := 1000000.

Section manager.
Context {WJ : WalletJwt} {CLib : ClaimsLibrary} {SDK : StellarSdk} {D L Ev : Type} {E : Env D}.
Context (manager : JWTManager).
Abbreviation M := (M D L Ev).

Definition signToken (Valid : nat -> TokenClaims -> res unit) (claims : TokenClaims) : M string :=
  ask_res (fun t =>
    let? _ := wrap "validating token claims" (Valid t claims) in
    wrap "signing token" (hs256_sign (JM_secret manager) claims)).

Definition parseTokenClaims (Valid : nat -> TokenClaims -> res unit) (tokenString operation : string) :
    M TokenClaims :=
  wrapM ("parsing " +:+ operation +:+ " token") (ask_res (fun t =>
    let? claims := hs256_verify (JM_secret manager) tokenString in
    let? _ := Valid t claims in Ok claims)).

Definition expiry (now : Z) : option Z := Some (NewNumericDate (now + Millisecond * JM_expirationMiliseconds manager)).

Definition GenerateSEP24Token (stellarAccount stellarMemo clientDomain homeDomain transactionID : string) : M string :=
  let! now := ask env_now in
  wrapM "generating SEP24 token" (signToken SEP24_Valid
    (mkTokenClaims "" (FormatSubject stellarAccount stellarMemo) transactionID None (expiry now) clientDomain homeDomain ∅)).

(** The data that is given wins over the language. *)
Definition GenerateSEP24MoreInfoToken (stellarAccount stellarMemo clientDomain homeDomain transactionID lang : string)
    (transactionData : gmap string string) : M string :=
  let! now := ask env_now in
  wrapM "generating SEP24 more info token" (signToken SEP24_Valid
    (mkTokenClaims "" (FormatSubject stellarAccount stellarMemo) transactionID None (expiry now) clientDomain homeDomain
       (transactionData ∪ (if lang =? "" then ∅ else {[ "lang" := lang ]})))).

Definition GenerateSEP10Token (issuer subject jti clientDomain homeDomain : string) (iat exp : Z) : M string :=
  wrapM "generating SEP10 token" (signToken Sep10_Valid
    (mkTokenClaims issuer subject jti (Some (NewNumericDate iat)) (Some (NewNumericDate exp)) clientDomain homeDomain ∅)).

Definition GenerateSEP45Token (issuer subject jti clientDomain homeDomain : string) (iat exp : Z) : M string :=
  wrapM "generating SEP45 token" (signToken Sep45_Valid
    (mkTokenClaims issuer subject jti (Some (NewNumericDate iat)) (Some (NewNumericDate exp)) clientDomain homeDomain ∅)).

Definition ParseSEP10TokenClaims (tokenString : string) : M TokenClaims := parseTokenClaims Sep10_Valid tokenString "SEP10".
Definition ParseSEP45TokenClaims (tokenString : string) : M TokenClaims := parseTokenClaims Sep45_Valid tokenString "SEP45".
Definition ParseSEP24TokenClaims (tokenString : string) : M TokenClaims := parseTokenClaims SEP24_Valid tokenString "SEP24".
End manager.

(** ** Who has a token of SEP-10 or SEP-45 *)

Definition WebAuthTokenTypeSEP10 := "sep10".
Definition WebAuthTokenTypeSEP45 := "sep45".

Record WebAuthClaims := mkWebAuthClaims {
  WA_Subject : string;
  WA_ClientDomain : string;
  WA_HomeDomain : string;
  WA_TokenType : string }.

Definition web_auth_claims (c : TokenClaims) (tokenType : string) : WebAuthClaims :=
  mkWebAuthClaims (Tok_Subject c) (Tok_ClientDomain c) (Tok_HomeDomain c) tokenType.

(** The text behind ["Bearer "]. *)
Definition bearer (authHeader : string) : option string :=
  if String.prefix "Bearer " authHeader then Some (String.substring 7 (String.length authHeader) authHeader) else None.

Definition PublicNetworkPassphrase := "Public Global Stellar Network ; September 2015".

(** What is behind the last slash. *)
Fixpoint last_part (path : string) : string :=
  match path with
  | EmptyString => ""
  | String _ path' => if Contains path "/" then last_part path' else path
  end.
Definition IsStaticAsset (path : string) : bool := Contains (last_part path) ".".

Definition checkSEP24ClientAndHomeDomains (claims : SEP24JWTClaims) (networkPassphrase : string) : res unit :=
  if (ClientDomain claims =? "") && (networkPassphrase =? PublicNetworkPassphrase)
  then Err (ENew "missing client domain in the token claims")
  else guard_err (HomeDomain claims =? "") (ENew "missing home domain in the token claims").

Section middlewares.
Context {WJ : WalletJwt} {CLib : ClaimsLibrary} {SDK : StellarSdk} {D L Ev : Type} {E : Env D} {AC : Conn D AdminDb}
  {Co : Collation}.
Context (manager : JWTManager).
Abbreviation M := (M D L Ev).

(** The answer of a parser, or that the token has expired. *)
Definition unless_expired (parse : M TokenClaims) : M (option TokenClaims) :=
  let! parsed := try_ parse in
  match parsed with
  | Ok claims => mret_ (Some claims)
  | Err e => if errors_Is_err e ErrTokenExpired then throw (Unauthorized "Expired token" None) else mret_ None
  end.

Definition WebAuthHeaderTokenAuthenticateMiddleware (authHeader : string) : M WebAuthClaims :=
  if authHeader =? "" then throw (Unauthorized "Missing authorization header" None)
  else match bearer authHeader with
  | None => throw (BadRequest "Invalid authorization header" None)
  | Some token =>
    if TrimSpace token =? "" then throw (Unauthorized "Invalid token" None)
    else
      let! sep45 := unless_expired (ParseSEP45TokenClaims manager token) in
      let! sep10 := unless_expired (ParseSEP10TokenClaims manager token) in
      match sep45, sep10 with
      | Some c, _ =>
        if IsValidContractAddress (Tok_Subject c) then mret_ (web_auth_claims c WebAuthTokenTypeSEP45)
        else match sep10 with
        | Some c => mret_ (web_auth_claims c WebAuthTokenTypeSEP10)
        | None => throw (Unauthorized "Invalid token" None)
        end
      | None, Some c => mret_ (web_auth_claims c WebAuthTokenTypeSEP10)
      | None, None => throw (Unauthorized "Invalid token" None)
      end
  end.

(** ** Who has a token of SEP-24 *)

Definition getCurrentTenant (singleTenantMode : bool) (homeDomain : string) : M Tenant :=
  if singleTenantMode
  then map_errM (fun e => InternalError "Failed to load default tenant" (Some (EWrap "failed to load default tenant" e)))
         (GetDefault singleTenantMode)
  else
    match ExtractTenantNameFromHostName homeDomain with
    | Err e => throw (BadRequest "Tenant name not found in SEP24Claims or invalid" (Some e))
    | Ok tenantName =>
      if tenantName =? "" then throw (BadRequest "Tenant name not found in SEP24Claims or invalid" None)
      else map_errM (fun e => InternalError "Failed to load tenant by name"
             (Some (EWrap ("failed to load tenant by name for tenant name " +:+ tenantName) e))) (GetTenantByName tenantName)
    end.

(** From the token to the claims and the tenant of the context. *)
Definition sep24_context (networkPassphrase : string) (singleTenantMode : bool) (claims : SEP24JWTClaims) :
    M (SEP24JWTClaims * Tenant) :=
  map_errM (fun e => BadRequest "" (Some e)) (lift (checkSEP24ClientAndHomeDomains claims networkPassphrase)) ;;!
  let! currentTenant := getCurrentTenant singleTenantMode (HomeDomain claims) in
  mret_ (claims, currentTenant).

Definition sep24_parse (token : string) : M SEP24JWTClaims :=
  let! claims := map_errM (fun e => Unauthorized "" (Some (EWrap "parsing the token claims" e)))
    (ParseSEP24TokenClaims manager token) in
  mret_ (sep24_claims claims).

(** A static asset is served as it is, without claims. *)
Definition SEP24QueryTokenAuthenticateMiddleware (networkPassphrase : string) (singleTenantMode : bool)
    (path : string) (query : res (string * string)) : M (option (SEP24JWTClaims * Tenant)) :=
  if IsStaticAsset path then mret_ None
  else
    let! (token, transactionID) := map_errM
      (fun e => BadRequest "" (Some (EWrap "decoding the request query parameters" e))) (lift query) in
    if token =? "" then throw (Unauthorized "" None)
    else
      let! claims := sep24_parse token in
      if TransactionID claims <>? transactionID then throw (BadRequest "" None)
      else
        let! c := sep24_context networkPassphrase singleTenantMode claims in mret_ (Some c).

Definition SEP24HeaderTokenAuthenticateMiddleware (networkPassphrase : string) (singleTenantMode : bool)
    (authHeader : string) : M (SEP24JWTClaims * Tenant) :=
  if authHeader =? "" then throw (Unauthorized "" None)
  else match bearer authHeader with
  | None => throw (Unauthorized "" None)
  | Some token =>
    let! claims := sep24_parse token in sep24_context networkPassphrase singleTenantMode claims
  end.
End middlewares.

(** ** The requests of SEP-24 *)

Definition SEP24StatusIncomplete := "incomplete".
Definition SEP24StatusPendingUserInfoUpdate := "pending_user_info_update".
Definition SEP24StatusCompleted := "completed".
Definition SEP24StatusError := "error".
Definition SEP24OperationKindDeposit := "deposit".

(** The fields of the answer that are not always the same; memos with their types. *)
Record SEP24Transaction := mkSEP24Transaction {
  S24_ID : string;
  S24_Status : string;
  S24_StartedAt : Z;
  S24_CompletedAt : option Z;
  S24_MoreInfoURL : option string;
  S24_To : option string;
  S24_DepositMemo : option (string * string) }.

Section sep24.
Context {WJ : WalletJwt} {CLib : ClaimsLibrary} {SDK : StellarSdk} {GU : GoUrls} {UU : GoogleUuid} {D L Ev : Type}
  {E : Env D} {C : Conn D SdpDb}.
Context (manager : JWTManager) (InteractiveBaseURL : string).
Abbreviation M := (M D L Ev).

Definition generateMoreInfoURL (webAuthClaims : WebAuthClaims) (transactionID status : string) : M string :=
  let '(account, memo) := ParseAccountAndMemo (WA_Subject webAuthClaims) in
  let! sep24Token := wrapM "failed to generate token" (GenerateSEP24MoreInfoToken manager account memo
    (WA_ClientDomain webAuthClaims) (WA_HomeDomain webAuthClaims) transactionID "en"
    (<["kind" := SEP24OperationKindDeposit]> {[ "status" := status ]})) in
  let! baseURL := wrapM "failed to parse base URL" (lift (go_url_Parse InteractiveBaseURL)) in
  mret_ (URL_Scheme baseURL +:+ "://" +:+ WA_HomeDomain webAuthClaims +:+ "/wallet-registration/start?transaction_id="
         +:+ transactionID +:+ "&token=" +:+ sep24Token).

Definition more_info (webAuthClaims : WebAuthClaims) (transactionID status : string) : M string :=
  map_errM (fun e => InternalError "Failed to generate more info URL" (Some e))
    (generateMoreInfoURL webAuthClaims transactionID status).

Definition nonempty (s : string) : option string := if s =? "" then None else Some s.

(** A wallet of the transaction, by its status. *)
Definition transaction_of (webAuthClaims : WebAuthClaims) (transactionID : string) (rw : ReceiverWallet) : M SEP24Transaction :=
  let address := nonempty (default "" (RW_StellarAddress rw)) in
  if RW_Status rw =? RegisteredReceiversWalletStatus then
    let memo := default "" (RW_StellarMemo rw) in
    mret_ (mkSEP24Transaction transactionID SEP24StatusCompleted (RW_CreatedAt rw) (Some (RW_UpdatedAt rw)) None
      (Some (default "" (RW_StellarAddress rw)))
      (if memo =? "" then None else Some (memo, default "" (RW_StellarMemoType rw))))
  else if RW_Status rw =? ReadyReceiversWalletStatus then
    let! url := more_info webAuthClaims transactionID SEP24StatusPendingUserInfoUpdate in
    mret_ (mkSEP24Transaction transactionID SEP24StatusPendingUserInfoUpdate (RW_CreatedAt rw) None (Some url) address None)
  else mret_ (mkSEP24Transaction transactionID SEP24StatusError (RW_CreatedAt rw) None None address None).

Definition GetTransaction (webAuthClaims : option WebAuthClaims) (transactionID : string) : M SEP24Transaction :=
  match webAuthClaims with
  | None => throw (Unauthorized "Missing or invalid authorization header" None)
  | Some webAuthClaims =>
    if transactionID =? "" then throw (BadRequest "id parameter is required" None)
    else
      let '(account, memo) := ParseAccountAndMemo (WA_Subject webAuthClaims) in
      let! found := try_ (GetBySEP24TransactionIDAndAccount transactionID account memo) in
      match found with
      | Ok rw => transaction_of webAuthClaims transactionID rw
      | Err e =>
        if errors_Is_err e ErrRecordNotFound then
          let! now := ask env_now in
          let! url := more_info webAuthClaims transactionID SEP24StatusIncomplete in
          mret_ (mkSEP24Transaction transactionID SEP24StatusIncomplete now None (Some url) None None)
        else throw (InternalError "Failed to get transaction" (Some e))
      end
  end.

(** The body of the request: asset code, account and language. *)
Record SEP24DepositRequest := mkSEP24DepositRequest {
  DR_AssetCode : string;
  DR_Account : string;
  DR_Lang : string }.

(** The link and the transaction. *)
Definition PostDepositInteractive (webAuthClaims : option WebAuthClaims) (body : res SEP24DepositRequest) :
    M (string * string) :=
  match webAuthClaims with
  | None => throw (Unauthorized "Missing or invalid authorization header" None)
  | Some webAuthClaims =>
    let! request := map_errM (fun e => BadRequest "Invalid JSON" (Some e)) (lift body) in
    if DR_AssetCode request =? "" then throw (BadRequest "asset_code is required" None)
    else
      let '(account, memo) := if DR_Account request =? "" then ParseAccountAndMemo (WA_Subject webAuthClaims)
                              else (DR_Account request, "") in
      let lang := if DR_Lang request =? "" then "en" else DR_Lang request in
      let! txnID := ask uuid_NewString in
      let! sep24Token := map_errM (fun e => InternalError "Failed to generate token" (Some e))
        (GenerateSEP24Token manager account memo (WA_ClientDomain webAuthClaims) (WA_HomeDomain webAuthClaims) txnID) in
      let! baseURL := map_errM (fun e => InternalError "Failed to parse base URL" (Some e))
        (lift (go_url_Parse InteractiveBaseURL)) in
      mret_ (URL_Scheme baseURL +:+ "://" +:+ WA_HomeDomain webAuthClaims +:+ "/wallet-registration/start?transaction_id="
             +:+ txnID +:+ "&token=" +:+ sep24Token +:+ "&lang=" +:+ lang, txnID)
  end.
End sep24.
