(* ===== verification/Sep10.v ===== *)
(** The authentication of wallets by SEP-10: the nonces of [services/nonce_store.go] and
    [data/sep_nonces.go], the domains of [services/seputil], the challenges of
    [services/sep10_service.go] and the requests of [httphandler/sep10_handler.go].  The
    building, signing and reading of Stellar transactions is of the SDK. *)

From S2P Require Import Prelude GoStrings Errors Effects Schema TxStore Limiter Handlers PaymentStore SdpDb Registration.
From S2P Require Import Tenant Tenants AuthManager ApiKeys DirectPayments EmbeddedService Links SepTokens.
From Stdlib Require Import Ascii String.

Local Open Scope string_scope.
Local Open Scope list_scope.
Local Open Scope go_scope.

(** ** Base 64: [base64.StdEncoding] *)

Definition base64_alphabet : string := "ABCDEFGHIJKLMNOPQRSTUVWXYZabcdefghijklmnopqrstuvwxyz0123456789+/".

Definition base64_char (n : Z) : ascii := default "A"%char (String.get (Z.to_nat n) base64_alphabet).

Fixpoint base64_encode (bytes : list Z) : string :=
  match bytes with
  | [] => ""
  | [a] => String (base64_char (a / 4)) (String (base64_char (a mod 4 * 16)) "==")
  | [a; b] =>
    String (base64_char (a / 4)) (String (base64_char (a mod 4 * 16 + b / 16))
      (String (base64_char (b mod 16 * 4)) "="))
  | a :: b :: c :: rest =>
    String (base64_char (a / 4)) (String (base64_char (a mod 4 * 16 + b / 16))
      (String (base64_char (b mod 16 * 4 + c / 64)) (String (base64_char (c mod 64)) (base64_encode rest))))
  end.

Definition base64_digit (c : ascii) : option Z :=
  let n := Z.of_nat (code c) in
  if is_upper c then Some (n - 65)%Z
  else if is_lower c then Some (n - 71)%Z
  else if is_digit c then Some (n + 4)%Z
  else if Ascii.eqb c "+" then Some 62%Z
  else if Ascii.eqb c "/" then Some 63%Z
  else None.

(** Four characters at a time; the padding ends the text, whose last bits are not looked
    at. *)
Fixpoint base64_quads (chars : list ascii) : option (list Z) :=
  match chars with
  | [] => Some []
  | a :: b :: c :: d :: rest =>
    x ← base64_digit a; y ← base64_digit b;
    let first := (x * 4 + y / 16)%Z in
    if Ascii.eqb d "=" then
      match rest with
      | [] =>
        if Ascii.eqb c "=" then Some [first]
        else z ← base64_digit c; Some [first; (y mod 16 * 16 + z / 4)%Z]
      | _ => None
      end
    else
      z ← base64_digit c; u ← base64_digit d; bytes ← base64_quads rest;
      Some (first :: (y mod 16 * 16 + z / 4)%Z :: (z mod 4 * 64 + u)%Z :: bytes)
  | _ => None
  end.

(** Line ends are left out. *)
Definition base64_decode (s : string) : option (list Z) :=
  base64_quads (List.filter (fun c => negb (Ascii.eqb c "010" || Ascii.eqb c "013")) (list_ascii_of_string s)).

(** ** Nonces *)

Record SEPNonce := mkSEPNonce {
  Nonce : string;
  Nonce_ExpiresAt : Z;
  Nonce_CreatedAt : Z }.

(** The table, which no statement writes together with another one. *)
Record SepDb := mkSepDb { sep_nonces : list SEPNonce }.
#[export] Instance eta_SepDb : Eta SepDb := fun r => mkSepDb (sep_nonces r).

Definition lookup_nonce (nonce : string) (db : SepDb) : option SEPNonce :=
  first_such (fun n => Nonce n =? nonce) (sep_nonces db).

Section nonces.
Context {D L Ev : Type} {E : Env D} {C : Conn D SepDb}.
Abbreviation M := (M D L Ev).

Definition SEPNonce_Store (nonce : string) (expiresAt : Z) : M unit :=
  wrapM "storing sep nonce" (db_stmt (fun ctx db =>
    match lookup_nonce nonce db with
    | Some _ => Err duplicate_key
    | None => Ok (tt, db <| sep_nonces := sep_nonces db ++ [mkSEPNonce nonce expiresAt (NOW ctx)] |>)
    end)).

(** The row that is deleted. *)
Definition SEPNonce_Consume (nonce : string) : M (option Z) :=
  wrapM "consuming sep nonce" (db_stmt (fun _ db =>
    Ok (Nonce_ExpiresAt <$> lookup_nonce nonce db,
        db <| sep_nonces := filter (fun n => Nonce n <> nonce) (sep_nonces db) |>))).

Definition SEPNonce_DeleteExpired : M unit :=
  wrapM "deleting expired sep nonces" (db_stmt (fun ctx db =>
    Ok (tt, db <| sep_nonces := filter (fun n => (NOW ctx < Nonce_ExpiresAt n)%Z) (sep_nonces db) |>))).

Definition NewNonceStore (ttl : Z) : res Z :=
  if (ttl <=? 0)%Z then Err (ENew "ttl must be greater than zero") else Ok ttl.

Definition NonceStore_Store (ttl : Z) (nonce : string) : M unit :=
  if nonce =? "" then throw (ENew "nonce cannot be empty")
  else
    let! now := ask env_now in
    wrapM "storing nonce" (SEPNonce_Store nonce (now + ttl)).

Definition NonceStore_Consume (nonce : string) : M bool :=
  if nonce =? "" then throw (ENew "nonce cannot be empty")
  else
    let! expiresAt := wrapM "consuming nonce" (SEPNonce_Consume nonce) in
    match expiresAt with
    | None => mret_ false
    | Some expiresAt => let! now := ask env_now in mret_ (negb (expiresAt <? now)%Z)
    end.
End nonces.

(** ** Domains *)

Section domains.
Context {GU : GoUrls}.

Definition GetBaseDomain (baseURL : string) : string :=
  match go_url_Parse baseURL with Ok u => URL_Host u | Err _ => "" end.

Definition GetWebAuthDomain (ctx : Context_) (baseURL : string) : string :=
  match ctx ≫= Tenant.BaseURL with
  | Some tenantURL => match go_url_Parse tenantURL with Ok u => URL_Host u | Err _ => GetBaseDomain baseURL end
  | None => GetBaseDomain baseURL
  end.

Definition IsValidHomeDomain (baseURL homeDomain : string) : bool :=
  let baseDomain := GetBaseDomain baseURL in
  if (baseDomain =? "") || (homeDomain =? "") then false
  else
    let base := ToLower baseDomain in
    let home := ToLower homeDomain in
    (home =? base) || HasSuffix home ("." +:+ base).
End domains.

(** ** Challenges *)

(** What the service reads of the operations of a transaction, and of a transaction. *)
Inductive ChallengeOp :=
  | ManageData (SourceAccount Name Value : string)
  | OtherOperation.

Record ChallengeTx := mkChallengeTx {
  Ch_SourceAccount : string;
  Ch_Sequence : Z;
  Ch_MinTime : Z;
  Ch_MaxTime : Z;
  Ch_Operations : list ChallengeOp;
  Ch_Memo : option Memo;
  Ch_Signatures : list (list Z) }.
#[export] Instance eta_ChallengeTx : Eta ChallengeTx := fun r =>
  mkChallengeTx (Ch_SourceAccount r) (Ch_Sequence r) (Ch_MinTime r) (Ch_MaxTime r) (Ch_Operations r) (Ch_Memo r)
    (Ch_Signatures r).

Record ChallengeParams := mkChallengeParams {
  TP_AccountID : string;
  TP_Sequence : Z;
  TP_IncrementSequenceNum : bool;
  TP_Operations : list ChallengeOp;
  TP_BaseFee : Z;
  TP_MinTime : Z;
  TP_MaxTime : Z;
  TP_Memo : option Memo }.

(** An account of Horizon: the keys of its signers with their weights. *)
Record SignedAccount := mkSignedAccount {
  MedThreshold : Z;
  Signers : list (string * Z) }.

(** The Stellar SDK: [TransactionFromXDR] gives no transaction for a fee bump; the signing
    key of a [stellar.toml] that is got by HTTP or not. *)
Class ChallengeSdk {KP : StellarKeypairs} := {
  TransactionFromXDR : string -> res (option ChallengeTx);
  Transaction_Base64 : ChallengeTx -> res string;
  Transaction_Hash : string -> ChallengeTx -> res string;
  Transaction_HashHex : string -> ChallengeTx -> res string;
  NewChallengeTransaction : ChallengeParams -> res ChallengeTx;
  Transaction_Sign : string -> Full -> ChallengeTx -> res ChallengeTx;
  AddressToAccountId : string -> res unit;
  GetStellarToml : nat -> bool -> string -> res string;
  AccountDetail : nat -> string -> res SignedAccount }.

(** An error of what the client sent. *)
Definition ChallengeValidationError (message : string) : err := EOpaque "ChallengeValidationError" (ENew message).

Record ChallengeRequest := mkChallengeRequest {
  CR_Account : string;
  CR_Memo : string;
  CR_HomeDomain : string;
  CR_ClientDomain : string }.

(** A memo that is given has to be of the type [ID]; what to say of another. *)
Definition id_memo (memo : string) (parsing : err -> err) (typed : string -> err) : res (option Z) :=
  if memo =? "" then Ok None
  else
    match ParseMemo memo with
    | Err e => Err (parsing e)
    | Ok (m, memoType) =>
      if memoType <>? MemoTypeID then Err (typed ("invalid memo type - expected ID memo, got " +:+ memoType))
      else Ok (match m with Some (MemoID id) => Some id | _ => None end)
    end.

Definition ChallengeRequest_Validate {SDK : StellarSdk} (req : ChallengeRequest) : res unit :=
  if CR_Account req =? "" then Err (ENew "account is required")
  else if negb (IsValidEd25519PublicKey (CR_Account req))
  then Err (ENew "invalid account not a valid ed25519 public key")
  else let? _ := id_memo (CR_Memo req) (EWrap "invalid memo") ENew in Ok tt.

Definition ValidationRequest_Validate (transaction : string) : res unit :=
  guard_err (transaction =? "") (ENew "transaction is required").

Record ChallengeValidationResult := mkValidationResult {
  VR_Transaction : ChallengeTx;
  VR_ClientAccountID : string;
  VR_HomeDomain : string;
  VR_Memo : option Z;
  VR_ClientDomain : string;
  VR_Nonce : string }.

Definition DefaultSEP10AuthTimeout : Z := 15 * Minute.
Definition DefaultSEP10NonceExpiration : Z := DefaultSEP10AuthTimeout.
Definition TimeoutInfinite : Z := 0.
Definition gracePeriod : Z := 5 * 60.
Definition MinBaseFee : Z := 100.

(** ** The service *)

Section service_data.
Context {KP : StellarKeypairs}.

(** [HorizonClient] says whether there is a client; the nonces live for [nonceTTL]. *)
Record sep10Service := mkSep10Service {
  SEP10SigningKeypair : Full;
  S10_JWTManager : JWTManager;
  S10_HorizonClient : bool;
  S10_NetworkPassphrase : string;
  S10_BaseURL : string;
  JWTExpiration : Z;
  AuthTimeout : Z;
  AllowHTTPRetry : bool;
  ClientAttributionRequired : bool;
  nonceTTL : Z }.

Definition NewSEP10Service (jwtManager : JWTManager) (networkPassphrase sep10SigningPrivateKey baseURL : string)
    (allowHTTPRetry horizonClient clientAttributionRequired : bool) (nonceStore : Z) : res sep10Service :=
  let? kp := wrap "parsing sep10 signing key" (keypair_ParseFull sep10SigningPrivateKey) in
  Ok (mkSep10Service kp jwtManager horizonClient networkPassphrase baseURL (2 * 60 * Minute)
        DefaultSEP10AuthTimeout allowHTTPRetry clientAttributionRequired nonceStore).
End service_data.

Section reading.
Context {KP : StellarKeypairs} {CS : ChallengeSdk}.

(** Whether a key verifies a signature. *)
Definition verifies (account hash : string) (signature : list Z) : bool :=
  match keypair_ParseAddress account with Ok verify => is_ok (verify hash signature) | Err _ => false end.

Definition verifySignature (tx : ChallengeTx) (network accountID accountType : string) : res unit :=
  let? hash := wrap "computing transaction hash" (Transaction_Hash network tx) in
  if bool_decide (Ch_Signatures tx = []) then Err (ENew "transaction has no signatures")
  else
    let? verify := wrap ("parsing " +:+ accountType +:+ " account") (keypair_ParseAddress accountID) in
    guard_err (negb (existsb (fun sig => is_ok (verify hash sig)) (Ch_Signatures tx)))
      (ENew ("transaction is not signed by " +:+ accountType +:+ " account " +:+ accountID)).

Definition verifyClientSignature (tx : ChallengeTx) (network clientAccountID : string) : res unit :=
  verifySignature tx network clientAccountID "client".

(** The operations behind the first: the client domain of the last that names one. *)
Fixpoint subsequent (serverAccountID webAuthDomain : string) (i : nat) (ops : list ChallengeOp)
    (clientDomain : option string) : res (option string) :=
  match ops with
  | [] => Ok clientDomain
  | op :: ops' =>
    let n := itoa (Z.of_nat (S i)) in
    match op with
    | OtherOperation => Err (ENew ("subsequent operation " +:+ n +:+ " type should be manage_data"))
    | ManageData source name value =>
      if source =? "" then Err (ENew ("subsequent operation " +:+ n +:+ " should have a source account"))
      else
        let? clientDomain :=
          if name =? "web_auth_domain" then
            if source <>? serverAccountID
            then Err (ENew "web auth domain operation must have server source account")
            else if value <>? webAuthDomain
            then Err (ENew ("web auth domain operation value is " +:+ quote value +:+ " but expect " +:+ quote webAuthDomain))
            else Ok clientDomain
          else if name =? "client_domain" then
            let? _ := wrap "client_domain operation has invalid source account" (AddressToAccountId source) in
            Ok (Some value)
          else if source <>? serverAccountID
          then Err (ENew ("unknown subsequent operation " +:+ quote name +:+ " must have server account as source"))
          else Ok clientDomain in
        subsequent serverAccountID webAuthDomain (S i) ops' clientDomain
    end
  end.

Definition challenge_memo (memo : option Memo) : res (option Z) :=
  match memo with
  | None => Ok None
  | Some (MemoID id) => Ok (Some id)
  | Some _ => Err (ENew "invalid memo, only ID memos are permitted")
  end.

Definition challenge_nonce (nonceB64 : string) : res unit :=
  if negb (String.length nonceB64 =? 64)%nat
  then Err (ENew "random nonce encoded as base64 should be 64 bytes long")
  else
    match base64_decode nonceB64 with
    | None => Err (EWrap "failed to decode random nonce provided in manage_data operation"
                     (EExternal "illegal base64 data"))
    | Some nonceBytes => guard_err (negb (List.length nonceBytes =? 48)%nat)
                           (ENew "random nonce before encoding as base64 should be 48 bytes long")
    end.

(** The transaction, read at [currentTime], in seconds. *)
Definition validateChallengeTx (clientAttributionRequired : bool) (currentTime : Z) (tx : ChallengeTx)
    (serverAccountID network webAuthDomain : string) (homeDomains : list string) : res ChallengeValidationResult :=
  if Ch_SourceAccount tx <>? serverAccountID
  then Err (ENew "transaction source account is not equal to server's account")
  else if negb (Ch_Sequence tx =? 0)%Z then Err (ENew "transaction sequence number must be 0")
  else if (Ch_MaxTime tx =? TimeoutInfinite)%Z then Err (ENew "transaction requires non-infinite timebounds")
  else if (currentTime + gracePeriod <? Ch_MinTime tx)%Z || (Ch_MaxTime tx <? currentTime)%Z
  then Err (ENew ("transaction is not within range of the specified timebounds (currentTime=" +:+ itoa currentTime
                  +:+ ", MinTime=" +:+ itoa (Ch_MinTime tx) +:+ ", MaxTime=" +:+ itoa (Ch_MaxTime tx) +:+ ")"))
  else
    match Ch_Operations tx with
    | [] => Err (ENew "transaction requires at least one manage_data operation")
    | OtherOperation :: _ => Err (ENew "operation type should be manage_data")
    | ManageData clientAccountID name nonceB64 :: operations =>
      if clientAccountID =? "" then Err (ENew "operation should have a source account")
      else
        match first_such (fun homeDomain => name =? homeDomain +:+ " auth") homeDomains with
        | None => Err (ENew ("operation key does not match any homeDomains passed (key=" +:+ quote name
                            +:+ ", homeDomains=[" +:+ String.concat " " homeDomains +:+ "])"))
        | Some matchedHomeDomain =>
          if matchedHomeDomain =? ""
          then Err (ENew ("operation key does not match any homeDomains passed (key=" +:+ quote name
                            +:+ ", homeDomains=[" +:+ String.concat " " homeDomains +:+ "])"))
          else
            let? memo := challenge_memo (Ch_Memo tx) in
            let? _ := challenge_nonce nonceB64 in
            let? clientDomain := subsequent serverAccountID webAuthDomain 0 operations None in
            if clientAttributionRequired && bool_decide (clientDomain = None)
            then Err (ENew "client_domain manage_data operation is required")
            else
              let? _ := wrap "verifying server signature" (verifySignature tx network serverAccountID "server") in
              Ok (mkValidationResult tx clientAccountID matchedHomeDomain memo (default "" clientDomain) nonceB64)
        end
    end.
End reading.

Section service.
Context {WJ : WalletJwt} {CLib : ClaimsLibrary} {SDK : StellarSdk} {KP : StellarKeypairs} {CS : ChallengeSdk}
  {GU : GoUrls} {TB : TxnBuild} {CB : CryptoBytes} {HE : HorizonErrors} {R : MapRange}
  {D L Ev : Type} {E : Env D} {C : Conn D SepDb}.
Context (s : sep10Service).
Abbreviation M := (M D L Ev).

Definition server_address : string := Full_Address (SEP10SigningKeypair s).

(** The key of a [stellar.toml], by HTTP when HTTPS fails and that is allowed. *)
Definition fetchSigningKeyFromClientDomain (clientDomain : string) : M string :=
  let! signingKey := wrapM ("unable to fetch stellar.toml from " +:+ clientDomain) (
    let! fetched := try_ (ask_res (fun t => GetStellarToml t false clientDomain)) in
    match fetched with
    | Ok key => mret_ key
    | Err e => if AllowHTTPRetry s then ask_res (fun t => GetStellarToml t true clientDomain) else throw e
    end) in
  if signingKey =? "" then throw (ENew "SIGNING_KEY not present in client_domain stellar.toml")
  else if negb (is_ok (keypair_ParseAddress signingKey))
  then throw (ENew ("SIGNING_KEY " +:+ signingKey +:+ " is not a valid Stellar account ID"))
  else mret_ signingKey.

Definition fetchAccountFromHorizon (accountID : string) : M SignedAccount :=
  if negb (S10_HorizonClient s) then throw (ENew "horizon client is not configured")
  else wrapM ("loading account " +:+ accountID +:+ " from horizon") (ask_res (fun t => AccountDetail t accountID)).

Definition generateRandomNonce (n : nat) : M (list Z) :=
  wrapM "reading random bytes" (ask_res (fun t => rand_Read t n)).

(** ** Making a challenge *)

Definition challenge_operations (clientAccountID webAuthDomain homeDomain clientDomain clientDomainAccountID nonce : string) :
    list ChallengeOp :=
  [ManageData clientAccountID (homeDomain +:+ " auth") nonce; ManageData server_address "web_auth_domain" webAuthDomain]
  ++ (if clientDomainAccountID =? "" then [] else [ManageData clientDomainAccountID "client_domain" clientDomain]).

Definition buildChallengeTx (clientAccountID webAuthDomain homeDomain clientDomain clientDomainAccountID : string)
    (memo : option Z) : M ChallengeTx :=
  if (AuthTimeout s <? Second)%Z
  then throw (ENew "provided timebound must be at least 1s (300s is recommended)")
  else
    let! randomNonce := generateRandomNonce 48 in
    let nonce := base64_encode randomNonce in
    if negb (String.length nonce =? 64)%nat then throw (ENew "64 byte long random nonce required")
    else if negb (is_ok (AddressToAccountId clientAccountID))
    then throw (ENew (clientAccountID +:+ " is not a valid account id"))
    else if (clientDomainAccountID <>? "") && negb (is_ok (keypair_ParseAddress clientDomainAccountID))
    then throw (ENew ("invalid client domain account ID: " +:+ clientDomainAccountID
                      +:+ " is not a valid Stellar account ID"))
    else
      wrapM "storing nonce" (NonceStore_Store (nonceTTL s) nonce) ;;!
      let! currentTime := ask env_now in
      let! tx := wrapM "creating new transaction" (lift (NewChallengeTransaction (mkChallengeParams server_address (-1) true
        (challenge_operations clientAccountID webAuthDomain homeDomain clientDomain clientDomainAccountID nonce)
        MinBaseFee (currentTime / Second) ((currentTime + AuthTimeout s) / Second) (MemoID <$> memo)))) in
      wrapM "signing transaction" (lift (Transaction_Sign (S10_NetworkPassphrase s) (SEP10SigningKeypair s) tx)).

(** The transaction and the passphrase of the network. *)
Definition CreateChallenge (ctx : Context_) (req : ChallengeRequest) : M (string * string) :=
  let webAuthDomain := GetWebAuthDomain ctx (S10_BaseURL s) in
  let clientDomain := TrimSpace (CR_ClientDomain req) in
  let baseDomain := GetBaseDomain (S10_BaseURL s) in
  let homeDomain := let given := TrimSpace (CR_HomeDomain req) in if given =? "" then baseDomain else given in
  if ClientAttributionRequired s && (clientDomain =? "") then throw (ChallengeValidationError "client_domain is required")
  else if homeDomain =? "" then throw (ChallengeValidationError "home_domain is required")
  else if negb (IsValidHomeDomain (S10_BaseURL s) homeDomain)
  then throw (ChallengeValidationError ("invalid home_domain must match " +:+ baseDomain))
  else if negb (is_ok (AddressToAccountId (CR_Account req)))
  then throw (ChallengeValidationError (CR_Account req +:+ " is not a valid account id"))
  else
    let! clientSigningKey := if clientDomain =? "" then mret_ ""
      else wrapM "fetching client domain signing key" (fetchSigningKeyFromClientDomain clientDomain) in
    let! memoParam := lift (id_memo (CR_Memo req)
      (fun e => ChallengeValidationError ("invalid memo: " +:+ Error e)) ChallengeValidationError) in
    let! tx := wrapM "building challenge transaction"
      (buildChallengeTx (CR_Account req) webAuthDomain homeDomain clientDomain clientSigningKey memoParam) in
    let! txBase64 := wrapM "encoding transaction" (lift (Transaction_Base64 tx)) in
    mret_ (txBase64, S10_NetworkPassphrase s).

(** ** Reading it back *)

Definition getAllowedHomeDomains (ctx : Context_) : list string :=
  let baseDomain := GetBaseDomain (S10_BaseURL s) in
  if baseDomain =? "" then []
  else baseDomain :: match ctx ≫= Tenant.BaseURL with
    | Some tenantURL =>
      match go_url_Parse tenantURL with
      | Ok u => if URL_Host u =? "" then [] else [URL_Host u]
      | Err _ => []
      end
    | None => []
    end.

Definition validateChallengeCustom (challengeTx serverAccountID network webAuthDomain : string)
    (homeDomains : list string) : M ChallengeValidationResult :=
  wrapM "invalid challenge transaction" (lift (ValidateAndDecodeBase64XDR challengeTx DefaultMaxXDRDecodedSize)) ;;!
  let! parsed := wrapM "could not parse challenge" (lift (TransactionFromXDR challengeTx)) in
  match parsed with
  | None => throw (ENew "challenge cannot be a fee bump transaction")
  | Some tx =>
    let! now := ask env_now in
    lift (validateChallengeTx (ClientAttributionRequired s) (now / Second) tx serverAccountID network webAuthDomain
      homeDomains)
  end.

(** A client domain that is named signs too. *)
Definition verify_client_domain (tx : ChallengeTx) (clientDomain what : string) : M unit :=
  if clientDomain =? "" then mret_ tt
  else
    let! clientDomainAccountID := wrapM "fetching client domain signing key" (fetchSigningKeyFromClientDomain clientDomain) in
    wrapM what (lift (verifyClientSignature tx (S10_NetworkPassphrase s) clientDomainAccountID)).

Definition verifySignaturesForNonExistentAccount (tx : ChallengeTx) (clientAccountID clientDomain : string) : M unit :=
  let expectedSigCount := if clientDomain =? "" then 2%nat else 3%nat in
  let actualSigCount := List.length (Ch_Signatures tx) in
  if negb (actualSigCount =? expectedSigCount)%nat
  then throw (ENew ("there is more than one client signer on challenge transaction for an account that doesn't exist: expected "
                    +:+ itoa (Z.of_nat expectedSigCount) +:+ " signatures, got " +:+ itoa (Z.of_nat actualSigCount)))
  else
    wrapM "verifying client signature for non-existent account"
      (lift (verifyClientSignature tx (S10_NetworkPassphrase s) clientAccountID)) ;;!
    verify_client_domain tx clientDomain "verifying client domain signature for non-existent account".

(** The later of two signers of one key counts. *)
Definition signer_weights (account : SignedAccount) : gmap string Z :=
  foldl (fun weights signer => <[fst signer := snd signer]> weights) ∅ (Signers account).

(** A signature counts for the first signer it verifies for, in the order of the map, of
    those that have not been counted. *)
Definition count_signature (weights : gmap string Z) (hash : string) (counted : gset string * Z) (sig : list Z) :
    M (gset string * Z) :=
  let '(usedSigners, totalWeight) := counted in
  let! entries := range_map weights in
  mret_ match first_such (fun '(signer, _) => negb (bool_decide (signer ∈ usedSigners)) && verifies signer hash sig) entries with
        | Some (signer, weight) => ({[ signer ]} ∪ usedSigners, totalWeight + weight)%Z
        | None => counted
        end.

Definition verifyThreshold (tx : ChallengeTx) (account : SignedAccount) (threshold : Z) : M unit :=
  let! hash := wrapM "computing transaction hash" (lift (Transaction_Hash (S10_NetworkPassphrase s) tx)) in
  let! (_, totalWeight) := mfoldM (count_signature (signer_weights account) hash) (∅, 0%Z) (Ch_Signatures tx) in
  if (totalWeight <? threshold)%Z
  then throw (ENew ("signatures do not meet threshold: got " +:+ itoa totalWeight +:+ ", need " +:+ itoa threshold))
  else mret_ tt.

Definition verifySignaturesWithThreshold (tx : ChallengeTx) (clientDomain : string) (account : SignedAccount) : M unit :=
  verify_client_domain tx clientDomain "verifying client domain signature" ;;!
  wrapM "verifying signature threshold" (verifyThreshold tx account (MedThreshold account)).

Definition challenge_subject (clientAccountID : string) (memo : option Z) : string :=
  match memo with Some id => clientAccountID +:+ ":" +:+ itoa id | None => clientAccountID end.

Definition generateToken (tx : ChallengeTx) (clientAccountID matchedHomeDomain : string) (memo : option Z)
    (clientDomain : string) : M string :=
  let! jti := wrapM "getting transaction hash" (lift (Transaction_HashHex (S10_NetworkPassphrase s) tx)) in
  let iat := (Ch_MinTime tx * Second)%Z in
  let protocol := match go_url_Parse (S10_BaseURL s) with
    | Ok u => if URL_Scheme u =? "" then "http" else URL_Scheme u
    | Err _ => "http"
    end in
  wrapM "generating SEP10 JWT" (GenerateSEP10Token (S10_JWTManager s)
    (protocol +:+ "://" +:+ matchedHomeDomain +:+ "/auth") (challenge_subject clientAccountID memo) jti clientDomain
    matchedHomeDomain iat (iat + JWTExpiration s)).

(** The nonce is used up, and the token made. *)
Definition consume_and_generate (result : ChallengeValidationResult) : M string :=
  let! validNonce := wrapM "consuming nonce" (NonceStore_Consume (VR_Nonce result)) in
  if negb validNonce then throw (ENew "nonce is invalid or expired")
  else generateToken (VR_Transaction result) (VR_ClientAccountID result) (VR_HomeDomain result) (VR_Memo result)
         (VR_ClientDomain result).

Definition ValidateChallenge (ctx : Context_) (transaction : string) : M string :=
  let! result := wrapM "reading challenge transaction" (validateChallengeCustom transaction server_address
    (S10_NetworkPassphrase s) (GetWebAuthDomain ctx (S10_BaseURL s)) (getAllowedHomeDomains ctx)) in
  let! fetched := try_ (fetchAccountFromHorizon (VR_ClientAccountID result)) in
  match fetched with
  | Err e =>
    if bool_decide (horizon_StatusCode e = Some 404%Z) then
      verifySignaturesForNonExistentAccount (VR_Transaction result) (VR_ClientAccountID result) (VR_ClientDomain result) ;;!
      consume_and_generate result
    else throw (EWrap "fetching account from horizon" e)
  | Ok account =>
    verifySignaturesWithThreshold (VR_Transaction result) (VR_ClientDomain result) account ;;!
    consume_and_generate result
  end.

(** ** The requests *)

Definition GetChallenge (ctx : Context_) (req : ChallengeRequest) : M (string * string) :=
  map_errM (fun e => BadRequest (Error e) None) (lift (ChallengeRequest_Validate req)) ;;!
  map_errM (fun e => match As_Opaque "ChallengeValidationError" e with
                     | Some _ => BadRequest (Error e) (Some e)
                     | None => InternalError "Failed to create challenge" (Some e)
                     end) (CreateChallenge ctx req).

(** The media type of a request with its header, and the transaction its form and its JSON
    name. *)
Definition PostChallenge (ctx : Context_) (contentType : string) (parsedMediaType : option string)
    (form json : res string) : M string :=
  let mediaType := if contentType =? "" then "" else default contentType parsedMediaType in
  let! transaction :=
    if mediaType =? "application/x-www-form-urlencoded" then
      map_errM (fun e => BadRequest "invalid form data" (Some e)) (lift form)
    else if mediaType =? "application/json" then
      map_errM (fun e => BadRequest "invalid request body" (Some e)) (lift json)
    else throw (BadRequest "unsupported content type. Expected application/x-www-form-urlencoded or application/json" None) in
  map_errM (fun e => BadRequest (Error e) None) (lift (ValidationRequest_Validate transaction)) ;;!
  map_errM (fun e => BadRequest "challenge validation failed" (Some e)) (ValidateChallenge ctx transaction).
End service.
