(* ===== verification/SepSafety.v ===== *)
(** What a token of SEP-10 says: who asks with it has signed a challenge of this server, once.
    The challenge that is made can be read back. *)

From S2P Require Import Prelude GoStrings Errors Effects Calm Schema TxStore Limiter Handlers SdpDb Platform CircleClient Registration Tenant.
From S2P Require Import AuthManager ApiKeys DirectPayments EmbeddedService Links SepTokens Sep10.
From Stdlib Require Import Ascii String.

Local Open Scope string_scope.
Local Open Scope list_scope.
Local Open Scope go_scope.

(** ** Who has signed *)

Section signed.
Context {KP : StellarKeypairs} {CS : ChallengeSdk}.

Definition has_signed (network account : string) (tx : ChallengeTx) : Prop :=
  exists hash sig, Transaction_Hash network tx = Ok hash /\ sig ∈ Ch_Signatures tx /\ verifies account hash sig = true.

Definition total_weight (weights : gmap string Z) (signers : list string) : Z :=
  foldr (fun signer total => default 0 (weights !! signer) + total)%Z 0%Z signers.

(** Distinct signers of the account, each with a signature of its own, weigh enough. *)
Definition signed_by_weight (network : string) (account : SignedAccount) (tx : ChallengeTx) : Prop :=
  exists hash counted, Transaction_Hash network tx = Ok hash /\
    NoDup counted.*1 /\ counted.*2 `sublist_of` Ch_Signatures tx /\
    Forall (fun '(signer, sig) => is_Some (signer_weights account !! signer) /\ verifies signer hash sig = true) counted /\
    (MedThreshold account <= total_weight (signer_weights account) counted.*1)%Z.

Lemma total_weight_snoc weights signers signer w :
  weights !! signer = Some w -> total_weight weights (signers ++ [signer]) = (total_weight weights signers + w)%Z.
Proof.
  intros Hw. unfold total_weight. induction signers as [|k signers IH]; cbn; [rewrite Hw; cbn; lia|lia].
Qed.

Lemma verifySignature_ok tx network account what :
  verifySignature tx network account what = Ok tt -> has_signed network account tx.
Proof.
  unfold verifySignature. intros H. apply res_bind_ok in H as (hash & Hh%wrap_ok & H).
  case_bool_decide; [done|]. apply res_bind_ok in H as (verify & Hv%wrap_ok & H). apply guard_err_ok in H.
  apply negb_false_iff, existsb_exists in H as (sig & Hin%list_elem_of_In & Hok).
  exists hash, sig. unfold verifies. by rewrite Hv.
Qed.
End signed.

(** ** A token *)

(** The nonce a text of a challenge has. *)
Definition nonce_of {KP : StellarKeypairs} {CS : ChallengeSdk} (text : string) : string :=
  match TransactionFromXDR text with
  | Ok (Some tx) => match Ch_Operations tx with ManageData _ _ nonce :: _ => nonce | _ => "" end
  | _ => ""
  end.

Section tokens.
Context {WJ : WalletJwt} {CLib : ClaimsLibrary} {SDK : StellarSdk} {KP : StellarKeypairs} {CS : ChallengeSdk}
  {GU : GoUrls} {TB : TxnBuild} {CB : CryptoBytes} {HE : HorizonErrors} {R : MapRange}
  {D L Ev : Type} {E : Env D} {C : Conn D SepDb} {CL : ConnLaws D SepDb}.
Context (s : sep10Service) (nonce : string).
Abbreviation M := (M D L Ev).
Implicit Types w : World D L Ev.

Definition nonces w : SepDb := conn_get (w_db w).

(** The others take nonces away, and do not store this one. *)
Context (Hothers : forall t (d : D) row,
  lookup_nonce nonce (conn_get (env_interfere t d)) = Some row -> lookup_nonce nonce (conn_get d) = Some row).

(** Time passes, and the nonce stays or is taken away. *)
Definition kept w w' : Prop :=
  w_clock w <= w_clock w' /\ forall row, lookup_nonce nonce (nonces w') = Some row -> lookup_nonce nonce (nonces w) = Some row.

#[local] Instance kept_preorder : PreOrder kept.
Proof using Type.
  split; [by intros w|]. intros w1 w2 w3 [H1 K1] [H2 K2]. split; [lia|]. intros row Hr. by apply K1, K2.
Qed.

Lemma kept_settle w : kept w (settle w).
Proof using Hothers.
  split; [rewrite settle_clock; lia|]. intros row. unfold nonces, settle. cbn zeta. case_bool_decide; [apply Hothers|done].
Qed.

Lemma kept_ask {A} (f : nat -> A) : respects kept (ask f : M A).
Proof using Hothers. intros w. apply kept_settle. Qed.

Lemma kept_ask_res {A} (f : nat -> res A) : respects kept (ask_res f : M A).
Proof using Hothers. intros w. apply kept_settle. Qed.

Lemma consumed_gone (l : list SEPNonce) k row :
  lookup_nonce nonce (mkSepDb (filter (fun n => Nonce n <> k) l)) = Some row ->
  lookup_nonce nonce (mkSepDb l) = Some row /\ nonce <> k.
Proof using Type.
  unfold lookup_nonce. cbn. induction l as [|n l IH]; [done|]. rewrite filter_cons. cbn [first_such List.find].
  case_decide as Hn; cbn [first_such List.find]; destruct (String.eqb_spec (Nonce n) nonce) as [Heq|Hne]; try done.
  - intros H. split; [done|congruence].
  - intros H. destruct (IH H). congruence.
Qed.

Lemma kept_consume k : respects kept (SEPNonce_Consume k : M (option Z)).
Proof using Hothers CL.
  apply respects_wrap. intros w. destruct (kept_settle w) as [Hc Hk]. split; [rewrite stmt_clock; lia|].
  intros row. unfold nonces in *. destruct (db_stmt_effect (fun _ db => Ok (Nonce_ExpiresAt <$> lookup_nonce k db,
    db <| sep_nonces := filter (fun n => Nonce n <> k) (sep_nonces db) |>)) w) as [->|(cx & a & x & [= <- <-] & ->)];
    [apply Hk|]. rewrite conn_get_set. intros H. apply Hk. destruct (conn_get (w_db (settle w))) as [l].
  by apply consumed_gone in H as [H _].
Qed.

Lemma kept_fold {A S} (f : S -> A -> M S) l : (forall st x, respects kept (f st x)) -> forall st, respects kept (mfoldM f st l).
Proof using Type.
  intros Hf. induction l as [|x l IH]; intros st; cbn; [apply respects_ret, _|].
  apply respects_bind; [apply _|apply Hf|apply IH].
Qed.

Ltac keep :=
  repeat first
    [ apply kept_ask | apply kept_ask_res | apply kept_consume | apply respects_ret, _ | apply respects_throw, _
    | apply respects_lift, _ | apply respects_wrap | apply respects_try | apply respects_map_err
    | apply kept_fold; intros ? ? | apply respects_bind; [apply _| |intros ?] | case_match ].

Lemma kept_signing_key clientDomain : respects kept (fetchSigningKeyFromClientDomain s clientDomain : M string).
Proof using Hothers. unfold fetchSigningKeyFromClientDomain. keep. Qed.

Lemma kept_account account : respects kept (fetchAccountFromHorizon s account : M SignedAccount).
Proof using Hothers. unfold fetchAccountFromHorizon. keep. Qed.

Lemma kept_client_domain tx clientDomain what : respects kept (verify_client_domain s tx clientDomain what : M unit).
Proof using Hothers. unfold verify_client_domain. case_match; [apply respects_ret, _|].
  apply respects_bind; [apply _|apply respects_wrap, kept_signing_key|intros key; keep]. Qed.

Lemma kept_threshold tx account threshold : respects kept (verifyThreshold s tx account threshold : M unit).
Proof using Hothers. unfold verifyThreshold, count_signature, range_map. keep. Qed.

Lemma kept_generate tx account home memo clientDomain :
  respects kept (generateToken s tx account home memo clientDomain : M string).
Proof using Hothers. unfold generateToken, GenerateSEP10Token, signToken. keep. Qed.

Lemma kept_finish result : respects kept (consume_and_generate s result : M string).
Proof using Hothers CL.
  unfold consume_and_generate, NonceStore_Consume. apply respects_bind; [apply _|keep|intros ok].
  case_match; [apply respects_throw, _|apply kept_generate].
Qed.

Lemma kept_custom text server network domain homes :
  respects kept (validateChallengeCustom s text server network domain homes : M ChallengeValidationResult).
Proof using Hothers. unfold validateChallengeCustom. keep. Qed.

Lemma kept_nonexistent tx account clientDomain :
  respects kept (verifySignaturesForNonExistentAccount s tx account clientDomain : M unit).
Proof using Hothers.
  unfold verifySignaturesForNonExistentAccount. case_match; [apply respects_throw, _|].
  apply respects_bind; [apply _|keep|intros ?; apply kept_client_domain].
Qed.

Lemma kept_with_threshold tx clientDomain account :
  respects kept (verifySignaturesWithThreshold s tx clientDomain account : M unit).
Proof using Hothers.
  apply respects_bind; [apply _|apply kept_client_domain|intros ?; apply respects_wrap, kept_threshold].
Qed.

Lemma kept_validate ctx text : respects kept (ValidateChallenge s ctx text : M string).
Proof using Hothers CL.
  unfold ValidateChallenge. apply respects_bind; [apply _|apply respects_wrap, kept_custom|intros result].
  apply respects_bind; [apply _|apply respects_try, kept_account|intros [account|e]].
  - apply respects_bind; [apply _|apply kept_with_threshold|intros ?; apply kept_finish].
  - case_match; [|apply respects_throw, _].
    apply respects_bind; [apply _|apply kept_nonexistent|intros ?; apply kept_finish].
Qed.

(** ** What the steps found *)

Lemma client_domain_ok tx clientDomain what w w' :
  verify_client_domain s tx clientDomain what w = (Ok tt, w') -> clientDomain <> "" ->
  exists w1 key, fst ((fetchSigningKeyFromClientDomain s clientDomain : M string) w1) = Ok key /\
    has_signed (S10_NetworkPassphrase s) key tx.
Proof using Type.
  unfold verify_client_domain. intros H Hne. apply eqb_false in Hne. rewrite Hne in H.
  apply mbind_ok in H as (key & w1 & Hkey%map_errM_ok & H). apply map_errM_ok, lift_ok in H as [H _].
  exists w, key. rewrite Hkey. split; [done|]. by eapply verifySignature_ok.
Qed.

Lemma threshold_ok tx account w w' :
  verifyThreshold s tx account (MedThreshold account) w = (Ok tt, w') ->
  signed_by_weight (S10_NetworkPassphrase s) account tx.
Proof using Type.
  unfold verifyThreshold. intros H. apply mbind_ok in H as (hash & w1 & Hh%map_errM_ok%lift_ok & H).
  destruct Hh as [Hh ->]. set (weights := signer_weights account) in *.
  apply mbind_ok in H as ([used total] & w2 & Hfold & H).
  set (found := fun (counted : list (string * list Z)) (st : gset string * Z) =>
    NoDup counted.*1 /\ st.1 = list_to_set counted.*1 /\ st.2 = total_weight weights counted.*1 /\
    Forall (fun '(signer, sig) => is_Some (weights !! signer) /\ verifies signer hash sig = true) counted).
  assert (Hinv : exists seen counted, Ch_Signatures tx = seen ++ [] /\ counted.*2 `sublist_of` seen /\ found counted (used, total)).
  { eapply (mfoldM_ok (fun st _ rest => exists seen counted,
      Ch_Signatures tx = seen ++ rest /\ counted.*2 `sublist_of` seen /\ found counted st)); [| |exact Hfold].
    - clear. intros [used total] sig rest w [used' total'] w' (seen & counted & Hs & Hsub & Hnd & Hu & Ht & Hall) H.
      cbn [fst snd] in Hu, Ht. unfold count_signature in H. apply mbind_ok in H as (entries & w1 & Hask & H).
      injection Hask as He _. injection H as H _. exists (seen ++ [sig]).
      destruct (first_such _ entries) as [[signer weight]|] eqn:Hfind; injection H as <- <-.
      + apply first_such_some in Hfind as [Hin Hp]. apply andb_true_iff in Hp as [Hnew Hver].
        apply negb_true_iff, bool_decide_eq_false in Hnew. rewrite <- He in Hin.
        rewrite range_order_perm in Hin. apply elem_of_map_to_list in Hin.
        exists (counted ++ [(signer, sig)]). unfold found. cbn [fst snd]. rewrite <- app_assoc.
        replace ((counted ++ [(signer, sig)]).*1) with (counted.*1 ++ [signer]) by by rewrite fmap_app.
        replace ((counted ++ [(signer, sig)]).*2) with (counted.*2 ++ [sig]) by by rewrite fmap_app.
        split_and!; [done|by apply sublist_app| | |by rewrite (total_weight_snoc _ _ _ weight), <- Ht|].
        * apply NoDup_app. split_and!; [done| |apply NoDup_singleton].
          intros k Hk ->%list_elem_of_singleton. apply Hnew. rewrite Hu. by apply elem_of_list_to_set.
        * rewrite list_to_set_app_L, Hu. cbn. by rewrite (right_id_L ∅ (∪)), (comm_L (∪)).
        * apply Forall_app_2; [done|]. constructor; [|done]. by split; [eexists|].
      + exists counted. rewrite <- app_assoc. split_and!; [done|by apply sublist_inserts_r|done..].
    - exists [], []. split_and!; [done|constructor|]. split_and!; [constructor|done..]. }
  destruct Hinv as (seen & counted & Hs & Hsub & Hnd & _ & Ht & Hall). rewrite app_nil_r in Hs. subst seen.
  exists hash, counted. split_and!; [done..|]. cbn [snd] in Ht. fold weights. rewrite <- Ht.
  destruct (Z.ltb_spec total (MedThreshold account)); [done|]. lia.
Qed.

(** The claims of the token of a challenge. *)
Definition token_claims (issuer jti : string) (result : ChallengeValidationResult) : TokenClaims :=
  let iat := (Ch_MinTime (VR_Transaction result) * Second)%Z in
  mkTokenClaims issuer (challenge_subject (VR_ClientAccountID result) (VR_Memo result)) jti (Some (NewNumericDate iat))
    (Some (NewNumericDate (iat + JWTExpiration s))) (VR_ClientDomain result) (VR_HomeDomain result) ∅.

Definition token_says (token : string) (result : ChallengeValidationResult) : Prop :=
  exists issuer jti, Transaction_HashHex (S10_NetworkPassphrase s) (VR_Transaction result) = Ok jti /\
    hs256_sign (JM_secret (S10_JWTManager s)) (token_claims issuer jti result) = Ok token.

(** The nonce was there and had not expired, and is used up. *)
Definition nonce_used w w' : Prop :=
  lookup_nonce nonce (nonces w') = None /\
  exists row t, lookup_nonce nonce (nonces w) = Some row /\ (env_now t <= Nonce_ExpiresAt row)%Z /\
    w_clock w <= t <= w_clock w'.

Lemma nonces_put x w : conn_get (w_db (put_part x w)) = x.
Proof using CL. apply conn_get_set. Qed.

Lemma consume_ok w w' :
  NonceStore_Consume nonce w = (Ok true, w') -> nonce_used w w'.
Proof using Hothers CL.
  unfold NonceStore_Consume. destruct (nonce =? ""); [done|]. intros H.
  apply mbind_ok in H as (expiry & w1 & Hc%map_errM_ok%map_errM_ok & H).
  apply db_stmt_ok in Hc as (cx & x & [= He Hx] & ->). destruct expiry as [expiry|]; [|by injection H].
  apply mbind_ok in H as (now & w2 & Hask & H). injection Hask as <- <-. injection H as Hnow <-.
  apply negb_true_iff, Z.ltb_ge in Hnow.
  destruct (lookup_nonce nonce (conn_get (w_db (settle w)))) as [row|] eqn:Hrow; [|done]. injection He as <-.
  pose proof (kept_settle w) as [_ Hk].
  assert (Hgone : lookup_nonce nonce (nonces (put_part x (settle w))) = None).
  { unfold nonces. rewrite (nonces_put x (settle w)), <- Hx. clear Hrow Hk Hnow.
    destruct (lookup_nonce _ _) as [row'|] eqn:Hr; [|done]. destruct (conn_get (w_db (settle w))) as [l]. by apply consumed_gone in Hr as [_ ?]. }
  split.
  - destruct (kept_settle (put_part x (settle w))) as [_ Hk2].
    destruct (lookup_nonce _ (nonces (settle (put_part _ _)))) as [row'|]; [|done].
    pose proof (Hk2 row' eq_refl). congruence.
  - exists row, (w_clock (put_part x (settle w))). split_and!; [by apply Hk|done|..].
    + cbn. rewrite settle_clock. lia.
    + rewrite settle_clock. lia.
Qed.

Lemma used_before w0 w w1 w' : kept w0 w -> nonce_used w w1 -> kept w1 w' -> nonce_used w0 w'.
Proof using Type.
  intros [Hc Hk] (Hgone & row & t & Hr & Ht & Hw) [Hc' Hk']. split.
  - destruct (lookup_nonce _ (nonces w')) as [row'|]; [|done]. pose proof (Hk' row' eq_refl). congruence.
  - exists row, t. split_and!; [by apply Hk|done|lia|lia].
Qed.

Lemma finish_ok result token w w' :
  VR_Nonce result = nonce -> consume_and_generate s result w = (Ok token, w') ->
  nonce_used w w' /\ token_says token result.
Proof using Hothers CL.
  intros Hn H. unfold consume_and_generate in H. rewrite Hn in H. apply mbind_ok in H as (ok & w1 & Hc%map_errM_ok & H).
  destruct ok; [|done]. cbn [negb] in H. pose proof (kept_generate (VR_Transaction result) (VR_ClientAccountID result)
    (VR_HomeDomain result) (VR_Memo result) (VR_ClientDomain result) w1) as Hk. rewrite H in Hk. cbn [snd] in Hk.
  split; [by eapply used_before; [reflexivity|by apply consume_ok|]|].
  unfold generateToken in H. apply mbind_ok in H as (jti & w2 & Hj%map_errM_ok%lift_ok & H). destruct Hj as [Hj ->].
  apply map_errM_ok in H. unfold GenerateSEP10Token in H. apply map_errM_ok in H. unfold signToken, ask_res in H.
  injection H as H _. apply res_bind_ok in H as (u & _ & H%wrap_ok). by eexists _, jti.
Qed.

(** ** What a challenge that is read is like *)

Definition challenge_of (ctx : Context_) (now : Z) (result : ChallengeValidationResult) : Prop :=
  let tx := VR_Transaction result in
  Ch_SourceAccount tx = server_address s /\ Ch_Sequence tx = 0%Z /\
  (Ch_MinTime tx <= now + gracePeriod)%Z /\ (now <= Ch_MaxTime tx)%Z /\
  (exists ops, Ch_Operations tx =
     ManageData (VR_ClientAccountID result) (VR_HomeDomain result +:+ " auth") (VR_Nonce result) :: ops) /\
  VR_HomeDomain result ∈ getAllowedHomeDomains s ctx /\
  challenge_memo (Ch_Memo tx) = Ok (VR_Memo result) /\
  (ClientAttributionRequired s = true -> exists key value,
     ManageData key "client_domain" value ∈ Ch_Operations tx /\ VR_ClientDomain result = value) /\
  has_signed (S10_NetworkPassphrase s) (server_address s) tx.

Lemma subsequent_ok server domain i ops found v :
  subsequent server domain i ops found = Ok (Some v) ->
  found = Some v \/ exists key, ManageData key "client_domain" v ∈ ops.
Proof using Type.
  revert i found. induction ops as [|[source name value|] ops IH]; intros i found H; cbn [subsequent] in H; [left; congruence| |done].
  case_match; [done|]. apply res_bind_ok in H as (found' & Hf & H).
  destruct (IH _ _ H) as [->|(key & Hin)]; [|right; exists key; by right].
  destruct (name =? "web_auth_domain"); [repeat (case_match; [done|]); left; congruence|].
  destruct (eqb_spec name "client_domain") as [->|_].
  - apply res_bind_ok in Hf as (u & _ & Hf). injection Hf as <-. right. exists source. by left.
  - case_match; [done|]. left. congruence.
Qed.

Lemma read_ok ctx now tx result :
  validateChallengeTx (ClientAttributionRequired s) now tx (server_address s) (S10_NetworkPassphrase s)
    (GetWebAuthDomain ctx (S10_BaseURL s)) (getAllowedHomeDomains s ctx) = Ok result ->
  VR_Transaction result = tx /\ challenge_of ctx now result.
Proof using Type.
  unfold validateChallengeTx. intros H.
  destruct (eqb_spec (Ch_SourceAccount tx) (server_address s)) as [Hsource|]; [|done].
  destruct (Z.eqb_spec (Ch_Sequence tx) 0) as [Hseq|]; [|done].
  destruct (Z.eqb_spec (Ch_MaxTime tx) TimeoutInfinite); [done|].
  destruct (Z.ltb_spec (now + gracePeriod) (Ch_MinTime tx)); [done|].
  destruct (Z.ltb_spec (Ch_MaxTime tx) now); [done|]. cbn [negb orb] in H.
  destruct (Ch_Operations tx) as [|[account name value|] ops] eqn:Hops; [done| |done].
  case_match; [done|]. destruct (first_such _ _) as [home|] eqn:Hhome; [|done]. case_match; [done|].
  apply first_such_some in Hhome as [Hin Hname%String.eqb_eq].
  apply res_bind_ok in H as (memo & Hmemo & H). apply res_bind_ok in H as ([] & _ & H).
  apply res_bind_ok in H as (domain & Hdomain & H). destruct (_ && bool_decide _) eqn:Hattr; [done|].
  apply res_bind_ok in H as ([] & Hsig%wrap_ok & H). injection H as <-. split; [done|].
  unfold challenge_of. cbn. rewrite Hops, Hname. split_and!; try done; try lia; [by eexists| |by eapply verifySignature_ok].
  intros Hreq. rewrite Hreq in Hattr. apply bool_decide_eq_false in Hattr. destruct domain as [v|]; [|done].
  destruct (subsequent_ok _ _ _ _ _ _ Hdomain) as [|(key & Hk)]; [done|]. exists key, v. split; [by right|done].
Qed.

Lemma custom_ok ctx text result w w' :
  validateChallengeCustom s text (server_address s) (S10_NetworkPassphrase s) (GetWebAuthDomain ctx (S10_BaseURL s))
    (getAllowedHomeDomains s ctx) w = (Ok result, w') ->
  TransactionFromXDR text = Ok (Some (VR_Transaction result)) /\ VR_Nonce result = nonce_of text /\
  exists t, w_clock w <= t <= w_clock w' /\ challenge_of ctx (env_now t / Second) result.
Proof using Type.
  unfold validateChallengeCustom. intros H. apply mbind_ok in H as (decoded & w1 & Hd%map_errM_ok%lift_ok & H).
  destruct Hd as [_ ->]. apply mbind_ok in H as (parsed & w2 & Hp%map_errM_ok%lift_ok & H). destruct Hp as [Hp ->].
  destruct parsed as [tx|]; [|done]. apply mbind_ok in H as (now & w3 & Hask & H). injection Hask as <- <-.
  apply lift_ok in H as [H ->]. destruct (read_ok _ _ _ _ H) as [Htx Hc]. pose proof Hc as (_ & _ & _ & _ & (ops & Ho) & _).
  rewrite Htx in *. split_and!; [done|unfold nonce_of; by rewrite Hp, Ho|].
  exists (w_clock w). rewrite settle_clock. split; [lia|done].
Qed.

(** ** The theorems *)

Definition client_signed (result : ChallengeValidationResult) : Prop :=
  let tx := VR_Transaction result in
  let network := S10_NetworkPassphrase s in
  (VR_ClientDomain result <> "" -> exists w key,
     fst ((fetchSigningKeyFromClientDomain s (VR_ClientDomain result) : M string) w) = Ok key /\ has_signed network key tx) /\
  ((exists w e, fst ((fetchAccountFromHorizon s (VR_ClientAccountID result) : M SignedAccount) w) = Err e /\
      horizon_StatusCode e = Some 404%Z /\ has_signed network (VR_ClientAccountID result) tx /\
      List.length (Ch_Signatures tx) = if VR_ClientDomain result =? "" then 2 else 3) \/
   (exists w account, fst ((fetchAccountFromHorizon s (VR_ClientAccountID result) : M SignedAccount) w) = Ok account /\
      signed_by_weight network account tx)).

Lemma nonexistent_ok result w w' :
  verifySignaturesForNonExistentAccount s (VR_Transaction result) (VR_ClientAccountID result) (VR_ClientDomain result) w
    = (Ok tt, w') ->
  has_signed (S10_NetworkPassphrase s) (VR_ClientAccountID result) (VR_Transaction result) /\
  List.length (Ch_Signatures (VR_Transaction result)) = (if VR_ClientDomain result =? "" then 2 else 3) /\
  exists w1, verify_client_domain s (VR_Transaction result) (VR_ClientDomain result)
    "verifying client domain signature for non-existent account" w1 = (Ok tt, w').
Proof using Type.
  unfold verifySignaturesForNonExistentAccount. intros H. destruct (Nat.eqb_spec (List.length (Ch_Signatures (VR_Transaction result)))
    (if VR_ClientDomain result =? "" then 2 else 3)) as [Hl|]; [|done]. cbn [negb] in H.
  apply mbind_ok in H as ([] & w1 & Hs%map_errM_ok%lift_ok & H). destruct Hs as [Hs ->].
  split_and!; [by eapply verifySignature_ok|done|by exists w].
Qed.

(** The steps of a validation that answers. *)
Lemma validate_inv ctx text token w w' (Hrun : ValidateChallenge s ctx text w = (Ok token, w')) :
  exists result w1 answer w2 w3,
    validateChallengeCustom s text (server_address s) (S10_NetworkPassphrase s) (GetWebAuthDomain ctx (S10_BaseURL s))
      (getAllowedHomeDomains s ctx) w = (Ok result, w1) /\
    fetchAccountFromHorizon s (VR_ClientAccountID result) w1 = (answer, w2) /\
    match answer with
    | Ok account => verifySignaturesWithThreshold s (VR_Transaction result) (VR_ClientDomain result) account w2 = (Ok tt, w3)
    | Err e => horizon_StatusCode e = Some 404%Z /\ verifySignaturesForNonExistentAccount s (VR_Transaction result)
                 (VR_ClientAccountID result) (VR_ClientDomain result) w2 = (Ok tt, w3)
    end /\
    consume_and_generate s result w3 = (Ok token, w').
Proof using Type.
  unfold ValidateChallenge in Hrun. apply mbind_ok in Hrun as (result & w1 & Hread%map_errM_ok & Hrun).
  apply mbind_ok in Hrun as (fetched & w2 & Hfetch & Hrun).
  unfold try_ in Hfetch. destruct (fetchAccountFromHorizon _ _ _) as [answer w2'] eqn:Ha. injection Hfetch as <- <-.
  destruct answer as [account|e].
  - apply mbind_ok in Hrun as ([] & w3 & Hv & Hrun). by exists result, w1, (Ok account), w2', w3.
  - case_bool_decide as He; [|done]. apply mbind_ok in Hrun as ([] & w3 & Hv & Hrun).
    by exists result, w1, (Err e), w2', w3.
Qed.

Lemma signed_ok result answer w1 w2 w3 :
  fetchAccountFromHorizon s (VR_ClientAccountID result) w1 = (answer, w2) ->
  match answer with
  | Ok account => verifySignaturesWithThreshold s (VR_Transaction result) (VR_ClientDomain result) account w2 = (Ok tt, w3)
  | Err e => horizon_StatusCode e = Some 404%Z /\ verifySignaturesForNonExistentAccount s (VR_Transaction result)
               (VR_ClientAccountID result) (VR_ClientDomain result) w2 = (Ok tt, w3)
  end -> client_signed result.
Proof using Type.
  intros Ha Hv. destruct answer as [account|e].
  - unfold verifySignaturesWithThreshold in Hv. apply mbind_ok in Hv as ([] & w4 & Hd & Hv%map_errM_ok). split.
    + by eapply client_domain_ok.
    + right. exists w1, account. rewrite Ha. split; [done|]. by eapply threshold_ok.
  - destruct Hv as [He Hv]. destruct (nonexistent_ok _ _ _ Hv) as (Hsig & Hl & w4 & Hd). split.
    + by eapply client_domain_ok.
    + left. exists w1, e. by rewrite Ha.
Qed.

Lemma validation_ok ctx text token w w' (Hrun : ValidateChallenge s ctx text w = (Ok token, w')) :
  exists result t w3, TransactionFromXDR text = Ok (Some (VR_Transaction result)) /\ VR_Nonce result = nonce_of text /\
    w_clock w <= t <= w_clock w3 /\ challenge_of ctx (env_now t / Second) result /\ client_signed result /\
    kept w w3 /\ consume_and_generate s result w3 = (Ok token, w').
Proof using Hothers.
  destruct (validate_inv _ _ _ _ _ Hrun) as (result & w1 & answer & w2 & w3 & Hread & Ha & Hv & Hfin).
  pose proof (kept_custom text (server_address s) (S10_NetworkPassphrase s) (GetWebAuthDomain ctx (S10_BaseURL s))
    (getAllowedHomeDomains s ctx) w) as K1.
  pose proof (kept_account (VR_ClientAccountID result) w1) as K2. rewrite Hread in K1. rewrite Ha in K2. cbn [snd] in K1, K2.
  assert (K3 : kept w2 w3).
  { destruct answer as [account|e].
    - pose proof (kept_with_threshold (VR_Transaction result) (VR_ClientDomain result) account w2) as K. by rewrite Hv in K.
    - destruct Hv as [_ Hv]. pose proof (kept_nonexistent (VR_Transaction result) (VR_ClientAccountID result)
        (VR_ClientDomain result) w2) as K. by rewrite Hv in K. }
  destruct (custom_ok _ _ _ _ _ Hread) as (Htx & Hn & t & Ht & Hc).
  pose proof K1 as [C1 _]. pose proof K2 as [C2 _]. pose proof K3 as [C3 _].
  exists result, t, w3. split_and!; try done; [lia..|by eapply signed_ok|]. by do 2 (etransitivity; [eassumption|]).
Qed.

Lemma token_uses_nonce ctx text token w w' :
  nonce_of text = nonce -> ValidateChallenge s ctx text w = (Ok token, w') -> nonce_used w w'.
Proof using Hothers CL.
  intros Hn Hrun. destruct (validation_ok _ _ _ _ _ Hrun) as (result & t & w3 & _ & Hr & _ & _ & _ & Hk & Hfin).
  rewrite Hn in Hr. destruct (finish_ok _ _ _ _ Hr Hfin) as [Hused _]. by eapply used_before.
Qed.

(** C20: A token of SEP-10 is given only for a challenge this server signed, for one of its home
    domains and still valid, whose nonce was stored, had not expired and is used up; the
    client domain it names has signed it, and the account too when it does not exist,
    else distinct signers of the account that weigh its medium threshold.  The token is
    for that account with its memo. *)
Theorem sep10_token_is_earned ctx text token w w' (Hnonce : nonce_of text = nonce)
    (Hrun : ValidateChallenge s ctx text w = (Ok token, w')) :
  exists result t, TransactionFromXDR text = Ok (Some (VR_Transaction result)) /\ VR_Nonce result = nonce /\
    w_clock w <= t <= w_clock w' /\ challenge_of ctx (env_now t / Second) result /\
    client_signed result /\ nonce_used w w' /\ token_says token result.
Proof using Hothers CL.
  destruct (validation_ok _ _ _ _ _ Hrun) as (result & t & w3 & Htx & Hn & Ht & Hc & Hs & Hk & Hfin).
  rewrite Hnonce in Hn. destruct (finish_ok _ _ _ _ Hn Hfin) as [Hused Hsays].
  pose proof (kept_finish result w3) as Hk4. rewrite Hfin in Hk4. destruct Hk4 as [Hc4 _]. cbn [snd] in Hc4.
  exists result, t. split_and!; try done; [lia..|]. by eapply used_before.
Qed.

(** Requests with challenges, one after the other. *)
Definition validations (requests : list (Context_ * string)) : M (list (res string)) :=
  mmapM (fun request => try_ (ValidateChallenge s (fst request) (snd request))) requests.

Lemma validations_cons request requests answers w w' :
  validations (request :: requests) w = (Ok answers, w') ->
  exists answer answers' w1, ValidateChallenge s (fst request) (snd request) w = (answer, w1) /\
    kept w w1 /\ validations requests w1 = (Ok answers', w') /\ answers = answer :: answers'.
Proof using Hothers CL.
  unfold validations. cbn [mmapM]. intros H. apply mbind_ok in H as (answer & w1 & Hv & H).
  apply mbind_ok in H as (answers' & w2 & Hrest & H). injection H as <- <-.
  pose proof (kept_validate (fst request) (snd request) w) as Hk.
  unfold try_ in Hv. destruct (ValidateChallenge _ _ _ _) as [answer' w1']. injection Hv as -> ->. cbn [snd] in Hk.
  by eexists _, _, _.
Qed.

Lemma no_second_token requests answers j ctx text token w w' :
  validations requests w = (Ok answers, w') -> lookup_nonce nonce (nonces w) = None ->
  requests !! j = Some (ctx, text) -> nonce_of text = nonce -> answers !! j = Some (Ok token) -> False.
Proof using Hothers CL.
  revert answers j w. induction requests as [|request requests IH]; intros answers j w H Hgone Hj Hn Ha; [done|].
  apply validations_cons in H as (answer & answers' & w1 & Hv & [_ Hk] & H & ->). destruct j as [|j]; cbn in Hj, Ha.
  - injection Hj as ->. injection Ha as ->. cbn [fst snd] in Hv.
    destruct (token_uses_nonce ctx text token w w1 Hn Hv) as (_ & row & t & Hr & _). congruence.
  - eapply (IH answers' j w1); try done. destruct (lookup_nonce nonce (nonces w1)) as [row|]; [|done].
    by specialize (Hk row eq_refl); rewrite Hgone in Hk.
Qed.

(** C21: Of the requests with challenges of one nonce, in any order and whatever fails, at most
    one is answered with a token. *)
Theorem sep10_challenge_is_single_use requests answers i j ctx1 ctx2 text1 text2 token1 token2 w w'
    (Hrun : validations requests w = (Ok answers, w')) (Hij : i < j)
    (Hi : requests !! i = Some (ctx1, text1)) (Hj : requests !! j = Some (ctx2, text2))
    (Hni : nonce_of text1 = nonce) (Hnj : nonce_of text2 = nonce)
    (Htoken : answers !! i = Some (Ok token1)) : answers !! j <> Some (Ok token2).
Proof using Hothers CL.
  revert answers i j w Hrun Hij Hi Hj Htoken.
  induction requests as [|request requests IH]; intros answers i j w H Hij Hi Hj Ha; [done|].
  apply validations_cons in H as (answer & answers' & w1 & Hv & _ & H & ->).
  destruct j as [|j]; [lia|]. destruct i as [|i]; cbn in *.
  - injection Hi as ->. injection Ha as ->. destruct (token_uses_nonce ctx1 text1 token1 w w1 Hni Hv) as [Hgone _].
    intros Hb. by eapply no_second_token.
  - by eapply (IH answers' i j w1); try done; lia.
Qed.
End tokens.

(** ** The token at work *)

(** What is signed is read back, and is no blank text. *)
Class JwtLaws {WJ : WalletJwt} := {
  verify_signed secret claims token : hs256_sign secret claims = Ok token ->
    hs256_verify secret token = Ok claims /\ TrimSpace token <> "" }.

Section at_work.
Context {WJ : WalletJwt} {JL : JwtLaws} {CLib : ClaimsLibrary} {SDK : StellarSdk} {KP : StellarKeypairs} {CS : ChallengeSdk}
  {GU : GoUrls} {TB : TxnBuild} {CB : CryptoBytes} {HE : HorizonErrors} {R : MapRange}
  {D L Ev : Type} {E : Env D} {C : Conn D SepDb} {CL : ConnLaws D SepDb}.
Context (s : sep10Service).
Implicit Types w : World D L Ev.

(** All but the times of a token does not change. *)
Lemma Sep10_Valid_later t t' c : Sep10_Valid t c = Ok tt -> registered_Valid t' c = Ok tt -> Sep10_Valid t' c = Ok tt.
Proof using Type.
  unfold Sep10_Valid. intros H Hr. repeat (case_match; [done|]). rewrite Hr. cbn. by destruct (wrap _ (registered_Valid t c)).
Qed.

Lemma parse_signed claims token t w :
  hs256_sign (JM_secret (S10_JWTManager s)) claims = Ok token -> Sep10_Valid t claims = Ok tt ->
  registered_Valid (w_clock w) claims = Ok tt ->
  unless_expired (ParseSEP45TokenClaims (S10_JWTManager s) token) w = (Ok (Some claims), settle w) /\
  unless_expired (ParseSEP10TokenClaims (S10_JWTManager s) token) w = (Ok (Some claims), settle w).
Proof using JL.
  intros Hs Hv Hr. destruct (verify_signed _ _ _ Hs) as [Hver _].
  pose proof (Sep10_Valid_later _ _ _ Hv Hr) as Hnow.
  unfold unless_expired, ParseSEP45TokenClaims, ParseSEP10TokenClaims, parseTokenClaims, Sep45_Valid, wrapM, map_errM, ask_res,
    try_, mbind_. rewrite Hver. cbn [res_bind]. by rewrite Hnow.
Qed.

Lemma substring_long t n : String.length t <= n -> substring 0 n t = t.
Proof using Type.
  revert n. induction t as [|c t IH]; intros [|n] Hn; cbn in *; [done..|lia|]. by rewrite IH by lia.
Qed.

Lemma bearer_token token : bearer ("Bearer " +:+ token) = Some token.
Proof using Type.
  unfold bearer. assert (Hp : String.prefix "Bearer " ("Bearer " +:+ token) = true) by by destruct token.
  rewrite Hp. f_equal. change (substring 0 (7 + String.length token) token = token).
  apply (substring_long token (7 + String.length token)), Nat.le_add_l.
Qed.

(** A token of a challenge, with the claims that were checked when it was signed. *)
Lemma token_claims_ok result token w w' :
  consume_and_generate s result w = (Ok token, w') ->
  exists issuer jti t, let c := token_claims s issuer jti result in
    hs256_sign (JM_secret (S10_JWTManager s)) c = Ok token /\ Sep10_Valid t c = Ok tt.
Proof using Type.
  unfold consume_and_generate. intros H. apply mbind_ok in H as (ok & w1 & _ & H). destruct ok; [|done]. cbn [negb] in H.
  unfold generateToken in H. apply mbind_ok in H as (jti & w2 & _ & H).
  apply map_errM_ok in H. unfold GenerateSEP10Token in H. apply map_errM_ok in H. unfold signToken, ask_res in H.
  injection H as H _. apply res_bind_ok in H as ([] & Hv%wrap_ok & H%wrap_ok). by eexists _, jti, _.
Qed.

(** C23: The token a challenge is answered with opens the routes of wallets for the account and the
    memo of that challenge, with its domains, to whoever brings it before it expires. *)
Theorem sep10_token_authenticates ctx text token w w' (Hrun : ValidateChallenge s ctx text w = (Ok token, w')) :
  exists result issuer jti now, let claims := token_claims s issuer jti result in
    TransactionFromXDR text = Ok (Some (VR_Transaction result)) /\ challenge_of s ctx now result /\
    client_signed (D := D) (L := L) (Ev := Ev) s result /\
    forall w2, registered_Valid (w_clock w2) claims = Ok tt -> registered_Valid (S (w_clock w2)) claims = Ok tt ->
      IsValidContractAddress (Tok_Subject claims) = false ->
      WebAuthHeaderTokenAuthenticateMiddleware (S10_JWTManager s) ("Bearer " +:+ token) w2 =
        (Ok (mkWebAuthClaims (challenge_subject (VR_ClientAccountID result) (VR_Memo result)) (VR_ClientDomain result)
               (VR_HomeDomain result) WebAuthTokenTypeSEP10), settle (settle w2) : World D L Ev).
Proof using JL.
  destruct (validate_inv _ _ _ _ _ _ Hrun) as (result & w1 & answer & w2 & w3 & Hread & Ha & Hsig & Hfin).
  destruct (custom_ok _ _ _ _ _ _ Hread) as (Htx & _ & now & _ & Hof). pose proof (signed_ok _ _ _ _ _ _ Ha Hsig) as Hsigned. clear w2 Ha Hsig.
  destruct (token_claims_ok _ _ _ _ Hfin) as (issuer & jti & t & Hs & Hv).
  eexists result, issuer, jti, _. cbn zeta. split; [done|]. split; [exact Hof|]. split; [done|]. intros w2 H1 H2 Hc.
  destruct (parse_signed _ _ _ w2 Hs Hv H1) as [H45 _]. rewrite <- (settle_clock w2) in H2.
  destruct (parse_signed _ _ _ (settle w2) Hs Hv H2) as [_ H10].
  unfold WebAuthHeaderTokenAuthenticateMiddleware. rewrite bearer_token. change ("Bearer " +:+ token =? "") with false.
  destruct (verify_signed _ _ _ Hs) as [_ Hblank%eqb_false]. rewrite Hblank. unfold mbind_ at 1. rewrite H45.
  unfold mbind_. rewrite H10, Hc. done.
Qed.
End at_work.

(** ** Base 64 *)

Lemma base64_digits n : (0 <= n < 64)%Z ->
  base64_digit (base64_char n) = Some n /\ Ascii.eqb (base64_char n) "=" = false /\
  negb (Ascii.eqb (base64_char n) "010" || Ascii.eqb (base64_char n) "013") = true.
Proof.
  intros Hn. assert (Hall : forallb (fun k => bool_decide (base64_digit (base64_char (Z.of_nat k)) = Some (Z.of_nat k)) &&
    negb (Ascii.eqb (base64_char (Z.of_nat k)) "=") &&
    negb (Ascii.eqb (base64_char (Z.of_nat k)) "010" || Ascii.eqb (base64_char (Z.of_nat k)) "013")) (List.seq 0 64) = true)
    by (vm_compute; reflexivity).
  rewrite forallb_forall in Hall. specialize (Hall (Z.to_nat n)). rewrite Z2Nat.id in Hall by lia.
  assert (Hin : List.In (Z.to_nat n) (List.seq 0 64)) by (apply List.in_seq; lia).
  destruct (andb_prop _ _ (Hall Hin)) as [H1 H3]. apply andb_prop in H1 as [H1 H2].
  split_and!; [by apply bool_decide_eq_true in H1|by apply negb_true_iff in H2|done].
Qed.

Definition base64_text (s : string) : list ascii :=
  List.filter (fun c => negb (Ascii.eqb c "010" || Ascii.eqb c "013")) (list_ascii_of_string s).

Lemma base64_text_char n s : (0 <= n < 64)%Z -> base64_text (String (base64_char n) s) = base64_char n :: base64_text s.
Proof. intros Hn. unfold base64_text. cbn [list_ascii_of_string List.filter]. by rewrite (proj2 (proj2 (base64_digits n Hn))). Qed.

Lemma base64_digit_char n : (0 <= n < 64)%Z -> base64_digit (base64_char n) = Some n.
Proof. apply base64_digits. Qed.

Lemma base64_not_padding n : (0 <= n < 64)%Z -> Ascii.eqb (base64_char n) "=" = false.
Proof. intros Hn. apply (base64_digits n Hn). Qed.

Ltac sextets := Z.to_euclidean_division_equations; lia.

Lemma base64_round_trip bytes : Forall is_byte bytes -> base64_decode (base64_encode bytes) = Some bytes.
Proof.
  intros Hb. change (base64_quads (base64_text (base64_encode bytes)) = Some bytes).
  remember (List.length bytes) as n eqn:Hn. revert bytes Hb Hn.
  induction (lt_wf n) as [n _ IH]. intros bytes Hb Hn.
  destruct bytes as [|a [|b [|c rest]]]; [done|..]; repeat (apply Forall_cons in Hb as [? Hb]); unfold is_byte in *;
    cbn [base64_encode]; rewrite !base64_text_char by sextets.
  - change (base64_text "==") with ["="%char; "="%char]. cbn [base64_quads].
    rewrite !base64_digit_char by sextets. cbn. do 2 f_equal. sextets.
  - change (base64_text "=") with ["="%char]. cbn [base64_quads].
    rewrite !base64_digit_char by sextets. cbn [mbind option_bind].
    change (Ascii.eqb "=" "=") with true. cbn iota. rewrite base64_not_padding by sextets.
    cbn. repeat f_equal; sextets.
  - cbn [base64_quads]. rewrite !base64_digit_char by sextets. cbn [mbind option_bind].
    rewrite base64_not_padding by sextets.
    rewrite (IH (List.length rest)) by (cbn in Hn; (done || lia)). cbn. repeat f_equal; sextets.
Qed.

(** ** A challenge that is made *)

(** The documented behaviour of the SDK: what it builds, signs and reads; and random bytes
    are bytes. *)
Class ChallengeLaws {KP : StellarKeypairs} {CS : ChallengeSdk} {CB : CryptoBytes} := {
  new_challenge p tx : NewChallengeTransaction p = Ok tx ->
    tx = mkChallengeTx (TP_AccountID p) (TP_Sequence p + if TP_IncrementSequenceNum p then 1 else 0) (TP_MinTime p)
      (TP_MaxTime p) (TP_Operations p) (TP_Memo p) [];
  sign_challenge network kp tx tx' : Transaction_Sign network kp tx = Ok tx' ->
    exists hash sig, Transaction_Hash network tx = Ok hash /\ Full_Sign kp hash = Ok sig /\
      tx' = tx <| Ch_Signatures := Ch_Signatures tx ++ [sig] |>;
  hash_challenge network tx sigs : Transaction_Hash network (tx <| Ch_Signatures := sigs |>) = Transaction_Hash network tx;
  base64_challenge tx text : Transaction_Base64 tx = Ok text -> TransactionFromXDR text = Ok (Some tx);
  account_given : AddressToAccountId "" <> Ok tt;
  account_of_address address verify : keypair_ParseAddress address = Ok verify -> AddressToAccountId address = Ok tt;
  random_bytes t n l : rand_Read t n = Ok l -> List.length l = n /\ Forall is_byte l }.

Section created.
Context {WJ : WalletJwt} {CLib : ClaimsLibrary} {SDK : StellarSdk} {KP : StellarKeypairs} {KL : KeypairLaws}
  {CS : ChallengeSdk} {GU : GoUrls} {TB : TxnBuild} {CB : CryptoBytes} {CSL : ChallengeLaws} {HE : HorizonErrors}
  {D L Ev : Type} {E : Env D} {C : Conn D SepDb} {CL : ConnLaws D SepDb}.
Context (s : sep10Service) (seed : string) (Hseed : keypair_ParseFull seed = Ok (SEP10SigningKeypair s)).
Abbreviation M := (M D L Ev).
Implicit Types w : World D L Ev.

(** The domain that is asked for, or the server's own. *)
Definition home_of (req : ChallengeRequest) : string :=
  let given := TrimSpace (CR_HomeDomain req) in if given =? "" then GetBaseDomain (S10_BaseURL s) else given.

(** The challenge as it is before it is signed. *)
Definition unsigned (ctx : Context_) (req : ChallengeRequest) (nonce key : string) (memo : option Z) (now : Z) :
    ChallengeTx :=
  mkChallengeTx (server_address s) 0 (now / Second) ((now + AuthTimeout s) / Second)
    (challenge_operations s (CR_Account req) (GetWebAuthDomain ctx (S10_BaseURL s)) (home_of req)
       (TrimSpace (CR_ClientDomain req)) key nonce) (MemoID <$> memo) [].

Definition well_made (ctx : Context_) (req : ChallengeRequest) (nonce key : string) (memo : option Z) : Prop :=
  CR_Account req <> "" /\ home_of req <> "" /\ challenge_nonce nonce = Ok tt /\ (Second <= AuthTimeout s)%Z /\
  (if TrimSpace (CR_ClientDomain req) =? "" then key = "" /\ ClientAttributionRequired s = false
   else key <> "" /\ AddressToAccountId key = Ok tt) /\
  id_memo (CR_Memo req) (fun e => ChallengeValidationError ("invalid memo: " +:+ Error e)) ChallengeValidationError = Ok memo.

Lemma id_memo_ok memo parsing typed parsing' typed' id :
  id_memo memo parsing typed = Ok id -> id_memo memo parsing' typed' = Ok id.
Proof using Type. unfold id_memo. repeat case_match; naive_solver. Qed.

Lemma server_given : server_address s <> "" /\ exists verify, keypair_ParseAddress (server_address s) = Ok verify /\
  forall m sig, Full_Sign (SEP10SigningKeypair s) m = Ok sig -> verify m sig = Ok tt.
Proof using KL CSL Hseed.
  destruct (parse_own seed _ Hseed) as (verify & Hv & Hs). split.
  - intros Hempty. unfold server_address in Hempty. rewrite Hempty in Hv. by apply account_given, (account_of_address _ _ Hv).
  - exists verify. split; [done|]. intros m sig Hsig. by destruct (Hs m sig Hsig) as (_ & _ & ?).
Qed.

Lemma string_app_inj_r a b c : a +:+ c = b +:+ c -> a = b.
Proof using Type.
  intros H. apply (f_equal list_ascii_of_string) in H. rewrite !list_ascii_app in H.
  apply app_inv_tail in H. rewrite <- (string_of_list_ascii_of_string a), H. apply string_of_list_ascii_of_string.
Qed.

Lemma first_home home homes : home ∈ homes ->
  first_such (fun h => (home +:+ " auth") =? (h +:+ " auth")) homes = Some home.
Proof using Type.
  induction homes as [|h homes IH]; intros Hin; [by apply elem_of_nil in Hin|]. cbn [first_such List.find].
  destruct (String.eqb_spec (home +:+ " auth") (h +:+ " auth")) as [Heq|Hne].
  - f_equal. by apply string_app_inj_r in Heq.
  - apply elem_of_cons in Hin as [->|Hin]; [done|]. by apply IH.
Qed.

Lemma subsequent_made key clientDomain domain :
  server_address s <> "" -> (if clientDomain =? "" then key = "" else key <> "" /\ AddressToAccountId key = Ok tt) ->
  subsequent (server_address s) domain 0 (ManageData (server_address s) "web_auth_domain" domain
    :: (if key =? "" then [] else [ManageData key "client_domain" clientDomain])) None =
  Ok (if clientDomain =? "" then None else Some clientDomain).
Proof using Type.
  intros Hs Hk. apply eqb_false in Hs. cbn. rewrite Hs, !eqb_same. cbn. destruct (clientDomain =? "").
  - subst key. done.
  - destruct Hk as [Hk Ha]. apply eqb_false in Hk. rewrite Hk. cbn. by rewrite Hk, Ha.
Qed.

(** A challenge that was made, with more signatures, is read in its time. *)
Lemma made_is_read ctx req nonce key memo made now tx sigs :
  well_made ctx req nonce key memo -> (0 <= made)%Z -> (made <= now <= made + AuthTimeout s)%Z ->
  home_of req ∈ getAllowedHomeDomains s ctx ->
  Transaction_Sign (S10_NetworkPassphrase s) (SEP10SigningKeypair s) (unsigned ctx req nonce key memo made) = Ok tx ->
  let tx' := tx <| Ch_Signatures := Ch_Signatures tx ++ sigs |> in
  validateChallengeTx (ClientAttributionRequired s) (now / Second) tx' (server_address s) (S10_NetworkPassphrase s)
    (GetWebAuthDomain ctx (S10_BaseURL s)) (getAllowedHomeDomains s ctx) =
  Ok (mkValidationResult tx' (CR_Account req) (home_of req) memo (TrimSpace (CR_ClientDomain req)) nonce).
Proof using KL CSL Hseed.
  intros (Hacc & Hhome & Hnonce & Htimeout & Hkey & Hmemo) Hm Hnow Hin Hsign.
  destruct (sign_challenge _ _ _ _ Hsign) as (hash & sig & Hhash & Hsig & ->).
  destruct server_given as (Hserver & verify & Hv & Hver).
  assert (Htime : ((made + AuthTimeout s) / Second <> 0)%Z /\ (now / Second <= (made + AuthTimeout s) / Second)%Z /\
    (made / Second <= now / Second)%Z).
  { unfold Second in *. split_and!; [|apply Z.div_le_mono; lia..].
    pose proof (Z.div_le_mono 1000000000 (made + AuthTimeout s) 1000000000 ltac:(lia) ltac:(lia)).
    rewrite Z.div_same in * by lia. lia. }
  destruct Htime as (Hmax & Hle & Hge). cbn zeta. unfold validateChallengeTx, unsigned. cbn [Ch_SourceAccount Ch_Sequence
    Ch_MinTime Ch_MaxTime Ch_Operations Ch_Memo set_field]. cbn -[subsequent].
  rewrite eqb_same. cbn [negb]. rewrite (proj2 (Z.eqb_neq _ TimeoutInfinite) Hmax).
  rewrite (proj2 (Z.ltb_ge (now / Second + gracePeriod) (made / Second))) by (unfold gracePeriod; lia).
  rewrite (proj2 (Z.ltb_ge ((made + AuthTimeout s) / Second) (now / Second))) by lia. cbn [orb].
  apply eqb_false in Hacc. rewrite Hacc, (first_home _ _ Hin). apply eqb_false in Hhome. rewrite Hhome.
  set (tx2 := mkChallengeTx _ _ _ _ _ _ (sig :: sigs)).
  assert (Hm' : challenge_memo (MemoID <$> memo) = Ok memo) by by destruct memo.
  assert (Hsv : verifySignature tx2 (S10_NetworkPassphrase s) (server_address s) "server" = Ok tt).
  { unfold verifySignature. change tx2 with ((unsigned ctx req nonce key memo made) <| Ch_Signatures := sig :: sigs |>).
    rewrite hash_challenge, Hhash, Hv. cbn. by rewrite (Hver hash sig Hsig). }
  rewrite Hm', Hnonce, Hsv. cbn [res_bind wrap res_map_err].
  rewrite (subsequent_made _ (TrimSpace (CR_ClientDomain req)) _ Hserver)
    by (destruct (TrimSpace _ =? _); [exact (proj1 Hkey)|exact Hkey]). cbn [res_bind].
  destruct (TrimSpace (CR_ClientDomain req) =? "") eqn:Hcd; cbn.
  - destruct Hkey as [_ ->]. apply String.eqb_eq in Hcd. by rewrite Hcd.
  - by rewrite andb_false_r.
Qed.

(** Nobody else writes nonces. *)
Context (Hcalm : forall t (d : D), conn_get (env_interfere t d) = (conn_get d : SepDb)).

Definition same_nonces w w' : Prop := nonces w' = nonces w /\ w_clock w <= w_clock w'.

#[local] Instance same_nonces_preorder : PreOrder same_nonces.
Proof using Type. split; [by intros w|]. intros w1 w2 w3 [H1 C1] [H2 C2]. split; [congruence|lia]. Qed.

Lemma same_settle w : same_nonces w (settle w).
Proof using Hcalm.
  split; [|rewrite settle_clock; lia]. unfold nonces, settle. cbn zeta. case_bool_decide; [apply Hcalm|done].
Qed.

Lemma same_ask_res {A} (f : nat -> res A) : respects same_nonces (ask_res f : M A).
Proof using Hcalm. intros w. apply same_settle. Qed.

Lemma same_fetch clientDomain : respects same_nonces (fetchSigningKeyFromClientDomain s clientDomain : M string).
Proof using Hcalm.
  unfold fetchSigningKeyFromClientDomain. apply respects_bind; [apply _| |intros key].
  - apply respects_wrap, respects_bind; [apply _|apply respects_try, same_ask_res|].
    intros [key|e]; [apply respects_ret, _|]. case_match; [apply same_ask_res|apply respects_throw, _].
  - repeat case_match; (apply respects_throw || apply respects_ret); apply _.
Qed.

Lemma fetch_ok clientDomain key w w' :
  fetchSigningKeyFromClientDomain s clientDomain w = (Ok key, w') -> key <> "" /\ AddressToAccountId key = Ok tt.
Proof using CSL.
  unfold fetchSigningKeyFromClientDomain. intros H. apply mbind_ok in H as (key' & w1 & _ & H).
  destruct (eqb_spec key' "") as [|Hne]; [done|]. destruct (keypair_ParseAddress key') as [verify|e] eqn:Hv; [|done].
  injection H as <- _. split; [done|]. by eapply account_of_address.
Qed.

Lemma store_ok nonce w w' :
  NonceStore_Store (nonceTTL s) nonce w = (Ok tt, w') ->
  exists t created, sep_nonces (nonces w') = sep_nonces (nonces w) ++ [mkSEPNonce nonce (env_now t + nonceTTL s) created] /\
    w_clock w <= t <= w_clock w' /\ w_clock w <= w_clock w'.
Proof using Hcalm CL.
  unfold NonceStore_Store. intros H. destruct (nonce =? ""); [done|].
  apply mbind_ok in H as (now & w1 & Hask & H%map_errM_ok%map_errM_ok). injection Hask as <- <-.
  apply db_stmt_ok in H as (cx & x & Hx & ->). destruct (lookup_nonce _ _); [done|]. injection Hx as <-.
  exists (w_clock w), (NOW cx). unfold nonces at 1. rewrite nonces_put. cbn [sep_nonces set_field].
  destruct (same_settle w) as [E1 C1], (same_settle (settle w)) as [E2 C2]. unfold nonces in *. cbn. rewrite E2, E1.
  split; [done|]. rewrite !settle_clock in *. lia.
Qed.

(** The challenge, its signature and its nonce. *)
Definition made_at (ctx : Context_) (req : ChallengeRequest) (tx : ChallengeTx) (nonce key : string) (memo : option Z)
    (t : nat) : Prop :=
  well_made ctx req nonce key memo /\
  Transaction_Sign (S10_NetworkPassphrase s) (SEP10SigningKeypair s) (unsigned ctx req nonce key memo (env_now t)) = Ok tx.

Definition nonce_stored (nonce : string) w w' : Prop :=
  exists t created, sep_nonces (nonces w') = sep_nonces (nonces w) ++ [mkSEPNonce nonce (env_now t + nonceTTL s) created] /\
    w_clock w <= t <= w_clock w'.

Lemma build_ok ctx req key memo tx w w' :
  CR_Account req <> "" -> home_of req <> "" ->
  (if TrimSpace (CR_ClientDomain req) =? "" then key = "" /\ ClientAttributionRequired s = false
   else key <> "" /\ AddressToAccountId key = Ok tt) ->
  id_memo (CR_Memo req) (fun e => ChallengeValidationError ("invalid memo: " +:+ Error e)) ChallengeValidationError = Ok memo ->
  buildChallengeTx s (CR_Account req) (GetWebAuthDomain ctx (S10_BaseURL s)) (home_of req) (TrimSpace (CR_ClientDomain req))
    key memo w = (Ok tx, w') ->
  exists nonce t, made_at ctx req tx nonce key memo t /\ w_clock w <= t <= w_clock w' /\ nonce_stored nonce w w'.
Proof using Hcalm CL CSL.
  intros Hacc Hhome Hkey Hmemo H. unfold buildChallengeTx in H. destruct (Z.ltb_spec (AuthTimeout s) Second); [done|].
  apply mbind_ok in H as (bytes & w1 & Hrand%map_errM_ok & H). injection Hrand as Hrand <-.
  destruct (random_bytes _ _ _ Hrand) as [Hlen Hbytes]. set (nonce := base64_encode bytes) in *.
  destruct (Nat.eqb_spec (String.length nonce) 64) as [Hl|]; [|done]. cbn [negb] in H.
  case_match; [done|]. case_match; [done|].
  apply mbind_ok in H as ([] & w2 & Hstore%map_errM_ok & H).
  destruct (store_ok _ _ _ Hstore) as (t & created & Hs & Ht & Hc).
  apply mbind_ok in H as (now & w3 & Hask & H). injection Hask as <- <-.
  apply mbind_ok in H as (tx0 & w4 & Hnew%map_errM_ok%lift_ok & H). destruct Hnew as [Hnew ->].
  apply map_errM_ok, lift_ok in H as [Hsign ->]. apply new_challenge in Hnew. subst tx0.
  destruct (same_settle w) as [E1 C1], (same_settle w2) as [E2 C2].
  exists nonce, (w_clock w2). split_and!; [split; [|exact Hsign]|lia|lia|].
  - split_and!; try done. unfold challenge_nonce. rewrite Hl. cbn. unfold nonce. by rewrite base64_round_trip, Hlen.
  - exists t, created. rewrite E2, Hs, E1. split; [done|lia].
Qed.

Lemma create_ok ctx req text network w w' :
  CreateChallenge s ctx req w = (Ok (text, network), w') ->
  network = S10_NetworkPassphrase s /\
  exists tx nonce key memo t, TransactionFromXDR text = Ok (Some tx) /\ made_at ctx req tx nonce key memo t /\
    w_clock w <= t <= w_clock w' /\ nonce_stored nonce w w'.
Proof using Hcalm CL CSL.
  unfold CreateChallenge. fold (home_of req). intros H. destruct (_ && _) eqn:Hattr; [done|].
  destruct (eqb_spec (home_of req) "") as [|Hhome]; [done|]. case_match; [done|].
  destruct (is_ok (AddressToAccountId (CR_Account req))) eqn:Hacc; [|done]. cbn [negb] in H.
  apply mbind_ok in H as (key & w1 & Hk & H). apply mbind_ok in H as (memo & w2 & Hm%lift_ok & H). destruct Hm as [Hm ->].
  apply mbind_ok in H as (tx & w3 & Hb%map_errM_ok & H). apply mbind_ok in H as (text' & w4 & Ht%map_errM_ok%lift_ok & H).
  destruct Ht as [Ht ->]. injection H as <- <- <-. split; [done|].
  assert (Hkey : same_nonces w w1 /\ if TrimSpace (CR_ClientDomain req) =? "" then key = "" /\ ClientAttributionRequired s = false
     else key <> "" /\ AddressToAccountId key = Ok tt).
  { destruct (TrimSpace (CR_ClientDomain req) =? "").
    - injection Hk as <- <-. rewrite andb_true_r in Hattr. by split.
    - pose proof (same_fetch (TrimSpace (CR_ClientDomain req)) w) as Hs. apply map_errM_ok in Hk. rewrite Hk in Hs.
      split; [done|]. by eapply fetch_ok. }
  destruct Hkey as [[Hs Hc] Hkey].
  assert (Hgiven : CR_Account req <> "").
  { intros Hempty. rewrite Hempty in Hacc. pose proof account_given as Hno. by destruct (AddressToAccountId "") as [[]|]. }
  destruct (build_ok _ _ _ _ _ _ _ Hgiven Hhome Hkey Hm Hb) as (nonce & t & Hmade & Hclock & (t' & created & Hn & Ht')).
  exists tx, nonce, key, memo, t. split_and!; [by apply base64_challenge|done|lia|lia|].
  exists t', created. rewrite Hn, Hs. split; [done|lia].
Qed.

(** C22: A challenge that is created for a home domain that is spelled as one of those the
    server allows stores a fresh nonce for its time, while nobody else writes the nonces,
    and is read back within its fifteen minutes, whatever signatures were added to it, as
    a challenge for the account, memo, home domain and client domain it was made for,
    with that nonce.  For another spelling, or a subdomain, it is created and can not be
    read back ([challenge_of_subdomain_is_refused]). *)
Theorem created_challenge_is_read ctx req text network w w' (Hepoch : forall t, (0 <= env_now t)%Z)
    (Hhome : home_of req ∈ getAllowedHomeDomains s ctx)
    (Hrun : CreateChallenge s ctx req w = (Ok (text, network), w')) :
  network = S10_NetworkPassphrase s /\
  exists tx nonce key memo t, TransactionFromXDR text = Ok (Some tx) /\ w_clock w <= t <= w_clock w' /\
    nonce_stored nonce w w' /\ id_memo (CR_Memo req) (EWrap "invalid memo") ENew = Ok memo /\
    (TrimSpace (CR_ClientDomain req) <> "" -> ManageData key "client_domain" (TrimSpace (CR_ClientDomain req)) ∈ Ch_Operations tx) /\
    forall sigs signed w2, let tx' := tx <| Ch_Signatures := Ch_Signatures tx ++ sigs |> in
      TransactionFromXDR signed = Ok (Some tx') -> is_ok (ValidateAndDecodeBase64XDR signed DefaultMaxXDRDecodedSize) = true ->
      (env_now t <= env_now (w_clock w2) <= env_now t + AuthTimeout s)%Z ->
      fst (validateChallengeCustom s signed (server_address s) (S10_NetworkPassphrase s) (GetWebAuthDomain ctx (S10_BaseURL s))
        (getAllowedHomeDomains s ctx) w2 : res ChallengeValidationResult * World D L Ev) =
      Ok (mkValidationResult tx' (CR_Account req) (home_of req) memo (TrimSpace (CR_ClientDomain req)) nonce).
Proof using Hcalm Hseed CL CSL KL.
  destruct (create_ok _ _ _ _ _ _ Hrun) as (-> & tx & nonce & key & memo & t & Htx & [Hmade Hsign] & Ht & Hstored).
  split; [done|]. exists tx, nonce, key, memo, t. destruct (sign_challenge _ _ _ _ Hsign) as (hash & sig & _ & _ & Htx').
  pose proof Hmade as (_ & _ & _ & _ & Hkey & Hmemo). split_and!; try done; try lia.
  - by eapply id_memo_ok.
  - intros Hcd. apply eqb_false in Hcd. rewrite Hcd in Hkey. destruct Hkey as [Hk _]. apply eqb_false in Hk.
    rewrite Htx'. cbn. rewrite Hk. apply list_elem_of_In. cbn. auto.
  - intros sigs signed w2 tx' Hs Hdec Hnow. unfold validateChallengeCustom, mbind_, wrapM, map_errM, lift.
    destruct (ValidateAndDecodeBase64XDR signed _) as [decoded|]; [|done]. cbn. rewrite Hs. cbn.
    eapply made_is_read; [exact Hmade|apply Hepoch|exact Hnow|exact Hhome|exact Hsign].
Qed.
End created.

(** ** Witness *)

(** Keys that sign by copying, transactions written as numbers, and a Horizon that knows two
    accounts: of one signer and a threshold of one, and as accounts are when they are made. *)
Module SepWitness.
#[export] Instance urls : GoUrls := Signing.urls.
#[export] Instance sdk : StellarSdk := Calm.sdk.
#[export] Instance txnbuild : TxnBuild := Handlers.Toy.txnbuild.

Definition address_seed (address : string) : option string :=
  match address with String "G"%char seed => Some seed | _ => None end.
Definition sign (seed m : string) : list Z := 1%Z :: string_bytes (seed +:+ m).

#[export] Instance keys : StellarKeypairs :=
  {| Full := string; keypair_ParseFull := Ok; Full_Address seed := String "G" seed; Full_Sign seed m := Ok (sign seed m);
     keypair_ParseAddress address :=
       match address_seed address with
       | Some seed => Ok (fun m sig => guard_err (negb (bool_decide (sig = sign seed m))) (EExternal "signature verification failed"))
       | None => Err (EExternal "base32 decode failed")
       end |}.

#[export] Instance key_laws : KeypairLaws.
Proof.
  constructor. intros seed kp [= <-]. eexists. split; [reflexivity|]. intros m sig [= <-]. split; [done|]. split.
  - constructor; [by unfold is_byte|]. induction (seed +:+ m) as [|c t IH]; constructor; [|done].
    pose proof (nat_ascii_bounded c). unfold is_byte, code. lia.
  - by rewrite bool_decide_eq_true_2.
Qed.

(** Transactions as trees. *)
Abbreviation tree := (gen_tree (string + Z)).
Definition bytes_tree (bytes : list Z) : tree := GenNode 0 (map (fun z => GenLeaf (inr z)) bytes).
Definition tree_bytes (t : tree) : list Z :=
  match t with GenNode _ l => map (fun x => match x with GenLeaf (inr z) => z | _ => 0%Z end) l | _ => [] end.
Definition op_tree (op : ChallengeOp) : tree :=
  match op with
  | ManageData a n v => GenNode 1 [GenLeaf (inl a); GenLeaf (inl n); GenLeaf (inl v)]
  | OtherOperation => GenNode 2 []
  end.
Definition tree_op (t : tree) : ChallengeOp :=
  match t with GenNode 1 [GenLeaf (inl a); GenLeaf (inl n); GenLeaf (inl v)] => ManageData a n v | _ => OtherOperation end.
Definition memo_tree (memo : option Memo) : tree :=
  match memo with
  | None => GenNode 0 []
  | Some (MemoID i) => GenLeaf (inr i)
  | Some (MemoText t) => GenLeaf (inl t)
  | Some (MemoHash l) => GenNode 1 [bytes_tree l]
  | Some (MemoReturn l) => GenNode 2 [bytes_tree l]
  end.
Definition tree_memo (t : tree) : option Memo :=
  match t with
  | GenLeaf (inr i) => Some (MemoID i)
  | GenLeaf (inl t) => Some (MemoText t)
  | GenNode 1 [l] => Some (MemoHash (tree_bytes l))
  | GenNode 2 [l] => Some (MemoReturn (tree_bytes l))
  | _ => None
  end.
Definition tx_tree (x : ChallengeTx) : tree :=
  GenNode 0 [GenLeaf (inl (Ch_SourceAccount x)); GenLeaf (inr (Ch_Sequence x)); GenLeaf (inr (Ch_MinTime x));
    GenLeaf (inr (Ch_MaxTime x)); GenNode 0 (map op_tree (Ch_Operations x)); memo_tree (Ch_Memo x);
    GenNode 0 (map bytes_tree (Ch_Signatures x))].
Definition tree_tx (t : tree) : option ChallengeTx :=
  match t with
  | GenNode 0 [GenLeaf (inl a); GenLeaf (inr b); GenLeaf (inr c); GenLeaf (inr d); GenNode 0 ops; memo; GenNode 0 sigs] =>
    Some (mkChallengeTx a b c d (map tree_op ops) (tree_memo memo) (map tree_bytes sigs))
  | _ => None
  end.

Lemma map_back {A B} (f : A -> B) (g : B -> A) l : (forall x, g (f x) = x) -> map g (map f l) = l.
Proof. intros H. rewrite map_map. rewrite <- (map_id l) at 2. by apply map_ext. Qed.

Lemma tree_bytes_tree l : tree_bytes (bytes_tree l) = l.
Proof. by apply map_back. Qed.

Lemma tree_tx_tree x : tree_tx (tx_tree x) = Some x.
Proof.
  destruct x as [a b c d ops memo sigs]. cbn -[tree_bytes bytes_tree].
  rewrite (map_back op_tree tree_op), (map_back bytes_tree tree_bytes); [|apply tree_bytes_tree|by intros []].
  assert (Hm : tree_memo (memo_tree memo) = memo).
  { destruct memo as [[]|]; cbn -[tree_bytes bytes_tree]; by rewrite ?tree_bytes_tree. }
  by rewrite Hm.
Qed.

Definition written (tx : ChallengeTx) : string := Platform.bits (encode (tx_tree tx)).

(** The nonce stands for the hash. *)
Definition digest (network : string) (tx : ChallengeTx) : string :=
  match Ch_Operations tx with ManageData _ _ nonce :: _ => network +:+ nonce | _ => network end.

#[export] Instance challenges : ChallengeSdk :=
  {| TransactionFromXDR text := match decode (Platform.unbits text) ≫= tree_tx with
       | Some tx => if written tx =? text then Ok (Some tx) else Err (EExternal "xdr")
       | None => Err (EExternal "xdr") end;
     Transaction_Base64 tx := Ok (written tx);
     Transaction_Hash network tx := Ok (digest network tx);
     Transaction_HashHex network tx := Ok "hash";
     NewChallengeTransaction p := Ok (mkChallengeTx (TP_AccountID p) (TP_Sequence p + if TP_IncrementSequenceNum p then 1 else 0)
       (TP_MinTime p) (TP_MaxTime p) (TP_Operations p) (TP_Memo p) []);
     Transaction_Sign network kp tx :=
       Ok (tx <| Ch_Signatures := Ch_Signatures tx ++ [sign kp (digest network tx)] |>);
     AddressToAccountId a := match address_seed a with Some _ => Ok tt | None => Err (EExternal "base32 decode failed") end;
     GetStellarToml _ _ domain := Ok (String "G" domain);
     AccountDetail _ account :=
       if account =? "GNEW" then Err (EExternal "404")
       else Ok (mkSignedAccount (if account =? "GDEFAULT" then 0 else 1) [(account, 1%Z)]) |}.

#[export] Instance random : CryptoBytes := {| rand_Read t n := Ok (repeat (Z.of_nat t mod 256)%Z n) |}.

#[export] Instance challenge_laws : ChallengeLaws.
Proof.
  constructor.
  - by intros p tx [= <-].
  - intros network kp tx tx' [= <-]. by eexists _, _.
  - done.
  - intros tx text [= <-]. cbn. unfold written. rewrite Platform.unbits_bits, decode_encode. cbn [mbind option_bind].
    rewrite tree_tx_tree. unfold written. by rewrite eqb_same.
  - done.
  - intros address verify. cbn. by destruct (address_seed address).
  - intros t n l [= <-]. rewrite repeat_length. split; [done|]. apply Forall_forall. intros x Hx%list_elem_of_In%repeat_spec.
    subst x. unfold is_byte. apply Z.mod_pos_bound. lia.
Qed.

#[export] Instance horizon_errors : HorizonErrors :=
  {| horizon_StatusCode e := if HasSuffix (Error e) "404" then Some 404%Z else None |}.

(** Tokens are their secret and their claims. *)
Definition times_tree (t : option Z) : tree := match t with Some z => GenLeaf (inr z) | None => GenNode 0 [] end.
Definition tree_times (t : tree) : option Z := match t with GenLeaf (inr z) => Some z | _ => None end.
Definition claims_tree (secret : string) (c : TokenClaims) : tree :=
  GenNode 0 [GenLeaf (inl secret); GenLeaf (inl (Tok_Issuer c)); GenLeaf (inl (Tok_Subject c)); GenLeaf (inl (Tok_ID c));
    times_tree (Tok_IssuedAt c); times_tree (Tok_ExpiresAt c); GenLeaf (inl (Tok_ClientDomain c));
    GenLeaf (inl (Tok_HomeDomain c));
    GenNode 0 (map (fun '(k, v) => GenNode 1 [GenLeaf (inl k); GenLeaf (inl v)]) (map_to_list (Tok_Data c)))].
Definition tree_claims (secret : string) (t : tree) : option TokenClaims :=
  match t with
  | GenNode 0 [GenLeaf (inl secret'); GenLeaf (inl a); GenLeaf (inl b); GenLeaf (inl c); d; e; GenLeaf (inl f); GenLeaf (inl g);
      GenNode 0 l] =>
    if secret' =? secret then Some (mkTokenClaims a b c (tree_times d) (tree_times e) f g (list_to_map (map (fun x => match x with
        | GenNode 1 [GenLeaf (inl k); GenLeaf (inl v)] => (k, v) | _ => ("", "") end) l)))
    else None
  | _ => None
  end.

#[export] Instance jwt : WalletJwt :=
  {| hs256_sign secret c := Ok ("t" +:+ Platform.bits (encode (claims_tree secret c)));
     hs256_verify secret token := match token with
       | String "t"%char text => match decode (Platform.unbits text) ≫= tree_claims secret with
         | Some c => Ok c | None => Err (EExternal "signature is invalid") end
       | _ => Err (EExternal "token is malformed") end;
     registered_Valid _ _ := Ok tt |}.

Definition token_char (c : ascii) : Prop := c ∈ ["t"%char; "0"%char; "1"%char].

Lemma bits_chars p : Forall token_char (list_ascii_of_string (Platform.bits p)).
Proof. induction p as [p IH|p IH|]; cbn; [..|constructor]; (constructor; [by_computation|done]). Qed.

Lemma nothing_stripped ps c l : ps = space_runes \/ ps = map (@List.rev nat) space_runes -> token_char c ->
  strip_any ps (c :: l) = None.
Proof.
  intros Hps Hc. apply list_elem_of_In in Hc. by destruct Hps as [->| ->], Hc as [<-|[<-|[<-|[]]]].
Qed.

Lemma bits_trimmed p : TrimSpace ("t" +:+ Platform.bits p) <> "".
Proof.
  unfold TrimSpace. change (list_ascii_of_string ("t" +:+ Platform.bits p)) with ("t"%char :: list_ascii_of_string (Platform.bits p)).
  rewrite (trim_front_none space_runes) by (apply nothing_stripped; [by left|by_computation]).
  pose proof (bits_chars p) as Hall. set (l := list_ascii_of_string _) in *.
  assert (Hrev : Forall token_char (List.rev ("t"%char :: l))).
  { apply List.Forall_rev. constructor; [by_computation|done]. }
  assert (Hne : List.rev ("t"%char :: l) <> []) by (cbn; by destruct (List.rev l)).
  destruct (List.rev ("t"%char :: l)) as [|c l'] eqn:Hl; [done|]. apply Forall_cons in Hrev as [Hc _].
  rewrite trim_front_none by (apply nothing_stripped; [by right|done]). rewrite <- Hl, List.rev_involutive. done.
Qed.

#[export] Instance jwt_laws : JwtLaws.
Proof.
  constructor. intros secret c token [= <-]. split; [|apply bits_trimmed]. cbn [hs256_verify jwt].
  change ("t" +:+ Platform.bits (encode (claims_tree secret c))) with (String "t" (Platform.bits (encode (claims_tree secret c)))).
  cbn iota. rewrite Platform.unbits_bits, decode_encode. cbn [mbind option_bind]. destruct c as [a b c d e f g data].
  cbn. rewrite eqb_same, map_back by by intros []. rewrite list_to_map_to_list. by destruct d, e.
Qed.
#[export] Instance claims : ClaimsLibrary := {| RegisteredClaims_Valid _ _ := Ok tt; IsDNSName _ := true |}.
#[export] Instance google : GoogleUuid := {| uuid_valid _ := true; uuid_NewString t := "v" +:+ itoa (Z.of_nat t) |}.
#[export] Instance ranges : MapRange.
Proof. by refine {| range_order := fun A _ l => l |}. Defined.

#[export] Instance env : Env SepDb :=
  {| env_fault _ := NoFault; env_interfere _ d := d; env_now t := (Z.of_nat t * Second)%Z; env_locked _ _ := false |}.
#[export] Instance conn : Conn SepDb SepDb := {| conn_id := 0; conn_get d := d; conn_set d _ := d |}.
#[export] Instance conn_laws : ConnLaws SepDb SepDb.
Proof. by constructor. Qed.

Definition service : sep10Service :=
  mkSep10Service "SERVER" (mkJWTManager "a secret of wallets" 15000) true "test" "sdp.example" (2 * 60 * Minute)
    DefaultSEP10AuthTimeout false false DefaultSEP10NonceExpiration.

Definition start : World SepDb unit unit := mkWorld (mkSepDb []) 0 ∅ tt [].
Definition request (account home : string) : ChallengeRequest := mkChallengeRequest account "7" home "".
Definition created (account home : string) : res (string * string) * World SepDb unit unit :=
  CreateChallenge service None (request account home) start.

(** The text of a challenge, with the signatures of others. *)
Definition signed_by (seeds : list string) (text : string) : string :=
  match TransactionFromXDR text with
  | Ok (Some tx) => written (tx <| Ch_Signatures := Ch_Signatures tx ++ map (fun seed => sign seed (digest "test" tx)) seeds |>)
  | _ => ""
  end.
Definition challenge (account home : string) : string := match fst (created account home) with Ok (text, _) => text | Err _ => "" end.
Definition answer (account home : string) (seeds : list string) : res string * World SepDb unit unit :=
  ValidateChallenge service None (signed_by seeds (challenge account home)) (snd (created account home)).

Definition token (account home : string) (seeds : list string) : string :=
  match fst (answer account home seeds) with Ok token => token | Err _ => "" end.

(** Whom the token of an answer is for. *)
Definition subject (account home : string) (seeds : list string) : option string :=
  match fst (answer account home seeds) with
  | Ok token => match hs256_verify (JM_secret (S10_JWTManager service)) token with Ok c => Some (Tok_Subject c) | Err _ => None end
  | Err _ => None
  end.
End SepWitness.
Import SepWitness.

Lemma sep10_token_is_earned_witness :
  exists token, fst (answer "GCLIENT" "" ["CLIENT"]) = Ok token /\ exists result,
    client_signed (D := SepDb) (L := unit) (Ev := unit) service result /\ VR_ClientAccountID result = "GCLIENT" /\
    VR_Memo result = Some 7%Z.
Proof.
  set (w := snd (created "GCLIENT" "")). set (text := signed_by ["CLIENT"] (challenge "GCLIENT" "")).
  exists (token "GCLIENT" "" ["CLIENT"]). split; [vm_compute; reflexivity|].
  destruct (sep10_token_is_earned (E := env) (C := conn) service (nonce_of text) (fun _ _ _ H => H) None text
    (token "GCLIENT" "" ["CLIENT"]) w
    (snd (ValidateChallenge service None text w)) eq_refl) as (result & t & Htx & _ & _ & Hc & Hs & _);
    [vm_compute; reflexivity|].
  exists result. split; [exact Hs|]. destruct Hc as (_ & _ & _ & _ & (ops & Hops) & _ & Hm & _).
  remember (VR_Transaction result) as tx eqn:Hr. clear Hr Hs. vm_compute in Htx. injection Htx as <-.
  cbn in Hops, Hm. split; congruence.
Defined.

Lemma sep10_token_authenticates_witness :
  exists token, fst (answer "GCLIENT" "" ["CLIENT"]) = Ok token /\
    exists wa, fst (WebAuthHeaderTokenAuthenticateMiddleware (S10_JWTManager service) ("Bearer " +:+ token) start) = Ok wa /\
      WA_TokenType wa = WebAuthTokenTypeSEP10.
Proof.
  set (w := snd (created "GCLIENT" "")). set (text := signed_by ["CLIENT"] (challenge "GCLIENT" "")).
  exists (token "GCLIENT" "" ["CLIENT"]). split; [vm_compute; reflexivity|].
  destruct (sep10_token_authenticates (E := env) (C := conn) service None text (token "GCLIENT" "" ["CLIENT"]) w
    (snd (ValidateChallenge service None text w))) as (result & issuer & jti & now & Htx & Hc & _ & H); [vm_compute; reflexivity|].
  destruct Hc as (_ & _ & _ & _ & (ops & Hops) & _ & Hm & _). exists (mkWebAuthClaims (challenge_subject (VR_ClientAccountID result)
    (VR_Memo result)) (VR_ClientDomain result) (VR_HomeDomain result) WebAuthTokenTypeSEP10).
  split; [|reflexivity]. rewrite (H start eq_refl eq_refl); [reflexivity|].
  remember (VR_Transaction result) as tx eqn:Hr. clear Hr H. vm_compute in Htx. injection Htx as <-. cbn in Hops, Hm.
  injection Hops as Ha _ _ _. injection Hm as Hm. cbn [Tok_Subject token_claims]. rewrite <- Ha, <- Hm. reflexivity.
Defined.

Lemma sep10_challenge_is_single_use_witness :
  let text := signed_by ["CLIENT"] (challenge "GCLIENT" "") in
  exists answers token, fst (validations service [(None, text); (None, text)] (snd (created "GCLIENT" ""))) = Ok answers /\
    answers !! 0 = Some (Ok token) /\ answers !! 1 <> Some (Ok token).
Proof.
  set (w := snd (created "GCLIENT" "")). set (text := signed_by ["CLIENT"] (challenge "GCLIENT" "")).
  set (runs := validations service [(None, text); (None, text)] w).
  exists (match fst runs with Ok answers => answers | Err _ => [] end), (token "GCLIENT" "" ["CLIENT"]).
  split; [vm_compute; reflexivity|]. split; [vm_compute; reflexivity|].
  apply (sep10_challenge_is_single_use (E := env) (C := conn) service (nonce_of text) (fun _ _ _ H => H)
    [(None, text); (None, text)] _ 0 1 None None text text (token "GCLIENT" "" ["CLIENT"]) (token "GCLIENT" "" ["CLIENT"]) w (snd (validations service [(None, text); (None, text)] w)));
    [vm_compute; reflexivity|lia|vm_compute; reflexivity..].
Defined.

Lemma created_challenge_is_read_witness :
  exists text, fst (created "GCLIENT" "") = Ok (text, "test") /\
    exists tx, TransactionFromXDR text = Ok (Some tx) /\ Ch_Memo tx = Some (MemoID 7).
Proof.
  eexists. split; [vm_compute; reflexivity|].
  destruct (created_challenge_is_read (E := env) (C := conn) service "SERVER" eq_refl (fun _ _ => eq_refl) None (request "GCLIENT" "")
    (challenge "GCLIENT" "") "test" start (snd (created "GCLIENT" "")))
    as (_ & tx & nonce & key & memo & t & Htx & _); [intros t; cbn; unfold Second; lia|by_computation|vm_compute; reflexivity|].
  exists tx. split; [exact Htx|]. vm_compute in Htx. injection Htx as <-. reflexivity.
Defined.

(** An account as it is when it is made has thresholds of zero: its signatures need not weigh
    anything, so the challenge is answered with a token for it as it was sent, signed by
    the server alone. *)
Example unsigned_challenge_earns_token : subject "GDEFAULT" "" [] = Some "GDEFAULT:7".
Proof. vm_compute. reflexivity. Qed.

Example signature_is_needed_elsewhere :
  subject "GCLIENT" "" [] = None /\ subject "GCLIENT" "" ["CLIENT"] = Some "GCLIENT:7" /\
  subject "GNEW" "" [] = None /\ subject "GNEW" "" ["NEW"] = Some "GNEW:7".
Proof. vm_compute. auto. Qed.

(** A challenge is made for any subdomain of the server's, and read for its own domain and the
    tenant's only. *)
Example challenge_of_subdomain_is_refused :
  is_ok (fst (created "GCLIENT" "red.sdp.example")) = true /\ is_ok (fst (answer "GCLIENT" "red.sdp.example" ["CLIENT"])) = false.
Proof. vm_compute. auto. Qed.

(** The account that a deposit names replaces the one that has asked, and its memo: a client
    of a shared account, with the memo 7, that names the account is invited without it. *)
Example named_account_loses_memo :
  let manager := S10_JWTManager service in
  exists token, hs256_sign (JM_secret manager)
    (mkTokenClaims "" "GCLIENT" "v0" None (Some (16 * Second)%Z) "" "sdp.example" ∅) = Ok token /\
  fst (PostDepositInteractive manager "https://sdp.example"
    (Some (mkWebAuthClaims "GCLIENT:7" "" "sdp.example" WebAuthTokenTypeSEP10))
    (Ok (mkSEP24DepositRequest "USDC" "GCLIENT" "")) start) =
  Ok ("https://sdp.example/wallet-registration/start?transaction_id=v0&token=" +:+ token +:+ "&lang=en", "v0").
Proof. eexists. split; vm_compute; reflexivity. Qed.
